(* ===== verification/_CoqProject ===== *)
-Q . S2P
Prelude.v
PyStr.v
PySort.v
ParamValidation.v
Dates.v
Schema.v
Columns.v
PathSafety.v
LogSafety.v
Phone.v
Atomicity.v
Ledger.v
Fixtures.v
Reservation.v
ReservationProofs.v
ReservationTheorems.v
ItemStatus.v
FulfillmentLock.v
ReliefRequest.v
ReliefRequestProofs.v
Dispatch.v
DispatchTheorems.v
BatchAllocation.v
BatchAllocationProofs.v
Packaging.v
PackagingProofs.v
Coverage.v
AllocationProofs.v
CoverageProofs.v
CoverageTheorems.v
AllocationTheorems.v
DonationIntake.v
DonationIntakeProofs.v
DonationVerifyProofs.v
DonationIntakeTheorems.v
AccessControl.v
AccessControlProofs.v
Donations.v
DonationsProofs.v
DonationEffects.v
DonationLifecycle.v
DonationTheorems.v
RequestRoutes.v
RequestRoutesProofs.v
RequestEffects.v
RequestRouteTheorems.v
RequestPages.v
Web.v
AccountRequests.v
AccountRequestsProofs.v
UserAdmin.v
UserAdminTheorems.v
PackagingQueues.v
PackagingQueuesProofs.v
Catalogue.v
CatalogueForms.v
CatalogueScreens.v
CatalogueLists.v
CatalogueProofs.v
CatalogueSpec.v
CatalogueCalls.v
CatalogueEffects.v
CatalogueTheorems.v
UrlSafety.v
Notifications.v
NotificationsTheorems.v
Sessions.v
SessionsTheorems.v
Clock.v
SafeApi.v
OriginCheck.v
Currency.v
DonationLists.v
AuditLog.v
Dashboards.v
BatchCreation.v
InventoryPages.v
Beneficiaries.v
StatusLabels.v
StagingMigration.v
