(* ===== verification/Prelude.v ===== *)
(** DMIS: a verification of the relief-request, packaging and inventory core of
    the disaster-management information system under src/app/.

    * The program

    Agencies file relief requests for items (app/services/relief_request_service.py);
    directors decide on their eligibility; logistics officers prepare a package for
    an accepted request by choosing stock batches (app/features/packaging.py, helped
    by app/services/batch_allocation_service.py and item_status_service.py);
    managers review, edit and dispatch it (app/services/dispatch_service.py).  While
    a package is prepared its quantities are reserved
    (app/services/inventory_reservation_service.py): each [itembatch] row has a
    usable and a reserved quantity, and the [inventory] row of the same item and
    warehouse carries their sums.  A lock keeps two officers from preparing one
    request (app/services/fulfillment_lock_service.py).  Stock comes from donations,
    entered and verified (app/features/donations.py) and then taken in at warehouses
    (app/features/donation_intake.py).  Routes check the session's user
    (app/core/rbac.py, app/core/feature_registry.py) and the fields of their forms
    (app/security/param_validation.py) before they call a service.

    * How it is modelled

    The database is the record [Schema.DB], a finite map per table
    (app/db/models.py); [Schema.Session] pairs the committed database with the work
    of the current transaction.  A service or request handler is a program of the
    monad [Prelude.M] over the session: it returns a value, or leaves early with an
    error, and in both cases the writes made so far stay in the session until a
    rollback.  A Python exception and a [return False, message] are both early
    exits, with an error type per service.  Quantities ([Decimal] with at most four
    places) are integers counting ten-thousandths.  The order in which SQL returns
    the rows of an unordered query, and in which Python walks a set, is a field of
    the class [Schema.Runtime]: every theorem holds for all orders.  What the
    environment supplies (user, clock, generated keys, the parsed form) is an
    argument.  Loops are structural recursions over lists, so every definition
    evaluates; the one loop that is not ([PathSafety.while_loop]) has fuel, and its
    theorem shows that the length of the name is enough.

    * Files

    - [Prelude]: the monad, triples, run lemmas, sums, dictionaries, reachability.
    - [PyStr]: Python string operations.
    - [Schema], [Ledger]: tables, session, runtime; queries on batches and
      inventory, totals, and the loop and rewriting lemmas all services share.
    - [Reservation], [ReservationProofs], [ReservationTheorems]: the reservation
      service; each operation against its specification ([reserve_spec],
      [release_spec], [commit_spec], [cancel_spec]: a rewriting of batch rows
      followed by a recomputation of inventory rows), then what the specifications
      promise of the ledger.
    - [ItemStatus]: the statuses an allocation allows.
    - [FulfillmentLock]: the lock: who gets it, who is refused, and when it changes
      hands.
    - [ReliefRequest], [ReliefRequestProofs]: the request service and its status
      machine as a step relation; what holds of its reachable states with the
      constraints of the table is in [RequestRouteTheorems].
    - [Dispatch], [DispatchTheorems]: workflow C.
    - [BatchAllocation], [BatchAllocationProofs]: FEFO/FIFO/LIFO selection, the
      drawer, validation, priority groups.
    - [Packaging], [PackagingProofs]: the packaging requests, and that each is all
      or nothing.
    - [Coverage], [AllocationProofs], [AllocationTheorems], [CoverageProofs],
      [CoverageTheorems]: what [_process_allocations] writes, and the invariant
      that the stock reserved is the stock the packages in preparation take: the
      requests that keep it, and exactly what the three that break it do instead.
    - [Atomicity]: the rules for requests that store nothing when they fail.
    - [DonationIntake], [DonationIntakeProofs], [DonationVerifyProofs],
      [DonationIntakeTheorems]: donations taken into stock: entry and verification
      (app/features/donation_intake.py).
    - [PySort]: sorting by a key, stable as in Python; [ParamValidation]: form fields
      and their conversion (app/security/param_validation.py).
    - [AccessControl], [AccessControlProofs]: the session's user, role checks, route
      guards and the feature registry (app/core/session_utils.py, rbac.py,
      feature_registry.py, decorators.py).
    - [Columns]: what the column types accept and store.
    - [Donations], [DonationsProofs], [DonationEffects], [DonationLifecycle],
      [DonationTheorems]: donations entered, edited and verified
      (app/features/donations.py), and their life together with the intakes and with
      whatever else edits the items, which may or may not keep their categories.
    - [RequestRoutes], [RequestRoutesProofs], [RequestEffects],
      [RequestRouteTheorems]: the routes of a relief request with their guards
      (app/features/requests_aidmgmt.py, eligibility.py, create_request_on_behalf of
      packaging.py): each call has one of the effects of [effect], from which follow
      who changes what, the soundness of the tables and the way to a decision; and
      what a request carries in each status along the calls of the service.
    - [RequestPages]: the list, details and review queue of requests.
    - [PathSafety]: file names and paths (app/security/safe_path.py);
      [LogSafety]: log texts, the query-string gate and removed headers
      (app/security/log_sanitizer.py, query_string_protection.py,
      header_sanitization.py); [Phone]: phone numbers (app/core/phone_utils.py).
    - [Web]: a handler that commits once, over any tables; [AccountRequests],
      [AccountRequestsProofs]: requests of agencies for an account
      (app/features/account_requests.py), their life cycle and its audit log.
    - [UserAdmin], [UserAdminTheorems]: users with their roles and
      warehouses (app/features/user_admin.py, load_user of drims_app.py): what an edit
      stores, and that no sequence of calls by users who are not administrators
      makes one.
    - [PackagingQueues], [PackagingQueuesProofs]: the queues of officers, managers and
      clerks with their tabs and badges, and the handover of a package (the pages of
      app/features/packaging.py).
    - [Dates]: calendar dates as the forms write them.  [Catalogue]: the master tables
      (units, categories, items, custodians, warehouses, agencies, donors, events) and
      what a flush or a delete does to them; [CatalogueForms], [CatalogueScreens]: the
      validators and the routes that write (uom.py, item_categories.py, items.py,
      custodians.py, warehouses.py, agencies.py, donors.py, events.py of app/features);
      [CatalogueLists]: their lists and pages.  [CatalogueProofs]: the changes that
      keep the tables sound; [CatalogueSpec], [CatalogueCalls]:
      each call stores the one write it asks for, or nothing; [CatalogueEffects],
      [CatalogueTheorems]: what follows for any sequence of calls, and the life of an
      event.
    - [UrlSafety]: redirects that stay on the site (app/security/url_safety.py).
    - [Notifications], [NotificationsTheorems]: notifications
      written to users and their inbox (notification_service.py of app/services,
      app/features/notifications.py).
    - [Sessions], [SessionsTheorems]: login, logout and the change
      of a password (drims_app.py, app/features/profile.py), with the hash of a
      password as a parameter.
    - [SafeApi]: the client of external services: its allow-list of
      domains, its retries, and the validation and cleaning of an answer
      (app/security/safe_api_client.py); [OriginCheck]: the check of Origin and
      Referer (app/security/csrf_validation.py); [AuditLog]: audit records
      (app/security/audit_logger.py).
    - [Clock]: times of Jamaica (app/utils/timezone.py); [StatusLabels]: labels and
      badges of status codes (app/core/status.py).
    - [Currency]: stored exchange rates and conversions with the
      arithmetic of decimals (app/services/currency_service.py).
    - [DonationLists]: the lists of donations and intakes and the choices of a new
      intake; [BatchCreation]: batches made while goods come in
      (app/services/batch_creation_service.py).
    - [Dashboards]: the dashboards of requests, widgets, numbers and actions
      (app/features/dashboard.py, odpem_director.py, app/services/dashboard_service.py);
      [InventoryPages]: the inventory list and the stock check
      (app/features/inventory.py).
    - [Beneficiaries]: beneficiaries of the last mile
      (app/features/beneficiaries.py) over the table of the migrations, with the edit
      page (templates/beneficiaries/edit.html, static/js/phone-mask.js); what a browser
      sends of a text is a parameter that keeps texts of one line.
    - [StagingMigration]: the migration of staged movements
      (scripts/migrate_staging_to_transaction.py), run directly or as a SQL file, and
      what a second run does.
    - [Fixtures]: the small databases the witnesses evaluate.

    * What the theorems show

    Refinement: a service call succeeds exactly under its stated precondition and
    then produces the specified database, for every order of rows and sets.
    Invariants: batches stay within their stock, inventory rows stay the sums of
    their batches, reservations stay what the packages hold, requests stay in the
    states their fields allow; each along any sequence of the calls concerned.
    Errors: a failing request leaves the stored data alone.  Types: rows keep the
    widths, roundings and constraints of their tables.  Authority: who can change a
    request, a donation, an account request, a user or a row of the catalogue, and
    in which state.  Liveness: every draft of a request
    can be brought to a decision.  Equivalence: the guards by role and by feature
    agree.  Bounds and round trips: a request to an external service is sent a
    bounded number of times, parameters stay within their bounds, numbers written into
    a page come back, the edit page of a beneficiary gives back all of a row but what its
    selects and its phone script change, a stored rate is the one that is read, releasing undoes reserving.  Safety of texts: no
    path leaves its directory, no logged value starts a new line.  Where the code does less than its documentation says, the
    theorem states what it does and the witness shows the consequence on a concrete
    database.

    * Not modelled

    The charts and totals of the dashboards and the printed reports
    (app/features/dashboard.py from the officer's dashboard on,
    operations_dashboard.py, reports.py), which only add up rows; transfers and the
    intake of aid (app/features/transfers.py, intake_aidmgmt.py), whose handlers read
    attributes the models do not have; the import scripts; response
    headers, rate limits and the start of the application (app/security/csp.py,
    cors_config.py, cache_control.py, rate_limiting.py, error_handling.py, settings.py).
    Database errors and their retries, row locks; uploaded files; message texts;
    templates.  CHECK constraints, foreign keys, column widths and the rounding to
    two places are modelled where a route stores a donation, a relief request or a
    line of one, an account request, a user or a row of the catalogue, and left out in the stock
    services; the
    version counter of SQLAlchemy is a parameter of the donation routes ([dc_updates]), part of the catalogue, and left
    out elsewhere.  The
    theorems speak of one request at a time: interleavings of requests are
    sequences of committed requests, plus the race of two lock inserts, which is a
    parameter of [FulfillmentLock.insert_lock]. *)
From stdpp Require Export base gmap strings list fin_maps sorting.
From Stdlib Require Export ZArith Lia.

Open Scope Z_scope.

(** * Notations and hint databases *)

Declare Scope dmis_scope.
Delimit Scope dmis_scope with dmis.
Open Scope dmis_scope.

Create HintDb dmis.
Create HintDb triple.
Create Rewrite HintDb dmis_rw.

(** * The state-and-error monad of the request handlers

    A handler reads and writes the database session and either returns a value
    or leaves early: a Python exception, or a [return False, message] of a
    service.  The writes made before an early exit stay in the session until
    somebody rolls it back, so the state is returned on both exits. *)

Definition M (S E A : Type) : Type := S → S * (E + A).

Section monad.
Context {S E : Type}.

Definition m_ret {A} (a : A) : M S E A := λ s, (s, inr a).

Definition m_bind {A B} (f : A → M S E B) (m : M S E A) : M S E B := λ s,
  match m s with
  | (s', inl e) => (s', inl e)
  | (s', inr a) => f a s'
  end.

(** [raise e] / [return False, e]. *)
Definition m_fail {A} (e : E) : M S E A := λ s, (s, inl e).
Definition m_get : M S E S := λ s, (s, inr s).
Definition m_put (s' : S) : M S E unit := λ _, (s', inr tt).
Definition m_modify (f : S → S) : M S E unit := λ s, (f s, inr tt).
Definition m_gets {A} (f : S → A) : M S E A := λ s, (s, inr (f s)).

(** [if cond: return False, e]. *)
Definition m_fail_if (b : bool) (e : E) : M S E unit :=
  if b then m_fail e else m_ret tt.

(** [x = query.first(); if not x: fail e]. *)
Definition m_some {A} (o : option A) (e : E) : M S E A :=
  match o with Some a => m_ret a | None => m_fail e end.

(** A Python [for] loop whose body may leave the function. *)
Fixpoint m_for {A} (l : list A) (body : A → M S E unit) : M S E unit :=
  match l with
  | [] => m_ret tt
  | a :: l' => m_bind (λ _, m_for l' body) (body a)
  end.

(** A [for] loop that threads a local variable. *)
Fixpoint m_fold {A B} (l : list A) (b : B) (body : B → A → M S E B) : M S E B :=
  match l with
  | [] => m_ret b
  | a :: l' => m_bind (λ b', m_fold l' b' body) (body b a)
  end.

Definition run_ok {A} (m : M S E A) (s : S) (a : A) (s' : S) : Prop :=
  m s = (s', inr a).
End monad.

#[export] Instance M_ret S E : MRet (M S E) := λ A a, m_ret a.
#[export] Instance M_bind S E : MBind (M S E) := λ A B f m, m_bind f m.

(** [success, msg = service(...)]: the caller inspects the outcome. *)
Definition m_try {S E E' A} (m : M S E A) : M S E' (E + A) := λ s,
  let '(s', r) := m s in (s', inr r).

(** * Specifications of monadic code

    [triple P m Q X]: from a state in [P], a normal exit is in [Q] and an early
    exit is in [X].  Every loop theorem of the library goes through
    [triple_for]. *)

Definition triple {S E A} (P : S → Prop) (m : M S E A)
    (Q : A → S → Prop) (X : E → S → Prop) : Prop :=
  ∀ s, P s → match m s with
             | (s', inr a) => Q a s'
             | (s', inl e) => X e s'
             end.

Section triple.
Context {S E : Type}.
Implicit Types P : S → Prop.

Lemma triple_ret {A} P (a : A) (Q : A → S → Prop) (X : E → S → Prop) :
  (∀ s, P s → Q a s) → triple P (mret a) Q X.
Proof. intros H s Hs. apply (H s Hs). Qed.

Lemma triple_fail {A} P (e : E) (Q : A → S → Prop) (X : E → S → Prop) :
  (∀ s, P s → X e s) → triple P (m_fail e) Q X.
Proof. intros H s Hs. apply (H s Hs). Qed.

Lemma triple_bind {A B} P (R : A → S → Prop) (m : M S E A) (f : A → M S E B) Q X :
  triple P m R X → (∀ a, triple (R a) (f a) Q X) → triple P (m ≫= f) Q X.
Proof.
  intros Hm Hf s Hs. specialize (Hm s Hs).
  unfold mbind, M_bind, m_bind. destruct (m s) as [s' [e|a]]; [done|].
  by apply Hf.
Qed.

Lemma triple_get P (Q : S → S → Prop) (X : E → S → Prop) :
  (∀ s, P s → Q s s) → triple P m_get Q X.
Proof. intros H s Hs. by apply H. Qed.

Lemma triple_gets {A} P (f : S → A) (Q : A → S → Prop) (X : E → S → Prop) :
  (∀ s, P s → Q (f s) s) → triple P (m_gets f) Q X.
Proof. intros H s Hs. by apply H. Qed.

Lemma triple_modify P f (Q : unit → S → Prop) (X : E → S → Prop) :
  (∀ s, P s → Q tt (f s)) → triple P (m_modify f) Q X.
Proof. intros H s Hs. by apply H. Qed.

Lemma triple_fail_if P b (e : E) (Q : unit → S → Prop) (X : E → S → Prop) :
  (∀ s, P s → b = true → X e s) → (∀ s, P s → b = false → Q tt s) →
  triple P (m_fail_if b e) Q X.
Proof. intros HX HQ s Hs. destruct b; simpl; auto. Qed.

Lemma triple_some {A} P (o : option A) (e : E) (Q : A → S → Prop) (X : E → S → Prop) :
  (∀ s, P s → o = None → X e s) → (∀ s a, P s → o = Some a → Q a s) →
  triple P (m_some o e) Q X.
Proof. intros HX HQ s Hs. destruct o; simpl; auto. Qed.

Lemma triple_conseq {A} P P' (m : M S E A) (Q Q' : A → S → Prop) (X X' : E → S → Prop) :
  triple P' m Q' X' → (∀ s, P s → P' s) → (∀ a s, Q' a s → Q a s) →
  (∀ e s, X' e s → X e s) → triple P m Q X.
Proof.
  intros Hm HP HQ HX s Hs. specialize (Hm s (HP s Hs)).
  destruct (m s) as [s' [e|a]]; auto.
Qed.

(** The loop rule: [I done todo] holds before each iteration. *)
Lemma triple_for {A} (l : list A) (body : A → M S E unit)
    (I : list A → S → Prop) (X : E → S → Prop) :
  (∀ pre a post, l = pre ++ a :: post →
     triple (I pre) (body a) (λ _ s, I (pre ++ [a]) s) X) →
  triple (I []) (m_for l body) (λ _ s, I l s) X.
Proof.
  enough (∀ pre rest, l = pre ++ rest →
    (∀ pre a post, l = pre ++ a :: post →
       triple (I pre) (body a) (λ _ s, I (pre ++ [a]) s) X) →
    triple (I pre) (m_for rest body) (λ _ s, I l s) X) as H
    by (intros Hb; by apply (H [] l)).
  intros pre rest. revert pre.
  induction rest as [|a rest IH]; intros pre -> Hb.
  - apply triple_ret. intros s. by rewrite app_nil_r.
  - apply (triple_bind _ (λ _ s, I (pre ++ [a]) s)).
    + by eapply Hb.
    + intros _. eapply triple_conseq;
        [apply (IH (pre ++ [a])) | done | done | done].
      * by rewrite <- app_assoc.
      * intros p b q Hl. by eapply Hb.
Qed.

(** An invariant that does not mention the position. *)
Lemma triple_for_inv {A} (l : list A) (body : A → M S E unit)
    (I : S → Prop) (X : E → S → Prop) :
  (∀ a, a ∈ l → triple I (body a) (λ _, I) X) →
  triple I (m_for l body) (λ _, I) X.
Proof.
  intros H. apply (triple_for l body (λ _, I)).
  intros pre a post ->. apply H. set_solver.
Qed.

Lemma triple_fold_inv {A B} (l : list A) (b : B) (body : B → A → M S E B)
    (I : S → Prop) (X : E → S → Prop) :
  (∀ b a, a ∈ l → triple I (body b a) (λ _, I) X) →
  triple I (m_fold l b body) (λ _, I) X.
Proof.
  revert b. induction l as [|a l IH]; intros b H.
  - by apply triple_ret.
  - apply (triple_bind _ (λ _, I)); [apply H; by left|].
    intros b'. apply IH. intros b0 a0 Ha. apply H. by right.
Qed.

Lemma triple_run_ok {A} P (m : M S E A) Q X s a s' :
  triple P m Q X → P s → run_ok m s a s' → Q a s'.
Proof. intros H Hs Hr. specialize (H s Hs). by rewrite Hr in H. Qed.
End triple.

(** * Reductions of monadic runs *)

Section runs.
Context {S E : Type}.

Lemma run_bind {A B} (m : M S E A) (f : A → M S E B) s :
  (m ≫= f) s = match m s with (s', inl e) => (s', inl e) | (s', inr a) => f a s' end.
Proof. done. Qed.

Lemma bind_ok {A B} (m : M S E A) (f : A → M S E B) s b s' :
  run_ok (m ≫= f) s b s' ↔ ∃ a s1, run_ok m s a s1 ∧ run_ok (f a) s1 b s'.
Proof.
  unfold run_ok. rewrite run_bind. split.
  - destruct (m s) as [s1 [e|a]]; [done|]. eauto.
  - intros (a & s1 & -> & ?). done.
Qed.

Lemma run_ok_fst {A} (m : M S E A) s a : (m s).2 = inr a → run_ok m s a (m s).1.
Proof. unfold run_ok. destruct (m s) as [s' r]. simpl. by intros ->. Qed.

Lemma seq_ok (m : M S E unit) {B} (k : M S E B) s b s' :
  run_ok (m;; k) s b s' ↔ ∃ s1, run_ok m s tt s1 ∧ run_ok k s1 b s'.
Proof. rewrite bind_ok. split; [intros ([] & ?)|intros (s1 & ?)]; eauto. Qed.

(** The steps of a handler, peeled off one at a time. *)
Lemma run_fail_if {A} b (e : E) (k : M S E A) s a s' :
  run_ok (m_fail_if b e;; k) s a s' ↔ b = false ∧ run_ok k s a s'.
Proof. unfold run_ok. rewrite run_bind. destruct b; simpl; unfold m_fail, m_ret; naive_solver. Qed.

Lemma run_some {A B} (o : option A) (e : E) (k : A → M S E B) s b s' :
  run_ok (a ← m_some o e; k a) s b s' ↔ ∃ a, o = Some a ∧ run_ok (k a) s b s'.
Proof. unfold run_ok. rewrite run_bind. destruct o; simpl; unfold m_fail, m_ret; naive_solver. Qed.

Lemma run_modify f (k : M S E unit) s s' : run_ok (m_modify f;; k) s tt s' ↔ run_ok k (f s) tt s'.
Proof. done. Qed.

Lemma for_cons {A} (a : A) l (body : A → M S E unit) s s' :
  run_ok (m_for (a :: l) body) s tt s' ↔
  ∃ s1, run_ok (body a) s tt s1 ∧ run_ok (m_for l body) s1 tt s'.
Proof.
  unfold run_ok. simpl. unfold m_bind.
  destruct (body a s) as [s1 [e|[]]]; naive_solver.
Qed.

Lemma for_nil {A} (body : A → M S E unit) s s' :
  run_ok (m_for [] body) s tt s' ↔ s' = s.
Proof. unfold run_ok. simpl. unfold m_ret. naive_solver. Qed.

Lemma fold_fmap {A B C} (h : A → B) (l : list A) (acc : C) (body : C → B → M S E C) s :
  m_fold (h <$> l) acc body s = m_fold l acc (λ acc a, body acc (h a)) s.
Proof.
  revert acc s. induction l as [|a l IH]; intros acc s; [done|]. csimpl. simpl.
  unfold m_bind. destruct (body acc (h a) s) as [s1 [e|acc1]]; [done|]. apply IH.
Qed.

Lemma for_ext {A} (l : list A) (f g : A → M S E unit) s :
  (∀ a s, a ∈ l → f a s = g a s) → m_for l f s = m_for l g s.
Proof.
  revert s. induction l as [|a l IH]; intros s H; [done|]. simpl.
  unfold m_bind. rewrite H by set_solver.
  destruct (g a s) as [s1 [e|[]]]; [done|]. apply IH. set_solver.
Qed.
End runs.

(** Unfolds the monad in a hypothesis or the goal and splits its cases. *)
Ltac unfold_m :=
  unfold mbind, M_bind, mret, M_ret, m_bind, m_ret, m_fail, m_get, m_put,
    m_modify, m_gets, m_fail_if, m_some, m_try in *.

Ltac m_cases :=
  repeat first
    [ progress simplify_eq/=
    | match goal with
      | H : context [match ?x with _ => _ end] |- _ => destruct x eqn:?
      | |- context [match ?x with _ => _ end] => destruct x eqn:?
      end ].

(** Evaluates a decidable fact about a concrete database. *)
Ltac by_decide := apply (bool_decide_unpack _); vm_compute; exact I.

(** Turns the boolean tests of the code into propositions. *)
Ltac z_bool :=
  repeat match goal with
  | H : (_ <=? _) = true |- _ => apply Z.leb_le in H
  | H : (_ <=? _) = false |- _ => apply Z.leb_gt in H
  | H : (_ <? _) = true |- _ => apply Z.ltb_lt in H
  | H : (_ <? _) = false |- _ => apply Z.ltb_ge in H
  | H : (_ >? _) = true |- _ => rewrite Z.gtb_ltb in H
  | H : (_ >? _) = false |- _ => rewrite Z.gtb_ltb in H
  | H : (_ >=? _) = true |- _ => rewrite Z.geb_leb in H
  | H : (_ >=? _) = false |- _ => rewrite Z.geb_leb in H
  | H : (_ =? _) = true |- _ => apply Z.eqb_eq in H
  | H : (_ =? _) = false |- _ => apply Z.eqb_neq in H
  | H : bool_decide _ = true |- _ => apply bool_decide_eq_true in H
  | H : bool_decide _ = false |- _ => apply bool_decide_eq_false in H
  | H : negb _ = true |- _ => apply negb_true_iff in H
  | H : negb _ = false |- _ => apply negb_false_iff in H
  | H : _ && _ = true |- _ => apply andb_true_iff in H as [? ?]
  | H : _ || _ = false |- _ => apply orb_false_iff in H as [? ?]
  end.

(** * Sums over the rows of a table *)

Section msum.
Context {K : Type} `{Countable K} {V : Type}.
Implicit Types (f g : V → Z) (m : gmap K V).

Definition msum f m : Z := map_fold (λ _ v acc, f v + acc) 0 m.

Lemma msum_empty f : msum f ∅ = 0.
Proof. apply map_fold_empty. Qed.

Lemma msum_insert_new f m k v :
  m !! k = None → msum f (<[k:=v]> m) = f v + msum f m.
Proof.
  intros Hk. unfold msum. rewrite map_fold_insert_L; [done| |done].
  intros. lia.
Qed.

Lemma msum_delete f m k v :
  m !! k = Some v → msum f m = f v + msum f (delete k m).
Proof.
  intros Hk. rewrite <- (insert_delete_id m k v Hk) at 1.
  rewrite msum_insert_new; [done|]. apply lookup_delete_eq.
Qed.

Lemma msum_insert f m k v v' :
  m !! k = Some v → msum f (<[k:=v']> m) = msum f m - f v + f v'.
Proof.
  intros Hk. rewrite <- insert_delete_eq.
  rewrite msum_insert_new by apply lookup_delete_eq.
  rewrite (msum_delete f m k v Hk). lia.
Qed.

Lemma msum_ext f g m :
  (∀ k v, m !! k = Some v → f v = g v) → msum f m = msum g m.
Proof.
  induction m as [|k v m Hk IH] using map_ind; intros Hfg; [done|].
  rewrite !msum_insert_new by done.
  rewrite (Hfg k v) by apply lookup_insert_eq.
  rewrite IH; [done|]. intros k' v' Hk'.
  apply (Hfg k'). rewrite lookup_insert_ne; [done|]. congruence.
Qed.

Lemma msum_nonneg f m :
  (∀ k v, m !! k = Some v → 0 ≤ f v) → 0 ≤ msum f m.
Proof.
  induction m as [|k v m Hk IH] using map_ind; intros Hf; [done|].
  rewrite msum_insert_new by done.
  assert (0 ≤ f v) by (apply (Hf k), lookup_insert_eq).
  assert (0 ≤ msum f m); [|lia].
  apply IH. intros k' v' Hk'.
  apply (Hf k'). rewrite lookup_insert_ne; [done|]. congruence.
Qed.

Lemma msum_le f g m :
  (∀ k v, m !! k = Some v → f v ≤ g v) → msum f m ≤ msum g m.
Proof.
  induction m as [|k v m Hk IH] using map_ind; intros Hf; [done|].
  rewrite !msum_insert_new by done.
  assert (f v ≤ g v) by (apply (Hf k), lookup_insert_eq).
  assert (msum f m ≤ msum g m); [|lia].
  apply IH. intros k' v' Hk'.
  apply (Hf k'). rewrite lookup_insert_ne; [done|]. congruence.
Qed.

Lemma msum_zero f m :
  (∀ k v, m !! k = Some v → f v = 0) → msum f m = 0.
Proof.
  intros Hf. assert (0 ≤ msum f m)
    by (apply msum_nonneg; intros k v E; by rewrite (Hf k v E)).
  assert (msum f m ≤ msum (λ _, 0) m)
    by (apply msum_le; intros k v E; by rewrite (Hf k v E)).
  assert (msum (λ _ : V, 0) m = 0); [|lia].
  clear. induction m as [|k v m Hk IH] using map_ind; [done|].
  rewrite msum_insert_new by done. lia.
Qed.

Lemma msum_fmap f (h : V → V) m : msum f (h <$> m) = msum (f ∘ h) m.
Proof.
  induction m as [|k v m Hk IH] using map_ind; [done|].
  rewrite fmap_insert, !msum_insert_new; [by rewrite IH| done |].
  by rewrite lookup_fmap, Hk.
Qed.
End msum.

(** * Sums over lists *)

Definition lsum {A} (f : A → Z) (l : list A) : Z := foldr (λ a acc, f a + acc) 0 l.

Section lsum.
Context {A : Type}.
Implicit Types (f g : A → Z) (l : list A).

Lemma lsum_app f l1 l2 : lsum f (l1 ++ l2) = lsum f l1 + lsum f l2.
Proof. induction l1 as [|a l1 IH]; simpl; [done|]. rewrite IH. lia. Qed.

Lemma lsum_cons f a l : lsum f (a :: l) = f a + lsum f l.
Proof. done. Qed.

Lemma lsum_nonneg f l : (∀ a, a ∈ l → 0 ≤ f a) → 0 ≤ lsum f l.
Proof.
  induction l as [|a l IH]; intros Hf; simpl; [done|].
  assert (0 ≤ f a) by (apply Hf; set_solver).
  assert (0 ≤ lsum f l) by (apply IH; set_solver). lia.
Qed.

Lemma lsum_ext f g l : (∀ a, a ∈ l → f a = g a) → lsum f l = lsum g l.
Proof.
  induction l as [|a l IH]; intros Hf; simpl; [done|].
  rewrite Hf, IH; set_solver.
Qed.

Lemma lsum_perm f l1 l2 : l1 ≡ₚ l2 → lsum f l1 = lsum f l2.
Proof. induction 1; simpl; lia. Qed.

#[export] Instance lsum_proper f : Proper ((≡ₚ) ==> eq) (lsum f).
Proof. intros l1 l2. apply lsum_perm. Qed.

Lemma lsum_filter f (P : A → Prop) `{∀ a, Decision (P a)} l :
  lsum f (filter P l) = lsum (λ a, if decide (P a) then f a else 0) l.
Proof.
  induction l as [|a l IH]; [done|]. rewrite filter_cons. simpl.
  case_decide; simpl; rewrite IH; lia.
Qed.
End lsum.

Lemma lsum_fmap {A B} (h : B → A) (f : A → Z) (l : list B) :
  lsum f (h <$> l) = lsum (λ b, f (h b)) l.
Proof. induction l as [|b l IH]; [done|]. csimpl. by rewrite IH. Qed.

Lemma msum_lsum {K} `{Countable K} {V} (f : V → Z) (m : gmap K V) :
  msum f m = lsum (λ kv, f kv.2) (map_to_list m).
Proof.
  induction m as [|k v m Hk IH] using map_ind.
  - by rewrite map_to_list_empty.
  - rewrite msum_insert_new, map_to_list_insert by done. simpl. by rewrite IH.
Qed.

Lemma existsb_false {A} (f : A → bool) l : existsb f l = false ↔ ∀ a, a ∈ l → f a = false.
Proof.
  induction l as [|a l IH]; simpl.
  - split; [intros _ a H; by apply elem_of_nil in H|done].
  - rewrite orb_false_iff, IH. setoid_rewrite elem_of_cons. naive_solver.
Qed.

Lemma forallb_elem {A} (f : A → bool) (l : list A) :
  forallb f l = true ↔ ∀ x, x ∈ l → f x = true.
Proof.
  induction l as [|a l IH]; simpl; [set_solver|].
  rewrite andb_true_iff, IH. setoid_rewrite elem_of_cons. naive_solver.
Qed.

Lemma negb_eqb_false a b : negb (a =? b) = false ↔ a = b.
Proof. rewrite negb_false_iff. apply Z.eqb_eq. Qed.

Lemma negb_bool_decide_false (P : Prop) `{Decision P} : negb (bool_decide P) = false ↔ P.
Proof. rewrite negb_false_iff. apply bool_decide_eq_true. Qed.

#[export] Hint Rewrite @msum_empty @lsum_app @lsum_cons : dmis_rw.
#[export] Hint Resolve triple_ret triple_fail triple_get triple_gets
  triple_modify triple_fail_if triple_some : triple.

(** * Python dictionaries: insertion-ordered association lists *)

Section dict.
Context {K V : Type} `{EqDecision K}.

Fixpoint dict_get (k : K) (d : list (K * V)) : option V :=
  match d with
  | [] => None
  | (k', v) :: d' => if decide (k = k') then Some v else dict_get k d'
  end.

(** [d[k] = v]: overwrite in place, or append. *)
Fixpoint dict_set (k : K) (v : V) (d : list (K * V)) : list (K * V) :=
  match d with
  | [] => [(k, v)]
  | (k', v') :: d' =>
      if decide (k = k') then (k', v) :: d' else (k', v') :: dict_set k v d'
  end.

Lemma dict_get_set k v (d : list (K * V)) k' :
  dict_get k' (dict_set k v d) = if decide (k' = k) then Some v else dict_get k' d.
Proof.
  induction d as [|[k0 v0] d IH]; simpl.
  - done.
  - repeat (simpl; case_decide; subst; try congruence).
Qed.

Lemma dict_set_keys k v (d : list (K * V)) k' :
  k' ∈ (dict_set k v d).*1 ↔ k' = k ∨ k' ∈ d.*1.
Proof.
  induction d as [|[k0 v0] d IH]; simpl; [set_solver|].
  case_decide; subst; simpl; rewrite !elem_of_cons; [naive_solver|].
  rewrite IH. naive_solver.
Qed.

Lemma dict_set_nodup k v (d : list (K * V)) :
  NoDup d.*1 → NoDup (dict_set k v d).*1.
Proof.
  induction d as [|[k0 v0] d IH]; simpl; intros Hd.
  - repeat constructor. set_solver.
  - apply NoDup_cons in Hd as [Hk Hd].
    case_decide; subst; simpl; constructor; auto.
    rewrite dict_set_keys. naive_solver.
Qed.

Lemma dict_get_Some k v (d : list (K * V)) :
  dict_get k d = Some v → (k, v) ∈ d.
Proof.
  induction d as [|[k0 v0] d IH]; simpl; [done|].
  case_decide; intros; simplify_eq; [by left|]. right. auto.
Qed.

Lemma dict_get_elem k v (d : list (K * V)) :
  NoDup d.*1 → (k, v) ∈ d → dict_get k d = Some v.
Proof.
  induction d as [|[k0 v0] d IH]; simpl; intros Hd Hin; [set_solver|].
  apply NoDup_cons in Hd as [Hk Hd].
  apply elem_of_cons in Hin as [Heq|Hin].
  - simplify_eq. by rewrite decide_True.
  - rewrite decide_False; [auto|]. intros ->. apply Hk.
    apply list_elem_of_fmap. by exists (k0, v).
Qed.

(** Building a dict from entries with distinct keys appends them in order. *)
Lemma foldl_dict_set {A} (t : A → bool) (key : A → K) (val : A → V) (l : list A) acc :
  NoDup (acc.*1 ++ (key <$> filter (λ a, t a = true) l)) →
  foldl (λ acc a, if t a then dict_set (key a) (val a) acc else acc) acc l =
  acc ++ ((λ a, (key a, val a)) <$> filter (λ a, t a = true) l).
Proof.
  assert (∀ k v (d : list (K * V)), k ∉ d.*1 → dict_set k v d = d ++ [(k, v)]) as Hnew.
  { intros k v d. induction d as [|[k' v'] d IH]; intros Hk; [done|]. simpl.
    csimpl in Hk. apply not_elem_of_cons in Hk as [Hk1 Hk2].
    rewrite decide_False by done. by rewrite IH. }
  revert acc. induction l as [|a l IH]; intros acc Hnd; simpl; [by rewrite app_nil_r|].
  rewrite filter_cons in *. destruct (t a) eqn:Ht; simpl in *; [|by apply IH].
  csimpl in *. rewrite IH, Hnew; [by rewrite <- app_assoc|..].
  - apply NoDup_app in Hnd as (_ & Hd & _). intros Hk. apply (Hd _ Hk). by left.
  - rewrite Hnew.
    + rewrite fmap_app. csimpl. by rewrite <- app_assoc.
    + apply NoDup_app in Hnd as (_ & Hd & _). intros Hk. apply (Hd _ Hk). by left.
Qed.

Lemma dict_get_None k (d : list (K * V)) : dict_get k d = None ↔ k ∉ d.*1.
Proof.
  induction d as [|[k0 v0] d IH]; simpl; [set_solver|].
  rewrite not_elem_of_cons. case_decide; naive_solver.
Qed.
End dict.

(** * Reachability of a step relation *)

Inductive reach {A} (step : A → A → Prop) : A → A → Prop :=
| reach_refl a : reach step a a
| reach_step a b c : step a b → reach step b c → reach step a c.

Lemma reach_inv {A} (step : A → A → Prop) (P : A → Prop) :
  (∀ a b, step a b → P a → P b) → ∀ a b, reach step a b → P a → P b.
Proof. intros H a b Hr. induction Hr; eauto. Qed.

Lemma reach_trans {A} (step : A → A → Prop) a b c :
  reach step a b → reach step b c → reach step a c.
Proof. intros H1 H2. induction H1; eauto using reach. Qed.
