(* ===== verification/PyStr.v ===== *)
(** Python's [str] methods the modelled code calls.

    A [str] is a [string] whose characters are code points below 256: ASCII and
    Latin-1, with Python's own classification of white space and case there. *)
From Stdlib Require Import Ascii String.
From S2P Require Import Prelude.

Abbreviation chars := list_ascii_of_string.
Abbreviation of_chars := string_of_list_ascii.

Definition code (c : ascii) : Z := Z.of_nat (nat_of_ascii c).
Definition chr (z : Z) : ascii := ascii_of_nat (Z.to_nat z).

(** [str.isspace] on one character. *)
Definition is_space (c : ascii) : bool :=
  let z := code c in
  (9 <=? z) && (z <=? 13) || (28 <=? z) && (z <=? 32) || (z =? 133) || (z =? 160).

Fixpoint drop_spaces (l : list ascii) : list ascii :=
  match l with
  | [] => []
  | c :: l' => if is_space c then drop_spaces l' else l
  end.

Definition rdrop_spaces (l : list ascii) : list ascii := reverse (drop_spaces (reverse l)).

(** [s.strip()]. *)
Definition strip (s : string) : string := of_chars (rdrop_spaces (drop_spaces (chars s))).

(** [not s.strip()]. *)
Definition is_blank (s : string) : bool := bool_decide (strip s = ""%string).

Definition len (s : string) : Z := Z.of_nat (String.length s).

Lemma chars_of_chars l : chars (of_chars l) = l.
Proof. apply list_ascii_of_string_of_list_ascii. Qed.

Lemma of_chars_chars s : of_chars (chars s) = s.
Proof. apply string_of_list_ascii_of_string. Qed.

Lemma chars_app s t : chars (s +:+ t) = chars s ++ chars t.
Proof. induction s as [|c s IH]; [done|]. simpl. by f_equal. Qed.

Lemma of_chars_length l : String.length (of_chars l) = List.length l.
Proof. induction l as [|c l IH]; simpl; [done|]. by rewrite IH. Qed.

Lemma length_append s t : String.length (s +:+ t) = (String.length s + String.length t)%nat.
Proof. induction s as [|c s IH]; simpl; [done|]. by rewrite IH. Qed.

Lemma drop_spaces_head l c l' : drop_spaces l = c :: l' → is_space c = false.
Proof. induction l as [|a l IH]; simpl; [done|]. destruct (is_space a) eqn:E; naive_solver. Qed.

Lemma drop_spaces_nonspace l c l' : is_space c = false → l = c :: l' → drop_spaces l = l.
Proof. intros Hc ->. simpl. by rewrite Hc. Qed.

Lemma drop_spaces_suffix l : ∃ p, l = p ++ drop_spaces l ∧ Forall (λ c, is_space c = true) p.
Proof.
  induction l as [|c l (p & Hp & Hf)]; [by exists []|]. simpl. destruct (is_space c) eqn:E.
  - exists (c :: p). split; [simpl; by rewrite <- Hp|by constructor].
  - by exists [].
Qed.

Lemma drop_spaces_idemp l : drop_spaces (drop_spaces l) = drop_spaces l.
Proof.
  destruct (drop_spaces l) as [|c l'] eqn:E; [done|]. simpl.
  by rewrite (drop_spaces_head l c l' E).
Qed.

Lemma rdrop_spaces_idemp l : rdrop_spaces (rdrop_spaces l) = rdrop_spaces l.
Proof. unfold rdrop_spaces. by rewrite reverse_involutive, drop_spaces_idemp. Qed.

(** Stripping the right end leaves a stripped left end stripped. *)
Lemma drop_rdrop l : drop_spaces l = l → drop_spaces (rdrop_spaces l) = rdrop_spaces l.
Proof.
  intros Hl. destruct (rdrop_spaces l) as [|c m] eqn:E; [done|]. simpl.
  destruct (drop_spaces_suffix (reverse l)) as (p & Hp & _).
  assert (l = rdrop_spaces l ++ reverse p) as Heq.
  { unfold rdrop_spaces. rewrite <- reverse_app, <- Hp. by rewrite reverse_involutive. }
  rewrite E in Heq. destruct l as [|a l]; [done|]. simpl in Heq. injection Heq as <- _.
  by rewrite (drop_spaces_head (a :: l) a l Hl).
Qed.

Lemma strip_idemp s : strip (strip s) = strip s.
Proof.
  unfold strip. rewrite chars_of_chars.
  rewrite (drop_rdrop (drop_spaces (chars s)) (drop_spaces_idemp _)). by rewrite rdrop_spaces_idemp.
Qed.

(** [str.upper] on one character: ASCII, the Latin-1 letters with an upper case
    below 256, and the sharp s, which becomes two letters.  The micro sign and the
    y with diaeresis have their upper case outside this alphabet: they are kept. *)
Definition upper_char (c : ascii) : list ascii :=
  let z := code c in
  if (97 <=? z) && (z <=? 122) || (224 <=? z) && (z <=? 254) && negb (z =? 247) then [chr (z - 32)]
  else if z =? 223 then [chr 83; chr 83]
  else [c].

Definition upper (s : string) : string := of_chars (chars s ≫= upper_char).

Lemma upper_char_fixed c d : d ∈ upper_char c → upper_char d = [d].
Proof.
  assert (forallb (λ n, forallb (λ d, bool_decide (upper_char d = [d])) (upper_char (ascii_of_nat n))) (seq 0 256) = true)
    as Hall by (vm_compute; reflexivity).
  rewrite forallb_elem in Hall. specialize (Hall (nat_of_ascii c)).
  rewrite ascii_nat_embedding in Hall. rewrite forallb_elem in Hall. intros Hd.
  apply (bool_decide_unpack (upper_char d = [d])). rewrite Hall; [done| |done].
  apply elem_of_seq. pose proof (nat_ascii_bounded c). lia.
Qed.

(** An upper-case string is its own upper case, and so is any part of it. *)
Lemma upper_of_fixed k : (∀ d, d ∈ k → upper_char d = [d]) → k ≫= upper_char = k.
Proof.
  induction k as [|d k IH]; intros H; [done|]. simpl. rewrite H by (by left). simpl. f_equal.
  apply IH. intros e He. apply H. by right.
Qed.

Lemma upper_idemp s : upper (upper s) = upper s.
Proof.
  unfold upper. rewrite chars_of_chars. f_equal. apply upper_of_fixed.
  intros d Hd. apply list_elem_of_bind in Hd as (c & Hd & _). by eapply upper_char_fixed.
Qed.

Lemma drop_spaces_subset l c : c ∈ drop_spaces l → c ∈ l.
Proof. induction l as [|d l IH]; [done|]. simpl. case_match; [|done]. intros Hc. right. by apply IH. Qed.

Lemma upper_strip_upper s : upper (strip (upper s)) = strip (upper s).
Proof.
  unfold upper at 1, strip. rewrite chars_of_chars. f_equal. apply upper_of_fixed. intros d Hd.
  unfold rdrop_spaces in Hd. apply elem_of_reverse, drop_spaces_subset, elem_of_reverse, drop_spaces_subset in Hd.
  unfold upper in Hd. rewrite chars_of_chars in Hd. apply list_elem_of_bind in Hd as (c & Hd & _). by eapply upper_char_fixed.
Qed.

(** Upper case keeps the spaces, so it commutes with stripping. *)
Lemma upper_char_spec c :
  reverse (upper_char c) = upper_char c ∧
  (if is_space c then upper_char c = [c] else match upper_char c with [] => False | d :: _ => is_space d = false end).
Proof.
  set (ok n := let c := ascii_of_nat n in
    bool_decide (reverse (upper_char c) = upper_char c) &&
    (if is_space c then bool_decide (upper_char c = [c])
     else match upper_char c with [] => false | d :: _ => negb (is_space d) end)).
  assert (forallb ok (seq 0 256) = true) as Hall by (vm_compute; reflexivity).
  rewrite forallb_elem in Hall. specialize (Hall (nat_of_ascii c)). subst ok. cbv beta zeta in Hall.
  rewrite ascii_nat_embedding in Hall. assert (nat_of_ascii c ∈ seq 0 256) as Hin.
  { apply elem_of_seq. pose proof (nat_ascii_bounded c). lia. }
  specialize (Hall Hin). apply andb_true_iff in Hall as [Hr Hs]. apply bool_decide_eq_true in Hr. split; [done|].
  destruct (is_space c); [by apply bool_decide_eq_true in Hs|]. destruct (upper_char c); [done|]. by apply negb_true_iff.
Qed.

Lemma drop_spaces_upper l : drop_spaces (l ≫= upper_char) = drop_spaces l ≫= upper_char.
Proof.
  induction l as [|c l IH]; [done|]. pose proof (proj2 (upper_char_spec c)) as H. simpl.
  destruct (is_space c) eqn:E; [rewrite H; simpl; by rewrite E|]. simpl. destruct (upper_char c) as [|d k]; [done|].
  simpl. by rewrite H.
Qed.

Lemma reverse_upper l : reverse (l ≫= upper_char) = reverse l ≫= upper_char.
Proof.
  induction l as [|c l IH]; [done|]. change ((c :: l) ≫= upper_char) with (upper_char c ++ (l ≫= upper_char)).
  rewrite reverse_app, reverse_cons, bind_app, IH, (proj1 (upper_char_spec c)). f_equal. simpl. by rewrite app_nil_r.
Qed.

Lemma strip_upper s : strip (upper s) = upper (strip s).
Proof.
  unfold strip, upper, rdrop_spaces. rewrite !chars_of_chars.
  by rewrite drop_spaces_upper, reverse_upper, drop_spaces_upper, reverse_upper.
Qed.

Lemma upper_empty s : upper s = ""%string ↔ s = ""%string.
Proof.
  split; [|by intros ->]. destruct s as [|c s]; [done|]. intros H. apply (f_equal chars) in H. revert H.
  unfold upper. rewrite chars_of_chars. simpl. pose proof (proj2 (upper_char_spec c)) as Hc.
  destruct (is_space c); [by rewrite Hc|]. by destruct (upper_char c).
Qed.
