(* ===== verification/PySort.v ===== *)
(** Python's [sorted]: a stable sort on tuple keys. *)
From S2P Require Import Prelude.

(** * sorted(l, key) *)

Fixpoint lex_le (x y : list Z) : bool :=
  match x, y with
  | [], _ => true
  | _ :: _, [] => false
  | a :: x', b :: y' => if a <? b then true else if b <? a then false else lex_le x' y'
  end.

Fixpoint insert_by {A} (key : A → list Z) (a : A) (l : list A) : list A :=
  match l with
  | [] => [a]
  | b :: l' => if lex_le (key a) (key b) then a :: l else b :: insert_by key a l'
  end.

Definition sorted_by {A} (key : A → list Z) (l : list A) : list A := foldr (insert_by key) [] l.

(** * The result is ordered *)

Lemma lex_le_refl x : lex_le x x = true.
Proof. induction x as [|a x IH]; [done|]. simpl. by rewrite Z.ltb_irrefl. Qed.

Lemma lex_le_total x y : lex_le x y = true ∨ lex_le y x = true.
Proof.
  revert y. induction x as [|a x IH]; intros [|b y]; simpl; auto.
  destruct (Z.ltb_spec a b); [auto|]. destruct (Z.ltb_spec b a); [auto|]. apply IH.
Qed.

Lemma lex_le_trans x y z : lex_le x y = true → lex_le y z = true → lex_le x z = true.
Proof.
  revert y z. induction x as [|a x IH]; intros [|b y] [|c z]; simpl; try done.
  repeat (match goal with |- context [?a <? ?b] => destruct (Z.ltb_spec a b) end; try done; try lia).
  apply IH.
Qed.

Section sorted.
Context {A : Type} (key : A → list Z).

Lemma insert_by_perm a l : insert_by key a l ≡ₚ a :: l.
Proof.
  induction l as [|b l IH]; [done|]. simpl. case_match; [done|]. rewrite IH. constructor.
Qed.

Lemma sorted_by_perm l : sorted_by key l ≡ₚ l.
Proof. induction l as [|a l IH]; [done|]. simpl. by rewrite insert_by_perm, IH. Qed.

Definition ordered : list A → Prop := StronglySorted (λ a b, lex_le (key a) (key b) = true).

Lemma insert_by_ordered a l : ordered l → ordered (insert_by key a l).
Proof.
  induction 1 as [|b l Hl IH Hb]; [repeat constructor|]. simpl.
  destruct (lex_le (key a) (key b)) eqn:E.
  - constructor; [by constructor|]. constructor; [done|].
    eapply Forall_impl; [exact Hb|]. intros c Hc. by eapply lex_le_trans.
  - constructor; [done|]. rewrite insert_by_perm. constructor; [|done].
    destruct (lex_le_total (key a) (key b)); congruence.
Qed.

Lemma sorted_by_ordered l : ordered (sorted_by key l).
Proof. induction l; [constructor|]. by apply insert_by_ordered. Qed.

Lemma elem_of_sorted_by a l : a ∈ sorted_by key l ↔ a ∈ l.
Proof. by rewrite sorted_by_perm. Qed.

(** Elements of one key keep their order. *)
Lemma insert_by_filter_eq a l :
  filter (λ b, key b = key a) (insert_by key a l) = a :: filter (λ b, key b = key a) l.
Proof.
  induction l as [|b l IH]; simpl; [by rewrite filter_cons, decide_True|].
  destruct (lex_le (key a) (key b)) eqn:E; [by rewrite filter_cons, decide_True|].
  rewrite !filter_cons, !decide_False by (intros Heq; by rewrite Heq, lex_le_refl in E). by rewrite IH.
Qed.

Lemma insert_by_filter_ne a k l :
  key a ≠ k → filter (λ b, key b = k) (insert_by key a l) = filter (λ b, key b = k) l.
Proof.
  intros Hne. induction l as [|b l IH]; simpl; [by rewrite filter_cons, decide_False|].
  destruct (lex_le (key a) (key b)) eqn:E; [by rewrite filter_cons, decide_False|].
  rewrite !filter_cons. by rewrite IH.
Qed.

Lemma sorted_by_stable k l : filter (λ b, key b = k) (sorted_by key l) = filter (λ b, key b = k) l.
Proof.
  induction l as [|a l IH]; [done|]. simpl. rewrite filter_cons. case_decide as Hk.
  - subst k. by rewrite insert_by_filter_eq, IH.
  - by rewrite insert_by_filter_ne.
Qed.
End sorted.
