(* ===== verification/ParamValidation.v ===== *)
(** Form fields and their validation (app/security/param_validation.py).

    A field is read by [request.form.get]: [None] when it is absent.  Integers are
    parsed here the way [int] parses a [str]; what [Decimal] and [strptime] make of
    a field is part of the form.  [safe_float] is not modelled. *)
From stdpp Require Import pretty.
From Stdlib Require Import Ascii String.
From S2P Require Import Prelude PyStr.

(** * int(s) *)

Definition is_digit (c : ascii) : bool := (48 <=? code c) && (code c <=? 57).
Definition is_underscore (c : ascii) : bool := code c =? 95.

(** Digits, with single underscores between them; [gap] says that a digit must come
    next. *)
Fixpoint digits_value (acc : Z) (gap : bool) (l : list ascii) : option Z :=
  match l with
  | [] => if gap then None else Some acc
  | c :: l' =>
      if is_digit c then digits_value (acc * 10 + (code c - 48)) false l'
      else if is_underscore c && negb gap then digits_value acc true l'
      else None
  end.

(** [sys.get_int_max_str_digits()]: longer numerals are a [ValueError]. *)
Definition MAX_STR_DIGITS : Z := 4300.

Definition digit_count (l : list ascii) : Z := Z.of_nat (List.length (filter (λ c, is_digit c = true) l)).

Definition unsigned_value (l : list ascii) : option Z :=
  if MAX_STR_DIGITS <? digit_count l then None else digits_value 0 true l.

Definition py_int (s : string) : option Z :=
  match chars (strip s) with
  | c :: l => if code c =? 45 then Z.opp <$> unsigned_value l
              else if code c =? 43 then unsigned_value l
              else unsigned_value (c :: l)
  | [] => None
  end.

(** [str] of an integer. *)
Definition py_str (z : Z) : string := pretty z.

(** * Integers with bounds *)

Definition clamp (value min_val max_val : Z) : Z := Z.max min_val (Z.min value max_val).

(** What [safe_int] makes of a field that holds an integer; [None] where it falls
    back on the default, which is not bounded. *)
Definition bounded_int (value : option string) (min_val max_val : option Z) : option Z :=
  match value ≫= py_int with
  | None => None
  | Some z =>
      let z := match min_val with Some m => Z.max z m | None => z end in
      Some (match max_val with Some m => Z.min z m | None => z end)
  end.

Definition safe_int (value : option string) (dflt : Z) (min_val max_val : option Z) : Z :=
  default dflt (bounded_int value min_val max_val).

Definition safe_page (value : option string) (dflt : Z) : Z := safe_int value dflt (Some 1) None.
Definition safe_per_page (value : option string) (dflt max_per_page : Z) : Z :=
  safe_int value dflt (Some 1) (Some max_per_page).
Definition safe_period_days (value : option string) (dflt min_days max_days : Z) : Z :=
  safe_int value dflt (Some min_days) (Some max_days).
Definition safe_loop_count (value : option string) (dflt max_count : Z) : Z :=
  safe_int value dflt (Some 0) (Some max_count).
Definition safe_id (value : option string) (dflt : Z) : Z := safe_int value dflt (Some 0) None.
Definition safe_version_number (value : option string) (dflt : Z) : Z := safe_int value dflt (Some 0) None.

(** * Allow lists *)

Definition validate_status_code (value : option string) (allowed : list string) (dflt : string) : string :=
  match value with
  | None => dflt
  | Some s => if bool_decide (strip s ∈ allowed) then strip s else dflt
  end.

(** [str.lower] on one character; every Latin-1 upper-case letter has its lower
    case in Latin-1. *)
Definition lower_char (c : ascii) : ascii :=
  let z := code c in
  if (65 <=? z) && (z <=? 90) || (192 <=? z) && (z <=? 222) && negb (z =? 215) then chr (z + 32) else c.
Definition lower (s : string) : string := of_chars (lower_char <$> chars s).

Definition validate_filter_value (value : option string) (allowed : list string) (dflt : string) : string :=
  match value with
  | None => dflt
  | Some s => if bool_decide (lower (strip s) ∈ allowed) then lower (strip s) else dflt
  end.

(** * Decimals *)

(** What [Decimal] makes of a field; infinities are not modelled. *)
Inductive NumField : Type :=
| NoField           (* the field is absent *)
| EmptyNum          (* the empty string *)
| BlankNum          (* white space only *)
| BadNum            (* not a number to [Decimal] *)
| NaNum             (* NaN, which fails every ordering comparison *)
| Num (q : Z).

Inductive DateField : Type :=
| NoDate            (* absent or empty *)
| BadDate
| OnDay (d : Z).

(** [Decimal(s) if s else Decimal('0')] followed by an ordering comparison. *)
Definition num_or_zero (f : NumField) : option Z :=
  match f with NoField | EmptyNum => Some 0 | BlankNum | BadNum | NaNum => None | Num q => Some q end.

(** [safe_decimal] with a bound; [None] is the exception a comparison with NaN
    raises, which nothing catches here. *)
Definition safe_decimal (f : NumField) (dflt min_val max_val : Z) : option Z :=
  match f with
  | NoField | EmptyNum | BlankNum | BadNum => Some dflt
  | NaNum => None
  | Num q => Some (if max_val <? (if q <? min_val then min_val else q) then max_val
                   else if q <? min_val then min_val else q)
  end.

(** The limits in ten-thousandths. *)
Definition MAX_QUANTITY : Z := 9999999999900.          (* 999999999.99 *)
Definition MAX_AMOUNT : Z := 9999999999999900.         (* 999999999999.99 *)

Definition safe_quantity (f : NumField) : option Z := safe_decimal f 0 0 MAX_QUANTITY.
Definition safe_amount (f : NumField) : option Z := safe_decimal f 0 0 MAX_AMOUNT.

(** * What the validation guarantees *)

(** whatever a request sends, a bounded integer parameter is the integer sent,
    moved to the nearest value within the bounds, or the default when no integer
    was sent; so a default within the bounds puts every result there. *)
Theorem safe_int_bounded value dflt lo hi :
  lo ≤ hi →
  let r := safe_int value dflt (Some lo) (Some hi) in
  match value ≫= py_int with
  | Some z => r = clamp z lo hi ∧ lo ≤ r ≤ hi
  | None => r = dflt
  end ∧ (lo ≤ dflt ≤ hi → lo ≤ r ≤ hi).
Proof.
  intros Hb. cbv zeta. unfold safe_int, bounded_int, clamp.
  destruct (value ≫= py_int) as [z|]; simpl; split; [split; lia|lia|done|done].
Qed.

(** * Numerals round trip *)

Lemma drop_spaces_none l : Forall (λ c, is_space c = false) l → drop_spaces l = l.
Proof. destruct 1 as [|c l Hc Hl]; [done|]. simpl. by rewrite Hc. Qed.

Lemma strip_none s : Forall (λ c, is_space c = false) (chars s) → strip s = s.
Proof.
  intros Hs. unfold strip, rdrop_spaces. rewrite (drop_spaces_none (chars s)) by done.
  rewrite drop_spaces_none by (by apply Forall_reverse).
  by rewrite reverse_involutive, of_chars_chars.
Qed.

Lemma digit_char x : (x < 10)%N →
  is_digit (pretty_N_char x) = true ∧ code (pretty_N_char x) - 48 = Z.of_N x ∧ is_space (pretty_N_char x) = false.
Proof.
  intros Hx. assert (x ∈ N.of_nat <$> seq 0 10) as Hin.
  { apply list_elem_of_fmap. exists (N.to_nat x). rewrite N2Nat.id. split; [done|]. apply elem_of_seq. lia. }
  clear Hx. revert x Hin. apply Forall_forall. by_decide.
Qed.

(** Reading the digits of [x] from an accumulator shifts it by their number [k]. *)
Lemma digits_of_pretty x : (0 < x)%N → ∃ k, 0 < k ∧ 10 ^ (k - 1) ≤ Z.of_N x ∧ ∀ s,
  digit_count (chars (pretty_N_go x s)) = k + digit_count (chars s) ∧
  (Forall (λ c, is_space c = false) (chars s) → Forall (λ c, is_space c = false) (chars (pretty_N_go x s))) ∧
  (∃ c s', chars (pretty_N_go x s) = c :: s' ∧ is_digit c = true) ∧
  (∀ acc gap, digits_value acc gap (chars (pretty_N_go x s)) = digits_value (acc * 10 ^ k + Z.of_N x) false (chars s)).
Proof.
  induction (N.lt_wf_0 x) as [x _ IH]. intros Hx.
  destruct (digit_char (x mod 10)%N) as (Hd & Hv & Hsp); [by apply N.mod_lt|].
  destruct (decide (x < 10)%N) as [Hlt|Hge].
  - exists 1. split; [done|]. split; [simpl; lia|]. intros s.
    rewrite pretty_N_go_step, N.div_small, pretty_N_go_0 by done. rewrite N.mod_small in * by done. cbn [chars].
    split_and!.
    + unfold digit_count. rewrite filter_cons_True by done. cbn [List.length]. lia.
    + by constructor.
    + eauto.
    + intros acc gap. simpl. rewrite Hd, Hv. f_equal; lia.
  - destruct (IH (x / 10)%N) as (k & Hk & Hlow & Hgo); [by apply N.div_lt|by apply N.div_str_pos; lia|].
    assert (Z.of_N x = Z.of_N (x / 10) * 10 + Z.of_N (x mod 10)) as Hdm.
    { rewrite (N.Div0.div_mod x 10) at 1. rewrite N2Z.inj_add, N2Z.inj_mul. lia. }
    exists (k + 1). split; [lia|]. split.
    { replace (k + 1 - 1) with (Z.succ (k - 1)) by lia. rewrite Z.pow_succ_r by lia.
      rewrite Hdm. pose proof (N2Z.is_nonneg (x mod 10)). lia. }
    intros s. rewrite pretty_N_go_step by done.
    destruct (Hgo (String (pretty_N_char (x mod 10)) s)) as (Hc & Hf & He & Hval).
    split_and!; [| |done|].
    + rewrite Hc. cbn [chars]. unfold digit_count. rewrite filter_cons_True by done. cbn [List.length]. lia.
    + intros Hs. apply Hf. constructor; done.
    + intros acc gap. rewrite Hval. cbn [chars]. simpl digits_value at 1. rewrite Hd, Hv. f_equal.
      rewrite Z.pow_add_r by lia. lia.
Qed.

Lemma unsigned_pretty x : Z.of_N x < 10 ^ MAX_STR_DIGITS →
  unsigned_value (chars (pretty x)) = Some (Z.of_N x) ∧ Forall (λ c, is_space c = false) (chars (pretty x)) ∧
  ∃ c s, chars (pretty x) = c :: s ∧ is_digit c = true.
Proof.
  intros Hb. unfold pretty, pretty_N. case_decide as H0.
  { subst x. split_and!; [done|by repeat constructor|]. by eexists _, _. }
  destruct (digits_of_pretty x) as (k & Hk & Hlow & Hgo); [lia|].
  destruct (Hgo "") as (Hc & Hf & He & Hval). split_and!; [|apply Hf; constructor|done].
  unfold unsigned_value. rewrite Hc, Hval. cbn [chars]. replace (digit_count []) with 0 by done.
  assert (k - 1 < MAX_STR_DIGITS) as Hk'.
  { apply (Z.pow_lt_mono_r_iff 10); [lia|unfold MAX_STR_DIGITS; lia|lia]. }
  rewrite (proj2 (Z.ltb_ge _ _)) by lia. simpl; f_equal; lia.
Qed.

(** [str] of a natural number is a sequence of digits. *)
Lemma pretty_go_digits x s : Forall (λ c, is_digit c = true) (chars s) →
  Forall (λ c, is_digit c = true) (chars (pretty_N_go x s)).
Proof.
  revert s. induction (N.lt_wf_0 x) as [x _ IH]. intros s Hs. destruct (decide (x = 0)%N) as [->|H0].
  - by rewrite pretty_N_go_0.
  - rewrite pretty_N_go_step by lia. apply IH; [by apply N.div_lt; lia|]. cbn [chars]. constructor; [|done].
    by destruct (digit_char (x mod 10)%N) as [Hd _]; [apply N.mod_lt|].
Qed.

Lemma py_str_digits z : 0 ≤ z → Forall (λ c, is_digit c = true) (chars (py_str z)).
Proof.
  intros Hz. unfold py_str. destruct z as [|p|p]; [by repeat constructor| |lia].
  change (pretty (Z.pos p)) with (pretty (N.pos p)). unfold pretty, pretty_N.
  case_decide; [by repeat constructor|]. apply pretty_go_digits. constructor.
Qed.

Lemma digit_not_space c : is_digit c = true → is_space c = false.
Proof.
  unfold is_digit, is_space. intros Hc. z_bool. repeat (apply orb_false_iff; split); try apply andb_false_iff;
    rewrite ?Z.leb_gt, ?Z.eqb_neq; lia.
Qed.

(** [int] reads back what [str] writes, up to the interpreter's limit on the length
    of numerals. *)
Lemma py_int_str z : Z.abs z < 10 ^ MAX_STR_DIGITS → py_int (py_str z) = Some z.
Proof.
  intros Hz. unfold py_str, py_int.
  assert (∀ c, is_digit c = true → (code c =? 45) = false ∧ (code c =? 43) = false) as Hd.
  { intros c. unfold is_digit. intros Hc. z_bool. split; apply Z.eqb_neq; lia. }
  destruct z as [|p|p].
  - done.
  - change (pretty (Z.pos p)) with (pretty (N.pos p)).
    destruct (unsigned_pretty (N.pos p)) as (Hv & Hs & c & s & Hcs & Hc); [simpl in *; lia|].
    rewrite strip_none, Hcs by done. destruct (Hd c Hc) as [-> ->]. by rewrite <- Hcs.
  - change (pretty (Z.neg p)) with (String "-" (pretty (N.pos p))).
    destruct (unsigned_pretty (N.pos p)) as (Hv & Hs & _); [simpl in *; lia|].
    rewrite strip_none by (cbn [chars]; by constructor). cbn [chars]. simpl code. cbn. by rewrite Hv.
Qed.

(** a quantity read by [safe_quantity] lies between zero and the maximum; one
    already there is unchanged. *)
Theorem safe_quantity_bounded f q :
  safe_quantity f = Some q → 0 ≤ q ≤ MAX_QUANTITY ∧ (∀ r, f = Num r → 0 ≤ r ≤ MAX_QUANTITY → q = r).
Proof.
  unfold safe_quantity, safe_decimal. destruct f as [| | | | |r]; intros [= <-]; try (split; [done|done]).
  unfold MAX_QUANTITY. split; [repeat case_match; z_bool; lia|].
  intros r' [= ->] Hr. repeat case_match; z_bool; lia.
Qed.

(** a number the application writes into a page, an id, a version, a page
    number, comes back through [safe_int] and its kin as the same number, whatever
    the default, as long as it is within the bounds. *)
Theorem safe_int_round_trip z dflt : Z.abs z < 10 ^ MAX_STR_DIGITS →
  (∀ lo hi, lo ≤ z ≤ hi → safe_int (Some (py_str z)) dflt (Some lo) (Some hi) = z) ∧
  (0 ≤ z → safe_id (Some (py_str z)) dflt = z ∧ safe_version_number (Some (py_str z)) dflt = z) ∧
  (1 ≤ z → safe_page (Some (py_str z)) dflt = z).
Proof.
  intros Hz. unfold safe_page, safe_version_number, safe_id, safe_int, bounded_int. simpl.
  rewrite py_int_str by done. split_and!; intros; simpl; lia.
Qed.

Lemma safe_int_bounded_witness :
  1 ≤ 100 ∧ safe_per_page (Some " 1_000 "%string) 25 100 = 100 ∧
  safe_per_page (Some "1__0"%string) 25 100 = 25.
Proof.
  destruct (safe_int_bounded (Some " 1_000 "%string) 25 1 100) as [[Hr _] _]; [done|].
  split; [done|]. split; [exact Hr|vm_compute; reflexivity].
Defined.

Lemma safe_int_round_trip_witness :
  0 < 10 ^ MAX_STR_DIGITS ∧ 0 ≤ 70 ≤ 100 ∧ safe_int (Some (py_str 70)) 5 (Some 0) (Some 100) = 70.
Proof.
  assert (Z.abs 70 < 10 ^ MAX_STR_DIGITS) as H.
  { apply (Z.lt_le_trans _ (10 ^ 2)); [done|]. apply Z.pow_le_mono_r; [done|done]. }
  split; [simpl Z.abs in H; lia|]. split; [done|].
  exact (proj1 (safe_int_round_trip 70 5 H) 0 100 ltac:(done)).
Defined.
