(* ===== verification/Dates.v ===== *)
(** Calendar dates: [datetime.strptime(s, '%Y-%m-%d').date()] and the ISO text of a
    date, with dates as day numbers (day 1 is the first of January of year 1). *)
From Stdlib Require Import Ascii String.
From S2P Require Import Prelude PyStr ParamValidation.

Definition is_leap (y : Z) : bool := (y mod 4 =? 0) && (negb (y mod 100 =? 0) || (y mod 400 =? 0)).

Definition days_in_month (y m : Z) : Z :=
  if m =? 2 then (if is_leap y then 29 else 28)
  else if bool_decide (m ∈ [4; 6; 9; 11]) then 30 else 31.

Definition days_before_year (y : Z) : Z := let z := y - 1 in z * 365 + z / 4 - z / 100 + z / 400.

Fixpoint days_before_month (y : Z) (m : nat) : Z :=
  match m with O | 1%nat => 0 | S k => days_before_month y k + days_in_month y (Z.of_nat k) end.

(** [date(y, m, d).toordinal()], [None] where [date] raises. *)
Definition ordinal (y m d : Z) : option Z :=
  if (1 <=? y) && (y <=? 9999) && (1 <=? m) && (m <=? 12) && (1 <=? d) && (d <=? days_in_month y m)
  then Some (days_before_year y + days_before_month y (Z.to_nat m) + d) else None.

Definition digit_value (c : ascii) : option Z := if is_digit c then Some (code c - 48) else None.

(** The directives: four digits; one or two; the day also as a space and a digit. *)
Definition year_field (l : list ascii) : option Z :=
  match l with
  | [a; b; c; d] => a ← digit_value a; b ← digit_value b; c ← digit_value c; d ← digit_value d;
                    Some (1000 * a + 100 * b + 10 * c + d)
  | _ => None
  end.

Definition short_field (l : list ascii) : option Z :=
  match l with
  | [a] => digit_value a
  | [a; b] => a ← digit_value a; b ← digit_value b; Some (10 * a + b)
  | _ => None
  end.

Definition day_field (l : list ascii) : option Z :=
  match l with
  | [a; b] => if code a =? 32 then digit_value b else short_field l
  | _ => short_field l
  end.

(** [s.split('-')]. *)
Fixpoint split_dash (l : list ascii) : list (list ascii) :=
  match l with
  | [] => [[]]
  | c :: l' => if code c =? 45 then [] :: split_dash l'
               else match split_dash l' with w :: ws => (c :: w) :: ws | [] => [[c]] end
  end.

Definition strptime (s : string) : option Z :=
  match split_dash (chars s) with
  | [y; m; d] => y ← year_field y; m ← short_field m; d ← day_field d; ordinal y m d
  | _ => None
  end.
