(* ===== verification/Schema.v ===== *)
(** The database schema (app/db/models.py) and the session.

    One record per table, one field per column that modelled code reads or
    writes, and the tables together as the record [DB].  A quantity column
    ([Numeric(12,2)] or [Numeric(15,4)]) is a [Z] counting ten-thousandths:
    addition, subtraction and comparison of Python [Decimal]s of at most four
    decimal places are exact and are these operations of [Z].  Rounding on
    storage of a four-place value into a [Numeric(12,2)] column is not modelled.

    SQL leaves the order of the rows of an unordered query open, and CPython
    the iteration order of a set: both are fields of the class [Runtime], so
    every theorem holds for all orders. *)
From S2P Require Import Prelude.

(** * Rows *)

(** The audit columns every table ends with; [version_nbr] is the
    optimistic-locking counter. *)
Record Audit : Type := mkAudit {
  create_by_id : string;
  create_dtime : Z;
  update_by_id : string;
  update_dtime : Z;
  version_nbr : Z
}.

Definition set_update_by_id (x : string) (r : Audit) : Audit :=
  {| create_by_id := create_by_id r; create_dtime := create_dtime r; update_by_id := x; update_dtime := update_dtime r; version_nbr := version_nbr r |}.
Definition set_update_dtime (x : Z) (r : Audit) : Audit :=
  {| create_by_id := create_by_id r; create_dtime := create_dtime r; update_by_id := update_by_id r; update_dtime := x; version_nbr := version_nbr r |}.
Definition set_version_nbr (x : Z) (r : Audit) : Audit :=
  {| create_by_id := create_by_id r; create_dtime := create_dtime r; update_by_id := update_by_id r; update_dtime := update_dtime r; version_nbr := x |}.

(** The four quantity columns shared by [itembatch] and [inventory]. *)
Record Stock : Type := mkStock {
  usable_qty : Z;
  reserved_qty : Z;
  defective_qty : Z;
  expired_qty : Z
}.

Definition set_usable_qty (x : Z) (r : Stock) : Stock :=
  {| usable_qty := x; reserved_qty := reserved_qty r; defective_qty := defective_qty r; expired_qty := expired_qty r |}.
Definition set_reserved_qty (x : Z) (r : Stock) : Stock :=
  {| usable_qty := usable_qty r; reserved_qty := x; defective_qty := defective_qty r; expired_qty := expired_qty r |}.

(** Table [item]. *)
Record Item : Type := mkItem {
  it_item_id : Z;
  it_item_code : string;
  it_item_name : string;
  it_category_type : string;
  it_default_uom_code : string;
  it_is_batched_flag : bool;
  it_can_expire_flag : bool;
  it_issuance_order : string;
  it_status_code : string
}.


(** Table [warehouse]. *)
Record Warehouse : Type := mkWarehouse {
  wh_warehouse_id : Z;
  wh_warehouse_name : string;
  wh_allow_donation_intake : bool;
  wh_status_code : string
}.


(** Table [inventory], primary key [(inventory_id, item_id)]; the
    [inventory_id] is the warehouse id. *)
Record Inventory : Type := mkInventory {
  inv_inventory_id : Z;
  inv_item_id : Z;
  inv_stock : Stock;
  inv_uom_code : string;
  inv_status_code : string;
  inv_audit : Audit
}.

Definition set_inv_stock (x : Stock) (r : Inventory) : Inventory :=
  {| inv_inventory_id := inv_inventory_id r; inv_item_id := inv_item_id r; inv_stock := x; inv_uom_code := inv_uom_code r; inv_status_code := inv_status_code r; inv_audit := inv_audit r |}.
Definition set_inv_audit (x : Audit) (r : Inventory) : Inventory :=
  {| inv_inventory_id := inv_inventory_id r; inv_item_id := inv_item_id r; inv_stock := inv_stock r; inv_uom_code := inv_uom_code r; inv_status_code := inv_status_code r; inv_audit := x |}.

(** Table [itembatch], primary key [batch_id].  Dates are day ordinals. *)
Record ItemBatch : Type := mkItemBatch {
  ib_batch_id : Z;
  ib_inventory_id : Z;
  ib_item_id : Z;
  ib_batch_no : option string;
  ib_batch_date : option Z;
  ib_expiry_date : option Z;
  ib_stock : Stock;
  ib_uom_code : string;
  ib_size_spec : option string;
  ib_avg_unit_value : Z;
  ib_status_code : string;
  ib_comments_text : option string;
  ib_audit : Audit
}.

Definition set_ib_expiry_date (x : option Z) (r : ItemBatch) : ItemBatch :=
  {| ib_batch_id := ib_batch_id r; ib_inventory_id := ib_inventory_id r; ib_item_id := ib_item_id r; ib_batch_no := ib_batch_no r; ib_batch_date := ib_batch_date r; ib_expiry_date := x; ib_stock := ib_stock r; ib_uom_code := ib_uom_code r; ib_size_spec := ib_size_spec r; ib_avg_unit_value := ib_avg_unit_value r; ib_status_code := ib_status_code r; ib_comments_text := ib_comments_text r; ib_audit := ib_audit r |}.
Definition set_ib_stock (x : Stock) (r : ItemBatch) : ItemBatch :=
  {| ib_batch_id := ib_batch_id r; ib_inventory_id := ib_inventory_id r; ib_item_id := ib_item_id r; ib_batch_no := ib_batch_no r; ib_batch_date := ib_batch_date r; ib_expiry_date := ib_expiry_date r; ib_stock := x; ib_uom_code := ib_uom_code r; ib_size_spec := ib_size_spec r; ib_avg_unit_value := ib_avg_unit_value r; ib_status_code := ib_status_code r; ib_comments_text := ib_comments_text r; ib_audit := ib_audit r |}.
Definition set_ib_audit (x : Audit) (r : ItemBatch) : ItemBatch :=
  {| ib_batch_id := ib_batch_id r; ib_inventory_id := ib_inventory_id r; ib_item_id := ib_item_id r; ib_batch_no := ib_batch_no r; ib_batch_date := ib_batch_date r; ib_expiry_date := ib_expiry_date r; ib_stock := ib_stock r; ib_uom_code := ib_uom_code r; ib_size_spec := ib_size_spec r; ib_avg_unit_value := ib_avg_unit_value r; ib_status_code := ib_status_code r; ib_comments_text := ib_comments_text r; ib_audit := x |}.

(** Table [reliefrqst]. *)
Record ReliefRqst : Type := mkReliefRqst {
  rq_reliefrqst_id : Z;
  rq_agency_id : Z;
  rq_request_date : Z;
  rq_eligible_event_id : option Z;
  rq_urgency_ind : string;
  rq_notes_text : option string;
  rq_status_code : Z;
  rq_status_reason_desc : option string;
  rq_create_by_id : string;
  rq_create_dtime : Z;
  rq_review_by_id : option string;
  rq_review_dtime : option Z;
  rq_action_by_id : option string;
  rq_action_dtime : option Z;
  rq_version_nbr : Z
}.

Definition set_rq_eligible_event_id (x : option Z) (r : ReliefRqst) : ReliefRqst :=
  {| rq_reliefrqst_id := rq_reliefrqst_id r; rq_agency_id := rq_agency_id r; rq_request_date := rq_request_date r; rq_eligible_event_id := x; rq_urgency_ind := rq_urgency_ind r; rq_notes_text := rq_notes_text r; rq_status_code := rq_status_code r; rq_status_reason_desc := rq_status_reason_desc r; rq_create_by_id := rq_create_by_id r; rq_create_dtime := rq_create_dtime r; rq_review_by_id := rq_review_by_id r; rq_review_dtime := rq_review_dtime r; rq_action_by_id := rq_action_by_id r; rq_action_dtime := rq_action_dtime r; rq_version_nbr := rq_version_nbr r |}.
Definition set_rq_urgency_ind (x : string) (r : ReliefRqst) : ReliefRqst :=
  {| rq_reliefrqst_id := rq_reliefrqst_id r; rq_agency_id := rq_agency_id r; rq_request_date := rq_request_date r; rq_eligible_event_id := rq_eligible_event_id r; rq_urgency_ind := x; rq_notes_text := rq_notes_text r; rq_status_code := rq_status_code r; rq_status_reason_desc := rq_status_reason_desc r; rq_create_by_id := rq_create_by_id r; rq_create_dtime := rq_create_dtime r; rq_review_by_id := rq_review_by_id r; rq_review_dtime := rq_review_dtime r; rq_action_by_id := rq_action_by_id r; rq_action_dtime := rq_action_dtime r; rq_version_nbr := rq_version_nbr r |}.
Definition set_rq_notes_text (x : option string) (r : ReliefRqst) : ReliefRqst :=
  {| rq_reliefrqst_id := rq_reliefrqst_id r; rq_agency_id := rq_agency_id r; rq_request_date := rq_request_date r; rq_eligible_event_id := rq_eligible_event_id r; rq_urgency_ind := rq_urgency_ind r; rq_notes_text := x; rq_status_code := rq_status_code r; rq_status_reason_desc := rq_status_reason_desc r; rq_create_by_id := rq_create_by_id r; rq_create_dtime := rq_create_dtime r; rq_review_by_id := rq_review_by_id r; rq_review_dtime := rq_review_dtime r; rq_action_by_id := rq_action_by_id r; rq_action_dtime := rq_action_dtime r; rq_version_nbr := rq_version_nbr r |}.
Definition set_rq_status_code (x : Z) (r : ReliefRqst) : ReliefRqst :=
  {| rq_reliefrqst_id := rq_reliefrqst_id r; rq_agency_id := rq_agency_id r; rq_request_date := rq_request_date r; rq_eligible_event_id := rq_eligible_event_id r; rq_urgency_ind := rq_urgency_ind r; rq_notes_text := rq_notes_text r; rq_status_code := x; rq_status_reason_desc := rq_status_reason_desc r; rq_create_by_id := rq_create_by_id r; rq_create_dtime := rq_create_dtime r; rq_review_by_id := rq_review_by_id r; rq_review_dtime := rq_review_dtime r; rq_action_by_id := rq_action_by_id r; rq_action_dtime := rq_action_dtime r; rq_version_nbr := rq_version_nbr r |}.
Definition set_rq_status_reason_desc (x : option string) (r : ReliefRqst) : ReliefRqst :=
  {| rq_reliefrqst_id := rq_reliefrqst_id r; rq_agency_id := rq_agency_id r; rq_request_date := rq_request_date r; rq_eligible_event_id := rq_eligible_event_id r; rq_urgency_ind := rq_urgency_ind r; rq_notes_text := rq_notes_text r; rq_status_code := rq_status_code r; rq_status_reason_desc := x; rq_create_by_id := rq_create_by_id r; rq_create_dtime := rq_create_dtime r; rq_review_by_id := rq_review_by_id r; rq_review_dtime := rq_review_dtime r; rq_action_by_id := rq_action_by_id r; rq_action_dtime := rq_action_dtime r; rq_version_nbr := rq_version_nbr r |}.
Definition set_rq_review_by_id (x : option string) (r : ReliefRqst) : ReliefRqst :=
  {| rq_reliefrqst_id := rq_reliefrqst_id r; rq_agency_id := rq_agency_id r; rq_request_date := rq_request_date r; rq_eligible_event_id := rq_eligible_event_id r; rq_urgency_ind := rq_urgency_ind r; rq_notes_text := rq_notes_text r; rq_status_code := rq_status_code r; rq_status_reason_desc := rq_status_reason_desc r; rq_create_by_id := rq_create_by_id r; rq_create_dtime := rq_create_dtime r; rq_review_by_id := x; rq_review_dtime := rq_review_dtime r; rq_action_by_id := rq_action_by_id r; rq_action_dtime := rq_action_dtime r; rq_version_nbr := rq_version_nbr r |}.
Definition set_rq_review_dtime (x : option Z) (r : ReliefRqst) : ReliefRqst :=
  {| rq_reliefrqst_id := rq_reliefrqst_id r; rq_agency_id := rq_agency_id r; rq_request_date := rq_request_date r; rq_eligible_event_id := rq_eligible_event_id r; rq_urgency_ind := rq_urgency_ind r; rq_notes_text := rq_notes_text r; rq_status_code := rq_status_code r; rq_status_reason_desc := rq_status_reason_desc r; rq_create_by_id := rq_create_by_id r; rq_create_dtime := rq_create_dtime r; rq_review_by_id := rq_review_by_id r; rq_review_dtime := x; rq_action_by_id := rq_action_by_id r; rq_action_dtime := rq_action_dtime r; rq_version_nbr := rq_version_nbr r |}.
Definition set_rq_action_by_id (x : option string) (r : ReliefRqst) : ReliefRqst :=
  {| rq_reliefrqst_id := rq_reliefrqst_id r; rq_agency_id := rq_agency_id r; rq_request_date := rq_request_date r; rq_eligible_event_id := rq_eligible_event_id r; rq_urgency_ind := rq_urgency_ind r; rq_notes_text := rq_notes_text r; rq_status_code := rq_status_code r; rq_status_reason_desc := rq_status_reason_desc r; rq_create_by_id := rq_create_by_id r; rq_create_dtime := rq_create_dtime r; rq_review_by_id := rq_review_by_id r; rq_review_dtime := rq_review_dtime r; rq_action_by_id := x; rq_action_dtime := rq_action_dtime r; rq_version_nbr := rq_version_nbr r |}.
Definition set_rq_action_dtime (x : option Z) (r : ReliefRqst) : ReliefRqst :=
  {| rq_reliefrqst_id := rq_reliefrqst_id r; rq_agency_id := rq_agency_id r; rq_request_date := rq_request_date r; rq_eligible_event_id := rq_eligible_event_id r; rq_urgency_ind := rq_urgency_ind r; rq_notes_text := rq_notes_text r; rq_status_code := rq_status_code r; rq_status_reason_desc := rq_status_reason_desc r; rq_create_by_id := rq_create_by_id r; rq_create_dtime := rq_create_dtime r; rq_review_by_id := rq_review_by_id r; rq_review_dtime := rq_review_dtime r; rq_action_by_id := rq_action_by_id r; rq_action_dtime := x; rq_version_nbr := rq_version_nbr r |}.
Definition set_rq_version_nbr (x : Z) (r : ReliefRqst) : ReliefRqst :=
  {| rq_reliefrqst_id := rq_reliefrqst_id r; rq_agency_id := rq_agency_id r; rq_request_date := rq_request_date r; rq_eligible_event_id := rq_eligible_event_id r; rq_urgency_ind := rq_urgency_ind r; rq_notes_text := rq_notes_text r; rq_status_code := rq_status_code r; rq_status_reason_desc := rq_status_reason_desc r; rq_create_by_id := rq_create_by_id r; rq_create_dtime := rq_create_dtime r; rq_review_by_id := rq_review_by_id r; rq_review_dtime := rq_review_dtime r; rq_action_by_id := rq_action_by_id r; rq_action_dtime := rq_action_dtime r; rq_version_nbr := x |}.

(** Table [reliefrqst_item], primary key [(reliefrqst_id, item_id)]. *)
Record ReliefRqstItem : Type := mkReliefRqstItem {
  ri_reliefrqst_id : Z;
  ri_item_id : Z;
  ri_request_qty : Z;
  ri_issue_qty : Z;
  ri_urgency_ind : string;
  ri_rqst_reason_desc : option string;
  ri_required_by_date : option Z;
  ri_status_code : string;
  ri_status_reason_desc : option string;
  ri_action_by_id : option string;
  ri_action_dtime : option Z;
  ri_version_nbr : Z
}.

Definition set_ri_request_qty (x : Z) (r : ReliefRqstItem) : ReliefRqstItem :=
  {| ri_reliefrqst_id := ri_reliefrqst_id r; ri_item_id := ri_item_id r; ri_request_qty := x; ri_issue_qty := ri_issue_qty r; ri_urgency_ind := ri_urgency_ind r; ri_rqst_reason_desc := ri_rqst_reason_desc r; ri_required_by_date := ri_required_by_date r; ri_status_code := ri_status_code r; ri_status_reason_desc := ri_status_reason_desc r; ri_action_by_id := ri_action_by_id r; ri_action_dtime := ri_action_dtime r; ri_version_nbr := ri_version_nbr r |}.
Definition set_ri_issue_qty (x : Z) (r : ReliefRqstItem) : ReliefRqstItem :=
  {| ri_reliefrqst_id := ri_reliefrqst_id r; ri_item_id := ri_item_id r; ri_request_qty := ri_request_qty r; ri_issue_qty := x; ri_urgency_ind := ri_urgency_ind r; ri_rqst_reason_desc := ri_rqst_reason_desc r; ri_required_by_date := ri_required_by_date r; ri_status_code := ri_status_code r; ri_status_reason_desc := ri_status_reason_desc r; ri_action_by_id := ri_action_by_id r; ri_action_dtime := ri_action_dtime r; ri_version_nbr := ri_version_nbr r |}.
Definition set_ri_urgency_ind (x : string) (r : ReliefRqstItem) : ReliefRqstItem :=
  {| ri_reliefrqst_id := ri_reliefrqst_id r; ri_item_id := ri_item_id r; ri_request_qty := ri_request_qty r; ri_issue_qty := ri_issue_qty r; ri_urgency_ind := x; ri_rqst_reason_desc := ri_rqst_reason_desc r; ri_required_by_date := ri_required_by_date r; ri_status_code := ri_status_code r; ri_status_reason_desc := ri_status_reason_desc r; ri_action_by_id := ri_action_by_id r; ri_action_dtime := ri_action_dtime r; ri_version_nbr := ri_version_nbr r |}.
Definition set_ri_rqst_reason_desc (x : option string) (r : ReliefRqstItem) : ReliefRqstItem :=
  {| ri_reliefrqst_id := ri_reliefrqst_id r; ri_item_id := ri_item_id r; ri_request_qty := ri_request_qty r; ri_issue_qty := ri_issue_qty r; ri_urgency_ind := ri_urgency_ind r; ri_rqst_reason_desc := x; ri_required_by_date := ri_required_by_date r; ri_status_code := ri_status_code r; ri_status_reason_desc := ri_status_reason_desc r; ri_action_by_id := ri_action_by_id r; ri_action_dtime := ri_action_dtime r; ri_version_nbr := ri_version_nbr r |}.
Definition set_ri_required_by_date (x : option Z) (r : ReliefRqstItem) : ReliefRqstItem :=
  {| ri_reliefrqst_id := ri_reliefrqst_id r; ri_item_id := ri_item_id r; ri_request_qty := ri_request_qty r; ri_issue_qty := ri_issue_qty r; ri_urgency_ind := ri_urgency_ind r; ri_rqst_reason_desc := ri_rqst_reason_desc r; ri_required_by_date := x; ri_status_code := ri_status_code r; ri_status_reason_desc := ri_status_reason_desc r; ri_action_by_id := ri_action_by_id r; ri_action_dtime := ri_action_dtime r; ri_version_nbr := ri_version_nbr r |}.
Definition set_ri_status_code (x : string) (r : ReliefRqstItem) : ReliefRqstItem :=
  {| ri_reliefrqst_id := ri_reliefrqst_id r; ri_item_id := ri_item_id r; ri_request_qty := ri_request_qty r; ri_issue_qty := ri_issue_qty r; ri_urgency_ind := ri_urgency_ind r; ri_rqst_reason_desc := ri_rqst_reason_desc r; ri_required_by_date := ri_required_by_date r; ri_status_code := x; ri_status_reason_desc := ri_status_reason_desc r; ri_action_by_id := ri_action_by_id r; ri_action_dtime := ri_action_dtime r; ri_version_nbr := ri_version_nbr r |}.
Definition set_ri_status_reason_desc (x : option string) (r : ReliefRqstItem) : ReliefRqstItem :=
  {| ri_reliefrqst_id := ri_reliefrqst_id r; ri_item_id := ri_item_id r; ri_request_qty := ri_request_qty r; ri_issue_qty := ri_issue_qty r; ri_urgency_ind := ri_urgency_ind r; ri_rqst_reason_desc := ri_rqst_reason_desc r; ri_required_by_date := ri_required_by_date r; ri_status_code := ri_status_code r; ri_status_reason_desc := x; ri_action_by_id := ri_action_by_id r; ri_action_dtime := ri_action_dtime r; ri_version_nbr := ri_version_nbr r |}.
Definition set_ri_action_by_id (x : option string) (r : ReliefRqstItem) : ReliefRqstItem :=
  {| ri_reliefrqst_id := ri_reliefrqst_id r; ri_item_id := ri_item_id r; ri_request_qty := ri_request_qty r; ri_issue_qty := ri_issue_qty r; ri_urgency_ind := ri_urgency_ind r; ri_rqst_reason_desc := ri_rqst_reason_desc r; ri_required_by_date := ri_required_by_date r; ri_status_code := ri_status_code r; ri_status_reason_desc := ri_status_reason_desc r; ri_action_by_id := x; ri_action_dtime := ri_action_dtime r; ri_version_nbr := ri_version_nbr r |}.
Definition set_ri_action_dtime (x : option Z) (r : ReliefRqstItem) : ReliefRqstItem :=
  {| ri_reliefrqst_id := ri_reliefrqst_id r; ri_item_id := ri_item_id r; ri_request_qty := ri_request_qty r; ri_issue_qty := ri_issue_qty r; ri_urgency_ind := ri_urgency_ind r; ri_rqst_reason_desc := ri_rqst_reason_desc r; ri_required_by_date := ri_required_by_date r; ri_status_code := ri_status_code r; ri_status_reason_desc := ri_status_reason_desc r; ri_action_by_id := ri_action_by_id r; ri_action_dtime := x; ri_version_nbr := ri_version_nbr r |}.
Definition set_ri_version_nbr (x : Z) (r : ReliefRqstItem) : ReliefRqstItem :=
  {| ri_reliefrqst_id := ri_reliefrqst_id r; ri_item_id := ri_item_id r; ri_request_qty := ri_request_qty r; ri_issue_qty := ri_issue_qty r; ri_urgency_ind := ri_urgency_ind r; ri_rqst_reason_desc := ri_rqst_reason_desc r; ri_required_by_date := ri_required_by_date r; ri_status_code := ri_status_code r; ri_status_reason_desc := ri_status_reason_desc r; ri_action_by_id := ri_action_by_id r; ri_action_dtime := ri_action_dtime r; ri_version_nbr := x |}.

(** Table [reliefpkg]. *)
Record ReliefPkg : Type := mkReliefPkg {
  pkg_reliefpkg_id : Z;
  pkg_agency_id : Z;
  pkg_tracking_no : string;
  pkg_to_inventory_id : Z;
  pkg_reliefrqst_id : Z;
  pkg_start_date : Z;
  pkg_dispatch_dtime : option Z;
  pkg_status_code : string;
  pkg_verify_by_id : option string;
  pkg_verify_dtime : option Z;
  pkg_received_by_id : option string;
  pkg_received_dtime : option Z;
  pkg_audit : Audit
}.

Definition set_pkg_dispatch_dtime (x : option Z) (r : ReliefPkg) : ReliefPkg :=
  {| pkg_reliefpkg_id := pkg_reliefpkg_id r; pkg_agency_id := pkg_agency_id r; pkg_tracking_no := pkg_tracking_no r; pkg_to_inventory_id := pkg_to_inventory_id r; pkg_reliefrqst_id := pkg_reliefrqst_id r; pkg_start_date := pkg_start_date r; pkg_dispatch_dtime := x; pkg_status_code := pkg_status_code r; pkg_verify_by_id := pkg_verify_by_id r; pkg_verify_dtime := pkg_verify_dtime r; pkg_received_by_id := pkg_received_by_id r; pkg_received_dtime := pkg_received_dtime r; pkg_audit := pkg_audit r |}.
Definition set_pkg_status_code (x : string) (r : ReliefPkg) : ReliefPkg :=
  {| pkg_reliefpkg_id := pkg_reliefpkg_id r; pkg_agency_id := pkg_agency_id r; pkg_tracking_no := pkg_tracking_no r; pkg_to_inventory_id := pkg_to_inventory_id r; pkg_reliefrqst_id := pkg_reliefrqst_id r; pkg_start_date := pkg_start_date r; pkg_dispatch_dtime := pkg_dispatch_dtime r; pkg_status_code := x; pkg_verify_by_id := pkg_verify_by_id r; pkg_verify_dtime := pkg_verify_dtime r; pkg_received_by_id := pkg_received_by_id r; pkg_received_dtime := pkg_received_dtime r; pkg_audit := pkg_audit r |}.
Definition set_pkg_verify_by_id (x : option string) (r : ReliefPkg) : ReliefPkg :=
  {| pkg_reliefpkg_id := pkg_reliefpkg_id r; pkg_agency_id := pkg_agency_id r; pkg_tracking_no := pkg_tracking_no r; pkg_to_inventory_id := pkg_to_inventory_id r; pkg_reliefrqst_id := pkg_reliefrqst_id r; pkg_start_date := pkg_start_date r; pkg_dispatch_dtime := pkg_dispatch_dtime r; pkg_status_code := pkg_status_code r; pkg_verify_by_id := x; pkg_verify_dtime := pkg_verify_dtime r; pkg_received_by_id := pkg_received_by_id r; pkg_received_dtime := pkg_received_dtime r; pkg_audit := pkg_audit r |}.
Definition set_pkg_verify_dtime (x : option Z) (r : ReliefPkg) : ReliefPkg :=
  {| pkg_reliefpkg_id := pkg_reliefpkg_id r; pkg_agency_id := pkg_agency_id r; pkg_tracking_no := pkg_tracking_no r; pkg_to_inventory_id := pkg_to_inventory_id r; pkg_reliefrqst_id := pkg_reliefrqst_id r; pkg_start_date := pkg_start_date r; pkg_dispatch_dtime := pkg_dispatch_dtime r; pkg_status_code := pkg_status_code r; pkg_verify_by_id := pkg_verify_by_id r; pkg_verify_dtime := x; pkg_received_by_id := pkg_received_by_id r; pkg_received_dtime := pkg_received_dtime r; pkg_audit := pkg_audit r |}.
Definition set_pkg_received_by_id (x : option string) (r : ReliefPkg) : ReliefPkg :=
  {| pkg_reliefpkg_id := pkg_reliefpkg_id r; pkg_agency_id := pkg_agency_id r; pkg_tracking_no := pkg_tracking_no r; pkg_to_inventory_id := pkg_to_inventory_id r; pkg_reliefrqst_id := pkg_reliefrqst_id r; pkg_start_date := pkg_start_date r; pkg_dispatch_dtime := pkg_dispatch_dtime r; pkg_status_code := pkg_status_code r; pkg_verify_by_id := pkg_verify_by_id r; pkg_verify_dtime := pkg_verify_dtime r; pkg_received_by_id := x; pkg_received_dtime := pkg_received_dtime r; pkg_audit := pkg_audit r |}.
Definition set_pkg_received_dtime (x : option Z) (r : ReliefPkg) : ReliefPkg :=
  {| pkg_reliefpkg_id := pkg_reliefpkg_id r; pkg_agency_id := pkg_agency_id r; pkg_tracking_no := pkg_tracking_no r; pkg_to_inventory_id := pkg_to_inventory_id r; pkg_reliefrqst_id := pkg_reliefrqst_id r; pkg_start_date := pkg_start_date r; pkg_dispatch_dtime := pkg_dispatch_dtime r; pkg_status_code := pkg_status_code r; pkg_verify_by_id := pkg_verify_by_id r; pkg_verify_dtime := pkg_verify_dtime r; pkg_received_by_id := pkg_received_by_id r; pkg_received_dtime := x; pkg_audit := pkg_audit r |}.
Definition set_pkg_audit (x : Audit) (r : ReliefPkg) : ReliefPkg :=
  {| pkg_reliefpkg_id := pkg_reliefpkg_id r; pkg_agency_id := pkg_agency_id r; pkg_tracking_no := pkg_tracking_no r; pkg_to_inventory_id := pkg_to_inventory_id r; pkg_reliefrqst_id := pkg_reliefrqst_id r; pkg_start_date := pkg_start_date r; pkg_dispatch_dtime := pkg_dispatch_dtime r; pkg_status_code := pkg_status_code r; pkg_verify_by_id := pkg_verify_by_id r; pkg_verify_dtime := pkg_verify_dtime r; pkg_received_by_id := pkg_received_by_id r; pkg_received_dtime := pkg_received_dtime r; pkg_audit := x |}.

(** Table [reliefpkg_item], primary key
    [(reliefpkg_id, fr_inventory_id, batch_id, item_id)]. *)
Record ReliefPkgItem : Type := mkReliefPkgItem {
  pi_reliefpkg_id : Z;
  pi_fr_inventory_id : Z;
  pi_batch_id : Z;
  pi_item_id : Z;
  pi_item_qty : Z;
  pi_uom_code : string;
  pi_audit : Audit
}.

Definition set_pi_item_qty (x : Z) (r : ReliefPkgItem) : ReliefPkgItem :=
  {| pi_reliefpkg_id := pi_reliefpkg_id r; pi_fr_inventory_id := pi_fr_inventory_id r; pi_batch_id := pi_batch_id r; pi_item_id := pi_item_id r; pi_item_qty := x; pi_uom_code := pi_uom_code r; pi_audit := pi_audit r |}.
Definition set_pi_uom_code (x : string) (r : ReliefPkgItem) : ReliefPkgItem :=
  {| pi_reliefpkg_id := pi_reliefpkg_id r; pi_fr_inventory_id := pi_fr_inventory_id r; pi_batch_id := pi_batch_id r; pi_item_id := pi_item_id r; pi_item_qty := pi_item_qty r; pi_uom_code := x; pi_audit := pi_audit r |}.
Definition set_pi_audit (x : Audit) (r : ReliefPkgItem) : ReliefPkgItem :=
  {| pi_reliefpkg_id := pi_reliefpkg_id r; pi_fr_inventory_id := pi_fr_inventory_id r; pi_batch_id := pi_batch_id r; pi_item_id := pi_item_id r; pi_item_qty := pi_item_qty r; pi_uom_code := pi_uom_code r; pi_audit := x |}.

(** Table [user]: the columns the services read. *)
Record User : Type := mkUser {
  us_user_id : Z;
  us_email : string;
  us_user_name : string;
  us_first_name : option string;
  us_last_name : option string;
  us_is_active : bool;
  us_agency_id : option Z;
  us_roles : list string
}.


(** Table [relief_request_fulfillment_lock], primary key [reliefrqst_id]. *)
Record FulfillmentLock : Type := mkFulfillmentLock {
  lk_reliefrqst_id : Z;
  lk_fulfiller_user_id : Z;
  lk_fulfiller_email : string;
  lk_acquired_at : Z;
  lk_expires_at : option Z
}.


(** Table [notification]: the columns a service writes, with the [type] of
    the message. *)
Record Notification : Type := mkNotification {
  nt_user_id : Z;
  nt_reliefrqst_id : option Z;
  nt_type : string
}.


(** The columns of a donation its form fills in. *)
Record DonationHeader : Type := mkDonationHeader {
  dh_donor_id : Z;
  dh_event_id : Z;
  dh_custodian_id : Z;
  dh_donation_desc : string;
  dh_received_date : Z;
  dh_origin_country_id : Z;
  dh_origin_address1_text : option string;
  dh_origin_address2_text : option string;
  dh_comments_text : option string;
  dh_tot_item_cost : Z;
  dh_storage_cost : Z;
  dh_haulage_cost : Z;
  dh_other_cost : Z;
  dh_other_cost_desc : option string
}.

Definition set_dh_tot_item_cost (x : Z) (r : DonationHeader) : DonationHeader :=
  {| dh_donor_id := dh_donor_id r; dh_event_id := dh_event_id r; dh_custodian_id := dh_custodian_id r; dh_donation_desc := dh_donation_desc r; dh_received_date := dh_received_date r; dh_origin_country_id := dh_origin_country_id r; dh_origin_address1_text := dh_origin_address1_text r; dh_origin_address2_text := dh_origin_address2_text r; dh_comments_text := dh_comments_text r; dh_tot_item_cost := x; dh_storage_cost := dh_storage_cost r; dh_haulage_cost := dh_haulage_cost r; dh_other_cost := dh_other_cost r; dh_other_cost_desc := dh_other_cost_desc r |}.

(** Table [donation]. *)
Record Donation : Type := mkDonation {
  dn_donation_id : Z;
  dn_header : DonationHeader;
  dn_status_code : string;
  dn_verify_by_id : option string;
  dn_verify_dtime : option Z;
  dn_audit : Audit
}.

Definition set_dn_status_code (x : string) (r : Donation) : Donation :=
  {| dn_donation_id := dn_donation_id r; dn_header := dn_header r; dn_status_code := x; dn_verify_by_id := dn_verify_by_id r; dn_verify_dtime := dn_verify_dtime r; dn_audit := dn_audit r |}.
Definition set_dn_audit (x : Audit) (r : Donation) : Donation :=
  {| dn_donation_id := dn_donation_id r; dn_header := dn_header r; dn_status_code := dn_status_code r; dn_verify_by_id := dn_verify_by_id r; dn_verify_dtime := dn_verify_dtime r; dn_audit := x |}.

(** The columns of a donated item its form fills in. *)
Record DonationLine : Type := mkDonationLine {
  dl_donation_type : string;
  dl_item_qty : Z;
  dl_item_cost : Z;
  dl_uom_code : option string;
  dl_currency_code : option string;
  dl_location_name : string;
  dl_comments_text : option string
}.

(** Table [donation_item], primary key [(donation_id, item_id)]. *)
Record DonationItem : Type := mkDonationItem {
  di_donation_id : Z;
  di_item_id : Z;
  di_line : DonationLine;
  di_status_code : string;
  di_verify_by_id : option string;
  di_verify_dtime : option Z;
  di_audit : Audit
}.

Definition di_item_qty (di : DonationItem) : Z := dl_item_qty (di_line di).

(** Table [donation_doc]; its primary key is a serial nothing reads. *)
Record DonationDoc : Type := mkDonationDoc {
  dd_donation_id : Z;
  dd_document_type : string;
  dd_document_desc : string;
  dd_file_name : string;
  dd_file_type : string;
  dd_file_size : string;
  dd_audit : Audit
}.

(** Table [dnintake], primary key [(donation_id, inventory_id)]. *)
Record DonationIntake : Type := mkDonationIntake {
  dk_donation_id : Z;
  dk_inventory_id : Z;
  dk_intake_date : Z;
  dk_comments_text : option string;
  dk_status_code : string;
  dk_verify_by_id : string;
  dk_verify_dtime : option Z;
  dk_audit : Audit
}.

(** Table [dnintake_item], primary key
    [(donation_id, inventory_id, item_id, batch_no)].  The extended cost, a
    product of two four-place numbers, counts hundred-millionths. *)
Record DonationIntakeItem : Type := mkDonationIntakeItem {
  ki_donation_id : Z;
  ki_inventory_id : Z;
  ki_item_id : Z;
  ki_batch_no : string;
  ki_batch_date : option Z;
  ki_expiry_date : option Z;
  ki_uom_code : string;
  ki_avg_unit_value : Z;
  ki_ext_item_cost : Z;
  ki_usable_qty : Z;
  ki_defective_qty : Z;
  ki_expired_qty : Z;
  ki_status_code : string;
  ki_comments_text : option string;
  ki_audit : Audit
}.

(** The tables the modelled services read and write.  [db_agency] and
    [db_event] keep the primary keys only; [db_intake_qty] is the [usable_qty]
    column of [dbintake_item], keyed by [(reliefpkg_id, inventory_id, item_id)]. *)
Record DB : Type := mkDB {
  db_item : gmap Z Item;
  db_warehouse : gmap Z Warehouse;
  db_inventory : gmap (Z * Z) Inventory;
  db_itembatch : gmap Z ItemBatch;
  db_rqst : gmap Z ReliefRqst;
  db_rqst_item : gmap (Z * Z) ReliefRqstItem;
  db_pkg : gmap Z ReliefPkg;
  db_pkg_item : gmap (Z * Z * Z * Z) ReliefPkgItem;
  db_user : gmap Z User;
  db_agency : gset Z;
  db_event : gset Z;
  db_lock : gmap Z FulfillmentLock;
  db_notification : list Notification;
  db_intake_qty : gmap (Z * Z * Z) Z;
  db_donation : gmap Z Donation;
  db_donation_item : gmap (Z * Z) DonationItem;
  db_dnintake : gmap (Z * Z) DonationIntake;
  db_dnintake_item : gmap (Z * Z * Z * string) DonationIntakeItem;
  db_donation_doc : list DonationDoc
}.

Definition set_db_item (x : gmap Z Item) (r : DB) : DB :=
  {| db_item := x; db_warehouse := db_warehouse r; db_inventory := db_inventory r; db_itembatch := db_itembatch r; db_rqst := db_rqst r; db_rqst_item := db_rqst_item r; db_pkg := db_pkg r; db_pkg_item := db_pkg_item r; db_user := db_user r; db_agency := db_agency r; db_event := db_event r; db_lock := db_lock r; db_notification := db_notification r; db_intake_qty := db_intake_qty r; db_donation := db_donation r; db_donation_item := db_donation_item r; db_dnintake := db_dnintake r; db_dnintake_item := db_dnintake_item r; db_donation_doc := db_donation_doc r |}.
Definition set_db_warehouse (x : gmap Z Warehouse) (r : DB) : DB :=
  {| db_item := db_item r; db_warehouse := x; db_inventory := db_inventory r; db_itembatch := db_itembatch r; db_rqst := db_rqst r; db_rqst_item := db_rqst_item r; db_pkg := db_pkg r; db_pkg_item := db_pkg_item r; db_user := db_user r; db_agency := db_agency r; db_event := db_event r; db_lock := db_lock r; db_notification := db_notification r; db_intake_qty := db_intake_qty r; db_donation := db_donation r; db_donation_item := db_donation_item r; db_dnintake := db_dnintake r; db_dnintake_item := db_dnintake_item r; db_donation_doc := db_donation_doc r |}.
Definition set_db_inventory (x : gmap (Z * Z) Inventory) (r : DB) : DB :=
  {| db_item := db_item r; db_warehouse := db_warehouse r; db_inventory := x; db_itembatch := db_itembatch r; db_rqst := db_rqst r; db_rqst_item := db_rqst_item r; db_pkg := db_pkg r; db_pkg_item := db_pkg_item r; db_user := db_user r; db_agency := db_agency r; db_event := db_event r; db_lock := db_lock r; db_notification := db_notification r; db_intake_qty := db_intake_qty r; db_donation := db_donation r; db_donation_item := db_donation_item r; db_dnintake := db_dnintake r; db_dnintake_item := db_dnintake_item r; db_donation_doc := db_donation_doc r |}.
Definition set_db_itembatch (x : gmap Z ItemBatch) (r : DB) : DB :=
  {| db_item := db_item r; db_warehouse := db_warehouse r; db_inventory := db_inventory r; db_itembatch := x; db_rqst := db_rqst r; db_rqst_item := db_rqst_item r; db_pkg := db_pkg r; db_pkg_item := db_pkg_item r; db_user := db_user r; db_agency := db_agency r; db_event := db_event r; db_lock := db_lock r; db_notification := db_notification r; db_intake_qty := db_intake_qty r; db_donation := db_donation r; db_donation_item := db_donation_item r; db_dnintake := db_dnintake r; db_dnintake_item := db_dnintake_item r; db_donation_doc := db_donation_doc r |}.
Definition set_db_rqst (x : gmap Z ReliefRqst) (r : DB) : DB :=
  {| db_item := db_item r; db_warehouse := db_warehouse r; db_inventory := db_inventory r; db_itembatch := db_itembatch r; db_rqst := x; db_rqst_item := db_rqst_item r; db_pkg := db_pkg r; db_pkg_item := db_pkg_item r; db_user := db_user r; db_agency := db_agency r; db_event := db_event r; db_lock := db_lock r; db_notification := db_notification r; db_intake_qty := db_intake_qty r; db_donation := db_donation r; db_donation_item := db_donation_item r; db_dnintake := db_dnintake r; db_dnintake_item := db_dnintake_item r; db_donation_doc := db_donation_doc r |}.
Definition set_db_rqst_item (x : gmap (Z * Z) ReliefRqstItem) (r : DB) : DB :=
  {| db_item := db_item r; db_warehouse := db_warehouse r; db_inventory := db_inventory r; db_itembatch := db_itembatch r; db_rqst := db_rqst r; db_rqst_item := x; db_pkg := db_pkg r; db_pkg_item := db_pkg_item r; db_user := db_user r; db_agency := db_agency r; db_event := db_event r; db_lock := db_lock r; db_notification := db_notification r; db_intake_qty := db_intake_qty r; db_donation := db_donation r; db_donation_item := db_donation_item r; db_dnintake := db_dnintake r; db_dnintake_item := db_dnintake_item r; db_donation_doc := db_donation_doc r |}.
Definition set_db_pkg (x : gmap Z ReliefPkg) (r : DB) : DB :=
  {| db_item := db_item r; db_warehouse := db_warehouse r; db_inventory := db_inventory r; db_itembatch := db_itembatch r; db_rqst := db_rqst r; db_rqst_item := db_rqst_item r; db_pkg := x; db_pkg_item := db_pkg_item r; db_user := db_user r; db_agency := db_agency r; db_event := db_event r; db_lock := db_lock r; db_notification := db_notification r; db_intake_qty := db_intake_qty r; db_donation := db_donation r; db_donation_item := db_donation_item r; db_dnintake := db_dnintake r; db_dnintake_item := db_dnintake_item r; db_donation_doc := db_donation_doc r |}.
Definition set_db_pkg_item (x : gmap (Z * Z * Z * Z) ReliefPkgItem) (r : DB) : DB :=
  {| db_item := db_item r; db_warehouse := db_warehouse r; db_inventory := db_inventory r; db_itembatch := db_itembatch r; db_rqst := db_rqst r; db_rqst_item := db_rqst_item r; db_pkg := db_pkg r; db_pkg_item := x; db_user := db_user r; db_agency := db_agency r; db_event := db_event r; db_lock := db_lock r; db_notification := db_notification r; db_intake_qty := db_intake_qty r; db_donation := db_donation r; db_donation_item := db_donation_item r; db_dnintake := db_dnintake r; db_dnintake_item := db_dnintake_item r; db_donation_doc := db_donation_doc r |}.
Definition set_db_user (x : gmap Z User) (r : DB) : DB :=
  {| db_item := db_item r; db_warehouse := db_warehouse r; db_inventory := db_inventory r; db_itembatch := db_itembatch r; db_rqst := db_rqst r; db_rqst_item := db_rqst_item r; db_pkg := db_pkg r; db_pkg_item := db_pkg_item r; db_user := x; db_agency := db_agency r; db_event := db_event r; db_lock := db_lock r; db_notification := db_notification r; db_intake_qty := db_intake_qty r; db_donation := db_donation r; db_donation_item := db_donation_item r; db_dnintake := db_dnintake r; db_dnintake_item := db_dnintake_item r; db_donation_doc := db_donation_doc r |}.
Definition set_db_agency (x : gset Z) (r : DB) : DB :=
  {| db_item := db_item r; db_warehouse := db_warehouse r; db_inventory := db_inventory r; db_itembatch := db_itembatch r; db_rqst := db_rqst r; db_rqst_item := db_rqst_item r; db_pkg := db_pkg r; db_pkg_item := db_pkg_item r; db_user := db_user r; db_agency := x; db_event := db_event r; db_lock := db_lock r; db_notification := db_notification r; db_intake_qty := db_intake_qty r; db_donation := db_donation r; db_donation_item := db_donation_item r; db_dnintake := db_dnintake r; db_dnintake_item := db_dnintake_item r; db_donation_doc := db_donation_doc r |}.
Definition set_db_event (x : gset Z) (r : DB) : DB :=
  {| db_item := db_item r; db_warehouse := db_warehouse r; db_inventory := db_inventory r; db_itembatch := db_itembatch r; db_rqst := db_rqst r; db_rqst_item := db_rqst_item r; db_pkg := db_pkg r; db_pkg_item := db_pkg_item r; db_user := db_user r; db_agency := db_agency r; db_event := x; db_lock := db_lock r; db_notification := db_notification r; db_intake_qty := db_intake_qty r; db_donation := db_donation r; db_donation_item := db_donation_item r; db_dnintake := db_dnintake r; db_dnintake_item := db_dnintake_item r; db_donation_doc := db_donation_doc r |}.
Definition set_db_lock (x : gmap Z FulfillmentLock) (r : DB) : DB :=
  {| db_item := db_item r; db_warehouse := db_warehouse r; db_inventory := db_inventory r; db_itembatch := db_itembatch r; db_rqst := db_rqst r; db_rqst_item := db_rqst_item r; db_pkg := db_pkg r; db_pkg_item := db_pkg_item r; db_user := db_user r; db_agency := db_agency r; db_event := db_event r; db_lock := x; db_notification := db_notification r; db_intake_qty := db_intake_qty r; db_donation := db_donation r; db_donation_item := db_donation_item r; db_dnintake := db_dnintake r; db_dnintake_item := db_dnintake_item r; db_donation_doc := db_donation_doc r |}.
Definition set_db_notification (x : list Notification) (r : DB) : DB :=
  {| db_item := db_item r; db_warehouse := db_warehouse r; db_inventory := db_inventory r; db_itembatch := db_itembatch r; db_rqst := db_rqst r; db_rqst_item := db_rqst_item r; db_pkg := db_pkg r; db_pkg_item := db_pkg_item r; db_user := db_user r; db_agency := db_agency r; db_event := db_event r; db_lock := db_lock r; db_notification := x; db_intake_qty := db_intake_qty r; db_donation := db_donation r; db_donation_item := db_donation_item r; db_dnintake := db_dnintake r; db_dnintake_item := db_dnintake_item r; db_donation_doc := db_donation_doc r |}.
Definition set_db_intake_qty (x : gmap (Z * Z * Z) Z) (r : DB) : DB :=
  {| db_item := db_item r; db_warehouse := db_warehouse r; db_inventory := db_inventory r; db_itembatch := db_itembatch r; db_rqst := db_rqst r; db_rqst_item := db_rqst_item r; db_pkg := db_pkg r; db_pkg_item := db_pkg_item r; db_user := db_user r; db_agency := db_agency r; db_event := db_event r; db_lock := db_lock r; db_notification := db_notification r; db_intake_qty := x; db_donation := db_donation r; db_donation_item := db_donation_item r; db_dnintake := db_dnintake r; db_dnintake_item := db_dnintake_item r; db_donation_doc := db_donation_doc r |}.
Definition set_db_donation (x : gmap Z Donation) (r : DB) : DB :=
  {| db_item := db_item r; db_warehouse := db_warehouse r; db_inventory := db_inventory r; db_itembatch := db_itembatch r; db_rqst := db_rqst r; db_rqst_item := db_rqst_item r; db_pkg := db_pkg r; db_pkg_item := db_pkg_item r; db_user := db_user r; db_agency := db_agency r; db_event := db_event r; db_lock := db_lock r; db_notification := db_notification r; db_intake_qty := db_intake_qty r; db_donation := x; db_donation_item := db_donation_item r; db_dnintake := db_dnintake r; db_dnintake_item := db_dnintake_item r; db_donation_doc := db_donation_doc r |}.
Definition set_db_donation_item (x : gmap (Z * Z) DonationItem) (r : DB) : DB :=
  {| db_item := db_item r; db_warehouse := db_warehouse r; db_inventory := db_inventory r; db_itembatch := db_itembatch r; db_rqst := db_rqst r; db_rqst_item := db_rqst_item r; db_pkg := db_pkg r; db_pkg_item := db_pkg_item r; db_user := db_user r; db_agency := db_agency r; db_event := db_event r; db_lock := db_lock r; db_notification := db_notification r; db_intake_qty := db_intake_qty r; db_donation := db_donation r; db_donation_item := x; db_dnintake := db_dnintake r; db_dnintake_item := db_dnintake_item r; db_donation_doc := db_donation_doc r |}.
Definition set_db_dnintake (x : gmap (Z * Z) DonationIntake) (r : DB) : DB :=
  {| db_item := db_item r; db_warehouse := db_warehouse r; db_inventory := db_inventory r; db_itembatch := db_itembatch r; db_rqst := db_rqst r; db_rqst_item := db_rqst_item r; db_pkg := db_pkg r; db_pkg_item := db_pkg_item r; db_user := db_user r; db_agency := db_agency r; db_event := db_event r; db_lock := db_lock r; db_notification := db_notification r; db_intake_qty := db_intake_qty r; db_donation := db_donation r; db_donation_item := db_donation_item r; db_dnintake := x; db_dnintake_item := db_dnintake_item r; db_donation_doc := db_donation_doc r |}.
Definition set_db_dnintake_item (x : gmap (Z * Z * Z * string) DonationIntakeItem) (r : DB) : DB :=
  {| db_item := db_item r; db_warehouse := db_warehouse r; db_inventory := db_inventory r; db_itembatch := db_itembatch r; db_rqst := db_rqst r; db_rqst_item := db_rqst_item r; db_pkg := db_pkg r; db_pkg_item := db_pkg_item r; db_user := db_user r; db_agency := db_agency r; db_event := db_event r; db_lock := db_lock r; db_notification := db_notification r; db_intake_qty := db_intake_qty r; db_donation := db_donation r; db_donation_item := db_donation_item r; db_dnintake := db_dnintake r; db_dnintake_item := x; db_donation_doc := db_donation_doc r |}.
Definition set_db_donation_doc (x : list DonationDoc) (r : DB) : DB :=
  {| db_item := db_item r; db_warehouse := db_warehouse r; db_inventory := db_inventory r; db_itembatch := db_itembatch r; db_rqst := db_rqst r; db_rqst_item := db_rqst_item r; db_pkg := db_pkg r; db_pkg_item := db_pkg_item r; db_user := db_user r; db_agency := db_agency r; db_event := db_event r; db_lock := db_lock r; db_notification := db_notification r; db_intake_qty := db_intake_qty r; db_donation := db_donation r; db_donation_item := db_donation_item r; db_dnintake := db_dnintake r; db_dnintake_item := db_dnintake_item r; db_donation_doc := x |}.

Definition empty_db : DB := mkDB ∅ ∅ ∅ ∅ ∅ ∅ ∅ ∅ ∅ ∅ ∅ ∅ [] ∅ ∅ ∅ ∅ ∅ [].

(** One unit and the two tolerances the code uses, in ten-thousandths. *)
Definition UNIT : Z := 10000.
Definition CENT : Z := 100.       (* Decimal('0.01') *)
Definition MILLI : Z := 10.       (* Decimal('0.001') *)

(** * Column access shared by the components *)

Definition ib_usable (b : ItemBatch) : Z := usable_qty (ib_stock b).
Definition ib_reserved (b : ItemBatch) : Z := reserved_qty (ib_stock b).
Definition inv_usable (i : Inventory) : Z := usable_qty (inv_stock i).
Definition inv_reserved (i : Inventory) : Z := reserved_qty (inv_stock i).

Definition set_ib_reserved (q : Z) (b : ItemBatch) : ItemBatch :=
  set_ib_stock (set_reserved_qty q (ib_stock b)) b.
Definition set_ib_usable (q : Z) (b : ItemBatch) : ItemBatch :=
  set_ib_stock (set_usable_qty q (ib_stock b)) b.
Definition set_inv_reserved (q : Z) (i : Inventory) : Inventory :=
  set_inv_stock (set_reserved_qty q (inv_stock i)) i.
Definition set_inv_usable (q : Z) (i : Inventory) : Inventory :=
  set_inv_stock (set_usable_qty q (inv_stock i)) i.

(** [x.update_by_id = user; x.update_dtime = now; x.version_nbr += 1]. *)
Definition touch (user : string) (now : Z) (a : Audit) : Audit :=
  mkAudit (create_by_id a) (create_dtime a) user now (version_nbr a + 1).

(** [x.update_by_id = user; x.update_dtime = now], version left alone. *)
Definition stamp (user : string) (now : Z) (a : Audit) : Audit :=
  mkAudit (create_by_id a) (create_dtime a) user now (version_nbr a).

Definition new_audit (user : string) (now : Z) : Audit := mkAudit user now user now 1.

(** * The session: the transaction in progress over the committed state *)

Record Session : Type := mkSession { committed : DB; work : DB }.

Definition commit_session (s : Session) : Session := mkSession (work s) (work s).
Definition rollback_session (s : Session) : Session := mkSession (committed s) (committed s).
Definition upd_work (f : DB → DB) (s : Session) : Session := mkSession (committed s) (f (work s)).

Section ops.
Context {E : Type}.

Definition db_get : M Session E DB := m_gets work.
Definition db_mod (f : DB → DB) : M Session E unit := m_modify (upd_work f).
Definition db_commit : M Session E unit := m_modify commit_session.
Definition db_rollback : M Session E unit := m_modify rollback_session.

(** A handler that rolls back whatever stopped it. *)
Definition or_rollback {A} (m : M Session E A) : M Session E A := λ s,
  match m s with (s', inl e) => (rollback_session s', inl e) | r => r end.
End ops.

(** The steps of a handler, peeled off one at a time. *)
Lemma run_get {E A} (k : DB → M Session E A) s a s' :
  run_ok (d ← db_get; k d) s a s' ↔ run_ok (k (work s)) s a s'.
Proof. done. Qed.

Lemma run_mod {E A} f (k : M Session E A) s a s' :
  run_ok (db_mod f;; k) s a s' ↔ run_ok k (upd_work f s) a s'.
Proof. done. Qed.

Lemma run_mod_last {E} f (s s' : Session) :
  run_ok (db_mod f : M Session E unit) s tt s' ↔ s' = upd_work f s.
Proof. unfold run_ok, db_mod, m_modify. naive_solver. Qed.

Lemma run_ret {E A} (a b : A) (s s' : Session) :
  run_ok (mret a : M Session E A) s b s' ↔ b = a ∧ s' = s.
Proof. unfold run_ok, mret, M_ret, m_ret. naive_solver. Qed.

Lemma or_rollback_ok {E A} (m : M Session E A) s a s' : run_ok (or_rollback m) s a s' ↔ run_ok m s a s'.
Proof. unfold run_ok, or_rollback. destruct (m s) as [s1 [e|b]]; naive_solver. Qed.

(** A run of straight-line code against its description. *)
Ltac run_unfold :=
  cbv [run_ok db_get db_mod db_commit db_rollback upd_work m_gets m_modify m_fail m_fail_if m_some
       mbind M_bind m_bind mret M_ret m_ret]; simpl.

Ltac run_iff :=
  run_unfold; split; intros; destruct_and?; simplify_eq/=;
  first [done | split_and!; done | exfalso; lia | solve [eauto 10]].

(** * Orders the language and SQL leave open *)

Class Runtime : Type := {
  pkg_rows : gmap Z ReliefPkg → list ReliefPkg;
  pkg_rows_perm m : pkg_rows m ≡ₚ (map_to_list m).*2;
  pkg_item_rows : gmap (Z * Z * Z * Z) ReliefPkgItem → list ReliefPkgItem;
  pkg_item_rows_perm m : pkg_item_rows m ≡ₚ (map_to_list m).*2;
  batch_rows : gmap Z ItemBatch → list ItemBatch;
  batch_rows_perm m : batch_rows m ≡ₚ (map_to_list m).*2;
  rqst_item_rows : gmap (Z * Z) ReliefRqstItem → list ReliefRqstItem;
  rqst_item_rows_perm m : rqst_item_rows m ≡ₚ (map_to_list m).*2;
  rqst_rows : gmap Z ReliefRqst → list ReliefRqst;
  rqst_rows_perm m : rqst_rows m ≡ₚ (map_to_list m).*2;
  user_rows : gmap Z User → list User;
  user_rows_perm m : user_rows m ≡ₚ (map_to_list m).*2;
  lock_rows : gmap Z FulfillmentLock → list FulfillmentLock;
  lock_rows_perm m : lock_rows m ≡ₚ (map_to_list m).*2;
  donation_item_rows : gmap (Z * Z) DonationItem → list DonationItem;
  donation_item_rows_perm m : donation_item_rows m ≡ₚ (map_to_list m).*2;
  dnintake_item_rows : gmap (Z * Z * Z * string) DonationIntakeItem → list DonationIntakeItem;
  dnintake_item_rows_perm m : dnintake_item_rows m ≡ₚ (map_to_list m).*2;
  iter_pairs : gset (Z * Z) → list (Z * Z);
  iter_pairs_perm s : iter_pairs s ≡ₚ elements s;
  iter_keys : gset (Z * option Z * Z) → list (Z * option Z * Z);
  iter_keys_perm s : iter_keys s ≡ₚ elements s;
}.

(** Rows in key order and sets in [elements] order: the runtime the concrete
    examples evaluate in. *)
Definition canonical_runtime : Runtime := {|
  pkg_rows m := (map_to_list m).*2;
  pkg_rows_perm m := Permutation_refl _;
  pkg_item_rows m := (map_to_list m).*2;
  pkg_item_rows_perm m := Permutation_refl _;
  batch_rows m := (map_to_list m).*2;
  batch_rows_perm m := Permutation_refl _;
  rqst_item_rows m := (map_to_list m).*2;
  rqst_item_rows_perm m := Permutation_refl _;
  rqst_rows m := (map_to_list m).*2;
  rqst_rows_perm m := Permutation_refl _;
  user_rows m := (map_to_list m).*2;
  user_rows_perm m := Permutation_refl _;
  lock_rows m := (map_to_list m).*2;
  lock_rows_perm m := Permutation_refl _;
  donation_item_rows m := (map_to_list m).*2;
  donation_item_rows_perm m := Permutation_refl _;
  dnintake_item_rows m := (map_to_list m).*2;
  dnintake_item_rows_perm m := Permutation_refl _;
  iter_pairs s := elements s;
  iter_pairs_perm s := Permutation_refl _;
  iter_keys s := elements s;
  iter_keys_perm s := Permutation_refl _;
|}.

(** * Rows sit under their primary key *)

Definition keyed_batches (d : DB) : Prop :=
  map_Forall (λ k b, ib_batch_id b = k) (db_itembatch d).
Definition keyed_pkgs (d : DB) : Prop :=
  map_Forall (λ k p, pkg_reliefpkg_id p = k) (db_pkg d).
Definition pi_pk (v : ReliefPkgItem) : Z * Z * Z * Z :=
  (pi_reliefpkg_id v, pi_fr_inventory_id v, pi_batch_id v, pi_item_id v).
Definition keyed_pkg_items (d : DB) : Prop :=
  map_Forall (λ k v, pi_pk v = k) (db_pkg_item d).
Definition keyed_rqst_items (d : DB) : Prop :=
  map_Forall (λ k v, (ri_reliefrqst_id v, ri_item_id v) = k) (db_rqst_item d).

Definition keyed_rqsts (d : DB) : Prop :=
  map_Forall (λ k r, rq_reliefrqst_id r = k) (db_rqst d).

#[export] Instance keyed_rqsts_dec d : Decision (keyed_rqsts d).
Proof. unfold keyed_rqsts. apply _. Defined.
#[export] Instance keyed_batches_dec d : Decision (keyed_batches d).
Proof. unfold keyed_batches. apply _. Defined.
#[export] Instance keyed_pkgs_dec d : Decision (keyed_pkgs d).
Proof. unfold keyed_pkgs. apply _. Defined.
#[export] Instance keyed_pkg_items_dec d : Decision (keyed_pkg_items d).
Proof. unfold keyed_pkg_items. apply _. Defined.
#[export] Instance keyed_rqst_items_dec d : Decision (keyed_rqst_items d).
Proof. unfold keyed_rqst_items. apply _. Defined.

Section rows.
Context `{R : Runtime}.

Lemma elem_of_map_rows {K} `{Countable K} {V} (m : gmap K V) (l : list V) v :
  l ≡ₚ (map_to_list m).*2 → v ∈ l ↔ ∃ k, m !! k = Some v.
Proof.
  intros Hl. rewrite Hl, list_elem_of_fmap. split.
  - intros ([k v'] & -> & Hin). exists k. by apply elem_of_map_to_list.
  - intros [k Hk]. exists (k, v). split; [done|]. by apply elem_of_map_to_list.
Qed.

Lemma elem_of_pkg_rows m p : p ∈ pkg_rows m ↔ ∃ k, m !! k = Some p.
Proof. apply elem_of_map_rows, pkg_rows_perm. Qed.
Lemma elem_of_pkg_item_rows m p : p ∈ pkg_item_rows m ↔ ∃ k, m !! k = Some p.
Proof. apply elem_of_map_rows, pkg_item_rows_perm. Qed.
Lemma elem_of_batch_rows m b : b ∈ batch_rows m ↔ ∃ k, m !! k = Some b.
Proof. apply elem_of_map_rows, batch_rows_perm. Qed.
Lemma elem_of_rqst_item_rows m b : b ∈ rqst_item_rows m ↔ ∃ k, m !! k = Some b.
Proof. apply elem_of_map_rows, rqst_item_rows_perm. Qed.
Lemma elem_of_rqst_rows m b : b ∈ rqst_rows m ↔ ∃ k, m !! k = Some b.
Proof. apply elem_of_map_rows, rqst_rows_perm. Qed.
Lemma elem_of_user_rows m b : b ∈ user_rows m ↔ ∃ k, m !! k = Some b.
Proof. apply elem_of_map_rows, user_rows_perm. Qed.
Lemma elem_of_lock_rows m b : b ∈ lock_rows m ↔ ∃ k, m !! k = Some b.
Proof. apply elem_of_map_rows, lock_rows_perm. Qed.
Lemma elem_of_donation_item_rows m b : b ∈ donation_item_rows m ↔ ∃ k, m !! k = Some b.
Proof. apply elem_of_map_rows, donation_item_rows_perm. Qed.
Lemma elem_of_dnintake_item_rows m b : b ∈ dnintake_item_rows m ↔ ∃ k, m !! k = Some b.
Proof. apply elem_of_map_rows, dnintake_item_rows_perm. Qed.
Lemma elem_of_iter_pairs s x : x ∈ iter_pairs s ↔ x ∈ s.
Proof. by rewrite iter_pairs_perm, elem_of_elements. Qed.
Lemma elem_of_iter_keys s x : x ∈ iter_keys s ↔ x ∈ s.
Proof. by rewrite iter_keys_perm, elem_of_elements. Qed.
Lemma nodup_iter_pairs s : NoDup (iter_pairs s).
Proof. rewrite iter_pairs_perm. apply NoDup_elements. Qed.
Lemma nodup_iter_keys s : NoDup (iter_keys s).
Proof. rewrite iter_keys_perm. apply NoDup_elements. Qed.
End rows.
