(* ===== verification/Columns.v ===== *)
(** What the column types of the tables accept, and the values they store. *)
From S2P Require Import Prelude PyStr Schema.

(** A [Numeric(p, 2)] column: rounded half away from zero to cents, refused when
    too large. *)
Definition cents (q : Z) : Z := Z.sgn q * ((Z.abs q + 50) / 100).
Definition numeric (p : Z) (q : Z) : option Z :=
  if Z.abs (cents q) <? 10 ^ p then Some (cents q * CENT) else None.

Definition varchar (n : Z) (s : string) : bool := len s <=? n.
Definition varchar_opt (n : Z) (s : option string) : bool := match s with Some s => varchar n s | None => true end.

(** [add_audit_fields]: the user name upper-cased and stripped, refused when blank. *)
Definition audit_id (user_name : string) : option string :=
  if is_blank user_name then None else Some (strip (upper user_name)).

(** A value of a [Numeric(p, 2)] column that is not negative. *)
Definition whole (p q : Z) : Prop := 0 ≤ q < 10 ^ p * CENT ∧ q mod CENT = 0.

#[export] Instance whole_dec p q : Decision (whole p q).
Proof. unfold whole. apply _. Defined.

Lemma numeric_whole p q r : numeric p q = Some r → 0 ≤ r → whole p r.
Proof.
  unfold numeric, whole. case_match eqn:E; [|done]. z_bool. intros [= <-] Hr. unfold CENT in *.
  split; [lia|]. apply Z_mod_mult.
Qed.

Lemma numeric_fixed p q : 0 ≤ p → whole p q → numeric p q = Some q.
Proof.
  intros Hp [[H0 Hlt] Hm]. apply Z.mod_divide in Hm as [c ->]; [|done]. unfold numeric, CENT in *.
  assert (0 ≤ c < 10 ^ p) as Hc by lia.
  assert (cents (c * 100) = c) as ->.
  { unfold cents. destruct (Z.eq_dec c 0) as [->|Hne]; [done|].
    rewrite Z.sgn_pos, Z.abs_eq, Z.mul_1_l, Z.div_add_l by lia. change (50 / 100) with 0. lia. }
  rewrite Z.abs_eq by lia. by rewrite (proj2 (Z.ltb_lt _ _)) by lia.
Qed.

Lemma numeric_unit p : 5 ≤ p → numeric p UNIT = Some UNIT.
Proof.
  intros Hp. apply numeric_fixed; [lia|]. unfold whole, UNIT, CENT. split; [|done].
  pose proof (Z.pow_le_mono_r 10 5 p). lia.
Qed.
