(* ===== verification/PathSafety.v ===== *)
(** Paths of uploaded files (app/security/safe_path.py), with what [os.path] does on
    POSIX: [basename], [join], [normpath], [abspath] and [splitext].

    A path is the list of its characters.  [cwd] is the working directory of the
    process; the file system itself ([os.makedirs]) is not modelled.

    [safe_join] stays inside its base directory, and the loop of [sanitize_filename]
    ends, with what is left of the name. *)
From Stdlib Require Import Ascii String.
From S2P Require Import Prelude PyStr.

Abbreviation text := (list ascii).

(** * os.path *)

Definition slash : ascii := "/".
Definition dot : ascii := ".".
Definition nul : ascii := Ascii.zero.

(** [p[p.rfind('/') + 1:]]. *)
Fixpoint after_last_slash (acc p : text) : text :=
  match p with
  | [] => acc
  | c :: p' => if decide (c = slash) then after_last_slash p' p' else after_last_slash acc p'
  end.
Definition basename (p : text) : text := after_last_slash p p.

(** [p.split('/')]. *)
Fixpoint split_slash (p : text) : list text :=
  match p with
  | [] => [[]]
  | c :: p' =>
      if decide (c = slash) then [] :: split_slash p'
      else match split_slash p' with w :: ws => (c :: w) :: ws | [] => [[c]] end
  end.

(** ['/'.join(comps)]. *)
Fixpoint join_slash (comps : list text) : text :=
  match comps with
  | [] => []
  | [c] => c
  | c :: cs => c ++ slash :: join_slash cs
  end.

Definition starts_with (prefix p : text) : bool := bool_decide (prefix `prefix_of` p).

(** Two leading slashes are kept, three or more count as one. *)
Definition initial_slashes (p : text) : nat :=
  if starts_with [slash] p then
    if starts_with [slash; slash] p && negb (starts_with [slash; slash; slash] p) then 2 else 1
  else 0.

(** One round of the loop of [normpath]; the components are kept in reverse. *)
Definition norm_step (rooted : bool) (acc : list text) (comp : text) : list text :=
  if bool_decide (comp ∈ [[]; [dot]]) then acc
  else if negb (bool_decide (comp = [dot; dot])) || (negb rooted && bool_decide (acc = [])) ||
          bool_decide (head acc = Some [dot; dot])
  then comp :: acc
  else tail acc.

Definition norm_comps (rooted : bool) (comps : list text) : list text :=
  reverse (foldl (norm_step rooted) [] comps).

Definition normpath (p : text) : text :=
  match p with
  | [] => [dot]
  | _ =>
      let k := initial_slashes p in
      let path := replicate k slash ++ join_slash (norm_comps (negb (bool_decide (k = 0%nat))) (split_slash p)) in
      match path with [] => [dot] | _ => path end
  end.

(** [os.path.join] of two. *)
Definition path_join2 (a b : text) : text :=
  if starts_with [slash] b then b
  else if bool_decide (a = []) || bool_decide (last a = Some slash) then a ++ b
  else a ++ slash :: b.
Definition path_join (a : text) (ps : list text) : text := foldl path_join2 a ps.

Definition splitext (p : text) : text * text :=
  match list_find (eq dot) (reverse p) with
  | Some (i, _) =>
      let dot_index := (length p - 1 - i)%nat in
      if existsb (λ c, negb (bool_decide (c = dot))) (take dot_index p)
      then (take dot_index p, drop dot_index p) else (p, [])
  | None => (p, [])
  end.

(** [l[:n]] of Python, where a negative [n] counts from the end. *)
Definition py_prefix {A} (n : Z) (l : list A) : list A :=
  take (Z.to_nat (if n <? 0 then Z.of_nat (length l) + n else n)) l.

Section paths.
Context (cwd : text).

Definition abspath (p : text) : text :=
  normpath (if starts_with [slash] p then p else path_join2 cwd p).

(** * safe_path *)

Definition contains_dots (p : text) : bool :=
  existsb (λ i, starts_with [dot; dot] (drop i p)) (seq 0 (length p)).

(** One component of [safe_join]: [None] is the [ValueError]. *)
Definition cleaned (p : text) : option text :=
  let name := basename p in
  if bool_decide (name = []) || contains_dots name || starts_with [slash] name || bool_decide (nul ∈ name)
  then None else Some name.

(** [final.startswith(abs_base + '/') or final == abs_base]. *)
Definition within (base p : text) : bool :=
  starts_with (base ++ [slash]) p || bool_decide (p = base).

Definition safe_join (base : text) (paths : list text) : option text :=
  if bool_decide (base = []) then None else
  let abs_base := abspath base in
  names ← mapM cleaned (filter (λ p, p ≠ []) paths);
  if bool_decide (names = []) then None else
  let final_path := abspath (path_join abs_base names) in
  if within abs_base final_path then Some final_path else None.

Definition is_safe_path (base p : text) : bool := within (abspath base) (abspath p).

Definition validate_upload_path (upload_folder filename : text) : option text :=
  if bool_decide (upload_folder = []) || bool_decide (filename = []) then None
  else safe_join upload_folder [filename].
End paths.

(** * sanitize_filename *)

Definition FORBIDDEN_CHARS : text := list_ascii_of_string "<>:/\|?*" ++ [chr 34].

(** [re.sub(r'\.\.+', '.', s)]. *)
Fixpoint collapse_dots (p : text) : text :=
  match p with
  | [] => []
  | c :: p' => if decide (c = dot ∧ head p' = Some dot) then collapse_dots p' else c :: collapse_dots p'
  end.

(** [while cond(s): s = body(s)], [None] when the fuel does not suffice. *)
Fixpoint while_loop {S} (fuel : nat) (cond : S → bool) (body : S → S) (s : S) : option S :=
  match fuel with
  | O => None
  | Datatypes.S fuel' => if cond s then while_loop fuel' cond body (body s) else Some s
  end.

Definition strip_text (p : text) : text := rdrop_spaces (drop_spaces p).

Definition MAX_FILENAME : Z := 255.

Definition cut_filename (p : text) : text :=
  if MAX_FILENAME <? Z.of_nat (length p) then
    let '(name, ext) := splitext p in py_prefix (MAX_FILENAME - Z.of_nat (length ext)) name ++ ext
  else p.

(** The text before the loop. *)
Definition replaced (filename : text) : text :=
  collapse_dots ((λ c, if decide (c ∈ FORBIDDEN_CHARS) then "_"%char else c) <$>
    filter (λ c, c ≠ nul) (basename filename)).

Definition sanitize_filename (fuel : nat) (filename : text) : option text :=
  match filename with
  | [] => Some []
  | _ => (λ p, cut_filename (strip_text p)) <$>
           while_loop fuel (λ p, starts_with [dot] p) (drop 1) (replaced filename)
  end.

(** * Components *)

(** A component that names an entry of a directory. *)
Definition plain (c : text) : Prop := c ≠ [] ∧ c ≠ [dot] ∧ c ≠ [dot; dot] ∧ (slash ∉ c).

#[export] Instance plain_dec c : Decision (plain c).
Proof. unfold plain. apply _. Defined.

(** What [after_last_slash] returns is the accumulator or a suffix after a slash. *)
Lemma after_last_slash_spec acc p :
  ((slash ∉ p) ∧ after_last_slash acc p = acc) ∨
  (∃ q r, p = q ++ slash :: r ∧ (slash ∉ r) ∧ after_last_slash acc p = r).
Proof.
  revert acc. induction p as [|c p IH]; intros acc; [left; split; [set_solver|done]|]. simpl. case_decide as Hc.
  - right. subst c. destruct (IH p) as [[Hn ->]|(q & r & Hp & Hr & ->)].
    + by exists [], p.
    + exists (slash :: q), r. by rewrite Hp.
  - destruct (IH acc) as [[Hn ->]|(q & r & Hp & Hr & ->)].
    + left. split; [|done]. set_solver.
    + right. exists (c :: q), r. by rewrite Hp.
Qed.

Lemma basename_no_slash p : slash ∉ basename p.
Proof.
  unfold basename. destruct (after_last_slash_spec p p) as [[Hn ->]|(q & r & _ & Hr & ->)]; done.
Qed.

Lemma basename_fixed p : slash ∉ p → basename p = p.
Proof.
  intros Hn. unfold basename. destruct (after_last_slash_spec p p) as [[_ ->]|(q & r & -> & _)]; [done|set_solver].
Qed.

(** * Splitting and joining *)

Lemma split_slash_free c : slash ∉ c → split_slash c = [c].
Proof.
  induction c as [|x c IH]; intros Hn; [done|]. simpl. rewrite decide_False by set_solver. by rewrite IH by set_solver.
Qed.

Lemma split_slash_app c p : slash ∉ c → split_slash (c ++ slash :: p) = c :: split_slash p.
Proof.
  induction c as [|x c IH]; intros Hn; simpl; [done|].
  rewrite decide_False by set_solver. by rewrite IH by set_solver.
Qed.

Lemma split_slash_comps p : Forall (λ c, slash ∉ c) (split_slash p).
Proof.
  induction p as [|x p IH]; simpl; [constructor; [set_solver|constructor]|].
  case_decide; [constructor; [set_solver|done]|]. destruct IH as [|w ws Hw Hws]; constructor; [set_solver|done|set_solver|done].
Qed.

Lemma split_join cs : cs ≠ [] → Forall (λ c, slash ∉ c) cs → split_slash (join_slash cs) = cs.
Proof.
  induction cs as [|c cs IH]; intros Hne Hall; [done|]. apply Forall_cons in Hall as [Hc Hcs].
  destruct cs as [|c' cs]; [by apply split_slash_free|].
  change (join_slash (c :: c' :: cs)) with (c ++ slash :: join_slash (c' :: cs)).
  rewrite split_slash_app, IH; done.
Qed.

Lemma join_app cs ds : cs ≠ [] → ds ≠ [] → join_slash (cs ++ ds) = join_slash cs ++ slash :: join_slash ds.
Proof.
  induction cs as [|c cs IH]; intros Hc Hd; [done|]. destruct cs as [|c' cs].
  - destruct ds; [done|]. done.
  - change (join_slash ((c :: c' :: cs) ++ ds)) with (c ++ slash :: join_slash ((c' :: cs) ++ ds)).
    rewrite IH by done. change (join_slash (c :: c' :: cs)) with (c ++ slash :: join_slash (c' :: cs)).
    by rewrite <- app_assoc.
Qed.

(** * Normalising a rooted path *)

Definition good (c : text) : Prop := c ≠ [] ∧ slash ∉ c.

Lemma plain_good c : plain c → good c.
Proof. intros (? & _ & _ & ?). done. Qed.

Lemma norm_step_plain acc comp : Forall plain acc → slash ∉ comp → Forall plain (norm_step true acc comp).
Proof.
  intros Hacc Hc. unfold norm_step. case_bool_decide as Hskip; [done|].
  destruct (negb (bool_decide (comp = [dot; dot])) || _ || _) eqn:E.
  - constructor; [|done]. rewrite !elem_of_cons, elem_of_nil in Hskip.
    split; [tauto|]. split; [tauto|]. split; [|done]. intros ->. simpl in E.
    case_bool_decide as Hh; [|done]. destruct Hacc as [|a acc (_ & _ & Ha & _) _]; [done|]. simpl in Hh. congruence.
  - destruct Hacc; [constructor|done].
Qed.

Lemma norm_comps_plain comps : Forall (λ c, slash ∉ c) comps → Forall plain (norm_comps true comps).
Proof.
  intros Hc. unfold norm_comps. apply Forall_reverse.
  enough (∀ acc, Forall plain acc → Forall plain (foldl (norm_step true) acc comps)) as H by (apply H; constructor).
  induction Hc as [|c comps Hc Hcs IH]; intros acc Hacc; [done|]. simpl. apply IH. by apply norm_step_plain.
Qed.

(** Without dot-dot, only empty components and dots go. *)
Lemma norm_comps_filter comps :
  Forall (λ c, c ≠ [dot; dot]) comps → norm_comps true comps = filter (λ c, c ∉ [[]; [dot]]) comps.
Proof.
  intros Hc. unfold norm_comps.
  enough (∀ acc, foldl (norm_step true) acc comps = reverse (filter (λ c, c ∉ [[]; [dot]]) comps) ++ acc) as H.
  { rewrite H, app_nil_r. apply reverse_involutive. }
  induction Hc as [|c comps Hc Hcs IH]; intros acc; [done|]. simpl. rewrite IH. unfold norm_step. rewrite filter_cons.
  case_bool_decide as Hskip; [by rewrite decide_False by tauto|]. rewrite decide_True by done.
  rewrite (bool_decide_eq_false_2 (c = [dot; dot])) by done. simpl. by rewrite reverse_cons, <- app_assoc.
Qed.

(** A rooted path in normal form. *)
Definition rooted_path (k : nat) (comps : list text) : text := replicate k slash ++ join_slash comps.

Lemma join_head cs : cs ≠ [] → Forall good cs → ∃ c p, join_slash cs = c :: p ∧ c ≠ slash.
Proof.
  intros Hne Hall. destruct Hall as [|w ws [Hw Hs] _]; [done|]. destruct w as [|c w]; [done|].
  assert (c ≠ slash) by set_solver. destruct ws; simpl; eauto.
Qed.

Lemma initial_slashes_rooted k cs :
  (k = 1 ∨ k = 2)%nat → Forall good cs → initial_slashes (rooted_path k cs) = k.
Proof.
  intros Hk Hcs. assert (∀ c (p : text), c ≠ slash → ¬ [slash] `prefix_of` c :: p) as Hnp.
  { intros c p Hc [q Hq]. simpl in Hq. by injection Hq as -> _. }
  assert (join_slash cs = [] ∨ ∃ c p, join_slash cs = c :: p ∧ c ≠ slash) as Hj.
  { destruct (decide (cs = [])) as [->|Hne]; [by left|]. right. by apply join_head. }
  assert (∀ p : text, starts_with [slash] (slash :: p) = true ∧ (starts_with [slash; slash] (slash :: p) = starts_with [slash] p) ∧
    (starts_with [slash; slash; slash] (slash :: slash :: p) = starts_with [slash] p)) as Hsw.
  { intros p. unfold starts_with. split; [apply bool_decide_eq_true_2; apply prefix_cons, prefix_nil|].
    split; apply bool_decide_ext; split; intros Hp; repeat first [apply prefix_cons_inv_2 in Hp|apply prefix_cons]; done. }
  assert (starts_with [slash] (join_slash cs) = false) as Hno.
  { unfold starts_with. apply bool_decide_eq_false_2. destruct Hj as [->|(c & p & -> & Hc)]; [|by apply Hnp].
    intros Hp. by apply prefix_nil_inv in Hp. }
  unfold rooted_path, initial_slashes. destruct Hk as [-> | ->]; cbn [replicate app].
  - destruct (Hsw (join_slash cs)) as (-> & -> & _). by rewrite Hno.
  - destruct (Hsw (slash :: join_slash cs)) as (-> & -> & _). destruct (Hsw (join_slash cs)) as (-> & _ & ->). by rewrite Hno.
Qed.

Lemma split_rooted k cs : cs ≠ [] → Forall (λ c, slash ∉ c) cs → split_slash (rooted_path k cs) = replicate k [] ++ cs.
Proof.
  intros Hne Hall. unfold rooted_path. induction k as [|k IH]; simpl; [by apply split_join|]. by rewrite IH.
Qed.

Lemma normpath_rooted k cs :
  (k = 1 ∨ k = 2)%nat → Forall good cs → Forall (λ c, c ≠ [dot; dot]) cs →
  normpath (rooted_path k cs) = rooted_path k (filter (λ c, c ≠ [dot]) cs).
Proof.
  intros Hk Hg Hdd. assert (rooted_path k cs ≠ []) as Hne by (by destruct Hk as [-> | ->]).
  assert (∀ cs', rooted_path k cs' ≠ []) as Hne' by (intros cs'; by destruct Hk as [-> | ->]).
  unfold normpath. destruct (rooted_path k cs) as [|x q] eqn:E; [done|]. rewrite <- E.
  rewrite (initial_slashes_rooted k cs Hk Hg), (bool_decide_eq_false_2 (k = 0%nat)) by lia. simpl negb.
  assert (norm_comps true (split_slash (rooted_path k cs)) = filter (λ c, c ≠ [dot]) cs) as ->.
  2: { change (replicate k slash ++ join_slash ?x) with (rooted_path k x).
       by destruct (rooted_path k (filter (λ c, c ≠ [dot]) cs)) eqn:E'; [destruct (Hne' _ E')|]. }
  assert (∀ l, Forall good l → filter (λ c, c ∉ [[]; [dot]]) l = filter (λ c : text, c ≠ [dot]) l) as Hf.
  { induction 1 as [|c l [Hc _] Hl IH]; [done|]. rewrite !filter_cons, IH.
    destruct (decide (c ≠ [dot])); [rewrite decide_True by set_solver|rewrite decide_False by set_solver]; done. }
  destruct (decide (cs = [])) as [->|Hcs].
  - by destruct Hk as [-> | ->].
  - rewrite split_rooted; [|done|]. 2: { eapply Forall_impl; [exact Hg|]. by intros c [_ ?]. }
    rewrite norm_comps_filter.
    2: { apply Forall_app. split; [|done]. apply Forall_replicate. done. }
    rewrite filter_app, (Hf cs Hg). by destruct Hk as [-> | ->].
Qed.

Section contained.
Context (cwd : text) (Hcwd : starts_with [slash] cwd = true).

Lemma starts_slash p : starts_with [slash] p = true → ∃ q, p = slash :: q.
Proof. unfold starts_with. intros H%bool_decide_eq_true. destruct H as [q ->]. by exists q. Qed.

Lemma normpath_shape p : starts_with [slash] p = true →
  ∃ k cs, (k = 1 ∨ k = 2)%nat ∧ Forall plain cs ∧ normpath p = rooted_path k cs.
Proof.
  intros Hp. destruct (starts_slash p Hp) as [q ->]. unfold normpath.
  assert (initial_slashes (slash :: q) = 1 ∨ initial_slashes (slash :: q) = 2)%nat as Hk.
  { unfold initial_slashes. rewrite Hp. case_match; auto. }
  exists (initial_slashes (slash :: q)), (norm_comps true (split_slash (slash :: q))).
  split; [done|]. split; [apply norm_comps_plain, split_slash_comps|].
  rewrite (bool_decide_eq_false_2 (_ = 0%nat)) by lia. simpl negb. unfold rooted_path.
  by destruct Hk as [-> | ->].
Qed.

Lemma abspath_shape p : ∃ k cs, (k = 1 ∨ k = 2)%nat ∧ Forall plain cs ∧ abspath cwd p = rooted_path k cs.
Proof.
  unfold abspath. destruct (starts_with [slash] p) eqn:Hp; [by apply normpath_shape|]. apply normpath_shape.
  unfold path_join2. rewrite Hp. destruct (starts_slash cwd Hcwd) as [q ->].
  case_match; unfold starts_with; apply bool_decide_eq_true_2; simpl; apply prefix_cons, prefix_nil.
Qed.

(** Joining slash-free names below a rooted path. *)
Lemma last_rooted k cs : (k = 1 ∨ k = 2)%nat → cs ≠ [] → Forall good cs → last (rooted_path k cs) ≠ Some slash.
Proof.
  intros Hk Hne Hg. destruct (decide (cs = [])) as [|_]; [done|].
  assert (∃ pre c, cs = pre ++ [c]) as (pre & c & ->) by (destruct cs using rev_ind; [done|eauto]).
  apply Forall_app in Hg as [_ Hc]. apply Forall_cons in Hc as [[Hc Hs] _].
  assert (∃ q, rooted_path k (pre ++ [c]) = q ++ c) as [q ->].
  { unfold rooted_path. destruct (decide (pre = [])) as [->|Hp]; [by exists (replicate k slash)|].
    rewrite join_app by done. exists (replicate k slash ++ join_slash pre ++ [slash]). by rewrite <- !app_assoc. }
  rewrite last_app. destruct (last c) as [x|] eqn:Hl; [|by apply last_None in Hl].
  intros [= ->]. apply Hs. by apply last_Some_elem_of in Hl.
Qed.

Lemma path_join_rooted k cs names : (k = 1 ∨ k = 2)%nat → Forall good cs → Forall good names →
  path_join (rooted_path k cs) names = rooted_path k (cs ++ names).
Proof.
  intros Hk. revert cs. induction names as [|n names IH]; intros cs Hcs Hn; [by rewrite app_nil_r|].
  apply Forall_cons in Hn as [Hn Hns]. unfold path_join in *. simpl.
  assert (path_join2 (rooted_path k cs) n = rooted_path k (cs ++ [n])) as ->.
  { unfold path_join2. assert (starts_with [slash] n = false) as ->.
    { unfold starts_with. apply bool_decide_eq_false_2. intros [q Hq]. destruct Hn as [_ Hs]. apply Hs. rewrite Hq. by left. }
    assert (rooted_path k cs ≠ []) as Hne by (by destruct Hk as [-> | ->]).
    rewrite (bool_decide_eq_false_2 (rooted_path k cs = [])) by done. simpl orb.
    destruct (decide (cs = [])) as [->|Hcs0].
    - rewrite bool_decide_eq_true_2; [unfold rooted_path; simpl; by rewrite app_nil_r|].
      destruct Hk as [-> | ->]; reflexivity.
    - rewrite bool_decide_eq_false_2 by (by apply last_rooted). unfold rooted_path. rewrite join_app by done.
      by rewrite <- app_assoc. }
  rewrite IH; [by rewrite <- app_assoc|apply Forall_app; by split; [|constructor]|done].
Qed.

(** * safe_join *)

(** The name [safe_join] keeps of a component. *)
Definition safe_name (n : text) : Prop := n ≠ [] ∧ (slash ∉ n) ∧ contains_dots n = false ∧ nul ∉ n.

Lemma cleaned_spec p n : cleaned p = Some n ↔ n = basename p ∧ safe_name n.
Proof.
  unfold cleaned, safe_name. pose proof (basename_no_slash p) as Hs.
  assert (starts_with [slash] (basename p) = false) as ->.
  { unfold starts_with. apply bool_decide_eq_false_2. intros [q Hq]. apply Hs. rewrite Hq. by left. }
  destruct (decide (basename p = [])) as [He|He]; [rewrite (bool_decide_eq_true_2 _ He); split; [done|]; by intros (-> & ? & _)|].
  rewrite (bool_decide_eq_false_2 _ He). destruct (contains_dots (basename p)) eqn:Hd; simpl.
  { split; [done|]. intros (-> & _ & _ & ? & _). congruence. }
  case_bool_decide as Hn; simpl; [split; [done|]; by intros (-> & _ & _ & _ & ?)|].
  split; [by intros [= <-]|by intros (-> & _)].
Qed.

Lemma safe_name_good n : safe_name n → good n ∧ n ≠ [dot; dot].
Proof. intros (Hne & Hs & Hd & _). split; [done|]. by intros ->. Qed.

(** The base directory is not a root. *)
Definition below_root (base : text) : Prop := abspath cwd base ∉ [[slash]; [slash; slash]].

Lemma rooted_app k cs ns : (k = 1 ∨ k = 2)%nat → cs ≠ [] →
  rooted_path k (cs ++ ns) = rooted_path k cs ++ (ns ≫= λ n, slash :: n).
Proof.
  intros Hk Hcs. unfold rooted_path. rewrite <- app_assoc. f_equal.
  induction ns as [|n ns IH] using rev_ind; [by rewrite !app_nil_r|].
  rewrite app_assoc, join_app by (done || by destruct cs). rewrite IH, bind_app. simpl. by rewrite app_nil_r, <- app_assoc.
Qed.

Lemma rooted_root k cs : (k = 1 ∨ k = 2)%nat → Forall good cs → rooted_path k cs ∈ [[slash]; [slash; slash]] ↔ cs = [].
Proof.
  intros Hk Hg. split.
  - intros Hin. destruct (decide (cs = [])) as [|Hne]; [done|]. exfalso. destruct (join_head cs Hne Hg) as (c & p & Hj & Hc).
    unfold rooted_path in Hin. rewrite Hj, !elem_of_cons, elem_of_nil in Hin.
    destruct Hk as [-> | ->]; simpl in Hin; naive_solver.
  - intros ->. destruct Hk as [-> | ->]; by_decide.
Qed.

(** Below a directory other than the root, the last check never fails. *)
Lemma joined_path base names : below_root base → Forall safe_name names →
  abspath cwd (path_join (abspath cwd base) names) = abspath cwd base ++ (filter (λ n, n ≠ [dot]) names ≫= λ n, slash :: n) ∧
  within (abspath cwd base) (abspath cwd (path_join (abspath cwd base) names)) = true.
Proof.
  intros Hb Hns. unfold below_root in Hb. destruct (abspath_shape base) as (k & cs & Hk & Hcs & Hbase). rewrite Hbase in *.
  assert (Forall good cs) as Hg by (eapply Forall_impl; [exact Hcs|apply plain_good]).
  rewrite (rooted_root k cs Hk Hg) in Hb.
  assert (Forall good names) as Hgn by (eapply Forall_impl; [exact Hns|by intros n Hn; apply safe_name_good]).
  rewrite path_join_rooted by done.
  assert (starts_with [slash] (rooted_path k (cs ++ names)) = true) as Hst.
  { unfold starts_with. apply bool_decide_eq_true_2. destruct Hk as [-> | ->]; apply prefix_cons, prefix_nil. }
  unfold abspath. rewrite Hst, normpath_rooted; [|done|by apply Forall_app|].
  2: { apply Forall_app. split; eapply Forall_impl; [exact Hcs|by intros c (_ & _ & ? & _)|exact Hns|by intros n Hn; apply safe_name_good]. }
  rewrite filter_app.
  assert (filter (λ c, c ≠ [dot]) cs = cs) as Hfil.
  { clear -Hcs. induction Hcs as [|c cs (_ & Hc & _) _ IH]; [done|]. rewrite filter_cons, decide_True by done. by rewrite IH. }
  rewrite Hfil, rooted_app by done. split; [done|]. unfold within.
  destruct (filter (λ n, n ≠ [dot]) names) as [|n ns]; simpl.
  - rewrite app_nil_r. rewrite (bool_decide_eq_true_2 _ eq_refl). apply orb_true_r.
  - apply orb_true_iff. left. unfold starts_with. apply bool_decide_eq_true_2.
    exists (n ++ (ns ≫= λ n, slash :: n)). by rewrite <- app_assoc.
Qed.

Lemma mapM_cleaned ps names : mapM cleaned ps = Some names ↔ names = basename <$> ps ∧ Forall safe_name names.
Proof.
  rewrite mapM_Some. split.
  - induction 1 as [|p n ps names Hn _ [IH1 IH2]]; [done|]. apply cleaned_spec in Hn as [-> Hs]. csimpl. rewrite <- IH1. auto.
  - intros [-> Hall]. induction ps as [|p ps IH]; [constructor|]. csimpl in *. apply Forall_cons in Hall as [Hp Hps].
    constructor; [by apply cleaned_spec|by apply IH].
Qed.

(** C32: below any directory but the root, [safe_join] succeeds exactly when at least
    one component is given and the last name of each is neither empty nor holds two
    dots or a NUL; the path is then the base directory followed by those names, so
    it never leaves the base, and no check of the code refuses a name it should
    take. *)
Theorem safe_join_contained base paths p :
  below_root base →
  safe_join cwd base paths = Some p ↔
  base ≠ [] ∧ let names := basename <$> filter (λ q, q ≠ []) paths in
    names ≠ [] ∧ Forall safe_name names ∧
    p = abspath cwd base ++ (filter (λ n, n ≠ [dot]) names ≫= λ n, slash :: n).
Proof.
  intros Hb. unfold safe_join. case_bool_decide as He; [naive_solver|]. cbv zeta.
  destruct (mapM cleaned (filter (λ q, q ≠ []) paths)) as [names|] eqn:Hm; simpl.
  - apply mapM_cleaned in Hm as [-> Hs]. case_bool_decide as Hn; [naive_solver|].
    destruct (joined_path base _ Hb Hs) as [-> ->]. naive_solver.
  - split; [done|]. intros (_ & _ & Hs & _).
    assert (mapM cleaned (filter (λ q, q ≠ []) paths) = Some (basename <$> filter (λ q, q ≠ []) paths)) as H
      by (by apply mapM_cleaned). congruence.
Qed.
End contained.

(** * sanitize_filename *)

Lemma drop_dots_loop p fuel : (length p < fuel)%nat →
  ∃ q, while_loop fuel (λ p, starts_with [dot] p) (drop 1) p = Some q ∧ starts_with [dot] q = false ∧ q `suffix_of` p.
Proof.
  revert fuel. induction p as [|c p IH]; intros fuel Hf; (destruct fuel as [|fuel]; [simpl in Hf; lia|]); simpl.
  - exists []. split; [by vm_compute|]. split; [by vm_compute|done].
  - destruct (starts_with [dot] (c :: p)) eqn:Hc.
    + destruct (IH fuel) as (q & Hq & Hd & Hs); [simpl in Hf; lia|]. exists q. split; [exact Hq|]. split; [done|].
      by apply suffix_cons_r.
    + by exists (c :: p).
Qed.

(** More fuel changes nothing. *)
Lemma while_loop_mono {S} fuel fuel' (cond : S → bool) body s r :
  (fuel ≤ fuel')%nat → while_loop fuel cond body s = Some r → while_loop fuel' cond body s = Some r.
Proof.
  revert fuel' s. induction fuel as [|fuel IH]; intros fuel' s Hle Hr; [done|].
  destruct fuel' as [|fuel']; [lia|]. simpl in *. destruct (cond s); [|done]. apply IH; [lia|done].
Qed.

Definition clean_char (c : ascii) : Prop := (c ∉ FORBIDDEN_CHARS) ∧ c ≠ nul.

(** No two dots in a row. *)
Fixpoint single_dots (p : text) : bool :=
  match p with
  | [] => true
  | c :: p' => negb (bool_decide (c = dot ∧ head p' = Some dot)) && single_dots p'
  end.

Lemma collapse_head p : head (collapse_dots p) = head p.
Proof.
  induction p as [|c p IH]; [done|]. simpl. case_decide as Hc; [|done]. destruct Hc as [-> Hh]. by rewrite IH, Hh.
Qed.

Lemma collapse_single p : single_dots (collapse_dots p) = true.
Proof.
  induction p as [|c p IH]; [done|]. simpl. case_decide as Hc; [done|]. simpl. rewrite IH, collapse_head.
  by rewrite bool_decide_eq_false_2.
Qed.

Lemma collapse_subset p c : c ∈ collapse_dots p → c ∈ p.
Proof.
  induction p as [|d p IH]; [done|]. simpl. case_decide; [set_solver|]. rewrite !elem_of_cons. set_solver.
Qed.

Lemma collapse_length p : (length (collapse_dots p) ≤ length p)%nat.
Proof. induction p as [|d p IH]; [done|]. simpl. case_decide; simpl; lia. Qed.

Lemma single_dots_suffix p q : q `suffix_of` p → single_dots p = true → single_dots q = true.
Proof.
  intros [r ->]. induction r as [|c r IH]; [done|]. simpl. intros H. apply IH. by apply andb_true_iff in H as [_ H].
Qed.

Lemma single_dots_prefix p q : q `prefix_of` p → single_dots p = true → single_dots q = true.
Proof.
  intros [r ->]. induction q as [|c q IH]; [done|]. simpl. rewrite !andb_true_iff. intros [H1 H2]. split; [|by apply IH].
  destruct q as [|d q]; [|done]. rewrite bool_decide_eq_false_2; [done|]. by intros [_ ?].
Qed.

(** Stripping keeps an infix. *)
Lemma drop_spaces_is_suffix l : drop_spaces l `suffix_of` l.
Proof. destruct (drop_spaces_suffix l) as (p & Hp & _). by exists p. Qed.

Lemma rdrop_spaces_prefix l : rdrop_spaces l `prefix_of` l.
Proof.
  unfold rdrop_spaces. destruct (drop_spaces_suffix (reverse l)) as (p & Hp & _). exists (reverse p).
  rewrite <- reverse_app, <- Hp. by rewrite reverse_involutive.
Qed.

Lemma strip_text_single p : single_dots p = true → single_dots (strip_text p) = true.
Proof.
  intros H. eapply single_dots_prefix; [apply rdrop_spaces_prefix|]. eapply single_dots_suffix; [apply drop_spaces_is_suffix|done].
Qed.

Lemma strip_text_subset p c : c ∈ strip_text p → c ∈ p.
Proof.
  unfold strip_text. destruct (rdrop_spaces_prefix (drop_spaces p)) as [r Hr]. destruct (drop_spaces_is_suffix p) as [q Hq].
  intros Hc. rewrite Hq, Hr. set_solver.
Qed.

Lemma basename_length p : (length (basename p) ≤ length p)%nat.
Proof.
  unfold basename. destruct (after_last_slash_spec p p) as [[_ ->]|(q & r & Hp & _ & ->)]; [done|]. rewrite Hp, length_app. simpl. lia.
Qed.

Lemma replaced_facts p :
  (length (replaced p) ≤ length p)%nat ∧ Forall clean_char (replaced p) ∧ single_dots (replaced p) = true.
Proof.
  unfold replaced. split; [|split; [|apply collapse_single]].
  - etransitivity; [apply collapse_length|]. rewrite length_fmap. etransitivity; [apply length_filter|apply basename_length].
  - apply Forall_forall. intros c Hc%collapse_subset. apply list_elem_of_fmap in Hc as (d & -> & Hd).
    apply list_elem_of_filter in Hd as [Hd _]. unfold clean_char. case_decide; [by_decide|done].
Qed.

(** An extension is the text from the last dot on, or nothing. *)
Lemma splitext_app p : (splitext p).1 ++ (splitext p).2 = p.
Proof.
  unfold splitext. destruct (list_find _ _) as [[i c]|]; [|apply app_nil_r].
  destruct (existsb _ _); [apply take_drop|apply app_nil_r].
Qed.

Lemma cut_subset p c : c ∈ cut_filename p → c ∈ p.
Proof.
  unfold cut_filename. case_match; [|done]. pose proof (splitext_app p) as Hs. destruct (splitext p) as [name ext]. simpl in Hs.
  rewrite <- Hs, !elem_of_app. intros [Hc|Hc]; [left|by right]. unfold py_prefix in Hc.
  rewrite <- (take_drop (Z.to_nat (if MAX_FILENAME - Z.of_nat (length ext) <? 0
    then Z.of_nat (length name) + (MAX_FILENAME - Z.of_nat (length ext)) else MAX_FILENAME - Z.of_nat (length ext))) name).
  apply elem_of_app. by left.
Qed.

Lemma cut_length p : (length (splitext p).2 ≤ 255)%nat → (length (cut_filename p) ≤ 255)%nat.
Proof.
  intros He. unfold cut_filename, MAX_FILENAME. destruct (255 <? Z.of_nat (length p)) eqn:Hl; z_bool; [|lia].
  destruct (splitext p) as [name ext]. simpl in He. rewrite length_app. unfold py_prefix.
  rewrite (proj2 (Z.ltb_ge _ _)) by lia. rewrite length_take. lia.
Qed.

(** C33: the loop of [sanitize_filename] ends: as many rounds as the name has
    characters are enough, and more change nothing.  The name it leaves has no
    separator, NUL or reserved character; up to 255 characters it has no two dots in
    a row, and it is never longer unless its extension alone is. *)
Theorem sanitize_filename_terminates filename :
  ∃ q, let r := cut_filename q in
    (∀ fuel, (length filename < fuel)%nat → sanitize_filename fuel filename = Some r) ∧
    Forall clean_char r ∧ single_dots q = true ∧ (length q ≤ length filename)%nat ∧
    ((length q ≤ 255)%nat → r = q) ∧ ((length (splitext q).2 ≤ 255)%nat → (length r ≤ 255)%nat).
Proof.
  destruct filename as [|c p].
  { exists []. split; [done|]. split; [constructor|]. split; [done|]. split; [done|]. split; [done|]. intros _. vm_compute. lia. }
  destruct (replaced_facts (c :: p)) as (Hlen & Hclean & Hsingle).
  destruct (drop_dots_loop (replaced (c :: p)) (S (length (c :: p)))) as (q & Hq & _ & Hsuf); [lia|].
  exists (strip_text q). cbv zeta. split; [|split; [|split; [|split; [|split]]]].
  - intros fuel Hf. unfold sanitize_filename.
    rewrite (while_loop_mono (S (length (c :: p))) fuel _ _ _ _ ltac:(lia) Hq). done.
  - apply Forall_forall. intros x Hx%cut_subset%strip_text_subset. rewrite Forall_forall in Hclean. apply Hclean.
    destruct Hsuf as [r ->]. apply elem_of_app. by right.
  - apply strip_text_single. by eapply single_dots_suffix.
  - assert (length (strip_text q) ≤ length q)%nat.
    { unfold strip_text. destruct (rdrop_spaces_prefix (drop_spaces q)) as [r Hr].
      destruct (drop_spaces_is_suffix q) as [r' Hr']. rewrite Hr' at 2. rewrite length_app. rewrite Hr at 2. rewrite length_app. lia. }
    apply suffix_length in Hsuf. lia.
  - intros Hs. unfold cut_filename, MAX_FILENAME. by rewrite (proj2 (Z.ltb_ge _ _)) by lia.
  - apply cut_length.
Qed.

(** * Names *)

(** A name of one dot passes, and the path is the directory itself. *)
Example one_dot_is_the_folder :
  safe_join (chars "/srv") (chars "/srv/uploads") [chars "."] = Some (chars "/srv/uploads").
Proof. vm_compute. reflexivity. Qed.

(** Stripping the spaces after the dots uncovers a leading dot. *)
Example hidden_file_survives : sanitize_filename 20 (chars " .htaccess") = Some (chars ".htaccess").
Proof. vm_compute. reflexivity. Qed.

(** A cut can bring two dots together. *)
Example cut_joins_dots :
  let name := (replicate 250 "a"%char ++ chars ".bcdef.txt")%list in
  sanitize_filename 300 name = Some (replicate 250 "a"%char ++ chars "..txt")%list.
Proof. vm_compute. reflexivity. Qed.

Lemma safe_join_contained_witness :
  safe_join (chars "/srv") (chars "uploads") [chars "../../etc/passwd"] = Some (chars "/srv/uploads/passwd") ∧
  safe_join (chars "/srv") (chars "uploads") [chars "a..b"] = None.
Proof.
  assert (below_root (chars "/srv") (chars "uploads")) as Hb by (unfold below_root; by_decide).
  assert (starts_with [slash] (chars "/srv") = true) as Hcwd by (vm_compute; reflexivity).
  split.
  - apply (safe_join_contained (chars "/srv") Hcwd); [exact Hb|]. split; [by vm_compute|].
    split; [by vm_compute|]. split; [|by vm_compute]. constructor; [|constructor].
    split; [by vm_compute|]. split; [by_decide|]. split; [by vm_compute|by_decide].
  - destruct (safe_join _ _ _) as [p|] eqn:E; [|done]. apply (safe_join_contained (chars "/srv") Hcwd) in E; [|exact Hb].
    destruct E as (_ & _ & Hs & _). apply Forall_inv in Hs as (_ & _ & Hd & _). by vm_compute in Hd.
Defined.
