(* ===== verification/LogSafety.v ===== *)
(** Texts written to the log (app/security/log_sanitizer.py) and parameters kept out
    of the query string (app/security/query_string_protection.py), with the response
    headers that are removed (app/security/header_sanitization.py).

    A text is the list of its characters; what [str] makes of an object is part of
    the argument. *)
From stdpp Require Import pretty.
From Stdlib Require Import Ascii String.
From S2P Require Import Prelude PyStr ParamValidation PathSafety.

(** * log_sanitizer *)

(** The argument of [sanitize_for_log]: [None], an object whose [str] fails, or one
    with its text. *)
Inductive LogValue : Type := LNone | LUnprintable | LText (s : text).

Definition CR : ascii := chr 13.
Definition LF : ascii := chr 10.
Definition TAB : ascii := chr 9.

(** [s.replace('\r\n', '[CRLF]')]. *)
Fixpoint replace_crlf (s : text) : text :=
  match s with
  | [] => []
  | c :: s' =>
      match s' with
      | d :: s'' => if decide (c = CR ∧ d = LF) then chars "[CRLF]" ++ replace_crlf s'' else c :: replace_crlf s'
      | [] => [c]
      end
  end.

(** [s.replace(c, marker)] of one character. *)
Definition replace_char (c : ascii) (marker : string) (s : text) : text :=
  s ≫= λ d, if decide (d = c) then chars marker else [d].

(** The class [\x00-\x08\x0b\x0c\x0e-\x1f\x7f]. *)
Definition is_other_control (c : ascii) : bool :=
  let z := code c in
  (z <=? 8) || (z =? 11) || (z =? 12) || ((14 <=? z) && (z <=? 31)) || (z =? 127).

Definition replace_control (s : text) : text :=
  s ≫= λ d, if is_other_control d then chars "[CTRL]" else [d].

Definition truncated (max_length : Z) (s : text) : text :=
  if max_length <? Z.of_nat (length s) then py_prefix max_length s ++ chars "...(truncated)" else s.

Definition sanitize_for_log (value : LogValue) (max_length : Z) : text :=
  match value with
  | LNone => chars "[None]"
  | LUnprintable => chars "[UnprintableObject]"
  | LText s =>
      truncated max_length
        (replace_char TAB "[TAB]" (replace_control
          (replace_char CR "[CR]" (replace_char LF "[LF]" (replace_crlf s)))))
  end.

(** [url.split('?', 1)]. *)
Fixpoint split_query (url : text) : text * option text :=
  match url with
  | [] => ([], None)
  | c :: url' => if decide (c = "?"%char) then ([], Some url')
                 else let '(base, q) := split_query url' in (c :: base, q)
  end.

Definition count_char (c : ascii) (s : text) : Z := Z.of_nat (length (filter (λ d, d = c) s)).

Definition sanitize_url_for_log (url : text) (max_length : Z) : text :=
  if bool_decide (url = []) then chars "[EmptyURL]" else
  let '(base, q) := split_query url in
  sanitize_for_log (LText base) max_length ++
  match q with
  | Some (c :: query_part) =>
      chars "?[" ++ chars (py_str (count_char "=" (c :: query_part))) ++ chars " param(s) redacted]"
  | _ => []
  end.

(** [pattern in s]. *)
Fixpoint has_infix (pattern s : text) : bool :=
  starts_with pattern s || match s with [] => false | _ :: s' => has_infix pattern s' end.

Definition lower_text (s : text) : text := lower_char <$> s.

Definition SENSITIVE_KEYS : list string :=
  ["password"; "secret"; "token"; "key"; "auth"; "credential"; "ssn"; "credit_card"; "card_number"; "cvv"; "pin"]%string.

Definition dict_entry (sensitive_keys : list string) (kv : text * LogValue) : text :=
  if existsb (λ p, has_infix (chars p) (lower_text kv.1)) sensitive_keys
  then kv.1 ++ chars "=[REDACTED]"
  else kv.1 ++ chars "=" ++ sanitize_for_log kv.2 100.

(** [', '.join(l)]. *)
Fixpoint join_comma (l : list text) : text :=
  match l with [] => [] | [w] => w | w :: ws => w ++ chars ", " ++ join_comma ws end.

Definition sanitize_dict_for_log (d : list (text * LogValue)) (max_length : Z) (sensitive_keys : option (list string)) : text :=
  let result := chars "{" ++ join_comma (dict_entry (default SENSITIVE_KEYS sensitive_keys) <$> d) ++ chars "}" in
  if max_length <? Z.of_nat (length result) then py_prefix max_length result ++ chars "...(truncated)}" else result.

(** [exc] is the name of its type and what [str] makes of it. *)
Definition sanitize_exception_for_log (exc : option (text * option text)) (max_length : Z) : text :=
  match exc with
  | None => chars "[NoException]"
  | Some (_, None) => chars "[UnprintableException]"
  | Some (exc_type, Some msg) =>
      exc_type ++ chars ": " ++ sanitize_for_log (LText msg) (max_length - Z.of_nat (length exc_type) - 3)
  end.

(** * query_string_protection *)

Definition SENSITIVE_PARAMETERS : list string := [
  "password"; "current_password"; "new_password"; "confirm_password"; "password_hash"; "token"; "api_key";
  "secret"; "auth_token"; "session_token"; "csrf_token";
  "email"; "phone"; "phone_no"; "contact_phone"; "contact_email"; "first_name"; "last_name"; "user_name";
  "full_name"; "address"; "address1_text"; "address2_text"; "postal_code"; "national_id"; "tax_id"; "ssn";
  "credit_card"; "card_number"; "cvv"; "account_number"; "bank_account"; "salary";
  "donation_desc"; "comments_text"; "reason_text"; "reason_desc"; "rqst_notes_text"; "impact_desc"; "event_desc";
  "agency_name"; "contact_name"; "donor_name"; "warehouse_name"; "item_name"; "category_desc"; "uom_desc";
  "batch_no"; "batch_date"; "expiry_date"; "received_date"; "verify_dtime"; "dispatch_dtime";
  "is_active"; "job_title"; "organization"; "roles"; "warehouse_assignment"]%string.

Definition SENSITIVE_PARAMETERS_LOWER : gset string := list_to_set (lower <$> SENSITIVE_PARAMETERS).

Definition sensitive_patterns : list string :=
  ["password"; "email"; "phone"; "address"; "token"; "secret"; "credit"; "card"; "account"; "ssn"; "national_id"]%string.

Definition is_sensitive_parameter (param_name : string) : bool :=
  if bool_decide (param_name = ""%string) then false
  else bool_decide (lower param_name ∈ SENSITIVE_PARAMETERS_LOWER) ||
       existsb (λ p, has_infix (chars p) (chars (lower param_name))) sensitive_patterns.

(** The dict that is left and the names that were removed. *)
Definition sanitize_query_string (query_args : list (string * string)) : list (string * string) * list string :=
  (foldl (λ acc kv, if is_sensitive_parameter kv.1 then acc else dict_set kv.1 kv.2 acc) [] query_args,
   (filter (λ kv, is_sensitive_parameter kv.1 = true) query_args).*1).

Definition get_safe_query_params (query_args : list (string * string)) : list (string * string) :=
  (sanitize_query_string query_args).1.

(** The handler run before every request: [Some] names end it with 400. *)
Definition strip_sensitive_query_params (query_args : list (string * string)) : option (list string) :=
  match filter (λ k, is_sensitive_parameter k = true) query_args.*1 with
  | [] => None
  | sensitive_found => Some sensitive_found
  end.

(** [true] is valid. *)
Definition validate_post_only_submission (is_post : bool) (form_fields : list string)
    (query_args : list (string * string)) : bool :=
  negb is_post ||
  bool_decide (filter (λ f, f ∈ query_args.*1 ∧ is_sensitive_parameter f = true) form_fields = []).

(** * header_sanitization *)

Definition headers_to_remove : list string :=
  ["Server"; "X-Powered-By"; "X-AspNet-Version"; "X-AspNetMvc-Version"; "X-Runtime"; "Via"]%string.

Definition sanitized_headers (headers : list (string * string)) : list (string * string) :=
  filter (λ h, lower h.1 ∉ lower <$> headers_to_remove) headers.

(** * What is written *)

(** A character that starts no new line and moves no cursor. *)
Definition printable (c : ascii) : Prop := 32 ≤ code c ∧ code c ≠ 127.

#[export] Instance printable_dec c : Decision (printable c).
Proof. unfold printable. apply _. Defined.

Lemma code_range c : 0 ≤ code c < 256.
Proof. unfold code. pose proof (nat_ascii_bounded c). lia. Qed.

Lemma code_inj c d : code c = code d → c = d.
Proof.
  unfold code. intros H. apply Nat2Z.inj in H. rewrite <- (ascii_nat_embedding c), <- (ascii_nat_embedding d). by rewrite H.
Qed.

Lemma printable_not c : printable c ↔ c ≠ LF ∧ c ≠ CR ∧ c ≠ TAB ∧ is_other_control c = false.
Proof.
  pose proof (code_range c) as Hr. unfold printable, is_other_control.
  assert (∀ z, 0 ≤ z < 256 → code (chr z) = z) as Hz.
  { intros z Hz. unfold code, chr. rewrite nat_ascii_embedding; lia. }
  split.
  - intros [H1 H2]. split; [intros ->; unfold LF in H1; rewrite Hz in H1; lia|].
    split; [intros ->; unfold CR in H1; rewrite Hz in H1; lia|]. split; [intros ->; unfold TAB in H1; rewrite Hz in H1; lia|].
    repeat match goal with
    | |- context [?a <=? ?b] => destruct (Z.leb_spec a b)
    | |- context [?a =? ?b] => destruct (Z.eqb_spec a b)
    end; simpl; first [done|exfalso; lia].
  - intros (H1 & H2 & H3 & H4).
    assert (∀ z, 0 ≤ z < 256 → c ≠ chr z → code c ≠ z) as Hne.
    { intros z Hzr Hne Hc. apply Hne, code_inj. by rewrite Hz. }
    apply Hne in H1, H2, H3; [|lia..]. z_bool.
    destruct (14 <=? code c) eqn:E1, (code c <=? 31) eqn:E2; z_bool; try done; lia.
Qed.

Lemma bind_forall (P Q : ascii → Prop) (f : ascii → text) s :
  (∀ c, P c → Forall Q (f c)) → Forall P s → Forall Q (s ≫= f).
Proof. intros Hf Hs. induction Hs; csimpl; [constructor|]. apply Forall_app. auto. Qed.

Lemma marker_printable m : m ∈ ["[CRLF]"; "[LF]"; "[CR]"; "[CTRL]"; "[TAB]"; "...(truncated)"; "[None]"; "[UnprintableObject]"]%string →
  Forall printable (chars m).
Proof.
  revert m. apply Forall_forall. by_decide.
Qed.

(** Replacing a character by a printable marker removes it and adds nothing that is
    not printable. *)
Lemma replace_char_spec (P : ascii → Prop) c m s :
  (∀ d, printable d → P d) → Forall printable (chars m) → Forall P s →
  Forall (λ d, P d ∧ d ≠ c ∨ printable d) (replace_char c m s).
Proof.
  intros HP Hm Hs. apply (bind_forall P); [|exact Hs]. intros d Hd. case_decide.
  - eapply Forall_impl; [exact Hm|]. auto.
  - constructor; [by left|constructor].
Qed.

Lemma sanitized_text s :
  Forall printable (replace_char TAB "[TAB]" (replace_control
    (replace_char CR "[CR]" (replace_char LF "[LF]" (replace_crlf s))))).
Proof.
  assert (Forall (λ _, True) (replace_crlf s)) as H0 by (by apply Forall_true).
  apply (replace_char_spec _ LF "[LF]") in H0; [|done|apply marker_printable; set_solver].
  apply (replace_char_spec _ CR "[CR]") in H0; [|by auto|apply marker_printable; set_solver].
  assert (Forall (λ d, d ≠ LF ∧ d ≠ CR ∧ is_other_control d = false)
    (replace_control (replace_char CR "[CR]" (replace_char LF "[LF]" (replace_crlf s))))) as H1.
  { eapply bind_forall; [|exact H0]. intros d Hd. destruct (is_other_control d) eqn:E.
    - eapply Forall_impl; [apply (marker_printable "[CTRL]"); set_solver|]. intros x Hx%printable_not. tauto.
    - repeat constructor; try done.
      + intros ->. destruct Hd as [[[[_ ?]|Hp] _]|Hp]; [done|apply printable_not in Hp; tauto..].
      + intros ->. destruct Hd as [[_ ?]|Hp]; [done|apply printable_not in Hp; tauto]. }
  eapply bind_forall; [|exact H1]. intros d Hd. case_decide as Ht.
  - apply marker_printable. set_solver.
  - destruct Hd as (? & ? & ?). constructor; [by apply printable_not|constructor].
Qed.

Lemma replace_crlf_fixed s : Forall printable s → replace_crlf s = s.
Proof.
  induction 1 as [|c s Hc Hs IH]; [done|]. simpl. destruct s as [|d s]; [done|]. rewrite decide_False; [by rewrite IH|].
  intros [-> _]. apply printable_not in Hc. tauto.
Qed.

Lemma bind_fixed (f : ascii → text) s : Forall (λ c, f c = [c]) s → s ≫= f = s.
Proof. induction 1 as [|c s Hc Hs IH]; [done|]. csimpl. by rewrite Hc, IH. Qed.

(** C34: nothing written to the log through [sanitize_for_log] starts a new line,
    returns or holds any other control character below 128, so no logged value can
    forge an entry; with a limit it is at most the marker longer; and a printable text
    within the limit is written as it is. *)
Theorem sanitize_for_log_safe value max_length :
  Forall printable (sanitize_for_log value max_length) ∧
  (∀ s, value = LText s → 0 ≤ max_length →
     Z.of_nat (length (sanitize_for_log value max_length)) ≤ max_length + 14 ∧
     (Forall printable s → Z.of_nat (length s) ≤ max_length → sanitize_for_log value max_length = s)).
Proof.
  split.
  - destruct value as [| |s]; simpl; [by_decide..|].
    unfold truncated. pose proof (sanitized_text s) as Hs. case_match; [|done]. apply Forall_app.
    split; [by apply Forall_take|]. by_decide.
  - intros s -> Hm. simpl. split.
    + unfold truncated. case_match; z_bool; [|lia]. unfold py_prefix. rewrite (proj2 (Z.ltb_ge _ _)) by done.
      rewrite length_app, length_take. change (length (chars "...(truncated)")) with 14%nat. lia.
    + intros Hp Hl.
      assert (∀ c m, ¬ printable c → replace_char c m s = s) as Hrep.
      { intros c m Hc. apply bind_fixed. eapply Forall_impl; [exact Hp|]. intros d Hd. simpl. rewrite decide_False; [done|]. by intros ->. }
      assert (¬ printable LF ∧ ¬ printable CR ∧ ¬ printable TAB) as (N1 & N2 & N3).
      { rewrite !printable_not. tauto. }
      rewrite replace_crlf_fixed, Hrep, Hrep by done.
      assert (replace_control s = s) as ->.
      { apply bind_fixed. eapply Forall_impl; [exact Hp|]. intros d Hd. apply printable_not in Hd as (_ & _ & _ & Hd). by rewrite Hd. }
      rewrite Hrep by done. unfold truncated. by rewrite (proj2 (Z.ltb_ge _ _)).
Qed.

(** The keys of a dict are written as they are: a key can still forge an entry. *)
Example dict_key_forges_entry :
  LF ∈ sanitize_dict_for_log [(chars "a" ++ [LF] ++ chars "b", LText (chars "x"))] 500 None.
Proof. by_decide. Qed.

(** * What the query string may hold *)

(** The parameters the routes read from it, all of which pass. *)
Example route_parameters_pass :
  forallb (λ p, negb (is_sensitive_parameter p))
    ["filter"; "search"; "warehouse_id"; "status"; "movement_type"; "item_id"; "data_source"; "page"; "event_id";
     "donor_id"; "date_to"; "date_from"; "start_date"; "required_uom"; "remaining_qty"; "priority"; "print"; "period";
     "parish"; "item_search"; "is_batched"; "from_tab"; "end_date"; "current_allocations"; "currency_code";
     "country_id"; "category_id"; "category"; "can_expire"; "allocated_batch_ids"; "agency_type"]%string = true.
Proof. vm_compute. reflexivity. Qed.

Lemma lower_char_idemp c : lower_char (lower_char c) = lower_char c.
Proof. destruct c as [[] [] [] [] [] [] [] []]; vm_compute; reflexivity. Qed.

Lemma lower_idemp s : lower (lower s) = lower s.
Proof.
  unfold lower. rewrite chars_of_chars. f_equal. rewrite <- list_fmap_compose. apply list_fmap_ext.
  intros i c _. apply lower_char_idemp.
Qed.

(** Spelling a name in other case hides nothing. *)
Lemma is_sensitive_lower p : is_sensitive_parameter (lower p) = is_sensitive_parameter p.
Proof.
  unfold is_sensitive_parameter. rewrite lower_idemp.
  assert (lower p = ""%string ↔ p = ""%string) as He by (destruct p; done).
  by rewrite (bool_decide_ext _ _ He).
Qed.

Lemma dict_set_names {V} k (v : V) (d : list (string * V)) x : x ∈ (dict_set k v d).*1 ↔ x = k ∨ x ∈ d.*1.
Proof.
  induction d as [|[k' v'] d IH]; csimpl; [set_solver|]. simpl. case_decide; csimpl; set_solver.
Qed.

(** A request goes on exactly when no name in its query string is sensitive, in
    whatever case; what [get_safe_query_params] keeps of any query string are exactly
    the other names. *)
Lemma query_gate query_args :
  (strip_sensitive_query_params query_args = None ↔
    ∀ k v, (k, v) ∈ query_args → is_sensitive_parameter k = false) ∧
  (∀ k, k ∈ (get_safe_query_params query_args).*1 ↔ k ∈ query_args.*1 ∧ is_sensitive_parameter k = false).
Proof.
  split.
  - unfold strip_sensitive_query_params. destruct (filter _ _) as [|k l] eqn:E.
    + split; [|done]. intros _ k v Hin. destruct (is_sensitive_parameter k) eqn:Hs; [|done].
      assert (k ∈ filter (λ k, is_sensitive_parameter k = true) query_args.*1) as Hk; [|rewrite E in Hk; by apply elem_of_nil in Hk].
      apply list_elem_of_filter. split; [done|]. by apply (list_elem_of_fmap_2 fst _ (k, v)).
    + split; [done|]. intros H.
      assert (k ∈ filter (λ k, is_sensitive_parameter k = true) query_args.*1) as Hk by (rewrite E; by left).
      apply list_elem_of_filter in Hk as [Hs Hk]. apply list_elem_of_fmap in Hk as ([k' v] & -> & Hin).
      simpl in Hs. rewrite (H k' v Hin) in Hs. done.
  - intros k. unfold get_safe_query_params, sanitize_query_string. simpl.
    assert (∀ acc, k ∈ (foldl (λ acc kv, if is_sensitive_parameter kv.1 then acc else dict_set kv.1 kv.2 acc) acc query_args).*1 ↔
      k ∈ acc.*1 ∨ (k ∈ query_args.*1 ∧ is_sensitive_parameter k = false)) as Hgen.
    { induction query_args as [|[k' v] l IH]; intros acc; csimpl; [set_solver|]. rewrite IH.
      destruct (is_sensitive_parameter k') eqn:Hs.
      - rewrite elem_of_cons. split; [tauto|]. intros [?|[[->|?] ?]]; [tauto|congruence|tauto].
      - rewrite dict_set_names, elem_of_cons. simpl. split; [|tauto]. intros [[->|?]|?]; tauto. }
    rewrite Hgen. simpl. set_solver.
Qed.
