(* ===== verification/Phone.v ===== *)
(** Phone numbers (app/core/phone_utils.py): the one accepted format, and the
    conversion of other spellings to it. *)
From Stdlib Require Import Ascii String.
From S2P Require Import Prelude PyStr ParamValidation PathSafety.

(** The format +1 (XXX) XXX-XXXX around the ten digits. *)
Definition format_phone (digits : text) : text :=
  chars "+1 (" ++ take 3 digits ++ chars ") " ++ take 3 (drop 3 digits) ++ chars "-" ++ take 4 (drop 6 digits).

(** [PHONE_REGEX]; a [None] of the pattern is a digit. *)
Definition PHONE_PATTERN : list (option ascii) :=
  (Some <$> chars "+1 (") ++ replicate 3 None ++ (Some <$> chars ") ") ++ replicate 3 None ++
  (Some <$> chars "-") ++ replicate 4 None.

Fixpoint matches (pattern : list (option ascii)) (s : text) : bool :=
  match pattern, s with
  | [], [] => true
  | p :: pattern', c :: s' =>
      (match p with Some d => bool_decide (c = d) | None => is_digit c end) && matches pattern' s'
  | _, _ => false
  end.

Definition validate_phone_format (phone_no : text) : bool :=
  if bool_decide (phone_no = []) then false else matches PHONE_PATTERN (strip_text phone_no).

(** [re.sub(r'\D', '', s)]. *)
Definition digits_of (s : text) : text := filter (λ c, is_digit c = true) s.

Definition phone_digits (phone_no : text) : text :=
  let cleaned := strip_text phone_no in
  let digits := digits_of cleaned in
  if starts_with (chars "+1") cleaned then (if (10 <? length digits)%nat then drop 1 digits else digits)
  else if starts_with (chars "1") cleaned && (length digits =? 11)%nat then drop 1 digits
  else digits.

Definition normalize_phone_number (phone_no : text) : option text :=
  if bool_decide (phone_no = []) then None else
  if (length (phone_digits phone_no) =? 10)%nat then Some (format_phone (phone_digits phone_no)) else None.

(** * The format *)

Lemma matches_length pattern s : matches pattern s = true → length s = length pattern.
Proof.
  revert s. induction pattern as [|p pattern IH]; intros [|c s]; simpl; try done.
  intros [_ H]%andb_true_iff. by rewrite (IH s H).
Qed.

(** Ten digits, one by one. *)
Ltac ten_digits ds Hd Hl :=
  do 10 (destruct ds as [|? ds]; [simpl in Hl; lia|]);
  destruct ds; [|simpl in Hl; lia];
  repeat match goal with H : Forall _ (_ :: _) |- _ => apply Forall_cons in H as [? H] end.

Lemma format_matches ds :
  Forall (λ c, is_digit c = true) ds → length ds = 10%nat → matches PHONE_PATTERN (format_phone ds) = true.
Proof.
  intros Hd Hl. ten_digits ds Hd Hl. simpl. repeat match goal with H : is_digit _ = true |- _ => rewrite H; clear H end. done.
Qed.

Lemma matches_format s : matches PHONE_PATTERN s = true →
  ∃ ds, Forall (λ c, is_digit c = true) ds ∧ length ds = 10%nat ∧ s = format_phone ds.
Proof.
  intros Hm. pose proof (matches_length _ _ Hm) as Hl. change (length PHONE_PATTERN) with 17%nat in Hl.
  do 17 (destruct s as [|? s]; [simpl in Hl; lia|]). destruct s; [|simpl in Hl; lia].
  simpl in Hm. repeat match goal with
  | H : _ && _ = true |- _ => apply andb_true_iff in H as [? H]
  | H : bool_decide (_ = _) = true |- _ => apply bool_decide_eq_true in H; subst
  end.
  match goal with
  | |- context [?a0 :: ?a1 :: ?a2 :: ?a3 :: ?d0 :: ?d1 :: ?d2 :: ?a4 :: ?a5 :: ?d3 :: ?d4 :: ?d5 :: ?a6 :: ?d6 :: ?d7 :: ?d8 :: ?d9 :: []] =>
      exists [d0; d1; d2; d3; d4; d5; d6; d7; d8; d9]
  end.
  split; [by repeat constructor|]. done.
Qed.

Lemma digits_of_format ds : Forall (λ c, is_digit c = true) ds → length ds = 10%nat →
  digits_of (format_phone ds) = "1"%char :: ds.
Proof.
  intros Hd Hl. ten_digits ds Hd Hl. unfold digits_of, format_phone. simpl.
  repeat (rewrite filter_cons; rewrite ?decide_True by done; rewrite ?decide_False by done). done.
Qed.

Lemma strip_text_fixed s : (∀ c, head s = Some c → is_space c = false) → (∀ c, last s = Some c → is_space c = false) →
  strip_text s = s.
Proof.
  intros Hh Hl. unfold strip_text. assert (drop_spaces s = s) as ->.
  { destruct s as [|c s]; [done|]. simpl. by rewrite (Hh c eq_refl). }
  unfold rdrop_spaces. assert (drop_spaces (reverse s) = reverse s) as ->; [|apply reverse_involutive].
  destruct (reverse s) as [|c r] eqn:E; [done|]. simpl. rewrite (Hl c); [done|].
  rewrite <- (reverse_involutive s), E, last_reverse. done.
Qed.

Lemma strip_format ds : Forall (λ c, is_digit c = true) ds → length ds = 10%nat →
  strip_text (format_phone ds) = format_phone ds.
Proof.
  intros Hd Hl. apply strip_text_fixed.
  - intros c. unfold format_phone. simpl. by intros [= <-].
  - ten_digits ds Hd Hl. unfold format_phone. simpl. intros c [= <-]. by apply digit_not_space.
Qed.

Lemma strip_text_idemp s : strip_text (strip_text s) = strip_text s.
Proof.
  unfold strip_text. rewrite (drop_rdrop (drop_spaces s) (drop_spaces_idemp s)). by rewrite rdrop_spaces_idemp.
Qed.

Lemma phone_digits_all p : Forall (λ c, is_digit c = true) (phone_digits p).
Proof.
  assert (Forall (λ c, is_digit c = true) (digits_of (strip_text p))) as H.
  { apply Forall_forall. intros c Hc. by apply list_elem_of_filter in Hc as [? _]. }
  unfold phone_digits. repeat case_match; try done; by apply Forall_drop.
Qed.

Lemma phone_digits_format ds : Forall (λ c, is_digit c = true) ds → length ds = 10%nat →
  phone_digits (format_phone ds) = ds.
Proof.
  intros Hd Hl. unfold phone_digits. rewrite strip_format, digits_of_format by done. simpl length. rewrite Hl. done.
Qed.

(** the validator accepts exactly the texts that the conversion leaves as they
    are, but for surrounding space; and what the conversion makes of any text is
    accepted, and converted to itself. *)
Theorem phone_formats_agree p :
  (validate_phone_format p = true ↔ normalize_phone_number p = Some (strip_text p)) ∧
  ∀ q, normalize_phone_number p = Some q →
    validate_phone_format q = true ∧ normalize_phone_number q = Some q ∧ digits_of q = "1"%char :: phone_digits p.
Proof.
  assert (∀ ds, Forall (λ c, is_digit c = true) ds → length ds = 10%nat →
    validate_phone_format (format_phone ds) = true ∧ normalize_phone_number (format_phone ds) = Some (format_phone ds)) as Hfix.
  { intros ds Hd Hl. split.
    - unfold validate_phone_format. rewrite bool_decide_eq_false_2 by done. rewrite strip_format by done. by apply format_matches.
    - unfold normalize_phone_number. rewrite bool_decide_eq_false_2 by done. rewrite phone_digits_format by done. by rewrite Hl. }
  assert (∀ q, normalize_phone_number p = Some q → q = format_phone (phone_digits p) ∧ length (phone_digits p) = 10%nat) as Hnorm.
  { unfold normalize_phone_number. intros q. case_bool_decide; [done|]. case_match eqn:Hl; [|done]. apply Nat.eqb_eq in Hl.
    by intros [= <-]. }
  split.
  - split.
    + unfold validate_phone_format, normalize_phone_number. case_bool_decide; [done|]. intros (ds & Hd & Hl & Hs)%matches_format.
      assert (phone_digits p = ds) as ->.
      { rewrite <- (phone_digits_format ds Hd Hl). unfold phone_digits. by rewrite <- Hs, strip_text_idemp. }
      by rewrite Hl, Hs.
    + intros Hn. destruct (Hnorm _ Hn) as [Hq Hl]. unfold normalize_phone_number in Hn. unfold validate_phone_format.
      case_bool_decide; [done|]. rewrite Hq. apply format_matches; [apply phone_digits_all|done].
  - intros q Hq. destruct (Hnorm q Hq) as [-> Hl]. pose proof (phone_digits_all p) as Hd.
    destruct (Hfix _ Hd Hl). split; [done|]. split; [done|]. by apply digits_of_format.
Qed.

(** Nine digits after +1 are read as a number whose area code begins with that 1. *)
Example nine_digits_accepted :
  normalize_phone_number (chars "+1876555123") = Some (chars "+1 (187) 655-5123").
Proof. vm_compute. reflexivity. Qed.

Lemma phone_formats_agree_witness :
  normalize_phone_number (chars " 1-876-555-1234") = Some (chars "+1 (876) 555-1234") ∧
  validate_phone_format (chars "+1 (876) 555-1234") = true.
Proof.
  assert (normalize_phone_number (chars " 1-876-555-1234") = Some (chars "+1 (876) 555-1234")) as Hn by (vm_compute; reflexivity).
  split; [exact Hn|]. apply (proj2 (phone_formats_agree (chars " 1-876-555-1234")) _ Hn).
Defined.
