(* ===== verification/Atomicity.v ===== *)
(** Programs that leave the stored data alone when they fail: the rules, and the
    tactics that walk a handler down to its commits. *)
From S2P Require Import Prelude Schema.

(** * Programs that do not commit *)

Definition no_commit {E A} (m : M Session E A) : Prop :=
  ∀ s, committed (m s).1 = committed s.

(** A failing exit leaves the committed state alone. *)
Definition fails_clean {E A} (m : M Session E A) : Prop :=
  ∀ s, match m s with (s', inl _) => committed s' = committed s | _ => True end.

Create HintDb commit.

Section rules.
Context {E : Type}.

Lemma nc_ret {A} (a : A) : no_commit (mret a : M Session E A).
Proof. by intros s. Qed.

Lemma nc_fail {A} (e : E) : no_commit (m_fail e : M Session E A).
Proof. by intros s. Qed.

Lemma nc_fail_if b (e : E) : no_commit (m_fail_if b e).
Proof. by destruct b. Qed.

Lemma nc_some {A} (o : option A) (e : E) : no_commit (m_some o e).
Proof. by destruct o. Qed.

Lemma nc_get : no_commit (db_get : M Session E DB).
Proof. by intros s. Qed.

Lemma nc_mod f : no_commit (db_mod f : M Session E unit).
Proof. by intros s. Qed.

Lemma nc_rollback : no_commit (db_rollback : M Session E unit).
Proof. by intros s. Qed.

Lemma nc_bind {A B} (m : M Session E A) (f : A → M Session E B) :
  no_commit m → (∀ a, no_commit (f a)) → no_commit (m ≫= f).
Proof.
  intros Hm Hf s. rewrite run_bind. specialize (Hm s). destruct (m s) as [s1 [e|a]]; [done|].
  rewrite Hf. done.
Qed.

Lemma nc_for {A} (l : list A) (body : A → M Session E unit) :
  (∀ a, no_commit (body a)) → no_commit (m_for l body).
Proof. intros Hb. induction l as [|a l IH]; [apply nc_ret|]. by apply (nc_bind (body a)). Qed.

Lemma nc_fold {A B} (l : list A) (b : B) (body : B → A → M Session E B) :
  (∀ b a, no_commit (body b a)) → no_commit (m_fold l b body).
Proof.
  intros Hb. revert b. induction l as [|a l IH]; intros b; [apply nc_ret|].
  apply (nc_bind (body b a)); auto.
Qed.

Lemma nc_call {E' A} (m : M Session E A) : no_commit m → no_commit (m_try (E' := E') m).
Proof. intros Hm s. specialize (Hm s). unfold m_try. by destruct (m s). Qed.

Lemma nc_clean {A} (m : M Session E A) : no_commit m → fails_clean m.
Proof. intros Hm s. specialize (Hm s). by destruct (m s) as [s' [?|?]]. Qed.

Lemma fc_bind {A B} (m : M Session E A) (f : A → M Session E B) :
  no_commit m → (∀ a, fails_clean (f a)) → fails_clean (m ≫= f).
Proof.
  intros Hm Hf s. rewrite run_bind. specialize (Hm s). destruct (m s) as [s1 [e|a]]; [done|].
  specialize (Hf a s1). destruct (f a s1) as [s2 [e|b]]; [|done]. simpl in *. congruence.
Qed.

Lemma fc_or_rollback {A} (m : M Session E A) : fails_clean m → fails_clean (or_rollback m).
Proof. intros Hm s. specialize (Hm s). unfold or_rollback. by destruct (m s) as [s1 [e|a]]. Qed.

Lemma fc_commit : fails_clean (db_commit : M Session E unit).
Proof. by intros s. Qed.
End rules.

#[export] Hint Resolve nc_ret nc_fail nc_fail_if nc_some nc_get nc_mod nc_rollback nc_bind nc_for nc_fold
  nc_call fc_commit : commit.

(** Walks a program down to its branches. *)
Ltac no_commit_tac :=
  repeat first
    [ progress intros
    | solve [auto with commit]
    | apply nc_bind
    | apply nc_for
    | apply nc_fold
    | apply nc_call
    | match goal with
      | |- no_commit (match ?x with _ => _ end) => destruct x
      end ].

Ltac clean_tac :=
  repeat first
    [ progress intros
    | solve [auto with commit]
    | apply fc_bind; [solve [no_commit_tac]|]
    | match goal with
      | |- fails_clean (match ?x with _ => _ end) => destruct x
      end
    | solve [apply nc_clean; no_commit_tac] ].
