(* ===== verification/Ledger.v ===== *)
(** The stock ledger: what every service that moves stock shares.

    The point queries the services issue on [itembatch] and [inventory], the
    [SUM] over the batches of an item at a warehouse, and the two ledger
    invariants the services are judged by: [balanced] (each inventory row holds
    the sums of its batches) and [within_stock] (no batch reserves more than it
    holds). *)
From S2P Require Import Prelude Schema.

(** * Queries *)

(** [ItemBatch.query.filter_by(batch_id=..., item_id=..., inventory_id=...).first()];
    [batch_id] is the primary key. *)
Definition find_batch (bid it wh : Z) (d : DB) : option ItemBatch :=
  match db_itembatch d !! bid with
  | Some b => if decide (ib_item_id b = it ∧ ib_inventory_id b = wh) then Some b else None
  | None => None
  end.

(** [Inventory.query.filter_by(inventory_id=..., item_id=...).first()]. *)
Definition find_inventory (wh it : Z) (d : DB) : option Inventory :=
  db_inventory d !! (wh, it).

(** The same query with [status_code='A']. *)
Definition find_active_inventory (wh it : Z) (d : DB) : option Inventory :=
  match db_inventory d !! (wh, it) with
  | Some i => if decide (inv_status_code i = "A"%string) then Some i else None
  | None => None
  end.

Definition put_batch (bid : Z) (b : ItemBatch) (d : DB) : DB :=
  set_db_itembatch (<[bid := b]> (db_itembatch d)) d.

Definition put_inventory (wh it : Z) (i : Inventory) (d : DB) : DB :=
  set_db_inventory (<[(wh, it) := i]> (db_inventory d)) d.

(** [SELECT SUM(column) FROM itembatch WHERE item_id = it AND inventory_id = wh]:
    NULL when no row matches. *)
Definition batch_sum `{Runtime} (f : ItemBatch → Z) (it wh : Z) (d : DB) : option Z :=
  match filter (λ b, ib_item_id b = it ∧ ib_inventory_id b = wh) (batch_rows (db_itembatch d)) with
  | [] => None
  | rows => Some (lsum f rows)
  end.

(** * The sum as a function of the table *)

Definition at_site (it wh : Z) (b : ItemBatch) : Prop :=
  ib_item_id b = it ∧ ib_inventory_id b = wh.

#[export] Instance at_site_dec it wh b : Decision (at_site it wh b).
Proof. unfold at_site. apply _. Defined.

Definition total (f : ItemBatch → Z) (it wh : Z) (m : gmap Z ItemBatch) : Z :=
  msum (λ b, if decide (at_site it wh b) then f b else 0) m.

Lemma batch_sum_total `{Runtime} f it wh d :
  default 0 (batch_sum f it wh d) = total f it wh (db_itembatch d).
Proof.
  unfold batch_sum, total. rewrite msum_lsum.
  transitivity (lsum f (filter (λ b, ib_item_id b = it ∧ ib_inventory_id b = wh)
    (batch_rows (db_itembatch d)))); [by destruct (filter _ _)|].
  rewrite lsum_filter, (lsum_perm _ _ _ (batch_rows_perm _)), lsum_fmap.
  apply lsum_ext. intros [k b] _. simpl. by repeat case_decide.
Qed.

Lemma total_put_same f it wh m k b b' :
  m !! k = Some b → at_site it wh b → at_site it wh b' →
  total f it wh (<[k := b']> m) = total f it wh m - f b + f b'.
Proof.
  intros Hk H1 H2. unfold total. rewrite (msum_insert _ _ _ _ _ Hk).
  by rewrite !decide_True.
Qed.

Lemma total_put_other f it wh m k b b' :
  m !! k = Some b → ¬ at_site it wh b → ¬ at_site it wh b' →
  total f it wh (<[k := b']> m) = total f it wh m.
Proof.
  intros Hk H1 H2. unfold total. rewrite (msum_insert _ _ _ _ _ Hk).
  rewrite !decide_False by done. lia.
Qed.

Lemma total_nonneg f it wh m :
  (∀ k b, m !! k = Some b → 0 ≤ f b) → 0 ≤ total f it wh m.
Proof.
  intros Hf. apply msum_nonneg. intros k b Hk. case_decide; [|done]. by eapply Hf.
Qed.

Lemma total_le f g it wh m :
  (∀ k b, m !! k = Some b → f b ≤ g b) → total f it wh m ≤ total g it wh m.
Proof. intros Hf. apply msum_le. intros k b Hk. case_decide; [|done]. by eapply Hf. Qed.

(** * Lookups after a write *)

Lemma find_batch_Some bid it wh d b :
  find_batch bid it wh d = Some b ↔ db_itembatch d !! bid = Some b ∧ at_site it wh b.
Proof. unfold find_batch, at_site. destruct (db_itembatch d !! bid); [case_decide|]; naive_solver. Qed.

Lemma find_batch_put bid it wh d bid' b' :
  find_batch bid it wh (put_batch bid' b' d) =
  if decide (bid = bid') then (if decide (at_site it wh b') then Some b' else None)
  else find_batch bid it wh d.
Proof.
  unfold find_batch, put_batch, at_site. simpl. case_decide; subst.
  - by rewrite lookup_insert_eq.
  - by rewrite lookup_insert_ne.
Qed.

Lemma find_active_inventory_Some wh it d i :
  find_active_inventory wh it d = Some i ↔
  db_inventory d !! (wh, it) = Some i ∧ inv_status_code i = "A"%string.
Proof. unfold find_active_inventory. destruct (db_inventory d !! (wh, it)); [case_decide|]; naive_solver. Qed.

Lemma set_ib_reserved_id b : set_ib_reserved (ib_reserved b) b = b.
Proof. by destruct b as [? ? ? ? ? ? []]. Qed.

Lemma at_site_set_reserved it wh q b : at_site it wh (set_ib_reserved q b) ↔ at_site it wh b.
Proof. done. Qed.

(** * The ledger invariants *)

(** No batch promises more than it holds. *)
Definition batch_within (b : ItemBatch) : Prop := 0 ≤ ib_reserved b ≤ ib_usable b.

Definition within_stock (d : DB) : Prop :=
  map_Forall (λ _ b, batch_within b) (db_itembatch d).

Definition reserved_nonneg (d : DB) : Prop :=
  map_Forall (λ _ b, 0 ≤ ib_reserved b) (db_itembatch d).

(** [sum(itembatch.reserved_qty) == inventory.reserved_qty] for every row, and
    the same for [usable_qty]. *)
Definition balanced_col (fi : Inventory → Z) (fb : ItemBatch → Z) (d : DB) : Prop :=
  map_Forall (λ k i, fi i = total fb k.2 k.1 (db_itembatch d)) (db_inventory d).

Definition balanced_reserved : DB → Prop := balanced_col inv_reserved ib_reserved.
Definition balanced_usable : DB → Prop := balanced_col inv_usable ib_usable.

Definition balanced (d : DB) : Prop := balanced_reserved d ∧ balanced_usable d.

(** Every inventory row is active, the filter of the reservation queries. *)
Definition all_active (d : DB) : Prop :=
  map_Forall (λ _ i, inv_status_code i = "A"%string) (db_inventory d).

#[export] Instance batch_within_dec b : Decision (batch_within b).
Proof. unfold batch_within. apply _. Defined.
#[export] Instance within_stock_dec d : Decision (within_stock d).
Proof. unfold within_stock. apply _. Defined.
#[export] Instance balanced_dec d : Decision (balanced d).
Proof. unfold balanced, balanced_reserved, balanced_usable, balanced_col. apply _. Defined.

#[export] Instance balanced_col_dec fi fb d : Decision (balanced_col fi fb d).
Proof. unfold balanced_col. apply _. Defined.
#[export] Instance balanced_reserved_dec d : Decision (balanced_reserved d).
Proof. unfold balanced_reserved. apply _. Defined.
#[export] Instance all_active_dec d : Decision (all_active d).
Proof. unfold all_active. apply _. Defined.

Lemma within_stock_nonneg d : within_stock d → reserved_nonneg d.
Proof. intros H k b Hk. by apply (H k b Hk). Qed.

(** * Loops whose iterations act on different rows

    When an iteration succeeds exactly when its precondition [ok] holds, then
    applies [eff], and the iterations for different elements do not disturb each
    other's precondition, the loop succeeds exactly when every precondition
    holds at the start. *)

Definition effects {A} (eff : A → DB → DB) (l : list A) (d : DB) : DB :=
  foldl (λ d a, eff a d) d l.

Lemma for_effects {E A} (body : A → M Session E unit)
    (ok : A → DB → Prop) (eff : A → DB → DB) :
  (∀ a s s', run_ok (body a) s tt s' ↔ ok a (work s) ∧ s' = upd_work (eff a) s) →
  (∀ a b d, a ≠ b → ok b (eff a d) ↔ ok b d) →
  ∀ l s s', NoDup l →
  run_ok (m_for l body) s tt s' ↔
  Forall (λ a, ok a (work s)) l ∧ s' = upd_work (effects eff l) s.
Proof.
  intros Hbody Hindep l. induction l as [|a l IH]; intros s s' Hl.
  - rewrite for_nil. destruct s. naive_solver.
  - apply NoDup_cons in Hl as [Ha Hl]. rewrite for_cons, Forall_cons.
    setoid_rewrite Hbody. setoid_rewrite (IH _ _ Hl).
    assert (Forall (λ b, ok b (eff a (work s))) l ↔ Forall (λ b, ok b (work s)) l) as Heq.
    { rewrite !Forall_forall. split; intros H b Hb; specialize (H b Hb);
        apply (Hindep a b); set_solver. }
    split.
    + intros (s1 & (Hok & ->) & Hall & ->). simpl in Hall. naive_solver.
    + intros ((Hok & Hall) & ->). eexists. split; [by split|]. simpl. naive_solver.
Qed.

(** * Rewriting the inventory rows of a set of sites

    Every service ends by walking the affected (item, warehouse) pairs and
    rewriting the inventory row of each from its batches. *)

Definition site_put (f : Z * Z → gmap Z ItemBatch → Inventory → Inventory)
    (site : Z * Z) (d : DB) : DB :=
  let '(it, wh) := site in
  match db_inventory d !! (wh, it) with
  | Some i => put_inventory wh it (f (wh, it) (db_itembatch d) i) d
  | None => d
  end.

Definition rewrite_sites (f : Z * Z → gmap Z ItemBatch → Inventory → Inventory)
    (sites : gset (Z * Z)) (d : DB) : DB :=
  set_db_inventory
    (map_imap (λ k i, Some (if decide ((k.2, k.1) ∈ sites)
                            then f k (db_itembatch d) i else i)) (db_inventory d)) d.

Lemma set_db_inventory_id d : set_db_inventory (db_inventory d) d = d.
Proof. by destruct d. Qed.

Lemma set_db_itembatch_id d : set_db_itembatch (db_itembatch d) d = d.
Proof. by destruct d. Qed.

Lemma site_put_frame (f : Z * Z → gmap Z ItemBatch → Inventory → Inventory) (l : list (Z * Z)) d :
  effects (site_put f) l d = set_db_inventory (db_inventory (effects (site_put f) l d)) d.
Proof.
  revert d. induction l as [|[it wh] l IH]; intros d; simpl.
  - by rewrite set_db_inventory_id.
  - rewrite IH. destruct (db_inventory d !! (wh, it)); [|done]. done.
Qed.

Lemma site_put_lookup (f : Z * Z → gmap Z ItemBatch → Inventory → Inventory)
    (l : list (Z * Z)) d k :
  NoDup l →
  db_inventory (effects (site_put f) l d) !! k =
  (λ i, if decide ((k.2, k.1) ∈ l) then f k (db_itembatch d) i else i) <$> db_inventory d !! k.
Proof.
  revert d. induction l as [|[it wh] l IH]; intros d Hnd.
  { simpl. by destruct (db_inventory d !! k). }
  apply NoDup_cons in Hnd as [Hin Hnd]. simpl. rewrite (IH _ Hnd).
  destruct (db_inventory d !! (wh, it)) as [i|] eqn:Hi; simpl.
  - destruct (decide (k = (wh, it))) as [->|Hne].
    + rewrite lookup_insert_eq, Hi. simpl. rewrite decide_False by done.
      by rewrite decide_True by set_solver.
    + rewrite lookup_insert_ne by done. destruct (db_inventory d !! k); [|done]. simpl.
      destruct k as [k1 k2]; simpl in *.
      destruct (decide ((k2, k1) ∈ l)); [by rewrite decide_True by set_solver|].
      rewrite decide_False; [done|]. rewrite elem_of_cons. naive_solver.
  - destruct (db_inventory d !! k) eqn:E; [|done]. simpl.
    destruct k as [k1 k2]; simpl in *.
    destruct (decide ((k2, k1) ∈ l)); [by rewrite decide_True by set_solver|].
    rewrite decide_False; [done|]. rewrite elem_of_cons. intros [[= -> ->]|?]; congruence.
Qed.

Lemma site_puts (f : Z * Z → gmap Z ItemBatch → Inventory → Inventory)
    (l : list (Z * Z)) (sites : gset (Z * Z)) d :
  NoDup l → (∀ x, x ∈ l ↔ x ∈ sites) →
  effects (site_put f) l d = rewrite_sites f sites d.
Proof.
  intros Hnd Hl. rewrite site_put_frame. unfold rewrite_sites. f_equal.
  apply map_eq. intros k. rewrite (site_put_lookup f l d k Hnd), map_lookup_imap.
  destruct (db_inventory d !! k); [|done]. simpl. f_equal.
  apply decide_ext. by rewrite Hl.
Qed.

Lemma rewrite_sites_lookup (f : Z * Z → gmap Z ItemBatch → Inventory → Inventory)
    (sites : gset (Z * Z)) d k :
  db_inventory (rewrite_sites f sites d) !! k =
  (λ i, if decide ((k.2, k.1) ∈ sites) then f k (db_itembatch d) i else i) <$> db_inventory d !! k.
Proof.
  unfold rewrite_sites. simpl. rewrite map_lookup_imap. by destruct (db_inventory d !! k).
Qed.

(** * Rewriting the batch rows named by a list of entries

    A package's items, or the entries of a reservation map: each entry [a]
    names a batch by [key a = (item, warehouse, batch)] and rewrites it by
    [g a]. *)

Definition bkey (b : ItemBatch) : Z * Z * Z := (ib_item_id b, ib_inventory_id b, ib_batch_id b).

Definition find_key (k : Z * Z * Z) (d : DB) : option ItemBatch :=
  find_batch k.2 k.1.1 k.1.2 d.

Lemma find_key_Some k d b :
  keyed_batches d → find_key k d = Some b ↔ db_itembatch d !! k.2 = Some b ∧ bkey b = k.
Proof.
  intros Hk. unfold find_key, bkey. rewrite find_batch_Some. unfold at_site.
  destruct k as [[it wh] bid]; simpl. split.
  - intros (Hb & H1 & H2). pose proof (Hk bid b Hb) as H3. simpl in H3. split; [done|congruence].
  - intros [Hb [= H1 H2 H3]]. done.
Qed.

Section entries.
Context {A : Type} (key : A → Z * Z * Z).

Definition entry_for (l : list A) (b : ItemBatch) : option A :=
  head (filter (λ a, key a = bkey b) l).

Lemma entry_for_Some l b a :
  entry_for l b = Some a → a ∈ l ∧ key a = bkey b.
Proof.
  intros Ha. assert (a ∈ filter (λ a, key a = bkey b) l) as Hin.
  { unfold entry_for in Ha. destruct (filter _ l); [done|]. simpl in Ha. simplify_eq. by left. }
  apply list_elem_of_filter in Hin. tauto.
Qed.

Lemma entry_for_None l b : entry_for l b = None ↔ ∀ a, a ∈ l → key a ≠ bkey b.
Proof.
  unfold entry_for. split.
  - intros Hn a Ha Heq. assert (a ∈ filter (λ a, key a = bkey b) l) as Hin
      by (by apply list_elem_of_filter).
    destruct (filter _ l); [set_solver|done].
  - intros Hl. destruct (filter _ l) as [|a l'] eqn:E; [done|].
    assert (a ∈ filter (λ a, key a = bkey b) l) as Hin by (rewrite E; by left).
    apply list_elem_of_filter in Hin as [? Hin]. by destruct (Hl a Hin).
Qed.

Lemma entry_for_elem l b a :
  NoDup (key <$> l) → a ∈ l → key a = bkey b → entry_for l b = Some a.
Proof.
  induction l as [|a' l IH]; intros Hnd Hin Hk; [set_solver|].
  unfold entry_for. rewrite filter_cons. csimpl in *. apply NoDup_cons in Hnd as [Hk' Hnd].
  apply elem_of_cons in Hin as [->|Hin]; [by rewrite decide_True|].
  rewrite decide_False; [by apply IH|]. intros Heq. apply Hk'.
  rewrite Heq, <- Hk. by apply list_elem_of_fmap_2.
Qed.

Context (g : A → ItemBatch → ItemBatch).

Definition entry_put (a : A) (d : DB) : DB :=
  match find_key (key a) d with
  | Some b => put_batch (key a).2 (g a b) d
  | None => d
  end.

Definition entry_row (l : list A) (b : ItemBatch) : ItemBatch :=
  match entry_for l b with Some a => g a b | None => b end.

Hypothesis g_key : ∀ a b, bkey (g a b) = bkey b.

Lemma entry_put_keyed a d : keyed_batches d → keyed_batches (entry_put a d).
Proof.
  intros Hk. unfold entry_put. destruct (find_key (key a) d) as [b|] eqn:Hb; [|done].
  apply find_key_Some in Hb as [Hb Hkb]; [|done].
  unfold keyed_batches, put_batch. simpl. apply map_Forall_insert_2; [|done].
  pose proof (g_key a b) as Hg. unfold bkey in *. rewrite <- Hkb. simpl. congruence.
Qed.

Lemma find_key_entry_put a k d :
  key a ≠ k → find_key k (entry_put a d) = find_key k d.
Proof.
  intros Hne. unfold entry_put. destruct (find_key (key a) d) as [b|] eqn:Hb; [|done].
  unfold find_key in *. rewrite find_batch_put. case_decide as Heq; [|done].
  apply find_batch_Some in Hb as [Hb [H1 H2]].
  pose proof (g_key a b) as Hg. unfold bkey in Hg. injection Hg as G1 G2 G3.
  unfold find_batch. rewrite Heq, Hb. unfold at_site.
  destruct k as [[k1 k2] k3], (key a) as [[a1 a2] a3]; simpl in *.
  rewrite !decide_False; [done|..]; intros [? ?]; apply Hne; congruence.
Qed.

Lemma entry_put_lookup a d k :
  keyed_batches d →
  db_itembatch (entry_put a d) !! k =
  (λ b, if decide (key a = bkey b) then g a b else b) <$> db_itembatch d !! k.
Proof.
  intros Hk. unfold entry_put. destruct (find_key (key a) d) as [b|] eqn:Hb.
  - apply find_key_Some in Hb as [Hb Hkb]; [|done]. unfold put_batch. simpl.
    destruct (decide (k = (key a).2)) as [->|Hne].
    + rewrite lookup_insert_eq, Hb. simpl. by rewrite decide_True.
    + rewrite lookup_insert_ne by done. destruct (db_itembatch d !! k) as [b'|] eqn:E; [|done].
      simpl. rewrite decide_False; [done|]. intros Heq. apply Hne. rewrite Heq. simpl.
      symmetry. by apply (Hk k).
  - destruct (db_itembatch d !! k) as [b|] eqn:E; [|done]. simpl.
    rewrite decide_False; [done|]. intros Heq.
    assert (find_key (key a) d = Some b) as Hf; [|congruence].
    apply find_key_Some; [done|]. rewrite Heq. simpl. by rewrite (Hk k b E).
Qed.

Lemma entry_puts_lookup l d k :
  keyed_batches d → NoDup (key <$> l) →
  db_itembatch (effects entry_put l d) !! k = entry_row l <$> db_itembatch d !! k.
Proof.
  revert d. induction l as [|a l IH]; intros d Hk Hnd.
  { simpl. by destruct (db_itembatch d !! k). }
  csimpl in *. apply NoDup_cons in Hnd as [Ha Hnd].
  rewrite (IH _ (entry_put_keyed a d Hk) Hnd), entry_put_lookup by done.
  destruct (db_itembatch d !! k) as [b|]; [|done]. simpl. f_equal.
  unfold entry_row at 2. unfold entry_for. rewrite filter_cons.
  destruct (decide (key a = bkey b)) as [Heq|Hne]; [|done]. simpl.
  unfold entry_row. replace (entry_for l (g a b)) with (@None A); [done|].
  symmetry. apply entry_for_None. intros a' Ha' Hk'. apply Ha.
  rewrite Heq, <- (g_key a b), <- Hk'. by apply list_elem_of_fmap_2.
Qed.

Lemma entry_puts_frame l d :
  effects entry_put l d = set_db_itembatch (db_itembatch (effects entry_put l d)) d.
Proof.
  revert d. induction l as [|a l IH]; intros d; simpl; [by rewrite set_db_itembatch_id|].
  rewrite IH. unfold entry_put. by destruct (find_key (key a) d).
Qed.

Lemma entry_puts l d :
  keyed_batches d → NoDup (key <$> l) →
  effects entry_put l d = set_db_itembatch (entry_row l <$> db_itembatch d) d.
Proof.
  intros Hk Hnd. rewrite entry_puts_frame. f_equal. apply map_eq. intros k.
  by rewrite entry_puts_lookup, lookup_fmap.
Qed.
End entries.

(** The loop that walks the entries and collects the sites it touched. *)

Definition collect {A} (aff : A → gset (Z * Z)) (l : list A) (acc : gset (Z * Z)) : gset (Z * Z) :=
  foldl (λ acc a, aff a ∪ acc) acc l.

Lemma elem_of_collect {A} (aff : A → gset (Z * Z)) l acc x :
  x ∈ collect aff l acc ↔ x ∈ acc ∨ ∃ a, a ∈ l ∧ x ∈ aff a.
Proof.
  revert acc. induction l as [|a l IH]; intros acc; simpl; [set_solver|].
  rewrite IH, elem_of_union. setoid_rewrite elem_of_cons. naive_solver.
Qed.

(** The preconditions of a sequence of effects, each where it is applied. *)
Fixpoint seq_ok_effects {A} (ok : A → DB → Prop) (eff : A → DB → DB) (l : list A) (d : DB) : Prop :=
  match l with
  | [] => True
  | a :: l' => ok a d ∧ seq_ok_effects ok eff l' (eff a d)
  end.

Lemma fold_effects_seq {E A B : Type} (body : B → A → M Session E B)
    (ok : A → DB → Prop) (eff : A → DB → DB) (upd : A → B → B) :
  (∀ acc a s acc' s', run_ok (body acc a) s acc' s' ↔
     ok a (work s) ∧ acc' = upd a acc ∧ s' = upd_work (eff a) s) →
  ∀ l acc s acc' s',
  run_ok (m_fold l acc body) s acc' s' ↔
  seq_ok_effects ok eff l (work s) ∧ acc' = foldl (λ acc a, upd a acc) acc l ∧
  s' = upd_work (effects eff l) s.
Proof.
  intros Hbody l. induction l as [|a l IH]; intros acc s acc' s'.
  - unfold run_ok. simpl. unfold m_ret. destruct s. naive_solver.
  - transitivity (∃ acc1 s1, run_ok (body acc a) s acc1 s1 ∧ run_ok (m_fold l acc1 body) s1 acc' s').
    { rewrite <- bind_ok. done. }
    setoid_rewrite Hbody. setoid_rewrite IH. simpl. split.
    + intros (acc1 & s1 & (Hok & -> & ->) & Hall & -> & ->). simpl in *. done.
    + intros ((Hok & Hall) & -> & ->). do 2 eexists. split; [by split_and!|]. done.
Qed.

Lemma seq_ok_forall {A K : Type} (key : A → K) (ok : A → DB → Prop) (eff : A → DB → DB) :
  (∀ a b d, key a ≠ key b → ok b (eff a d) ↔ ok b d) →
  ∀ l d, NoDup (key <$> l) → seq_ok_effects ok eff l d ↔ Forall (λ a, ok a d) l.
Proof.
  intros Hindep l. induction l as [|a l IH]; intros d Hl; [simpl; by rewrite Forall_nil|].
  csimpl in Hl. apply NoDup_cons in Hl as [Ha Hl]. rewrite Forall_cons. simpl. rewrite (IH _ Hl).
  assert (Forall (λ b, ok b (eff a d)) l ↔ Forall (λ b, ok b d) l) as ->; [|done].
  rewrite !Forall_forall. split; intros H b Hb; specialize (H b Hb); eapply Hindep; eauto;
    intros Hkey; apply Ha; rewrite Hkey; by apply list_elem_of_fmap_2.
Qed.

Lemma fold_effects {E A K : Type} (body : gset (Z * Z) → A → M Session E (gset (Z * Z)))
    (key : A → K) (ok : A → DB → Prop) (eff : A → DB → DB) (aff : A → gset (Z * Z)) :
  (∀ acc a s acc' s', run_ok (body acc a) s acc' s' ↔
     ok a (work s) ∧ acc' = aff a ∪ acc ∧ s' = upd_work (eff a) s) →
  (∀ a b d, key a ≠ key b → ok b (eff a d) ↔ ok b d) →
  ∀ l acc s acc' s', NoDup (key <$> l) →
  run_ok (m_fold l acc body) s acc' s' ↔
  Forall (λ a, ok a (work s)) l ∧ acc' = collect aff l acc ∧ s' = upd_work (effects eff l) s.
Proof.
  intros Hbody Hindep l acc s acc' s' Hl.
  rewrite (fold_effects_seq body ok eff (λ a acc, aff a ∪ acc) Hbody).
  by rewrite (seq_ok_forall key ok eff Hindep l _ Hl).
Qed.

(** The same for a loop without accumulator, keyed entries. *)
Lemma for_effects_key {E A K : Type} (body : A → M Session E unit) (key : A → K)
    (ok : A → DB → Prop) (eff : A → DB → DB) :
  (∀ a s s', run_ok (body a) s tt s' ↔ ok a (work s) ∧ s' = upd_work (eff a) s) →
  (∀ a b d, key a ≠ key b → ok b (eff a d) ↔ ok b d) →
  ∀ l s s', NoDup (key <$> l) →
  run_ok (m_for l body) s tt s' ↔
  Forall (λ a, ok a (work s)) l ∧ s' = upd_work (effects eff l) s.
Proof.
  intros Hbody Hindep l s s' Hl. rewrite <- (seq_ok_forall key ok eff Hindep l _ Hl). clear Hl.
  revert s s'. induction l as [|a l IH]; intros s s'.
  - rewrite for_nil. simpl. destruct s. naive_solver.
  - rewrite for_cons. setoid_rewrite Hbody. setoid_rewrite IH. simpl. split.
    + intros (s1 & (Hok & ->) & Hall & ->). done.
    + intros ((Hok & Hall) & ->). eexists. by split.
Qed.

(** * Totals under a sequence of effects *)

Lemma effects_total {A} (eff : A → DB → DB) (ok : A → DB → Prop) fb it wh (amt : A → Z) l d :
  keyed_batches d →
  (∀ a d, keyed_batches d → keyed_batches (eff a d)) →
  (∀ a d, keyed_batches d → ok a d →
     total fb it wh (db_itembatch (eff a d)) = total fb it wh (db_itembatch d) - amt a) →
  seq_ok_effects ok eff l d →
  total fb it wh (db_itembatch (effects eff l d)) = total fb it wh (db_itembatch d) - lsum amt l.
Proof.
  intros Hk Hkeep Heff. revert d Hk. induction l as [|a l IH]; intros d Hk; simpl; [lia|].
  intros [Hok Hl]. rewrite (IH (eff a d)) by auto. rewrite Heff by done. lia.
Qed.

Lemma entry_put_total {A} (key : A → Z * Z * Z) g fb (a : A) d it wh amt :
  (∀ a b, bkey (g a b) = bkey b) → keyed_batches d →
  (∀ b, find_key (key a) d = Some b → fb (g a b) = fb b - amt) →
  (find_key (key a) d = None → amt = 0) →
  total fb it wh (db_itembatch (entry_put key g a d)) =
  total fb it wh (db_itembatch d) - (if decide ((key a).1 = (it, wh)) then amt else 0).
Proof.
  intros Hg Hk Hs Hn. unfold entry_put. destruct (find_key (key a) d) as [b|] eqn:Hb.
  - specialize (Hs b eq_refl). apply find_key_Some in Hb as [Hb Hkey]; [|done]. unfold put_batch. simpl.
    pose proof (Hg a b) as Hgk. unfold bkey in *. rewrite <- Hkey. simpl in *.
    injection Hgk as G1 G2 G3. case_decide as Hat.
    + injection Hat as H1 H2. rewrite (total_put_same _ _ _ _ _ b); [lia|by rewrite <- Hkey in Hb|done|].
      split; congruence.
    + rewrite (total_put_other _ _ _ _ _ b); [lia|by rewrite <- Hkey in Hb| |];
        intros [? ?]; apply Hat; congruence.
  - rewrite (Hn eq_refl). case_decide; lia.
Qed.

(** * Balance after a batch rewrite followed by a site rewrite *)

Definition map_batches (h : ItemBatch → ItemBatch) (d : DB) : DB :=
  set_db_itembatch (h <$> db_itembatch d) d.

Definition keeps_key (h : ItemBatch → ItemBatch) : Prop := ∀ b, bkey (h b) = bkey b.

Lemma total_map fb h it wh (m : gmap Z ItemBatch) :
  keeps_key h →
  total fb it wh (h <$> m) = msum (λ b, if decide (at_site it wh b) then fb (h b) else 0) m.
Proof.
  intros Hh. unfold total. rewrite msum_fmap. apply msum_ext. intros k b _. simpl.
  specialize (Hh b). unfold bkey in Hh. injection Hh as H1 H2 H3.
  apply decide_ext. unfold at_site. by rewrite H1, H2.
Qed.

Lemma total_map_frame fb h it wh (m : gmap Z ItemBatch) :
  keeps_key h → (∀ k b, m !! k = Some b → at_site it wh b → fb (h b) = fb b) →
  total fb it wh (h <$> m) = total fb it wh m.
Proof.
  intros Hh Hf. rewrite total_map by done. apply msum_ext. intros k b Hk.
  case_decide; [|done]. by eapply Hf.
Qed.

Section rewrite_balanced.
Context (fi : Inventory → Z) (fb : ItemBatch → Z) (h : ItemBatch → ItemBatch).
Context (f : Z * Z → gmap Z ItemBatch → Inventory → Inventory) (sites : gset (Z * Z)) (d : DB).
Hypothesis h_key : keeps_key h.
Hypothesis bal : balanced_col fi fb d.

(** The rewritten rows are resummed, and no batch changes elsewhere. *)
Lemma rewrite_balanced :
  (∀ k i, db_inventory d !! k = Some i →
     fi (f k (h <$> db_itembatch d) i) = total fb k.2 k.1 (h <$> db_itembatch d)) →
  (∀ k b, db_itembatch d !! k = Some b → (ib_item_id b, ib_inventory_id b) ∉ sites →
     fb (h b) = fb b) →
  balanced_col fi fb (rewrite_sites f sites (map_batches h d)).
Proof.
  intros Hf Hb k i. rewrite rewrite_sites_lookup. simpl.
  destruct (db_inventory d !! k) as [i0|] eqn:Hi; [|done]. simpl. intros [= <-].
  case_decide as Hk; [by apply Hf|]. rewrite (bal k i0 Hi). symmetry.
  apply total_map_frame; [done|]. intros kb b Hkb [H1 H2]. apply (Hb kb); [done|]. congruence.
Qed.

(** Neither the rows nor the batches change in this column. *)
Lemma rewrite_balanced_frame :
  (∀ k m i, fi (f k m i) = fi i) → (∀ b, fb (h b) = fb b) →
  balanced_col fi fb (rewrite_sites f sites (map_batches h d)).
Proof.
  intros Hf Hb k i. rewrite rewrite_sites_lookup. simpl.
  destruct (db_inventory d !! k) as [i0|] eqn:Hi; [|done]. simpl. intros [= <-].
  rewrite (total_map_frame _ _ _ _ _ h_key) by done.
  rewrite <- (bal k i0 Hi). by case_decide.
Qed.
End rewrite_balanced.

Lemma within_stock_map h d :
  (∀ k b, db_itembatch d !! k = Some b → batch_within b → batch_within (h b)) →
  within_stock d → within_stock (map_batches h d).
Proof.
  intros Hh Hw k b. unfold map_batches. simpl. rewrite lookup_fmap.
  destruct (db_itembatch d !! k) as [b0|] eqn:E; [|done]. simpl. intros [= <-].
  by apply (Hh k), (Hw k).
Qed.

Lemma entry_row_key {A} (key : A → Z * Z * Z) g l :
  (∀ a b, bkey (g a b) = bkey b) → keeps_key (entry_row key g l).
Proof. intros Hg b. unfold entry_row. destruct (entry_for _ _ _); auto. Qed.

(** A column that every rewrite of an entry keeps. *)
Lemma entry_row_frame {A B} (key : A → Z * Z * Z) g l (fb : ItemBatch → B) b :
  (∀ a, fb (g a b) = fb b) → fb (entry_row key g l b) = fb b.
Proof. intros Hg. unfold entry_row. destruct (entry_for _ _ _); auto. Qed.

Lemma put_batch_id bid b d : db_itembatch d !! bid = Some b → put_batch bid b d = d.
Proof. intros Hb. unfold put_batch. rewrite insert_id by done. apply set_db_itembatch_id. Qed.

Lemma put_inventory_id wh it i d : db_inventory d !! (wh, it) = Some i → put_inventory wh it i d = d.
Proof. intros Hb. unfold put_inventory. rewrite insert_id by done. apply set_db_inventory_id. Qed.

Lemma site_put_batches f site d : db_itembatch (site_put f site d) = db_itembatch d.
Proof. destruct site as [it wh]. unfold site_put. by destruct (db_inventory d !! (wh, it)). Qed.

#[export] Hint Resolve within_stock_nonneg : dmis.
#[export] Hint Rewrite @batch_sum_total find_batch_put : dmis_rw.
