(* ===== verification/Fixtures.v ===== *)
(** A small stocked warehouse with one request and one package: the concrete
    inputs the examples and witnesses evaluate. *)
From S2P Require Import Prelude Schema Ledger.

Definition audit0 : Audit := new_audit "LO" 0.

Definition units (n : Z) : Z := n * UNIT.

Definition batch (id wh it usable reserved : Z) (bdate expiry : option Z) : ItemBatch :=
  mkItemBatch id wh it (Some "B"%string) bdate expiry
    (mkStock (units usable) (units reserved) 0 0) "EA" None (units 1) "A" None audit0.

Definition inventory (wh it usable reserved : Z) : Inventory :=
  mkInventory wh it (mkStock (units usable) (units reserved) 0 0) "EA" "A" audit0.

Definition pkg_item (pkg wh bid it qty : Z) : ReliefPkgItem :=
  mkReliefPkgItem pkg wh bid it (units qty) "EA" audit0.

Definition rqst_item (rq it req iss : Z) (status : string) : ReliefRqstItem :=
  mkReliefRqstItem rq it (units req) (units iss) "M" None None status None None None 1.

(** Item 1 in warehouse 1: batch 11 with 60 units, batch 12 with 40. *)
Definition stock_db (res11 res12 : Z) : DB :=
  set_db_itembatch
    (list_to_map [(11, batch 11 1 1 60 res11 (Some 100) (Some 400));
                  (12, batch 12 1 1 40 res12 (Some 90) (Some 500))])
    (set_db_inventory (list_to_map [((1, 1), inventory 1 1 100 (res11 + res12))]) empty_db).

Definition package (id rq : Z) (status : string) : ReliefPkg :=
  mkReliefPkg id 5 "TRK0001" 1 rq 10 None status None None None None audit0.

Definition pkg_items (l : list ReliefPkgItem) : gmap (Z * Z * Z * Z) ReliefPkgItem :=
  list_to_map ((λ v, (pi_pk v, v)) <$> l).

(** Package 70 of request 7 takes 30 units of batch 11 and 10 of batch 12. *)
Definition package_db (status : string) (res11 res12 : Z) : DB :=
  set_db_pkg {[70 := package 70 7 status]}
    (set_db_pkg_item (pkg_items [pkg_item 70 1 11 1 30; pkg_item 70 1 12 1 10])
      (stock_db res11 res12)).

Definition session_of (d : DB) : Session := mkSession d d.
