(* ===== verification/Reservation.v ===== *)
(** The inventory reservation service
    (app/services/inventory_reservation_service.py).

    [reserve_inventory], [release_all_reservations], [commit_inventory] and
    [cancel_relief_package] as programs over the session.  A Python
    [return False, message] is [m_fail] of a [ResFailure]; writes made before it
    stay in the session, as in the code. *)
From S2P Require Import Prelude Schema Ledger.

(** * Data *)

(** [(item_id, inventory_id, batch_id)]; the code checks for a NULL inventory id. *)
Abbreviation AllocKey := (Z * option Z * Z)%type.

(** One entry of [new_allocations]. *)
Record Alloc : Type := mkAlloc {
  al_item_id : Z;
  al_batch_id : Z;
  al_warehouse_id : option Z;
  al_allocated_qty : Z
}.

(** The error messages of the service, by what they report. *)
Inductive ResFailure : Type :=
| NullInventoryId (batch_id : Z)
| BatchNotFound (batch_id item_id inventory_id : Z)
| OnlyAvailable (delta batch_id available : Z)
| NoActiveInventory (item_id inventory_id : Z)
| TotalExceedsInventory (item_id inventory_id : Z)
| NoPackageForRequest
| InsufficientBatch (inventory_id need have : Z)
| PackageNotFound (reliefpkg_id : Z)
| CannotCancelStatus (status : string)
| InconsistentReservation (batch_id : Z) (reserved allocated : Z)
| BatchWouldBeNegative
| InventoryNotFound (item_id inventory_id : Z)
| InventoryWouldBeNegative (item_id inventory_id : Z).

Abbreviation RM := (M Session ResFailure).

Section service.
Context `{R : Runtime}.

(** * Current reservations *)

(** [ReliefPkg.query.filter_by(reliefrqst_id=...).first()]. *)
Definition first_pkg_of (rq : Z) (d : DB) : option ReliefPkg :=
  head (filter (λ p, pkg_reliefrqst_id p = rq) (pkg_rows (db_pkg d))).

(** [ReliefPkgItem.query.filter_by(reliefpkg_id=...).all()]. *)
Definition pkg_items_of (pkg : Z) (d : DB) : list ReliefPkgItem :=
  filter (λ v, pi_reliefpkg_id v = pkg) (pkg_item_rows (db_pkg_item d)).

Definition get_current_reservations (rq : Z) (d : DB) : list (Z * Z * Z) :=
  match first_pkg_of rq d with
  | None => []
  | Some pkg =>
      foldl (λ acc v, if 0 <? pi_item_qty v
                      then dict_set (pi_item_id v, pi_fr_inventory_id v) (pi_item_qty v) acc
                      else acc)
        [] (pkg_items_of (pkg_reliefpkg_id pkg) d)
  end.

Definition batch_key (v : ReliefPkgItem) : AllocKey :=
  (pi_item_id v, Some (pi_fr_inventory_id v), pi_batch_id v).

Definition get_current_batch_reservations (rq : Z) (d : DB) : list (AllocKey * Z) :=
  match first_pkg_of rq d with
  | None => []
  | Some pkg =>
      foldl (λ acc v, if 0 <? pi_item_qty v
                      then dict_set (batch_key v) (pi_item_qty v) acc else acc)
        [] (pkg_items_of (pkg_reliefpkg_id pkg) d)
  end.

(** * reserve_inventory *)

(** The new batch-level reservation map; a later entry overwrites. *)
Definition new_reservations (new : list Alloc) : list (AllocKey * Z) :=
  foldl (λ acc a, if 0 <? al_allocated_qty a
                  then dict_set (al_item_id a, al_warehouse_id a, al_batch_id a)
                         (al_allocated_qty a) acc
                  else acc) [] new.

(** The warehouses whose totals are recomputed: those of either map. *)
Definition affected_of (keys : list AllocKey) : gset (Z * Z) :=
  list_to_set (omap (λ '(it, inv, _), match inv with Some wh => Some (it, wh) | None => None end) keys).

Definition reserve_batch (old new : list (AllocKey * Z)) (key : AllocKey) : RM unit :=
  let '(it, inv, bid) := key in
  match inv with
  | None => m_fail (NullInventoryId bid)
  | Some wh =>
      let delta := default 0 (dict_get key new) - default 0 (dict_get key old) in
      if delta =? 0 then mret tt else
      d ← db_get;
      match find_batch bid it wh d with
      | None => if 0 <? delta then m_fail (BatchNotFound bid it wh) else mret tt
      | Some b =>
          let new_reserved := ib_reserved b + delta in
          if new_reserved <? 0 then db_mod (put_batch bid (set_ib_reserved 0 b))
          else if ib_usable b <? new_reserved
          then m_fail (OnlyAvailable delta bid (ib_usable b - ib_reserved b))
          else db_mod (put_batch bid (set_ib_reserved new_reserved b))
      end
  end.

Definition reserve_site (site : Z * Z) : RM unit :=
  let '(it, wh) := site in
  d ← db_get;
  let total_reserved := default 0 (batch_sum ib_reserved it wh d) in
  match find_active_inventory wh it d with
  | None => m_fail (NoActiveInventory it wh)
  | Some i =>
      db_mod (put_inventory wh it (set_inv_reserved total_reserved i));;
      m_fail_if (inv_usable i <? total_reserved) (TotalExceedsInventory it wh)
  end.

Definition reserve_inventory (rq : Z) (new_allocations : list Alloc)
    (old_allocations : option (list (AllocKey * Z))) : RM unit :=
  d ← db_get;
  let old := match old_allocations with
             | Some o => o | None => get_current_batch_reservations rq d end in
  let new := new_reservations new_allocations in
  let all_keys : gset AllocKey := list_to_set (old.*1 ++ new.*1) in
  m_for (iter_keys all_keys) (reserve_batch old new);;
  m_for (iter_pairs (affected_of (old.*1 ++ new.*1))) reserve_site.

(** * release_all_reservations *)

Definition release_batch (affected : gset (Z * Z)) (entry : AllocKey * Z) : RM (gset (Z * Z)) :=
  let '((it, inv, bid), qty) := entry in
  if 0 <? qty then
    match inv with
    | None => mret affected
    | Some wh =>
        d ← db_get;
        match find_batch bid it wh d with
        | Some b =>
            db_mod (put_batch bid (set_ib_reserved (Z.max 0 (ib_reserved b - qty)) b));;
            mret ({[(it, wh)]} ∪ affected)
        | None => mret ({[(it, wh)]} ∪ affected)
        end
    end
  else mret affected.

Definition release_site (site : Z * Z) : RM unit :=
  let '(it, wh) := site in
  d ← db_get;
  match find_active_inventory wh it d with
  | Some i =>
      db_mod (put_inventory wh it
        (set_inv_reserved (default 0 (batch_sum ib_reserved it wh d)) i))
  | None => mret tt
  end.

Definition release_all_reservations (rq : Z) : RM unit :=
  d ← db_get;
  affected ← m_fold (get_current_batch_reservations rq d) ∅ release_batch;
  m_for (iter_pairs affected) release_site.

(** * commit_inventory *)

Definition commit_item (affected : gset (Z * Z)) (v : ReliefPkgItem) : RM (gset (Z * Z)) :=
  let qty := pi_item_qty v in
  if 0 <? qty then
    d ← db_get;
    match find_batch (pi_batch_id v) (pi_item_id v) (pi_fr_inventory_id v) d with
    | None => m_fail (BatchNotFound (pi_batch_id v) (pi_item_id v) (pi_fr_inventory_id v))
    | Some b =>
        if ib_usable b <? qty
        then m_fail (InsufficientBatch (pi_fr_inventory_id v) qty (ib_usable b))
        else
          db_mod (put_batch (pi_batch_id v)
            (set_ib_reserved (Z.max 0 (ib_reserved b - qty))
              (set_ib_usable (ib_usable b - qty) b)));;
          mret ({[(pi_item_id v, pi_fr_inventory_id v)]} ∪ affected)
    end
  else mret affected.

Definition commit_site (site : Z * Z) : RM unit :=
  let '(it, wh) := site in
  d ← db_get;
  match find_inventory wh it d with
  | Some i =>
      db_mod (put_inventory wh it
        (set_inv_reserved (default 0 (batch_sum ib_reserved it wh d))
          (set_inv_usable (default 0 (batch_sum ib_usable it wh d)) i)))
  | None => mret tt
  end.

Definition commit_inventory (rq : Z) : RM unit :=
  d ← db_get;
  match first_pkg_of rq d with
  | None => m_fail NoPackageForRequest
  | Some pkg =>
      affected ← m_fold (pkg_items_of (pkg_reliefpkg_id pkg) d) ∅ commit_item;
      m_for (iter_pairs affected) commit_site
  end.

(** * cancel_relief_package *)

(** [db.session.rollback(); return False, msg]. *)
Definition rollback_fail {A} (e : ResFailure) : RM A := db_rollback;; m_fail e.

Definition cancel_item (user : string) (now : Z) (affected : gset (Z * Z))
    (v : ReliefPkgItem) : RM (gset (Z * Z)) :=
  let qty := pi_item_qty v in
  if qty <=? 0 then mret affected else
  d ← db_get;
  match find_batch (pi_batch_id v) (pi_item_id v) (pi_fr_inventory_id v) d with
  | None => mret ({[(pi_item_id v, pi_fr_inventory_id v)]} ∪ affected)
  | Some b =>
      if ib_reserved b <? qty
      then rollback_fail (InconsistentReservation (pi_batch_id v) (ib_reserved b) qty)
      else
        let b' := set_ib_reserved (ib_reserved b - qty) b in
        db_mod (put_batch (pi_batch_id v) b');;
        (if ib_reserved b' <? 0 then rollback_fail BatchWouldBeNegative else
         db_mod (put_batch (pi_batch_id v) (set_ib_audit (touch user now (ib_audit b')) b')));;
        mret ({[(pi_item_id v, pi_fr_inventory_id v)]} ∪ affected)
  end.

Definition cancel_site (user : string) (now : Z) (site : Z * Z) : RM unit :=
  let '(it, wh) := site in
  d ← db_get;
  let new_reserved := default 0 (batch_sum ib_reserved it wh d) in
  match find_inventory wh it d with
  | None => rollback_fail (InventoryNotFound it wh)
  | Some i =>
      if new_reserved <? 0 then rollback_fail (InventoryWouldBeNegative it wh) else
      db_mod (put_inventory wh it
        (set_inv_audit (touch user now (inv_audit i)) (set_inv_reserved new_reserved i)))
  end.

Definition delete_pkg_items (items : list ReliefPkgItem) (d : DB) : DB :=
  set_db_pkg_item
    (foldr (λ v, delete (pi_reliefpkg_id v, pi_fr_inventory_id v, pi_batch_id v, pi_item_id v))
      (db_pkg_item d) items) d.

Definition delete_pkg (pkg : Z) (d : DB) : DB := set_db_pkg (delete pkg (db_pkg d)) d.

Definition cancel_relief_package (pkg_id : Z) (user : string) (now : Z) : RM unit :=
  d ← db_get;
  match db_pkg d !! pkg_id with
  | None => m_fail (PackageNotFound pkg_id)
  | Some pkg =>
      if negb (bool_decide (pkg_status_code pkg ∈ ["P"; "D"]%string))
      then m_fail (CannotCancelStatus (pkg_status_code pkg)) else
      match pkg_items_of pkg_id d with
      | [] => db_mod (delete_pkg pkg_id)
      | items =>
          affected ← m_fold items ∅ (cancel_item user now);
          m_for (iter_pairs affected) (cancel_site user now);;
          db_mod (delete_pkg_items items);;
          db_mod (delete_pkg pkg_id)
      end
  end.
End service.
