(* ===== verification/ReservationProofs.v ===== *)
(** Correctness of the reservation service: what each operation does to the
    ledger, and the invariants it keeps. *)
From S2P Require Import Prelude Schema Ledger Reservation.

(** * The abstract effect of a reservation change *)

Definition key_delta (old new : list (AllocKey * Z)) (key : AllocKey) : Z :=
  default 0 (dict_get key new) - default 0 (dict_get key old).

Definition key_of (b : ItemBatch) : AllocKey :=
  (ib_item_id b, Some (ib_inventory_id b), ib_batch_id b).

(** A batch row after the change: its reservation moves by the difference of the
    two maps, and never below zero. *)
Definition reserve_row (old new : list (AllocKey * Z)) (b : ItemBatch) : ItemBatch :=
  let delta := key_delta old new (key_of b) in
  if delta =? 0 then b else set_ib_reserved (Z.max 0 (ib_reserved b + delta)) b.

(** An inventory row recomputed from its batches. *)
Definition resum_reserved (k : Z * Z) (m : gmap Z ItemBatch) (i : Inventory) : Inventory :=
  set_inv_reserved (total ib_reserved k.2 k.1 m) i.

Definition sites_of (old new : list (AllocKey * Z)) : gset (Z * Z) :=
  affected_of (old.*1 ++ new.*1).

Definition reserve_batches (old new : list (AllocKey * Z)) (d : DB) : DB :=
  set_db_itembatch (reserve_row old new <$> db_itembatch d) d.

Definition reserve_spec (old new : list (AllocKey * Z)) (d : DB) : DB :=
  rewrite_sites resum_reserved (sites_of old new) (reserve_batches old new d).

(** When the change is possible. *)
Definition key_ok (old new : list (AllocKey * Z)) (key : AllocKey) (d : DB) : Prop :=
  match key with
  | (_, None, _) => False
  | (it, Some wh, bid) =>
      let delta := key_delta old new key in
      delta = 0 ∨
      match find_batch bid it wh d with
      | None => delta < 0
      | Some b => ib_reserved b + delta < 0 ∨ ib_reserved b + delta ≤ ib_usable b
      end
  end.

Definition site_ok (site : Z * Z) (d : DB) : Prop :=
  ∃ i, find_active_inventory site.2 site.1 d = Some i ∧
       total ib_reserved site.1 site.2 (db_itembatch d) ≤ inv_usable i.

Definition reserve_admissible (old new : list (AllocKey * Z)) (d : DB) : Prop :=
  (∀ key, key ∈ old.*1 ++ new.*1 → key_ok old new key d) ∧
  (∀ site, site ∈ sites_of old new →
     site_ok site (reserve_batches old new d)).

(** * The batch loop *)

Definition key_effect (old new : list (AllocKey * Z)) (key : AllocKey) (d : DB) : DB :=
  match key with
  | (it, Some wh, bid) =>
      let delta := key_delta old new key in
      match find_batch bid it wh d with
      | Some b => if delta =? 0 then d
                  else put_batch bid (set_ib_reserved (Z.max 0 (ib_reserved b + delta)) b) d
      | None => d
      end
  | (_, None, _) => d
  end.

Section reserve.
Context `{R : Runtime}.
Implicit Types (s : Session) (d : DB).

Lemma upd_work_id s : upd_work (λ d, d) s = s.
Proof. by destruct s. Qed.

Lemma reserve_batch_run old new key s s' :
  run_ok (reserve_batch old new key) s tt s' ↔
  key_ok old new key (work s) ∧ s' = upd_work (key_effect old new key) s.
Proof.
  destruct key as [[it [wh|]] bid]; unfold run_ok, reserve_batch, key_ok, key_effect;
    [|unfold m_fail; naive_solver].
  fold (key_delta old new (it, Some wh, bid)).
  generalize (key_delta old new (it, Some wh, bid)) as delta; intros delta.
  destruct (Z.eqb_spec delta 0) as [->|Hd].
  { unfold mret, M_ret, m_ret. destruct s as [c w]; unfold upd_work; simpl.
    destruct (find_batch bid it wh w); naive_solver. }
  unfold upd_work. rewrite run_bind. simpl.
  destruct (find_batch bid it wh (work s)) as [b|] eqn:Hb.
  - destruct (Z.ltb_spec (ib_reserved b + delta) 0);
      [|destruct (Z.ltb_spec (ib_usable b) (ib_reserved b + delta))];
      unfold db_mod, m_modify, m_fail, upd_work; rewrite ?Z.max_l, ?Z.max_r by lia;
      (split; [intros; simplify_eq; try (split; [lia|done])
              |intros [? ->]; first [done | exfalso; lia]]).
  - destruct (Z.ltb_spec 0 delta); unfold m_fail, mret, M_ret, m_ret; destruct s; naive_solver lia.
Qed.

Lemma find_batch_effect old new key bid it wh d :
  key ≠ (it, Some wh, bid) →
  find_batch bid it wh (key_effect old new key d) = find_batch bid it wh d.
Proof.
  intros Hne. destruct key as [[it' [wh'|]] bid']; simpl; [|done].
  destruct (find_batch bid' it' wh' d) as [b|] eqn:Hb; [|done].
  case_match; [done|]. rewrite find_batch_put.
  case_decide; [subst|done]. apply find_batch_Some in Hb as [Hb [Hi Hw]].
  unfold find_batch. rewrite Hb. unfold at_site; simpl.
  repeat case_decide; naive_solver.
Qed.

Lemma key_ok_effect old new k1 k2 d :
  k1 ≠ k2 → key_ok old new k2 (key_effect old new k1 d) ↔ key_ok old new k2 d.
Proof.
  intros Hne. destruct k2 as [[it [wh|]] bid]; simpl; [|done].
  by rewrite find_batch_effect.
Qed.

(** What a list of key effects does to one batch row. *)
Lemma key_effects_row old new keys d k :
  keyed_batches d → NoDup keys →
  db_itembatch (effects (key_effect old new) keys d) !! k =
  (λ b, if decide (key_of b ∈ keys) then reserve_row old new b else b) <$> db_itembatch d !! k.
Proof.
  revert d. induction keys as [|key keys IH]; intros d Hk Hnd.
  { simpl. by destruct (db_itembatch d !! k). }
  apply NoDup_cons in Hnd as [Hkey Hnd]. simpl.
  assert (keyed_batches (key_effect old new key d) ∧
    db_itembatch (key_effect old new key d) !! k =
    (λ b, if decide (key_of b = key) then reserve_row old new b else b) <$> db_itembatch d !! k)
    as [Hk' Hrow].
  { destruct key as [[it [wh|]] bid]; simpl; last first.
    { split; [done|]. destruct (db_itembatch d !! k); [|done]. simpl. by rewrite decide_False. }
    destruct (find_batch bid it wh d) as [b|] eqn:Hb; last first.
    { split; [done|]. destruct (db_itembatch d !! k) as [b|] eqn:E; [|done].
      simpl. rewrite decide_False; [done|]. unfold key_of. intros [= <- <- <-].
      rewrite (Hk k b E) in Hb. unfold find_batch in Hb. rewrite E, decide_True in Hb; done. }
    apply find_batch_Some in Hb as [Hb [Hi Hw]].
    assert (key_of b = (it, Some wh, bid)) as Hkb
      by (unfold key_of; by rewrite Hi, Hw, (Hk bid b Hb)).
    unfold reserve_row. case_match eqn:Hd.
    - split; [done|]. destruct (db_itembatch d !! k) as [b'|] eqn:E; [|done].
      simpl. case_decide as Heq; [|done]. by rewrite Heq, Hd.
    - split.
      + unfold keyed_batches, put_batch. simpl. apply map_Forall_insert_2; [|done].
        simpl. by apply (Hk bid b).
      + unfold put_batch. simpl. destruct (decide (bid = k)) as [->|Hne].
        * rewrite lookup_insert_eq, Hb. simpl. by rewrite decide_True, Hkb, Hd.
        * rewrite lookup_insert_ne by done.
          destruct (db_itembatch d !! k) as [b'|] eqn:E; [|done]. simpl.
          rewrite decide_False; [done|]. unfold key_of. intros [= ? ? Hid].
          apply Hne. by rewrite <- Hid, (Hk k b' E). }
  rewrite (IH _ Hk' Hnd), Hrow. destruct (db_itembatch d !! k) as [b|]; [|done]. simpl.
  assert (key_of (reserve_row old new b) = key_of b) as Hrr
    by (unfold reserve_row; by case_match).
  f_equal. destruct (decide (key_of b = key)) as [Heq|Hne].
  - rewrite Hrr, Heq, decide_False by done. by rewrite decide_True by set_solver.
  - repeat case_decide; set_solver.
Qed.

Lemma key_effects_frame old new keys d :
  effects (key_effect old new) keys d =
  set_db_itembatch (db_itembatch (effects (key_effect old new) keys d)) d.
Proof.
  revert d. induction keys as [|[[it inv] bid] keys IH]; intros d; simpl.
  { by rewrite set_db_itembatch_id. }
  rewrite IH. destruct inv; [|done]. destruct (find_batch _ _ _ _); [|done].
  by case_match.
Qed.

(** All keys of both maps, in any order, give [reserve_batches]. *)
Lemma key_effects_all old new keys d :
  keyed_batches d → NoDup keys → (∀ k, k ∈ keys ↔ k ∈ old.*1 ++ new.*1) →
  effects (key_effect old new) keys d = reserve_batches old new d.
Proof.
  intros Hk Hnd Hkeys. rewrite key_effects_frame. unfold reserve_batches. f_equal.
  apply map_eq. intros k. rewrite (key_effects_row _ _ _ _ _ Hk Hnd), lookup_fmap.
  destruct (db_itembatch d !! k) as [b|]; [|done]. simpl. f_equal.
  case_decide as Hin; [done|]. rewrite Hkeys, elem_of_app in Hin.
  unfold reserve_row, key_delta.
  rewrite !(proj2 (dict_get_None _ _)) by naive_solver. done.
Qed.

Lemma reserve_site_run site s s' :
  run_ok (reserve_site site) s tt s' ↔
  site_ok site (work s) ∧ s' = upd_work (site_put resum_reserved site) s.
Proof.
  destruct site as [it wh]. unfold run_ok, reserve_site, site_ok. rewrite run_bind. simpl.
  rewrite batch_sum_total. unfold upd_work, site_put.
  unfold find_active_inventory.
  destruct (db_inventory (work s) !! (wh, it)) as [i|] eqn:Hi; [case_decide|];
    [|unfold m_fail; naive_solver..].
  unfold m_fail_if. destruct (Z.ltb_spec (inv_usable i) (total ib_reserved it wh (db_itembatch (work s))));
    rewrite run_bind; simpl; unfold m_fail, m_ret; (split; [intros; simplify_eq|]).
  - intros [(i' & ? & ?) ->]. simplify_eq. lia.
  - split; [|done]. by exists i.
  - by intros [_ ->].
Qed.

Lemma site_ok_put site1 site2 d :
  site1 ≠ site2 → site_ok site2 (site_put resum_reserved site1 d) ↔ site_ok site2 d.
Proof.
  destruct site1 as [it1 wh1], site2 as [it2 wh2]. intros Hne. unfold site_ok, site_put.
  destruct (db_inventory d !! (wh1, it1)); [|done].
  unfold find_active_inventory. simpl. rewrite lookup_insert_ne by congruence. done.
Qed.
End reserve.

(** The service against its specification: it succeeds exactly when the change is
    admissible, and then the ledger is the specified one. *)
Lemma reserve_inventory_run `{Runtime} rq new_allocations old s s' :
  keyed_batches (work s) →
  let new := new_reservations new_allocations in
  run_ok (reserve_inventory rq new_allocations (Some old)) s tt s' ↔
  reserve_admissible old new (work s) ∧ s' = upd_work (reserve_spec old new) s.
Proof.
  intros Hk new. unfold reserve_inventory. fold new.
  set (keys := iter_keys _). set (sites := iter_pairs _).
  assert (∀ k, k ∈ keys ↔ k ∈ old.*1 ++ new.*1) as Hkeys
    by (intros k; unfold keys; by rewrite elem_of_iter_keys, elem_of_list_to_set).
  assert (∀ x, x ∈ sites ↔ x ∈ sites_of old new) as Hsites
    by (intros x; apply elem_of_iter_pairs).
  pose proof (nodup_iter_keys (list_to_set (old.*1 ++ new.*1))) as Hnd1. fold keys in Hnd1.
  pose proof (nodup_iter_pairs (affected_of (old.*1 ++ new.*1))) as Hnd2. fold sites in Hnd2.
  transitivity (∃ s1, run_ok (m_for keys (reserve_batch old new)) s tt s1 ∧
                      run_ok (m_for sites reserve_site) s1 tt s').
  { rewrite <- seq_ok. done. }
  setoid_rewrite (for_effects _ _ _ (reserve_batch_run old new)
    (λ a b d Hne, key_ok_effect old new a b d Hne) keys _ _ Hnd1).
  setoid_rewrite (for_effects _ _ _ reserve_site_run site_ok_put sites _ _ Hnd2).
  unfold reserve_admissible, reserve_spec. setoid_rewrite Forall_forall.
  setoid_rewrite Hkeys. setoid_rewrite Hsites.
  assert (effects (key_effect old new) keys (work s) = reserve_batches old new (work s)) as Heff
    by (by apply key_effects_all).
  assert (∀ d, effects (site_put resum_reserved) sites d =
    rewrite_sites resum_reserved (sites_of old new) d) as Hput
    by (intros d; by apply site_puts).
  split.
  - intros (s1 & (Hok & ->) & Hall & ->). unfold upd_work in *. simpl in *.
    rewrite Heff in *. rewrite Hput. done.
  - intros ((Hok & Hall) & ->). eexists. split; [by split|].
    unfold upd_work. simpl. rewrite Heff, Hput. done.
Qed.

(** * The items of a package *)

(** The batch a package item draws on. *)
Definition item3 (v : ReliefPkgItem) : Z * Z * Z :=
  (pi_item_id v, pi_fr_inventory_id v, pi_batch_id v).

Definition item_site (v : ReliefPkgItem) : gset (Z * Z) :=
  if 0 <? pi_item_qty v then {[(pi_item_id v, pi_fr_inventory_id v)]} else ∅.

Definition item_sites (items : list ReliefPkgItem) : gset (Z * Z) := collect item_site items ∅.

(** The items of the package the services find for a request. *)
Definition current_items `{Runtime} (rq : Z) (d : DB) : list ReliefPkgItem :=
  match first_pkg_of rq d with
  | None => []
  | Some pkg => pkg_items_of (pkg_reliefpkg_id pkg) d
  end.

Section items.
Context `{R : Runtime}.

Lemma item3_nodup pkg d : keyed_pkg_items d → NoDup (item3 <$> pkg_items_of pkg d).
Proof.
  intros Hk. assert (NoDup (pi_pk <$> pkg_item_rows (db_pkg_item d))) as Hnd.
  { rewrite (pkg_item_rows_perm (db_pkg_item d)).
    assert (pi_pk <$> (map_to_list (db_pkg_item d)).*2 = (map_to_list (db_pkg_item d)).*1) as ->.
    { rewrite <- list_fmap_compose. apply list_fmap_ext. intros i [k v] Hi. simpl.
      apply list_elem_of_lookup_2, elem_of_map_to_list in Hi. by apply Hk. }
    apply NoDup_fst_map_to_list. }
  unfold pkg_items_of. induction (pkg_item_rows (db_pkg_item d)) as [|v l IH];
    [constructor|]. csimpl in Hnd. apply NoDup_cons in Hnd as [Hv Hnd].
  rewrite filter_cons. case_decide as Hpkg; [|by apply IH]. csimpl. constructor; [|by apply IH].
  intros Hin. apply Hv. apply list_elem_of_fmap in Hin as (v' & Heq & Hin).
  apply list_elem_of_filter in Hin as [Hpkg' Hin]. apply list_elem_of_fmap. exists v'.
  split; [|done]. unfold item3 in Heq. unfold pi_pk. congruence.
Qed.

Lemma current_items_nodup rq d : keyed_pkg_items d → NoDup (item3 <$> current_items rq d).
Proof.
  intros Hk. unfold current_items. destruct (first_pkg_of rq d); [by apply item3_nodup|constructor].
Qed.

Definition positive_items (items : list ReliefPkgItem) : list ReliefPkgItem :=
  filter (λ v, (0 <? pi_item_qty v) = true) items.

Lemma nodup_fmap_filter {A B} (f : A → B) (P : A → Prop) `{∀ a, Decision (P a)} (l : list A) :
  NoDup (f <$> l) → NoDup (f <$> filter P l).
Proof.
  induction l as [|a l IH]; intros Hnd; [constructor|].
  csimpl in Hnd. apply NoDup_cons in Hnd as [Ha Hnd]. rewrite filter_cons.
  case_decide; [|auto]. csimpl. constructor; [|auto].
  intros Hin. apply Ha. apply list_elem_of_fmap in Hin as (a' & -> & Hin).
  apply list_elem_of_filter in Hin as [_ Hin]. by apply list_elem_of_fmap_2.
Qed.

Lemma batch_key_nodup (l : list ReliefPkgItem) : NoDup (item3 <$> l) → NoDup (batch_key <$> l).
Proof.
  induction l as [|a l IH]; intros Hnd; [constructor|].
  csimpl in *. apply NoDup_cons in Hnd as [Ha Hnd]. constructor; [|auto].
  intros Hin. apply Ha. apply list_elem_of_fmap in Hin as (a' & Heq & Hin).
  apply list_elem_of_fmap. exists a'. split; [|done].
  unfold batch_key in Heq. unfold item3. congruence.
Qed.

Lemma current_reservations_eq rq d :
  keyed_pkg_items d →
  get_current_batch_reservations rq d =
  (λ v, (batch_key v, pi_item_qty v)) <$> positive_items (current_items rq d).
Proof.
  intros Hk. unfold get_current_batch_reservations, positive_items.
  pose proof (current_items_nodup rq d Hk) as Hnd. unfold current_items in *.
  destruct (first_pkg_of rq d) as [pkg|]; [|done].
  rewrite (foldl_dict_set (λ v, 0 <? pi_item_qty v) batch_key pi_item_qty); [done|]. simpl.
  by apply batch_key_nodup, nodup_fmap_filter.
Qed.
End items.

(** * release_all_reservations *)

Definition release_row (v : ReliefPkgItem) (b : ItemBatch) : ItemBatch :=
  if 0 <? pi_item_qty v then set_ib_reserved (Z.max 0 (ib_reserved b - pi_item_qty v)) b else b.

(** Only active inventory rows are recomputed. *)
Definition resum_active (k : Z * Z) (m : gmap Z ItemBatch) (i : Inventory) : Inventory :=
  if decide (inv_status_code i = "A"%string) then resum_reserved k m i else i.

Definition release_spec (items : list ReliefPkgItem) (d : DB) : DB :=
  rewrite_sites resum_active (item_sites items) (map_batches (entry_row item3 release_row items) d).

Lemma release_row_key v b : bkey (release_row v b) = bkey b.
Proof. unfold release_row. by case_match. Qed.

Section release.
Context `{R : Runtime}.

Lemma release_batch_run acc v s acc' s' :
  run_ok (release_batch acc (batch_key v, pi_item_qty v)) s acc' s' ↔
  True ∧ acc' = item_site v ∪ acc ∧ s' = upd_work (entry_put item3 release_row v) s.
Proof.
  unfold run_ok, release_batch, batch_key, item_site, entry_put, release_row, find_key. simpl.
  destruct (0 <? pi_item_qty v).
  - rewrite run_bind. simpl. destruct s as [c w]; unfold upd_work; simpl.
    destruct (find_batch _ _ _ w) as [b|]; simpl; unfold mret, M_ret, m_ret; run_iff.
  - destruct s as [c w]; unfold upd_work, mret, M_ret, m_ret; simpl. rewrite (left_id_L ∅ (∪)).
    destruct (find_batch _ _ _ w) as [b|] eqn:Hb; [|run_iff].
    apply find_batch_Some in Hb as [Hb _]. rewrite put_batch_id by done. run_iff.
Qed.

Lemma release_site_run site s s' :
  run_ok (release_site site) s tt s' ↔ True ∧ s' = upd_work (site_put resum_active site) s.
Proof.
  destruct site as [it wh]. unfold run_ok, release_site. rewrite run_bind. simpl.
  rewrite batch_sum_total. unfold find_active_inventory, site_put, resum_active.
  destruct s as [c w]; unfold upd_work; simpl.
  destruct (db_inventory w !! (wh, it)) as [i|] eqn:Hi;
    [case_decide|]; unfold mret, M_ret, m_ret, db_mod, m_modify, upd_work, put_inventory; simpl;
    rewrite ?insert_id, ?set_db_inventory_id by done; run_iff.
Qed.
End release.

(** The sites of the items, walked in any order. *)
Lemma site_loop `{Runtime} {E} (body : Z * Z → M Session E unit)
    (f : Z * Z → gmap Z ItemBatch → Inventory → Inventory) (ok : Z * Z → DB → Prop) sites s s' :
  (∀ site s s', run_ok (body site) s tt s' ↔ ok site (work s) ∧ s' = upd_work (site_put f site) s) →
  (∀ a b d, a ≠ b → ok b (site_put f a d) ↔ ok b d) →
  run_ok (m_for (iter_pairs sites) body) s tt s' ↔
  (∀ site, site ∈ sites → ok site (work s)) ∧ s' = upd_work (rewrite_sites f sites) s.
Proof.
  intros Hbody Hind.
  rewrite (for_effects body ok (site_put f) Hbody Hind _ s s' (nodup_iter_pairs sites)).
  rewrite Forall_forall. setoid_rewrite elem_of_iter_pairs.
  unfold upd_work. rewrite (site_puts f (iter_pairs sites) sites); [done|apply nodup_iter_pairs|].
  intros x. apply elem_of_iter_pairs.
Qed.

(** Releasing never fails, and its result does not depend on any order. *)
Lemma release_run `{Runtime} rq s s' :
  keyed_batches (work s) → keyed_pkg_items (work s) →
  run_ok (release_all_reservations rq) s tt s' ↔
  s' = upd_work (release_spec (positive_items (current_items rq (work s)))) s.
Proof.
  intros Hb Hi. unfold release_all_reservations.
  change (run_ok (affected ← m_fold (get_current_batch_reservations rq (work s)) ∅ release_batch;
    m_for (iter_pairs affected) release_site) s tt s' ↔ 
    s' = upd_work (release_spec (positive_items (current_items rq (work s)))) s).
  rewrite bind_ok. rewrite current_reservations_eq by done.
  set (items := positive_items _).
  assert (NoDup (item3 <$> items)) as Hnd by (by apply nodup_fmap_filter, current_items_nodup).
  unfold run_ok at 1. setoid_rewrite fold_fmap.
  fold (@run_ok Session ResFailure (gset (Z * Z))).
  setoid_rewrite (fold_effects _ item3 (λ _ _, True) (entry_put item3 release_row) item_site
    release_batch_run (λ a b d _, iff_refl _) items _ _ _ _ Hnd).
  setoid_rewrite (site_loop _ resum_active (λ _ _, True) _ _ _ release_site_run (λ a b d _, iff_refl _)).
  unfold release_spec, item_sites, map_batches, upd_work.
  rewrite entry_puts by (done || apply release_row_key). simpl. split.
  - intros (acc & s1 & (_ & -> & ->) & _ & ->). done.
  - intros ->. do 2 eexists. split_and!; try done. by apply Forall_true.
Qed.

(** The operations write batches and inventory rows only. *)
Definition stock_only (c d0 : DB) (s : Session) : Prop :=
  committed s = c ∧ ∃ m n, work s = set_db_inventory n (set_db_itembatch m d0).

Lemma stock_only_refl s : stock_only (committed s) (work s) s.
Proof.
  split; [done|]. exists (db_itembatch (work s)), (db_inventory (work s)).
  by rewrite set_db_itembatch_id, set_db_inventory_id.
Qed.

Lemma stock_only_batch c d0 c' w k b :
  stock_only c d0 (mkSession c' w) → stock_only c d0 (mkSession c' (put_batch k b w)).
Proof. intros [Hc (m & n & Hw)]. simpl in *. subst. split; [done|]. by eexists _, n. Qed.

Lemma stock_only_inventory c d0 c' w wh it i :
  stock_only c d0 (mkSession c' w) → stock_only c d0 (mkSession c' (put_inventory wh it i w)).
Proof. intros [Hc (m & n & Hw)]. simpl in *. subst. split; [done|]. by eexists m, _. Qed.

(** Releasing never fails. *)
Lemma release_frame `{Runtime} rq c d0 :
  triple (stock_only c d0) (release_all_reservations rq) (λ _, stock_only c d0) (λ _ _, False).
Proof.
  unfold release_all_reservations. apply (triple_bind _ (λ _, stock_only c d0)); [by apply triple_gets|].
  intros d. apply (triple_bind _ (λ _, stock_only c d0)).
  - apply triple_fold_inv. intros acc [[[it [wh|]] bid] q] _ [c' w] Hs; unfold release_batch;
      destruct (0 <? q); run_unfold; try done.
    destruct (find_batch bid it wh w); simpl; [by apply stock_only_batch|done].
  - intros acc. apply triple_for_inv. intros [it wh] _ [c' w] Hs. unfold release_site. run_unfold.
    destruct (find_active_inventory wh it w); simpl; [by apply stock_only_inventory|done].
Qed.

(** * commit_inventory *)

Definition commit_row (v : ReliefPkgItem) (b : ItemBatch) : ItemBatch :=
  if 0 <? pi_item_qty v
  then set_ib_reserved (Z.max 0 (ib_reserved b - pi_item_qty v))
         (set_ib_usable (ib_usable b - pi_item_qty v) b)
  else b.

Definition resum_both (k : Z * Z) (m : gmap Z ItemBatch) (i : Inventory) : Inventory :=
  set_inv_reserved (total ib_reserved k.2 k.1 m) (set_inv_usable (total ib_usable k.2 k.1 m) i).

Definition commit_spec (items : list ReliefPkgItem) (d : DB) : DB :=
  rewrite_sites resum_both (item_sites items) (map_batches (entry_row item3 commit_row items) d).

(** The batch of the item exists and holds enough. *)
Definition commit_ok (v : ReliefPkgItem) (d : DB) : Prop :=
  0 < pi_item_qty v → ∃ b, find_key (item3 v) d = Some b ∧ pi_item_qty v ≤ ib_usable b.

Definition commit_admissible `{Runtime} (rq : Z) (d : DB) : Prop :=
  is_Some (first_pkg_of rq d) ∧ ∀ v, v ∈ current_items rq d → commit_ok v d.

Lemma commit_row_key v b : bkey (commit_row v b) = bkey b.
Proof. unfold commit_row. by case_match. Qed.

Section commit.
Context `{R : Runtime}.

Lemma commit_item_run acc v s acc' s' :
  run_ok (commit_item acc v) s acc' s' ↔
  commit_ok v (work s) ∧ acc' = item_site v ∪ acc ∧ s' = upd_work (entry_put item3 commit_row v) s.
Proof.
  unfold commit_item, item_site, entry_put, commit_row, commit_ok, item3, find_key. simpl.
  destruct s as [c w]. destruct (Z.ltb_spec 0 (pi_item_qty v)) as [Hq|Hq]; simpl.
  - destruct (find_batch _ _ _ w) as [b|] eqn:Hb; simpl.
    + destruct (Z.ltb_spec (ib_usable b) (pi_item_qty v)).
      * run_unfold. rewrite Hb. rewrite (proj2 (Z.ltb_lt _ _)) by done. split; [done|].
        intros (Hok & _). destruct (Hok Hq) as (? & ? & ?). simplify_eq. lia.
      * run_unfold. rewrite Hb. rewrite (proj2 (Z.ltb_ge _ _)) by done. simpl. split.
        -- intros. simplify_eq. split_and!; eauto.
        -- intros (_ & -> & ->). done.
    + run_unfold. rewrite Hb. split; [done|]. intros (Hok & _). by destruct (Hok Hq) as (? & ? & _).
  - rewrite (left_id_L ∅ (∪)). run_unfold.
    destruct (find_batch _ _ _ w) as [b|] eqn:Hb;
      [apply find_batch_Some in Hb as [Hb _]; rewrite put_batch_id by done|]; split;
      intros; destruct_and?; simplify_eq; try done; split_and!; try done; lia.
Qed.

Lemma commit_ok_put v v' d :
  item3 v ≠ item3 v' → commit_ok v' (entry_put item3 commit_row v d) ↔ commit_ok v' d.
Proof.
  intros Hne. unfold commit_ok. by rewrite find_key_entry_put by (done || apply commit_row_key).
Qed.

Lemma commit_site_run site s s' :
  run_ok (commit_site site) s tt s' ↔ True ∧ s' = upd_work (site_put resum_both site) s.
Proof.
  destruct site as [it wh]. unfold commit_site, site_put, find_inventory. destruct s as [c w].
  run_unfold. rewrite !batch_sum_total.
  destruct (db_inventory w !! (wh, it)) as [i|]; run_iff.
Qed.
End commit.

Lemma commit_run `{Runtime} rq s s' :
  keyed_batches (work s) → keyed_pkg_items (work s) →
  run_ok (commit_inventory rq) s tt s' ↔
  commit_admissible rq (work s) ∧ s' = upd_work (commit_spec (current_items rq (work s))) s.
Proof.
  intros Hb Hi. unfold commit_inventory, commit_admissible.
  pose proof (current_items_nodup rq (work s) Hi) as Hnd. unfold current_items in *.
  rewrite bind_ok.
  destruct (first_pkg_of rq (work s)) as [pkg|] eqn:Hp; last first.
  { split; [|intros [[[? ?] _] _]; done]. intros (d & s1 & [= <- <-] & Hrun). by rewrite Hp in Hrun. }
  set (items := pkg_items_of _ _) in *.
  transitivity (run_ok (affected ← m_fold items ∅ commit_item; m_for (iter_pairs affected) commit_site) s tt s').
  { split; [intros (d & s1 & [= <- <-] & Hrun); by rewrite Hp in Hrun|].
    intros Hrun. exists (work s), s. split; [done|]. by rewrite Hp. }
  rewrite bind_ok.
  setoid_rewrite (fold_effects commit_item item3 commit_ok (entry_put item3 commit_row) item_site
    commit_item_run commit_ok_put items _ _ _ _ Hnd).
  setoid_rewrite (site_loop commit_site resum_both (λ _ _, True) _ _ _ commit_site_run (λ a b d _, iff_refl _)).
  unfold commit_spec, item_sites, map_batches, upd_work.
  rewrite entry_puts by (done || apply commit_row_key). setoid_rewrite Forall_forall. simpl. split.
  - intros (acc & s1 & (Hok & -> & ->) & _ & ->). split; [|done]. split; [done|]. exact Hok.
  - intros ((_ & Hok) & ->). do 2 eexists. split_and!; try done.
Qed.

(** * cancel_relief_package *)

Definition cancel_row (user : string) (now : Z) (v : ReliefPkgItem) (b : ItemBatch) : ItemBatch :=
  if 0 <? pi_item_qty v
  then set_ib_audit (touch user now (ib_audit b)) (set_ib_reserved (ib_reserved b - pi_item_qty v) b)
  else b.

Definition resum_touch (user : string) (now : Z) (k : Z * Z) (m : gmap Z ItemBatch)
    (i : Inventory) : Inventory :=
  set_inv_audit (touch user now (inv_audit i)) (resum_reserved k m i).

Definition cancel_spec (user : string) (now : Z) (pkg : Z) (items : list ReliefPkgItem) (d : DB) : DB :=
  delete_pkg pkg (delete_pkg_items items
    (rewrite_sites (resum_touch user now) (item_sites items)
      (map_batches (entry_row item3 (cancel_row user now) items) d))).

(** Every batch still there reserves at least what the package takes from it. *)
Definition cancel_ok (v : ReliefPkgItem) (d : DB) : Prop :=
  0 < pi_item_qty v → ∀ b, find_key (item3 v) d = Some b → pi_item_qty v ≤ ib_reserved b.

Definition cancel_site_ok (site : Z * Z) (d : DB) : Prop :=
  is_Some (find_inventory site.2 site.1 d) ∧ 0 ≤ total ib_reserved site.1 site.2 (db_itembatch d).

Definition cancel_admissible `{Runtime} (user : string) (now : Z) (pkg_id : Z) (d : DB) : Prop :=
  let items := pkg_items_of pkg_id d in
  (∃ pkg, db_pkg d !! pkg_id = Some pkg ∧ pkg_status_code pkg ∈ ["P"; "D"]%string) ∧
  (∀ v, v ∈ items → cancel_ok v d) ∧
  (∀ site, site ∈ item_sites items →
     cancel_site_ok site (map_batches (entry_row item3 (cancel_row user now) items) d)).

Lemma cancel_row_key user now v b : bkey (cancel_row user now v b) = bkey b.
Proof. unfold cancel_row. by case_match. Qed.

Section cancel.
Context `{R : Runtime} (user : string) (now : Z).

Lemma cancel_item_run acc v s acc' s' :
  run_ok (cancel_item user now acc v) s acc' s' ↔
  cancel_ok v (work s) ∧ acc' = item_site v ∪ acc ∧
  s' = upd_work (entry_put item3 (cancel_row user now) v) s.
Proof.
  unfold cancel_item, item_site, entry_put, cancel_row, cancel_ok, item3, find_key. simpl.
  destruct s as [c w]. rewrite Z.leb_antisym.
  destruct (Z.ltb_spec 0 (pi_item_qty v)) as [Hq|Hq]; simpl.
  - destruct (find_batch _ _ _ w) as [b|] eqn:Hb; simpl.
    + destruct (Z.ltb_spec (ib_reserved b) (pi_item_qty v)).
      * run_unfold. rewrite Hb. rewrite (proj2 (Z.ltb_lt _ _)) by done. split; [done|].
        intros (Hok & _). specialize (Hok Hq b eq_refl). lia.
      * run_unfold. rewrite Hb. rewrite (proj2 (Z.ltb_ge _ _)) by done. simpl.
        change (ib_reserved (set_ib_reserved (ib_reserved b - pi_item_qty v) b))
          with (ib_reserved b - pi_item_qty v).
        rewrite (proj2 (Z.ltb_ge _ _)) by lia. unfold put_batch. simpl.
        rewrite insert_insert_eq. split.
        -- intros. simplify_eq. split_and!; try done. intros _ b' [= <-]. done.
        -- intros (_ & -> & ->). done.
    + run_unfold. rewrite Hb. run_iff.
  - rewrite (left_id_L ∅ (∪)). run_unfold.
    destruct (find_batch _ _ _ w) as [b|] eqn:Hb;
      [apply find_batch_Some in Hb as [Hb _]; rewrite put_batch_id by done|]; split;
      intros; destruct_and?; simplify_eq; try done; split_and!; try done; lia.
Qed.

Lemma cancel_site_run site s s' :
  run_ok (cancel_site user now site) s tt s' ↔
  cancel_site_ok site (work s) ∧ s' = upd_work (site_put (resum_touch user now) site) s.
Proof.
  destruct site as [it wh]. unfold cancel_site, site_put, find_inventory, cancel_site_ok.
  destruct s as [c w]. run_unfold. rewrite !batch_sum_total. unfold find_inventory.
  destruct (db_inventory w !! (wh, it)) as [i|].
  - destruct (Z.ltb_spec (total ib_reserved it wh (db_itembatch w)) 0); simpl.
    + unfold rollback_fail. run_unfold. split; [done|]. intros [[_ ?] _]. lia.
    + split; [intros; simplify_eq; by split_and!|]. by intros [_ ->].
  - unfold rollback_fail. run_unfold. split; [done|]. by intros [[[? [=]] _] _].
Qed.

Lemma cancel_ok_put v v' d :
  item3 v ≠ item3 v' →
  cancel_ok v' (entry_put item3 (cancel_row user now) v d) ↔ cancel_ok v' d.
Proof.
  intros Hne. unfold cancel_ok. by rewrite find_key_entry_put by (done || apply cancel_row_key).
Qed.

Lemma cancel_site_ok_put a b d :
  a ≠ b → cancel_site_ok b (site_put (resum_touch user now) a d) ↔ cancel_site_ok b d.
Proof.
  intros Hne. unfold cancel_site_ok. rewrite site_put_batches.
  destruct a as [it1 wh1], b as [it2 wh2]. unfold site_put, find_inventory.
  destruct (db_inventory d !! (wh1, it1)); [|done]. simpl.
  rewrite lookup_insert_ne by congruence. done.
Qed.

(** The transaction of a package with items; on none it is the identity. *)
Definition cancel_items (pkg_id : Z) (items : list ReliefPkgItem) : RM unit :=
  affected ← m_fold items ∅ (cancel_item user now);
  m_for (iter_pairs affected) (cancel_site user now);;
  db_mod (delete_pkg_items items);;
  db_mod (delete_pkg pkg_id).

Lemma iter_pairs_empty : iter_pairs ∅ = [].
Proof. apply Permutation_nil. by rewrite iter_pairs_perm, elements_empty. Qed.

Lemma cancel_items_nil pkg_id s : cancel_items pkg_id [] s = db_mod (delete_pkg pkg_id) s.
Proof.
  destruct s as [c w]. unfold cancel_items. run_unfold. rewrite iter_pairs_empty. simpl.
  unfold m_ret, delete_pkg_items. simpl. by destruct w.
Qed.

Lemma cancel_items_run pkg_id items s s' :
  keyed_batches (work s) → NoDup (item3 <$> items) →
  run_ok (cancel_items pkg_id items) s tt s' ↔
  ((∀ v, v ∈ items → cancel_ok v (work s)) ∧
   (∀ site, site ∈ item_sites items →
      cancel_site_ok site (map_batches (entry_row item3 (cancel_row user now) items) (work s)))) ∧
  s' = upd_work (cancel_spec user now pkg_id items) s.
Proof.
  intros Hb Hnd. unfold cancel_items. rewrite bind_ok.
  setoid_rewrite (fold_effects _ item3 cancel_ok (entry_put item3 (cancel_row user now)) item_site
    cancel_item_run cancel_ok_put items _ _ _ _ Hnd).
  setoid_rewrite seq_ok.
  setoid_rewrite (site_loop _ (resum_touch user now) cancel_site_ok _ _ _ cancel_site_run cancel_site_ok_put).
  unfold cancel_spec, item_sites, map_batches, upd_work.
  rewrite entry_puts by (done || apply cancel_row_key). setoid_rewrite Forall_forall. split.
  - intros (acc & s1 & (Hok & -> & ->) & s2 & (Hs & ->) & Hd). injection Hd as <-. done.
  - intros ((Hok & Hs) & ->). do 2 eexists. split; [done|]. eexists. by split.
Qed.
End cancel.

Lemma cancel_run `{Runtime} pkg_id user now s s' :
  keyed_batches (work s) → keyed_pkg_items (work s) →
  run_ok (cancel_relief_package pkg_id user now) s tt s' ↔
  cancel_admissible user now pkg_id (work s) ∧
  s' = upd_work (cancel_spec user now pkg_id (pkg_items_of pkg_id (work s))) s.
Proof.
  intros Hb Hi. unfold cancel_admissible.

  transitivity ((∃ pkg, db_pkg (work s) !! pkg_id = Some pkg ∧ pkg_status_code pkg ∈ ["P"; "D"]%string) ∧
    run_ok (cancel_items user now pkg_id (pkg_items_of pkg_id (work s))) s tt s').
  - unfold cancel_relief_package. change (run_ok (db_get ≫= ?f) s tt s') with (run_ok (f (work s)) s tt s').
    cbv beta. destruct (db_pkg (work s) !! pkg_id) as [pkg|] eqn:Hp;
      [|split; [done|]; intros [(? & ? & ?) _]; congruence].
    destruct (bool_decide (pkg_status_code pkg ∈ ["P"; "D"]%string)) eqn:Hst; simpl.
    + apply bool_decide_eq_true in Hst.
      assert (run_ok (match pkg_items_of pkg_id (work s) with
         | [] => db_mod (delete_pkg pkg_id)
         | _ => cancel_items user now pkg_id (pkg_items_of pkg_id (work s)) end) s tt s' ↔
         run_ok (cancel_items user now pkg_id (pkg_items_of pkg_id (work s))) s tt s') as <-.
      { destruct (pkg_items_of pkg_id (work s)); [|done]. unfold run_ok. by rewrite cancel_items_nil. }
      unfold cancel_items. destruct (pkg_items_of pkg_id (work s)); naive_solver.
    + apply bool_decide_eq_false in Hst. split; [done|]. intros [(? & ? & ?) _]. congruence.
  - rewrite cancel_items_run by (done || by apply item3_nodup). tauto.
Qed.
