(* ===== verification/ReservationTheorems.v ===== *)
(** What the reservation service promises: it reserves exactly when every batch
    and warehouse can carry the change, release undoes reserve, dispatch
    deducts exactly the package, and no operation unbalances the ledger. *)
From S2P Require Import Prelude Schema Ledger Fixtures Reservation ReservationProofs.

(** * Reserving *)

Definition old_of `{Runtime} (rq : Z) (old : option (list (AllocKey * Z))) (d : DB) : list (AllocKey * Z) :=
  match old with Some o => o | None => get_current_batch_reservations rq d end.

Lemma reserve_run `{Runtime} rq allocs old s s' :
  keyed_batches (work s) →
  run_ok (reserve_inventory rq allocs old) s tt s' ↔
  reserve_admissible (old_of rq old (work s)) (new_reservations allocs) (work s) ∧
  s' = upd_work (reserve_spec (old_of rq old (work s)) (new_reservations allocs)) s.
Proof.
  intros Hk. rewrite <- (reserve_inventory_run rq allocs _ s s' Hk). by destruct old.
Qed.

Lemma reserve_row_key old new b : bkey (reserve_row old new b) = bkey b.
Proof. unfold reserve_row. by case_match. Qed.

Lemma reserve_row_usable old new b : ib_usable (reserve_row old new b) = ib_usable b.
Proof. unfold reserve_row. by case_match. Qed.

(** A batch whose key is in neither map is not touched. *)
Lemma reserve_row_other old new b :
  key_of b ∉ old.*1 ++ new.*1 → reserve_row old new b = b.
Proof.
  intros Hk. rewrite elem_of_app in Hk. unfold reserve_row, key_delta.
  rewrite !(proj2 (dict_get_None _ _)) by naive_solver. done.
Qed.

Lemma affected_elem (keys : list AllocKey) it wh bid :
  (it, Some wh, bid) ∈ keys → (it, wh) ∈ affected_of keys.
Proof.
  intros Hk. unfold affected_of. rewrite elem_of_list_to_set. apply list_elem_of_omap.
  by exists (it, Some wh, bid).
Qed.

Lemma reserve_row_within old new d k b :
  keyed_batches d → db_itembatch d !! k = Some b →
  reserve_admissible old new d → batch_within b → batch_within (reserve_row old new b).
Proof.
  intros Hkd Hk [Hok _] Hw. destruct (decide (key_of b ∈ old.*1 ++ new.*1)) as [Hin|Hin];
    [|by rewrite reserve_row_other].
  specialize (Hok _ Hin). unfold key_ok, key_of in Hok. fold (key_of b) in Hok.
  unfold reserve_row, batch_within in *. destruct (Z.eqb_spec (key_delta old new (key_of b)) 0); [done|].
  unfold find_batch in Hok. rewrite (Hkd k b Hk), Hk, decide_True in Hok by done.
  unfold ib_usable, ib_reserved in *. simpl. lia.
Qed.

Lemma reserve_spec_ledger old new d :
  keyed_batches d → reserve_admissible old new d → within_stock d → balanced d →
  within_stock (reserve_spec old new d) ∧ balanced (reserve_spec old new d).
Proof.
  intros Hk Hok Hw [Hr Hu]. split; [|split].
  - apply within_stock_map; [|done]. intros k b Hb Hwb. by eapply reserve_row_within.
  - apply (rewrite_balanced inv_reserved ib_reserved); [intros b; apply reserve_row_key|done|done|].
    intros k b Hb Hs. rewrite reserve_row_other; [done|]. intros Hin. apply Hs.
    by eapply affected_elem.
  - apply (rewrite_balanced_frame inv_usable ib_usable); [intros b; apply reserve_row_key|done|done|]. apply reserve_row_usable.
Qed.

(** C2: [reserve_inventory] succeeds exactly when every changed batch exists (or
    is only released) and can carry its new reservation, and every affected
    warehouse row is active and holds at least the new total; the session is
    then the specified one, whatever the order rows and sets are walked in. *)
Theorem reserve_inventory_correct `{Runtime} rq allocs old s s' :
  keyed_batches (work s) →
  run_ok (reserve_inventory rq allocs old) s tt s' ↔
  reserve_admissible (old_of rq old (work s)) (new_reservations allocs) (work s) ∧
  s' = upd_work (reserve_spec (old_of rq old (work s)) (new_reservations allocs)) s.
Proof. apply reserve_run. Qed.

Definition allocs0 : list Alloc :=
  [mkAlloc 1 11 (Some 1) (units 30); mkAlloc 1 12 (Some 1) (units 10)].

Lemma reserve_inventory_correct_witness :
  let s := session_of (package_db "P" 0 0) in
  reserve_admissible [] (new_reservations allocs0) (work s) ∧
  ib_reserved <$> find_batch 11 1 1 (reserve_spec [] (new_reservations allocs0) (work s)) =
    Some (units 30).
Proof.
  split; [|vm_compute; reflexivity].
  refine (proj1 (proj1 (@reserve_inventory_correct canonical_runtime 7 allocs0 (Some [])
    (session_of (package_db "P" 0 0)) _ _) _)); [by_decide|vm_compute; reflexivity].
Defined.

(** a successful reservation keeps every batch within its stock and every
    inventory row equal to the sum of its batches, in both columns. *)
Theorem reserve_inventory_ledger `{Runtime} rq allocs old s s' :
  keyed_batches (work s) → within_stock (work s) → balanced (work s) →
  run_ok (reserve_inventory rq allocs old) s tt s' →
  within_stock (work s') ∧ balanced (work s').
Proof. intros Hk Hw Hb [Hok ->]%reserve_run; [|done]. by apply reserve_spec_ledger. Qed.

Lemma reserve_inventory_ledger_witness :
  let s := session_of (package_db "P" 0 0) in
  ∃ s', run_ok (@reserve_inventory canonical_runtime 7 allocs0 (Some [])) s tt s' ∧
        within_stock (work s') ∧ balanced (work s').
Proof.
  eexists. split; [vm_compute; reflexivity|].
  eapply (@reserve_inventory_ledger canonical_runtime 7 allocs0 (Some [])
    (session_of (package_db "P" 0 0))); [by_decide..|vm_compute; reflexivity].
Defined.

(** * Releasing *)

(** releasing the reservations of a request never fails, and gives back to
    each batch what the package's item holds, down to zero, then recomputes the
    active rows; the result is independent of every order. *)
Theorem release_all_correct `{Runtime} rq s s' :
  keyed_batches (work s) → keyed_pkg_items (work s) →
  run_ok (release_all_reservations rq) s tt s' ↔
  s' = upd_work (release_spec (positive_items (current_items rq (work s)))) s.
Proof. apply release_run. Qed.

Lemma release_all_correct_witness :
  let s := session_of (package_db "P" 35 10) in
  ∃ s', run_ok (@release_all_reservations canonical_runtime 7) s tt s' ∧
    ib_reserved <$> find_batch 11 1 1 (work s') = Some (units 5).
Proof.
  eexists. split.
  - apply (@release_all_correct canonical_runtime 7 (session_of (package_db "P" 35 10)));
      [by_decide..|reflexivity].
  - vm_compute. reflexivity.
Defined.

(** The package's items hold what the allocations ask for. *)
Definition items_match `{Runtime} (rq : Z) (allocs : list Alloc) (d : DB) : Prop :=
  get_current_batch_reservations rq d = new_reservations allocs.

Section undo.
Context `{Runtime} (rq : Z) (d : DB).
Hypothesis keyed : keyed_batches d.
Hypothesis keyed_items : keyed_pkg_items d.
Hypothesis within : within_stock d.

Let items := positive_items (current_items rq d).
Let new := (λ v, (batch_key v, pi_item_qty v)) <$> items.

Lemma items_nodup : NoDup (item3 <$> items).
Proof. by apply nodup_fmap_filter, current_items_nodup. Qed.

Lemma new_keys : new.*1 = batch_key <$> items.
Proof. unfold new. rewrite <- list_fmap_compose. by apply list_fmap_ext. Qed.

Lemma key_delta_entry b v :
  entry_for item3 items b = Some v → key_delta [] new (key_of b) = pi_item_qty v.
Proof.
  intros Hv. apply entry_for_Some in Hv as [Hin Hkey]. unfold key_delta. simpl.
  rewrite (dict_get_elem (key_of b) (pi_item_qty v)); [simpl; lia|..].
  - rewrite new_keys. apply batch_key_nodup, items_nodup.
  - apply list_elem_of_fmap. exists v. split; [|done].
    unfold item3, bkey in Hkey. unfold key_of, batch_key. congruence.
Qed.

Lemma key_delta_none b :
  entry_for item3 items b = None → key_delta [] new (key_of b) = 0.
Proof.
  intros Hn. unfold key_delta. simpl. rewrite (proj2 (dict_get_None _ _)); [done|].
  rewrite new_keys. intros Hin. apply list_elem_of_fmap in Hin as (v & Hk & Hv).
  apply (proj1 (entry_for_None _ _ _) Hn v Hv).
  unfold key_of, batch_key in Hk. unfold item3, bkey. congruence.
Qed.

Lemma undo_row k b :
  db_itembatch d !! k = Some b →
  entry_row item3 release_row items (reserve_row [] new b) = b.
Proof.
  intros Hk. pose proof (within k b Hk) as [Hpos _]. unfold entry_row.
  assert (entry_for item3 items (reserve_row [] new b) = entry_for item3 items b) as ->
    by (unfold entry_for; by rewrite reserve_row_key).
  unfold reserve_row. destruct (entry_for item3 items b) as [v|] eqn:Hv.
  - rewrite (key_delta_entry b v Hv). apply entry_for_Some in Hv as [Hv _].
    apply list_elem_of_filter in Hv as [Hq%Z.ltb_lt _].
    rewrite (proj2 (Z.eqb_neq _ _)) by lia. unfold release_row.
    rewrite (proj2 (Z.ltb_lt _ _)) by lia.
    change (ib_reserved (set_ib_reserved ?x b)) with x.
    rewrite (Z.max_r 0 (ib_reserved b + _)), Z.max_r by lia.
    replace (ib_reserved b + pi_item_qty v - pi_item_qty v) with (ib_reserved b) by lia.
    by destruct b as [? ? ? ? ? ? []].
  - by rewrite (key_delta_none b Hv).
Qed.

Lemma undo_batches :
  entry_row item3 release_row items <$> (reserve_row [] new <$> db_itembatch d) = db_itembatch d.
Proof.
  apply map_eq. intros k. rewrite !lookup_fmap. destruct (db_itembatch d !! k) as [b|] eqn:E; [|done].
  simpl. by rewrite (undo_row k b E).
Qed.

Hypothesis active : all_active d.
Hypothesis bal : balanced_reserved d.

Lemma undo_sites site : site ∈ sites_of [] new → site ∈ item_sites items.
Proof.
  unfold sites_of, affected_of. rewrite elem_of_list_to_set, list_elem_of_omap.
  intros ([[it inv] bid] & Hin & Hs). simpl in Hin. rewrite new_keys in Hin.
  apply list_elem_of_fmap in Hin as (v & Hk & Hv).
  unfold item_sites. apply elem_of_collect. right. exists v. split; [done|].
  apply list_elem_of_filter in Hv as [Hq _]. unfold item_site. rewrite Hq.
  unfold batch_key in Hk. simplify_eq. set_solver.
Qed.

Lemma undo_inventory k i m :
  db_inventory d !! k = Some i →
  (if decide ((k.2, k.1) ∈ item_sites items)
   then resum_active k (db_itembatch d)
     (if decide ((k.2, k.1) ∈ sites_of [] new) then resum_reserved k m i else i)
   else (if decide ((k.2, k.1) ∈ sites_of [] new) then resum_reserved k m i else i)) = i.
Proof.
  intros Hi. pose proof (bal k i Hi) as Hb. pose proof (active k i Hi) as Ha. simpl in *.
  assert (∀ i', i' = i ∨ i' = resum_reserved k m i → resum_active k (db_itembatch d) i' = i) as Hres.
  { intros i' Hi'. unfold resum_active. rewrite decide_True by (by destruct Hi' as [->| ->]).
    unfold resum_reserved, set_inv_reserved, set_inv_stock, inv_reserved in *.
    destruct Hi' as [->| ->]; simpl; rewrite <- Hb; by destruct i as [? ? []]. }
  case_decide as H1; [apply Hres; case_decide; auto|].
  rewrite decide_False; [done|]. intros H2. by apply H1, undo_sites.
Qed.

Lemma undo_spec : release_spec items (reserve_spec [] new d) = d.
Proof.
  unfold release_spec, reserve_spec, map_batches, reserve_batches, rewrite_sites. simpl.
  rewrite undo_batches. transitivity (set_db_inventory (db_inventory d) d); [|by destruct d].
  unfold set_db_inventory, set_db_itembatch. simpl. f_equal.
  apply map_eq. intros k. rewrite !map_lookup_imap.
  destruct (db_inventory d !! k) as [i|] eqn:Hi; [|done]. simpl. f_equal.
  by apply undo_inventory.
Qed.
End undo.

(** C19: release undoes reserve.  From a ledger within stock, balanced and active,
    reserving what the package's items hold and then releasing the request
    restores every table. *)
Theorem release_undoes_reserve `{Runtime} rq allocs s s1 s2 :
  keyed_batches (work s) → keyed_pkg_items (work s) → within_stock (work s) →
  balanced_reserved (work s) → all_active (work s) →
  items_match rq allocs (work s) →
  run_ok (reserve_inventory rq allocs (Some [])) s tt s1 →
  run_ok (release_all_reservations rq) s1 tt s2 →
  s2 = s.
Proof.
  intros Hk Hi Hw Hb Ha Hm [_ ->]%reserve_run Hrel; [|done].
  unfold items_match in Hm. rewrite current_reservations_eq in Hm by done.
  rewrite <- Hm in Hrel. apply release_run in Hrel as ->.
  - unfold upd_work. simpl. destruct s as [c w]; simpl in *. f_equal. exact (undo_spec rq w Hk Hi Hw Ha Hb).
  - intros k b. unfold upd_work, reserve_spec. simpl. rewrite lookup_fmap.
    destruct (db_itembatch (work s) !! k) as [b0|] eqn:E; [|done]. simpl. intros [= <-].
    rewrite <- (Hk k b0 E). pose proof (reserve_row_key [] ((λ v, (batch_key v, pi_item_qty v)) <$>
      positive_items (current_items rq (work s))) b0) as Hkey. unfold bkey in Hkey. congruence.
  - done.
Qed.

Lemma release_undoes_reserve_witness :
  let s := session_of (package_db "P" 0 0) in
  ∃ s1 s2, run_ok (@reserve_inventory canonical_runtime 7 allocs0 (Some [])) s tt s1 ∧
    run_ok (@release_all_reservations canonical_runtime 7) s1 tt s2 ∧ s2 = s.
Proof.
  do 2 eexists. split; [vm_compute; reflexivity|]. split; [vm_compute; reflexivity|].
  eapply (@release_undoes_reserve canonical_runtime 7 allocs0 (session_of (package_db "P" 0 0)));
    [by_decide..| | |]; vm_compute; reflexivity.
Defined.

(** * Committing *)

(** What a package takes of an item from a warehouse. *)
Definition taken (it wh : Z) (items : list ReliefPkgItem) : Z :=
  lsum (λ v, if decide (pi_item_id v = it ∧ pi_fr_inventory_id v = wh)
             then Z.max 0 (pi_item_qty v) else 0) items.

Lemma commit_put_total v d it wh :
  keyed_batches d → commit_ok v d →
  total ib_usable it wh (db_itembatch (entry_put item3 commit_row v d)) =
  total ib_usable it wh (db_itembatch d) -
  (if decide (pi_item_id v = it ∧ pi_fr_inventory_id v = wh) then Z.max 0 (pi_item_qty v) else 0).
Proof.
  intros Hk Hok. unfold entry_put, commit_ok in *. destruct (find_key (item3 v) d) as [b|] eqn:Hb.
  - apply find_key_Some in Hb as [Hb Hkey]; [|done]. unfold put_batch. simpl in *.
    assert (ib_usable (commit_row v b) = ib_usable b - Z.max 0 (pi_item_qty v)) as Hu.
    { unfold commit_row. destruct (Z.ltb_spec 0 (pi_item_qty v)); [|lia].
      unfold ib_usable; simpl. lia. }
    pose proof (commit_row_key v b) as Hkr. unfold bkey, item3 in *. simplify_eq.
    case_decide as Hat.
    + rewrite (total_put_same _ _ _ _ _ b) by (try done; unfold at_site; naive_solver congruence).
      lia.
    + rewrite (total_put_other _ _ _ _ _ b) by (try done; unfold at_site; naive_solver congruence).
      lia.
  - case_decide; [|lia]. destruct (Z.ltb_spec 0 (pi_item_qty v)) as [Hq|]; [|lia].
    by destruct (Hok Hq) as (? & ? & _).
Qed.

Lemma commit_total items d it wh :
  keyed_batches d → NoDup (item3 <$> items) → (∀ v, v ∈ items → commit_ok v d) →
  total ib_usable it wh (db_itembatch (effects (entry_put item3 commit_row) items d)) =
  total ib_usable it wh (db_itembatch d) - taken it wh items.
Proof.
  revert d. induction items as [|v items IH]; intros d Hk Hnd Hok; [simpl; lia|].
  csimpl in Hnd. apply NoDup_cons in Hnd as [Hv Hnd]. simpl.
  rewrite IH; [rewrite commit_put_total by (done || (apply Hok; by left)); lia
              |apply entry_put_keyed; [apply commit_row_key|done]|done|].
  intros v' Hv'. apply commit_ok_put; [|apply Hok; by right].
  intros Heq. apply Hv. rewrite Heq. by apply list_elem_of_fmap_2.
Qed.

Lemma commit_row_within v b :
  (0 < pi_item_qty v → pi_item_qty v ≤ ib_usable b) →
  batch_within b → batch_within (commit_row v b).
Proof.
  intros Hq Hw. unfold commit_row. destruct (Z.ltb_spec 0 (pi_item_qty v)); [|done].
  unfold batch_within, ib_usable, ib_reserved in *. simpl. lia.
Qed.

(** A batch at a site the items do not touch keeps its row. *)
Lemma entry_row_other g items b :
  (∀ v, pi_item_qty v ≤ 0 → g v b = b) →
  (ib_item_id b, ib_inventory_id b) ∉ item_sites items → entry_row item3 g items b = b.
Proof.
  intros Hg Hs. unfold entry_row. destruct (entry_for item3 items b) as [v|] eqn:Hv; [|done].
  apply entry_for_Some in Hv as [Hin Hkey]. apply Hg.
  destruct (Z.ltb_spec 0 (pi_item_qty v)); [|lia]. exfalso. apply Hs.
  apply elem_of_collect. right. exists v. split; [done|].
  unfold item_site. rewrite (proj2 (Z.ltb_lt _ _)) by done.
  unfold item3, bkey in Hkey. rewrite elem_of_singleton. congruence.
Qed.

Lemma commit_spec_ledger items d :
  keyed_batches d → (∀ v, v ∈ items → commit_ok v d) → within_stock d → balanced d →
  within_stock (commit_spec items d) ∧ balanced (commit_spec items d).
Proof.
  intros Hk Hok Hw [Hr Hu]. pose proof (entry_row_key item3 commit_row items commit_row_key) as Hkey.
  assert (∀ b, (ib_item_id b, ib_inventory_id b) ∉ item_sites items →
    entry_row item3 commit_row items b = b) as Hother.
  { intros b Hb. apply entry_row_other; [|done]. intros v Hq. unfold commit_row.
    by rewrite (proj2 (Z.ltb_ge _ _)) by lia. }
  split; [|split].
  - apply within_stock_map; [|done]. intros k b Hb Hwb. unfold entry_row.
    destruct (entry_for item3 items b) as [v|] eqn:Hv; [|done].
    apply entry_for_Some in Hv as [Hin Hv]. apply commit_row_within; [|done]. intros Hq.
    destruct (Hok v Hin Hq) as (b' & Hb' & ?). apply find_key_Some in Hb' as [Hb' _]; [|done].
    rewrite Hv in Hb'. simpl in Hb'. rewrite (Hk k b Hb), Hb in Hb'. naive_solver.
  - apply (rewrite_balanced inv_reserved ib_reserved); [done..|].
    intros k b _ Hs. by rewrite Hother.
  - apply (rewrite_balanced inv_usable ib_usable); [done..|].
    intros k b _ Hs. by rewrite Hother.
Qed.

(** C3: [commit_inventory] succeeds exactly when the request has a package and
    every batch its items name exists and holds the item's quantity; the session
    is then the specified one. *)
Theorem commit_inventory_correct `{Runtime} rq s s' :
  keyed_batches (work s) → keyed_pkg_items (work s) →
  run_ok (commit_inventory rq) s tt s' ↔
  commit_admissible rq (work s) ∧ s' = upd_work (commit_spec (current_items rq (work s))) s.
Proof. apply commit_run. Qed.

Lemma commit_inventory_correct_witness :
  let s := session_of (package_db "D" 30 10) in
  @commit_admissible canonical_runtime 7 (work s).
Proof.
  refine (proj1 (proj1 (@commit_inventory_correct canonical_runtime 7
    (session_of (package_db "D" 30 10)) _ _ _) _)); [by_decide..|vm_compute; reflexivity].
Defined.

(** dispatch conserves stock.  After a successful commit each item's usable
    total at each warehouse has fallen by exactly what the package takes there,
    no batch exceeds its stock and every inventory row is its batches' sum. *)
Theorem commit_inventory_conserves `{Runtime} rq s s' :
  keyed_batches (work s) → keyed_pkg_items (work s) →
  within_stock (work s) → balanced (work s) →
  run_ok (commit_inventory rq) s tt s' →
  (∀ it wh, total ib_usable it wh (db_itembatch (work s')) =
            total ib_usable it wh (db_itembatch (work s)) - taken it wh (current_items rq (work s))) ∧
  within_stock (work s') ∧ balanced (work s').
Proof.
  intros Hk Hi Hw Hb [[_ Hok] ->]%commit_run; [|done..]. unfold upd_work. simpl. split.
  - intros it wh. rewrite <- commit_total by (done || by apply current_items_nodup).
    by rewrite entry_puts by (done || apply commit_row_key || by apply current_items_nodup).
  - by apply commit_spec_ledger.
Qed.

Lemma commit_inventory_conserves_witness :
  let s := session_of (package_db "D" 30 10) in
  ∃ s', run_ok (@commit_inventory canonical_runtime 7) s tt s' ∧
    within_stock (work s') ∧ balanced (work s').
Proof.
  eexists. split; [vm_compute; reflexivity|].
  eapply (@commit_inventory_conserves canonical_runtime 7 (session_of (package_db "D" 30 10)));
    [by_decide..|vm_compute; reflexivity].
Defined.

(** * Cancelling *)

Lemma cancel_spec_ledger user now pkg items d :
  keyed_batches d → (∀ v, v ∈ items → cancel_ok v d) → within_stock d → balanced d →
  within_stock (cancel_spec user now pkg items d) ∧ balanced (cancel_spec user now pkg items d).
Proof.
  intros Hk Hok Hw [Hr Hu].
  pose proof (entry_row_key item3 (cancel_row user now) items (cancel_row_key user now)) as Hkey.
  split; [|split].
  - apply (within_stock_map (entry_row item3 (cancel_row user now) items) d); [|done].
    intros k b Hb Hwb. unfold entry_row.
    destruct (entry_for item3 items b) as [v|] eqn:Hv; [|done].
    apply entry_for_Some in Hv as [Hin Hv]. unfold cancel_row.
    destruct (Z.ltb_spec 0 (pi_item_qty v)) as [Hq|]; [|done].
    assert (pi_item_qty v ≤ ib_reserved b) as Hle.
    { apply (Hok v Hin Hq). apply find_key_Some; [done|]. rewrite Hv. simpl. by rewrite (Hk k b Hb). }
    unfold batch_within, ib_usable, ib_reserved in *. simpl. lia.
  - apply (rewrite_balanced inv_reserved ib_reserved (entry_row item3 (cancel_row user now) items)
      (resum_touch user now) (item_sites items) d); [done..|].
    intros k b _ Hs. rewrite entry_row_other; [done| |done]. intros v Hq. unfold cancel_row.
    by rewrite (proj2 (Z.ltb_ge _ _)) by lia.
  - apply (rewrite_balanced_frame inv_usable ib_usable (entry_row item3 (cancel_row user now) items)
      (resum_touch user now) (item_sites items) d); [done..|].
    intros b. apply entry_row_frame. intros v. unfold cancel_row. by case_match.
Qed.

(** C4: [cancel_relief_package] succeeds exactly when the package exists with
    status P or D, every batch still there reserves the item's quantity and every
    warehouse row exists; the session is then the specified one, without the
    package and its items. *)
Theorem cancel_relief_package_correct `{Runtime} pkg_id user now s s' :
  keyed_batches (work s) → keyed_pkg_items (work s) →
  run_ok (cancel_relief_package pkg_id user now) s tt s' ↔
  cancel_admissible user now pkg_id (work s) ∧
  s' = upd_work (cancel_spec user now pkg_id (pkg_items_of pkg_id (work s))) s.
Proof. apply cancel_run. Qed.

Lemma cancel_relief_package_correct_witness :
  let s := session_of (package_db "P" 30 10) in
  @cancel_admissible canonical_runtime "LM" 5 70 (work s).
Proof.
  refine (proj1 (proj1 (@cancel_relief_package_correct canonical_runtime 70 "LM" 5
    (session_of (package_db "P" 30 10)) _ _ _) _)); [by_decide..|vm_compute; reflexivity].
Defined.

(** a cancelled package gives back only its reservations: the ledger stays
    within stock and balanced, and no usable quantity changes, a dispatched
    package's stock included. *)
Theorem cancel_relief_package_ledger `{Runtime} pkg_id user now s s' :
  keyed_batches (work s) → keyed_pkg_items (work s) →
  within_stock (work s) → balanced (work s) →
  run_ok (cancel_relief_package pkg_id user now) s tt s' →
  within_stock (work s') ∧ balanced (work s') ∧
  ∀ k, ib_usable <$> db_itembatch (work s') !! k = ib_usable <$> db_itembatch (work s) !! k.
Proof.
  intros Hk Hi Hw Hb [(_ & Hok & _) ->]%cancel_run; [|done..].
  destruct (cancel_spec_ledger user now pkg_id (pkg_items_of pkg_id (work s)) (work s))
    as [H1 H2]; [done..|].
  split; [exact H1|]. split; [exact H2|].
  intros k. unfold upd_work. simpl. rewrite lookup_fmap. destruct (db_itembatch _ !! k); [|done].
  simpl. f_equal. apply entry_row_frame. intros v. unfold cancel_row. by case_match.
Qed.

Lemma cancel_relief_package_ledger_witness :
  let s := session_of (package_db "P" 30 10) in
  ∃ s', run_ok (@cancel_relief_package canonical_runtime 70 "LM" 5) s tt s' ∧
    within_stock (work s') ∧ balanced (work s').
Proof.
  eexists. split; [vm_compute; reflexivity|].
  edestruct (@cancel_relief_package_ledger canonical_runtime 70 "LM" 5
    (session_of (package_db "P" 30 10))) as (H1 & H2 & _);
    [by_decide..|vm_compute; reflexivity|exact (conj H1 H2)].
Defined.

(** A run of the cancellation, from the state it started in. *)
Definition same_committed (c : DB) (s : Session) : Prop := committed s = c.

Lemma cancel_item_triple user now c acc v :
  triple (same_committed c) (cancel_item user now acc v)
    (λ _, same_committed c) (λ _ s, s = mkSession c c).
Proof.
  intros [c' w] Hc. unfold same_committed in Hc. simpl in Hc. subst c'.
  unfold cancel_item. destruct (pi_item_qty v <=? 0); [done|].
  run_unfold. destruct (find_batch _ _ _ w) as [b|]; [|done].
  destruct (ib_reserved b <? pi_item_qty v); [done|]. run_unfold.
  by destruct (_ <? 0).
Qed.

Lemma cancel_site_triple `{Runtime} user now c site :
  triple (same_committed c) (cancel_site user now site)
    (λ _, same_committed c) (λ _ s, s = mkSession c c).
Proof.
  intros [c' w] Hc. unfold same_committed in Hc. simpl in Hc. subst c'.
  destruct site as [it wh]. unfold cancel_site. run_unfold.
  destruct (find_inventory wh it w) as [i|]; [|done]. by destruct (_ <? 0).
Qed.

Lemma cancel_items_triple `{Runtime} user now pkg_id items c :
  triple (same_committed c) (cancel_items user now pkg_id items)
    (λ _, same_committed c) (λ _ s, s = mkSession c c).
Proof.
  unfold cancel_items. apply (triple_bind _ (λ _, same_committed c)).
  - apply triple_fold_inv. intros acc v _. apply cancel_item_triple.
  - intros acc. apply (triple_bind _ (λ _, same_committed c)).
    + apply triple_for_inv. intros site _. apply cancel_site_triple.
    + intros _. apply (triple_bind _ (λ _, same_committed c)); [|intros _];
        by apply triple_modify.
Qed.

(** a cancellation is all or nothing.  It never commits by itself, and when it
    fails the session is either untouched or rolled back. *)
Theorem cancel_relief_package_atomic `{Runtime} pkg_id user now s s' r :
  cancel_relief_package pkg_id user now s = (s', r) →
  committed s' = committed s ∧
  match r with inr _ => True | inl _ => s' = s ∨ s' = rollback_session s end.
Proof.
  unfold cancel_relief_package. rewrite run_bind. simpl.
  destruct (db_pkg (work s) !! pkg_id) as [pkg|]; [|intros [= <- <-]; auto].
  destruct (negb _); [intros [= <- <-]; auto|].
  destruct (pkg_items_of pkg_id (work s)) as [|v items] eqn:Hitems; [intros [= <- <-]; auto|].
  intros Hrun. pose proof (cancel_items_triple user now pkg_id (v :: items) (committed s) s eq_refl) as Ht.
  assert (cancel_items user now pkg_id (v :: items) s = (s', r)) as Hrun' by exact Hrun.
  rewrite Hrun' in Ht. destruct r as [e|a]; [|done].
  rewrite Ht. auto.
Qed.

Lemma cancel_relief_package_atomic_witness :
  let s := mkSession (package_db "P" 30 10) (package_db "P" 30 5) in
  ∃ s' r, @cancel_relief_package canonical_runtime 70 "LM" 5 s = (s', r) ∧
    committed s' = committed s.
Proof.
  do 2 eexists. split; [vm_compute; reflexivity|].
  eapply (@cancel_relief_package_atomic canonical_runtime 70 "LM" 5
    (mkSession (package_db "P" 30 10) (package_db "P" 30 5))).
  vm_compute. reflexivity.
Defined.
