(* ===== verification/ItemStatus.v ===== *)
(** Item statuses of a relief request (app/services/item_status_service.py):
    which statuses an item may take, given how much of it is allocated. *)
From S2P Require Import Prelude Schema.

(** The lookup table: active status codes with their descriptions. *)
Abbreviation StatusMap := (gmap string string).

(** A row of [reliefrqstitem_status]. *)
Record ItemStatusRow : Type := mkItemStatusRow {
  is_status_code : string;
  is_status_desc : string;
  is_active_flag : bool
}.

(** [{s.status_code: s.status_desc for s in ... active}]; the key is primary. *)
Definition status_map_of (rows : list ItemStatusRow) : StatusMap :=
  list_to_map ((λ r, (is_status_code r, is_status_desc r)) <$> filter (λ r, is_active_flag r = true) rows).

(** The module-level cache: the state the service keeps between calls. *)
Definition load_status_map (force_reload : bool) (rows : list ItemStatusRow)
    (cache : option StatusMap) : option StatusMap * StatusMap :=
  match (if force_reload then None else cache) with
  | Some m => (Some m, m)
  | None => let m := status_map_of rows in (Some m, m)
  end.

Definition clear_status_cache (cache : option StatusMap) : option StatusMap := None.

Definition compute_allowed_statuses (status_map : StatusMap) (total_allocated requested_qty : Z)
    (has_allocation_activity : bool) : string * list string :=
  let '(auto, allowed) :=
    if total_allocated =? 0 then
      if negb has_allocation_activity then ("R"%string, ["R"; "U"; "D"; "W"]%string)
      else ("U"%string, ["U"; "D"; "W"]%string)
    else if total_allocated =? requested_qty then ("F"%string, ["F"]%string)
    else if total_allocated <? requested_qty then ("P"%string, ["P"; "L"]%string)
    else ("F"%string, ["F"]%string) in
  (auto, filter (λ s, is_Some (status_map !! s)) allowed).

(** Which of the three messages a refused change carries. *)
Inductive StatusRefusal : Type := ZeroAllocation | FullyAllocated | PartlyAllocated.

Definition validate_status_transition (status_map : StatusMap) (current_status new_status : string)
    (total_allocated requested_qty : Z) (has_allocation_activity : bool) : StatusRefusal + unit :=
  if bool_decide (current_status = new_status) then inr tt
  else
    let '(_, allowed) := compute_allowed_statuses status_map total_allocated requested_qty
                           has_allocation_activity in
    if negb (bool_decide (new_status ∈ allowed)) then
      if total_allocated =? 0 then inl ZeroAllocation
      else if requested_qty <=? total_allocated then inl FullyAllocated
      else inl PartlyAllocated
    else inr tt.

Definition validate_quantity_limit (total_allocated requested_qty : Z) : bool :=
  negb (requested_qty <? total_allocated).

Definition get_status_label (status_map : StatusMap) (status_code : string) : string :=
  default status_code (status_map !! status_code).

(** * Correctness *)

(** What each status says of the allocation. *)
Definition status_rule (s : string) (total requested : Z) (activity : bool) : Prop :=
  (s = "R"%string ∧ total = 0 ∧ activity = false) ∨
  (s ∈ ["U"; "D"; "W"]%string ∧ total = 0) ∨
  (s = "F"%string ∧ total ≠ 0 ∧ requested ≤ total) ∨
  (s ∈ ["P"; "L"]%string ∧ total ≠ 0 ∧ total < requested).

Lemma allowed_iff m total requested activity s :
  s ∈ (compute_allowed_statuses m total requested activity).2 ↔
  is_Some (m !! s) ∧ status_rule s total requested activity.
Proof.
  unfold compute_allowed_statuses, status_rule.
  destruct (Z.eqb_spec total 0) as [->|H0]; [destruct activity|
    destruct (Z.eqb_spec total requested); [|destruct (Z.ltb_spec total requested)]]; simpl;
    rewrite list_elem_of_filter, !elem_of_cons, ?elem_of_nil;
    (split; [intros (? & Hs); split; [done|]; intuition (subst; auto with lia)
            |intros (? & Hs); split; [done|]; intuition (subst; try done; try lia)]).
Qed.

(** a change is accepted exactly when it is no change, or when the new status
    is active and agrees with the allocation. *)
Theorem validate_status_transition_correct m cur new total requested activity :
  validate_status_transition m cur new total requested activity = inr tt ↔
  cur = new ∨ (is_Some (m !! new) ∧ status_rule new total requested activity).
Proof.
  unfold validate_status_transition. rewrite <- allowed_iff.
  destruct (compute_allowed_statuses m total requested activity) as [auto allowed]. simpl.
  repeat case_bool_decide; simpl; [intuition..|].
  split; [by repeat case_match|]. by intros [|].
Qed.
