(* ===== verification/FulfillmentLock.v ===== *)
(** The fulfilment lock (app/services/fulfillment_lock_service.py): exclusive
    access to a relief request while its package is prepared.

    Times are seconds; a call reads the clock once.  The primary key of the table
    is what excludes two holders: [acquire_lock] reads, then inserts, and
    [race] is the row another transaction commits in between, if any, which
    turns the insertion into an [IntegrityError].  A lock expires strictly after
    [expires_at].

    The fulfilment lock excludes: at most one user holds a request, and an
    expired lock is swept away with its reservations. *)

From S2P Require Import Prelude Schema Ledger Fixtures Reservation ReservationProofs.

Definition DEFAULT_LOCK_EXPIRY_HOURS : Z := 24.
Definition HOUR : Z := 3600.

Inductive LockMessage : Type :=
| AlreadyHeld
| BeingPreparedBy (name : string)
| LockAcquired
| NoLockExists
| NotYourLock
| LockReleased.

Definition LockResult : Type := bool * LockMessage * option FulfillmentLock.

Definition find_lock (rq : Z) (d : DB) : option FulfillmentLock := db_lock d !! rq.

Definition put_lock (l : FulfillmentLock) (d : DB) : DB :=
  set_db_lock (<[lk_reliefrqst_id l := l]> (db_lock d)) d.

Definition delete_lock (rq : Z) (d : DB) : DB := set_db_lock (delete rq (db_lock d)) d.

(** [lock.expires_at and lock.expires_at < now()]. *)
Definition expired (now : Z) (l : FulfillmentLock) : bool :=
  match lk_expires_at l with Some t => t <? now | None => false end.

(** [f"{user.first_name} {user.last_name}" if user and user.first_name else email]. *)
Definition holder_name (l : FulfillmentLock) (d : DB) : string :=
  match db_user d !! lk_fulfiller_user_id l with
  | Some u =>
      match us_first_name u with
      | Some f => if bool_decide (f = ""%string) then lk_fulfiller_email l
                  else f +:+ " " +:+ default "None"%string (us_last_name u)
      | None => lk_fulfiller_email l
      end
  | None => lk_fulfiller_email l
  end.

Section lock.
Context `{R : Runtime}.

Abbreviation LM := (M Session ResFailure).

(** [db.session.add(lock); db.session.commit()] and the [except IntegrityError]. *)
Definition insert_lock (lock : FulfillmentLock) (race : option FulfillmentLock) : LM LockResult :=
  match race with
  | None =>
      db_mod (put_lock lock);; db_commit;;
      mret (true, LockAcquired, Some lock)
  | Some other =>
      (* the other transaction committed first *)
      m_modify (λ s, mkSession (put_lock other (committed s)) (work s));;
      db_rollback;;
      d ← db_get;
      match find_lock (lk_reliefrqst_id lock) d with
      | Some l =>
          if lk_fulfiller_user_id l =? lk_fulfiller_user_id lock
          then mret (true, AlreadyHeld, Some l)
          else mret (false, BeingPreparedBy (holder_name l d), Some l)
      | None => mret (false, BeingPreparedBy "Another user", None)
      end
  end.

Definition acquire_lock (rq user_id : Z) (user_email : string) (expiry_hours now : Z)
    (race : option FulfillmentLock) : LM LockResult :=
  d ← db_get;
  let lock := mkFulfillmentLock rq user_id user_email now
                (if 0 <? expiry_hours then Some (now + expiry_hours * HOUR) else None) in
  match find_lock rq d with
  | Some l =>
      if lk_fulfiller_user_id l =? user_id then mret (true, AlreadyHeld, Some l)
      else if expired now l then
        db_mod (delete_lock rq);; db_commit;; insert_lock lock race
      else mret (false, BeingPreparedBy (holder_name l d), Some l)
  | None => insert_lock lock race
  end.

Definition release_lock (rq user_id : Z) (force release_reservations : bool) : LM (bool * LockMessage) :=
  d ← db_get;
  match find_lock rq d with
  | None => mret (true, NoLockExists)
  | Some l =>
      if negb (lk_fulfiller_user_id l =? user_id) && negb force
      then mret (false, NotYourLock)
      else
        (if release_reservations : bool
         then m_try (E' := ResFailure) (release_all_reservations rq);; mret tt
         else mret tt);;
        db_mod (delete_lock rq);; db_commit;;
        mret (true, LockReleased)
  end.

Definition check_lock (rq user_id now : Z) : LM (bool * option string * option FulfillmentLock) :=
  d ← db_get;
  match find_lock rq d with
  | None => mret (true, None, None)
  | Some l =>
      if expired now l then
        m_try (E' := ResFailure) (release_all_reservations rq);;
        db_mod (delete_lock rq);; db_commit;;
        mret (true, None, None)
      else if lk_fulfiller_user_id l =? user_id then mret (true, None, Some l)
      else mret (false, Some (holder_name l d), Some l)
  end.

Definition cleanup_expired_locks (now : Z) : LM Z :=
  d ← db_get;
  let locks := filter (λ l, expired now l = true) (lock_rows (db_lock d)) in
  m_for locks (λ l,
    m_try (E' := ResFailure) (release_all_reservations (lk_reliefrqst_id l));;
    db_mod (delete_lock (lk_reliefrqst_id l)));;
  db_commit;;
  mret (Z.of_nat (length locks)).
End lock.

Definition keyed_locks (d : DB) : Prop := map_Forall (λ k l, lk_reliefrqst_id l = k) (db_lock d).

#[export] Instance keyed_locks_dec d : Decision (keyed_locks d).
Proof. unfold keyed_locks. apply _. Defined.

Lemma find_put_lock rq l d :
  find_lock rq (put_lock l d) = if decide (rq = lk_reliefrqst_id l) then Some l else find_lock rq d.
Proof.
  unfold find_lock, put_lock. simpl. case_decide; subst; [apply lookup_insert_eq|by apply lookup_insert_ne].
Qed.

Definition holder (rq : Z) (d : DB) : option Z := lk_fulfiller_user_id <$> find_lock rq d.

(** A lock still holds at [now]: it has no end, or one that is not past. *)
Definition live (now : Z) (l : FulfillmentLock) : Prop := ∀ t, lk_expires_at l = Some t → now ≤ t.

Lemma live_expired now l : live now l ↔ expired now l = false.
Proof.
  unfold live, expired. destruct (lk_expires_at l) as [t|]; [|done]. rewrite Z.ltb_ge. naive_solver.
Qed.

(** Nobody else holds the request: it has no lock, or one of another user that ended. *)
Definition vacant (rq user now : Z) (d : DB) : Prop :=
  ∀ l, find_lock rq d = Some l → lk_fulfiller_user_id l ≠ user ∧ ¬ live now l.

Definition new_lock (rq user : Z) (email : string) (hours now : Z) : FulfillmentLock :=
  mkFulfillmentLock rq user email now (if 0 <? hours then Some (now + hours * HOUR) else None).

Lemma put_deleted_lock l d : put_lock l (delete_lock (lk_reliefrqst_id l) d) = put_lock l d.
Proof. unfold put_lock, delete_lock. simpl. by rewrite insert_delete_eq. Qed.

Lemma insert_lock_alone lock s :
  insert_lock lock None s = (session_of (put_lock lock (work s)), inr (true, LockAcquired, Some lock)).
Proof. done. Qed.

(** The other transaction came first: its lock stays. *)
Lemma insert_lock_race lock o s : lk_reliefrqst_id o = lk_reliefrqst_id lock →
  ∃ msg, insert_lock lock (Some o) s =
    (session_of (put_lock o (committed s)),
     inr (lk_fulfiller_user_id o =? lk_fulfiller_user_id lock, msg, Some o)).
Proof.
  intros Ho. unfold insert_lock. run_unfold. rewrite find_put_lock, decide_True by done.
  destruct (_ =? _); by eexists.
Qed.

(** The holder again, or a live lock of somebody else: nothing changes. *)
Lemma acquire_held rq user email hours now race s l :
  find_lock rq (work s) = Some l → lk_fulfiller_user_id l = user ∨ live now l →
  ∃ msg, acquire_lock rq user email hours now race s = (s, inr (lk_fulfiller_user_id l =? user, msg, Some l)).
Proof.
  intros Hl Hor. unfold acquire_lock. rewrite run_bind. simpl. rewrite Hl. destruct (Z.eqb_spec (lk_fulfiller_user_id l) user).
  - by eexists.
  - destruct Hor as [|He]; [done|]. apply live_expired in He. rewrite He. by eexists.
Qed.

(** A vacant request: the insertion decides. *)
Lemma acquire_vacant rq user email hours now race s : vacant rq user now (work s) →
  let lock := new_lock rq user email hours now in
  match race with
  | None => acquire_lock rq user email hours now race s =
      (session_of (put_lock lock (work s)), inr (true, LockAcquired, Some lock))
  | Some o => lk_reliefrqst_id o = rq →
      ∃ msg d, acquire_lock rq user email hours now race s =
        (session_of (put_lock o d), inr (lk_fulfiller_user_id o =? user, msg, Some o))
  end.
Proof.
  intros Hv lock. assert (∃ s1, put_lock lock (work s1) = put_lock lock (work s) ∧
    acquire_lock rq user email hours now race s = insert_lock lock race s1) as (s1 & Hs1 & Heq).
  { unfold acquire_lock. rewrite run_bind. simpl. fold (new_lock rq user email hours now). fold lock.
    destruct (find_lock rq (work s)) as [l|] eqn:Hl; [|by exists s]. destruct (Hv l Hl) as [Hne He].
    rewrite live_expired in He. apply not_false_is_true in He. apply Z.eqb_neq in Hne. rewrite Hne, He.
    exists (session_of (delete_lock rq (work s))). split; [exact (put_deleted_lock lock (work s))|done]. }
  rewrite Heq. destruct race as [o|]; [|by rewrite insert_lock_alone, Hs1]. intros Ho.
  destruct (insert_lock_race lock o s1 Ho) as [msg ->]. by eexists _, _.
Qed.

(** C18: the lock is exclusive.  [acquire_lock] always answers, and reports success
    exactly when the caller holds the request in the resulting state.  Its holder gets it
    again and a live lock of another user refuses, both without a change.  When there is
    no such lock, none at all or one of another user that ended, the caller gets a new
    one until the end asked for, which replaces the old and changes no other row; unless
    another transaction inserts one in between, which then stays, is committed, and
    decides. *)
Theorem acquire_lock_exclusive rq user email hours now race s :
  (∀ o, race = Some o → lk_reliefrqst_id o = rq) →
  ∃ s' ok msg l, acquire_lock rq user email hours now race s = (s', inr (ok, msg, l)) ∧
    (ok = true ↔ holder rq (work s') = Some user) ∧
    (∀ l0, find_lock rq (work s) = Some l0 → lk_fulfiller_user_id l0 = user ∨ live now l0 →
       (ok = true ↔ lk_fulfiller_user_id l0 = user) ∧ l = Some l0 ∧ s' = s) ∧
    (vacant rq user now (work s) →
       match race with
       | None => let lock := new_lock rq user email hours now in
           ok = true ∧ l = Some lock ∧ s' = session_of (put_lock lock (work s))
       | Some o => (ok = true ↔ lk_fulfiller_user_id o = user) ∧ l = Some o ∧
           find_lock rq (work s') = Some o ∧ committed s' = work s'
       end).
Proof.
  intros Hrace. assert ((∃ l, find_lock rq (work s) = Some l ∧ (lk_fulfiller_user_id l = user ∨ live now l)) ∨
    vacant rq user now (work s)) as [(l & Hl & Hor)|Hv].
  { unfold vacant. setoid_rewrite live_expired. destruct (find_lock rq (work s)) as [l|]; [|by right].
    destruct (decide (lk_fulfiller_user_id l = user)); [left; eauto|].
    destruct (expired now l) eqn:He; [|left; by eauto]. right. intros x [= <-]. split; [done|congruence]. }
  - destruct (acquire_held rq user email hours now race s l Hl Hor) as [msg ->]. do 4 eexists. split; [done|].
    unfold holder. rewrite Hl, Z.eqb_eq. split; [simpl; split; congruence|].
    split; [intros l0 [= <-] _; by rewrite Z.eqb_eq|]. intros Hv. destruct (Hv l Hl). by destruct Hor.
  - pose proof (acquire_vacant rq user email hours now race s Hv) as Hrun.
    assert (∀ l0, find_lock rq (work s) = Some l0 → lk_fulfiller_user_id l0 = user ∨ live now l0 → False) as Hno
      by (intros l0 Hl0 Hor; destruct (Hv l0 Hl0); by destruct Hor).
    destruct race as [o|]; cbv zeta in Hrun.
    + destruct (Hrun (Hrace o eq_refl)) as (msg & d & ->). do 4 eexists. split; [done|]. simpl. unfold holder.
      rewrite find_put_lock, decide_True, Z.eqb_eq by (by rewrite (Hrace o)).
      split; [simpl; split; congruence|]. split; [by intros; exfalso; eapply Hno|done].
    + rewrite Hrun. do 4 eexists. split; [done|]. simpl. unfold holder. rewrite find_put_lock, decide_True by done.
      split; [done|]. split; [by intros; exfalso; eapply Hno|done].
Qed.

(** A lock that ended is taken over by the second user; until then it refuses them. *)
Lemma acquire_lock_exclusive_witness :
  let s := session_of (put_lock (mkFulfillmentLock 7 1 "a@odpem" 0 (Some 86400)) empty_db) in
  (∃ msg l, acquire_lock 7 2 "b@odpem" 24 86400 None s = (s, inr (false, msg, l))) ∧
  ∃ s' msg l, acquire_lock 7 2 "b@odpem" 24 86401 None s = (s', inr (true, msg, Some l)) ∧
    lk_expires_at l = Some 172801 ∧ holder 7 (committed s') = Some 2.
Proof.
  set (s := session_of (put_lock (mkFulfillmentLock 7 1 "a@odpem" 0 (Some 86400)) empty_db)). split.
  - destruct (acquire_lock_exclusive 7 2 "b@odpem" 24 86400 None s) as (s' & ok & msg & l & -> & _ & Hheld & _); [done|].
    destruct (Hheld (mkFulfillmentLock 7 1 "a@odpem" 0 (Some 86400))) as (Hok & -> & ->);
      [vm_compute; reflexivity|right; intros t [= <-]; done|].
    destruct ok; [by discriminate (proj1 Hok eq_refl)|]. by eexists _, _.
  - destruct (acquire_lock_exclusive 7 2 "b@odpem" 24 86401 None s) as (s' & ok & msg & l & -> & _ & _ & Hnew); [done|].
    destruct Hnew as (-> & -> & ->).
    { intros l0 Hl0. vm_compute in Hl0. injection Hl0 as <-. split; [done|]. intros Hlive. by specialize (Hlive 86400 eq_refl). }
    eexists _, _, _. split; [reflexivity|]. split; vm_compute; reflexivity.
Defined.

(** * Sweeping *)

Lemma foldl_delete_lookup (ls : list FulfillmentLock) (m : gmap Z FulfillmentLock) k :
  foldl (λ m l, delete (lk_reliefrqst_id l) m) m ls !! k =
  if decide (k ∈ lk_reliefrqst_id <$> ls) then None else m !! k.
Proof.
  revert m. induction ls as [|l ls IH]; intros m; [done|]. simpl. rewrite IH. csimpl.
  destruct (decide (k ∈ lk_reliefrqst_id <$> ls)).
  - by rewrite decide_True by (by right).
  - destruct (decide (k = lk_reliefrqst_id l)) as [->|Hne].
    + rewrite lookup_delete_eq. by rewrite decide_True by (by left).
    + rewrite lookup_delete_ne by done. rewrite decide_False; [done|].
      rewrite elem_of_cons. naive_solver.
Qed.

Lemma stock_only_locks c d0 s : stock_only c d0 s → db_lock (work s) = db_lock d0.
Proof. intros [_ (m & n & ->)]. done. Qed.

Section cleanup.
Context `{R : Runtime} (now : Z).

Lemma cleanup_loop s ls :
  ∃ s', run_ok (m_for ls (λ l,
    m_try (E' := ResFailure) (release_all_reservations (lk_reliefrqst_id l));;
    db_mod (delete_lock (lk_reliefrqst_id l)))) s tt s' ∧
  db_lock (work s') = foldl (λ m l, delete (lk_reliefrqst_id l) m) (db_lock (work s)) ls.
Proof.
  revert s. induction ls as [|l ls IH]; intros s; [by exists s|].
  pose proof (release_frame (lk_reliefrqst_id l) _ _ s (stock_only_refl s)) as Hrel.
  destruct (release_all_reservations (lk_reliefrqst_id l) s) as [s1 [e|a]] eqn:Hr; [done|].
  destruct (IH (upd_work (delete_lock (lk_reliefrqst_id l)) s1)) as (s' & Hs' & Hl).
  exists s'. split.
  - apply for_cons. eexists. split; [|exact Hs'].
    run_unfold. unfold m_try. by rewrite Hr.
  - rewrite Hl. simpl. by rewrite (stock_only_locks _ _ _ Hrel).
Qed.

Lemma swept_locks (L : gmap Z FulfillmentLock) :
  map_Forall (λ k l, lk_reliefrqst_id l = k) L →
  foldl (λ m l, delete (lk_reliefrqst_id l) m) L
    (filter (λ l, expired now l = true) (lock_rows L)) =
  filter (λ kl, expired now kl.2 = false) L.
Proof.
  intros Hk. apply map_eq. intros k. rewrite foldl_delete_lookup.
  destruct (L !! k) as [l|] eqn:Hl.
  - destruct (expired now l) eqn:He.
    + rewrite decide_True; [symmetry; apply map_lookup_filter_None; right; intros; simplify_eq/=; congruence|].
      apply list_elem_of_fmap. exists l. split; [by rewrite (Hk k l Hl)|].
      apply list_elem_of_filter. split; [done|]. apply elem_of_lock_rows. by exists k.
    + rewrite decide_False.
      * symmetry. apply map_lookup_filter_Some. done.
      * intros Hin. apply list_elem_of_fmap in Hin as (l' & Heq & Hin).
        apply list_elem_of_filter in Hin as [He' Hin]. apply elem_of_lock_rows in Hin as [k' Hk'].
        rewrite (Hk k' l' Hk') in Heq. simplify_eq. congruence.
  - rewrite (proj2 (map_lookup_filter_None _ _ _)) by auto. by case_decide.
Qed.
End cleanup.

(** [cleanup_expired_locks] always terminates with a committed state that
    holds exactly the locks that had not expired, and returns how many it
    removed. *)
Theorem cleanup_expired_locks_correct `{Runtime} now s :
  keyed_locks (work s) →
  ∃ s' n, cleanup_expired_locks now s = (s', inr n) ∧
    committed s' = work s' ∧
    db_lock (work s') = filter (λ kl, expired now kl.2 = false) (db_lock (work s)) ∧
    n = Z.of_nat (length (filter (λ l, expired now l = true) (lock_rows (db_lock (work s))))).
Proof.
  intros Hk. set (ls := filter (λ l, expired now l = true) (lock_rows (db_lock (work s)))).
  destruct (cleanup_loop s ls) as (s1 & Hrun & Hl).
  exists (commit_session s1), (Z.of_nat (length ls)). split_and!; [|done| |done].
  - unfold cleanup_expired_locks. rewrite run_bind. simpl. fold ls. rewrite run_bind.
    unfold run_ok in Hrun. by rewrite Hrun.
  - simpl. rewrite Hl. by apply swept_locks.
Qed.

Lemma cleanup_expired_locks_correct_witness :
  let lock1 := mkFulfillmentLock 7 1 "a@odpem" 0 (Some 50) in
  let s := session_of (put_lock lock1 empty_db) in
  ∃ s' n, @cleanup_expired_locks canonical_runtime 100 s = (s', inr n) ∧ n = 1.
Proof.
  edestruct (@cleanup_expired_locks_correct canonical_runtime 100
    (session_of (put_lock (mkFulfillmentLock 7 1 "a@odpem" 0 (Some 50)) empty_db)))
    as (s' & n & Hrun & _ & _ & Hn); [by_decide|].
  exists s', n. split; [exact Hrun|]. rewrite Hn. vm_compute. reflexivity.
Defined.
