(* ===== verification/ReliefRequest.v ===== *)
(** Relief requests (app/services/relief_request_service.py): drafting,
    submission, eligibility review and automatic closing.

    A Python exception and a [return False, message] are both early exits of the
    monad, kept apart in [ReqError].  The texts of notifications are left out;
    their recipient, request and type are kept. *)
From S2P Require Import Prelude PyStr Schema Ledger.

(** * Status codes *)

Definition STATUS_DRAFT : Z := 0.
Definition STATUS_AWAITING_APPROVAL : Z := 1.
Definition STATUS_CANCELLED : Z := 2.
Definition STATUS_SUBMITTED : Z := 3.
Definition STATUS_DENIED : Z := 4.
Definition STATUS_PART_FILLED : Z := 5.
Definition STATUS_CLOSED : Z := 6.
Definition STATUS_FILLED : Z := 7.
Definition STATUS_INELIGIBLE : Z := 8.

Definition URGENCIES : list string := ["H"; "M"; "L"; "C"]%string.

Inductive ReqError : Type :=
| ValueError (msg : string)
| LockTypeError              (* OptimisticLockError(message): TypeError, [record_id] is missing *)
| NotFound404
| DBError                    (* a statement the database refuses *)
| Refused (msg : string).    (* return False, msg *)

Abbreviation QM := (M Session ReqError).

Definition get_workflow_step (status_code : Z) : Z * string * string :=
  if status_code =? STATUS_DRAFT then (1, "Prepare Request", "active")%string
  else if bool_decide (status_code ∈ [STATUS_AWAITING_APPROVAL; STATUS_SUBMITTED])
  then (2, "Submitted to ODPEM", "active")%string
  else if status_code =? STATUS_PART_FILLED then (3, "ODPEM Processing", "active")%string
  else if status_code =? STATUS_CLOSED then (4, "Goods Dispatched", "active")%string
  else if status_code =? STATUS_FILLED then (5, "Goods Received", "completed")%string
  else if bool_decide (status_code ∈ [STATUS_CANCELLED; STATUS_DENIED; STATUS_INELIGIBLE])
  then (2, "Request Closed", "terminated")%string
  else (1, "Unknown", "active")%string.

Definition put_rqst (rq : ReliefRqst) (d : DB) : DB :=
  set_db_rqst (<[rq_reliefrqst_id rq := rq]> (db_rqst d)) d.

Definition put_rqst_item (v : ReliefRqstItem) (d : DB) : DB :=
  set_db_rqst_item (<[(ri_reliefrqst_id v, ri_item_id v) := v]> (db_rqst_item d)) d.

Section service.
Context `{R : Runtime}.

Definition user_by_email (email : option string) (d : DB) : option User :=
  head (filter (λ u, Some (us_email u) = email) (user_rows (db_user d))).

Definition items_of (rq : Z) (d : DB) : list ReliefRqstItem :=
  filter (λ v, ri_reliefrqst_id v = rq) (rqst_item_rows (db_rqst_item d)).

(** * Notifications *)

Definition agency_active_users (agency : Z) (d : DB) : list User :=
  filter (λ u, us_agency_id u = Some agency ∧ us_is_active u = true) (user_rows (db_user d)).

(** The active users of each role in turn; a user with two roles comes twice. *)
Definition users_of_roles (roles : list string) (d : DB) : list User :=
  mjoin ((λ r, filter (λ u, r ∈ us_roles u ∧ us_is_active u = true) (user_rows (db_user d))) <$> roles).

(** [list({user.user_id: user for user in users}.values())]. *)
Definition dedup_users (us : list User) : list User :=
  (foldl (λ acc u, dict_set (us_user_id u) u acc) [] us).*2.

Definition notify (users : list User) (rq : Z) (ty : string) (d : DB) : DB :=
  set_db_notification (db_notification d ++ ((λ u, mkNotification (us_user_id u) (Some rq) ty) <$> users)) d.

Definition create_odpem_notifications (rq : Z) (d : DB) : DB :=
  notify (users_of_roles ["ODPEM_DIR_PEOD"; "ODPEM_DDG"; "ODPEM_DG"]%string d) rq
    "reliefrqst_submitted" d.

Definition create_eligible_notification (rq : Z) (d : DB) : DB :=
  notify (dedup_users (users_of_roles ["LOGISTICS_OFFICER"; "LOGISTICS_MANAGER"]%string d)) rq
    "reliefrqst_approved" d.

Definition create_ineligible_notification (rq agency : Z) (d : DB) : DB :=
  notify (agency_active_users agency d) rq "reliefrqst_ineligible" d.

Definition create_closure_notification (rq agency : Z) (d : DB) : DB :=
  notify (agency_active_users agency d) rq "reliefrqst_closed" d.

Definition create_dispatch_notifications (rq agency : Z) (d : DB) : DB :=
  notify (agency_active_users agency d) rq "reliefrqst_dispatch" d.

(** * Drafting *)

(** [new_id] is the serial the database assigns on [flush]. *)
Definition create_draft_request (new_id agency_id : Z) (urgency_ind : string)
    (eligible_event_id : option Z) (notes : option string) (user_email : option string)
    (today now : Z) : QM ReliefRqst :=
  m_fail_if (negb (bool_decide (urgency_ind ∈ URGENCIES))) (ValueError "urgency");;
  d ← db_get;
  m_fail_if (negb (bool_decide (agency_id ∈ db_agency d))) (ValueError "agency");;
  m_fail_if (match eligible_event_id with
             | Some e => negb (bool_decide (e ∈ db_event d)) | None => false end)
    (ValueError "event");;
  match user_by_email user_email d with
  | None => db_rollback;; m_fail (ValueError "user")
  | Some u =>
      let rq := mkReliefRqst new_id agency_id today eligible_event_id urgency_ind notes
                  STATUS_DRAFT None (us_user_name u) now None None None None 1 in
      db_mod (put_rqst rq);; mret rq
  end.

Definition add_or_update_request_item (rq item_id request_qty : Z) (urgency_ind : string)
    (reason : option string) (required_by_date : option Z) (current_version : option Z)
    : QM ReliefRqstItem :=
  m_fail_if (request_qty <=? 0) (ValueError "quantity");;
  m_fail_if (negb (bool_decide (urgency_ind ∈ URGENCIES))) (ValueError "item urgency");;
  d ← db_get;
  match db_rqst_item d !! (rq, item_id) with
  | Some v =>
      m_fail_if (match current_version with
                 | Some n => negb (ri_version_nbr v =? n) | None => false end) LockTypeError;;
      let v' := set_ri_version_nbr (ri_version_nbr v + 1)
                 (set_ri_required_by_date required_by_date
                   (set_ri_rqst_reason_desc reason
                     (set_ri_urgency_ind urgency_ind (set_ri_request_qty request_qty v)))) in
      db_mod (put_rqst_item v');; mret v'
  | None =>
      let v := mkReliefRqstItem rq item_id request_qty 0 urgency_ind reason required_by_date
                 "R" None None None 1 in
      db_mod (put_rqst_item v);; mret v
  end.

Definition delete_request_item (rq item_id : Z) : QM unit :=
  d ← db_get;
  match db_rqst d !! rq with
  | None => m_fail (Refused "Request not found")
  | Some r =>
      m_fail_if (negb (rq_status_code r =? STATUS_DRAFT)) (Refused "draft only");;
      match db_rqst_item d !! (rq, item_id) with
      | None => m_fail (Refused "Item not found in request")
      | Some _ => db_mod (λ d, set_db_rqst_item (delete (rq, item_id) (db_rqst_item d)) d)
      end
  end.

(** * Submission *)

Definition submit_request (rq current_version : Z) : QM unit :=
  d ← db_get;
  match db_rqst d !! rq with
  | None => m_fail NotFound404
  | Some r =>
      m_fail_if (negb (rq_status_code r =? STATUS_DRAFT)) (Refused "Only draft requests");;
      m_fail_if (bool_decide (items_of rq d = [])) (Refused "without any items");;
      m_fail_if (bool_decide (filter (λ v, 0 < ri_request_qty v) (items_of rq d) = []))
        (Refused "quantity > 0");;
      m_fail_if (negb (rq_version_nbr r =? current_version)) LockTypeError;;
      db_mod (put_rqst (set_rq_version_nbr (rq_version_nbr r + 1)
                (set_rq_status_code STATUS_AWAITING_APPROVAL r)));;
      db_mod (create_odpem_notifications rq)
  end.

(** * Eligibility *)

Definition pending_eligibility (d : DB) (r : ReliefRqst) : bool :=
  (rq_status_code r =? STATUS_AWAITING_APPROVAL) && bool_decide (rq_review_by_id r = None).

Record EligibilityDetails : Type := mkEligibilityDetails {
  ed_decision_made : bool;
  ed_can_edit : bool
}.

Definition get_request_eligibility_details (rq : Z) (d : DB) : option EligibilityDetails :=
  match db_rqst d !! rq with
  | None => None
  | Some r =>
      let decision_made := negb (bool_decide (rq_review_by_id r = None)) ||
        bool_decide (rq_status_code r ∈ [STATUS_INELIGIBLE; STATUS_DENIED]) in
      Some (mkEligibilityDetails decision_made
        (negb decision_made && (rq_status_code r =? STATUS_AWAITING_APPROVAL)))
  end.

Definition submit_eligibility_decision (rq : Z) (decision : string) (reason : option string)
    (reviewer_email : option string) (now : Z) : QM unit :=
  d ← db_get;
  match db_rqst d !! rq with
  | None => m_fail NotFound404
  | Some r =>
      m_fail_if (negb (rq_status_code r =? STATUS_AWAITING_APPROVAL)) (Refused "not awaiting");;
      m_fail_if (negb (bool_decide (rq_review_by_id r = None))) (Refused "already recorded");;
      m_fail_if (negb (bool_decide (decision ∈ ["Y"; "N"]%string))) (Refused "Y or N");;
      m_fail_if (bool_decide (decision = "N"%string) &&
        match reason with None => true | Some s => is_blank s end) (Refused "reason required");;
      match user_by_email reviewer_email d with
      | None => m_fail (Refused "reviewer not found")
      | Some reviewer =>
          let r1 := set_rq_review_dtime (Some now)
                      (set_rq_review_by_id (Some (us_user_name reviewer)) r) in
          if bool_decide (decision = "N"%string) then
            db_mod (put_rqst (set_rq_version_nbr (rq_version_nbr r + 1)
              (set_rq_action_dtime (Some now)
                (set_rq_action_by_id (Some (us_user_name reviewer))
                  (set_rq_status_reason_desc (strip <$> reason)
                    (set_rq_status_code STATUS_INELIGIBLE r1))))));;
            db_mod (create_ineligible_notification rq (rq_agency_id r))
          else
            db_mod (put_rqst (set_rq_version_nbr (rq_version_nbr r + 1)
              (set_rq_status_code STATUS_SUBMITTED r1)));;
            db_mod (create_eligible_notification rq)
      end
  end.

Definition can_process_request (rq : Z) (d : DB) : bool :=
  match db_rqst d !! rq with
  | None => false
  | Some r =>
      negb (rq_status_code r =? STATUS_INELIGIBLE) &&
      negb (bool_decide (rq_status_code r ∈ [STATUS_CANCELLED; STATUS_DENIED]))
  end.

(** * Automatic closing *)

(** [SUM(dbintake_item.usable_qty)] of an item over the packages of a request. *)
Definition received_qty (rq item_id : Z) (d : DB) : Z :=
  map_fold (λ '(pkg, _, it) q acc,
    if decide (it = item_id ∧ pkg_reliefrqst_id <$> db_pkg d !! pkg = Some rq) then q + acc else acc)
    0 (db_intake_qty d).

Definition pending_packages (rq : Z) (d : DB) : list ReliefPkg :=
  filter (λ p, pkg_reliefrqst_id p = rq ∧ pkg_status_code p ∈ ["P"; "D"]%string) (pkg_rows (db_pkg d)).

Definition check_and_autoclose_request (rq : Z) : QM unit :=
  d ← db_get;
  match db_rqst d !! rq with
  | None => m_fail (Refused "Request not found")
  | Some r =>
      m_fail_if (rq_status_code r =? STATUS_FILLED) (Refused "already closed");;
      m_fail_if (0 <? Z.of_nat (length (pending_packages rq d))) (Refused "still pending");;
      m_fail_if (negb (forallb (λ v, ri_issue_qty v <=? received_qty rq (ri_item_id v) d)
                  (items_of rq d))) (Refused "Not all items");;
      db_mod (put_rqst (set_rq_version_nbr (rq_version_nbr r + 1)
        (set_rq_status_code STATUS_FILLED r)));;
      db_mod (create_closure_notification rq (rq_agency_id r))
  end.
End service.
