(* ===== verification/ReliefRequestProofs.v ===== *)
(** The workflow of a relief request: who may move it where, and what every
    reachable request satisfies. *)
From S2P Require Import Prelude PyStr Schema Ledger Fixtures ReliefRequest.

Section proofs.
Context `{R : Runtime}.

Definition positive_item (rq : Z) (d : DB) : Prop :=
  ∃ v, v ∈ items_of rq d ∧ 0 < ri_request_qty v.

Definition submitted (rq : Z) (r : ReliefRqst) (d : DB) : DB :=
  create_odpem_notifications rq
    (put_rqst (set_rq_version_nbr (rq_version_nbr r + 1)
      (set_rq_status_code STATUS_AWAITING_APPROVAL r)) d).

Lemma no_positive rq d :
  bool_decide (items_of rq d = []) = false ∧
  bool_decide (filter (λ v, 0 < ri_request_qty v) (items_of rq d) = []) = false ↔
  positive_item rq d.
Proof.
  rewrite !bool_decide_eq_false. unfold positive_item. split.
  - intros [_ Hf]. destruct (filter _ _) as [|v l] eqn:E; [done|].
    exists v. assert (v ∈ filter (λ v, 0 < ri_request_qty v) (items_of rq d)) as Hv
      by (rewrite E; by left). apply list_elem_of_filter in Hv. tauto.
  - intros (v & Hin & Hq). split; [by intros Hn; rewrite Hn in Hin; apply elem_of_nil in Hin|].
    intros Hf. assert (v ∈ filter (λ v, 0 < ri_request_qty v) (items_of rq d)) as Hv
      by (by apply list_elem_of_filter). rewrite Hf in Hv. by apply elem_of_nil in Hv.
Qed.

Lemma submit_run rq ver s s' :
  run_ok (submit_request rq ver) s tt s' ↔
  ∃ r, db_rqst (work s) !! rq = Some r ∧ rq_status_code r = STATUS_DRAFT ∧
       positive_item rq (work s) ∧ rq_version_nbr r = ver ∧ s' = upd_work (submitted rq r) s.
Proof.
  unfold submit_request. rewrite run_get. destruct (db_rqst (work s) !! rq) as [r|];
    [|split; [done|]; by intros (? & ? & _)].
  rewrite !run_fail_if, run_mod, run_mod_last, !negb_eqb_false. setoid_rewrite <- no_positive.
  unfold submitted, upd_work; simpl. naive_solver.
Qed.

Definition closed (rq : Z) (r : ReliefRqst) (d : DB) : DB :=
  create_closure_notification rq (rq_agency_id r)
    (put_rqst (set_rq_version_nbr (rq_version_nbr r + 1) (set_rq_status_code STATUS_FILLED r)) d).

Lemma autoclose_run rq s s' :
  run_ok (check_and_autoclose_request rq) s tt s' ↔
  ∃ r, db_rqst (work s) !! rq = Some r ∧ rq_status_code r ≠ STATUS_FILLED ∧
       pending_packages rq (work s) = [] ∧
       (∀ v, v ∈ items_of rq (work s) → ri_issue_qty v ≤ received_qty rq (ri_item_id v) (work s)) ∧
       s' = upd_work (closed rq r) s.
Proof.
  unfold check_and_autoclose_request. rewrite run_get. destruct (db_rqst (work s) !! rq) as [r|];
    [|split; [done|]; by intros (? & ? & _)].
  rewrite !run_fail_if, run_mod, run_mod_last, Z.eqb_neq, negb_false_iff, forallb_elem.
  assert ((0 <? Z.of_nat (length (pending_packages rq (work s)))) = false ↔
    pending_packages rq (work s) = []) as -> by (destruct (pending_packages _ _); simpl; split; try done; lia).
  cbv beta. setoid_rewrite Z.leb_le.
  unfold closed, upd_work; simpl. naive_solver.
Qed.

(** The decision of the reviewer [u]. *)
Definition decided (rq : Z) (r : ReliefRqst) (decision : string) (reason : option string)
    (u : User) (now : Z) (d : DB) : DB :=
  let r1 := set_rq_review_dtime (Some now) (set_rq_review_by_id (Some (us_user_name u)) r) in
  if decide (decision = "N"%string) then
    create_ineligible_notification rq (rq_agency_id r)
      (put_rqst (set_rq_version_nbr (rq_version_nbr r + 1)
        (set_rq_action_dtime (Some now) (set_rq_action_by_id (Some (us_user_name u))
          (set_rq_status_reason_desc (strip <$> reason)
            (set_rq_status_code STATUS_INELIGIBLE r1))))) d)
  else
    create_eligible_notification rq
      (put_rqst (set_rq_version_nbr (rq_version_nbr r + 1)
        (set_rq_status_code STATUS_SUBMITTED r1)) d).

Lemma eligibility_run rq decision reason email now s s' :
  run_ok (submit_eligibility_decision rq decision reason email now) s tt s' ↔
  ∃ r u, db_rqst (work s) !! rq = Some r ∧ rq_status_code r = STATUS_AWAITING_APPROVAL ∧
    rq_review_by_id r = None ∧ decision ∈ ["Y"; "N"]%string ∧
    (decision = "N"%string → ∃ t, reason = Some t ∧ is_blank t = false) ∧
    user_by_email email (work s) = Some u ∧
    s' = upd_work (decided rq r decision reason u now) s.
Proof.
  unfold submit_eligibility_decision. rewrite run_get.
  destruct (db_rqst (work s) !! rq) as [r|]; [|split; [done|]; by intros (? & ? & ? & _)].
  rewrite !run_fail_if, negb_eqb_false, !negb_bool_decide_false.
  assert (bool_decide (decision = "N"%string) &&
    match reason with None => true | Some t => is_blank t end = false ↔
    (decision = "N"%string → ∃ t, reason = Some t ∧ is_blank t = false)) as ->.
  { case_bool_decide as Hd; simpl; [|naive_solver]. destruct reason; naive_solver. }
  destruct (user_by_email email (work s)) as [u|];
    [|split; [intros (_ & _ & _ & _ & H); done|]; by intros (? & ? & _ & _ & _ & _ & _ & ? & _)].
  unfold decided. rewrite bool_decide_decide. destruct (decide (decision = "N"%string));
    rewrite run_mod, run_mod_last; unfold upd_work; simpl; naive_solver.
Qed.
End proofs.

(** * The workflow as a step relation *)

(** One service call that succeeds, or the end of a transaction. *)
Inductive rqst_step `{Runtime} : Session → Session → Prop :=
| step_create s s' r new_id agency urgency event notes email today now :
    db_rqst (work s) !! new_id = None →
    run_ok (create_draft_request new_id agency urgency event notes email today now) s r s' →
    rqst_step s s'
| step_item s s' v rq it qty urgency reason by_date ver :
    run_ok (add_or_update_request_item rq it qty urgency reason by_date ver) s v s' →
    rqst_step s s'
| step_delete s s' rq it : run_ok (delete_request_item rq it) s tt s' → rqst_step s s'
| step_submit s s' rq ver : run_ok (submit_request rq ver) s tt s' → rqst_step s s'
| step_decide s s' rq decision reason email now :
    run_ok (submit_eligibility_decision rq decision reason email now) s tt s' → rqst_step s s'
| step_autoclose s s' rq : run_ok (check_and_autoclose_request rq) s tt s' → rqst_step s s'
| step_commit s : rqst_step s (commit_session s)
| step_rollback s : rqst_step s (rollback_session s).

(** The edges of the workflow, with the version counter. *)
Definition rqst_edge (r r' : ReliefRqst) : Prop :=
  rq_version_nbr r' = rq_version_nbr r + 1 ∧
  ((rq_status_code r = STATUS_DRAFT ∧ rq_status_code r' = STATUS_AWAITING_APPROVAL ∧
    rq_review_by_id r' = rq_review_by_id r ∧ rq_action_by_id r' = rq_action_by_id r) ∨
   (rq_status_code r = STATUS_AWAITING_APPROVAL ∧ rq_review_by_id r = None ∧
    is_Some (rq_review_by_id r') ∧
    (rq_status_code r' = STATUS_SUBMITTED ∨
     rq_status_code r' = STATUS_INELIGIBLE ∧ is_Some (rq_action_by_id r'))) ∨
   (rq_status_code r ≠ STATUS_FILLED ∧ rq_status_code r' = STATUS_FILLED)).

Definition fresh_draft (r : ReliefRqst) : Prop :=
  rq_status_code r = STATUS_DRAFT ∧ rq_version_nbr r = 1 ∧
  rq_review_by_id r = None ∧ rq_action_by_id r = None.

(** What a call does to the table of requests: nothing, a new draft, or one edge. *)
Definition rqst_change (m m' : gmap Z ReliefRqst) : Prop :=
  m' = m ∨
  ∃ r', m' = <[rq_reliefrqst_id r' := r']> m ∧
    ((m !! rq_reliefrqst_id r' = None ∧ fresh_draft r') ∨
     ∃ r, m !! rq_reliefrqst_id r' = Some r ∧ rqst_edge r r').

Section workflow.
Context `{R : Runtime}.

Lemma create_rows new_id agency urgency event notes email today now s r s' :
  db_rqst (work s) !! new_id = None →
  run_ok (create_draft_request new_id agency urgency event notes email today now) s r s' →
  rqst_change (db_rqst (work s)) (db_rqst (work s')).
Proof.
  intros Hn. unfold create_draft_request. rewrite !run_fail_if, run_get, !run_fail_if.
  intros (_ & _ & _ & Hrun). destruct (user_by_email email (work s)) as [u|]; [|done].
  rewrite run_mod, run_ret in Hrun. destruct Hrun as [-> ->].
  right. eexists. split; [reflexivity|]. left. by split.
Qed.

Lemma item_rows rq it qty urgency reason by_date ver s v s' :
  run_ok (add_or_update_request_item rq it qty urgency reason by_date ver) s v s' →
  db_rqst (work s') = db_rqst (work s).
Proof.
  unfold add_or_update_request_item. rewrite !run_fail_if, run_get. intros (_ & _ & Hrun).
  destruct (db_rqst_item (work s) !! (rq, it)) as [v0|]; [rewrite run_fail_if in Hrun; destruct Hrun as [_ Hrun]|];
    rewrite run_mod, run_ret in Hrun; by destruct Hrun as [-> ->].
Qed.

Lemma delete_rows rq it s s' :
  run_ok (delete_request_item rq it) s tt s' → db_rqst (work s') = db_rqst (work s).
Proof.
  unfold delete_request_item. rewrite run_get. destruct (db_rqst (work s) !! rq); [|done].
  rewrite run_fail_if. intros [_ Hrun]. destruct (db_rqst_item (work s) !! (rq, it)); [|done].
  rewrite run_mod_last in Hrun. by subst.
Qed.

Lemma edge_change (d : DB) rq r r' :
  keyed_rqsts d → db_rqst d !! rq = Some r → rq_reliefrqst_id r' = rq_reliefrqst_id r →
  rqst_edge r r' → rqst_change (db_rqst d) (<[rq_reliefrqst_id r' := r']> (db_rqst d)).
Proof.
  intros Hk Hr Hid He. right. exists r'. split; [done|]. right. exists r. split; [|done].
  by rewrite Hid, (Hk rq r Hr).
Qed.

Lemma submit_rows rq ver s s' :
  keyed_rqsts (work s) → run_ok (submit_request rq ver) s tt s' →
  rqst_change (db_rqst (work s)) (db_rqst (work s')).
Proof.
  intros Hk (r & Hr & Hst & _ & _ & ->)%submit_run. eapply edge_change; [done..|].
  split; [done|]. left. done.
Qed.

Lemma autoclose_rows rq s s' :
  keyed_rqsts (work s) → run_ok (check_and_autoclose_request rq) s tt s' →
  rqst_change (db_rqst (work s)) (db_rqst (work s')).
Proof.
  intros Hk (r & Hr & Hst & _ & _ & ->)%autoclose_run. eapply edge_change; [done..|].
  split; [done|]. right; right. done.
Qed.

Lemma decide_rows rq decision reason email now s s' :
  keyed_rqsts (work s) →
  run_ok (submit_eligibility_decision rq decision reason email now) s tt s' →
  rqst_change (db_rqst (work s)) (db_rqst (work s')).
Proof.
  intros Hk (r & u & Hr & Hst & Hrev & _ & _ & _ & ->)%eligibility_run.
  unfold upd_work, decided. simpl. case_decide; (eapply edge_change; [done..|]);
    (split; [done|]); right; left; simpl; eauto 10.
Qed.

Lemma change_keyed d d' :
  keyed_rqsts d → rqst_change (db_rqst d) (db_rqst d') → keyed_rqsts d'.
Proof.
  intros Hk [Heq|(r' & Heq & _)]; unfold keyed_rqsts; rewrite Heq; [done|].
  by apply map_Forall_insert_2.
Qed.

(** A step changes the working state by one change, or ends the transaction. *)
Lemma step_rows s s' :
  keyed_rqsts (work s) → rqst_step s s' →
  (committed s' = committed s ∧ rqst_change (db_rqst (work s)) (db_rqst (work s'))) ∨
  (s' = commit_session s ∨ s' = rollback_session s).
Proof.
  intros Hk Hs. destruct Hs as [s s' r new_id agency urgency event notes email today now Hn Hrun
    |s s' v rq it qty urgency reason by_date ver Hrun|s s' rq it Hrun|s s' rq ver Hrun
    |s s' rq decision reason email now Hrun|s s' rq Hrun|s|s]; [..|by right; left|by right; right]; left.
  - split; [|by eapply create_rows]. revert Hrun. unfold create_draft_request.
    rewrite !run_fail_if, run_get, !run_fail_if. intros (_ & _ & _ & Hrun).
    destruct (user_by_email email (work s)); [|done]. rewrite run_mod, run_ret in Hrun.
    by destruct Hrun as [_ ->].
  - split; [|left; by eapply item_rows]. revert Hrun. unfold add_or_update_request_item.
    rewrite !run_fail_if, run_get. intros (_ & _ & Hrun).
    destruct (db_rqst_item (work s) !! (rq, it));
      [rewrite run_fail_if in Hrun; destruct Hrun as [_ Hrun]|];
      rewrite run_mod, run_ret in Hrun; by destruct Hrun as [_ ->].
  - split; [|left; by eapply delete_rows]. revert Hrun. unfold delete_request_item. rewrite run_get.
    destruct (db_rqst (work s) !! rq); [|done]. rewrite run_fail_if. intros [_ Hrun].
    destruct (db_rqst_item (work s) !! (rq, it)); [|done]. rewrite run_mod_last in Hrun. by subst.
  - split; [|by eapply submit_rows]. apply submit_run in Hrun as (? & _ & _ & _ & _ & ->). done.
  - split; [|by eapply decide_rows]. by apply eligibility_run in Hrun as (? & ? & _ & _ & _ & _ & _ & _ & ->).
  - split; [|by eapply autoclose_rows]. by apply autoclose_run in Hrun as (? & _ & _ & _ & _ & ->).
Qed.
End workflow.

(** one call moves at most one request, along an edge of the workflow (draft
    to awaiting approval, awaiting approval to submitted or ineligible, any open
    state to filled), and counts the version. *)
Theorem request_step_edges `{Runtime} s s' rq r :
  keyed_rqsts (work s) → rqst_step s s' → s' ≠ rollback_session s →
  db_rqst (work s) !! rq = Some r →
  ∃ r', db_rqst (work s') !! rq = Some r' ∧ (r' = r ∨ rqst_edge r r').
Proof.
  intros Hk Hs Hnr Hr. destruct (step_rows s s' Hk Hs) as [[_ [->|(r' & -> & Hr')]]|[->|?]];
    [by eauto| |by eauto|done].
  destruct (decide (rq = rq_reliefrqst_id r')) as [->|Hne].
  - exists r'. rewrite lookup_insert_eq. split; [done|].
    destruct Hr' as [[Hn _]|(r0 & Hr0 & He)]; [congruence|]. right. congruence.
  - exists r. rewrite lookup_insert_ne by done. auto.
Qed.

(** a draft is submitted exactly when it has an item of positive quantity and
    the caller saw its current version; the request then awaits approval, with
    the version counted and every active director notified. *)
Theorem submit_request_correct `{Runtime} rq ver s s' :
  run_ok (submit_request rq ver) s tt s' ↔
  ∃ r, db_rqst (work s) !! rq = Some r ∧ rq_status_code r = STATUS_DRAFT ∧
       positive_item rq (work s) ∧ rq_version_nbr r = ver ∧ s' = upd_work (submitted rq r) s.
Proof. apply submit_run. Qed.

(** an eligibility decision is recorded exactly once, on a request awaiting
    approval, by a known reviewer, with a reason when it is negative. *)
Theorem eligibility_decision_correct `{Runtime} rq decision reason email now s s' :
  run_ok (submit_eligibility_decision rq decision reason email now) s tt s' ↔
  ∃ r u, db_rqst (work s) !! rq = Some r ∧ rq_status_code r = STATUS_AWAITING_APPROVAL ∧
    rq_review_by_id r = None ∧ decision ∈ ["Y"; "N"]%string ∧
    (decision = "N"%string → ∃ t, reason = Some t ∧ is_blank t = false) ∧
    user_by_email email (work s) = Some u ∧
    s' = upd_work (decided rq r decision reason u now) s.
Proof. apply eligibility_run. Qed.

(** * Concrete requests *)

Definition user0 (id : Z) (email name : string) (agency : option Z) (roles : list string) : User :=
  mkUser id email name (Some "A"%string) (Some "B"%string) true agency roles.

Definition rqst0 (status : Z) (ver : Z) (review action : option string) : ReliefRqst :=
  mkReliefRqst 7 5 10 None "H" None status None "AG" 10 review None action None ver.

(** A draft of two units, one director and one logistics officer. *)
Definition rqst_db (status ver : Z) : DB :=
  set_db_rqst {[7 := rqst0 status ver None None]}
    (set_db_rqst_item {[(7, 1) := rqst_item 7 1 2 0 "R"]}
      (set_db_user {[1 := user0 1 "dir@odpem" "DIR" None ["ODPEM_DG"%string];
                     2 := user0 2 "lo@odpem" "LO" None ["LOGISTICS_OFFICER"%string]]} empty_db)).

Lemma request_step_edges_witness :
  let s := session_of (rqst_db 0 1) in
  ∃ s' r', run_ok (@submit_request canonical_runtime 7 1) s tt s' ∧
    db_rqst (work s') !! 7 = Some r' ∧ (r' = rqst0 0 1 None None ∨ rqst_edge (rqst0 0 1 None None) r').
Proof.
  destruct (@submit_request canonical_runtime 7 1 (session_of (rqst_db 0 1))) as [s' res] eqn:E.
  assert (run_ok (@submit_request canonical_runtime 7 1) (session_of (rqst_db 0 1)) tt s') as Hrun.
  { unfold run_ok. rewrite E. f_equal. change res with (s', res).2. rewrite <- E.
    vm_compute. reflexivity. }
  destruct (@request_step_edges canonical_runtime (session_of (rqst_db 0 1)) s' 7 (rqst0 0 1 None None))
    as (r' & Hr' & He); [by_decide| | |vm_compute; reflexivity|].
  - by eapply (@step_submit canonical_runtime _ _ 7 1).
  - replace s' with (@submit_request canonical_runtime 7 1 (session_of (rqst_db 0 1))).1 by (by rewrite E).
    vm_compute. discriminate.
  - by exists s', r'.
Defined.
