(* ===== verification/Dispatch.v ===== *)
(** Workflow C, the Logistics Manager's dispatch
    (app/services/dispatch_service.py): undo the officer's reservations, overwrite
    the package with the manager's plan, deplete the stock, update the records.

    The service returns [False, message] without rolling back; its caller does.
    Quantities of the plan are already [Decimal]s. *)
From S2P Require Import Prelude Schema Ledger Reservation ReliefRequest.

(** * Data *)

(** One entry of the manager's plan. *)
Record LmAlloc : Type := mkLmAlloc {
  lm_fr_inventory_id : Z;
  lm_batch_id : Z;
  lm_item_id : Z;
  lm_qty : Z;
  lm_uom_code : string
}.

(** [(fr_inventory_id, batch_id, item_id)]. *)
Abbreviation PlanKey := (Z * Z * Z)%type.

Inductive DispatchFailure : Type :=
| PkgNotFound
| PkgModified
| AlreadyDispatched
| BadPkgStatus (status : string)
| RqstNotFound
| DBatchNotFound (batch_id : Z)
| InconsistentBatch (batch_id : Z)
| DInventoryNotFound (inv_id item_id : Z)
| InconsistentInventory (inv_id : Z)
| InsufficientUsable (batch_id : Z)
| InsufficientWarehouse (inv_id item_id : Z).

Abbreviation DM := (M Session DispatchFailure).

(** [totals[k] += q] on a [defaultdict(Decimal)]. *)
Definition tally {K} `{EqDecision K} (k : K) (q : Z) (t : list (K * Z)) : list (K * Z) :=
  dict_set k (default 0 (dict_get k t) + q) t.

Definition lm_key (a : LmAlloc) : PlanKey := (lm_fr_inventory_id a, lm_batch_id a, lm_item_id a).

(** [x.f = q; x.update_by_id = user; x.update_dtime = now; x.version_nbr += 1]. *)
Definition touch_batch (user : string) (now : Z) (b : ItemBatch) : ItemBatch :=
  set_ib_audit (touch user now (ib_audit b)) b.
Definition touch_inventory (user : string) (now : Z) (i : Inventory) : Inventory :=
  set_inv_audit (touch user now (inv_audit i)) i.
Definition touch_pkg_item (user : string) (now : Z) (v : ReliefPkgItem) : ReliefPkgItem :=
  set_pi_audit (touch user now (pi_audit v)) v.

Definition put_pkg_item (v : ReliefPkgItem) (d : DB) : DB :=
  set_db_pkg_item (<[pi_pk v := v]> (db_pkg_item d)) d.

Definition put_pkg (p : ReliefPkg) (d : DB) : DB :=
  set_db_pkg (<[pkg_reliefpkg_id p := p]> (db_pkg d)) d.

Section service.
Context `{R : Runtime}.

(** * Step C.3.2 *)

Definition get_lo_plan (pkg : Z) (d : DB) : list (PlanKey * Z) :=
  foldl (λ acc v, dict_set (pi_fr_inventory_id v, pi_batch_id v, pi_item_id v) (pi_item_qty v) acc)
    [] (pkg_items_of pkg d).

(** * Step C.3.3 *)

Definition undo_batch (user : string) (now : Z) (totals : list ((Z * Z) * Z))
    (entry : PlanKey * Z) : DM (list ((Z * Z) * Z)) :=
  let '((inv_id, batch_id, item_id), lo_qty) := entry in
  if lo_qty <=? 0 then mret totals else
  d ← db_get;
  match find_batch batch_id item_id inv_id d with
  | None => m_fail (DBatchNotFound batch_id)
  | Some b =>
      m_fail_if (ib_reserved b <? lo_qty) (InconsistentBatch batch_id);;
      db_mod (put_batch batch_id (touch_batch user now (set_ib_reserved (ib_reserved b - lo_qty) b)));;
      mret (tally (inv_id, item_id) lo_qty totals)
  end.

Definition undo_inventory (user : string) (now : Z) (entry : (Z * Z) * Z) : DM unit :=
  let '((inv_id, item_id), total_lo_qty) := entry in
  d ← db_get;
  match find_inventory inv_id item_id d with
  | None => m_fail (DInventoryNotFound inv_id item_id)
  | Some i =>
      m_fail_if (inv_reserved i <? total_lo_qty) (InconsistentInventory inv_id);;
      db_mod (put_inventory inv_id item_id
        (touch_inventory user now (set_inv_reserved (inv_reserved i - total_lo_qty) i)))
  end.

Definition undo_lo_reservations (lo_plan : list (PlanKey * Z)) (user : string) (now : Z) : DM unit :=
  totals ← m_fold lo_plan [] (undo_batch user now);
  m_for totals (undo_inventory user now).

(** * Step C.3.4 *)

Definition overwrite_item (pkg : Z) (user : string) (now : Z) (a : LmAlloc) (d : DB) : DB :=
  match db_pkg_item d !! (pkg, lm_fr_inventory_id a, lm_batch_id a, lm_item_id a) with
  | Some v =>
      put_pkg_item (touch_pkg_item user now
        (set_pi_uom_code (lm_uom_code a) (set_pi_item_qty (lm_qty a) v))) d
  | None =>
      put_pkg_item (mkReliefPkgItem pkg (lm_fr_inventory_id a) (lm_batch_id a) (lm_item_id a)
        (lm_qty a) (lm_uom_code a) (new_audit user now)) d
  end.

Definition zero_item (pkg : Z) (user : string) (now : Z) (key : PlanKey) (d : DB) : DB :=
  let '(inv_id, batch_id, item_id) := key in
  match db_pkg_item d !! (pkg, inv_id, batch_id, item_id) with
  | Some v =>
      if 0 <? pi_item_qty v
      then put_pkg_item (touch_pkg_item user now (set_pi_item_qty 0 v)) d else d
  | None => d
  end.

Definition overwrite_package_items (pkg : Z) (lm_plan : list LmAlloc)
    (lo_plan : list (PlanKey * Z)) (user : string) (now : Z) (d : DB) : DB :=
  let d1 := foldl (λ d a, overwrite_item pkg user now a d) d lm_plan in
  foldl (λ d key, if decide (key ∈ lm_key <$> lm_plan) then d else zero_item pkg user now key d)
    d1 lo_plan.*1.

(** * Step C.3.5 *)

Definition deplete_batch (user : string) (now : Z) (totals : list ((Z * Z) * Z))
    (a : LmAlloc) : DM (list ((Z * Z) * Z)) :=
  if lm_qty a <=? 0 then mret totals else
  d ← db_get;
  match find_batch (lm_batch_id a) (lm_item_id a) (lm_fr_inventory_id a) d with
  | None => m_fail (DBatchNotFound (lm_batch_id a))
  | Some b =>
      m_fail_if (ib_usable b <? lm_qty a) (InsufficientUsable (lm_batch_id a));;
      db_mod (put_batch (lm_batch_id a) (touch_batch user now (set_ib_usable (ib_usable b - lm_qty a) b)));;
      mret (tally (lm_fr_inventory_id a, lm_item_id a) (lm_qty a) totals)
  end.

Definition deplete_inventory (user : string) (now : Z) (entry : (Z * Z) * Z) : DM unit :=
  let '((inv_id, item_id), total_lm_qty) := entry in
  d ← db_get;
  match find_inventory inv_id item_id d with
  | None => m_fail (DInventoryNotFound inv_id item_id)
  | Some i =>
      m_fail_if (inv_usable i <? total_lm_qty) (InsufficientWarehouse inv_id item_id);;
      db_mod (put_inventory inv_id item_id
        (touch_inventory user now (set_inv_usable (inv_usable i - total_lm_qty) i)))
  end.

Definition deplete_usable_stock (lm_plan : list LmAlloc) (user : string) (now : Z) : DM unit :=
  totals ← m_fold lm_plan [] (deplete_batch user now);
  m_for totals (deplete_inventory user now).

(** * Step C.3.6 *)

Definition dispatched_pkg (user : string) (now : Z) (p : ReliefPkg) : ReliefPkg :=
  set_pkg_audit (touch user now (pkg_audit p))
    (set_pkg_verify_dtime (Some now) (set_pkg_verify_by_id (Some user)
      (set_pkg_dispatch_dtime (Some now) (set_pkg_status_code "D" p)))).

Definition item_totals (lm_plan : list LmAlloc) : list (Z * Z) :=
  foldl (λ t a, if 0 <? lm_qty a then tally (lm_item_id a) (lm_qty a) t else t) [] lm_plan.

Definition add_issue (rq : Z) (entry : Z * Z) (d : DB) : DB :=
  match db_rqst_item d !! (rq, entry.1) with
  | Some v => put_rqst_item (set_ri_version_nbr (ri_version_nbr v + 1)
                (set_ri_issue_qty (ri_issue_qty v + entry.2) v)) d
  | None => d
  end.

Definition part_filled (user : string) (now : Z) (r : ReliefRqst) : ReliefRqst :=
  set_rq_version_nbr (rq_version_nbr r + 1) (set_rq_status_code STATUS_PART_FILLED
    (set_rq_action_dtime (Some now) (set_rq_action_by_id (Some user) r))).

Definition update_dispatch_records (p : ReliefPkg) (r : ReliefRqst) (lm_plan : list LmAlloc)
    (user : string) (now : Z) (d : DB) : DB :=
  let d1 := put_pkg (dispatched_pkg user now p) d in
  let d2 := foldl (λ d e, add_issue (rq_reliefrqst_id r) e d) d1 (item_totals lm_plan) in
  put_rqst (part_filled user now r) d2.

(** * The workflow *)

Definition submit_for_dispatch (pkg_id : Z) (lm_plan : list LmAlloc) (user : string)
    (package_version_nbr now : Z) : DM unit :=
  d ← db_get;
  match db_pkg d !! pkg_id with
  | None => m_fail PkgNotFound
  | Some p =>
      m_fail_if (negb (version_nbr (pkg_audit p) =? package_version_nbr)) PkgModified;;
      m_fail_if (bool_decide (pkg_status_code p = "D"%string)) AlreadyDispatched;;
      m_fail_if (negb (bool_decide (pkg_status_code p ∈ ["P"; "V"]%string)))
        (BadPkgStatus (pkg_status_code p));;
      match db_rqst d !! pkg_reliefrqst_id p with
      | None => m_fail RqstNotFound
      | Some r =>
          let lo_plan := get_lo_plan pkg_id d in
          undo_lo_reservations lo_plan user now;;
          db_mod (overwrite_package_items pkg_id lm_plan lo_plan user now);;
          deplete_usable_stock lm_plan user now;;
          db_mod (update_dispatch_records p r lm_plan user now)
      end
  end.

(** * Building the plan *)

(** The form's entries, already parsed to numbers. *)
Definition build_lm_plan_from_form (allocations : list LmAlloc) : list LmAlloc :=
  filter (λ a, 0 < lm_qty a) allocations.

Definition build_lm_plan_from_pkg_items (pkg : Z) (d : DB) : list LmAlloc :=
  (λ v, mkLmAlloc (pi_fr_inventory_id v) (pi_batch_id v) (pi_item_id v) (pi_item_qty v) (pi_uom_code v))
    <$> filter (λ v, 0 < pi_item_qty v) (pkg_items_of pkg d).
End service.
