(* ===== verification/DispatchTheorems.v ===== *)
(** What a successful dispatch does to the ledger, and the guard it lacks.

    What the dispatch workflow promises: it conserves stock, keeps the ledger
    balanced and writes the manager's plan; and the check it does not make. *)

From S2P Require Import Prelude Schema Ledger Fixtures Reservation ReservationProofs ReliefRequest Dispatch.

(** * Tallies *)

Section tally.
Context {A K : Type} `{EqDecision K} (site : A → K) (amt : A → Z).

(** The running totals of the loops over a plan. *)
Definition totals_of (l : list A) (t : list (K * Z)) : list (K * Z) :=
  foldl (λ t a, if amt a <=? 0 then t else tally (site a) (amt a) t) t l.

Definition planned (k : K) (l : list A) : Z :=
  lsum (λ a, if decide (site a = k) then Z.max 0 (amt a) else 0) l.

Lemma tally_get k k' q (t : list (K * Z)) :
  default 0 (dict_get k (tally k' q t)) = default 0 (dict_get k t) + (if decide (k' = k) then q else 0).
Proof.
  unfold tally. rewrite dict_get_set. destruct (decide (k = k')) as [->|].
  - rewrite decide_True by done. done.
  - rewrite decide_False by congruence. lia.
Qed.

Lemma totals_get l t k :
  default 0 (dict_get k (totals_of l t)) = default 0 (dict_get k t) + planned k l.
Proof.
  unfold totals_of, planned. revert t. induction l as [|a l IH]; intros t; simpl; [lia|].
  rewrite IH. destruct (Z.leb_spec (amt a) 0).
  - case_decide; lia.
  - rewrite tally_get. case_decide; lia.
Qed.

Lemma totals_nodup l t : NoDup t.*1 → NoDup (totals_of l t).*1.
Proof.
  unfold totals_of. revert t. induction l as [|a l IH]; intros t Ht; simpl; [done|].
  apply IH. case_match; [done|]. by apply dict_set_nodup.
Qed.

Lemma planned_nonneg k l : 0 ≤ planned k l.
Proof. apply lsum_nonneg. intros a _. case_decide; lia. Qed.

(** A key of the totals is a site of the plan. *)
Lemma totals_keys l t k :
  k ∈ (totals_of l t).*1 → k ∈ t.*1 ∨ ∃ a, a ∈ l ∧ site a = k ∧ 0 < amt a.
Proof.
  unfold totals_of. revert t. induction l as [|a l IH]; intros t; simpl; [auto|].
  intros [Hk|(a' & Ha & Hs)]%IH.
  - destruct (Z.leb_spec (amt a) 0); [auto|].
    apply dict_set_keys in Hk as [->|Hk]; [|auto]. right. exists a. split_and!; [by left|done|lia].
  - right. exists a'. split; [by right|done].
Qed.
End tally.

(** * Decrementing inventory rows *)

Section inv_dec.
Context (g : Z → Inventory → Inventory).

Definition inv_dec (e : (Z * Z) * Z) (d : DB) : DB :=
  match find_inventory e.1.1 e.1.2 d with
  | Some i => put_inventory e.1.1 e.1.2 (g e.2 i) d
  | None => d
  end.

Lemma find_inv_dec e wh it d :
  e.1 ≠ (wh, it) → find_inventory wh it (inv_dec e d) = find_inventory wh it d.
Proof.
  destruct e as [[w i] q]. intros Hne. unfold inv_dec, find_inventory, put_inventory. simpl in *.
  destruct (db_inventory d !! (w, i)); [|done]. simpl. by rewrite lookup_insert_ne.
Qed.

Lemma inv_decs_frame l d :
  effects inv_dec l d = set_db_inventory (db_inventory (effects inv_dec l d)) d.
Proof.
  revert d. induction l as [|e l IH]; intros d; simpl; [by rewrite set_db_inventory_id|].
  rewrite IH. unfold inv_dec. by destruct (find_inventory _ _ d).
Qed.

Lemma inv_decs_lookup l d wh it :
  NoDup l.*1 →
  db_inventory (effects inv_dec l d) !! (wh, it) =
  (λ i, match dict_get (wh, it) l with Some q => g q i | None => i end) <$> db_inventory d !! (wh, it).
Proof.
  revert d. induction l as [|[[w i] q] l IH]; intros d Hnd; simpl; [by destruct (db_inventory d !! _)|].
  csimpl in Hnd. apply NoDup_cons in Hnd as [Hk Hnd]. rewrite (IH _ Hnd).
  destruct (decide ((wh, it) = (w, i))) as [[= -> ->]|Hne].
  - rewrite (proj2 (dict_get_None _ _)) by done. unfold inv_dec, find_inventory, put_inventory. simpl.
    destruct (db_inventory d !! (w, i)) as [v|] eqn:E; simpl; [by rewrite lookup_insert_eq|by rewrite E].
  - pose proof (find_inv_dec ((w, i), q) wh it d) as Hf. unfold find_inventory in Hf.
    rewrite Hf by (simpl; congruence). done.
Qed.
End inv_dec.

(** * The loops of the service *)

Definition lo_site (e : PlanKey * Z) : Z * Z := (e.1.1.1, e.1.2).
Definition lm_site (a : LmAlloc) : Z * Z := (lm_fr_inventory_id a, lm_item_id a).

(** The batch an entry names, as (item, warehouse, batch). *)
Definition lo3 (e : PlanKey * Z) : Z * Z * Z := (e.1.2, e.1.1.1, e.1.1.2).
Definition lm3 (a : LmAlloc) : Z * Z * Z := (lm_item_id a, lm_fr_inventory_id a, lm_batch_id a).

Definition undo_row (user : string) (now : Z) (e : PlanKey * Z) (b : ItemBatch) : ItemBatch :=
  if e.2 <=? 0 then b else touch_batch user now (set_ib_reserved (ib_reserved b - e.2) b).

Definition deplete_row (user : string) (now : Z) (a : LmAlloc) (b : ItemBatch) : ItemBatch :=
  if lm_qty a <=? 0 then b else touch_batch user now (set_ib_usable (ib_usable b - lm_qty a) b).

Definition undo_ok (e : PlanKey * Z) (d : DB) : Prop :=
  0 < e.2 → ∃ b, find_key (lo3 e) d = Some b ∧ e.2 ≤ ib_reserved b.

Definition deplete_ok (a : LmAlloc) (d : DB) : Prop :=
  0 < lm_qty a → ∃ b, find_key (lm3 a) d = Some b ∧ lm_qty a ≤ ib_usable b.

Definition dec_reserved (user : string) (now : Z) (q : Z) (i : Inventory) : Inventory :=
  touch_inventory user now (set_inv_reserved (inv_reserved i - q) i).
Definition dec_usable (user : string) (now : Z) (q : Z) (i : Inventory) : Inventory :=
  touch_inventory user now (set_inv_usable (inv_usable i - q) i).

Definition undo_inv_ok (e : (Z * Z) * Z) (d : DB) : Prop :=
  ∃ i, find_inventory e.1.1 e.1.2 d = Some i ∧ e.2 ≤ inv_reserved i.
Definition deplete_inv_ok (e : (Z * Z) * Z) (d : DB) : Prop :=
  ∃ i, find_inventory e.1.1 e.1.2 d = Some i ∧ e.2 ≤ inv_usable i.

Lemma undo_row_key user now e b : bkey (undo_row user now e b) = bkey b.
Proof. unfold undo_row. by case_match. Qed.

Lemma deplete_row_key user now a b : bkey (deplete_row user now a b) = bkey b.
Proof. unfold deplete_row. by case_match. Qed.

Section loops.
Context (user : string) (now : Z).

Lemma undo_batch_run acc e s acc' s' :
  run_ok (undo_batch user now acc e) s acc' s' ↔
  undo_ok e (work s) ∧ acc' = (if e.2 <=? 0 then acc else tally (lo_site e) e.2 acc) ∧
  s' = upd_work (entry_put lo3 (undo_row user now) e) s.
Proof.
  destruct e as [[[inv bid] it] q], s as [c w].
  unfold undo_batch, undo_ok, entry_put, undo_row, lo3, lo_site, find_key; simpl.
  destruct (Z.leb_spec q 0) as [Hq|Hq].
  - run_unfold. destruct (find_batch bid it inv w) as [b|] eqn:Hb;
      [apply find_batch_Some in Hb as [Hb _]; rewrite put_batch_id by done|];
      split; intros; destruct_and?; simplify_eq; try done; split_and!; try done; lia.
  - run_unfold. destruct (find_batch bid it inv w) as [b|] eqn:Hb.
    + destruct (Z.ltb_spec (ib_reserved b) q); simpl.
      * split; [done|]. intros (Hok & _). destruct (Hok Hq) as (? & ? & ?). simplify_eq. lia.
      * split; intros; destruct_and?; simplify_eq; [split_and!; [eauto|done..]|done].
    + split; [done|]. intros (Hok & _). by destruct (Hok Hq) as (? & ? & _).
Qed.

Lemma deplete_batch_run acc a s acc' s' :
  run_ok (deplete_batch user now acc a) s acc' s' ↔
  deplete_ok a (work s) ∧ acc' = (if lm_qty a <=? 0 then acc else tally (lm_site a) (lm_qty a) acc) ∧
  s' = upd_work (entry_put lm3 (deplete_row user now) a) s.
Proof.
  destruct a as [inv bid it q uom], s as [c w].
  unfold deplete_batch, deplete_ok, entry_put, deplete_row, lm3, lm_site, find_key; simpl.
  destruct (Z.leb_spec q 0) as [Hq|Hq].
  - run_unfold. destruct (find_batch bid it inv w) as [b|] eqn:Hb;
      [apply find_batch_Some in Hb as [Hb _]; rewrite put_batch_id by done|];
      split; intros; destruct_and?; simplify_eq; try done; split_and!; try done; lia.
  - run_unfold. destruct (find_batch bid it inv w) as [b|] eqn:Hb.
    + destruct (Z.ltb_spec (ib_usable b) q); simpl.
      * split; [done|]. intros (Hok & _). destruct (Hok Hq) as (? & ? & ?). simplify_eq. lia.
      * split; intros; destruct_and?; simplify_eq; [split_and!; [eauto|done..]|done].
    + split; [done|]. intros (Hok & _). by destruct (Hok Hq) as (? & ? & _).
Qed.

Lemma undo_inventory_run e s s' :
  run_ok (undo_inventory user now e) s tt s' ↔
  undo_inv_ok e (work s) ∧ s' = upd_work (inv_dec (dec_reserved user now) e) s.
Proof.
  destruct e as [[inv it] q], s as [c w]. unfold undo_inventory, undo_inv_ok, inv_dec. run_unfold.
  destruct (find_inventory inv it w) as [i|]; [|by split; [|intros [(? & ? & _) _]]].
  destruct (Z.ltb_spec (inv_reserved i) q); simpl.
  - split; [done|]. intros [(? & ? & ?) _]. simplify_eq. lia.
  - split; intros; destruct_and?; simplify_eq; eauto.
Qed.

Lemma deplete_inventory_run e s s' :
  run_ok (deplete_inventory user now e) s tt s' ↔
  deplete_inv_ok e (work s) ∧ s' = upd_work (inv_dec (dec_usable user now) e) s.
Proof.
  destruct e as [[inv it] q], s as [c w]. unfold deplete_inventory, deplete_inv_ok, inv_dec. run_unfold.
  destruct (find_inventory inv it w) as [i|]; [|by split; [|intros [(? & ? & _) _]]].
  destruct (Z.ltb_spec (inv_usable i) q); simpl.
  - split; [done|]. intros [(? & ? & ?) _]. simplify_eq. lia.
  - split; intros; destruct_and?; simplify_eq; eauto.
Qed.

Definition lo_totals (lo : list (PlanKey * Z)) : list ((Z * Z) * Z) := totals_of lo_site snd lo [].
Definition lm_totals (plan : list LmAlloc) : list ((Z * Z) * Z) := totals_of lm_site lm_qty plan [].

Definition undo_spec (lo : list (PlanKey * Z)) (d : DB) : DB :=
  effects (inv_dec (dec_reserved user now)) (lo_totals lo)
    (effects (entry_put lo3 (undo_row user now)) lo d).

Definition deplete_spec (plan : list LmAlloc) (d : DB) : DB :=
  effects (inv_dec (dec_usable user now)) (lm_totals plan)
    (effects (entry_put lm3 (deplete_row user now)) plan d).

Lemma undo_run lo s s' :
  run_ok (undo_lo_reservations lo user now) s tt s' →
  seq_ok_effects undo_ok (entry_put lo3 (undo_row user now)) lo (work s) ∧
  s' = upd_work (undo_spec lo) s.
Proof.
  unfold undo_lo_reservations. rewrite bind_ok. intros (totals & s1 & Hf & Hl).
  apply (fold_effects_seq _ undo_ok (entry_put lo3 (undo_row user now))
    (λ e acc, if e.2 <=? 0 then acc else tally (lo_site e) e.2 acc) undo_batch_run) in Hf
    as (Hok & -> & ->). split; [done|].
  apply (for_effects_key _ fst undo_inv_ok (inv_dec (dec_reserved user now)) undo_inventory_run) in Hl
    as [_ ->]; [done| |].
  - intros a b d Hne. unfold undo_inv_ok. destruct b as [[w i] q]. simpl. by rewrite find_inv_dec.
  - apply (totals_nodup lo_site snd lo []). constructor.
Qed.

Lemma deplete_run plan s s' :
  run_ok (deplete_usable_stock plan user now) s tt s' →
  seq_ok_effects deplete_ok (entry_put lm3 (deplete_row user now)) plan (work s) ∧
  s' = upd_work (deplete_spec plan) s.
Proof.
  unfold deplete_usable_stock. rewrite bind_ok. intros (totals & s1 & Hf & Hl).
  apply (fold_effects_seq _ deplete_ok (entry_put lm3 (deplete_row user now))
    (λ a acc, if lm_qty a <=? 0 then acc else tally (lm_site a) (lm_qty a) acc) deplete_batch_run) in Hf
    as (Hok & -> & ->). split; [done|].
  apply (for_effects_key _ fst deplete_inv_ok (inv_dec (dec_usable user now)) deplete_inventory_run) in Hl
    as [_ ->]; [done| |].
  - intros a b d Hne. unfold deplete_inv_ok. destruct b as [[w i] q]. simpl. by rewrite find_inv_dec.
  - apply (totals_nodup lm_site lm_qty plan []). constructor.
Qed.
End loops.

(** * Totals and balance *)

Lemma inv_decs_batches g l d : db_itembatch (effects (inv_dec g) l d) = db_itembatch d.
Proof. by rewrite inv_decs_frame. Qed.

Lemma entry_puts_inventory {A} (key : A → Z * Z * Z) g l d :
  db_inventory (effects (entry_put key g) l d) = db_inventory d.
Proof. by rewrite entry_puts_frame. Qed.

Section columns.
Context (user : string) (now : Z).

Lemma undo_total lo d it wh :
  keyed_batches d → seq_ok_effects undo_ok (entry_put lo3 (undo_row user now)) lo d →
  total ib_reserved it wh (db_itembatch (effects (entry_put lo3 (undo_row user now)) lo d)) =
  total ib_reserved it wh (db_itembatch d) - planned lo_site snd (wh, it) lo.
Proof.
  intros Hk Hok. unfold planned.
  apply (effects_total _ undo_ok); [done|intros; by apply entry_put_keyed; [apply undo_row_key|]| |done].
  clear. intros e d Hk Hok.
  rewrite (entry_put_total lo3 (undo_row user now) ib_reserved e d it wh (Z.max 0 e.2));
    [|apply undo_row_key|done| |].
  - f_equal. apply decide_ext. unfold lo3, lo_site. simpl. naive_solver.
  - intros b _. unfold undo_row. destruct (Z.leb_spec e.2 0); [lia|].
    unfold ib_reserved, touch_batch, set_ib_audit; simpl. unfold ib_reserved. lia.
  - intros Hn. destruct (Z.leb_spec e.2 0) as [|Hq]; [lia|].
    destruct (Hok Hq) as (b & Hb & _). congruence.
Qed.

Lemma deplete_total plan d it wh :
  keyed_batches d → seq_ok_effects deplete_ok (entry_put lm3 (deplete_row user now)) plan d →
  total ib_usable it wh (db_itembatch (effects (entry_put lm3 (deplete_row user now)) plan d)) =
  total ib_usable it wh (db_itembatch d) - planned lm_site lm_qty (wh, it) plan.
Proof.
  intros Hk Hok. unfold planned.
  apply (effects_total _ deplete_ok); [done|intros; by apply entry_put_keyed; [apply deplete_row_key|]| |done].
  clear. intros a d Hk Hok.
  rewrite (entry_put_total lm3 (deplete_row user now) ib_usable a d it wh (Z.max 0 (lm_qty a)));
    [|apply deplete_row_key|done| |].
  - f_equal. apply decide_ext. unfold lm3, lm_site. simpl. naive_solver.
  - intros b _. unfold deplete_row. destruct (Z.leb_spec (lm_qty a) 0); [lia|].
    unfold ib_usable, touch_batch, set_ib_audit; simpl. unfold ib_usable. lia.
  - intros Hn. destruct (Z.leb_spec (lm_qty a) 0) as [|Hq]; [lia|].
    destruct (Hok Hq) as (b & Hb & _). congruence.
Qed.

(** A column the rewrite of every entry leaves alone keeps its totals. *)
Lemma entry_puts_total_frame {A} (key : A → Z * Z * Z) g fb (l : list A) d it wh :
  keyed_batches d → (∀ a b, bkey (g a b) = bkey b) → (∀ a b, fb (g a b) = fb b) →
  total fb it wh (db_itembatch (effects (entry_put key g) l d)) = total fb it wh (db_itembatch d).
Proof.
  intros Hk Hg Hf.
  rewrite (effects_total (entry_put key g) (λ _ _, True) fb it wh (λ _, 0) l d Hk).
  - assert (lsum (λ _ : A, 0) l = 0) as ->; [|lia]. induction l; simpl; lia.
  - intros; by apply entry_put_keyed.
  - intros a d0 Hk0 _. rewrite (entry_put_total key g fb a d0 it wh 0); [case_decide; lia|done..| |done].
    intros b _. rewrite Hf. lia.
  - clear. revert d. induction l; simpl; auto.
Qed.

Lemma undo_balanced lo d :
  keyed_batches d → seq_ok_effects undo_ok (entry_put lo3 (undo_row user now)) lo d →
  balanced d → balanced (undo_spec user now lo d).
Proof.
  intros Hk Hok [Hr Hu]. unfold undo_spec.
  assert (∀ wh it i', db_inventory (effects (inv_dec (dec_reserved user now)) (lo_totals lo)
      (effects (entry_put lo3 (undo_row user now)) lo d)) !! (wh, it) = Some i' →
    ∃ i, db_inventory d !! (wh, it) = Some i ∧ inv_usable i' = inv_usable i ∧
      inv_reserved i' = inv_reserved i - planned lo_site snd (wh, it) lo) as Hrow.
  { intros wh it i'. rewrite inv_decs_lookup by (apply (totals_nodup lo_site snd lo []); constructor).
    rewrite entry_puts_inventory. destruct (db_inventory d !! (wh, it)) as [i|]; [|done]. simpl.
    intros [= <-]. exists i. split; [done|].
    pose proof (totals_get lo_site snd lo [] (wh, it)) as Ht. fold (lo_totals lo) in Ht. simpl in Ht.
    destruct (dict_get (wh, it) (lo_totals lo)) as [q|]; simpl in Ht.
    - split; [done|]. unfold inv_reserved, dec_reserved. simpl. unfold inv_reserved. lia.
    - split; [done|]. lia. }
  split; intros [wh it] i' Hi'; apply Hrow in Hi' as (i & Hi & H1 & H2); rewrite inv_decs_batches; simpl.
  - rewrite undo_total, H2 by done. by rewrite (Hr (wh, it) i Hi).
  - rewrite entry_puts_total_frame; [|done|apply undo_row_key|].
    + rewrite H1. apply (Hu (wh, it) i Hi).
    + intros e b. unfold undo_row. by case_match.
Qed.

Lemma deplete_balanced plan d :
  keyed_batches d → seq_ok_effects deplete_ok (entry_put lm3 (deplete_row user now)) plan d →
  balanced d → balanced (deplete_spec user now plan d).
Proof.
  intros Hk Hok [Hr Hu]. unfold deplete_spec.
  assert (∀ wh it i', db_inventory (effects (inv_dec (dec_usable user now)) (lm_totals plan)
      (effects (entry_put lm3 (deplete_row user now)) plan d)) !! (wh, it) = Some i' →
    ∃ i, db_inventory d !! (wh, it) = Some i ∧ inv_reserved i' = inv_reserved i ∧
      inv_usable i' = inv_usable i - planned lm_site lm_qty (wh, it) plan) as Hrow.
  { intros wh it i'. rewrite inv_decs_lookup by (apply (totals_nodup lm_site lm_qty plan []); constructor).
    rewrite entry_puts_inventory. destruct (db_inventory d !! (wh, it)) as [i|]; [|done]. simpl.
    intros [= <-]. exists i. split; [done|].
    pose proof (totals_get lm_site lm_qty plan [] (wh, it)) as Ht. fold (lm_totals plan) in Ht. simpl in Ht.
    destruct (dict_get (wh, it) (lm_totals plan)) as [q|]; simpl in Ht.
    - split; [done|]. unfold inv_usable, dec_usable. simpl. unfold inv_usable. lia.
    - split; [done|]. lia. }
  split; intros [wh it] i' Hi'; apply Hrow in Hi' as (i & Hi & H1 & H2); rewrite inv_decs_batches; simpl.
  - rewrite entry_puts_total_frame; [|done|apply deplete_row_key|].
    + rewrite H1. apply (Hr (wh, it) i Hi).
    + intros e b. unfold deplete_row. by case_match.
  - rewrite deplete_total, H2 by done. by rewrite (Hu (wh, it) i Hi).
Qed.
End columns.

(** * Batch rows *)

Section rows.
Context (user : string) (now : Z).

(** Each batch falls by what the entries naming it sum to. *)
Lemma undo_rows lo d k :
  keyed_batches d →
  match db_itembatch d !! k with
  | None => db_itembatch (effects (entry_put lo3 (undo_row user now)) lo d) !! k = None
  | Some b => ∃ b', db_itembatch (effects (entry_put lo3 (undo_row user now)) lo d) !! k = Some b' ∧
      bkey b' = bkey b ∧ ib_usable b' = ib_usable b ∧
      ib_reserved b' = ib_reserved b - planned lo3 snd (bkey b) lo
  end.
Proof.
  revert d. induction lo as [|e lo IH]; intros d Hk; simpl.
  { destruct (db_itembatch d !! k) as [b|]; [|done]. exists b. split_and!; try done. unfold planned; simpl; lia. }
  specialize (IH _ (entry_put_keyed lo3 (undo_row user now) (undo_row_key user now) e d Hk)).
  rewrite entry_put_lookup in IH by (done || apply undo_row_key).
  destruct (db_itembatch d !! k) as [b|]; [|done]. simpl in IH.
  destruct IH as (b' & Hb' & Hkey & Hu & Hr). exists b'. split; [done|].
  unfold planned in *. simpl. case_decide as Heq.
  - rewrite undo_row_key in Hkey, Hr. unfold undo_row in Hu, Hr.
    destruct (Z.leb_spec e.2 0); split_and!; try done; try lia.
    all: unfold ib_reserved, touch_batch, set_ib_audit in *; simpl in *; lia.
  - split_and!; try done; lia.
Qed.

Lemma deplete_rows plan d k :
  keyed_batches d →
  match db_itembatch d !! k with
  | None => db_itembatch (effects (entry_put lm3 (deplete_row user now)) plan d) !! k = None
  | Some b => ∃ b', db_itembatch (effects (entry_put lm3 (deplete_row user now)) plan d) !! k = Some b' ∧
      bkey b' = bkey b ∧ ib_reserved b' = ib_reserved b ∧
      ib_usable b' = ib_usable b - planned lm3 lm_qty (bkey b) plan
  end.
Proof.
  revert d. induction plan as [|a plan IH]; intros d Hk; simpl.
  { destruct (db_itembatch d !! k) as [b|]; [|done]. exists b. split_and!; try done. unfold planned; simpl; lia. }
  specialize (IH _ (entry_put_keyed lm3 (deplete_row user now) (deplete_row_key user now) a d Hk)).
  rewrite entry_put_lookup in IH by (done || apply deplete_row_key).
  destruct (db_itembatch d !! k) as [b|]; [|done]. simpl in IH.
  destruct IH as (b' & Hb' & Hkey & Hr & Hu). exists b'. split; [done|].
  unfold planned in *. simpl. case_decide as Heq.
  - rewrite deplete_row_key in Hkey, Hu. unfold deplete_row in Hu, Hr.
    destruct (Z.leb_spec (lm_qty a) 0); split_and!; try done; try lia.
    all: unfold ib_usable, touch_batch, set_ib_audit in *; simpl in *; lia.
  - split_and!; try done; lia.
Qed.

(** The guard of the undo keeps reservations non-negative. *)
Lemma undo_nonneg lo d :
  keyed_batches d → reserved_nonneg d →
  seq_ok_effects undo_ok (entry_put lo3 (undo_row user now)) lo d →
  reserved_nonneg (effects (entry_put lo3 (undo_row user now)) lo d).
Proof.
  revert d. induction lo as [|e lo IH]; intros d Hk Hn; simpl; [done|]. intros [Hok Hl].
  apply IH; [by apply entry_put_keyed; [apply undo_row_key|]| |done].
  intros k b. rewrite entry_put_lookup by (done || apply undo_row_key).
  destruct (db_itembatch d !! k) as [b0|] eqn:Hb; [|done]. simpl. intros [= <-].
  specialize (Hn k b0 Hb). simpl in Hn. case_decide as Hkey; [|done].
  unfold undo_row. destruct (Z.leb_spec e.2 0) as [|Hq]; [done|].
  destruct (Hok Hq) as (b1 & Hb1 & Hle). apply find_key_Some in Hb1 as [Hb1 _]; [|done].
  rewrite Hkey in Hb1. simpl in Hb1. rewrite (Hk k b0 Hb), Hb in Hb1. simplify_eq.
  unfold touch_batch, set_ib_audit, ib_reserved in *. simpl. lia.
Qed.
End rows.

(** * The workflow *)

Lemma overwrite_frame pkg plan lo user now d :
  overwrite_package_items pkg plan lo user now d =
  set_db_pkg_item (db_pkg_item (overwrite_package_items pkg plan lo user now d)) d.
Proof.
  unfold overwrite_package_items.
  assert (∀ (f : DB → DB) d0, (∃ m, f d0 = set_db_pkg_item m d0) →
    f d0 = set_db_pkg_item (db_pkg_item (f d0)) d0) as Hset.
  { intros f d0 [m Hm]. by rewrite Hm. }
  apply (Hset (λ d, foldl (λ d key, if decide (key ∈ lm_key <$> plan) then d else zero_item pkg user now key d)
    (foldl (λ d a, overwrite_item pkg user now a d) d plan) lo.*1)). cbv beta. clear Hset.
  assert (∀ d1, (∃ m, d1 = set_db_pkg_item m d) → ∃ m, foldl (λ d a, overwrite_item pkg user now a d) d1 plan
    = set_db_pkg_item m d) as H1.
  { clear lo. induction plan as [|a plan IH]; intros d1 [m ->]; [by eexists|]. simpl. apply IH.
    unfold overwrite_item.
    destruct (db_pkg_item (set_db_pkg_item m d) !! (pkg, lm_fr_inventory_id a, lm_batch_id a, lm_item_id a));
      by eexists. }
  assert (∀ keys d1, (∃ m, d1 = set_db_pkg_item m d) →
    ∃ m, foldl (λ d key, if decide (key ∈ lm_key <$> plan) then d else zero_item pkg user now key d) d1 keys
    = set_db_pkg_item m d) as H2.
  { clear H1. induction keys as [|[[i b] it] keys IH]; intros d1 [m ->]; [by eexists|]. simpl. apply IH.
    case_decide; [by eexists|]. unfold zero_item.
    repeat case_match; by eexists. }
  apply H2, H1. exists (db_pkg_item d). by destruct d.
Qed.

Lemma add_issues_frame rq l d :
  foldl (λ d e, add_issue rq e d) d l =
  set_db_rqst_item (db_rqst_item (foldl (λ d e, add_issue rq e d) d l)) d.
Proof.
  revert d. induction l as [|e l IH]; intros d; simpl; [by destruct d|]. rewrite IH.
  unfold add_issue. by destruct (db_rqst_item d !! (rq, e.1)).
Qed.

Section workflow.
Context `{R : Runtime} (pkg_id : Z) (plan : list LmAlloc) (user : string) (ver now : Z).

(** The state a successful dispatch leaves. *)
Definition dispatch_spec (p : ReliefPkg) (r : ReliefRqst) (d : DB) : DB :=
  let lo := get_lo_plan pkg_id d in
  update_dispatch_records p r plan user now
    (deplete_spec user now plan
      (overwrite_package_items pkg_id plan lo user now (undo_spec user now lo d))).

Lemma dispatch_run s s' :
  run_ok (submit_for_dispatch pkg_id plan user ver now) s tt s' →
  ∃ p r, db_pkg (work s) !! pkg_id = Some p ∧ version_nbr (pkg_audit p) = ver ∧
    pkg_status_code p ∈ ["P"; "V"]%string ∧
    db_rqst (work s) !! pkg_reliefrqst_id p = Some r ∧
    s' = upd_work (dispatch_spec p r) s ∧
    seq_ok_effects undo_ok (entry_put lo3 (undo_row user now)) (get_lo_plan pkg_id (work s)) (work s) ∧
    seq_ok_effects deplete_ok (entry_put lm3 (deplete_row user now)) plan
      (overwrite_package_items pkg_id plan (get_lo_plan pkg_id (work s)) user now
        (undo_spec user now (get_lo_plan pkg_id (work s)) (work s))).
Proof.
  unfold submit_for_dispatch. rewrite run_get.
  destruct (db_pkg (work s) !! pkg_id) as [p|]; [|done].
  rewrite !run_fail_if, negb_eqb_false, negb_bool_decide_false. intros (Hv & _ & Hst & Hrun).
  destruct (db_rqst (work s) !! pkg_reliefrqst_id p) as [r|] eqn:Hr; [|done].
  rewrite seq_ok in Hrun. destruct Hrun as (s1 & Hundo & Hrun).
  apply undo_run in Hundo as [Hok1 ->]. rewrite run_mod, seq_ok in Hrun.
  destruct Hrun as (s2 & Hdep & Hrun). apply deplete_run in Hdep as [Hok2 ->].
  rewrite run_mod_last in Hrun. subst s'. exists p, r. split_and!; try done.
Qed.
End workflow.

Lemma dispatch_stock pkg plan user now lo p r d :
  let d' := update_dispatch_records p r plan user now
    (deplete_spec user now plan (overwrite_package_items pkg plan lo user now (undo_spec user now lo d))) in
  db_itembatch d' = db_itembatch (deplete_spec user now plan (overwrite_package_items pkg plan lo user now (undo_spec user now lo d))) ∧
  db_inventory d' = db_inventory (deplete_spec user now plan (overwrite_package_items pkg plan lo user now (undo_spec user now lo d))).
Proof. unfold update_dispatch_records. simpl. by rewrite add_issues_frame. Qed.

(** The overwritten state has the stock of the undone one. *)
Lemma overwrite_stock pkg plan lo user now d :
  db_itembatch (overwrite_package_items pkg plan lo user now d) = db_itembatch d ∧
  db_inventory (overwrite_package_items pkg plan lo user now d) = db_inventory d.
Proof. by rewrite overwrite_frame. Qed.

(** * The state after a dispatch, table by table *)

Section after.
Context `{R : Runtime} (pkg_id : Z) (plan : list LmAlloc) (user : string) (ver now : Z).
Context (s s' : Session).
Hypothesis keyed : keyed_batches (work s).
Hypothesis run : run_ok (submit_for_dispatch pkg_id plan user ver now) s tt s'.

Let lo := get_lo_plan pkg_id (work s).
Let undone := effects (entry_put lo3 (undo_row user now)) lo (work s).
Let mid := overwrite_package_items pkg_id plan lo user now (undo_spec user now lo (work s)).

Lemma undone_keyed : keyed_batches undone.
Proof.
  unfold undone. rewrite entry_puts_frame. intros k b. simpl.
  revert k b. generalize (work s), keyed. clear. intros d Hk. fold (keyed_batches d) in Hk.
  assert (∀ l, keyed_batches (effects (entry_put lo3 (undo_row user now)) l d)) as H; [|apply H].
  intros l. revert d Hk. induction l as [|e l IH]; intros d Hk; [done|]. simpl. apply IH.
  by apply entry_put_keyed; [apply undo_row_key|].
Qed.

Lemma mid_batches : db_itembatch mid = db_itembatch undone.
Proof.
  unfold mid. rewrite (proj1 (overwrite_stock _ _ _ _ _ _)). unfold undo_spec.
  by rewrite inv_decs_batches.
Qed.

Lemma mid_inventory : db_inventory mid = db_inventory (undo_spec user now lo (work s)).
Proof. unfold mid. by rewrite (proj2 (overwrite_stock _ _ _ _ _ _)). Qed.

Lemma mid_keyed : keyed_batches mid.
Proof. unfold keyed_batches. rewrite mid_batches. apply undone_keyed. Qed.

Lemma after_undo_ok : seq_ok_effects undo_ok (entry_put lo3 (undo_row user now)) lo (work s).
Proof. by destruct (dispatch_run _ _ _ _ _ _ _ run) as (p & r & _ & _ & _ & _ & _ & Hok & _). Qed.

Lemma after_deplete_ok : seq_ok_effects deplete_ok (entry_put lm3 (deplete_row user now)) plan mid.
Proof. by destruct (dispatch_run _ _ _ _ _ _ _ run) as (p & r & _ & _ & _ & _ & _ & _ & Hok). Qed.

Lemma after_stock :
  db_itembatch (work s') = db_itembatch (deplete_spec user now plan mid) ∧
  db_inventory (work s') = db_inventory (deplete_spec user now plan mid).
Proof.
  destruct (dispatch_run _ _ _ _ _ _ _ run) as (p & r & _ & _ & _ & _ & -> & _ & _).
  unfold upd_work, dispatch_spec. simpl. apply (dispatch_stock pkg_id plan user now lo p r (work s)).
Qed.

Lemma after_batches :
  db_itembatch (work s') = db_itembatch (effects (entry_put lm3 (deplete_row user now)) plan mid).
Proof. rewrite (proj1 after_stock). unfold deplete_spec. by rewrite inv_decs_batches. Qed.

Lemma balanced_ext d d' :
  db_itembatch d' = db_itembatch d → db_inventory d' = db_inventory d → balanced d → balanced d'.
Proof. intros H1 H2. unfold balanced, balanced_reserved, balanced_usable, balanced_col. by rewrite H1, H2. Qed.

Lemma after_balanced : balanced (work s) → balanced (work s').
Proof.
  intros Hb. destruct after_stock as [H1 H2].
  apply (balanced_ext (deplete_spec user now plan mid)); [done..|].
  apply deplete_balanced; [apply mid_keyed|apply after_deplete_ok|].
  apply (balanced_ext (undo_spec user now lo (work s))).
  - unfold mid. apply overwrite_stock.
  - apply mid_inventory.
  - apply undo_balanced; [done|apply after_undo_ok|done].
Qed.

Lemma after_totals it wh :
  total ib_usable it wh (db_itembatch (work s')) =
    total ib_usable it wh (db_itembatch (work s)) - planned lm_site lm_qty (wh, it) plan ∧
  total ib_reserved it wh (db_itembatch (work s')) =
    total ib_reserved it wh (db_itembatch (work s)) - planned lo_site snd (wh, it) lo.
Proof.
  rewrite after_batches. split.
  - rewrite deplete_total by (apply mid_keyed || apply after_deplete_ok). rewrite mid_batches.
    unfold undone. rewrite entry_puts_total_frame; [done|done|apply undo_row_key|].
    intros e b. unfold undo_row. by case_match.
  - rewrite entry_puts_total_frame; [|apply mid_keyed|apply deplete_row_key|].
    + rewrite mid_batches. unfold undone. by rewrite undo_total by (done || apply after_undo_ok).
    + intros a b. unfold deplete_row. by case_match.
Qed.

(** Row by row. *)
Lemma after_row k :
  match db_itembatch (work s) !! k with
  | None => db_itembatch (work s') !! k = None
  | Some b => ∃ b', db_itembatch (work s') !! k = Some b' ∧
      ib_usable b' = ib_usable b - planned lm3 lm_qty (bkey b) plan ∧
      ib_reserved b' = ib_reserved b - planned lo3 snd (bkey b) lo ∧ bkey b' = bkey b
  end.
Proof.
  rewrite after_batches. pose proof (undo_rows user now lo (work s) k keyed) as Hu. fold undone in Hu.
  pose proof (deplete_rows user now plan mid k mid_keyed) as Hd. rewrite mid_batches in Hd.
  destruct (db_itembatch (work s) !! k) as [b|].
  - destruct Hu as (b1 & Hb1 & Hk1 & Hu1 & Hr1). rewrite Hb1 in Hd.
    destruct Hd as (b2 & Hb2 & Hk2 & Hr2 & Hu2). exists b2. split; [done|]. rewrite Hk1 in Hu2.
    split_and!; congruence.
  - by rewrite Hu in Hd.
Qed.

Lemma after_nonneg k b : reserved_nonneg (work s) → db_itembatch (work s) !! k = Some b →
  0 ≤ ib_reserved b - planned lo3 snd (bkey b) lo.
Proof.
  intros Hn Hb. pose proof (undo_nonneg user now lo (work s) keyed Hn after_undo_ok) as Hn'.
  fold undone in Hn'. pose proof (undo_rows user now lo (work s) k keyed) as Hu. fold undone in Hu.
  rewrite Hb in Hu. destruct Hu as (b1 & Hb1 & _ & _ & Hr1). rewrite <- Hr1. by apply (Hn' k b1).
Qed.
End after.

(** C5: a dispatch conserves stock.  Each item's usable total at each warehouse
    falls by exactly the manager's plan, its reserved total by exactly what the
    package held, and the inventory rows stay the sums of their batches. *)
Theorem dispatch_conserves `{Runtime} pkg_id plan user ver now s s' :
  keyed_batches (work s) → balanced (work s) →
  run_ok (submit_for_dispatch pkg_id plan user ver now) s tt s' →
  balanced (work s') ∧ ∀ it wh,
    total ib_usable it wh (db_itembatch (work s')) =
      total ib_usable it wh (db_itembatch (work s)) - planned lm_site lm_qty (wh, it) plan ∧
    total ib_reserved it wh (db_itembatch (work s')) =
      total ib_reserved it wh (db_itembatch (work s)) -
        planned lo_site snd (wh, it) (get_lo_plan pkg_id (work s)).
Proof.
  intros Hk Hb Hrun. split; [by eapply after_balanced|]. intros it wh. by eapply after_totals.
Qed.

(** what the depletion fails to check.  From a ledger within stock, a dispatch
    keeps it so exactly when the plan takes from no batch more than other
    packages leave free, a condition the service does not test. *)
Theorem dispatch_within_stock `{Runtime} pkg_id plan user ver now s s' :
  keyed_batches (work s) → within_stock (work s) →
  run_ok (submit_for_dispatch pkg_id plan user ver now) s tt s' →
  within_stock (work s') ↔
  ∀ k b, db_itembatch (work s) !! k = Some b →
    planned lm3 lm_qty (bkey b) plan ≤
    ib_usable b - (ib_reserved b - planned lo3 snd (bkey b) (get_lo_plan pkg_id (work s))).
Proof.
  intros Hk Hw Hrun. split.
  - intros Hw' k b Hb. pose proof (after_row _ _ _ _ _ _ _ Hk Hrun k) as Hrow. rewrite Hb in Hrow.
    destruct Hrow as (b' & Hb' & Hu & Hr & _). destruct (Hw' k b' Hb') as [_ Hle]. lia.
  - intros Hall k b' Hb'. pose proof (after_row _ _ _ _ _ _ _ Hk Hrun k) as Hrow.
    destruct (db_itembatch (work s) !! k) as [b|] eqn:Hb; [|congruence].
    destruct Hrow as (b1 & Hb1 & Hu & Hr & _). simplify_eq. unfold batch_within. rewrite Hu, Hr.
    pose proof (after_nonneg _ _ _ _ _ _ _ Hk Hrun k b (within_stock_nonneg _ Hw) Hb).
    specialize (Hall k b Hb). lia.
Qed.

(** * Concrete dispatches *)

(** Packages 70 and 71 of request 7 hold 30 units of batch 11 each. *)
Definition two_packages : DB :=
  set_db_rqst {[7 := mkReliefRqst 7 5 10 None "H" None 3 None "AG" 10 (Some "DIR"%string) (Some 11) None None 2]}
    (set_db_rqst_item {[(7, 1) := rqst_item 7 1 60 30 "P"]}
      (set_db_pkg {[70 := package 70 7 "P"; 71 := package 71 7 "P"]}
        (set_db_pkg_item (pkg_items [pkg_item 70 1 11 1 30; pkg_item 71 1 11 1 30])
          (stock_db 60 0)))).

Definition plan_of (q : Z) : list LmAlloc := [mkLmAlloc 1 11 1 (units q) "EA"].

Lemma dispatch_conserves_witness :
  let s := session_of two_packages in
  ∃ s', run_ok (@submit_for_dispatch canonical_runtime 70 (plan_of 30) "LM" 1 20) s tt s' ∧
    balanced (work s').
Proof.
  eexists. split; [vm_compute; reflexivity|].
  eapply (@dispatch_conserves canonical_runtime 70 (plan_of 30) "LM" 1 20 (session_of two_packages));
    [by_decide..|vm_compute; reflexivity].
Defined.

Lemma dispatch_within_stock_witness :
  let s := session_of two_packages in
  ∃ s', run_ok (@submit_for_dispatch canonical_runtime 70 (plan_of 60) "LM" 1 20) s tt s' ∧
    ¬ within_stock (work s').
Proof.
  eexists. split; [vm_compute; reflexivity|]. intros Hw.
  eapply (proj1 (@dispatch_within_stock canonical_runtime 70 (plan_of 60) "LM" 1 20
    (session_of two_packages) _ ltac:(by_decide) ltac:(by_decide) ltac:(vm_compute; reflexivity))
    Hw 11 (batch 11 1 1 60 60 (Some 100) (Some 400))); [vm_compute; reflexivity|vm_compute; reflexivity].
Defined.

(** * The records *)

Lemma item_totals_eq plan : item_totals plan = totals_of lm_item_id lm_qty plan [].
Proof.
  unfold item_totals, totals_of. generalize (@nil (Z * Z)). induction plan as [|a plan IH]; intros t; [done|].
  simpl. rewrite IH. rewrite Z.leb_antisym. by destruct (0 <? lm_qty a).
Qed.

Lemma add_issues_lookup rq l d it v :
  keyed_rqst_items d → NoDup l.*1 → db_rqst_item d !! (rq, it) = Some v →
  ∃ v', db_rqst_item (foldl (λ d e, add_issue rq e d) d l) !! (rq, it) = Some v' ∧
    ri_issue_qty v' = ri_issue_qty v + default 0 (dict_get it l) ∧
    ri_status_code v' = ri_status_code v ∧ ri_request_qty v' = ri_request_qty v.
Proof.
  revert d v. induction l as [|[i q] l IH]; intros d v Hk Hnd Hv.
  { exists v. simpl. split_and!; try done. lia. }
  csimpl in Hnd. apply NoDup_cons in Hnd as [Hi Hnd]. simpl.
  assert (keyed_rqst_items (add_issue rq (i, q) d)) as Hk'.
  { unfold add_issue. simpl. destruct (db_rqst_item d !! (rq, i)) as [w|] eqn:E; [|done].
    intros k x. unfold put_rqst_item. simpl. intros [[<- <-]|[_ Hx]]%lookup_insert_Some; [done|].
    by apply Hk. }
  destruct (decide (it = i)) as [->|Hne].
  - destruct (IH (add_issue rq (i, q) d) (set_ri_version_nbr (ri_version_nbr v + 1)
      (set_ri_issue_qty (ri_issue_qty v + q) v)) Hk' Hnd) as (v' & Hv' & Hq & H1 & H2).
    + unfold add_issue. simpl. rewrite Hv. unfold put_rqst_item. simpl.
      pose proof (Hk _ v Hv) as Hkv. simpl in Hkv. by rewrite Hkv, lookup_insert_eq.
    + exists v'. split; [done|]. rewrite (proj2 (dict_get_None i l)) in Hq by done. simpl in *.
      split_and!; try done. lia.
  - destruct (IH (add_issue rq (i, q) d) v Hk' Hnd) as (v' & Hv' & Hq & H1 & H2); [|eauto].
    unfold add_issue. simpl. destruct (db_rqst_item d !! (rq, i)) as [w|] eqn:E; [|done].
    unfold put_rqst_item. simpl. pose proof (Hk _ w E) as Hkw. simpl in Hkw.
    rewrite Hkw, lookup_insert_ne; [done|]. congruence.
Qed.

(** The tables the stock phases leave alone. *)
Lemma dispatch_mid_frame pkg_id plan lo user now d :
  let d' := deplete_spec user now plan
    (overwrite_package_items pkg_id plan lo user now (undo_spec user now lo d)) in
  db_rqst_item d' = db_rqst_item d ∧ db_pkg d' = db_pkg d ∧ db_rqst d' = db_rqst d.
Proof.
  simpl. unfold deplete_spec. rewrite inv_decs_frame, entry_puts_frame. simpl.
  rewrite overwrite_frame. simpl. unfold undo_spec. rewrite inv_decs_frame, entry_puts_frame. done.
Qed.

(** a dispatch records itself.  The package becomes dispatched at its next
    version, verified and stamped by the caller; its request becomes part filled;
    each item's issued quantity grows by the plan's total for it, on top of what
    was issued before. *)
Theorem dispatch_records `{Runtime} pkg_id plan user ver now s s' :
  keyed_pkgs (work s) → keyed_rqst_items (work s) → keyed_rqsts (work s) →
  run_ok (submit_for_dispatch pkg_id plan user ver now) s tt s' →
  ∃ p r, db_pkg (work s) !! pkg_id = Some p ∧ db_rqst (work s) !! pkg_reliefrqst_id p = Some r ∧
    db_pkg (work s') !! pkg_id = Some (dispatched_pkg user now p) ∧
    db_rqst (work s') !! pkg_reliefrqst_id p = Some (part_filled user now r) ∧
    ∀ it v, db_rqst_item (work s) !! (pkg_reliefrqst_id p, it) = Some v →
      ∃ v', db_rqst_item (work s') !! (pkg_reliefrqst_id p, it) = Some v' ∧
        ri_issue_qty v' = ri_issue_qty v + planned lm_item_id lm_qty it plan.
Proof.
  intros Hkp Hki Hkr Hrun. destruct (dispatch_run _ _ _ _ _ _ _ Hrun) as
    (p & r & Hp & _ & _ & Hr & -> & _ & _). exists p, r. do 2 (split; [done|]).
  pose proof (Hkp _ p Hp) as Hpk. pose proof (Hkr _ r Hr) as Hrk. simpl in Hpk, Hrk.
  unfold upd_work, dispatch_spec, update_dispatch_records. simpl. rewrite add_issues_frame.
  destruct (dispatch_mid_frame pkg_id plan (get_lo_plan pkg_id (work s)) user now (work s))
    as (F1 & F2 & F3). simpl in F1, F2, F3. split_and!.
  - simpl. rewrite Hpk. apply lookup_insert_eq.
  - simpl. rewrite Hrk. apply lookup_insert_eq.
  - intros it v Hv. rewrite item_totals_eq. simpl.
    edestruct (add_issues_lookup (rq_reliefrqst_id r) (totals_of lm_item_id lm_qty plan [])
      (put_pkg (dispatched_pkg user now p) (deplete_spec user now plan
        (overwrite_package_items pkg_id plan (get_lo_plan pkg_id (work s)) user now
          (undo_spec user now (get_lo_plan pkg_id (work s)) (work s))))) it v) as (v' & Hv' & Hq & _).
    + unfold keyed_rqst_items, put_pkg. simpl. by rewrite F1.
    + apply (totals_nodup lm_item_id lm_qty plan []). constructor.
    + unfold put_pkg. simpl. rewrite F1. by rewrite Hrk.
    + exists v'. rewrite <- Hrk. split; [done|]. rewrite Hq. f_equal.
      pose proof (totals_get lm_item_id lm_qty plan [] it) as Ht. simpl in Ht. lia.
Qed.

Lemma dispatch_records_witness :
  let s := session_of two_packages in
  ∃ s' v', run_ok (@submit_for_dispatch canonical_runtime 70 (plan_of 30) "LM" 1 20) s tt s' ∧
    db_rqst_item (work s') !! (7, 1) = Some v' ∧ ri_issue_qty v' = units 60.
Proof.
  destruct (@submit_for_dispatch canonical_runtime 70 (plan_of 30) "LM" 1 20 (session_of two_packages))
    as [s' res] eqn:E.
  assert (run_ok (@submit_for_dispatch canonical_runtime 70 (plan_of 30) "LM" 1 20)
    (session_of two_packages) tt s') as Hrun.
  { unfold run_ok. rewrite E. f_equal. change res with (s', res).2. rewrite <- E.
    vm_compute. reflexivity. }
  edestruct (@dispatch_records canonical_runtime 70 (plan_of 30) "LM" 1 20 (session_of two_packages) s')
    as (p & r & Hp & _ & _ & _ & Hi); [by_decide..|exact Hrun|].
  assert (pkg_reliefrqst_id p = 7) as Hrq by (vm_compute in Hp; injection Hp as <-; reflexivity).
  rewrite Hrq in Hi.
  destruct (Hi 1 (rqst_item 7 1 60 30 "P")) as (v' & Hv' & Hq); [vm_compute; reflexivity|].
  exists s', v'. split; [exact Hrun|]. split; [exact Hv'|]. rewrite Hq. vm_compute. reflexivity.
Defined.
