(* ===== verification/BatchAllocation.v ===== *)
(** Choosing batches (app/services/batch_allocation_service.py): which batches of
    an item are available, in which order they are drawn (FEFO, FIFO, LIFO), how a
    quantity is spread over them, and which of them the drawer shows.

    Dates are day ordinals; [sorted] is Python's stable sort on a tuple key.
    Stored quantities are finite, so [safe_decimal] of one is the identity; the
    conversion of results to [float] for JSON is left out. *)
From S2P Require Import Prelude PySort Schema Ledger.

Definition DATE_MIN : Z := 1.
Definition DATE_MAX : Z := 3652059.

Definition available (b : ItemBatch) : Z := ib_usable b - ib_reserved b.

(** [if not b.expiry_date or b.expiry_date >= today]. *)
Definition not_expired (today : Z) (b : ItemBatch) : bool :=
  match ib_expiry_date b with None => true | Some e => today <=? e end.

Definition z_of_bool (b : bool) : Z := if b then 1 else 0.
Definition is_none {A} (o : option A) : bool := match o with None => true | _ => false end.

(** The three sort keys. *)
Definition fefo_key (b : ItemBatch) : list Z :=
  [z_of_bool (is_none (ib_expiry_date b)); default DATE_MAX (ib_expiry_date b);
   default DATE_MAX (ib_batch_date b); - available b].
Definition lifo_key (b : ItemBatch) : list Z :=
  [- default 0 (ib_batch_date b); - available b].
Definition fifo_key (b : ItemBatch) : list Z :=
  [default DATE_MIN (ib_batch_date b); - available b].

Definition drawer_fefo_key (b : ItemBatch) : list Z :=
  [z_of_bool (is_none (ib_expiry_date b)); default DATE_MAX (ib_expiry_date b);
   default DATE_MAX (ib_batch_date b)].
Definition drawer_fifo_key (b : ItemBatch) : list Z := [default DATE_MIN (ib_batch_date b)].

(** * Allocation order *)

Definition allocation_key (it : Item) : ItemBatch → list Z :=
  if bool_decide (it_issuance_order it = "FEFO"%string) && it_can_expire_flag it then fefo_key
  else if bool_decide (it_issuance_order it = "LIFO"%string) then lifo_key
  else fifo_key.

Definition drop_expired (today : Z) (it : Item) (l : list ItemBatch) : list ItemBatch :=
  if it_can_expire_flag it then filter (λ b, not_expired today b = true) l else l.

Definition sort_batches_by_allocation_rule (today : Z) (it : Item) (l : list ItemBatch) : list ItemBatch :=
  sorted_by (allocation_key it) (filter (λ b, 0 < available b) (drop_expired today it l)).

Definition sort_batches_for_drawer (today : Z) (it : Item) (allocated : gset Z)
    (l : list ItemBatch) : list ItemBatch :=
  sorted_by (if it_can_expire_flag it then drawer_fefo_key else drawer_fifo_key)
    (filter (λ b, 0 < available b ∨ ib_batch_id b ∈ allocated) (drop_expired today it l)).

(** * Queries *)

Definition active_row (d : DB) (b : ItemBatch) : Prop :=
  ib_status_code b = "A"%string ∧
  (inv_status_code <$> find_inventory (ib_inventory_id b) (ib_item_id b) d = Some "A"%string) ∧
  (wh_status_code <$> db_warehouse d !! ib_inventory_id b = Some "A"%string).

#[export] Instance active_row_dec d b : Decision (active_row d b).
Proof. unfold active_row. apply _. Defined.

Definition uom_matches (required_uom : option string) (b : ItemBatch) : Prop :=
  match required_uom with
  | None => True
  | Some u => u = ""%string ∨ ib_uom_code b = u
  end.

#[export] Instance uom_matches_dec u b : Decision (uom_matches u b).
Proof. unfold uom_matches. destruct u; apply _. Defined.

Definition warehouse_matches (warehouse_id : option Z) (b : ItemBatch) : Prop :=
  match warehouse_id with
  | None => True
  | Some w => w = 0 ∨ ib_inventory_id b = w
  end.

#[export] Instance warehouse_matches_dec w b : Decision (warehouse_matches w b).
Proof. unfold warehouse_matches. destruct w; apply _. Defined.

(** * The loop of [auto_allocate_batches] *)

Record AutoAlloc : Type := mkAutoAlloc { aa_batch : ItemBatch; aa_qty : Z }.

Fixpoint allocate_from (l : list ItemBatch) (remaining : Z) : list AutoAlloc :=
  match l with
  | [] => []
  | b :: l' =>
      if remaining <=? 0 then []
      else
        let q := Z.min (available b) remaining in
        if 0 <? q then mkAutoAlloc b q :: allocate_from l' (remaining - q)
        else allocate_from l' remaining
  end.

Section service.
Context `{R : Runtime}.

Definition get_available_batches (item_id : Z) (warehouse_id : option Z)
    (required_uom : option string) (d : DB) : list ItemBatch :=
  filter (λ b, (ib_item_id b = item_id ∧ active_row d b ∧ ib_reserved b < ib_usable b) ∧
               warehouse_matches warehouse_id b ∧ uom_matches required_uom b)
    (batch_rows (db_itembatch d)).

Definition auto_allocate_batches (item_id requested_qty : Z) (warehouse_id : option Z)
    (today : Z) (d : DB) : list AutoAlloc :=
  match db_item d !! item_id with
  | None => []
  | Some it =>
      allocate_from (sort_batches_by_allocation_rule today it
        (get_available_batches item_id warehouse_id None d)) requested_qty
  end.

(** * Validation *)

Inductive AllocRefusal : Type :=
| ANoBatch | AWrongItem | ANotActive | AExpired | ANothingLeft | ATooMuch (available : Z) | ANotPositive.

Definition validate_batch_allocation (batch_id item_id allocated_qty current_allocated_qty today : Z)
    (d : DB) : AllocRefusal + unit :=
  match db_itembatch d !! batch_id with
  | None => inl ANoBatch
  | Some b =>
      if negb (ib_item_id b =? item_id) then inl AWrongItem
      else if negb (bool_decide (ib_status_code b = "A"%string)) then inl ANotActive
      else if negb (not_expired today b) then inl AExpired
      else
        let available_qty := ib_usable b - (ib_reserved b - current_allocated_qty) in
        if available_qty <? allocated_qty then
          if available_qty <=? 0 then inl ANothingLeft else inl (ATooMuch available_qty)
        else if allocated_qty <=? 0 then inl ANotPositive
        else inr tt
  end.

(** * The drawer *)

Definition calc_available_qty (current : gmap Z Z) (b : ItemBatch) : Z :=
  ib_usable b - (ib_reserved b - default 0 (current !! ib_batch_id b)).

(** [warehouse_groups[warehouse_id]]. *)
Record WarehouseGroup : Type := mkWarehouseGroup {
  wg_batches : list ItemBatch;
  wg_total_available : Z;
  wg_has_allocated : bool
}.

Definition group_batch (current : gmap Z Z) (allocated : gset Z)
    (groups : list (Z * WarehouseGroup)) (b : ItemBatch) : list (Z * WarehouseGroup) :=
  let g := default (mkWarehouseGroup [] 0 false) (dict_get (ib_inventory_id b) groups) in
  let groups := dict_set (ib_inventory_id b) g groups in
  let q := calc_available_qty current b in
  let is_allocated := bool_decide (ib_batch_id b ∈ allocated) in
  if (q <=? 0) && negb is_allocated then groups
  else dict_set (ib_inventory_id b)
         (mkWarehouseGroup (wg_batches g ++ [b]) (wg_total_available g + Z.max 0 q)
           (wg_has_allocated g || is_allocated)) groups.

Definition group_by_warehouse (current : gmap Z Z) (allocated : gset Z) (l : list ItemBatch) :
    list (Z * WarehouseGroup) :=
  filter (λ kg, 0 < wg_total_available kg.2 ∨ wg_has_allocated kg.2 = true)
    (foldl (group_batch current allocated) [] l).

(** The early-stopping walk over the sorted batches of one warehouse. *)
Fixpoint limit_batches (current : gmap Z Z) (allocated : gset Z) (remaining cumulative : Z)
    (fulfilled : bool) (l : list ItemBatch) : list ItemBatch :=
  match l with
  | [] => []
  | b :: l' =>
      let q := calc_available_qty current b in
      if bool_decide (ib_batch_id b ∈ allocated) || negb fulfilled then
        b :: limit_batches current allocated remaining (cumulative + q)
               (fulfilled || (remaining <=? cumulative + q)) l'
      else limit_batches current allocated remaining cumulative fulfilled l'
  end.

(** The allocated batches, whether or not anything of them is available. *)
Definition get_allocated_batches (item_id : Z) (allocated : gset Z) (d : DB) : list ItemBatch :=
  filter (λ b, ib_batch_id b ∈ allocated ∧ ib_item_id b = item_id ∧ active_row d b)
    (batch_rows (db_itembatch d)).

Definition drawer_batches (item_id : Z) (required_uom : option string) (allocated : gset Z)
    (d : DB) : list ItemBatch :=
  let all_batches := get_available_batches item_id None required_uom d in
  all_batches ++
  filter (λ b, ib_batch_id b ∉ ib_batch_id <$> all_batches) (get_allocated_batches item_id allocated d).

Definition get_limited_batches_for_drawer (item_id remaining_qty : Z) (required_uom : option string)
    (allocated : gset Z) (current : gmap Z Z) (today : Z) (d : DB) : list ItemBatch * Z * Z :=
  match db_item d !! item_id with
  | None => ([], 0, remaining_qty)
  | Some it =>
      let groups := group_by_warehouse current allocated (drawer_batches item_id required_uom allocated d) in
      let limited := mjoin ((λ kg, limit_batches current allocated remaining_qty 0 false
                       (sort_batches_for_drawer today it allocated (wg_batches kg.2))) <$> groups) in
      let cumulative := lsum (calc_available_qty current) limited in
      (limited, cumulative, Z.max 0 (remaining_qty - cumulative))
  end.

Definition get_batches_by_warehouse (item_id today : Z) (d : DB) : list (Z * list ItemBatch) :=
  let batches := get_available_batches item_id None None d in
  let batches := match db_item d !! item_id with
                 | Some it => sort_batches_by_allocation_rule today it batches
                 | None => batches end in
  foldl (λ acc b, dict_set (ib_inventory_id b) (default [] (dict_get (ib_inventory_id b) acc) ++ [b]) acc)
    [] batches.
End service.

(** * Priority groups *)

Definition priority_key (it : Item) (b : ItemBatch) : list (option Z) :=
  if bool_decide (it_issuance_order it = "FEFO"%string) && it_can_expire_flag it
  then [ib_expiry_date b; ib_batch_date b] else [ib_batch_date b].

Fixpoint assign_from (it : Item) (group : Z) (prev : option (list (option Z))) (l : list ItemBatch) :
    list (ItemBatch * Z) :=
  match l with
  | [] => []
  | b :: l' =>
      let k := priority_key it b in
      let group := match prev with
                   | Some p => if bool_decide (k = p) then group else group + 1
                   | None => group end in
      (b, group) :: assign_from it group (Some k) l'
  end.

Definition assign_priority_groups (l : list ItemBatch) (it : Item) : list (ItemBatch * Z) :=
  assign_from it 0 None l.
