(* ===== verification/BatchAllocationProofs.v ===== *)
(** Batches are drawn in the order the item asks for, to exhaustion, and never
    beyond what is available; the drawer's early stopping loses nothing. *)
From S2P Require Import Prelude PySort Schema Ledger Fixtures BatchAllocation.

(** * Spreading a quantity *)

Lemma allocate_total l r :
  0 ≤ r → Forall (λ b, 0 < available b) l →
  lsum aa_qty (allocate_from l r) = Z.min r (lsum available l).
Proof.
  revert r. induction l as [|b l IH]; intros r Hr Hl; simpl; [lia|].
  apply Forall_cons in Hl as [Hb Hl].
  assert (0 ≤ lsum available l).
  { apply lsum_nonneg. intros x Hx. rewrite Forall_forall in Hl. specialize (Hl x Hx). lia. }
  destruct (Z.leb_spec r 0); [simpl; lia|].
  rewrite (proj2 (Z.ltb_lt _ _)) by lia. simpl. rewrite IH by (done || lia). lia.
Qed.

Lemma allocate_bounds l r a :
  a ∈ allocate_from l r → aa_batch a ∈ l ∧ 0 < aa_qty a ≤ available (aa_batch a).
Proof.
  revert r. induction l as [|b l IH]; intros r; simpl; [set_solver|].
  destruct (Z.leb_spec r 0); [set_solver|].
  destruct (Z.ltb_spec 0 (Z.min (available b) r)).
  - rewrite elem_of_cons. intros [->|Ha]; simpl; [split; [by left|lia]|].
    destruct (IH _ Ha). split; [by right|done].
  - intros Ha. destruct (IH _ Ha). split; [by right|done].
Qed.

(** A batch is touched only when everything strictly before it is used up. *)
Lemma allocate_greedy (key : ItemBatch → list Z) l r a b :
  ordered key l → Forall (λ b, 0 < available b) l →
  a ∈ allocate_from l r → b ∈ l → lex_le (key (aa_batch a)) (key b) = false →
  mkAutoAlloc b (available b) ∈ allocate_from l r.
Proof.
  intros Ho. revert r. induction Ho as [|x l Ho IH Hx]; intros r Hl; simpl; [set_solver|].
  apply Forall_cons in Hl as [Hax Hl]. destruct (Z.leb_spec r 0); [set_solver|].
  rewrite (proj2 (Z.ltb_lt _ _)) by lia. rewrite !elem_of_cons. rewrite Forall_forall in Hx.
  intros [->|Ha] [->|Hb]; simpl; intros Hlt.
  - by rewrite lex_le_refl in Hlt.
  - rewrite Hx in Hlt by done. done.
  - left. f_equal. destruct (Z.leb_spec (available x) r); [lia|].
    rewrite Z.min_r in Ha by lia. rewrite Z.sub_diag in Ha. destruct l; simpl in Ha; set_solver.
  - right. by apply IH.
Qed.

Lemma allocate_nodup l r : NoDup l → NoDup (aa_batch <$> allocate_from l r).
Proof.
  revert r. induction l as [|b l IH]; intros r Hnd; simpl; [constructor|].
  apply NoDup_cons in Hnd as [Hb Hnd]. case_match; [constructor|]. case_match; [|auto].
  csimpl. constructor; [|auto]. intros Hin. apply Hb.
  apply list_elem_of_fmap in Hin as (a & -> & Ha). by apply allocate_bounds in Ha as [? _].
Qed.

(** What the allocation may draw on. *)
Definition eligible (today : Z) (it : Item) (item_id : Z) (wh : option Z) (d : DB) (b : ItemBatch) : Prop :=
  (∃ k, db_itembatch d !! k = Some b) ∧ ib_item_id b = item_id ∧ active_row d b ∧
  ib_reserved b < ib_usable b ∧ warehouse_matches wh b ∧
  (it_can_expire_flag it = true → not_expired today b = true).

Lemma sorted_eligible `{Runtime} today it item_id wh d b :
  b ∈ sort_batches_by_allocation_rule today it (get_available_batches item_id wh None d) ↔
  eligible today it item_id wh d b.
Proof.
  unfold sort_batches_by_allocation_rule, eligible, drop_expired, get_available_batches, available.
  rewrite sorted_by_perm, list_elem_of_filter.
  destruct (it_can_expire_flag it); rewrite !list_elem_of_filter, elem_of_batch_rows; simpl;
    intuition lia.
Qed.

Lemma sorted_positive today it l :
  Forall (λ b, 0 < available b) (sort_batches_by_allocation_rule today it l).
Proof.
  unfold sort_batches_by_allocation_rule. rewrite sorted_by_perm. apply Forall_forall.
  intros b Hb. by apply list_elem_of_filter in Hb as [? _].
Qed.

(** C16: automatic allocation takes the requested quantity, or all there is; only
    from eligible batches and within what each has available; and from no batch
    while one that the item's rule (FEFO, LIFO or FIFO) puts strictly before it
    has stock left. *)
Theorem auto_allocate_correct `{Runtime} item_id requested wh today d it :
  db_item d !! item_id = Some it → 0 ≤ requested →
  let result := auto_allocate_batches item_id requested wh today d in
  let pool := sort_batches_by_allocation_rule today it (get_available_batches item_id wh None d) in
  (∀ b, b ∈ pool ↔ eligible today it item_id wh d b) ∧
  lsum aa_qty result = Z.min requested (lsum available pool) ∧
  (∀ a, a ∈ result → eligible today it item_id wh d (aa_batch a) ∧
                     0 < aa_qty a ≤ available (aa_batch a)) ∧
  (∀ a b, a ∈ result → eligible today it item_id wh d b →
     lex_le (allocation_key it (aa_batch a)) (allocation_key it b) = false →
     mkAutoAlloc b (available b) ∈ result).
Proof.
  intros Hit Hr result pool. unfold result, auto_allocate_batches. rewrite Hit. fold pool.
  split; [intros b; unfold pool; apply sorted_eligible|]. split; [apply allocate_total; [done|apply sorted_positive]|].
  split.
  - intros a Ha. apply allocate_bounds in Ha as [Hin Hq]. split; [|done]. by apply sorted_eligible in Hin.
  - intros a b Ha Hb Hlt. eapply (allocate_greedy (allocation_key it)); [|apply sorted_positive|done| |done].
    + apply sorted_by_ordered.
    + by apply sorted_eligible.
Qed.

(** a batch allocation is accepted exactly when the batch holds the item, is
    active, has not expired, and can carry the quantity once the package's own
    allocation is given back. *)
Theorem validate_batch_allocation_correct batch_id item_id qty current today d :
  validate_batch_allocation batch_id item_id qty current today d = inr tt ↔
  ∃ b, db_itembatch d !! batch_id = Some b ∧ ib_item_id b = item_id ∧
    ib_status_code b = "A"%string ∧ not_expired today b = true ∧
    0 < qty ≤ ib_usable b - (ib_reserved b - current).
Proof.
  unfold validate_batch_allocation. destruct (db_itembatch d !! batch_id) as [b|];
    [|split; [done|]; by intros (? & ? & _)].
  split.
  - intros Hv. exists b. split; [done|]. repeat case_match; z_bool; try done.
  - intros (b' & [= <-] & Hi & Hs & He & Hq). rewrite He, Hi, Z.eqb_refl, bool_decide_true by done.
    simpl. rewrite (proj2 (Z.ltb_ge _ _)) by lia. by rewrite (proj2 (Z.leb_gt _ _)) by lia.
Qed.

(** * The drawer *)

Section drawer.
Context (current : gmap Z Z) (allocated : gset Z) (remaining : Z).

Abbreviation avail := (calc_available_qty current).
Abbreviation limit := (limit_batches current allocated remaining).

Lemma limit_le c f l :
  (∀ b, b ∈ l → 0 ≤ avail b) → 0 ≤ lsum avail (limit c f l) ≤ lsum avail l.
Proof.
  revert c f. induction l as [|b l IH]; intros c f Hl; simpl; [lia|].
  assert (0 ≤ avail b) by (apply Hl; by left).
  case_match; simpl; [specialize (IH (c + avail b) (f || (remaining <=? c + avail b)))|specialize (IH c f)];
    (destruct IH; [intros; apply Hl; by right|lia]).
Qed.

(** Nothing is left out before the remaining quantity is covered. *)
Lemma limit_covers c f l :
  (∀ b, b ∈ l → 0 ≤ avail b) → (f = true → remaining ≤ c) →
  lsum avail (limit c f l) = lsum avail l ∨ remaining ≤ c + lsum avail (limit c f l).
Proof.
  revert c f. induction l as [|b l IH]; intros c f Hl Hf; simpl; [auto|].
  assert (0 ≤ avail b) by (apply Hl; by left).
  assert (∀ b', b' ∈ l → 0 ≤ avail b') as Hl' by (intros; apply Hl; by right).
  case_match eqn:E; simpl.
  - destruct (IH (c + avail b) (f || (remaining <=? c + avail b)) Hl') as [Heq|Hle]; [|left; lia|right; lia].
    intros [Hft|Hle%Z.leb_le]%orb_true_iff; [specialize (Hf Hft)|]; lia.
  - apply orb_false_iff in E as [_ E]. apply negb_false_iff in E. specialize (Hf E).
    right. pose proof (limit_le c f l Hl'). lia.
Qed.

(** Summed over the warehouses. *)
Lemma limited_groups (f : WarehouseGroup → list ItemBatch) (groups : list (Z * WarehouseGroup)) :
  0 ≤ remaining →
  (∀ b, b ∈ mjoin ((λ kg, f kg.2) <$> groups) → 0 ≤ avail b) →
  let cumulative := lsum avail (mjoin ((λ kg, limit 0 false (f kg.2)) <$> groups)) in
  let total := lsum avail (mjoin ((λ kg, f kg.2) <$> groups)) in
  0 ≤ cumulative ≤ total ∧ (cumulative = total ∨ remaining ≤ cumulative).
Proof.
  intros Hr. induction groups as [|[k g] groups IH]; intros Hall; [simpl; lia|].
  csimpl in *. rewrite !lsum_app.
  assert (∀ b, b ∈ f g → 0 ≤ avail b) as Hg by (intros; apply Hall, elem_of_app; by left).
  destruct IH as [IH1 IH2]; [intros; apply Hall, elem_of_app; by right|].
  pose proof (limit_le 0 false (f g) Hg). destruct (limit_covers 0 false (f g) Hg); [done|..]; lia.
Qed.
End drawer.

(** the drawer stops loading the batches of a warehouse once they cover the
    remaining quantity, and this changes nothing the user is told: the shortfall
    is the one computed over all the sorted batches of all the warehouses. *)
Theorem drawer_shortfall_exact `{Runtime} item_id remaining uom allocated current today d it :
  db_item d !! item_id = Some it → 0 ≤ remaining →
  let groups := group_by_warehouse current allocated (drawer_batches item_id uom allocated d) in
  let all := mjoin ((λ kg, sort_batches_for_drawer today it allocated (wg_batches kg.2)) <$> groups) in
  (∀ b, b ∈ all → 0 ≤ calc_available_qty current b) →
  (get_limited_batches_for_drawer item_id remaining uom allocated current today d).2 =
  Z.max 0 (remaining - lsum (calc_available_qty current) all).
Proof.
  intros Hit Hr groups all Hall. unfold get_limited_batches_for_drawer. rewrite Hit. fold groups. simpl.
  destruct (limited_groups current allocated remaining
    (λ g, sort_batches_for_drawer today it allocated (wg_batches g)) groups Hr Hall) as [H1 H2].
  fold all in H1, H2. lia.
Qed.

(** * Priority groups *)

Lemma assign_batches it g prev l : (assign_from it g prev l).*1 = l.
Proof. revert g prev. induction l as [|b l IH]; intros g prev; [done|]. csimpl. by rewrite IH. Qed.

Lemma assign_step it g prev l i b1 g1 b2 g2 :
  assign_from it g prev l !! i = Some (b1, g1) → assign_from it g prev l !! S i = Some (b2, g2) →
  g2 = if bool_decide (priority_key it b2 = priority_key it b1) then g1 else g1 + 1.
Proof.
  revert g prev i. induction l as [|b l IH]; intros g prev i; [done|].
  destruct i as [|i]; simpl; [|apply IH]. intros [= <- <-].
  destruct l as [|c l]; [done|]. simpl. by intros [= <- <-].
Qed.

(** the batches come out unchanged and in order, the first in group 0, and a
    batch opens the next group exactly when its priority key differs from the
    key of the batch before it. *)
Theorem assign_priority_groups_correct l it :
  (assign_priority_groups l it).*1 = l ∧
  (∀ b g, assign_priority_groups l it !! 0%nat = Some (b, g) → g = 0) ∧
  (∀ i b1 g1 b2 g2, assign_priority_groups l it !! i = Some (b1, g1) →
     assign_priority_groups l it !! S i = Some (b2, g2) →
     g2 = if bool_decide (priority_key it b2 = priority_key it b1) then g1 else g1 + 1).
Proof.
  unfold assign_priority_groups. split; [apply assign_batches|]. split.
  - destruct l; simpl; [done|]. naive_solver.
  - intros i b1 g1 b2 g2. apply assign_step.
Qed.

(** * Concrete allocations *)

Definition item1 : Item := mkItem 1 "I1" "Tarpaulin" "GOODS" "EA" true true "FEFO" "A".

Definition alloc_db : DB :=
  set_db_item {[1 := item1]} (set_db_warehouse {[1 := mkWarehouse 1 "Main" true "A"]} (stock_db 30 0)).

Lemma auto_allocate_correct_witness :
  lsum aa_qty (@auto_allocate_batches canonical_runtime 1 (units 50) None 200 alloc_db) =
  Z.min (units 50) (lsum available (sort_batches_by_allocation_rule 200 item1
    (@get_available_batches canonical_runtime 1 None None alloc_db))) ∧
  ib_batch_id <$> (aa_batch <$> @auto_allocate_batches canonical_runtime 1 (units 50) None 200 alloc_db) = [11; 12].
Proof.
  split; [|vm_compute; reflexivity].
  apply (@auto_allocate_correct canonical_runtime 1 (units 50) None 200 alloc_db item1);
    [vm_compute; reflexivity|vm_compute; discriminate].
Defined.

Lemma drawer_shortfall_exact_witness :
  (@get_limited_batches_for_drawer canonical_runtime 1 (units 50) None ∅ ∅ 200 alloc_db).2 = 0.
Proof.
  etransitivity; [apply (@drawer_shortfall_exact canonical_runtime 1 (units 50) None ∅ ∅ 200 alloc_db item1)
    |vm_compute; reflexivity].
  - vm_compute. reflexivity.
  - vm_compute. discriminate.
  - apply Forall_forall. by_decide.
Defined.
