(* ===== verification/Packaging.v ===== *)
(** Preparing, approving and dispatching packages (app/features/packaging.py).

    A request handler runs a body over the session; when it ends, work that was
    not committed is dropped with the session, whatever the exit.  The form is
    already parsed: [if_batches] lists, in the sorted order of the form's keys,
    the batch ids and quantities [safe_id] and [safe_quantity] make of
    [batch_allocation_{item}_{batch}]. *)
From S2P Require Import Prelude PyStr Schema Ledger Reservation ReliefRequest ItemStatus BatchAllocation Dispatch.

(** * Data *)

(** A version number as the form carries it. *)
Inductive FormVersion : Type :=
| Missing            (* the field is absent *)
| EmptyVersion       (* the empty string: falsy, and [int] rejects it *)
| NotInteger
| Version (n : Z).

Definition version_given (v : FormVersion) : bool :=
  match v with Missing | EmptyVersion => false | _ => true end.

Record ItemForm : Type := mkItemForm {
  if_batches : list (Z * Z);
  if_status : option string;
  if_reason : string              (* stripped *)
}.

Record Ctx : Type := mkCtx {
  cx_user_name : string;
  cx_is_lo : bool;
  cx_is_lm : bool;
  cx_now : Z;
  cx_today : Z;
  cx_new_pkg_id : Z;              (* the serial the database assigns *)
  cx_tracking_no : string;        (* seven characters of a UUID *)
  cx_status_map : StatusMap;
  cx_form : Z → ItemForm
}.

Inductive PkgError : Type :=
| PValueError (msg : string)
| PTypeError             (* OptimisticLockError called with one argument *)
| PAttributeError        (* batch.inventory is None *)
| PIntegrityError        (* two form entries insert one primary key *)
| PReserveFailed (e : ResFailure)
| PRefused (msg : string)  (* flash and redirect *)
| PForbidden               (* abort(403) *)
| PNotFound.               (* get_or_404 *)

Abbreviation PM := (M Session PkgError).

(** [success, msg = service(...)]. *)
Definition call {E A} (m : M Session E A) : PM (E + A) := m_try m.

(** The end of a request: [db.session] is removed. *)
Definition end_request {A} (m : PM A) : Session → Session * (PkgError + A) := λ s,
  let '(s', r) := m s in (rollback_session s', r).

Definition validate_version_nbr (expected : FormVersion) (actual : Z) : PM unit :=
  match expected with
  | Missing => m_fail PTypeError
  | EmptyVersion | NotInteger => m_fail (PValueError "invalid literal for int()")
  | Version n => m_fail_if (negb (n =? actual)) PTypeError
  end.

Definition PENDING_LM : string := "__PENDING_LM__".

Section packaging.
Context `{R : Runtime} (cx : Ctx).

Abbreviation user := (cx_user_name cx).
Abbreviation now := (cx_now cx).

(** * _process_allocations *)

Definition new_package (r : ReliefRqst) : ReliefPkg :=
  mkReliefPkg (cx_new_pkg_id cx) (rq_agency_id r) (cx_tracking_no cx) 1 (rq_reliefrqst_id r)
    (cx_today cx) None "P" None None None None (new_audit user now).

Definition get_or_create_package (r : ReliefRqst) : PM ReliefPkg :=
  d ← db_get;
  match first_pkg_of (rq_reliefrqst_id r) d with
  | Some p => mret p
  | None => db_mod (put_pkg (new_package r));; mret (new_package r)
  end.

(** What the walk over the batch entries of one item collects. *)
Record ItemWalk : Type := mkItemWalk {
  iw_total : Z;
  iw_batches : list (Z * Z * Z * string);   (* batch, inventory, quantity, unit *)
  iw_new : list Alloc
}.

Definition walk_entry (old : list (AllocKey * Z)) (item_id : Z) (w : ItemWalk) (entry : Z * Z) : PM ItemWalk :=
  let '(batch_id, qty) := entry in
  if batch_id <=? 0 then mret w else
  d ← db_get;
  match db_itembatch d !! batch_id with
  | None => m_fail (PValueError "Batch not found")
  | Some b =>
      let current := default 0 (dict_get (item_id, Some (ib_inventory_id b), batch_id) old) in
      (if 0 <? qty then
         match validate_batch_allocation batch_id item_id qty current (cx_today cx) d with
         | inl _ => m_fail (PValueError "batch allocation")
         | inr _ => mret tt
         end
       else mret tt);;
      let w' := mkItemWalk (iw_total w + qty)
                  (iw_batches w ++ [(batch_id, ib_inventory_id b, qty, ib_uom_code b)]) (iw_new w) in
      if 0 <? qty then
        match find_inventory (ib_inventory_id b) (ib_item_id b) d with
        | None => m_fail PAttributeError
        | Some i =>
            mret (mkItemWalk (iw_total w') (iw_batches w')
              (iw_new w ++ [mkAlloc item_id batch_id (Some (inv_inventory_id i)) qty]))
        end
      else mret w'
  end.

Definition calculated_status (total request_qty : Z) : string :=
  if total =? 0 then "R" else if request_qty <=? total then "F" else "P".

(** [if form_status]: the empty string counts as absent. *)
Definition form_status (f : ItemForm) : option string :=
  match if_status f with
  | Some s => if bool_decide (s = ""%string) then None else Some s
  | None => None
  end.

Definition allows_partial (f : ItemForm) : bool :=
  match form_status f with
  | Some s => bool_decide (s ∈ ["U"; "D"; "W"; "L"; "P"]%string)
  | None => false
  end.

Definition issue_qty_for (status : string) (total request_qty : Z) : Z :=
  if bool_decide (status ∈ ["R"; "U"; "W"; "D"]%string) then 0
  else if bool_decide (status ∈ ["P"; "L"]%string) then Z.min total (request_qty - CENT)
  else if bool_decide (status = "F"%string) then request_qty
  else total.

Definition reason_for (status reason : string) : option string :=
  if bool_decide (status ∈ ["D"; "L"]%string) then
    Some (if negb (bool_decide (reason = ""%string)) then reason
          else if bool_decide (status = "L"%string) then "based on available stock"
          else "Item denied due to logistics constraints")%string
  else None.

Definition updated_item (status : string) (total : Z) (reason : string) (v : ReliefRqstItem) : ReliefRqstItem :=
  let acted := negb (bool_decide (status = "R"%string)) in
  mkReliefRqstItem (ri_reliefrqst_id v) (ri_item_id v) (ri_request_qty v)
    (issue_qty_for status total (ri_request_qty v)) (ri_urgency_ind v) (ri_rqst_reason_desc v)
    (ri_required_by_date v) status (reason_for status reason)
    (if acted then Some user else None) (if acted then Some now else None) (ri_version_nbr v + 1).

(** UPSERT of one batch entry.  [existing] holds the records loaded at the start;
    a key inserted by this very call collides when it comes again. *)
Definition upsert_item (pkg : Z) (existing : list ReliefPkgItem) (item_id : Z)
    (entry : Z * Z * Z * string) : PM unit :=
  let '(batch_id, inventory_id, qty, uom) := entry in
  let key := (pkg, inventory_id, batch_id, item_id) in
  d ← db_get;
  if bool_decide (key ∈ pi_pk <$> existing) then
    match db_pkg_item d !! key with
    | Some v => db_mod (put_pkg_item (touch_pkg_item user now
                  (set_pi_uom_code uom (set_pi_item_qty qty v))))
    | None => mret tt
    end
  else
    match db_pkg_item d !! key with
    | Some _ => m_fail PIntegrityError
    | None => db_mod (put_pkg_item (mkReliefPkgItem pkg inventory_id batch_id item_id qty uom
                (new_audit user now)))
    end.

(** The state of the loop over the request's items. *)
Record Progress : Type := mkProgress {
  pr_new : list Alloc;
  pr_keys : list (Z * Z * Z * Z)
}.

Definition process_item (validate_complete : bool) (pkg : Z) (existing : list ReliefPkgItem)
    (old : list (AllocKey * Z)) (acc : Progress) (item : ReliefRqstItem) : PM Progress :=
  let item_id := ri_item_id item in
  let request_qty := ri_request_qty item in
  let f := cx_form cx item_id in
  w ← m_fold (if_batches f) (mkItemWalk 0 [] []) (walk_entry old item_id);
  let total := iw_total w in
  m_fail_if (negb (validate_quantity_limit total request_qty)) (PValueError "exceeds requested");;
  m_fail_if (validate_complete && (total <? request_qty) && negb (allows_partial f))
    (PValueError "not fully allocated");;
  let requested_status := default (calculated_status total request_qty) (form_status f) in
  let activity := bool_decide (item_id ∈ pi_item_id <$> existing) || negb (bool_decide (if_batches f = [])) in
  match validate_status_transition (cx_status_map cx) (ri_status_code item) requested_status
          total request_qty activity with
  | inl _ => m_fail (PValueError "status")
  | inr _ =>
      db_mod (put_rqst_item (updated_item requested_status total (if_reason f) item));;
      m_for (iw_batches w) (upsert_item pkg existing item_id);;
      mret (mkProgress (pr_new acc ++ iw_new w)
        (pr_keys acc ++ ((λ e, (pkg, e.1.1.2, e.1.1.1, item_id)) <$> iw_batches w)))
  end.

(** The new allocations, and the old ones kept on the request object. *)
Definition process_allocations (r : ReliefRqst) (validate_complete : bool) :
    PM (list Alloc * list (AllocKey * Z)) :=
  p ← get_or_create_package r;
  d ← db_get;
  let existing := pkg_items_of (pkg_reliefpkg_id p) d in
  let old := foldl (λ acc v, dict_set (batch_key v) (pi_item_qty v) acc) [] existing in
  acc ← m_fold (items_of (rq_reliefrqst_id r) d) (mkProgress [] [])
          (process_item validate_complete (pkg_reliefpkg_id p) existing old);
  db_mod (delete_pkg_items (filter (λ v, pi_pk v ∉ pr_keys acc) existing));;
  mret (pr_new acc, old).

(** * Shared steps of the handlers *)

Definition get_request (rq : Z) : PM ReliefRqst :=
  d ← db_get; m_some (db_rqst d !! rq) PNotFound.

(** [relief_request.status_code = PART_FILLED; action fields; version_nbr += 1]. *)
Definition mark_part_filled (rq : Z) : PM unit :=
  db_mod (λ d, match db_rqst d !! rq with
               | Some r => put_rqst (part_filled user now r) d
               | None => d end).

Definition mod_pkg (pkg : Z) (f : ReliefPkg → ReliefPkg) : PM unit :=
  db_mod (λ d, match db_pkg d !! pkg with
               | Some p => put_pkg (f p) d
               | None => d end).

Definition touch_pkg (p : ReliefPkg) : ReliefPkg := set_pkg_audit (touch user now (pkg_audit p)) p.
Definition stamp_pkg (p : ReliefPkg) : ReliefPkg := set_pkg_audit (stamp user now (pkg_audit p)) p.

Definition commit_or_fail (rq : Z) : PM unit :=
  res ← call (commit_inventory rq);
  match res with inl _ => m_fail (PValueError "Inventory commit failed") | inr _ => mret tt end.

Definition notify_users (users : DB → list User) (rq : Z) (ty : string) : PM unit :=
  db_mod (λ d, notify (users d) rq ty d).

Definition approval_recipients (roles : list string) (agency : Z) (d : DB) : list User :=
  dedup_users (users_of_roles roles d) ++
  (if agency =? 0 then [] else agency_active_users agency d).

(** Every requested item is marked unavailable. *)
Definition all_unavailable (rq : Z) (d : DB) : bool :=
  forallb (λ v, bool_decide (ri_status_code v ∈ ["U"; "D"; "W"]%string)) (items_of rq d).

(** The integrity check before an approval: allocated items against issued
    quantities, to a thousandth. *)
Definition check_totals (rq pkg : Z) : PM unit :=
  d ← db_get;
  let items := pkg_items_of pkg d in
  m_fail_if (bool_decide (items = []) && negb (all_unavailable rq d)) (PValueError "no items allocated");;
  m_for (items_of rq d) (λ v,
    let total := lsum (λ w, if decide (pi_item_id w = ri_item_id v) then pi_item_qty w else 0) items in
    m_fail_if ((0 <? ri_issue_qty v) && (total =? 0)) (PValueError "no package items");;
    m_fail_if (MILLI <? Z.abs (ri_issue_qty v - total)) (PValueError "does not match")).

(** * prepare_package *)

Definition check_package_version (rq : Z) (package_version : FormVersion) : PM unit :=
  d ← db_get;
  match first_pkg_of rq d with
  | Some p => if version_given package_version
              then validate_version_nbr package_version (version_nbr (pkg_audit p)) else mret tt
  | None => mret tt
  end.

Definition reserve_or_fail (rq : Z) (allocs : list Alloc) (old : list (AllocKey * Z))
    (e : ResFailure → PkgError) : PM unit :=
  res ← call (reserve_inventory rq allocs (Some old));
  match res with
  | inl f => db_rollback;; m_fail (e f)
  | inr _ => mret tt
  end.

Definition save_draft (r : ReliefRqst) (rqst_version package_version : FormVersion) : PM unit :=
  let rq := rq_reliefrqst_id r in
  validate_version_nbr rqst_version (rq_version_nbr r);;
  check_package_version rq package_version;;
  res ← process_allocations r false;
  d ← db_get;
  (match first_pkg_of rq d with
   | Some p => mod_pkg (pkg_reliefpkg_id p) (λ p, set_pkg_verify_dtime None (set_pkg_verify_by_id None p))
   | None => mret tt
   end);;
  mark_part_filled rq;;
  reserve_or_fail rq res.1 res.2 PReserveFailed;;
  db_commit.

Definition submit_for_approval (r : ReliefRqst) (rqst_version package_version : FormVersion) : PM unit :=
  let rq := rq_reliefrqst_id r in
  m_fail_if (negb (cx_is_lo cx)) (PRefused "Only Logistics Officers");;
  validate_version_nbr rqst_version (rq_version_nbr r);;
  d0 ← db_get;
  let existing_pkg := first_pkg_of rq d0 in
  check_package_version rq package_version;;
  let was_already_pending := match existing_pkg with
    | Some p => bool_decide (pkg_status_code p = "P"%string) | None => false end in
  m_fail_if (was_already_pending &&
    match existing_pkg with
    | Some p => negb (bool_decide (create_by_id (pkg_audit p) = user)) | None => false end)
    (PRefused "already submitted by another user");;
  res ← process_allocations r false;
  d ← db_get;
  match first_pkg_of rq d with
  | None => m_fail (PValueError "Failed to create relief package")
  | Some p =>
      (if match existing_pkg with
          | Some p0 => negb (version_nbr (pkg_audit p) =? version_nbr (pkg_audit p0))
          | None => false end
          && bool_decide (pkg_status_code p = "P"%string)
          && negb (bool_decide (create_by_id (pkg_audit p) = user))
       then db_rollback;; m_fail (PRefused "already submitted by another user")
       else mret tt);;
      mod_pkg (pkg_reliefpkg_id p) (λ p, touch_pkg (set_pkg_verify_dtime (Some now)
        (set_pkg_verify_by_id (Some PENDING_LM) (set_pkg_status_code "P" p))));;
      mark_part_filled rq;;
      reserve_or_fail rq res.1 res.2 (λ _, PValueError "Reservation failed");;
      (if was_already_pending then mret tt
       else notify_users (λ d, dedup_users (users_of_roles ["LOGISTICS_MANAGER"%string] d)) rq
              "package_ready_for_approval");;
      db_commit
  end.

Definition send_for_dispatch (r : ReliefRqst) (rqst_version package_version : FormVersion) : PM unit :=
  let rq := rq_reliefrqst_id r in
  m_fail_if (negb (cx_is_lm cx)) (PRefused "Only Logistics Managers");;
  validate_version_nbr rqst_version (rq_version_nbr r);;
  check_package_version rq package_version;;
  res ← process_allocations r true;
  d ← db_get;
  match first_pkg_of rq d with
  | None => m_fail (PValueError "Failed to create relief package")
  | Some p =>
      mod_pkg (pkg_reliefpkg_id p) (λ p, stamp_pkg (set_pkg_dispatch_dtime (Some now)
        (set_pkg_status_code "D" (set_pkg_verify_dtime (Some now) (set_pkg_verify_by_id (Some user) p)))));;
      commit_or_fail rq;;
      mark_part_filled rq;;
      notify_users (λ d, (if rq_agency_id r =? 0 then [] else agency_active_users (rq_agency_id r) d) ++
        dedup_users (users_of_roles ["LOGISTICS_MANAGER"%string] d)) rq "package_dispatched";;
      db_commit
  end.

Inductive PrepareAction : Type := SaveDraft | SubmitForApproval | SendForDispatch | OtherAction.

Definition prepare_package (rq : Z) (action : PrepareAction) (rqst_version package_version : FormVersion) : PM unit :=
  m_fail_if (negb (cx_is_lo cx || cx_is_lm cx)) PForbidden;;
  r ← get_request rq;
  m_fail_if (negb (bool_decide (rq_status_code r ∈ [STATUS_SUBMITTED; STATUS_PART_FILLED])))
    (PRefused "Only SUBMITTED or PART FILLED");;
  match action with
  | SaveDraft => save_draft r rqst_version package_version
  | SubmitForApproval => submit_for_approval r rqst_version package_version
  | SendForDispatch => send_for_dispatch r rqst_version package_version
  | OtherAction => m_fail (PRefused "Invalid action")
  end.

(** * approve_package and review_approval *)

(** [next(pkg for pkg in relief_request.packages if pkg.status_code == 'P')]. *)
Definition pending_pkg_of (rq : Z) (d : DB) : option ReliefPkg :=
  head (filter (λ p, pkg_reliefrqst_id p = rq ∧ pkg_status_code p = "P"%string) (pkg_rows (db_pkg d))).

Definition get_pending (rq : Z) : PM (ReliefRqst * ReliefPkg) :=
  m_fail_if (negb (cx_is_lm cx)) PForbidden;;
  r ← get_request rq;
  d ← db_get;
  p ← m_some (pending_pkg_of rq d) (PRefused "No pending package");
  m_fail_if (negb (bool_decide (pkg_dispatch_dtime p = None))) (PRefused "already dispatched");;
  mret (r, p).

Definition validate_both (r : ReliefRqst) (p : ReliefPkg) (rqst_version package_version : FormVersion) : PM unit :=
  validate_version_nbr rqst_version (rq_version_nbr r);;
  validate_version_nbr package_version (version_nbr (pkg_audit p)).

Definition save_draft_approval (r : ReliefRqst) (p : ReliefPkg) (rqst_version package_version : FormVersion) : PM unit :=
  let rq := rq_reliefrqst_id r in
  validate_both r p rqst_version package_version;;
  res ← process_allocations r false;
  mod_pkg (pkg_reliefpkg_id p) (λ p, touch_pkg (set_pkg_status_code "P" p));;
  reserve_or_fail rq res.1 res.2 PReserveFailed;;
  db_commit.

(** [relief_pkg] verified, dispatched and stamped by the manager. *)
Definition approve_pkg (p : ReliefPkg) : ReliefPkg :=
  touch_pkg (set_pkg_dispatch_dtime (Some now) (set_pkg_status_code "D"
    (set_pkg_verify_dtime (Some now) (set_pkg_verify_by_id (Some user) p)))).

Definition issue_allocated (allocs : list Alloc) (v : ReliefRqstItem) : ReliefRqstItem :=
  set_ri_version_nbr (ri_version_nbr v + 1)
    (set_ri_issue_qty (lsum (λ a, if decide (al_item_id a = ri_item_id v)
                                  then al_allocated_qty a else 0) allocs) v).

Definition approve_and_dispatch (r : ReliefRqst) (p : ReliefPkg) (rqst_version package_version : FormVersion) : PM unit :=
  let rq := rq_reliefrqst_id r in
  validate_both r p rqst_version package_version;;
  res ← process_allocations r false;
  check_totals rq (pkg_reliefpkg_id p);;
  d ← db_get;
  m_fail_if (negb (existsb (λ a, 0 <? al_allocated_qty a) res.1) && negb (all_unavailable rq d))
    (PValueError "empty package");;
  db_mod (λ d, foldl (λ d v, put_rqst_item (issue_allocated res.1 v) d) d (items_of rq d));;
  mod_pkg (pkg_reliefpkg_id p) approve_pkg;;
  commit_or_fail rq;;
  mark_part_filled rq;;
  notify_users (approval_recipients ["LOGISTICS_OFFICER"; "INVENTORY_CLERK"]%string (rq_agency_id r)) rq
    "package_approved";;
  db_commit.

Inductive ApproveAction : Type := ASaveDraft | AApprove | AOther.

Definition approve_package (rq : Z) (action : ApproveAction) (rqst_version package_version : FormVersion) : PM unit :=
  rp ← get_pending rq;
  match action with
  | ASaveDraft => save_draft_approval rp.1 rp.2 rqst_version package_version
  | AApprove => approve_and_dispatch rp.1 rp.2 rqst_version package_version
  | AOther => m_fail (PRefused "Invalid action")
  end.

Inductive ReviewAction : Type := RApprove | RReject | ROther.

Definition review_approve (r : ReliefRqst) (p : ReliefPkg) : PM unit :=
  let rq := rq_reliefrqst_id r in
  check_totals rq (pkg_reliefpkg_id p);;
  d ← db_get;
  m_fail_if (negb (existsb (λ v, 0 <? ri_issue_qty v) (items_of rq d)) && negb (all_unavailable rq d))
    (PValueError "empty package");;
  mod_pkg (pkg_reliefpkg_id p) approve_pkg;;
  commit_or_fail rq;;
  mark_part_filled rq;;
  notify_users (approval_recipients ["LOGISTICS_OFFICER"%string] (rq_agency_id r)) rq "package_approved";;
  db_commit.

Definition review_reject (r : ReliefRqst) (p : ReliefPkg) : PM unit :=
  mod_pkg (pkg_reliefpkg_id p) (λ p, touch_pkg (set_pkg_status_code "P"
    (set_pkg_verify_dtime None (set_pkg_verify_by_id None p))));;
  db_mod (put_rqst (set_rq_version_nbr (rq_version_nbr r + 1)
    (set_rq_action_dtime (Some now) (set_rq_action_by_id (Some user) r))));;
  db_commit.

Definition review_approval (rq : Z) (action : ReviewAction) (rqst_version package_version : FormVersion) : PM unit :=
  rp ← get_pending rq;
  match action with
  | RApprove => validate_both rp.1 rp.2 rqst_version package_version;; review_approve rp.1 rp.2
  | RReject => validate_both rp.1 rp.2 rqst_version package_version;; review_reject rp.1 rp.2
  | ROther => m_fail (PRefused "Invalid action")
  end.

(** * Cancelling and dispatching *)

Definition cancel_package (pkg : Z) : PM unit :=
  m_fail_if (negb (cx_is_lm cx)) PForbidden;;
  res ← call (cancel_relief_package pkg user now);
  match res with
  | inl e => db_rollback;; m_fail (PReserveFailed e)
  | inr _ => db_commit
  end.

(** [ReliefPkgItem.query.filter_by(reliefpkg_id=...).delete()]. *)
Definition delete_items_of (pkg : Z) (d : DB) : DB :=
  set_db_pkg_item (filter (λ kv, pi_reliefpkg_id kv.2 ≠ pkg) (db_pkg_item d)) d.

Definition cancel_preparation (rq : Z) : PM unit :=
  d ← db_get;
  (match first_pkg_of rq d with
   | Some p => db_mod (delete_items_of (pkg_reliefpkg_id p))
   | None => mret tt
   end);;
  call (release_all_reservations rq);;
  db_commit.

(** The route of workflow C; the plan comes from the form or from the items. *)
Definition submit_for_dispatch_route (pkg : Z) (package_version : FormVersion)
    (form_plan : option (list LmAlloc)) : PM unit :=
  m_fail_if (negb (cx_is_lm cx)) PForbidden;;
  d ← db_get;
  match db_pkg d !! pkg with
  | None => m_fail PNotFound
  | Some p =>
      match package_version with
      | Version n =>
          let lm_plan := match form_plan with
            | Some l => build_lm_plan_from_form l
            | None => build_lm_plan_from_pkg_items pkg d end in
          m_fail_if (bool_decide (lm_plan = []) && negb (all_unavailable (pkg_reliefrqst_id p) d))
            (PRefused "empty package");;
          res ← call (submit_for_dispatch pkg lm_plan user n now);
          match res with
          | inl _ => db_rollback;; m_fail (PRefused "dispatch failed")
          | inr _ =>
              notify_users (approval_recipients ["LOGISTICS_OFFICER"; "INVENTORY_CLERK"]%string
                (default 0 (rq_agency_id <$> db_rqst d !! pkg_reliefrqst_id p)))
                (pkg_reliefrqst_id p) "package_approved";;
              db_commit
          end
      | _ => m_fail (PRefused "version")
      end
  end.
End packaging.
