(* ===== verification/PackagingProofs.v ===== *)
(** Every packaging request is all or nothing. *)
From S2P Require Import Prelude PyStr Schema Atomicity Ledger Fixtures Reservation ReservationProofs ReliefRequest ItemStatus BatchAllocation Dispatch Packaging.

(** * The services *)

Section services.
Context `{R : Runtime}.

Lemma nc_reserve rq allocs old : no_commit (reserve_inventory rq allocs old).
Proof. unfold reserve_inventory, reserve_batch, reserve_site. no_commit_tac. Qed.

Lemma nc_release rq : no_commit (release_all_reservations rq).
Proof. unfold release_all_reservations, release_batch, release_site. no_commit_tac. Qed.

Lemma nc_commit_inventory rq : no_commit (commit_inventory rq).
Proof. unfold commit_inventory, commit_item, commit_site. no_commit_tac. Qed.

Lemma nc_cancel pkg user now : no_commit (cancel_relief_package pkg user now).
Proof. unfold cancel_relief_package, cancel_item, cancel_site, rollback_fail. no_commit_tac. Qed.

Lemma nc_dispatch pkg plan user ver now : no_commit (submit_for_dispatch pkg plan user ver now).
Proof.
  unfold submit_for_dispatch, undo_lo_reservations, undo_batch, undo_inventory,
    deplete_usable_stock, deplete_batch, deplete_inventory. no_commit_tac.
Qed.
End services.

#[export] Hint Resolve nc_reserve nc_release nc_commit_inventory nc_cancel nc_dispatch : commit.

Section handlers.
Context `{R : Runtime} (cx : Ctx).

Lemma nc_validate v n : no_commit (validate_version_nbr v n).
Proof. unfold validate_version_nbr. no_commit_tac. Qed.

Lemma nc_process r complete : no_commit (process_allocations cx r complete).
Proof.
  unfold process_allocations, get_or_create_package, process_item, walk_entry, upsert_item.
  no_commit_tac.
Qed.

Lemma nc_check_totals rq pkg : no_commit (check_totals rq pkg).
Proof. unfold check_totals. no_commit_tac. Qed.

Lemma nc_check_version rq v : no_commit (check_package_version rq v).
Proof. unfold check_package_version, validate_version_nbr. no_commit_tac. Qed.

Lemma nc_mark rq : no_commit (mark_part_filled cx rq).
Proof. unfold mark_part_filled. no_commit_tac. Qed.

Lemma nc_mod_pkg pkg f : no_commit (mod_pkg pkg f).
Proof. unfold mod_pkg. no_commit_tac. Qed.

Lemma nc_notify users rq ty : no_commit (notify_users users rq ty).
Proof. unfold notify_users. no_commit_tac. Qed.

Lemma nc_reserve_or_fail rq allocs old e : no_commit (reserve_or_fail rq allocs old e).
Proof. unfold reserve_or_fail, call. no_commit_tac. Qed.

Lemma nc_commit_or_fail rq : no_commit (commit_or_fail rq).
Proof. unfold commit_or_fail, call. no_commit_tac. Qed.
End handlers.

#[export] Hint Resolve nc_validate nc_process nc_check_totals nc_check_version nc_mark nc_mod_pkg nc_notify
  nc_reserve_or_fail nc_commit_or_fail : commit.

(** The requests of the blueprint that change state. *)
Inductive packaging_handler `{Runtime} (cx : Ctx) : PM unit → Prop :=
| ph_prepare rq action v1 v2 : packaging_handler cx (prepare_package cx rq action v1 v2)
| ph_approve rq action v1 v2 : packaging_handler cx (approve_package cx rq action v1 v2)
| ph_review rq action v1 v2 : packaging_handler cx (review_approval cx rq action v1 v2)
| ph_cancel pkg : packaging_handler cx (cancel_package cx pkg)
| ph_cancel_preparation rq : packaging_handler cx (cancel_preparation rq)
| ph_dispatch pkg v plan : packaging_handler cx (submit_for_dispatch_route cx pkg v plan).

Section clean.
Context `{R : Runtime} (cx : Ctx).

Lemma fc_save_draft r v1 v2 : fails_clean (save_draft cx r v1 v2).
Proof. unfold save_draft. clean_tac. Qed.

Lemma fc_submit r v1 v2 : fails_clean (submit_for_approval cx r v1 v2).
Proof. unfold submit_for_approval. clean_tac. Qed.

Lemma fc_send r v1 v2 : fails_clean (send_for_dispatch cx r v1 v2).
Proof. unfold send_for_dispatch. clean_tac. Qed.

Lemma fc_approve r p v1 v2 : fails_clean (approve_and_dispatch cx r p v1 v2).
Proof. unfold approve_and_dispatch, validate_both. clean_tac. Qed.

Lemma fc_save_approval r p v1 v2 : fails_clean (save_draft_approval cx r p v1 v2).
Proof. unfold save_draft_approval, validate_both. clean_tac. Qed.

Lemma nc_get_pending rq : no_commit (get_pending cx rq).
Proof. unfold get_pending, get_request. no_commit_tac. Qed.
End clean.

#[export] Hint Resolve fc_save_draft fc_submit fc_send fc_approve fc_save_approval nc_get_pending : commit.

Lemma handler_clean `{Runtime} cx m : packaging_handler cx m → fails_clean m.
Proof.
  intros [rq [] v1 v2|rq [] v1 v2|rq [] v1 v2|pkg|rq|pkg v plan].
  1-4: unfold prepare_package, get_request; clean_tac.
  1-3: unfold approve_package; clean_tac.
  1-3: unfold review_approval, validate_both, review_approve, review_reject; clean_tac.
  - unfold cancel_package, call. clean_tac.
  - unfold cancel_preparation, call. clean_tac.
  - unfold submit_for_dispatch_route, call. clean_tac.
Qed.

(** C6: a packaging request either completes or leaves no trace: when it fails, for
    whatever reason and after whatever writes, the stored data is what it was
    before; and every request ends with no pending work. *)
Theorem packaging_atomic `{Runtime} cx m s s' r :
  packaging_handler cx m → end_request m s = (s', r) →
  work s' = committed s' ∧
  match r with inl _ => committed s' = committed s | inr _ => True end.
Proof.
  intros Hm. unfold end_request. pose proof (handler_clean cx m Hm s) as Hc.
  destruct (m s) as [s1 [e|a]]; intros [= <- <-]; simpl; split; done.
Qed.

(** * Concrete requests *)

Definition status_names : StatusMap :=
  list_to_map [("R", "Requested"); ("P", "Partly filled"); ("F", "Filled"); ("U", "Unavailable");
               ("D", "Denied"); ("L", "Limited"); ("W", "Awaiting")]%string.

(** A form for item 1, filled by an officer or a manager. *)
Definition form_cx (name : string) (lo lm : bool) (now new_id : Z) (batches : list (Z * Z)) : Ctx :=
  mkCtx name lo lm now 20 new_id "TRK0001" status_names (λ _, mkItemForm batches None "").

(** Request 7 for 40 units of item 1, not yet prepared. *)
Definition request_db (d : DB) : DB :=
  set_db_rqst {[7 := mkReliefRqst 7 5 10 None "M" None 3 None "AG" 0 None None None None 1]}
    (set_db_rqst_item {[(7, 1) := rqst_item 7 1 40 0 "R"]} d).

(** The stored data after a request, whatever its outcome. *)
Definition after {A} (m : PM A) (d : DB) : DB := work (end_request m (session_of d)).1.

(** A dispatch that fails on the second batch, after it undid the first. *)
Definition half_db : DB := request_db (package_db "P" 30 5).
Definition half_dispatch : PM unit :=
  @submit_for_dispatch_route canonical_runtime (form_cx "LM" false true 50 71 []) 70 (Version 1) None.

Lemma packaging_atomic_witness :
  let s := session_of half_db in
  (half_dispatch s).2 = inl (PRefused "dispatch failed") ∧ committed (end_request half_dispatch s).1 = half_db.
Proof.
  assert ((half_dispatch (session_of half_db)).2 = inl (PRefused "dispatch failed")) as He
    by (vm_compute; reflexivity).
  split; [exact He|].
  destruct (@packaging_atomic canonical_runtime (form_cx "LM" false true 50 71 []) half_dispatch (session_of half_db)
    (end_request half_dispatch (session_of half_db)).1 (inl (PRefused "dispatch failed"))) as [_ Hc];
    [constructor| |exact Hc].
  unfold end_request. rewrite <- He. by destruct (half_dispatch (session_of half_db)).
Defined.
