(* ===== verification/Coverage.v ===== *)
(** The reservation invariant of the packaging workflow: the stock a batch has
    reserved is what the packages in preparation take from it.  The definitions,
    and the lemma that a change confined to one package keeps the invariant when
    each batch moves by the change of the package's share. *)
From S2P Require Import Prelude Schema Ledger Reservation ReservationProofs.

(** A package still in preparation: pending, or verified and not dispatched. *)
Definition open_pkg (p : ReliefPkg) : Prop := pkg_status_code p ∈ ["P"; "V"]%string.

#[export] Instance open_pkg_dec p : Decision (open_pkg p).
Proof. unfold open_pkg. apply _. Defined.

Lemma open_pending p : pkg_status_code p = "P"%string → open_pkg p.
Proof. intros Hp. unfold open_pkg. rewrite Hp. by left. Qed.

Lemma closed_dispatched p : pkg_status_code p = "D"%string → ¬ open_pkg p.
Proof. intros Hp. unfold open_pkg. rewrite Hp. by_decide. Qed.

(** What a package item record takes from the batch [k = (item, warehouse, batch)]. *)
Definition slot (d : DB) (pkg : Z) (k : Z * Z * Z) : Z :=
  default 0 (pi_item_qty <$> db_pkg_item d !! (pkg, k.1.2, k.2, k.1.1)).

(** The share of one package, and of all of them. *)
Definition share (d : DB) (p : ReliefPkg) (k : Z * Z * Z) : Z :=
  if decide (open_pkg p) then slot d (pkg_reliefpkg_id p) k else 0.

Definition contrib (d : DB) (pkg : Z) (k : Z * Z * Z) : Z :=
  match db_pkg d !! pkg with Some p => share d p k | None => 0 end.

Definition held (d : DB) (k : Z * Z * Z) : Z := msum (λ p, share d p k) (db_pkg d).

Definition covered (d : DB) : Prop :=
  map_Forall (λ _ b, ib_reserved b = held d (bkey b)) (db_itembatch d).

#[export] Instance covered_dec d : Decision (covered d).
Proof. unfold covered. apply _. Defined.

(** * The side conditions *)

Definition keyed_inventory (d : DB) : Prop :=
  map_Forall (λ k i, (inv_inventory_id i, inv_item_id i) = k) (db_inventory d).
Definition items_nonneg (d : DB) : Prop :=
  map_Forall (λ _ v, 0 ≤ pi_item_qty v) (db_pkg_item d).
Definition items_fk (d : DB) : Prop :=
  map_Forall (λ _ v, is_Some (db_pkg d !! pi_reliefpkg_id v)) (db_pkg_item d).
(** Only [_process_allocations] creates packages, and only where a request has none. *)
Definition one_pkg (d : DB) : Prop :=
  map_Forall (λ k p, map_Forall (λ k' p', pkg_reliefrqst_id p = pkg_reliefrqst_id p' → k = k')
    (db_pkg d)) (db_pkg d).

#[export] Instance keyed_inventory_dec d : Decision (keyed_inventory d).
Proof. unfold keyed_inventory. apply _. Defined.
#[export] Instance items_nonneg_dec d : Decision (items_nonneg d).
Proof. unfold items_nonneg. apply _. Defined.
#[export] Instance items_fk_dec d : Decision (items_fk d).
Proof. unfold items_fk. apply _. Defined.
#[export] Instance one_pkg_dec d : Decision (one_pkg d).
Proof. unfold one_pkg. apply _. Defined.

(** The tables obey their keys. *)
Definition well_keyed (d : DB) : Prop :=
  keyed_batches d ∧ keyed_inventory d ∧ keyed_pkgs d ∧ keyed_pkg_items d ∧
  keyed_rqst_items d ∧ keyed_rqsts d ∧ one_pkg d ∧ items_fk d ∧ items_nonneg d.

Definition workflow_ok (d : DB) : Prop := well_keyed d ∧ covered d.

(** * A change confined to one package *)

Lemma contrib_nonneg d pkg k : items_nonneg d → 0 ≤ contrib d pkg k.
Proof.
  intros Hn. unfold contrib, share, slot. destruct (db_pkg d !! pkg); [|done].
  case_decide; [|done]. destruct (db_pkg_item d !! _) eqn:E; [|done]. exact (Hn _ _ E).
Qed.

Lemma share_nonneg d p k : items_nonneg d → 0 ≤ share d p k.
Proof.
  intros Hn. unfold share, slot. case_decide; [|done].
  destruct (db_pkg_item d !! _) eqn:E; [|done]. exact (Hn _ _ E).
Qed.

Lemma contrib_le_held d pkg k : items_nonneg d → contrib d pkg k ≤ held d k.
Proof.
  intros Hn. unfold contrib, held. destruct (db_pkg d !! pkg) as [p|] eqn:Hp.
  - rewrite (msum_delete _ _ _ _ Hp).
    assert (0 ≤ msum (λ p, share d p k) (delete pkg (db_pkg d))); [|lia].
    apply msum_nonneg. intros. by apply share_nonneg.
  - apply msum_nonneg. intros. by apply share_nonneg.
Qed.

(** The other packages and their items stay as they were. *)
Definition others_same (pkg : Z) (d d' : DB) : Prop :=
  (∀ k, k ≠ pkg → db_pkg d' !! k = db_pkg d !! k) ∧
  (∀ k, k.1.1.1 ≠ pkg → db_pkg_item d' !! k = db_pkg_item d !! k).

Lemma others_same_refl pkg d : others_same pkg d d.
Proof. done. Qed.

Lemma others_same_trans pkg d1 d2 d3 :
  others_same pkg d1 d2 → others_same pkg d2 d3 → others_same pkg d1 d3.
Proof. intros [H1 H2] [H3 H4]. split; intros k Hk; [rewrite H3, H1|rewrite H4, H2]; done. Qed.

Lemma held_others pkg d d' k :
  keyed_pkgs d → keyed_pkgs d' → others_same pkg d d' →
  held d' k = held d k - contrib d pkg k + contrib d' pkg k.
Proof.
  intros Hk Hk' [Hp Hi].
  assert (∀ d0, held d0 k = contrib d0 pkg k + msum (λ p, share d0 p k) (delete pkg (db_pkg d0))) as Hsplit.
  { intros d0. unfold held, contrib. destruct (db_pkg d0 !! pkg) as [p|] eqn:E.
    - exact (msum_delete (λ p, share d0 p k) _ _ _ E).
    - by rewrite delete_id. }
  rewrite (Hsplit d'), (Hsplit d).
  assert (delete pkg (db_pkg d') = delete pkg (db_pkg d)) as ->.
  { apply map_eq. intros k0. rewrite !lookup_delete. case_decide; [done|]. by apply Hp. }
  rewrite (msum_ext (λ p, share d' p k) (λ p, share d p k)); [lia|].
  intros k0 p Hk0. apply lookup_delete_Some in Hk0 as [Hne Hk0]. unfold share, slot.
  rewrite Hi; [done|]. simpl. pose proof (Hk k0 p Hk0) as Hid. simpl in Hid. congruence.
Qed.

(** Every batch moved by the change of the package's share, given that it
    covered the share before. *)
Definition moved (pkg : Z) (d d' : DB) : Prop :=
  ∀ bid b', db_itembatch d' !! bid = Some b' → ∃ b, db_itembatch d !! bid = Some b ∧
    bkey b' = bkey b ∧
    (contrib d pkg (bkey b) ≤ ib_reserved b →
     ib_reserved b' = ib_reserved b - contrib d pkg (bkey b) + contrib d' pkg (bkey b)).

Lemma covered_moved pkg d d' :
  keyed_pkgs d → keyed_pkgs d' → items_nonneg d → others_same pkg d d' → moved pkg d d' →
  covered d → covered d'.
Proof.
  intros Hk Hk' Hn Ho Hm Hc bid b' Hb'. destruct (Hm bid b' Hb') as (b & Hb & Hbk & Hr).
  pose proof (Hc bid b Hb) as Hcb. simpl in Hcb. simpl.
  pose proof (contrib_le_held d pkg (bkey b) Hn).
  rewrite Hbk, (held_others pkg d d') by done. rewrite Hr; lia.
Qed.

(** A package that is gone, or no longer open, holds nothing. *)
Lemma contrib_closed d pkg k :
  (∀ p, db_pkg d !! pkg = Some p → ¬ open_pkg p) → contrib d pkg k = 0.
Proof.
  intros Hp. unfold contrib, share. destruct (db_pkg d !! pkg) as [p|]; [|done].
  rewrite decide_False; [done|]. by apply Hp.
Qed.

Lemma contrib_open d pkg k p :
  keyed_pkgs d → db_pkg d !! pkg = Some p → open_pkg p → contrib d pkg k = slot d pkg k.
Proof.
  intros Hk Hp Ho. unfold contrib, share. rewrite Hp, decide_True by done.
  by rewrite (Hk pkg p Hp).
Qed.

(** The items of a package, by the batch they draw on. *)
Section items.
Context `{R : Runtime}.

Lemma elem_of_pkg_items v pkg d :
  keyed_pkg_items d → v ∈ pkg_items_of pkg d ↔ pi_reliefpkg_id v = pkg ∧ db_pkg_item d !! pi_pk v = Some v.
Proof.
  intros Hk. unfold pkg_items_of. rewrite list_elem_of_filter, elem_of_pkg_item_rows. split.
  - intros [Hp [k Hv]]. split; [done|]. by rewrite (Hk k v Hv).
  - intros [Hp Hv]. split; [done|]. by eexists.
Qed.

Lemma slot_item v pkg d :
  keyed_pkg_items d → v ∈ pkg_items_of pkg d → slot d pkg (item3 v) = pi_item_qty v.
Proof.
  intros Hk Hv. apply elem_of_pkg_items in Hv as [Hp Hv]; [|done].
  unfold slot, item3. simpl. unfold pi_pk in Hv. rewrite Hp in Hv. by rewrite Hv.
Qed.

Lemma slot_none pkg k d :
  keyed_pkg_items d → (∀ v, v ∈ pkg_items_of pkg d → item3 v ≠ k) → slot d pkg k = 0.
Proof.
  intros Hk Hno. unfold slot. destruct (db_pkg_item d !! _) as [v|] eqn:E; [|done].
  pose proof (Hk _ v E) as Hpk. simpl in Hpk. unfold pi_pk in Hpk. simplify_eq.
  destruct k as [[it wh] bid]. simpl in *. simplify_eq.
  exfalso. eapply Hno; [|reflexivity]. by apply elem_of_pkg_items.
Qed.

(** Rewriting the batches the items name moves each by the item's quantity. *)
Lemma entry_row_slot (g : ReliefPkgItem → ItemBatch → ItemBatch) pkg d b (P : Z → Z → Prop) :
  keyed_pkg_items d →
  (∀ v, v ∈ pkg_items_of pkg d → item3 v = bkey b → P (pi_item_qty v) (ib_reserved (g v b))) →
  P 0 (ib_reserved b) →
  P (slot d pkg (bkey b)) (ib_reserved (entry_row item3 g (pkg_items_of pkg d) b)).
Proof.
  intros Hk Hg H0. unfold entry_row. destruct (entry_for item3 _ b) as [v|] eqn:E.
  - apply entry_for_Some in E as [Hin Hv]. rewrite <- Hv, slot_item by done. by apply Hg.
  - rewrite slot_none; [done|done|]. by apply entry_for_None.
Qed.

(** The package the services find, when a request has one. *)
Lemma first_pkg_Some rq d p :
  keyed_pkgs d → first_pkg_of rq d = Some p →
  db_pkg d !! pkg_reliefpkg_id p = Some p ∧ pkg_reliefrqst_id p = rq.
Proof.
  intros Hk Hf. unfold first_pkg_of in Hf.
  assert (p ∈ filter (λ p, pkg_reliefrqst_id p = rq) (pkg_rows (db_pkg d))) as Hin.
  { destruct (filter _ _); [done|]. simpl in Hf. simplify_eq. by left. }
  apply list_elem_of_filter in Hin as [Hrq Hin]. apply elem_of_pkg_rows in Hin as [k Hp].
  split; [|done]. by rewrite (Hk k p Hp).
Qed.

Lemma first_pkg_unique rq d k p :
  keyed_pkgs d → one_pkg d → db_pkg d !! k = Some p → pkg_reliefrqst_id p = rq →
  first_pkg_of rq d = Some p.
Proof.
  intros Hk H1 Hp Hrq. destruct (first_pkg_of rq d) as [p'|] eqn:E.
  - destruct (first_pkg_Some _ _ _ Hk E) as [Hp' Hrq'].
    assert (k = pkg_reliefpkg_id p') as -> by (apply (H1 k p Hp _ p' Hp'); congruence). congruence.
  - exfalso. unfold first_pkg_of in E.
    assert (p ∈ filter (λ p, pkg_reliefrqst_id p = rq) (pkg_rows (db_pkg d))) as Hin.
    { apply list_elem_of_filter. split; [done|]. apply elem_of_pkg_rows. by exists k. }
    destruct (filter _ _); [set_solver|done].
Qed.

Lemma first_pkg_None rq d k p :
  first_pkg_of rq d = None → db_pkg d !! k = Some p → pkg_reliefrqst_id p ≠ rq.
Proof.
  intros E Hp Hrq. unfold first_pkg_of in E.
  assert (p ∈ filter (λ p, pkg_reliefrqst_id p = rq) (pkg_rows (db_pkg d))) as Hin.
  { apply list_elem_of_filter. split; [done|]. apply elem_of_pkg_rows. by exists k. }
  destruct (filter _ _); [set_solver|done].
Qed.
End items.

Lemma delete_items_lookup items d k :
  db_pkg_item (delete_pkg_items items d) !! k =
  if decide (k ∈ pi_pk <$> items) then None else db_pkg_item d !! k.
Proof.
  unfold delete_pkg_items. simpl. induction items as [|v items IH]; [done|]. csimpl.
  change (pi_reliefpkg_id v, pi_fr_inventory_id v, pi_batch_id v, pi_item_id v) with (pi_pk v).
  destruct (decide (k = pi_pk v)) as [->|Hne].
  - rewrite lookup_delete_eq, decide_True by (by left). done.
  - rewrite lookup_delete_ne, IH by done. apply decide_ext. rewrite elem_of_cons. naive_solver.
Qed.
