(* ===== verification/AllocationProofs.v ===== *)
(** What [_process_allocations] does to the database: the rows it writes are those
    of the form, and the allocations it returns are their positive quantities. *)
From S2P Require Import Prelude PyStr Schema Ledger Reservation ReservationProofs ReliefRequest ItemStatus BatchAllocation Dispatch Packaging Coverage.

(** One row of the form, resolved against the batch table: batch, warehouse,
    quantity and unit. *)
Abbreviation FormRow := (Z * Z * Z * string)%type.

Definition row_of (d : DB) (e : Z * Z) : option FormRow :=
  if e.1 <=? 0 then None else
  (λ b, (e.1, ib_inventory_id b, e.2, ib_uom_code b)) <$> db_itembatch d !! e.1.

Definition rows_of (d : DB) (entries : list (Z * Z)) : list FormRow := omap (row_of d) entries.

Definition row_qty (e : FormRow) : Z := e.1.2.

Definition alloc_of_row (it : Z) (e : FormRow) : Alloc := mkAlloc it e.1.1.1 (Some e.1.1.2) (row_qty e).

Definition allocs_of (it : Z) (l : list FormRow) : list Alloc :=
  alloc_of_row it <$> filter (λ e, 0 < row_qty e) l.

Lemma allocs_of_app it l1 l2 : allocs_of it (l1 ++ l2) = allocs_of it l1 ++ allocs_of it l2.
Proof. unfold allocs_of. by rewrite filter_app, fmap_app. Qed.

(** A positive row names a batch of the item. *)
Definition row_ok (d : DB) (it : Z) (e : FormRow) : Prop :=
  0 < row_qty e → ∃ b, db_itembatch d !! e.1.1.1 = Some b ∧ ib_item_id b = it ∧ ib_inventory_id b = e.1.1.2.

(** What [m_for] over row insertions amounts to. *)
Definition put_items (vs : list ReliefPkgItem) (m : gmap (Z * Z * Z * Z) ReliefPkgItem) :=
  foldl (λ m v, <[pi_pk v:=v]> m) m vs.

Definition put_rqst_items (us : list ReliefRqstItem) (m : gmap (Z * Z) ReliefRqstItem) :=
  foldl (λ m u, <[(ri_reliefrqst_id u, ri_item_id u):=u]> m) m us.

Lemma put_items_app vs ws m : put_items (vs ++ ws) m = put_items ws (put_items vs m).
Proof. apply foldl_app. Qed.

Lemma put_items_notin vs m k : k ∉ pi_pk <$> vs → put_items vs m !! k = m !! k.
Proof.
  revert m. induction vs as [|v vs IH]; intros m Hk; [done|]. csimpl in Hk.
  apply not_elem_of_cons in Hk as [H1 H2]. simpl. rewrite IH by done. by apply lookup_insert_ne.
Qed.

Lemma put_items_in vs m v : NoDup (pi_pk <$> vs) → v ∈ vs → put_items vs m !! pi_pk v = Some v.
Proof.
  revert m. induction vs as [|w vs IH]; intros m Hnd Hv; [set_solver|]. csimpl in Hnd.
  apply NoDup_cons in Hnd as [Hw Hnd]. simpl. apply elem_of_cons in Hv as [->|Hv]; [|by apply IH].
  rewrite put_items_notin by done. apply lookup_insert_eq.
Qed.

Lemma put_items_keyed vs m :
  map_Forall (λ k v, pi_pk v = k) m → map_Forall (λ k v, pi_pk v = k) (put_items vs m).
Proof.
  revert m. induction vs as [|v vs IH]; intros m Hm; [done|]. simpl. apply IH.
  by apply map_Forall_insert_2.
Qed.

Lemma put_rqst_items_keyed us m :
  map_Forall (λ k v, (ri_reliefrqst_id v, ri_item_id v) = k) m →
  map_Forall (λ k v, (ri_reliefrqst_id v, ri_item_id v) = k) (put_rqst_items us m).
Proof.
  revert m. induction us as [|v us IH]; intros m Hm; [done|]. simpl. apply IH.
  by apply map_Forall_insert_2.
Qed.

(** Both item tables, and nothing else. *)
Definition put_rows (vs : list ReliefPkgItem) (us : list ReliefRqstItem) (d : DB) : DB :=
  set_db_rqst_item (put_rqst_items us (db_rqst_item d))
    (set_db_pkg_item (put_items vs (db_pkg_item d)) d).

Lemma put_rows_app vs vs' us us' d :
  put_rows (vs ++ vs') (us ++ us') d = put_rows vs' us' (put_rows vs us d).
Proof. unfold put_rows. simpl. unfold put_rqst_items. by rewrite put_items_app, foldl_app. Qed.

Lemma put_rows_nil d : put_rows [] [] d = d.
Proof. by destruct d. Qed.

(** * The walk over one item's entries *)

Section walk.
Context `{R : Runtime} (cx : Ctx).

Lemma walk_entry_run old it w e s w' s' :
  keyed_inventory (work s) →
  run_ok (walk_entry cx old it w e) s w' s' →
  s' = s ∧ iw_total w' = iw_total w + lsum row_qty (rows_of (work s) [e]) ∧
  iw_batches w' = iw_batches w ++ rows_of (work s) [e] ∧
  iw_new w' = iw_new w ++ allocs_of it (rows_of (work s) [e]) ∧
  Forall (row_ok (work s) it) (rows_of (work s) [e]).
Proof.
  intros Hki. destruct e as [bid q]. unfold walk_entry, rows_of. simpl. unfold row_of. simpl.
  destruct (Z.leb_spec bid 0) as [_|_].
  { intros [-> ->]%run_ret. simpl. by rewrite !app_nil_r, Z.add_0_r. }
  rewrite run_get. destruct (db_itembatch (work s) !! bid) as [b|] eqn:Hb; [|done]. simpl.
  rewrite bind_ok. intros (u & s1 & H1 & H2).
  assert (s1 = s ∧ (0 < q → ib_item_id b = it)) as [-> Hit].
  { destruct (0 <? q) eqn:Hq; [|apply run_ret in H1 as [_ ->]; z_bool; split; [done|lia]].
    destruct (validate_batch_allocation _ _ _ _ _ _) as [|[]] eqn:Hv; [done|].
    apply run_ret in H1 as [_ ->]. split; [done|]. intros _.
    unfold validate_batch_allocation in Hv. rewrite Hb in Hv.
    destruct (ib_item_id b =? it) eqn:E; [by apply Z.eqb_eq|done]. }
  unfold allocs_of, row_ok, row_qty.
  destruct (0 <? q) eqn:Hq; z_bool.
  - destruct (find_inventory _ _ _) as [i|] eqn:Hi; [|done]. apply run_ret in H2 as [-> ->]. simpl.
    pose proof (Hki _ _ Hi) as Hki'. simpl in Hki'. injection Hki' as Hi1 Hi2.
    rewrite filter_cons, decide_True by done. unfold alloc_of_row, row_qty. simpl. rewrite Hi1.
    split_and!; [done|lia|done..|]. repeat constructor. simpl. intros _. exists b. auto.
  - apply run_ret in H2 as [-> ->]. simpl. rewrite filter_cons, decide_False by (simpl; lia).
    simpl. rewrite app_nil_r. split_and!; [done|lia|done..|]. repeat constructor. simpl. lia.
Qed.

Lemma walk_run old it entries w s w' s' :
  keyed_inventory (work s) →
  run_ok (m_fold entries w (walk_entry cx old it)) s w' s' →
  s' = s ∧ iw_total w' = iw_total w + lsum row_qty (rows_of (work s) entries) ∧
  iw_batches w' = iw_batches w ++ rows_of (work s) entries ∧
  iw_new w' = iw_new w ++ allocs_of it (rows_of (work s) entries) ∧
  Forall (row_ok (work s) it) (rows_of (work s) entries).
Proof.
  intros Hki. revert w. induction entries as [|e entries IH]; intros w.
  { intros [= <- <-]. unfold rows_of. simpl. by rewrite !app_nil_r, Z.add_0_r. }
  change (run_ok (walk_entry cx old it w e ≫= λ w1, m_fold entries w1 (walk_entry cx old it)) s w' s' → 
    s' = s ∧ iw_total w' = iw_total w + lsum row_qty (rows_of (work s) (e :: entries)) ∧
    iw_batches w' = iw_batches w ++ rows_of (work s) (e :: entries) ∧
    iw_new w' = iw_new w ++ allocs_of it (rows_of (work s) (e :: entries)) ∧
    Forall (row_ok (work s) it) (rows_of (work s) (e :: entries))).
  rewrite bind_ok. intros (w1 & s1 & H1 & H2).
  apply walk_entry_run in H1 as (-> & T1 & B1 & N1 & F1); [|done].
  apply IH in H2 as (-> & T2 & B2 & N2 & F2).
  assert (rows_of (work s) (e :: entries) = rows_of (work s) [e] ++ rows_of (work s) entries) as ->
    by (unfold rows_of; by rewrite <- omap_app).
  rewrite allocs_of_app, lsum_app, Forall_app, T2, B2, N2, T1, B1, N1, !app_assoc.
  split_and!; done || lia.
Qed.
End walk.

(** * The rows of one item, and of all items *)

(** A package item record written for the row [e]. *)
Definition records (pkg it : Z) (e : FormRow) (v : ReliefPkgItem) : Prop :=
  pi_pk v = (pkg, e.1.1.2, e.1.1.1, it) ∧ pi_item_qty v = row_qty e.

Definition present (existing : list ReliefPkgItem) (d : DB) : Prop :=
  ∀ v, v ∈ existing → is_Some (db_pkg_item d !! pi_pk v).

Lemma present_put existing vs us d : present existing d → present existing (put_rows vs us d).
Proof.
  intros Hp v Hv. specialize (Hp v Hv). unfold put_rows. simpl.
  revert Hp. generalize (db_pkg_item d) as m. induction vs as [|w vs IH]; intros m Hm; [done|].
  simpl. apply IH. destruct (decide (pi_pk w = pi_pk v)) as [->|];
    [rewrite lookup_insert_eq|rewrite lookup_insert_ne by done]; eauto.
Qed.

(** A batch table and an inventory table: what the walk reads. *)
Lemma rows_of_frame vs us d entries : rows_of (put_rows vs us d) entries = rows_of d entries.
Proof. done. Qed.

Section process.
Context `{R : Runtime} (cx : Ctx).

Lemma upsert_run pkg existing it e s s' :
  keyed_pkg_items (work s) → present existing (work s) →
  run_ok (upsert_item cx pkg existing it e) s tt s' →
  ∃ v, records pkg it e v ∧ s' = upd_work (put_rows [v] []) s.
Proof.
  intros Hk Hpr. destruct e as [[[bid wh] q] uom]. unfold upsert_item. rewrite run_get.
  assert (∀ v, upd_work (put_pkg_item v) s = upd_work (put_rows [v] []) s) as Hput
    by (intros v; unfold upd_work, put_rows, put_pkg_item; simpl; by destruct (work s)).
  case_bool_decide as Hin.
  - apply list_elem_of_fmap in Hin as (w & Hw & Hin). destruct (Hpr w Hin) as [v Hv].
    rewrite <- Hw in Hv. rewrite Hv. rewrite run_mod_last, Hput. intros ->. eexists. split; [|done].
    pose proof (Hk _ _ Hv) as Hpk. simpl in Hpk. split; [exact Hpk|done].
  - destruct (db_pkg_item (work s) !! _) eqn:E; [done|]. rewrite run_mod_last, Hput. intros ->.
    eexists. split; [|done]. done.
Qed.

Lemma upserts_run pkg existing it rows s s' :
  keyed_pkg_items (work s) → present existing (work s) →
  run_ok (m_for rows (upsert_item cx pkg existing it)) s tt s' →
  ∃ vs, Forall2 (records pkg it) rows vs ∧ s' = upd_work (put_rows vs []) s.
Proof.
  revert s. induction rows as [|e rows IH]; intros s Hk Hpr.
  - rewrite for_nil. intros ->. exists []. split; [constructor|].
    unfold upd_work. rewrite put_rows_nil. by destruct s.
  - rewrite for_cons. intros (s1 & H1 & H2). apply upsert_run in H1 as (v & Hv & ->); [|done..].
    apply IH in H2 as (vs & Hvs & ->); last first.
    + by apply present_put.
    + by apply (put_items_keyed [v]).
    + exists (v :: vs). split; [by constructor|]. unfold upd_work. simpl.
      by rewrite <- put_rows_app.
Qed.

(** The status the form asks for, or the one the quantities give. *)
Definition status_for (item : ReliefRqstItem) (total : Z) : string :=
  default (calculated_status total (ri_request_qty item)) (form_status (cx_form cx (ri_item_id item))).

Definition item_rows (d : DB) (item : ReliefRqstItem) : list FormRow :=
  rows_of d (if_batches (cx_form cx (ri_item_id item))).

Definition item_total (d : DB) (item : ReliefRqstItem) : Z := lsum row_qty (item_rows d item).

Definition item_after (d : DB) (item : ReliefRqstItem) : ReliefRqstItem :=
  updated_item cx (status_for item (item_total d item)) (item_total d item)
    (if_reason (cx_form cx (ri_item_id item))) item.

(** What the form must satisfy for an item to be processed. *)
Definition item_accepted (complete : bool) (d : DB) (item : ReliefRqstItem) : Prop :=
  item_total d item ≤ ri_request_qty item ∧
  (complete = true → item_total d item < ri_request_qty item →
   allows_partial (cx_form cx (ri_item_id item)) = true) ∧
  Forall (row_ok d (ri_item_id item)) (item_rows d item).

Lemma process_item_run complete pkg existing old acc item s acc' s' :
  keyed_inventory (work s) → keyed_pkg_items (work s) → present existing (work s) →
  run_ok (process_item cx complete pkg existing old acc item) s acc' s' →
  ∃ vs, Forall2 (records pkg (ri_item_id item)) (item_rows (work s) item) vs ∧
    s' = upd_work (put_rows vs [item_after (work s) item]) s ∧
    pr_keys acc' = pr_keys acc ++ (pi_pk <$> vs) ∧
    pr_new acc' = pr_new acc ++ allocs_of (ri_item_id item) (item_rows (work s) item) ∧
    item_accepted complete (work s) item.
Proof.
  intros Hki Hkp Hpr. unfold process_item. rewrite bind_ok. intros (w & s1 & H1 & H2).
  apply walk_run in H1 as (-> & Ht & Hb & Hn & Hf); [|done]. simpl in Ht, Hb, Hn.
  rewrite Z.add_0_l in Ht.
  rewrite !run_fail_if in H2. destruct H2 as (Hq & Hc & H2).
  unfold validate_quantity_limit in Hq.
  destruct (validate_status_transition _ _ _ _ _ _) as [|u]; [done|].
  rewrite run_mod, seq_ok in H2. destruct H2 as (s2 & H2 & H3).
  apply upserts_run in H2 as (vs & Hvs & ->); [|done..].
  apply run_ret in H3 as [-> ->]. rewrite Hb in Hvs. exists vs. split_and!.
  - exact Hvs.
  - unfold upd_work, item_after, status_for, item_total, item_rows. by rewrite <- Ht.
  - simpl. f_equal. rewrite Hb. clear -Hvs. induction Hvs as [|e v l l' [He _] _ IH]; [done|].
    csimpl. by rewrite He, IH.
  - simpl. by rewrite Hn.
  - unfold item_accepted, item_total, item_rows. rewrite <- Ht. z_bool. split_and!; [lia| |done].
    intros -> Hlt. rewrite (proj2 (Z.ltb_lt _ _) Hlt) in Hc. simpl in Hc. by z_bool.
Qed.
End process.

(** * The loop over the request's items *)

Section process_loop.
Context `{R : Runtime} (cx : Ctx).

(** Every row of the form, with the item it is for. *)
Definition form_rows (d : DB) (items : list ReliefRqstItem) : list (Z * FormRow) :=
  items ≫= λ item, (λ e, (ri_item_id item, e)) <$> item_rows cx d item.

Definition form_allocs (l : list (Z * FormRow)) : list Alloc :=
  (λ x, alloc_of_row x.1 x.2) <$> filter (λ x, 0 < row_qty x.2) l.

Definition records_form (pkg : Z) (x : Z * FormRow) (v : ReliefPkgItem) : Prop := records pkg x.1 x.2 v.

Lemma form_allocs_item it l : form_allocs ((λ e, (it, e)) <$> l) = allocs_of it l.
Proof.
  unfold form_allocs, allocs_of. induction l as [|e l IH]; [done|]. csimpl. rewrite !filter_cons. simpl.
  case_decide; [|done]. csimpl. by rewrite IH.
Qed.

Lemma process_loop_run complete pkg existing old items acc s acc' s' :
  keyed_inventory (work s) → keyed_pkg_items (work s) → present existing (work s) →
  run_ok (m_fold items acc (process_item cx complete pkg existing old)) s acc' s' →
  ∃ vs, Forall2 (records_form pkg) (form_rows (work s) items) vs ∧
    s' = upd_work (put_rows vs (item_after cx (work s) <$> items)) s ∧
    pr_keys acc' = pr_keys acc ++ (pi_pk <$> vs) ∧
    pr_new acc' = pr_new acc ++ form_allocs (form_rows (work s) items) ∧
    Forall (item_accepted cx complete (work s)) items.
Proof.
  revert acc s. induction items as [|item items IH]; intros acc s Hki Hkp Hpr.
  { intros [= <- <-]. exists []. simpl. rewrite !app_nil_r. split_and!; [constructor| |done..].
    unfold upd_work. rewrite put_rows_nil. by destruct s. }
  simpl. change (run_ok (process_item cx complete pkg existing old acc item ≫= λ acc1,
    m_fold items acc1 (process_item cx complete pkg existing old)) s acc' s' → 
    ∃ vs, Forall2 (records_form pkg) (form_rows (work s) (item :: items)) vs ∧
      s' = upd_work (put_rows vs (item_after cx (work s) <$> (item :: items))) s ∧
      pr_keys acc' = pr_keys acc ++ (pi_pk <$> vs) ∧
      pr_new acc' = pr_new acc ++ form_allocs (form_rows (work s) (item :: items)) ∧
      Forall (item_accepted cx complete (work s)) (item :: items)).
  rewrite bind_ok. intros (acc1 & s1 & H1 & H2).
  apply process_item_run in H1 as (vs1 & Hv1 & -> & K1 & N1 & A1); [|done..].
  apply IH in H2 as (vs2 & Hv2 & -> & K2 & N2 & A2); [|done|by apply put_items_keyed|by apply present_put].
  exists (vs1 ++ vs2). simpl in *. split_and!.
  - apply Forall2_app; [|exact Hv2]. apply Forall2_fmap_l. exact Hv1.
  - unfold upd_work. simpl. f_equal. symmetry.
    exact (put_rows_app vs1 vs2 [item_after cx (work s) item] (item_after cx (work s) <$> items) (work s)).
  - by rewrite K2, K1, fmap_app, app_assoc.
  - rewrite N2, N1. unfold form_allocs at 2. rewrite filter_app, fmap_app.
    fold (form_allocs ((λ e, (ri_item_id item, e)) <$> item_rows cx (work s) item)).
    rewrite form_allocs_item. by rewrite app_assoc.
  - by constructor.
Qed.

(** Distinct items and distinct batch ids make distinct keys. *)
Definition form_ok : Prop :=
  ∀ it, NoDup (if_batches (cx_form cx it)).*1 ∧ Forall (λ e, 0 ≤ e.2) (if_batches (cx_form cx it)).

Definition row_key (pkg : Z) (x : Z * FormRow) : Z * Z * Z * Z := (pkg, x.2.1.1.2, x.2.1.1.1, x.1).

Lemma rows_of_nodup d entries :
  NoDup entries.*1 → NoDup ((λ e : FormRow, e.1.1.1) <$> rows_of d entries).
Proof.
  induction entries as [|[bid q] entries IH]; intros Hnd; [constructor|]. csimpl in Hnd.
  apply NoDup_cons in Hnd as [Hb Hnd]. unfold rows_of. simpl.
  destruct (row_of d (bid, q)) as [e|] eqn:He; [|by apply IH]. csimpl. constructor; [|by apply IH].
  intros Hin. apply Hb. apply list_elem_of_fmap in Hin as (e' & Heq & Hin).
  apply list_elem_of_omap in Hin as ([bid' q'] & Hin & He').
  unfold row_of in He, He'. simpl in *.
  destruct (bid <=? 0); [done|]. destruct (bid' <=? 0); [done|].
  destruct (db_itembatch d !! bid); [|done]. destruct (db_itembatch d !! bid'); [|done].
  simplify_eq/=. apply list_elem_of_fmap. by eexists (_, q').
Qed.

Lemma form_rows_nodup pkg d items :
  form_ok → NoDup (ri_item_id <$> items) → NoDup (row_key pkg <$> form_rows d items).
Proof.
  intros Hf. induction items as [|item items IH]; intros Hnd; [constructor|]. csimpl in Hnd.
  apply NoDup_cons in Hnd as [Hi Hnd]. unfold form_rows. simpl. rewrite fmap_app.
  apply NoDup_app. split_and!; [| |by apply IH].
  - rewrite <- list_fmap_compose. destruct (Hf (ri_item_id item)) as [Hf1 _].
    apply (rows_of_nodup d) in Hf1. revert Hf1. unfold item_rows. generalize (rows_of d (if_batches (cx_form cx (ri_item_id item)))).
    intros l. induction l as [|e l IHl]; intros Hl; [constructor|]. csimpl in *.
    apply NoDup_cons in Hl as [He Hl]. constructor; [|by apply IHl].
    intros Hin. apply He. apply list_elem_of_fmap in Hin as (e' & Heq & Hin).
    unfold row_key in Heq. simpl in Heq. simplify_eq. apply list_elem_of_fmap. by exists e'.
  - intros k H1 H2. apply Hi.
    apply list_elem_of_fmap in H1 as (x & -> & H1). apply list_elem_of_fmap in H1 as (e & -> & _).
    apply list_elem_of_fmap in H2 as (y & Heq & H2). apply list_elem_of_bind in H2 as (item' & H2 & Hin).
    apply list_elem_of_fmap in H2 as (e' & -> & _). unfold row_key in Heq. simpl in Heq.
    apply list_elem_of_fmap. exists item'. split; [congruence|done].
Qed.

Lemma form_rows_nonneg d items x : form_ok → x ∈ form_rows d items → 0 ≤ row_qty x.2.
Proof.
  intros Hf Hx. apply list_elem_of_bind in Hx as (item & Hx & _).
  apply list_elem_of_fmap in Hx as (e & -> & He). simpl.
  apply list_elem_of_omap in He as ([bid q] & Hin & He). destruct (Hf (ri_item_id item)) as [_ Hq].
  rewrite Forall_forall in Hq. specialize (Hq _ Hin). simpl in Hq. unfold row_of in He. simpl in He.
  destruct (bid <=? 0); [done|]. destruct (db_itembatch d !! bid); [|done]. simplify_eq/=. done.
Qed.
End process_loop.

(** * The whole of _process_allocations *)

(** The database once the form is processed. *)
Definition allocated (pid : Z) (existing vs : list ReliefPkgItem) (us : list ReliefRqstItem) (d : DB) : DB :=
  delete_pkg_items (filter (λ v, pi_pk v ∉ pi_pk <$> vs) existing) (put_rows vs us d).

(** The package the request is served by: the one found, or a new one. *)
Definition target `{Runtime} (cx : Ctx) (r : ReliefRqst) (d : DB) (p : ReliefPkg) (d1 : DB) : Prop :=
  (first_pkg_of (rq_reliefrqst_id r) d = Some p ∧ d1 = d) ∨
  (first_pkg_of (rq_reliefrqst_id r) d = None ∧ p = new_package cx r ∧ d1 = put_pkg p d).

Section process_all.
Context `{R : Runtime} (cx : Ctx).

Lemma items_of_nodup rq d : keyed_rqst_items d → NoDup (ri_item_id <$> items_of rq d).
Proof.
  intros Hk. set (pk := λ v, (ri_reliefrqst_id v, ri_item_id v)).
  assert (NoDup (pk <$> rqst_item_rows (db_rqst_item d))) as Hnd.
  { rewrite (rqst_item_rows_perm (db_rqst_item d)).
    assert (pk <$> (map_to_list (db_rqst_item d)).*2 = (map_to_list (db_rqst_item d)).*1) as ->.
    { rewrite <- list_fmap_compose. apply list_fmap_ext. intros i [k v] Hi. simpl.
      apply list_elem_of_lookup_2, elem_of_map_to_list in Hi. by apply Hk. }
    apply NoDup_fst_map_to_list. }
  unfold items_of. revert Hnd. generalize (rqst_item_rows (db_rqst_item d)).
  intros l Hnd. apply (nodup_fmap_filter pk (λ v, ri_reliefrqst_id v = rq)) in Hnd.
  assert (∀ v, v ∈ filter (λ v, ri_reliefrqst_id v = rq) l → ri_reliefrqst_id v = rq) as Hrq
    by (intros v Hv; by apply list_elem_of_filter in Hv as [? _]).
  revert Hrq Hnd. generalize (filter (λ v, ri_reliefrqst_id v = rq) l). clear.
  intros l Hrq. induction l as [|v l IH]; intros Hnd; [constructor|]. csimpl in *.
  apply NoDup_cons in Hnd as [Hv Hnd]. constructor; [|by apply IH; [intros w Hw; apply Hrq; right|]].
  intros Hin. apply Hv. apply list_elem_of_fmap in Hin as (w & Heq & Hw).
  apply list_elem_of_fmap. exists w. split; [|done]. unfold pk. rewrite Heq.
  rewrite (Hrq v), (Hrq w); [done|by right|by left].
Qed.

Lemma target_keyed r d p d1 :
  well_keyed d → db_pkg d !! cx_new_pkg_id cx = None → target cx r d p d1 →
  well_keyed d1 ∧ db_pkg d1 !! pkg_reliefpkg_id p = Some p ∧ pkg_reliefrqst_id p = rq_reliefrqst_id r ∧
  others_same (pkg_reliefpkg_id p) d d1.
Proof.
  intros Hw Hnew [[Hf ->]|(Hf & -> & ->)].
  - destruct (first_pkg_Some _ _ _ (proj1 (proj2 (proj2 Hw))) Hf) as [Hp Hrq]. split_and!; done.
  - destruct Hw as (W1 & W2 & W3 & W4 & W5 & W6 & W7 & W8 & W9).
    split_and!; [|apply lookup_insert_eq|done|]; last first.
    { split; intros k Hk; [|done]. simpl. by apply lookup_insert_ne. }
    unfold well_keyed, put_pkg. split_and!; try done; simpl.
    + unfold keyed_pkgs. simpl. by apply map_Forall_insert_2.
    + intros k1 p1 H1 k2 p2 H2 Heq. simpl in H1, H2.
      apply lookup_insert_Some in H1 as [[<- <-]|[Hn1 H1]], H2 as [[<- <-]|[Hn2 H2]]; try done.
      * exfalso. eapply first_pkg_None; [exact Hf|exact H2|done].
      * exfalso. eapply first_pkg_None; [exact Hf|exact H1|done].
      * by eapply W7.
    + intros k v Hv. simpl. destruct (W8 k v Hv) as [q Hq].
      destruct (decide (cx_new_pkg_id cx = pi_reliefpkg_id v)) as [->|];
        [rewrite lookup_insert_eq|rewrite lookup_insert_ne by done]; eauto.
Qed.

Lemma process_run complete r s allocs old s' :
  well_keyed (work s) → form_ok cx → db_pkg (work s) !! cx_new_pkg_id cx = None →
  run_ok (process_allocations cx r complete) s (allocs, old) s' →
  let d := work s in let items := items_of (rq_reliefrqst_id r) d in
  ∃ p d1 vs, target cx r d p d1 ∧
    Forall2 (records_form (pkg_reliefpkg_id p)) (form_rows cx d items) vs ∧
    s' = upd_work (λ _, allocated (pkg_reliefpkg_id p) (pkg_items_of (pkg_reliefpkg_id p) d1) vs
                          (item_after cx d <$> items) d1) s ∧
    allocs = form_allocs (form_rows cx d items) ∧
    old = (λ v, (batch_key v, pi_item_qty v)) <$> pkg_items_of (pkg_reliefpkg_id p) d1 ∧
    Forall (item_accepted cx complete d) items.
Proof.
  intros Hw Hf Hnew. unfold process_allocations. rewrite bind_ok. intros (p & s1 & H1 & H2). simpl.
  assert (∃ d1, target cx r (work s) p d1 ∧ s1 = upd_work (λ _, d1) s) as (d1 & Ht & ->).
  { unfold get_or_create_package in H1. rewrite run_get in H1. unfold target.
    destruct (first_pkg_of _ (work s)) as [p0|].
    - apply run_ret in H1 as [-> ->]. exists (work s). split; [by left|]. unfold upd_work. by destruct s.
    - rewrite run_mod in H1. apply run_ret in H1 as [-> ->]. eexists. split; [by right|]. done. }
  destruct (target_keyed _ _ _ _ Hw Hnew Ht) as ((W1 & W2 & W3 & W4 & W5 & W6 & W7 & W8 & W9) & Hp & Hrq & _).
  assert (db_itembatch d1 = db_itembatch (work s) ∧ db_rqst_item d1 = db_rqst_item (work s)) as [E1 E2]
    by (destruct Ht as [[_ ->]|(_ & _ & ->)]; done).
  assert (∀ item, item_rows cx d1 item = item_rows cx (work s) item) as E3
    by (intros item; unfold item_rows, rows_of, row_of; by rewrite E1).
  assert (items_of (rq_reliefrqst_id r) d1 = items_of (rq_reliefrqst_id r) (work s)) as E4
    by (unfold items_of; by rewrite E2).
  rewrite run_get in H2. simpl in H2. rewrite bind_ok in H2. destruct H2 as (acc & s2 & H2 & H3).
  apply process_loop_run in H2 as (vs & Hvs & -> & K & N & A); [|done..|]; last first.
  { intros v Hv. simpl. apply elem_of_pkg_items in Hv as [_ Hv]; [|done]. eauto. }
  simpl in *. rewrite run_mod in H3. apply run_ret in H3 as [Ha ->]. simplify_eq.
  assert (form_rows cx d1 (items_of (rq_reliefrqst_id r) d1) =
          form_rows cx (work s) (items_of (rq_reliefrqst_id r) (work s))) as E5.
  { rewrite E4. unfold form_rows. apply list_bind_ext; [|done]. intros item. by rewrite E3. }
  assert (item_after cx d1 <$> items_of (rq_reliefrqst_id r) d1 =
          item_after cx (work s) <$> items_of (rq_reliefrqst_id r) (work s)) as E6.
  { rewrite E4. apply list_fmap_ext. intros _ item _. unfold item_after, item_total. by rewrite E3. }
  exists p, d1, vs. rewrite <- E5, <- E6. split_and!; [done|exact Hvs| |exact N| |].
  - unfold upd_work, allocated. simpl. by rewrite K.
  - rewrite (foldl_dict_set (λ _, true) batch_key pi_item_qty).
    + simpl. f_equal. f_equal. clear. induction (pkg_items_of _ d1) as [|v l IH]; [done|].
      rewrite filter_cons, decide_True by done. by rewrite IH.
    + simpl. apply nodup_fmap_filter. apply batch_key_nodup. by apply item3_nodup.
  - rewrite E4 in A. eapply Forall_impl; [exact A|]. intros item (A1 & A2 & A3). unfold item_accepted, item_total in *.
    rewrite E3 in *. split_and!; [done..|]. eapply Forall_impl; [exact A3|]. unfold row_ok. by rewrite E1.
Qed.
End process_all.

(** * The package after the form, and the change of its reservations *)

Definition akey (k : Z * Z * Z) : AllocKey := (k.1.1, Some k.1.2, k.2).

Lemma forall2_elem_l {A B} (P : A → B → Prop) l k x :
  Forall2 P l k → x ∈ l → ∃ y, y ∈ k ∧ P x y.
Proof.
  intros H. induction H as [|a b l k Hab _ IH]; intros Hx; [set_solver|].
  apply elem_of_cons in Hx as [->|Hx]; [exists b; split; [by left|done]|].
  destruct (IH Hx) as (y & ? & ?). exists y. split; [by right|done].
Qed.

Lemma forall2_elem_r {A B} (P : A → B → Prop) l k y :
  Forall2 P l k → y ∈ k → ∃ x, x ∈ l ∧ P x y.
Proof. intros H Hy. apply Forall2_flip in H. by eapply forall2_elem_l in H. Qed.

Lemma nodup_fmap_eq {A B} (f : A → B) (l : list A) x y :
  NoDup (f <$> l) → x ∈ l → y ∈ l → f x = f y → x = y.
Proof.
  induction l as [|a l IH]; intros Hnd Hx Hy Heq; [set_solver|]. csimpl in Hnd.
  apply NoDup_cons in Hnd as [Ha Hnd]. apply elem_of_cons in Hx as [->|Hx], Hy as [->|Hy]; auto.
  - destruct Ha. rewrite Heq. by apply list_elem_of_fmap_2.
  - destruct Ha. rewrite <- Heq. by apply list_elem_of_fmap_2.
Qed.

Lemma records_keys pid (rows : list (Z * FormRow)) vs :
  Forall2 (records_form pid) rows vs → pi_pk <$> vs = row_key pid <$> rows.
Proof. intros H. induction H as [|x v l k [Hk _] _ IH]; [done|]. csimpl. by rewrite Hk, IH. Qed.

Section delta.
Context `{R : Runtime} (pid : Z) (d1 : DB) (vs : list ReliefPkgItem) (us : list ReliefRqstItem).
Context (rows : list (Z * FormRow)).
Hypothesis Hkeyed : keyed_pkg_items d1.
Hypothesis Hrows : Forall2 (records_form pid) rows vs.
Hypothesis Hnodup : NoDup (row_key pid <$> rows).
Hypothesis Hnonneg : ∀ x, x ∈ rows → 0 ≤ row_qty x.2.

Abbreviation d2 := (allocated pid (pkg_items_of pid d1) vs us d1).

Lemma vs_pid v : v ∈ vs → (pi_pk v).1.1.1 = pid.
Proof.
  intros Hv. destruct (forall2_elem_r _ _ _ _ Hrows Hv) as (x & _ & [Hk _]). by rewrite Hk.
Qed.

Lemma allocated_in v : v ∈ vs → db_pkg_item d2 !! pi_pk v = Some v.
Proof.
  intros Hv. unfold allocated. rewrite delete_items_lookup, decide_False.
  - simpl. apply put_items_in; [|done]. by rewrite (records_keys pid rows).
  - intros Hin. apply list_elem_of_fmap in Hin as (w & Hw & Hin).
    apply list_elem_of_filter in Hin as [Hno _]. apply Hno. rewrite <- Hw. by apply list_elem_of_fmap_2.
Qed.

Lemma allocated_notin k : k.1.1.1 = pid → k ∉ pi_pk <$> vs → db_pkg_item d2 !! k = None.
Proof.
  intros Hp Hk. unfold allocated. rewrite delete_items_lookup. case_decide as Hdel; [done|].
  simpl. rewrite put_items_notin by done. destruct (db_pkg_item d1 !! k) as [v|] eqn:E; [|done].
  exfalso. apply Hdel. pose proof (Hkeyed k v E) as Hv. simpl in Hv. rewrite <- Hv.
  apply list_elem_of_fmap_2. apply list_elem_of_filter. split; [by rewrite Hv|].
  apply elem_of_pkg_items; [done|]. rewrite Hv. split; [|done]. rewrite <- Hp, <- Hv. done.
Qed.

Lemma allocated_other k : k.1.1.1 ≠ pid → db_pkg_item d2 !! k = db_pkg_item d1 !! k.
Proof.
  intros Hk. unfold allocated. rewrite delete_items_lookup, decide_False.
  - simpl. apply put_items_notin. intros Hin. apply list_elem_of_fmap in Hin as (v & -> & Hv).
    by rewrite vs_pid in Hk.
  - intros Hin. apply list_elem_of_fmap in Hin as (v & -> & Hin).
    apply list_elem_of_filter in Hin as [_ Hin]. apply elem_of_pkg_items in Hin as [Hp _]; done.
Qed.

Lemma allocated_values k v : db_pkg_item d2 !! k = Some v → v ∈ vs ∨ db_pkg_item d1 !! k = Some v.
Proof.
  destruct (decide (k.1.1.1 = pid)) as [Hp|Hp]; [|rewrite allocated_other by done; auto].
  destruct (decide (k ∈ pi_pk <$> vs)) as [Hin|Hin]; [|by rewrite allocated_notin].
  apply list_elem_of_fmap in Hin as (w & -> & Hw). rewrite allocated_in by done.
  intros [= ->]. by left.
Qed.

Lemma allocated_kept :
  items_nonneg d1 → keyed_pkg_items d2 ∧ items_nonneg d2.
Proof.
  intros Hn. split; intros k v Hv; destruct (allocated_values k v Hv) as [Hin|Hv'].
  - destruct (decide (k.1.1.1 = pid)) as [Hk|Hk].
    + destruct (decide (k ∈ pi_pk <$> vs)) as [Hkin|Hkin].
      * apply list_elem_of_fmap in Hkin as (w & -> & Hw). rewrite (allocated_in w Hw) in Hv. congruence.
      * by rewrite allocated_notin in Hv.
    + rewrite allocated_other in Hv by done. by eapply Hkeyed.
  - by eapply Hkeyed.
  - destruct (forall2_elem_r _ _ _ _ Hrows Hin) as (x & Hx & [_ ->]). by apply Hnonneg.
  - by eapply Hn.
Qed.

Lemma new_reservations_rows :
  new_reservations (form_allocs rows) =
  (λ x, (akey (x.1, x.2.1.1.2, x.2.1.1.1), row_qty x.2)) <$> filter (λ x, 0 < row_qty x.2) rows.
Proof.
  unfold new_reservations.
  rewrite (foldl_dict_set (λ a, 0 <? al_allocated_qty a)
    (λ a, (al_item_id a, al_warehouse_id a, al_batch_id a)) al_allocated_qty).
  - simpl. unfold form_allocs. clear. induction rows as [|x l IH]; [done|]. rewrite filter_cons.
    case_decide as Hq; [|done]. csimpl. rewrite filter_cons, decide_True by (by apply Z.ltb_lt).
    csimpl. by rewrite IH.
  - simpl. apply nodup_fmap_filter. unfold form_allocs. rewrite <- list_fmap_compose.
    apply nodup_fmap_filter. clear -Hnodup. induction rows as [|x l IH]; [constructor|]. csimpl in *.
    apply NoDup_cons in Hnodup as [Hx Hnd]. constructor; [|by apply IH].
    intros Hin. apply Hx. apply list_elem_of_fmap in Hin as (y & Heq & Hy).
    apply list_elem_of_fmap. exists y. split; [|done]. unfold row_key. simpl in Heq. congruence.
Qed.

Lemma new_slot k : default 0 (dict_get (akey k) (new_reservations (form_allocs rows))) = slot d2 pid k.
Proof.
  rewrite new_reservations_rows. destruct k as [[it wh] bid]. unfold slot. simpl.
  destruct (decide ((pid, wh, bid, it) ∈ row_key pid <$> rows)) as [Hin|Hin].
  - apply list_elem_of_fmap in Hin as (x & Hx & Hin).
    destruct (forall2_elem_l _ _ _ _ Hrows Hin) as (v & Hv & [Hvk Hvq]).
    assert (pi_pk v = (pid, wh, bid, it)) as Hvk' by (rewrite Hvk; unfold row_key in Hx; congruence).
    rewrite <- Hvk', allocated_in by done. simpl. rewrite Hvq. unfold row_key in Hx. simplify_eq.
    destruct (decide (0 < row_qty x.2)) as [Hq|Hq].
    + erewrite dict_get_elem; [reflexivity| |].
      * rewrite <- list_fmap_compose. apply nodup_fmap_filter. clear -Hnodup.
        induction rows as [|y l IH]; [constructor|]. csimpl in *.
        apply NoDup_cons in Hnodup as [Hy Hnd]. constructor; [|by apply IH].
        intros Hin. apply Hy. apply list_elem_of_fmap in Hin as (z & Heq & Hz).
        apply list_elem_of_fmap. exists z. split; [|done]. unfold row_key, akey in *. simpl in *. congruence.
      * apply list_elem_of_fmap. exists x. split; [done|]. by apply list_elem_of_filter.
    + pose proof (Hnonneg x Hin). assert (row_qty x.2 = 0) as Hz by lia. rewrite Hz.
      rewrite (proj2 (dict_get_None _ _)); [done|]. rewrite <- list_fmap_compose.
      intros Hin2. apply list_elem_of_fmap in Hin2 as (y & Heq & Hy).
      apply list_elem_of_filter in Hy as [Hyq Hy]. unfold akey in Heq. simpl in Heq. simplify_eq.
      assert (y = x) as ->; [|lia]. eapply (nodup_fmap_eq (row_key pid) rows); [done..|].
      unfold row_key. congruence.
  - rewrite allocated_notin; [|done|by rewrite (records_keys pid rows)]. simpl.
    rewrite (proj2 (dict_get_None _ _)); [done|]. rewrite <- list_fmap_compose.
    intros Hin2. apply Hin. apply list_elem_of_fmap in Hin2 as (y & Heq & Hy).
    apply list_elem_of_filter in Hy as [_ Hy]. unfold akey in Heq. simpl in Heq. simplify_eq.
    by apply (list_elem_of_fmap_2 (row_key pid)).
Qed.

Lemma old_slot k :
  default 0 (dict_get (akey k) ((λ v, (batch_key v, pi_item_qty v)) <$> pkg_items_of pid d1)) = slot d1 pid k.
Proof.
  set (l := pkg_items_of pid d1). assert (NoDup (batch_key <$> l)) as Hnd
    by (apply batch_key_nodup; by apply item3_nodup).
  destruct (decide (k ∈ item3 <$> l)) as [Hin|Hin].
  - apply list_elem_of_fmap in Hin as (v & -> & Hv). rewrite slot_item by done.
    erewrite dict_get_elem; [reflexivity|by rewrite <- list_fmap_compose|].
    apply list_elem_of_fmap. by exists v.
  - rewrite slot_none; [|done|].
    + rewrite (proj2 (dict_get_None _ _)); [done|]. rewrite <- list_fmap_compose. intros Hin2. apply Hin.
      apply list_elem_of_fmap in Hin2 as (v & Heq & Hv). apply list_elem_of_fmap. exists v.
      split; [|done]. destruct k as [[it wh] bid]. unfold akey, batch_key in Heq. unfold item3. simpl in Heq.
      congruence.
    + intros v Hv Heq. apply Hin. rewrite <- Heq. by apply list_elem_of_fmap_2.
Qed.

Lemma delta_slot b :
  key_delta ((λ v, (batch_key v, pi_item_qty v)) <$> pkg_items_of pid d1)
    (new_reservations (form_allocs rows)) (key_of b) = slot d2 pid (bkey b) - slot d1 pid (bkey b).
Proof. unfold key_delta. change (key_of b) with (akey (bkey b)). by rewrite new_slot, old_slot. Qed.
End delta.
