(* ===== verification/CoverageProofs.v ===== *)
(** The packaging requests keep the reservation invariant. *)
From S2P Require Import Prelude PyStr Schema Ledger Fixtures Reservation ReservationProofs ReservationTheorems ReliefRequest ItemStatus BatchAllocation Dispatch DispatchTheorems Packaging PackagingProofs Coverage AllocationProofs.

(** * Frames *)

(** The invariant reads five tables, and the keys of a sixth. *)
Lemma workflow_ok_ext d d' :
  db_itembatch d' = db_itembatch d → db_inventory d' = db_inventory d → db_pkg d' = db_pkg d →
  db_pkg_item d' = db_pkg_item d → keyed_rqst_items d' → keyed_rqsts d' →
  workflow_ok d → workflow_ok d'.
Proof.
  intros E1 E2 E3 E4 Hi Hr [(W1 & W2 & W3 & W4 & W5 & W6 & W7 & W8 & W9) Hc]. split.
  - unfold well_keyed, keyed_batches, keyed_inventory, keyed_pkgs, keyed_pkg_items, one_pkg, items_fk,
      items_nonneg in *. rewrite E1, E2, E3, E4. by split_and!.
  - unfold covered, held, share, slot in *. by rewrite E1, E3, E4.
Qed.

Lemma keyed_inventory_sites f sites d :
  (∀ k m i, (inv_inventory_id (f k m i), inv_item_id (f k m i)) = (inv_inventory_id i, inv_item_id i)) →
  keyed_inventory d → keyed_inventory (rewrite_sites f sites d).
Proof.
  intros Hf Hk k i Hi. rewrite rewrite_sites_lookup in Hi.
  destruct (db_inventory d !! k) as [i0|] eqn:E; [|done]. simpl in Hi. injection Hi as <-.
  case_decide; [rewrite Hf|]; exact (Hk k i0 E).
Qed.

Lemma keyed_batches_map h d : keeps_key h → keyed_batches d → keyed_batches (map_batches h d).
Proof.
  intros Hh Hk k b Hb. unfold map_batches in Hb. simpl in Hb. rewrite lookup_fmap in Hb.
  destruct (db_itembatch d !! k) as [b0|] eqn:E; [|done]. injection Hb as <-.
  specialize (Hh b0). unfold bkey in Hh. injection Hh as H1 H2 H3. rewrite H3. exact (Hk k b0 E).
Qed.

(** A package replaced by itself with other fields. *)
Lemma one_pkg_put pid p p' d :
  one_pkg d → db_pkg d !! pid = Some p → pkg_reliefrqst_id p' = pkg_reliefrqst_id p →
  one_pkg (set_db_pkg (<[pid:=p']> (db_pkg d)) d).
Proof.
  intros H1 Hp Hrq k1 p1 E1 k2 p2 E2 Heq. simpl in *.
  apply lookup_insert_Some in E1 as [[<- <-]|[Hn1 E1]], E2 as [[<- <-]|[Hn2 E2]]; try done.
  - exfalso. apply Hn2. apply (H1 _ p Hp _ p2 E2). congruence.
  - exfalso. apply Hn1. symmetry. apply (H1 _ p1 E1 _ p Hp). congruence.
  - exact (H1 _ p1 E1 _ p2 E2 Heq).
Qed.

Lemma items_fk_put pid p d : items_fk d → items_fk (set_db_pkg (<[pid:=p]> (db_pkg d)) d).
Proof.
  intros H k v Hv. simpl in *. destruct (H k v Hv) as [q Hq].
  destruct (decide (pid = pi_reliefpkg_id v)) as [->|];
    [rewrite lookup_insert_eq|rewrite lookup_insert_ne by done]; eauto.
Qed.

(** * Saving a form *)

Section save.
Context `{R : Runtime} (cx : Ctx).

(** A request whose package, when there is one, is still in preparation. *)
Definition preparing (rq : Z) (d : DB) : Prop :=
  match first_pkg_of rq d with Some p => open_pkg p | None => True end.

(** The database after the form is processed, with the package's own fields
    rewritten to [p']. *)
Lemma save_ok r d p d1 vs us p' d3 :
  workflow_ok d → form_ok cx → db_pkg d !! cx_new_pkg_id cx = None →
  preparing (rq_reliefrqst_id r) d →
  target cx r d p d1 →
  let rows := form_rows cx d (items_of (rq_reliefrqst_id r) d) in
  let pid := pkg_reliefpkg_id p in
  Forall2 (records_form pid) rows vs →
  pkg_reliefpkg_id p' = pid → pkg_reliefrqst_id p' = pkg_reliefrqst_id p → open_pkg p' →
  db_itembatch d3 = db_itembatch d → db_inventory d3 = db_inventory d →
  db_pkg_item d3 = db_pkg_item (allocated pid (pkg_items_of pid d1) vs us d1) →
  db_pkg d3 = <[pid := p']> (db_pkg d1) → keyed_rqst_items d3 → keyed_rqsts d3 →
  workflow_ok (reserve_spec ((λ v, (batch_key v, pi_item_qty v)) <$> pkg_items_of pid d1)
    (new_reservations (form_allocs rows)) d3).
Proof.
  intros [Hw Hc] Hf Hnew Hprep Ht rows pid Hvs Hid Hrq Hopen E1 E2 E3 E4 Hki Hkr.
  destruct (target_keyed cx r d p d1 Hw Hnew Ht) as (Hw1 & Hp1 & Hprq & Hos). fold pid in Hp1, Hos.
  set (old := (λ v, (batch_key v, pi_item_qty v)) <$> pkg_items_of pid d1).
  set (new := new_reservations (form_allocs rows)). set (d2 := allocated pid (pkg_items_of pid d1) vs us d1) in *.
  destruct Hw as (W1 & W2 & W3 & W4 & W5 & W6 & W7 & W8 & W9).
  destruct Hw1 as (V1 & V2 & V3 & V4 & V5 & V6 & V7 & V8 & V9).
  assert (NoDup (row_key pid <$> rows)) as Hnd
    by (apply (form_rows_nodup cx); [done|by apply items_of_nodup]).
  assert (∀ x, x ∈ rows → 0 ≤ row_qty x.2) as Hnn by (intros x; by apply (form_rows_nonneg cx)).
  assert (keyed_pkgs d3) as K3.
  { unfold keyed_pkgs. rewrite E4. by apply map_Forall_insert_2. }
  assert (keyed_pkg_items d3 ∧ items_nonneg d3) as [I3 N3].
  { unfold keyed_pkg_items, items_nonneg. rewrite E3.
    by apply (allocated_kept pid d1 vs us rows V4 Hvs Hnd Hnn). }
  assert (items_fk d3) as F3.
  { unfold items_fk. rewrite E3, E4. intros k v Hv. simpl.
    destruct (decide (pid = pi_reliefpkg_id v)) as [->|Hne]; [rewrite lookup_insert_eq; eauto|].
    rewrite lookup_insert_ne by done.
    destruct (allocated_values pid d1 vs us rows V4 Hvs Hnd k v Hv) as [Hin|Hv']; [|by eapply V8].
    exfalso. apply Hne. destruct (forall2_elem_r _ _ _ _ Hvs Hin) as (x & _ & [Hxk _]).
    unfold pi_pk in Hxk. congruence. }
  assert (db_pkg d3 !! pid = Some p') as Hp3 by (rewrite E4; apply lookup_insert_eq).
  assert (others_same pid d d3) as Hos3.
  { destruct Hos as [O1 O2]. split; intros k Hk.
    - rewrite E4, lookup_insert_ne by done. by apply O1.
    - rewrite E3. unfold d2. rewrite (allocated_other pid d1 vs us rows V4 Hvs) by done. by apply O2. }
  assert (∀ k, contrib d pid k = slot d1 pid k) as Hcd.
  { intros k. destruct Ht as [[Hfp ->]|(Hfp & -> & ->)].
    - unfold preparing in Hprep. rewrite Hfp in Hprep. by apply (contrib_open d pid k p).
    - unfold contrib, slot. simpl in *. unfold pid. simpl. rewrite Hnew.
      destruct (db_pkg_item d !! _) as [v|] eqn:Ev; [|done]. exfalso.
      destruct (W8 _ v Ev) as [q Hq]. pose proof (W4 _ v Ev) as Hpk. simpl in Hpk.
      unfold pi_pk in Hpk. injection Hpk as Hpk1 _ _ _. unfold new_package in Hpk1. simpl in Hpk1. congruence. }
  set (d4 := reserve_spec old new d3).
  assert (∀ k, contrib d4 pid k = slot d2 pid k) as Hcd4.
  { intros k. rewrite (contrib_open d4 pid k p'); [|done..]. unfold slot. 
    change (db_pkg_item d4) with (db_pkg_item d3). by rewrite E3. }
  split.
  - unfold well_keyed. split_and!; try done.
    + unfold d4, reserve_spec. unfold keyed_batches. simpl.
      apply (keyed_batches_map (reserve_row old new) d3); [intros b; apply reserve_row_key|].
      unfold keyed_batches. by rewrite E1.
    + unfold d4, reserve_spec. apply keyed_inventory_sites; [done|]. unfold keyed_inventory. simpl. by rewrite E2.
    + unfold one_pkg. change (db_pkg d4) with (db_pkg d3). rewrite E4.
      exact (one_pkg_put pid p p' d1 V7 Hp1 Hrq).
  - apply (covered_moved pid d d4); try done.
    intros bid b' Hb'. unfold d4, reserve_spec in Hb'. simpl in Hb'. rewrite lookup_fmap, E1 in Hb'.
    destruct (db_itembatch d !! bid) as [b|] eqn:Hb; [|done]. injection Hb' as <-.
    exists b. split; [done|]. split; [apply reserve_row_key|]. rewrite Hcd, Hcd4. intros Hle.
    unfold reserve_row, old, new. rewrite (delta_slot pid d1 vs us rows V4 Hvs Hnd Hnn). fold d2.
    assert (0 ≤ slot d2 pid (bkey b)).
    { rewrite <- Hcd4. apply contrib_nonneg. done. }
    destruct (Z.eqb_spec (slot d2 pid (bkey b) - slot d1 pid (bkey b)) 0); [lia|].
    change (ib_reserved (set_ib_reserved ?q b)) with q. lia.
Qed.
End save.

(** * Closing a package *)

(** A package leaves preparation and its stock goes with it. *)
Lemma close_ok pid p d d' :
  workflow_ok d → db_pkg d !! pid = Some p → open_pkg p →
  well_keyed d' → others_same pid d d' →
  (∀ q, db_pkg d' !! pid = Some q → ¬ open_pkg q) →
  (∀ bid b', db_itembatch d' !! bid = Some b' → ∃ b, db_itembatch d !! bid = Some b ∧ bkey b' = bkey b ∧
     (slot d pid (bkey b) ≤ ib_reserved b → ib_reserved b' = ib_reserved b - slot d pid (bkey b))) →
  workflow_ok d'.
Proof.
  intros [Hw Hc] Hp Ho Hw' Hos Hcl Hb. split; [done|].
  destruct Hw as (W1 & W2 & W3 & W4 & W5 & W6 & W7 & W8 & W9). destruct Hw' as (V1 & V2 & V3 & _).
  apply (covered_moved pid d d'); try done.
  intros bid b' Hb'. destruct (Hb bid b' Hb') as (b & Hbb & Hk & Hr). exists b. split_and!; [done..|].
  rewrite (contrib_open d pid _ p), (contrib_closed d' pid) by done. intros Hle. rewrite Hr by done. lia.
Qed.

(** The rewritten row of each batch an item names, in the terms of [close_ok]. *)
Lemma entry_row_closes `{Runtime} g pid d :
  keyed_pkg_items d → items_nonneg d → (∀ v b, bkey (g v b) = bkey b) →
  (∀ v b, 0 ≤ pi_item_qty v → pi_item_qty v ≤ ib_reserved b →
     ib_reserved (g v b) = ib_reserved b - pi_item_qty v) →
  ∀ bid b', (entry_row item3 g (pkg_items_of pid d) <$> db_itembatch d) !! bid = Some b' →
    ∃ b, db_itembatch d !! bid = Some b ∧ bkey b' = bkey b ∧
      (slot d pid (bkey b) ≤ ib_reserved b → ib_reserved b' = ib_reserved b - slot d pid (bkey b)).
Proof.
  intros Hk Hn Hgk Hg bid b' Hb'. rewrite lookup_fmap in Hb'.
  destruct (db_itembatch d !! bid) as [b|]; [|done]. injection Hb' as <-. exists b.
  split; [done|]. split; [by apply entry_row_key|].
  apply (entry_row_slot g pid d b (λ q res, q ≤ ib_reserved b → res = ib_reserved b - q)); [done| |intros; lia].
  intros v Hv _ Hle. apply Hg; [|done]. apply elem_of_pkg_items in Hv as [_ Hv]; [|done]. by apply (Hn _ v Hv).
Qed.

(** The tables after a field update of a package. *)
Lemma pkg_put_ok pid p p' d :
  well_keyed d → db_pkg d !! pid = Some p → pkg_reliefpkg_id p' = pid →
  pkg_reliefrqst_id p' = pkg_reliefrqst_id p → well_keyed (put_pkg p' d).
Proof.
  intros (W1 & W2 & W3 & W4 & W5 & W6 & W7 & W8 & W9) Hp Hid Hrq. unfold well_keyed, put_pkg.
  rewrite Hid. split_and!; try done.
  - unfold keyed_pkgs. simpl. by apply map_Forall_insert_2.
  - by apply (one_pkg_put pid p).
  - by apply items_fk_put.
Qed.

Lemma others_same_put pid p' d : pkg_reliefpkg_id p' = pid → others_same pid d (put_pkg p' d).
Proof. intros Hid. split; intros k Hk; [|done]. simpl. rewrite Hid. by apply lookup_insert_ne. Qed.

(** The manager approves: the items are committed. *)
Lemma approve_ok `{Runtime} pid p p' d :
  workflow_ok d → db_pkg d !! pid = Some p → open_pkg p → pkg_reliefpkg_id p' = pid →
  pkg_reliefrqst_id p' = pkg_reliefrqst_id p → ¬ open_pkg p' →
  workflow_ok (commit_spec (pkg_items_of pid d) (put_pkg p' d)).
Proof.
  intros Hok Hp Ho Hid Hrq Hno. pose proof Hok as [Hw Hc].
  pose proof (pkg_put_ok pid p p' d Hw Hp Hid Hrq) as (V1 & V2 & V3 & V4 & V5 & V6 & V7 & V8 & V9).
  apply (close_ok pid p d); try done.
  - unfold well_keyed, commit_spec. split_and!; try done.
    + apply (keyed_batches_map (entry_row item3 commit_row (pkg_items_of pid d)) (put_pkg p' d)); [|done].
      apply entry_row_key, commit_row_key.
    + by apply keyed_inventory_sites.
  - by apply others_same_put.
  - simpl. rewrite Hid, lookup_insert_eq. by intros q [= <-].
  - simpl. apply (entry_row_closes commit_row pid d); [apply Hw|apply Hw|apply commit_row_key|].
    intros v b Hq Hle. unfold commit_row. destruct (Z.ltb_spec 0 (pi_item_qty v)); [|lia].
    unfold set_ib_reserved, set_ib_usable, set_ib_stock, ib_reserved in *. simpl. lia.
Qed.

(** The manager cancels: the items and the package go. *)
Lemma cancel_ok_workflow `{Runtime} user now pid p d :
  workflow_ok d → db_pkg d !! pid = Some p → open_pkg p →
  workflow_ok (cancel_spec user now pid (pkg_items_of pid d) d).
Proof.
  intros Hok Hp Ho. pose proof Hok as [(W1 & W2 & W3 & W4 & W5 & W6 & W7 & W8 & W9) Hc].
  set (d' := cancel_spec user now pid (pkg_items_of pid d) d).
  assert (∀ k, db_pkg_item d' !! k = if decide (k.1.1.1 = pid) then None else db_pkg_item d !! k) as Hit.
  { intros k. unfold d', cancel_spec. simpl.
    pose proof (delete_items_lookup (pkg_items_of pid d) d k) as Hdel. unfold delete_pkg_items in Hdel. simpl in Hdel.
    rewrite Hdel. clear Hdel. destruct (decide (k.1.1.1 = pid)) as [Hk|Hk].
    - case_decide as Hin; [done|]. destruct (db_pkg_item d !! k) as [v|] eqn:E; [|done]. exfalso. apply Hin.
      pose proof (W4 k v E) as Hv. simpl in Hv. rewrite <- Hv. apply list_elem_of_fmap_2, elem_of_pkg_items; [done|].
      rewrite Hv. split; [|done]. by rewrite <- Hk, <- Hv.
    - rewrite decide_False; [done|]. intros Hin. apply list_elem_of_fmap in Hin as (v & -> & Hv).
      apply Hk. by apply elem_of_pkg_items in Hv as [<- _]. }
  assert (∀ k, db_pkg d' !! k = if decide (k = pid) then None else db_pkg d !! k) as Hpk.
  { intros k. unfold d', cancel_spec. simpl. rewrite lookup_delete. apply decide_ext. naive_solver. }
  apply (close_ok pid p d); try done.
  - unfold well_keyed. split_and!; try done.
    + apply (keyed_batches_map (entry_row item3 (cancel_row user now) (pkg_items_of pid d)) d); [|done].
      apply entry_row_key, cancel_row_key.
    + unfold d', cancel_spec. by apply (keyed_inventory_sites (resum_touch user now)).
    + intros k q. rewrite Hpk. case_decide; [done|]. apply W3.
    + intros k v. rewrite Hit. case_decide; [done|]. apply W4.
    + intros k1 p1. rewrite Hpk. case_decide; [done|]. intros L1 k2 p2. rewrite Hpk. case_decide; [done|].
      intros L2 Heq. exact (W7 k1 p1 L1 k2 p2 L2 Heq).
    + intros k v. rewrite Hit. case_decide as Hk; [done|]. intros Hv. rewrite Hpk. rewrite decide_False.
      * exact (W8 k v Hv).
      * intros Heq. apply Hk. pose proof (W4 k v Hv) as Hkv. simpl in Hkv. by rewrite <- Hkv.
    + intros k v. rewrite Hit. case_decide; [done|]. apply W9.
  - split; intros k Hk; [by rewrite Hpk, decide_False|by rewrite Hit, decide_False].
  - intros q. by rewrite Hpk, decide_True.
  - apply (entry_row_closes (cancel_row user now) pid d W4 W9 (cancel_row_key user now)).
    intros v b Hq Hle. unfold cancel_row. destruct (Z.ltb_spec 0 (pi_item_qty v)); [|lia]. done.
Qed.

(** * Dispatching a package *)

Lemma lsum_key_none {A} (key : A → Z * Z * Z) (f : A → Z) (l : list A) k :
  k ∉ key <$> l → lsum (λ a, if decide (key a = k) then f a else 0) l = 0.
Proof.
  induction l as [|a l IH]; intros Hk; [done|]. csimpl in Hk. apply not_elem_of_cons in Hk as [H1 H2].
  rewrite lsum_cons, IH, decide_False by done. done.
Qed.

Lemma lsum_key {A} (key : A → Z * Z * Z) (f : A → Z) (l : list A) a :
  NoDup (key <$> l) → a ∈ l → lsum (λ x, if decide (key x = key a) then f x else 0) l = f a.
Proof.
  induction l as [|b l IH]; intros Hnd Ha; [set_solver|]. csimpl in Hnd.
  apply NoDup_cons in Hnd as [Hb Hnd]. rewrite lsum_cons. apply elem_of_cons in Ha as [<-|Ha].
  - rewrite decide_True by done. rewrite lsum_key_none by done. lia.
  - rewrite decide_False by (intros Heq; apply Hb; rewrite Heq; by apply list_elem_of_fmap_2).
    rewrite IH by done. lia.
Qed.

(** What the undo gives back is the package's share. *)
Lemma lo_plan_slot `{Runtime} pid d k :
  keyed_pkg_items d → items_nonneg d → planned lo3 snd k (get_lo_plan pid d) = slot d pid k.
Proof.
  intros Hk Hn. set (l := pkg_items_of pid d).
  assert (get_lo_plan pid d =
    (λ v, ((pi_fr_inventory_id v, pi_batch_id v, pi_item_id v), pi_item_qty v)) <$> l) as ->.
  { unfold get_lo_plan. rewrite (foldl_dict_set (λ _, true)
      (λ v, (pi_fr_inventory_id v, pi_batch_id v, pi_item_id v)) pi_item_qty).
    - simpl. f_equal. fold l. clear. induction l as [|v l IH]; [done|].
      rewrite filter_cons, decide_True by done. by rewrite IH.
    - simpl. apply nodup_fmap_filter. pose proof (item3_nodup pid d Hk) as Hnd. fold l in Hnd |- *.
      clear -Hnd. induction l as [|v l IH]; [constructor|]. csimpl in *.
      apply NoDup_cons in Hnd as [Hv Hnd]. constructor; [|by apply IH]. intros Hin. apply Hv.
      apply list_elem_of_fmap in Hin as (w & Heq & Hw). apply list_elem_of_fmap. exists w.
      split; [|done]. unfold item3. congruence. }
  unfold planned. rewrite lsum_fmap. unfold lo3. simpl.
  change (lsum (λ v, if decide (item3 v = k) then Z.max 0 (pi_item_qty v) else 0) l = slot d pid k).
  destruct (decide (k ∈ item3 <$> l)) as [Hin|Hin].
  - apply list_elem_of_fmap in Hin as (v & -> & Hv).
    rewrite (lsum_key item3 (λ v, Z.max 0 (pi_item_qty v))) by (done || by apply item3_nodup).
    rewrite slot_item by done. apply elem_of_pkg_items in Hv as [_ Hv]; [|done].
    pose proof (Hn _ v Hv) as Hq. simpl in Hq. lia.
  - rewrite (lsum_key_none item3) by done. rewrite slot_none; [done|done|].
    intros v Hv Heq. apply Hin. rewrite <- Heq. by apply list_elem_of_fmap_2.
Qed.

Definition item_rows_kept (pid : Z) (d0 d : DB) : Prop :=
  keyed_pkg_items d ∧ items_nonneg d ∧ ∀ k, k.1.1.1 ≠ pid → db_pkg_item d !! k = db_pkg_item d0 !! k.

Lemma put_item_kept pid d0 d v :
  item_rows_kept pid d0 d → pi_reliefpkg_id v = pid → 0 ≤ pi_item_qty v →
  item_rows_kept pid d0 (put_pkg_item v d).
Proof.
  intros (H1 & H2 & H3) Hv Hq. split_and!.
  - unfold keyed_pkg_items. simpl. by apply map_Forall_insert_2.
  - unfold items_nonneg. simpl. by apply map_Forall_insert_2.
  - intros k Hk. simpl. rewrite lookup_insert_ne; [by apply H3|]. intros <-. by apply Hk.
Qed.

Lemma overwrite_kept `{Runtime} pid plan lo user now d :
  Forall (λ a, 0 ≤ lm_qty a) plan → keyed_pkg_items d → items_nonneg d →
  item_rows_kept pid d (overwrite_package_items pid plan lo user now d).
Proof.
  intros Hplan Hk Hn. unfold overwrite_package_items.
  assert (∀ l d1, Forall (λ a, 0 ≤ lm_qty a) l → item_rows_kept pid d d1 →
    item_rows_kept pid d (foldl (λ d a, overwrite_item pid user now a d) d1 l)) as H1.
  { induction l as [|a l IH]; intros d1 Hl Hd1; [done|]. apply Forall_cons in Hl as [Ha Hl]. simpl.
    apply IH; [done|]. unfold overwrite_item. destruct (db_pkg_item d1 !! _) as [v|] eqn:E.
    - apply put_item_kept; [done| |done]. pose proof (proj1 Hd1 _ v E) as Hpk. simpl in Hpk.
      unfold pi_pk in Hpk. simpl. congruence.
    - by apply put_item_kept. }
  assert (∀ keys d1, item_rows_kept pid d d1 → item_rows_kept pid d
    (foldl (λ d key, if decide (key ∈ lm_key <$> plan) then d else zero_item pid user now key d) d1 keys)) as H2.
  { induction keys as [|[[i b] it] keys IH]; intros d1 Hd1; [done|]. simpl. apply IH.
    case_decide; [done|]. unfold zero_item. destruct (db_pkg_item d1 !! _) as [v|] eqn:E; [|done].
    destruct (0 <? pi_item_qty v); [|done]. apply put_item_kept; [done| |done].
    pose proof (proj1 Hd1 _ v E) as Hpk. simpl in Hpk. unfold pi_pk in Hpk. simpl. congruence. }
  apply H2, H1; [done|]. by split_and!.
Qed.

Lemma keyed_inventory_decs g l d :
  (∀ q i, (inv_inventory_id (g q i), inv_item_id (g q i)) = (inv_inventory_id i, inv_item_id i)) →
  keyed_inventory d → keyed_inventory (effects (inv_dec g) l d).
Proof.
  intros Hg. revert d. induction l as [|e l IH]; intros d Hk; [done|]. simpl. apply IH.
  unfold inv_dec. destruct (find_inventory _ _ d) as [i|] eqn:Hi; [|done].
  unfold keyed_inventory, put_inventory. simpl. apply map_Forall_insert_2; [|done].
  rewrite Hg. exact (Hk _ i Hi).
Qed.

Lemma keyed_rqst_items_issues rq l d :
  keyed_rqst_items d → keyed_rqst_items (foldl (λ d e, add_issue rq e d) d l).
Proof.
  revert d. induction l as [|e l IH]; intros d Hk; [done|]. simpl. apply IH. unfold add_issue.
  destruct (db_rqst_item d !! (rq, e.1)) as [v|]; [|done].
  unfold keyed_rqst_items. simpl. by apply map_Forall_insert_2.
Qed.

Lemma dispatch_ok `{Runtime} pid plan user ver now s s' :
  workflow_ok (work s) → Forall (λ a, 0 ≤ lm_qty a) plan →
  run_ok (submit_for_dispatch pid plan user ver now) s tt s' → workflow_ok (work s').
Proof.
  intros Hok Hplan Hrun. pose proof Hok as [(W1 & W2 & W3 & W4 & W5 & W6 & W7 & W8 & W9) Hc].
  destruct (dispatch_run _ _ _ _ _ _ _ Hrun) as (p & r & Hp & _ & Hst & Hr & Hs' & _).
  pose proof (W3 _ p Hp) as Hpid. simpl in Hpid.
  pose proof (after_row _ _ _ _ _ _ _ W1 Hrun) as Hrow.
  assert (keyed_inventory (work s')) as Hinv.
  { rewrite Hs'. unfold upd_work, dispatch_spec. simpl. unfold keyed_inventory.
    rewrite (proj2 (dispatch_stock pid plan user now _ p r (work s))).
    unfold deplete_spec. apply keyed_inventory_decs; [done|]. unfold keyed_inventory.
    rewrite entry_puts_inventory, (proj2 (overwrite_stock _ _ _ _ _ _)).
    unfold undo_spec. apply keyed_inventory_decs; [done|]. unfold keyed_inventory.
    by rewrite entry_puts_inventory. }
  set (lo := get_lo_plan pid (work s)) in *.
  set (mid := undo_spec user now lo (work s)).
  assert (db_pkg_item mid = db_pkg_item (work s)) as Emid.
  { unfold mid, undo_spec. by rewrite inv_decs_frame, entry_puts_frame. }
  assert (item_rows_kept pid mid (overwrite_package_items pid plan lo user now mid)) as (I1 & I2 & I3).
  { apply overwrite_kept; [done|..]; unfold keyed_pkg_items, items_nonneg; by rewrite Emid. }
  destruct (dispatch_mid_frame pid plan lo user now (work s)) as (F1 & F2 & F3). fold mid in F1, F2, F3.
  set (stock := deplete_spec user now plan (overwrite_package_items pid plan lo user now mid)) in *.
  assert (db_pkg_item stock = db_pkg_item (overwrite_package_items pid plan lo user now mid)) as Estock.
  { unfold stock, deplete_spec. by rewrite inv_decs_frame, entry_puts_frame. }
  assert (db_pkg_item (work s') = db_pkg_item stock ∧
    db_pkg (work s') = <[pid:=dispatched_pkg user now p]> (db_pkg (work s))) as [E1 E2].
  { rewrite Hs'. unfold upd_work, dispatch_spec, update_dispatch_records. simpl.
    rewrite add_issues_frame. simpl. split; [done|]. unfold put_pkg. simpl.
    fold lo. fold mid. fold stock. rewrite F2. by rewrite Hpid. }
  assert (∀ k, k.1.1.1 ≠ pid → db_pkg_item (work s') !! k = db_pkg_item (work s) !! k) as Hoth.
  { intros k Hk. by rewrite E1, Estock, I3, Emid. }
  apply (close_ok pid p (work s)); [done..| | | |].
  - unfold well_keyed. split_and!.
    + intros bid b' Hb'. specialize (Hrow bid). destruct (db_itembatch (work s) !! bid) as [b|] eqn:Hb; [|congruence].
      destruct Hrow as (b1 & Hb1 & _ & _ & Hbk). rewrite Hb1 in Hb'. injection Hb' as <-.
      pose proof (f_equal snd Hbk) as Hbid. simpl in Hbid. rewrite Hbid. exact (W1 bid b Hb).
    + done.
    + unfold keyed_pkgs. rewrite E2. by apply map_Forall_insert_2.
    + unfold keyed_pkg_items. by rewrite E1, Estock.
    + rewrite Hs'. unfold upd_work, dispatch_spec, update_dispatch_records. simpl.
      unfold keyed_rqst_items, put_rqst. simpl. fold lo. fold mid. fold stock.
      apply keyed_rqst_items_issues. unfold keyed_rqst_items, put_pkg. simpl. by rewrite F1.
    + rewrite Hs'. unfold upd_work, dispatch_spec, update_dispatch_records. simpl.
      unfold keyed_rqsts, put_rqst. simpl. rewrite add_issues_frame. simpl.
      fold lo. fold mid. fold stock. rewrite F3. by apply map_Forall_insert_2.
    + unfold one_pkg. rewrite E2. exact (one_pkg_put pid p (dispatched_pkg user now p) _ W7 Hp eq_refl).
    + intros k v Hv. rewrite E2. destruct (decide (pi_reliefpkg_id v = pid)) as [Heq|Hne].
      * rewrite Heq, lookup_insert_eq. eauto.
      * rewrite lookup_insert_ne by done. assert (pi_pk v = k) as Hkv.
        { rewrite E1, Estock in Hv. exact (I1 k v Hv). }
        rewrite Hoth in Hv by (by rewrite <- Hkv). exact (W8 k v Hv).
    + unfold items_nonneg. by rewrite E1, Estock.
  - split; [|done]. intros k Hk. rewrite E2. by apply lookup_insert_ne.
  - intros q. rewrite E2, lookup_insert_eq. intros [= <-]. by apply closed_dispatched.
  - intros bid b' Hb'. specialize (Hrow bid). destruct (db_itembatch (work s) !! bid) as [b|] eqn:Hb; [|congruence].
    destruct Hrow as (b1 & Hb1 & _ & Hres & Hbk). rewrite Hb1 in Hb'. injection Hb' as <-. exists b. split_and!; [done..|].
    intros _. rewrite Hres. unfold lo. by rewrite lo_plan_slot.
Qed.

(** * From the requests to these steps *)

(** Programs that only look. *)
Definition reads_only {E A} (m : M Session E A) : Prop := ∀ s, (m s).1 = s.

Lemma run_reads {E A B} (m : M Session E A) (k : A → M Session E B) s b s' :
  reads_only m → run_ok (m ≫= k) s b s' → ∃ a, run_ok m s a s ∧ run_ok (k a) s b s'.
Proof.
  intros Hm. rewrite bind_ok. intros (a & s1 & H1 & H2). exists a. specialize (Hm s).
  unfold run_ok in H1. rewrite H1 in Hm. simpl in Hm. by subst s1.
Qed.

Lemma reads_validate v n : reads_only (validate_version_nbr v n).
Proof. intros s. destruct v; [done..|]. simpl. by destruct (negb (n0 =? n)). Qed.

Section steps.
Context `{R : Runtime} (cx : Ctx).

Lemma reads_check_version rq v : reads_only (check_package_version rq v).
Proof.
  intros s. unfold check_package_version. rewrite run_bind. simpl.
  destruct (first_pkg_of rq (work s)); [|done]. destruct (version_given v); [apply reads_validate|done].
Qed.

Lemma reads_check_totals rq pid : reads_only (check_totals rq pid).
Proof.
  intros s. unfold check_totals. rewrite run_bind. simpl. rewrite run_bind.
  destruct (_ && negb (all_unavailable rq (work s))); [done|]. simpl.
  generalize (items_of rq (work s)). intros l. induction l as [|v l IH]; [done|]. simpl.
  unfold m_bind at 1. rewrite run_bind. destruct (_ && _); [done|]. simpl.
  destruct (MILLI <? _); [done|]. exact IH.
Qed.

Lemma get_request_run rq s r s' : run_ok (get_request rq) s r s' → s' = s ∧ db_rqst (work s) !! rq = Some r.
Proof.
  unfold get_request. rewrite run_get. destruct (db_rqst (work s) !! rq); [|done]. intros [= <- <-]. done.
Qed.

(** The two field updates that follow a form. *)
Lemma mark_frame rq d :
  ∃ m, match db_rqst d !! rq with
       | Some r => put_rqst (part_filled (cx_user_name cx) (cx_now cx) r) d | None => d end = set_db_rqst m d ∧
    (keyed_rqsts d → keyed_rqsts (set_db_rqst m d)).
Proof.
  destruct (db_rqst d !! rq) as [r|] eqn:Hr.
  - eexists. split; [reflexivity|]. intros Hk. unfold keyed_rqsts. simpl. by apply map_Forall_insert_2.
  - exists (db_rqst d). split; [by destruct d|]. intros Hk. by destruct d.
Qed.

Lemma reserve_or_fail_run rq allocs old e s s' :
  run_ok (reserve_or_fail rq allocs old e) s tt s' →
  run_ok (reserve_inventory rq allocs (Some old)) s tt s'.
Proof.
  unfold run_ok, reserve_or_fail, call. rewrite run_bind. unfold m_try.
  destruct (reserve_inventory rq allocs (Some old) s) as [s1 [f|[]]]; [done|]. by intros [= <-].
Qed.

Lemma commit_or_fail_run rq s s' :
  run_ok (commit_or_fail rq) s tt s' → run_ok (commit_inventory rq) s tt s'.
Proof.
  unfold run_ok, commit_or_fail, call. rewrite run_bind. unfold m_try.
  destruct (commit_inventory rq s) as [s1 [f|[]]]; [done|]. by intros [= <-].
Qed.

(** The form processed, some fields of the package rewritten and the
    reservations moved: the shape of three requests. *)
Lemma process_saved complete r s allocs old s1 :
  workflow_ok (work s) → form_ok cx → db_pkg (work s) !! cx_new_pkg_id cx = None →
  preparing (rq_reliefrqst_id r) (work s) →
  run_ok (process_allocations cx r complete) s (allocs, old) s1 →
  ∃ p, first_pkg_of (rq_reliefrqst_id r) (work s1) = Some p ∧
    db_pkg (work s1) !! pkg_reliefpkg_id p = Some p ∧ open_pkg p ∧
    keyed_rqsts (work s1) ∧ committed s1 = committed s ∧
    (∀ p0, first_pkg_of (rq_reliefrqst_id r) (work s) = Some p0 → p = p0) ∧
    ∀ c d3 p' s3,
      (∃ m, d3 = set_db_rqst m (put_pkg p' (work s1))) →
      pkg_reliefpkg_id p' = pkg_reliefpkg_id p → pkg_reliefrqst_id p' = pkg_reliefrqst_id p → open_pkg p' →
      keyed_rqsts d3 →
      run_ok (reserve_inventory (rq_reliefrqst_id r) allocs (Some old)) (mkSession c d3) tt s3 →
      workflow_ok (work s3) ∧ committed s3 = c.
Proof.
  intros Hok Hf Hnew Hprep Hrun. pose proof Hok as [Hw Hc].
  destruct (process_run cx complete r s allocs old s1 Hw Hf Hnew Hrun) as
    (p & d1 & vs & Ht & Hvs & -> & -> & -> & _).
  destruct (target_keyed cx r _ p d1 Hw Hnew Ht) as (Hw1 & Hp1 & Hprq & _).
  destruct Hw1 as (V1 & V2 & V3 & V4 & V5 & V6 & V7 & V8 & V9).
  set (rows := form_rows _ _ _) in *. exists p. simpl. split_and!.
  - apply (first_pkg_unique _ _ (pkg_reliefpkg_id p)); done.
  - done.
  - destruct Ht as [[Hfp ->]|(Hfp & -> & ->)]; [|by apply open_pending].
    unfold preparing in Hprep. by rewrite Hfp in Hprep.
  - done.
  - done.
  - intros p0 Hp0. destruct Ht as [[Hfp _]|(Hfp & _)]; congruence.
  - intros c d3 p' s3 [m Hd3] Hid Hrq Hopen Hkr Hres.
    assert (workflow_ok (reserve_spec ((λ v, (batch_key v, pi_item_qty v)) <$> pkg_items_of (pkg_reliefpkg_id p) d1)
      (new_reservations (form_allocs rows)) d3)) as Hfin.
    { assert (db_itembatch d1 = db_itembatch (work s) ∧ db_inventory d1 = db_inventory (work s)) as [B1 B2]
        by (destruct Ht as [[_ ->]|(_ & _ & ->)]; done).
      apply (save_ok cx r (work s) p d1 vs (item_after cx (work s) <$> items_of (rq_reliefrqst_id r) (work s)) p');
        subst d3; simpl; try done.
      - by rewrite Hid.
      - unfold keyed_rqst_items. simpl. by apply put_rqst_items_keyed. }
    pose proof Hfin as [(F1 & _) _].
    assert (keyed_batches d3) as Hkb.
    { destruct Ht as [[_ ->]|(_ & _ & ->)]; subst d3; apply Hw. }
    pose proof (proj1 (reserve_inventory_run _ _ _ (mkSession c d3) s3 Hkb) Hres) as [_ ->]. done.
Qed.
End steps.

Section handlers.
Context `{R : Runtime} (cx : Ctx).

Abbreviation admitted r s := (workflow_ok (work s) ∧ form_ok cx ∧
  db_pkg (work s) !! cx_new_pkg_id cx = None ∧ preparing (rq_reliefrqst_id r) (work s)).

Lemma mod_pkg_run pid f p s s' :
  db_pkg (work s) !! pid = Some p →
  run_ok (mod_pkg pid f) s tt s' ↔ s' = upd_work (put_pkg (f p)) s.
Proof. intros Hp. unfold mod_pkg. rewrite run_mod_last. unfold upd_work. by rewrite Hp. Qed.

Lemma mark_run rq s s' :
  run_ok (mark_part_filled cx rq) s tt s' →
  ∃ m, s' = upd_work (set_db_rqst m) s ∧ (keyed_rqsts (work s) → keyed_rqsts (work s')).
Proof.
  unfold mark_part_filled. rewrite run_mod_last. intros ->.
  destruct (mark_frame cx rq (work s)) as (m & Hm & Hk). exists m. unfold upd_work. simpl.
  rewrite Hm. split; [done|exact Hk].
Qed.

Lemma commit_run_last {E} (s s' : Session) : run_ok (db_commit : M Session E unit) s tt s' → committed s' = work s.
Proof. by intros [= <-]. Qed.

Lemma save_draft_ok r v1 v2 s s' :
  admitted r s → run_ok (save_draft cx r v1 v2) s tt s' → workflow_ok (committed s').
Proof.
  intros (Hok & Hf & Hnew & Hprep). unfold save_draft.
  intros ([] & _ & Hrun)%run_reads; [|apply reads_validate].
  apply run_reads in Hrun as ([] & _ & Hrun); [|apply reads_check_version].
  rewrite bind_ok in Hrun. destruct Hrun as ([allocs old] & s1 & H1 & Hrun).
  destruct (process_saved cx false r s allocs old s1 Hok Hf Hnew Hprep H1) as
    (p & Hfp & Hp & Ho & Hkr & _ & _ & Hsave).
  rewrite run_get, Hfp, seq_ok in Hrun. destruct Hrun as (s2 & H2 & Hrun).
  apply (mod_pkg_run _ _ p) in H2 as ->; [|done]. rewrite seq_ok in Hrun.
  destruct Hrun as (s3 & (m & -> & Hm)%mark_run & Hrun). rewrite seq_ok in Hrun.
  destruct Hrun as (s4 & H4%reserve_or_fail_run & ->%commit_run_last).
  eapply Hsave in H4 as [H4 _]; [exact H4|by eexists|done|done|exact Ho|by apply Hm].
Qed.

Lemma submit_ok r v1 v2 s s' :
  admitted r s → run_ok (submit_for_approval cx r v1 v2) s tt s' → workflow_ok (committed s').
Proof.
  intros (Hok & Hf & Hnew & Hprep). unfold submit_for_approval. rewrite run_fail_if. intros [_ Hrun].
  apply run_reads in Hrun as ([] & _ & Hrun); [|apply reads_validate]. rewrite run_get in Hrun.
  apply run_reads in Hrun as ([] & _ & Hrun); [|apply reads_check_version].
  rewrite run_fail_if in Hrun. destruct Hrun as [_ Hrun].
  rewrite bind_ok in Hrun. destruct Hrun as ([allocs old] & s1 & H1 & Hrun).
  destruct (process_saved cx false r s allocs old s1 Hok Hf Hnew Hprep H1) as
    (p & Hfp & Hp & Ho & Hkr & _ & _ & Hsave).
  rewrite run_get, Hfp in Hrun.
  assert (∀ b (k : PM unit), run_ok ((if b : bool then db_rollback;; m_fail (PRefused "already submitted by another user")
    else mret tt);; k) s1 tt s' → run_ok k s1 tt s') as Hskip by (by intros [] k).
  apply Hskip in Hrun. rewrite seq_ok in Hrun. destruct Hrun as (s2 & H2 & Hrun).
  apply (mod_pkg_run _ _ p) in H2 as ->; [|done]. rewrite seq_ok in Hrun.
  destruct Hrun as (s3 & (m & -> & Hm)%mark_run & Hrun). rewrite seq_ok in Hrun.
  destruct Hrun as (s4 & H4%reserve_or_fail_run & Hrun).
  eapply Hsave in H4 as [H4 _]; [|by eexists|done|done|by apply open_pending|by apply Hm].
  rewrite seq_ok in Hrun. destruct Hrun as (s5 & H5 & ->%commit_run_last).
  assert (∃ m, work s5 = set_db_notification m (work s4)) as [m5 ->].
  { destruct (match _ with Some _ => _ | None => _ end).
    - apply run_ret in H5 as [_ ->]. exists (db_notification (work s4)). by destruct (work s4).
    - unfold notify_users in H5. rewrite run_mod_last in H5. subst s5. by eexists. }
  apply (workflow_ok_ext (work s4)); [done..|apply H4|apply H4|done].
Qed.

(** The pending package of a request is the one the services find. *)
Lemma get_pending_run rq s r p s' :
  well_keyed (work s) → run_ok (get_pending cx rq) s (r, p) s' →
  s' = s ∧ rq_reliefrqst_id r = rq ∧ db_pkg (work s) !! pkg_reliefpkg_id p = Some p ∧
  pkg_reliefrqst_id p = rq ∧ open_pkg p ∧ first_pkg_of rq (work s) = Some p.
Proof.
  intros (W1 & W2 & W3 & W4 & W5 & W6 & W7 & W8 & W9). unfold get_pending. rewrite run_fail_if. intros [_ Hrun].
  rewrite bind_ok in Hrun. destruct Hrun as (r' & s1 & [-> Hr]%get_request_run & Hrun).
  rewrite run_get in Hrun. unfold pending_pkg_of in Hrun.
  destruct (head _) as [p'|] eqn:Hh; [|done]. rewrite bind_ok in Hrun.
  destruct Hrun as (p2 & s2 & [= <- <-] & Hrun). rewrite run_fail_if in Hrun. destruct Hrun as [_ Hrun].
  apply run_ret in Hrun as [[= <- <-] ->].
  assert (p ∈ filter (λ p, pkg_reliefrqst_id p = rq ∧ pkg_status_code p = "P"%string) (pkg_rows (db_pkg (work s)))) as Hin.
  { destruct (filter _ _); [done|]. simpl in Hh. simplify_eq. by left. }
  apply list_elem_of_filter in Hin as [[Hprq Hst] Hin]. apply elem_of_pkg_rows in Hin as [k Hk].
  pose proof (W3 k p Hk) as Hid. simpl in Hid. subst k.
  split_and!; [done|exact (W6 _ r Hr)|done|done|by apply open_pending|].
  by apply (first_pkg_unique _ _ (pkg_reliefpkg_id p)).
Qed.

Lemma save_approval_ok r p v1 v2 s s' :
  workflow_ok (work s) → form_ok cx → db_pkg (work s) !! cx_new_pkg_id cx = None →
  first_pkg_of (rq_reliefrqst_id r) (work s) = Some p → open_pkg p →
  run_ok (save_draft_approval cx r p v1 v2) s tt s' → workflow_ok (committed s').
Proof.
  intros Hok Hf Hnew Hfp0 Ho0. unfold save_draft_approval, validate_both.
  rewrite seq_ok. intros (s0 & H0 & Hrun).
  assert (s0 = s) as ->.
  { apply run_reads in H0 as ([] & _ & H0); [|apply reads_validate].
    unfold run_ok in H0. pose proof (reads_validate v2 (version_nbr (pkg_audit p)) s) as Hs. by rewrite H0 in Hs. }
  rewrite bind_ok in Hrun. destruct Hrun as ([allocs old] & s1 & H1 & Hrun).
  assert (preparing (rq_reliefrqst_id r) (work s)) as Hprep by (unfold preparing; by rewrite Hfp0).
  destruct (process_saved cx false r s allocs old s1 Hok Hf Hnew Hprep H1) as
    (p' & Hfp & Hp & Ho & Hkr & _ & Heq & Hsave).
  specialize (Heq p Hfp0) as ->. rewrite seq_ok in Hrun. destruct Hrun as (s2 & H2 & Hrun).
  apply (mod_pkg_run _ _ p) in H2 as ->; [|done]. rewrite seq_ok in Hrun.
  destruct Hrun as (s4 & H4%reserve_or_fail_run & ->%commit_run_last).
  eapply (Hsave _ _ (touch_pkg cx (set_pkg_status_code "P" p))) in H4 as [H4 _];
    [exact H4| |done|done|by apply open_pending|done].
  exists (db_rqst (work s1)). unfold put_pkg. simpl. by destruct (work s1).
Qed.
End handlers.
