(* ===== verification/CoverageTheorems.v ===== *)
(** The reservation invariant of the packaging workflow: which requests keep it,
    and what the others do instead. *)
From S2P Require Import Prelude PyStr Schema Ledger Fixtures Reservation ReservationProofs ReservationTheorems ReliefRequest ItemStatus BatchAllocation Dispatch DispatchTheorems Packaging PackagingProofs Coverage AllocationProofs CoverageProofs.

Section handlers.
Context `{R : Runtime} (cx : Ctx).

Lemma validate_both_run r p v1 v2 s s' : run_ok (validate_both r p v1 v2) s tt s' → s' = s.
Proof.
  unfold validate_both. intros ([] & _ & H)%run_reads; [|apply reads_validate].
  unfold run_ok in H. pose proof (reads_validate v2 (version_nbr (pkg_audit p)) s) as Hs. by rewrite H in Hs.
Qed.

Lemma notify_run users rq ty s s' :
  run_ok (notify_users users rq ty) s tt s' →
  ∃ m, s' = upd_work (set_db_notification m) s.
Proof. unfold notify_users. rewrite run_mod_last. intros ->. by eexists. Qed.

Lemma review_approve_ok r p s s' :
  workflow_ok (work s) → db_pkg (work s) !! pkg_reliefpkg_id p = Some p → open_pkg p →
  pkg_reliefrqst_id p = rq_reliefrqst_id r →
  run_ok (review_approve cx r p) s tt s' → workflow_ok (committed s').
Proof.
  intros Hok Hp Ho Hrq. unfold review_approve.
  intros ([] & _ & Hrun)%run_reads; [|apply reads_check_totals].
  rewrite run_get, run_fail_if, seq_ok in Hrun. destruct Hrun as (_ & s1 & H1 & Hrun).
  apply (mod_pkg_run _ _ p) in H1 as ->; [|done].
  pose proof Hok as [Hw _].
  pose proof (pkg_put_ok _ p (approve_pkg cx p) _ Hw Hp eq_refl eq_refl) as Hw1.
  assert (first_pkg_of (rq_reliefrqst_id r) (put_pkg (approve_pkg cx p) (work s)) = Some (approve_pkg cx p)) as Hf.
  { apply (first_pkg_unique _ _ (pkg_reliefpkg_id p)); [apply Hw1|apply Hw1|apply lookup_insert_eq|done]. }
  rewrite seq_ok in Hrun. destruct Hrun as (s2 & H2%commit_or_fail_run & Hrun).
  apply commit_run in H2 as [_ ->]; [|apply Hw1|apply Hw1]. unfold current_items in Hrun. simpl in Hrun.
  rewrite Hf in Hrun. unfold upd_work in Hrun. simpl in Hrun.
  change (pkg_items_of (pkg_reliefpkg_id p) (put_pkg (approve_pkg cx p) (work s)))
    with (pkg_items_of (pkg_reliefpkg_id p) (work s)) in Hrun.
  pose proof (approve_ok (pkg_reliefpkg_id p) p (approve_pkg cx p) (work s) Hok Hp Ho eq_refl eq_refl) as Hfin.
  specialize (Hfin ltac:(by apply closed_dispatched)).
  rewrite seq_ok in Hrun. destruct Hrun as (s3 & (m & -> & Hm)%mark_run & Hrun).
  rewrite seq_ok in Hrun. destruct Hrun as (s4 & (n & ->)%notify_run & ->%commit_run_last).
  apply (workflow_ok_ext (commit_spec (pkg_items_of (pkg_reliefpkg_id p) (work s)) (put_pkg (approve_pkg cx p) (work s))));
    [done..|apply Hfin|apply Hm, Hfin|done].
Qed.

Lemma review_reject_ok r p s s' :
  workflow_ok (work s) → db_pkg (work s) !! pkg_reliefpkg_id p = Some p → open_pkg p →
  run_ok (review_reject cx r p) s tt s' → workflow_ok (committed s').
Proof.
  intros Hok Hp Ho. unfold review_reject. rewrite seq_ok. intros (s1 & H1 & Hrun).
  apply (mod_pkg_run _ _ p) in H1 as ->; [|done]. rewrite run_mod in Hrun. apply commit_run_last in Hrun as ->.
  pose proof Hok as [Hw Hc]. set (p' := touch_pkg cx _).
  pose proof (pkg_put_ok _ p p' _ Hw Hp eq_refl eq_refl) as Hw1.
  assert (workflow_ok (put_pkg p' (work s))) as Hok1.
  { split; [done|]. destruct Hw as (W1 & W2 & W3 & W4 & W5 & W6 & W7 & W8 & W9).
    apply (covered_moved (pkg_reliefpkg_id p) (work s)); [done|apply Hw1|done|by apply others_same_put| |done].
    intros bid b Hb. exists b. split_and!; [done..|]. intros _.
    rewrite (contrib_open _ _ _ p) by done.
    rewrite (contrib_open (put_pkg p' (work s)) _ _ p'); [|apply Hw1|apply lookup_insert_eq|by apply open_pending].
    change (slot (put_pkg p' (work s)) (pkg_reliefpkg_id p) (bkey b)) with (slot (work s) (pkg_reliefpkg_id p) (bkey b)).
    lia. }
  apply (workflow_ok_ext (put_pkg p' (work s))); try done; [apply Hok1|].
  unfold keyed_rqsts. simpl. apply map_Forall_insert_2; [done|]. apply Hok1.
Qed.

Lemma cancel_package_ok pid s s' :
  workflow_ok (work s) → (∀ p, db_pkg (work s) !! pid = Some p → open_pkg p) →
  run_ok (cancel_package cx pid) s tt s' → workflow_ok (committed s').
Proof.
  intros Hok Ho. unfold cancel_package. rewrite run_fail_if. intros [_ Hrun]. rewrite bind_ok in Hrun.
  destruct Hrun as (res & s1 & H1 & Hrun). unfold run_ok, call, m_try in H1.
  destruct (cancel_relief_package pid (cx_user_name cx) (cx_now cx) s) as [s2 [e|[]]] eqn:E;
    injection H1 as <- <-; [done|]. apply commit_run_last in Hrun as ->.
  pose proof Hok as [Hw _].
  apply cancel_run in E as [((p & Hp & _) & _) ->]; [|apply Hw|apply Hw].
  apply (cancel_ok_workflow _ _ pid p); auto.
Qed.

Lemma dispatch_route_ok pid v plan s s' :
  workflow_ok (work s) →
  run_ok (submit_for_dispatch_route cx pid v plan) s tt s' → workflow_ok (committed s').
Proof.
  intros Hok. unfold submit_for_dispatch_route. rewrite run_fail_if. intros [_ Hrun]. rewrite run_get in Hrun.
  destruct (db_pkg (work s) !! pid) as [p|] eqn:Hp; [|done]. destruct v as [| | |n]; [done..|].
  rewrite run_fail_if in Hrun. destruct Hrun as [_ Hrun]. rewrite bind_ok in Hrun.
  destruct Hrun as (res & s1 & H1 & Hrun). set (lm_plan := match plan with Some _ => _ | None => _ end) in *.
  assert (Forall (λ a, 0 ≤ lm_qty a) lm_plan) as Hplan.
  { apply Forall_forall. intros a Ha. unfold lm_plan in Ha. destruct plan as [l|].
    - apply list_elem_of_filter in Ha as [? _]. lia.
    - apply list_elem_of_fmap in Ha as (w & -> & Hw). apply list_elem_of_filter in Hw as [? _]. simpl. lia. }
  unfold run_ok, call, m_try in H1.
  destruct (submit_for_dispatch pid lm_plan (cx_user_name cx) n (cx_now cx) s) as [s2 [e|[]]] eqn:E;
    injection H1 as <- <-; [done|].
  pose proof (dispatch_ok _ _ _ _ _ _ _ Hok Hplan E) as Hok2.
  rewrite seq_ok in Hrun. destruct Hrun as (s3 & (m & ->)%notify_run & ->%commit_run_last).
  apply (workflow_ok_ext (work s2)); [done..|apply Hok2|apply Hok2|done].
Qed.
End handlers.

(** * The invariant of the workflow *)

(** The requests that keep reservations and packages together, by the state
    they meet. *)
Inductive keeping_request `{Runtime} (cx : Ctx) (d : DB) : PM unit → Prop :=
| kr_prepare rq action v1 v2 :
    action ≠ SendForDispatch → preparing rq d →
    keeping_request cx d (prepare_package cx rq action v1 v2)
| kr_approve_save rq action v1 v2 :
    action ≠ AApprove → keeping_request cx d (approve_package cx rq action v1 v2)
| kr_review rq action v1 v2 : keeping_request cx d (review_approval cx rq action v1 v2)
| kr_cancel pid :
    (∀ p, db_pkg d !! pid = Some p → open_pkg p) → keeping_request cx d (cancel_package cx pid)
| kr_dispatch pid v plan : keeping_request cx d (submit_for_dispatch_route cx pid v plan).

(** One request served, whatever its outcome: with a form of distinct batches
    and quantities that are not negative, and a serial not yet used. *)
Definition served `{Runtime} (d d' : DB) : Prop :=
  ∃ cx m r, form_ok cx ∧ db_pkg d !! cx_new_pkg_id cx = None ∧ keeping_request cx d m ∧
    end_request m (session_of d) = (session_of d', r).

Lemma keeping_handler `{Runtime} cx d m : keeping_request cx d m → packaging_handler cx m.
Proof. destruct 1; constructor. Qed.

Lemma keeping_ok `{Runtime} cx d m s' :
  workflow_ok d → form_ok cx → db_pkg d !! cx_new_pkg_id cx = None → keeping_request cx d m →
  run_ok m (session_of d) tt s' → workflow_ok (committed s').
Proof.
  intros Hok Hf Hnew [rq action v1 v2 Ha Hprep|rq action v1 v2 Ha|rq action v1 v2|pid Ho|pid v plan].
  - unfold prepare_package. rewrite run_fail_if. intros [_ Hrun].
    rewrite bind_ok in Hrun. destruct Hrun as (r & s1 & [-> Hr]%get_request_run & Hrun).
    rewrite run_fail_if in Hrun. destruct Hrun as [_ Hrun].
    assert (rq_reliefrqst_id r = rq) as <- by (destruct Hok as [(_ & _ & _ & _ & _ & W6 & _) _]; exact (W6 _ r Hr)).
    destruct action; [|..|done]; try done.
    + by apply save_draft_ok in Hrun.
    + by apply submit_ok in Hrun.
  - unfold approve_package. rewrite bind_ok. intros ([r p] & s1 & H1 & Hrun).
    apply get_pending_run in H1 as (-> & Hrq & Hp & Hprq & Ho & Hfp); [|apply Hok].
    destruct action; try done. rewrite <- Hrq in Hfp. by apply save_approval_ok in Hrun.
  - unfold review_approval. rewrite bind_ok. intros ([r p] & s1 & H1 & Hrun).
    apply get_pending_run in H1 as (-> & Hrq & Hp & Hprq & Ho & Hfp); [|apply Hok].
    destruct action; try done; simpl in Hrun; rewrite seq_ok in Hrun;
      destruct Hrun as (s2 & ->%validate_both_run & Hrun).
    + apply review_approve_ok in Hrun; try done. congruence.
    + by apply review_reject_ok in Hrun.
  - by apply cancel_package_ok.
  - by apply dispatch_route_ok.
Qed.

Lemma served_ok `{Runtime} d d' : served d d' → workflow_ok d → workflow_ok d'.
Proof.
  intros (cx & m & r & Hf & Hnew & Hm & Hend) Hok. unfold end_request in Hend.
  pose proof (handler_clean cx m (keeping_handler _ _ _ Hm) (session_of d)) as Hclean.
  destruct (m (session_of d)) as [s1 [e|[]]] eqn:E; injection Hend as Hs _ <-.
  - simpl in Hclean. congruence.
  - rewrite <- Hs. by apply (keeping_ok cx d m s1).
Qed.

(** C1: through any sequence of drafts, submissions, manager drafts, reviews,
    rejections, cancellations of packages in preparation and dispatches by
    workflow C, each succeeding or failing, every batch reserves exactly what the
    packages in preparation take from it, and the tables keep their keys. *)
Theorem packaging_covered `{Runtime} d d' :
  reach served d d' → workflow_ok d → workflow_ok d'.
Proof. apply reach_inv. intros a b. apply served_ok. Qed.

(** * Cancelling a preparation *)

Lemma pkg_items_deleted `{Runtime} pid d : pkg_items_of pid (delete_items_of pid d) = [].
Proof.
  destruct (pkg_items_of pid (delete_items_of pid d)) as [|v l] eqn:E; [done|]. exfalso.
  assert (v ∈ pkg_items_of pid (delete_items_of pid d)) as Hv by (rewrite E; by left).
  apply list_elem_of_filter in Hv as [Hp Hv]. apply elem_of_pkg_item_rows in Hv as [k Hk].
  apply map_lookup_filter_Some in Hk as [_ Hk]. done.
Qed.

(** abandoning a preparation always succeeds, deletes the rows of the package
    the request has, and changes nothing else: no reservation is released, since
    the rows that name the reservations are deleted first. *)
Theorem cancel_preparation_exact `{Runtime} rq s :
  end_request (cancel_preparation rq) s =
  (session_of match first_pkg_of rq (work s) with
              | Some p => delete_items_of (pkg_reliefpkg_id p) (work s)
              | None => work s
              end, inr tt).
Proof.
  assert (∀ d s, work s = d → get_current_batch_reservations rq d = [] →
    call (release_all_reservations rq) s = (s, inr (inr tt)) :> _ * (PkgError + (ResFailure + unit))) as Hrel.
  { intros d s0 <- Hcur. unfold call, m_try, release_all_reservations. rewrite run_bind. simpl.
    rewrite Hcur. rewrite run_bind. simpl. by rewrite iter_pairs_empty. }
  unfold end_request, cancel_preparation. rewrite run_bind. simpl.
  destruct (first_pkg_of rq (work s)) as [p|] eqn:Hf; rewrite run_bind; simpl; rewrite run_bind.
  - erewrite Hrel; [done|done|]. unfold get_current_batch_reservations. simpl.
    change (first_pkg_of rq (delete_items_of (pkg_reliefpkg_id p) (work s))) with (first_pkg_of rq (work s)).
    rewrite Hf. by rewrite pkg_items_deleted.
  - erewrite Hrel; [|done|]; [by destruct s|]. unfold get_current_batch_reservations. by rewrite Hf.
Qed.

(** * Committing what was not reserved *)

Section unreserved.
Context `{R : Runtime} (cx : Ctx).

(** The batch falls by the package's new share, and its reservation by as much
    of it as there is. *)
Definition committed_share (pid : Z) (d d' : DB) : Prop :=
  ∀ bid b, db_itembatch d !! bid = Some b → ∃ b', db_itembatch d' !! bid = Some b' ∧
    let q := slot d' pid (bkey b) in
    ib_usable b' = ib_usable b - q ∧
    ib_reserved b' = if 0 <? q then Z.max 0 (ib_reserved b - q) else ib_reserved b.

Lemma commit_rows pid d bid b :
  keyed_pkg_items d → items_nonneg d → db_itembatch d !! bid = Some b →
  ∃ b', db_itembatch (commit_spec (pkg_items_of pid d) d) !! bid = Some b' ∧
    ib_usable b' = ib_usable b - slot d pid (bkey b) ∧
    ib_reserved b' = if 0 <? slot d pid (bkey b) then Z.max 0 (ib_reserved b - slot d pid (bkey b)) else ib_reserved b.
Proof.
  intros Hk Hn Hb. eexists. split; [unfold commit_spec; simpl; by rewrite lookup_fmap, Hb|].
  unfold entry_row. destruct (entry_for item3 _ b) as [v|] eqn:E.
  - apply entry_for_Some in E as [Hin Hv]. rewrite <- Hv, slot_item by done. unfold commit_row.
    assert (0 ≤ pi_item_qty v) by (apply elem_of_pkg_items in Hin as [_ Hin]; [exact (Hn _ v Hin)|done]).
    destruct (Z.ltb_spec 0 (pi_item_qty v)); [|lia].
    unfold set_ib_reserved, set_ib_usable, set_ib_stock, ib_usable, ib_reserved. simpl. done.
  - rewrite slot_none; [simpl; split; [lia|done]|done|]. by apply entry_for_None.
Qed.

(** A form processed, other tables updated, and the inventory committed. *)
Lemma process_commit complete r s allocs old s1 :
  well_keyed (work s) → form_ok cx → db_pkg (work s) !! cx_new_pkg_id cx = None →
  run_ok (process_allocations cx r complete) s (allocs, old) s1 →
  ∃ p, first_pkg_of (rq_reliefrqst_id r) (work s1) = Some p ∧
    db_pkg (work s1) !! pkg_reliefpkg_id p = Some p ∧
    ∀ c d3 p' s3,
      db_itembatch d3 = db_itembatch (work s1) → db_pkg_item d3 = db_pkg_item (work s1) →
      db_pkg d3 = <[pkg_reliefpkg_id p := p']> (db_pkg (work s1)) →
      pkg_reliefpkg_id p' = pkg_reliefpkg_id p → pkg_reliefrqst_id p' = pkg_reliefrqst_id p →
      run_ok (commit_inventory (rq_reliefrqst_id r)) (mkSession c d3) tt s3 →
      db_pkg (work s3) = db_pkg d3 ∧ committed_share (pkg_reliefpkg_id p) (work s) (work s3).
Proof.
  intros Hw Hf Hnew Hrun.
  destruct (process_run cx complete r s allocs old s1 Hw Hf Hnew Hrun) as
    (p & d1 & vs & Ht & Hvs & -> & _ & _ & _).
  destruct (target_keyed cx r _ p d1 Hw Hnew Ht) as ((V1 & V2 & V3 & V4 & V5 & V6 & V7 & V8 & V9) & Hp1 & Hprq & _).
  set (rows := form_rows _ _ _) in *. set (pid := pkg_reliefpkg_id p) in *.
  assert (NoDup (row_key pid <$> rows)) as Hnd
    by (apply (form_rows_nodup cx); [done|by apply items_of_nodup, Hw]).
  exists p. split; [by apply (first_pkg_unique _ _ pid)|]. split; [done|].
  intros c d3 p' s3 E1 E2 E3 Hid Hrq Hcom. fold pid in E3, Hid.
  assert (keyed_pkg_items d3 ∧ items_nonneg d3) as [I3 N3].
  { unfold keyed_pkg_items, items_nonneg. rewrite E2.
    apply (allocated_kept pid d1 vs _ rows V4 Hvs Hnd); [|exact V9].
    intros x. by apply (form_rows_nonneg cx). }
  assert (db_itembatch d1 = db_itembatch (work s)) as B1 by (destruct Ht as [[_ ->]|(_ & _ & ->)]; done).
  assert (keyed_batches d3) as K3 by (unfold keyed_batches; rewrite E1; exact V1).
  apply commit_run in Hcom as [_ ->]; [|done..]. unfold current_items. simpl.
  assert (first_pkg_of (rq_reliefrqst_id r) d3 = Some p') as ->.
  { apply (first_pkg_unique _ _ pid); [..|rewrite E3; apply lookup_insert_eq|congruence].
    - unfold keyed_pkgs. rewrite E3. by apply map_Forall_insert_2.
    - unfold one_pkg. rewrite E3. exact (one_pkg_put pid p p' d1 V7 Hp1 Hrq). }
  rewrite Hid. split; [done|]. intros bid b Hb.
  apply (commit_rows pid d3 bid b I3 N3). rewrite E1. simpl. by rewrite B1.
Qed.
End unreserved.

Section direct.
Context `{R : Runtime} (cx : Ctx).

Lemma committed_share_frame pid d d' d2 :
  db_itembatch d2 = db_itembatch d' → db_pkg_item d2 = db_pkg_item d' →
  committed_share pid d d' → committed_share pid d d2.
Proof. intros E1 E2 H bid b Hb. rewrite E1. unfold slot. rewrite E2. by apply H. Qed.

(** The end of both requests: the request marked, a notice sent, all committed. *)
Lemma finish_run {A} rq (users : A) (k : PM unit) s s' :
  (∀ s s', run_ok k s tt s' → ∃ m, s' = upd_work (set_db_notification m) s) →
  run_ok (mark_part_filled cx rq;; k;; db_commit) s tt s' →
  db_itembatch (committed s') = db_itembatch (work s) ∧ db_pkg_item (committed s') = db_pkg_item (work s) ∧
  db_pkg (committed s') = db_pkg (work s).
Proof.
  intros Hk. rewrite seq_ok. intros (s1 & (m & -> & _)%mark_run & H). rewrite seq_ok in H.
  destruct H as (s2 & (n & ->)%Hk & ->%commit_run_last). done.
Qed.

Lemma issue_frame l allocs d :
  ∃ m, foldl (λ d v, put_rqst_item (issue_allocated allocs v) d) d l = set_db_rqst_item m d.
Proof.
  revert d. induction l as [|v l IH]; intros d; simpl; [exists (db_rqst_item d); by destruct d|].
  destruct (IH (put_rqst_item (issue_allocated allocs v) d)) as [m ->]. by eexists.
Qed.
End direct.

(** sending a package directly takes its whole content out of stock and, from
    each batch's reservations, as much of it as there is: the form's quantities are
    never reserved first, so beyond what the package held before, these are the
    reservations of other packages. *)
Theorem send_for_dispatch_takes `{Runtime} cx r v1 v2 s s' :
  well_keyed (work s) → form_ok cx → db_pkg (work s) !! cx_new_pkg_id cx = None →
  run_ok (send_for_dispatch cx r v1 v2) s tt s' →
  ∃ pid, committed_share pid (work s) (committed s') ∧
    ∃ p, db_pkg (committed s') !! pid = Some p ∧ pkg_status_code p = "D"%string.
Proof.
  intros Hw Hf Hnew. unfold send_for_dispatch. rewrite run_fail_if. intros [_ Hrun].
  apply run_reads in Hrun as ([] & _ & Hrun); [|apply reads_validate].
  apply run_reads in Hrun as ([] & _ & Hrun); [|apply reads_check_version].
  rewrite bind_ok in Hrun. destruct Hrun as ([allocs old] & s1 & H1 & Hrun).
  destruct (process_commit cx true r s allocs old s1 Hw Hf Hnew H1) as (p & Hfp & Hp & Hcom).
  rewrite run_get, Hfp, seq_ok in Hrun. destruct Hrun as (s2 & H2 & Hrun).
  apply (mod_pkg_run _ _ p) in H2 as ->; [|done]. rewrite seq_ok in Hrun.
  destruct Hrun as (s3 & H3%commit_or_fail_run & Hrun).
  eapply Hcom in H3 as [Hpk Hshare]; [|done..].
  apply (finish_run cx _ tt) in Hrun as (E1 & E2 & E3); [|intros; by eapply notify_run].
  exists (pkg_reliefpkg_id p). split; [by eapply committed_share_frame|].
  rewrite E3, Hpk. simpl. eexists. split; [apply lookup_insert_eq|done].
Qed.

(** the manager's approval of an edited package does the same: the edit is not
    reserved, and the commit takes the new content from stock and from whatever is
    reserved, so what the package gave up in the edit stays reserved. *)
Theorem approve_and_dispatch_takes `{Runtime} cx r p v1 v2 s s' :
  well_keyed (work s) → form_ok cx → db_pkg (work s) !! cx_new_pkg_id cx = None →
  first_pkg_of (rq_reliefrqst_id r) (work s) = Some p →
  run_ok (approve_and_dispatch cx r p v1 v2) s tt s' →
  committed_share (pkg_reliefpkg_id p) (work s) (committed s') ∧
  db_pkg (committed s') !! pkg_reliefpkg_id p = Some (approve_pkg cx p).
Proof.
  intros Hw Hf Hnew Hfp0. unfold approve_and_dispatch. rewrite seq_ok.
  intros (s0 & ->%validate_both_run & Hrun).
  rewrite bind_ok in Hrun. destruct Hrun as ([allocs old] & s1 & H1 & Hrun).
  destruct (process_commit cx false r s allocs old s1 Hw Hf Hnew H1) as (p' & Hfp & Hp & Hcom).
  assert (p' = p) as ->.
  { destruct (process_run cx false r s allocs old s1 Hw Hf Hnew H1) as (q & d1 & vs & Ht & _ & -> & _).
    destruct Ht as [[Hq ->]|(Hq & _)]; [|congruence]. change (first_pkg_of (rq_reliefrqst_id r) (work s) = Some p') in Hfp.
    congruence. }
  apply run_reads in Hrun as ([] & _ & Hrun); [|apply reads_check_totals].
  rewrite run_get, run_fail_if, run_mod, seq_ok in Hrun. destruct Hrun as (_ & s2 & H2 & Hrun).
  destruct (issue_frame (items_of (rq_reliefrqst_id r) (work s1)) allocs (work s1)) as [m Hm].
  unfold upd_work in H2. simpl in H2. rewrite Hm in H2.
  apply (mod_pkg_run _ _ p) in H2 as ->; [|done]. rewrite seq_ok in Hrun.
  destruct Hrun as (s3 & H3%commit_or_fail_run & Hrun).
  eapply Hcom in H3 as [Hpk Hshare]; [|done..].
  apply (finish_run cx _ tt) in Hrun as (E1 & E2 & E3); [|intros; by eapply notify_run].
  split; [by eapply committed_share_frame|]. rewrite E3, Hpk. apply lookup_insert_eq.
Qed.

(** * Concrete requests *)

#[local] Existing Instance canonical_runtime.

#[export] Instance preparing_dec `{Runtime} rq d : Decision (preparing rq d).
Proof. unfold preparing. destruct (first_pkg_of rq d); apply _. Defined.

Lemma form_cx_ok name lo lm now id l :
  bool_decide (NoDup l.*1) && bool_decide (Forall (λ e : Z * Z, 0 ≤ e.2) l) = true →
  form_ok (form_cx name lo lm now id l).
Proof. intros [H1%bool_decide_eq_true_1 H2%bool_decide_eq_true_1]%andb_true_iff it. done. Qed.

Definition draft : PM unit :=
  prepare_package (form_cx "LO" true false 30 70 [(11, units 25); (12, units 15)]) 7 SaveDraft (Version 1) Missing.
Definition resubmitted : PM unit :=
  prepare_package (form_cx "LO" true false 40 71 [(11, units 30); (12, units 10)]) 7 SubmitForApproval
    (Version 2) (Version 1).
Definition approved : PM unit :=
  review_approval (form_cx "LM" false true 50 71 []) 7 RApprove (Version 3) (Version 2).

Definition d0 := request_db (stock_db 0 0).
Definition d1 := after draft d0.
Definition d2 := after resubmitted d1.

Lemma served_after cx m d :
  form_ok cx → db_pkg d !! cx_new_pkg_id cx = None → keeping_request cx d m → served d (after m d).
Proof.
  intros Hf Hnew Hm. exists cx, m, (end_request m (session_of d)).2. split_and!; [done..|].
  unfold after, end_request. by destruct (m (session_of d)).
Qed.

(** A draft, a submission that moves five units between batches, an approval: 30
    units leave batch 11 and nothing stays reserved. *)
Lemma packaging_covered_witness :
  ∃ d3, reach served d0 d3 ∧ workflow_ok d3 ∧
    ib_reserved <$> db_itembatch d2 !! 11 = Some (units 30) ∧
    ib_usable <$> db_itembatch d3 !! 11 = Some (units 30) ∧ ib_reserved <$> db_itembatch d3 !! 11 = Some 0.
Proof.
  assert (reach served d0 (after approved d2)) as Hreach.
  { apply (reach_step served d0 d1); [|apply (reach_step served d1 d2); [|apply (reach_step served d2 (after approved d2));
      [|apply reach_refl]]].
    - apply (served_after (form_cx "LO" true false 30 70 [(11, units 25); (12, units 15)]) draft);
        [by apply form_cx_ok|vm_compute; reflexivity|apply kr_prepare; [done|by_decide]].
    - apply (served_after (form_cx "LO" true false 40 71 [(11, units 30); (12, units 10)]) resubmitted);
        [by apply form_cx_ok|vm_compute; reflexivity|apply kr_prepare; [done|by_decide]].
    - apply (served_after (form_cx "LM" false true 50 71 []) approved);
        [by apply form_cx_ok|vm_compute; reflexivity|apply kr_review]. }
  exists (after approved d2). split; [exact Hreach|]. split.
  - apply (packaging_covered d0); [exact Hreach|]. unfold workflow_ok, well_keyed. split_and!; by_decide.
  - split_and!; vm_compute; reflexivity.
Defined.

(** Package 72 of request 8 holds 30 units of batch 11. *)
Definition shared_db : DB :=
  request_db (set_db_pkg {[72 := package 72 8 "P"]}
    (set_db_pkg_item (pkg_items [pkg_item 72 1 11 1 30]) (stock_db 30 0))).

Definition manager : Ctx := form_cx "LM" false true 50 70 [(11, units 25); (12, units 15)].
Definition request7 : ReliefRqst := mkReliefRqst 7 5 10 None "M" None 3 None "AG" 0 None None None None 1.

Definition after_sent : Session :=
  (send_for_dispatch manager request7 (Version 1) Missing (session_of shared_db)).1.

(** The package of request 7 takes 25 units of what package 72 reserved. *)
Lemma send_for_dispatch_takes_witness :
  run_ok (send_for_dispatch manager request7 (Version 1) Missing) (session_of shared_db) tt after_sent ∧ covered shared_db ∧
  (∃ pid, committed_share pid shared_db (committed after_sent)) ∧
  ib_reserved <$> db_itembatch (committed after_sent) !! 11 = Some (units 5) ∧
  held (committed after_sent) (1, 1, 11) = units 30 ∧ ¬ covered (committed after_sent).
Proof.
  assert (run_ok (send_for_dispatch manager request7 (Version 1) Missing) (session_of shared_db) tt after_sent) as Hrun
    by (unfold after_sent; apply run_ok_fst; vm_compute; reflexivity).
  destruct (send_for_dispatch_takes manager request7 (Version 1) Missing (session_of shared_db) after_sent)
    as (pid & Hshare & _); [unfold well_keyed; split_and!; by_decide|by apply form_cx_ok
    |vm_compute; reflexivity|exact Hrun|].
  split; [exact Hrun|]. split; [by_decide|]. split; [by exists pid|].
  split; [vm_compute; reflexivity|]. split; [vm_compute; reflexivity|by_decide].
Defined.

Definition drafted : ReliefPkg :=
  mkReliefPkg 70 5 "TRK0001" 1 7 20 None "P" None None None None (new_audit "LO" 30).

Definition editing : Ctx := form_cx "LM" false true 50 71 [(11, units 10); (12, units 15)].
Definition request7_drafted : ReliefRqst := part_filled "LO" 30 request7.
Definition after_edited : Session :=
  (approve_and_dispatch editing request7_drafted drafted (Version 2) (Version 1) (session_of d1)).1.

(** The manager reduces the draft's 25 units to 10: 15 stay reserved by nobody. *)
Lemma approve_and_dispatch_takes_witness :
  run_ok (approve_and_dispatch editing request7_drafted drafted (Version 2) (Version 1)) (session_of d1) tt after_edited ∧ covered d1 ∧
  committed_share (pkg_reliefpkg_id drafted) (work (session_of d1)) (committed after_edited) ∧
  ib_reserved <$> db_itembatch (committed after_edited) !! 11 = Some (units 15) ∧
  held (committed after_edited) (1, 1, 11) = 0 ∧ ¬ covered (committed after_edited).
Proof.
  assert (run_ok (approve_and_dispatch editing request7_drafted drafted (Version 2) (Version 1)) (session_of d1) tt after_edited) as Hrun
    by (unfold after_edited; apply run_ok_fst; vm_compute; reflexivity).
  destruct (approve_and_dispatch_takes editing request7_drafted drafted (Version 2) (Version 1) (session_of d1) after_edited) as (Hshare & _);
    [unfold well_keyed; split_and!; by_decide|by apply form_cx_ok|vm_compute; reflexivity|vm_compute; reflexivity
    |exact Hrun|].
  split; [exact Hrun|]. split; [by_decide|]. split; [exact Hshare|].
  split; [vm_compute; reflexivity|]. split; [vm_compute; reflexivity|by_decide].
Defined.
