(* ===== verification/AllocationTheorems.v ===== *)
(** The functional correctness of [_process_allocations]. *)
From S2P Require Import Prelude PyStr Schema Ledger Fixtures Reservation ReservationProofs ReliefRequest ItemStatus BatchAllocation Dispatch Packaging PackagingProofs Coverage AllocationProofs.

Lemma put_rqst_items_in us m u :
  NoDup ((λ u, (ri_reliefrqst_id u, ri_item_id u)) <$> us) → u ∈ us →
  put_rqst_items us m !! (ri_reliefrqst_id u, ri_item_id u) = Some u.
Proof.
  revert m. induction us as [|w us IH]; intros m Hnd Hu; [set_solver|]. csimpl in Hnd.
  apply NoDup_cons in Hnd as [Hw Hnd]. simpl. apply elem_of_cons in Hu as [->|Hu]; [|by apply IH].
  clear IH. assert (∀ m, put_rqst_items us m !! (ri_reliefrqst_id w, ri_item_id w) = m !! (ri_reliefrqst_id w, ri_item_id w)) as Hno.
  { clear -Hw. induction us as [|x us IH]; intros m; [done|]. csimpl in Hw. apply not_elem_of_cons in Hw as [H1 H2].
    simpl. rewrite IH by done. by apply lookup_insert_ne. }
  rewrite Hno. apply lookup_insert_eq.
Qed.

Lemma issue_qty_bound status total requested :
  total ≤ requested → 0 ≤ requested → issue_qty_for status total requested ≤ requested.
Proof. intros Ht Hr. unfold issue_qty_for, CENT. repeat case_bool_decide; lia. Qed.

(** processing a form replaces the package's records by the form's rows, with
    the quantities it gives, and touches no other package, batch or inventory row;
    the reservations it asks for are those quantities, against the ones recorded
    before; and each requested item is rewritten as the form says, never issued
    more than requested. *)
Theorem process_allocations_correct `{Runtime} cx complete r s allocs old s' :
  well_keyed (work s) → form_ok cx → db_pkg (work s) !! cx_new_pkg_id cx = None →
  run_ok (process_allocations cx r complete) s (allocs, old) s' →
  let d := work s in let d' := work s' in
  let items := items_of (rq_reliefrqst_id r) d in
  let rows := form_rows cx d items in
  ∃ pid,
    (∀ k, k.1.1.1 = pid →
      (∃ x, x ∈ rows ∧ row_key pid x = k ∧ pi_item_qty <$> (db_pkg_item d' !! k) = Some (row_qty x.2)) ∨
      (k ∉ (row_key pid <$> rows) ∧ db_pkg_item d' !! k = None)) ∧
    (∀ k, k.1.1.1 ≠ pid → db_pkg_item d' !! k = db_pkg_item d !! k) ∧
    (∀ k, default 0 (dict_get (akey k) (new_reservations allocs)) = slot d' pid k ∧
          default 0 (dict_get (akey k) old) = slot d pid k) ∧
    (∀ item, item ∈ items → db_rqst_item d' !! (ri_reliefrqst_id item, ri_item_id item) = Some (item_after cx d item) ∧
       item_total cx d item ≤ ri_request_qty item ∧
       (0 ≤ ri_request_qty item → ri_issue_qty (item_after cx d item) ≤ ri_request_qty item)) ∧
    db_itembatch d' = db_itembatch d ∧ db_inventory d' = db_inventory d.
Proof.
  intros Hw Hf Hnew Hrun. simpl.
  destruct (process_run cx complete r s allocs old s' Hw Hf Hnew Hrun) as
    (p & d1 & vs & Ht & Hvs & -> & -> & -> & Hacc).
  destruct (target_keyed cx r _ p d1 Hw Hnew Ht) as ((V1 & V2 & V3 & V4 & V5 & V6 & V7 & V8 & V9) & _).
  set (items := items_of _ _) in *. set (rows := form_rows _ _ items) in *. set (pid := pkg_reliefpkg_id p) in *.
  assert (NoDup (ri_item_id <$> items)) as Hitems by (by apply items_of_nodup, Hw).
  assert (NoDup (row_key pid <$> rows)) as Hnd by (by apply (form_rows_nodup cx)).
  assert (∀ x, x ∈ rows → 0 ≤ row_qty x.2) as Hnn by (intros x; by apply (form_rows_nonneg cx)).
  assert (db_pkg_item d1 = db_pkg_item (work s) ∧ db_itembatch d1 = db_itembatch (work s) ∧
    db_inventory d1 = db_inventory (work s)) as (E1 & E2 & E3)
    by (destruct Ht as [[_ ->]|(_ & _ & ->)]; done).
  exists pid. cbn [upd_work work committed]. set (us := item_after cx (work s) <$> items).
  split_and!.
  - intros k Hk. destruct (decide (k ∈ row_key pid <$> rows)) as [Hin|Hin].
    + left. apply list_elem_of_fmap in Hin as (x & -> & Hx).
      destruct (forall2_elem_l _ _ _ _ Hvs Hx) as (v & Hv & [Hvk Hvq]). exists x. split_and!; [done|done|].
      change (row_key pid x) with (pid, x.2.1.1.2, x.2.1.1.1, x.1). rewrite <- Hvk.
      rewrite (allocated_in pid d1 vs us rows Hvs Hnd v Hv). simpl. by rewrite Hvq.
    + right. split; [done|]. apply (allocated_notin pid d1 vs us V4); [done|].
      by rewrite (records_keys pid rows).
  - intros k Hk. rewrite (allocated_other pid d1 vs us rows V4 Hvs) by done. by rewrite E1.
  - intros k. split; [by apply new_slot|]. rewrite old_slot by done. unfold slot. by rewrite E1.
  - intros item Hi. rewrite Forall_forall in Hacc. destruct (Hacc item Hi) as (Htot & _ & _). split_and!; [|done|].
    + unfold allocated. simpl.
      apply (put_rqst_items_in us (db_rqst_item d1) (item_after cx (work s) item)).
      * unfold us. rewrite <- list_fmap_compose. clear -Hitems. induction items as [|i l IH]; [constructor|].
        csimpl in *. apply NoDup_cons in Hitems as [Hi Hl]. constructor; [|by apply IH].
        intros Hin. apply Hi. apply list_elem_of_fmap in Hin as (j & Heq & Hj). simpl in Heq.
        apply list_elem_of_fmap. exists j. split; [congruence|done].
      * by apply list_elem_of_fmap_2.
    + intros Hr. simpl. by apply issue_qty_bound.
  - done.
  - done.
Qed.

Definition process_form : PM (list Alloc * list (AllocKey * Z)) :=
  @process_allocations canonical_runtime (form_cx "LO" true false 30 70 [(11, units 25); (12, 0)])
    (mkReliefRqst 7 5 10 None "M" None 3 None "AG" 0 None None None None 1) false.
Definition processed : Session := (process_form (session_of (request_db (stock_db 0 0)))).1.

(** A quantity of zero leaves a record; the item becomes partly filled. *)
Lemma process_allocations_correct_witness :
  let s := session_of (request_db (stock_db 0 0)) in
  run_ok process_form s ([mkAlloc 1 11 (Some 1) (units 25)], []) processed ∧
  pi_item_qty <$> db_pkg_item (work processed) !! (70, 1, 12, 1) = Some 0 ∧
  (∃ v, db_rqst_item (work processed) !! (7, 1) = Some v ∧ ri_status_code v = "P"%string ∧
     ri_issue_qty v = units 25) ∧
  db_itembatch (work processed) = db_itembatch (work s).
Proof.
  assert (run_ok process_form (session_of (request_db (stock_db 0 0)))
    ([mkAlloc 1 11 (Some 1) (units 25)], []) processed) as Hrun
    by (unfold processed; apply run_ok_fst; vm_compute; reflexivity).
  edestruct (@process_allocations_correct canonical_runtime (form_cx "LO" true false 30 70 [(11, units 25); (12, 0)])
    false (mkReliefRqst 7 5 10 None "M" None 3 None "AG" 0 None None None None 1)
    (session_of (request_db (stock_db 0 0)))) as (pid & _ & _ & _ & _ & Hb & _);
    [unfold well_keyed; split_and!; by_decide|intros it; split; by_decide|vm_compute; reflexivity|exact Hrun|].
  split; [exact Hrun|]. split; [vm_compute; reflexivity|]. split; [|exact Hb].
  eexists. split; [vm_compute; reflexivity|]. split; vm_compute; reflexivity.
Defined.
