(* ===== verification/DonationIntake.v ===== *)
(** Taking donations into stock (app/features/donation_intake.py).

    An officer enters an intake of a verified donation at a warehouse, as a draft
    or for verification; a manager verifies it, and only then batches and inventory
    change.  The form is parsed: a number is what [Decimal] makes of the field
    (NaN fails every comparison of the code and counts as no number; infinities are
    not modelled), a date what [strptime] makes of it. *)
From S2P Require Import Prelude PyStr ParamValidation Schema Columns Ledger.

(** * Forms *)

(** The fields of one item on the entry form; [ef_present] says that the batch
    number field was sent at all. *)
Record EntryForm : Type := mkEntryForm {
  ef_present : bool;
  ef_batch_no : string;
  ef_batch_date : DateField;
  ef_expiry_date : DateField;
  ef_uom_code : option string;
  ef_avg_unit_value : NumField;
  ef_usable_qty : NumField;
  ef_defective_qty : NumField;
  ef_expired_qty : NumField;
  ef_comments : string
}.

(** The fields of one item on the verification form; an absent field stands for
    what the officer entered. *)
Record VerifyForm : Type := mkVerifyForm {
  vf_defective_qty : NumField;
  vf_expired_qty : NumField;
  vf_batch_no : option string;
  vf_batch_date : DateField;
  vf_expiry_date : DateField;
  vf_comments : option string
}.

Record IntakeCtx : Type := mkIntakeCtx {
  ic_user_name : string;
  ic_now : Z;
  ic_today : Z;
  ic_intake_date : DateField;
  ic_comments : string;
  ic_entry : Z → EntryForm;           (* by item id *)
  ic_verify : Z → VerifyForm;
  ic_new_batch : Z → string → Z       (* the serial a new batch of the item gets *)
}.

(** The error messages, by what they report. *)
Inductive IntakeError : Type :=
| IntakeDateRequired | IntakeDateInFuture | BadIntakeDate | CommentsTooLong
| MissingIntakeData | BatchNoRequired | BatchDateRequired | BatchDateInFuture | BadBatchDate
| BatchDateMissing | BatchNoMissing
| ExpiryRequired | ExpiryInPast | ExpiryBeforeBatch | BadExpiryDate
| UomRequired | NegativeQuantity | ZeroUsable | BadQuantity | CostNotPositive | BadCost
| DuplicateBatch | QuantityMismatch (actual expected : Z) | NoIntakeData
| NoDonationItem | DonationQtyNotPositive | IntakeQtyNotPositive
| DeductionsExceedIntake | DeductionsExceedDonation | UsableNotPositive.

Inductive IntakeFailure : Type :=
| INotFound
| IRefused (msg : string)
| IErrors (errors : list (Z * IntakeError))     (* item id, or 0 for the header *)
| IDatabaseError.                               (* ValueError of the audit helper, IntegrityError *)

Abbreviation IM := (M Session IntakeFailure).

(** What an accepted row carries to the tables. *)
Record EntryData : Type := mkEntryData {
  ed_item_id : Z;
  ed_batch_no : string;
  ed_batch_date : option Z;
  ed_expiry_date : option Z;
  ed_uom_code : string;
  ed_avg_unit_value : Z;
  ed_usable_qty : Z;
  ed_defective_qty : Z;
  ed_expired_qty : Z;
  ed_comments_text : option string
}.

Definition ed_total (e : EntryData) : Z := ed_usable_qty e + ed_defective_qty e + ed_expired_qty e.

(** [text.upper() if text else None] of a stripped text. *)
Definition upper_or_none (s : string) : option string :=
  if bool_decide (s = ""%string) then None else Some (upper s).

(** The sum type as the error monad of the row checks. *)
#[local] Instance err_ret : MRet (sum (IntakeError)) := λ A a, inr a.
#[local] Instance err_bind : MBind (sum (IntakeError)) := λ A B f m,
  match m with inl e => inl e | inr a => f a end.
Definition check (b : bool) (e : IntakeError) : IntakeError + unit := if b then inr tt else inl e.

Section intake.
Context `{R : Runtime} (cx : IntakeCtx).

Abbreviation today := (ic_today cx).
Abbreviation now := (ic_now cx).

(** * Entry *)

Definition entry_batch (item : Item) (f : EntryForm) : IntakeError + (string * option Z) :=
  let batch_no_raw := upper (strip (ef_batch_no f)) in
  let no_given := negb (bool_decide (batch_no_raw = ""%string)) in
  let dated :=
    match ef_batch_date f with
    | NoDate => inl BatchDateRequired
    | BadDate => inl BadBatchDate
    | OnDay b => if today <? b then inl BatchDateInFuture else inr (batch_no_raw, Some b)
    end in
  let date_given := match ef_batch_date f with NoDate => false | _ => true end in
  if it_is_batched_flag item then
    if negb no_given then inl BatchNoRequired else dated
  else if no_given && negb date_given then inl BatchDateMissing
  else if negb no_given && date_given then inl BatchNoMissing
  else if no_given && date_given then dated
  else inr (it_item_code item, Some today).

Definition entry_expiry (item : Item) (f : EntryForm) (batch_date : option Z) : IntakeError + option Z :=
  if it_can_expire_flag item then
    match ef_expiry_date f with
    | NoDate => inl ExpiryRequired
    | BadDate => inl BadExpiryDate
    | OnDay e =>
        if e <? today then inl ExpiryInPast
        else match batch_date with
             | Some b => if e <? b then inl ExpiryBeforeBatch else inr (Some e)
             | None => inr (Some e)
             end
    end
  else inr (match ef_expiry_date f with OnDay e => Some e | _ => None end).

Definition entry_quantities (f : EntryForm) : IntakeError + (Z * Z * Z) :=
  match num_or_zero (ef_usable_qty f), num_or_zero (ef_defective_qty f), num_or_zero (ef_expired_qty f) with
  | Some u, Some d, Some e =>
      if (u <? 0) || (d <? 0) || (e <? 0) then inl NegativeQuantity
      else if u =? 0 then inl ZeroUsable
      else inr (u, d, e)
  | _, _, _ => inl BadQuantity
  end.

Definition entry_cost (f : EntryForm) : IntakeError + Z :=
  match num_or_zero (ef_avg_unit_value f) with
  | None => inl BadCost
  | Some v => if v <=? 0 then inl CostNotPositive else inr v
  end.

Definition entry_item (g : DonationItem * Item) : IntakeError + EntryData :=
  let item_id := di_item_id g.1 in
  let item := g.2 in
  let f := ic_entry cx item_id in
  check (ef_present f) MissingIntakeData ≫= λ _,
  entry_batch item f ≫= λ '(batch_no, batch_date),
  entry_expiry item f batch_date ≫= λ expiry_date,
  match ef_uom_code f with
  | None => inl UomRequired
  | Some uom =>
      if bool_decide (uom = ""%string) then inl UomRequired else
      entry_quantities f ≫= λ '(usable, defective, expired),
      entry_cost f ≫= λ avg_unit_value,
      inr (mkEntryData item_id batch_no batch_date expiry_date uom avg_unit_value
             usable defective expired (upper_or_none (strip (ef_comments f))))
  end.

(** The donated goods, with their item records. *)
Definition goods_items (donation_id : Z) (d : DB) : list (DonationItem * Item) :=
  omap (λ di, match db_item d !! di_item_id di with
              | Some it => if bool_decide (it_category_type it = "GOODS"%string) then Some (di, it) else None
              | None => None
              end)
    (filter (λ di, di_donation_id di = donation_id) (donation_item_rows (db_donation_item d))).

Definition header_errors : list (Z * IntakeError) :=
  match ic_intake_date cx with
  | NoDate => [(0, IntakeDateRequired)]
  | BadDate => [(0, BadIntakeDate)]
  | OnDay i => if today <? i then [(0, IntakeDateInFuture)] else []
  end ++ (if 255 <? Z.of_nat (String.length (strip (ic_comments cx))) then [(0, CommentsTooLong)] else []).

(** The accepted rows and the errors of the others. *)
Definition entry_rows (goods : list (DonationItem * Item)) : list EntryData :=
  omap (λ g, match entry_item g with inr e => Some e | inl _ => None end) goods.
Definition row_errors (goods : list (DonationItem * Item)) : list (Z * IntakeError) :=
  omap (λ g, match entry_item g with inl e => Some (di_item_id g.1, e) | inr _ => None end) goods.

(** Keys seen twice, in order. *)
Fixpoint duplicate_errors (seen : list (Z * string)) (rows : list EntryData) : list (Z * IntakeError) :=
  match rows with
  | [] => []
  | e :: rows' =>
      let key := (ed_item_id e, ed_batch_no e) in
      (if bool_decide (key ∈ seen) then [(ed_item_id e, DuplicateBatch)] else []) ++
      duplicate_errors (key :: seen) rows'
  end.

Definition item_total (rows : list EntryData) (item_id : Z) : option Z :=
  match filter (λ e, ed_item_id e = item_id) rows with
  | [] => None
  | l => Some (lsum ed_total l)
  end.

Definition total_errors (goods : list (DonationItem * Item)) (rows : list EntryData) : list (Z * IntakeError) :=
  omap (λ g, let actual := default 0 (item_total rows (di_item_id g.1)) in
             if actual =? di_item_qty g.1 then None
             else Some (di_item_id g.1, QuantityMismatch actual (di_item_qty g.1))) goods ++
  omap (λ g, match item_total rows (di_item_id g.1) with
             | None => Some (di_item_id g.1, NoIntakeData) | Some _ => None end) goods.

Definition entry_errors (goods : list (DonationItem * Item)) : list (Z * IntakeError) :=
  let rows := entry_rows goods in
  header_errors ++ row_errors goods ++ duplicate_errors [] rows ++ total_errors goods rows.

Definition intake_item_pk (k : DonationIntakeItem) : Z * Z * Z * string :=
  (ki_donation_id k, ki_inventory_id k, ki_item_id k, ki_batch_no k).

Definition put_intake (k : DonationIntake) (d : DB) : DB :=
  set_db_dnintake (<[(dk_donation_id k, dk_inventory_id k) := k]> (db_dnintake d)) d.
Definition put_intake_item (k : DonationIntakeItem) (d : DB) : DB :=
  set_db_dnintake_item (<[intake_item_pk k := k]> (db_dnintake_item d)) d.
Definition clear_intake_items (donation_id inventory_id : Z) (d : DB) : DB :=
  set_db_dnintake_item (filter (λ kv, ¬ (ki_donation_id kv.2 = donation_id ∧ ki_inventory_id kv.2 = inventory_id))
    (db_dnintake_item d)) d.

Definition new_intake_item (donation_id inventory_id : Z) (uid : string) (e : EntryData) : DonationIntakeItem :=
  mkDonationIntakeItem donation_id inventory_id (ed_item_id e) (ed_batch_no e) (ed_batch_date e)
    (ed_expiry_date e) (ed_uom_code e) (ed_avg_unit_value e) (ed_total e * ed_avg_unit_value e)
    (ed_usable_qty e) (ed_defective_qty e) (ed_expired_qty e) "P" (ed_comments_text e) (new_audit uid now).

Definition process_entry_submission (donation_id inventory_id : Z) (existing : option DonationIntake)
    (draft : bool) : IM unit :=
  d ← db_get;
  let goods := goods_items donation_id d in
  let errors := entry_errors goods in
  m_fail_if (negb (bool_decide (errors = []))) (IErrors errors);;
  match ic_intake_date cx, audit_id (ic_user_name cx) with
  | OnDay intake_date, Some uid =>
      let comments := upper_or_none (strip (ic_comments cx)) in
      let new_status := if draft then "I"%string else "C"%string in
      (match existing with
       | Some k =>
           db_mod (put_intake (mkDonationIntake (dk_donation_id k) (dk_inventory_id k) intake_date comments
             new_status (dk_verify_by_id k) (dk_verify_dtime k) (stamp uid now (dk_audit k))));;
           db_mod (clear_intake_items donation_id inventory_id)
       | None =>
           db_mod (put_intake (mkDonationIntake donation_id inventory_id intake_date comments new_status
             "" None (new_audit uid now)))
       end);;
      m_for (entry_rows goods) (λ e, db_mod (put_intake_item (new_intake_item donation_id inventory_id uid e)));;
      db_commit
  | _, _ => m_fail IDatabaseError
  end.

(** The POST of [intake_form]. *)
Definition intake_form (donation_id inventory_id : Z) (draft : bool) : IM unit :=
  d ← db_get;
  match db_donation d !! donation_id, db_warehouse d !! inventory_id with
  | Some dn, Some wh =>
      m_fail_if (negb (wh_allow_donation_intake wh)) (IRefused "warehouse");;
      m_fail_if (negb (bool_decide (dn_status_code dn = "V"%string))) (IRefused "not verified");;
      let existing := db_dnintake d !! (donation_id, inventory_id) in
      m_fail_if (match existing with
                 | Some k => bool_decide (dk_status_code k = "V"%string) | None => false end)
        (IRefused "already verified");;
      or_rollback (process_entry_submission donation_id inventory_id existing draft)
  | _, _ => m_fail INotFound
  end.

(** * Verification *)

Record VerifiedData : Type := mkVerifiedData {
  vd_intake_item : DonationIntakeItem;
  vd_batch_no : string;
  vd_batch_date : option Z;
  vd_expiry_date : option Z;
  vd_usable_qty : Z;
  vd_defective_qty : Z;
  vd_expired_qty : Z;
  vd_comments_text : option string
}.

Definition intake_total (k : DonationIntakeItem) : Z := ki_usable_qty k + ki_defective_qty k + ki_expired_qty k.

(** A field of the verification form against the entered quantity. *)
Definition num_or (entered : Z) (f : NumField) : option Z :=
  match f with NoField => Some entered | f => num_or_zero f end.

Definition verify_quantities (donated : option Z) (k : DonationIntakeItem) (f : VerifyForm) :
    IntakeError + (Z * Z * Z) :=
  match num_or (ki_defective_qty k) (vf_defective_qty f), num_or (ki_expired_qty k) (vf_expired_qty f) with
  | Some defective, Some expired =>
      check (negb ((defective <? 0) || (expired <? 0))) NegativeQuantity ≫= λ _,
      match donated with
      | None => inl NoDonationItem
      | Some donation_qty =>
          check (negb (donation_qty <=? 0)) DonationQtyNotPositive ≫= λ _,
          check (negb (intake_total k <=? 0)) IntakeQtyNotPositive ≫= λ _,
          check (negb (intake_total k <? defective + expired)) DeductionsExceedIntake ≫= λ _,
          check (negb (donation_qty <? defective + expired)) DeductionsExceedDonation ≫= λ _,
          let usable := intake_total k - defective - expired in
          check (negb (usable <=? 0)) UsableNotPositive ≫= λ _,
          inr (usable, defective, expired)
      end
  | _, _ => inl BadQuantity
  end.

Definition verify_batch_date (k : DonationIntakeItem) (f : VerifyForm) : IntakeError + option Z :=
  match vf_batch_date f with
  | NoDate => inr (ki_batch_date k)
  | BadDate => inl BadBatchDate
  | OnDay b => if today <? b then inl BatchDateInFuture else inr (Some b)
  end.

Definition verify_expiry (can_expire : bool) (k : DonationIntakeItem) (f : VerifyForm) (batch_date : option Z) :
    IntakeError + option Z :=
  match vf_expiry_date f with
  | NoDate => inr (ki_expiry_date k)
  | BadDate => inl BadExpiryDate
  | OnDay e =>
      check (negb (can_expire && (e <? today))) ExpiryInPast ≫= λ _,
      match batch_date with
      | Some b => if e <? b then inl ExpiryBeforeBatch else inr (Some e)
      | None => inr (Some e)
      end
  end.

Definition verify_row (d : DB) (donation_id : Z) (k : DonationIntakeItem) : IntakeError + VerifiedData :=
  let f := ic_verify cx (ki_item_id k) in
  let batch_no_raw := upper (strip (default (ki_batch_no k) (vf_batch_no f))) in
  let comments := strip (default (default ""%string (ki_comments_text k)) (vf_comments f)) in
  let can_expire := match db_item d !! ki_item_id k with Some it => it_can_expire_flag it | None => false end in
  verify_quantities (di_item_qty <$> db_donation_item d !! (donation_id, ki_item_id k)) k f
    ≫= λ '(usable, defective, expired),
  let batch_no := if bool_decide (batch_no_raw = ""%string) then ki_batch_no k else batch_no_raw in
  verify_batch_date k f ≫= λ batch_date,
  verify_expiry can_expire k f batch_date ≫= λ expiry_date,
  inr (mkVerifiedData k batch_no batch_date expiry_date usable defective expired (upper_or_none comments)).

Definition intake_items_of (donation_id inventory_id : Z) (d : DB) : list DonationIntakeItem :=
  filter (λ k, ki_donation_id k = donation_id ∧ ki_inventory_id k = inventory_id)
    (dnintake_item_rows (db_dnintake_item d)).

(** The intake item as verified. *)
Definition verified_item (uid : string) (v : VerifiedData) : DonationIntakeItem :=
  let k := vd_intake_item v in
  mkDonationIntakeItem (ki_donation_id k) (ki_inventory_id k) (ki_item_id k) (vd_batch_no v)
    (vd_batch_date v) (vd_expiry_date v) (ki_uom_code k) (ki_avg_unit_value k)
    (intake_total k * ki_avg_unit_value k) (vd_usable_qty v) (vd_defective_qty v) (vd_expired_qty v) "V"
    (vd_comments_text v)
    (if bool_decide (ki_batch_no k = vd_batch_no v) then stamp uid now (ki_audit k) else new_audit uid now).

(** A changed batch number is a new row in place of the old one. *)
Definition rewrite_intake_item (uid : string) (v : VerifiedData) : IM unit :=
  let k := vd_intake_item v in
  if bool_decide (ki_batch_no k = vd_batch_no v) then db_mod (put_intake_item (verified_item uid v))
  else
    db_mod (λ d, set_db_dnintake_item (delete (intake_item_pk k) (db_dnintake_item d)) d);;
    d ← db_get;
    match db_dnintake_item d !! intake_item_pk (verified_item uid v) with
    | Some _ => m_fail IDatabaseError
    | None => db_mod (put_intake_item (verified_item uid v))
    end.

Definition add_stock (v : VerifiedData) (q : Stock) : Stock :=
  mkStock (usable_qty q + vd_usable_qty v) (reserved_qty q)
    (defective_qty q + vd_defective_qty v) (expired_qty q + vd_expired_qty v).

Definition verified_stock (v : VerifiedData) : Stock :=
  mkStock (vd_usable_qty v) 0 (vd_defective_qty v) (vd_expired_qty v).

Definition find_batch_no (wh it : Z) (no : string) (d : DB) : option ItemBatch :=
  head (filter (λ b, ib_inventory_id b = wh ∧ ib_item_id b = it ∧ ib_batch_no b = Some no)
    (batch_rows (db_itembatch d))).

(** The earlier expiry date wins. *)
Definition merge_expiry (v : VerifiedData) (b : ItemBatch) : ItemBatch :=
  match vd_expiry_date v with
  | Some e =>
      match ib_expiry_date b with
      | Some x => if e <? x then set_ib_expiry_date (Some e) b else b
      | None => set_ib_expiry_date (Some e) b
      end
  | None => b
  end.

Definition new_batch (wh : Z) (uid : string) (v : VerifiedData) : ItemBatch :=
  let k := vd_intake_item v in
  mkItemBatch (ic_new_batch cx (ki_item_id k) (vd_batch_no v)) wh (ki_item_id k) (Some (vd_batch_no v)) (vd_batch_date v)
    (vd_expiry_date v) (verified_stock v) (ki_uom_code k) None (ki_avg_unit_value k) "A" (vd_comments_text v)
    (new_audit uid now).

Definition receive_batch (wh : Z) (uid : string) (v : VerifiedData) : IM unit :=
  d ← db_get;
  match find_batch_no wh (ki_item_id (vd_intake_item v)) (vd_batch_no v) d with
  | Some b =>
      db_mod (put_batch (ib_batch_id b)
        (set_ib_audit (stamp uid now (ib_audit b)) (merge_expiry v (set_ib_stock (add_stock v (ib_stock b)) b))))
  | None => db_mod (put_batch (ib_batch_id (new_batch wh uid v)) (new_batch wh uid v))
  end.

Definition receive_inventory (wh : Z) (uid : string) (v : VerifiedData) : IM unit :=
  d ← db_get;
  let it := ki_item_id (vd_intake_item v) in
  match find_inventory wh it d with
  | Some i => db_mod (put_inventory wh it
      (set_inv_audit (stamp uid now (inv_audit i)) (set_inv_stock (add_stock v (inv_stock i)) i)))
  | None => db_mod (put_inventory wh it
      (mkInventory wh it (verified_stock v) (ki_uom_code (vd_intake_item v)) "A" (new_audit uid now)))
  end.

Definition verify_stock_item (wh : Z) (uid : string) (v : VerifiedData) : IM unit :=
  rewrite_intake_item uid v;; receive_batch wh uid v;; receive_inventory wh uid v.

Definition verified_rows (d : DB) (donation_id inventory_id : Z) : list VerifiedData :=
  omap (λ k, match verify_row d donation_id k with inr v => Some v | inl _ => None end)
    (intake_items_of donation_id inventory_id d).
Definition verify_errors (d : DB) (donation_id inventory_id : Z) : list (Z * IntakeError) :=
  omap (λ k, match verify_row d donation_id k with inl e => Some (ki_item_id k, e) | inr _ => None end)
    (intake_items_of donation_id inventory_id d).

Definition verified_intake (uid : string) (k : DonationIntake) : DonationIntake :=
  mkDonationIntake (dk_donation_id k) (dk_inventory_id k) (dk_intake_date k) (dk_comments_text k) "V"
    (ic_user_name cx) (Some now) (stamp uid now (dk_audit k)).

Definition processed_donation (uid : string) (dn : Donation) : Donation :=
  set_dn_audit (stamp uid now (dn_audit dn)) (set_dn_status_code "P" dn).

Definition process_verification_submission (k : DonationIntake) (dn : Donation) : IM unit :=
  d ← db_get;
  let donation_id := dk_donation_id k in
  let wh := dk_inventory_id k in
  let errors := verify_errors d donation_id wh in
  m_fail_if (negb (bool_decide (errors = []))) (IErrors errors);;
  match audit_id (ic_user_name cx) with
  | None => m_fail IDatabaseError
  | Some uid =>
      db_mod (put_intake (verified_intake uid k));;
      m_for (verified_rows d donation_id wh) (verify_stock_item wh uid);;
      db_mod (λ d, set_db_donation (<[donation_id := processed_donation uid dn]> (db_donation d)) d);;
      db_commit
  end.

(** The POST of [verify_intake]; the donation and the warehouse are reached through
    the intake. *)
Definition verify_intake (donation_id inventory_id : Z) : IM unit :=
  d ← db_get;
  match db_dnintake d !! (donation_id, inventory_id) with
  | None => m_fail INotFound
  | Some k =>
      m_fail_if (negb (bool_decide (dk_status_code k = "C"%string))) (IRefused "not submitted");;
      match db_donation d !! donation_id with
      | None => m_fail IDatabaseError
      | Some dn => or_rollback (process_verification_submission k dn)
      end
  end.
End intake.
