(* ===== verification/DonationIntakeProofs.v ===== *)
(** What the entry of a donation intake writes, and how the verification moves
    stock. *)
From S2P Require Import Prelude PyStr ParamValidation Schema Columns Ledger Fixtures DonationIntake.

(** * Lists *)

Lemma omap_key_nodup {A B K} (f : A → option B) (ka : A → K) (kb : B → K) (l : list A) :
  NoDup (ka <$> l) → (∀ a b, f a = Some b → kb b = ka a) → NoDup (kb <$> omap f l).
Proof.
  intros Hl Hf. induction l as [|a l IH]; [constructor|]. csimpl in Hl. apply NoDup_cons in Hl as [Ha Hl].
  simpl. destruct (f a) as [b|] eqn:E; [|by apply IH]. csimpl. constructor; [|by apply IH].
  rewrite (Hf _ _ E). intros Hin. apply Ha. apply list_elem_of_fmap in Hin as (b' & -> & Hb').
  apply list_elem_of_omap in Hb' as (a' & Ha' & Hfa'). rewrite (Hf _ _ Hfa'). by apply list_elem_of_fmap_2.
Qed.

Lemma omap_nil {A B} (f : A → option B) (l : list A) :
  omap f l = [] ↔ ∀ a, a ∈ l → f a = None.
Proof.
  induction l as [|a l IH]; simpl; [set_solver|]. destruct (f a) eqn:E.
  - split; [done|]. intros H. specialize (H a). rewrite E in H. discriminate H. by left.
  - rewrite IH. setoid_rewrite elem_of_cons. naive_solver.
Qed.

Lemma filter_key_single {A} (key : A → Z) (l : list A) a :
  NoDup (key <$> l) → a ∈ l → filter (λ b, key b = key a) l = [a].
Proof.
  induction l as [|b l IH]; intros Hnd Hin; [set_solver|]. csimpl in Hnd. apply NoDup_cons in Hnd as [Hb Hnd].
  assert (∀ l', (∀ c, c ∈ l' → key c ≠ key a) → filter (λ b, key b = key a) l' = []) as Hnone.
  { clear. induction l' as [|c l' IH]; intros H; [done|]. rewrite filter_cons, decide_False.
    - apply IH. set_solver.
    - apply H. by left. }
  rewrite filter_cons. apply elem_of_cons in Hin as [->|Hin].
  - rewrite decide_True by done. f_equal. apply Hnone. intros c Hc Hk. apply Hb. rewrite <- Hk.
    by apply list_elem_of_fmap_2.
  - rewrite decide_False; [by apply IH|]. intros Hk. apply Hb. rewrite Hk. by apply list_elem_of_fmap_2.
Qed.

Lemma NoDup_fmap_inj_elem {A} (key : A → Z) (l : list A) a b :
  NoDup (key <$> l) → a ∈ l → b ∈ l → key a = key b → a = b.
Proof.
  intros Hnd Ha Hb Heq. pose proof (filter_key_single key l a Hnd Ha) as H1.
  pose proof (filter_key_single key l b Hnd Hb) as H2. rewrite Heq, H2 in H1. by simplify_eq.
Qed.

(** A loop of writes. *)
Lemma for_mod {E A} (f : A → DB → DB) (l : list A) (s s' : Session) :
  run_ok (m_for l (λ a, db_mod (E := E) (f a))) s tt s' ↔ s' = upd_work (effects f l) s.
Proof.
  revert s. induction l as [|a l IH]; intros s.
  - rewrite for_nil. by destruct s.
  - rewrite for_cons. setoid_rewrite IH. setoid_rewrite run_mod_last. naive_solver.
Qed.

(** * What an accepted row satisfies *)

Definition keyed_donation_items (d : DB) : Prop :=
  map_Forall (λ k di, (di_donation_id di, di_item_id di) = k) (db_donation_item d).

#[export] Instance keyed_donation_items_dec d : Decision (keyed_donation_items d).
Proof. unfold keyed_donation_items. apply _. Defined.

Section entry.
Context `{R : Runtime} (cx : IntakeCtx).

Definition entry_sound (e : EntryData) : Prop :=
  0 < ed_usable_qty e ∧ 0 ≤ ed_defective_qty e ∧ 0 ≤ ed_expired_qty e ∧ 0 < ed_avg_unit_value e ∧
  (∃ b, ed_batch_date e = Some b ∧ b ≤ ic_today cx).

Lemma dated_sound f (b r : string) d :
  match ef_batch_date f return IntakeError + (string * option Z) with
  | NoDate => inl BatchDateRequired
  | BadDate => inl BadBatchDate
  | OnDay b0 => if ic_today cx <? b0 then inl BatchDateInFuture else inr (b, Some b0)
  end = inr (r, d) → ∃ day, d = Some day ∧ day ≤ ic_today cx.
Proof. destruct (ef_batch_date f) as [| |day]; [done..|]. case_match; intros; z_bool; simplify_eq. eauto. Qed.

Lemma entry_batch_sound it f no d :
  entry_batch cx it f = inr (no, d) → ∃ day, d = Some day ∧ day ≤ ic_today cx.
Proof.
  unfold entry_batch. repeat case_match; try discriminate; try apply dated_sound; intros; z_bool; simplify_eq;
    eauto with lia.
Qed.

Lemma entry_quantities_sound f u d e :
  entry_quantities f = inr (u, d, e) → 0 < u ∧ 0 ≤ d ∧ 0 ≤ e.
Proof.
  unfold entry_quantities. repeat case_match; try discriminate. intros; simplify_eq.
  repeat match goal with H : _ || _ = false |- _ => apply orb_false_iff in H as [??] end. z_bool. lia.
Qed.

Lemma entry_cost_sound f v : entry_cost f = inr v → 0 < v.
Proof. unfold entry_cost. repeat case_match; try discriminate. intros; z_bool; simplify_eq. lia. Qed.

Lemma entry_row_sound g e :
  entry_item cx g = inr e → ed_item_id e = di_item_id g.1 ∧ entry_sound e.
Proof.
  unfold entry_item, check. destruct (ef_present _); [|discriminate].
  unfold mbind at 1, err_bind at 1.
  destruct (entry_batch _ _ _) as [|[no d]] eqn:Eb; [discriminate|]. apply entry_batch_sound in Eb.
  unfold mbind at 1, err_bind at 1. unfold mbind at 1, err_bind at 1.
  destruct (entry_expiry _ _ _ _) as [|x]; [discriminate|].
  destruct (ef_uom_code _) as [uom|]; [|discriminate]. case_match; [discriminate|].
  unfold mbind at 1, err_bind at 1.
  destruct (entry_quantities _) as [|[[u de] ex]] eqn:Eq; [discriminate|]. apply entry_quantities_sound in Eq.
  unfold mbind, err_bind. destruct (entry_cost _) as [|v] eqn:Ec; [discriminate|]. apply entry_cost_sound in Ec.
  intros [= <-]. split; [done|]. unfold entry_sound. simpl. naive_solver.
Qed.

(** * Totals *)

Lemma goods_nodup don d :
  keyed_donation_items d → NoDup ((λ g, di_item_id g.1) <$> goods_items don d).
Proof.
  intros Hk. unfold goods_items. apply (omap_key_nodup _ di_item_id).
  - apply NoDup_fmap_2_strong.
    + intros a b Ha Hb Heq. apply list_elem_of_filter in Ha as [Ha1 Ha2], Hb as [Hb1 Hb2].
      apply elem_of_donation_item_rows in Ha2 as [ka Ha2], Hb2 as [kb Hb2].
      pose proof (Hk ka a Ha2). pose proof (Hk kb b Hb2). simpl in *. congruence.
    + apply NoDup_filter. rewrite donation_item_rows_perm.
      apply NoDup_fmap_2_strong; [|apply NoDup_map_to_list].
      intros [k1 v1] [k2 v2] H1 H2 Heq. simpl in Heq. subst.
      apply elem_of_map_to_list in H1, H2. pose proof (Hk k1 v2 H1). pose proof (Hk k2 v2 H2). simpl in *.
      congruence.
  - intros di g Hg. repeat case_match; simplify_eq. done.
Qed.

Lemma entry_rows_nodup goods :
  NoDup ((λ g, di_item_id g.1) <$> goods) → NoDup (ed_item_id <$> entry_rows cx goods).
Proof.
  intros Hnd. unfold entry_rows. apply (omap_key_nodup _ (λ g : DonationItem * Item, di_item_id g.1)); [done|].
  intros g e Hg. destruct (entry_item cx g) eqn:E; [done|]. simplify_eq. by destruct (entry_row_sound _ _ E).
Qed.

(** Without errors, each donated item has its row, and the row's quantities add up
    to what was donated. *)
Lemma entry_complete (goods : list (DonationItem * Item)) g :
  NoDup ((λ g, di_item_id g.1) <$> goods) → entry_errors cx goods = [] → g ∈ goods →
  ∃ e, e ∈ entry_rows cx goods ∧ ed_item_id e = di_item_id g.1 ∧ entry_sound e ∧
       ed_total e = di_item_qty g.1.
Proof.
  intros Hnd He Hg. unfold entry_errors in He.
  apply app_eq_nil in He as [_ He]. apply app_eq_nil in He as [Hrow He]. apply app_eq_nil in He as [_ Htot].
  unfold row_errors in Hrow. rewrite omap_nil in Hrow. specialize (Hrow g Hg).
  destruct (entry_item cx g) as [err|e] eqn:E; [done|]. destruct (entry_row_sound _ _ E) as [Hid Hs].
  assert (e ∈ entry_rows cx goods) as Hin.
  { apply list_elem_of_omap. exists g. by rewrite E. }
  exists e. split_and!; [done..|].
  unfold total_errors in Htot. apply app_eq_nil in Htot as [Htot _]. rewrite omap_nil in Htot.
  specialize (Htot g Hg). simpl in Htot. unfold item_total in Htot.
  rewrite <- Hid, (filter_key_single ed_item_id _ e (entry_rows_nodup goods Hnd) Hin) in Htot.
  simpl in Htot. case_match; [|done]. z_bool. lia.
Qed.

(** Every row belongs to a donated item. *)
Lemma entry_rows_goods goods e :
  e ∈ entry_rows cx goods → ∃ g, g ∈ goods ∧ ed_item_id e = di_item_id g.1 ∧ entry_sound e.
Proof.
  intros He. apply list_elem_of_omap in He as (g & Hg & E). destruct (entry_item cx g) eqn:Er; [done|].
  simplify_eq. destruct (entry_row_sound _ _ Er). eauto.
Qed.

(** * The tables after an entry *)

Definition entered (don wh : Z) (existing : option DonationIntake) (draft : bool) (day : Z) (uid : string)
    (rows : list EntryData) (d : DB) : DB :=
  let comments := upper_or_none (strip (ic_comments cx)) in
  let status := if draft then "I"%string else "C"%string in
  effects (λ e, put_intake_item (new_intake_item cx don wh uid e)) rows
    match existing with
    | Some k => clear_intake_items don wh
        (put_intake (mkDonationIntake (dk_donation_id k) (dk_inventory_id k) day comments status
           (dk_verify_by_id k) (dk_verify_dtime k) (stamp uid (ic_now cx) (dk_audit k))) d)
    | None => put_intake (mkDonationIntake don wh day comments status "" None (new_audit uid (ic_now cx))) d
    end.

Lemma entry_run don wh existing draft s s' :
  run_ok (process_entry_submission cx don wh existing draft) s tt s' ↔
  ∃ day uid, entry_errors cx (goods_items don (work s)) = [] ∧ ic_intake_date cx = OnDay day ∧
    audit_id (ic_user_name cx) = Some uid ∧
    s' = commit_session (upd_work (entered don wh existing draft day uid
           (entry_rows cx (goods_items don (work s)))) s).
Proof.
  unfold process_entry_submission. rewrite run_get, run_fail_if, negb_bool_decide_false.
  destruct (ic_intake_date cx) as [| |day]; try by (split; [intros [_ [=]]|naive_solver]).
  destruct (audit_id _) as [uid|]; [|by split; [intros [_ [=]]|naive_solver]].
  rewrite seq_ok. setoid_rewrite seq_ok. setoid_rewrite for_mod.
  destruct existing as [k|].
  - setoid_rewrite run_mod. setoid_rewrite run_mod_last. unfold db_commit, m_modify, run_ok. naive_solver.
  - setoid_rewrite run_mod_last. unfold db_commit, m_modify, run_ok. naive_solver.
Qed.
End entry.

(** * Writing intake items *)

Section items.
Context {A : Type} (f : A → DonationIntakeItem).

Definition put_items : list A → DB → DB := effects (λ a, put_intake_item (f a)).

Lemma put_items_frame l d : put_items l d = set_db_dnintake_item (db_dnintake_item (put_items l d)) d.
Proof.
  unfold put_items. revert d. induction l as [|a l IH]; intros d; simpl; [by destruct d|]. by rewrite IH.
Qed.

Lemma put_items_other l d k :
  (∀ a, a ∈ l → intake_item_pk (f a) ≠ k) → db_dnintake_item (put_items l d) !! k = db_dnintake_item d !! k.
Proof.
  unfold put_items. revert d. induction l as [|a l IH]; intros d Hk; simpl; [done|]. rewrite IH.
  - simpl. apply lookup_insert_ne, Hk. by left.
  - intros b Hb. apply Hk. by right.
Qed.

Lemma put_items_elem l d a :
  NoDup ((λ a, intake_item_pk (f a)) <$> l) → a ∈ l →
  db_dnintake_item (put_items l d) !! intake_item_pk (f a) = Some (f a).
Proof.
  unfold put_items. revert d. induction l as [|b l IH]; intros d Hnd Hin; [set_solver|].
  csimpl in Hnd. apply NoDup_cons in Hnd as [Hb Hnd]. simpl. apply elem_of_cons in Hin as [->|Hin].
  - pose proof (put_items_other l (put_intake_item (f b) d) (intake_item_pk (f b))) as H.
    unfold put_items in H. rewrite H; [simpl; apply lookup_insert_eq|]. intros c Hc Heq. apply Hb.
    rewrite <- Heq. apply (list_elem_of_fmap_2 (λ a, intake_item_pk (f a))), Hc.
  - by apply IH.
Qed.
End items.

Definition keyed_intakes (d : DB) : Prop :=
  map_Forall (λ k v, (dk_donation_id v, dk_inventory_id v) = k) (db_dnintake d).
Definition keyed_intake_items (d : DB) : Prop :=
  map_Forall (λ k v, intake_item_pk v = k) (db_dnintake_item d).

(** The donation tables obey their keys. *)
Definition donations_keyed (d : DB) : Prop := keyed_donation_items d ∧ keyed_intakes d ∧ keyed_intake_items d.

#[export] Instance donations_keyed_dec d : Decision (donations_keyed d).
Proof. unfold donations_keyed, keyed_intakes, keyed_intake_items. apply _. Defined.

Lemma elem_of_intake_items `{R : Runtime} don wh v d :
  v ∈ intake_items_of don wh d ↔
  (ki_donation_id v = don ∧ ki_inventory_id v = wh) ∧ ∃ k, db_dnintake_item d !! k = Some v.
Proof. unfold intake_items_of. by rewrite list_elem_of_filter, elem_of_dnintake_item_rows. Qed.

Section after_entry.
Context `{R : Runtime} (cx : IntakeCtx) (don wh : Z) (existing : option DonationIntake) (draft : bool).
Context (day : Z) (uid : string) (rows : list EntryData) (d : DB).
Hypothesis Hexisting : existing = db_dnintake d !! (don, wh).
Hypothesis keyed : donations_keyed d.
Hypothesis clean : existing = None → intake_items_of don wh d = [].
Hypothesis rows_nodup : NoDup (ed_item_id <$> rows).

Let item (e : EntryData) := new_intake_item cx don wh uid e.
Let d' := entered cx don wh existing draft day uid rows d.

Lemma rows_pk_nodup : NoDup ((λ e, intake_item_pk (item e)) <$> rows).
Proof.
  clear -rows_nodup. induction rows as [|e l IH]; [constructor|]. csimpl in *.
  apply NoDup_cons in rows_nodup as [He Hl]. constructor; [|by apply IH]. intros Hin. apply He.
  apply list_elem_of_fmap in Hin as (e' & Heq & He'). unfold intake_item_pk in Heq. simpl in Heq.
  injection Heq as -> _. by apply list_elem_of_fmap_2.
Qed.

(** The intake items are the submitted rows, and no others. *)
Lemma entered_items v : v ∈ intake_items_of don wh d' ↔ ∃ e, e ∈ rows ∧ v = item e.
Proof.
  clear Hexisting keyed. rewrite elem_of_intake_items. unfold d', entered.
  match goal with |- context [effects _ rows ?x] => set (d0 := x) end.
  assert (∀ k w, db_dnintake_item d0 !! k = Some w → ¬ (ki_donation_id w = don ∧ ki_inventory_id w = wh)) as H0.
  { intros k w. unfold d0. destruct existing as [ex|].
    - simpl. intros Hw. by apply map_lookup_filter_Some in Hw as [_ Hw].
    - simpl. intros Hw Hc. assert (w ∈ intake_items_of don wh d) as Hin by (apply elem_of_intake_items; eauto).
      rewrite clean in Hin by done. set_solver. }
  split.
  - intros [Hc [k Hv]]. destruct (decide (k ∈ (λ e, intake_item_pk (item e)) <$> rows)) as [Hk|Hk].
    + apply list_elem_of_fmap in Hk as (e & -> & He). exists e. split; [done|].
      pose proof (put_items_elem item rows d0 e rows_pk_nodup He) as H. unfold put_items, item in H, Hv.
      rewrite H in Hv. by simplify_eq.
    + exfalso. apply (H0 k v); [|done]. rewrite <- Hv. symmetry. apply put_items_other.
      intros e He Heq. apply Hk. rewrite <- Heq. by apply (list_elem_of_fmap_2 (λ e, intake_item_pk (item e))).
  - intros (e & He & ->). split; [done|]. exists (intake_item_pk (item e)).
    by apply (put_items_elem item rows d0 e rows_pk_nodup).
Qed.

(** The items of other intakes stay. *)
Lemma entered_items_other k :
  (k.1.1.1, k.1.1.2) ≠ (don, wh) → db_dnintake_item d' !! k = db_dnintake_item d !! k.
Proof.
  clear Hexisting clean rows_nodup. intros Hk. unfold d', entered.
  match goal with |- context [effects _ rows ?x] => set (d0 := x) end.
  pose proof (put_items_other item rows d0 k) as H. unfold put_items, item in H. rewrite H; clear H.
  - unfold d0. destruct existing; [|done]. simpl. destruct (db_dnintake_item d !! k) as [v|] eqn:E.
    + apply map_lookup_filter_Some. split; [done|]. simpl. destruct keyed as (_ & _ & Hki).
      pose proof (Hki k v E) as Hpk. simpl in Hpk. rewrite <- Hpk in Hk. simpl in Hk. naive_solver.
    + apply map_lookup_filter_None. by left.
  - intros e _ <-. by apply Hk.
Qed.

(** The header carries the status asked for; the other headers stay. *)
Lemma entered_header :
  (∃ k, db_dnintake d' !! (don, wh) = Some k ∧ dk_status_code k = (if draft then "I" else "C")%string) ∧
  (∀ k, k ≠ (don, wh) → db_dnintake d' !! k = db_dnintake d !! k).
Proof.
  clear clean rows_nodup. assert (∀ x, db_dnintake (effects (λ e, put_intake_item (new_intake_item cx don wh uid e)) rows x) = db_dnintake x) as Hf.
  { intros x. pose proof (put_items_frame item rows x) as H. unfold put_items, item in H. by rewrite H. }
  unfold d', entered. setoid_rewrite Hf. destruct existing as [ex|]; simpl.
  - destruct keyed as (_ & Hk & _). pose proof (Hk _ _ (eq_sym Hexisting)) as Hpk. simpl in Hpk.
    rewrite Hpk. split; [eexists; split; [apply lookup_insert_eq|done]|].
    intros k Hne. by apply lookup_insert_ne.
  - split; [eexists; split; [apply lookup_insert_eq|done]|]. intros k Hne. by apply lookup_insert_ne.
Qed.

(** No stock moves. *)
Lemma entered_stock :
  db_itembatch d' = db_itembatch d ∧ db_inventory d' = db_inventory d ∧ db_donation d' = db_donation d ∧
  db_donation_item d' = db_donation_item d ∧ db_item d' = db_item d ∧ db_warehouse d' = db_warehouse d.
Proof.
  clear Hexisting clean keyed rows_nodup. unfold d', entered. match goal with |- context [effects _ rows ?x] => set (d0 := x) end.
  pose proof (put_items_frame item rows d0) as H. unfold put_items, item in H. rewrite H.
  unfold d0. by destruct existing.
Qed.
End after_entry.
