(* ===== verification/DonationVerifyProofs.v ===== *)
(** The verification of a donation intake as a sequence of effects on the tables,
    and what each does to the totals of the ledger. *)
From S2P Require Import Prelude PyStr ParamValidation Schema Columns Ledger Coverage DonationIntake DonationIntakeProofs.

(** A loop whose iterations depend on each other, with the precondition of each
    where it runs. *)
Lemma for_effects_seq {E A} (body : A → M Session E unit) (ok : A → DB → Prop) (eff : A → DB → DB) :
  (∀ a s s', run_ok (body a) s tt s' ↔ ok a (work s) ∧ s' = upd_work (eff a) s) →
  ∀ l s s', run_ok (m_for l body) s tt s' ↔ seq_ok_effects ok eff l (work s) ∧ s' = upd_work (effects eff l) s.
Proof.
  intros Hbody l. induction l as [|a l IH]; intros s s'.
  - rewrite for_nil. simpl. destruct s. naive_solver.
  - rewrite for_cons. setoid_rewrite Hbody. setoid_rewrite IH. simpl. split.
    + intros (s1 & (Hok & ->) & Hall & ->). done.
    + intros ((Hok & Hall) & ->). eexists. by split.
Qed.

Lemma total_put_new f it wh m k b :
  m !! k = None →
  total f it wh (<[k := b]> m) = total f it wh m + (if decide (at_site it wh b) then f b else 0).
Proof. intros Hk. unfold total. rewrite msum_insert_new by done. lia. Qed.

(** Every batch has an inventory row at its site. *)
Definition sites_stocked (d : DB) : Prop :=
  map_Forall (λ _ b, is_Some (db_inventory d !! (ib_inventory_id b, ib_item_id b))) (db_itembatch d).

#[export] Instance sites_stocked_dec d : Decision (sites_stocked d).
Proof. unfold sites_stocked. apply _. Defined.

(** Batches are kept, with their key and reservation, and can only gain usable
    stock; new ones have nothing reserved. *)
Definition grown (d d' : DB) : Prop :=
  ∀ k b', db_itembatch d' !! k = Some b' →
  match db_itembatch d !! k with
  | Some b => bkey b' = bkey b ∧ ib_reserved b' = ib_reserved b ∧ ib_usable b ≤ ib_usable b'
  | None => ib_reserved b' = 0 ∧ 0 ≤ ib_usable b'
  end.

Lemma grown_refl d d' : db_itembatch d' = db_itembatch d → grown d d'.
Proof. intros H k b'. rewrite H. intros ->. done. Qed.

Lemma grown_trans d1 d2 d3 :
  (∀ k, is_Some (db_itembatch d1 !! k) → is_Some (db_itembatch d2 !! k)) →
  grown d1 d2 → grown d2 d3 → grown d1 d3.
Proof.
  intros Hdom H12 H23 k b3 H3. specialize (H23 k b3 H3). destruct (db_itembatch d2 !! k) as [b2|] eqn:E2.
  - specialize (H12 k b2 E2). destruct (db_itembatch d1 !! k); [|lia].
    destruct H12 as (? & ? & ?), H23 as (? & ? & ?). split_and!; [congruence..|lia].
  - destruct (db_itembatch d1 !! k) as [b1|] eqn:E1; [|done].
    destruct (Hdom k) as [x Hx]; [by eexists|congruence].
Qed.

Lemma grown_within d d' : grown d d' → within_stock d → within_stock d'.
Proof.
  intros Hg Hw k b' Hb'. specialize (Hg k b' Hb'). unfold batch_within.
  destruct (db_itembatch d !! k) as [b|] eqn:E; [|lia]. pose proof (Hw k b E) as H. unfold batch_within in H. lia.
Qed.

(** Package items name batches that exist. *)
Definition items_batch_fk (d : DB) : Prop :=
  map_Forall (λ _ v, is_Some (db_itembatch d !! pi_batch_id v)) (db_pkg_item d).

#[export] Instance items_batch_fk_dec d : Decision (items_batch_fk d).
Proof. unfold items_batch_fk. apply _. Defined.

Lemma grown_covered d d' :
  keyed_batches d' → keyed_pkg_items d → items_batch_fk d →
  db_pkg d' = db_pkg d → db_pkg_item d' = db_pkg_item d →
  grown d d' → covered d → covered d'.
Proof.
  intros Hk Hki Hfk Hp Hi Hg Hc k b' Hb'. specialize (Hg k b' Hb').
  assert (∀ x, held d' x = held d x) as Hh.
  { intros x. unfold held, share, slot. by rewrite Hp, Hi. }
  simpl. rewrite Hh. destruct (db_itembatch d !! k) as [b|] eqn:E.
  - destruct Hg as (Hbk & -> & _). rewrite Hbk. by apply (Hc k).
  - destruct Hg as [-> _]. symmetry. unfold held. apply msum_zero. intros kp p _. unfold share, slot.
    case_decide; [|done]. destruct (db_pkg_item d !! _) as [v|] eqn:Ev; [|done]. exfalso.
    pose proof (Hki _ v Ev) as Hpk. simpl in Hpk. unfold pi_pk, bkey in Hpk. simpl in Hpk. injection Hpk as _ _ H3 _.
    destruct (Hfk _ v Ev) as [x Hx]. rewrite H3 in Hx. pose proof (Hk k b' Hb') as Hid. simpl in Hid. congruence.
Qed.

(** * The effect of one intake item *)

Section effect.
Context `{R : Runtime} (cx : IntakeCtx) (wh : Z) (uid : string).

Abbreviation item_of v := (ki_item_id (vd_intake_item v)).

Definition rewrite_ok (v : VerifiedData) (d : DB) : Prop :=
  ki_batch_no (vd_intake_item v) = vd_batch_no v ∨
  delete (intake_item_pk (vd_intake_item v)) (db_dnintake_item d) !! intake_item_pk (verified_item cx uid v) = None.

Definition rewrite_eff (v : VerifiedData) (d : DB) : DB :=
  put_intake_item (verified_item cx uid v)
    (if bool_decide (ki_batch_no (vd_intake_item v) = vd_batch_no v) then d
     else set_db_dnintake_item (delete (intake_item_pk (vd_intake_item v)) (db_dnintake_item d)) d).

Definition grow_batch (v : VerifiedData) (b : ItemBatch) : ItemBatch :=
  set_ib_audit (stamp uid (ic_now cx) (ib_audit b)) (merge_expiry v (set_ib_stock (add_stock v (ib_stock b)) b)).

Definition batch_eff (v : VerifiedData) (d : DB) : DB :=
  match find_batch_no wh (item_of v) (vd_batch_no v) d with
  | Some b => put_batch (ib_batch_id b) (grow_batch v b) d
  | None => put_batch (ib_batch_id (new_batch cx wh uid v)) (new_batch cx wh uid v) d
  end.

Definition grow_inventory (v : VerifiedData) (i : Inventory) : Inventory :=
  set_inv_audit (stamp uid (ic_now cx) (inv_audit i)) (set_inv_stock (add_stock v (inv_stock i)) i).

Definition new_inventory (v : VerifiedData) : Inventory :=
  mkInventory wh (item_of v) (verified_stock v) (ki_uom_code (vd_intake_item v)) "A" (new_audit uid (ic_now cx)).

Definition inventory_eff (v : VerifiedData) (d : DB) : DB :=
  match find_inventory wh (item_of v) d with
  | Some i => put_inventory wh (item_of v) (grow_inventory v i) d
  | None => put_inventory wh (item_of v) (new_inventory v) d
  end.

Definition stock_eff (v : VerifiedData) (d : DB) : DB := inventory_eff v (batch_eff v (rewrite_eff v d)).

Lemma rewrite_run v s s' :
  run_ok (rewrite_intake_item cx uid v) s tt s' ↔
  rewrite_ok v (work s) ∧ s' = upd_work (rewrite_eff v) s.
Proof.
  unfold rewrite_intake_item, rewrite_ok, rewrite_eff. case_bool_decide as Hno.
  - rewrite run_mod_last. naive_solver.
  - rewrite run_mod, run_get. simpl. destruct (delete _ _ !! _) eqn:E.
    + split; [intros [=]|]. intros [[?|[=]] _]. done.
    + rewrite run_mod_last. naive_solver.
Qed.

Lemma receive_batch_run v s s' :
  run_ok (receive_batch cx wh uid v) s tt s' ↔ s' = upd_work (batch_eff v) s.
Proof.
  unfold receive_batch, batch_eff. rewrite run_get.
  unfold upd_work. by destruct (find_batch_no wh _ _ (work s)); rewrite run_mod_last.
Qed.

Lemma receive_inventory_run v s s' :
  run_ok (receive_inventory cx wh uid v) s tt s' ↔ s' = upd_work (inventory_eff v) s.
Proof.
  unfold receive_inventory, inventory_eff. rewrite run_get.
  unfold upd_work. by destruct (find_inventory wh _ (work s)); rewrite run_mod_last.
Qed.

Lemma verify_item_run v s s' :
  run_ok (verify_stock_item cx wh uid v) s tt s' ↔ rewrite_ok v (work s) ∧ s' = upd_work (stock_eff v) s.
Proof.
  unfold verify_stock_item. rewrite seq_ok. setoid_rewrite seq_ok. setoid_rewrite rewrite_run.
  setoid_rewrite receive_batch_run. setoid_rewrite receive_inventory_run.
  unfold stock_eff, upd_work. naive_solver.
Qed.

(** * What the effect keeps *)

(** The serials the database will hand out are unused, or belong to the batch of
    that number at this warehouse. *)
Definition fresh (d : DB) : Prop :=
  ∀ it no b, db_itembatch d !! ic_new_batch cx it no = Some b →
  ib_inventory_id b = wh ∧ ib_item_id b = it ∧ ib_batch_no b = Some no.

Hypothesis new_ids_inj : ∀ it no it' no', ic_new_batch cx it no = ic_new_batch cx it' no' → it = it' ∧ no = no'.

Lemma find_batch_no_Some it no d b :
  find_batch_no wh it no d = Some b →
  (∃ k, db_itembatch d !! k = Some b) ∧ ib_inventory_id b = wh ∧ ib_item_id b = it ∧ ib_batch_no b = Some no.
Proof.
  unfold find_batch_no. intros Hf.
  assert (b ∈ filter (λ b, ib_inventory_id b = wh ∧ ib_item_id b = it ∧ ib_batch_no b = Some no)
    (batch_rows (db_itembatch d))) as Hin by (destruct (filter _ _); [done|]; simplify_eq/=; by left).
  apply list_elem_of_filter in Hin as [? Hin]. by apply elem_of_batch_rows in Hin.
Qed.

Lemma find_batch_no_None it no d k b :
  find_batch_no wh it no d = None → db_itembatch d !! k = Some b →
  ¬ (ib_inventory_id b = wh ∧ ib_item_id b = it ∧ ib_batch_no b = Some no).
Proof.
  unfold find_batch_no. intros Hf Hb Hc.
  assert (b ∈ filter (λ b, ib_inventory_id b = wh ∧ ib_item_id b = it ∧ ib_batch_no b = Some no)
    (batch_rows (db_itembatch d))) as Hin by (apply list_elem_of_filter; split; [done|]; apply elem_of_batch_rows; eauto).
  destruct (filter _ _); [set_solver|done].
Qed.

Lemma new_batch_unused v d :
  fresh d → find_batch_no wh (item_of v) (vd_batch_no v) d = None →
  db_itembatch d !! ib_batch_id (new_batch cx wh uid v) = None.
Proof.
  intros Hf Hn. simpl. destruct (db_itembatch d !! _) as [b|] eqn:E; [|done]. exfalso.
  by apply (find_batch_no_None _ _ _ _ _ Hn E), Hf.
Qed.

Lemma grow_batch_cols v b :
  ib_item_id (grow_batch v b) = ib_item_id b ∧ ib_inventory_id (grow_batch v b) = ib_inventory_id b ∧
  ib_batch_id (grow_batch v b) = ib_batch_id b ∧ ib_batch_no (grow_batch v b) = ib_batch_no b ∧
  ib_reserved (grow_batch v b) = ib_reserved b ∧
  ib_usable (grow_batch v b) = ib_usable b + vd_usable_qty v.
Proof. unfold grow_batch, merge_expiry. by repeat case_match. Qed.

(** The batch table before and after, case by case. *)
Lemma batch_eff_cases v d :
  keyed_batches d → fresh d →
  (∃ b, db_itembatch d !! ib_batch_id b = Some b ∧ ib_inventory_id b = wh ∧ ib_item_id b = item_of v ∧
        db_itembatch (batch_eff v d) = <[ib_batch_id b := grow_batch v b]> (db_itembatch d)) ∨
  (db_itembatch d !! ib_batch_id (new_batch cx wh uid v) = None ∧
   db_itembatch (batch_eff v d) =
     <[ib_batch_id (new_batch cx wh uid v) := new_batch cx wh uid v]> (db_itembatch d)).
Proof.
  intros Hk Hf. unfold batch_eff. destruct (find_batch_no _ _ _ d) as [b|] eqn:E.
  - left. apply find_batch_no_Some in E as ([k Hb] & ? & ? & ?). exists b.
    pose proof (Hk k b Hb) as Hid. simpl in Hid. rewrite Hid. done.
  - right. split; [by apply new_batch_unused|done].
Qed.

Lemma batch_eff_keyed v d : keyed_batches d → fresh d → keyed_batches (batch_eff v d).
Proof.
  intros Hk Hf. unfold keyed_batches.
  destruct (batch_eff_cases v d Hk Hf) as [(b & Hb & _ & _ & ->)|[_ ->]]; apply map_Forall_insert_2; try done.
  by destruct (grow_batch_cols v b) as (_ & _ & ? & _).
Qed.

Lemma batch_eff_fresh v d : keyed_batches d → fresh d → fresh (batch_eff v d).
Proof.
  intros Hk Hf it no b'. destruct (batch_eff_cases v d Hk Hf) as [(b & Hb & _ & _ & ->)|[_ ->]].
  - rewrite lookup_insert. case_decide as Heq; [|by apply Hf]. intros [= <-].
    destruct (grow_batch_cols v b) as (-> & -> & _ & -> & _).
    apply Hf. by rewrite <- Heq.
  - rewrite lookup_insert. case_decide as Heq; [|by apply Hf]. intros [= <-]. simpl in *.
    apply new_ids_inj in Heq as [-> ->]. done.
Qed.

Lemma batch_eff_grown v d : keyed_batches d → fresh d → 0 ≤ vd_usable_qty v → grown d (batch_eff v d).
Proof.
  intros Hk Hf Hv k b'. destruct (batch_eff_cases v d Hk Hf) as [(b & Hb & _ & _ & ->)|[Hn ->]];
    rewrite lookup_insert; case_decide as Heq; try (intros ->; done); intros [= <-].
  - subst k. rewrite Hb. destruct (grow_batch_cols v b) as (? & ? & ? & _ & ? & ?). unfold bkey. split_and!; [congruence..|lia].
  - subst k. rewrite Hn. done.
Qed.

Lemma batch_eff_dom v d k :
  is_Some (db_itembatch d !! k) → is_Some (db_itembatch (batch_eff v d) !! k).
Proof.
  intros Hs. unfold batch_eff. case_match; simpl; rewrite lookup_insert; by case_decide.
Qed.

Definition gain (v : VerifiedData) (it w : Z) : Z :=
  if decide ((it, w) = (item_of v, wh)) then vd_usable_qty v else 0.

Lemma batch_eff_total v d it w :
  keyed_batches d → fresh d →
  total ib_usable it w (db_itembatch (batch_eff v d)) = total ib_usable it w (db_itembatch d) + gain v it w ∧
  total ib_reserved it w (db_itembatch (batch_eff v d)) = total ib_reserved it w (db_itembatch d).
Proof.
  intros Hk Hf. unfold gain. destruct (batch_eff_cases v d Hk Hf) as [(b & Hb & Hw & Hi & ->)|[Hn ->]].
  - destruct (grow_batch_cols v b) as (B1 & B2 & _ & _ & Hr & Hu).
    destruct (decide (at_site it w b)) as [Hat|Hat].
    + assert (at_site it w (grow_batch v b)) as Hat' by (unfold at_site in *; by rewrite B1, B2).
      rewrite !(total_put_same _ _ _ _ _ b) by done. destruct Hat. rewrite decide_True by congruence. lia.
    + assert (¬ at_site it w (grow_batch v b)) as Hat' by (unfold at_site in *; by rewrite B1, B2).
      rewrite !(total_put_other _ _ _ _ _ b) by done. rewrite decide_False; [lia|].
      intros [= -> ->]. by apply Hat.
  - rewrite !total_put_new by done. unfold at_site. simpl. split.
    + f_equal. unfold ib_usable. simpl. apply decide_ext. naive_solver.
    + unfold ib_reserved. simpl. case_decide; lia.
Qed.

(** * The whole effect *)

Lemma rewrite_eff_frame v d :
  db_itembatch (rewrite_eff v d) = db_itembatch d ∧ db_inventory (rewrite_eff v d) = db_inventory d ∧
  db_pkg (rewrite_eff v d) = db_pkg d ∧ db_pkg_item (rewrite_eff v d) = db_pkg_item d ∧
  db_dnintake (rewrite_eff v d) = db_dnintake d ∧ db_donation (rewrite_eff v d) = db_donation d.
Proof. unfold rewrite_eff. by case_bool_decide. Qed.

Lemma inventory_eff_lookup v d k :
  db_inventory (inventory_eff v d) !! k =
  if decide (k = (wh, item_of v))
  then Some (match db_inventory d !! k with Some i => grow_inventory v i | None => new_inventory v end)
  else db_inventory d !! k.
Proof.
  unfold inventory_eff, find_inventory. destruct (decide (k = (wh, item_of v))) as [->|Hne].
  - destruct (db_inventory d !! (wh, item_of v)); simpl; apply lookup_insert_eq.
  - destruct (db_inventory d !! (wh, item_of v)); simpl; by apply lookup_insert_ne.
Qed.

Lemma inventory_eff_frame v d :
  db_itembatch (inventory_eff v d) = db_itembatch d ∧ db_pkg (inventory_eff v d) = db_pkg d ∧
  db_pkg_item (inventory_eff v d) = db_pkg_item d ∧ db_dnintake_item (inventory_eff v d) = db_dnintake_item d ∧
  db_dnintake (inventory_eff v d) = db_dnintake d ∧ db_donation (inventory_eff v d) = db_donation d.
Proof. unfold inventory_eff. by case_match. Qed.

Lemma batch_eff_frame v d :
  db_inventory (batch_eff v d) = db_inventory d ∧ db_pkg (batch_eff v d) = db_pkg d ∧
  db_pkg_item (batch_eff v d) = db_pkg_item d ∧ db_dnintake_item (batch_eff v d) = db_dnintake_item d ∧
  db_dnintake (batch_eff v d) = db_dnintake d ∧ db_donation (batch_eff v d) = db_donation d.
Proof. unfold batch_eff. by case_match. Qed.

Lemma stock_eff_frame v d :
  db_pkg (stock_eff v d) = db_pkg d ∧ db_pkg_item (stock_eff v d) = db_pkg_item d ∧
  db_dnintake (stock_eff v d) = db_dnintake d ∧ db_donation (stock_eff v d) = db_donation d.
Proof.
  unfold stock_eff. destruct (inventory_eff_frame v (batch_eff v (rewrite_eff v d))) as (_ & -> & -> & _ & -> & ->).
  destruct (batch_eff_frame v (rewrite_eff v d)) as (_ & -> & -> & _ & -> & ->).
  by destruct (rewrite_eff_frame v d) as (_ & _ & -> & -> & -> & ->).
Qed.

(** The batches and inventory after [stock_eff] are those after the two stock
    effects alone. *)
Definition good (d : DB) : Prop := keyed_batches d ∧ fresh d.

Lemma good_ext d d' : db_itembatch d' = db_itembatch d → good d → good d'.
Proof. unfold good, keyed_batches, fresh. by intros ->. Qed.

Lemma stock_eff_batches v d : db_itembatch (stock_eff v d) = db_itembatch (batch_eff v (rewrite_eff v d)).
Proof. unfold stock_eff. apply inventory_eff_frame. Qed.

Lemma stock_eff_good v d : good d → good (stock_eff v d).
Proof.
  intros Hg. apply (good_ext (batch_eff v (rewrite_eff v d))); [apply stock_eff_batches|].
  apply (good_ext _ (rewrite_eff v d)) in Hg as [Hk Hf]; [|apply rewrite_eff_frame].
  split; [by apply batch_eff_keyed|by apply batch_eff_fresh].
Qed.

Lemma stock_eff_dom v d k : is_Some (db_itembatch d !! k) → is_Some (db_itembatch (stock_eff v d) !! k).
Proof.
  intros Hs. rewrite stock_eff_batches. apply batch_eff_dom. by rewrite (proj1 (rewrite_eff_frame v d)).
Qed.

Lemma stock_eff_grown v d : good d → 0 ≤ vd_usable_qty v → grown d (stock_eff v d).
Proof.
  intros Hg Hv. destruct (good_ext _ (rewrite_eff v d) (proj1 (rewrite_eff_frame v d)) Hg) as [Hk Hf].
  pose proof (batch_eff_grown v _ Hk Hf Hv) as H. unfold grown in *.
  by rewrite stock_eff_batches, (proj1 (rewrite_eff_frame v d)) in *.
Qed.

Lemma stock_eff_total v d it w :
  good d →
  total ib_usable it w (db_itembatch (stock_eff v d)) = total ib_usable it w (db_itembatch d) + gain v it w ∧
  total ib_reserved it w (db_itembatch (stock_eff v d)) = total ib_reserved it w (db_itembatch d).
Proof.
  intros Hg. destruct (good_ext _ (rewrite_eff v d) (proj1 (rewrite_eff_frame v d)) Hg) as [Hk Hf].
  rewrite stock_eff_batches. destruct (batch_eff_total v _ it w Hk Hf) as [-> ->].
  by rewrite (proj1 (rewrite_eff_frame v d)).
Qed.

Lemma stock_eff_inventory v d k :
  db_inventory (stock_eff v d) !! k =
  if decide (k = (wh, item_of v))
  then Some (match db_inventory d !! k with Some i => grow_inventory v i | None => new_inventory v end)
  else db_inventory d !! k.
Proof.
  unfold stock_eff. rewrite inventory_eff_lookup. destruct (batch_eff_frame v (rewrite_eff v d)) as (-> & _).
  by destruct (rewrite_eff_frame v d) as (_ & -> & _).
Qed.

(** An empty site sums to nothing. *)
Lemma empty_site f it w d :
  sites_stocked d → db_inventory d !! (w, it) = None → total f it w (db_itembatch d) = 0.
Proof.
  intros Hs Hn. unfold total. apply msum_zero. intros k b Hb. case_decide as Hat; [|done].
  destruct Hat as [<- <-]. destruct (Hs k b Hb) as [x Hx]. congruence.
Qed.

Lemma stock_eff_balanced v d :
  good d → sites_stocked d → balanced d → balanced (stock_eff v d).
Proof.
  intros Hg Hs [Hbr Hbu]. split; intros [w it] i; rewrite stock_eff_inventory; simpl;
    destruct (stock_eff_total v d it w Hg) as [Hu Hr]; rewrite ?Hu, ?Hr.
  - case_decide as Hk; [|intros Hi; apply (Hbr (w, it) i Hi)].
    intros [= <-]. destruct (db_inventory d !! (w, it)) as [i|] eqn:Hi.
    + apply (Hbr (w, it) i Hi).
    + by rewrite empty_site.
  - unfold gain. destruct (decide ((w, it) = (wh, item_of v))) as [[= -> ->]|Hk].
    + rewrite decide_True by done. intros [= <-]. destruct (db_inventory d !! (wh, item_of v)) as [i|] eqn:Hi.
      * pose proof (Hbu _ i Hi) as H. simpl in H. rewrite <- H. done.
      * rewrite empty_site by done. done.
    + rewrite decide_False by congruence. intros Hi. rewrite Z.add_0_r. apply (Hbu (w, it) i Hi).
Qed.

Lemma stock_eff_sites v d : good d → sites_stocked d → sites_stocked (stock_eff v d).
Proof.
  intros Hg Hs k b'.
  assert (∀ x, is_Some (db_inventory d !! x) → is_Some (db_inventory (stock_eff v d) !! x)) as Hkeep.
  { intros x Hx. rewrite stock_eff_inventory. by case_decide. }
  destruct (good_ext _ (rewrite_eff v d) (proj1 (rewrite_eff_frame v d)) Hg) as [Hk Hf].
  rewrite stock_eff_batches. pose proof (proj1 (rewrite_eff_frame v d)) as Hr.
  destruct (batch_eff_cases v _ Hk Hf) as [(b & Hb & Hw & Hi & ->)|[Hn ->]]; rewrite Hr in *;
    rewrite lookup_insert; case_decide; try (intros Hb'; by apply Hkeep, (Hs k)); intros [= <-].
  - destruct (grow_batch_cols v b) as (-> & -> & _). apply Hkeep. by apply (Hs _ b Hb).
  - simpl. rewrite stock_eff_inventory, decide_True by done. done.
Qed.

(** * All the rows *)

Abbreviation receive rows := (effects stock_eff rows).

Lemma receive_good rows d : good d → good (receive rows d).
Proof. revert d. induction rows as [|v rows IH]; intros d Hg; simpl; [done|]. by apply IH, stock_eff_good. Qed.

Lemma receive_dom rows d k : is_Some (db_itembatch d !! k) → is_Some (db_itembatch (receive rows d) !! k).
Proof. revert d. induction rows as [|v rows IH]; intros d Hg; simpl; [done|]. by apply IH, stock_eff_dom. Qed.

Lemma receive_grown rows d :
  Forall (λ v, 0 ≤ vd_usable_qty v) rows → good d → grown d (receive rows d).
Proof.
  revert d. induction rows as [|v rows IH]; intros d Hall Hg; simpl; [by apply grown_refl|].
  apply Forall_cons in Hall as [Hv Hall]. apply (grown_trans _ (stock_eff v d)).
  - intros k. apply stock_eff_dom.
  - by apply stock_eff_grown.
  - apply IH; [done|by apply stock_eff_good].
Qed.

Lemma receive_total rows d it w :
  good d →
  total ib_usable it w (db_itembatch (receive rows d)) =
    total ib_usable it w (db_itembatch d) + lsum (λ v, gain v it w) rows ∧
  total ib_reserved it w (db_itembatch (receive rows d)) = total ib_reserved it w (db_itembatch d).
Proof.
  revert d. induction rows as [|v rows IH]; intros d Hg; simpl; [lia|].
  destruct (IH _ (stock_eff_good v d Hg)) as [-> ->]. destruct (stock_eff_total v d it w Hg) as [-> ->]. lia.
Qed.

Lemma receive_balanced rows d :
  good d → sites_stocked d → balanced d → sites_stocked (receive rows d) ∧ balanced (receive rows d).
Proof.
  revert d. induction rows as [|v rows IH]; intros d Hg Hs Hb; simpl; [done|].
  apply IH; [by apply stock_eff_good|by apply stock_eff_sites|by apply stock_eff_balanced].
Qed.

Lemma receive_frame rows d :
  db_pkg (receive rows d) = db_pkg d ∧ db_pkg_item (receive rows d) = db_pkg_item d ∧
  db_dnintake (receive rows d) = db_dnintake d ∧ db_donation (receive rows d) = db_donation d.
Proof.
  revert d. induction rows as [|v rows IH]; intros d; simpl; [done|].
  destruct (IH (stock_eff v d)) as (-> & -> & -> & ->). apply stock_eff_frame.
Qed.

(** * The intake items *)

Lemma stock_eff_items v d : db_dnintake_item (stock_eff v d) = db_dnintake_item (rewrite_eff v d).
Proof.
  unfold stock_eff. destruct (inventory_eff_frame v (batch_eff v (rewrite_eff v d))) as (_ & _ & _ & -> & _).
  apply (batch_eff_frame v (rewrite_eff v d)).
Qed.

Lemma receive_items_other rows d k :
  (∀ v, v ∈ rows → item_of v ≠ k.1.2) → db_dnintake_item (receive rows d) !! k = db_dnintake_item d !! k.
Proof.
  clear new_ids_inj. revert d. induction rows as [|v rows IH]; intros d Hk; simpl; [done|]. rewrite IH by (intros; apply Hk; by right).
  rewrite stock_eff_items. assert (item_of v ≠ k.1.2) as Hv by (apply Hk; by left).
  unfold rewrite_eff, put_intake_item. simpl. rewrite lookup_insert_ne by (intros <-; by apply Hv).
  case_bool_decide; [done|]. simpl. apply lookup_delete_ne. intros <-. by apply Hv.
Qed.

Lemma receive_items_elem rows d v :
  NoDup ((λ v, item_of v) <$> rows) → v ∈ rows →
  db_dnintake_item (receive rows d) !! intake_item_pk (verified_item cx uid v) = Some (verified_item cx uid v).
Proof.
  clear new_ids_inj. revert d. induction rows as [|w rows IH]; intros d Hnd Hin; [set_solver|]. csimpl in Hnd.
  apply NoDup_cons in Hnd as [Hw Hnd]. simpl. apply elem_of_cons in Hin as [->|Hin]; [|by apply IH].
  rewrite receive_items_other.
  - rewrite stock_eff_items. unfold rewrite_eff. simpl. apply lookup_insert_eq.
  - intros u Hu Heq. apply Hw. simpl in Heq. rewrite <- Heq. by apply (list_elem_of_fmap_2 (λ v, item_of v)).
Qed.
End effect.

(** * The verified rows *)

Section rows.
Context `{R : Runtime} (cx : IntakeCtx).

Definition row_sound (v : VerifiedData) : Prop :=
  0 < vd_usable_qty v ∧ 0 ≤ vd_defective_qty v ∧ 0 ≤ vd_expired_qty v ∧
  vd_usable_qty v + vd_defective_qty v + vd_expired_qty v = intake_total (vd_intake_item v).

Lemma verify_quantities_sound donated k f u d e :
  verify_quantities donated k f = inr (u, d, e) → 0 < u ∧ 0 ≤ d ∧ 0 ≤ e ∧ u + d + e = intake_total k.
Proof.
  unfold verify_quantities, check, mbind, err_bind. repeat case_match; try discriminate. intros; simplify_eq.
  repeat match goal with H : (if ?b then _ else _) = _ |- _ => destruct b eqn:?; simplify_eq end.
  repeat match goal with H : negb _ = true |- _ => apply negb_true_iff in H end.
  repeat match goal with H : _ || _ = false |- _ => apply orb_false_iff in H as [??] end. z_bool. lia.
Qed.

Lemma verify_row_sound d don k v :
  verify_row cx d don k = inr v → vd_intake_item v = k ∧ row_sound v.
Proof.
  unfold verify_row. unfold mbind at 1, err_bind at 1.
  destruct (verify_quantities _ _ _) as [|[[u de] ex]] eqn:Eq; [discriminate|]. apply verify_quantities_sound in Eq.
  unfold mbind, err_bind. destruct (verify_batch_date _ _ _); [discriminate|].
  destruct (verify_expiry _ _ _ _ _); [discriminate|]. intros [= <-]. done.
Qed.

Lemma verified_rows_sound d don wh v :
  v ∈ verified_rows cx d don wh → vd_intake_item v ∈ intake_items_of don wh d ∧ row_sound v.
Proof.
  intros Hv. apply list_elem_of_omap in Hv as (k & Hk & E). destruct (verify_row cx d don k) eqn:Er; [done|].
  simplify_eq. destruct (verify_row_sound _ _ _ _ Er) as [-> ?]. done.
Qed.

Lemma verified_rows_all d don wh :
  verify_errors cx d don wh = [] → vd_intake_item <$> verified_rows cx d don wh = intake_items_of don wh d.
Proof.
  unfold verify_errors, verified_rows. rewrite omap_nil. intros He.
  induction (intake_items_of don wh d) as [|k l IH]; [done|]. simpl.
  pose proof (He k (list_elem_of_here k l)) as Hk. simpl in Hk.
  destruct (verify_row cx d don k) eqn:E; [done|]. csimpl. destruct (verify_row_sound _ _ _ _ E) as [-> _].
  f_equal. apply IH. intros a Ha. apply He. by right.
Qed.

Lemma verify_run k dn s s' :
  run_ok (process_verification_submission cx k dn) s tt s' ↔
  ∃ uid, verify_errors cx (work s) (dk_donation_id k) (dk_inventory_id k) = [] ∧
    audit_id (ic_user_name cx) = Some uid ∧
    let rows := verified_rows cx (work s) (dk_donation_id k) (dk_inventory_id k) in
    let wh := dk_inventory_id k in
    let d0 := put_intake (verified_intake cx uid k) (work s) in
    seq_ok_effects (rewrite_ok cx uid) (stock_eff cx wh uid) rows d0 ∧
    s' = commit_session (upd_work (λ _,
      let d1 := effects (stock_eff cx wh uid) rows d0 in
      set_db_donation (<[dk_donation_id k := processed_donation cx uid dn]>
        (db_donation d1)) d1) s).
Proof.
  unfold process_verification_submission. rewrite run_get, run_fail_if, negb_bool_decide_false.
  destruct (audit_id _) as [uid|]; [|by split; [intros [_ [=]]|naive_solver]].
  rewrite run_mod, seq_ok. setoid_rewrite run_mod.
  setoid_rewrite (for_effects_seq _ (rewrite_ok cx uid) (stock_eff cx (dk_inventory_id k) uid)
    (verify_item_run cx (dk_inventory_id k) uid)).
  unfold db_commit, m_modify, run_ok. naive_solver.
Qed.
End rows.
