(* ===== verification/DonationIntakeTheorems.v ===== *)
(** What donation intake promises: an entry records exactly the donated quantities
    and moves no stock; a verification adds exactly the intake to the stock and
    keeps the ledger; and what nothing prevents: one donation entered, and
    stocked, at two warehouses. *)
From S2P Require Import Prelude PyStr ParamValidation Schema Atomicity Ledger Coverage Fixtures DonationIntake DonationIntakeProofs DonationVerifyProofs.

(** Intake items belong to an intake. *)
Definition intake_items_fk (d : DB) : Prop :=
  map_Forall (λ _ v, is_Some (db_dnintake d !! (ki_donation_id v, ki_inventory_id v))) (db_dnintake_item d).

#[export] Instance intake_items_fk_dec d : Decision (intake_items_fk d).
Proof. unfold intake_items_fk. apply _. Defined.

Lemma intake_items_nil `{R : Runtime} don wh d :
  intake_items_of don wh d = [] ↔
  ∀ k v, db_dnintake_item d !! k = Some v → ¬ (ki_donation_id v = don ∧ ki_inventory_id v = wh).
Proof.
  split.
  - intros E k v Hv Hc. assert (v ∈ intake_items_of don wh d) as Hin by (apply elem_of_intake_items; eauto).
    rewrite E in Hin. set_solver.
  - intros Hno. destruct (intake_items_of don wh d) as [|v l] eqn:E; [done|]. exfalso.
    assert (v ∈ intake_items_of don wh d) as Hv by (rewrite E; by left).
    apply elem_of_intake_items in Hv as (Hc & k & Hv). by apply (Hno k v).
Qed.

Lemma no_intake_no_items `{R : Runtime} don wh d :
  intake_items_fk d → db_dnintake d !! (don, wh) = None → intake_items_of don wh d = [].
Proof.
  intros Hfk Hn. apply intake_items_nil. intros k v Hv [<- <-]. destruct (Hfk k v Hv). congruence.
Qed.

Section theorems.
Context `{R : Runtime} (cx : IntakeCtx).

(** * Entry *)

Lemma intake_form_clean don wh draft : fails_clean (intake_form cx don wh draft).
Proof.
  unfold intake_form. clean_tac. apply fc_or_rollback. unfold process_entry_submission. clean_tac.
Qed.

Lemma verify_intake_clean don wh : fails_clean (verify_intake cx don wh).
Proof.
  unfold verify_intake. clean_tac. apply fc_or_rollback.
  unfold process_verification_submission, verify_stock_item, rewrite_intake_item, receive_batch, receive_inventory.
  clean_tac.
Qed.

Lemma intake_form_run don wh draft s s' :
  run_ok (intake_form cx don wh draft) s tt s' ↔
  ∃ dn w, db_donation (work s) !! don = Some dn ∧ db_warehouse (work s) !! wh = Some w ∧
    wh_allow_donation_intake w = true ∧ dn_status_code dn = "V"%string ∧
    (∀ k, db_dnintake (work s) !! (don, wh) = Some k → dk_status_code k ≠ "V"%string) ∧
    run_ok (process_entry_submission cx don wh (db_dnintake (work s) !! (don, wh)) draft) s tt s'.
Proof.
  unfold intake_form. rewrite run_get. destruct (db_donation _ !! don) as [dn|]; [|by split; [intros [=]|naive_solver]].
  destruct (db_warehouse _ !! wh) as [w|]; [|by split; [intros [=]|naive_solver]].
  rewrite !run_fail_if, or_rollback_ok, negb_bool_decide_false, negb_false_iff.
  assert (match db_dnintake (work s) !! (don, wh) with Some k => bool_decide (dk_status_code k = "V"%string)
          | None => false end = false ↔
          ∀ k, db_dnintake (work s) !! (don, wh) = Some k → dk_status_code k ≠ "V"%string) as ->.
  { destruct (db_dnintake _ !! _); [rewrite bool_decide_eq_false|]; naive_solver. }
  naive_solver.
Qed.


(** an accepted entry turns the intake into a draft or a submitted intake whose
    items are one per donated good, each of a total equal to the donated quantity
    with some of it usable; other intakes, batches, inventory and donations stay as
    they were.  A refused entry stores nothing. *)
Theorem intake_form_correct don wh draft s :
  donations_keyed (work s) → intake_items_fk (work s) →
  match intake_form cx don wh draft s with
  | (s', inl _) => committed s' = committed s
  | (s', inr _) =>
      let d := work s in let d' := work s' in
      committed s' = d' ∧
      (∃ dn, db_donation d !! don = Some dn ∧ dn_status_code dn = "V"%string) ∧
      ((∃ k, db_dnintake d' !! (don, wh) = Some k ∧ dk_status_code k = (if draft then "I" else "C")%string) ∧
       (∀ k, k ≠ (don, wh) → db_dnintake d' !! k = db_dnintake d !! k)) ∧
      (∀ g, g ∈ goods_items don d → ∃ v,
         (∀ w, (w ∈ intake_items_of don wh d' ∧ ki_item_id w = di_item_id g.1) ↔ w = v) ∧
         intake_total v = di_item_qty g.1 ∧ 0 < ki_usable_qty v ∧ 0 ≤ ki_defective_qty v ∧
         0 ≤ ki_expired_qty v ∧ ki_status_code v = "P"%string) ∧
      (∀ v, v ∈ intake_items_of don wh d' → ∃ g, g ∈ goods_items don d ∧ ki_item_id v = di_item_id g.1) ∧
      (∀ k, (k.1.1.1, k.1.1.2) ≠ (don, wh) → db_dnintake_item d' !! k = db_dnintake_item d !! k) ∧
      db_itembatch d' = db_itembatch d ∧ db_inventory d' = db_inventory d ∧ db_donation d' = db_donation d
  end.
Proof.
  intros Hk Hfk. destruct (intake_form cx don wh draft s) as [s' [e|[]]] eqn:Hrun.
  { pose proof (intake_form_clean don wh draft s) as Hc. by rewrite Hrun in Hc. }
  apply intake_form_run in Hrun as (dn & w & Hdn & _ & _ & Hst & _ & Hrun).
  apply entry_run in Hrun as (day & uid & He & _ & _ & ->).
  pose proof (goods_nodup don (work s) (proj1 Hk)) as Hnd.
  pose proof (entry_rows_nodup cx _ Hnd) as Hrows.
  pose proof (no_intake_no_items don wh (work s) Hfk) as Hclean.
  pose proof (entered_items cx don wh _ draft day uid _ (work s) Hclean Hrows) as Hitems.
  pose proof (entered_stock cx don wh (db_dnintake (work s) !! (don, wh)) draft day uid
    (entry_rows cx (goods_items don (work s))) (work s)) as (Hb & Hi & Hd & _).
  cbv beta iota zeta. split; [done|]. split; [by exists dn|]. split; [by apply entered_header|].
  split; [|split; [|split; [|done]]].
  - intros g Hg. destruct (entry_complete cx _ g Hnd He Hg) as (e & Hin & Hid & (Hu & Hde & Hex & _) & Htot).
    exists (new_intake_item cx don wh uid e). split; [|done]. intros v. rewrite (Hitems v). split.
    + intros [(e' & He' & ->) Heq]. simpl in Heq. f_equal.
      by apply (NoDup_fmap_inj_elem ed_item_id _ _ _ Hrows); [..|congruence].
    + intros ->. split; [by exists e|done].
  - intros v Hv. apply Hitems in Hv as (e & He' & ->).
    destruct (entry_rows_goods cx _ e He') as (g & Hg & Hid & _). by exists g.
  - intros k Hne. by apply entered_items_other.
Qed.

(** * Verification *)

(** The serials of new batches: distinct for distinct batches, and not in use. *)
Definition serials_ok (d : DB) : Prop :=
  (∀ it no it' no', ic_new_batch cx it no = ic_new_batch cx it' no' → it = it' ∧ no = no') ∧
  (∀ it no, db_itembatch d !! ic_new_batch cx it no = None).

Lemma serials_fresh wh d : serials_ok d → fresh cx wh d.
Proof. intros [_ Hn] it no b. by rewrite Hn. Qed.

Lemma verify_intake_run don wh s s' :
  run_ok (verify_intake cx don wh) s tt s' ↔
  ∃ k dn, db_dnintake (work s) !! (don, wh) = Some k ∧ db_donation (work s) !! don = Some dn ∧
    dk_status_code k = "C"%string ∧ run_ok (process_verification_submission cx k dn) s tt s'.
Proof.
  unfold verify_intake. rewrite run_get. destruct (db_dnintake _ !! _) as [k|]; [|by split; [intros [=]|naive_solver]].
  rewrite run_fail_if, negb_bool_decide_false.
  destruct (db_donation _ !! don) as [dn|]; [|by split; [intros [_ [=]]|naive_solver]].
  rewrite or_rollback_ok. naive_solver.
Qed.

(** What a verification does, table by table. *)
Lemma verify_intake_effect don wh s s' :
  keyed_intakes (work s) → run_ok (verify_intake cx don wh) s tt s' →
  ∃ k dn uid, let rows := verified_rows cx (work s) don wh in
    let d0 := put_intake (verified_intake cx uid k) (work s) in
    let d1 := effects (stock_eff cx wh uid) rows d0 in
    db_dnintake (work s) !! (don, wh) = Some k ∧ db_donation (work s) !! don = Some dn ∧
    (dk_donation_id k = don ∧ dk_inventory_id k = wh) ∧ dk_status_code k = "C"%string ∧ verify_errors cx (work s) don wh = [] ∧
    s' = commit_session (upd_work (λ _,
      set_db_donation (<[don := processed_donation cx uid dn]>
        (db_donation d1)) d1) s).
Proof.
  intros Hki Hrun. apply verify_intake_run in Hrun as (k & dn & Hk & Hdn & Hst & Hrun).
  apply verify_run in Hrun as (uid & He & _ & _ & ->).
  pose proof (Hki _ _ Hk) as Hpk. simpl in Hpk. injection Hpk as Hk1 Hk2. rewrite Hk1, Hk2 in *.
  by exists k, dn, uid.
Qed.

(** C14: a verification succeeds only on a submitted intake.  It splits every intake
    item anew into usable, defective and expired with the total it was entered with
    and something usable; stocks exactly the usable quantities at the intake's
    warehouse, reserving nothing; marks the intake and its items verified and the
    donation processed.  A refused verification stores nothing. *)
Theorem verify_intake_correct don wh s :
  keyed_batches (work s) → keyed_intakes (work s) → serials_ok (work s) →
  NoDup (ki_item_id <$> intake_items_of don wh (work s)) →
  match verify_intake cx don wh s with
  | (s', inl _) => committed s' = committed s
  | (s', inr _) =>
      let d := work s in let d' := work s' in let rows := verified_rows cx d don wh in
      committed s' = d' ∧
      (∃ k, db_dnintake d !! (don, wh) = Some k ∧ dk_status_code k = "C"%string) ∧
      (∃ k, db_dnintake d' !! (don, wh) = Some k ∧ dk_status_code k = "V"%string ∧
            dk_verify_by_id k = ic_user_name cx ∧ dk_verify_dtime k = Some (ic_now cx)) ∧
      (∃ dn, db_donation d' !! don = Some dn ∧ dn_status_code dn = "P"%string) ∧
      (vd_intake_item <$> rows = intake_items_of don wh d) ∧
      (∀ v, v ∈ rows → row_sound v ∧ ∃ w, db_dnintake_item d' !! (don, wh, ki_item_id (vd_intake_item v), vd_batch_no v) = Some w ∧
         ki_usable_qty w = vd_usable_qty v ∧ intake_total w = intake_total (vd_intake_item v) ∧ ki_status_code w = "V"%string) ∧
      (∀ it w, total ib_usable it w (db_itembatch d') =
                 total ib_usable it w (db_itembatch d) + lsum (λ v, gain wh v it w) rows ∧
               total ib_reserved it w (db_itembatch d') = total ib_reserved it w (db_itembatch d))
  end.
Proof.
  intros Hkb Hki Hser Hnd. destruct (verify_intake cx don wh s) as [s' [e|[]]] eqn:Hrun.
  { pose proof (verify_intake_clean don wh s) as Hc. by rewrite Hrun in Hc. }
  apply verify_intake_effect in Hrun as (k & dn & uid & Hk & _ & [Hk1 Hk2] & Hst & He & ->); [|done].
  cbv zeta. simpl. set (rows := verified_rows cx (work s) don wh).
  set (d0 := put_intake (verified_intake cx uid k) (work s)).
  destruct Hser as [Hinj Hnone].
  assert (good cx wh d0) as Hg by (split; [done|intros it no b; simpl; by rewrite Hnone]).
  pose proof (receive_frame cx wh uid rows d0) as (_ & _ & Hdk & _).
  pose proof (verified_rows_all cx (work s) don wh He) as Hall. fold rows in Hall.
  split; [done|]. split; [by exists k|]. split; [|split; [|split; [done|split]]].
  - rewrite Hdk. exists (verified_intake cx uid k). split; [|done]. unfold d0, put_intake. simpl.
    rewrite Hk1, Hk2. apply lookup_insert_eq.
  - eexists. by rewrite lookup_insert_eq.
  - intros v Hv. destruct (verified_rows_sound _ _ _ _ _ Hv) as [Hin Hs]. split; [done|].
    exists (verified_item cx uid v). destruct Hs as (_ & _ & _ & Hsum). split; [|done].
    apply elem_of_intake_items in Hin as [[H1 H2] _].
    rewrite <- (receive_items_elem cx wh uid rows d0 v); [|rewrite <- Hall, <- list_fmap_compose in Hnd; exact Hnd|done].
    unfold intake_item_pk. simpl. by rewrite H1, H2.
  - intros it w. apply (receive_total cx wh uid Hinj rows d0 it w Hg).
Qed.

(** C15: a verification keeps the ledger: inventory rows stay the sums of their
    batches and exist for every batch, no batch reserves more than it holds, and
    reservations stay what the packages in preparation hold. *)
Theorem verify_intake_ledger don wh s s' :
  run_ok (verify_intake cx don wh) s tt s' →
  well_keyed (work s) → keyed_intakes (work s) → items_batch_fk (work s) → serials_ok (work s) →
  (sites_stocked (work s) → balanced (work s) → sites_stocked (work s') ∧ balanced (work s')) ∧
  (within_stock (work s) → within_stock (work s')) ∧
  (covered (work s) → covered (work s')).
Proof.
  intros Hrun (Hkb & _ & _ & Hkpi & _) Hki Hfk [Hinj Hnone].
  apply verify_intake_effect in Hrun as (k & dn & uid & Hk & _ & _ & _ & _ & ->); [|done].
  set (rows := verified_rows cx (work s) don wh). set (d0 := put_intake (verified_intake cx uid k) (work s)).
  assert (good cx wh d0) as Hg by (split; [done|intros it no b; simpl; by rewrite Hnone]).
  pose proof (receive_good cx wh uid Hinj rows d0 Hg) as [Hkb' _].
  pose proof (receive_frame cx wh uid rows d0) as (Hp & Hpi & _).
  assert (grown (work s) (effects (stock_eff cx wh uid) rows d0)) as Hgr.
  { apply (receive_grown cx wh uid Hinj rows d0); [|done]. apply Forall_forall. intros v Hv.
    destruct (verified_rows_sound _ _ _ _ _ Hv) as [_ (? & _)]. lia. }
  split_and!.
  - apply (receive_balanced cx wh uid Hinj rows d0 Hg).
  - apply grown_within, Hgr.
  - by apply grown_covered.
Qed.

(** * Two intakes of one donation *)

(** The item of each donated good after an entry. *)
Lemma entered_goods don wh existing draft day uid d g :
  keyed_donation_items d → (existing = None → intake_items_of don wh d = []) →
  entry_errors cx (goods_items don d) = [] → g ∈ goods_items don d →
  ∃ v, v ∈ intake_items_of don wh (entered cx don wh existing draft day uid (entry_rows cx (goods_items don d)) d) ∧
    ki_item_id v = di_item_id g.1 ∧ intake_total v = di_item_qty g.1.
Proof.
  intros Hk Hclean He Hg. pose proof (goods_nodup don d Hk) as Hnd.
  destruct (entry_complete cx _ g Hnd He Hg) as (e & Hin & Hid & _ & Htot).
  exists (new_intake_item cx don wh uid e). split; [|done].
  apply entered_items; [done|by apply entry_rows_nodup|by exists e].
Qed.

Lemma entered_new_keeps don wh draft day uid rows d v w :
  w ≠ wh → v ∈ intake_items_of don w d →
  keyed_intake_items d → v ∈ intake_items_of don w (entered cx don wh None draft day uid rows d).
Proof.
  intros Hne Hv Hki. apply elem_of_intake_items in Hv as ([<- <-] & k & Hv). apply elem_of_intake_items.
  split; [done|]. exists k. unfold entered.
  pose proof (put_items_other (new_intake_item cx (ki_donation_id v) wh uid) rows) as H. unfold put_items in H.
  rewrite H; [done|]. intros e _ Heq. pose proof (Hki k v Hv) as Hpk. simpl in Hpk. rewrite <- Hpk in Heq.
  unfold intake_item_pk in Heq. simpl in Heq. injection Heq as Heq _ _. by apply Hne.
Qed.

Lemma entered_keyed_items don wh existing draft day uid rows d :
  keyed_intake_items d → keyed_intake_items (entered cx don wh existing draft day uid rows d).
Proof.
  intros Hk. unfold entered.
  match goal with |- context [effects _ rows ?x] => set (d0 := x) end.
  assert (keyed_intake_items d0) as Hd0.
  { unfold d0. destruct existing; [|done]. intros k v. simpl. intros Hv.
    apply map_lookup_filter_Some in Hv as [Hv _]. by apply Hk. }
  clearbody d0. revert d0 Hd0. induction rows as [|e l IH]; intros d0 Hd0; simpl; [done|]. apply IH.
  unfold keyed_intake_items, put_intake_item. simpl. apply map_Forall_insert_2; [done|exact Hd0].
Qed.

Lemma entered_other_nil don w wh existing draft day uid rows d :
  donations_keyed d → existing = db_dnintake d !! (don, wh) → w ≠ wh →
  intake_items_of don w d = [] → intake_items_of don w (entered cx don wh existing draft day uid rows d) = [].
Proof.
  intros Hk Hex Hne Hnil. apply intake_items_nil. intros k v Hv [Hd Hw].
  pose proof (entered_keyed_items _ _ _ _ _ _ _ _ (proj2 (proj2 Hk)) k v Hv) as Hpk. simpl in Hpk. subst k.
  rewrite (entered_items_other cx don wh) in Hv; [|done..|unfold intake_item_pk; simpl; congruence].
  by apply (proj1 (intake_items_nil don w d) Hnil _ _ Hv).
Qed.

(** a submitted intake does not use its donation up: while the donation is
    verified, the form accepted at one warehouse is accepted at every other that
    takes donations, and then each donated good is entered in full at both. *)
Theorem intake_not_exclusive don w1 w2 s s1 :
  run_ok (intake_form cx don w1 false) s tt s1 →
  donations_keyed (work s) → intake_items_fk (work s) → w1 ≠ w2 →
  (∃ w, db_warehouse (work s) !! w2 = Some w ∧ wh_allow_donation_intake w = true) →
  db_dnintake (work s) !! (don, w2) = None →
  ∃ s2, run_ok (intake_form cx don w2 false) s1 tt s2 ∧
    ∀ g, g ∈ goods_items don (work s) →
    ∃ v1 v2, v1 ∈ intake_items_of don w1 (work s2) ∧ v2 ∈ intake_items_of don w2 (work s2) ∧
      ki_item_id v1 = di_item_id g.1 ∧ ki_item_id v2 = di_item_id g.1 ∧
      intake_total v1 = di_item_qty g.1 ∧ intake_total v2 = di_item_qty g.1.
Proof.
  intros Hrun Hk Hfk Hne (w & Hw & Hallow) Hnone.
  pose proof (λ x, no_intake_no_items don x (work s) Hfk) as Hclean.
  apply intake_form_run in Hrun as (dn & w' & Hdn & _ & _ & Hst & _ & Hrun).
  apply entry_run in Hrun as (day & uid & He & Hday & Huid & ->).
  set (goods := goods_items don (work s)) in *.
  set (d1 := entered cx don w1 (db_dnintake (work s) !! (don, w1)) false day uid (entry_rows cx goods) (work s)).
  pose proof (entered_stock cx don w1 (db_dnintake (work s) !! (don, w1)) false day uid (entry_rows cx goods) (work s))
    as (_ & _ & Hd & Hdi & Hit & Hwh). fold d1 in Hd, Hdi, Hit, Hwh.
  pose proof (entered_header cx don w1 _ false day uid (entry_rows cx goods) (work s) eq_refl Hk) as [_ Hother].
  fold d1 in Hother.
  assert (goods_items don d1 = goods) as Hgoods by (unfold goods, goods_items; by rewrite Hdi, Hit).
  assert (db_dnintake d1 !! (don, w2) = None) as Hnone1 by (rewrite Hother; [done|congruence]).
  set (d2 := entered cx don w2 None false day uid (entry_rows cx goods) d1).
  match goal with |- context [commit_session ?x] => change (commit_session x) with (mkSession d1 d1) end.
  exists (mkSession d2 d2). split.
  - apply intake_form_run. exists dn, w. simpl. rewrite Hd, Hwh, Hnone1. split_and!; [done..|].
    apply entry_run. exists day, uid. simpl. rewrite Hgoods. by split_and!.
  - intros g Hg. simpl.
    destruct (entered_goods don w1 (db_dnintake (work s) !! (don, w1)) false day uid (work s) g (proj1 Hk)
      (Hclean w1) He Hg) as (v1 & Hv1 & Hi1 & Ht1).
    destruct (entered_goods don w2 None false day uid d1 g) as (v2 & Hv2 & Hi2 & Ht2).
    + unfold keyed_donation_items. rewrite Hdi. apply Hk.
    + intros _. by apply entered_other_nil, Hclean.
    + by rewrite Hgoods.
    + by rewrite Hgoods.
    + exists v1, v2. rewrite Hgoods in Hv2. split_and!; [|done..].
      apply entered_new_keeps; [done|done|]. apply entered_keyed_items, Hk.
Qed.
End theorems.

(** * A donation of ten units, two of them defective *)

Definition entry_form : EntryForm :=
  mkEntryForm true " b " (OnDay 15) (OnDay 600) (Some "EA"%string) (Num (units 2)) (Num (units 8))
    (Num (units 2)) EmptyNum "".

Definition header0 : DonationHeader :=
  mkDonationHeader 1 1 1 "RICE" 10 1 None None None (units 100) 0 0 0 None.
Definition line0 : DonationLine :=
  mkDonationLine "GOODS" (units 10) (units 10) (Some "EA"%string) None "DONATION RECEIVED" None.

(** The verifying manager finds one of the two defective units usable. *)
Definition verify_form : VerifyForm :=
  mkVerifyForm (Num (units 1)) NoField None NoDate NoDate None.

Definition donation_cx : IntakeCtx :=
  mkIntakeCtx "officer" 50 20 (OnDay 20) "" (λ _, entry_form) (λ _, verify_form)
    (λ it no, 1000 + Zpos (encode (it, no))).

(** Donation 9, verified; warehouse 1 holds batches 11 and 12, warehouse 2 nothing. *)
Definition donation_db : DB :=
  set_db_item {[1 := mkItem 1 "ITM" "Item" "GOODS" "EA" true true "FEFO" "A"]}
    (set_db_warehouse (list_to_map [(1, mkWarehouse 1 "Main" true "A"); (2, mkWarehouse 2 "Hub" true "A")])
      (set_db_donation {[9 := mkDonation 9 header0 "V" (Some "MANAGER"%string) (Some 15) audit0]}
        (set_db_donation_item {[(9, 1) := mkDonationItem 9 1 line0 "V" (Some "MANAGER"%string) (Some 15) audit0]} (stock_db 20 0)))).

Abbreviation enter wh := (@intake_form canonical_runtime donation_cx 9 wh false).
Abbreviation verify wh := (@verify_intake canonical_runtime donation_cx 9 wh).

Definition entered_once : Session := (enter 1 (session_of donation_db)).1.
Definition verified_once : Session := (verify 1 entered_once).1.
Definition entered_twice : Session := (enter 2 entered_once).1.
Definition stocked_twice : Session := (verify 2 (verify 1 entered_twice).1).1.

Lemma donation_serials d :
  map_Forall (λ k _, k ≤ 1000) (db_itembatch d) → serials_ok donation_cx d.
Proof.
  intros Hd. split.
  - intros it no it' no' Heq. simpl in Heq. assert (encode (it, no) = encode (it', no')) as He by lia.
    apply encode_inj in He. by simplify_eq.
  - intros it no. simpl. destruct (db_itembatch d !! _) eqn:E; [|done]. pose proof (Hd _ _ E). simpl in *. lia.
Qed.

Lemma intake_form_correct_witness :
  run_ok (enter 1) (session_of donation_db) tt entered_once ∧
  (∃ v, v ∈ @intake_items_of canonical_runtime 9 1 (work entered_once) ∧ intake_total v = units 10) ∧
  db_itembatch (work entered_once) = db_itembatch donation_db.
Proof.
  assert (run_ok (enter 1) (session_of donation_db) tt entered_once) as Hrun
    by (unfold entered_once; apply run_ok_fst; vm_compute; reflexivity).
  split; [exact Hrun|].
  pose proof (@intake_form_correct canonical_runtime donation_cx 9 1 false (session_of donation_db)) as H.
  unfold run_ok in Hrun. rewrite Hrun in H. destruct H as (_ & _ & _ & Hg & _ & _ & Hb & _);
    [by_decide|by_decide|].
  split; [|exact Hb].
  destruct (Hg (mkDonationItem 9 1 line0 "V" (Some "MANAGER"%string) (Some 15) audit0, mkItem 1 "ITM" "Item" "GOODS" "EA" true true "FEFO" "A"))
    as (v & Hv & Htot & _).
  - vm_compute. left.
  - exists v. split; [by apply Hv|exact Htot].
Defined.

Lemma verify_intake_correct_witness :
  run_ok (verify 1) entered_once tt verified_once ∧
  total ib_usable 1 1 (db_itembatch (work entered_once)) = units 100 ∧
  total ib_usable 1 1 (db_itembatch (work verified_once)) = units 109.
Proof.
  assert (run_ok (verify 1) entered_once tt verified_once) as Hrun
    by (unfold verified_once; apply run_ok_fst; vm_compute; reflexivity).
  split; [exact Hrun|]. split; [vm_compute; reflexivity|].
  pose proof (@verify_intake_correct canonical_runtime donation_cx 9 1 entered_once) as H.
  unfold run_ok in Hrun. rewrite Hrun in H.
  destruct H as (_ & _ & _ & _ & _ & _ & Ht); [by_decide|by_decide|apply donation_serials; by_decide|by_decide|].
  rewrite (proj1 (Ht 1 1)). vm_compute. reflexivity.
Defined.

Lemma verify_intake_ledger_witness :
  run_ok (verify 1) entered_once tt verified_once ∧
  balanced (work verified_once) ∧ within_stock (work verified_once).
Proof.
  assert (run_ok (verify 1) entered_once tt verified_once) as Hrun
    by (unfold verified_once; apply run_ok_fst; vm_compute; reflexivity).
  split; [exact Hrun|].
  destruct (@verify_intake_ledger canonical_runtime donation_cx 9 1 entered_once verified_once Hrun) as (Hb & Hw & _);
    [unfold well_keyed; split_and!; by_decide|by_decide|by_decide|apply donation_serials; by_decide|].
  split; [apply Hb; by_decide|apply Hw; by_decide].
Defined.

(** Both intakes verify: eighteen units come in, though only ten were donated. *)
Lemma intake_not_exclusive_witness :
  (∃ s2, run_ok (enter 2) entered_once tt s2 ∧ s2 = entered_twice) ∧
  run_ok (verify 2) (verify 1 entered_twice).1 tt stocked_twice ∧
  total ib_usable 1 1 (db_itembatch (work stocked_twice)) +
    total ib_usable 1 2 (db_itembatch (work stocked_twice)) = units 100 + units 18.
Proof.
  split; [|split; [|vm_compute; reflexivity]].
  - assert (run_ok (enter 1) (session_of donation_db) tt entered_once) as Hrun
      by (unfold entered_once; apply run_ok_fst; vm_compute; reflexivity).
    destruct (@intake_not_exclusive canonical_runtime donation_cx 9 1 2 (session_of donation_db) entered_once Hrun)
      as (s2 & Hs2 & _); [by_decide|by_decide|done|by eexists|by vm_compute|].
    exists s2. split; [exact Hs2|]. unfold entered_twice, run_ok in *. by rewrite Hs2.
  - unfold stocked_twice. apply run_ok_fst. vm_compute. reflexivity.
Defined.
