(* ===== verification/AccessControl.v ===== *)
(** Who may do what: the validated view of the session's user
    (app/core/session_utils.py), the role checks and route guards built on it
    (app/core/rbac.py), and the feature registry with its guards
    (app/core/feature_registry.py, app/core/decorators.py).

    The module-level cache of role codes is the state of the programs; the user of
    the request and the role tables are arguments.  A guard ends early with the
    login redirect or with 403. *)
From stdpp Require Import strings.
From Stdlib Require Import Ascii String.
From S2P Require Import Prelude PyStr PySort ParamValidation.

(** The user of the session, [None] for an anonymous one. *)
Record SessionUser : Type := mkSessionUser {
  su_user_name : string;
  su_email : string;
  su_agency_id : option Z;
  su_role_codes : list string;
  su_warehouse_ids : list Z
}.

Record Permission : Type := mkPermission { pm_perm_id : Z; pm_resource : string; pm_action : string }.

Record AuthDB : Type := mkAuthDB {
  ad_roles : list (Z * string);             (* id, code *)
  ad_permissions : list Permission;
  ad_role_permissions : list (Z * Z)        (* role id, permission id *)
}.

Definition Cache : Type := option (gset string).

Inductive Refusal : Type := ToLogin | Forbidden.

Definition MAX_ROLE_CODE_LENGTH : Z := 50.
Definition EXECUTIVE_ROLES : list string := ["ODPEM_DG"; "ODPEM_DDG"; "ODPEM_DIR_PEOD"]%string.
Definition LOGISTICS_ROLES : list string := ["LOGISTICS_MANAGER"; "LOGISTICS_OFFICER"]%string.
Definition AGENCY_ROLES : list string := ["AGENCY_DISTRIBUTOR"; "AGENCY_SHELTER"]%string.

(** [code.strip().upper()]. *)
Definition normalized (code : string) : string := upper (strip code).

(** * session_utils *)

Section session.
Context {E : Type} (user : option SessionUser) (ad : AuthDB) (query_ok : bool).

Abbreviation CM := (M Cache E).

Definition is_authenticated : bool := match user with Some _ => true | None => false end.

(** What the role table says; [query_ok] is whether it could be read. *)
Definition role_table : gset string :=
  list_to_set (normalized <$> filter (λ c, c ≠ ""%string) ((ad_roles ad).*2)).

Definition get_valid_role_codes : CM (gset string) :=
  c ← m_get;
  match c with
  | Some v => mret v
  | None => if query_ok then m_put (Some role_table);; mret role_table else mret ∅
  end.

Definition clear_role_codes_cache : CM unit := m_put None.

Definition validated (valid : gset string) (codes : list string) : list string :=
  filter (λ code, 0 < len code ≤ MAX_ROLE_CODE_LENGTH ∧ code ∈ valid) (normalized <$> codes).

Definition get_role_codes : CM (list string) :=
  match user with
  | None => mret []
  | Some u => valid ← get_valid_role_codes; mret (validated valid (su_role_codes u))
  end.

Definition get_user_name : option string :=
  match user with
  | None => None
  | Some u => let name := strip (su_user_name u) in
      if (len name =? 0) || (20 <? len name) then None else Some name
  end.

Definition contains (c : ascii) (s : string) : bool := bool_decide (c ∈ chars s).

Definition get_email : option string :=
  match user with
  | None => None
  | Some u => let email := lower (strip (su_email u)) in
      if (len email =? 0) || (200 <? len email) then None
      else if negb (contains "@" email) || negb (contains "." email) then None
      else Some email
  end.

Definition get_agency_id : option Z :=
  match user with
  | None => None
  | Some u => match su_agency_id u with Some a => if 0 <? a then Some a else None | None => None end
  end.

Definition get_warehouse_ids : list Z :=
  match user with None => [] | Some u => filter (λ w, 0 < w) (su_warehouse_ids u) end.

(** The set intersection [check_codes & set(user_roles)] is not empty. *)
Definition intersects (l1 l2 : list string) : bool := existsb (λ c, bool_decide (c ∈ l2)) l1.

Definition has_valid_role (role_codes : list string) : CM bool :=
  match role_codes with
  | [] => mret false
  | _ =>
      user_roles ← get_role_codes;
      match user_roles with
      | [] => mret false
      | _ => mret (intersects (filter (λ c, c ≠ ""%string) (normalized <$> role_codes)) user_roles)
      end
  end.

Definition has_warehouse_access (warehouse_id : option Z) : CM bool :=
  match warehouse_id with
  | None => mret false
  | Some wh =>
      if wh <=? 0 then mret false else
      m ← has_valid_role ["SYSTEM_ADMINISTRATOR"; "SYS_ADMIN"; "LOGISTICS_MANAGER"]%string;
      if m : bool then mret true else mret (bool_decide (wh ∈ get_warehouse_ids))
  end.

Definition is_agency_user : bool := match get_agency_id with Some _ => true | None => false end.

(** * rbac *)

Definition has_all_roles (role_codes : list string) : CM bool :=
  if is_authenticated then
    user_roles ← get_role_codes;
    mret (forallb (λ c, bool_decide (c ∈ user_roles)) role_codes)
  else mret false.

(** [agency_id] is the agency of the request. *)
Definition can_access_relief_request (agency_id : Z) : CM bool :=
  if is_authenticated then
    l ← has_valid_role LOGISTICS_ROLES;
    if l : bool then mret true else
    e ← has_valid_role EXECUTIVE_ROLES;
    if e : bool then mret true else
    mret (match get_agency_id with Some a => agency_id =? a | None => false end)
  else mret false.

Definition is_admin : CM bool := has_valid_role ["SYSTEM_ADMINISTRATOR"; "SYS_ADMIN"]%string.
Definition is_logistics_manager : CM bool := has_valid_role ["LOGISTICS_MANAGER"]%string.
Definition is_logistics_officer : CM bool := has_valid_role ["LOGISTICS_OFFICER"]%string.
Definition is_director_level : CM bool := has_valid_role EXECUTIVE_ROLES.
Definition can_manage_users : CM bool := has_valid_role ["SYSTEM_ADMINISTRATOR"; "SYS_ADMIN"]%string.

(** The joined query of [has_permission] has a row. *)
Definition permission_row (resource action : string) (user_roles : list string) : bool :=
  existsb (λ p, existsb (λ rp, existsb (λ r,
      (rp.2 =? pm_perm_id p) && (r.1 =? rp.1) && bool_decide (r.2 ∈ user_roles) &&
      bool_decide (pm_resource p = strip resource) && bool_decide (pm_action p = strip action))
    (ad_roles ad)) (ad_role_permissions ad)) (ad_permissions ad).

Definition has_permission (resource action : string) : CM bool :=
  if negb is_authenticated || is_blank resource || is_blank action then mret false else
  user_roles ← get_role_codes;
  match user_roles with [] => mret false | _ => mret (permission_row resource action user_roles) end.
End session.

(** * Route guards *)

Section guards.
Context (user : option SessionUser) (ad : AuthDB) (query_ok : bool).

Abbreviation GM := (M Cache Refusal).

Definition role_required (role_codes : list string) : GM unit :=
  m_fail_if (negb (is_authenticated user)) ToLogin;;
  user_roles ← get_role_codes user ad query_ok;
  m_fail_if (negb (existsb (λ c, bool_decide (c ∈ user_roles)) role_codes)) Forbidden.

Definition agency_user_required : GM unit :=
  m_fail_if (negb (is_authenticated user)) ToLogin;;
  m_fail_if (negb (is_agency_user user)) Forbidden.

Definition executive_required : GM unit :=
  m_fail_if (negb (is_authenticated user)) ToLogin;;
  e ← is_director_level user ad query_ok;
  m_fail_if (negb e) Forbidden.

Definition permission_required (resource action : string) : GM unit :=
  m_fail_if (negb (is_authenticated user)) ToLogin;;
  p ← has_permission user ad query_ok resource action;
  m_fail_if (negb p) Forbidden.
End guards.

(** * The feature registry *)

(** The fields of a feature that decide anything; name, description, icon and
    routes are for display. *)
Record Feature : Type := mkFeature {
  ft_key : string;
  ft_roles : list string;
  ft_category : string;
  ft_dashboard_widget : option string;
  ft_navigation_group : option string;
  ft_priority : Z
}.

Definition FEATURES : list Feature := [
  mkFeature "relief_request_tracking" ["AGENCY_DISTRIBUTOR"; "AGENCY_SHELTER"] "relief_requests" (Some "my_requests_widget") (Some "relief_requests") 9;
  mkFeature "eligibility_review" EXECUTIVE_ROLES "eligibility" (Some "pending_eligibility_widget") (Some "eligibility") 20;
  mkFeature "director_dashboard" EXECUTIVE_ROLES "eligibility" (Some "director_overview") None 25;
  mkFeature "operations_dashboard" EXECUTIVE_ROLES "analytics" None (Some "dashboard") 24;
  mkFeature "funds_donations_report" (EXECUTIVE_ROLES ++ ["LOGISTICS_MANAGER"]) "reports" None (Some "reports") 23;
  mkFeature "create_request_on_behalf" ["AGENCY_DISTRIBUTOR"; "AGENCY_SHELTER"; "LOGISTICS_OFFICER"; "LOGISTICS_MANAGER"] "relief_requests" None (Some "relief_requests") 10;
  mkFeature "package_preparation" ["LOGISTICS_OFFICER"; "LOGISTICS_MANAGER"] "packaging" (Some "pending_fulfillment_widget") (Some "packaging") 15;
  mkFeature "dispatch_awaiting" ["INVENTORY_CLERK"] "packaging" (Some "awaiting_dispatch_widget") (Some "packaging") 17;
  mkFeature "dispatch_received" ["LOGISTICS_OFFICER"; "LOGISTICS_MANAGER"] "packaging" (Some "dispatch_received_widget") (Some "packaging") 19;
  mkFeature "inventory_view" (LOGISTICS_ROLES ++ ["INVENTORY_CLERK"] ++ EXECUTIVE_ROLES ++ ["SYSTEM_ADMINISTRATOR"]) "inventory" (Some "inventory_summary_widget") (Some "inventory") 12;
  mkFeature "warehouse_management" ["CUSTODIAN"] "master_data" None (Some "master_data") 5;
  mkFeature "item_category_management" ["CUSTODIAN"] "master_data" None (Some "master_data") 4;
  mkFeature "uom_management" ["CUSTODIAN"] "master_data" None (Some "master_data") 3;
  mkFeature "item_management" ["CUSTODIAN"] "master_data" None (Some "master_data") 3;
  mkFeature "event_management" ["CUSTODIAN"] "master_data" None (Some "master_data") 8;
  mkFeature "agency_management" ["CUSTODIAN"] "master_data" None (Some "master_data") 6;
  mkFeature "donor_management" ["CUSTODIAN"] "master_data" None (Some "master_data") 7;
  mkFeature "custodian_management" ["CUSTODIAN"] "master_data" None (Some "master_data") 6;
  mkFeature "lastmile_management" ["LOGISTICS_MANAGER"; "LOGISTICS_OFFICER"] "lastmile" None (Some "lastmile") 1;
  mkFeature "donation_management" ["LOGISTICS_OFFICER"; "LOGISTICS_MANAGER"] "inventory" None (Some "inventory") 3;
  mkFeature "donation_verification" ["LOGISTICS_MANAGER"] "inventory" None None 3;
  mkFeature "donation_intake_management" ["LOGISTICS_OFFICER"; "LOGISTICS_MANAGER"] "inventory" None (Some "inventory") 4;
  mkFeature "donation_intake_verification" ["LOGISTICS_MANAGER"] "inventory" None None 4;
  mkFeature "reports_main" (LOGISTICS_ROLES ++ EXECUTIVE_ROLES ++ ["SYSTEM_ADMINISTRATOR"]) "reports" None (Some "reports") 2;
  mkFeature "reports_inventory" (LOGISTICS_ROLES ++ EXECUTIVE_ROLES ++ ["SYSTEM_ADMINISTRATOR"]) "reports" (Some "inventory_report_link") None 2;
  mkFeature "reports_donations" (["LOGISTICS_MANAGER"] ++ EXECUTIVE_ROLES ++ ["SYSTEM_ADMINISTRATOR"]) "reports" (Some "donation_report_link") None 2;
  mkFeature "donations_analytics" (EXECUTIVE_ROLES ++ ["LOGISTICS_MANAGER"]) "dashboard" None (Some "dashboard") 5;
  mkFeature "relief_package_analytics" (EXECUTIVE_ROLES ++ ["LOGISTICS_MANAGER"]) "dashboard" None (Some "dashboard") 6;
  mkFeature "aid_movement_dashboard" (EXECUTIVE_ROLES ++ ["LOGISTICS_MANAGER"]) "dashboard" None (Some "dashboard") 7;
  mkFeature "aid_item_movement_detail" (EXECUTIVE_ROLES ++ ["LOGISTICS_MANAGER"]) "dashboard" None (Some "dashboard") 8;
  mkFeature "user_management" ["SYSTEM_ADMINISTRATOR"; "CUSTODIAN"] "admin" None (Some "admin") 1;
  mkFeature "account_requests" ["SYSTEM_ADMINISTRATOR"] "admin" (Some "pending_account_requests") (Some "admin") 1;
  mkFeature "notifications" (LOGISTICS_ROLES ++ EXECUTIVE_ROLES ++ AGENCY_ROLES ++ ["INVENTORY_CLERK"; "SYSTEM_ADMINISTRATOR"]) "notifications" None (Some "user") 30;
  mkFeature "logistics_dashboard" ["LOGISTICS_OFFICER"; "LOGISTICS_MANAGER"] "dashboard" None (Some "dashboard") 100;
  mkFeature "agency_dashboard" ["AGENCY_DISTRIBUTOR"; "AGENCY_SHELTER"] "dashboard" None (Some "dashboard") 100;
  mkFeature "admin_dashboard" ["SYSTEM_ADMINISTRATOR"] "dashboard" None (Some "dashboard") 100;
  mkFeature "lo_dashboard" ["LOGISTICS_OFFICER"] "logistics" (Some "lo_overview") (Some "logistics") 45
]%string.

(** A dict of the registry, by key. *)
Definition feature_of (key : string) : option Feature :=
  head (filter (λ f, ft_key f = key) FEATURES).

Section registry.
Context (user : option SessionUser).

(** The registry reads [user.roles] as they are; an anonymous user has none. *)
Definition get_user_role_codes : list string :=
  match user with None => [] | Some u => su_role_codes u end.

Definition has_access (key : string) : bool :=
  match feature_of key with None => false | Some f => intersects get_user_role_codes (ft_roles f) end.

Definition get_accessible_features : list Feature :=
  filter (λ f, intersects get_user_role_codes (ft_roles f) = true) FEATURES.

(** [sorted(l, key=priority, reverse=True)], which keeps ties in order. *)
Definition by_priority : list Feature → list Feature := sorted_by (λ f, [- ft_priority f]).

Definition has_widget (f : Feature) : Prop :=
  match ft_dashboard_widget f with Some w => w ≠ ""%string | None => False end.

#[export] Instance has_widget_dec f : Decision (has_widget f).
Proof. unfold has_widget. destruct (ft_dashboard_widget f); apply _. Defined.

Definition get_dashboard_features : list Feature := by_priority (filter has_widget get_accessible_features).

(** With a group: the features of it; without one: those of any group. *)
Definition in_group (group : option string) (f : Feature) : Prop :=
  match group with
  | Some g => if bool_decide (g = ""%string) then ft_navigation_group f ≠ None else ft_navigation_group f = Some g
  | None => ft_navigation_group f ≠ None
  end.

#[export] Instance in_group_dec group f : Decision (in_group group f).
Proof. unfold in_group. destruct group as [g|]; [destruct (bool_decide (g = ""%string))|]; apply _. Defined.

Definition get_navigation_features (group : option string) : list Feature :=
  by_priority (filter (in_group group) get_accessible_features).

Definition get_features_by_category (category : string) : list Feature :=
  filter (λ f, ft_category f = category) get_accessible_features.

Definition ROLE_PRIORITY : list string :=
  ["SYSTEM_ADMINISTRATOR"%string] ++ EXECUTIVE_ROLES ++ ["CUSTODIAN"%string] ++ LOGISTICS_ROLES ++
  ["INVENTORY_CLERK"%string] ++ AGENCY_ROLES ++ ["AUDITOR"%string].

(** [set_order] is the order in which Python walks the set of the user's codes. *)
Definition get_primary_role (set_order : list string → list string) : option string :=
  match filter (λ r, r ∈ get_user_role_codes) ROLE_PRIORITY with
  | r :: _ => Some r
  | [] => head (set_order get_user_role_codes)
  end.

Definition feature_required (key : string) : M Cache Refusal unit :=
  m_fail_if (negb (is_authenticated user)) ToLogin;;
  m_fail_if (negb (has_access key)) Forbidden.

Definition any_feature_required (keys : list string) : M Cache Refusal unit :=
  m_fail_if (negb (is_authenticated user)) ToLogin;;
  m_fail_if (negb (existsb has_access keys)) Forbidden.

Definition all_features_required (keys : list string) : M Cache Refusal unit :=
  m_fail_if (negb (is_authenticated user)) ToLogin;;
  m_fail_if (negb (forallb has_access keys)) Forbidden.
End registry.

(** The guard of the route that creates a request for the user's own agency
    ([requests_bp.route('/create')]). *)
Definition create_request_guard (user : option SessionUser) : M Cache Refusal unit :=
  feature_required user "relief_request_creation".
