(* ===== verification/AccessControlProofs.v ===== *)
(** Which users the role checks and guards let through, that the two kinds of
    guard agree on well-formed roles, and what the menus show. *)
From stdpp Require Import strings.
From S2P Require Import Prelude PyStr PySort AccessControl.

Section checks.
Context {E : Type} (user : option SessionUser) (ad : AuthDB) (query_ok : bool).

(** The role codes in force: the cached ones, and the table only while nothing is
    cached. *)
Definition in_force (c : Cache) : gset string :=
  match c with Some v => v | None => if query_ok then role_table ad else ∅ end.

Definition cache_after (c : Cache) : Cache :=
  match c with Some v => Some v | None => if query_ok then Some (role_table ad) else None end.

Lemma in_force_after c : in_force (cache_after c) = in_force c.
Proof. unfold in_force, cache_after. destruct c; [done|]. by destruct query_ok. Qed.

(** The user holds the role: one of the session's codes is [code] up to case and
    surrounding space, and [code] is in force. *)
Definition holds (c : Cache) (code : string) : Prop :=
  ∃ u r, user = Some u ∧ r ∈ su_role_codes u ∧ normalized r = code ∧
    0 < len code ≤ MAX_ROLE_CODE_LENGTH ∧ code ∈ in_force c.

Definition codes_of (c : Cache) : list string :=
  match user with None => [] | Some u => validated (in_force c) (su_role_codes u) end.

Lemma elem_of_codes c code : code ∈ codes_of c ↔ holds c code.
Proof.
  unfold codes_of, holds. destruct user as [u|]; [|split; [set_solver|naive_solver]].
  unfold validated. rewrite list_elem_of_filter, list_elem_of_fmap. naive_solver.
Qed.

Lemma get_role_codes_run c :
  get_role_codes (E := E) user ad query_ok c =
  (if is_authenticated user then cache_after c else c, inr (codes_of c)).
Proof.
  unfold get_role_codes, codes_of. destruct user as [u|]; [|done]. simpl.
  unfold get_valid_role_codes, in_force, cache_after. destruct c as [v|]; [done|]. by destruct query_ok.
Qed.

Lemma intersects_spec l1 l2 : intersects l1 l2 = true ↔ ∃ c, c ∈ l1 ∧ c ∈ l2.
Proof.
  unfold intersects. rewrite existsb_exists. setoid_rewrite <- list_elem_of_In.
  by setoid_rewrite bool_decide_eq_true.
Qed.

(** Any check leaves the roles in force as they were. *)
Lemma has_valid_role_run codes c :
  ∃ c' b, has_valid_role (E := E) user ad query_ok codes c = (c', inr b) ∧ in_force c' = in_force c ∧
    (b = true ↔ ∃ code, code ∈ codes ∧ holds c (normalized code)).
Proof.
  unfold has_valid_role. destruct codes as [|code codes].
  { exists c, false. split; [done|]. split; [done|]. split; [done|]. intros (? & ? & _). set_solver. }
  rewrite run_bind, get_role_codes_run.
  exists (if is_authenticated user then cache_after c else c).
  exists (match codes_of c with [] => false | _ => intersects (filter (λ c, c ≠ ""%string) (normalized <$> code :: codes)) (codes_of c) end).
  split; [by destruct (codes_of c)|]. split; [destruct (is_authenticated user); [apply in_force_after|done]|].
  transitivity (intersects (filter (λ c, c ≠ ""%string) (normalized <$> code :: codes)) (codes_of c) = true).
  { destruct (codes_of c) as [|x l]; [|done]. split; [done|]. rewrite intersects_spec. set_solver. }
  rewrite intersects_spec. split.
  - intros (x & Hx & Hc). apply list_elem_of_filter in Hx as [_ Hx]. apply list_elem_of_fmap in Hx as (y & -> & Hy).
    exists y. split; [done|]. by apply elem_of_codes.
  - intros (y & Hy & Hh). exists (normalized y). split; [|by apply elem_of_codes].
    apply list_elem_of_filter. split; [|by apply list_elem_of_fmap_2].
    destruct Hh as (u & r & _ & _ & _ & Hlen & _). intros Hnil. rewrite Hnil in Hlen. unfold len in Hlen. simpl in Hlen. lia.
Qed.
End checks.

Section theorems.
Context (user : option SessionUser) (ad : AuthDB) (query_ok : bool).

Lemma role_required_run codes c :
  (role_required user ad query_ok codes c).2 =
  if is_authenticated user
  then (if existsb (λ x, bool_decide (x ∈ codes_of user ad query_ok c)) codes then inr tt else inl Forbidden)
  else inl ToLogin.
Proof.
  unfold role_required. destruct (is_authenticated user) eqn:Ha; [|done].
  transitivity ((get_role_codes (E := Refusal) user ad query_ok ≫= λ user_roles,
    m_fail_if (negb (existsb (λ x, bool_decide (x ∈ user_roles)) codes)) Forbidden) c).2; [done|].
  rewrite run_bind, get_role_codes_run. by destruct (existsb _ codes).
Qed.

(** C20: a route guarded by roles redirects exactly the anonymous user to the login,
    and lets through exactly a user who holds one of the listed roles among those in
    force: the ones cached at the first check, whatever the role table says since. *)
Theorem role_required_correct codes c :
  let r := (role_required user ad query_ok codes c).2 in
  (r = inl ToLogin ↔ user = None) ∧
  (r = inr tt ↔ ∃ code, code ∈ codes ∧ holds user ad query_ok c code).
Proof.
  cbv zeta. rewrite role_required_run.
  assert (existsb (λ x, bool_decide (x ∈ codes_of user ad query_ok c)) codes = true ↔
          ∃ code, code ∈ codes ∧ holds user ad query_ok c code) as <-.
  { rewrite existsb_exists. setoid_rewrite <- list_elem_of_In. setoid_rewrite bool_decide_eq_true.
    by setoid_rewrite elem_of_codes. }
  destruct user as [u|]; simpl; [destruct (existsb _ codes); split; split; congruence|].
  split; [done|]. split; [done|]. intros Hex. apply existsb_exists in Hex as (x & _ & Hx).
  done.
Qed.

(** The user belongs to the agency. *)
Definition own_agency (agency_id : Z) : Prop :=
  0 < agency_id ∧ ∃ u, user = Some u ∧ su_agency_id u = Some agency_id.

Lemma get_agency_id_spec a : get_agency_id user = Some a ↔ own_agency a.
Proof.
  unfold get_agency_id, own_agency. destruct user as [u|]; [|naive_solver].
  destruct (su_agency_id u) as [b|] eqn:Hag; [|naive_solver].
  destruct (0 <? b) eqn:E; z_bool; split; [|naive_solver|done|].
  - intros [= ->]. split; [done|]. by exists u.
  - intros (Hpos & u' & [= <-] & Hag'). rewrite Hag in Hag'. simplify_eq. lia.
Qed.

(** A check for roles in normal form. *)
Lemma has_roles_run {E} (l : list string) c : (∀ x, x ∈ l → normalized x = x) →
  ∃ c' b, has_valid_role (E := E) user ad query_ok l c = (c', inr b) ∧ in_force ad query_ok c' = in_force ad query_ok c ∧
    (b = true ↔ ∃ role, role ∈ l ∧ holds user ad query_ok c role).
Proof.
  intros Hn. destruct (has_valid_role_run (E := E) user ad query_ok l c) as (c' & b & Hr & Hf & Hb).
  exists c', b. split; [done|]. split; [done|]. rewrite Hb.
  split; intros (x & Hx & Hh); exists x; rewrite (Hn x Hx) in *; done.
Qed.

Lemma holds_force c1 c2 role :
  in_force ad query_ok c1 = in_force ad query_ok c2 → holds user ad query_ok c1 role → holds user ad query_ok c2 role.
Proof. unfold holds. by intros ->. Qed.

Lemma logistics_normal x : x ∈ LOGISTICS_ROLES → normalized x = x.
Proof. revert x. apply Forall_forall. by_decide. Qed.
Lemma executive_normal x : x ∈ EXECUTIVE_ROLES → normalized x = x.
Proof. revert x. apply Forall_forall. by_decide. Qed.

Lemma can_access_run {E} agency_id c :
  ∃ c' b, can_access_relief_request (E := E) user ad query_ok agency_id c = (c', inr b) ∧
    in_force ad query_ok c' = in_force ad query_ok c ∧
    (b = true ↔
      (∃ role, role ∈ (LOGISTICS_ROLES ++ EXECUTIVE_ROLES)%list ∧ holds user ad query_ok c role) ∨
      own_agency agency_id).
Proof.
  unfold can_access_relief_request. destruct (is_authenticated user) eqn:Ha.
  2: { exists c, false. split; [done|]. split; [done|]. split; [done|]. unfold own_agency. destruct user; [done|].
       intros [(? & _ & ? & ? & [=] & _)|(_ & ? & [=] & _)]. }
  rewrite run_bind. destruct (has_roles_run (E := E) LOGISTICS_ROLES c logistics_normal) as (c1 & b1 & -> & Hf1 & Hb1).
  destruct b1.
  { exists c1, true. split; [done|]. split; [done|]. split; [|done]. intros _. left.
    destruct (proj1 Hb1 eq_refl) as (x & ? & ?). exists x. rewrite elem_of_app. auto. }
  rewrite run_bind. destruct (has_roles_run (E := E) EXECUTIVE_ROLES c1 executive_normal) as (c2 & b2 & -> & Hf2 & Hb2).
  rewrite Hf1 in Hf2. destruct b2.
  { exists c2, true. split; [done|]. split; [done|]. split; [|done]. intros _. left.
    destruct (proj1 Hb2 eq_refl) as (x & ? & Hh). exists x. rewrite elem_of_app. split; [by right|].
    by apply (holds_force c1). }
  eexists c2, _. split; [done|]. split; [done|]. split.
  - intros Hb. right. apply get_agency_id_spec. destruct (get_agency_id user) as [a|]; [|done]. apply Z.eqb_eq in Hb. by subst.
  - intros [(x & Hx & Hh)|Hown].
    + apply elem_of_app in Hx as [Hx|Hx].
      * destruct Hb1 as [_ Hb1]. discriminate Hb1. eauto.
      * destruct Hb2 as [_ Hb2]. discriminate Hb2. exists x. split; [done|]. by apply (holds_force c).
    + apply get_agency_id_spec in Hown as ->. apply Z.eqb_refl.
Qed.

(** a relief request is open exactly to logistics staff, to executives and to a
    user of the request's agency. *)
Theorem relief_request_access agency_id c :
  ∃ c' b, can_access_relief_request (E := Refusal) user ad query_ok agency_id c = (c', inr b) ∧
    (b = true ↔
      (∃ role, role ∈ (LOGISTICS_ROLES ++ EXECUTIVE_ROLES)%list ∧ holds user ad query_ok c role) ∨
      (0 < agency_id ∧ ∃ u, user = Some u ∧ su_agency_id u = Some agency_id)).
Proof.
  destruct (can_access_run (E := Refusal) agency_id c) as (c' & b & Hr & _ & Hb). by exists c', b.
Qed.

(** * The registry *)

#[local] Instance feature_eq_dec : EqDecision Feature.
Proof. solve_decision. Defined.

(** Keys are unique: a feature is found under its key. *)
Lemma features_keyed f : f ∈ FEATURES → feature_of (ft_key f) = Some f.
Proof.
  intros Hf. assert (Forall (λ f, feature_of (ft_key f) = Some f) FEATURES) as Hall by by_decide.
  rewrite Forall_forall in Hall. by apply Hall.
Qed.

Lemma feature_of_Some key f : feature_of key = Some f → f ∈ FEATURES ∧ ft_key f = key.
Proof.
  unfold feature_of. generalize FEATURES. intros l Hf.
  assert (f ∈ filter (λ f, ft_key f = key) l) as Hin.
  { destruct (filter _ l); [done|]. simpl in Hf. simplify_eq. by left. }
  by apply list_elem_of_filter in Hin as [? ?].
Qed.

Lemma elem_of_accessible f :
  f ∈ get_accessible_features user ↔ f ∈ FEATURES ∧ has_access user (ft_key f) = true.
Proof.
  unfold get_accessible_features, has_access. rewrite list_elem_of_filter. split.
  - intros [Ha Hf]. split; [done|]. by rewrite features_keyed.
  - intros [Hf Ha]. split; [|done]. by rewrite features_keyed in Ha.
Qed.

(** The roles of the registry are written in normal form. *)
Lemma feature_roles_normalized f r :
  f ∈ FEATURES → r ∈ ft_roles f → normalized r = r ∧ 0 < len r ≤ MAX_ROLE_CODE_LENGTH.
Proof.
  intros Hf Hr.
  assert (Forall (λ f, Forall (λ r, normalized r = r ∧ 0 < len r ≤ MAX_ROLE_CODE_LENGTH) (ft_roles f)) FEATURES)
    as Hall by by_decide.
  rewrite Forall_forall in Hall. specialize (Hall f Hf). rewrite Forall_forall in Hall. by apply Hall.
Qed.

(** C21: the two kinds of guard agree on a feature wherever the user's role codes are
    in normal form and in force: the registry, which compares the stored codes as
    they are, lets through exactly whom [role_required] with the feature's roles
    does. *)
Theorem guards_agree key f c :
  feature_of key = Some f →
  (∀ u r, user = Some u → r ∈ su_role_codes u → normalized r = r ∧ r ∈ in_force ad query_ok c) →
  (feature_required user key c).2 = (role_required user ad query_ok (ft_roles f) c).2.
Proof.
  intros Hf Hcan. destruct (feature_of_Some _ _ Hf) as [Hin _].
  rewrite role_required_run. unfold feature_required, has_access. rewrite Hf.
  destruct user as [u|]; [|done]. simpl.
  assert (intersects (su_role_codes u) (ft_roles f) =
          existsb (λ x, bool_decide (x ∈ codes_of (Some u) ad query_ok c)) (ft_roles f)) as Heq.
  { apply eq_true_iff_eq. rewrite intersects_spec, existsb_exists. setoid_rewrite <- list_elem_of_In.
    setoid_rewrite bool_decide_eq_true. setoid_rewrite elem_of_codes. split.
    - intros (r & Hr & Hfr). destruct (Hcan u r eq_refl Hr) as [Hn Hv]. exists r. split; [done|].
      destruct (feature_roles_normalized f r Hin Hfr) as [_ Hlen]. by exists u, r.
    - intros (x & Hx & u' & r & [= <-] & Hr & Hn & _ & _). destruct (Hcan u r eq_refl Hr) as [Hn' _].
      exists r. split; [done|]. by rewrite <- Hn', Hn. }
  unfold get_user_role_codes. simpl. simpl in Heq. rewrite Heq. by destruct (existsb _ (ft_roles f)).
Qed.

(** What a menu made of the accessible features satisfying [P] shows. *)
Definition menu_of (P : Feature → Prop) (l : list Feature) : Prop :=
  (∀ f, f ∈ l ↔ f ∈ FEATURES ∧ has_access user (ft_key f) = true ∧ P f) ∧
  StronglySorted (λ f g, ft_priority g ≤ ft_priority f) l ∧
  (∀ p, filter (λ f, ft_priority f = p) l `sublist_of` FEATURES).

Lemma by_priority_menu P `{∀ f, Decision (P f)} :
  menu_of P (by_priority (filter P (get_accessible_features user))).
Proof.
  split; [|split].
  - intros f. unfold by_priority. rewrite elem_of_sorted_by, list_elem_of_filter, elem_of_accessible. naive_solver.
  - unfold by_priority. generalize (filter P (get_accessible_features user)). intros l.
    pose proof (sorted_by_ordered (λ f, [- ft_priority f]) l) as Hs. unfold ordered in Hs.
    induction Hs as [|f l' Hs IH Hall]; constructor; [done|]. eapply Forall_impl; [exact Hall|].
    intros g. simpl. repeat (destruct (_ <? _) eqn:?; z_bool; try lia; try done).
  - intros p. unfold by_priority.
    assert (∀ l : list Feature, filter (λ f, ft_priority f = p) l = filter (λ f, [- ft_priority f] = [- p]) l) as Hsame.
    { intros l. apply list_filter_iff. intros f. split; [by intros ->|]. intros [= ?]. lia. }
    rewrite Hsame, (sorted_by_stable (λ f, [- ft_priority f]) [- p]).
    etransitivity; [apply sublist_filter|]. etransitivity; [apply sublist_filter|]. apply sublist_filter.
Qed.

(** the menus show exactly the features the user may open that belong there,
    from high to low priority, and those of one priority in registry order. *)
Theorem menus_correct group :
  menu_of (in_group group) (get_navigation_features user group) ∧
  menu_of has_widget (get_dashboard_features user).
Proof. split; apply by_priority_menu. Qed.
End theorems.

(** the route by which an agency creates its own request lets nobody through:
    its guard names a feature the registry no longer has. *)
Theorem create_request_unreachable user c :
  (create_request_guard user c).2 = inl (if is_authenticated user then Forbidden else ToLogin).
Proof. unfold create_request_guard, feature_required. by destruct user. Qed.

(** * An agency user *)

Definition agency_user : SessionUser := mkSessionUser "shelter" "shelter@agency.org" (Some 5) ["AGENCY_SHELTER"%string] [].
Definition role_rows : AuthDB := mkAuthDB [(1, "AGENCY_SHELTER"%string); (2, "LOGISTICS_MANAGER"%string)] [] [].

Lemma guards_agree_witness :
  (feature_required (Some agency_user) "agency_dashboard" None).2 =
  (role_required (Some agency_user) role_rows true AGENCY_ROLES None).2.
Proof.
  apply (guards_agree (Some agency_user) role_rows true "agency_dashboard"
    (mkFeature "agency_dashboard" AGENCY_ROLES "dashboard" None (Some "dashboard"%string) 100)).
  - vm_compute. reflexivity.
  - intros u r [= <-] Hr. apply list_elem_of_singleton in Hr as ->. split; [vm_compute; reflexivity|by_decide].
Defined.
