(* ===== verification/Donations.v ===== *)
(** Donations (app/features/donations.py): entry, editing and verification of a
    donation with its items and documents.

    A handler is the POST of its route, guard included; the pages it shows are not
    modelled.  The form is a record of fields: [request.form.get] gives [None] for an
    absent field, and where the code gives a default the field is the string with it.
    The session flushes a row through [flush_donation], [flush_item] and
    [flush_doc], which apply what the tables demand (CHECK constraints, foreign
    keys, NOT NULL, column widths, rounding to cents); a refused flush, like any
    exception, ends in [DAborted] and a rollback.

    SQLAlchemy adds one to [version_nbr] for every UPDATE of a row; how many UPDATEs
    a request needs for one row depends on its queries in between and is a field of
    the context.  Saved files are outside the model: [up_saved] says whether the
    file system took the file. *)
From stdpp Require Import strings pretty.
From S2P Require Import Prelude PyStr ParamValidation Schema Columns AccessControl DonationIntake.

(** * Forms *)

Record RowForm : Type := mkRowForm {
  wf_item_id : option string;
  wf_donation_type : option string;
  wf_quantity : NumField;
  wf_item_cost : NumField;
  wf_uom_id : option string;
  wf_currency_code : option string;
  wf_location_name : option string;
  wf_item_comments : option string;
  wf_is_existing : option string
}.

Record Upload : Type := mkUpload {
  up_filename : string;
  up_mime_type : option string;      (* [mimetypes.guess_type] of the name *)
  up_document_type : option string;  (* the entry of the same index, if there is one *)
  up_document_desc : option string;
  up_unique_filename : string;
  up_size : Z;
  up_saved : bool
}.

(** The rows are the fields [item_id_<n>] in the order of the form. *)
Record DonationForm : Type := mkDonationForm {
  df_version_nbr : option string;
  df_donor_id : option string;
  df_event_id : option string;
  df_custodian_id : option string;
  df_donation_desc : string;
  df_received_date : DateField;
  df_origin_country_id : option string;
  df_origin_address1_text : string;
  df_origin_address2_text : string;
  df_comments_text : string;
  df_tot_item_cost : NumField;
  df_storage_cost : NumField;
  df_haulage_cost : NumField;
  df_other_cost : NumField;
  df_other_cost_desc : string;
  df_rows : list RowForm;
  df_uploads : list Upload
}.

(** The page of a single item. *)
Record ItemPageForm : Type := mkItemPageForm {
  tf_version_nbr : option string;
  tf_item_id : option string;
  tf_item_qty : NumField;
  tf_uom_code : option string;
  tf_location_name : string;
  tf_status_code : option string;
  tf_comments_text : string
}.

Inductive DonationError : Type :=
| DonorRequired | EventRequired | CustodianRequired | DescRequired | DateRequired | CountryRequired
| DateInFuture | TotalNotPositive | BadTotal | NegativeCost | BadCostValue | OtherCostDescRequired
| DuplicateItem | BadDonationType | QuantityRequired | BadItemQuantity | NegativeItemQuantity | FundsQuantity
| BadItemCost | NegativeItemCost | FundsCost | UomMissing | CurrencyMissing | CategoryMismatch | BadItemId
| NoItems | ItemRequired | QuantityNotPositive | LocationRequired | AlreadyAdded | BadStatus
| BadFileType | DocDescRequired.

Inductive DonationFailure : Type :=
| DRefusal (r : Refusal)
| DNotFound
| DReadOnly (status : string)
| DHasItems
| DStale                                  (* the version check *)
| DErrors (errors : list DonationError)
| DNoStorage
| DAborted.                               (* an exception, a failed flush *)

Abbreviation DM := (M Session DonationFailure).

(** The rows of the tables donations refer to. *)
Record RefTables : Type := mkRefTables {
  rf_donors : gset Z;
  rf_custodians : gset Z;
  rf_countries : gset Z;
  rf_uoms : gset string;
  rf_currencies : gset string
}.

Record DonationCtx : Type := mkDonationCtx {
  dc_user : option SessionUser;
  dc_now : Z;
  dc_today : Z;                (* [date.today()] *)
  dc_current_date : Z;         (* CURRENT_DATE of the database *)
  dc_refs : RefTables;
  dc_new_id : Z;               (* the serial a new donation gets *)
  dc_updates : Z;              (* UPDATEs of the donation row in this request *)
  dc_item_updates : Z → Z;     (* of the row of an item *)
  dc_upload_folder : bool      (* UPLOAD_FOLDER is configured *)
}.

(** * What the tables accept *)

Definition audit_ok (a : Audit) : bool := varchar 20 (create_by_id a) && varchar 20 (update_by_id a).

Section tables.
Context (cx : DonationCtx) (d : DB).

Definition stored_header (h : DonationHeader) : option DonationHeader :=
  tot ← numeric 12 (dh_tot_item_cost h);
  storage ← numeric 12 (dh_storage_cost h);
  haulage ← numeric 12 (dh_haulage_cost h);
  other ← numeric 12 (dh_other_cost h);
  if (dh_received_date h <=? dc_current_date cx) && (0 <=? tot) && (0 <=? storage) && (0 <=? haulage) && (0 <=? other) &&
     bool_decide (dh_donor_id h ∈ rf_donors (dc_refs cx)) && bool_decide (dh_event_id h ∈ db_event d) &&
     bool_decide (dh_custodian_id h ∈ rf_custodians (dc_refs cx)) &&
     bool_decide (dh_origin_country_id h ∈ rf_countries (dc_refs cx)) &&
     varchar_opt 255 (dh_origin_address1_text h) && varchar_opt 255 (dh_origin_address2_text h) &&
     varchar_opt 255 (dh_other_cost_desc h)
  then Some (mkDonationHeader (dh_donor_id h) (dh_event_id h) (dh_custodian_id h) (dh_donation_desc h)
    (dh_received_date h) (dh_origin_country_id h) (dh_origin_address1_text h) (dh_origin_address2_text h)
    (dh_comments_text h) tot storage haulage other (dh_other_cost_desc h))
  else None.

Definition stored_donation (dn : Donation) : option Donation :=
  h ← stored_header (dn_header dn);
  if bool_decide (dn_status_code dn ∈ ["E"; "V"; "P"]%string) && varchar_opt 20 (dn_verify_by_id dn) && audit_ok (dn_audit dn)
  then Some (mkDonation (dn_donation_id dn) h (dn_status_code dn) (dn_verify_by_id dn) (dn_verify_dtime dn) (dn_audit dn))
  else None.

(** The constraint [c_donation_item_type_fields]. *)
Definition type_fields_ok (type : string) (uom currency : option string) : bool :=
  match uom, currency with
  | Some _, None => bool_decide (type = "GOODS"%string)
  | None, Some _ => bool_decide (type = "FUNDS"%string)
  | _, _ => false
  end.

Definition stored_line (l : DonationLine) : option DonationLine :=
  qty ← numeric 9 (dl_item_qty l);
  cost ← numeric 10 (dl_item_cost l);
  if (0 <=? qty) && (0 <=? cost) &&
     type_fields_ok (dl_donation_type l) (dl_uom_code l) (dl_currency_code l) &&
     match dl_uom_code l with Some u => bool_decide (u ∈ rf_uoms (dc_refs cx)) | None => true end &&
     match dl_currency_code l with Some c => bool_decide (c ∈ rf_currencies (dc_refs cx)) | None => true end
  then Some (mkDonationLine (dl_donation_type l) qty cost (dl_uom_code l) (dl_currency_code l)
    (dl_location_name l) (dl_comments_text l))
  else None.

Definition stored_item (di : DonationItem) : option DonationItem :=
  l ← stored_line (di_line di);
  if bool_decide (is_Some (db_donation d !! di_donation_id di)) && bool_decide (is_Some (db_item d !! di_item_id di)) &&
     bool_decide (di_status_code di ∈ ["P"; "V"]%string) && varchar_opt 20 (di_verify_by_id di) && audit_ok (di_audit di)
  then Some (mkDonationItem (di_donation_id di) (di_item_id di) l (di_status_code di) (di_verify_by_id di)
    (di_verify_dtime di) (di_audit di))
  else None.

Definition doc_ok (x : DonationDoc) : bool :=
  varchar 40 (dd_document_type x) && varchar 255 (dd_document_desc x) && varchar 80 (dd_file_name x) &&
  varchar 30 (dd_file_type x) && varchar 20 (dd_file_size x) &&
  bool_decide (dd_file_type x ∈ ["application/pdf"; "image/jpeg"]%string) && audit_ok (dd_audit x) &&
  bool_decide (is_Some (db_donation d !! dd_donation_id x)).
End tables.

Definition put_donation (dn : Donation) (d : DB) : DB :=
  set_db_donation (<[dn_donation_id dn := dn]> (db_donation d)) d.
Definition put_donation_item (di : DonationItem) (d : DB) : DB :=
  set_db_donation_item (<[(di_donation_id di, di_item_id di) := di]> (db_donation_item d)) d.
Definition put_doc (x : DonationDoc) (d : DB) : DB := set_db_donation_doc (db_donation_doc d ++ [x]) d.

(** The items of a donation, in the order of the query. *)
Definition donated_items `{R : Runtime} (donation_id : Z) (d : DB) : list DonationItem :=
  filter (λ di, di_donation_id di = donation_id) (donation_item_rows (db_donation_item d)).

(** UPDATEs of a row by the user at [now]. *)
Definition bump (n : Z) (uid : string) (now : Z) (a : Audit) : Audit :=
  mkAudit (create_by_id a) (create_dtime a) uid now (version_nbr a + n).

Section donations.
Context `{R : Runtime} (cx : DonationCtx).

Abbreviation today := (dc_today cx).
Abbreviation now := (dc_now cx).

(** [@login_required] and [@feature_required(key)]. *)
Definition guard (key : string) : DM unit :=
  match (feature_required (dc_user cx) key None).2 with
  | inl r => m_fail (DRefusal r)
  | inr _ => mret tt
  end.

(** [add_audit_fields]: a blank user name is a ValueError. *)
Definition audit_user : DM string :=
  m_some (u ← dc_user cx; audit_id (su_user_name u)) DAborted.

Definition flush_donation (dn : Donation) : DM unit :=
  d ← db_get; dn ← m_some (stored_donation cx d dn) DAborted; db_mod (put_donation dn).
Definition insert_donation (dn : Donation) : DM unit :=
  d ← db_get;
  m_fail_if (bool_decide (is_Some (db_donation d !! dn_donation_id dn))) DAborted;;
  flush_donation dn.
Definition flush_item (di : DonationItem) : DM unit :=
  d ← db_get; di ← m_some (stored_item cx d di) DAborted; db_mod (put_donation_item di).
Definition insert_item (di : DonationItem) : DM unit :=
  d ← db_get;
  m_fail_if (bool_decide (is_Some (db_donation_item d !! (di_donation_id di, di_item_id di)))) DAborted;;
  flush_item di.
(** A row some intake item refers to cannot go. *)
Definition delete_item (donation_id item_id : Z) : DM unit :=
  d ← db_get;
  m_fail_if (existsb (λ k, (ki_donation_id k =? donation_id) && (ki_item_id k =? item_id))
    (dnintake_item_rows (db_dnintake_item d))) DAborted;;
  db_mod (λ d, set_db_donation_item (delete (donation_id, item_id) (db_donation_item d)) d).
Definition flush_doc (x : DonationDoc) : DM unit :=
  d ← db_get; m_fail_if (negb (doc_ok d x)) DAborted;; db_mod (put_doc x).

(** * The header of the form *)

(** [not x] is false of a field. *)
Definition given (o : option string) : bool := match o with Some s => bool_decide (s ≠ ""%string) | None => false end.

Definition unless (b : bool) (e : DonationError) : list DonationError := if b then [] else [e].
Definition when (b : bool) (e : DonationError) : list DonationError := if b then [e] else [].

Definition required_errors (f : DonationForm) : list DonationError :=
  unless (given (df_donor_id f)) DonorRequired ++ unless (given (df_event_id f)) EventRequired ++
  unless (given (df_custodian_id f)) CustodianRequired ++
  unless (bool_decide (strip (df_donation_desc f) ≠ ""%string)) DescRequired ++
  match df_received_date f with NoDate => [DateRequired] | _ => [] end ++
  unless (given (df_origin_country_id f)) CountryRequired ++
  match df_received_date f with OnDay r => when (today <? r) DateInFuture | _ => [] end.

(** [Decimal(s) if s else Decimal('0.00')] of a stripped field, '0.00' when absent. *)
Definition cost_field (f : NumField) : option Z :=
  match f with NoField | EmptyNum | BlankNum => Some 0 | Num q => Some q | BadNum | NaNum => None end.

Definition total_error (f : NumField) : list DonationError :=
  match cost_field f with None => [BadTotal] | Some q => when (q <=? 0) TotalNotPositive end.
Definition cost_error (f : NumField) : list DonationError :=
  match cost_field f with None => [BadCostValue] | Some q => when (q <? 0) NegativeCost end.
Definition desc_error (other : Z) (desc : string) : list DonationError :=
  when ((0 <? other) && bool_decide (strip desc = ""%string)) OtherCostDescRequired.

(** The header of [create_donation] and [verify_donation_detail]; a date [strptime]
    rejects is an exception, and so is the comparison of a NaN outside [try]. *)
Definition entry_raises (f : DonationForm) : bool :=
  match df_received_date f, df_other_cost f with BadDate, _ | _, NaNum => true | _, _ => false end.
Definition entry_header_errors (f : DonationForm) : list DonationError :=
  required_errors f ++ total_error (df_tot_item_cost f) ++ cost_error (df_storage_cost f) ++
  cost_error (df_haulage_cost f) ++ cost_error (df_other_cost f) ++
  desc_error (default 0 (cost_field (df_other_cost f))) (df_other_cost_desc f).

(** The header of [edit_donation] reads its amounts by [safe_amount]. *)
Definition edit_raises (f : DonationForm) : bool :=
  match df_received_date f with
  | BadDate => true
  | _ => existsb (λ n, bool_decide (safe_amount n = None))
           [df_tot_item_cost f; df_storage_cost f; df_haulage_cost f; df_other_cost f]
  end.
Definition edit_header_errors (f : DonationForm) : list DonationError :=
  required_errors f ++ when (default 0 (safe_amount (df_tot_item_cost f)) <=? 0) TotalNotPositive ++
  desc_error (default 0 (safe_amount (df_other_cost f))) (df_other_cost_desc f).

(** The header columns; [int] of an id is a ValueError when it is no integer. *)
Definition form_header (amount : NumField → option Z) (f : DonationForm) : option DonationHeader :=
  donor ← df_donor_id f ≫= py_int;
  event ← df_event_id f ≫= py_int;
  custodian ← df_custodian_id f ≫= py_int;
  country ← df_origin_country_id f ≫= py_int;
  received ← match df_received_date f with OnDay r => Some r | _ => None end;
  tot ← amount (df_tot_item_cost f);
  storage ← amount (df_storage_cost f);
  haulage ← amount (df_haulage_cost f);
  other ← amount (df_other_cost f);
  Some (mkDonationHeader donor event custodian (upper (strip (df_donation_desc f))) received country
    (upper_or_none (strip (df_origin_address1_text f))) (upper_or_none (strip (df_origin_address2_text f)))
    (upper_or_none (strip (df_comments_text f))) tot storage haulage other
    (upper_or_none (strip (df_other_cost_desc f)))).

(** * The rows of the form *)

Record ItemInfo : Type := mkItemInfo {
  ii_item_id : Z;
  ii_donation_type : string;
  ii_quantity : Z;               (* meaningful when the row has no error *)
  ii_item_cost : Z;
  ii_uom_code : option string;
  ii_currency_code : option string;
  ii_location_name : string;
  ii_item_comments : string;
  ii_is_existing : bool
}.

(** The rows with an item, each with whether its item field was seen before. *)
Fixpoint seen_rows (seen : list string) (rows : list RowForm) : list (string * RowForm * bool) :=
  match rows with
  | [] => []
  | r :: rows' =>
      match wf_item_id r with
      | Some i => if bool_decide (i = ""%string) then seen_rows seen rows'
                  else if bool_decide (i ∈ seen) then (i, r, true) :: seen_rows seen rows'
                  else (i, r, false) :: seen_rows (i :: seen) rows'
      | None => seen_rows seen rows'
      end
  end.

Definition read_rows (check : string → RowForm → list DonationError * option ItemInfo) (rows : list RowForm) :
    list (list DonationError * option ItemInfo) :=
  (λ x, if x.2 : bool then ([DuplicateItem], None) else check x.1.1 x.1.2) <$> seen_rows [] rows.

Definition item_data (l : list (list DonationError * option ItemInfo)) : list ItemInfo := omap snd l.
Definition form_errors (l : list (list DonationError * option ItemInfo)) : list DonationError :=
  concat l.*1 ++ match item_data l with [] => [NoItems] | _ => [] end.

Definition row_type (r : RowForm) : string := upper (default "GOODS"%string (wf_donation_type r)).

Definition type_errors (r : RowForm) : list DonationError :=
  unless (bool_decide (row_type r ∈ ["GOODS"; "FUNDS"]%string)) BadDonationType.

Definition unit_errors (r : RowForm) : list DonationError :=
  if bool_decide (row_type r = "GOODS"%string) then unless (given (wf_uom_id r)) UomMissing
  else if bool_decide (row_type r = "FUNDS"%string) then unless (given (wf_currency_code r)) CurrencyMissing
  else [].

(** What a row appends to [item_data], or the error of [int(item_id)]. *)
Definition row_info (quantity cost : Z) (i : string) (r : RowForm) : list DonationError * option ItemInfo :=
  match py_int i with
  | None => ([BadItemId], None)
  | Some id => ([], Some (mkItemInfo id (row_type r) quantity cost
      (if bool_decide (row_type r = "GOODS"%string) then wf_uom_id r else None)
      (if bool_decide (row_type r = "FUNDS"%string) then wf_currency_code r else None)
      (strip (default "DONATION RECEIVED"%string (wf_location_name r))) (strip (default ""%string (wf_item_comments r)))
      (bool_decide (wf_is_existing r = Some "true"%string))))
  end.

Definition add_errors (e : list DonationError) (r : list DonationError * option ItemInfo) :
    list DonationError * option ItemInfo := (e ++ r.1, r.2).

Definition decimal_of (f : NumField) : option Z := match f with Num q => Some q | _ => None end.

Definition quantity_missing (f : NumField) : bool := match f with NoField | EmptyNum => true | _ => false end.

Definition quantity_errors (f : NumField) : list DonationError :=
  if quantity_missing f then [QuantityRequired] else
  match decimal_of f with None => [BadItemQuantity] | Some q => when (q <? 0) NegativeItemQuantity end.

(** [request.form.get(…, '0.00')], then [Decimal]. *)
Definition item_cost_of (f : NumField) : option Z := match f with NoField => Some 0 | _ => decimal_of f end.
Definition item_cost_errors (f : NumField) : list DonationError :=
  match item_cost_of f with None => [BadItemCost] | Some q => when (q <? 0) NegativeItemCost end.

Definition create_row (i : string) (r : RowForm) : list DonationError * option ItemInfo :=
  add_errors (type_errors r ++ quantity_errors (wf_quantity r) ++ item_cost_errors (wf_item_cost r) ++ unit_errors r)
    (row_info (default 0 (decimal_of (wf_quantity r))) (default 0 (item_cost_of (wf_item_cost r))) i r).

(** A row of [edit_donation]: what does not parse is zero. *)
Definition edit_row (i : string) (r : RowForm) : list DonationError * option ItemInfo :=
  add_errors (type_errors r ++ when (quantity_missing (wf_quantity r)) QuantityRequired ++ unit_errors r)
    (row_info (default 0 (safe_quantity (wf_quantity r))) (default 0 (safe_amount (wf_item_cost r))) i r).
Definition edit_row_raises (rows : list RowForm) : bool :=
  existsb (λ x, negb x.2 && (bool_decide (safe_quantity (wf_quantity x.1.2) = None) ||
                             bool_decide (safe_amount (wf_item_cost x.1.2) = None))) (seen_rows [] rows).

(** A row of [verify_donation_detail] against the category of the item. *)
Definition funds_row_errors (r : RowForm) : list DonationError :=
  if bool_decide (row_type r = "FUNDS"%string) then
    match decimal_of (wf_quantity r) with Some q => when (negb (q =? UNIT)) FundsQuantity | None => [] end ++
    match item_cost_of (wf_item_cost r) with Some c => when (c <=? 0) FundsCost | None => [] end
  else [].
Definition category_errors (d : DB) (i : string) (r : RowForm) : list DonationError :=
  match py_int i ≫= λ id, db_item d !! id with
  | Some it => unless (bool_decide (it_category_type it = row_type r)) CategoryMismatch
  | None => []
  end.
Definition verify_form_row (d : DB) (i : string) (r : RowForm) : list DonationError * option ItemInfo :=
  add_errors (type_errors r ++ quantity_errors (wf_quantity r) ++ item_cost_errors (wf_item_cost r) ++
              funds_row_errors r ++ unit_errors r ++ category_errors d i r)
    (row_info (default 0 (decimal_of (wf_quantity r))) (default 0 (item_cost_of (wf_item_cost r))) i r).
Definition verify_form_raises (rows : list RowForm) : bool :=
  existsb (λ x, negb x.2 && bool_decide (py_int x.1.1 = None)) (seen_rows [] rows).

(** * Rows of the tables *)

(** FUNDS items always have quantity 1.00. *)
Definition info_quantity (i : ItemInfo) : Z :=
  if bool_decide (ii_donation_type i = "FUNDS"%string) then UNIT else ii_quantity i.

Definition info_line (location : string) (i : ItemInfo) : DonationLine :=
  mkDonationLine (ii_donation_type i) (info_quantity i) (ii_item_cost i) (ii_uom_code i) (ii_currency_code i)
    location (upper_or_none (ii_item_comments i)).

Definition location_or_default (s : string) : string :=
  if bool_decide (s = ""%string) then "DONATION RECEIVED"%string else upper s.

Definition new_item (donation_id : Z) (uid : string) (location : string) (i : ItemInfo) : DonationItem :=
  mkDonationItem donation_id (ii_item_id i) (info_line location i) "P" None None (new_audit uid now).

Definition rewritten_item (uid : string) (location : string) (i : ItemInfo) (di : DonationItem) : DonationItem :=
  mkDonationItem (di_donation_id di) (di_item_id di) (info_line location i) (di_status_code di)
    (di_verify_by_id di) (di_verify_dtime di) (bump (dc_item_updates cx (di_item_id di)) uid now (di_audit di)).

(** * Documents *)

Definition uploaded (u : Upload) : Prop := strip (up_filename u) ≠ ""%string.

#[export] Instance uploaded_dec u : Decision (uploaded u).
Proof. unfold uploaded. apply _. Defined.

Definition doc_error (u : Upload) : option DonationError :=
  if negb (bool_decide (up_mime_type u ∈ [Some "application/pdf"; Some "image/jpeg"]%string)) then Some BadFileType
  else if is_blank (default ""%string (up_document_desc u)) then Some DocDescRequired
  else None.

(** [f'{n / unit:.1f}'] of a file size: the quotient is exact in binary, and its
    tenths are rounded half to even. *)
Definition tenths (n unit : Z) : Z :=
  let q := n * 10 / unit in
  let r := n * 10 mod unit in
  if (unit <? 2 * r) || ((2 * r =? unit) && Z.odd q) then q + 1 else q.
Definition one_decimal (n unit : Z) : string :=
  (pretty (tenths n unit / 10) +:+ "." +:+ pretty (tenths n unit mod 10))%string.
Definition file_size (n : Z) : string :=
  if n <? 1024 then (pretty n +:+ "B")%string
  else if n <? 1024 * 1024 then (one_decimal n 1024 +:+ "KB")%string
  else (one_decimal n (1024 * 1024) +:+ "MB")%string.

Definition new_doc (donation_id : Z) (uid : string) (u : Upload) : DonationDoc :=
  mkDonationDoc donation_id (upper (default "Other"%string (up_document_type u)))
    (upper (strip (default ""%string (up_document_desc u)))) (up_unique_filename u)
    (default ""%string (up_mime_type u)) (file_size (up_size u)) (new_audit uid now).

Definition save_documents (donation_id : Z) (uid : string) (uploads : list Upload) : DM unit :=
  let docs := filter uploaded uploads in
  let errors := omap doc_error docs in
  m_fail_if (negb (bool_decide (errors = []))) (DErrors errors);;
  match docs with
  | [] => mret tt
  | _ =>
      m_fail_if (negb (dc_upload_folder cx)) DNoStorage;;
      m_for docs (λ u, m_fail_if (negb (up_saved u)) DAborted;; flush_doc (new_doc donation_id uid u))
  end.

(** * The handlers *)

Definition find_donation (donation_id : Z) : DM Donation :=
  d ← db_get; m_some (db_donation d !! donation_id) DNotFound.
Definition find_item (donation_id item_id : Z) : DM DonationItem :=
  d ← db_get; m_some (db_donation_item d !! (donation_id, item_id)) DNotFound.

(** Verified and processed donations are read-only. *)
Definition not_verified (dn : Donation) : DM unit :=
  m_fail_if (bool_decide (dn_status_code dn ∈ ["V"; "P"]%string)) (DReadOnly (dn_status_code dn)).

Definition raise_errors (errors : list DonationError) : DM unit :=
  m_fail_if (negb (bool_decide (errors = []))) (DErrors errors).

(** FUNDS need a positive cost: [create_donation] looks again before the items are
    stored. *)
Definition funds_errors (l : list ItemInfo) : list DonationError :=
  omap (λ i, if bool_decide (ii_donation_type i = "FUNDS"%string) && (ii_item_cost i <=? 0)
             then Some FundsCost else None) l.

Definition create_donation (f : DonationForm) : DM unit :=
  guard "donation_management";;
  or_rollback (
    m_fail_if (entry_raises f) DAborted;;
    let rows := read_rows create_row (df_rows f) in
    raise_errors (entry_header_errors f ++ form_errors rows);;
    h ← m_some (form_header cost_field f) DAborted;
    uid ← audit_user;
    let donation h a := mkDonation (dc_new_id cx) h "E" None None a in
    insert_donation (donation (set_dh_tot_item_cost 0 h) (new_audit uid now));;
    raise_errors (funds_errors (item_data rows));;
    m_for (item_data rows) (λ i, insert_item (new_item (dc_new_id cx) uid (upper (ii_location_name i)) i));;
    flush_donation (donation h (bump 1 uid now (new_audit uid now)));;
    save_documents (dc_new_id cx) uid (df_uploads f);;
    db_commit).

(** A row with [is_existing] rewrites the stored item, if there is one; any other
    row is a new item. *)
Definition edit_item (donation_id : Z) (uid : string) (i : ItemInfo) : DM unit :=
  if ii_is_existing i then
    d ← db_get;
    match db_donation_item d !! (donation_id, ii_item_id i) with
    | Some di => flush_item (rewritten_item uid (location_or_default (ii_location_name i)) i di)
    | None => mret tt
    end
  else insert_item (new_item donation_id uid (location_or_default (ii_location_name i)) i).

(** The stored items the form no longer lists. *)
Definition dropped_items (donation_id : Z) (l : list ItemInfo) (d : DB) : list Z :=
  filter (λ id, id ∉ ii_item_id <$> l) (di_item_id <$> donated_items donation_id d).

Definition edit_donation (donation_id : Z) (f : DonationForm) : DM unit :=
  guard "donation_management";;
  dn ← find_donation donation_id;
  not_verified dn;;
  or_rollback (
    m_fail_if (negb (safe_version_number (df_version_nbr f) 0 =? version_nbr (dn_audit dn))) DStale;;
    m_fail_if (edit_raises f || edit_row_raises (df_rows f)) DAborted;;
    let rows := read_rows edit_row (df_rows f) in
    raise_errors (edit_header_errors f ++ form_errors rows);;
    h ← m_some (form_header safe_amount f) DAborted;
    uid ← audit_user;
    d ← db_get;
    m_for (dropped_items donation_id (item_data rows) d) (delete_item donation_id);;
    m_for (item_data rows) (edit_item donation_id uid);;
    flush_donation (mkDonation (dn_donation_id dn) h (dn_status_code dn) (dn_verify_by_id dn) (dn_verify_dtime dn)
      (bump (dc_updates cx) uid now (dn_audit dn)));;
    db_commit).

Definition delete_donation (donation_id : Z) : DM unit :=
  guard "donation_management";;
  dn ← find_donation donation_id;
  not_verified dn;;
  d ← db_get;
  m_fail_if (negb (bool_decide (donated_items donation_id d = []))) DHasItems;;
  or_rollback (
    m_fail_if (existsb (λ x, dd_donation_id x =? donation_id) (db_donation_doc d) ||
               existsb (λ k, k.1.1 =? donation_id) (map_to_list (db_dnintake d))) DAborted;;
    db_mod (λ d, set_db_donation (delete donation_id (db_donation d)) d);;
    db_commit).

(** The quantity field of the item pages: [Decimal(item_qty) <= 0]. *)
Definition item_qty_errors (f : NumField) : list DonationError :=
  if quantity_missing f then [QuantityRequired] else
  when (default 0 (decimal_of f) <=? 0) QuantityNotPositive.
Definition item_qty_raises (f : NumField) : bool :=
  negb (quantity_missing f) && bool_decide (decimal_of f = None).

Definition add_donation_item (donation_id : Z) (t : ItemPageForm) : DM unit :=
  guard "donation_management";;
  dn ← find_donation donation_id;
  not_verified dn;;
  or_rollback (
    d ← db_get;
    let id := tf_item_id t ≫= py_int in
    m_fail_if (item_qty_raises (tf_item_qty t) || (given (tf_item_id t) && bool_decide (id = None))) DAborted;;
    raise_errors (
      unless (given (tf_item_id t)) ItemRequired ++ item_qty_errors (tf_item_qty t) ++
      unless (given (tf_uom_code t)) UomMissing ++
      unless (bool_decide (strip (tf_location_name t) ≠ ""%string)) LocationRequired ++
      match id ≫= λ i, db_donation_item d !! (donation_id, i) with Some _ => [AlreadyAdded] | None => [] end);;
    id ← m_some id DAborted;
    qty ← m_some (decimal_of (tf_item_qty t)) DAborted;
    uid ← audit_user;
    let pending := bool_decide (dn_status_code dn = "E"%string) in
    insert_item (mkDonationItem donation_id id
      (mkDonationLine "GOODS" qty 0 (tf_uom_code t) None (upper (strip (tf_location_name t)))
        (upper_or_none (strip (tf_comments_text t))))
      (if pending then "P" else "V") (if pending then None else get_user_name (dc_user cx))
      (if pending then None else Some now) (new_audit uid now));;
    db_commit).

Definition edit_donation_item (donation_id item_id : Z) (t : ItemPageForm) : DM unit :=
  guard "donation_management";;
  dn ← find_donation donation_id;
  di ← find_item donation_id item_id;
  not_verified dn;;
  or_rollback (
    version ← m_some (py_int (default "0"%string (tf_version_nbr t))) DAborted;
    m_fail_if (negb (version =? version_nbr (di_audit di))) DStale;;
    m_fail_if (item_qty_raises (tf_item_qty t)) DAborted;;
    raise_errors (
      item_qty_errors (tf_item_qty t) ++ unless (given (tf_uom_code t)) UomMissing ++
      unless (bool_decide (strip (tf_location_name t) ≠ ""%string)) LocationRequired ++
      unless (bool_decide (tf_status_code t ∈ [Some "P"; Some "V"]%string)) BadStatus);;
    qty ← m_some (decimal_of (tf_item_qty t)) DAborted;
    uid ← audit_user;
    let verified := bool_decide (tf_status_code t = Some "V"%string) in
    flush_item (mkDonationItem donation_id item_id
      (mkDonationLine (dl_donation_type (di_line di)) qty (dl_item_cost (di_line di)) (tf_uom_code t)
        (dl_currency_code (di_line di)) (upper (strip (tf_location_name t))) (upper_or_none (strip (tf_comments_text t))))
      (default ""%string (tf_status_code t)) (if verified then get_user_name (dc_user cx) else None)
      (if verified then Some now else None) (bump (dc_item_updates cx item_id) uid now (di_audit di)));;
    db_commit).

Definition delete_donation_item (donation_id item_id : Z) : DM unit :=
  guard "donation_management";;
  dn ← find_donation donation_id;
  find_item donation_id item_id;;
  not_verified dn;;
  or_rollback (delete_item donation_id item_id;; db_commit).

(** [request.form.get('version_nbr', type=int)]. *)
Definition form_version (f : DonationForm) : option Z := df_version_nbr f ≫= py_int.

Definition verified_donation_item (di : DonationItem) : DonationItem :=
  mkDonationItem (di_donation_id di) (di_item_id di) (di_line di) "V" (get_user_name (dc_user cx)) (Some now) (di_audit di).

Definition verify_donation_item (donation_id : Z) (uid : string) (i : ItemInfo) : DM unit :=
  d ← db_get;
  match db_donation_item d !! (donation_id, ii_item_id i) with
  | Some di => flush_item (verified_donation_item (rewritten_item uid (upper (ii_location_name i)) i di))
  | None => flush_item (verified_donation_item (new_item donation_id uid (upper (ii_location_name i)) i))
  end.

Definition verify_donation_detail (donation_id : Z) (f : DonationForm) : DM unit :=
  guard "donation_verification";;
  dn ← find_donation donation_id;
  m_fail_if (negb (bool_decide (dn_status_code dn = "E"%string))) (DReadOnly (dn_status_code dn));;
  or_rollback (
    m_fail_if (negb (bool_decide (form_version f = Some (version_nbr (dn_audit dn))))) DStale;;
    d ← db_get;
    m_fail_if (entry_raises f || verify_form_raises (df_rows f)) DAborted;;
    let rows := read_rows (verify_form_row d) (df_rows f) in
    raise_errors (entry_header_errors f ++ form_errors rows);;
    h ← m_some (form_header cost_field f) DAborted;
    uid ← audit_user;
    m_for (dropped_items donation_id (item_data rows) d) (delete_item donation_id);;
    m_for (item_data rows) (verify_donation_item donation_id uid);;
    flush_donation (mkDonation (dn_donation_id dn) h "V" (get_user_name (dc_user cx)) (Some now)
      (bump (dc_updates cx) uid now (dn_audit dn)));;
    save_documents donation_id uid (df_uploads f);;
    db_commit).
End donations.
