(* ===== verification/DonationsProofs.v ===== *)
(** What a donation request does to the tables: the rows a flush lets through, the
    loops over the rows of the form, and the effect of each handler on the donation
    it is about. *)
From stdpp Require Import strings.
From S2P Require Import Prelude PyStr ParamValidation Schema Columns Atomicity AccessControl DonationIntake DonationIntakeProofs Donations.

(** * Rows the tables accept *)

(** A donated item as the column types and the constraints leave it; FUNDS count
    one. *)
Definition line_sound (l : DonationLine) : Prop :=
  whole 9 (dl_item_qty l) ∧ whole 10 (dl_item_cost l) ∧
  type_fields_ok (dl_donation_type l) (dl_uom_code l) (dl_currency_code l) = true ∧
  (dl_donation_type l = "FUNDS"%string → dl_item_qty l = UNIT).

Definition header_sound (h : DonationHeader) : Prop :=
  whole 12 (dh_tot_item_cost h) ∧ whole 12 (dh_storage_cost h) ∧ whole 12 (dh_haulage_cost h) ∧
  whole 12 (dh_other_cost h) ∧ (0 < dh_other_cost h → is_Some (dh_other_cost_desc h)) ∧
  dh_donation_desc h ≠ ""%string.

#[export] Instance line_sound_dec l : Decision (line_sound l).
Proof. unfold line_sound. apply _. Defined.
#[export] Instance header_sound_dec h : Decision (header_sound h).
Proof. unfold header_sound. apply _. Defined.

Section rows.
Context (cx : DonationCtx).

Lemma stored_line_spec l l' :
  stored_line cx l = Some l' →
  (dl_donation_type l = "FUNDS"%string → dl_item_qty l = UNIT) →
  line_sound l' ∧ dl_donation_type l' = dl_donation_type l ∧ dl_uom_code l' = dl_uom_code l ∧
  dl_currency_code l' = dl_currency_code l ∧ dl_location_name l' = dl_location_name l ∧
  dl_comments_text l' = dl_comments_text l ∧
  numeric 9 (dl_item_qty l) = Some (dl_item_qty l') ∧ numeric 10 (dl_item_cost l) = Some (dl_item_cost l').
Proof.
  unfold stored_line. intros Hs Hf.
  destruct (numeric 9 _) as [qty|] eqn:Eq; [|done]. simpl in Hs. destruct (numeric 10 _) as [cost|] eqn:Ec; [|done].
  simpl in Hs. case_match eqn:E; [|done]. injection Hs as <-. z_bool.
  split; [|by split_and!]. unfold line_sound. simpl. split_and!; [by eapply numeric_whole..|done|].
  intros Ht. rewrite (Hf Ht) in Eq. rewrite numeric_unit in Eq by lia. by simplify_eq.
Qed.

Lemma stored_item_spec d di di' :
  stored_item cx d di = Some di' →
  (dl_donation_type (di_line di) = "FUNDS"%string → dl_item_qty (di_line di) = UNIT) →
  stored_line cx (di_line di) = Some (di_line di') ∧ line_sound (di_line di') ∧
  is_Some (db_donation d !! di_donation_id di) ∧ is_Some (db_item d !! di_item_id di) ∧
  di_donation_id di' = di_donation_id di ∧ di_item_id di' = di_item_id di ∧
  di_status_code di' = di_status_code di ∧ di_verify_by_id di' = di_verify_by_id di ∧
  di_verify_dtime di' = di_verify_dtime di ∧ di_audit di' = di_audit di.
Proof.
  unfold stored_item. intros Hs Hf. destruct (stored_line cx (di_line di)) as [l|] eqn:El; [|done].
  simpl in Hs. case_match eqn:E; [|done]. injection Hs as <-. z_bool.
  destruct (stored_line_spec _ _ El Hf) as [Hl _]. by split_and!.
Qed.

Lemma stored_header_spec d h h' :
  stored_header cx d h = Some h' →
  numeric 12 (dh_tot_item_cost h) = Some (dh_tot_item_cost h') ∧ 0 ≤ dh_tot_item_cost h' ∧
  numeric 12 (dh_storage_cost h) = Some (dh_storage_cost h') ∧ 0 ≤ dh_storage_cost h' ∧
  numeric 12 (dh_haulage_cost h) = Some (dh_haulage_cost h') ∧ 0 ≤ dh_haulage_cost h' ∧
  numeric 12 (dh_other_cost h) = Some (dh_other_cost h') ∧ 0 ≤ dh_other_cost h' ∧
  dh_other_cost_desc h' = dh_other_cost_desc h ∧ dh_donation_desc h' = dh_donation_desc h ∧
  dh_donor_id h' = dh_donor_id h ∧ dh_event_id h' = dh_event_id h ∧ dh_received_date h' = dh_received_date h.
Proof.
  unfold stored_header. intros Hs.
  destruct (numeric 12 (dh_tot_item_cost h)) as [a|] eqn:E1; [|done]. simpl in Hs.
  destruct (numeric 12 (dh_storage_cost h)) as [b|] eqn:E2; [|done]. simpl in Hs.
  destruct (numeric 12 (dh_haulage_cost h)) as [c|] eqn:E3; [|done]. simpl in Hs.
  destruct (numeric 12 (dh_other_cost h)) as [e|] eqn:E4; [|done]. simpl in Hs.
  case_match eqn:E; [|done]. injection Hs as <-.
  z_bool. by split_and!.
Qed.

(** A header that passed the form checks is sound once stored. *)
Lemma stored_header_sound d h h' :
  stored_header cx d h = Some h' →
  (0 < dh_other_cost h → is_Some (dh_other_cost_desc h)) → dh_donation_desc h ≠ ""%string → header_sound h'.
Proof.
  intros Hs Hd Hn. unfold header_sound. apply stored_header_spec in Hs as (H1 & ? & H2 & ? & H3 & ? & H4 & ? & -> & -> & _).
  split_and!; [by eapply numeric_whole..| |done]. intros Hpos. apply Hd.
  unfold numeric, cents in H4. case_match; [|done]. unfold CENT in H4. injection H4 as H4. rewrite <- H4 in Hpos.
  destruct (Z.lt_trichotomy (dh_other_cost h) 0) as [Hlt|[He|Hgt]]; [|by rewrite He in Hpos|done].
  rewrite Z.sgn_neg in Hpos by done. pose proof (Z.div_pos (Z.abs (dh_other_cost h) + 50) 100). lia.
Qed.

Lemma stored_donation_spec d dn dn' :
  stored_donation cx d dn = Some dn' →
  stored_header cx d (dn_header dn) = Some (dn_header dn') ∧ dn_donation_id dn' = dn_donation_id dn ∧
  dn_status_code dn' = dn_status_code dn ∧ dn_verify_by_id dn' = dn_verify_by_id dn ∧
  dn_verify_dtime dn' = dn_verify_dtime dn ∧ dn_audit dn' = dn_audit dn.
Proof.
  unfold stored_donation. intros Hs. destruct (stored_header _ _ _) as [h|] eqn:E; [|done]. simpl in Hs.
  case_match; [|done]. by injection Hs as <-.
Qed.
End rows.

(** * The steps of a handler *)

Lemma run_commit {E} (s s' : Session) : run_ok (db_commit : M Session E unit) s tt s' ↔ s' = commit_session s.
Proof. unfold run_ok, db_commit, m_modify. naive_solver. Qed.

Section steps.
Context `{R : Runtime} (cx : DonationCtx).

Lemma guard_run {A} key (k : DM A) s a s' :
  run_ok (guard cx key;; k) s a s' ↔
  (∃ u, dc_user cx = Some u) ∧ has_access (dc_user cx) key = true ∧ run_ok k s a s'.
Proof.
  unfold run_ok, guard, feature_required. rewrite run_bind. unfold is_authenticated.
  destruct (dc_user cx) as [u|]; simpl; [|naive_solver].
  destruct (has_access (Some u) key); simpl; unfold m_fail, m_ret; naive_solver.
Qed.

Lemma find_donation_run {A} don (k : Donation → DM A) s a s' :
  run_ok (dn ← find_donation don; k dn) s a s' ↔
  ∃ dn, db_donation (work s) !! don = Some dn ∧ run_ok (k dn) s a s'.
Proof.
  unfold run_ok, find_donation. rewrite run_bind. unfold db_get, m_gets, m_some.
  destruct (db_donation (work s) !! don) eqn:E; unfold_m; rewrite ?E; naive_solver.
Qed.

Lemma find_item_run {A} don it (k : DonationItem → DM A) s a s' :
  run_ok (di ← find_item don it; k di) s a s' ↔
  ∃ di, db_donation_item (work s) !! (don, it) = Some di ∧ run_ok (k di) s a s'.
Proof.
  unfold run_ok, find_item. rewrite run_bind. unfold db_get, m_gets, m_some.
  destruct (db_donation_item (work s) !! (don, it)) eqn:E; unfold_m; rewrite ?E; naive_solver.
Qed.

Lemma raise_run {A} l (k : DM A) s a s' : run_ok (raise_errors l;; k) s a s' ↔ l = [] ∧ run_ok k s a s'.
Proof. unfold raise_errors. by rewrite run_fail_if, negb_bool_decide_false. Qed.

Lemma not_verified_run {A} dn (k : DM A) s a s' :
  run_ok (not_verified dn;; k) s a s' ↔ (dn_status_code dn ∉ ["V"; "P"]%string) ∧ run_ok k s a s'.
Proof. unfold not_verified. by rewrite run_fail_if, bool_decide_eq_false. Qed.

Lemma audit_user_run {A} (k : string → DM A) s a s' :
  run_ok (uid ← audit_user cx; k uid) s a s' ↔
  ∃ u uid, dc_user cx = Some u ∧ audit_id (su_user_name u) = Some uid ∧ run_ok (k uid) s a s'.
Proof. unfold audit_user. rewrite run_some. destruct (dc_user cx); simpl; naive_solver. Qed.

Lemma flush_item_run di s s' :
  run_ok (flush_item cx di) s tt s' ↔
  ∃ di', stored_item cx (work s) di = Some di' ∧ s' = upd_work (put_donation_item di') s.
Proof. unfold flush_item. rewrite run_get, run_some. setoid_rewrite run_mod_last. done. Qed.

Lemma insert_item_run di s s' :
  run_ok (insert_item cx di) s tt s' ↔
  db_donation_item (work s) !! (di_donation_id di, di_item_id di) = None ∧
  ∃ di', stored_item cx (work s) di = Some di' ∧ s' = upd_work (put_donation_item di') s.
Proof.
  unfold insert_item. rewrite run_get, run_fail_if, flush_item_run, bool_decide_eq_false, <- eq_None_not_Some. done.
Qed.

Lemma flush_donation_run dn s s' :
  run_ok (flush_donation cx dn) s tt s' ↔
  ∃ dn', stored_donation cx (work s) dn = Some dn' ∧ s' = upd_work (put_donation dn') s.
Proof. unfold flush_donation. rewrite run_get, run_some. setoid_rewrite run_mod_last. done. Qed.

Lemma insert_donation_run dn s s' :
  run_ok (insert_donation cx dn) s tt s' ↔
  db_donation (work s) !! dn_donation_id dn = None ∧
  ∃ dn', stored_donation cx (work s) dn = Some dn' ∧ s' = upd_work (put_donation dn') s.
Proof.
  unfold insert_donation. rewrite run_get, run_fail_if, flush_donation_run, bool_decide_eq_false, <- eq_None_not_Some. done.
Qed.

Lemma delete_item_run don it s s' :
  run_ok (delete_item don it) s tt s' ↔
  (∀ k v, db_dnintake_item (work s) !! k = Some v → ¬ (ki_donation_id v = don ∧ ki_item_id v = it)) ∧
  s' = upd_work (λ d, set_db_donation_item (delete (don, it) (db_donation_item d)) d) s.
Proof.
  unfold delete_item. rewrite run_get, run_fail_if, run_mod_last. apply and_iff_compat_r.
  rewrite <- not_true_iff_false, existsb_exists. setoid_rewrite <- list_elem_of_In.
  setoid_rewrite elem_of_dnintake_item_rows. setoid_rewrite andb_true_iff. setoid_rewrite Z.eqb_eq. naive_solver.
Qed.
End steps.

(** * Loops over the rows of a form

    Each turn rewrites, adds or deletes the one item it is about; [Q] is what the
    turn for [a] leaves there. *)

Definition set_items (t : gmap (Z * Z) DonationItem) (d : DB) : DB := set_db_donation_item t d.

Section loop.
Context {A : Type} (don : Z) (key : A → Z) (ok : Z → DonationItem → Prop)
  (Q : A → option DonationItem → Prop) (c d0 : DB).

Abbreviation at_items t := (mkSession c (set_items t d0)).

Definition item_turn (a : A) (body : DM unit) : Prop :=
  ∀ t s', (∀ di, t !! (don, key a) = Some di → ok (key a) di) → run_ok body (at_items t) tt s' →
  ∃ o, s' = at_items (partial_alter (λ _, o) (don, key a) t) ∧ Q a o ∧ (∀ di, o = Some di → ok (key a) di).

Lemma item_loop (l : list A) (body : A → DM unit) t s' :
  (∀ a, a ∈ l → item_turn a (body a)) → (∀ id di, t !! (don, id) = Some di → ok id di) →
  run_ok (m_for l body) (at_items t) tt s' →
  ∃ t', s' = at_items t' ∧ (∀ k, k.1 ≠ don ∨ k.2 ∉ (key <$> l) → t' !! k = t !! k) ∧
    (∀ id, id ∈ key <$> l → ∃ a, a ∈ l ∧ key a = id ∧ Q a (t' !! (don, id))) ∧
    (∀ id di, t' !! (don, id) = Some di → ok id di).
Proof.
  revert t. induction l as [|a l IH]; intros t Hbody Hok Hrun.
  - apply for_nil in Hrun as ->. exists t. split_and!; [done|done|set_solver|done].
  - apply for_cons in Hrun as (s1 & H1 & Hrun).
    destruct (Hbody a ltac:(by left) t s1 (Hok (key a)) H1) as (o & -> & HQ & Ho).
    apply IH in Hrun as (t' & -> & Hsame & Hrows & Hok'); [| |].
    + exists t'. split; [done|]. split; [|split; [|done]].
      * intros k Hk. rewrite Hsame; [|set_solver]. apply lookup_partial_alter_ne. intros <-. simpl in Hk. set_solver.
      * intros id Hid. destruct (decide (id ∈ key <$> l)) as [Hl|Hl].
        -- destruct (Hrows id Hl) as (b & ? & ? & ?). exists b. split_and!; [by right|done|done].
        -- assert (id = key a) as -> by set_solver. exists a. split; [by left|]. split; [done|].
           rewrite Hsame by (by right). by rewrite lookup_partial_alter_eq.
    + intros b Hb. apply Hbody. by right.
    + intros id di. destruct (decide (id = key a)) as [->|Hne].
      * rewrite lookup_partial_alter_eq. apply Ho.
      * rewrite lookup_partial_alter_ne by congruence. apply Hok.
Qed.
End loop.

Abbreviation at_items c d0 t := (mkSession c (set_items t d0)).

(** An item row of donation [don]: keyed, sound, pending or verified with a time. *)
Definition row_ok (d : DB) (don id : Z) (di : DonationItem) : Prop :=
  di_donation_id di = don ∧ di_item_id di = id ∧ line_sound (di_line di) ∧
  (di_status_code di = "P"%string ∧ di_verify_dtime di = None ∨
   di_status_code di = "V"%string ∧ is_Some (di_verify_dtime di)) ∧
  is_Some (db_item d !! id).

#[export] Instance row_ok_dec d don id di : Decision (row_ok d don id di).
Proof. unfold row_ok. apply _. Defined.

Section turns.
Context `{R : Runtime} (cx : DonationCtx) (c d0 : DB) (don : Z).

Definition pending_or_verified (di : DonationItem) : Prop :=
  di_status_code di = "P"%string ∧ di_verify_dtime di = None ∨
  di_status_code di = "V"%string ∧ is_Some (di_verify_dtime di).

Definition funds_unit (l : DonationLine) : Prop := dl_donation_type l = "FUNDS"%string → dl_item_qty l = UNIT.

Lemma flush_turn id t di s' :
  run_ok (flush_item cx di) (at_items c d0 t) tt s' →
  di_donation_id di = don → di_item_id di = id → funds_unit (di_line di) → pending_or_verified di →
  ∃ di', s' = at_items c d0 (partial_alter (λ _, Some di') (don, id) t) ∧ row_ok d0 don id di' ∧
    stored_line cx (di_line di) = Some (di_line di') ∧ di_status_code di' = di_status_code di ∧
    di_verify_by_id di' = di_verify_by_id di ∧ di_verify_dtime di' = di_verify_dtime di ∧
    di_audit di' = di_audit di ∧ is_Some (db_donation d0 !! don).
Proof.
  intros (di' & Hs & ->)%flush_item_run <- <- Hf Hp.
  apply stored_item_spec in Hs as (Hl & Hsound & Hdn & Hit & H1 & H2 & H3 & H4 & H5 & H6); [|done].
  assert (row_ok d0 (di_donation_id di) (di_item_id di) di') as Hok.
  { unfold row_ok. unfold pending_or_verified in Hp. by rewrite H1, H2, H3, H5. }
  exists di'. split; [|by split_and!]. unfold upd_work, put_donation_item, set_items. simpl. by rewrite H1, H2.
Qed.

Lemma info_line_funds loc i : funds_unit (info_line loc i).
Proof. unfold funds_unit, info_line, info_quantity. simpl. intros ->. by rewrite bool_decide_eq_true_2. Qed.

Lemma delete_turn ok it : item_turn don id ok (λ _ o, o = None) c d0 it (delete_item don it).
Proof.
  intros t s' _ Hrun. apply delete_item_run in Hrun as [_ ->]. exists None. by split_and!.
Qed.

(** The item a new row becomes. *)
Definition created (loc : ItemInfo → string) (i : ItemInfo) (o : option DonationItem) : Prop :=
  ∃ di, o = Some di ∧ stored_line cx (info_line (loc i) i) = Some (di_line di) ∧
    di_status_code di = "P"%string ∧ di_verify_by_id di = None ∧ di_verify_dtime di = None.

Lemma insert_turn uid loc i :
  item_turn don ii_item_id (row_ok d0 don) (created loc) c d0 i (insert_item cx (new_item cx don uid (loc i) i)).
Proof.
  intros t s' _ Hrun. apply insert_item_run in Hrun as [_ Hrun]. rewrite <- flush_item_run in Hrun.
  apply (flush_turn (ii_item_id i)) in Hrun as (di & -> & Hok & Hl & Hst & Hby & Hdt & _ & _);
    [|done|done|apply info_line_funds|by left].
  exists (Some di). split; [done|]. split; [by exists di|]. by intros ? [= <-].
Qed.

(** The item a row of the edit form becomes; a row that claims to exist and does
    not leaves nothing. *)
Definition edited (i : ItemInfo) (o : option DonationItem) : Prop :=
  match o with
  | Some di => stored_line cx (info_line (location_or_default (ii_location_name i)) i) = Some (di_line di)
  | None => ii_is_existing i = true
  end.

Lemma edit_turn uid i :
  item_turn don ii_item_id (row_ok d0 don) edited c d0 i (edit_item cx don uid i).
Proof.
  intros t s' Hok Hrun. unfold edit_item in Hrun. destruct (ii_is_existing i) eqn:Hex.
  - rewrite run_get in Hrun. simpl in Hrun. destruct (t !! (don, ii_item_id i)) as [di|] eqn:Ht.
    + specialize (Hok di eq_refl). destruct Hok as (Hd & Hi & _ & Hpv & _).
      apply (flush_turn (ii_item_id i)) in Hrun as (di' & -> & Hok' & Hl & _);
        [|done|done|apply info_line_funds|done].
      exists (Some di'). split; [done|]. split; [done|]. by intros ? [= <-].
    + apply run_ret in Hrun as [_ ->]. exists None. split; [|by split].
      f_equal. unfold set_items. f_equal. symmetry. exact (delete_id t (don, ii_item_id i) Ht).
  - apply (insert_turn uid (λ i, location_or_default (ii_location_name i))) in Hrun; [|done].
    destruct Hrun as (o & -> & (di & -> & Hl & _) & Hok'). exists (Some di). by split_and!.
Qed.

(** The item a row of the verification form becomes. *)
Definition verified_row (i : ItemInfo) (o : option DonationItem) : Prop :=
  ∃ di, o = Some di ∧ stored_line cx (info_line (upper (ii_location_name i)) i) = Some (di_line di) ∧
    di_status_code di = "V"%string ∧ di_verify_by_id di = get_user_name (dc_user cx) ∧
    di_verify_dtime di = Some (dc_now cx).

Lemma verify_turn uid i :
  item_turn don ii_item_id (row_ok d0 don) verified_row c d0 i (verify_donation_item cx don uid i).
Proof.
  intros t s' Hok Hrun. unfold verify_donation_item in Hrun. rewrite run_get in Hrun. simpl in Hrun.
  assert (∃ di0, di_donation_id di0 = don ∧ di_item_id di0 = ii_item_id i ∧
    di_line di0 = info_line (upper (ii_location_name i)) i ∧
    run_ok (flush_item cx (verified_donation_item cx di0)) (at_items c d0 t) tt s') as (di0 & Hd & Hi & Hl & Hrun').
  { destruct (t !! (don, ii_item_id i)) as [di|] eqn:Ht.
    - destruct (Hok di eq_refl) as (? & ? & _). by exists (rewritten_item cx uid (upper (ii_location_name i)) i di).
    - by exists (new_item cx don uid (upper (ii_location_name i)) i). }
  apply (flush_turn (ii_item_id i)) in Hrun' as (di & -> & Hok' & Hl' & Hst & Hby & Hdt & _);
    [|done|done|simpl; rewrite Hl; apply info_line_funds|by right].
  simpl in Hl'. rewrite Hl in Hl'. exists (Some di). split; [done|]. split; [by exists di|]. by intros ? [= <-].
Qed.
End turns.

(** * What an accepted form satisfies *)

Lemma when_nil b e : when b e = [] ↔ b = false.
Proof. by destruct b. Qed.
Lemma unless_nil b e : unless b e = [] ↔ b = true.
Proof. by destruct b. Qed.

Lemma upper_nonempty s : s ≠ ""%string → upper s ≠ ""%string.
Proof.
  destruct s as [|c s]; [done|]. intros _. unfold upper. simpl.
  assert (∃ x l, upper_char c = x :: l) as (x & l & ->) by (unfold upper_char; repeat case_match; eauto).
  done.
Qed.

Lemma upper_or_none_some s : s ≠ ""%string → is_Some (upper_or_none s).
Proof. intros Hs. unfold upper_or_none. rewrite bool_decide_eq_false_2 by done. eauto. Qed.

Section forms.
Context (cx : DonationCtx).

Lemma form_header_fields amount f h :
  form_header amount f = Some h →
  dh_donation_desc h = upper (strip (df_donation_desc f)) ∧
  dh_other_cost_desc h = upper_or_none (strip (df_other_cost_desc f)) ∧
  df_received_date f = OnDay (dh_received_date h) ∧
  amount (df_tot_item_cost f) = Some (dh_tot_item_cost h) ∧
  amount (df_storage_cost f) = Some (dh_storage_cost h) ∧
  amount (df_haulage_cost f) = Some (dh_haulage_cost h) ∧
  amount (df_other_cost f) = Some (dh_other_cost h) ∧
  (df_donor_id f ≫= py_int) = Some (dh_donor_id h) ∧ (df_event_id f ≫= py_int) = Some (dh_event_id h) ∧
  (df_custodian_id f ≫= py_int) = Some (dh_custodian_id h) ∧
  (df_origin_country_id f ≫= py_int) = Some (dh_origin_country_id h).
Proof.
  unfold form_header. intros H.
  destruct (df_donor_id f ≫= py_int) as [donor|]; [|done]. simpl in H.
  destruct (df_event_id f ≫= py_int) as [event|]; [|done]. simpl in H.
  destruct (df_custodian_id f ≫= py_int) as [custodian|]; [|done]. simpl in H.
  destruct (df_origin_country_id f ≫= py_int) as [country|]; [|done]. simpl in H.
  destruct (df_received_date f) as [| |r]; [done..|]. simpl in H.
  destruct (amount (df_tot_item_cost f)) as [a|]; [|done]. simpl in H.
  destruct (amount (df_storage_cost f)) as [b|]; [|done]. simpl in H.
  destruct (amount (df_haulage_cost f)) as [e|]; [|done]. simpl in H.
  destruct (amount (df_other_cost f)) as [o|]; [|done]. simpl in H.
  injection H as <-. by split_and!.
Qed.

(** What [header_sound] needs from either kind of form. *)
Definition header_given (h : DonationHeader) : Prop :=
  (0 < dh_other_cost h → is_Some (dh_other_cost_desc h)) ∧ dh_donation_desc h ≠ ""%string ∧
  dh_received_date h ≤ dc_today cx ∧ 0 < dh_tot_item_cost h ∧ 0 ≤ dh_storage_cost h ∧ 0 ≤ dh_haulage_cost h ∧
  0 ≤ dh_other_cost h.

Lemma required_facts amount f h :
  required_errors cx f = [] → form_header amount f = Some h →
  dh_donation_desc h ≠ ""%string ∧ dh_received_date h ≤ dc_today cx.
Proof.
  unfold required_errors. rewrite !app_nil, !unless_nil. intros (_ & _ & _ & Hd & _ & _ & Hr) Hh.
  apply form_header_fields in Hh as (Hdesc & _ & Hrec & _). z_bool. split.
  - rewrite Hdesc. by apply upper_nonempty.
  - rewrite Hrec, when_nil in Hr. z_bool. done.
Qed.

Lemma other_desc amount f h :
  form_header amount f = Some h → desc_error (dh_other_cost h) (df_other_cost_desc f) = [] →
  0 < dh_other_cost h → is_Some (dh_other_cost_desc h).
Proof.
  intros Hh Hd Hpos. apply form_header_fields in Hh as (_ & -> & _). apply upper_or_none_some. intros Hs.
  unfold desc_error in Hd. rewrite Hs, bool_decide_eq_true_2 in Hd by done.
  by rewrite (proj2 (Z.ltb_lt _ _) Hpos) in Hd.
Qed.

Lemma entry_header_given f h :
  entry_header_errors cx f = [] → form_header cost_field f = Some h → header_given h.
Proof.
  unfold entry_header_errors. rewrite !app_nil. intros (Hr & Ht & Hs & Hha & Ho & Hd) Hh.
  destruct (required_facts _ _ _ Hr Hh) as [Hdesc Hday]. pose proof Hh as Hf.
  apply form_header_fields in Hf as (_ & _ & _ & Htot & Hsto & Hhau & Hoth & _).
  unfold total_error, cost_error in *. rewrite Htot, Hsto, Hhau, Hoth, when_nil in *. z_bool.
  split_and!; [|done..]. by apply (other_desc _ _ _ Hh).
Qed.

Lemma safe_amount_nonneg f q : safe_amount f = Some q → 0 ≤ q.
Proof.
  unfold safe_amount, safe_decimal. destruct f; intros; simplify_eq; try done.
  unfold MAX_AMOUNT. repeat case_match; z_bool; lia.
Qed.

Lemma edit_header_given f h :
  edit_header_errors cx f = [] → form_header safe_amount f = Some h → header_given h.
Proof.
  unfold edit_header_errors. rewrite !app_nil, when_nil. intros (Hr & Ht & Hd) Hh.
  destruct (required_facts _ _ _ Hr Hh) as [Hdesc Hday]. pose proof Hh as Hf.
  apply form_header_fields in Hf as (_ & _ & _ & Htot & Hsto & Hhau & Hoth & _).
  rewrite Htot, Hoth in *. simpl in *. z_bool.
  split_and!; [|done|done|done|by eapply safe_amount_nonneg..]. by apply (other_desc _ _ _ Hh).
Qed.

(** Without errors, every item of the form comes from a row without errors. *)
Lemma item_data_row check rows i :
  form_errors (read_rows check rows) = [] → i ∈ item_data (read_rows check rows) →
  ∃ id r, check id r = ([], Some i).
Proof.
  unfold form_errors. rewrite app_nil. intros [He _] Hi. apply list_elem_of_omap in Hi as (x & Hx & Hsnd).
  assert (x.1 = []) as H1.
  { apply concat_nil_Forall in He. rewrite Forall_forall in He. apply He. by apply (list_elem_of_fmap_2 fst). }
  unfold read_rows in Hx. apply list_elem_of_fmap in Hx as (y & -> & _). destruct (y.2); [done|].
  exists y.1.1, y.1.2. destruct (check _ _); simpl in *. by subst.
Qed.

Lemma form_items check rows : form_errors (read_rows check rows) = [] → item_data (read_rows check rows) ≠ [].
Proof. unfold form_errors. rewrite app_nil. intros [_ H] Hn. by rewrite Hn in H. Qed.

Lemma row_info_spec q c id r errs i :
  add_errors errs (row_info q c id r) = ([], Some i) →
  errs = [] ∧ py_int id = Some (ii_item_id i) ∧ ii_donation_type i = row_type r ∧ ii_quantity i = q ∧
  ii_item_cost i = c ∧
  ii_uom_code i = (if bool_decide (row_type r = "GOODS"%string) then wf_uom_id r else None) ∧
  ii_currency_code i = (if bool_decide (row_type r = "FUNDS"%string) then wf_currency_code r else None).
Proof.
  unfold add_errors, row_info. destruct (py_int id) as [z|]; simpl; [|done].
  rewrite app_nil_r. intros [= -> <-]. by split_and!.
Qed.

(** A verified item agrees with the category of the item. *)
Lemma verified_info d id r i :
  verify_form_row d id r = ([], Some i) →
  (∀ it, db_item d !! ii_item_id i = Some it → it_category_type it = ii_donation_type i) ∧
  ii_donation_type i ∈ ["GOODS"; "FUNDS"]%string ∧ decimal_of (wf_quantity r) = Some (ii_quantity i) ∧
  0 ≤ ii_quantity i ∧ 0 ≤ ii_item_cost i ∧
  (ii_donation_type i = "FUNDS"%string → ii_quantity i = UNIT ∧ 0 < ii_item_cost i).
Proof.
  intros H. apply row_info_spec in H as (He & Hid & Hty & Hq & Hc & _). revert He. rewrite !app_nil.
  intros (Ht & Hqe & Hce & Hf & _ & Hcat). rewrite Hty.
  unfold type_errors in Ht. rewrite unless_nil in Ht. z_bool.
  unfold quantity_errors in Hqe. destruct (quantity_missing _); [done|].
  unfold item_cost_errors in Hce. unfold funds_row_errors in Hf.
  destruct (decimal_of (wf_quantity r)) as [q|]; [|done]. destruct (item_cost_of (wf_item_cost r)) as [c|]; [|done].
  simpl in *. rewrite when_nil in *. z_bool. subst q c. split_and!; [|done..|].
  - intros it Hit. unfold category_errors in Hcat. rewrite Hid in Hcat. simpl in Hcat. rewrite Hit, unless_nil in Hcat.
    by z_bool.
  - intros Hfu. rewrite bool_decide_eq_true_2, app_nil, !when_nil in Hf by done. destruct Hf. z_bool. lia.
Qed.
End forms.
