(* ===== verification/DonationEffects.v ===== *)
(** The effect of each donation request that succeeds: which donation it may be
    about, and the rows it leaves. *)
From stdpp Require Import strings.
From S2P Require Import Prelude PyStr ParamValidation Schema Columns Atomicity AccessControl DonationIntake DonationIntakeProofs Donations DonationsProofs.

(** A donation row, its items and new documents written over [d]. *)
Definition written (dn : Donation) (t : gmap (Z * Z) DonationItem) (docs : list DonationDoc) (d : DB) : DB :=
  set_db_donation_doc (db_donation_doc d ++ docs) (put_donation dn (set_items t d)).

(** The rows of donation [don] in [t] are those [Q] describes for the items of the
    form, and the other donations' rows are the ones in [d]. *)
Definition replaced (don : Z) (Q : ItemInfo → option DonationItem → Prop) (infos : list ItemInfo) (d : DB)
    (t : gmap (Z * Z) DonationItem) : Prop :=
  (∀ k, k.1 ≠ don → t !! k = db_donation_item d !! k) ∧
  (∀ id, id ∉ (ii_item_id <$> infos) → t !! (don, id) = None) ∧
  (∀ id, id ∈ ii_item_id <$> infos → ∃ i, i ∈ infos ∧ ii_item_id i = id ∧ Q i (t !! (don, id))).

Definition rows_ok (d : DB) (don : Z) (t : gmap (Z * Z) DonationItem) : Prop :=
  ∀ id di, t !! (don, id) = Some di → row_ok d don id di.

Lemma set_items_id d : set_items (db_donation_item d) d = d.
Proof. by destruct d. Qed.

Section effects.
Context `{R : Runtime} (cx : DonationCtx).

Lemma save_documents_run don uid ups s s' :
  run_ok (save_documents cx don uid ups) s tt s' →
  s' = upd_work (λ d, set_db_donation_doc (db_donation_doc d ++ (new_doc cx don uid <$> filter uploaded ups)) d) s ∧
  Forall (λ u, doc_error u = None ∧ up_saved u = true) (filter uploaded ups).
Proof.
  unfold save_documents. rewrite run_fail_if, negb_bool_decide_false. intros [He Hrun].
  assert (∀ l s s', run_ok (m_for l (λ u, m_fail_if (negb (up_saved u)) DAborted;; flush_doc (new_doc cx don uid u))) s tt s' →
    s' = upd_work (λ d, set_db_donation_doc (db_donation_doc d ++ (new_doc cx don uid <$> l)) d) s ∧
    Forall (λ u, up_saved u = true) l) as Hloop.
  { clear. induction l as [|u l IH]; intros s s' Hrun.
    - apply for_nil in Hrun as ->. split; [|done]. destruct s as [c w]. unfold upd_work. simpl. rewrite app_nil_r.
      by destruct w.
    - apply for_cons in Hrun as (s1 & H1 & Hrun). rewrite run_fail_if in H1. destruct H1 as [Hu H1].
      unfold flush_doc in H1. rewrite run_get, run_fail_if in H1. destruct H1 as [_ H1].
      apply run_mod_last in H1 as ->. apply IH in Hrun as [-> Hl]. z_bool. split; [|by constructor].
      unfold upd_work, put_doc. simpl. by rewrite <- app_assoc. }
  assert (Forall (λ u, doc_error u = None) (filter uploaded ups)) as Herr.
  { apply Forall_forall. intros u Hu. by apply (proj1 (omap_nil doc_error _) He). }
  destruct (filter uploaded ups) as [|u l] eqn:El.
  - apply run_ret in Hrun as [_ ->]. split; [|done]. destruct s as [c w]. unfold upd_work. simpl. rewrite app_nil_r.
    by destruct w.
  - rewrite run_fail_if in Hrun. destruct Hrun as [_ Hrun]. apply Hloop in Hrun as [-> Hs]. split; [done|].
    by apply Forall_and.
Qed.

Lemma elem_of_donated_items don di d :
  di ∈ donated_items don d ↔ di_donation_id di = don ∧ ∃ k, db_donation_item d !! k = Some di.
Proof. unfold donated_items. by rewrite list_elem_of_filter, elem_of_donation_item_rows. Qed.

Lemma donated_items_lookup don id d :
  keyed_donation_items d →
  id ∈ di_item_id <$> donated_items don d ↔ is_Some (db_donation_item d !! (don, id)).
Proof.
  intros Hk. rewrite list_elem_of_fmap. setoid_rewrite elem_of_donated_items. split.
  - intros (di & -> & <- & k & Hdi). rewrite (Hk _ _ Hdi). eauto.
  - intros [di Hdi]. pose proof (Hk _ _ Hdi) as Heq. injection Heq as Hd Hi. exists di. eauto.
Qed.

(** Dropping what the form does not list and walking its rows. *)
Lemma replace_run don Q infos body c d0 s1 s2 :
  keyed_donation_items d0 → rows_ok d0 don (db_donation_item d0) →
  (∀ i, i ∈ infos → item_turn don ii_item_id (row_ok d0 don) Q c d0 i (body i)) →
  run_ok (m_for (dropped_items don infos d0) (delete_item don)) (mkSession c d0) tt s1 →
  run_ok (m_for infos body) s1 tt s2 →
  ∃ t, s2 = mkSession c (set_items t d0) ∧ replaced don Q infos d0 t ∧ rows_ok d0 don t.
Proof.
  intros Hk Hok Hturn H1 H2. rewrite <- (set_items_id d0) in H1 at 2.
  apply (item_loop don id (row_ok d0 don) (λ _ o, o = None)) in H1 as (t1 & -> & Hsame1 & Hgone & Hok1);
    [|intros; apply delete_turn|exact Hok].
  apply (item_loop don ii_item_id (row_ok d0 don) Q) in H2 as (t2 & -> & Hsame2 & Hrows & Hok2); [|done|exact Hok1].
  exists t2. split; [done|]. split; [|exact Hok2]. split_and!.
  - intros k Hne. rewrite Hsame2, Hsame1 by auto. done.
  - intros it Hit. rewrite Hsame2 by auto.
    destruct (decide (it ∈ dropped_items don infos d0)) as [Hd|Hd].
    + destruct (Hgone it) as (? & _ & _ & Hn); [by rewrite list_fmap_id|done].
    + rewrite Hsame1 by (rewrite list_fmap_id; auto). apply eq_None_not_Some. intros Hs. apply Hd.
      apply list_elem_of_filter. split; [done|]. by apply donated_items_lookup.
  - exact Hrows.
Qed.

(** New rows all differ. *)
Lemma insert_loop_fresh don uid loc l s s' :
  run_ok (m_for l (λ i, insert_item cx (new_item cx don uid (loc i) i))) s tt s' →
  NoDup (ii_item_id <$> l) ∧ ∀ i, i ∈ l → db_donation_item (work s) !! (don, ii_item_id i) = None.
Proof.
  revert s. induction l as [|a l IH]; intros s Hrun; [split; [constructor|set_solver]|].
  apply for_cons in Hrun as (s1 & H1 & Hrun). apply insert_item_run in H1 as [Hnone (di & Hs & ->)].
  apply stored_item_spec in Hs as (_ & _ & _ & _ & Hd & Hi & _); [|apply info_line_funds]. simpl in *.
  destruct (IH _ Hrun) as [Hnd Hfresh]. unfold put_donation_item in Hfresh. simpl in Hfresh. rewrite Hd, Hi in Hfresh.
  csimpl. split.
  - constructor; [|done]. intros (b & Heq & Hb)%list_elem_of_fmap. specialize (Hfresh b Hb).
    by rewrite <- Heq, lookup_insert_eq in Hfresh.
  - intros i [->|Hin]%elem_of_cons; [done|]. specialize (Hfresh i Hin).
    apply lookup_insert_None in Hfresh as [? _]. done.
Qed.
Lemma put_donation_twice dn1 dn2 t d :
  dn_donation_id dn1 = dn_donation_id dn2 →
  put_donation dn2 (set_items t (put_donation dn1 d)) = put_donation dn2 (set_items t d).
Proof. intros He. unfold put_donation, set_items. simpl. by rewrite He, insert_insert_eq. Qed.

Lemma create_effect f s s' :
  run_ok (create_donation cx f) s tt s' →
  let don := dc_new_id cx in let infos := item_data (read_rows create_row (df_rows f)) in
  (∀ id di, db_donation_item (work s) !! (don, id) = Some di → is_Some (db_donation (work s) !! don)) →
  ∃ h dn t docs, db_donation (work s) !! don = None ∧ has_access (dc_user cx) "donation_management" = true ∧
    entry_header_errors cx f = [] ∧ form_errors (read_rows create_row (df_rows f)) = [] ∧
    form_header cost_field f = Some h ∧ funds_errors infos = [] ∧ NoDup (ii_item_id <$> infos) ∧
    stored_header cx (work s) h = Some (dn_header dn) ∧ dn_donation_id dn = don ∧
    dn_status_code dn = "E"%string ∧ dn_verify_dtime dn = None ∧
    replaced don (created cx (λ i, upper (ii_location_name i))) infos (work s) t ∧ rows_ok (work s) don t ∧
    s' = commit_session (mkSession (committed s) (written dn t docs (work s))).
Proof.
  intros Hrun don infos Hfk. unfold create_donation in Hrun. apply guard_run in Hrun as (_ & Hacc & Hrun).
  rewrite or_rollback_ok in Hrun. rewrite run_fail_if in Hrun. destruct Hrun as [_ Hrun].
  rewrite raise_run in Hrun. destruct Hrun as [He Hrun]. apply app_nil in He as [He1 He2].
  rewrite run_some in Hrun. destruct Hrun as (h & Hh & Hrun).
  apply audit_user_run in Hrun as (u & uid & _ & _ & Hrun).
  rewrite seq_ok in Hrun. destruct Hrun as (s1 & H1 & Hrun).
  apply insert_donation_run in H1 as (Hfresh & dn0 & Hdn0 & ->).
  rewrite raise_run in Hrun. destruct Hrun as [Hf Hrun].
  rewrite seq_ok in Hrun. destruct Hrun as (s2 & H2 & Hrun).
  rewrite seq_ok in Hrun. destruct Hrun as (s3 & H3 & Hrun).
  rewrite seq_ok in Hrun. destruct Hrun as (s4 & H4 & Hrun). apply run_commit in Hrun as ->.
  apply stored_donation_spec in Hdn0 as (_ & Hid0 & _).
  assert (∀ id, db_donation_item (work s) !! (don, id) = None) as Hnone.
  { intros id. destruct (db_donation_item (work s) !! (don, id)) as [di|] eqn:Hdi; [|done]. exfalso.
    destruct (Hfk id di Hdi) as [x Hx]. unfold don in Hx. simpl in Hfresh. congruence. }
  destruct (insert_loop_fresh don uid (λ i, upper (ii_location_name i)) infos _ _ H2) as [Hnd _].
  unfold upd_work in H2. set (d0 := put_donation dn0 (work s)) in *. rewrite <- (set_items_id d0) in H2.
  apply (item_loop don ii_item_id (row_ok d0 don) (created cx (λ i, upper (ii_location_name i)))) in H2
    as (t & -> & Hsame & Hrows & Hok); [|intros i _; apply (insert_turn cx (committed s) d0 don uid (λ i, upper (ii_location_name i)))|
    intros id di Hdi; change (db_donation_item (work s) !! (don, id) = Some di) in Hdi; by rewrite Hnone in Hdi].
  apply flush_donation_run in H3 as (dn & Hdn & ->). apply stored_donation_spec in Hdn as (Hst & Hid & Hs & _ & Hv & _).
  apply save_documents_run in H4 as [-> _].
  exists h, dn, t, (new_doc cx don uid <$> filter uploaded (df_uploads f)).
  split_and!; try done.
  - split_and!; [intros k Hk; by rewrite Hsame by auto| |done].
    intros id Hid'. rewrite Hsame by auto. apply Hnone.
  - unfold upd_work, commit_session. simpl. unfold written. unfold d0.
    by rewrite put_donation_twice by (rewrite Hid0, Hid; done).
Qed.

(** The stored donation keeps what only verification and processing change. *)
Definition same_state (dn dn' : Donation) : Prop :=
  dn_donation_id dn' = dn_donation_id dn ∧ dn_status_code dn' = dn_status_code dn ∧
  dn_verify_by_id dn' = dn_verify_by_id dn ∧ dn_verify_dtime dn' = dn_verify_dtime dn.

Lemma edit_effect don f s s' :
  run_ok (edit_donation cx don f) s tt s' →
  keyed_donation_items (work s) → rows_ok (work s) don (db_donation_item (work s)) →
  let infos := item_data (read_rows edit_row (df_rows f)) in
  ∃ dn h dn' t, db_donation (work s) !! don = Some dn ∧ (dn_status_code dn ∉ ["V"; "P"]%string) ∧
    safe_version_number (df_version_nbr f) 0 = version_nbr (dn_audit dn) ∧
    edit_header_errors cx f = [] ∧ form_errors (read_rows edit_row (df_rows f)) = [] ∧
    form_header safe_amount f = Some h ∧ stored_header cx (work s) h = Some (dn_header dn') ∧ same_state dn dn' ∧
    version_nbr (dn_audit dn') = version_nbr (dn_audit dn) + dc_updates cx ∧
    replaced don (edited cx) infos (work s) t ∧ rows_ok (work s) don t ∧
    s' = commit_session (mkSession (committed s) (put_donation dn' (set_items t (work s)))).
Proof.
  intros Hrun Hk Hok infos. unfold edit_donation in Hrun. apply guard_run in Hrun as (_ & _ & Hrun).
  apply find_donation_run in Hrun as (dn & Hdn & Hrun). rewrite not_verified_run in Hrun. destruct Hrun as [Hst Hrun].
  rewrite or_rollback_ok, run_fail_if, negb_eqb_false, run_fail_if in Hrun. destruct Hrun as (Hv & _ & Hrun).
  rewrite raise_run in Hrun. destruct Hrun as [He Hrun]. apply app_nil in He as [He1 He2].
  rewrite run_some in Hrun. destruct Hrun as (h & Hh & Hrun).
  apply audit_user_run in Hrun as (u & uid & _ & _ & Hrun). rewrite run_get in Hrun.
  rewrite seq_ok in Hrun. destruct Hrun as (s1 & H1 & Hrun).
  rewrite seq_ok in Hrun. destruct Hrun as (s2 & H2 & Hrun).
  destruct s as [c d0]. simpl in *.
  apply (replace_run don (edited cx) infos _ c d0 s1 s2 Hk Hok) in H2 as (t & -> & Hrep & Hok');
    [|intros i _; apply edit_turn|done].
  rewrite seq_ok in Hrun. destruct Hrun as (s3 & H3 & Hrun). apply run_commit in Hrun as ->.
  apply flush_donation_run in H3 as (dn' & Hdn' & ->).
  apply stored_donation_spec in Hdn' as (Hst' & Hid & Hs & Hb & Hd & Ha).
  exists dn, h, dn', t. unfold same_state. by split_and!; rewrite ?Ha.
Qed.

Lemma verify_effect don f s s' :
  run_ok (verify_donation_detail cx don f) s tt s' →
  keyed_donation_items (work s) → rows_ok (work s) don (db_donation_item (work s)) →
  let infos := item_data (read_rows (verify_form_row (work s)) (df_rows f)) in
  ∃ dn h dn' t docs, db_donation (work s) !! don = Some dn ∧ dn_status_code dn = "E"%string ∧
    has_access (dc_user cx) "donation_verification" = true ∧
    form_version f = Some (version_nbr (dn_audit dn)) ∧
    entry_header_errors cx f = [] ∧ form_errors (read_rows (verify_form_row (work s)) (df_rows f)) = [] ∧
    form_header cost_field f = Some h ∧ stored_header cx (work s) h = Some (dn_header dn') ∧
    dn_donation_id dn' = dn_donation_id dn ∧ dn_status_code dn' = "V"%string ∧
    dn_verify_by_id dn' = get_user_name (dc_user cx) ∧ dn_verify_dtime dn' = Some (dc_now cx) ∧
    version_nbr (dn_audit dn') = version_nbr (dn_audit dn) + dc_updates cx ∧
    replaced don (verified_row cx) infos (work s) t ∧ rows_ok (work s) don t ∧
    s' = commit_session (mkSession (committed s) (written dn' t docs (work s))).
Proof.
  intros Hrun Hk Hok infos. unfold verify_donation_detail in Hrun. apply guard_run in Hrun as (_ & Hacc & Hrun).
  apply find_donation_run in Hrun as (dn & Hdn & Hrun).
  rewrite run_fail_if, negb_bool_decide_false in Hrun. destruct Hrun as [Hst Hrun].
  rewrite or_rollback_ok, run_fail_if, negb_bool_decide_false, run_get, run_fail_if in Hrun.
  destruct Hrun as (Hv & _ & Hrun).
  rewrite raise_run in Hrun. destruct Hrun as [He Hrun]. apply app_nil in He as [He1 He2].
  rewrite run_some in Hrun. destruct Hrun as (h & Hh & Hrun).
  apply audit_user_run in Hrun as (u & uid & _ & _ & Hrun).
  rewrite seq_ok in Hrun. destruct Hrun as (s1 & H1 & Hrun).
  rewrite seq_ok in Hrun. destruct Hrun as (s2 & H2 & Hrun).
  destruct s as [c d0]. simpl in *.
  apply (replace_run don (verified_row cx) infos _ c d0 s1 s2 Hk Hok) in H2 as (t & -> & Hrep & Hok');
    [|intros i _; apply verify_turn|done].
  rewrite seq_ok in Hrun. destruct Hrun as (s3 & H3 & Hrun).
  rewrite seq_ok in Hrun. destruct Hrun as (s4 & H4 & Hrun). apply run_commit in Hrun as ->.
  apply flush_donation_run in H3 as (dn' & Hdn' & ->).
  apply stored_donation_spec in Hdn' as (Hst' & Hid & Hs & Hb & Hd & Ha).
  apply save_documents_run in H4 as [-> _].
  exists dn, h, dn', t, (new_doc cx don uid <$> filter uploaded (df_uploads f)). by split_and!; rewrite ?Ha.
Qed.

Lemma delete_donation_effect don s s' :
  run_ok (delete_donation cx don) s tt s' → keyed_donation_items (work s) →
  ∃ dn, db_donation (work s) !! don = Some dn ∧ (dn_status_code dn ∉ ["V"; "P"]%string) ∧
    (∀ id, db_donation_item (work s) !! (don, id) = None) ∧
    s' = commit_session (upd_work (λ d, set_db_donation (delete don (db_donation d)) d) s).
Proof.
  intros Hrun Hk. unfold delete_donation in Hrun. apply guard_run in Hrun as (_ & _ & Hrun).
  apply find_donation_run in Hrun as (dn & Hdn & Hrun). rewrite not_verified_run in Hrun. destruct Hrun as [Hst Hrun].
  rewrite run_get, run_fail_if, negb_bool_decide_false in Hrun. destruct Hrun as [Hno Hrun].
  rewrite or_rollback_ok, run_fail_if, run_mod in Hrun. destruct Hrun as [_ Hrun]. apply run_commit in Hrun as ->.
  exists dn. split_and!; [done..| |done]. intros id. apply eq_None_not_Some. intros Hs.
  apply donated_items_lookup in Hs; [|done]. rewrite Hno in Hs. set_solver.
Qed.

(** The item pages touch one row of a donation that is not verified. *)
Definition item_effect (don id : Z) (s s' : Session) (o : option DonationItem) : Prop :=
  (∃ dn, db_donation (work s) !! don = Some dn ∧ (dn_status_code dn ∉ ["V"; "P"]%string)) ∧
  (∀ di, o = Some di → row_ok (work s) don id di) ∧
  s' = commit_session (upd_work (λ d, set_items (partial_alter (λ _, o) (don, id) (db_donation_item d)) d) s).

Lemma add_item_effect don t s s' :
  run_ok (add_donation_item cx don t) s tt s' →
  ∃ id qty di, (tf_item_id t ≫= py_int) = Some id ∧ decimal_of (tf_item_qty t) = Some qty ∧ 0 < qty ∧
    db_donation_item (work s) !! (don, id) = None ∧ numeric 9 qty = Some (di_item_qty di) ∧
    dl_donation_type (di_line di) = "GOODS"%string ∧
    item_effect don id s s' (Some di).
Proof.
  intros Hrun. unfold add_donation_item in Hrun. apply guard_run in Hrun as (_ & _ & Hrun).
  apply find_donation_run in Hrun as (dn & Hdn & Hrun). rewrite not_verified_run in Hrun. destruct Hrun as [Hst Hrun].
  rewrite or_rollback_ok, run_get, run_fail_if, raise_run in Hrun. destruct Hrun as (Hr & He & Hrun).
  rewrite run_some in Hrun. destruct Hrun as (id & Hid & Hrun).
  rewrite run_some in Hrun. destruct Hrun as (qty & Hqty & Hrun).
  apply audit_user_run in Hrun as (u & uid & _ & _ & Hrun).
  rewrite seq_ok in Hrun. destruct Hrun as (s1 & H1 & Hrun). apply run_commit in Hrun as ->.
  apply insert_item_run in H1 as [Hnone H1]. rewrite <- flush_item_run in H1. simpl in Hnone.
  destruct s as [c d0]. simpl in *. rewrite <- (set_items_id d0) in H1.
  apply (flush_turn cx c d0 don id) in H1 as (di & -> & Hok & Hl & _ & _ & _ & _ & _); [|done|done|done|].
  2: { unfold pending_or_verified. simpl. case_bool_decide; [by left|right; split; [done|eauto]]. }
  apply stored_line_spec in Hl as (_ & Hty & _ & _ & _ & _ & Hq & _); [|done]. simpl in Hty, Hq.
  exists id, qty, di. revert He. rewrite !app_nil. intros (_ & Hqe & _ & _ & _).
  unfold item_qty_errors in Hqe. destruct (quantity_missing _); [done|]. rewrite Hqty, when_nil in Hqe. simpl in Hqe.
  z_bool. do 6 (split; [done || lia|]). unfold item_effect. split; [by exists dn|]. split; [by intros ? [= <-]|].
  done.
Qed.

Lemma edit_item_effect don id t s s' :
  run_ok (edit_donation_item cx don id t) s tt s' → rows_ok (work s) don (db_donation_item (work s)) →
  ∃ di0 qty di, db_donation_item (work s) !! (don, id) = Some di0 ∧
    py_int (default "0"%string (tf_version_nbr t)) = Some (version_nbr (di_audit di0)) ∧
    decimal_of (tf_item_qty t) = Some qty ∧ 0 < qty ∧ numeric 9 qty = Some (di_item_qty di) ∧
    version_nbr (di_audit di) = version_nbr (di_audit di0) + dc_item_updates cx id ∧
    tf_status_code t = Some (di_status_code di) ∧
    item_effect don id s s' (Some di).
Proof.
  intros Hrun Hok0. unfold edit_donation_item in Hrun. apply guard_run in Hrun as (_ & _ & Hrun).
  apply find_donation_run in Hrun as (dn & Hdn & Hrun). apply find_item_run in Hrun as (di0 & Hdi0 & Hrun).
  rewrite not_verified_run in Hrun. destruct Hrun as [Hst Hrun].
  rewrite or_rollback_ok, run_some in Hrun. destruct Hrun as (version & Hv & Hrun).
  rewrite run_fail_if, negb_eqb_false, run_fail_if, raise_run in Hrun. destruct Hrun as (-> & _ & He & Hrun).
  rewrite run_some in Hrun. destruct Hrun as (qty & Hqty & Hrun).
  apply audit_user_run in Hrun as (u & uid & _ & _ & Hrun).
  rewrite seq_ok in Hrun. destruct Hrun as (s1 & H1 & Hrun). apply run_commit in Hrun as ->.
  revert He. rewrite !app_nil. intros (Hqe & Huom & _ & Hs). rewrite unless_nil in *. z_bool.
  assert (∃ st, tf_status_code t = Some st ∧ (st = "P"%string ∨ st = "V"%string)) as (st & Hst' & Hpv).
  { set_solver. }
  destruct s as [c d0]. simpl in *. rewrite <- (set_items_id d0) in H1.
  assert (∃ uom, tf_uom_code t = Some uom) as [uom Hu] by (unfold given in Huom; destruct (tf_uom_code t); [eauto|done]).
  pose proof H1 as H1'. apply flush_item_run in H1' as (dx & Hx & _).
  assert (dl_donation_type (di_line di0) = "GOODS"%string) as Hgoods.
  { unfold stored_item, stored_line in Hx. simpl in Hx. rewrite Hu in Hx.
    destruct (numeric 9 qty); [|done]. simpl in Hx. destruct (numeric 10 _); [|done]. simpl in Hx.
    match type of Hx with context [if ?b then Some _ else None] => destruct b eqn:E; [|done] end. z_bool.
    by destruct (dl_currency_code (di_line di0)); z_bool. }
  apply (flush_turn cx c d0 don id) in H1 as (di & -> & Hok & Hl & Hsc & _ & _ & Ha & _); [|done|done|..].
  2: { unfold funds_unit. simpl. by rewrite Hgoods. }
  2: { unfold pending_or_verified. simpl. rewrite Hst'. simpl. destruct Hpv as [-> | ->]; [by left|right].
       split; [done|]. rewrite bool_decide_eq_true_2 by done. eauto. }
  simpl in Hsc, Ha. rewrite Hst' in Hsc. simpl in Hsc. subst st.
  apply stored_line_spec in Hl as (_ & _ & _ & _ & _ & _ & Hq & _); [|by simpl; rewrite Hgoods]. simpl in Hq.
  exists di0, qty, di. unfold item_qty_errors in Hqe. destruct (quantity_missing _); [done|].
  rewrite Hqty, when_nil in Hqe. simpl in Hqe. z_bool.
  do 7 (split; [first [done | lia | by rewrite Ha]|]).
  unfold item_effect. split; [by exists dn|]. split; [by intros ? [= <-]|]. done.
Qed.

Lemma delete_item_effect don id s s' :
  run_ok (delete_donation_item cx don id) s tt s' → item_effect don id s s' None.
Proof.
  intros Hrun. unfold delete_donation_item in Hrun. apply guard_run in Hrun as (_ & _ & Hrun).
  apply find_donation_run in Hrun as (dn & Hdn & Hrun). apply find_item_run in Hrun as (di0 & _ & Hrun).
  rewrite not_verified_run in Hrun. destruct Hrun as [Hst Hrun].
  rewrite or_rollback_ok, seq_ok in Hrun. destruct Hrun as (s1 & H1 & Hrun). apply run_commit in Hrun as ->.
  apply delete_item_run in H1 as [_ ->]. split; [by exists dn|]. by split.
Qed.
End effects.
