(* ===== verification/DonationLifecycle.v ===== *)
(** The life of a donation, from its entry to its intake: what holds along any
    sequence of donation and intake requests. *)
From stdpp Require Import strings.
From S2P Require Import Prelude PyStr ParamValidation Schema Columns Atomicity AccessControl Ledger Fixtures DonationIntake DonationIntakeProofs DonationVerifyProofs DonationIntakeTheorems Donations DonationsProofs DonationEffects.

(** * The invariants *)

(** A verified or processed donation has items, all verified; an entered one has not been
    verified.  Where no item of the catalogue changes its category ([fixed]) they are
    also of the category they were given as: verification compares the two, but a later
    edit of the item does not. *)
Definition donation_ok (fixed : bool) (d : DB) (don : Z) (dn : Donation) : Prop :=
  dn_donation_id dn = don ∧ header_sound (dn_header dn) ∧
  (dn_status_code dn = "E"%string ∧ dn_verify_dtime dn = None ∨
   (dn_status_code dn = "V"%string ∨ dn_status_code dn = "P"%string) ∧ is_Some (dn_verify_dtime dn) ∧
   (∃ id, is_Some (db_donation_item d !! (don, id))) ∧
   ∀ id di, db_donation_item d !! (don, id) = Some di →
     di_status_code di = "V"%string ∧
     (fixed = true → ∀ it, db_item d !! id = Some it → it_category_type it = dl_donation_type (di_line di))).

Definition donations_ok (fixed : bool) (d : DB) : Prop :=
  (∀ don id di, db_donation_item d !! (don, id) = Some di → row_ok d don id di ∧ is_Some (db_donation d !! don)) ∧
  (∀ don dn, db_donation d !! don = Some dn → donation_ok fixed d don dn).

(** The intake items of a donation at a warehouse are its donated goods, one each, in the
    donated quantity. *)
Definition intake_matches `{R : Runtime} (don wh : Z) (d : DB) : Prop :=
  (∀ v w, v ∈ intake_items_of don wh d → w ∈ intake_items_of don wh d → ki_item_id v = ki_item_id w → v = w) ∧
  (∀ v, v ∈ intake_items_of don wh d → ∃ di, db_donation_item d !! (don, ki_item_id v) = Some di ∧
     dl_donation_type (di_line di) = "GOODS"%string ∧ intake_total v = di_item_qty di) ∧
  (∀ id di, db_donation_item d !! (don, id) = Some di → dl_donation_type (di_line di) = "GOODS"%string →
     ∃ v, v ∈ intake_items_of don wh d ∧ ki_item_id v = id).

Definition verified_status (dn : Donation) : Prop := dn_status_code dn = "V"%string ∨ dn_status_code dn = "P"%string.

(** A new intake takes the goods by the category of the item, so its items match the
    donation only where categories stay. *)
Definition intakes_ok (fixed : bool) `{R : Runtime} (d : DB) : Prop :=
  keyed_intakes d ∧ keyed_intake_items d ∧ intake_items_fk d ∧
  (∀ don wh, is_Some (db_dnintake d !! (don, wh)) →
     (∃ dn, db_donation d !! don = Some dn ∧ verified_status dn) ∧ (fixed = true → intake_matches don wh d)).

Definition lifecycle_ok (fixed : bool) `{R : Runtime} (d : DB) : Prop := donations_ok fixed d ∧ intakes_ok fixed d.

Lemma donations_ok_keyed {fixed} d : donations_ok fixed d → keyed_donation_items d.
Proof. intros [Hi _] [don id] di Hdi. destruct (Hi _ _ _ Hdi) as [(-> & -> & _) _]. done. Qed.

Lemma donations_ok_rows {fixed} d don : donations_ok fixed d → rows_ok d don (db_donation_item d).
Proof. intros [Hi _] id di Hdi. by destruct (Hi _ _ _ Hdi). Qed.

Lemma open_donation {fixed} d don dn :
  donations_ok fixed d → db_donation d !! don = Some dn → dn_status_code dn ∉ ["V"; "P"]%string →
  dn_status_code dn = "E"%string ∧ dn_verify_dtime dn = None ∧ dn_donation_id dn = don.
Proof.
  intros [_ Hd] Hdn Hst. destruct (Hd _ _ Hdn) as (Hid & _ & [[? ?]|[Hvp _]]); [done|].
  destruct Hvp as [Hv|Hp]; [rewrite Hv in Hst|rewrite Hp in Hst]; set_solver.
Qed.

(** * A change of one donation *)

(** Only the donation tables change, and there only the rows of [don]. *)
Definition only_donation (don : Z) (d d' : DB) : Prop :=
  (∀ k, k ≠ don → db_donation d' !! k = db_donation d !! k) ∧
  (∀ k, k.1 ≠ don → db_donation_item d' !! k = db_donation_item d !! k) ∧
  db_item d' = db_item d ∧ db_dnintake d' = db_dnintake d ∧ db_dnintake_item d' = db_dnintake_item d.

Lemma donations_ok_change {fixed} don d d' :
  only_donation don d d' → donations_ok fixed d → rows_ok d don (db_donation_item d') →
  (∀ id, is_Some (db_donation_item d' !! (don, id)) → is_Some (db_donation d' !! don)) →
  (∀ dn, db_donation d' !! don = Some dn → donation_ok fixed d' don dn) → donations_ok fixed d'.
Proof.
  intros (Hdn & Hdi & Hit & _) [Hi Hd] Hrows Hfk Hok. split.
  - intros k id di Hx. destruct (decide (k = don)) as [->|Hne].
    + split; [|eauto]. unfold row_ok. rewrite Hit. exact (Hrows id di Hx).
    + rewrite Hdi in Hx by done. rewrite Hdn by done. unfold row_ok. rewrite Hit. exact (Hi k id di Hx).
  - intros k dn Hx. destruct (decide (k = don)) as [->|Hne]; [by apply Hok|]. rewrite Hdn in Hx by done.
    destruct (Hd k dn Hx) as (Hid & Hh & Hst). unfold donation_ok. rewrite Hit. split; [done|]. split; [done|].
    destruct Hst as [He|(Hvp & Ht & [id Hs] & Hall)]; [by left|right]. split_and!; [done|done| |].
    + exists id. by rewrite Hdi.
    + intros id' di. rewrite Hdi by done. apply Hall.
Qed.

(** An entered donation changes only as long as no intake of it exists. *)
Lemma intakes_ok_change {fixed} `{R : Runtime} don d d' :
  only_donation don d d' → intakes_ok fixed d →
  (∀ dn, db_donation d !! don = Some dn → dn_status_code dn = "E"%string) → intakes_ok fixed d'.
Proof.
  intros (Hdn & Hdi & Hit & Hk & Hki) (H1 & H2 & H3 & H4) He.
  assert (∀ k w, intake_items_of k w d' = intake_items_of k w d) as Hio by (intros; unfold intake_items_of; by rewrite Hki).
  unfold intakes_ok, keyed_intakes, keyed_intake_items, intake_items_fk. rewrite Hk, Hki.
  split_and!; [done..|]. intros k w Hs. destruct (H4 k w Hs) as [(dn & Hx & Hvp) Hm].
  assert (k ≠ don) as Hne. { intros ->. destruct Hvp as [Hv|Hp]; rewrite (He _ Hx) in *; done. }
  split; [exists dn; by rewrite Hdn|]. intros Hfix. destruct (Hm Hfix) as (Hinj & Hin & Hcov).
  unfold intake_matches. rewrite Hio. split_and!; [done| |].
  - intros v Hv. rewrite Hdi by done. by apply Hin.
  - intros id di. rewrite Hdi by done. apply Hcov.
Qed.

Lemma only_written don dn t docs d :
  dn_donation_id dn = don → (∀ k, k.1 ≠ don → t !! k = db_donation_item d !! k) → only_donation don d (written dn t docs d).
Proof.
  intros <- Ht. unfold only_donation. simpl. split_and!; [|done..]. intros k Hk. by apply lookup_insert_ne.
Qed.

Section requests.
Context `{R : Runtime} (cx : DonationCtx).

Inductive donation_request : DM unit → Prop :=
| dr_create f : donation_request (create_donation cx f)
| dr_edit don f : donation_request (edit_donation cx don f)
| dr_delete don : donation_request (delete_donation cx don)
| dr_add_item don t : donation_request (add_donation_item cx don t)
| dr_edit_item don id t : donation_request (edit_donation_item cx don id t)
| dr_delete_item don id : donation_request (delete_donation_item cx don id)
| dr_verify don f : donation_request (verify_donation_detail cx don f).

(** What a successful request does to donation [don]. *)
Inductive changed (don : Z) (d d' : DB) : Prop :=
| ch_entered dn' :
    db_donation d !! don = None → db_donation d' !! don = Some dn' → dn_status_code dn' = "E"%string →
    changed don d d'
| ch_edited dn dn' :
    db_donation d !! don = Some dn → dn_status_code dn = "E"%string →
    db_donation d' !! don = Some dn' → dn_status_code dn' = "E"%string → changed don d d'
| ch_deleted dn :
    db_donation d !! don = Some dn → dn_status_code dn = "E"%string → db_donation d' !! don = None →
    changed don d d'
| ch_verified dn dn' :
    db_donation d !! don = Some dn → dn_status_code dn = "E"%string →
    db_donation d' !! don = Some dn' → dn_status_code dn' = "V"%string →
    has_access (dc_user cx) "donation_verification" = true →
    dn_verify_by_id dn' = get_user_name (dc_user cx) → dn_verify_dtime dn' = Some (dc_now cx) →
    changed don d d'.

Lemma changed_open don d d' dn : changed don d d' → db_donation d !! don = Some dn → dn_status_code dn = "E"%string.
Proof. destruct 1; intros; congruence. Qed.

(** A step on one donation, with everything it keeps. *)
Definition donation_step (fixed : bool) (don : Z) (d d' : DB) : Prop :=
  only_donation don d d' ∧ changed don d d' ∧ donations_ok fixed d'.

Lemma header_given_sound d h dn :
  header_given cx h → stored_header cx d h = Some (dn_header dn) → header_sound (dn_header dn).
Proof. intros (Hd & Hn & _) Hs. by apply (stored_header_sound cx d h). Qed.

Lemma entered_ok {fixed} d d' don dn h :
  header_given cx h → stored_header cx d h = Some (dn_header dn) → dn_donation_id dn = don →
  dn_status_code dn = "E"%string → dn_verify_dtime dn = None → donation_ok fixed d' don dn.
Proof. intros Hg Hs Hid Hst Hv. split; [done|]. split; [by eapply header_given_sound|by left]. Qed.

Lemma create_step {fixed} f s s' :
  run_ok (create_donation cx f) s tt s' → donations_ok fixed (work s) →
  donation_step fixed (dc_new_id cx) (work s) (work s') ∧ committed s' = work s'.
Proof.
  intros Hrun Hok. apply create_effect in Hrun
    as (h & dn & t & docs & Hnone & _ & He & _ & Hh & _ & _ & Hst & Hid & Hs & Hv & (Hsame & _) & Hrows & ->);
    [|intros id di Hdi; by apply (proj1 Hok) in Hdi as [_ ?]].
  split; [|done]. cbn [work commit_session upd_work]. pose proof (only_written _ dn t docs _ Hid Hsame) as Honly.
  assert (db_donation (written dn t docs (work s)) !! dc_new_id cx = Some dn) as Hdn by (simpl; rewrite Hid; apply lookup_insert_eq).
  split; [done|]. split; [by eapply ch_entered|]. apply (donations_ok_change _ _ _ Honly Hok Hrows); [by rewrite Hdn|].
  intros dn'. rewrite Hdn. intros [= <-]. eapply entered_ok; [by eapply entry_header_given|done..].
Qed.

Lemma edit_step {fixed} don f s s' :
  run_ok (edit_donation cx don f) s tt s' → donations_ok fixed (work s) →
  donation_step fixed don (work s) (work s') ∧ committed s' = work s'.
Proof.
  intros Hrun Hok. apply edit_effect in Hrun
    as (dn & h & dn' & t & Hdn & Hst & _ & He & _ & Hh & Hsh & (Hid & Hs & _ & Hv) & _ & (Hsame & _) & Hrows & ->);
    [|by eapply donations_ok_keyed|by eapply donations_ok_rows].
  destruct (open_donation _ _ _ Hok Hdn Hst) as (HE & Hnv & Hkey). rewrite HE, Hnv, Hkey in *.
  split; [|done]. cbn [work commit_session upd_work]. pose proof (only_written don dn' t [] (work s) Hid Hsame) as Honly.
  unfold written in Honly. rewrite app_nil_r in Honly.
  change (only_donation don (work s) (put_donation dn' (set_items t (work s)))) in Honly.
  assert (db_donation (put_donation dn' (set_items t (work s))) !! don = Some dn') as Hdn'
    by (simpl; rewrite Hid; apply lookup_insert_eq).
  split; [done|]. split; [by eapply ch_edited|]. apply (donations_ok_change _ _ _ Honly Hok Hrows); [by rewrite Hdn'|].
  intros x. rewrite Hdn'. intros [= <-]. eapply entered_ok; [by eapply edit_header_given|done..].
Qed.

Lemma verify_step {fixed} don f s s' :
  run_ok (verify_donation_detail cx don f) s tt s' → donations_ok fixed (work s) →
  donation_step fixed don (work s) (work s') ∧ committed s' = work s'.
Proof.
  intros Hrun Hok. apply verify_effect in Hrun
    as (dn & h & dn' & t & docs & Hdn & HE & Hacc & _ & He & Hf & Hh & Hsh & Hid & Hs & Hb & Hv & _ & Hrep & Hrows & ->);
    [|by eapply donations_ok_keyed|by eapply donations_ok_rows].
  destruct Hrep as (Hsame & Hgone & Hitems).
  pose proof (proj1 (proj2 Hok _ _ Hdn)) as Hkey. rewrite Hkey in Hid.
  split; [|done]. cbn [work commit_session upd_work]. pose proof (only_written don dn' t docs (work s) Hid Hsame) as Honly.
  assert (db_donation (written dn' t docs (work s)) !! don = Some dn') as Hdn'
    by (simpl; rewrite Hid; apply lookup_insert_eq).
  split; [done|]. split; [by eapply ch_verified|]. apply (donations_ok_change _ _ _ Honly Hok Hrows); [by rewrite Hdn'|].
  intros x. rewrite Hdn'. intros [= <-]. split; [done|]. split.
  { apply (header_given_sound (work s) h); [by eapply entry_header_given|done]. }
  right. split; [by left|]. split; [by rewrite Hv|].
  pose proof (form_items _ _ Hf) as Hne. split.
  - destruct (item_data _) as [|i l] eqn:El; [done|]. exists (ii_item_id i).
    destruct (Hitems (ii_item_id i)) as (j & _ & _ & di & Hdi & _); [by left|]. simpl. rewrite Hdi. eauto.
  - intros id di Hdi. simpl in Hdi. destruct (decide (id ∈ ii_item_id <$> item_data (read_rows (verify_form_row (work s)) (df_rows f))))
      as [Hin|Hout]; [|by rewrite Hgone in Hdi].
    destruct (Hitems id Hin) as (i & Hi & <- & dj & Hdj & Hl & Hsv & _). rewrite Hdj in Hdi. injection Hdi as ->.
    split; [done|]. intros _ it Hit. destruct (item_data_row _ _ _ Hf Hi) as (z & r & Hrow).
    apply verified_info in Hrow as [Hcat _]. rewrite (Hcat it Hit).
    apply stored_line_spec in Hl as (_ & -> & _); [done|apply info_line_funds].
Qed.

Lemma delete_step {fixed} don s s' :
  run_ok (delete_donation cx don) s tt s' → donations_ok fixed (work s) →
  donation_step fixed don (work s) (work s') ∧ committed s' = work s'.
Proof.
  intros Hrun Hok. apply delete_donation_effect in Hrun as (dn & Hdn & Hst & Hno & ->); [|by eapply donations_ok_keyed].
  destruct (open_donation _ _ _ Hok Hdn Hst) as (HE & _). split; [|done]. cbn [work commit_session upd_work].
  assert (only_donation don (work s) (set_db_donation (delete don (db_donation (work s))) (work s))) as Honly.
  { split_and!; try done. intros k Hk. by apply lookup_delete_ne. }
  assert (db_donation (set_db_donation (delete don (db_donation (work s))) (work s)) !! don = None) as Hnone
    by apply lookup_delete_eq.
  split; [done|]. split; [by eapply ch_deleted|]. apply (donations_ok_change _ _ _ Honly Hok).
  - exact (donations_ok_rows (work s) don Hok).
  - intros id [x Hx]. simpl in Hx. by rewrite Hno in Hx.
  - intros x. by rewrite Hnone.
Qed.

Lemma item_step {fixed} don id s s' o :
  item_effect don id s s' o → donations_ok fixed (work s) →
  donation_step fixed don (work s) (work s') ∧ committed s' = work s'.
Proof.
  intros ((dn & Hdn & Hst) & Ho & ->) Hok. destruct (open_donation _ _ _ Hok Hdn Hst) as (HE & Hnv & Hkey).
  split; [|done]. cbn [work commit_session upd_work]. match goal with |- donation_step fixed _ _ ?x => set (d' := x) end.
  assert (only_donation don (work s) d') as Honly.
  { split_and!; try done. intros [k i] Hk. simpl. apply lookup_partial_alter_ne. intros [=]. done. }
  split; [done|]. split; [by eapply ch_edited|]. apply (donations_ok_change _ _ _ Honly Hok).
  - intros i di. unfold d'. simpl. destruct (decide (i = id)) as [->|Hne].
    + rewrite lookup_partial_alter_eq. apply Ho.
    + rewrite lookup_partial_alter_ne by congruence. eapply donations_ok_rows, Hok.
  - intros i _. unfold d'. simpl. rewrite Hdn. eauto.
  - intros x. unfold d'. simpl. rewrite Hdn. intros [= <-]. split; [done|].
    split; [exact (proj1 (proj2 (proj2 Hok _ _ Hdn)))|by left].
Qed.

Lemma request_step {fixed} m s s' :
  donation_request m → run_ok m s tt s' → donations_ok fixed (work s) →
  ∃ don, donation_step fixed don (work s) (work s') ∧ committed s' = work s'.
Proof.
  intros Hm Hrun Hok. destruct Hm as [f|don f|don|don t|don id t|don id|don f].
  - eexists. by eapply create_step.
  - eexists. by eapply edit_step.
  - eexists. by eapply delete_step.
  - apply add_item_effect in Hrun as (id & _ & di & _ & _ & _ & _ & _ & _ & He). eexists. by eapply item_step.
  - apply edit_item_effect in Hrun as (_ & _ & di & _ & _ & _ & _ & _ & _ & _ & He); [|by eapply donations_ok_rows].
    eexists. by eapply item_step.
  - apply delete_item_effect in Hrun. eexists. by eapply item_step.
  - eexists. by eapply verify_step.
Qed.

(** A refused request stores nothing. *)
Lemma request_clean m : donation_request m → fails_clean m.
Proof.
  assert (∀ key, no_commit (guard cx key)) as Hg by (intros key s; unfold guard; by destruct (feature_required _ _ _).2).
  assert (no_commit (audit_user cx)) as Ha by (intros s; unfold audit_user; by destruct (_ ≫= _)).
  assert (∀ don uid ups, no_commit (save_documents cx don uid ups)) as Hs.
  { intros. unfold save_documents, flush_doc. no_commit_tac. }
  intros [f|don f|don|don t|don id t|don id|don f];
    unfold create_donation, edit_donation, delete_donation, add_donation_item, edit_donation_item,
      delete_donation_item, verify_donation_detail, edit_item, verify_donation_item, find_donation, find_item,
      not_verified, raise_errors, insert_donation, insert_item, delete_item, flush_donation, flush_item;
    repeat first [progress clean_tac | apply fc_or_rollback].
Qed.
End requests.

(** * The intake side *)

Section intake.
Context `{R : Runtime} (cx : IntakeCtx).

Lemma intake_items_nodup don wh d : keyed_intake_items d → NoDup (intake_items_of don wh d).
Proof.
  intros Hk. apply NoDup_filter. rewrite dnintake_item_rows_perm. apply NoDup_fmap_2_strong; [|apply NoDup_map_to_list].
  intros [k1 v1] [k2 v2] H1 H2 Heq. simpl in Heq. subst. apply elem_of_map_to_list in H1, H2.
  pose proof (Hk _ _ H1). pose proof (Hk _ _ H2). simpl in *. congruence.
Qed.

(** The donated goods by the type they were given as. *)
Lemma goods_of_donation don dn d g :
  donations_ok true d → db_donation d !! don = Some dn → verified_status dn →
  g ∈ goods_items don d ↔
  db_donation_item d !! (don, di_item_id g.1) = Some g.1 ∧ db_item d !! di_item_id g.1 = Some g.2 ∧
  dl_donation_type (di_line g.1) = "GOODS"%string.
Proof.
  intros Hok Hdn Hvp. pose proof (donations_ok_keyed d Hok) as Hk.
  assert (∀ di it, db_donation_item d !! (don, di_item_id di) = Some di → db_item d !! di_item_id di = Some it →
    it_category_type it = dl_donation_type (di_line di)) as Hcat.
  { intros di it Hdi Hit. destruct Hok as [_ Hd]. destruct (Hd _ _ Hdn) as (_ & _ & [[He _]|(_ & _ & _ & Hall)]).
    - destruct Hvp as [Hv|Hp]; rewrite He in *; done.
    - destruct (Hall _ _ Hdi) as [_ H]. by apply H. }
  unfold goods_items. rewrite list_elem_of_omap. split.
  - intros (di & Hin & Hg). apply list_elem_of_filter in Hin as [Hd Hin].
    apply elem_of_donation_item_rows in Hin as [k Hin]. pose proof (Hk _ _ Hin) as Hpk. simpl in Hpk.
    rewrite <- Hpk, Hd in Hin. destruct (db_item d !! di_item_id di) as [it|] eqn:Hit; [|done].
    case_bool_decide as Hc; [|done]. injection Hg as <-. simpl. split_and!; [done|done|]. by rewrite <- (Hcat di it).
  - intros (Hdi & Hit & Hty). exists g.1. split.
    + apply list_elem_of_filter. pose proof (Hk _ _ Hdi) as Hpk. simpl in Hpk. split; [congruence|].
      apply elem_of_donation_item_rows. eauto.
    + rewrite Hit, bool_decide_eq_true_2 by (by rewrite (Hcat g.1 g.2)). by destruct g.
Qed.

(** An entry replaces the items of one intake by the donated goods. *)
Lemma entry_lifecycle {fixed} don wh draft s s' :
  run_ok (intake_form cx don wh draft) s tt s' → lifecycle_ok fixed (work s) → lifecycle_ok fixed (work s').
Proof.
  intros Hrun [Hok (K1 & K2 & K3 & K4)].
  apply intake_form_run in Hrun as (dn & w & Hdn & _ & _ & Hst & _ & Hrun).
  apply entry_run in Hrun as (day & uid & He & _ & _ & ->). cbn [work commit_session upd_work].
  set (rows := entry_rows cx (goods_items don (work s))).
  set (existing := db_dnintake (work s) !! (don, wh)). set (d' := entered cx don wh existing draft day uid rows (work s)).
  assert (donations_keyed (work s)) as Hkeyed by (split; [by eapply donations_ok_keyed|done]).
  pose proof (goods_nodup don (work s) (proj1 Hkeyed)) as Hnd.
  pose proof (entry_rows_nodup cx _ Hnd) as Hrows.
  pose proof (no_intake_no_items don wh (work s) K3) as Hclean.
  pose proof (entered_items cx don wh existing draft day uid rows (work s) Hclean Hrows) as Hitems. fold d' in Hitems.
  pose proof (entered_stock cx don wh existing draft day uid rows (work s)) as (_ & _ & Hd & Hdi & Hit & _).
  fold d' in Hd, Hdi, Hit.
  destruct (entered_header cx don wh existing draft day uid rows (work s) eq_refl Hkeyed) as [(kn & Hkn & _) Hother].
  fold d' in Hkn, Hother.
  assert (∀ k, (k.1.1.1, k.1.1.2) ≠ (don, wh) → db_dnintake_item d' !! k = db_dnintake_item (work s) !! k) as Hsame
    by (intros; by apply entered_items_other).
  assert (verified_status dn) as Hvp by (by left).
  assert (keyed_intake_items d') as Hki' by (by apply entered_keyed_items).
  assert (keyed_intakes d') as Hkd'.
  { intros [a b] v Hv. destruct (decide ((a, b) = (don, wh))) as [Heq|Hne].
    - revert Hv. unfold d', entered.
      assert (∀ x, db_dnintake (effects (λ e, put_intake_item (new_intake_item cx don wh uid e)) rows x) = db_dnintake x) as Hf.
      { intros x. pose proof (put_items_frame (new_intake_item cx don wh uid) rows x) as H. unfold put_items in H. by rewrite H. }
      rewrite Hf. unfold existing. destruct (db_dnintake (work s) !! (don, wh)) as [ex|] eqn:Hex; simpl.
      + pose proof (K1 _ _ Hex) as Hpk. simpl in Hpk. rewrite Heq, Hpk, lookup_insert_eq. intros [= <-]. exact Hpk.
      + rewrite Heq, lookup_insert_eq. by intros [= <-].
    - rewrite Hother in Hv by done. by apply K1. }
  split.
  - destruct Hok as [Hi Hdon]. split.
    + intros a id di. rewrite Hdi, Hd. unfold row_ok. rewrite Hit. apply Hi.
    + intros a x. rewrite Hd. unfold donation_ok. rewrite Hdi, Hit. apply Hdon.
  - split_and!; [done|done| |].
    + intros k v Hv. pose proof (Hki' k v Hv) as Hpk. simpl in Hpk.
      destruct (decide ((ki_donation_id v, ki_inventory_id v) = (don, wh))) as [->|Hne]; [eauto|].
      rewrite Hother by done. apply (K3 k). rewrite <- Hsame; [done|]. by rewrite <- Hpk.
    + intros a b Hs. destruct (decide ((a, b) = (don, wh))) as [[= -> ->]|Hne].
      * split; [exists dn; by rewrite Hd|]. intros Hfix. rewrite Hfix in *. unfold intake_matches. setoid_rewrite Hitems. rewrite Hdi. split_and!.
        -- intros v1 v2 (e1 & H1 & ->) (e2 & H2 & ->) Heq. simpl in Heq. f_equal.
           by apply (NoDup_fmap_inj_elem ed_item_id rows).
        -- intros v (e & Hin & ->). destruct (entry_rows_goods cx _ e Hin) as (g & Hg & Hid & _).
           destruct (entry_complete cx _ g Hnd He Hg) as (e' & Hin' & Hid' & _ & Htot).
           assert (e' = e) as -> by (apply (NoDup_fmap_inj_elem ed_item_id rows); [done..|congruence]).
           pose proof (proj1 (goods_of_donation don dn (work s) g Hok Hdn Hvp) Hg) as (Hdi' & _ & Hty).
           exists g.1. simpl. rewrite Hid. by split_and!.
        -- intros id di Hdi' Hty. destruct (proj1 Hok _ _ _ Hdi') as ((_ & Hid & _ & _ & [it Hit']) & _). subst id.
           assert ((di, it) ∈ goods_items don (work s)) as Hg by (by apply (goods_of_donation don dn)).
           destruct (entry_complete cx _ _ Hnd He Hg) as (e & Hin & Hid' & _).
           exists (new_intake_item cx don wh uid e). split; [eauto|done].
      * rewrite Hother in Hs by done. destruct (K4 a b Hs) as [Hdon Hm]. rewrite Hd. split; [done|].
        intros Hfix. destruct (Hm Hfix) as (Hinj & Hin & Hcov).
        assert (∀ v, v ∈ intake_items_of a b d' ↔ v ∈ intake_items_of a b (work s)) as Hiff.
        { intros v. rewrite !elem_of_intake_items. split; intros [[<- <-] [k Hv]]; (split; [done|exists k]).
          - rewrite <- Hsame; [done|]. by rewrite <- (Hki' k v Hv).
          - rewrite Hsame; [done|]. by rewrite <- (K2 k v Hv). }
        unfold intake_matches. setoid_rewrite Hiff. rewrite Hdi. by split_and!.
Qed.

(** ** Verification *)

Abbreviation receive wh uid := (effects (stock_eff cx wh uid)).

Lemma stock_eff_items_map wh uid v d :
  db_dnintake_item (stock_eff cx wh uid v d) =
  <[intake_item_pk (verified_item cx uid v) := verified_item cx uid v]>
    (delete (intake_item_pk (vd_intake_item v)) (db_dnintake_item d)).
Proof.
  rewrite stock_eff_items. unfold rewrite_eff, put_intake_item. simpl. case_bool_decide as Heq; [|done].
  assert (intake_item_pk (verified_item cx uid v) = intake_item_pk (vd_intake_item v)) as ->
    by (unfold intake_item_pk; simpl; by rewrite Heq).
  by rewrite insert_delete_eq.
Qed.

(** After the verified rows, an intake item is one of them, or an earlier one they do
    not replace. *)
Lemma receive_items_inv wh uid rows d k w :
  db_dnintake_item (receive wh uid rows d) !! k = Some w →
  (∃ v, v ∈ rows ∧ w = verified_item cx uid v ∧ k = intake_item_pk w) ∨
  (db_dnintake_item d !! k = Some w ∧ ∀ v, v ∈ rows → k ≠ intake_item_pk (vd_intake_item v)).
Proof.
  revert d. induction rows as [|v rows IH]; intros d Hw; simpl in Hw; [right; split; [done|set_solver]|].
  destruct (IH _ Hw) as [(u & Hu & ? & ?)|[Hd Hno]].
  - left. exists u. split_and!; [by right|done|done].
  - rewrite stock_eff_items_map, lookup_insert in Hd. case_decide as Hk.
    + injection Hd as <-. left. exists v. split_and!; [by left|done|done].
    + rewrite lookup_delete in Hd. case_decide as Hk'; [done|]. right. split; [done|].
      intros u [->|Hu]%elem_of_cons; [done|by apply Hno].
Qed.

Lemma receive_items_site wh uid rows d k don :
  (∀ v, v ∈ rows → ki_donation_id (vd_intake_item v) = don ∧ ki_inventory_id (vd_intake_item v) = wh) →
  (k.1.1.1, k.1.1.2) ≠ (don, wh) → db_dnintake_item (receive wh uid rows d) !! k = db_dnintake_item d !! k.
Proof.
  revert d. induction rows as [|v rows IH]; intros d Hall Hk; simpl; [done|].
  rewrite IH by (try done; intros; apply Hall; by right).
  destruct (Hall v) as [Hd Hw]; [by left|].
  rewrite stock_eff_items_map, lookup_insert_ne, lookup_delete_ne; [done|..];
    intros <-; apply Hk; unfold intake_item_pk; simpl; by rewrite Hd, Hw.
Qed.

Lemma receive_tables wh uid rows d :
  db_donation_item (receive wh uid rows d) = db_donation_item d ∧ db_item (receive wh uid rows d) = db_item d.
Proof.
  revert d. induction rows as [|v rows IH]; intros d; simpl; [done|]. destruct (IH (stock_eff cx wh uid v d)) as [-> ->].
  unfold stock_eff, inventory_eff, batch_eff, rewrite_eff. by repeat case_match.
Qed.

Lemma verify_lifecycle {fixed} don wh s s' :
  run_ok (verify_intake cx don wh) s tt s' → lifecycle_ok fixed (work s) → lifecycle_ok fixed (work s').
Proof.
  intros Hrun [Hok (K1 & K2 & K3 & K4)].
  apply verify_intake_effect in Hrun as (k & dn & uid & Hk & Hdn & [Hk1 Hk2] & _ & He & ->); [|done].
  cbn [work commit_session upd_work].
  set (rows := verified_rows cx (work s) don wh) in *. set (d0 := put_intake (verified_intake cx uid k) (work s)) in *.
  destruct (K4 don wh) as [(dn' & Hdn' & Hvp) Hm]; [eauto|]. rewrite Hdn in Hdn'. injection Hdn' as <-.
  pose proof (verified_rows_all cx (work s) don wh He) as Hall. fold rows in Hall.
  assert (∀ v, v ∈ rows → vd_intake_item v ∈ intake_items_of don wh (work s) ∧ row_sound v) as Hsound
    by (intros; by apply verified_rows_sound with cx).
  assert (∀ v, v ∈ rows → ki_donation_id (vd_intake_item v) = don ∧ ki_inventory_id (vd_intake_item v) = wh) as Hsite.
  { intros v Hv. destruct (Hsound v Hv) as [Hi _]. by apply elem_of_intake_items in Hi as [? _]. }
  destruct (receive_frame cx wh uid rows d0) as (_ & _ & Hdk & Hdd).
  destruct (receive_tables wh uid rows d0) as [Hdi Hit].
  set (d1 := receive wh uid rows d0) in *.
  set (d' := set_db_donation (<[don := processed_donation cx uid dn]> (db_donation d1)) d1).
  assert (db_dnintake d' = <[(don, wh) := verified_intake cx uid k]> (db_dnintake (work s))) as Hdk'.
  { change (db_dnintake d') with (db_dnintake d1). rewrite Hdk. unfold d0, put_intake. simpl. by rewrite Hk1, Hk2. }
  assert (∀ a, a ≠ don → db_donation d' !! a = db_donation (work s) !! a) as Hdd'.
  { intros a Ha. simpl. rewrite lookup_insert_ne by done. by rewrite Hdd. }
  assert (keyed_intake_items d') as Hki'.
  { intros x w Hw. apply receive_items_inv in Hw as [(v & _ & _ & ->)|[Hw _]]; [done|by apply (K2 x w)]. }
  (* the items of an intake, before and after *)
  assert (∀ a b w, (a, b) ≠ (don, wh) → w ∈ intake_items_of a b d' ↔ w ∈ intake_items_of a b (work s)) as Hother.
  { intros a b w Hne. rewrite !elem_of_intake_items. split; intros [[<- <-] [x Hw]]; (split; [done|exists x]).
    - change (db_dnintake_item d' !! x) with (db_dnintake_item d1 !! x) in Hw. unfold d1 in Hw.
      rewrite (receive_items_site wh uid rows d0 x don) in Hw; [done|done|]. by rewrite <- (Hki' x w Hw).
    - change (db_dnintake_item d' !! x) with (db_dnintake_item d1 !! x). unfold d1.
      rewrite (receive_items_site wh uid rows d0 x don); [done|done|]. by rewrite <- (K2 x w Hw). }
  assert (∀ w, w ∈ intake_items_of don wh d' → ∃ v, v ∈ rows ∧ w = verified_item cx uid v) as Hthis.
  { intros w Hw. apply elem_of_intake_items in Hw as [[Hd Hw'] [x Hw]].
    apply receive_items_inv in Hw as [(v & Hv & -> & _)|[Hw Hno]]; [eauto|]. exfalso.
    assert (w ∈ intake_items_of don wh (work s)) as Hi by (apply elem_of_intake_items; eauto).
    rewrite <- Hall in Hi. apply list_elem_of_fmap in Hi as (v & -> & Hv). apply (Hno v Hv). symmetry. by apply (K2 x _ Hw). }
  assert (db_donation d' !! don = Some (processed_donation cx uid dn)) as Hnew by (simpl; apply lookup_insert_eq).
  split.
  - destruct Hok as [Hi Hdon]. split.
    + intros a id di Hx. change (db_donation_item d1 !! (a, id) = Some di) in Hx. rewrite Hdi in Hx.
      destruct (Hi a id di Hx) as [Hrow Hfk].
      split; [unfold row_ok; change (db_item d') with (db_item d1); by rewrite Hit|].
      destruct (decide (a = don)) as [->|Ha]; [rewrite Hnew; eauto|by rewrite Hdd'].
    + intros a x Hx. unfold donation_ok. change (db_donation_item d') with (db_donation_item d1).
      change (db_item d') with (db_item d1). rewrite Hdi, Hit.
      destruct (decide (a = don)) as [->|Ha]; [|rewrite Hdd' in Hx by done; by apply Hdon].
      rewrite Hnew in Hx. injection Hx as <-. destruct (Hdon don dn Hdn) as (Hid & Hh & [[HE _]|(_ & H)]).
      * destruct Hvp as [Hv|Hp]; rewrite HE in *; done.
      * split; [done|]. split; [done|]. right. split; [by right|done].
  - split_and!; [|done| |].
    + unfold keyed_intakes. rewrite Hdk'. apply map_Forall_insert_2; [simpl; by rewrite Hk1, Hk2|done].
    + intros x w Hw. rewrite Hdk'. destruct (decide ((don, wh) = (ki_donation_id w, ki_inventory_id w))) as [<-|Hne].
      { rewrite lookup_insert_eq. eauto. }
      rewrite lookup_insert_ne by done. apply (K3 x). apply receive_items_inv in Hw as [(v & Hv & -> & _)|[Hw _]]; [|done].
      exfalso. apply Hne. destruct (Hsite v Hv) as [<- <-]. done.
    + intros a b Hs. destruct (decide ((a, b) = (don, wh))) as [[= -> ->]|Hne].
      * split; [eexists; split; [exact Hnew|by right]|]. intros Hfix. destruct (Hm Hfix) as (Hinj & Hin & Hcov).
        assert (NoDup ((λ v, ki_item_id (vd_intake_item v)) <$> rows)) as Hnd.
        { assert (NoDup (ki_item_id <$> intake_items_of don wh (work s))) as Hnd.
          { apply NoDup_fmap_2_strong; [|by apply intake_items_nodup]. intros; by apply Hinj. }
          rewrite <- Hall, <- list_fmap_compose in Hnd. exact Hnd. }
        change (db_donation_item d') with (db_donation_item d1) in *. split_and!.
        -- intros w1 w2 H1 H2 Heq. destruct (Hthis _ H1) as (v1 & Hv1 & ->), (Hthis _ H2) as (v2 & Hv2 & ->).
           f_equal. simpl in Heq. by apply (NoDup_fmap_inj_elem (λ v, ki_item_id (vd_intake_item v)) rows).
        -- intros w Hw. destruct (Hthis _ Hw) as (v & Hv & ->). destruct (Hsound v Hv) as [Hi (_ & _ & _ & Hsum)].
           destruct (Hin _ Hi) as (di & Hx & Hty & Htot). exists di. change (db_donation_item d') with (db_donation_item d1). rewrite Hdi. split_and!; [done|done|]. rewrite <- Htot, <- Hsum. done.
        -- intros id di Hx Hty. change (db_donation_item d1 !! (don, id) = Some di) in Hx. rewrite Hdi in Hx.
           destruct (Hcov id di Hx Hty) as (u & Hu & <-). rewrite <- Hall in Hu.
           apply list_elem_of_fmap in Hu as (v & -> & Hv). exists (verified_item cx uid v). split; [|done].
           apply elem_of_intake_items. split; [apply (Hsite v Hv)|].
           exists (intake_item_pk (verified_item cx uid v)). exact (receive_items_elem cx wh uid rows d0 v Hnd Hv).
      * rewrite Hdk', lookup_insert_ne in Hs by done. destruct (K4 a b Hs) as [(x & Hx & Hxv) Hm'].
        split.
        { destruct (decide (a = don)) as [->|Ha]; [eexists; split; [exact Hnew|by right]|exists x; by rewrite Hdd']. }
        intros Hfix. destruct (Hm' Hfix) as (Hinj' & Hin' & Hcov').
        unfold intake_matches. setoid_rewrite Hother; [|done..].
        change (db_donation_item d') with (db_donation_item d1). rewrite Hdi. by split_and!.
Qed.
End intake.
