(* ===== verification/DonationTheorems.v ===== *)
(** What the donation module promises: what an accepted form stores, that verified
    donations are frozen, that a stale form is refused, and the invariants of the
    donation tables along any sequence of donation and intake requests. *)
From stdpp Require Import strings.
From S2P Require Import Prelude PyStr ParamValidation Schema Columns Atomicity AccessControl Ledger Fixtures DonationIntake DonationIntakeProofs DonationVerifyProofs DonationIntakeTheorems Donations DonationsProofs DonationEffects DonationLifecycle.

(** * The rows of a form and the items they become *)

(** The form lists item [id] in row [r]. *)
Definition listed (f : DonationForm) (id : Z) (r : RowForm) : Prop :=
  r ∈ df_rows f ∧ ∃ i, wf_item_id r = Some i ∧ i ≠ ""%string ∧ py_int i = Some id.

(** The item holds what the row says, to the cent; FUNDS count one. *)
Definition row_line (r : RowForm) (l : DonationLine) : Prop :=
  dl_donation_type l = row_type r ∧
  (if bool_decide (row_type r = "FUNDS"%string) then dl_item_qty l = UNIT
   else ∃ q, wf_quantity r = Num q ∧ 0 ≤ q ∧ numeric 9 q = Some (dl_item_qty l)) ∧
  (∃ c, item_cost_of (wf_item_cost r) = Some c ∧ 0 ≤ c ∧ numeric 10 c = Some (dl_item_cost l)) ∧
  dl_uom_code l = (if bool_decide (row_type r = "GOODS"%string) then wf_uom_id r else None) ∧
  dl_currency_code l = (if bool_decide (row_type r = "FUNDS"%string) then wf_currency_code r else None).

Lemma seen_rows_sound i r b seen rows :
  (i, r, b) ∈ seen_rows seen rows → r ∈ rows ∧ wf_item_id r = Some i ∧ i ≠ ""%string.
Proof.
  revert seen. induction rows as [|x rows IH]; intros seen; simpl; [set_solver|].
  destruct (wf_item_id x) as [j|] eqn:Hj; [|intros H; destruct (IH _ H) as (? & ? & ?); split_and!; [by right|done..]].
  repeat case_bool_decide.
  - intros H'. destruct (IH _ H') as (? & ? & ?). split_and!; [by right|done..].
  - intros [[= -> -> ->]|H']%elem_of_cons; [split_and!; [by left|done|done]|].
    destruct (IH _ H') as (? & ? & ?). split_and!; [by right|done..].
  - intros [[= -> -> ->]|H']%elem_of_cons; [split_and!; [by left|done|done]|].
    destruct (IH _ H') as (? & ? & ?). split_and!; [by right|done..].
Qed.

Lemma seen_rows_complete i r seen rows :
  r ∈ rows → wf_item_id r = Some i → i ≠ ""%string → ∃ b, (i, r, b) ∈ seen_rows seen rows.
Proof.
  intros Hr Hi Hne. revert seen. induction rows as [|x rows IH]; intros seen; [set_solver|]. simpl.
  apply elem_of_cons in Hr as [<-|Hr].
  - rewrite Hi, bool_decide_eq_false_2 by done. case_bool_decide; eexists; by left.
  - destruct (wf_item_id x) as [j|]; [|by apply IH]. repeat case_bool_decide; [by apply IH|..];
      edestruct IH as [b Hb]; try done; exists b; by right.
Qed.

(** Without errors, the items are those of the rows with an item. *)
Lemma accepted_rows check rows i :
  form_errors (read_rows check rows) = [] →
  i ∈ item_data (read_rows check rows) ↔
  ∃ r id, r ∈ rows ∧ wf_item_id r = Some id ∧ id ≠ ""%string ∧ check id r = ([], Some i).
Proof.
  intros Hf. pose proof Hf as He. unfold form_errors in He. rewrite app_nil in He. destruct He as [He _].
  apply concat_nil_Forall in He. rewrite Forall_forall in He.
  assert (∀ x, x ∈ read_rows check rows → x.1 = []) as Hno by (intros x Hx; apply He; by apply (list_elem_of_fmap_2 fst)).
  unfold item_data. rewrite list_elem_of_omap. split.
  - intros (x & Hx & Hs). pose proof (Hno x Hx) as H1. unfold read_rows in Hx.
    apply list_elem_of_fmap in Hx as ([[id r] b] & -> & Hin). destruct b; [done|]. simpl in *.
    destruct (seen_rows_sound _ _ _ _ _ Hin) as (? & ? & ?). exists r, id. split_and!; [done..|].
    destruct (check id r); simpl in *. by subst.
  - intros (r & id & Hr & Hid & Hne & Hc). destruct (seen_rows_complete id r [] rows Hr Hid Hne) as [b Hb].
    assert ((if b then ([DuplicateItem], None) else check id r) ∈ read_rows check rows) as Hin.
    { unfold read_rows. apply list_elem_of_fmap. by exists (id, r, b). }
    pose proof (Hno _ Hin) as H1. destruct b; [done|]. rewrite Hc in Hin. by exists ([], Some i).
Qed.

(** … and none of them has an error. *)
Lemma accepted_row_clean check rows r id :
  form_errors (read_rows check rows) = [] → r ∈ rows → wf_item_id r = Some id → id ≠ ""%string → (check id r).1 = [].
Proof.
  intros Hf Hr Hid Hne. unfold form_errors in Hf. rewrite app_nil in Hf. destruct Hf as [He _].
  apply concat_nil_Forall in He. rewrite Forall_forall in He.
  destruct (seen_rows_complete id r [] rows Hr Hid Hne) as [b Hb].
  assert ((if b then ([DuplicateItem], None) else check id r) ∈ read_rows check rows) as Hin.
  { unfold read_rows. apply list_elem_of_fmap. by exists (id, r, b). }
  specialize (He _ (list_elem_of_fmap_2 fst _ _ Hin)). by destruct b.
Qed.

Lemma row_info_total errs q c id r z :
  py_int id = Some z → (add_errors errs (row_info q c id r)).1 = [] →
  ∃ i, add_errors errs (row_info q c id r) = ([], Some i) ∧ ii_item_id i = z.
Proof. unfold add_errors, row_info. intros ->. simpl. rewrite app_nil_r. intros ->. by eexists. Qed.

Section rows.
Context (cx : DonationCtx).

Lemma created_info id r i :
  create_row id r = ([], Some i) →
  row_type r ∈ ["GOODS"; "FUNDS"]%string ∧ ii_donation_type i = row_type r ∧ py_int id = Some (ii_item_id i) ∧
  wf_quantity r = Num (ii_quantity i) ∧ 0 ≤ ii_quantity i ∧
  item_cost_of (wf_item_cost r) = Some (ii_item_cost i) ∧ 0 ≤ ii_item_cost i ∧
  ii_uom_code i = (if bool_decide (row_type r = "GOODS"%string) then wf_uom_id r else None) ∧
  ii_currency_code i = (if bool_decide (row_type r = "FUNDS"%string) then wf_currency_code r else None).
Proof.
  intros H. apply row_info_spec in H as (He & Hid & Hty & Hq & Hc & Hu & Hcur). revert He. rewrite !app_nil.
  intros (Ht & Hqe & Hce & _). unfold type_errors in Ht. rewrite unless_nil in Ht. z_bool.
  unfold quantity_errors in Hqe. destruct (quantity_missing _); [done|]. unfold item_cost_errors in Hce.
  destruct (wf_quantity r) as [| | | | |q]; try done. simpl in *.
  destruct (item_cost_of (wf_item_cost r)) as [c|]; [|done]. simpl in *. rewrite when_nil in *. z_bool. subst.
  by split_and!.
Qed.

Lemma verified_as_created d id r i : verify_form_row d id r = ([], Some i) → create_row id r = ([], Some i).
Proof.
  unfold verify_form_row, create_row, add_errors. destruct (row_info _ _ _ _) as [e o]. intros [= He ->].
  apply app_nil in He as [He ->]. revert He. rewrite !app_nil. intros (-> & -> & -> & _ & -> & _). done.
Qed.

Lemma info_row_line id r i loc l :
  create_row id r = ([], Some i) → stored_line cx (info_line loc i) = Some l → row_line r l.
Proof.
  intros H Hl. apply created_info in H as (_ & Hty & _ & Hq & Hq0 & Hc & Hc0 & Hu & Hcur).
  apply stored_line_spec in Hl as (Hsound & H1 & H2 & H3 & _ & _ & H4 & H5); [|apply info_line_funds].
  simpl in *. unfold row_line. rewrite H1, H2, H3, Hty, Hu, Hcur.
  split_and!; [done| |by eexists|done|done]. unfold info_quantity in H4. rewrite Hty in H4.
  case_bool_decide as Hf; [|by eexists]. destruct Hsound as (_ & _ & _ & Hfu). apply Hfu. by rewrite H1, Hty.
Qed.

End rows.

Section theorems.
Context `{R : Runtime} (cx : DonationCtx).

(** The amounts of the header are the form's, to the cent. *)
Definition header_of (f : DonationForm) (h : DonationHeader) : Prop :=
  (∃ q, df_tot_item_cost f = Num q ∧ 0 < q ∧ numeric 12 q = Some (dh_tot_item_cost h)) ∧
  (∃ q, cost_field (df_storage_cost f) = Some q ∧ 0 ≤ q ∧ numeric 12 q = Some (dh_storage_cost h)) ∧
  (∃ q, cost_field (df_haulage_cost f) = Some q ∧ 0 ≤ q ∧ numeric 12 q = Some (dh_haulage_cost h)) ∧
  (∃ q, cost_field (df_other_cost f) = Some q ∧ 0 ≤ q ∧ numeric 12 q = Some (dh_other_cost h)) ∧
  (df_donor_id f ≫= py_int) = Some (dh_donor_id h) ∧ (df_event_id f ≫= py_int) = Some (dh_event_id h) ∧
  df_received_date f = OnDay (dh_received_date h) ∧ dh_received_date h ≤ dc_today cx ∧
  dh_donation_desc h = upper (strip (df_donation_desc f)).

Lemma stored_header_of f d h h' :
  entry_header_errors cx f = [] → form_header cost_field f = Some h → stored_header cx d h = Some h' → header_of f h'.
Proof.
  intros He Hh Hs. pose proof (entry_header_given cx f h He Hh) as (_ & _ & Hday & Htot & H1 & H2 & H3).
  apply form_header_fields in Hh as (Hdesc & _ & Hr & Ha & Hb & Hc & Hd & Hdo & Hev & _).
  apply stored_header_spec in Hs as (Ea & _ & Eb & _ & Ec & _ & Ed & _ & _ & E1 & E2 & E3 & E4).
  unfold header_of. rewrite E1, E2, E3, E4. split_and!; [|by eexists..|done|done|done|done|done].
  unfold cost_field in Ha. destruct (df_tot_item_cost f) as [| | | | |q]; simplify_eq; try done; try lia. by eexists.
Qed.

(** an accepted donation form stores one new donation, entered and not verified,
    with the amounts of the form to the cent, and one pending item for each row that
    names an item, with the type, quantity (one for FUNDS), cost and unit of the row;
    every other donation and all intakes stay as they were.  A refused form stores
    nothing. *)
Theorem create_donation_correct fixed f s :
  donations_ok fixed (work s) →
  match create_donation cx f s with
  | (s', inl _) => committed s' = committed s
  | (s', inr _) =>
      let d := work s in let d' := work s' in let don := dc_new_id cx in
      committed s' = d' ∧ only_donation don d d' ∧ db_donation d !! don = None ∧
      (∃ dn, db_donation d' !! don = Some dn ∧ dn_status_code dn = "E"%string ∧ dn_verify_dtime dn = None ∧
         header_of f (dn_header dn)) ∧
      (∃ id r, listed f id r) ∧
      (∀ id r, listed f id r → ∃ di, db_donation_item d' !! (don, id) = Some di ∧ row_line r (di_line di) ∧
         di_status_code di = "P"%string ∧ di_verify_dtime di = None) ∧
      (∀ id, is_Some (db_donation_item d' !! (don, id)) → ∃ r, listed f id r)
  end.
Proof.
  intros Hok. destruct (create_donation cx f s) as [s' [e|[]]] eqn:Hrun.
  { pose proof (request_clean cx _ (dr_create cx f) s) as Hc. by rewrite Hrun in Hc. }
  pose proof Hrun as Hstep. eapply create_step in Hstep as [(Honly & _) Hcom]; [|done].
  apply create_effect in Hrun as (h & dn & t & docs & Hnone & _ & He & Hf & Hh & _ & Hnd & Hst & Hid & Hs & Hv & Hrep & _ & ->);
    [|intros id di Hdi; by apply (proj1 Hok) in Hdi as [_ ?]].
  destruct Hrep as (_ & Hgone & Hitems). cbv zeta. split; [done|]. split; [done|]. split; [done|].
  set (infos := item_data (read_rows create_row (df_rows f))) in *.
  split; [|split; [|split]].
  - exists dn. simpl. rewrite Hid, lookup_insert_eq. split_and!; [done..|]. by apply (stored_header_of f (work s) h).
  - pose proof (form_items _ _ Hf) as Hne. fold infos in Hne. destruct infos as [|i l] eqn:El; [done|].
    assert (i ∈ item_data (read_rows create_row (df_rows f))) as Hi by (fold infos; rewrite El; by left).
    apply accepted_rows in Hi as (r & id & Hr & Hid' & Hne' & Hc); [|done].
    apply created_info in Hc as (_ & _ & Hpy & _). exists (ii_item_id i), r. by split; [|exists id].
  - intros id r (Hr & z & Hz & Hne & Hpy).
    pose proof (accepted_row_clean _ _ r z Hf Hr Hz Hne) as Hclean.
    apply (row_info_total _ _ _ _ _ id Hpy) in Hclean as (i & Hi & <-). fold (create_row z r) in Hi.
    assert (i ∈ infos) as Hin by (apply accepted_rows; [done|by exists r, z]).
    destruct (Hitems (ii_item_id i)) as (j & Hj & Heq & di & Hdi & Hl & Hsc & _ & Hdt); [by apply list_elem_of_fmap_2|].
    assert (j = i) as -> by (by apply (NoDup_fmap_inj_elem ii_item_id infos)).
    exists di. split_and!; [done| |done|done]. by eapply info_row_line.
  - intros id [di Hdi]. simpl in Hdi. destruct (decide (id ∈ ii_item_id <$> infos)) as [Hin|Hout]; [|by rewrite Hgone in Hdi].
    apply list_elem_of_fmap in Hin as (i & -> & Hi). apply accepted_rows in Hi as (r & z & Hr & Hz & Hne & Hc); [|done].
    apply created_info in Hc as (_ & _ & Hpy & _). exists r. by split; [|exists z].
Qed.

(** a donation becomes verified only from an entered one, by an officer with
    access to verification whose form carries the stored version.  The header then
    has the amounts of the form, the items are exactly those the form lists, each
    with the data of its row and the type of its item's category, FUNDS with a
    positive cost; all of it verified by the officer now.  A refused form stores
    nothing. *)
Theorem verify_donation_correct fixed don f s :
  donations_ok fixed (work s) →
  match verify_donation_detail cx don f s with
  | (s', inl _) => committed s' = committed s
  | (s', inr _) =>
      let d := work s in let d' := work s' in
      committed s' = d' ∧ only_donation don d d' ∧
      has_access (dc_user cx) "donation_verification" = true ∧
      (∃ dn dn', db_donation d !! don = Some dn ∧ dn_status_code dn = "E"%string ∧
         form_version f = Some (version_nbr (dn_audit dn)) ∧
         db_donation d' !! don = Some dn' ∧ dn_status_code dn' = "V"%string ∧
         dn_verify_by_id dn' = get_user_name (dc_user cx) ∧ dn_verify_dtime dn' = Some (dc_now cx) ∧
         header_of f (dn_header dn')) ∧
      (∃ id r, listed f id r) ∧
      (∀ id, is_Some (db_donation_item d' !! (don, id)) ↔ ∃ r, listed f id r) ∧
      (∀ id di, db_donation_item d' !! (don, id) = Some di →
         di_status_code di = "V"%string ∧ di_verify_by_id di = get_user_name (dc_user cx) ∧
         di_verify_dtime di = Some (dc_now cx) ∧
         (∃ r, listed f id r ∧ row_line r (di_line di) ∧
            (row_type r = "FUNDS"%string → ∃ c, item_cost_of (wf_item_cost r) = Some c ∧ 0 < c)) ∧
         (∃ it, db_item d !! id = Some it ∧ it_category_type it = dl_donation_type (di_line di)))
  end.
Proof.
  intros Hok. destruct (verify_donation_detail cx don f s) as [s' [e|[]]] eqn:Hrun.
  { pose proof (request_clean cx _ (dr_verify cx don f) s) as Hc. by rewrite Hrun in Hc. }
  pose proof Hrun as Hstep. eapply verify_step in Hstep as [(Honly & _ & Hok') Hcom]; [|done].
  apply verify_effect in Hrun
    as (dn & h & dn' & t & docs & Hdn & HE & Hacc & Hver & He & Hf & Hh & Hsh & Hid & Hs & Hb & Hv & _ & Hrep & Hrows & ->);
    [|by eapply donations_ok_keyed|by eapply donations_ok_rows].
  destruct Hrep as (_ & Hgone & Hitems). pose proof (proj1 (proj2 Hok _ _ Hdn)) as Hkey. rewrite Hkey in Hid.
  cbv zeta. split; [done|]. split; [done|]. split; [done|].
  set (infos := item_data (read_rows (verify_form_row (work s)) (df_rows f))) in *.
  assert (∀ i, i ∈ infos → ∃ r z, listed f (ii_item_id i) r ∧ verify_form_row (work s) z r = ([], Some i)) as Hrow.
  { intros i Hi. apply accepted_rows in Hi as (r & z & Hr & Hz & Hne & Hc); [|done]. exists r, z. split; [|done].
    split; [done|]. exists z. split_and!; [done..|].
    by apply verified_as_created, created_info in Hc as (_ & _ & Hpy & _). }
  assert (∀ id r, listed f id r → id ∈ ii_item_id <$> infos) as Hlisted.
  { intros id r (Hr & z & Hz & Hne & Hpy). pose proof (accepted_row_clean _ _ r z Hf Hr Hz Hne) as Hclean.
    apply (row_info_total _ _ _ _ _ id Hpy) in Hclean as (i & Hi & <-). apply list_elem_of_fmap_2, accepted_rows; [done|].
    by exists r, z. }
  split; [|split; [|split]].
  - exists dn, dn'. simpl. rewrite Hid, lookup_insert_eq. split_and!; [done..|]. by apply (stored_header_of f (work s) h).
  - pose proof (form_items _ _ Hf) as Hne. fold infos in Hne. destruct infos as [|i l] eqn:El; [done|].
    destruct (Hrow i) as (r & _ & Hl & _); [by left|]. eauto.
  - intros id. simpl. split.
    + intros [di Hdi]. destruct (decide (id ∈ ii_item_id <$> infos)) as [Hin|Hout]; [|by rewrite Hgone in Hdi].
      apply list_elem_of_fmap in Hin as (i & -> & Hi). destruct (Hrow i Hi) as (r & _ & Hl & _). eauto.
    + intros [r Hl]. destruct (Hitems id (Hlisted id r Hl)) as (i & _ & _ & di & -> & _). eauto.
  - intros id di Hdi. simpl in Hdi.
    destruct (decide (id ∈ ii_item_id <$> infos)) as [Hin|Hout]; [|by rewrite Hgone in Hdi].
    destruct (Hitems id Hin) as (i & Hi & <- & dj & Hdj & Hl & Hsc & Hby & Hdt). rewrite Hdj in Hdi. injection Hdi as ->.
    destruct (Hrow i Hi) as (r & z & Hlr & Hc). split_and!; [done..| |].
    + exists r. split; [done|]. pose proof (verified_as_created _ _ _ _ Hc) as Hcr. split; [by eapply info_row_line|].
      intros Hfu. apply verified_info in Hc as (_ & _ & _ & _ & _ & Hpos).
      apply created_info in Hcr as (_ & Hty & _ & _ & _ & Hcost & _). exists (ii_item_cost i). split; [done|].
      apply Hpos. by rewrite Hty.
    + destruct (Hrows _ _ Hdj) as (_ & _ & _ & _ & [it Hit]). exists it. split; [done|].
      apply verified_info in Hc as (Hcat & _). rewrite (Hcat it Hit).
      apply stored_line_spec in Hl as (_ & -> & _); [done|apply info_line_funds].
Qed.

(** C13: a request about donations fails and stores nothing, or changes one donation
    and no intake; and that donation was new or still entered, and ends entered,
    deleted, or verified, which takes the verification page and access to it. *)
Theorem donation_request_step fixed m s :
  donation_request cx m → donations_ok fixed (work s) →
  match m s with
  | (s', inl _) => committed s' = committed s
  | (s', inr _) => committed s' = work s' ∧
      ∃ don, only_donation don (work s) (work s') ∧ changed cx don (work s) (work s')
  end.
Proof.
  intros Hm Hok. destruct (m s) as [s' [e|[]]] eqn:Hrun.
  - pose proof (request_clean cx m Hm s) as Hc. by rewrite Hrun in Hc.
  - destruct (request_step cx m s s' Hm Hrun Hok) as (don & (Honly & Hch & _) & Hcom). eauto.
Qed.
End theorems.

(** The version a successful edit or verification leaves. *)
Lemma version_bumped {fixed} `{R : Runtime} cx don f s s1 :
  donations_ok fixed (work s) →
  run_ok (edit_donation cx don f) s tt s1 ∨ run_ok (verify_donation_detail cx don f) s tt s1 →
  donations_ok fixed (work s1) ∧ ∃ dn dn', db_donation (work s) !! don = Some dn ∧ db_donation (work s1) !! don = Some dn' ∧
    version_nbr (dn_audit dn') = version_nbr (dn_audit dn) + dc_updates cx.
Proof.
  intros Hok [Hrun|Hrun].
  - split; [by eapply edit_step in Hrun as [(_ & _ & ?) _]|].
    apply edit_effect in Hrun as (dn & _ & dn' & t & Hdn & _ & _ & _ & _ & _ & _ & (Hid & _) & Hv & _ & _ & ->);
      [|by eapply donations_ok_keyed|by eapply donations_ok_rows].
    rewrite (proj1 (proj2 Hok _ _ Hdn)) in Hid. exists dn, dn'. split; [done|]. split; [|done].
    simpl. rewrite Hid. apply lookup_insert_eq.
  - split; [by eapply verify_step in Hrun as [(_ & _ & ?) _]|].
    apply verify_effect in Hrun
      as (dn & _ & dn' & t & docs & Hdn & _ & _ & _ & _ & _ & _ & _ & Hid & _ & _ & _ & Hv & _ & _ & ->);
      [|by eapply donations_ok_keyed|by eapply donations_ok_rows].
    rewrite (proj1 (proj2 Hok _ _ Hdn)) in Hid. exists dn, dn'. split; [done|]. split; [|done].
    simpl. rewrite Hid. apply lookup_insert_eq.
Qed.

Lemma safe_version_form f v : form_version f = Some v → 0 ≤ v → safe_version_number (df_version_nbr f) 0 = v.
Proof.
  unfold form_version, safe_version_number, safe_int, bounded_int. intros ->. simpl. lia.
Qed.

(** no update is lost.  After an edit or a verification of a donation, a form
    read before it is refused, by the edit page and the verification page, whoever
    sends it, and stores nothing. *)
Theorem stale_form_refused fixed `{R : Runtime} cx1 cx2 don f1 f2 s s1 :
  donations_ok fixed (work s) → 1 ≤ dc_updates cx1 →
  run_ok (edit_donation cx1 don f1) s tt s1 ∨ run_ok (verify_donation_detail cx1 don f1) s tt s1 →
  (∀ dn, db_donation (work s) !! don = Some dn →
     0 ≤ version_nbr (dn_audit dn) ∧ form_version f2 = Some (version_nbr (dn_audit dn))) →
  ((∃ e, (edit_donation cx2 don f2 s1).2 = inl e) ∧ committed (edit_donation cx2 don f2 s1).1 = committed s1) ∧
  ((∃ e, (verify_donation_detail cx2 don f2 s1).2 = inl e) ∧
   committed (verify_donation_detail cx2 don f2 s1).1 = committed s1).
Proof.
  intros Hok Hup Hrun Hv. apply (version_bumped (fixed := fixed)) in Hrun as (Hok1 & dn & dn' & Hdn & Hdn' & Hver); [|done].
  destruct (Hv _ Hdn) as [Hpos Hf2]. split.
  - pose proof (request_clean cx2 _ (dr_edit cx2 don f2) s1) as Hc.
    destruct (edit_donation cx2 don f2 s1) as [s2 [e|[]]] eqn:Hrun; [eauto|]. exfalso.
    apply edit_effect in Hrun as (x & _ & _ & _ & Hx & _ & Hsv & _);
      [|by eapply donations_ok_keyed|by eapply donations_ok_rows].
    rewrite Hdn' in Hx. injection Hx as <-. rewrite (safe_version_form _ _ Hf2 Hpos) in Hsv. lia.
  - pose proof (request_clean cx2 _ (dr_verify cx2 don f2) s1) as Hc.
    destruct (verify_donation_detail cx2 don f2 s1) as [s2 [e|[]]] eqn:Hrun; [eauto|]. exfalso.
    apply verify_effect in Hrun as (x & _ & _ & _ & _ & Hx & _ & _ & Hsv & _);
      [|by eapply donations_ok_keyed|by eapply donations_ok_rows].
    rewrite Hdn' in Hx. injection Hx as <-. rewrite Hf2 in Hsv. injection Hsv. lia.
Qed.

(** * The life of a donation *)

(** One request served, and stored if it succeeds: about donations or intakes, or any
    other that leaves their tables alone, adds items or edits them.  An item that is
    there stays; with [fixed] it also keeps its category, which [edit_item] of the
    catalogue (app/features/items.py) can change. *)
Inductive lifecycle_step (fixed : bool) `{R : Runtime} (d d' : DB) : Prop :=
| ls_donation cx m :
    donation_request cx m → d' = committed (m (session_of d)).1 → lifecycle_step fixed d d'
| ls_entry cx don wh draft :
    d' = committed (intake_form cx don wh draft (session_of d)).1 → lifecycle_step fixed d d'
| ls_verify cx don wh :
    d' = committed (verify_intake cx don wh (session_of d)).1 → lifecycle_step fixed d d'
| ls_other :
    db_donation d' = db_donation d → db_donation_item d' = db_donation_item d →
    db_dnintake d' = db_dnintake d → db_dnintake_item d' = db_dnintake_item d →
    (∀ id it, db_item d !! id = Some it → ∃ it', db_item d' !! id = Some it' ∧
       (fixed = true → it_category_type it' = it_category_type it)) → lifecycle_step fixed d d'.

Section lifecycle.
Context `{R : Runtime}.

Lemma lifecycle_ok_ext {fixed} d d' :
  db_donation d' = db_donation d → db_donation_item d' = db_donation_item d →
  db_dnintake d' = db_dnintake d → db_dnintake_item d' = db_dnintake_item d →
  (∀ id it, db_item d !! id = Some it → ∃ it', db_item d' !! id = Some it' ∧
     (fixed = true → it_category_type it' = it_category_type it)) → lifecycle_ok fixed d → lifecycle_ok fixed d'.
Proof.
  intros H1 H2 H4 H5 Hit [[Hi Hd] Hk]. split; [split|].
  - intros don id di. rewrite H1, H2. intros Hdi. destruct (Hi _ _ _ Hdi) as [(? & ? & ? & ? & [it Hx]) Hfk].
    split; [|done]. split_and!; try done. destruct (Hit _ _ Hx) as (it' & -> & _). by eexists.
  - intros don dn. rewrite H1. intros Hdn. destruct (Hd _ _ Hdn) as (Hid & Hh & Hst). split; [done|]. split; [done|].
    rewrite H2. destruct Hst as [He|(Hvp & Ht & Hs & Hall)]; [by left|]. right. split_and!; [done..|].
    intros id di Hdi. destruct (Hall _ _ Hdi) as [Hv Hcat]. split; [done|]. intros Hfix it' Hit'.
    destruct (Hi _ _ _ Hdi) as [(_ & _ & _ & _ & [it Hx]) _]. destruct (Hit _ _ Hx) as (it2 & Hit2 & Hc).
    rewrite Hit' in Hit2. injection Hit2 as <-. rewrite (Hc Hfix). by apply Hcat.
  - unfold intakes_ok, keyed_intakes, keyed_intake_items, intake_items_fk, intake_matches, intake_items_of in *.
    rewrite ?H1, ?H2, ?H4, ?H5; done.
Qed.

(** What a request stores is what it started from or what it ended with. *)
Lemma stored_of {E} (m : M Session E unit) d :
  fails_clean m → (∀ s', run_ok m (session_of d) tt s' → committed s' = work s') →
  committed (m (session_of d)).1 = d ∨
  ∃ s', run_ok m (session_of d) tt s' ∧ committed (m (session_of d)).1 = work s'.
Proof.
  intros Hc Hw. specialize (Hc (session_of d)). unfold run_ok in *.
  destruct (m (session_of d)) as [s' [e|[]]] eqn:Hm; [by left|]. right. exists s'. split; [done|]. by apply Hw.
Qed.

Lemma entry_commits cx don wh draft s s' : run_ok (intake_form cx don wh draft) s tt s' → committed s' = work s'.
Proof.
  intros Hrun. apply intake_form_run in Hrun as (? & ? & _ & _ & _ & _ & _ & Hrun).
  by apply entry_run in Hrun as (? & ? & _ & _ & _ & ->).
Qed.

Lemma verify_commits cx don wh s s' : run_ok (verify_intake cx don wh) s tt s' → committed s' = work s'.
Proof.
  intros Hrun. apply verify_intake_run in Hrun as (? & ? & _ & _ & _ & Hrun).
  by apply verify_run in Hrun as (? & _ & _ & _ & ->).
Qed.

(** A step, by what it did. *)
Lemma lifecycle_step_cases {fixed} d d' :
  lifecycle_ok fixed d → lifecycle_step fixed d d' →
  (db_donation d' = db_donation d ∧ db_donation_item d' = db_donation_item d ∧ lifecycle_ok fixed d') ∨
  (∃ cx don, donation_step cx fixed don d d') ∨
  (∃ don dn uid cx, db_donation d !! don = Some dn ∧ verified_status dn ∧ lifecycle_ok fixed d' ∧
     db_donation d' = <[don := processed_donation cx uid dn]> (db_donation d) ∧
     db_donation_item d' = db_donation_item d).
Proof.
  intros Hok [cx m Hm ->|cx don wh draft ->|cx don wh ->|H1 H2 H4 H5 Hit];
    [| | |left; split_and!; [done|done|by apply (lifecycle_ok_ext d)]].
  - destruct (stored_of m d (request_clean cx m Hm)) as [-> |(s' & Hrun & ->)].
    + intros s' Hrun. by apply (request_step (fixed := fixed) cx m _ _ Hm) in Hrun as (_ & _ & ?); [|apply Hok].
    + left. auto 10.
    + right; left. apply (request_step (fixed := fixed) cx m _ _ Hm) in Hrun as (don & Hs & _); [|apply Hok]. by exists cx, don.
  - destruct (stored_of _ d (intake_form_clean cx don wh draft)) as [-> |(s' & Hrun & ->)]; [by apply entry_commits|auto 10|].
    left. pose proof (entry_lifecycle cx don wh draft _ _ Hrun Hok) as Hok'.
    apply intake_form_run in Hrun as (? & ? & _ & _ & _ & _ & _ & Hrun).
    apply entry_run in Hrun as (day & uid & _ & _ & _ & ->). cbn [work commit_session upd_work session_of] in *.
    match goal with |- context [entered cx don wh ?ex draft day uid ?rows d] =>
      pose proof (entered_stock cx don wh ex draft day uid rows d) as (_ & _ & Hd & Hdi & _ & _) end.
    split_and!; [exact Hd|exact Hdi|exact Hok'].
  - destruct (stored_of _ d (verify_intake_clean cx don wh)) as [-> |(s' & Hrun & ->)]; [by apply verify_commits|auto 10|].
    right; right. pose proof (verify_lifecycle cx don wh _ _ Hrun Hok) as Hok'.
    destruct Hok as [_ (K1 & _ & _ & K4)].
    apply verify_intake_effect in Hrun as (k & dn & uid & Hk & Hdn & _ & _ & _ & ->); [|done].
    cbn [work commit_session upd_work session_of] in *. set (rows := verified_rows cx d don wh) in *.
    destruct (K4 don wh) as [(x & Hx & Hvp) _]; [eauto|]. rewrite Hdn in Hx. injection Hx as <-.
    destruct (receive_frame cx wh uid rows (put_intake (verified_intake cx uid k) d)) as (_ & _ & _ & Hd).
    destruct (receive_tables cx wh uid rows (put_intake (verified_intake cx uid k) d)) as [Hdi _].
    exists don, dn, uid, cx. split_and!; [done|done|exact Hok'| |exact Hdi].
    simpl. by rewrite Hd.
Qed.

Lemma lifecycle_step_ok {fixed} d d' : lifecycle_step fixed d d' → lifecycle_ok fixed d → lifecycle_ok fixed d'.
Proof.
  intros Hstep Hok. destruct (lifecycle_step_cases d d' Hok Hstep)
    as [(_ & _ & ?)|[(cx & don & Honly & Hch & Hd)|(_ & _ & _ & _ & _ & _ & ? & _)]]; [done| |done].
  split; [done|]. apply (intakes_ok_change don d d'); [done|apply Hok|]. intros dn. by apply (changed_open cx don d d').
Qed.

Lemma lifecycle_reach {fixed} d d' : reach (lifecycle_step fixed) d d' → lifecycle_ok fixed d → lifecycle_ok fixed d'.
Proof. apply reach_inv. intros a b. apply lifecycle_step_ok. Qed.

(** C11: along any sequence of requests, those that edit the catalogue included, the
    donation tables stay well typed: item rows belong to a donation and an item and hold
    whole cents within their columns, GOODS with a unit of measure and no currency,
    FUNDS with a currency, no unit and quantity one; costs are whole cents within their
    columns, another cost has a description; an item or donation carries a verification
    time exactly when it is verified; and a verified or processed donation has items,
    all verified.  Where no edit of the catalogue changes the category of an item
    ([fixed]) these are also of the category they were given as. *)
Theorem donations_well_typed fixed d d' :
  reach (lifecycle_step fixed) d d' → lifecycle_ok fixed d →
  (∀ don id di, db_donation_item d' !! (don, id) = Some di → row_ok d' don id di ∧ is_Some (db_donation d' !! don)) ∧
  (∀ don dn, db_donation d' !! don = Some dn → donation_ok fixed d' don dn).
Proof. intros Hr Hok. apply (lifecycle_reach _ _ Hr Hok). Qed.

(** C10: along any sequence of requests in which items keep their categories an intake belongs to a verified or processed
    donation, and its items are the donation's goods: one each, in exactly the
    donated quantity, however the verification splits it. *)
Theorem intakes_match_donations d d' don wh k :
  reach (lifecycle_step true) d d' → lifecycle_ok true d → db_dnintake d' !! (don, wh) = Some k →
  (∃ dn, db_donation d' !! don = Some dn ∧ verified_status dn) ∧ intake_matches don wh d'.
Proof.
  intros Hr Hok Hk. destruct (proj2 (lifecycle_reach _ _ Hr Hok)) as (_ & _ & _ & H).
  destruct (H don wh) as [Hv Hm]; [by eauto|]. split; [done|by apply Hm].
Qed.

(** What verification fixes of a donation. *)
Definition frozen (don : Z) (dn : Donation) (d d' : DB) : Prop :=
  (∃ dn', db_donation d' !! don = Some dn' ∧ dn_header dn' = dn_header dn ∧
     dn_verify_by_id dn' = dn_verify_by_id dn ∧ dn_verify_dtime dn' = dn_verify_dtime dn ∧
     (dn_status_code dn' = dn_status_code dn ∨ dn_status_code dn' = "P"%string)) ∧
  (∀ id, db_donation_item d' !! (don, id) = db_donation_item d !! (don, id)).

Lemma frozen_step {fixed} don dn d d' :
  lifecycle_step fixed d d' → lifecycle_ok fixed d → db_donation d !! don = Some dn → verified_status dn → frozen don dn d d'.
Proof.
  intros Hstep Hok Hdn Hvp. destruct (lifecycle_step_cases d d' Hok Hstep)
    as [(H1 & H2 & _)|[(cx & a & (Hd & Hi & _) & Hch & _)|(a & dx & uid & cx & Hdx & _ & _ & H1 & H2)]].
  - unfold frozen. rewrite H1, H2. split; [exists dn; auto 10|done].
  - assert (don ≠ a) as Hne.
    { intros ->. destruct Hvp as [Hv|Hp]; rewrite (changed_open cx _ _ _ _ Hch Hdn) in *; done. }
    split; [exists dn; rewrite Hd by done; auto 10|]. intros id. by apply Hi.
  - unfold frozen. rewrite H1, H2. split; [|done]. destruct (decide (don = a)) as [->|Hne].
    + rewrite Hdn in Hdx. injection Hdx as <-. rewrite lookup_insert_eq. eexists. split; [done|]. simpl. auto.
    + rewrite lookup_insert_ne by done. exists dn. auto 10.
Qed.

(** C12: once verified, a donation is read-only: along any sequence of requests its
    header, its items and who verified it when stay as they are, and its status can
    only become processed, whatever else is requested. *)
Theorem verified_donation_frozen fixed d d' don dn :
  reach (lifecycle_step fixed) d d' → lifecycle_ok fixed d → db_donation d !! don = Some dn → verified_status dn →
  frozen don dn d d'.
Proof.
  intros Hr. revert dn. induction Hr as [d|d1 d2 d3 Hstep Hr IH]; intros dn Hok Hdn Hvp.
  - split; [exists dn; auto 10|done].
  - destruct (frozen_step don dn _ _ Hstep Hok Hdn Hvp) as ((dn2 & Hdn2 & Hh & Hb & Ht & Hst) & Hi).
    assert (verified_status dn2) as Hvp2.
    { destruct Hst as [Hs|Hs]; [|by right]. unfold verified_status. by rewrite Hs. }
    destruct (IH dn2 (lifecycle_step_ok _ _ Hstep Hok) Hdn2 Hvp2) as ((dn3 & Hdn3 & Hh3 & Hb3 & Ht3 & Hst3) & Hi3).
    split; [|intros id; by rewrite Hi3]. exists dn3. split_and!; [done|congruence..|].
    destruct Hst3 as [-> | ->]; [|by right]. done.
Qed.
End lifecycle.

(** * Ten units of rice and 500 dollars

    An officer enters the donation and edits it, a manager verifies it; then it is
    taken in at warehouse 1. *)

Definition reference_db : DB :=
  set_db_item (list_to_map [(1, mkItem 1 "ITM" "Item" "GOODS" "EA" true true "FEFO" "A");
                            (2, mkItem 2 "CASH" "Cash" "FUNDS" "EA" false false "FIFO" "A")])
    (set_db_warehouse (list_to_map [(1, mkWarehouse 1 "Main" true "A"); (2, mkWarehouse 2 "Hub" true "A")])
      (set_db_event {[1]} (stock_db 20 0))).

Definition donation_user (name role : string) (now updates : Z) : DonationCtx :=
  mkDonationCtx (Some (mkSessionUser name "user@odpem.gov.jm" None [role] [])) now 20 20
    (mkRefTables {[1]} {[1]} {[1]} {["EA"%string]} {["USD"%string]}) 9 updates (λ _, 1) false.

Definition officer_cx : DonationCtx := donation_user "officer" "LOGISTICS_OFFICER" 30 1.
Definition manager_cx : DonationCtx := donation_user "manager" "LOGISTICS_MANAGER" 40 1.

Definition rice_row (existing : option string) : RowForm :=
  mkRowForm (Some "1"%string) (Some "goods"%string) (Num (units 10)) (Num (units 10)) (Some "EA"%string) None None None existing.
Definition cash_row (existing : option string) : RowForm :=
  mkRowForm (Some "2"%string) (Some "FUNDS"%string) (Num (units 1)) (Num (units 500)) None (Some "USD"%string) None None existing.

Definition donation_form (version : option string) (desc : string) (existing : option string) : DonationForm :=
  mkDonationForm version (Some "1"%string) (Some "1"%string) (Some "1"%string) desc (OnDay 10) (Some "1"%string) "" "" ""
    (Num (units 600)) NoField NoField EmptyNum "" [rice_row existing; cash_row existing] [].

Abbreviation entering := (create_donation officer_cx (donation_form None " rice " None)).
Abbreviation editing := (@edit_donation canonical_runtime officer_cx 9 (donation_form (Some "2"%string) "rice, cash" (Some "true"%string))).
Abbreviation verifying := (@verify_donation_detail canonical_runtime manager_cx 9 (donation_form (Some "3"%string) "rice, cash" None)).

Definition entered_db : DB := committed (entering (session_of reference_db)).1.
Definition edited_db : DB := committed (editing (session_of entered_db)).1.
Definition verified_db : DB := committed (verifying (session_of edited_db)).1.
Definition taken_db : DB := committed (@intake_form canonical_runtime donation_cx 9 1 false (session_of verified_db)).1.
Definition processed_db : DB := committed (@verify_intake canonical_runtime donation_cx 9 1 (session_of taken_db)).1.

Lemma reference_ok {fixed} : @lifecycle_ok fixed canonical_runtime reference_db.
Proof.
  assert (∀ k, db_donation reference_db !! k = None) as H1 by done.
  assert (∀ k, db_donation_item reference_db !! k = None) as H2 by done.
  assert (∀ k, db_dnintake reference_db !! k = None) as H3 by done.
  assert (∀ k, db_dnintake_item reference_db !! k = None) as H4 by done.
  split; [split|split_and!].
  - intros don id di. by rewrite H2.
  - intros don dn. by rewrite H1.
  - intros k v. by rewrite H3.
  - intros k v. by rewrite H4.
  - intros k v. by rewrite H4.
  - intros don wh. rewrite H3. by intros [? ?].
Qed.

Lemma entered_reached {fixed} : reach (@lifecycle_step fixed canonical_runtime) reference_db entered_db.
Proof. eapply reach_step; [|apply reach_refl]. by apply (ls_donation _ _ _ officer_cx entering); [apply dr_create|]. Qed.
Lemma edited_reached {fixed} : reach (@lifecycle_step fixed canonical_runtime) reference_db edited_db.
Proof.
  eapply reach_trans; [exact entered_reached|]. eapply reach_step; [|apply reach_refl].
  by apply (ls_donation _ _ _ officer_cx editing); [apply dr_edit|].
Qed.
Lemma verified_reached {fixed} : reach (@lifecycle_step fixed canonical_runtime) reference_db verified_db.
Proof.
  eapply reach_trans; [exact edited_reached|]. eapply reach_step; [|apply reach_refl].
  by apply (ls_donation _ _ _ manager_cx verifying); [apply dr_verify|].
Qed.
Lemma taken_to_processed {fixed} : reach (@lifecycle_step fixed canonical_runtime) verified_db processed_db.
Proof.
  eapply (reach_step _ _ taken_db); [by apply (ls_entry _ _ _ donation_cx 9 1 false)|].
  apply (reach_step _ _ processed_db); [by apply (ls_verify _ _ _ donation_cx 9 1)|]. apply reach_refl.
Qed.

Lemma create_donation_correct_witness :
  run_ok entering (session_of reference_db) tt (session_of entered_db) ∧
  (∃ di, db_donation_item entered_db !! (9, 1) = Some di ∧ row_line (rice_row None) (di_line di) ∧
     di_status_code di = "P"%string).
Proof.
  assert (run_ok entering (session_of reference_db) tt (session_of entered_db)) as Hrun
    by (vm_compute; reflexivity).
  split; [exact Hrun|].
  pose proof (@create_donation_correct canonical_runtime officer_cx true (donation_form None " rice " None)
    (session_of reference_db) (proj1 reference_ok)) as H.
  unfold run_ok in Hrun. rewrite Hrun in H. destruct H as (_ & _ & _ & _ & _ & Hrows & _).
  destruct (Hrows 1 (rice_row None)) as (di & Hdi & Hl & Hs & _).
  { split; [by left|]. exists "1"%string. split; [reflexivity|]. split; [discriminate|vm_compute; reflexivity]. }
  exists di. split; [exact Hdi|]. split; [exact Hl|exact Hs].
Defined.

Lemma verify_donation_correct_witness :
  run_ok verifying (session_of edited_db) tt (session_of verified_db) ∧
  (∃ dn, db_donation verified_db !! 9 = Some dn ∧ dn_status_code dn = "V"%string ∧
     dn_verify_by_id dn = Some "manager"%string) ∧
  (∃ di, db_donation_item verified_db !! (9, 2) = Some di ∧ di_status_code di = "V"%string ∧
     dl_donation_type (di_line di) = "FUNDS"%string).
Proof.
  assert (run_ok verifying (session_of edited_db) tt (session_of verified_db)) as Hrun
    by (vm_compute; reflexivity).
  split; [exact Hrun|].
  pose proof (@verify_donation_correct canonical_runtime manager_cx true 9 (donation_form (Some "3"%string) "rice, cash" None)
    (session_of edited_db) (proj1 (lifecycle_reach _ _ edited_reached reference_ok))) as H.
  unfold run_ok in Hrun. rewrite Hrun in H.
  destruct H as (_ & _ & _ & (_ & dn & _ & _ & _ & Hdn & Hs & Hb & _) & _ & Hrows & Hitems).
  split; [exists dn; split; [exact Hdn|split; [exact Hs|exact Hb]]|].
  destruct (proj2 (Hrows 2)) as [di Hdi].
  { exists (cash_row None). split; [vm_compute; right; left|]. exists "2"%string.
    split; [reflexivity|]. split; [discriminate|vm_compute; reflexivity]. }
  destruct (Hitems 2 di Hdi) as (Hst & _ & _ & _ & it & Hit & Hcat).
  exists di. split; [exact Hdi|]. split; [exact Hst|].
  vm_compute in Hit. injection Hit as <-. by rewrite <- Hcat.
Defined.

Lemma donation_request_step_witness :
  (editing (session_of entered_db)).2 = inr tt ∧
  ∃ don, only_donation don entered_db edited_db ∧ changed officer_cx don entered_db edited_db.
Proof.
  assert (editing (session_of entered_db) = (session_of edited_db, inr tt)) as Hrun by (vm_compute; reflexivity).
  split; [by rewrite Hrun|].
  assert (∀ a b, editing (session_of a) = (session_of b, inr tt) → donations_ok true a →
    ∃ don, only_donation don a b ∧ changed officer_cx don a b) as Hstep.
  { intros a b Hab Hok.
    pose proof (@donation_request_step canonical_runtime officer_cx true editing (session_of a) (dr_edit _ _ _) Hok) as H.
    rewrite Hab in H. exact (proj2 H). }
  exact (Hstep _ _ Hrun (proj1 (lifecycle_reach _ _ entered_reached reference_ok))).
Defined.

(** The officer's first form, sent again after the edit. *)
Lemma stale_form_refused_witness :
  run_ok editing (session_of entered_db) tt (session_of edited_db) ∧
  ∃ e, (editing (session_of edited_db)).2 = inl e.
Proof.
  assert (run_ok editing (session_of entered_db) tt (session_of edited_db)) as Hrun by (vm_compute; reflexivity).
  split; [exact Hrun|].
  destruct (@stale_form_refused true canonical_runtime officer_cx officer_cx 9
    (donation_form (Some "2"%string) "rice, cash" (Some "true"%string))
    (donation_form (Some "2"%string) "rice, cash" (Some "true"%string)) (session_of entered_db) (session_of edited_db))
    as [[He _] _]; [|done|by left| |exact He].
  - exact (proj1 (lifecycle_reach _ _ entered_reached reference_ok)).
  - intros dn Hdn. vm_compute in Hdn. injection Hdn as <-. split; [done|vm_compute; reflexivity].
Defined.

(** After the verification the catalogue makes the rice a fund. *)
Definition recategorised_db : DB :=
  set_db_item (<[1 := mkItem 1 "ITM" "Item" "FUNDS" "EA" true true "FEFO" "A"]> (db_item verified_db)) verified_db.

(** Editing an item, in whatever way. *)
Lemma edit_item_step `{R : Runtime} id x d :
  lifecycle_step false d (set_db_item (<[id := x]> (db_item d)) d).
Proof.
  apply ls_other; [done..|]. intros i it Hi. simpl.
  destruct (decide (id = i)) as [<-|Hne]; [rewrite lookup_insert_eq|rewrite lookup_insert_ne by done]; by eexists.
Qed.

Lemma recategorised_reached : reach (@lifecycle_step false canonical_runtime) reference_db recategorised_db.
Proof.
  eapply reach_trans; [exact verified_reached|]. eapply reach_step; [|apply reach_refl]. apply (@edit_item_step canonical_runtime).
Qed.

(** The rows are still in order, but the verified goods are of an item of funds. *)
Lemma donations_well_typed_witness :
  reach (@lifecycle_step false canonical_runtime) reference_db recategorised_db ∧
  ∃ di, db_donation_item recategorised_db !! (9, 1) = Some di ∧ row_ok recategorised_db 9 1 di ∧
    di_status_code di = "V"%string ∧ dl_donation_type (di_line di) = "GOODS"%string ∧
    it_category_type <$> db_item recategorised_db !! 1 = Some "FUNDS"%string.
Proof.
  split; [exact recategorised_reached|].
  destruct (db_donation_item recategorised_db !! (9, 1)) as [di|] eqn:Hdi; [|vm_compute in Hdi; discriminate].
  exists di. split; [reflexivity|].
  split; [exact (proj1 (proj1 (@donations_well_typed canonical_runtime false reference_db recategorised_db recategorised_reached reference_ok) 9 1 di Hdi))|].
  vm_compute in Hdi. injection Hdi as <-. split_and!; reflexivity.
Defined.

Lemma processed_reached {fixed} : reach (@lifecycle_step fixed canonical_runtime) reference_db processed_db.
Proof. eapply reach_trans; [exact verified_reached|exact taken_to_processed]. Qed.

Lemma intakes_match_donations_witness :
  is_Some (db_dnintake processed_db !! (9, 1)) ∧
  ∃ v, v ∈ @intake_items_of canonical_runtime 9 1 processed_db ∧ ki_item_id v = 1 ∧ intake_total v = units 10.
Proof.
  destruct (db_dnintake processed_db !! (9, 1)) as [k|] eqn:Hk; [|vm_compute in Hk; discriminate].
  split; [eauto|].
  destruct (@intakes_match_donations canonical_runtime reference_db processed_db 9 1 k processed_reached reference_ok Hk)
    as (_ & _ & Hin & Hcov).
  destruct (db_donation_item processed_db !! (9, 1)) as [di|] eqn:Hdi; [|vm_compute in Hdi; discriminate].
  destruct (Hcov 1 di Hdi) as (v & Hv & Hid).
  { vm_compute in Hdi. injection Hdi as <-. reflexivity. }
  exists v. split; [exact Hv|]. split; [exact Hid|].
  destruct (Hin v Hv) as (dj & Hdj & _ & ->). rewrite Hid, Hdi in Hdj. injection Hdj as <-.
  vm_compute in Hdi. injection Hdi as <-. reflexivity.
Defined.

Lemma verified_donation_frozen_witness :
  ∃ dn dn', db_donation verified_db !! 9 = Some dn ∧ dn_status_code dn = "V"%string ∧
    db_donation processed_db !! 9 = Some dn' ∧ dn_status_code dn' = "P"%string ∧ dn_header dn' = dn_header dn.
Proof.
  destruct (db_donation verified_db !! 9) as [dn|] eqn:Hdn; [|vm_compute in Hdn; discriminate].
  assert (dn_status_code dn = "V"%string) as Hst by (vm_compute in Hdn; injection Hdn as <-; reflexivity).
  destruct (@verified_donation_frozen canonical_runtime true verified_db processed_db 9 dn taken_to_processed
    (lifecycle_reach _ _ verified_reached reference_ok) Hdn (or_introl Hst)) as [(dn' & Hdn' & Hh & _) _].
  exists dn, dn'. split; [reflexivity|]. split; [exact Hst|]. split; [exact Hdn'|]. split; [|exact Hh].
  vm_compute in Hdn'. injection Hdn' as <-. reflexivity.
Defined.
