(* ===== verification/RequestRoutes.v ===== *)
(** The routes of a relief request: drafting and submission by an agency
    (app/features/requests_aidmgmt.py), creation on behalf of one
    (app/features/packaging.py) and the eligibility decision
    (app/features/eligibility.py).

    A route is the POST of its page with its guards; the pages themselves are the
    queries at the end.  What runs inside a route's [try] is a program of the
    service: [Refused] is a message and a redirect, any other failure is an
    exception, which [attempt] rolls back.  [Session.remove] at the end of a request
    drops what was not committed ([route]).  A number too large for an integer column
    is one the tables do not have. *)
From stdpp Require Import strings.
From Stdlib Require Import Ascii String.
From S2P Require Import Prelude PyStr PySort ParamValidation Schema Columns AccessControl ReliefRequest.

(** * Forms *)

Record RequestForm : Type := mkRequestForm {
  rf_agency_id : option string;
  rf_urgency_ind : option string;
  rf_eligible_event_id : option string;
  rf_notes_text : string;             (* "" when absent *)
  rf_version_nbr : option string
}.

Record LineForm : Type := mkLineForm {
  if_item_id : option string;
  if_request_qty : NumField;
  if_urgency_ind : option string;
  if_reason_desc : string;
  if_required_by_date : DateField
}.

Record DecisionForm : Type := mkDecisionForm { cf_decision : option string; cf_reason : string }.

(** A value of the JSON body: [JOther] is one that is not a string, [JNone] a missing
    key. *)
Inductive JsonField : Type := JNone | JStr (s : string) | JOther.
Inductive JsonBody : Type :=
| BadJson                                   (* not an object, or not JSON *)
| EmptyJson
| JObject (decision reason : JsonField).

(** * The request in progress *)

Record App : Type := mkApp { app_cache : Cache; app_db : Session }.

Inductive RouteFailure : Type :=
| RGuard (r : Refusal)
| RNotFound                 (* [get_or_404] *)
| RRefused (msg : string)   (* a message and a redirect *)
| RAborted.                 (* an exception, rolled back *)

Abbreviation AM := (M App RouteFailure).

Record RequestCtx : Type := mkRequestCtx {
  rx_user : option SessionUser;
  rx_auth : AuthDB;
  rx_query_ok : bool;
  rx_today : Z;             (* [jamaica_today()] *)
  rx_current_date : Z;      (* CURRENT_DATE of the database *)
  rx_now : Z;
  rx_new_id : Z             (* the serial a new request gets *)
}.

Definition on_cache {A} (m : M Cache Refusal A) : AM A := λ s,
  let '(c, r) := m (app_cache s) in
  (mkApp c (app_db s), match r with inl e => inl (RGuard e) | inr a => inr a end).

(** The [try] of a route. *)
Definition attempt {A} (m : QM A) : AM A := λ s,
  match m (app_db s) with
  | (d, inr a) => (mkApp (app_cache s) d, inr a)
  | (d, inl (Refused msg)) => (mkApp (app_cache s) d, inl (RRefused msg))
  | (d, inl _) => (mkApp (app_cache s) (rollback_session d), inl RAborted)
  end.

Definition route {A} (m : AM A) : AM A := λ s,
  let '(s', r) := m s in (mkApp (app_cache s') (rollback_session (app_db s')), r).

(** * What the tables accept *)

Definition is_none {A} (o : option A) : bool := match o with None => true | Some _ => false end.

(** [c_reliefrqst_1] to [c_reliefrqst_6b] and the foreign keys; the columns of 6a and
    6b are not the application's and stay NULL. *)
Definition rqst_row_ok (current_date : Z) (d : DB) (r : ReliefRqst) : bool :=
  (rq_request_date r <=? current_date) &&
  bool_decide (rq_urgency_ind r ∈ ["L"; "M"; "H"; "C"]%string) &&
  (negb (is_none (rq_status_reason_desc r)) || negb (bool_decide (rq_status_code r ∈ [4; 6; 8]))) &&
  eqb (is_none (rq_review_by_id r)) (rq_status_code r <? 2) &&
  eqb (is_none (rq_review_by_id r)) (is_none (rq_review_dtime r)) &&
  eqb (is_none (rq_action_by_id r)) (rq_status_code r <? 4) &&
  eqb (is_none (rq_action_by_id r)) (is_none (rq_action_dtime r)) &&
  negb (rq_status_code r =? 9) &&
  varchar_opt 255 (rq_status_reason_desc r) && varchar 20 (rq_create_by_id r) &&
  varchar_opt 20 (rq_review_by_id r) && varchar_opt 20 (rq_action_by_id r) &&
  bool_decide (rq_agency_id r ∈ db_agency d) &&
  match rq_eligible_event_id r with Some e => bool_decide (e ∈ db_event d) | None => true end.

(** [c_reliefrqst_item_2a]. *)
Definition issue_status_ok (v : ReliefRqstItem) : bool :=
  bool_decide (ri_status_code v ∈ ["R"; "U"; "W"; "D"]%string) && (ri_issue_qty v =? 0) ||
  bool_decide (ri_status_code v ∈ ["P"; "L"]%string) && (ri_issue_qty v <? ri_request_qty v) ||
  bool_decide (ri_status_code v = "F"%string) && (ri_issue_qty v =? ri_request_qty v).

Definition line_row_ok (v : ReliefRqstItem) : bool :=
  (0 <? ri_request_qty v) && issue_status_ok v &&
  bool_decide (ri_urgency_ind v ∈ ["L"; "M"; "H"; "C"]%string) &&
  (negb (bool_decide (ri_urgency_ind v = "H"%string)) ||
   match ri_rqst_reason_desc v with Some t => existsb (λ c, negb (code c =? 32)) (chars t) | None => false end) &&
  (negb (is_none (ri_required_by_date v)) || bool_decide (ri_urgency_ind v ∈ ["L"; "M"]%string)) &&
  (negb (is_none (ri_status_reason_desc v)) || negb (bool_decide (ri_status_code v ∈ ["D"; "L"]%string))) &&
  eqb (is_none (ri_action_by_id v)) (bool_decide (ri_status_code v = "R"%string)) &&
  eqb (is_none (ri_action_by_id v)) (is_none (ri_action_dtime v)) &&
  varchar_opt 255 (ri_rqst_reason_desc v).

(** The line as its [Numeric(12, 2)] columns store it. *)
Definition stored_rqst_line (v : ReliefRqstItem) : option ReliefRqstItem :=
  q ← numeric 12 (ri_request_qty v);
  let v' := set_ri_request_qty q v in
  if line_row_ok v' then Some v' else None.

Section routes.
Context `{R : Runtime} (rx : RequestCtx).

(** The UPDATE or INSERT of the flush. *)
Definition flush_rqst (rq : Z) : QM unit :=
  d ← db_get;
  match db_rqst d !! rq with
  | Some r => m_fail_if (negb (rqst_row_ok (rx_current_date rx) d r)) DBError
  | None => mret tt
  end.

Definition flush_line (rq item_id : Z) : QM unit :=
  d ← db_get;
  match db_rqst_item d !! (rq, item_id) with
  | Some v => match stored_rqst_line v with Some v' => db_mod (put_rqst_item v') | None => m_fail DBError end
  | None => mret tt
  end.

(** * Guards *)

Definition session_email : option string := get_email (rx_user rx).
Definition session_agency : option Z := get_agency_id (rx_user rx).

Definition login_required : AM unit :=
  m_fail_if (negb (is_authenticated (rx_user rx))) (RGuard ToLogin).

Definition get_request_or_404 (request_id : Z) : AM ReliefRqst :=
  s ← m_get;
  m_some (db_rqst (work (app_db s)) !! request_id) RNotFound.

Definition access_or_403 (r : ReliefRqst) : AM unit :=
  ok ← on_cache (can_access_relief_request (rx_user rx) (rx_auth rx) (rx_query_ok rx) (rq_agency_id r));
  m_fail_if (negb ok) (RGuard Forbidden).

Definition draft_or_back (r : ReliefRqst) : AM unit :=
  m_fail_if (negb (rq_status_code r =? STATUS_DRAFT)) (RRefused "draft only").

(** * Creating a draft *)

(** [int(v) if v else None]: the [None] outside is the [ValueError]. *)
Definition optional_int (v : option string) : option (option Z) :=
  match v with
  | None => Some None
  | Some s => if bool_decide (s = ""%string) then Some None else Some <$> py_int s
  end.

(** The shared end of both routes that create. *)
Definition create_and_commit (agency_id : Z) (urgency_ind : string) (event : option Z) (notes : string) : QM Z :=
  r ← create_draft_request (rx_new_id rx) agency_id urgency_ind event (Some notes) session_email
        (rx_today rx) (rx_now rx);
  flush_rqst (rq_reliefrqst_id r);;
  db_commit;;
  mret (rq_reliefrqst_id r).

Definition create_request (f : RequestForm) : AM Z := route (
  login_required;;
  on_cache (create_request_guard (rx_user rx));;
  lm ← on_cache (is_logistics_manager (rx_user rx) (rx_auth rx) (rx_query_ok rx));
  lo ← (if lm : bool then mret true
        else on_cache (is_logistics_officer (rx_user rx) (rx_auth rx) (rx_query_ok rx)));
  m_fail_if (lo && is_none session_agency) (RRefused "create on behalf");;
  match session_agency with
  | None => m_fail (RRefused "no agency")
  | Some agency_id => attempt (
      event ← m_some (optional_int (rf_eligible_event_id f)) (ValueError "event");
      let urgency_ind := default "M"%string (rf_urgency_ind f) in
      m_fail_if (negb (bool_decide (urgency_ind ∈ ["H"; "M"; "L"]%string))) (Refused "Invalid urgency level");;
      create_and_commit agency_id urgency_ind event (strip (rf_notes_text f)))
  end).

Definition create_request_on_behalf (f : RequestForm) : AM Z := route (
  login_required;;
  lo ← on_cache (is_logistics_officer (rx_user rx) (rx_auth rx) (rx_query_ok rx));
  is_logistics ← (if lo : bool then mret true
                  else on_cache (is_logistics_manager (rx_user rx) (rx_auth rx) (rx_query_ok rx)));
  m_fail_if (negb (is_logistics || is_agency_user (rx_user rx))) (RGuard Forbidden);;
  attempt (
    agency_id ← match session_agency with
                | Some a => mret a
                | None => match rf_agency_id f with
                          | None => m_fail (Refused "Please select an agency")
                          | Some s => if bool_decide (s = ""%string) then m_fail (Refused "Please select an agency")
                                      else m_some (py_int s) (ValueError "agency")
                          end
                end;
    event ← m_some (optional_int (rf_eligible_event_id f)) (ValueError "event");
    d ← db_get;
    m_fail_if (negb (bool_decide (agency_id ∈ db_agency d))) (Refused "Invalid agency selected");;
    let urgency_ind := default "M"%string (rf_urgency_ind f) in
    m_fail_if (negb (bool_decide (urgency_ind ∈ ["H"; "M"; "L"]%string))) (Refused "Invalid urgency level");;
    create_and_commit agency_id urgency_ind event (strip (rf_notes_text f)))).

(** * Editing a draft *)

(** [int(v) if v else current]. *)
Definition version_or (v : option string) (current : Z) : option Z :=
  match v with
  | None => Some current
  | Some s => if bool_decide (s = ""%string) then Some current else py_int s
  end.

(** [OptimisticLockError(record_id=..., message=...)] lacks [model_name]: it is a
    [TypeError]. *)
Definition edit_request (request_id : Z) (f : RequestForm) : AM unit := route (
  login_required;;
  r ← get_request_or_404 request_id;
  access_or_403 r;;
  draft_or_back r;;
  attempt (
    current_version ← m_some (version_or (rf_version_nbr f) (rq_version_nbr r)) (ValueError "version");
    m_fail_if (negb (rq_version_nbr r =? current_version)) LockTypeError;;
    event ← m_some (optional_int (rf_eligible_event_id f)) (ValueError "event");
    db_mod (put_rqst (set_rq_version_nbr (rq_version_nbr r + 1)
      (set_rq_notes_text (Some (strip (rf_notes_text f)))
        (set_rq_eligible_event_id event
          (set_rq_urgency_ind (default "M"%string (rf_urgency_ind f)) r)))));;
    flush_rqst request_id;;
    db_commit)).

Definition edit_item_body (request_id : Z) (f : LineForm) : QM unit :=
  let item_id := safe_id (if_item_id f) 0 in
  m_fail_if (item_id <=? 0) (Refused "Invalid item ID");;
  request_qty ← m_some (safe_quantity (if_request_qty f)) (ValueError "quantity");
  let urgency_ind := upper (validate_filter_value (Some (upper (default "M"%string (if_urgency_ind f))))
                              ["H"; "M"; "L"]%string "M") in
  let reason := strip (if_reason_desc f) in
  required_by ← match if_required_by_date f with
                | NoDate => mret None
                | BadDate => m_fail (Refused "Invalid date format")
                | OnDay day => mret (Some day)
                end;
  d ← db_get;
  it ← m_some (db_item d !! item_id) NotFound404;
  m_fail_if (negb (bool_decide (it_status_code it = "A"%string))) (Refused "inactive item");;
  m_fail_if (negb (bool_decide (it_category_type it = "GOODS"%string))) (Refused "Only GOODS items");;
  m_fail_if (request_qty <=? 0) (Refused "Quantity must be greater than zero");;
  m_fail_if (bool_decide (urgency_ind = "H"%string) && is_none required_by) (Refused "Required By Date");;
  m_fail_if (bool_decide (urgency_ind = "H"%string) && bool_decide (reason = ""%string)) (Refused "justification");;
  add_or_update_request_item request_id item_id request_qty urgency_ind (Some reason) required_by None;;
  flush_line request_id item_id;;
  db_commit.

Definition edit_items (request_id : Z) (f : LineForm) : AM unit := route (
  login_required;;
  r ← get_request_or_404 request_id;
  access_or_403 r;;
  draft_or_back r;;
  attempt (edit_item_body request_id f)).

Definition delete_rqst_item (request_id item_id : Z) : AM unit := route (
  login_required;;
  r ← get_request_or_404 request_id;
  access_or_403 r;;
  attempt (delete_request_item request_id item_id;; db_commit)).

Definition save_draft_request (request_id : Z) : AM unit := route (
  login_required;;
  r ← get_request_or_404 request_id;
  access_or_403 r;;
  draft_or_back r;;
  attempt db_commit).

(** [db.session.delete(relief_request)]: the ORM clears the references of the rows
    that name the request, which packages and the lock do not allow. *)
Definition delete_request (request_id : Z) : QM unit :=
  d ← db_get;
  m_fail_if (bool_decide (filter (λ p, pkg_reliefrqst_id p = request_id) (pkg_rows (db_pkg d)) ≠ [])) DBError;;
  m_fail_if (negb (is_none (db_lock d !! request_id))) DBError;;
  db_mod (set_db_notification ((λ n, if decide (nt_reliefrqst_id n = Some request_id)
                                     then mkNotification (nt_user_id n) None (nt_type n) else n)
                                 <$> db_notification d));;
  db_mod (λ d, set_db_rqst (delete request_id (db_rqst d)) d).

Definition cancel_request (request_id : Z) : AM unit := route (
  login_required;;
  r ← get_request_or_404 request_id;
  access_or_403 r;;
  draft_or_back r;;
  attempt (
    db_mod (λ d, set_db_rqst_item (filter (λ kv, kv.1.1 ≠ request_id) (db_rqst_item d)) d);;
    delete_request request_id;;
    db_commit)).

Definition submit_draft (request_id : Z) (version_nbr : option string) : AM unit := route (
  login_required;;
  r ← get_request_or_404 request_id;
  access_or_403 r;;
  attempt (
    current_version ← m_some (version_or version_nbr (rq_version_nbr r)) (ValueError "version");
    submit_request request_id current_version;;
    flush_rqst request_id;;
    db_commit)).

(** * The decision *)

Definition eligibility_body (request_id : Z) (decision : option string) (reason : string) : QM unit :=
  match decision with
  | None => m_fail (Refused "Invalid decision")
  | Some decision =>
      m_fail_if (negb (bool_decide (decision ∈ ["Y"; "N"]%string))) (Refused "Invalid decision");;
      m_fail_if (bool_decide (decision = "N"%string) && bool_decide (reason = ""%string)) (Refused "Reason is required");;
      submit_eligibility_decision request_id decision
        (if bool_decide (decision = "N"%string) then Some reason else None) session_email (rx_now rx);;
      flush_rqst request_id;;
      db_commit
  end.

Definition executive_only : AM unit :=
  on_cache (executive_required (rx_user rx) (rx_auth rx) (rx_query_ok rx)).

Definition submit_decision (request_id : Z) (f : DecisionForm) : AM unit := route (
  login_required;;
  executive_only;;
  attempt (eligibility_body request_id (cf_decision f) (strip (cf_reason f)))).

Definition api_submit_decision (request_id : Z) (body : JsonBody) : AM unit := route (
  login_required;;
  executive_only;;
  attempt (
    match body with
    | BadJson => m_fail (ValueError "json")
    | EmptyJson => m_fail (Refused "Invalid JSON")
    | JObject decision reason =>
        reason ← match reason with
                 | JNone => mret ""%string
                 | JStr s => mret (strip s)
                 | JOther => m_fail (ValueError "strip")
                 end;
        eligibility_body request_id (match decision with JStr s => Some s | _ => None end) reason
    end)).

(** * Any of them *)

Inductive RouteCall : Type :=
| CreateRequest (f : RequestForm)
| CreateOnBehalf (f : RequestForm)
| EditRequest (request_id : Z) (f : RequestForm)
| EditItems (request_id : Z) (f : LineForm)
| DeleteItem (request_id item_id : Z)
| SaveDraft (request_id : Z)
| CancelRequest (request_id : Z)
| SubmitDraft (request_id : Z) (version_nbr : option string)
| SubmitDecision (request_id : Z) (f : DecisionForm)
| ApiSubmitDecision (request_id : Z) (body : JsonBody).

Definition perform (c : RouteCall) : AM unit :=
  match c with
  | CreateRequest f => create_request f;; mret tt
  | CreateOnBehalf f => create_request_on_behalf f;; mret tt
  | EditRequest rq f => edit_request rq f
  | EditItems rq f => edit_items rq f
  | DeleteItem rq it => delete_rqst_item rq it
  | SaveDraft rq => save_draft_request rq
  | CancelRequest rq => cancel_request rq
  | SubmitDraft rq v => submit_draft rq v
  | SubmitDecision rq f => submit_decision rq f
  | ApiSubmitDecision rq b => api_submit_decision rq b
  end.
End routes.
