(* ===== verification/RequestRoutesProofs.v ===== *)
(** What each route of a relief request does to the stored data: one of the effects
    of [effect], or nothing. *)
From stdpp Require Import strings.
From Stdlib Require Import Ascii String.
From S2P Require Import Prelude PyStr ParamValidation Schema Columns Atomicity Ledger Fixtures AccessControl AccessControlProofs ReliefRequest ReliefRequestProofs RequestRoutes.

(** * Routes that fail store nothing *)

Definition keeps_db {A} (m : M App RouteFailure A) : Prop := ∀ s, app_db (m s).1 = app_db s.

Definition app_clean {A} (m : M App RouteFailure A) : Prop := ∀ s,
  match m s with (s', inl _) => committed (app_db s') = committed (app_db s) | _ => True end.

Lemma kd_fail_if b e : keeps_db (m_fail_if b e).
Proof. by destruct b. Qed.

Lemma kd_some {A} (o : option A) e : keeps_db (m_some o e).
Proof. by destruct o. Qed.

Lemma kd_bind {A B} (m : M App RouteFailure A) (f : A → M App RouteFailure B) :
  keeps_db m → (∀ a, keeps_db (f a)) → keeps_db (m ≫= f).
Proof.
  intros Hm Hf s. rewrite run_bind. specialize (Hm s). destruct (m s) as [s1 [e|a]]; [done|].
  rewrite Hf. done.
Qed.

Lemma kd_on_cache {A} (m : M Cache Refusal A) : keeps_db (on_cache m).
Proof. intros s. unfold on_cache. by destruct (m (app_cache s)) as [c [e|a]]. Qed.

Lemma kd_get : keeps_db m_get.
Proof. by intros s. Qed.

Lemma kd_ret {A} (a : A) : keeps_db (mret a).
Proof. by intros s. Qed.

Lemma ac_bind {A B} (m : M App RouteFailure A) (f : A → M App RouteFailure B) :
  keeps_db m → (∀ a, app_clean (f a)) → app_clean (m ≫= f).
Proof.
  intros Hm Hf s. rewrite run_bind. specialize (Hm s). simpl in Hm. destruct (m s) as [s1 [e|a]]; simpl in Hm; [by rewrite Hm|].
  specialize (Hf a s1). destruct (f a s1) as [s2 [e|b]]; [|done]. by rewrite Hf, Hm.
Qed.

Lemma ac_fail {A} e : app_clean (m_fail e : M App RouteFailure A).
Proof. by intros s. Qed.

Lemma ac_attempt {A} (m : M Session ReqError A) : fails_clean m → app_clean (attempt m).
Proof.
  intros Hm s. specialize (Hm (app_db s)). unfold attempt.
  destruct (m (app_db s)) as [d [e|a]]; [by destruct e|done].
Qed.

Lemma ac_route {A} (m : M App RouteFailure A) : app_clean m → app_clean (route m).
Proof. intros Hm s. specialize (Hm s). unfold route. by destruct (m s) as [s' [e|a]]. Qed.

Lemma ac_then {A B} (m : M App RouteFailure A) (b : B) : app_clean m → app_clean (m;; mret b).
Proof. intros Hm s. rewrite run_bind. specialize (Hm s). by destruct (m s) as [s1 [e|a]]. Qed.

Create HintDb routes.
#[export] Hint Resolve kd_fail_if kd_some kd_bind kd_on_cache kd_get kd_ret ac_fail ac_attempt : routes.

Ltac app_clean_tac :=
  repeat first
    [ progress intros
    | solve [auto with routes]
    | apply ac_route
    | apply ac_then
    | apply ac_attempt
    | apply ac_bind; [repeat first [solve [auto with routes] | progress intros | apply kd_bind
                                   | match goal with |- keeps_db (if ?x then _ else _) => destruct x end]|]
    | match goal with |- app_clean (match ?x with _ => _ end) => destruct x end ].

Section clean.
Context `{R : Runtime} (rx : RequestCtx).

Ltac svc_nc :=
  repeat first
    [ progress intros
    | solve [auto with commit]
    | apply nc_bind
    | match goal with |- no_commit (match ?x with _ => _ end) => destruct x end
    | match goal with |- no_commit (let '_ := _ in _) => progress cbv zeta end ].

Lemma nc_flush_rqst rq : no_commit (flush_rqst rx rq).
Proof. unfold flush_rqst. svc_nc. Qed.
Lemma nc_flush_line rq it : no_commit (flush_line rq it).
Proof. unfold flush_line. svc_nc. Qed.
Lemma nc_create_draft i a u e n m t w : no_commit (create_draft_request i a u e n m t w).
Proof. unfold create_draft_request. svc_nc. Qed.
Lemma nc_add_item rq it q u r b v : no_commit (add_or_update_request_item rq it q u r b v).
Proof. unfold add_or_update_request_item. svc_nc. Qed.
Lemma nc_delete_item rq it : no_commit (delete_request_item rq it).
Proof. unfold delete_request_item. svc_nc. Qed.
Lemma nc_delete_request rq : no_commit (delete_request rq).
Proof. unfold delete_request. svc_nc. Qed.
Lemma nc_submit rq v : no_commit (submit_request rq v).
Proof. unfold submit_request. svc_nc. Qed.
Lemma nc_decide rq x r m w : no_commit (submit_eligibility_decision rq x r m w).
Proof. unfold submit_eligibility_decision. svc_nc. Qed.
End clean.

#[export] Hint Resolve nc_flush_rqst nc_flush_line nc_create_draft nc_add_item nc_delete_item
  nc_delete_request nc_submit nc_decide : commit.

(** A commit followed by pure steps does not fail. *)
Lemma fc_commit_ret {E A} (a : A) : fails_clean (db_commit;; mret a : M Session E A).
Proof. by intros s. Qed.
#[export] Hint Resolve fc_commit_ret : commit.

Lemma perform_clean `{Runtime} rx call : app_clean (perform rx call).
Proof.
  destruct call; simpl; unfold create_request, create_request_on_behalf, edit_request, edit_items, delete_rqst_item,
    save_draft_request, cancel_request, submit_draft, submit_decision, api_submit_decision, login_required,
    get_request_or_404, access_or_403, draft_or_back, executive_only; app_clean_tac;
    unfold create_and_commit, edit_item_body, eligibility_body; clean_tac.
Qed.

(** * Guards *)

Section guards.
Context (rx : RequestCtx).

Definition force (c : Cache) : gset string := in_force (rx_auth rx) (rx_query_ok rx) c.
Definition has_role (c : Cache) (role : string) : Prop := holds (rx_user rx) (rx_auth rx) (rx_query_ok rx) c role.
Definition of_agency (agency_id : Z) : Prop := own_agency (rx_user rx) agency_id.

(** Whom [can_access_relief_request] lets through. *)
Definition may_open (c : Cache) (agency_id : Z) : Prop :=
  (∃ role, role ∈ (LOGISTICS_ROLES ++ EXECUTIVE_ROLES)%list ∧ has_role c role) ∨ of_agency agency_id.

Definition is_executive (c : Cache) : Prop := ∃ role, role ∈ EXECUTIVE_ROLES ∧ has_role c role.
Definition is_logistics (c : Cache) : Prop := ∃ role, role ∈ LOGISTICS_ROLES ∧ has_role c role.

Lemma has_role_user c role : has_role c role → is_authenticated (rx_user rx) = true.
Proof. by intros (u & _ & -> & _). Qed.

Lemma may_open_user c a : may_open c a → is_authenticated (rx_user rx) = true.
Proof. intros [(role & _ & Hr)|(_ & u & -> & _)]; [by eapply has_role_user|done]. Qed.

Lemma has_role_force c1 c2 role : force c1 = force c2 → has_role c1 role → has_role c2 role.
Proof. apply holds_force. Qed.

Lemma attempt_ok {A} (m : M Session ReqError A) s a s' :
  run_ok (attempt m) s a s' ↔ ∃ d, run_ok m (app_db s) a d ∧ s' = mkApp (app_cache s) d.
Proof.
  unfold run_ok, attempt. destruct (m (app_db s)) as [d [e|b]]; [destruct e|]; naive_solver.
Qed.

Lemma route_ok {A} (m : M App RouteFailure A) s a s' :
  run_ok (route m) s a s' ↔ ∃ s1, run_ok m s a s1 ∧ s' = mkApp (app_cache s1) (rollback_session (app_db s1)).
Proof. unfold run_ok, route. destruct (m s) as [s1 r]. naive_solver. Qed.

Lemma on_cache_ok {A B} (m : M Cache Refusal A) (k : A → M App RouteFailure B) s b s' c a :
  m (app_cache s) = (c, inr a) →
  run_ok (on_cache m ≫= k) s b s' ↔ run_ok (k a) (mkApp c (app_db s)) b s'.
Proof. intros Hm. unfold run_ok. rewrite run_bind. unfold on_cache. by rewrite Hm. Qed.

Lemma access_run r s : ∃ c, force c = force (app_cache s) ∧ ∀ B (k : M App RouteFailure B) b s',
  run_ok (access_or_403 rx r;; k) s b s' ↔
  may_open (app_cache s) (rq_agency_id r) ∧ run_ok k (mkApp c (app_db s)) b s'.
Proof.
  destruct (can_access_run (rx_user rx) (rx_auth rx) (rx_query_ok rx) (E := Refusal) (rq_agency_id r) (app_cache s))
    as (c & ok & Hc & Hf & Hok).
  exists c. split; [done|]. intros B k b s'. unfold may_open, has_role, of_agency. rewrite <- Hok. unfold access_or_403.
  destruct ok.
  - transitivity (run_ok (mret tt;; k) (mkApp c (app_db s)) b s'); [|naive_solver].
    unfold run_ok. rewrite !run_bind. unfold on_cache. rewrite Hc. done.
  - split; [|naive_solver]. unfold run_ok. rewrite !run_bind. unfold on_cache. by rewrite Hc.
Qed.

(** The opening of the routes that name a request. *)
Lemma opened_route {B} rq (k : ReliefRqst → M App RouteFailure B) s :
  ∃ c, force c = force (app_cache s) ∧ ∀ b s',
  run_ok (route (login_required rx;; r ← get_request_or_404 rq; access_or_403 rx r;; k r)) s b s' ↔
  ∃ r s1, db_rqst (work (app_db s)) !! rq = Some r ∧ may_open (app_cache s) (rq_agency_id r) ∧
    run_ok (k r) (mkApp c (app_db s)) b s1 ∧ s' = mkApp (app_cache s1) (rollback_session (app_db s1)).
Proof.
  destruct (db_rqst (work (app_db s)) !! rq) as [r|] eqn:Hr.
  2: { exists (app_cache s). split; [done|]. intros b s'. rewrite route_ok. split; [|naive_solver].
       intros (s1 & Hrun & _). apply run_fail_if in Hrun as [_ Hrun]. revert Hrun. unfold run_ok, get_request_or_404.
       rewrite !run_bind. simpl. by rewrite Hr. }
  destruct (access_run r s) as (c & Hf & Hacc). exists c. split; [done|]. intros b s'. rewrite route_ok.
  assert (∀ s1, run_ok (r ← get_request_or_404 rq; access_or_403 rx r;; k r) s b s1 ↔ run_ok (access_or_403 rx r;; k r) s b s1)
    as Hget.
  { intros s1. unfold run_ok, get_request_or_404. rewrite run_bind. rewrite run_bind. simpl. by rewrite Hr. }
  setoid_rewrite run_fail_if. setoid_rewrite Hget. setoid_rewrite Hacc. setoid_rewrite negb_false_iff. split.
  - intros (s1 & (_ & Hm & Hk) & ->). by exists r, s1.
  - intros (r' & s1 & [= <-] & Hm & Hk & ->). exists s1. split; [|done]. split; [by eapply may_open_user|done].
Qed.

Lemma draft_route {B} rq (body : ReliefRqst → M Session ReqError B) s :
  ∃ c, force c = force (app_cache s) ∧ ∀ b s',
  run_ok (route (login_required rx;; r ← get_request_or_404 rq; access_or_403 rx r;; draft_or_back r;;
                 attempt (body r))) s b s' ↔
  ∃ r d, db_rqst (work (app_db s)) !! rq = Some r ∧ may_open (app_cache s) (rq_agency_id r) ∧
    rq_status_code r = STATUS_DRAFT ∧ run_ok (body r) (app_db s) b d ∧ s' = mkApp c (rollback_session d).
Proof.
  destruct (opened_route rq (λ r, draft_or_back r;; attempt (body r)) s) as (c & Hf & Hrun).
  exists c. split; [done|]. intros b s'. rewrite Hrun. unfold draft_or_back. setoid_rewrite run_fail_if.
  setoid_rewrite attempt_ok. setoid_rewrite negb_eqb_false. simpl. naive_solver.
Qed.

Lemma plain_route {B} rq (body : ReliefRqst → M Session ReqError B) s :
  ∃ c, force c = force (app_cache s) ∧ ∀ b s',
  run_ok (route (login_required rx;; r ← get_request_or_404 rq; access_or_403 rx r;; attempt (body r))) s b s' ↔
  ∃ r d, db_rqst (work (app_db s)) !! rq = Some r ∧ may_open (app_cache s) (rq_agency_id r) ∧
    run_ok (body r) (app_db s) b d ∧ s' = mkApp c (rollback_session d).
Proof.
  destruct (opened_route rq (λ r, attempt (body r)) s) as (c & Hf & Hrun).
  exists c. split; [done|]. intros b s'. rewrite Hrun. setoid_rewrite attempt_ok. simpl. naive_solver.
Qed.

Lemma executive_route {B} (body : M Session ReqError B) s :
  ∃ c, force c = force (app_cache s) ∧ ∀ b s',
  run_ok (route (login_required rx;; executive_only rx;; attempt body)) s b s' ↔
  is_executive (app_cache s) ∧ ∃ d, run_ok body (app_db s) b d ∧ s' = mkApp c (rollback_session d).
Proof.
  destruct (has_roles_run (rx_user rx) (rx_auth rx) (rx_query_ok rx) (E := Refusal) EXECUTIVE_ROLES (app_cache s)
    executive_normal) as (c & ok & Hc & Hf & Hok).
  exists c. split; [done|]. intros b s'. rewrite route_ok. unfold is_executive, has_role. rewrite <- Hok.
  assert (∀ s1, run_ok (executive_only rx;; attempt body) s b s1 ↔
    is_authenticated (rx_user rx) = true ∧ ok = true ∧ run_ok (attempt body) (mkApp c (app_db s)) b s1) as Hex.
  { intros s1. unfold run_ok. rewrite run_bind. unfold executive_only, on_cache, executive_required.
    destruct (is_authenticated (rx_user rx)); [|split; [done|naive_solver]].
    assert ((m_fail_if (negb true) ToLogin;; e ← is_director_level (rx_user rx) (rx_auth rx) (rx_query_ok rx);
             m_fail_if (negb e) Forbidden) (app_cache s) = (c, if ok then inr tt else inl Forbidden)) as ->.
    { rewrite !run_bind. simpl. rewrite run_bind. unfold is_director_level. rewrite Hc. by destruct ok. }
    destruct ok; [naive_solver|split; [done|naive_solver]]. }
  setoid_rewrite run_fail_if. setoid_rewrite Hex. setoid_rewrite attempt_ok. simpl.
  assert (ok = true → is_authenticated (rx_user rx) = true) as Hau.
  { intros Ho. apply Hok in Ho as (role & _ & Hh). by eapply has_role_user. }
  setoid_rewrite negb_false_iff. naive_solver.
Qed.
End guards.

(** * Bodies *)

Section bodies.
Context `{R : Runtime} (rx : RequestCtx).

Lemma flush_rqst_ok {A} rq (k : M Session ReqError A) s a s' :
  run_ok (flush_rqst rx rq;; k) s a s' ↔
  (∀ r, db_rqst (work s) !! rq = Some r → rqst_row_ok (rx_current_date rx) (work s) r = true) ∧ run_ok k s a s'.
Proof.
  unfold run_ok. rewrite run_bind. unfold flush_rqst. rewrite run_bind. simpl.
  destruct (db_rqst (work s) !! rq) as [r|] eqn:Hr; [|naive_solver].
  destruct (rqst_row_ok (rx_current_date rx) (work s) r) eqn:Hok; simpl; [naive_solver|].
  split; [done|]. intros [H _]. specialize (H r eq_refl). congruence.
Qed.

Lemma flush_line_ok {A} rq it v (k : M Session ReqError A) s a s' :
  db_rqst_item (work s) !! (rq, it) = Some v →
  run_ok (flush_line rq it;; k) s a s' ↔
  ∃ v', stored_rqst_line v = Some v' ∧ run_ok k (upd_work (put_rqst_item v') s) a s'.
Proof.
  intros Hv. unfold run_ok. rewrite run_bind. unfold flush_line. rewrite run_bind. simpl. rewrite Hv.
  destruct (stored_rqst_line v) as [v'|]; simpl; naive_solver.
Qed.

Lemma m_some_ok {A B} (o : option A) (e : ReqError) (k : A → M Session ReqError B) s b s' :
  run_ok (a ← m_some o e; k a) s b s' ↔ ∃ a, o = Some a ∧ run_ok (k a) s b s'.
Proof. unfold run_ok. rewrite run_bind. destruct o as [a|]; simpl; unfold m_ret, m_fail; naive_solver. Qed.

Lemma m_some_Some {A B} (a : A) (e : ReqError) (k : A → M Session ReqError B) s b s' :
  run_ok (x ← m_some (Some a) e; k x) s b s' ↔ run_ok (k a) s b s'.
Proof. done. Qed.

Lemma commit_ok (s s' : Session) : run_ok (db_commit : M Session ReqError unit) s tt s' ↔ s' = session_of (work s).
Proof. unfold run_ok, db_commit, m_modify, commit_session, session_of. naive_solver. Qed.

Lemma put_put v v' d :
  ri_reliefrqst_id v' = ri_reliefrqst_id v → ri_item_id v' = ri_item_id v →
  put_rqst_item v' (put_rqst_item v d) = put_rqst_item v' d.
Proof. intros H1 H2. unfold put_rqst_item. rewrite H1, H2. simpl. by rewrite insert_insert_eq. Qed.

(** The line [edit_items] asks the session to store. *)
Definition asked_line (d : DB) (rq it q : Z) (urgency : string) (reason : option string) (by_date : option Z) : ReliefRqstItem :=
  match db_rqst_item d !! (rq, it) with
  | Some v => set_ri_version_nbr (ri_version_nbr v + 1)
                (set_ri_required_by_date by_date (set_ri_rqst_reason_desc reason
                  (set_ri_urgency_ind urgency (set_ri_request_qty q v))))
  | None => mkReliefRqstItem rq it q 0 urgency reason by_date "R" None None None 1
  end.

Lemma add_item_ok rq it q urgency reason by_date s {B} (k : M Session ReqError B) b s' :
  run_ok (add_or_update_request_item rq it q urgency reason by_date None;; k) s b s' ↔
  0 < q ∧ urgency ∈ URGENCIES ∧
  run_ok k (upd_work (put_rqst_item (asked_line (work s) rq it q urgency reason by_date)) s) b s'.
Proof.
  assert (∀ v s1, run_ok (add_or_update_request_item rq it q urgency reason by_date None) s v s1 ↔
    0 < q ∧ urgency ∈ URGENCIES ∧ v = asked_line (work s) rq it q urgency reason by_date ∧
    s1 = upd_work (put_rqst_item (asked_line (work s) rq it q urgency reason by_date)) s) as Hadd.
  { intros v s1. unfold add_or_update_request_item, asked_line.
    rewrite !run_fail_if, run_get, Z.leb_gt, negb_bool_decide_false.
    destruct (db_rqst_item (work s) !! (rq, it)) as [v0|]; rewrite ?run_fail_if, run_mod, run_ret; naive_solver. }
  rewrite bind_ok. setoid_rewrite Hadd. naive_solver.
Qed.

Lemma asked_line_keys d rq it q u reason by_date :
  keyed_rqst_items d →
  ri_reliefrqst_id (asked_line d rq it q u reason by_date) = rq ∧
  ri_item_id (asked_line d rq it q u reason by_date) = it.
Proof.
  intros Hk. unfold asked_line. destruct (db_rqst_item d !! (rq, it)) as [v|] eqn:Hv; [|done].
  specialize (Hk _ _ Hv). simpl in Hk. by simplify_eq.
Qed.

Lemma stored_rqst_line_keys v v' :
  stored_rqst_line v = Some v' → ri_reliefrqst_id v' = ri_reliefrqst_id v ∧ ri_item_id v' = ri_item_id v.
Proof. unfold stored_rqst_line. destruct (numeric 12 (ri_request_qty v)); simpl; [|done]. case_match; [|done]. by intros [= <-]. Qed.

Lemma lower_char_H c : lower_char c ≠ "H"%char ∧ lower_char c ≠ "M"%char ∧ lower_char c ≠ "L"%char.
Proof. destruct c as [[] [] [] [] [] [] [] []]; vm_compute; repeat split; discriminate. Qed.

(** The lower-cased text is looked up among upper-case letters, so nothing but the
    default comes out. *)
Lemma urgency_M u :
  upper (validate_filter_value (Some (upper u)) ["H"; "M"; "L"]%string "M") = "M"%string.
Proof.
  unfold validate_filter_value. rewrite bool_decide_eq_false_2; [by vm_compute|].
  assert (∀ s x, lower s = String x EmptyString → ∃ c, x = lower_char c) as Hl.
  { intros s x Hs. apply (f_equal chars) in Hs. unfold lower in Hs. rewrite chars_of_chars in Hs.
    destruct (chars s) as [|c l]; [done|]. simpl in Hs. exists c. congruence. }
  rewrite !elem_of_cons, elem_of_nil. intros [H|[H|[H|[]]]]; apply Hl in H as (c & H);
    pose proof (lower_char_H c) as (? & ? & ?); congruence.
Qed.

(** Everything [edit_items] demands of the form and the catalogue. *)
Definition line_form_ok (d : DB) (f : LineForm) (it q : Z) (by_date : option Z) : Prop :=
  safe_id (if_item_id f) 0 = it ∧ 0 < it ∧ safe_quantity (if_request_qty f) = Some q ∧ 0 < q ∧
  match if_required_by_date f with NoDate => by_date = None | BadDate => False | OnDay day => by_date = Some day end ∧
  ∃ i, db_item d !! it = Some i ∧ it_status_code i = "A"%string ∧ it_category_type i = "GOODS"%string.

Lemma edit_item_ok rq f s s' :
  keyed_rqst_items (work s) →
  run_ok (edit_item_body rq f) s tt s' ↔
  ∃ it q by_date v', line_form_ok (work s) f it q by_date ∧
    stored_rqst_line (asked_line (work s) rq it q "M" (Some (strip (if_reason_desc f))) by_date) = Some v' ∧
    s' = session_of (put_rqst_item v' (work s)).
Proof.
  intros Hk. unfold edit_item_body. cbv zeta. rewrite urgency_M, run_fail_if, m_some_ok.
  assert (∀ by_date q, let it := safe_id (if_item_id f) 0 in
    run_ok (d ← db_get; i ← m_some (db_item d !! it) NotFound404;
      m_fail_if (negb (bool_decide (it_status_code i = "A"%string))) (Refused "inactive item");;
      m_fail_if (negb (bool_decide (it_category_type i = "GOODS"%string))) (Refused "Only GOODS items");;
      m_fail_if (q <=? 0) (Refused "Quantity must be greater than zero");;
      m_fail_if (bool_decide ("M"%string = "H"%string) && is_none by_date) (Refused "Required By Date");;
      m_fail_if (bool_decide ("M"%string = "H"%string) && bool_decide (strip (if_reason_desc f) = ""%string)) (Refused "justification");;
      add_or_update_request_item rq it q "M" (Some (strip (if_reason_desc f))) by_date None;;
      flush_line rq it;; db_commit) s tt s' ↔
    0 < q ∧ (∃ i, db_item (work s) !! it = Some i ∧ it_status_code i = "A"%string ∧ it_category_type i = "GOODS"%string) ∧
    ∃ v', stored_rqst_line (asked_line (work s) rq it q "M" (Some (strip (if_reason_desc f))) by_date) = Some v' ∧
      s' = session_of (put_rqst_item v' (work s))) as Hrest.
  { intros by_date q it. rewrite run_get.
    destruct (db_item (work s) !! it) as [i|]; [rewrite m_some_Some|split; [done|naive_solver]].
    rewrite !run_fail_if, !negb_bool_decide_false, Z.leb_gt, add_item_ok.
    destruct (asked_line_keys (work s) rq it q "M" (Some (strip (if_reason_desc f))) by_date Hk) as [K1 K2].
    set (v := asked_line _ _ _ _ _ _ _) in *.
    rewrite (flush_line_ok rq it v) by (simpl; rewrite K1, K2; apply lookup_insert_eq).
    setoid_rewrite commit_ok. simpl.
    assert (∀ v', stored_rqst_line v = Some v' → put_rqst_item v' (put_rqst_item v (work s)) = put_rqst_item v' (work s)) as Hpp.
    { intros v' Hv'. destruct (stored_rqst_line_keys v v' Hv') as [? ?]. by apply put_put. }
    assert ("M"%string ∈ URGENCIES) as HM by by_decide. split.
    - intros (Ha & Hg & Hq & _ & _ & _ & _ & v' & Hv' & ->). rewrite (Hpp v' Hv'). eauto 10.
    - intros (Hq & (i' & [= <-] & Ha & Hg) & v' & Hv' & ->).
      do 7 (split; [done|]). exists v'. by rewrite (Hpp v' Hv'). }
  unfold line_form_ok. setoid_rewrite Z.leb_gt. split.
  - intros (Hit & q & Hq & Hrun). rewrite bind_ok in Hrun. destruct Hrun as (by_date & s1 & Hby & Hrun).
    assert (s1 = s ∧ match if_required_by_date f with NoDate => by_date = None | BadDate => False | OnDay day => by_date = Some day end)
      as [-> Hdate] by (revert Hby; destruct (if_required_by_date f); [rewrite run_ret; naive_solver|by intros [=]|rewrite run_ret; naive_solver]).
    apply Hrest in Hrun as (Hpos & Hi & v' & Hv' & ->).
    exists (safe_id (if_item_id f) 0), q, by_date, v'. eauto 10.
  - intros (it & q & by_date & v' & (<- & Hit & Hq & Hpos & Hdate & Hi) & Hv' & ->).
    split; [done|]. exists q. split; [done|]. rewrite bind_ok. exists by_date, s.
    split; [destruct (if_required_by_date f); [by subst|done|by subst]|].
    apply Hrest. eauto.
Qed.
End bodies.
