(* ===== verification/RequestEffects.v ===== *)
(** The effects a route of a relief request can have on the stored data, with who
    may cause them and when; every call has one of them, and a call that fails has
    none. *)
From stdpp Require Import strings.
From S2P Require Import Prelude PyStr ParamValidation Schema Columns Atomicity Ledger Fixtures AccessControl AccessControlProofs ReliefRequest ReliefRequestProofs RequestRoutes RequestRoutesProofs.

Section effects.
Context `{R : Runtime} (rx : RequestCtx).

(** Who may create a request for an agency: its own users, and logistics staff that
    belong to no agency. *)
Definition may_create (c : Cache) (agency_id : Z) : Prop :=
  of_agency rx agency_id ∨ (get_agency_id (rx_user rx) = None ∧ is_logistics rx c).

Definition new_draft (agency_id : Z) (urgency : string) (event : option Z) (notes : string) (u : User) : ReliefRqst :=
  mkReliefRqst (rx_new_id rx) agency_id (rx_today rx) event urgency (Some notes) STATUS_DRAFT None
    (us_user_name u) (rx_now rx) None None None None 1.

Definition edited_draft (urgency : string) (event : option Z) (notes : string) (r : ReliefRqst) : ReliefRqst :=
  set_rq_version_nbr (rq_version_nbr r + 1) (set_rq_notes_text (Some notes)
    (set_rq_eligible_event_id event (set_rq_urgency_ind urgency r))).

Definition cancelled (rq : Z) (d : DB) : DB :=
  set_db_rqst (delete rq (db_rqst d))
    (set_db_notification ((λ n, if decide (nt_reliefrqst_id n = Some rq)
                                then mkNotification (nt_user_id n) None (nt_type n) else n) <$> db_notification d)
      (set_db_rqst_item (filter (λ kv, kv.1.1 ≠ rq) (db_rqst_item d)) d)).

(** The row of a request satisfies the constraints of its table. *)
Definition accepted (rq : Z) (d : DB) : Prop :=
  ∀ r, db_rqst d !! rq = Some r → rqst_row_ok (rx_current_date rx) d r = true.

(** A draft the user may open. *)
Definition open_draft (c : Cache) (d : DB) (rq : Z) (r : ReliefRqst) : Prop :=
  db_rqst d !! rq = Some r ∧ rq_status_code r = STATUS_DRAFT ∧ may_open rx c (rq_agency_id r).

Inductive effect (c : Cache) (d : DB) : DB → Prop :=
| ef_none : effect c d d
| ef_create agency_id urgency event notes u :
    may_create c agency_id →
    accepted (rx_new_id rx) (put_rqst (new_draft agency_id urgency event notes u) d) →
    effect c d (put_rqst (new_draft agency_id urgency event notes u) d)
| ef_edit rq r urgency event notes :
    open_draft c d rq r → accepted rq (put_rqst (edited_draft urgency event notes r) d) →
    effect c d (put_rqst (edited_draft urgency event notes r) d)
| ef_line rq r v v' :
    open_draft c d rq r → ri_reliefrqst_id v' = rq → stored_rqst_line v = Some v' →
    effect c d (put_rqst_item v' d)
| ef_unline rq r it :
    open_draft c d rq r → effect c d (set_db_rqst_item (delete (rq, it) (db_rqst_item d)) d)
| ef_cancel rq r : open_draft c d rq r → effect c d (cancelled rq d)
| ef_submit rq r :
    open_draft c d rq r → positive_item rq d → accepted rq (submitted rq r d) →
    effect c d (submitted rq r d)
| ef_decide rq r decision reason u :
    is_executive rx c → db_rqst d !! rq = Some r → rq_status_code r = STATUS_AWAITING_APPROVAL →
    rq_review_by_id r = None → decision ∈ ["Y"; "N"]%string →
    accepted rq (decided rq r decision reason u (rx_now rx) d) →
    effect c d (decided rq r decision reason u (rx_now rx) d).

(** * Creating *)

Lemma create_request_closed f s : ∃ r, (create_request rx f s).2 = inl (RGuard r).
Proof.
  unfold create_request, route. unfold login_required, create_request_guard, feature_required.
  destruct (rx_user rx) as [u|]; [|by exists ToLogin]. by exists Forbidden.
Qed.

Lemma create_and_commit_ok agency_id urgency event notes s new_id s' :
  run_ok (create_and_commit rx agency_id urgency event notes) s new_id s' →
  ∃ u, accepted (rx_new_id rx) (put_rqst (new_draft agency_id urgency event notes u) (work s)) ∧
    s' = session_of (put_rqst (new_draft agency_id urgency event notes u) (work s)).
Proof.
  unfold create_and_commit. rewrite bind_ok. intros (r & s1 & Hr & Hrun). revert Hr.
  unfold create_draft_request. rewrite !run_fail_if, run_get, !run_fail_if. intros (_ & _ & _ & Hr).
  destruct (user_by_email _ _) as [u|]; [|done]. rewrite run_mod, run_ret in Hr. destruct Hr as [-> ->].
  rewrite flush_rqst_ok in Hrun. destruct Hrun as [Hok Hrun]. apply seq_ok in Hrun as (s2 & Hc & Hrun).
  apply commit_ok in Hc as ->. apply run_ret in Hrun as [_ ->]. by exists u.
Qed.

Lemma on_behalf_ok f s new_id s' :
  run_ok (create_request_on_behalf rx f) s new_id s' →
  ∃ c d', effect (app_cache s) (work (app_db s)) d' ∧ s' = mkApp c (session_of d').
Proof.
  unfold create_request_on_behalf. rewrite route_ok. intros (s1 & Hrun & ->).
  apply run_fail_if in Hrun as [_ Hrun].
  assert (∃ c l, force rx c = force rx (app_cache s) ∧ (l = true → is_logistics rx (app_cache s)) ∧
    run_ok (m_fail_if (negb (l || is_agency_user (rx_user rx))) (RGuard Forbidden);; attempt (
      agency_id ← match session_agency rx with
                | Some a => mret a
                | None => match rf_agency_id f with
                          | None => m_fail (Refused "Please select an agency")
                          | Some s => if bool_decide (s = ""%string) then m_fail (Refused "Please select an agency")
                                      else m_some (py_int s) (ValueError "agency")
                          end
                end;
      event ← m_some (optional_int (rf_eligible_event_id f)) (ValueError "event");
      d ← db_get;
      m_fail_if (negb (bool_decide (agency_id ∈ db_agency d))) (Refused "Invalid agency selected");;
      let urgency_ind := default "M"%string (rf_urgency_ind f) in
      m_fail_if (negb (bool_decide (urgency_ind ∈ ["H"; "M"; "L"]%string))) (Refused "Invalid urgency level");;
      create_and_commit rx agency_id urgency_ind event (strip (rf_notes_text f)))) (mkApp c (app_db s)) new_id s1)
    as (c & l & _ & Hl & Hrest).
  { revert Hrun. destruct (has_roles_run (rx_user rx) (rx_auth rx) (rx_query_ok rx) (E := Refusal) ["LOGISTICS_OFFICER"%string] (app_cache s))
      as (c1 & b1 & Hc1 & Hf1 & Hb1); [intros x ->%list_elem_of_singleton; by vm_compute|].
    rewrite (on_cache_ok _ _ _ _ _ c1 b1 Hc1). destruct b1.
    { intros Hrun. exists c1, true. split; [done|]. split; [|exact Hrun]. intros _.
      destruct (proj1 Hb1 eq_refl) as (role & ->%list_elem_of_singleton & Hh). exists "LOGISTICS_OFFICER"%string.
      split; [by_decide|done]. }
    destruct (has_roles_run (rx_user rx) (rx_auth rx) (rx_query_ok rx) (E := Refusal) ["LOGISTICS_MANAGER"%string] c1)
      as (c2 & b2 & Hc2 & Hf2 & Hb2); [intros x ->%list_elem_of_singleton; by vm_compute|].
    rewrite (on_cache_ok _ _ _ _ _ c2 b2) by exact Hc2. simpl.
    intros Hrun. exists c2, b2. split; [unfold force; congruence|]. split; [|exact Hrun]. intros ->.
    destruct (proj1 Hb2 eq_refl) as (role & ->%list_elem_of_singleton & Hh). exists "LOGISTICS_MANAGER"%string.
    split; [by_decide|]. by apply (has_role_force rx c1). }
  rewrite run_fail_if, negb_false_iff, orb_true_iff, attempt_ok in Hrest. destruct Hrest as (Hwho & d & Hbody & ->). simpl.
  rewrite bind_ok in Hbody. destruct Hbody as (agency_id & s2 & Hag & Hbody).
  assert (s2 = app_db s ∧ may_create (app_cache s) agency_id) as [-> Hmay].
  { unfold session_agency in Hag. unfold may_create. destruct (get_agency_id (rx_user rx)) as [a|] eqn:Ha.
    - apply run_ret in Hag as [-> ->]. split; [done|]. left. by apply get_agency_id_spec.
    - assert (s2 = app_db s) as ->.
      { revert Hag. unfold run_ok, m_some, m_fail, m_ret. repeat case_match; intros ?; by simplify_eq. }
      split; [done|]. right. split; [done|]. apply Hl. destruct Hwho as [->|Hu]; [done|].
      unfold is_agency_user in Hu. by rewrite Ha in Hu. }
  rewrite m_some_ok in Hbody. destruct Hbody as (event & _ & Hbody).
  rewrite run_get, !run_fail_if in Hbody. destruct Hbody as (_ & _ & Hbody).
  apply create_and_commit_ok in Hbody as (u & Hacc & ->).
  eexists _, _. split; [by eapply ef_create|]. done.
Qed.

(** * Every other call *)

Lemma edit_request_effect rq f s s' :
  keyed_rqsts (work (app_db s)) → run_ok (edit_request rx rq f) s tt s' →
  ∃ c d', effect (app_cache s) (work (app_db s)) d' ∧ s' = mkApp c (session_of d').
Proof.
  intros Hk Hrun. destruct (draft_route rx rq (λ r,
    current_version ← m_some (version_or (rf_version_nbr f) (rq_version_nbr r)) (ValueError "version");
    m_fail_if (negb (rq_version_nbr r =? current_version)) LockTypeError;;
    event ← m_some (optional_int (rf_eligible_event_id f)) (ValueError "event");
    db_mod (put_rqst (edited_draft (default "M"%string (rf_urgency_ind f)) event (strip (rf_notes_text f)) r));;
    flush_rqst rx rq;;
    db_commit) s) as (c & _ & Hiff).
  destruct (proj1 (Hiff _ _) Hrun) as (r & d & Hr & Hm & Hst & Hbody & ->).
  rewrite m_some_ok in Hbody. destruct Hbody as (v & _ & Hbody). rewrite run_fail_if, m_some_ok in Hbody.
  destruct Hbody as (_ & event & _ & Hbody). rewrite run_mod, flush_rqst_ok, commit_ok in Hbody.
  destruct Hbody as [Hacc ->]. eexists c, _. split; [|reflexivity]. by apply (ef_edit _ _ rq).
Qed.

Lemma items_effect rq f s s' :
  keyed_rqst_items (work (app_db s)) → run_ok (edit_items rx rq f) s tt s' →
  ∃ c d', effect (app_cache s) (work (app_db s)) d' ∧ s' = mkApp c (session_of d').
Proof.
  intros Hk Hrun. destruct (draft_route rx rq (λ _, edit_item_body rq f) s) as (c & _ & Hiff).
  destruct (proj1 (Hiff _ _) Hrun) as (r & d & Hr & Hm & Hst & Hbody & ->).
  apply edit_item_ok in Hbody as (it & q & by_date & v' & Hf & Hv' & ->); [|done].
  eexists c, _. split; [|reflexivity]. eapply (ef_line _ _ rq r); [by split_and!| |exact Hv'].
  destruct (stored_rqst_line_keys _ _ Hv') as [-> _]. by apply asked_line_keys.
Qed.

Lemma unline_effect rq it s s' :
  run_ok (delete_rqst_item rx rq it) s tt s' →
  ∃ c d', effect (app_cache s) (work (app_db s)) d' ∧ s' = mkApp c (session_of d').
Proof.
  intros Hrun. destruct (plain_route rx rq (λ _, delete_request_item rq it;; db_commit) s) as (c & _ & Hiff).
  destruct (proj1 (Hiff _ _) Hrun) as (r & d & Hr & Hm & Hbody & ->). apply seq_ok in Hbody as (s1 & Hdel & Hc).
  apply commit_ok in Hc as ->. revert Hdel. unfold delete_request_item. rewrite run_get, Hr, run_fail_if, negb_eqb_false.
  intros [Hst Hdel]. destruct (db_rqst_item (work (app_db s)) !! (rq, it)); [|done].
  apply run_mod_last in Hdel as ->. eexists c, _. split; [|reflexivity]. by apply (ef_unline _ _ rq r).
Qed.

Lemma cancel_effect rq s s' :
  run_ok (cancel_request rx rq) s tt s' →
  ∃ c d', effect (app_cache s) (work (app_db s)) d' ∧ s' = mkApp c (session_of d').
Proof.
  intros Hrun. destruct (draft_route rx rq (λ _,
    db_mod (λ d, set_db_rqst_item (filter (λ kv, kv.1.1 ≠ rq) (db_rqst_item d)) d);;
    delete_request rq;; db_commit) s) as (c & _ & Hiff).
  destruct (proj1 (Hiff _ _) Hrun) as (r & d & Hr & Hm & Hst & Hbody & ->). rewrite run_mod in Hbody.
  apply seq_ok in Hbody as (s1 & Hdel & Hc). apply commit_ok in Hc as ->. revert Hdel.
  unfold delete_request. rewrite run_get, !run_fail_if, run_mod, run_mod_last. intros (_ & _ & ->).
  exists c, (cancelled rq (work (app_db s))). split; [by apply (ef_cancel _ _ rq r)|reflexivity].
Qed.

Lemma submit_effect rq v s s' :
  run_ok (submit_draft rx rq v) s tt s' →
  ∃ c d', effect (app_cache s) (work (app_db s)) d' ∧ s' = mkApp c (session_of d').
Proof.
  intros Hrun. destruct (plain_route rx rq (λ r,
    current_version ← m_some (version_or v (rq_version_nbr r)) (ValueError "version");
    submit_request rq current_version;; flush_rqst rx rq;; db_commit) s) as (c & _ & Hiff).
  destruct (proj1 (Hiff _ _) Hrun) as (r & d & Hr & Hm & Hbody & ->). rewrite m_some_ok in Hbody.
  destruct Hbody as (ver & _ & Hbody). apply seq_ok in Hbody as (s1 & Hsub & Hbody).
  apply submit_run in Hsub as (r' & Hr' & Hst & Hpos & _ & ->). rewrite Hr in Hr'. injection Hr' as <-.
  rewrite flush_rqst_ok, commit_ok in Hbody. destruct Hbody as [Hacc ->].
  eexists c, _. split; [|reflexivity]. by apply (ef_submit _ _ rq r).
Qed.

Lemma eligibility_body_ok rq decision reason s s' :
  run_ok (eligibility_body rx rq decision reason) s tt s' →
  ∃ r x t u, decision = Some x ∧ db_rqst (work s) !! rq = Some r ∧ rq_status_code r = STATUS_AWAITING_APPROVAL ∧
    rq_review_by_id r = None ∧ x ∈ ["Y"; "N"]%string ∧
    accepted rq (decided rq r x t u (rx_now rx) (work s)) ∧
    s' = session_of (decided rq r x t u (rx_now rx) (work s)).
Proof.
  unfold eligibility_body. destruct decision as [x|]; [|done]. rewrite !run_fail_if. intros (_ & _ & Hrun).
  apply seq_ok in Hrun as (s1 & Hdec & Hrun).
  apply eligibility_run in Hdec as (r & u & Hr & Hst & Hrev & Hx & _ & _ & ->).
  rewrite flush_rqst_ok, commit_ok in Hrun. destruct Hrun as [Hacc ->].
  exists r, x, (if bool_decide (x = "N"%string) then Some reason else None), u. by split_and!.
Qed.

Lemma decision_effect rq decision reason c s1 s s' :
  is_executive rx (app_cache s) → run_ok (eligibility_body rx rq decision reason) (app_db s) tt s1 →
  s' = mkApp c (rollback_session s1) →
  ∃ c d', effect (app_cache s) (work (app_db s)) d' ∧ s' = mkApp c (session_of d').
Proof.
  intros Hex (r & x & t & u & _ & Hr & Hst & Hrev & Hx & Hacc & ->)%eligibility_body_ok ->.
  eexists c, _. split; [|reflexivity]. by eapply ef_decide.
Qed.

(** Whatever is called, the data stored next is one effect away, and the same when
    the call fails. *)
Lemma perform_effect call c d s' res :
  keyed_rqsts d → keyed_rqst_items d →
  perform rx call (mkApp c (session_of d)) = (s', res) →
  ∃ c' d', s' = mkApp c' (session_of d') ∧ effect c d d' ∧ (res ≠ inr tt → d' = d).
Proof.
  intros Hk Hki Hrun. destruct res as [e|[]].
  - pose proof (perform_clean rx call (mkApp c (session_of d))) as Hclean. rewrite Hrun in Hclean. simpl in Hclean.
    exists (app_cache s'), d. split; [|by split; [constructor|]].
    assert (app_db s' = rollback_session (app_db s')) as Hroll.
    { assert (∀ A (m : M App RouteFailure A) s s' e, route m s = (s', inl e) → app_db s' = rollback_session (app_db s')) as Hroute.
      { clear. intros A m s s' e. unfold route. destruct (m s). by intros [= <- ->]. }
      assert (∀ A (m : M App RouteFailure A) s s' e, (route m;; mret tt) s = (s', inl e) → app_db s' = rollback_session (app_db s')) as Hroute'.
      { clear -Hroute. intros A m s s' e. rewrite run_bind. destruct (route m s) as [s1 [e1|a]] eqn:E; [|done].
        intros [= <- <-]. by eapply Hroute. }
      destruct call; simpl in Hrun; first [by eapply Hroute|by eapply Hroute']. }
    destruct s' as [c' s1]. simpl in *. rewrite Hroll. unfold rollback_session, session_of. by rewrite Hclean.
  - assert (∃ c' d', effect c d d' ∧ s' = mkApp c' (session_of d')) as (c' & d' & He & ->); [|by exists c', d'].
    change (run_ok (perform rx call) (mkApp c (session_of d)) tt s') in Hrun.
    destruct call as [f|f|rq f|rq f|rq it|rq|rq|rq v|rq f|rq body]; simpl in Hrun.
    + apply bind_ok in Hrun as (i & s1 & Hrun & _). destruct (create_request_closed f (mkApp c (session_of d))) as (r & Hr).
      by rewrite Hrun in Hr.
    + apply bind_ok in Hrun as (i & s1 & Hrun & Hret). injection Hret as <-. by apply on_behalf_ok in Hrun.
    + by apply edit_request_effect in Hrun.
    + by apply items_effect in Hrun.
    + by apply unline_effect in Hrun.
    + destruct (draft_route rx rq (λ _, db_commit) (mkApp c (session_of d))) as (c' & _ & Hiff).
      destruct (proj1 (Hiff _ _) Hrun) as (r & d1 & _ & _ & _ & Hc & ->). apply commit_ok in Hc as ->.
      exists c', d. split; [constructor|done].
    + by apply cancel_effect in Hrun.
    + by apply submit_effect in Hrun.
    + destruct (executive_route rx (eligibility_body rx rq (cf_decision f) (strip (cf_reason f))) (mkApp c (session_of d)))
        as (c' & _ & Hiff). destruct (proj1 (Hiff _ _) Hrun) as (Hex & s1 & Hbody & ->).
      by eapply (decision_effect _ _ _ _ _ (mkApp c (session_of d))).
    + destruct (executive_route rx (match body with
        | BadJson => m_fail (ValueError "json")
        | EmptyJson => m_fail (Refused "Invalid JSON")
        | JObject decision reason =>
            reason ← match reason with
                     | JNone => mret ""%string
                     | JStr s => mret (strip s)
                     | JOther => m_fail (ValueError "strip")
                     end;
            eligibility_body rx rq (match decision with JStr s => Some s | _ => None end) reason
        end) (mkApp c (session_of d))) as (c' & _ & Hiff).
      destruct (proj1 (Hiff _ _) Hrun) as (Hex & s1 & Hbody & ->). destruct body as [| |x t]; [done|done|].
      apply bind_ok in Hbody as (reason & s2 & Hreason & Hbody).
      assert (s2 = session_of d) as -> by (destruct t; [by apply run_ret in Hreason as [_ ->]..|done]).
      by eapply (decision_effect _ _ _ _ _ (mkApp c (session_of d))).
Qed.
End effects.
