(* ===== verification/RequestRouteTheorems.v ===== *)
(** What the routes of a relief request guarantee: who can change what and when, the
    state of the tables after any sequence of calls, what [edit_items] stores, and
    that every draft can be brought to a decision. *)
From stdpp Require Import strings.
From S2P Require Import Prelude PyStr ParamValidation Schema Columns Atomicity Ledger Fixtures AccessControl AccessControlProofs ReliefRequest ReliefRequestProofs Packaging RequestRoutes RequestRoutesProofs RequestEffects.

(** * Who changes what *)

Section authority.
Context `{R : Runtime} (rx : RequestCtx).

(** The request or one of its lines is not the same in [d] and [d']. *)
Definition changed (rq : Z) (d d' : DB) : Prop :=
  db_rqst d' !! rq ≠ db_rqst d !! rq ∨ ∃ it, db_rqst_item d' !! (rq, it) ≠ db_rqst_item d !! (rq, it).

Definition same_lines (rq : Z) (d d' : DB) : Prop :=
  ∀ it, db_rqst_item d' !! (rq, it) = db_rqst_item d !! (rq, it).

(** The change is a new draft, work on a draft by somebody who may open it, or the
    decision of an executive. *)
Definition authorized (c : Cache) (rq : Z) (d d' : DB) : Prop :=
  (db_rqst d !! rq = None ∧ rq = rx_new_id rx ∧
     ∃ r', db_rqst d' !! rq = Some r' ∧ fresh_draft r' ∧ may_create rx c (rq_agency_id r')) ∨
  (∃ r, db_rqst d !! rq = Some r ∧ rq_status_code r = STATUS_DRAFT ∧ may_open rx c (rq_agency_id r)) ∨
  (is_executive rx c ∧ same_lines rq d d' ∧
     ∃ r r', db_rqst d !! rq = Some r ∧ db_rqst d' !! rq = Some r' ∧
       rq_status_code r = STATUS_AWAITING_APPROVAL ∧ rq_review_by_id r = None ∧
       rq_status_code r' ∈ [STATUS_SUBMITTED; STATUS_INELIGIBLE] ∧ is_Some (rq_review_by_id r')).

Lemma changed_put rq r' d :
  changed rq d (put_rqst r' d) → rq = rq_reliefrqst_id r'.
Proof.
  intros [H|[it H]]; [|by destruct H]. destruct (decide (rq = rq_reliefrqst_id r')) as [|Hne]; [done|].
  destruct H. simpl. by rewrite lookup_insert_ne.
Qed.

Lemma decided_rows rq r x t u now d :
  ∃ r', db_rqst (decided rq r x t u now d) = <[rq_reliefrqst_id r := r']> (db_rqst d) ∧
    db_rqst_item (decided rq r x t u now d) = db_rqst_item d ∧
    rq_status_code r' ∈ [STATUS_SUBMITTED; STATUS_INELIGIBLE] ∧ rq_review_by_id r' = Some (us_user_name u).
Proof. unfold decided. case_decide; (eexists; split; [reflexivity|]); split; [done|split; [by_decide|done]|done|split; [by_decide|done]]. Qed.

Lemma effect_authorized c d d' rq :
  db_rqst d !! rx_new_id rx = None → keyed_rqsts d → effect rx c d d' → changed rq d d' → authorized c rq d d'.
Proof.
  intros Hfresh Hk He Hch. destruct He as [|ag urg ev notes u Hmay _|rq' r urg ev notes (Hr & Hst & Hm) _
    |rq' r v v' (Hr & Hst & Hm) Hid _|rq' r it (Hr & Hst & Hm)|rq' r (Hr & Hst & Hm)|rq' r (Hr & Hst & Hm) _ _
    |rq' r x t u Hex Hr Hst Hrev _ _].
  - destruct Hch as [H|[it H]]; by destruct H.
  - apply changed_put in Hch as ->. left. split; [done|]. split; [done|].
    eexists. simpl. rewrite lookup_insert_eq. split; [reflexivity|]. done.
  - apply changed_put in Hch as ->. right; left. exists r. simpl. by rewrite (Hk _ _ Hr).
  - right; left. assert (rq = rq') as ->; [|by exists r].
    destruct Hch as [H|[it H]]; [by destruct H|]. destruct (decide (rq = rq')) as [|Hne]; [done|]. destruct H.
    simpl. rewrite lookup_insert_ne; [done|]. congruence.
  - right; left. assert (rq = rq') as ->; [|by exists r].
    destruct Hch as [H|[it' H]]; [by destruct H|]. destruct (decide (rq = rq')) as [|Hne]; [done|]. destruct H.
    simpl. rewrite lookup_delete_ne; [done|]. congruence.
  - right; left. assert (rq = rq') as ->; [|by exists r]. destruct (decide (rq = rq')) as [|Hne]; [done|].
    destruct Hch as [H|[it H]]; destruct H; simpl; [by rewrite lookup_delete_ne|].
    destruct (db_rqst_item d !! (rq, it)) as [v|] eqn:Hv; [by apply map_lookup_filter_Some|].
    apply map_lookup_filter_None. by left.
  - right; left. exists r. replace rq with rq'; [done|]. destruct Hch as [H|[it H]]; [|by destruct H].
    destruct (decide (rq' = rq)) as [|Hne]; [done|]. destruct H. simpl. rewrite (Hk _ _ Hr). by rewrite lookup_insert_ne.
  - right; right. destruct (decided_rows rq' r x t u (rx_now rx) d) as (r' & Hrows & Hlines & Hst' & Hrev').
    assert (rq = rq') as ->.
    { destruct (decide (rq = rq')) as [|Hne]; [done|]. destruct Hch as [H|[it H]]; destruct H; [|by rewrite Hlines].
      rewrite Hrows, (Hk _ _ Hr). by rewrite lookup_insert_ne. }
    split; [done|]. split; [intros it; by rewrite Hlines|]. exists r, r'.
    rewrite Hrows, (Hk _ _ Hr), lookup_insert_eq, Hrev'. by eauto 10.
Qed.

(** C7: whatever request a user sends to these routes, a relief request and its lines
    change only as a new draft for the user's own agency (or, for logistics staff
    of no agency, any), while in draft by somebody who may open it, or by the
    one decision of an executive on a submitted request; all other requests stay
    as they are, and a call that fails changes nothing. *)
Theorem request_change_authorized call c d c' d' res rq :
  db_rqst d !! rx_new_id rx = None → keyed_rqsts d → keyed_rqst_items d →
  perform rx call (mkApp c (session_of d)) = (mkApp c' (session_of d'), res) →
  changed rq d d' → res = inr tt ∧ authorized c rq d d'.
Proof.
  intros Hf Hk Hki Hrun Hch. destruct (perform_effect rx call c d _ res Hk Hki Hrun) as (c1 & d1 & Heq & He & Hfail).
  injection Heq as -> <-. assert (res = inr tt) as ->.
  { destruct res as [e|[]]; [|done]. rewrite Hfail in Hch by done. destruct Hch as [Hx|[it Hx]]; by destruct Hx. }
  split; [done|]. by apply effect_authorized.
Qed.
End authority.

(** * The tables after any sequence of calls *)

(** What the status says of the decision: undecided requests have no reviewer, eligible
    ones have one, ineligible and filled ones a reviewer and an action officer. *)
Definition review_ok (r : ReliefRqst) : Prop :=
  (rq_status_code r ∈ [STATUS_DRAFT; STATUS_AWAITING_APPROVAL] ∧
     rq_review_by_id r = None ∧ rq_action_by_id r = None) ∨
  (rq_status_code r = STATUS_SUBMITTED ∧ is_Some (rq_review_by_id r)) ∨
  (rq_status_code r ∈ [STATUS_INELIGIBLE; STATUS_FILLED] ∧ is_Some (rq_review_by_id r) ∧ is_Some (rq_action_by_id r)).

(** [c_reliefrqst_3] to [c_reliefrqst_5b]. *)
Lemma row_ok_fields cur d r : rqst_row_ok cur d r = true →
  (rq_status_code r ∈ [4; 6; 8] → is_Some (rq_status_reason_desc r)) ∧
  (rq_review_by_id r = None ↔ rq_status_code r < 2) ∧ (rq_review_by_id r = None ↔ rq_review_dtime r = None) ∧
  (rq_action_by_id r = None ↔ rq_status_code r < 4) ∧ (rq_action_by_id r = None ↔ rq_action_dtime r = None).
Proof.
  assert (∀ A (o : option A), is_none o = true ↔ o = None) as Hnone by (by intros A [x|]).
  unfold rqst_row_ok. rewrite !andb_true_iff, !eqb_true_iff.
  intros (((((((((((((_ & _) & Hr) & H1) & H2) & H3) & H4) & _) & _) & _) & _) & _) & _) & _).
  rewrite <- !Z.ltb_lt, <- !Hnone, H1, H3, <- H1, <- H3, H2, H4. split_and!; try done. intros Hs.
  rewrite (bool_decide_true _ Hs) in Hr. by destruct (rq_status_reason_desc r).
Qed.

Lemma edge_review_ok cur d r r' : review_ok r → rqst_edge r r' → rqst_row_ok cur d r' = true → review_ok r'.
Proof.
  intros Hr He Hok. apply row_ok_fields in Hok as (_ & Hv & _ & Ha & _). unfold review_ok in *.
  destruct He as (_ & [(Hst & Hst' & Hrev & Hact)|[(Hst & _ & Hrev & [Hst'|[Hst' Hact]])|[_ Hst']]]); rewrite Hst'.
  - left. rewrite Hrev, Hact. split; [by right; left|]. rewrite Hst in Hr. destruct Hr as [[_ ?]|[[? _]|[Hx _]]]; [done|done|].
    by rewrite !elem_of_cons, elem_of_nil in Hx; destruct Hx as [?|[?|?]].
  - by right; left.
  - right; right. split; [by left|done].
  - right; right. split; [by right; left|]. rewrite Hst' in Hv, Ha.
    split; apply not_eq_None_Some; [rewrite Hv|rewrite Ha]; by vm_compute.
Qed.

(** A request as its constraints, but for the date of the day, leave it. *)
Definition request_sound (d : DB) (r : ReliefRqst) : Prop :=
  review_ok r ∧ 1 ≤ rq_version_nbr r ∧ rqst_row_ok (rq_request_date r) d r = true.

Definition reqline_sound (d : DB) (v : ReliefRqstItem) : Prop :=
  line_row_ok v = true ∧ whole 12 (ri_request_qty v) ∧ is_Some (db_rqst d !! ri_reliefrqst_id v).

Definition request_tables_sound (d : DB) : Prop :=
  keyed_rqsts d ∧ keyed_rqst_items d ∧ map_Forall (λ _ r, request_sound d r) (db_rqst d) ∧
  map_Forall (λ _ v, reqline_sound d v) (db_rqst_item d).

#[export] Instance review_ok_dec r : Decision (review_ok r).
Proof. unfold review_ok. apply _. Defined.

#[export] Instance request_tables_sound_dec d : Decision (request_tables_sound d).
Proof. unfold request_tables_sound, request_sound, reqline_sound. apply _. Defined.

Lemma row_ok_date cur d d' r :
  db_agency d' = db_agency d → db_event d' = db_event d →
  rqst_row_ok cur d r = true → rqst_row_ok (rq_request_date r) d' r = true.
Proof.
  intros Ha He. unfold rqst_row_ok. rewrite Ha, He, Z.leb_refl. destruct (rq_request_date r <=? cur); [done|done].
Qed.

(** The conditions on the stored date and on the rest are independent. *)
Lemma row_ok_split cur d r :
  rqst_row_ok cur d r = (rq_request_date r <=? cur) && rqst_row_ok (rq_request_date r) d r.
Proof. unfold rqst_row_ok. rewrite Z.leb_refl. by destruct (rq_request_date r <=? cur). Qed.

Lemma row_ok_same cur d d' r :
  db_agency d' = db_agency d → db_event d' = db_event d → rqst_row_ok cur d' r = rqst_row_ok cur d r.
Proof. intros Ha He. unfold rqst_row_ok. by rewrite Ha, He. Qed.

Lemma stored_rqst_line_sound v v' :
  stored_rqst_line v = Some v' → line_row_ok v' = true ∧ whole 12 (ri_request_qty v').
Proof.
  unfold stored_rqst_line. destruct (numeric 12 (ri_request_qty v)) as [q|] eqn:Hq; [|done]. simpl.
  destruct (line_row_ok _) eqn:Hok; [|done]. intros [= <-]. split; [done|]. simpl.
  apply (numeric_whole _ _ _ Hq). unfold line_row_ok in Hok. simpl in Hok. z_bool. lia.
Qed.

(** Storing a sound request and leaving the lines alone. *)
Lemma sound_put d d' r :
  request_tables_sound d → db_rqst d' = <[rq_reliefrqst_id r := r]> (db_rqst d) →
  db_rqst_item d' = db_rqst_item d → db_agency d' = db_agency d → db_event d' = db_event d →
  review_ok r → 1 ≤ rq_version_nbr r → rqst_row_ok (rq_request_date r) d' r = true →
  request_tables_sound d'.
Proof.
  intros (Hk & Hki & Hr & Hl) Hrows Hlines Ha He Hrev Hver Hok.
  unfold request_tables_sound, keyed_rqsts, keyed_rqst_items. rewrite Hrows, Hlines.
  split; [by apply map_Forall_insert_2|]. split; [done|]. split.
  - apply map_Forall_insert_2; [done|]. eapply map_Forall_impl; [exact Hr|]. intros i x (H1 & H2 & H3).
    split; [done|]. split; [done|]. by rewrite (row_ok_same _ d d').
  - eapply map_Forall_impl; [exact Hl|]. intros i v (H1 & H2 & H3). split; [done|]. split; [done|].
    rewrite Hrows. destruct (decide (rq_reliefrqst_id r = ri_reliefrqst_id v)) as [->|Hne];
      [by rewrite lookup_insert_eq|by rewrite lookup_insert_ne].
Qed.

Section invariant.
Context `{R : Runtime}.

Lemma accepted_row rx rq d r :
  accepted rx rq d → db_rqst d !! rq = Some r → rqst_row_ok (rq_request_date r) d r = true.
Proof. intros Ha Hr. eapply row_ok_date; [done|done|]. by apply Ha. Qed.

Lemma edge_sound d d' rq r r' :
  request_tables_sound d → db_rqst d !! rq = Some r → rq_reliefrqst_id r' = rq_reliefrqst_id r → rqst_edge r r' →
  db_rqst d' = <[rq_reliefrqst_id r' := r']> (db_rqst d) →
  db_rqst_item d' = db_rqst_item d → db_agency d' = db_agency d → db_event d' = db_event d →
  rqst_row_ok (rq_request_date r') d' r' = true → request_tables_sound d'.
Proof.
  intros Hs Hr Hid Hedge Hrows Hl Ha He Hok. pose proof Hs as (_ & _ & Hall & _). destruct (Hall _ _ Hr) as (Hrev & Hver & _).
  apply (sound_put d d' r'); try done; [by eapply edge_review_ok|]. destruct Hedge as [-> _]. lia.
Qed.

Lemma decided_edge rq r x t u now d :
  rq_status_code r = STATUS_AWAITING_APPROVAL → rq_review_by_id r = None →
  ∃ r', rq_reliefrqst_id r' = rq_reliefrqst_id r ∧ rqst_edge r r' ∧
    db_rqst (decided rq r x t u now d) = <[rq_reliefrqst_id r' := r']> (db_rqst d) ∧
    db_rqst_item (decided rq r x t u now d) = db_rqst_item d ∧
    db_agency (decided rq r x t u now d) = db_agency d ∧ db_event (decided rq r x t u now d) = db_event d.
Proof.
  intros Hst Hrev. unfold decided. case_decide; (eexists; split; [|split; [|split; [reflexivity|by split_and!]]]);
    [done|split; [done|]; right; left; simpl; by eauto 10|done|split; [done|]; right; left; simpl; by eauto 10].
Qed.

Lemma effect_sound rx c d d' :
  request_tables_sound d → effect rx c d d' → request_tables_sound d'.
Proof.
  intros Hs He. pose proof Hs as (Hk & Hki & Hr & Hl).
  destruct He as [|ag urg ev notes u Hmay Hacc|rq r urg ev notes (Hrq & Hst & Hm) Hacc
    |rq r v v' (Hrq & Hst & Hm) Hid Hv|rq r it (Hrq & Hst & Hm)|rq r (Hrq & Hst & Hm)|rq r (Hrq & Hst & Hm) _ Hacc
    |rq r x t u Hex Hrq Hst Hrev _ Hacc].
  - done.
  - apply (sound_put d _ (new_draft rx ag urg ev notes u)); [done..| |done|].
    + left. split; [by left|done].
    + apply (accepted_row rx (rx_new_id rx)); [done|]. simpl. apply lookup_insert_eq.
  - destruct (Hr _ _ Hrq) as (Hrok & Hver & _).
    apply (sound_put d _ (edited_draft urg ev notes r)); [done..|exact Hrok|simpl; lia|].
    apply (accepted_row rx rq); [done|]. simpl. rewrite (Hk _ _ Hrq). apply lookup_insert_eq.
  - destruct (stored_rqst_line_sound v v' Hv) as [Hok Hw]. split; [done|]. simpl.
    split; [by apply map_Forall_insert_2|]. split; [done|]. apply map_Forall_insert_2; [|done].
    split; [done|]. split; [done|]. simpl. rewrite Hid. by eexists.
  - split; [done|]. split; [by apply map_Forall_delete|]. split; [done|]. by apply map_Forall_delete.
  - split; [by apply map_Forall_delete|]. simpl. split; [|split].
    + intros k v [Hv _]%map_lookup_filter_Some. by apply Hki.
    + by apply map_Forall_delete.
    + intros k v [Hv Hne]%map_lookup_filter_Some. simpl in Hne. pose proof (Hki k v Hv) as Hkv. simpl in Hkv. subst k. simpl in Hne.
      destruct (Hl _ _ Hv) as (H1 & H2 & H3). split; [done|]. split; [done|]. simpl. by rewrite lookup_delete_ne.
  - apply (edge_sound d _ rq r (set_rq_version_nbr (rq_version_nbr r + 1) (set_rq_status_code STATUS_AWAITING_APPROVAL r)));
      [done|done|done| |done..|].
    + split; [done|]. left. done.
    + apply (accepted_row rx rq); [done|]. simpl. rewrite (Hk _ _ Hrq). apply lookup_insert_eq.
  - destruct (decided_edge rq r x t u (rx_now rx) d Hst Hrev) as (r' & Hid & Hedge & Hrows & Hlines & Ha & Hev).
    eapply edge_sound; [done|exact Hrq|exact Hid|done|exact Hrows|done..|].
    apply (accepted_row rx rq); [done|]. rewrite Hrows, Hid, (Hk _ _ Hrq). apply lookup_insert_eq.
Qed.

(** One call by anybody, at any time. *)
Inductive site_step : Cache * DB → Cache * DB → Prop :=
| site_call rx call c d c' d' res :
    db_rqst d !! rx_new_id rx = None →
    perform rx call (mkApp c (session_of d)) = (mkApp c' (session_of d'), res) →
    site_step (c, d) (c', d').

End invariant.

(** * The services a request goes through *)

(** A call of the service of requests, of anybody at any time, with the constraints that
    its flush checks; the mark of packaging; or the end of a transaction.  The session
    is that of one process, its calls in any order. *)
Inductive service_step `{R : Runtime} : Session → Session → Prop :=
| sv_create rx agency urgency event notes email s s' id :
    db_rqst (work s) !! rx_new_id rx = None →
    run_ok (r ← create_draft_request (rx_new_id rx) agency urgency event notes email (rx_today rx) (rx_now rx);
            flush_rqst rx (rq_reliefrqst_id r);; mret (rq_reliefrqst_id r)) s id s' → service_step s s'
| sv_item rq it qty urgency reason by_date ver s s' :
    run_ok (add_or_update_request_item rq it qty urgency reason by_date ver;; flush_line rq it) s tt s' → service_step s s'
| sv_delete_item rq it s s' : run_ok (delete_request_item rq it) s tt s' → service_step s s'
| sv_submit rx rq ver s s' : run_ok (submit_request rq ver;; flush_rqst rx rq) s tt s' → service_step s s'
| sv_decide rx rq decision reason email s s' :
    run_ok (submit_eligibility_decision rq decision reason email (rx_now rx);; flush_rqst rx rq) s tt s' → service_step s s'
| sv_autoclose rx rq s s' : run_ok (check_and_autoclose_request rq;; flush_rqst rx rq) s tt s' → service_step s s'
| sv_part_filled rx cx rq s s1 s' :
    run_ok (mark_part_filled cx rq) s tt s1 → run_ok (flush_rqst rx rq) s1 tt s' → service_step s s'
| sv_commit s : service_step s (commit_session s)
| sv_rollback s : service_step s (rollback_session s).

(** The columns of a request that its status requires. *)
Record decision_fields (r : ReliefRqst) : Prop := {
  df_review : rq_review_by_id r = None ↔ rq_status_code r < 2;
  df_review_time : rq_review_by_id r = None ↔ rq_review_dtime r = None;
  df_action : rq_action_by_id r = None ↔ rq_status_code r < 4;
  df_action_time : rq_action_by_id r = None ↔ rq_action_dtime r = None;
  df_reason : rq_status_code r ∈ [STATUS_DENIED; STATUS_CLOSED; STATUS_INELIGIBLE] → is_Some (rq_status_reason_desc r);
  df_ineligible : rq_status_code r = STATUS_INELIGIBLE →
    rq_action_by_id r = rq_review_by_id r ∧ rq_action_dtime r = rq_review_dtime r ∧
    ∃ t, rq_status_reason_desc r = Some t ∧ t ≠ ""%string
}.

(** A decision of [r] is still there in [r']. *)
Definition decision_kept (r r' : ReliefRqst) : Prop :=
  rq_version_nbr r ≤ rq_version_nbr r' ∧
  (is_Some (rq_review_by_id r) → rq_review_by_id r' = rq_review_by_id r ∧ rq_review_dtime r' = rq_review_dtime r).

(** What a call does to the requests: nothing, a new draft, or a change of one. *)
Definition service_change (m m' : gmap Z ReliefRqst) : Prop :=
  m' = m ∨ ∃ r', m' = <[rq_reliefrqst_id r' := r']> m ∧ decision_fields r' ∧
    (m !! rq_reliefrqst_id r' = None ∨ ∃ r, m !! rq_reliefrqst_id r' = Some r ∧ decision_kept r r').

Section services.
Context `{R : Runtime}.

Lemma run_flush rx rq s s' : run_ok (flush_rqst rx rq) s tt s' ↔ accepted rx rq (work s) ∧ s' = s.
Proof.
  unfold run_ok, flush_rqst, accepted. rewrite run_bind. simpl.
  destruct (db_rqst (work s) !! rq) as [r|] eqn:Hr; [|unfold mret; simpl; split; [intros [= ->]; done|by intros [_ ->]]].
  destruct (rqst_row_ok (rx_current_date rx) (work s) r) eqn:Hok; simpl; [|split; [done|intros [H _]; rewrite (H r) in Hok; done]].
  split; [intros [= ->]; naive_solver|by intros [_ ->]].
Qed.

Lemma run_then_flush (m : QM unit) rx rq s s' :
  run_ok (m;; flush_rqst rx rq) s tt s' ↔ run_ok m s tt s' ∧ accepted rx rq (work s').
Proof.
  pose proof (λ s1, run_flush rx rq s1 s') as H. unfold run_ok in *. rewrite run_bind.
  destruct (m s) as [s1 [e|[]]]; [split; [done|by intros [? _]]|]. rewrite H.
  split; [intros [? ->]; done|intros [[= ->] ?]; done].
Qed.

(** A change of one row that the flush accepts. *)
Lemma changed_row rx rq d d' r r' :
  keyed_rqsts d → db_rqst d !! rq = Some r → rq_reliefrqst_id r' = rq_reliefrqst_id r →
  db_rqst d' = <[rq_reliefrqst_id r' := r']> (db_rqst d) → accepted rx rq d' → decision_kept r r' →
  (rq_status_code r' = STATUS_INELIGIBLE → rq_action_by_id r' = rq_review_by_id r' ∧
     rq_action_dtime r' = rq_review_dtime r' ∧ ∃ t, rq_status_reason_desc r' = Some t ∧ t ≠ ""%string) →
  service_change (db_rqst d) (db_rqst d').
Proof.
  intros Hk Hr Hid Hrows Hacc Hkept Hin. assert (rq_reliefrqst_id r' = rq) as Hrq by (rewrite Hid; exact (Hk _ _ Hr)).
  right. exists r'. split; [done|]. split; [|right; exists r; by rewrite Hrq].
  assert (rqst_row_ok (rx_current_date rx) d' r' = true) as Hok by (apply Hacc; rewrite Hrows, Hrq; apply lookup_insert_eq).
  apply row_ok_fields in Hok as (H1 & H2 & H3 & H4 & H5). by constructor.
Qed.

Lemma submitted_change rx rq ver s s' : keyed_rqsts (work s) →
  run_ok (submit_request rq ver;; flush_rqst rx rq) s tt s' →
  committed s' = committed s ∧ service_change (db_rqst (work s)) (db_rqst (work s')).
Proof.
  intros Hk [(r & Hr & Hst & _ & _ & ->)%submit_run Hacc]%run_then_flush. split; [done|].
  eapply changed_row; [done|exact Hr| |reflexivity|exact Hacc| |]; [done| |by intros].
  split; [simpl; lia|done].
Qed.

Lemma decided_change rx rq decision reason email s s' : keyed_rqsts (work s) →
  run_ok (submit_eligibility_decision rq decision reason email (rx_now rx);; flush_rqst rx rq) s tt s' →
  committed s' = committed s ∧ service_change (db_rqst (work s)) (db_rqst (work s')).
Proof.
  intros Hk [(r & u & Hr & Hst & Hrev & Hdec & Hreason & _ & ->)%eligibility_run Hacc]%run_then_flush. split; [done|].
  unfold upd_work, decided in *. simpl in *. destruct (decide (decision = "N"%string)) as [Hn|Hn];
    (eapply changed_row; [done|exact Hr| |reflexivity|exact Hacc| |]); try done.
  1,3: split; [simpl; lia|rewrite Hrev; by intros [? ?]].
  intros _. destruct (Hreason Hn) as (t & -> & Ht). split_and!; [done|done|]. exists (strip t). split; [done|].
  unfold is_blank in Ht. by apply bool_decide_eq_false in Ht.
Qed.

Lemma autoclosed_change rx rq s s' : keyed_rqsts (work s) →
  run_ok (check_and_autoclose_request rq;; flush_rqst rx rq) s tt s' →
  committed s' = committed s ∧ service_change (db_rqst (work s)) (db_rqst (work s')).
Proof.
  intros Hk [(r & Hr & _ & _ & _ & ->)%autoclose_run Hacc]%run_then_flush. split; [done|].
  eapply changed_row; [done|exact Hr| |reflexivity|exact Hacc| |]; [done| |by intros].
  split; [simpl; lia|done].
Qed.

Lemma part_filled_change rx cx rq s s1 s' : keyed_rqsts (work s) →
  run_ok (mark_part_filled cx rq) s tt s1 → run_ok (flush_rqst rx rq) s1 tt s' →
  committed s' = committed s ∧ service_change (db_rqst (work s)) (db_rqst (work s')).
Proof.
  intros Hk Hrun [Hacc ->]%run_flush. unfold mark_part_filled in Hrun. rewrite run_mod_last in Hrun. subst s1. split; [done|].
  simpl in *. destruct (db_rqst (work s) !! rq) as [r|] eqn:Hr; [|by left].
  eapply changed_row; [done|exact Hr| |reflexivity|exact Hacc| |]; [done| |by intros].
  split; [simpl; lia|done].
Qed.
Lemma run_seq {A B} (m : QM A) (k : A → QM B) s b s' :
  run_ok (m ≫= k) s b s' ↔ ∃ a s1, run_ok m s a s1 ∧ run_ok (k a) s1 b s'.
Proof. unfold run_ok. rewrite run_bind. destruct (m s) as [s1 [e|a]]; naive_solver. Qed.

Lemma created_change rx agency urgency event notes email s id s' :
  db_rqst (work s) !! rx_new_id rx = None →
  run_ok (r ← create_draft_request (rx_new_id rx) agency urgency event notes email (rx_today rx) (rx_now rx);
          flush_rqst rx (rq_reliefrqst_id r);; mret (rq_reliefrqst_id r)) s id s' →
  committed s' = committed s ∧ service_change (db_rqst (work s)) (db_rqst (work s')).
Proof.
  intros Hnone (r & s1 & Hrun & Hfl)%run_seq. unfold create_draft_request in Hrun.
  rewrite !run_fail_if, run_get, !run_fail_if in Hrun. destruct Hrun as (_ & _ & _ & Hrun).
  destruct (user_by_email email (work s)) as [u|]; [|done]. rewrite run_mod, run_ret in Hrun. destruct Hrun as [-> ->].
  apply flush_rqst_ok in Hfl as [Hacc Hret]. rewrite run_ret in Hret. destruct Hret as [_ ->]. split; [done|].
  right. eexists. split; [reflexivity|]. split; [|by left].
  specialize (Hacc _ (lookup_insert_eq _ _ _)). apply row_ok_fields in Hacc as (H1 & H2 & H3 & H4 & H5). by constructor.
Qed.

Lemma line_change rq it qty urgency reason by_date ver s s' :
  run_ok (add_or_update_request_item rq it qty urgency reason by_date ver;; flush_line rq it) s tt s' →
  committed s' = committed s ∧ db_rqst (work s') = db_rqst (work s).
Proof.
  intros (v & s1 & Hrun & Hfl)%run_seq.
  assert (committed s1 = committed s ∧ db_rqst (work s1) = db_rqst (work s)) as [<- <-].
  { split; [|by eapply item_rows]. revert Hrun. unfold add_or_update_request_item. rewrite !run_fail_if, run_get. intros (_ & _ & Hrun).
    destruct (db_rqst_item (work s) !! (rq, it)); [rewrite run_fail_if in Hrun; destruct Hrun as [_ Hrun]|];
      rewrite run_mod, run_ret in Hrun; by destruct Hrun as [_ ->]. }
  unfold flush_line in Hfl. rewrite run_get in Hfl. destruct (db_rqst_item (work s1) !! (rq, it)) as [w|]; [|by injection Hfl as <-].
  destruct (stored_rqst_line w); [|done]. rewrite run_mod_last in Hfl. by subst.
Qed.

Lemma deleted_line_change rq it s s' :
  run_ok (delete_request_item rq it) s tt s' → committed s' = committed s ∧ db_rqst (work s') = db_rqst (work s).
Proof.
  intros Hrun. split; [|by eapply delete_rows]. unfold delete_request_item in Hrun. rewrite run_get in Hrun.
  destruct (db_rqst (work s) !! rq); [|done]. rewrite run_fail_if in Hrun. destruct Hrun as [_ Hrun].
  destruct (db_rqst_item (work s) !! (rq, it)); [|done]. rewrite run_mod_last in Hrun. by subst.
Qed.

(** A step changes the working state by one change, or ends the transaction. *)
Lemma service_rows s s' : keyed_rqsts (work s) → service_step s s' →
  (committed s' = committed s ∧ service_change (db_rqst (work s)) (db_rqst (work s'))) ∨
  s' = commit_session s ∨ s' = rollback_session s.
Proof.
  intros Hk Hs. revert Hk. destruct Hs; intros Hk; [left..|by right; left|by right; right].
  - eapply created_change; eassumption.
  - edestruct line_change as [? Hs]; [eassumption|]. split; [done|by left].
  - edestruct deleted_line_change as [? Hs]; [eassumption|]. split; [done|by left].
  - eapply submitted_change; eassumption.
  - eapply decided_change; eassumption.
  - eapply autoclosed_change; eassumption.
  - eapply part_filled_change; eassumption.
Qed.

(** The requests of [d] are in order and keep the decisions of [d0]. *)
Definition decisions_ok (d0 d : DB) : Prop :=
  keyed_rqsts d ∧ map_Forall (λ _ r, decision_fields r) (db_rqst d) ∧
  ∀ rq r, db_rqst d0 !! rq = Some r → ∃ r', db_rqst d !! rq = Some r' ∧ decision_kept r r'.

Lemma decision_kept_trans r1 r2 r3 : decision_kept r1 r2 → decision_kept r2 r3 → decision_kept r1 r3.
Proof.
  intros [Hv1 H1] [Hv2 H2]. split; [lia|]. intros Hs. destruct (H1 Hs) as [E1 E2].
  rewrite <- E1 in Hs. destruct (H2 Hs) as [-> ->]. done.
Qed.

Lemma change_decisions d0 d d' : decisions_ok d0 d → service_change (db_rqst d) (db_rqst d') → decisions_ok d0 d'.
Proof.
  intros (Hk & Hf & Hkept) Hc. unfold decisions_ok, keyed_rqsts. destruct Hc as [->|(r' & -> & Hf' & Hold)]; [done|]. split_and!.
  - by apply map_Forall_insert_2.
  - by apply map_Forall_insert_2.
  - intros rq r Hr. destruct (Hkept rq r Hr) as (r1 & Hr1 & Hd). destruct (decide (rq_reliefrqst_id r' = rq)) as [<-|Hne].
    + rewrite lookup_insert_eq. exists r'. split; [done|]. destruct Hold as [?|(r2 & Hr2 & Hd2)]; [congruence|].
      rewrite Hr1 in Hr2. injection Hr2 as <-. by eapply decision_kept_trans.
    + rewrite lookup_insert_ne by done. eauto.
Qed.

(** C17: whatever the services of a request do, by anybody, in any order and with any
    transactions rolled back, each flush checked by the table: drafts and requests
    awaiting approval have no reviewer, all others one with the time; those below denied
    no action officer, all others, part filled and filled ones too, one with the time;
    denied, closed and ineligible ones a reason, an ineligible one not empty and with
    the reviewer as action officer at that time.  No request is lost, its version never
    goes back, and a decision once recorded keeps its reviewer and time, whatever
    becomes of the request. *)
Theorem request_workflow_invariant d s :
  keyed_rqsts d → map_Forall (λ _ r, decision_fields r) (db_rqst d) → reach service_step (session_of d) s →
  ∀ d', d' = work s ∨ d' = committed s →
    keyed_rqsts d' ∧ map_Forall (λ _ r, decision_fields r) (db_rqst d') ∧
    ∀ rq r, db_rqst d !! rq = Some r → ∃ r', db_rqst d' !! rq = Some r' ∧ decision_kept r r'.
Proof.
  intros Hk Hf Hr. assert (decisions_ok d (work s) ∧ decisions_ok d (committed s)) as [Hw Hc].
  { apply (reach_inv service_step (λ s, decisions_ok d (work s) ∧ decisions_ok d (committed s))) with (session_of d); [|done|].
    - clear. intros a b Hab [Ha Hca]. destruct (service_rows a b (proj1 Ha) Hab) as [[-> Hch]|[->| ->]]; [|done..].
      split; [by apply (change_decisions d (work a))|done].
    - assert (decisions_ok d d); [|done]. split_and!; [done..|]. intros rq r Hx. exists r. split; [done|]. split; [lia|done]. }
  by intros d' [->| ->].
Qed.
End services.

(** * What edit_items stores *)

Section items.
Context `{R : Runtime} (rx : RequestCtx).

Lemma stored_rqst_line_urgency d rq it q urgency reason by_date v' :
  stored_rqst_line (asked_line d rq it q urgency reason by_date) = Some v' → ri_urgency_ind v' = urgency.
Proof.
  unfold stored_rqst_line. destruct (numeric _ _); [|done]. simpl. case_match; [|done]. intros [= <-]. simpl.
  unfold asked_line. by destruct (db_rqst_item d !! (rq, it)).
Qed.

(** [edit_items] succeeds exactly for a user who may open the draft, with a
    catalogue item that is active goods, a positive quantity and a readable date or
    none; what it stores is the line asked for, rounded to cents, with the urgency
    always M, whatever the form says; otherwise it stores nothing. *)
Theorem edit_items_correct rq f c d :
  keyed_rqst_items d →
  let out := edit_items rx rq f (mkApp c (session_of d)) in
  (out.2 ≠ inr tt → committed (app_db out.1) = d) ∧
  ∀ d', (out.2 = inr tt ∧ committed (app_db out.1) = d') ↔
    ∃ r it q by_date v', db_rqst d !! rq = Some r ∧ rq_status_code r = STATUS_DRAFT ∧
      may_open rx c (rq_agency_id r) ∧ line_form_ok d f it q by_date ∧
      stored_rqst_line (asked_line d rq it q "M" (Some (strip (if_reason_desc f))) by_date) = Some v' ∧
      ri_urgency_ind v' = "M"%string ∧ d' = put_rqst_item v' d.
Proof.
  intros Hk. cbv zeta. split.
  { pose proof (perform_clean rx (EditItems rq f) (mkApp c (session_of d))) as Hc. simpl in Hc.
    destruct (edit_items rx rq f _) as [s' [e|[]]]; [done|]. by intros []. }
  destruct (draft_route rx rq (λ _, edit_item_body rq f) (mkApp c (session_of d))) as (c' & _ & Hiff).
  intros d'. split.
  - destruct (edit_items rx rq f (mkApp c (session_of d))) as [s' res] eqn:Hrun. simpl. intros [-> <-].
    destruct (proj1 (Hiff tt s') Hrun) as (r & s1 & Hr & Hm & Hst & Hbody & ->).
    apply edit_item_ok in Hbody as (it & q & by_date & v' & Hf & Hv' & ->); [|done].
    exists r, it, q, by_date, v'. repeat (split; [done|]). split; [by apply stored_rqst_line_urgency in Hv' as ->|done].
  - intros (r & it & q & by_date & v' & Hr & Hst & Hm & Hf & Hv' & _ & ->).
    assert (run_ok (edit_items rx rq f) (mkApp c (session_of d)) tt (mkApp c' (session_of (put_rqst_item v' d)))) as Hrun.
    { apply Hiff. exists r, (session_of (put_rqst_item v' d)). repeat (split; [done|]). split; [|done].
      apply edit_item_ok; [done|]. by exists it, q, by_date, v'. }
    unfold run_ok in Hrun. by rewrite Hrun.
Qed.
End items.

(** * A draft can be brought to a decision *)

(** Several requests in turn. *)
Definition run_calls `{Runtime} (calls : list (RequestCtx * RouteCall)) (s : App) : App :=
  foldl (λ s x, (perform x.1 x.2 s).1) s calls.

Section progress.
Context `{R : Runtime}.

Definition one_unit (it : Z) : LineForm := mkLineForm (Some (py_str it)) (Num UNIT) None "" NoDate.
Definition one_unit_line (rq it : Z) : ReliefRqstItem :=
  mkReliefRqstItem rq it UNIT 0 "M" (Some ""%string) None "R" None None None 1.

Lemma one_unit_stored rq it : stored_rqst_line (one_unit_line rq it) = Some (one_unit_line rq it).
Proof. unfold stored_rqst_line. rewrite numeric_unit by done. done. Qed.

Lemma elem_of_items_of rq v d : v ∈ items_of rq d ↔ ri_reliefrqst_id v = rq ∧ ∃ k, db_rqst_item d !! k = Some v.
Proof. unfold items_of. by rewrite list_elem_of_filter, elem_of_rqst_item_rows. Qed.

Lemma sound_positive d rq v : request_tables_sound d → v ∈ items_of rq d → positive_item rq d.
Proof.
  intros (_ & _ & _ & Hl) Hv. exists v. split; [done|]. apply elem_of_items_of in Hv as (_ & k & Hk).
  destruct (Hl k v Hk) as (Hok & _). unfold line_row_ok in Hok. z_bool. done.
Qed.

(** A draft without lines takes one unit of an item. *)
Lemma first_line_step rx c d rq r it i :
  request_tables_sound d → db_rqst d !! rq = Some r → rq_status_code r = STATUS_DRAFT →
  may_open rx c (rq_agency_id r) → items_of rq d = [] →
  0 < it < 2 ^ 31 → db_item d !! it = Some i → it_status_code i = "A"%string → it_category_type i = "GOODS"%string →
  ∃ c', force rx c' = force rx c ∧
    run_ok (edit_items rx rq (one_unit it)) (mkApp c (session_of d)) tt
      (mkApp c' (session_of (put_rqst_item (one_unit_line rq it) d))).
Proof.
  intros (_ & Hki & _) Hr Hst Hm Hnil Hit Hi Ha Hg.
  destruct (draft_route rx rq (λ _, edit_item_body rq (one_unit it)) (mkApp c (session_of d))) as (c' & Hf & Hiff).
  exists c'. split; [done|]. apply Hiff. exists r, (session_of (put_rqst_item (one_unit_line rq it) d)).
  repeat (split; [done|]). split; [|done]. apply edit_item_ok; [done|].
  exists it, UNIT, None, (one_unit_line rq it). split; [|split; [|done]].
  - split; [|split; [lia|split; [done|split; [done|split; [done|by exists i]]]]].
    unfold safe_id, safe_int, bounded_int. simpl. rewrite py_int_str; [simpl; lia|].
    assert (2 ^ 31 < 10 ^ MAX_STR_DIGITS); [|lia]. apply Z.ltb_lt. vm_compute. reflexivity.
  - assert (asked_line d rq it UNIT "M" (Some (strip "")) None = one_unit_line rq it) as Has.
    { unfold asked_line. destruct (db_rqst_item d !! (rq, it)) as [v|] eqn:Hv; [|done].
      assert (v ∈ items_of rq d) as Hin; [|rewrite Hnil in Hin; by apply elem_of_nil in Hin].
      apply elem_of_items_of. split; [|by exists (rq, it)]. specialize (Hki _ _ Hv). simpl in Hki. congruence. }
    simpl in Hi. simpl. rewrite Has. apply one_unit_stored.
Qed.

Definition submitted_row (r : ReliefRqst) : ReliefRqst :=
  set_rq_version_nbr (rq_version_nbr r + 1) (set_rq_status_code STATUS_AWAITING_APPROVAL r).

Lemma submitted_row_ok cur d r :
  rq_status_code r = STATUS_DRAFT → rqst_row_ok cur d (submitted_row r) = rqst_row_ok cur d r.
Proof. intros Hst. unfold rqst_row_ok, submitted_row. simpl. by rewrite Hst. Qed.

Lemma submit_step rx c d rq r :
  request_tables_sound d → db_rqst d !! rq = Some r → rq_status_code r = STATUS_DRAFT →
  may_open rx c (rq_agency_id r) → positive_item rq d → rq_request_date r ≤ rx_current_date rx →
  ∃ c', force rx c' = force rx c ∧
    run_ok (submit_draft rx rq None) (mkApp c (session_of d)) tt (mkApp c' (session_of (submitted rq r d))).
Proof.
  intros (Hk & _ & Hrs & _) Hr Hst Hm Hpos Hdate.
  destruct (plain_route rx rq (λ r,
    current_version ← m_some (version_or None (rq_version_nbr r)) (ValueError "version");
    submit_request rq current_version;; flush_rqst rx rq;; db_commit) (mkApp c (session_of d))) as (c' & Hf & Hiff).
  exists c'. split; [done|]. apply Hiff. exists r, (session_of (submitted rq r d)).
  repeat (split; [done|]). split; [|done]. simpl version_or. rewrite m_some_Some. apply seq_ok.
  exists (upd_work (submitted rq r) (session_of d)). split; [apply submit_run; by exists r|].
  rewrite flush_rqst_ok, commit_ok. split; [|done]. intros r' Hr'.
  simpl in Hr'. rewrite (Hk _ _ Hr), lookup_insert_eq in Hr'. injection Hr' as <-.
  rewrite (row_ok_same _ d) by done. rewrite (submitted_row_ok _ d r Hst).
  destruct (Hrs _ _ Hr) as (_ & _ & Hok). rewrite row_ok_split, Hok, andb_true_r. by apply Z.leb_le.
Qed.

Definition eligible_row (u : User) (now : Z) (r : ReliefRqst) : ReliefRqst :=
  set_rq_version_nbr (rq_version_nbr r + 1) (set_rq_status_code STATUS_SUBMITTED
    (set_rq_review_dtime (Some now) (set_rq_review_by_id (Some (us_user_name u)) r))).

Lemma eligible_row_ok cur d r u now :
  rq_status_code r = STATUS_AWAITING_APPROVAL → varchar 20 (us_user_name u) = true →
  rqst_row_ok cur d r = true → rqst_row_ok cur d (eligible_row u now r) = true.
Proof.
  intros Hst Hu. unfold rqst_row_ok, eligible_row. simpl. rewrite Hst, Hu.
  unfold STATUS_AWAITING_APPROVAL, STATUS_SUBMITTED. simpl. rewrite !andb_true_iff.
  intros (((((((((((((H1 & H2) & H3) & H4) & H5) & H6) & H7) & H8) & H9) & H10) & H11) & H12) & H13) & H14).
  destruct (rq_action_by_id r); [done|]. simpl in *. rewrite H1, H2, H7, H9, H10, H13, H14.
  by destruct (rq_status_reason_desc r).
Qed.

Lemma decide_step rx c d rq r u :
  keyed_rqsts d → db_rqst d !! rq = Some r → rq_status_code r = STATUS_AWAITING_APPROVAL → rq_review_by_id r = None →
  rqst_row_ok (rx_current_date rx) d r = true →
  is_executive rx c → user_by_email (session_email rx) d = Some u → varchar 20 (us_user_name u) = true →
  ∃ c' d', run_ok (submit_decision rx rq (mkDecisionForm (Some "Y"%string) "")) (mkApp c (session_of d)) tt
      (mkApp c' (session_of d')) ∧ db_rqst d' !! rq = Some (eligible_row u (rx_now rx) r).
Proof.
  intros Hk Hr Hst Hrev Hok Hex Hu Hname.
  destruct (executive_route rx (eligibility_body rx rq (Some "Y"%string) (strip "")) (mkApp c (session_of d))) as (c' & _ & Hiff).
  exists c', (decided rq r "Y" None u (rx_now rx) d).
  assert (db_rqst (decided rq r "Y" None u (rx_now rx) d) !! rq = Some (eligible_row u (rx_now rx) r)) as Hrow.
  { simpl. rewrite (Hk _ _ Hr). apply lookup_insert_eq. }
  split; [|exact Hrow]. apply Hiff. split; [done|]. exists (session_of (decided rq r "Y" None u (rx_now rx) d)).
  split; [|done]. unfold eligibility_body. rewrite !run_fail_if.
  split; [done|]. split; [done|]. apply seq_ok.
  exists (upd_work (decided rq r "Y" None u (rx_now rx)) (session_of d)). split.
  { apply eligibility_run. exists r, u. repeat (split; [done|]). split; [by_decide|]. split; [done|]. by split. }
  rewrite flush_rqst_ok, commit_ok. split; [|done]. intros r' Hr'.
  assert (r' = eligible_row u (rx_now rx) r) as -> by (simpl in Hr', Hrow; congruence).
  rewrite (row_ok_same _ d) by done. by apply eligible_row_ok.
Qed.

End progress.

(** * An agency's draft *)

#[local] Existing Instance canonical_runtime.

Definition route_db : DB :=
  set_db_agency {[5]}
    (set_db_item {[1 := mkItem 1 "I1" "Water" "GOODS" "EA" true true "FEFO" "A"]}
      (set_db_user {[1 := user0 1 "dg@odpem.gov.jm" "DIR" None ["ODPEM_DG"%string]]}
        (set_db_rqst {[7 := rqst0 0 1 None None]} empty_db))).

Definition route_roles : AuthDB := mkAuthDB [(1, "AGENCY_SHELTER"%string); (2, "ODPEM_DG"%string)] [] [].

Definition shelter_ctx : RequestCtx :=
  mkRequestCtx (Some (mkSessionUser "AG" "ag@agency.org" (Some 5) ["AGENCY_SHELTER"%string] [])) route_roles true 12 12 120 8.
Definition director_ctx : RequestCtx :=
  mkRequestCtx (Some (mkSessionUser "DIR" "DG@odpem.gov.jm" None ["ODPEM_DG"%string] [])) route_roles true 12 12 130 8.

(** Two and a half units, marked urgent. *)
Definition urgent_item : LineForm := mkLineForm (Some "1"%string) (Num 25000) (Some "H"%string) "flood" (OnDay 14).

Definition after_item : App * (RouteFailure + unit) := perform shelter_ctx (EditItems 7 urgent_item) (mkApp None (session_of route_db)).
Definition after_cache : Cache := app_cache after_item.1.
Definition after_db : DB := committed (app_db after_item.1).

Lemma shelter_opens : may_open shelter_ctx None 5.
Proof. right. split; [done|]. by eexists. Qed.

Lemma director_decides : is_executive director_ctx None.
Proof.
  exists "ODPEM_DG"%string. split; [by_decide|]. eexists _, "ODPEM_DG"%string. split; [reflexivity|].
  split; [by_decide|]. split; [vm_compute; reflexivity|]. split; [done|]. by_decide.
Qed.

Lemma request_change_authorized_witness :
  after_item.2 = inr tt ∧ changed 7 route_db after_db ∧ authorized shelter_ctx None 7 route_db after_db.
Proof.
  assert (changed 7 route_db after_db) as Hch by (right; exists 1; vm_compute; discriminate).
  destruct (request_change_authorized shelter_ctx (EditItems 7 urgent_item) None route_db after_cache after_db after_item.2 7)
    as [Hres Hau]; [vm_compute; reflexivity|by_decide|by_decide|vm_compute; reflexivity|exact Hch|].
  split; [vm_compute; reflexivity|]. by split.
Defined.


Lemma edit_items_correct_witness :
  ∃ v', after_item.2 = inr tt ∧ after_db = put_rqst_item v' route_db ∧ ri_urgency_ind v' = "M"%string.
Proof.
  destruct (edit_items_correct shelter_ctx 7 urgent_item None route_db ltac:(by_decide)) as [_ Hiff].
  destruct (proj1 (Hiff after_db)) as (r & it & q & by_date & v' & _ & _ & _ & _ & _ & Hu & Hd);
    [split; vm_compute; reflexivity|].
  exists v'. split; [vm_compute; reflexivity|]. by split.
Defined.


(** A request is found ineligible; nothing was issued for it, so it can still be closed
    as filled, and keeps its decision. *)
Definition awaiting_db : DB := set_db_agency {[5]} (rqst_db 1 3).

Definition director_rx : RequestCtx :=
  mkRequestCtx None (mkAuthDB [] [] []) true 20 20 40 9.

Lemma request_workflow_invariant_witness :
  let refuse := submit_eligibility_decision 7 "N" (Some " no shelter "%string) (Some "dir@odpem"%string) 40;; flush_rqst director_rx 7 in
  let s1 := (refuse (session_of awaiting_db)).1 in
  let s2 := ((check_and_autoclose_request 7;; flush_rqst director_rx 7) s1).1 in
  rq_status_code <$> db_rqst (work s1) !! 7 = Some STATUS_INELIGIBLE ∧
  ∃ r, db_rqst (work s2) !! 7 = Some r ∧ rq_status_code r = STATUS_FILLED ∧ decision_fields r ∧
    rq_status_reason_desc r = Some "no shelter"%string.
Proof.
  cbv zeta. set (s1 := (_ (session_of awaiting_db)).1). set (s2 := (_ s1).1). split; [vm_compute; reflexivity|].
  destruct (request_workflow_invariant awaiting_db s2) with (d' := work s2) as (_ & Hf & _).
  - by_decide.
  - change (map_Forall (λ _ r, decision_fields r) ({[7 := rqst0 1 3 None None]} : gmap Z ReliefRqst)).
    apply map_Forall_singleton. constructor; simpl; try done. rewrite !elem_of_cons, elem_of_nil. intros [?|[?|[?|?]]]; done.
  - eapply (reach_step _ _ s1); [|eapply (reach_step _ _ s2); [|apply reach_refl]].
    + apply (sv_decide director_rx 7 "N" (Some " no shelter "%string) (Some "dir@odpem"%string)). vm_compute. reflexivity.
    + apply (sv_autoclose director_rx 7). vm_compute. reflexivity.
  - by left.
  - destruct (db_rqst (work s2) !! 7) as [r|] eqn:Hr; [|vm_compute in Hr; discriminate]. exists r. split; [done|].
    pose proof (Hf _ _ Hr) as Hd. vm_compute in Hr. injection Hr as <-. split; [reflexivity|]. split; [exact Hd|reflexivity].
Defined.
