(* ===== verification/RequestPages.v ===== *)
(** The pages of relief requests: the list with its tabs, the summary and timeline of
    one request (app/features/requests_aidmgmt.py) and the reviewers' queue
    (app/features/eligibility.py).  The fulfilment percentage, computed in floating
    point, is left out. *)
From stdpp Require Import strings.
From S2P Require Import Prelude PyStr PySort ParamValidation Schema Fixtures AccessControl AccessControlProofs ReliefRequest ReliefRequestProofs RequestRoutes RequestRoutesProofs RequestRouteTheorems.

(** * The list *)

Definition ALLOWED_FILTERS : list string :=
  ["submitted"; "draft"; "awaiting"; "processing"; "dispatched"; "completed"; "all"]%string.

(** The statuses a tab shows; [None] for all of them. *)
Definition filter_statuses (status_filter : string) : option (list Z) :=
  if bool_decide (status_filter = "draft"%string) then Some [STATUS_DRAFT]
  else if bool_decide (status_filter = "awaiting"%string) then Some [STATUS_AWAITING_APPROVAL]
  else if bool_decide (status_filter = "processing"%string) then Some [STATUS_AWAITING_APPROVAL; STATUS_PART_FILLED]
  else if bool_decide (status_filter = "dispatched"%string) then Some [STATUS_CLOSED]
  else if bool_decide (status_filter = "completed"%string) then Some [STATUS_FILLED]
  else if bool_decide (status_filter = "all"%string) then None
  else Some [STATUS_SUBMITTED; STATUS_PART_FILLED].

(** [args.get('filter') or args.get('status', 'submitted')]. *)
Definition requested_filter (filter_arg status_arg : option string) : string :=
  let raw := match filter_arg with
             | Some s => if bool_decide (s = ""%string) then default "submitted"%string status_arg else s
             | None => default "submitted"%string status_arg
             end in
  validate_filter_value (Some raw) ALLOWED_FILTERS "submitted".

Definition with_status (statuses : option (list Z)) (l : list ReliefRqst) : list ReliefRqst :=
  match statuses with None => l | Some sts => filter (λ r, rq_status_code r ∈ sts) l end.

Record ListPage : Type := mkListPage {
  lp_requests : list ReliefRqst;
  lp_current_filter : string;
  lp_counts : list (string * Z);
  lp_is_read_only : bool
}.

(** [order_by(request_date.desc())]. *)
Definition newest_first : list ReliefRqst → list ReliefRqst := sorted_by (λ r, [- rq_request_date r]).

Definition count (l : list ReliefRqst) : Z := Z.of_nat (length l).

(** The counts name the statuses again, tab by tab. *)
Definition tab_counts (base : list ReliefRqst) : list (string * Z) := [
  ("submitted", count (filter (λ r, rq_status_code r ∈ [STATUS_SUBMITTED; STATUS_PART_FILLED]) base));
  ("draft", count (filter (λ r, rq_status_code r = STATUS_DRAFT) base));
  ("awaiting", count (filter (λ r, rq_status_code r = STATUS_AWAITING_APPROVAL) base));
  ("completed", count (filter (λ r, rq_status_code r = STATUS_FILLED) base));
  ("processing", count (filter (λ r, rq_status_code r ∈ [STATUS_AWAITING_APPROVAL; STATUS_PART_FILLED]) base));
  ("dispatched", count (filter (λ r, rq_status_code r = STATUS_CLOSED) base));
  ("all", count base)]%string.

Section pages.
Context `{R : Runtime} (rx : RequestCtx).

Definition check (roles : list string) : AM bool :=
  on_cache (has_valid_role (rx_user rx) (rx_auth rx) (rx_query_ok rx) roles).

Definition page_of (status_filter : string) (is_read_only : bool) (base : list ReliefRqst) : ListPage :=
  mkListPage (newest_first (with_status (filter_statuses status_filter) base)) status_filter
    (tab_counts base) is_read_only.

(** [is_logistics_manager() or is_logistics_officer() or is_director_level()]. *)
Definition sees_all : AM bool :=
  lm ← check ["LOGISTICS_MANAGER"%string];
  if lm : bool then mret true else
  lo ← check ["LOGISTICS_OFFICER"%string];
  if lo : bool then mret true else check EXECUTIVE_ROLES.

Definition base_query (all : bool) (d : DB) : option (list ReliefRqst) :=
  if all then Some (rqst_rows (db_rqst d))
  else match session_agency rx with
       | Some agency_id => Some (filter (λ r, rq_agency_id r = agency_id) (rqst_rows (db_rqst d)))
       | None => None
       end.

Definition list_requests (filter_arg status_arg : option string) : AM ListPage :=
  login_required rx;;
  is_read_only ← check EXECUTIVE_ROLES;
  all ← sees_all;
  s ← m_get;
  base ← m_some (base_query all (work (app_db s))) (RGuard Forbidden);
  mret (page_of (requested_filter filter_arg status_arg) is_read_only base).

(** * One request *)

Definition TIMELINE_CREATED : string := "Request Created".
Definition TIMELINE_SUBMITTED : string := "Submitted to ODPEM".
Definition TIMELINE_APPROVED : string := "Approved".

(** The titles of the timeline; every request has a creation time and a date. *)
Definition timeline (r : ReliefRqst) : list string :=
  [TIMELINE_CREATED] ++
  (if STATUS_AWAITING_APPROVAL <=? rq_status_code r then [TIMELINE_SUBMITTED] else []) ++
  (if STATUS_SUBMITTED <=? rq_status_code r then [TIMELINE_APPROVED] else []).

Record RequestPage : Type := mkRequestPage {
  rp_request : ReliefRqst;
  rp_total_requested : Z;
  rp_fulfilled : Z;
  rp_shortfall : Z;
  rp_timeline : list string;
  rp_is_read_only : bool
}.

Definition view_request (request_id : Z) : AM RequestPage :=
  login_required rx;;
  r ← get_request_or_404 request_id;
  access_or_403 rx r;;
  s ← m_get;
  let items := items_of request_id (work (app_db s)) in
  let total_requested := lsum ri_request_qty items in
  let fulfilled := lsum ri_issue_qty items in
  is_read_only ← check EXECUTIVE_ROLES;
  mret (mkRequestPage r total_requested fulfilled (Z.max 0 (total_requested - fulfilled)) (timeline r) is_read_only).

Definition get_items (request_id : Z) : AM (list ReliefRqstItem) :=
  login_required rx;;
  r ← get_request_or_404 request_id;
  access_or_403 rx r;;
  s ← m_get;
  mret (items_of request_id (work (app_db s))).

(** The cards of the edit page. *)
Definition allocation_counts (items : list ReliefRqstItem) : nat * nat * nat :=
  (length (filter (λ v, ri_issue_qty v ≠ 0 ∧ ri_request_qty v ≤ ri_issue_qty v) items),
   length (filter (λ v, ri_issue_qty v ≠ 0 ∧ 0 < ri_issue_qty v < ri_request_qty v) items),
   length (filter (λ v, ri_issue_qty v = 0) items)).

(** * The reviewers' queue *)

(** [urgency_ind.desc()] compares letters: M, L, H, C. *)
Definition urgency_rank (urgency : string) : Z :=
  match chars urgency with c :: _ => - code c | [] => 0 end.

Definition pending_requests (d : DB) : list ReliefRqst :=
  sorted_by (λ r, [- rq_request_date r; urgency_rank (rq_urgency_ind r)])
    (filter (λ r, pending_eligibility d r = true) (rqst_rows (db_rqst d))).

Record PendingPage : Type := mkPendingPage {
  pp_requests : list ReliefRqst;
  pp_total_pending : Z;
  pp_high_priority : Z;
  pp_total_items : Z
}.

Definition pending_list (priority : option string) : AM PendingPage :=
  login_required rx;;
  executive_only rx;;
  s ← m_get;
  let d := work (app_db s) in
  let all_pending := pending_requests d in
  mret (mkPendingPage
    (if bool_decide (priority = Some "high"%string)
     then filter (λ r, rq_urgency_ind r ∈ ["C"; "H"]%string) all_pending else all_pending)
    (count all_pending)
    (count (filter (λ r, rq_urgency_ind r ∈ ["C"; "H"]%string) all_pending))
    (lsum (λ r, Z.of_nat (length (items_of (rq_reliefrqst_id r) d))) all_pending)).
End pages.

(** * What the list shows *)

(** Every tab counts exactly what choosing it would list. *)
Lemma tab_counts_agree base :
  tab_counts base = (λ t, (t, count (with_status (filter_statuses t) base))) <$>
    ["submitted"; "draft"; "awaiting"; "completed"; "processing"; "dispatched"; "all"]%string.
Proof.
  assert (∀ z, filter (λ r, rq_status_code r = z) base = filter (λ r, rq_status_code r ∈ [z]) base) as Hone.
  { intros z. apply list_filter_iff. intros r. by rewrite list_elem_of_singleton. }
  unfold tab_counts. rewrite !Hone. reflexivity.
Qed.

Section list_page.
Context `{R : Runtime} (rx : RequestCtx).

Lemma check_run roles s :
  (∀ x, x ∈ roles → normalized x = x) →
  ∃ c b, check rx roles s = (mkApp c (app_db s), inr b) ∧ force rx c = force rx (app_cache s) ∧
    (b = true ↔ ∃ role, role ∈ roles ∧ has_role rx (app_cache s) role).
Proof.
  intros Hn. destruct (has_roles_run (rx_user rx) (rx_auth rx) (rx_query_ok rx) (E := Refusal) roles (app_cache s) Hn)
    as (c & b & Hrun & Hf & Hb).
  exists c, b. split; [|done]. unfold check, on_cache. by rewrite Hrun.
Qed.

Lemma check_one role s : normalized role = role →
  ∃ c b, check rx [role] s = (mkApp c (app_db s), inr b) ∧ force rx c = force rx (app_cache s) ∧
    (b = true ↔ has_role rx (app_cache s) role).
Proof.
  intros Hn. destruct (check_run [role] s) as (c & b & Hrun & Hf & Hb); [by intros x ->%list_elem_of_singleton|].
  exists c, b. split; [done|]. split; [done|]. rewrite Hb. setoid_rewrite list_elem_of_singleton. naive_solver.
Qed.

(** The requests the user may see. *)
Definition visible (c : Cache) (d : DB) (r : ReliefRqst) : Prop :=
  (∃ k, db_rqst d !! k = Some r) ∧ may_open rx c (rq_agency_id r).

Definition shown_under (t : string) (r : ReliefRqst) : Prop :=
  match filter_statuses t with None => True | Some sts => rq_status_code r ∈ sts end.

Lemma elem_with_status t l r : r ∈ with_status (filter_statuses t) l ↔ r ∈ l ∧ shown_under t r.
Proof.
  unfold with_status, shown_under. destruct (filter_statuses t); [|tauto]. rewrite list_elem_of_filter. tauto.
Qed.

Lemma requested_allowed fa sa : requested_filter fa sa ∈ ALLOWED_FILTERS.
Proof.
  unfold requested_filter, validate_filter_value. cbv zeta. case_bool_decide; [done|by_decide].
Qed.

Lemma newest_sorted l : StronglySorted (λ r1 r2, rq_request_date r2 ≤ rq_request_date r1) (newest_first l).
Proof.
  unfold newest_first. pose proof (sorted_by_ordered (λ r, [- rq_request_date r]) l) as Hs. unfold ordered in Hs.
  induction Hs as [|r l' Hs IH Hall]; constructor; [done|]. eapply Forall_impl; [exact Hall|].
  intros r'. simpl. repeat (destruct (_ <? _) eqn:?; z_bool; try lia; try done).
Qed.

(** Staff: logistics and executives. *)
Definition is_staff (c : Cache) : Prop := ∃ role, role ∈ (LOGISTICS_ROLES ++ EXECUTIVE_ROLES)%list ∧ has_role rx c role.

Lemma staff_split c :
  is_staff c ↔ has_role rx c "LOGISTICS_MANAGER" ∨ has_role rx c "LOGISTICS_OFFICER" ∨ is_executive rx c.
Proof.
  unfold is_staff, is_executive. split.
  - intros (role & [Hin|Hin]%elem_of_app & Hh); [|by eauto 6]. unfold LOGISTICS_ROLES in Hin. rewrite !elem_of_cons, elem_of_nil in Hin.
    destruct Hin as [->|[->|[]]]; auto.
  - intros [Hh|[Hh|(role & Hin & Hh)]]; (eexists; split; [|exact Hh]); apply elem_of_app; first [by right|left; by_decide].
Qed.

Lemma sees_all_run s : ∃ c b, sees_all rx s = (mkApp c (app_db s), inr b) ∧ (b = true ↔ is_staff (app_cache s)).
Proof.
  assert (∀ c1 c2 role, force rx c1 = force rx c2 → has_role rx c1 role ↔ has_role rx c2 role) as Hsame.
  { intros. split; by apply has_role_force. }
  unfold sees_all. setoid_rewrite staff_split.
  destruct (check_one "LOGISTICS_MANAGER" s) as (c1 & lm & H1 & Hf1 & Hlm); [by vm_compute|].
  rewrite run_bind, H1. destruct lm; [by exists c1, true; intuition|].
  destruct (check_one "LOGISTICS_OFFICER" (mkApp c1 (app_db s))) as (c2 & lo & H2 & Hf2 & Hlo); [by vm_compute|].
  simpl in Hf2, Hlo. rewrite (Hsame _ _ _ Hf1) in Hlo. rewrite run_bind, H2.
  destruct lo; [by exists c2, true; intuition|].
  destruct (check_run EXECUTIVE_ROLES (mkApp c2 (app_db s)) executive_normal) as (c3 & ex & H3 & Hf3 & Hex).
  simpl in Hf3, Hex. exists c3, ex. split; [exact H3|]. rewrite Hex. unfold is_executive.
  assert (force rx c2 = force rx (app_cache s)) as Hf by congruence. setoid_rewrite (Hsame _ _ _ Hf).
  assert (¬ has_role rx (app_cache s) "LOGISTICS_MANAGER") by (by rewrite <- Hlm).
  assert (¬ has_role rx (app_cache s) "LOGISTICS_OFFICER") by (by rewrite <- Hlo). tauto.
Qed.

Lemma list_requests_run fa sa c d :
  is_authenticated (rx_user rx) = true →
  ∃ ro all, (ro = true ↔ is_executive rx c) ∧ (all = true ↔ is_staff c) ∧
    (list_requests rx fa sa (mkApp c (session_of d))).2 =
    match base_query rx all d with
    | Some base => inr (page_of (requested_filter fa sa) ro base)
    | None => inl (RGuard Forbidden)
    end.
Proof.
  intros Hau. unfold list_requests, login_required. rewrite Hau, run_bind. simpl m_fail_if. cbv iota beta.
  destruct (check_run EXECUTIVE_ROLES (mkApp c (session_of d)) executive_normal) as (c1 & ro & H1 & Hf1 & Hro).
  destruct (sees_all_run (mkApp c1 (session_of d))) as (c2 & all & H2 & Hall). simpl in Hf1, Hro, Hall.
  exists ro, all. split; [exact Hro|]. split.
  - rewrite Hall. unfold is_staff. split; intros (role & Hin & Hh); exists role; (split; [done|]);
      eapply has_role_force; [|exact Hh| |exact Hh]; congruence.
  - transitivity ((is_read_only ← check rx EXECUTIVE_ROLES; all ← sees_all rx; s ← m_get;
      base ← m_some (base_query rx all (work (app_db s))) (RGuard Forbidden);
      mret (page_of (requested_filter fa sa) is_read_only base)) (mkApp c (session_of d))).2; [done|].
    rewrite run_bind, H1, run_bind. simpl app_db. rewrite H2, run_bind. simpl. by destruct (base_query rx all d).
Qed.

Lemma base_query_visible all c d base :
  (all = true ↔ is_staff c) → base_query rx all d = Some base → ∀ r, r ∈ base ↔ visible c d r.
Proof.
  intros Hall Hb r. unfold visible, may_open. unfold base_query in Hb. destruct all.
  - injection Hb as <-. rewrite elem_of_rqst_rows. split; [|tauto]. intros H. split; [done|]. left. by apply Hall.
  - destruct (session_agency rx) as [a|] eqn:Ha; [|done]. injection Hb as <-.
    rewrite list_elem_of_filter, elem_of_rqst_rows. unfold session_agency in Ha.
    assert (∀ b, of_agency rx b ↔ b = a) as Hof.
    { intros b. unfold of_agency. rewrite <- get_agency_id_spec, Ha. naive_solver. }
    rewrite Hof. split; [tauto|]. intros (Hk & [Hs| ->]); [|done]. apply Hall in Hs. done.
Qed.

(** the list is refused exactly to a logged-in user with neither a staff role nor
    an agency; otherwise it shows, newest first, exactly the requests the user may
    open that belong under the chosen tab, every tab's number is how many it would
    show, and the page is read-only exactly for executives. *)
Theorem list_requests_correct fa sa c d :
  let out := (list_requests rx fa sa (mkApp c (session_of d))).2 in
  (out = inl (RGuard Forbidden) ↔ is_authenticated (rx_user rx) = true ∧ ¬ is_staff c ∧ session_agency rx = None) ∧
  ∀ p, out = inr p →
    (lp_is_read_only p = true ↔ is_executive rx c) ∧ lp_current_filter p ∈ ALLOWED_FILTERS ∧
    (∀ r, r ∈ lp_requests p ↔ visible c d r ∧ shown_under (lp_current_filter p) r) ∧
    StronglySorted (λ r1 r2, rq_request_date r2 ≤ rq_request_date r1) (lp_requests p) ∧
    (lp_current_filter p, count (lp_requests p)) ∈ lp_counts p ∧
    ∃ base, (∀ r, r ∈ base ↔ visible c d r) ∧
      ∀ t n, (t, n) ∈ lp_counts p → n = count (with_status (filter_statuses t) base).
Proof.
  cbv zeta. destruct (is_authenticated (rx_user rx)) eqn:Hau.
  2: { unfold list_requests, login_required. rewrite Hau. split; [|done]. split; [done|]. by intros [? _]. }
  destruct (list_requests_run fa sa c d Hau) as (ro & all & Hro & Hall & ->). split.
  - assert (base_query rx all d = None ↔ all = false ∧ session_agency rx = None) as Hnone.
    { unfold base_query. destruct all; [naive_solver|]. destruct (session_agency rx); naive_solver. }
    assert (¬ is_staff c ↔ all = false) as -> by (rewrite <- Hall; by destruct all).
    destruct (base_query rx all d); [split; [done|]; intros (_ & H); by apply Hnone in H|]. split; [|done].
    intros _. split; [done|]. by apply Hnone.
  - intros p. destruct (base_query rx all d) as [base|] eqn:Hb; [|done]. intros [= <-]. simpl.
    pose proof (base_query_visible all c d base Hall Hb) as Hvis.
    split; [done|]. split; [apply requested_allowed|]. split; [|split; [apply newest_sorted|split]].
    + intros r. unfold newest_first. by rewrite elem_of_sorted_by, elem_with_status, Hvis.
    + rewrite tab_counts_agree. apply list_elem_of_fmap. exists (requested_filter fa sa). split.
      * unfold count, newest_first. by rewrite sorted_by_perm.
      * pose proof (requested_allowed fa sa) as Hin. revert Hin. unfold ALLOWED_FILTERS. set_solver.
    + exists base. split; [done|]. intros t n. rewrite tab_counts_agree, list_elem_of_fmap. by intros (t' & [= -> ->] & _).
Qed.

(** A request judged ineligible is shown as approved in its timeline. *)
Lemma timeline_of_ineligible r :
  rq_status_code r = STATUS_INELIGIBLE → timeline r = [TIMELINE_CREATED; TIMELINE_SUBMITTED; TIMELINE_APPROVED].
Proof. intros Hst. unfold timeline. by rewrite Hst. Qed.

(** The three cards of the edit page share out the lines. *)
Lemma allocation_counts_total items :
  (∀ v, v ∈ items → 0 ≤ ri_issue_qty v) →
  let '(allocated, partial, unallocated) := allocation_counts items in
  (allocated + partial + unallocated)%nat = length items.
Proof.
  induction items as [|v items IH]; intros Hv; [done|]. unfold allocation_counts in *. rewrite !filter_cons.
  assert (0 ≤ ri_issue_qty v) as H0 by (apply Hv; by left). specialize (IH ltac:(intros w Hw; apply Hv; by right)).
  repeat case_decide; simpl; lia.
Qed.
End list_page.

Lemma list_requests_correct_witness :
  let out := (@list_requests canonical_runtime shelter_ctx (Some "DRAFT"%string) None (mkApp None (session_of route_db))).2 in
  out ≠ inl (RGuard Forbidden) ∧
  ∃ p, out = inr p ∧ lp_current_filter p = "draft"%string ∧ rqst0 0 1 None None ∈ lp_requests p ∧
    (lp_current_filter p, count (lp_requests p)) ∈ lp_counts p.
Proof.
  pose proof (@list_requests_correct canonical_runtime shelter_ctx (Some "DRAFT"%string) None None route_db) as [Href Hp].
  split; [rewrite Href; intros (_ & _ & H); vm_compute in H; discriminate|].
  assert (∃ p, (@list_requests canonical_runtime shelter_ctx (Some "DRAFT"%string) None (mkApp None (session_of route_db))).2 = inr p)
    as [p Hout] by (eexists; vm_compute; reflexivity).
  destruct (Hp p Hout) as (_ & _ & Hin & _ & Hcount & _).
  assert (lp_current_filter p = "draft"%string) as Hf by (vm_compute in Hout; injection Hout as <-; reflexivity).
  exists p. split; [exact Hout|]. split; [exact Hf|]. split; [|exact Hcount]. apply Hin. rewrite Hf. split; [|by left].
  split; [by exists 7|apply shelter_opens].
Defined.
