(* ===== verification/Web.v ===== *)
(** A request handler over some tables [D] and the cache of role codes.

    The handlers modelled with it commit once, as their last step, so what is stored
    changes only when the handler succeeds: [transaction] drops the work of a body
    that ends early, and [Session.remove] at the end of the request drops it anyway. *)
From stdpp Require Import strings.
From S2P Require Import Prelude PyStr AccessControl AccessControlProofs.

Record Web (D : Type) : Type := mkWeb { web_cache : Cache; web_db : D }.
Arguments mkWeb {D} _ _.
Arguments web_cache {D} _.
Arguments web_db {D} _.

Inductive WebFailure : Type :=
| WGuard (r : Refusal)
| WNotFound                   (* [get_or_404] *)
| WRefused (msg : string)     (* a message and a page or redirect *)
| WAborted                    (* an exception the handler catches *)
| WCrashed.                   (* an exception nobody catches *)

Abbreviation WM D := (M (Web D) WebFailure).
Abbreviation BM D := (M D WebFailure).

Section web.
Context {D : Type}.

Definition on_web_cache {A} (m : M Cache Refusal A) : WM D A := λ s,
  let '(c, r) := m (web_cache s) in
  (mkWeb c (web_db s), match r with inl e => inl (WGuard e) | inr a => inr a end).

(** What the [try] of a handler makes of a failure: messages stay, [get_or_404]
    included any exception is caught. *)
Definition caught (e : WebFailure) : WebFailure :=
  match e with WNotFound | WCrashed => WAborted | e => e end.

Definition transaction {A} (m : BM D A) : WM D A := λ s,
  match m (web_db s) with
  | (d, inr a) => (mkWeb (web_cache s) d, inr a)
  | (_, inl e) => (s, inl e)
  end.

Definition try_transaction {A} (m : BM D A) : WM D A := λ s,
  match transaction m s with
  | (s', inl e) => (s', inl (caught e))
  | r => r
  end.

(** The outcome of a function that neither reads nor writes the tables. *)
Definition outcome {A} (r : WebFailure + A) : WM D A := λ s, (s, r).

(** Reads of the tables outside a [try]. *)
Definition on_web_db {A} (f : D → A) : WM D A := m_gets (λ s, f (web_db s)).

(** * What they guarantee *)

Definition keeps_stored {A} (m : WM D A) : Prop := ∀ s, web_db (m s).1 = web_db s.

(** A failure stores nothing. *)
Definition atomic {A} (m : WM D A) : Prop := ∀ s,
  match m s with (s', inl _) => web_db s' = web_db s | _ => True end.

Lemma keeps_atomic {A} (m : WM D A) : keeps_stored m → atomic m.
Proof. intros Hm s. specialize (Hm s). by destruct (m s) as [s' [e|a]]. Qed.

Lemma keeps_cache {A} (m : M Cache Refusal A) : keeps_stored (on_web_cache m).
Proof. intros s. unfold on_web_cache. by destruct (m (web_cache s)) as [c [e|a]]. Qed.

Lemma keeps_fail_if b e : keeps_stored (m_fail_if b e).
Proof. by destruct b. Qed.

Lemma keeps_some {A} (o : option A) e : keeps_stored (m_some o e).
Proof. by destruct o. Qed.

Lemma keeps_fail {A} e : keeps_stored (m_fail e : WM D A).
Proof. done. Qed.

Lemma keeps_ret {A} (a : A) : keeps_stored (mret a).
Proof. done. Qed.

Lemma keeps_read {A} (f : D → A) : keeps_stored (on_web_db f).
Proof. done. Qed.

Lemma keeps_outcome {A} (r : WebFailure + A) : keeps_stored (outcome r).
Proof. done. Qed.

Lemma outcome_ok {A B} (r : WebFailure + A) (k : A → WM D B) s b s' :
  run_ok (a ← outcome r; k a) s b s' ↔ ∃ a, r = inr a ∧ run_ok (k a) s b s'.
Proof. unfold run_ok. rewrite run_bind. unfold outcome. destruct r; naive_solver. Qed.

Lemma read_ok {A B} (f : D → A) (k : A → WM D B) s b s' :
  run_ok (x ← on_web_db f; k x) s b s' ↔ run_ok (k (f (web_db s))) s b s'.
Proof. done. Qed.

Lemma keeps_bind {A B} (m : WM D A) (f : A → WM D B) :
  keeps_stored m → (∀ a, keeps_stored (f a)) → keeps_stored (m ≫= f).
Proof.
  intros Hm Hf s. rewrite run_bind. specialize (Hm s). destruct (m s) as [s1 [e|a]]; [done|].
  by rewrite Hf.
Qed.

Lemma atomic_bind {A B} (m : WM D A) (f : A → WM D B) :
  keeps_stored m → (∀ a, atomic (f a)) → atomic (m ≫= f).
Proof.
  intros Hm Hf s. rewrite run_bind. specialize (Hm s). destruct (m s) as [s1 [e|a]]; [done|].
  specialize (Hf a s1). simpl in Hm. destruct (f a s1) as [s2 [e|b]]; [|done]. by rewrite Hf.
Qed.

Lemma atomic_transaction {A} (m : BM D A) : atomic (transaction m).
Proof. intros s. unfold transaction. by destruct (m (web_db s)) as [d [e|a]]. Qed.

Lemma atomic_try {A} (m : BM D A) : atomic (try_transaction m).
Proof. intros s. unfold try_transaction, transaction. by destruct (m (web_db s)) as [d [e|a]]. Qed.

Lemma transaction_ok {A} (m : BM D A) s a s' :
  run_ok (transaction m) s a s' ↔ ∃ d, run_ok m (web_db s) a d ∧ s' = mkWeb (web_cache s) d.
Proof.
  unfold run_ok, transaction. destruct (m (web_db s)) as [d [e|x]]; split.
  - done.
  - by intros (? & [=] & _).
  - intros [= <- ->]. by exists d.
  - by intros (d' & [= -> ->] & ->).
Qed.

Lemma try_transaction_ok {A} (m : BM D A) s a s' :
  run_ok (try_transaction m) s a s' ↔ ∃ d, run_ok m (web_db s) a d ∧ s' = mkWeb (web_cache s) d.
Proof.
  rewrite <- transaction_ok. unfold run_ok, try_transaction. by destruct (transaction m s) as [s1 [e|x]].
Qed.

(** A step that stores nothing, before another. *)
Lemma keeps_bind_ok {A B} (m : WM D A) (f : A → WM D B) s b s' :
  keeps_stored m → run_ok (m ≫= f) s b s' →
  ∃ a s1, run_ok m s a s1 ∧ web_db s1 = web_db s ∧ run_ok (f a) s1 b s'.
Proof.
  intros Hm. rewrite bind_ok. intros (a & s1 & H1 & H2). exists a, s1. split; [done|]. split; [|done].
  specialize (Hm s). unfold run_ok in H1. by rewrite H1 in Hm.
Qed.
End web.

(** * The steps of a body *)

Lemma body_get {D A} (k : D → BM D A) d a d' : run_ok (x ← m_get; k x) d a d' ↔ run_ok (k d) d a d'.
Proof. done. Qed.

Lemma body_modify {D} f (d d' : D) : run_ok (m_modify f : BM D unit) d tt d' ↔ d' = f d.
Proof. unfold run_ok, m_modify. naive_solver. Qed.

Lemma body_ret {D A} (a b : A) (d d' : D) : run_ok (mret a : BM D A) d b d' ↔ b = a ∧ d' = d.
Proof. unfold run_ok, mret, M_ret, m_ret. naive_solver. Qed.

Create HintDb web.
#[export] Hint Resolve keeps_cache keeps_fail_if keeps_some keeps_fail keeps_ret keeps_read keeps_outcome keeps_bind
  atomic_bind atomic_transaction atomic_try keeps_atomic : web.

(** [@login_required], for the user of the session. *)
Definition logged_in {D A} (user : option A) : WM D A := m_some user (WGuard ToLogin).
