(* ===== verification/AccountRequests.v ===== *)
(** Requests of an agency for an account (app/features/account_requests.py): anybody
    may submit one, administrators review, approve or deny it, and every step is
    written to an audit log.

    [updatable] says whether the table takes an UPDATE: the dumps of the schema put a
    trigger on it that assigns a column the table does not have, and then no UPDATE
    succeeds.  The version of a row is never raised, so a stale row is never seen. *)
From stdpp Require Import strings.
From S2P Require Import Prelude PyStr PySort ParamValidation Columns AccessControl Web.

(** * Tables *)

Record AccountRequest : Type := mkAccountRequest {
  ar_request_id : Z;
  ar_agency_name : string;
  ar_contact_name : string;
  ar_contact_phone : string;
  ar_contact_email : string;
  ar_reason_text : string;
  ar_status_code : string;
  ar_status_reason : option string;
  ar_created_by_id : Z;
  ar_created_at : Z;
  ar_updated_by_id : Z
}.

(** [event_dtime] is the time the entry is written. *)
Record AuditEntry : Type := mkAuditEntry {
  au_request_id : Z;
  au_event_type : string;
  au_event_notes : option string;
  au_actor_user_id : Z;
  au_event_dtime : Z
}.

(** The audit log is kept in the order of its serial key; [acc_users] are the ids of
    the users, which the other columns refer to. *)
Record AccountDB : Type := mkAccountDB {
  acc_requests : gmap Z AccountRequest;
  acc_audits : list AuditEntry;
  acc_users : gset Z
}.

Definition put_account (r : AccountRequest) (d : AccountDB) : AccountDB :=
  mkAccountDB (<[ar_request_id r := r]> (acc_requests d)) (acc_audits d) (acc_users d).
Definition log_entry (a : AuditEntry) (d : AccountDB) : AccountDB :=
  mkAccountDB (acc_requests d) (acc_audits d ++ [a]) (acc_users d).

Definition account_rows (d : AccountDB) : list AccountRequest := (map_to_list (acc_requests d)).*2.

Definition is_open (r : AccountRequest) : bool := bool_decide (ar_status_code r ∈ ["S"; "R"]%string).

(** The column of the address is case-insensitive. *)
Definition same_email (a b : string) : bool := bool_decide (lower a = lower b).

Definition open_for (email : string) (d : AccountDB) : list AccountRequest :=
  filter (λ r, (same_email (ar_contact_email r) email && is_open r) = true) (account_rows d).

(** The column types, [c_aar_status], the foreign keys and the unique index on the
    addresses of open requests. *)
Definition account_row_ok (d : AccountDB) (r : AccountRequest) : bool :=
  varchar 120 (ar_agency_name r) && varchar 80 (ar_contact_name r) && varchar 20 (ar_contact_phone r) &&
  varchar 255 (ar_reason_text r) && varchar_opt 255 (ar_status_reason r) &&
  bool_decide (ar_status_code r ∈ ["S"; "R"; "A"; "D"]%string) &&
  bool_decide (ar_created_by_id r ∈ acc_users d) && bool_decide (ar_updated_by_id r ∈ acc_users d) &&
  (negb (is_open r) ||
   forallb (λ r', ar_request_id r' =? ar_request_id r) (open_for (ar_contact_email r) d)).

Definition audit_row_ok (d : AccountDB) (a : AuditEntry) : bool :=
  varchar 24 (au_event_type a) && varchar_opt 255 (au_event_notes a) &&
  bool_decide (is_Some (acc_requests d !! au_request_id a)) &&
  bool_decide (au_actor_user_id a ∈ acc_users d).

(** * Forms *)

Record AccountForm : Type := mkAccountForm {
  af_agency_name : string;      (* "" when absent *)
  af_contact_name : string;
  af_contact_phone : string;
  af_contact_email : string;
  af_reason_text : string
}.

Record AccountCtx : Type := mkAccountCtx {
  ax_user : option (Z * SessionUser);     (* [current_user], with his id *)
  ax_auth : AuthDB;
  ax_query_ok : bool;
  ax_now : Z;
  ax_new_id : Z                           (* the serial a new request gets *)
}.

(** [notes or text]. *)
Definition or_text (s dflt : string) : string := if bool_decide (s = ""%string) then dflt else s.

Section accounts.
Context (updatable : bool) (ax : AccountCtx).

Definition insert_account (r : AccountRequest) : BM AccountDB unit :=
  d ← m_get;
  m_fail_if (bool_decide (is_Some (acc_requests d !! ar_request_id r))) WCrashed;;
  m_fail_if (negb (account_row_ok d r)) WCrashed;;
  m_modify (put_account r).

Definition update_account (r : AccountRequest) : BM AccountDB unit :=
  d ← m_get;
  m_fail_if (negb (updatable && account_row_ok d r)) WCrashed;;
  m_modify (put_account r).

Definition add_audit (a : AuditEntry) : BM AccountDB unit :=
  d ← m_get;
  m_fail_if (negb (audit_row_ok d a)) WCrashed;;
  m_modify (log_entry a).

(** * Submitting *)

(** [created_by_id] of an anonymous request is user 1. *)
Definition actor_id : Z := match ax_user ax with Some (uid, _) => uid | None => 1 end.

Definition new_account (f : AccountForm) : AccountRequest :=
  mkAccountRequest (ax_new_id ax) (upper (strip (af_agency_name f))) (upper (strip (af_contact_name f)))
    (strip (af_contact_phone f)) (lower (strip (af_contact_email f))) (upper (strip (af_reason_text f)))
    "S" None actor_id (ax_now ax) actor_id.

Definition required_fields (r : AccountRequest) : list string :=
  [ar_agency_name r; ar_contact_name r; ar_contact_phone r; ar_contact_email r; ar_reason_text r].

Definition submit_body (f : AccountForm) : BM AccountDB unit :=
  let r := new_account f in
  m_fail_if (bool_decide (""%string ∈ required_fields r)) (WRefused "All fields are required.");;
  d ← m_get;
  m_fail_if (bool_decide (open_for (ar_contact_email r) d ≠ []))
    (WRefused "An active request already exists for this email address.");;
  insert_account r;;
  add_audit (mkAuditEntry (ax_new_id ax) "submitted" (Some "Request submitted"%string) actor_id (ax_now ax)).

Definition create_account_request (f : AccountForm) : WM AccountDB unit := try_transaction (submit_body f).

(** * Deciding *)

Definition admin_only : WM AccountDB Z :=
  u ← logged_in (ax_user ax);
  ok ← on_web_cache (is_admin (Some u.2) (ax_auth ax) (ax_query_ok ax));
  m_fail_if (negb ok) (WRefused "Access denied. Administrator privileges required.");;
  mret u.1.

(** The row as a step leaves it. *)
Definition moved (status : string) (reason : option string) (uid : Z) (r : AccountRequest) : AccountRequest :=
  mkAccountRequest (ar_request_id r) (ar_agency_name r) (ar_contact_name r) (ar_contact_phone r)
    (ar_contact_email r) (ar_reason_text r) status reason (ar_created_by_id r) (ar_created_at r) uid.

Definition move (uid request_id : Z) (from : list string) (status : string)
    (reason : AccountRequest → option string) (event notes : string) : BM AccountDB unit :=
  d ← m_get;
  r ← m_some (acc_requests d !! request_id) WNotFound;
  m_fail_if (negb (bool_decide (ar_status_code r ∈ from))) (WRefused "not in a status that allows this");;
  update_account (moved status (reason r) uid r);;
  add_audit (mkAuditEntry request_id event (Some notes) uid (ax_now ax)).

Definition start_review (request_id : Z) : WM AccountDB unit :=
  uid ← admin_only;
  try_transaction (move uid request_id ["S"%string] "R" ar_status_reason "moved_to_review" "Request moved to review").

Definition approve_request (request_id : Z) (notes : string) : WM AccountDB unit :=
  uid ← admin_only;
  let notes := upper (strip notes) in
  try_transaction (move uid request_id ["S"; "R"]%string "A" (λ _, Some notes) "approved"
    (or_text notes "Request approved")).

(** The row is looked up before the reason is. *)
Definition deny_body (uid request_id : Z) (reason : string) : BM AccountDB unit :=
  d ← m_get;
  _ ← m_some (acc_requests d !! request_id) WNotFound;
  m_fail_if (bool_decide (reason = ""%string)) (WRefused "Denial reason is required.");;
  move uid request_id ["S"; "R"]%string "D" (λ _, Some reason) "denied" reason.

Definition deny_request (request_id : Z) (reason : string) : WM AccountDB unit :=
  uid ← admin_only;
  try_transaction (deny_body uid request_id (upper (strip reason))).

Definition provision_account (request_id : Z) : WM AccountDB unit :=
  _ ← admin_only;
  mret tt.

(** * Pages *)

Definition account_filter (status : option string) : string :=
  validate_status_code (Some (default "all"%string status)) ["all"; "S"; "R"; "A"; "D"]%string "all".

(** The requests, newest first, with the filter in force. *)
Definition list_account_requests (status : option string) : WM AccountDB (list AccountRequest * string) :=
  _ ← admin_only;
  let f := account_filter status in
  d ← on_web_db id;
  mret (sorted_by (λ r, [- ar_created_at r])
          (filter (λ r, f = "all"%string ∨ ar_status_code r = f) (account_rows d)), f).

Definition view_account_request (request_id : Z) : WM AccountDB (AccountRequest * list AuditEntry) :=
  _ ← admin_only;
  d ← on_web_db id;
  r ← m_some (acc_requests d !! request_id) WNotFound;
  mret (r, sorted_by (λ a, [- au_event_dtime a])
             (filter (λ a, au_request_id a = request_id) (acc_audits d))).

(** * Any of the calls that write *)

Inductive AccountCall : Type :=
| SubmitAccount (f : AccountForm)
| StartReview (request_id : Z)
| ApproveAccount (request_id : Z) (notes : string)
| DenyAccount (request_id : Z) (reason : string)
| ProvisionAccount (request_id : Z).

Definition account_call (c : AccountCall) : WM AccountDB unit :=
  match c with
  | SubmitAccount f => create_account_request f
  | StartReview rq => start_review rq
  | ApproveAccount rq notes => approve_request rq notes
  | DenyAccount rq reason => deny_request rq reason
  | ProvisionAccount rq => provision_account rq
  end.
End accounts.

(** One request to the server, by whoever [ax] says. *)
Inductive account_step (updatable : bool) : Web AccountDB → Web AccountDB → Prop :=
| account_step_call ax c s : account_step updatable s (account_call updatable ax c s).1.
