(* ===== verification/AccountRequestsProofs.v ===== *)
(** What holds of the account requests after any sequence of calls: the audit log
    tells how each came to its status, and only administrators decide. *)
From stdpp Require Import strings.
From S2P Require Import Prelude PyStr PySort ParamValidation Columns AccessControl AccessControlProofs Web AccountRequests.

(** The events a request in a status has behind it, in order. *)
Definition histories (status : string) : list (list string) :=
  if bool_decide (status = "S"%string) then [["submitted"]]%string
  else if bool_decide (status = "R"%string) then [["submitted"; "moved_to_review"]]%string
  else if bool_decide (status = "A"%string)
  then [["submitted"; "approved"]; ["submitted"; "moved_to_review"; "approved"]]%string
  else if bool_decide (status = "D"%string)
  then [["submitted"; "denied"]; ["submitted"; "moved_to_review"; "denied"]]%string
  else [].

Definition trail (rq : Z) (d : AccountDB) : list AuditEntry :=
  filter (λ a, au_request_id a = rq) (acc_audits d).

(** The entries [t] account for the row: its status, who submitted it, who touched it
    last, and the reason when it was denied. *)
Record explains (r : AccountRequest) (t : list AuditEntry) : Prop := mkExplains {
  ex_events : (au_event_type <$> t) ∈ histories (ar_status_code r);
  ex_author : au_actor_user_id <$> head t = Some (ar_created_by_id r);
  ex_last : au_actor_user_id <$> last t = Some (ar_updated_by_id r);
  ex_reason : ar_status_code r = "D"%string →
    ∃ reason, ar_status_reason r = Some reason ∧ reason ≠ ""%string ∧ au_event_notes <$> last t = Some (Some reason)
}.

Record account_inv (d : AccountDB) : Prop := mkAccountInv {
  ai_explained : ∀ k r, acc_requests d !! k = Some r → ar_request_id r = k ∧ explains r (trail k d);
  ai_known : ∀ a, a ∈ acc_audits d → is_Some (acc_requests d !! au_request_id a);
  ai_one_open : ∀ k1 k2 r1 r2, acc_requests d !! k1 = Some r1 → acc_requests d !! k2 = Some r2 →
    is_open r1 = true → is_open r2 = true → same_email (ar_contact_email r1) (ar_contact_email r2) = true → k1 = k2;
  ai_complete : ∀ k r, acc_requests d !! k = Some r → ""%string ∉ required_fields r
}.

(** * The effects of the calls *)

(** From which status a request moves to which, and the event that tells it. *)
Definition edges : list (string * string * string) :=
  [("S", "R", "moved_to_review"); ("S", "A", "approved"); ("R", "A", "approved");
   ("S", "D", "denied"); ("R", "D", "denied")]%string.

Section effects.
Context (updatable : bool) (ax : AccountCtx).

Definition by_admin (c : Cache) (uid : Z) : Prop :=
  ∃ u, ax_user ax = Some (uid, u) ∧
    (holds (Some u) (ax_auth ax) (ax_query_ok ax) c "SYSTEM_ADMINISTRATOR" ∨
     holds (Some u) (ax_auth ax) (ax_query_ok ax) c "SYS_ADMIN").

Inductive account_effect (c : Cache) (d : AccountDB) : AccountDB → Prop :=
| ae_none : account_effect c d d
| ae_submit f r a :
    r = new_account ax f → a = mkAuditEntry (ax_new_id ax) "submitted" (Some "Request submitted"%string) (actor_id ax) (ax_now ax) →
    ""%string ∉ required_fields r → open_for (ar_contact_email r) d = [] →
    acc_requests d !! ax_new_id ax = None →
    account_effect c d (log_entry a (put_account r d))
| ae_move r status reason event notes uid :
    by_admin c uid → updatable = true → acc_requests d !! ar_request_id r = Some r →
    (ar_status_code r, status, event) ∈ edges →
    (status = "D"%string → reason = Some notes ∧ notes ≠ ""%string) →
    account_effect c d (log_entry (mkAuditEntry (ar_request_id r) event (Some notes) uid (ax_now ax))
                          (put_account (moved status reason uid r) d)).

Lemma admin_names x : x ∈ ["SYSTEM_ADMINISTRATOR"; "SYS_ADMIN"]%string → normalized x = x.
Proof. revert x. apply Forall_forall. by_decide. Qed.

Lemma admin_only_ok s uid s' :
  run_ok (admin_only ax) s uid s' → web_db s' = web_db s ∧ by_admin (web_cache s) uid.
Proof.
  unfold admin_only, logged_in. rewrite run_some. intros ([uid' u] & Hu & Hrun).
  apply bind_ok in Hrun as (b & s1 & Hb & Hrun). revert Hb. unfold run_ok, on_web_cache, is_admin. cbn [snd].
  destruct (has_roles_run (E := Refusal) (Some u) (ax_auth ax) (ax_query_ok ax) _ (web_cache s) admin_names)
    as (c' & b' & -> & _ & Hiff).
  intros [= <- <-]. destruct b'; [|done]. injection Hrun as <- <-. split; [done|]. exists u. split; [done|].
  destruct (proj1 Hiff eq_refl) as (x & Hx & Hh).
  rewrite !elem_of_cons in Hx. destruct Hx as [->|[->|Hx]]; [tauto|tauto|]. by apply elem_of_nil in Hx.
Qed.

Lemma add_audit_ok a d d' : run_ok (add_audit a) d tt d' → d' = log_entry a d.
Proof. unfold add_audit. rewrite body_get, run_fail_if, body_modify. naive_solver. Qed.

Lemma move_ok uid rq from status reason event notes d d' :
  run_ok (move updatable ax uid rq from status reason event notes) d tt d' →
  updatable = true ∧ ∃ r, acc_requests d !! rq = Some r ∧ ar_status_code r ∈ from ∧
    d' = log_entry (mkAuditEntry rq event (Some notes) uid (ax_now ax)) (put_account (moved status (reason r) uid r) d).
Proof.
  unfold move. rewrite body_get, run_some. intros (r & Hr & Hrun). rewrite run_fail_if in Hrun.
  destruct Hrun as [Hfrom Hrun]. rewrite seq_ok in Hrun. destruct Hrun as (d1 & Hup & Hrun).
  unfold update_account in Hup. rewrite body_get, run_fail_if, body_modify in Hup. destruct Hup as [Hup ->].
  apply add_audit_ok in Hrun as ->. z_bool. split; [done|]. by exists r.
Qed.

Lemma submit_account_ok f d d' :
  run_ok (submit_body ax f) d tt d' →
  ¬ (""%string ∈ required_fields (new_account ax f)) ∧ open_for (ar_contact_email (new_account ax f)) d = [] ∧
  acc_requests d !! ax_new_id ax = None ∧
  d' = log_entry (mkAuditEntry (ax_new_id ax) "submitted" (Some "Request submitted"%string) (actor_id ax) (ax_now ax))
         (put_account (new_account ax f) d).
Proof.
  unfold submit_body. rewrite run_fail_if. intros [Hreq Hrun]. rewrite body_get, run_fail_if in Hrun.
  destruct Hrun as [Hopen Hrun]. rewrite seq_ok in Hrun. destruct Hrun as (d1 & Hins & Hrun).
  unfold insert_account in Hins. rewrite body_get, !run_fail_if, body_modify in Hins.
  destruct Hins as (Hnew & Hok & ->). apply add_audit_ok in Hrun as ->. z_bool.
  split; [done|]. split; [by apply dec_stable|]. split; [|done].
  change (acc_requests d !! ax_new_id ax) with (acc_requests d !! ar_request_id (new_account ax f)).
  by destruct (acc_requests d !! _) eqn:E; [destruct Hnew; eexists|].
Qed.

Lemma admin_only_keeps : keeps_stored (admin_only ax).
Proof. unfold admin_only, logged_in. auto 10 with web. Qed.

Lemma account_call_atomic c : atomic (account_call updatable ax c).
Proof.
  destruct c; simpl; try apply atomic_try; apply atomic_bind; try apply admin_only_keeps; auto with web.
Qed.

(** A step of an administrator that runs [move]. *)
Lemma moved_effect uid rq from status reason event notes s s' :
  (status, from, event) ∈ [("R", ["S"], "moved_to_review"); ("A", ["S"; "R"], "approved"); ("D", ["S"; "R"], "denied")]%string →
  (status = "D"%string → notes ≠ ""%string ∧ ∀ r, reason r = Some notes) →
  by_admin (web_cache s) uid →
  run_ok (move updatable ax uid rq from status reason event notes) (web_db s) tt s' →
  (∀ r, acc_requests (web_db s) !! rq = Some r → ar_request_id r = rq) →
  account_effect (web_cache s) (web_db s) s'.
Proof.
  intros Hs HD Had Hrun Hkey. apply move_ok in Hrun as (Hup & r & Hr & Hfrom & ->).
  specialize (Hkey r Hr). subst rq. apply ae_move; try done.
  - rewrite !elem_of_cons in Hs. unfold edges. rewrite !elem_of_cons.
    destruct Hs as [Hs|[Hs|[Hs|Hs]]]; [..|by apply elem_of_nil in Hs];
      injection Hs as -> -> ->; rewrite ?elem_of_cons, elem_of_nil in Hfrom;
      destruct_or?; try done; rewrite Hfrom; tauto.
  - intros ->. destruct (HD eq_refl) as [Hne Hre]. by rewrite Hre.
Qed.

Lemma account_call_effect call s :
  (∀ k r, acc_requests (web_db s) !! k = Some r → ar_request_id r = k) →
  account_effect (web_cache s) (web_db s) (web_db (account_call updatable ax call s).1).
Proof.
  intros Hkey. pose proof (account_call_atomic call s) as Hat.
  destruct (account_call updatable ax call s) as [s' [e|[]]] eqn:Hrun; simpl; [rewrite Hat; apply ae_none|].
  clear Hat. change (run_ok (account_call updatable ax call) s tt s') in Hrun.
  destruct call as [f|rq|rq notes|rq reason|rq]; simpl in Hrun.
  { apply try_transaction_ok in Hrun as (d & Hd & ->). apply submit_account_ok in Hd as (? & ? & ? & ->). by eapply ae_submit. }
  all: apply (keeps_bind_ok _ _ _ _ _ admin_only_keeps) in Hrun as (uid & s1 & Hadm & Hdb & Hrun);
    pose proof Hadm as [_ Hby]%admin_only_ok; try (injection Hrun as <-; rewrite Hdb; apply ae_none);
    apply try_transaction_ok in Hrun as (d & Hd & ->); rewrite Hdb in Hd; simpl.
  - eapply moved_effect; [| |exact Hby|exact Hd|by apply Hkey]; [by left|discriminate].
  - eapply moved_effect; [| |exact Hby|exact Hd|by apply Hkey]; [right; by left|discriminate].
  - unfold deny_body in Hd. rewrite body_get, run_some in Hd. destruct Hd as (r & _ & Hd).
    rewrite run_fail_if in Hd. destruct Hd as [Hne Hd]. z_bool.
    eapply moved_effect; [| |exact Hby|exact Hd|by apply Hkey]; [right; right; by left|done].
Qed.
End effects.

(** * The effects keep the log in step with the rows *)

Lemma trail_log rq a d : trail rq (log_entry a d) = trail rq d ++ (if decide (au_request_id a = rq) then [a] else []).
Proof. unfold trail. simpl. by rewrite filter_app. Qed.

Lemma edge_history from to event t :
  (from, to, event) ∈ edges → t ∈ histories from → (t ++ [event])%list ∈ histories to.
Proof.
  intros He Ht.
  assert (Forall (λ e, Forall (λ t, (t ++ [e.2])%list ∈ histories e.1.2) (histories e.1.1)) edges) as Hall by by_decide.
  rewrite Forall_forall in Hall. specialize (Hall _ He). rewrite Forall_forall in Hall. exact (Hall _ Ht).
Qed.

Lemma edge_statuses from to event : (from, to, event) ∈ edges →
  from ∈ ["S"; "R"]%string ∧ to ∈ ["R"; "A"; "D"]%string.
Proof.
  intros He. assert (Forall (λ e, e.1.1 ∈ ["S"; "R"]%string ∧ e.1.2 ∈ ["R"; "A"; "D"]%string) edges) as Hall by by_decide.
  rewrite Forall_forall in Hall. exact (Hall _ He).
Qed.

Lemma elem_of_open email d r :
  r ∈ open_for email d ↔ (∃ k, acc_requests d !! k = Some r) ∧ same_email (ar_contact_email r) email = true ∧ is_open r = true.
Proof.
  unfold open_for, account_rows. rewrite list_elem_of_filter, andb_true_iff, list_elem_of_fmap. split.
  - intros [[? ?] ([k r'] & -> & Hk)]. apply elem_of_map_to_list in Hk. simpl. eauto.
  - intros [[k Hk] Hopen]. split; [done|]. exists (k, r). split; [done|]. by apply elem_of_map_to_list.
Qed.

Lemma same_email_sym a b : same_email a b = same_email b a.
Proof. unfold same_email. apply bool_decide_ext. naive_solver. Qed.

Lemma trail_unknown rq d : account_inv d → acc_requests d !! rq = None → trail rq d = [].
Proof.
  intros Hi Hrq. destruct (trail rq d) as [|a t] eqn:E; [done|]. exfalso.
  assert (a ∈ trail rq d) as Ha by (rewrite E; by left). apply list_elem_of_filter in Ha as [Heq Ha].
  apply (ai_known _ Hi) in Ha as [r Hr]. by rewrite Heq, Hrq in Hr.
Qed.

(** A row written with an entry of its own log. *)
Lemma log_put_lookup a r d k :
  acc_requests (log_entry a (put_account r d)) !! k = if decide (k = ar_request_id r) then Some r else acc_requests d !! k.
Proof. simpl. case_decide as E; [subst; apply lookup_insert_eq|by apply lookup_insert_ne]. Qed.

Lemma inv_write a r d :
  account_inv d → au_request_id a = ar_request_id r →
  explains r (trail (ar_request_id r) d ++ [a]) →
  (""%string ∉ required_fields r) →
  (is_open r = true → ∀ k r', acc_requests d !! k = Some r' → is_open r' = true →
     same_email (ar_contact_email r') (ar_contact_email r) = true → k = ar_request_id r) →
  account_inv (log_entry a (put_account r d)).
Proof.
  intros Hi Ha Hex Hreq Hone. split.
  - intros k r0. rewrite log_put_lookup, trail_log, Ha. intros Hk. case_decide as E.
    + simplify_eq. rewrite decide_True by done. done.
    + rewrite decide_False by congruence. rewrite app_nil_r. by apply (ai_explained _ Hi).
  - intros b Hb. rewrite log_put_lookup. case_decide; [by eexists|]. simpl in Hb.
    apply elem_of_app in Hb as [Hb|Hb]; [by apply (ai_known _ Hi)|].
    apply list_elem_of_singleton in Hb as ->. done.
  - intros k1 k2 r1 r2. rewrite !log_put_lookup. do 2 case_decide; intros; simplify_eq; [done|..].
    + symmetry. eapply Hone; [done..|]. by rewrite same_email_sym.
    + by eapply Hone.
    + by eapply (ai_one_open _ Hi).
  - intros k r0. rewrite log_put_lookup. case_decide; [by intros [= <-]|apply (ai_complete _ Hi)].
Qed.

Lemma last_snoc_fmap {A B} (f : A → B) l x : f <$> last (l ++ [x]) = Some (f x).
Proof. by rewrite last_snoc. Qed.

Lemma explains_moved r t status reason event notes uid now :
  explains r t → (ar_status_code r, status, event) ∈ edges →
  (status = "D"%string → reason = Some notes ∧ notes ≠ ""%string) →
  explains (moved status reason uid r) (t ++ [mkAuditEntry (ar_request_id r) event (Some notes) uid now]).
Proof.
  intros [Hev Hau Hla _] He HD. split.
  - rewrite fmap_app. by eapply edge_history.
  - destruct t as [|a t]; [done|]. exact Hau.
  - by rewrite last_snoc_fmap.
  - intros Hs. destruct (HD Hs) as [-> Hne]. exists notes. split; [done|]. split; [done|]. by rewrite last_snoc_fmap.
Qed.

Lemma effect_inv updatable ax c d d' : account_inv d → account_effect updatable ax c d d' → account_inv d'.
Proof.
  intros Hi He. destruct He as [|f r a -> -> Hreq Hopen Hnew|r status reason event notes uid _ _ Hr Hedge HD]; [done|..].
  - apply inv_write; [done|done| |done|].
    + simpl. rewrite (trail_unknown _ d Hi Hnew). split; simpl; [by_decide|done|done|done].
    + intros _ k r' Hk Hop Hem. exfalso. apply (not_elem_of_nil r'). rewrite <- Hopen. apply elem_of_open. eauto.
  - destruct (ai_explained _ Hi _ _ Hr) as [_ Hex]. apply inv_write; [done|done| | |].
    + by apply explains_moved.
    + by apply (ai_complete _ Hi _ _ Hr).
    + intros _ k r' Hk Hop Hem. eapply (ai_one_open _ Hi); [exact Hk|exact Hr|done| |exact Hem].
      apply edge_statuses in Hedge as [Hfrom _]. by apply bool_decide_eq_true_2.
Qed.

Lemma step_inv updatable s s' : account_step updatable s s' → account_inv (web_db s) → account_inv (web_db s').
Proof.
  intros [ax call s0] Hi. eapply effect_inv; [exact Hi|]. apply account_call_effect.
  intros k r Hk. by apply (ai_explained _ Hi).
Qed.

Definition no_accounts (users : gset Z) : AccountDB := mkAccountDB ∅ [] users.

Lemma no_accounts_inv users : account_inv (no_accounts users).
Proof. split; simpl; try (intros *; by rewrite ?lookup_empty). by intros a Ha%elem_of_nil. Qed.

(** * Theorems *)

(** C22: from empty tables, whoever calls what in whatever order, the audit log of every
    account request tells how it came to its status: it begins with the submission by
    the user on record, goes through the review at most once, ends with the user who
    touched the row last and with the reason of a denial; no entry is left without
    its request, no required field is empty and no address has two open requests. *)
Theorem account_requests_invariant updatable users c s :
  reach (account_step updatable) (mkWeb c (no_accounts users)) s → account_inv (web_db s).
Proof.
  intros Hr. eapply (reach_inv _ (λ s, account_inv (web_db s))) in Hr; [exact Hr| |apply no_accounts_inv].
  intros a b Hab. by eapply step_inv.
Qed.

(** a call changes an account request only for an administrator, only on a table
    that takes the change and only while the request is open; the change moves the
    status along one of the five edges and records the administrator; everything the
    applicant entered stays.  A decided request therefore never changes again. *)
Theorem account_decision_authorized updatable ax call s k r :
  account_inv (web_db s) → acc_requests (web_db s) !! k = Some r →
  let s' := (account_call updatable ax call s).1 in
  acc_requests (web_db s') !! k ≠ Some r →
  ∃ uid status reason event, by_admin ax (web_cache s) uid ∧ updatable = true ∧ is_open r = true ∧
    (ar_status_code r, status, event) ∈ edges ∧
    acc_requests (web_db s') !! k = Some (moved status reason uid r) ∧
    ∃ a, acc_audits (web_db s') = acc_audits (web_db s) ++ [a] ∧ au_request_id a = k ∧ au_event_type a = event ∧
      au_actor_user_id a = uid.
Proof.
  intros Hi Hk s' Hne. destruct (ai_explained _ Hi _ _ Hk) as [Hid _].
  pose proof (account_call_effect updatable ax call s) as He. subst s'.
  specialize (He (λ k r Hr, proj1 (ai_explained _ Hi k r Hr))). revert Hne. revert He.
  generalize (web_db (account_call updatable ax call s).1). intros d'. intros [|f r0 a -> -> _ _ Hnew|r0 status reason event notes uid Had Hup Hr0 Hedge _]; [done|..];
    rewrite log_put_lookup; case_decide as E; try done.
  - subst k. simpl in E. by rewrite E, Hnew in Hk.
  - intros _. simpl in E. rewrite E in Hk. simplify_eq. exists uid, status, reason, event. split_and!; try done.
    + apply edge_statuses in Hedge as [Hfrom _]. by apply bool_decide_eq_true_2.
    + eexists. split; [done|]. done.
Qed.

(** * An example *)

(** A shelter applies, and an administrator denies its request after a review. *)
Definition ex_form : AccountForm := mkAccountForm " Portmore shelter" "A. Brown" "876-555-0101" "A.Brown@mail.com " "beds".
Definition ex_auth : AuthDB := mkAuthDB [(1, "SYSTEM_ADMINISTRATOR"%string)] [] [].
Definition ex_admin : SessionUser := mkSessionUser "ADMIN" "admin@odpem.gov.jm" None ["SYSTEM_ADMINISTRATOR"%string] [].
Definition ex_visit (now : Z) : AccountCtx := mkAccountCtx None ex_auth true now 7.
Definition ex_review (now : Z) : AccountCtx := mkAccountCtx (Some (2, ex_admin)) ex_auth true now 8.

Definition ex_calls : list (AccountCtx * AccountCall) :=
  [(ex_visit 10, SubmitAccount ex_form); (ex_visit 11, SubmitAccount ex_form); (ex_review 12, StartReview 7);
   (ex_visit 13, ApproveAccount 7 ""); (ex_review 14, DenyAccount 7 "not an agency"); (ex_review 15, ApproveAccount 7 "")].

Definition after_calls (updatable : bool) (l : list (AccountCtx * AccountCall)) (s : Web AccountDB) : Web AccountDB :=
  foldl (λ s c, (account_call updatable c.1 c.2 s).1) s l.

Definition ex_start : Web AccountDB := mkWeb None (no_accounts {[1; 2]}).

Lemma after_calls_reach updatable l s : reach (account_step updatable) s (after_calls updatable l s).
Proof. revert s. induction l as [|[ax c] l IH]; intros s; [constructor|]. eapply reach_step; [constructor|apply IH]. Qed.

Lemma account_requests_invariant_witness :
  let s := after_calls true ex_calls ex_start in
  account_inv (web_db s) ∧ au_event_type <$> acc_audits (web_db s) = ["submitted"; "moved_to_review"; "denied"]%string.
Proof.
  split; [|vm_compute; reflexivity].
  apply (account_requests_invariant true {[1; 2]} None). apply after_calls_reach.
Defined.

Lemma account_decision_authorized_witness :
  let s := after_calls true (take 3 ex_calls) ex_start in
  ∃ r, acc_requests (web_db s) !! 7 = Some r ∧ ar_status_code r = "R"%string ∧
    ∃ uid, by_admin (ex_review 14) (web_cache s) uid.
Proof.
  assert (account_inv (web_db (after_calls true (take 3 ex_calls) ex_start))) as Hi.
  { eapply (reach_inv _ (λ s, account_inv (web_db s)) (λ a b H, step_inv true a b H)).
    - apply after_calls_reach.
    - apply no_accounts_inv. }
  eexists. split; [vm_compute; reflexivity|]. split; [vm_compute; reflexivity|].
  edestruct (account_decision_authorized true (ex_review 14) (DenyAccount 7 "not an agency")
    (after_calls true (take 3 ex_calls) ex_start) 7) as (uid & _ & _ & _ & Had & _).
  - exact Hi.
  - vm_compute. reflexivity.
  - vm_compute. discriminate.
  - by exists uid.
Defined.

(** With the trigger of the dumped schema every request stays as it was submitted. *)
Lemma trigger_freezes ax call s k r :
  account_inv (web_db s) → acc_requests (web_db s) !! k = Some r →
  acc_requests (web_db (account_call false ax call s).1) !! k = Some r.
Proof.
  intros Hi Hk. destruct (ai_explained _ Hi _ _ Hk) as [Hid _].
  destruct (account_call_effect false ax call s (λ k r Hr, proj1 (ai_explained _ Hi k r Hr)))
    as [|f r0 a -> -> _ _ Hnew|? ? ? ? ? uid _ [=] _ _ _]; [done|].
  rewrite log_put_lookup, decide_False; [done|]. simpl. intros ->. by rewrite Hnew in Hk.
Qed.
