(* ===== verification/UserAdmin.v ===== *)
(** Administration of the users (app/features/user_admin.py): creating and editing a
    user with his roles and warehouses, activating and deactivating him, and the page
    each form is shown on.

    The user of a request is loaded from the table by the id in his session
    (drims_app.py).  The hash of a password and the collation of names are
    parameters; message texts are cut short and the audit log is not modelled.  A
    number too large for an integer column is one the tables do not have. *)
From stdpp Require Import strings.
From Stdlib Require Import Ascii String.
From S2P Require Import Prelude PyStr PySort ParamValidation Columns AccessControl Web.

(** * Tables *)

Record UserRow : Type := mkUserRow {
  ur_user_id : Z;
  ur_email : string;
  ur_user_name : string;
  ur_password_hash : string;
  ur_first_name : option string;
  ur_last_name : option string;
  ur_full_name : option string;
  ur_organization : option string;
  ur_agency_id : option Z;
  ur_job_title : option string;
  ur_phone : option string;
  ur_is_active : bool;
  ur_status_code : string;
  ur_lock_until_at : option Z;
  ur_mfa_enabled : bool;
  ur_create_dtime : Z
}.

Definition set_ur_is_active (x : bool) (r : UserRow) : UserRow :=
  mkUserRow (ur_user_id r) (ur_email r) (ur_user_name r) (ur_password_hash r) (ur_first_name r) (ur_last_name r)
    (ur_full_name r) (ur_organization r) (ur_agency_id r) (ur_job_title r) (ur_phone r) x (ur_status_code r)
    (ur_lock_until_at r) (ur_mfa_enabled r) (ur_create_dtime r).

Record RoleRow : Type := mkRoleRow { rl_id : Z; rl_code : string; rl_name : string }.
Record AgencyRow : Type := mkAgencyRow { ag_agency_id : Z; ag_agency_name : string; ag_status_code : string }.
Record CustodianRow : Type := mkCustodianRow { cu_custodian_id : Z; cu_custodian_name : string }.

Record UserDB : Type := mkUserDB {
  ud_users : gmap Z UserRow;
  ud_user_role : gset (Z * Z);            (* user id, role id *)
  ud_user_warehouse : gset (Z * Z);       (* user id, warehouse id *)
  ud_roles : gmap Z RoleRow;
  ud_warehouses : gmap Z string;          (* the status of each *)
  ud_agencies : gmap Z AgencyRow;
  ud_custodians : gmap Z CustodianRow
}.

Definition put_user (u : UserRow) (d : UserDB) : UserDB :=
  mkUserDB (<[ur_user_id u := u]> (ud_users d)) (ud_user_role d) (ud_user_warehouse d) (ud_roles d)
    (ud_warehouses d) (ud_agencies d) (ud_custodians d).
Definition set_user_role (x : gset (Z * Z)) (d : UserDB) : UserDB :=
  mkUserDB (ud_users d) x (ud_user_warehouse d) (ud_roles d) (ud_warehouses d) (ud_agencies d) (ud_custodians d).
Definition set_user_warehouse (x : gset (Z * Z)) (d : UserDB) : UserDB :=
  mkUserDB (ud_users d) (ud_user_role d) x (ud_roles d) (ud_warehouses d) (ud_agencies d) (ud_custodians d).

Definition rows {A} (m : gmap Z A) : list A := (map_to_list m).*2.

(** [[role.code for role in user.roles]]. *)
Definition roles_of (uid : Z) (d : UserDB) : list RoleRow :=
  filter (λ r, (uid, rl_id r) ∈ ud_user_role d) (rows (ud_roles d)).
Definition role_codes (uid : Z) (d : UserDB) : list string := rl_code <$> roles_of uid d.

Definition warehouse_ids (uid : Z) (d : UserDB) : list Z :=
  (filter (λ p, p.1 = uid) (elements (ud_user_warehouse d))).*2.

(** * The user of the request *)

Definition is_locked (now : Z) (u : UserRow) : bool :=
  match ur_lock_until_at u with None => false | Some t => now <? t end.

Definition load_user (now uid : Z) (d : UserDB) : option UserRow :=
  u ← ud_users d !! uid;
  if ur_is_active u && bool_decide (ur_status_code u = "A"%string) && negb (is_locked now u) then Some u else None.

Definition session_user (d : UserDB) (u : UserRow) : SessionUser :=
  mkSessionUser (ur_user_name u) (ur_email u) (ur_agency_id u) (role_codes (ur_user_id u) d)
    (warehouse_ids (ur_user_id u) d).

(** The role table as the role checks read it. *)
Definition auth_db (d : UserDB) : AuthDB := mkAuthDB ((λ r, (rl_id r, rl_code r)) <$> rows (ud_roles d)) [] [].

Record UserForm : Type := mkUserForm {
  uf_email : string;                     (* "" when absent, and so on *)
  uf_user_name : string;
  uf_password : string;
  uf_first_name : string;
  uf_last_name : string;
  uf_organization : option string;
  uf_job_title : string;
  uf_phone : string;
  uf_is_active : bool;                   (* the box is ticked *)
  uf_roles : list string;
  uf_warehouses : list string
}.

Record UserCtx : Type := mkUserCtx {
  ux_session : option Z;                 (* the user id in the session *)
  ux_query_ok : bool;
  ux_now : Z;
  ux_new_id : Z;                         (* the serial a new user gets *)
  ux_hash : string → string              (* [generate_password_hash] *)
}.

Definition ADMIN_CODES : list string := ["SYSTEM_ADMINISTRATOR"; "SYS_ADMIN"]%string.
Definition ADMIN_ROUTE_ROLES : list string := ["SYSTEM_ADMINISTRATOR"; "SYS_ADMIN"; "CUSTODIAN"]%string.

(** [s if s else None]. *)
Definition or_none (s : string) : option string := if bool_decide (s = ""%string) then None else Some s.

(** [s[:20]]. *)
Definition cut20 (s : string) : string := of_chars (take 20 (chars s)).

(** [str.isdigit]: the superscript digits are digits to it and not to [int]. *)
Definition isdigit_char (c : ascii) : bool := is_digit c || bool_decide (code c ∈ [178; 179; 185]).
Definition isdigit (s : string) : bool := negb (bool_decide (s = ""%string)) && forallb isdigit_char (chars s).

(** [s.split(':', 1)], [None] without a colon. *)
Fixpoint split_colon (l : list ascii) : option (list ascii * list ascii) :=
  match l with
  | [] => None
  | c :: l' => if code c =? 58 then Some ([], l')
               else (λ p, (c :: p.1, p.2)) <$> split_colon l'
  end.

(** * What the tables accept *)

Definition user_row_ok (d : UserDB) (u : UserRow) : bool :=
  varchar 200 (ur_email u) && varchar 20 (ur_user_name u) && varchar 256 (ur_password_hash u) &&
  varchar_opt 100 (ur_first_name u) && varchar_opt 100 (ur_last_name u) && varchar_opt 200 (ur_full_name u) &&
  varchar_opt 200 (ur_organization u) && varchar_opt 200 (ur_job_title u) && varchar_opt 50 (ur_phone u) &&
  match ur_agency_id u with Some a => bool_decide (is_Some (ud_agencies d !! a)) | None => true end &&
  forallb (λ v, (ur_user_id v =? ur_user_id u) || negb (bool_decide (ur_email v = ur_email u))) (rows (ud_users d)).

Section user_admin.
Context (ux : UserCtx) (collate : string → list Z).

(** * Roles the user may assign *)

Definition assignable_roles (codes : list string) (d : UserDB) : list RoleRow :=
  if intersects ADMIN_CODES codes then rows (ud_roles d)
  else if bool_decide ("CUSTODIAN"%string ∈ codes) then filter (λ r, rl_code r ∉ ADMIN_CODES) (rows (ud_roles d))
  else [].

(** [is_valid] of [validate_role_assignment]. *)
Definition validate_role_assignment (codes : list string) (role_ids : list Z) (d : UserDB) : bool :=
  forallb (λ r, bool_decide (r ∈ (rl_id <$> assignable_roles codes d))) role_ids.

(** * The organization of a form *)

Definition parse_organization (value : string) (d : UserDB) : WebFailure + (option string * option Z) :=
  if bool_decide (value = ""%string) then inr (None, None) else
  match split_colon (chars value) with
  | None => inl (WRefused "Invalid organization format")
  | Some (org_type, org_id) =>
      if negb (bool_decide (of_chars org_type ∈ ["AGENCY"; "CUSTODIAN"]%string))
      then inl (WRefused "Invalid organization type") else
      if negb (isdigit (of_chars org_id)) then inl (WRefused "Invalid organization ID format") else
      match py_int (of_chars org_id) with
      | None => inl WCrashed
      | Some id =>
          if bool_decide (of_chars org_type = "AGENCY"%string) then
            match ud_agencies d !! id with
            | Some a => if bool_decide (ag_status_code a = "A"%string)
                        then inr (Some (ag_agency_name a), Some (ag_agency_id a))
                        else inl (WRefused "Invalid agency selected")
            | None => inl (WRefused "Invalid agency selected")
            end
          else
            match ud_custodians d !! id with
            | Some c => inr (Some (cu_custodian_name c), None)
            | None => inl (WRefused "Invalid custodian selected")
            end
      end
  end.

(** The value the edit form starts with. *)
Definition current_org_value (u : UserRow) (d : UserDB) : string :=
  let named := match ur_organization u with
               | Some o => if bool_decide (o = ""%string) then ""%string else
                   match head (filter (λ c, cu_custodian_name c = o) (rows (ud_custodians d))) with
                   | Some c => ("CUSTODIAN:" +:+ py_str (cu_custodian_id c))%string
                   | None => ""%string
                   end
               | None => ""%string
               end in
  match ur_agency_id u with
  | Some a => if a =? 0 then named else ("AGENCY:" +:+ py_str a)%string
  | None => named
  end.

(** * Storing a user *)

Definition store_user (u : UserRow) : BM UserDB unit :=
  d ← m_get;
  m_fail_if (negb (user_row_ok d u)) WCrashed;;
  m_modify (put_user u).

(** Rows of an association table: a repeated one or an unknown id is an error. *)
Definition add_user_role (uid : Z) (role_id : Z) : BM UserDB unit :=
  d ← m_get;
  m_fail_if (bool_decide ((uid, role_id) ∈ ud_user_role d) || bool_decide (ud_roles d !! role_id = None)) WCrashed;;
  m_modify (λ d, set_user_role ({[(uid, role_id)]} ∪ ud_user_role d) d).

Definition add_user_warehouse (uid : Z) (warehouse_id : Z) : BM UserDB unit :=
  d ← m_get;
  m_fail_if (bool_decide ((uid, warehouse_id) ∈ ud_user_warehouse d) || bool_decide (ud_warehouses d !! warehouse_id = None)) WCrashed;;
  m_modify (λ d, set_user_warehouse ({[(uid, warehouse_id)]} ∪ ud_user_warehouse d) d).

Definition ints (l : list string) : option (list Z) := mapM py_int l.

(** Shared by both forms: the roles, with the check of the user's right to assign
    them. *)
Definition assign_roles (codes : list string) (uid : Z) (f : UserForm) : BM UserDB unit :=
  role_ids ← m_some (ints (uf_roles f)) WCrashed;
  d ← m_get;
  m_fail_if (negb (validate_role_assignment codes role_ids d)) (WRefused "You do not have permission to assign the roles");;
  m_for role_ids (add_user_role uid).

Definition assign_warehouses (uid : Z) (f : UserForm) : BM UserDB unit :=
  ids ← m_some (ints (uf_warehouses f)) WCrashed;
  m_for ids (add_user_warehouse uid).

Definition full_name (first last : string) : option string := or_none (strip (first +:+ " " +:+ last)%string).

(** * The routes *)

(** [@login_required] and [@role_required(...)]. *)
Definition admin_route : WM UserDB UserRow :=
  d ← on_web_db id;
  u ← logged_in (uid ← ux_session ux; load_user (ux_now ux) uid d);
  on_web_cache (role_required (Some (session_user d u)) (auth_db d) (ux_query_ok ux) ADMIN_ROUTE_ROLES);;
  mret u.

Definition new_user (f : UserForm) (org : option string * option Z) : UserRow :=
  let first_name := strip (uf_first_name f) in
  let last_name := strip (uf_last_name f) in
  mkUserRow (ux_new_id ux) (lower (strip (uf_email f))) (cut20 (upper (strip (uf_user_name f))))
    (ux_hash ux (uf_password f)) (Some first_name) (Some last_name) (full_name first_name last_name)
    org.1 org.2 (or_none (strip (uf_job_title f))) (or_none (strip (uf_phone f))) (uf_is_active f)
    "A" None false (ux_now ux).

Definition create_user_body (codes : list string) (f : UserForm) (org : option string * option Z) : BM UserDB unit :=
  d ← m_get;
  m_fail_if (bool_decide (is_Some (ud_users d !! ux_new_id ux))) WCrashed;;
  store_user (new_user f org);;
  assign_roles codes (ux_new_id ux) f;;
  assign_warehouses (ux_new_id ux) f.

Definition create_user (f : UserForm) : WM UserDB unit :=
  actor ← admin_route;
  let email := lower (strip (uf_email f)) in
  let user_name := cut20 (upper (strip (uf_user_name f))) in
  m_fail_if (bool_decide (""%string ∈ [email; uf_password f; user_name]))
    (WRefused "Email, user name, and password are required.");;
  d ← on_web_db id;
  m_fail_if (existsb (λ u, bool_decide (ur_email u = email)) (rows (ud_users d)))
    (WRefused "A user with this email already exists.");;
  org ← outcome (parse_organization (strip (default ""%string (uf_organization f))) d);
  try_transaction (create_user_body (role_codes (ur_user_id actor) d) f org).

(** The row as the edit form leaves it; an empty password keeps the old one. *)
Definition edited_user (f : UserForm) (org : option string * option Z) (u : UserRow) : UserRow :=
  let first_name := strip (uf_first_name f) in
  let last_name := strip (uf_last_name f) in
  let password := strip (uf_password f) in
  mkUserRow (ur_user_id u) (ur_email u) (cut20 (upper (strip (uf_user_name f))))
    (if bool_decide (password = ""%string) then ur_password_hash u else ux_hash ux password)
    (Some first_name) (Some last_name) (full_name first_name last_name) org.1 org.2
    (or_none (strip (uf_job_title f))) (or_none (strip (uf_phone f))) (uf_is_active f)
    (ur_status_code u) (ur_lock_until_at u) (ur_mfa_enabled u) (ur_create_dtime u).

Definition others (uid : Z) (s : gset (Z * Z)) : gset (Z * Z) := filter (λ p, p.1 ≠ uid) s.

(** The roles the user held at the start of the request decide what he may assign. *)
Definition edit_user_body (codes : list string) (f : UserForm) (org : option string * option Z) (u : UserRow) : BM UserDB unit :=
  store_user (edited_user f org u);;
  m_modify (λ d, set_user_role (others (ur_user_id u) (ud_user_role d)) d);;
  assign_roles codes (ur_user_id u) f;;
  m_modify (λ d, set_user_warehouse (others (ur_user_id u) (ud_user_warehouse d)) d);;
  assign_warehouses (ur_user_id u) f.

Definition edit_user (user_id : Z) (f : UserForm) : WM UserDB unit :=
  actor ← admin_route;
  d ← on_web_db id;
  u ← m_some (ud_users d !! user_id) WNotFound;
  organization ← m_some (uf_organization f) (WRefused "Organization field is required.");
  m_fail_if (bool_decide (cut20 (upper (strip (uf_user_name f))) = ""%string)) (WRefused "User name is required.");;
  org ← outcome (parse_organization (strip organization) d);
  try_transaction (edit_user_body (role_codes (ur_user_id actor) d) f org u).

Definition deactivate_user (user_id : Z) : WM UserDB unit :=
  actor ← admin_route;
  m_fail_if (user_id =? ur_user_id actor) (WRefused "You cannot deactivate your own account.");;
  d ← on_web_db id;
  u ← m_some (ud_users d !! user_id) WNotFound;
  transaction (m_modify (put_user (set_ur_is_active false u))).

Definition activate_user (user_id : Z) : WM UserDB unit :=
  _ ← admin_route;
  d ← on_web_db id;
  u ← m_some (ud_users d !! user_id) WNotFound;
  transaction (m_modify (put_user (set_ur_is_active true u))).

Inductive UserCall : Type :=
| CreateUser (f : UserForm)
| EditUser (user_id : Z) (f : UserForm)
| DeactivateUser (user_id : Z)
| ActivateUser (user_id : Z).

Definition user_call (c : UserCall) : WM UserDB unit :=
  match c with
  | CreateUser f => create_user f
  | EditUser uid f => edit_user uid f
  | DeactivateUser uid => deactivate_user uid
  | ActivateUser uid => activate_user uid
  end.

(** * Pages *)

(** What both forms offer: the roles the user may assign, the active warehouses and
    agencies, the custodians. *)
Record UserFormPage : Type := mkUserFormPage {
  fp_roles : list RoleRow;
  fp_warehouses : list Z;
  fp_agencies : list AgencyRow;
  fp_custodians : list CustodianRow
}.

Definition form_page (actor : UserRow) (d : UserDB) : UserFormPage :=
  mkUserFormPage (assignable_roles (role_codes (ur_user_id actor) d) d)
    (filter (λ p, p.2 = "A"%string) (map_to_list (ud_warehouses d))).*1
    (sorted_by (λ a, collate (ag_agency_name a)) (filter (λ a, ag_status_code a = "A"%string) (rows (ud_agencies d))))
    (sorted_by (λ c, collate (cu_custodian_name c)) (rows (ud_custodians d))).

Record EditUserPage : Type := mkEditUserPage {
  ep_user : UserRow;
  ep_form : UserFormPage;
  ep_user_role_ids : list Z;
  ep_user_warehouse_ids : list Z;
  ep_current_org_value : string
}.

Definition edit_page (actor u : UserRow) (d : UserDB) : EditUserPage :=
  mkEditUserPage u (form_page actor d) (rl_id <$> roles_of (ur_user_id u) d) (warehouse_ids (ur_user_id u) d)
    (current_org_value u d).

Definition create_user_page : WM UserDB UserFormPage :=
  actor ← admin_route;
  d ← on_web_db id;
  mret (form_page actor d).

Definition edit_user_page (user_id : Z) : WM UserDB EditUserPage :=
  actor ← admin_route;
  d ← on_web_db id;
  u ← m_some (ud_users d !! user_id) WNotFound;
  mret (edit_page actor u d).

(** The counts of the list; the percentage, computed in floating point, is left out. *)
Record UserMetrics : Type := mkUserMetrics {
  um_total_users : Z; um_active_users : Z; um_inactive_users : Z; um_locked_users : Z;
  um_mfa_enabled : Z; um_admin_users : Z
}.

Definition count_users (p : UserRow → bool) (l : list UserRow) : Z := lsum (λ u, if p u then 1 else 0) l.

Definition metrics (d : UserDB) : UserMetrics :=
  let users := rows (ud_users d) in
  mkUserMetrics (count_users (λ _, true) users) (count_users ur_is_active users)
    (count_users (λ u, negb (ur_is_active u)) users) (count_users (is_locked (ux_now ux)) users)
    (count_users ur_mfa_enabled users)
    (count_users (λ u, existsb (λ c, bool_decide (c ∈ ADMIN_CODES)) (role_codes (ur_user_id u) d)) users).

Definition user_index : WM UserDB (list UserRow * UserMetrics) :=
  _ ← admin_route;
  d ← on_web_db id;
  mret (sorted_by (λ u, [- ur_create_dtime u]) (rows (ud_users d)), metrics d).

Definition view_user (user_id : Z) : WM UserDB UserRow :=
  _ ← admin_route;
  d ← on_web_db id;
  m_some (ud_users d !! user_id) WNotFound.
End user_admin.

Inductive user_step : Web UserDB → Web UserDB → Prop :=
| user_step_call ux c s : user_step s (user_call ux c s).1.
