(* ===== verification/UserAdminTheorems.v ===== *)
(** Who may change which user, what an edit stores, and what holds of the users after
    any sequence of calls.

    The theorems on the administration of users. *)
From stdpp Require Import strings.
From Stdlib Require Import Ascii String.
From stdpp Require Import strings pretty.
From S2P Require Import Prelude PyStr PySort ParamValidation Columns AccessControl AccessControlProofs Web UserAdmin.

Lemma elem_of_rows {A} (m : gmap Z A) a : a ∈ rows m ↔ ∃ k, m !! k = Some a.
Proof.
  unfold rows. rewrite list_elem_of_fmap. split.
  - intros ([k a'] & -> & Hk). exists k. by apply elem_of_map_to_list.
  - intros [k Hk]. exists (k, a). split; [done|]. by apply elem_of_map_to_list.
Qed.

(** * The user of the request *)

Section actor.
Context (ux : UserCtx).

(** [u] is logged in and one of the roles of these routes is in force for him. *)
Definition acts (s : Web UserDB) (u : UserRow) : Prop :=
  (uid ← ux_session ux; load_user (ux_now ux) uid (web_db s)) = Some u ∧
  ∃ code, code ∈ ADMIN_ROUTE_ROLES ∧
    holds (Some (session_user (web_db s) u)) (auth_db (web_db s)) (ux_query_ok ux) (web_cache s) code.

Lemma admin_route_keeps : keeps_stored (admin_route ux).
Proof. unfold admin_route, logged_in. auto 10 with web. Qed.

Lemma admin_route_ok s u s' : run_ok (admin_route ux) s u s' → acts s u ∧ web_db s' = web_db s.
Proof.
  intros Hrun. assert (web_db s' = web_db s) as Hdb.
  { pose proof (admin_route_keeps s) as Hk. unfold run_ok in Hrun. by rewrite Hrun in Hk. }
  split; [|done]. unfold admin_route, logged_in in Hrun.
  change (run_ok (u ← m_some (uid ← ux_session ux; load_user (ux_now ux) uid (web_db s)) (WGuard ToLogin);
    on_web_cache (role_required (Some (session_user (web_db s) u)) (auth_db (web_db s)) (ux_query_ok ux) ADMIN_ROUTE_ROLES);;
    mret u) s u s') in Hrun.
  rewrite run_some in Hrun. destruct Hrun as (u0 & Hu & Hrun). apply seq_ok in Hrun as (s1 & Hc & Hrun).
  assert (u0 = u) as -> by (unfold run_ok, mret, M_ret, m_ret in Hrun; congruence).
  split; [done|]. unfold run_ok, on_web_cache in Hc.
  pose proof (role_required_run (Some (session_user (web_db s) u)) (auth_db (web_db s)) (ux_query_ok ux)
    ADMIN_ROUTE_ROLES (web_cache s)) as Hrr.
  destruct (role_required _ _ _ _ _) as [c [e|x]]; [done|]. cbn [snd] in Hrr.
  destruct (existsb _ _) eqn:E in Hrr; [|done]. apply existsb_exists in E as (code & Hin & Hh). exists code.
  split; [by apply list_elem_of_In|]. apply elem_of_codes. by apply bool_decide_eq_true in Hh.
Qed.
End actor.

(** * Association rows *)

(** [{(uid, id) | id in ids}]. *)
Definition pairs (uid : Z) (ids : list Z) : gset (Z * Z) := list_to_set ((λ i, (uid, i)) <$> ids).

Lemma elem_of_pairs uid ids u i : (u, i) ∈ pairs uid ids ↔ u = uid ∧ i ∈ ids.
Proof. unfold pairs. rewrite elem_of_list_to_set, list_elem_of_fmap. naive_solver. Qed.

Lemma elem_of_others uid s u i : (u, i) ∈ others uid s ↔ u ≠ uid ∧ (u, i) ∈ s.
Proof. unfold others. by rewrite elem_of_filter. Qed.

Lemma pairs_nil uid s : pairs uid [] ∪ s = s.
Proof. unfold pairs. set_solver. Qed.

Lemma set_user_role_id d : set_user_role (ud_user_role d) d = d.
Proof. by destruct d. Qed.

Lemma set_user_warehouse_id d : set_user_warehouse (ud_user_warehouse d) d = d.
Proof. by destruct d. Qed.

Lemma pairs_cons uid i ids s : pairs uid ids ∪ ({[(uid, i)]} ∪ s) = pairs uid (i :: ids) ∪ s.
Proof. unfold pairs. simpl. set_solver. Qed.

Lemma add_roles_ok uid ids d d' :
  run_ok (m_for ids (add_user_role uid)) d tt d' →
  (∀ i, i ∈ ids → is_Some (ud_roles d !! i)) ∧ NoDup ids ∧ (∀ i, i ∈ ids → (uid, i) ∉ ud_user_role d) ∧
  d' = set_user_role (pairs uid ids ∪ ud_user_role d) d.
Proof.
  revert d. induction ids as [|i ids IH]; intros d.
  - rewrite for_nil. intros ->. split; [by intros ? ?%elem_of_nil|]. split; [constructor|].
    split; [by intros ? ?%elem_of_nil|]. by rewrite pairs_nil, set_user_role_id.
  - rewrite for_cons. intros (d1 & H1 & H2). unfold add_user_role in H1.
    rewrite body_get, run_fail_if, body_modify in H1. destruct H1 as [Hf ->]. z_bool.
    apply IH in H2 as (Hex & Hnd & Hnew & ->). simpl in *. split_and!.
    + intros j [->|Hj]%elem_of_cons; [|by apply Hex]. by destruct (ud_roles d !! i); [eexists|].
    + constructor; [|done]. intros Hi. apply (Hnew i Hi). set_solver.
    + intros j [->|Hj]%elem_of_cons; [done|]. specialize (Hnew j Hj). set_solver.
    + by rewrite pairs_cons.
Qed.

Lemma add_warehouses_ok uid ids d d' :
  run_ok (m_for ids (add_user_warehouse uid)) d tt d' →
  (∀ i, i ∈ ids → is_Some (ud_warehouses d !! i)) ∧
  d' = set_user_warehouse (pairs uid ids ∪ ud_user_warehouse d) d.
Proof.
  revert d. induction ids as [|i ids IH]; intros d.
  - rewrite for_nil. intros ->. split; [by intros ? ?%elem_of_nil|].
    by rewrite pairs_nil, set_user_warehouse_id.
  - rewrite for_cons. intros (d1 & H1 & H2). unfold add_user_warehouse in H1.
    rewrite body_get, run_fail_if, body_modify in H1. destruct H1 as [Hf ->]. z_bool.
    apply IH in H2 as (Hex & ->). simpl in *. split.
    + intros j [->|Hj]%elem_of_cons; [|by apply Hex]. by destruct (ud_warehouses d !! i); [eexists|].
    + by rewrite pairs_cons.
Qed.

(** A user with [codes] may assign the role. *)
Definition may_assign (codes : list string) (r : RoleRow) : Prop :=
  (∃ c, c ∈ ADMIN_CODES ∧ c ∈ codes) ∨ ("CUSTODIAN"%string ∈ codes ∧ rl_code r ∉ ADMIN_CODES).

Lemma elem_of_assignable codes d r : r ∈ assignable_roles codes d ↔ r ∈ rows (ud_roles d) ∧ may_assign codes r.
Proof.
  unfold assignable_roles, may_assign. destruct (intersects ADMIN_CODES codes) eqn:E.
  - apply intersects_spec in E. naive_solver.
  - assert (¬ ∃ c, c ∈ ADMIN_CODES ∧ c ∈ codes) as Hno.
    { intros Hex. apply intersects_spec in Hex. congruence. }
    case_bool_decide; [rewrite list_elem_of_filter|rewrite elem_of_nil]; naive_solver.
Qed.

(** The roles a request gives: each is known and the actor may assign it. *)
Definition grants (codes : list string) (ids : list Z) (d : UserDB) : Prop :=
  NoDup ids ∧ ∀ i, i ∈ ids → is_Some (ud_roles d !! i) ∧ ∃ r, r ∈ rows (ud_roles d) ∧ rl_id r = i ∧ may_assign codes r.

Lemma assign_roles_ok codes uid f d d' :
  run_ok (assign_roles codes uid f) d tt d' →
  ∃ ids, ints (uf_roles f) = Some ids ∧ grants codes ids d ∧ d' = set_user_role (pairs uid ids ∪ ud_user_role d) d.
Proof.
  unfold assign_roles. rewrite run_some. intros (ids & Hids & Hrun). rewrite body_get, run_fail_if in Hrun.
  destruct Hrun as [Hv Hrun]. apply add_roles_ok in Hrun as (Hex & Hnd & _ & ->).
  exists ids. split; [done|]. split; [|done]. split; [done|]. intros i Hi. split; [by apply Hex|].
  z_bool. unfold validate_role_assignment in Hv. rewrite forallb_elem in Hv. specialize (Hv i Hi). z_bool.
  apply list_elem_of_fmap in Hv as (r & -> & Hr). apply elem_of_assignable in Hr as [? ?]. eauto.
Qed.

Lemma assign_warehouses_ok uid f d d' :
  run_ok (assign_warehouses uid f) d tt d' →
  ∃ ids, ints (uf_warehouses f) = Some ids ∧ (∀ i, i ∈ ids → is_Some (ud_warehouses d !! i)) ∧
    d' = set_user_warehouse (pairs uid ids ∪ ud_user_warehouse d) d.
Proof.
  unfold assign_warehouses. rewrite run_some. intros (ids & Hids & Hrun).
  apply add_warehouses_ok in Hrun as (Hex & ->). eauto.
Qed.

(** * The effects of the calls *)

(** The tables after a user was written with his roles and warehouses. *)
Definition user_written (u : UserRow) (roles warehouses : gset (Z * Z)) (d : UserDB) : UserDB :=
  set_user_warehouse warehouses (set_user_role roles (put_user u d)).

Definition given_warehouses (ids : list Z) (d : UserDB) : Prop := ∀ i, i ∈ ids → is_Some (ud_warehouses d !! i).

Section effects.
Context (ux : UserCtx).

Lemma store_user_ok u d d' : run_ok (store_user u) d tt d' ↔ user_row_ok d u = true ∧ d' = put_user u d.
Proof. unfold store_user. rewrite body_get, run_fail_if, body_modify. by rewrite negb_false_iff. Qed.

Lemma create_body_ok codes f org d d' :
  run_ok (create_user_body ux codes f org) d tt d' →
  ud_users d !! ux_new_id ux = None ∧ user_row_ok d (new_user ux f org) = true ∧
  ∃ roles warehouses, ints (uf_roles f) = Some roles ∧ ints (uf_warehouses f) = Some warehouses ∧
    grants codes roles d ∧ given_warehouses warehouses d ∧
    d' = user_written (new_user ux f org) (pairs (ux_new_id ux) roles ∪ ud_user_role d)
           (pairs (ux_new_id ux) warehouses ∪ ud_user_warehouse d) d.
Proof.
  unfold create_user_body. rewrite body_get, run_fail_if, seq_ok. intros (Hnew & d1 & Hst & Hrun).
  apply store_user_ok in Hst as [Hok ->]. rewrite seq_ok in Hrun. destruct Hrun as (d2 & Hr & Hw).
  apply assign_roles_ok in Hr as (roles & Hroles & Hg & ->).
  apply assign_warehouses_ok in Hw as (ws & Hws & Hgw & ->). z_bool.
  split; [by destruct (ud_users d !! _); [destruct Hnew; eexists|]|]. split; [done|].
  exists roles, ws. split; [done|]. split; [done|]. split; [done|]. by split.
Qed.

Lemma edit_body_ok codes f org u d d' :
  run_ok (edit_user_body ux codes f org u) d tt d' →
  user_row_ok d (edited_user ux f org u) = true ∧
  ∃ roles warehouses, ints (uf_roles f) = Some roles ∧ ints (uf_warehouses f) = Some warehouses ∧
    grants codes roles d ∧ given_warehouses warehouses d ∧
    d' = user_written (edited_user ux f org u) (pairs (ur_user_id u) roles ∪ others (ur_user_id u) (ud_user_role d))
           (pairs (ur_user_id u) warehouses ∪ others (ur_user_id u) (ud_user_warehouse d)) d.
Proof.
  unfold edit_user_body. rewrite seq_ok. intros (d1 & Hst & Hrun). apply store_user_ok in Hst as [Hok ->].
  rewrite run_modify, seq_ok in Hrun. destruct Hrun as (d2 & Hr & Hrun).
  apply assign_roles_ok in Hr as (roles & Hroles & Hg & ->). rewrite run_modify in Hrun.
  apply assign_warehouses_ok in Hrun as (ws & Hws & Hgw & ->).
  split; [done|]. exists roles, ws. split; [done|]. split; [done|]. split; [done|]. by split.
Qed.

Inductive user_effect (actor : UserRow) (d : UserDB) : UserDB → Prop :=
| ue_create f org roles warehouses :
    ud_users d !! ux_new_id ux = None → user_row_ok d (new_user ux f org) = true →
    grants (role_codes (ur_user_id actor) d) roles d → given_warehouses warehouses d →
    user_effect actor d (user_written (new_user ux f org) (pairs (ux_new_id ux) roles ∪ ud_user_role d)
      (pairs (ux_new_id ux) warehouses ∪ ud_user_warehouse d) d)
| ue_edit k u f org roles warehouses :
    ud_users d !! k = Some u → user_row_ok d (edited_user ux f org u) = true →
    grants (role_codes (ur_user_id actor) d) roles d → given_warehouses warehouses d →
    user_effect actor d (user_written (edited_user ux f org u)
      (pairs (ur_user_id u) roles ∪ others (ur_user_id u) (ud_user_role d))
      (pairs (ur_user_id u) warehouses ∪ others (ur_user_id u) (ud_user_warehouse d)) d)
| ue_active k u b :
    ud_users d !! k = Some u → (b = false → k ≠ ur_user_id actor) →
    user_effect actor d (put_user (set_ur_is_active b u) d).

(** A successful edit, taken apart. *)
Lemma edit_user_ok k f s s' :
  run_ok (edit_user ux k f) s tt s' →
  ∃ actor u o org, acts ux s actor ∧ ud_users (web_db s) !! k = Some u ∧
    uf_organization f = Some o ∧ parse_organization (strip o) (web_db s) = inr org ∧
    cut20 (upper (strip (uf_user_name f))) ≠ ""%string ∧
    run_ok (edit_user_body ux (role_codes (ur_user_id actor) (web_db s)) f org u) (web_db s) tt (web_db s').
Proof.
  intros (actor & s1 & Ha & Hdb & Hrun)%(keeps_bind_ok _ _ _ _ _ (admin_route_keeps ux)).
  apply admin_route_ok in Ha as [Hacts _]. rewrite read_ok, run_some in Hrun. destruct Hrun as (u & Hu & Hrun).
  rewrite run_some in Hrun. destruct Hrun as (o & Ho & Hrun). rewrite run_fail_if, outcome_ok in Hrun.
  destruct Hrun as (Hn & org & Horg & Hrun). rewrite Hdb in *.
  apply try_transaction_ok in Hrun as (d & Hd & ->). rewrite Hdb in Hd. z_bool.
  exists actor, u, o, org. split_and!; done.
Qed.

Lemma user_call_atomic c : atomic (user_call ux c).
Proof.
  destruct c; simpl; apply atomic_bind; try apply admin_route_keeps; intros; auto 15 with web.
Qed.

(** Whatever is stored was stored for a user who [acts]. *)
Lemma user_call_effect c s :
  (∀ k u, ud_users (web_db s) !! k = Some u → ur_user_id u = k) →
  web_db (user_call ux c s).1 = web_db s ∨
  ∃ actor, acts ux s actor ∧ user_effect actor (web_db s) (web_db (user_call ux c s).1).
Proof.
  intros Hkey. pose proof (user_call_atomic c s) as Hat.
  destruct (user_call ux c s) as [s' [e|[]]] eqn:Hrun; simpl; [by left|]. clear Hat. right.
  change (run_ok (user_call ux c) s tt s') in Hrun. destruct c as [f|k f|k|k]; simpl in Hrun.
  2: { apply edit_user_ok in Hrun as (actor & u & o & org & Hacts & Hu & _ & _ & _ & Hb).
       apply edit_body_ok in Hb as (Hok & roles & ws & _ & _ & Hg & Hw & ->). exists actor. split; [done|]. by eapply ue_edit. }
  all: apply (keeps_bind_ok _ _ _ _ _ (admin_route_keeps ux)) in Hrun as (actor & s1 & Ha & Hdb & Hrun);
    apply admin_route_ok in Ha as [Hacts _]; exists actor; split; [done|].
  - rewrite run_fail_if, read_ok, run_fail_if, outcome_ok in Hrun. destruct Hrun as (_ & _ & org & _ & Hrun).
    apply try_transaction_ok in Hrun as (d & Hd & ->). simpl in Hd. rewrite Hdb in Hd.
    apply create_body_ok in Hd as (Hnew & Hok & roles & ws & _ & _ & Hg & Hw & ->). by apply ue_create.
  - rewrite run_fail_if, read_ok, run_some in Hrun. destruct Hrun as (Hne & u & Hu & Hrun).
    apply transaction_ok in Hrun as (d & Hd & ->). unfold run_ok, m_modify in Hd. injection Hd as <-.
    simpl in *. rewrite Hdb in *. z_bool. eapply ue_active; [done|]. done.
  - rewrite read_ok, run_some in Hrun. destruct Hrun as (u & Hu & Hrun).
    apply transaction_ok in Hrun as (d & Hd & ->). unfold run_ok, m_modify in Hd. injection Hd as <-.
    simpl in *. rewrite Hdb in *. by eapply ue_active.
Qed.
End effects.

Record user_inv (d : UserDB) : Prop := mkUserInv {
  uv_keys : ∀ k u, ud_users d !! k = Some u → ur_user_id u = k;
  uv_emails : ∀ k1 k2 u1 u2, ud_users d !! k1 = Some u1 → ud_users d !! k2 = Some u2 →
    ur_email u1 = ur_email u2 → k1 = k2;
  uv_agencies : ∀ k u a, ud_users d !! k = Some u → ur_agency_id u = Some a → is_Some (ud_agencies d !! a);
  uv_roles : ∀ u r, (u, r) ∈ ud_user_role d → is_Some (ud_users d !! u) ∧ is_Some (ud_roles d !! r);
  uv_warehouses : ∀ u w, (u, w) ∈ ud_user_warehouse d → is_Some (ud_users d !! u) ∧ is_Some (ud_warehouses d !! w);
  uv_role_keys : ∀ k r, ud_roles d !! k = Some r → rl_id r = k
}.

(** * The row written *)

Lemma user_row_ok_spec d u : user_row_ok d u = true →
  (∀ k v, ud_users d !! k = Some v → ur_email v = ur_email u → ur_user_id v = ur_user_id u) ∧
  (∀ a, ur_agency_id u = Some a → is_Some (ud_agencies d !! a)).
Proof.
  unfold user_row_ok. intros Hok. z_bool. split.
  - intros k v Hv He. assert (v ∈ rows (ud_users d)) as Hin by (apply elem_of_rows; eauto).
    match goal with H : forallb _ _ = true |- _ => rewrite forallb_elem in H; specialize (H v Hin); rename H into Hu end.
    apply orb_true_iff in Hu as [Hu|Hu]; z_bool; done.
  - intros a Ha. rewrite Ha in *. by z_bool.
Qed.

Lemma put_user_rows u d : user_inv d → user_row_ok d u = true →
  let d' := put_user u d in
  (∀ k v, ud_users d' !! k = Some v → ur_user_id v = k) ∧
  (∀ k1 k2 u1 u2, ud_users d' !! k1 = Some u1 → ud_users d' !! k2 = Some u2 → ur_email u1 = ur_email u2 → k1 = k2) ∧
  (∀ k v a, ud_users d' !! k = Some v → ur_agency_id v = Some a → is_Some (ud_agencies d' !! a)).
Proof.
  intros Hi Hok. apply user_row_ok_spec in Hok as [Hem Hag]. simpl. split_and!.
  - intros k v [[<- <-]|[_ Hv]]%lookup_insert_Some; [done|by apply (uv_keys _ Hi)].
  - intros k1 k2 u1 u2 H1 H2 He.
    apply lookup_insert_Some in H1 as [[<- <-]|[Hn1 H1]]; apply lookup_insert_Some in H2 as [[<- <-]|[Hn2 H2]]; [done|..].
    + rewrite <- (Hem _ _ H2 (eq_sym He)). by apply (uv_keys _ Hi).
    + symmetry. rewrite <- (Hem _ _ H1 He). by apply (uv_keys _ Hi).
    + by eapply (uv_emails _ Hi).
  - intros k v a [[<- <-]|[_ Hv]]%lookup_insert_Some Ha; [by apply Hag|by eapply (uv_agencies _ Hi)].
Qed.

Lemma is_Some_insert (m : gmap Z UserRow) k u j : is_Some (m !! j) → is_Some (<[k := u]> m !! j).
Proof. intros Hj. destruct (decide (k = j)) as [->|Hne]; [rewrite lookup_insert_eq; by eexists|by rewrite lookup_insert_ne]. Qed.

(** Rows of the association tables that are kept or belong to the user written. *)
Lemma inv_written u roles ws roles' ws' d :
  user_inv d → user_row_ok d u = true →
  (∀ i, i ∈ roles' → is_Some (ud_roles d !! i)) → (∀ i, i ∈ ws' → is_Some (ud_warehouses d !! i)) →
  roles ⊆ ud_user_role d → ws ⊆ ud_user_warehouse d →
  user_inv (user_written u (pairs (ur_user_id u) roles' ∪ roles) (pairs (ur_user_id u) ws' ∪ ws) d).
Proof.
  intros Hi Hok Hr Hw Hsr Hsw. destruct (put_user_rows u d Hi Hok) as (H1 & H2 & H3).
  split; [exact H1|exact H2|exact H3|..|apply (uv_role_keys _ Hi)].
  - intros v r [Hp|Hp]%elem_of_union; simpl.
    + apply elem_of_pairs in Hp as [-> Hp]. rewrite lookup_insert_eq. split; [by eexists|by apply Hr].
    + apply Hsr, (uv_roles _ Hi) in Hp as [Hu Hk]. split; [by apply is_Some_insert|done].
  - intros v w [Hp|Hp]%elem_of_union; simpl.
    + apply elem_of_pairs in Hp as [-> Hp]. rewrite lookup_insert_eq. split; [by eexists|by apply Hw].
    + apply Hsw, (uv_warehouses _ Hi) in Hp as [Hu Hk]. split; [by apply is_Some_insert|done].
Qed.

Lemma others_subset uid s : others uid s ⊆ s.
Proof. unfold others. set_solver. Qed.

Lemma effect_user_inv ux actor d d' : user_inv d → user_effect ux actor d d' → user_inv d'.
Proof.
  intros Hi [f org roles ws Hnew Hok [_ Hg] Hw|k u f org roles ws Hu Hok [_ Hg] Hw|k u b Hu _].
  - apply (inv_written (new_user ux f org)); try done. intros i Hin. by apply Hg.
  - apply (inv_written (edited_user ux f org u)); try done; try apply others_subset. intros i Hin. by apply Hg.
  - pose proof (uv_keys _ Hi _ _ Hu) as Hk.
    assert (∀ j v, ud_users (put_user (set_ur_is_active b u) d) !! j = Some v →
      ∃ v0, ud_users d !! j = Some v0 ∧ ur_user_id v = ur_user_id v0 ∧ ur_email v = ur_email v0 ∧ ur_agency_id v = ur_agency_id v0) as Hsame.
    { unfold put_user. simpl. intros j v [[<- <-]|[_ Hv]]%lookup_insert_Some; [|by exists v]. exists u. simpl. by rewrite Hk. }
    split.
    + intros j v (v0 & Hv0 & -> & _)%Hsame. by apply (uv_keys _ Hi).
    + intros j1 j2 v1 v2 (w1 & H1 & _ & -> & _)%Hsame (w2 & H2 & _ & -> & _)%Hsame. by eapply (uv_emails _ Hi).
    + intros j v a (v0 & Hv0 & _ & _ & ->)%Hsame. by eapply (uv_agencies _ Hi).
    + intros v r Hp. apply (uv_roles _ Hi) in Hp as [? ?]. split; [by apply is_Some_insert|done].
    + intros v r Hp. apply (uv_warehouses _ Hi) in Hp as [? ?]. split; [by apply is_Some_insert|done].
    + apply (uv_role_keys _ Hi).
Qed.

Lemma user_call_inv ux c s : user_inv (web_db s) → user_inv (web_db (user_call ux c s).1).
Proof.
  intros Hi. destruct (user_call_effect ux c s (uv_keys _ Hi)) as [->|(actor & _ & He)]; [done|].
  by eapply effect_user_inv.
Qed.

(** whatever calls are made, by whom and in whatever order: addresses stay unique, a
    user's agency, and every role and warehouse assigned, are rows that exist, and
    nothing is assigned to a user who does not exist. *)
Theorem user_tables_invariant s s' :
  reach user_step s s' → user_inv (web_db s) → user_inv (web_db s').
Proof.
  intros Hr. eapply (reach_inv _ (λ s, user_inv (web_db s))); [|exact Hr].
  intros a b [ux c s0]. apply user_call_inv.
Qed.

(** * Administrator roles *)

(** A role the code reserves to administrators. *)
Definition admin_role (d : UserDB) (r : Z) : Prop := ∃ row, ud_roles d !! r = Some row ∧ rl_code row ∈ ADMIN_CODES.

Definition administrator (d : UserDB) (u : UserRow) : Prop := ∃ c, c ∈ ADMIN_CODES ∧ c ∈ role_codes (ur_user_id u) d.

(** A call by somebody who is not an administrator: a custodian, or whoever else. *)
Inductive plain_step : Web UserDB → Web UserDB → Prop :=
| plain_step_call ux c s :
    (∀ actor, acts ux s actor → ¬ administrator (web_db s) actor) → plain_step s (user_call ux c s).1.

Lemma effect_roles ux actor d d' : user_effect ux actor d d' → ud_roles d' = ud_roles d.
Proof. by destruct 1. Qed.

(** A role that appears was granted by the actor. *)
Lemma effect_grant ux actor d d' u r :
  user_effect ux actor d d' → (u, r) ∈ ud_user_role d' → (u, r) ∉ ud_user_role d →
  ∃ row, row ∈ rows (ud_roles d) ∧ rl_id row = r ∧ may_assign (role_codes (ur_user_id actor) d) row.
Proof.
  intros [f org roles ws Hnew Hok [_ Hg] Hw|k v f org roles ws Hu Hok [_ Hg] Hw|k v b Hu _] Hin Hout; simpl in Hin; [..|done].
  - apply elem_of_union in Hin as [[-> Hin]%elem_of_pairs|Hin]; [|done]. by apply Hg.
  - apply elem_of_union in Hin as [[-> Hin]%elem_of_pairs|Hin]; [by apply Hg|].
    by apply elem_of_others in Hin as [_ ?].
Qed.

(** C30: calls by users who are not administrators, however many, give nobody a role
    reserved to administrators: every such role held at the end was held at the
    start. *)
Theorem no_promotion s s' u r :
  reach plain_step s s' → user_inv (web_db s) →
  admin_role (web_db s) r → (u, r) ∈ ud_user_role (web_db s') → (u, r) ∈ ud_user_role (web_db s).
Proof.
  induction 1 as [s|s s1 s2 Hstep Hr IH]; [done|]. intros Hi Hadm Hin. destruct Hstep as [ux c s Hplain].
  specialize (IH (user_call_inv ux c s Hi)).
  destruct (user_call_effect ux c s (uv_keys _ Hi)) as [Heq|(actor & Hacts & He)]; [rewrite Heq in IH; auto|].
  pose proof (effect_roles _ _ _ _ He) as Hroles.
  assert ((u, r) ∈ ud_user_role (web_db (user_call ux c s).1)) as Hin1.
  { apply IH; [|done]. unfold admin_role. by rewrite Hroles. }
  destruct (decide ((u, r) ∈ ud_user_role (web_db s))) as [|Hout]; [done|]. exfalso.
  destruct (effect_grant _ _ _ _ _ _ He Hin1 Hout) as (row & Hrow & Hid & Hmay).
  destruct Hmay as [Had|[_ Hno]]; [by apply (Hplain actor Hacts)|].
  destruct Hadm as (row' & Hrow' & Hcode). apply elem_of_rows in Hrow as [k Hk].
  pose proof (uv_role_keys _ Hi _ _ Hk) as Hkk. rewrite <- Hid, Hkk, Hk in Hrow'. by simplify_eq.
Qed.

(** * Editing *)

(** What the boxes ticked in a form name. *)
Definition ticked (boxes : list string) (i : Z) : Prop := ∃ t, t ∈ boxes ∧ py_int t = Some i.

Lemma ints_ticked l ids : ints l = Some ids → ∀ i, i ∈ ids ↔ ticked l i.
Proof.
  intros Hl%mapM_Some i. unfold ticked. induction Hl as [|t j l ids Ht Hl IH].
  - setoid_rewrite elem_of_nil. naive_solver.
  - setoid_rewrite elem_of_cons. rewrite IH. naive_solver.
Qed.

(** C31: a successful edit stores exactly the form: the row of the user edited gets its
    fields, and an empty password keeps the old hash; the user then has the roles and
    the warehouses ticked and no others; every other user keeps his row, roles and
    warehouses.  Nothing is asked of the user edited, who may be an administrator
    and keeps neither password nor roles if the form says otherwise. *)
Theorem edit_user_correct ux k f s s' :
  user_inv (web_db s) → run_ok (edit_user ux k f) s tt s' →
  let d := web_db s in let d' := web_db s' in
  ∃ actor u org, acts ux s actor ∧ ud_users d !! k = Some u ∧
    (∃ o, uf_organization f = Some o ∧ parse_organization (strip o) d = inr org) ∧
    ud_users d' = <[k := edited_user ux f org u]> (ud_users d) ∧
    (∀ v r, (v, r) ∈ ud_user_role d' ↔ (v = k ∧ ticked (uf_roles f) r) ∨ (v ≠ k ∧ (v, r) ∈ ud_user_role d)) ∧
    (∀ v w, (v, w) ∈ ud_user_warehouse d' ↔ (v = k ∧ ticked (uf_warehouses f) w) ∨ (v ≠ k ∧ (v, w) ∈ ud_user_warehouse d)) ∧
    (∀ r, ticked (uf_roles f) r → ∃ row, row ∈ rows (ud_roles d) ∧ rl_id row = r ∧ may_assign (role_codes (ur_user_id actor) d) row).
Proof.
  intros Hi Hrun. apply edit_user_ok in Hrun as (actor & u & o & org & Hacts & Hu & Ho & Hp & _ & Hb).
  apply edit_body_ok in Hb as (_ & roles & ws & Hroles & Hws & [_ Hg] & _ & ->).
  pose proof (uv_keys _ Hi _ _ Hu) as Hk. simpl. rewrite Hk.
  exists actor, u, org. split; [done|]. split; [done|]. split; [by exists o|]. split; [done|].
  setoid_rewrite elem_of_union. setoid_rewrite elem_of_pairs. setoid_rewrite elem_of_others.
  setoid_rewrite (ints_ticked _ _ Hroles). setoid_rewrite (ints_ticked _ _ Hws).
  split; [done|]. split; [done|]. intros r Hr. apply (ints_ticked _ _ Hroles) in Hr. by apply Hg.
Qed.

(** * The organization of the form *)

(** A prefix without a colon, a colon and a number are read back. *)
Lemma split_colon_app p l : Forall (λ c, code c ≠ 58) p → split_colon (p ++ ":"%char :: l) = Some (p, l).
Proof.
  induction 1 as [|c p Hc _ IH]; [done|]. simpl. apply Z.eqb_neq in Hc. by rewrite Hc, IH.
Qed.

Lemma isdigit_str z : 0 ≤ z → isdigit (py_str z) = true.
Proof.
  intros Hz. pose proof (py_str_digits z Hz) as Hd. unfold isdigit. apply andb_true_iff. split.
  - apply negb_true_iff, bool_decide_eq_false. unfold py_str. destruct z as [|p|p]; [done| |lia].
    change (pretty (Z.pos p)) with (pretty (N.pos p)). intros He. unfold pretty, pretty_N in He. rewrite decide_False in He by done.
    destruct (digits_of_pretty (N.pos p)) as (n & _ & _ & Hgo); [lia|].
    destruct (Hgo ""%string) as (_ & _ & (c & l & Hc & _) & _). by rewrite He in Hc.
  - apply forallb_elem. intros c Hc. unfold isdigit_char. rewrite Forall_forall in Hd. by rewrite (Hd c Hc).
Qed.

Definition small_id (z : Z) : Prop := 0 < z < 10 ^ MAX_STR_DIGITS.

Lemma parse_value (ty : string) z d :
  ty ∈ ["AGENCY"; "CUSTODIAN"]%string → small_id z →
  parse_organization (strip (ty +:+ ":" +:+ py_str z)%string) d =
  (if bool_decide (ty = "AGENCY"%string) then
     match ud_agencies d !! z with
     | Some a => if bool_decide (ag_status_code a = "A"%string) then inr (Some (ag_agency_name a), Some (ag_agency_id a))
                 else inl (WRefused "Invalid agency selected")
     | None => inl (WRefused "Invalid agency selected")
     end
   else match ud_custodians d !! z with
        | Some c => inr (Some (cu_custodian_name c), None)
        | None => inl (WRefused "Invalid custodian selected")
        end).
Proof.
  intros Hty [Hz0 Hz]. pose proof (py_str_digits z) as Hd.
  assert (Forall (λ c, is_space c = false ∧ code c ≠ 58) (chars ty)) as Hpre.
  { revert ty Hty. apply Forall_forall. by_decide. }
  assert (chars (ty +:+ ":" +:+ py_str z)%string = chars ty ++ ":"%char :: chars (py_str z)) as Hch.
  { clear. induction ty as [|c ty IH]; [done|]. simpl. f_equal. exact IH. }
  rewrite strip_none.
  2: { rewrite Hch. apply Forall_app. split; [by eapply Forall_impl; [exact Hpre|]; intros ? []|]. constructor; [done|].
       eapply Forall_impl; [apply Hd; lia|]. apply digit_not_space. }
  unfold parse_organization. rewrite bool_decide_eq_false_2 by (by destruct ty).
  rewrite Hch, split_colon_app by (by eapply Forall_impl; [exact Hpre|]; intros ? []).
  rewrite !of_chars_chars. rewrite bool_decide_eq_true_2 by done. rewrite isdigit_str by lia. cbn [negb].
  rewrite py_int_str by lia. done.
Qed.

(** The tables are keyed by their ids, and the names of custodians are unique. *)
Record org_tables (d : UserDB) : Prop := mkOrgTables {
  ot_agencies : ∀ k a, ud_agencies d !! k = Some a → ag_agency_id a = k;
  ot_custodians : ∀ k c, ud_custodians d !! k = Some c → cu_custodian_id c = k;
  ot_names : ∀ k1 k2 c1 c2, ud_custodians d !! k1 = Some c1 → ud_custodians d !! k2 = Some c2 →
    cu_custodian_name c1 = cu_custodian_name c2 → k1 = k2
}.

(** The organization of a user as a form stores it. *)
Definition org_on_file (u : UserRow) (d : UserDB) : Prop :=
  match ur_agency_id u, ur_organization u with
  | Some a, org => small_id a ∧ ∃ row, ud_agencies d !! a = Some row ∧ org = Some (ag_agency_name row)
  | None, Some o => o ≠ ""%string ∧ ∃ k c, small_id k ∧ ud_custodians d !! k = Some c ∧ cu_custodian_name c = o
  | None, None => True
  end.

(** a form that is saved as it was opened leaves the organization alone: the value
    the page starts with is read back as the user's organization and agency; unless
    his agency was made inactive since, when no edit of the user is accepted before
    another organization is chosen. *)
Theorem organization_round_trip u d :
  org_tables d → org_on_file u d →
  parse_organization (strip (current_org_value u d)) d =
  match ur_agency_id u ≫= (λ a, ud_agencies d !! a) with
  | Some row => if bool_decide (ag_status_code row = "A"%string) then inr (ur_organization u, ur_agency_id u)
                else inl (WRefused "Invalid agency selected")
  | None => inr (ur_organization u, ur_agency_id u)
  end.
Proof.
  intros Ht. unfold org_on_file, current_org_value.
  destruct (ur_agency_id u) as [a|].
  - intros (Ha & row & Hrow & ->). simpl. pose proof Ha as [Hpos _].
    rewrite (proj2 (Z.eqb_neq a 0)) by lia. pose proof (parse_value "AGENCY" a d ltac:(by left) Ha) as Hp.
    rewrite bool_decide_eq_true_2, Hrow in Hp by done. etransitivity; [exact Hp|]. by rewrite Hrow, (ot_agencies _ Ht _ _ Hrow).
  - destruct (ur_organization u) as [o|]; [|done]. intros (Hne & k & c & Hk & Hc & Hname). simpl.
    rewrite bool_decide_eq_false_2 by done.
    assert (head (filter (λ c, cu_custodian_name c = o) (rows (ud_custodians d))) = Some c) as ->.
    { assert (∀ c', c' ∈ filter (λ c, cu_custodian_name c = o) (rows (ud_custodians d)) → c' = c) as Hall.
      { intros c' [Hn (k' & Hk')%elem_of_rows]%list_elem_of_filter.
        assert (k' = k) as -> by (eapply (ot_names _ Ht); [exact Hk'|exact Hc|congruence]). congruence. }
      assert (c ∈ filter (λ c, cu_custodian_name c = o) (rows (ud_custodians d))) as Hin.
      { apply list_elem_of_filter. split; [done|]. apply elem_of_rows. eauto. }
      destruct (filter _ _) as [|c' l]; [by apply elem_of_nil in Hin|]. simpl. f_equal. apply Hall. by left. }
    rewrite (ot_custodians _ Ht _ _ Hc). pose proof (parse_value "CUSTODIAN" k d ltac:(right; by left) Hk) as Hp.
    rewrite bool_decide_eq_false_2, Hc, Hname in Hp by done. exact Hp.
Qed.

(** * An example *)

(** User 1 is an administrator and belongs to custodian 5; user 2 is a custodian. *)
Definition ex_user (uid : Z) (email name : string) (org : option string) : UserRow :=
  mkUserRow uid email name "hash" (Some "A"%string) (Some "B"%string) (Some "A B"%string) org None None None true "A" None false 0.

Definition ex_users : UserDB := mkUserDB
  {[1 := ex_user 1 "admin@odpem.gov.jm" "ADMIN" (Some "ODPEM"%string);
    2 := ex_user 2 "custodian@odpem.gov.jm" "CUSTODIAN" None]}
  {[(1, 1); (2, 2)]} ∅
  {[1 := mkRoleRow 1 "SYSTEM_ADMINISTRATOR" "Administrator"; 2 := mkRoleRow 2 "CUSTODIAN" "Custodian";
    3 := mkRoleRow 3 "LOGISTICS_OFFICER" "Officer"]}
  {[4 := "A"%string]} {[7 := mkAgencyRow 7 "PORTMORE SHELTER" "A"]} {[5 := mkCustodianRow 5 "ODPEM"]}.

Definition ex_web : Web UserDB := mkWeb None ex_users.

(** User 2 at work. *)
Definition ex_custodian : UserCtx := mkUserCtx (Some 2) true 100 3 (λ p, ("hash of " +:+ p)%string).

Definition ex_user_form (email org password : string) (roles : list string) : UserForm :=
  mkUserForm email "new.user" password "N" "U" (Some org) "" "" true roles ["4"%string].

Definition ex_user_calls : list UserCall :=
  [CreateUser (ex_user_form "officer@odpem.gov.jm" "AGENCY:7" "secret" ["3"%string]);
   CreateUser (ex_user_form "other@odpem.gov.jm" "" "secret" ["1"%string]);
   EditUser 3 (ex_user_form "" "" "" ["1"%string]);
   DeactivateUser 2; DeactivateUser 1].

Definition after_user_calls (l : list UserCall) (s : Web UserDB) : Web UserDB :=
  foldl (λ s c, (user_call ex_custodian c s).1) s l.

Lemma by_rows {A} (P : Z → A → Prop) (HP : ∀ k a, Decision (P k a)) (m : gmap Z A) :
  bool_decide (map_Forall P m) = true → ∀ k a, m !! k = Some a → P k a.
Proof. intros Hm%bool_decide_eq_true k a Hk. by apply Hm. Qed.

Lemma by_members (P : Z * Z → Prop) (HP : ∀ p, Decision (P p)) (X : gset (Z * Z)) :
  bool_decide (set_Forall P X) = true → ∀ u i, (u, i) ∈ X → P (u, i).
Proof. intros HX%bool_decide_eq_true u i Hp. by apply HX. Qed.

Lemma ex_users_inv : user_inv ex_users.
Proof.
  split.
  - unshelve eapply (by_rows (λ k u, ur_user_id u = k)); [..|done]; intros; apply _.
  - intros k1 k2 u1 u2 H1 H2. revert k2 u2 H2. apply (map_Forall_lookup (λ k2 u2, ur_email u1 = ur_email u2 → k1 = k2)). revert k1 u1 H1.
    unshelve eapply (by_rows (λ k1 u1, map_Forall (λ k2 u2, ur_email u1 = ur_email u2 → k1 = k2) (ud_users ex_users)));
      [..|done]; intros; apply _.
  - intros k u a Hk Ha. revert k u Hk Ha.
    assert (∀ k u, ud_users ex_users !! k = Some u → ur_agency_id u = None) as Hn.
    { unshelve eapply (by_rows (λ k u, ur_agency_id u = None)); [..|done]; intros; apply _. }
    intros k u Hk Ha. by rewrite (Hn k u Hk) in Ha.
  - unshelve eapply (by_members (λ p, is_Some (ud_users ex_users !! p.1) ∧ is_Some (ud_roles ex_users !! p.2))); [..|done]; intros; apply _.
  - unshelve eapply (by_members (λ p, is_Some (ud_users ex_users !! p.1) ∧ is_Some (ud_warehouses ex_users !! p.2))); [..|done]; intros; apply _.
  - unshelve eapply (by_rows (λ k r, rl_id r = k)); [..|done]; intros; apply _.
Qed.

Lemma after_user_calls_reach l s : reach user_step s (after_user_calls l s).
Proof. revert s. induction l as [|c l IH]; intros s; [constructor|]. eapply reach_step; [constructor|apply IH]. Qed.

Lemma user_tables_invariant_witness :
  let s := after_user_calls ex_user_calls ex_web in
  user_inv (web_db s) ∧ elements (ud_user_role (web_db s)) = [(3, 3); (1, 1); (2, 2)] ∧
  ur_is_active <$> ud_users (web_db s) !! 1 = Some false ∧ ur_is_active <$> ud_users (web_db s) !! 2 = Some true.
Proof.
  split; [|vm_compute; by split_and!].
  apply (user_tables_invariant ex_web); [|exact ex_users_inv].
  apply after_user_calls_reach.
Defined.

(** User 2 is not an administrator at any of the calls. *)
Fixpoint plain_calls (l : list UserCall) (s : Web UserDB) : bool :=
  match l with
  | [] => true
  | c :: l' =>
      match load_user 100 2 (web_db s) with
      | Some u => negb (intersects ADMIN_CODES (role_codes (ur_user_id u) (web_db s)))
      | None => true
      end && plain_calls l' (user_call ex_custodian c s).1
  end.

Lemma plain_calls_reach l s : plain_calls l s = true → reach plain_step s (after_user_calls l s).
Proof.
  revert s. induction l as [|c l IH]; intros s Hp; [constructor|]. cbn [plain_calls] in Hp. apply andb_true_iff in Hp as [Hno Hp].
  eapply reach_step; [|apply IH, Hp]. constructor. intros actor [Hl _] Hadm. simpl in Hl. rewrite Hl in Hno.
  apply intersects_spec in Hadm. by rewrite Hadm in Hno.
Qed.

Lemma no_promotion_witness :
  let s := after_user_calls ex_user_calls ex_web in
  admin_role (web_db ex_web) 1 ∧ (1, 1) ∈ ud_user_role (web_db s) ∧
  ((1, 1) ∈ ud_user_role (web_db s) → (1, 1) ∈ ud_user_role (web_db ex_web)).
Proof.
  split; [by eexists; split; [vm_compute; reflexivity|left]|]. split; [by apply (bool_decide_eq_true_1 _)|].
  apply (no_promotion ex_web).
  - apply plain_calls_reach. vm_compute. reflexivity.
  - exact ex_users_inv.
  - by eexists; split; [vm_compute; reflexivity|left].
Defined.

(** The custodian sets the administrator's password. *)
Definition ex_takeover : UserForm := ex_user_form "" "" "mine" [].

Lemma edit_user_correct_witness :
  let s' := (edit_user ex_custodian 1 ex_takeover ex_web).1 in
  run_ok (edit_user ex_custodian 1 ex_takeover) ex_web tt s' ∧
  ur_password_hash <$> ud_users (web_db s') !! 1 = Some "hash of mine"%string ∧
  ∀ r, (1, r) ∉ ud_user_role (web_db s').
Proof.
  assert (run_ok (edit_user ex_custodian 1 ex_takeover) ex_web tt (edit_user ex_custodian 1 ex_takeover ex_web).1) as Hrun.
  { apply run_ok_fst. vm_compute. reflexivity. }
  split; [exact Hrun|]. split; [vm_compute; reflexivity|]. intros r.
  destruct (edit_user_correct ex_custodian 1 ex_takeover ex_web _ ex_users_inv Hrun) as (_ & _ & _ & _ & _ & _ & _ & Hr & _).
  rewrite Hr. intros [[_ (t & Ht & _)]|[Hne _]]; [by apply elem_of_nil in Ht|done].
Defined.

Lemma organization_round_trip_witness :
  ∃ u, ud_users ex_users !! 1 = Some u ∧ current_org_value u ex_users = "CUSTODIAN:5"%string ∧
    parse_organization "CUSTODIAN:5" ex_users = inr (Some "ODPEM"%string, None).
Proof.
  eexists. split; [vm_compute; reflexivity|]. split; [vm_compute; reflexivity|].
  refine (organization_round_trip (ex_user 1 "admin@odpem.gov.jm" "ADMIN" (Some "ODPEM"%string)) ex_users _ _).
  - split.
    + unshelve eapply (by_rows (λ k a, ag_agency_id a = k)); [..|done]; intros; apply _.
    + unshelve eapply (by_rows (λ k a, cu_custodian_id a = k)); [..|done]; intros; apply _.
    + intros k1 k2 c1 c2 H1 H2. revert k2 c2 H2. apply (map_Forall_lookup (λ k2 c2, cu_custodian_name c1 = cu_custodian_name c2 → k1 = k2)). revert k1 c1 H1.
      unshelve eapply (by_rows (λ k1 c1, map_Forall (λ k2 c2, cu_custodian_name c1 = cu_custodian_name c2 → k1 = k2) (ud_custodians ex_users)));
        [..|done]; intros; apply _.
  - split; [done|]. exists 5, (mkCustodianRow 5 "ODPEM"). split_and!; [split; [done|vm_compute; reflexivity]|vm_compute; reflexivity|done].
Defined.
