(* ===== verification/PackagingQueues.v ===== *)
(** The queues of packaging (app/features/packaging.py): what the manager, the officers
    and the inventory clerk see of the requests and packages in hand, the summary of a
    package, the handover of a package to its agency, and the allocation endpoints.

    The notifications of a handover are left out because none is ever written: their
    query compares a relationship with [like], which raises, and the handler only logs
    it.  Quantities and ids of the JSON endpoints are taken as parsed. *)
From stdpp Require Import strings.
From S2P Require Import Prelude PyStr PySort Schema Ledger Reservation BatchAllocation Dispatch Packaging AccessControl ReliefRequest RequestRoutes RequestPages.

Definition PKG_STATUS_PENDING : string := "P".
Definition PKG_STATUS_DISPATCHED : string := "D".

(** Seconds. *)
Definition DAY : Z := 86400.

(** [order_by(column.desc())]: NULL comes first. *)
Definition desc_key (t : option Z) : list Z := match t with None => [0] | Some t => [1; - t] end.

(** A package with its items counted and summed. *)
Record PackageLine : Type := mkPackageLine {
  pl_package : ReliefPkg;
  pl_item_count : Z;
  pl_total_qty : Z
}.

Section queues.
Context `{R : Runtime} (rx : RequestCtx).

Definition packages_of (rq : Z) (d : DB) : list ReliefPkg :=
  filter (λ p, pkg_reliefrqst_id p = rq) (pkg_rows (db_pkg d)).

Definition total_qty (l : list ReliefPkgItem) : Z := lsum pi_item_qty l.

(** [abort(403)] without the role. *)
Definition need_role (roles : list string) : AM unit :=
  ok ← check rx roles;
  m_fail_if (negb ok) (RGuard Forbidden).

(** [is_a() or is_b()]. *)
Definition need_either (a b : string) : AM unit :=
  ok ← check rx [a];
  ok' ← (if ok : bool then mret true else check rx [b]);
  m_fail_if (negb ok') (RGuard Forbidden).

Definition tables : AM DB := s ← m_get; mret (work (app_db s)).

(** [order_by(ReliefRqst.create_dtime.desc())]. *)
Definition latest_first : list ReliefRqst → list ReliefRqst := sorted_by (λ r, [- rq_create_dtime r]).

(** * The manager's queue *)

(** Submitted for approval: signed by whoever submitted it, and not on its way. *)
Definition awaits_manager (p : ReliefPkg) : bool :=
  bool_decide (pkg_status_code p = PKG_STATUS_PENDING) && negb (is_none (pkg_verify_by_id p)) &&
  is_none (pkg_dispatch_dtime p).

Definition pending_for_manager (d : DB) : list ReliefRqst :=
  filter (λ r, existsb awaits_manager (packages_of (rq_reliefrqst_id r) d) = true)
    (latest_first (filter (λ r, rq_status_code r ∈ [STATUS_SUBMITTED; STATUS_PART_FILLED]) (rqst_rows (db_rqst d)))).

Definition pending_approval : AM (list ReliefRqst * Z) :=
  login_required rx;;
  need_role ["LOGISTICS_MANAGER"%string];;
  d ← tables;
  mret (pending_for_manager d, count (pending_for_manager d)).

(** * The officers' queue *)

Definition has_pending_approval (d : DB) (r : ReliefRqst) : bool :=
  (rq_status_code r =? STATUS_PART_FILLED) &&
  existsb (λ p, bool_decide (pkg_status_code p = PKG_STATUS_PENDING) && is_none (pkg_dispatch_dtime p) &&
                bool_decide (pkg_verify_by_id p = Some PENDING_LM)) (packages_of (rq_reliefrqst_id r) d).

Definition has_dispatched_package (d : DB) (r : ReliefRqst) : bool :=
  existsb (λ p, bool_decide (pkg_status_code p = PKG_STATUS_DISPATCHED)) (packages_of (rq_reliefrqst_id r) d).

Definition in_preparation (status : Z) (d : DB) : list ReliefRqst :=
  filter (λ r, has_pending_approval d r || has_dispatched_package d r = false)
    (latest_first (filter (λ r, rq_status_code r = status) (rqst_rows (db_rqst d)))).

Definition awaiting_requests : DB → list ReliefRqst := in_preparation STATUS_SUBMITTED.
Definition in_progress_requests : DB → list ReliefRqst := in_preparation STATUS_PART_FILLED.

Definition pending_approval_requests (d : DB) : list ReliefRqst :=
  filter (λ r, has_pending_approval d r = true)
    (latest_first (filter (λ r, rq_status_code r ∈ [STATUS_SUBMITTED; STATUS_PART_FILLED]) (rqst_rows (db_rqst d)))).

(** Approved packages that were not handed over, the latest dispatch first. *)
Definition approved_packages (d : DB) : list ReliefPkg :=
  sorted_by (λ p, desc_key (pkg_dispatch_dtime p))
    (filter (λ p, pkg_status_code p = PKG_STATUS_DISPATCHED ∧ pkg_received_dtime p = None) (pkg_rows (db_pkg d))).

Definition content_qty (d : DB) (p : ReliefPkg) : Z := total_qty (pkg_items_of (pkg_reliefpkg_id p) d).

Definition approved_with_items (d : DB) : list ReliefPkg :=
  filter (λ p, content_qty d p ≠ 0) (approved_packages d).
Definition approved_no_items (d : DB) : list ReliefPkg :=
  filter (λ p, content_qty d p ≤ 0) (approved_packages d).

Record FulfillmentPage : Type := mkFulfillmentPage {
  fu_requests : list ReliefRqst;
  fu_packages : list PackageLine;
  fu_counts : list (string * Z);
  fu_current_filter : string
}.

Definition fulfillment_counts (d : DB) : list (string * Z) := [
  ("submitted", count (awaiting_requests d));
  ("in_progress", count (in_progress_requests d));
  ("pending_approval", count (pending_approval_requests d));
  ("approved", Z.of_nat (length (approved_with_items d)));
  ("approved_no_allocation", Z.of_nat (length (approved_no_items d)))]%string.

Definition package_line (d : DB) (p : ReliefPkg) : PackageLine :=
  mkPackageLine p (Z.of_nat (length (pkg_items_of (pkg_reliefpkg_id p) d))) (content_qty d p).

Definition fulfillment_page (filter_type : string) (d : DB) : FulfillmentPage :=
  let counts := fulfillment_counts d in
  if bool_decide (filter_type = "approved_for_dispatch"%string)
  then mkFulfillmentPage [] (package_line d <$> approved_with_items d) counts filter_type
  else if bool_decide (filter_type = "approved_no_allocation"%string)
  then mkFulfillmentPage [] ((λ p, mkPackageLine p 0 0) <$> approved_no_items d) counts filter_type
  else mkFulfillmentPage
    (if bool_decide (filter_type = "awaiting"%string) then awaiting_requests d
     else if bool_decide (filter_type = "in_progress"%string) then in_progress_requests d
     else if bool_decide (filter_type = "pending_approval"%string) then pending_approval_requests d
     else awaiting_requests d ++ in_progress_requests d ++ pending_approval_requests d) [] counts filter_type.

Definition pending_fulfillment (filter_arg : option string) : AM FulfillmentPage :=
  login_required rx;;
  need_either "LOGISTICS_OFFICER" "LOGISTICS_MANAGER";;
  d ← tables;
  mret (fulfillment_page (default "awaiting"%string filter_arg) d).

(** * The inventory clerk *)

Definition user_warehouses : list Z := get_warehouse_ids (rx_user rx).

(** What of a package comes from the clerk's warehouses. *)
Definition warehouse_items (d : DB) (p : ReliefPkg) : list ReliefPkgItem :=
  filter (λ v, pi_fr_inventory_id v ∈ user_warehouses) (pkg_items_of (pkg_reliefpkg_id p) d).

Definition clerk_packages (d : DB) : list ReliefPkg :=
  filter (λ p, pkg_status_code p = PKG_STATUS_DISPATCHED ∧ is_Some (db_rqst d !! pkg_reliefrqst_id p) ∧
               warehouse_items d p ≠ []) (pkg_rows (db_pkg d)).

Record ClerkPage : Type := mkClerkPage {
  cp_packages : list PackageLine;
  cp_counts : list (string * Z);
  cp_current_filter : string
}.

Definition clerk_tab (current_filter : string) (l : list ReliefPkg) : list ReliefPkg :=
  if bool_decide (current_filter = "awaiting"%string)
  then sorted_by (λ p, desc_key (pkg_dispatch_dtime p)) (filter (λ p, pkg_received_dtime p = None) l)
  else if bool_decide (current_filter = "completed"%string)
  then sorted_by (λ p, desc_key (pkg_received_dtime p)) (filter (λ p, pkg_received_dtime p ≠ None) l)
  else sorted_by (λ p, desc_key (pkg_dispatch_dtime p)) l.

Definition clerk_counts (l : list ReliefPkg) : list (string * Z) :=
  let awaiting := Z.of_nat (length (filter (λ p, pkg_received_dtime p = None) l)) in
  let completed := Z.of_nat (length (filter (λ p, pkg_received_dtime p ≠ None) l)) in
  [("awaiting", awaiting); ("completed", completed); ("all", awaiting + completed)]%string.

Definition awaiting_dispatch (filter_arg : option string) : AM ClerkPage :=
  login_required rx;;
  need_role ["INVENTORY_CLERK"%string];;
  if bool_decide (user_warehouses = []) then mret (mkClerkPage [] [] "awaiting") else
  d ← tables;
  let current_filter := default "awaiting"%string filter_arg in
  let base := clerk_packages d in
  mret (mkClerkPage
    ((λ p, mkPackageLine p (Z.of_nat (length (warehouse_items d p))) (total_qty (warehouse_items d p)))
       <$> clerk_tab current_filter base)
    (clerk_counts base) current_filter).

(** The guards [dispatch_details] and [mark_handover] share, in their order; [again]
    is what the second asks in between. *)
Definition clerk_package (reliefpkg_id : Z) (again : ReliefPkg → AM unit) : AM ReliefPkg :=
  login_required rx;;
  need_role ["INVENTORY_CLERK"%string];;
  m_fail_if (bool_decide (user_warehouses = [])) (RRefused "no warehouses assigned");;
  d ← tables;
  p ← m_some (db_pkg d !! reliefpkg_id) RNotFound;
  m_fail_if (negb (bool_decide (pkg_status_code p = PKG_STATUS_DISPATCHED))) (RRefused "not dispatched");;
  again p;;
  m_fail_if (bool_decide (warehouse_items d p = [])) (RRefused "no items from your warehouses");;
  mret p.

(** [items_by_warehouse]: the warehouses in the order they first come up. *)
Definition by_warehouse (l : list ReliefPkgItem) : list (Z * list ReliefPkgItem) :=
  foldl (λ acc v, dict_set (pi_fr_inventory_id v) (default [] (dict_get (pi_fr_inventory_id v) acc) ++ [v]) acc) [] l.

Definition dispatch_details (reliefpkg_id : Z) : AM (ReliefPkg * list (Z * list ReliefPkgItem)) :=
  p ← clerk_package reliefpkg_id (λ _, mret tt);
  d ← tables;
  mret (p, by_warehouse (warehouse_items d p)).

(** The package as the clerk leaves it; its status stays. *)
Definition handed_over (user : option string) (now : Z) (p : ReliefPkg) : ReliefPkg :=
  set_pkg_received_by_id user (set_pkg_received_dtime (Some now)
    (set_pkg_audit (stamp (default ""%string user) now (pkg_audit p)) p)).

(** [update_by_id] is NOT NULL, and a user name that is not valid counts as none. *)
Definition mark_handover (reliefpkg_id : Z) : AM unit := route (
  p ← clerk_package reliefpkg_id (λ p, m_fail_if (negb (is_none (pkg_received_dtime p))) (RRefused "already handed over"));
  attempt (
    m_fail_if (is_none (get_user_name (rx_user rx))) DBError;;
    db_mod (put_pkg (handed_over (get_user_name (rx_user rx)) (rx_now rx) p));;
    db_commit)).

(** * Received packages *)

Definition received_packages (d : DB) : list ReliefPkg :=
  filter (λ p, pkg_status_code p = PKG_STATUS_DISPATCHED ∧ pkg_received_dtime p ≠ None ∧
               is_Some (db_rqst d !! pkg_reliefrqst_id p)) (pkg_rows (db_pkg d)).

Definition recent (p : ReliefPkg) : bool :=
  match pkg_received_dtime p with Some t => rx_now rx - 30 * DAY <=? t | None => false end.

Record ReceivedPage : Type := mkReceivedPage {
  rv_packages : list PackageLine;
  rv_recent : Z;
  rv_all : Z;
  rv_current_filter : string
}.

Definition dispatch_received (filter_arg : option string) : AM ReceivedPage :=
  login_required rx;;
  need_either "LOGISTICS_OFFICER" "LOGISTICS_MANAGER";;
  d ← tables;
  let current_filter := default "recent"%string filter_arg in
  let base := received_packages d in
  let recents := filter (λ p, recent p = true) base in
  mret (mkReceivedPage
    (package_line d <$> sorted_by (λ p, desc_key (pkg_received_dtime p))
       (if bool_decide (current_filter = "recent"%string) then recents else base))
    (Z.of_nat (length recents)) (Z.of_nat (length base)) current_filter).

Definition dispatch_received_details (reliefpkg_id : Z) : AM (ReliefPkg * list (Z * list ReliefPkgItem)) :=
  login_required rx;;
  need_either "LOGISTICS_OFFICER" "LOGISTICS_MANAGER";;
  d ← tables;
  p ← m_some (db_pkg d !! reliefpkg_id) RNotFound;
  m_fail_if (is_none (pkg_received_dtime p)) (RRefused "not handed over yet");;
  mret (p, by_warehouse (filter (λ v, pi_fr_inventory_id v ≠ 0) (pkg_items_of reliefpkg_id d))).

(** * The summary of a package *)

Record SummaryBatch : Type := mkSummaryBatch {
  sb_warehouse_name : string;
  sb_batch_no : option string;
  sb_qty : Z
}.

Record SummaryItem : Type := mkSummaryItem {
  si_item : ReliefRqstItem;
  si_issued_qty : Z;
  si_batches : list SummaryBatch
}.

Definition summary_batch (d : DB) (v : ReliefPkgItem) : SummaryBatch :=
  mkSummaryBatch
    (if pi_fr_inventory_id v =? 0 then "Unknown"
     else match db_warehouse d !! pi_fr_inventory_id v with Some w => wh_warehouse_name w | None => "Unknown" end)
    (if pi_batch_id v =? 0 then Some "N/A"%string
     else match db_itembatch d !! pi_batch_id v with Some b => ib_batch_no b | None => Some "N/A"%string end) (pi_item_qty v).

Definition summary_item (d : DB) (p : ReliefPkg) (i : ReliefRqstItem) : SummaryItem :=
  let batches := summary_batch d <$> filter (λ v, pi_item_id v = ri_item_id i) (pkg_items_of (pkg_reliefpkg_id p) d) in
  mkSummaryItem i (lsum sb_qty batches) batches.

Record PackageSummary : Type := mkPackageSummary {
  ps_items : list SummaryItem;
  ps_total_items : Z;
  ps_total_batches : Z;
  ps_warehouses_used : Z
}.

Definition summary (d : DB) (p : ReliefPkg) : PackageSummary :=
  let items := summary_item d p <$> items_of (pkg_reliefrqst_id p) d in
  mkPackageSummary items (Z.of_nat (length items)) (lsum (λ i, Z.of_nat (length (si_batches i))) items)
    (Z.of_nat (length (remove_dups (sb_warehouse_name <$> (items ≫= si_batches))))).

Definition transaction_summary (reliefpkg_id : Z) : AM PackageSummary :=
  login_required rx;;
  need_either "LOGISTICS_MANAGER" "LOGISTICS_OFFICER";;
  d ← tables;
  p ← m_some (db_pkg d !! reliefpkg_id) RNotFound;
  mret (summary d p).

(** * The allocation endpoints *)

(** Usable, reserved and defective stock of the active row, zero without one. *)
Definition get_inventory (item_id warehouse_id : Z) : AM (Z * Z * Z) :=
  login_required rx;;
  d ← tables;
  mret (match find_active_inventory warehouse_id item_id d with
        | Some i => (usable_qty (inv_stock i), reserved_qty (inv_stock i), defective_qty (inv_stock i))
        | None => (0, 0, 0)
        end).

Record AutoAllocation : Type := mkAutoAllocation {
  al_total_allocated : Z;
  al_shortage : Z;
  al_allocations : list AutoAlloc
}.

Definition auto_allocate_item (item_id requested_qty : Z) (warehouse_id : option Z) : AM AutoAllocation :=
  login_required rx;;
  m_fail_if (requested_qty <=? 0) (RRefused "Requested quantity must be greater than zero");;
  d ← tables;
  let allocations := auto_allocate_batches item_id requested_qty warehouse_id (rx_today rx) d in
  let total := lsum aa_qty allocations in
  mret (mkAutoAllocation total (if total <? requested_qty then requested_qty - total else 0) allocations).

(** A batch of the drawer with what the package may take of it. *)
Record DrawerBatch : Type := mkDrawerBatch {
  dw_batch : ItemBatch;
  dw_available_qty : Z;
  dw_priority_group : Z
}.

Record DrawerPage : Type := mkDrawerPage {
  dw_batches : list DrawerBatch;
  dw_total_available : Z;
  dw_shortfall : Z;
  dw_can_fulfill : bool
}.

Definition drawer_page (item_id remaining_qty : Z) (required_uom : option string) (allocated : gset Z)
    (current : gmap Z Z) : AM DrawerPage :=
  login_required rx;;
  d ← tables;
  it ← m_some (db_item d !! item_id) RNotFound;
  let '(limited, total, shortfall) :=
    get_limited_batches_for_drawer item_id remaining_qty required_uom allocated current (rx_today rx) d in
  mret (mkDrawerPage
    ((λ bg, mkDrawerBatch bg.1
        (ib_usable bg.1 - (ib_reserved bg.1 - default 0 (current !! ib_batch_id bg.1))) bg.2)
       <$> assign_priority_groups limited it)
    total shortfall (shortfall =? 0)).

(** Without a remaining quantity: every batch by warehouse, with what is free of it. *)
Definition legacy_drawer (item_id : Z) : AM (list (Z * list (ItemBatch * Z))) :=
  login_required rx;;
  d ← tables;
  _ ← m_some (db_item d !! item_id) RNotFound;
  mret ((λ kb : Z * list ItemBatch, (kb.1, (λ b, (b, available b)) <$> kb.2)) <$> get_batches_by_warehouse item_id (rx_today rx) d).
End queues.
