(* ===== verification/PackagingQueuesProofs.v ===== *)
(** Every request to be filled is on one tab of the officers' queue, but for those the
    queue loses; and a handover happens once, by the clerk whose stock it is. *)
From stdpp Require Import strings.
From S2P Require Import Prelude PyStr PySort Schema Atomicity Ledger Fixtures Reservation BatchAllocation Dispatch Packaging AccessControl AccessControlProofs ReliefRequest ReliefRequestProofs RequestRoutes RequestRoutesProofs RequestPages PackagingQueues.

Section queues.
Context `{R : Runtime}.

Lemma elem_of_latest l r : r ∈ latest_first l ↔ r ∈ l.
Proof. unfold latest_first. apply elem_of_sorted_by. Qed.

Lemma elem_of_preparation status d r :
  r ∈ in_preparation status d ↔
  (∃ k, db_rqst d !! k = Some r) ∧ rq_status_code r = status ∧
  has_pending_approval d r = false ∧ has_dispatched_package d r = false.
Proof.
  unfold in_preparation. rewrite list_elem_of_filter, elem_of_latest, list_elem_of_filter, elem_of_rqst_rows, orb_false_iff.
  tauto.
Qed.

Lemma pending_part_filled d r : has_pending_approval d r = true → rq_status_code r = STATUS_PART_FILLED.
Proof. unfold has_pending_approval. intros H. z_bool. done. Qed.

Lemma elem_of_pending d r :
  r ∈ pending_approval_requests d ↔ (∃ k, db_rqst d !! k = Some r) ∧ has_pending_approval d r = true.
Proof.
  unfold pending_approval_requests. rewrite list_elem_of_filter, elem_of_latest, list_elem_of_filter, elem_of_rqst_rows.
  split; [tauto|]. intros [Hk Hp]. split; [done|]. split; [|done]. rewrite (pending_part_filled _ _ Hp). by_decide.
Qed.

(** * The tabs *)

Definition request_tabs (d : DB) : list (string * list ReliefRqst) :=
  [("awaiting", awaiting_requests d); ("in_progress", in_progress_requests d);
   ("pending_approval", pending_approval_requests d)]%string.

Definition package_tabs (d : DB) : list (string * list ReliefPkg) :=
  [("approved_for_dispatch", approved_with_items d); ("approved_no_allocation", approved_no_items d)]%string.

Definition on_tab {A} (tabs : list (string * list A)) (t : string) (a : A) : Prop := ∃ l, (t, l) ∈ tabs ∧ a ∈ l.

(** The one tab of a request to be filled, if any: a request with a package on its way
    and none awaiting the manager has none. *)
Definition tab_of (d : DB) (r : ReliefRqst) : option string :=
  if has_pending_approval d r then Some "pending_approval"%string
  else if has_dispatched_package d r then None
  else if rq_status_code r =? STATUS_SUBMITTED then Some "awaiting"%string else Some "in_progress"%string.

Definition package_tab (d : DB) (p : ReliefPkg) : string :=
  if 0 <? content_qty d p then "approved_for_dispatch" else "approved_no_allocation".

Lemma elem_of_approved d p :
  p ∈ approved_packages d ↔ (∃ k, db_pkg d !! k = Some p) ∧ pkg_status_code p = PKG_STATUS_DISPATCHED ∧ pkg_received_dtime p = None.
Proof. unfold approved_packages. rewrite elem_of_sorted_by, list_elem_of_filter, elem_of_pkg_rows. tauto. Qed.

Lemma on_request_tab d t r :
  on_tab (request_tabs d) t r ↔
  (t = "awaiting"%string ∧ r ∈ awaiting_requests d) ∨ (t = "in_progress"%string ∧ r ∈ in_progress_requests d) ∨
  (t = "pending_approval"%string ∧ r ∈ pending_approval_requests d).
Proof.
  unfold on_tab, request_tabs. setoid_rewrite elem_of_cons. setoid_rewrite elem_of_cons. setoid_rewrite elem_of_cons.
  setoid_rewrite elem_of_nil. naive_solver.
Qed.

Lemma request_tab d k r t :
  db_rqst d !! k = Some r → rq_status_code r ∈ [STATUS_SUBMITTED; STATUS_PART_FILLED] →
  on_tab (request_tabs d) t r ↔ tab_of d r = Some t.
Proof.
  intros Hk Hst. rewrite on_request_tab, elem_of_pending. unfold awaiting_requests, in_progress_requests.
  rewrite !elem_of_preparation. unfold tab_of. rewrite !elem_of_cons, elem_of_nil in Hst.
  destruct (has_pending_approval d r) eqn:Hp; [pose proof (pending_part_filled _ _ Hp) as Hpf; naive_solver|].
  destruct (has_dispatched_package d r); [naive_solver|].
  destruct Hst as [Hst|[Hst|[]]]; rewrite Hst; simpl; naive_solver.
Qed.

Lemma package_tab_spec d k p t :
  db_pkg d !! k = Some p → pkg_status_code p = PKG_STATUS_DISPATCHED → pkg_received_dtime p = None →
  0 ≤ content_qty d p → on_tab (package_tabs d) t p ↔ package_tab d p = t.
Proof.
  intros Hk Hst Hr Hq. assert (p ∈ approved_packages d) as Ha by (rewrite elem_of_approved; eauto).
  unfold on_tab, package_tabs, package_tab. setoid_rewrite elem_of_cons. setoid_rewrite elem_of_cons. setoid_rewrite elem_of_nil.
  assert (p ∈ approved_with_items d ↔ content_qty d p ≠ 0) as H1 by (unfold approved_with_items; rewrite list_elem_of_filter; tauto).
  assert (p ∈ approved_no_items d ↔ content_qty d p ≤ 0) as H2 by (unfold approved_no_items; rewrite list_elem_of_filter; tauto).
  destruct (Z.ltb_spec 0 (content_qty d p)).
  - split; [|intros <-; eexists; split; [by left|apply H1; lia]].
    intros (l & [[= -> ->]|[[= -> ->]|[]]] & Hl); [done|]. apply H2 in Hl. lia.
  - split; [|intros <-; eexists; split; [by right; left|by apply H2]].
    intros (l & [[= -> ->]|[[= -> ->]|[]]] & Hl); [|done]. apply H1 in Hl. lia.
Qed.

(** * The page *)

Section page.
Context (rx : RequestCtx).

Lemma either_run a b s : normalized a = a → normalized b = b →
  ∃ c ok, need_either rx a b s = (mkApp c (app_db s), if ok : bool then inr tt else inl (RGuard Forbidden)) ∧
    (ok = true ↔ has_role rx (app_cache s) a ∨ has_role rx (app_cache s) b).
Proof.
  intros Ha Hb. unfold need_either. destruct (check_one rx a s Ha) as (c1 & b1 & H1 & Hf1 & Hb1).
  rewrite run_bind, H1. destruct b1; [exists c1, true; split; [done|]; tauto|].
  destruct (check_one rx b (mkApp c1 (app_db s)) Hb) as (c2 & b2 & H2 & _ & Hb2).
  rewrite run_bind, H2. simpl in Hb2. exists c2, b2. split; [by destruct b2|].
  rewrite Hb2. assert (¬ has_role rx (app_cache s) a) by (by rewrite <- Hb1).
  split; [intros H0; right|intros [?|H0]; [done|]]; by eapply has_role_force.
Qed.

Definition logistics (c : Cache) : Prop := has_role rx c "LOGISTICS_OFFICER" ∨ has_role rx c "LOGISTICS_MANAGER".

Lemma fulfillment_run f c d :
  is_authenticated (rx_user rx) = true →
  ∃ ok, (ok = true ↔ logistics c) ∧
    (pending_fulfillment rx f (mkApp c (session_of d))).2 =
    if ok : bool then inr (fulfillment_page (default "awaiting"%string f) d) else inl (RGuard Forbidden).
Proof.
  intros Hau. unfold pending_fulfillment, login_required. rewrite Hau.
  destruct (either_run "LOGISTICS_OFFICER" "LOGISTICS_MANAGER" (mkApp c (session_of d))) as (c1 & ok & H1 & Hok); [done..|].
  exists ok. split; [exact Hok|].
  transitivity ((need_either rx "LOGISTICS_OFFICER" "LOGISTICS_MANAGER";; d ← tables;
    mret (fulfillment_page (default "awaiting"%string f) d)) (mkApp c (session_of d))).2; [done|].
  rewrite run_bind, H1. by destruct ok.
Qed.

(** the officers' queue is open exactly to logistics officers and managers.  Every
    request to be filled is on exactly one of its three tabs, but for a request with
    a dispatched package and none awaiting the manager, which is on none, whatever of
    it is still to be filled; every approved package not handed over is on exactly
    one of the two others.  Each badge counts what its tab lists. *)
Theorem pending_fulfillment_correct f c d :
  let out := (pending_fulfillment rx f (mkApp c (session_of d))).2 in
  (out = inl (RGuard Forbidden) ↔ is_authenticated (rx_user rx) = true ∧ ¬ logistics c) ∧
  (∀ k r t, db_rqst d !! k = Some r → rq_status_code r ∈ [STATUS_SUBMITTED; STATUS_PART_FILLED] →
     on_tab (request_tabs d) t r ↔ tab_of d r = Some t) ∧
  (∀ k p t, db_pkg d !! k = Some p → pkg_status_code p = PKG_STATUS_DISPATCHED → pkg_received_dtime p = None →
     0 ≤ content_qty d p → on_tab (package_tabs d) t p ↔ package_tab d p = t) ∧
  ∀ pg, out = inr pg →
    (∀ t l, (t, l) ∈ request_tabs d → fu_current_filter pg = t → fu_requests pg = l ∧ fu_packages pg = []) ∧
    (∀ t l, (t, l) ∈ package_tabs d → fu_current_filter pg = t → pl_package <$> fu_packages pg = l ∧ fu_requests pg = []) ∧
    (fu_counts pg).*2 = ((λ t, count t.2) <$> request_tabs d) ++ ((λ t, Z.of_nat (length t.2)) <$> package_tabs d).
Proof.
  cbv zeta. destruct (is_authenticated (rx_user rx)) eqn:Hau.
  2: { unfold pending_fulfillment, login_required. rewrite Hau. split; [split; [done|by intros [? _]]|].
       split; [intros; by eapply request_tab|]. split; [intros; by eapply package_tab_spec|done]. }
  destruct (fulfillment_run f c d Hau) as (ok & Hok & ->). split.
  { rewrite <- Hok. destruct ok; split; [done|by intros [_ ?]|done|done]. }
  split; [intros; by eapply request_tab|]. split; [intros; by eapply package_tab_spec|].
  intros pg. destruct ok; [|done]. intros [= <-]. generalize (default "awaiting"%string f). intros g.
  unfold fulfillment_page, request_tabs, package_tabs. split_and!.
  - intros t l Ht. rewrite !elem_of_cons, elem_of_nil in Ht. destruct Ht as [[= -> ->]|[[= -> ->]|[[= -> ->]|[]]]];
      repeat case_bool_decide; simpl; intros ->; done.
  - intros t l Ht. rewrite !elem_of_cons, elem_of_nil in Ht. destruct Ht as [[= -> ->]|[[= -> ->]|[]]];
      repeat case_bool_decide; simpl; intros ->; try done; (split; [|done]);
      rewrite <- list_fmap_compose; by apply list_fmap_id.
  - repeat case_bool_decide; reflexivity.
Qed.
(** * The handover *)

(** What lets the user hand over package [k]. *)
Definition may_hand_over (c : Cache) (d : DB) (k : Z) (p : ReliefPkg) : Prop :=
  has_role rx c "INVENTORY_CLERK" ∧ is_Some (get_user_name (rx_user rx)) ∧
  db_pkg d !! k = Some p ∧ pkg_status_code p = PKG_STATUS_DISPATCHED ∧ pkg_received_dtime p = None ∧
  ∃ v, v ∈ pkg_items_of (pkg_reliefpkg_id p) d ∧ pi_fr_inventory_id v ∈ user_warehouses rx.

Definition handover (p : ReliefPkg) : DB → DB := put_pkg (handed_over (get_user_name (rx_user rx)) (rx_now rx) p).

Lemma warehouse_items_some d p :
  warehouse_items rx d p ≠ [] ↔ ∃ v, v ∈ pkg_items_of (pkg_reliefpkg_id p) d ∧ pi_fr_inventory_id v ∈ user_warehouses rx.
Proof.
  transitivity (∃ v, v ∈ warehouse_items rx d p).
  - split; [|by intros (v & Hv) He; rewrite He in Hv; apply elem_of_nil in Hv].
    destruct (warehouse_items rx d p) as [|v l]; [congruence|]. intros _. exists v. by left.
  - unfold warehouse_items. split; intros (v & Hv); exists v; [apply list_elem_of_filter in Hv|apply list_elem_of_filter]; tauto.
Qed.

Lemma need_role_ok {B} role (k : M App RouteFailure B) s : normalized role = role →
  ∃ c, force rx c = force rx (app_cache s) ∧ ∀ b s', run_ok (need_role rx [role];; k) s b s' ↔
    has_role rx (app_cache s) role ∧ run_ok k (mkApp c (app_db s)) b s'.
Proof.
  intros Hn. destruct (check_one rx role s Hn) as (c & ok & H1 & Hf & Hok). exists c. split; [done|]. intros b s'.
  rewrite <- Hok. unfold run_ok, need_role. rewrite !run_bind, H1. destruct ok; simpl; [|naive_solver].
  by split; [|intros [_ ?]].
Qed.

(** What lets the clerk open package [k]. *)
Definition clerk_opens (c : Cache) (d : DB) (k : Z) (p : ReliefPkg) : Prop :=
  has_role rx c "INVENTORY_CLERK" ∧ db_pkg d !! k = Some p ∧ pkg_status_code p = PKG_STATUS_DISPATCHED ∧
  ∃ v, v ∈ pkg_items_of (pkg_reliefpkg_id p) d ∧ pi_fr_inventory_id v ∈ user_warehouses rx.

Lemma clerk_package_ok k g e s : ∃ c', ∀ p s',
  run_ok (clerk_package rx k (λ p, m_fail_if (g p) e)) s p s' ↔
  clerk_opens (app_cache s) (work (app_db s)) k p ∧ g p = false ∧ s' = mkApp c' (app_db s).
Proof.
  unfold clerk_package. destruct (need_role_ok "INVENTORY_CLERK" (
    m_fail_if (bool_decide (user_warehouses rx = [])) (RRefused "no warehouses assigned");;
    d ← tables; p ← m_some (db_pkg d !! k) RNotFound;
    m_fail_if (negb (bool_decide (pkg_status_code p = PKG_STATUS_DISPATCHED))) (RRefused "not dispatched");;
    m_fail_if (g p) e;;
    m_fail_if (bool_decide (warehouse_items rx d p = [])) (RRefused "no items from your warehouses");;
    mret p : M App RouteFailure ReliefPkg) s eq_refl) as (c' & _ & Hrun).
  exists c'. intros p s'. unfold login_required. rewrite run_fail_if, Hrun, run_fail_if.
  assert (∀ (K : DB → M App RouteFailure ReliefPkg) t, run_ok (tables ≫= K) t p s' ↔ run_ok (K (work (app_db t))) t p s') as Ht by done.
  rewrite Ht, run_some. setoid_rewrite run_fail_if. setoid_rewrite run_fail_if. setoid_rewrite run_fail_if.
  simpl app_db. rewrite bool_decide_eq_false. setoid_rewrite bool_decide_eq_false. setoid_rewrite warehouse_items_some.
  setoid_rewrite negb_false_iff. setoid_rewrite bool_decide_eq_true. unfold clerk_opens. split.
  - intros (_ & Hr & _ & p' & Hp & Hst & Hg & Hv & [= -> ->]). eauto 10.
  - intros ((Hr & Hp & Hst & Hv) & Hg & ->). split; [by eapply has_role_user|]. split; [done|]. split.
    + destruct Hv as (v & _ & Hv). intros He. rewrite He in Hv. by apply elem_of_nil in Hv.
    + exists p. done.
Qed.

Lemma mark_handover_ok k c d : ∃ c', ∀ s',
  run_ok (mark_handover rx k) (mkApp c (session_of d)) tt s' ↔
  ∃ p, may_hand_over c d k p ∧ s' = mkApp c' (session_of (handover p d)).
Proof.
  unfold mark_handover. edestruct (clerk_package_ok k) as (c' & Hrun).
  exists c'. intros s'. rewrite route_ok.
  setoid_rewrite bind_ok. setoid_rewrite Hrun. setoid_rewrite attempt_ok. setoid_rewrite run_fail_if.
  unfold may_hand_over, clerk_opens. split.
  - intros (s1 & (p & s2 & ((Hr & Hp & Hst & Hv) & Hg & ->) & (d1 & (Hn & Hrest) & ->)) & ->).
    exists p. injection Hrest as <-. simpl in *. split; [|done]. split_and!; try done.
    + by destruct (get_user_name _).
    + by destruct (pkg_received_dtime p).
  - intros (p & (Hr & Hn & Hp & Hst & Hg & Hv) & ->). eexists. split.
    + exists p. eexists. split; [split; [split_and!; eauto|by rewrite Hg]|]. eexists. split; [|done].
      split; [by destruct Hn as [u ->]|reflexivity].
    + reflexivity.
Qed.
Lemma mark_handover_clean k : app_clean (mark_handover rx k).
Proof. unfold mark_handover, clerk_package, need_role, check, tables, login_required. app_clean_tac; clean_tac. Qed.

(** What was refused or raised stores nothing. *)
Lemma mark_handover_fails k c d :
  (mark_handover rx k (mkApp c (session_of d))).2 ≠ inr tt →
  app_db (mark_handover rx k (mkApp c (session_of d))).1 = session_of d.
Proof.
  pose proof (mark_handover_clean k (mkApp c (session_of d))) as Hc.
  assert (∀ m : M App RouteFailure unit, app_db (route m (mkApp c (session_of d))).1 =
    rollback_session (app_db (route m (mkApp c (session_of d))).1)) as Hs.
  { intros m. unfold route. by destruct (m _). }
  intros Hf. unfold mark_handover in *. rewrite Hs. destruct (route _ _) as [s1 [e|[]]]; [|done].
  simpl. unfold rollback_session. by rewrite Hc.
Qed.

Lemma elem_of_approved_handover d p q : keyed_pkgs d → db_pkg d !! pkg_reliefpkg_id p = Some p →
  q ∈ approved_packages (handover p d) ↔ q ∈ approved_packages d ∧ q ≠ p.
Proof.
  intros Hk Hp. rewrite !elem_of_approved. unfold handover, put_pkg. simpl. split.
  - intros ((k & Hq) & Hst & Hr). apply lookup_insert_Some in Hq as [[<- <-]|[Hne Hq]]; [done|].
    split; [by eauto|]. intros ->. by rewrite (Hk _ _ Hq) in Hne.
  - intros (((k & Hq) & Hst & Hr) & Hne). split; [|done]. exists k. rewrite lookup_insert_ne; [done|].
    simpl. intros <-. naive_solver.
Qed.
End page.

(** a package is handed over exactly by a logged-in inventory clerk with a usable name,
    when it is dispatched, not handed over before, and takes something from one of
    his warehouses; the handover stores the package with his name and the time and
    nothing else, and whatever stops it stores nothing.  The package leaves the list
    of approved ones and enters the list of received ones, no other does, and nobody
    can hand it over again, the clerk of another of its warehouses included. *)
Theorem mark_handover_correct rx k c d :
  keyed_pkgs d →
  let out := mark_handover rx k (mkApp c (session_of d)) in
  (out.2 = inr tt ↔ ∃ p, may_hand_over rx c d k p) ∧
  (out.2 ≠ inr tt → app_db out.1 = session_of d) ∧
  ∀ p, out.2 = inr tt → db_pkg d !! k = Some p →
    app_db out.1 = session_of (handover rx p d) ∧
    p ∈ approved_packages d ∧
    (∀ q, q ∈ approved_packages (handover rx p d) ↔ q ∈ approved_packages d ∧ q ≠ p) ∧
    (is_Some (db_rqst d !! pkg_reliefrqst_id p) →
       handed_over (get_user_name (rx_user rx)) (rx_now rx) p ∈ received_packages (handover rx p d)) ∧
    ∀ rx' c', (mark_handover rx' k (mkApp c' (app_db out.1))).2 ≠ inr tt.
Proof.
  intros Hk. cbv zeta. destruct (mark_handover_ok rx k c d) as (c1 & Hok).
  assert ((mark_handover rx k (mkApp c (session_of d))).2 = inr tt ↔ ∃ p, may_hand_over rx c d k p) as Hiff.
  { split.
    - intros Hout%run_ok_fst. apply Hok in Hout as (p & Hp & _). by exists p.
    - intros (p & Hp). assert (run_ok (mark_handover rx k) (mkApp c (session_of d)) tt (mkApp c1 (session_of (handover rx p d)))) as Hrun
        by (apply Hok; eauto). unfold run_ok in Hrun. by rewrite Hrun. }
  split; [exact Hiff|]. split; [apply mark_handover_fails|]. intros p Hout Hp.
  apply run_ok_fst, Hok in Hout as (p' & (_ & _ & Hp' & Hst & Hr & _) & Hs1). rewrite Hp in Hp'. injection Hp' as <-.
  rewrite Hs1. simpl app_db. split; [done|]. pose proof (Hk _ _ Hp) as Hid. simpl in Hid. subst k.
  split; [rewrite elem_of_approved; eauto|]. split; [intros q; by apply elem_of_approved_handover|].
  assert (db_pkg (handover rx p d) !! pkg_reliefpkg_id p = Some (handed_over (get_user_name (rx_user rx)) (rx_now rx) p)) as Hnew
    by (unfold handover, put_pkg; simpl; by rewrite lookup_insert_eq).
  split.
  - intros Hrq. unfold received_packages. rewrite list_elem_of_filter, elem_of_pkg_rows. split; [|by eauto]. done.
  - intros rx' c' Hagain%run_ok_fst. pose proof (mark_handover_ok rx' (pkg_reliefpkg_id p) c' (handover rx p d)) as Hex.
    destruct Hex as [c2 Hok2]. destruct (proj1 (Hok2 _) Hagain) as (p2 & (_ & _ & Hp2 & _ & Hr2 & _) & _). rewrite Hnew in Hp2. injection Hp2 as <-. done.
Qed.
End queues.

(** * A clerk and his package *)

#[local] Existing Instance canonical_runtime.

(** Package 70 of request 7 is dispatched, out of warehouse 1. *)
Definition handover_db : DB := set_db_rqst {[7 := rqst0 STATUS_PART_FILLED 1 None None]} (package_db "D" 40 10).

Definition clerk_roles : AuthDB := mkAuthDB [(1, "INVENTORY_CLERK"%string); (2, "LOGISTICS_OFFICER"%string)] [] [].

Definition clerk_ctx : RequestCtx :=
  mkRequestCtx (Some (mkSessionUser "IC" "ic@odpem.gov.jm" None ["INVENTORY_CLERK"%string] [1])) clerk_roles true 12 12 130 8.
Definition officer_ctx : RequestCtx :=
  mkRequestCtx (Some (mkSessionUser "LO" "lo@odpem.gov.jm" None ["LOGISTICS_OFFICER"%string] [])) clerk_roles true 12 12 130 8.

Lemma mark_handover_correct_witness :
  keyed_pkgs handover_db ∧ (mark_handover clerk_ctx 70 (mkApp None (session_of handover_db))).2 = inr tt ∧
  (∀ rx' c', (mark_handover rx' 70 (mkApp c' (session_of (handover clerk_ctx (package 70 7 "D") handover_db)))).2 ≠ inr tt) ∧
  (mark_handover officer_ctx 70 (mkApp None (session_of handover_db))).2 = inl (RGuard Forbidden).
Proof.
  assert (keyed_pkgs handover_db) as Hk by (unfold keyed_pkgs, handover_db; simpl; by apply map_Forall_singleton).
  pose proof (mark_handover_correct clerk_ctx 70 None handover_db Hk) as (_ & _ & Hall).
  assert ((mark_handover clerk_ctx 70 (mkApp None (session_of handover_db))).2 = inr tt) as Hout by (vm_compute; reflexivity).
  destruct (Hall (package 70 7 "D") Hout ltac:(vm_compute; reflexivity)) as (Hdb & _ & _ & _ & Hagain).
  split; [exact Hk|]. split; [exact Hout|]. split; [|vm_compute; reflexivity]. rewrite <- Hdb. exact Hagain.
Defined.

(** Dispatched and still to be filled, the request is on no tab. *)
Lemma pending_fulfillment_correct_witness :
  let out := (pending_fulfillment officer_ctx None (mkApp None (session_of handover_db))).2 in
  out ≠ inl (RGuard Forbidden) ∧
  (∀ t, ¬ on_tab (request_tabs handover_db) t (rqst0 STATUS_PART_FILLED 1 None None)) ∧
  on_tab (package_tabs handover_db) "approved_for_dispatch" (package 70 7 "D").
Proof.
  pose proof (pending_fulfillment_correct officer_ctx None None handover_db) as (_ & Hreq & Hpkg & _).
  split; [vm_compute; discriminate|]. split.
  - intros t. rewrite (Hreq 7); [vm_compute; discriminate|vm_compute; reflexivity|by_decide].
  - apply (Hpkg 70); [vm_compute; reflexivity|done|done|vm_compute; discriminate|vm_compute; reflexivity].
Defined.
