(* ===== verification/Catalogue.v ===== *)
(** The master tables the catalogue screens maintain, and what the database and the
    ORM do with their rows: units of measure, item categories, items, custodians,
    warehouses, agencies, donors and events (app/db/models.py, the constraints of
    backups/pre_lastmile_2025_12_22.sql).

    A row is found by its target, the table and key that a foreign key names, so the
    constraints are checked in one way for all tables.  Rows of other tables matter by
    what they refer to: a reference that cannot be cleared ([cd_hard]), by NOT NULL or by
    a CHECK as the unit of a donated item of goods, or one that the ORM sets to NULL when
    its target is deleted ([cd_soft]).  The time of an update is
    never the time stored (the clock has microseconds, the column whole seconds), so
    the ORM always writes an edited row and raises its version. *)
From stdpp Require Import strings.
From S2P Require Import Prelude PyStr PySort ParamValidation Schema Columns AccessControl Web.

(** What depends on the locale of the database: the SQL function [upper], the
    operator [ILIKE], and the collation of names. *)
Class Locale : Type := {
  db_upper : string → string;
  db_ilike : string → string → bool;     (* the pattern first *)
  collate : string → list Z
}.

Inductive Target : Type :=
| TUom (uom_code : string)
| TCategory (category_id : Z)
| TItem (item_id : Z)
| TCustodian (custodian_id : Z)
| TWarehouse (warehouse_id : Z)
| TAgency (agency_id : Z)
| TDonor (donor_id : Z)
| TEvent (event_id : Z)
| TParish (parish_code : string)
| TCountry (country_id : Z).

#[export] Instance target_eq_dec : EqDecision Target.
Proof. solve_decision. Defined.

#[export] Instance target_countable : Countable Target.
Proof.
  refine (inj_countable'
    (λ t, match t with
          | TUom c => (0, inl c) | TCategory i => (1, inr i) | TItem i => (2, inr i) | TCustodian i => (3, inr i)
          | TWarehouse i => (4, inr i) | TAgency i => (5, inr i) | TDonor i => (6, inr i) | TEvent i => (7, inr i)
          | TParish c => (8, inl c) | TCountry i => (9, inr i)
          end : Z * (string + Z))
    (λ p, match p with
          | (0, inl c) => TUom c | (1, inr i) => TCategory i | (2, inr i) => TItem i | (3, inr i) => TCustodian i
          | (4, inr i) => TWarehouse i | (5, inr i) => TAgency i | (6, inr i) => TDonor i | (7, inr i) => TEvent i
          | (8, inl c) => TParish c | (_, inr i) => TCountry i | (_, inl c) => TUom c
          end) _).
  by intros [].
Defined.

(** * Rows *)

Record UomRow : Type := mkUomRow {
  uo_uom_code : string;
  uo_uom_desc : string;
  uo_comments_text : option string;
  uo_status_code : string;
  uo_audit : Audit
}.

Record CategoryRow : Type := mkCategoryRow {
  ca_category_id : Z;
  ca_category_type : string;
  ca_category_code : string;
  ca_category_desc : string;
  ca_comments_text : option string;
  ca_status_code : string;
  ca_audit : Audit
}.

Record ItemRow : Type := mkItemRow {
  im_item_id : Z;
  im_item_code : string;
  im_item_name : string;
  im_sku_code : string;
  im_category_id : Z;
  im_item_desc : string;
  im_reorder_qty : Z;
  im_default_uom_code : string;
  im_units_size_vary_flag : bool;
  im_usage_desc : option string;
  im_storage_desc : option string;
  im_is_batched_flag : bool;
  im_can_expire_flag : bool;
  im_issuance_order : string;
  im_comments_text : option string;
  im_status_code : string;
  im_audit : Audit
}.

(** The address and contact columns of custodians, warehouses and agencies. *)
Record Contact : Type := mkContact {
  co_address1_text : string;
  co_address2_text : option string;
  co_parish_code : string;
  co_contact_name : string;
  co_phone_no : string;
  co_email_text : option string
}.

Record CustodianRec : Type := mkCustodianRec {
  ct_custodian_id : Z;
  ct_custodian_name : string;
  ct_custodian_kind : string;
  ct_contact : Contact;
  ct_audit : Audit
}.

Record WarehouseRec : Type := mkWarehouseRec {
  wr_warehouse_id : Z;
  wr_warehouse_name : string;
  wr_warehouse_type : string;
  wr_tier_code : option string;
  wr_allow_donation_intake : option bool;
  wr_allow_lastmile_issue : option bool;
  wr_contact : Contact;
  wr_custodian_id : Z;
  wr_status_code : string;
  wr_reason_desc : option string;
  wr_audit : Audit
}.

Record AgencyRec : Type := mkAgencyRec {
  ay_agency_id : Z;
  ay_agency_name : string;
  ay_agency_type : string;
  ay_contact : Contact;
  ay_ineligible_event_id : option Z;
  ay_warehouse_id : option Z;
  ay_status_code : string;
  ay_audit : Audit
}.

Record DonorRow : Type := mkDonorRow {
  dr_donor_id : Z;
  dr_donor_code : string;
  dr_donor_name : string;
  dr_org_type_desc : option string;
  dr_address1_text : string;
  dr_address2_text : option string;
  dr_country_id : Z;
  dr_phone_no : string;
  dr_email_text : option string;
  dr_audit : Audit
}.

Record EventRow : Type := mkEventRow {
  ev_event_id : Z;
  ev_event_type : string;
  ev_start_date : Z;
  ev_event_name : string;
  ev_event_desc : string;
  ev_impact_desc : string;
  ev_status_code : string;
  ev_closed_date : option Z;
  ev_reason_desc : option string;
  ev_audit : Audit
}.

Inductive CatRow : Type :=
| RUom (r : UomRow)
| RCategory (r : CategoryRow)
| RItem (r : ItemRow)
| RCustodian (r : CustodianRec)
| RWarehouse (r : WarehouseRec)
| RAgency (r : AgencyRec)
| RDonor (r : DonorRow)
| REvent (r : EventRow)
| RParish (parish_code parish_name : string)
| RCountry (country_id : Z) (country_name : string).

#[export] Instance contact_eq_dec : EqDecision Contact.
Proof. solve_decision. Defined.
#[export] Instance audit_eq_dec : EqDecision Audit.
Proof. solve_decision. Defined.
#[export] Instance event_row_eq_dec : EqDecision EventRow.
Proof. solve_decision. Defined.
#[export] Instance cat_row_eq_dec : EqDecision CatRow.
Proof.
  assert (EqDecision UomRow) by solve_decision. assert (EqDecision CategoryRow) by solve_decision.
  assert (EqDecision ItemRow) by solve_decision. assert (EqDecision CustodianRec) by solve_decision.
  assert (EqDecision WarehouseRec) by solve_decision. assert (EqDecision AgencyRec) by solve_decision.
  assert (EqDecision DonorRow) by solve_decision. solve_decision.
Defined.

Definition row_target (r : CatRow) : Target :=
  match r with
  | RUom r => TUom (uo_uom_code r)
  | RCategory r => TCategory (ca_category_id r)
  | RItem r => TItem (im_item_id r)
  | RCustodian r => TCustodian (ct_custodian_id r)
  | RWarehouse r => TWarehouse (wr_warehouse_id r)
  | RAgency r => TAgency (ay_agency_id r)
  | RDonor r => TDonor (dr_donor_id r)
  | REvent r => TEvent (ev_event_id r)
  | RParish c _ => TParish c
  | RCountry i _ => TCountry i
  end.

Definition row_audit (r : CatRow) : option Audit :=
  match r with
  | RUom r => Some (uo_audit r)
  | RCategory r => Some (ca_audit r)
  | RItem r => Some (im_audit r)
  | RCustodian r => Some (ct_audit r)
  | RWarehouse r => Some (wr_audit r)
  | RAgency r => Some (ay_audit r)
  | RDonor r => Some (dr_audit r)
  | REvent r => Some (ev_audit r)
  | RParish _ _ | RCountry _ _ => None
  end.

(** * What the columns hold *)

Definition contact_fits (c : Contact) : bool :=
  varchar 255 (co_address1_text c) && varchar_opt 255 (co_address2_text c) && varchar 2 (co_parish_code c) &&
  varchar 50 (co_contact_name c) && varchar 20 (co_phone_no c) && varchar_opt 100 (co_email_text c).

Definition audit_fits (a : Audit) : bool := varchar 20 (create_by_id a) && varchar 20 (update_by_id a).

Definition smallint (z : Z) : bool := (- 2 ^ 15 <=? z) && (z <? 2 ^ 15).

Definition row_fits (r : CatRow) : bool :=
  match row_audit r with Some a => audit_fits a | None => true end &&
  match r with
  | RUom r => varchar 25 (uo_uom_code r) && varchar 60 (uo_uom_desc r) && varchar 1 (uo_status_code r)
  | RCategory r => varchar 5 (ca_category_type r) && varchar 30 (ca_category_code r) &&
                   varchar 60 (ca_category_desc r) && varchar 1 (ca_status_code r)
  | RItem r => varchar 16 (im_item_code r) && varchar 60 (im_item_name r) && varchar 30 (im_sku_code r) &&
               bool_decide (numeric 12 (im_reorder_qty r) = Some (im_reorder_qty r)) &&
               varchar 25 (im_default_uom_code r) && varchar 20 (im_issuance_order r) && varchar 1 (im_status_code r)
  | RCustodian r => varchar 120 (ct_custodian_name r) && varchar 15 (ct_custodian_kind r) && contact_fits (ct_contact r)
  | RWarehouse r => varchar 10 (wr_warehouse_type r) && varchar_opt 4 (wr_tier_code r) && contact_fits (wr_contact r) &&
                    varchar 1 (wr_status_code r) && varchar_opt 255 (wr_reason_desc r)
  | RAgency r => varchar 120 (ay_agency_name r) && varchar 16 (ay_agency_type r) && contact_fits (ay_contact r) &&
                 varchar 1 (ay_status_code r)
  | RDonor r => varchar 16 (dr_donor_code r) && varchar 255 (dr_donor_name r) && varchar_opt 30 (dr_org_type_desc r) &&
                varchar 255 (dr_address1_text r) && varchar_opt 255 (dr_address2_text r) && smallint (dr_country_id r) &&
                varchar 20 (dr_phone_no r) && varchar_opt 100 (dr_email_text r)
  | REvent r => varchar 16 (ev_event_type r) && varchar 60 (ev_event_name r) && varchar 255 (ev_event_desc r) &&
                varchar 1 (ev_status_code r) && varchar_opt 255 (ev_reason_desc r)
  | RParish _ _ | RCountry _ _ => true
  end.

(** * What the constraints ask for *)

Definition EVENT_TYPES : list string :=
  ["STORM"; "HURRICANE"; "TORNADO"; "FLOOD"; "TSUNAMI"; "FIRE"; "EARTHQUAKE"; "WAR"; "EPIDEMIC"; "ADHOC"]%string.

Definition is_some {A} (o : option A) : bool := match o with Some _ => true | None => false end.

Section constraints.
Context {L : Locale} (today : Z).

(** [CHECK (x = upper(x))]. *)
Definition upper_ok (s : string) : bool := bool_decide (db_upper s = s).

Definition status_ok (s : string) : bool := bool_decide (s ∈ ["A"; "I"]%string).

(** The CHECK constraints; [CURRENT_DATE] is [today]. *)
Definition row_checks (r : CatRow) : bool :=
  match r with
  | RUom r => upper_ok (uo_uom_code r) && status_ok (uo_status_code r)
  | RCategory r => bool_decide (ca_category_type r ∈ ["GOODS"; "FUNDS"]%string) && upper_ok (ca_category_code r) &&
                   status_ok (ca_status_code r)
  | RItem r => upper_ok (im_item_code r) && upper_ok (im_item_name r) && upper_ok (im_sku_code r) &&
               (0 <? im_reorder_qty r) && status_ok (im_status_code r)
  | RCustodian r => upper_ok (ct_custodian_name r) && upper_ok (co_contact_name (ct_contact r))
  | RWarehouse r =>
      bool_decide (wr_warehouse_type r ∈ ["MAIN-HUB"; "SUB-HUB"]%string) && upper_ok (co_contact_name (wr_contact r)) &&
      status_ok (wr_status_code r) && Bool.eqb (is_some (wr_reason_desc r)) (bool_decide (wr_status_code r = "I"%string))
  | RAgency r =>
      bool_decide (ay_agency_type r ∈ ["SHELTER"; "DISTRIBUTOR"]%string) && upper_ok (ay_agency_name r) &&
      upper_ok (co_contact_name (ay_contact r)) && status_ok (ay_status_code r) &&
      Bool.eqb (is_some (ay_warehouse_id r)) (bool_decide (ay_agency_type r ≠ "SHELTER"%string))
  | RDonor r => upper_ok (dr_donor_code r) && upper_ok (dr_donor_name r)
  | REvent r =>
      bool_decide (ev_event_type r ∈ EVENT_TYPES) && (ev_start_date r <=? today) &&
      bool_decide (ev_status_code r ∈ ["A"; "C"]%string) &&
      Bool.eqb (is_some (ev_closed_date r)) (bool_decide (ev_status_code r = "C"%string)) &&
      Bool.eqb (is_some (ev_reason_desc r)) (is_some (ev_closed_date r))
  | RParish _ _ | RCountry _ _ => true
  end.

(** The foreign keys that may not be NULL, and the one that may. *)
Definition row_refs (r : CatRow) : list Target :=
  match r with
  | RItem r => [TCategory (im_category_id r); TUom (im_default_uom_code r)]
  | RCustodian r => [TParish (co_parish_code (ct_contact r))]
  | RWarehouse r => [TParish (co_parish_code (wr_contact r)); TCustodian (wr_custodian_id r)]
  | RAgency r => TParish (co_parish_code (ay_contact r)) ::
                 match ay_warehouse_id r with Some w => [TWarehouse w] | None => [] end
  | RDonor r => [TCountry (dr_country_id r)]
  | RUom _ | RCategory _ | REvent _ | RParish _ _ | RCountry _ _ => []
  end.

Definition row_null_refs (r : CatRow) : list Target :=
  match r with RAgency r => match ay_ineligible_event_id r with Some e => [TEvent e] | None => [] end | _ => [] end.

(** The UNIQUE constraints with the value of the row for each. *)
Definition row_unique (r : CatRow) : list (string * string) :=
  match r with
  | RCategory r => [("uk_itemcatg_1", ca_category_code r)]%string
  | RItem r => [("uk_item_1", im_item_code r); ("uk_item_2", im_item_name r); ("uk_item_3", im_sku_code r)]%string
  | RCustodian r => [("uk_custodian_1", ct_custodian_name r)]%string
  | RAgency r => [("uk_agency_1", ay_agency_name r)]%string
  | RDonor r => [("uk_donor_1", dr_donor_name r)]%string
  | RUom _ | RWarehouse _ | REvent _ | RParish _ _ | RCountry _ _ => []
  end.
End constraints.

(** * The tables *)

Record CatDB : Type := mkCatDB {
  cd_rows : gmap Target CatRow;
  cd_hard : gmap (string * Z) Target;     (* table and row: what it refers to *)
  cd_soft : gmap (string * Z) Target;
  cd_stock : list (Z * Z * Z);            (* item, usable and reserved quantity *)
  cd_requests : list (Z * Z)              (* agency and status of each relief request *)
}.

Definition set_cd_rows (m : gmap Target CatRow) (d : CatDB) : CatDB :=
  mkCatDB m (cd_hard d) (cd_soft d) (cd_stock d) (cd_requests d).

Definition cat_rows (d : CatDB) : list CatRow := (map_to_list (cd_rows d)).*2.

Definition uoms (d : CatDB) : list UomRow := omap (λ r, match r with RUom r => Some r | _ => None end) (cat_rows d).
Definition categories (d : CatDB) : list CategoryRow :=
  omap (λ r, match r with RCategory r => Some r | _ => None end) (cat_rows d).
Definition items (d : CatDB) : list ItemRow := omap (λ r, match r with RItem r => Some r | _ => None end) (cat_rows d).
Definition custodians (d : CatDB) : list CustodianRec :=
  omap (λ r, match r with RCustodian r => Some r | _ => None end) (cat_rows d).
Definition warehouses (d : CatDB) : list WarehouseRec :=
  omap (λ r, match r with RWarehouse r => Some r | _ => None end) (cat_rows d).
Definition agencies (d : CatDB) : list AgencyRec :=
  omap (λ r, match r with RAgency r => Some r | _ => None end) (cat_rows d).
Definition donors (d : CatDB) : list DonorRow :=
  omap (λ r, match r with RDonor r => Some r | _ => None end) (cat_rows d).
Definition events (d : CatDB) : list EventRow :=
  omap (λ r, match r with REvent r => Some r | _ => None end) (cat_rows d).

Definition find_uom (d : CatDB) (c : string) : option UomRow :=
  match cd_rows d !! TUom c with Some (RUom r) => Some r | _ => None end.
Definition find_category (d : CatDB) (i : Z) : option CategoryRow :=
  match cd_rows d !! TCategory i with Some (RCategory r) => Some r | _ => None end.
Definition find_catalogue_item (d : CatDB) (i : Z) : option ItemRow :=
  match cd_rows d !! TItem i with Some (RItem r) => Some r | _ => None end.
Definition find_custodian (d : CatDB) (i : Z) : option CustodianRec :=
  match cd_rows d !! TCustodian i with Some (RCustodian r) => Some r | _ => None end.
Definition find_warehouse (d : CatDB) (i : Z) : option WarehouseRec :=
  match cd_rows d !! TWarehouse i with Some (RWarehouse r) => Some r | _ => None end.
Definition find_agency (d : CatDB) (i : Z) : option AgencyRec :=
  match cd_rows d !! TAgency i with Some (RAgency r) => Some r | _ => None end.
Definition find_donor (d : CatDB) (i : Z) : option DonorRow :=
  match cd_rows d !! TDonor i with Some (RDonor r) => Some r | _ => None end.
Definition find_event (d : CatDB) (i : Z) : option EventRow :=
  match cd_rows d !! TEvent i with Some (REvent r) => Some r | _ => None end.

Definition present_in (d : CatDB) (t : Target) : bool := is_some (cd_rows d !! t).

(** Whether some row refers to the target by a key that cannot be cleared. *)
Definition referenced (d : CatDB) (t : Target) : bool :=
  existsb (λ r, bool_decide (t ∈ row_refs r)) (cat_rows d) ||
  existsb (λ u, bool_decide (u = t)) (map_to_list (cd_hard d)).*2.

Definition softly_referenced (d : CatDB) (t : Target) : bool :=
  existsb (λ r, bool_decide (t ∈ row_null_refs r)) (cat_rows d) ||
  existsb (λ u, bool_decide (u = t)) (map_to_list (cd_soft d)).*2.

(** * What a flush does *)

Section store.
Context {L : Locale} (today : Z).

(** The constraints on a row that takes the place of target [t]. *)
Definition cat_row_ok (d : CatDB) (t : Target) (r : CatRow) : bool :=
  row_checks today r && forallb (present_in d) (row_refs r ++ row_null_refs r) &&
  forallb (λ p : Target * CatRow, bool_decide (p.1 = t) ||
             forallb (λ u, negb (bool_decide (u ∈ row_unique r))) (row_unique p.2)) (map_to_list (cd_rows d)).

(** A value too long for its column is a [DataError], a violated constraint an
    [IntegrityError]; [WCrashed] and [WAborted] tell them apart. *)
Definition flush_row (t : Target) (r : CatRow) : BM CatDB unit :=
  m_fail_if (negb (row_fits r)) WCrashed;;
  d ← m_get;
  m_fail_if (negb (cat_row_ok d t r)) WAborted.

Definition insert_row (r : CatRow) : BM CatDB unit :=
  flush_row (row_target r) r;;
  d ← m_get;
  m_fail_if (present_in d (row_target r)) WAborted;;
  m_modify (set_cd_rows (<[row_target r := r]> (cd_rows d))).

(** An UPDATE of the row of [t]; only a unit of measure can change its key. *)
Definition update_row (t : Target) (r : CatRow) : BM CatDB unit :=
  flush_row t r;;
  d ← m_get;
  m_fail_if (negb (bool_decide (row_target r = t)) &&
             (present_in d (row_target r) || referenced d t || softly_referenced d t)) WAborted;;
  m_modify (set_cd_rows (<[row_target r := r]> (delete t (cd_rows d)))).
End store.

Definition raise_version (a : Audit) : Audit :=
  mkAudit (create_by_id a) (create_dtime a) (update_by_id a) (update_dtime a) (version_nbr a + 1).

(** The ORM sets a key that may be NULL to NULL when its target is deleted. *)
Definition forget (t : Target) (r : CatRow) : CatRow :=
  match r with
  | RAgency a => if bool_decide (t ∈ row_null_refs r)
                 then RAgency (mkAgencyRec (ay_agency_id a) (ay_agency_name a) (ay_agency_type a) (ay_contact a) None
                                 (ay_warehouse_id a) (ay_status_code a) (raise_version (ay_audit a)))
                 else r
  | _ => r
  end.

Definition delete_row (t : Target) : BM CatDB unit :=
  d ← m_get;
  m_fail_if (referenced d t) WAborted;;
  m_modify (λ d, mkCatDB (forget t <$> delete t (cd_rows d)) (cd_hard d)
                   (filter (λ p, p.2 ≠ t) (cd_soft d)) (cd_stock d) (cd_requests d)).
