(* ===== verification/CatalogueForms.v ===== *)
(** What the catalogue screens make of a form: the validators of the modules under
    app/features, each as the list of the fields it reports. *)
From stdpp Require Import strings.
From Stdlib Require Import Ascii String.
From S2P Require Import Prelude PyStr PySort ParamValidation Schema Columns Dates PathSafety Phone AccessControl Web Catalogue.

(** [request.form]. *)
Abbreviation Form := (gmap string string).

(** [form_data.get(k, '').strip()]. *)
Definition field (f : Form) (k : string) : string := strip (default ""%string (f !! k)).

(** [s or None]. *)
Definition some_text (s : string) : option string := if bool_decide (s = ""%string) then None else Some s.

(** [form.get('version_nbr', type=int)]. *)
Definition submitted_version (f : Form) : option Z := f !! "version_nbr"%string ≫= py_int.

Definition err (b : bool) (name : string) : list string := if b then [name] else [].
Definition blank (s : string) : bool := bool_decide (s = ""%string).
Definition longer (n : Z) (s : string) : bool := n <? len s.

(** Required, and not longer than [n]. *)
Definition required (n : Z) (s : string) : bool := blank s || longer n s.

(** The row of this key is left out of a search for duplicates. *)
Definition is_own (own : option Z) (i : Z) : bool :=
  match own with Some o => negb (o =? 0) && (i =? o) | None => false end.

(** * Email addresses *)

Definition is_letter (c : ascii) : bool := (65 <=? code c) && (code c <=? 90) || (97 <=? code c) && (code c <=? 122).
Definition local_char (c : ascii) : bool := is_letter c || is_digit c || bool_decide (code c ∈ [46; 95; 37; 43; 45]).
Definition domain_char (c : ascii) : bool := is_letter c || is_digit c || bool_decide (code c ∈ [46; 45]).

(** [s.split(c, 1)]. *)
Fixpoint split_first (sep : Z) (l : list ascii) : option (list ascii * list ascii) :=
  match l with
  | [] => None
  | c :: l' => if code c =? sep then Some ([], l') else (λ p, (c :: p.1, p.2)) <$> split_first sep l'
  end.

(** At the last separator. *)
Definition split_last (sep : Z) (l : list ascii) : option (list ascii * list ascii) :=
  (λ p, (reverse p.2, reverse p.1)) <$> split_first sep (reverse l).

(** [^[a-zA-Z0-9._%+-]+@[a-zA-Z0-9.-]+\.[a-zA-Z]{2,}$]: no local character is an at
    sign and no letter a full stop, so the pattern can match in one way only. *)
Definition email_pattern (l : list ascii) : bool :=
  match split_first 64 l with
  | Some (local, rest) =>
      negb (bool_decide (local = [])) && forallb local_char local &&
      match split_last 46 rest with
      | Some (domain, top) =>
          negb (bool_decide (domain = [])) && forallb domain_char domain &&
          (2 <=? Z.of_nat (List.length top)) && forallb is_letter top
      | None => false
      end
  | None => false
  end.

Definition validate_email (email : string) : bool := blank email || email_pattern (chars email).

(** * Contacts *)

Definition validate_phone (phone : string) : bool := negb (blank phone) && validate_phone_format (chars phone).

(** Agencies and donors also test the length. *)
Definition validate_phone_20 (phone : string) : bool :=
  negb (blank phone) && negb (longer 20 phone) && validate_phone_format (chars phone).

Definition email_error (email : string) : bool := negb (blank email) && (longer 100 email || negb (validate_email email)).

Definition contact_errors (d : CatDB) (f : Form) (phone_valid : string → bool) (email : string) : list string :=
  err (required 255 (field f "address1_text")) "address1_text" ++
  err (longer 255 (field f "address2_text")) "address2_text" ++
  err (blank (field f "parish_code") || negb (present_in d (TParish (field f "parish_code")))) "parish_code" ++
  err (required 50 (field f "contact_name")) "contact_name" ++
  err (negb (phone_valid (field f "phone_no"))) "phone_no" ++
  err (email_error email) "email_text".

Definition contact_of (f : Form) (email : string) : Contact :=
  mkContact (field f "address1_text") (some_text (field f "address2_text")) (field f "parish_code")
    (upper (field f "contact_name")) (field f "phone_no") (some_text email).

Section forms.
Context {L : Locale}.

(** * Units of measure and categories *)

(** [form.get(k).strip() if form.get(k) else None]. *)
Definition comments_of (f : Form) : option string :=
  match f !! "comments_text"%string with Some s => if blank s then None else Some (strip s) | None => None end.

Definition comments_error (f : Form) : bool := match comments_of f with Some s => longer 300 s | None => false end.

Definition validate_uom_data (d : CatDB) (own : option string) (f : Form) : list string :=
  let code := upper (field f "uom_code") in
  let taken := existsb (λ u, bool_decide (db_upper (uo_uom_code u) = code) &&
                        match own with Some o => blank o || negb (bool_decide (uo_uom_code u = o)) | None => true end) (uoms d) in
  err (required 25 code || taken) "uom_code" ++
  err (required 60 (field f "uom_desc")) "uom_desc" ++
  err (comments_error f) "comments_text" ++
  err (negb (status_ok (field f "status_code"))) "status_code".

Definition validate_category_data (d : CatDB) (own : option Z) (f : Form) : list string :=
  let code := upper (field f "category_code") in
  let taken := existsb (λ c, bool_decide (db_upper (ca_category_code c) = code) && negb (is_own own (ca_category_id c)))
                 (categories d) in
  err (required 30 code || taken) "category_code" ++
  err (required 60 (field f "category_desc")) "category_desc" ++
  err (comments_error f) "comments_text" ++
  err (negb (status_ok (field f "status_code"))) "status_code".

(** * Custodians, warehouses and agencies *)

Definition validate_custodian_data (d : CatDB) (own : option Z) (f : Form) : list string :=
  let name := field f "custodian_name" in
  let taken := existsb (λ c, bool_decide (db_upper (ct_custodian_name c) = upper name) &&
                        negb (is_own own (ct_custodian_id c))) (custodians d) in
  err (required 120 name || taken) "custodian_name" ++
  contact_errors d f validate_phone (field f "email_text").

Definition TIER_CODES : list string := ["MAIN"; "LSA"; "HSA"]%string.

(** Type, donation intake and last-mile issue of a tier. *)
Definition tier_columns (tier : string) : option (string * bool * bool) :=
  if bool_decide (tier = "MAIN"%string) then Some ("MAIN-HUB"%string, true, false)
  else if bool_decide (tier = "LSA"%string) then Some ("SUB-HUB"%string, false, false)
  else if bool_decide (tier = "HSA"%string) then Some ("SUB-HUB"%string, true, true) else None.

Definition validate_warehouse_data (d : CatDB) (own : option Z) (f : Form) : list string :=
  let name := field f "warehouse_name" in
  let taken := existsb (λ w, bool_decide (db_upper (wr_warehouse_name w) = upper name) &&
                        negb (is_own own (wr_warehouse_id w))) (warehouses d) in
  let status := field f "status_code" in
  let reason := field f "reason_desc" in
  err (blank name || taken) "warehouse_name" ++
  err (negb (bool_decide (field f "tier_code" ∈ TIER_CODES))) "tier_code" ++
  contact_errors d f validate_phone (field f "email_text") ++
  err (match py_int (field f "custodian_id") with Some i => negb (present_in d (TCustodian i)) | None => true end) "custodian_id" ++
  err (negb (status_ok status)) "status_code" ++
  err (if bool_decide (status = "I"%string) then required 255 reason
       else bool_decide (status = "A"%string) && negb (blank reason)) "reason_desc".

Definition AGENCY_TYPES : list string := ["SHELTER"; "DISTRIBUTOR"]%string.

(** [int(s) if s else None]; [None] is the exception of [int]. *)
Definition int_or_none (s : string) : option (option Z) := if blank s then Some None else Some <$> py_int s.

(** Truth of an id. *)
Definition truthy (i : option Z) : bool := match i with Some z => negb (z =? 0) | None => false end.

Definition agency_email (f : Form) : string := lower (field f "email_text").

(** The fields in error, the warehouse and the event; [None] when [int] raises. *)
Definition validate_agency_data (d : CatDB) (own : option Z) (f : Form) : option (list string * option Z * option Z) :=
  let name := field f "agency_name" in
  let type := field f "agency_type" in
  let taken := existsb (λ a, bool_decide (ay_agency_name a = upper name) &&
                        match own with Some o => negb (ay_agency_id a =? o) | None => true end) (agencies d) in
  warehouse_id ← int_or_none (field f "warehouse_id");
  event_id ← int_or_none (field f "ineligible_event_id");
  let warehouse_error :=
    if bool_decide (type = "DISTRIBUTOR"%string)
    then match warehouse_id with Some w => negb (truthy (Some w)) || negb (present_in d (TWarehouse w)) | None => true end
    else bool_decide (type = "SHELTER"%string) && truthy warehouse_id in
  Some (err (required 120 name || taken) "agency_name" ++
        err (negb (bool_decide (type ∈ AGENCY_TYPES))) "agency_type" ++
        contact_errors d f validate_phone_20 (agency_email f) ++
        err warehouse_error "warehouse_id" ++
        err (negb (status_ok (field f "status_code"))) "status_code",
        if bool_decide (type = "SHELTER"%string) then None else warehouse_id, event_id).

(** * Donors *)

(** The SQL function [trim], which removes spaces only. *)
Fixpoint drop_blanks (l : list ascii) : list ascii :=
  match l with [] => [] | c :: l' => if code c =? 32 then drop_blanks l' else l end.
Definition db_trim (s : string) : string := of_chars (reverse (drop_blanks (reverse (drop_blanks (chars s))))).

Definition JAMAICA : Z := 388.

Definition donor_email (f : Form) : string := lower (field f "email_text").

Definition validate_donor_data (d : CatDB) (own : option Z) (f : Form) : list string :=
  let code := field f "donor_code" in
  let name := field f "donor_name" in
  let code_taken := existsb (λ x, bool_decide (db_upper (db_trim (dr_donor_code x)) = upper code) &&
                              negb (is_own own (dr_donor_id x))) (donors d) in
  let name_taken := existsb (λ x, bool_decide (db_upper (db_trim (dr_donor_name x)) = upper name) &&
                              negb (is_own own (dr_donor_id x))) (donors d) in
  let country := if blank (field f "country_id") then Some JAMAICA else py_int (field f "country_id") in
  err (required 16 code || negb (bool_decide (upper code = code)) || code_taken) "donor_code" ++
  err (required 255 name || name_taken) "donor_name" ++
  err (longer 30 (field f "org_type_desc")) "org_type_desc" ++
  err (required 255 (field f "address1_text")) "address1_text" ++
  err (longer 255 (field f "address2_text")) "address2_text" ++
  err (match country with Some i => negb (present_in d (TCountry i)) | None => true end) "country_id" ++
  err (negb (validate_phone_20 (field f "phone_no"))) "phone_no" ++
  err (email_error (donor_email f)) "email_text".

(** * Events *)

(** [closing] are the fields checked on creation only: the status, which the caller
    sets, and what goes with a closed event. *)
Definition closing_errors (status : string) (f : Form) : list string :=
  let closed := field f "closed_date" in
  let reason := field f "reason_desc" in
  err (negb (bool_decide (status ∈ ["A"; "C"]%string))) "status_code" ++
  if bool_decide (status = "C"%string) then
    err (match strptime closed with
         | None => true
         | Some c => if blank (field f "start_date") then false
                     else match strptime (field f "start_date") with Some s => c <? s | None => true end
         end) "closed_date" ++
    err (required 255 reason) "reason_desc"
  else if bool_decide (status = "A"%string) then
    err (negb (blank closed)) "closed_date" ++ err (negb (blank reason)) "reason_desc"
  else [].

Definition validate_event_data (today : Z) (status : option string) (f : Form) : list string :=
  err (negb (bool_decide (field f "event_type" ∈ EVENT_TYPES))) "event_type" ++
  err (match strptime (field f "start_date") with Some s => today <? s | None => true end) "start_date" ++
  err (required 60 (field f "event_name")) "event_name" ++
  err (required 255 (field f "event_desc")) "event_desc" ++
  err (blank (field f "impact_desc")) "impact_desc" ++
  match status with Some s => closing_errors s f | None => [] end.

(** * Items *)

(** [^[A-Z0-9\-_\.]+$]. *)
Definition code_char (c : ascii) : bool :=
  (65 <=? code c) && (code c <=? 90) || is_digit c || bool_decide (code c ∈ [45; 95; 46]).

Definition validate_item_code (s : string) : option string :=
  let code := upper s in
  if required 16 code || negb (forallb code_char (chars code)) then None else Some code.
Definition validate_item_name (s : string) : option string := if required 60 (upper s) then None else Some (upper s).
Definition validate_sku_code (s : string) : option string := if required 30 (upper s) then None else Some (upper s).

(** A positive number; NaN raises in the comparison, which only the last handler
    catches. *)
Definition validate_reorder_qty (q : NumField) : WebFailure + Z :=
  match q with
  | NoField | EmptyNum | BlankNum => inl (WRefused "Reorder Quantity is required")
  | BadNum => inl (WRefused "Reorder Quantity must be a valid number")
  | NaNum => inl WAborted
  | Num q => if q <=? 0 then inl (WRefused "Reorder Quantity must be greater than zero") else inr q
  end.

Definition validate_issuance_order (s : string) : bool := bool_decide (s ∈ ["FIFO"; "FEFO"; "LIFO"]%string).
Definition validate_comments (s : option string) : bool := match s with Some s => negb (longer 300 s) | None => true end.

Definition check_uniqueness (d : CatDB) (own : option Z) (code name sku : string) : list string :=
  let taken (g : ItemRow → string) s := existsb (λ i, bool_decide (g i = s) && negb (is_own own (im_item_id i))) (items d) in
  err (taken im_item_code code) "item_code" ++ err (taken im_item_name name) "item_name" ++
  err (taken im_sku_code sku) "sku_code".

(** [request.form.get(k) == 'on']. *)
Definition is_ticked (f : Form) (k : string) : bool := bool_decide (f !! k = Some "on"%string).

Definition item_status (f : Form) : string :=
  let s := default "A"%string (f !! "status_code"%string) in if status_ok s then s else "A"%string.

(** [r] or the exception of the next step. *)
Definition sum_bind {A B} (r : WebFailure + A) (k : A → WebFailure + B) : WebFailure + B :=
  match r with inl e => inl e | inr a => k a end.
Definition or_raise {A} (o : option A) (msg : string) : WebFailure + A := match o with Some a => inr a | None => inl (WRefused msg) end.
Definition guard_that (b : bool) (msg : string) : WebFailure + unit := if b then inr tt else inl (WRefused msg).

(** The item the form describes, but for its key and audit columns, or the first
    exception of the checks. *)
Definition item_of_form (d : CatDB) (own : option Z) (f : Form) (reorder : NumField) : WebFailure + (Z → Audit → ItemRow) :=
  sum_bind (or_raise (validate_item_code (field f "item_code")) "Item Code") (λ code,
  sum_bind (or_raise (validate_item_name (field f "item_name")) "Item Name") (λ name,
  sum_bind (or_raise (validate_sku_code (field f "sku_code")) "SKU Code") (λ sku,
  sum_bind (validate_reorder_qty reorder) (λ qty,
  sum_bind (guard_that (negb (blank (field f "item_desc"))) "Item Description is required") (λ _,
  sum_bind (or_raise (c ← f !! "category_id"%string ≫= py_int; if c =? 0 then None else Some c) "Category is required") (λ category,
  sum_bind (guard_that (negb (blank (field f "default_uom_code"))) "Default Unit of Measure is required") (λ _,
  let order := default "FIFO"%string (f !! "issuance_order"%string) in
  sum_bind (guard_that (validate_issuance_order order) "Issuance Order") (λ _,
  let comments := some_text (field f "comments_text") in
  sum_bind (guard_that (validate_comments comments) "Comments must not exceed 300 characters") (λ _,
  sum_bind (guard_that (bool_decide (check_uniqueness d own code name sku = [])) "Validation failed") (λ _,
  inr (λ id a, mkItemRow id code name sku category (field f "item_desc") qty (field f "default_uom_code")
    (is_ticked f "units_size_vary_flag") (some_text (field f "usage_desc")) (some_text (field f "storage_desc"))
    (is_ticked f "is_batched_flag") (is_ticked f "can_expire_flag") order comments (item_status f) a))))))))))).

(** Whether no stock and no reservation keeps the item. *)
Definition check_item_can_be_inactivated (d : CatDB) (item_id : Z) : bool :=
  let rows := filter (λ s : Z * Z * Z, s.1.1 = item_id) (cd_stock d) in
  (lsum (λ s, s.1.2) rows <=? 0) && (lsum (λ s, s.2) rows <=? 0).
End forms.
