(* ===== verification/CatalogueScreens.v ===== *)
(** The catalogue screens: creating, editing, deleting and (de)activating the rows of
    the master tables (app/features/uom.py, item_categories.py, custodians.py,
    warehouses.py, agencies.py, donors.py, events.py, items.py).

    A screen is open to the users who have its feature.  Form fields are taken as the
    form sends them; message texts are cut short and the pages are left out.  A number
    too large for an integer column is one the tables do not have. *)
From stdpp Require Import strings.
From Stdlib Require Import Ascii String.
From S2P Require Import Prelude PyStr PySort ParamValidation Schema Columns Dates PathSafety Phone AccessControl Web Catalogue CatalogueForms.

Record CatCtx : Type := mkCatCtx {
  kx_user : option SessionUser;
  kx_today : Z;
  kx_now : Z;
  kx_new_id : Z                 (* the serial a new row gets *)
}.

Section screens.
Context {L : Locale} (kx : CatCtx).

Abbreviation today := (kx_today kx).
Abbreviation now := (kx_now kx).
Abbreviation CM := (WM CatDB).

(** [@login_required] and [@feature_required]. *)
Definition open_screen (feature : string) : CM unit := on_web_cache (feature_required (kx_user kx) feature).

Definition the_tables : CM CatDB := on_web_db id.

(** [add_audit_fields] raises without a user name. *)
Definition cat_audit_user : BM CatDB string := m_some (u ← kx_user kx; audit_id (su_user_name u)) WCrashed.

(** The same where the [ValueError] is caught and reported. *)
Definition value_error_user : BM CatDB string := m_some (u ← kx_user kx; audit_id (su_user_name u)) (WRefused "ValueError").

(** What the forms share: [get_or_404], the version check and the validation. *)
Definition fresh_version (f : Form) (a : Audit) : CM unit :=
  m_fail_if (negb (bool_decide (submitted_version f = Some (version_nbr a)))) (WRefused "modified by another user").

Definition valid_form (errors : list string) : CM unit :=
  m_fail_if (negb (bool_decide (errors = []))) (WRefused "invalid form").

(** * Units of measure *)

Definition uom_row (f : Form) (a : Audit) : CatRow :=
  RUom (mkUomRow (upper (field f "uom_code")) (field f "uom_desc") (comments_of f) (field f "status_code") a).

Definition create_uom (f : Form) : CM unit :=
  open_screen "uom_management";;
  d ← the_tables;
  valid_form (validate_uom_data d None f);;
  try_transaction (u ← cat_audit_user; insert_row today (uom_row f (new_audit u now))).

Definition edit_uom (uom_code : string) (f : Form) : CM unit :=
  open_screen "uom_management";;
  d ← the_tables;
  r ← m_some (find_uom d uom_code) WNotFound;
  fresh_version f (uo_audit r);;
  valid_form (validate_uom_data d (Some uom_code) f);;
  try_transaction (u ← cat_audit_user; update_row today (TUom uom_code) (uom_row f (touch u now (uo_audit r)))).

(** The rows of some other tables, by name. *)
Definition used_in (d : CatDB) (tables : list string) (t : Target) : bool :=
  existsb (λ p : (string * Z) * Target, bool_decide (p.1.1 ∈ tables) && bool_decide (p.2 = t)) (map_to_list (cd_hard d)).

Definition check_uom_references (d : CatDB) (uom_code : string) : bool :=
  existsb (λ i, bool_decide (im_default_uom_code i = uom_code)) (items d) ||
  used_in d ["inventory"; "dnintake_item"; "reliefpkg_item"; "transfer_item"]%string (TUom uom_code).

Definition delete_uom (uom_code : string) : CM unit :=
  open_screen "uom_management";;
  d ← the_tables;
  m_some (find_uom d uom_code) WNotFound;;
  m_fail_if (check_uom_references d uom_code) (WRefused "in use");;
  try_transaction (delete_row (TUom uom_code)).

(** * Item categories *)

Definition create_category (f : Form) : CM unit :=
  open_screen "item_category_management";;
  d ← the_tables;
  valid_form (validate_category_data d None f);;
  try_transaction (u ← cat_audit_user;
    insert_row today (RCategory (mkCategoryRow (kx_new_id kx) "GOODS" (upper (field f "category_code")) (field f "category_desc")
      (comments_of f) (field f "status_code") (new_audit u now)))).

Definition edit_category (category_id : Z) (f : Form) : CM unit :=
  open_screen "item_category_management";;
  d ← the_tables;
  r ← m_some (find_category d category_id) WNotFound;
  fresh_version f (ca_audit r);;
  valid_form (validate_category_data d (Some category_id) f);;
  try_transaction (u ← cat_audit_user;
    update_row today (TCategory category_id)
      (RCategory (mkCategoryRow category_id (ca_category_type r) (upper (field f "category_code")) (field f "category_desc")
        (comments_of f) (field f "status_code") (touch u now (ca_audit r))))).

Definition delete_category (category_id : Z) : CM unit :=
  open_screen "item_category_management";;
  d ← the_tables;
  m_some (find_category d category_id) WNotFound;;
  m_fail_if (existsb (λ i, im_category_id i =? category_id) (items d)) (WRefused "in use");;
  try_transaction (delete_row (TCategory category_id)).

(** * Custodians *)

Definition custodian_row (id : Z) (f : Form) (a : Audit) : CatRow :=
  RCustodian (mkCustodianRec id (upper (field f "custodian_name"))
    (strip (default "ODPEM"%string (f !! "custodian_kind"%string))) (contact_of f (field f "email_text")) a).

Definition create_custodian (f : Form) : CM unit :=
  open_screen "custodian_management";;
  d ← the_tables;
  valid_form (validate_custodian_data d None f);;
  try_transaction (u ← cat_audit_user; insert_row today (custodian_row (kx_new_id kx) f (new_audit u now))).

Definition edit_custodian (custodian_id : Z) (f : Form) : CM unit :=
  open_screen "custodian_management";;
  d ← the_tables;
  r ← m_some (find_custodian d custodian_id) WNotFound;
  fresh_version f (ct_audit r);;
  valid_form (validate_custodian_data d (Some custodian_id) f);;
  try_transaction (u ← cat_audit_user;
    update_row today (TCustodian custodian_id) (custodian_row custodian_id f (touch u now (ct_audit r)))).

Definition delete_custodian (custodian_id : Z) : CM unit :=
  open_screen "custodian_management";;
  d ← the_tables;
  m_some (find_custodian d custodian_id) WNotFound;;
  m_fail_if (existsb (λ w, wr_custodian_id w =? custodian_id) (warehouses d)) (WRefused "referenced");;
  try_transaction (delete_row (TCustodian custodian_id)).

(** * Warehouses *)

(** The columns of the form beside a type, a tier and its two flags. *)
Definition warehouse_row (id : Z) (f : Form) (type : string) (tier : option string) (intake lastmile : option bool)
    (custodian_id : Z) (a : Audit) : CatRow :=
  RWarehouse (mkWarehouseRec id (upper (field f "warehouse_name")) type tier intake lastmile
    (contact_of f (field f "email_text")) custodian_id (field f "status_code") (some_text (field f "reason_desc")) a).

(** [safe_id] of a form without a usable id is zero. *)
Definition form_custodian (f : Form) : BM CatDB Z :=
  let custodian_id := safe_id (f !! "custodian_id"%string) 0 in
  m_fail_if (custodian_id <=? 0) (WRefused "Invalid custodian selected");; mret custodian_id.

Definition create_warehouse (f : Form) : CM unit :=
  open_screen "warehouse_management";;
  d ← the_tables;
  valid_form (validate_warehouse_data d None f);;
  try_transaction (
    match tier_columns (field f "tier_code") with
    | Some (type, intake, lastmile) =>
        custodian_id ← form_custodian f;
        u ← cat_audit_user;
        insert_row today (warehouse_row (kx_new_id kx) f type (Some (field f "tier_code")) (Some intake) (Some lastmile)
          custodian_id (new_audit u now))
    | None => m_fail WCrashed
    end).

Definition edit_warehouse (warehouse_id : Z) (f : Form) : CM unit :=
  open_screen "warehouse_management";;
  d ← the_tables;
  r ← m_some (find_warehouse d warehouse_id) WNotFound;
  fresh_version f (wr_audit r);;
  valid_form (validate_warehouse_data d (Some warehouse_id) f);;
  try_transaction (
    let tier := field f "tier_code" in
    custodian_id ← form_custodian f;
    u ← cat_audit_user;
    let a := touch u now (wr_audit r) in
    update_row today (TWarehouse warehouse_id)
      (match tier_columns tier with
       | Some (type, intake, lastmile) =>
           warehouse_row warehouse_id f type (Some tier) (Some intake) (Some lastmile) custodian_id a
       | None => warehouse_row warehouse_id f (wr_warehouse_type r) (if blank tier then wr_tier_code r else Some tier)
                   (wr_allow_donation_intake r) (wr_allow_lastmile_issue r) custodian_id a
       end)).

Definition delete_warehouse (warehouse_id : Z) : CM unit :=
  open_screen "warehouse_management";;
  d ← the_tables;
  m_some (find_warehouse d warehouse_id) WNotFound;;
  m_fail_if (used_in d ["inventory"%string] (TWarehouse warehouse_id)) (WRefused "referenced in inventory records");;
  m_fail_if (used_in d ["user_warehouse"%string] (TWarehouse warehouse_id)) (WRefused "assigned to users");;
  try_transaction (delete_row (TWarehouse warehouse_id)).

(** * Agencies *)

Definition agency_row (id : Z) (f : Form) (warehouse_id event_id : option Z) (a : Audit) : CatRow :=
  RAgency (mkAgencyRec id (upper (field f "agency_name")) (field f "agency_type") (contact_of f (agency_email f))
    event_id warehouse_id (field f "status_code") a).

(** Only an [IntegrityError] is caught here. *)
Definition create_agency (f : Form) : CM unit :=
  open_screen "agency_management";;
  d ← the_tables;
  v ← m_some (validate_agency_data d None f) WCrashed;
  valid_form v.1.1;;
  transaction (u ← cat_audit_user; insert_row today (agency_row (kx_new_id kx) f v.1.2 v.2 (new_audit u now))).

Definition edit_agency (agency_id : Z) (f : Form) : CM unit :=
  open_screen "agency_management";;
  d ← the_tables;
  r ← m_some (find_agency d agency_id) WNotFound;
  fresh_version f (ay_audit r);;
  v ← m_some (validate_agency_data d (Some agency_id) f) WCrashed;
  valid_form v.1.1;;
  transaction (u ← cat_audit_user;
    update_row today (TAgency agency_id) (agency_row agency_id f v.1.2 v.2 (touch u now (ay_audit r)))).

(** Draft to part filled. *)
Definition ACTIVE_REQUEST_STATUSES : list Z := [0; 1; 2; 3; 4; 5].

Definition has_active_requests (d : CatDB) (agency_id : Z) : bool :=
  existsb (λ p : Z * Z, (p.1 =? agency_id) && bool_decide (p.2 ∈ ACTIVE_REQUEST_STATUSES)) (cd_requests d).

Definition set_ay_status (s : string) (a : Audit) (r : AgencyRec) : CatRow :=
  RAgency (mkAgencyRec (ay_agency_id r) (ay_agency_name r) (ay_agency_type r) (ay_contact r) (ay_ineligible_event_id r)
    (ay_warehouse_id r) s a).

Definition deactivate_agency (agency_id : Z) : CM unit :=
  open_screen "agency_management";;
  d ← the_tables;
  r ← m_some (find_agency d agency_id) WNotFound;
  m_fail_if (has_active_requests d agency_id) (WRefused "has active relief requests");;
  try_transaction (u ← cat_audit_user; update_row today (TAgency agency_id) (set_ay_status "I" (touch u now (ay_audit r)) r)).

(** * Donors *)

(** The code is read from the form on creation only. *)
Definition donor_row (id : Z) (donor_code : string) (f : Form) (a : Audit) : CatRow :=
  RDonor (mkDonorRow id donor_code (upper (field f "donor_name")) (some_text (field f "org_type_desc"))
    (field f "address1_text") (some_text (field f "address2_text")) (safe_id (f !! "country_id"%string) JAMAICA)
    (field f "phone_no") (some_text (donor_email f)) a).

Definition create_donor (f : Form) : CM unit :=
  open_screen "donor_management";;
  d ← the_tables;
  valid_form (validate_donor_data d None f);;
  try_transaction (u ← cat_audit_user;
    insert_row today (donor_row (kx_new_id kx) (upper (field f "donor_code")) f (new_audit u now))).

Definition edit_donor (donor_id : Z) (f : Form) : CM unit :=
  open_screen "donor_management";;
  d ← the_tables;
  r ← m_some (find_donor d donor_id) WNotFound;
  fresh_version f (dr_audit r);;
  valid_form (validate_donor_data d (Some donor_id) f);;
  try_transaction (u ← cat_audit_user;
    update_row today (TDonor donor_id) (donor_row donor_id (dr_donor_code r) f (touch u now (dr_audit r)))).

Definition delete_donor (donor_id : Z) : CM unit :=
  open_screen "donor_management";;
  d ← the_tables;
  m_some (find_donor d donor_id) WNotFound;;
  m_fail_if (used_in d ["donation"%string] (TDonor donor_id)) (WRefused "referenced by donations");;
  try_transaction (delete_row (TDonor donor_id)).

(** * Events *)

(** The open event the form describes. *)
Definition event_row (id start : Z) (f : Form) (a : Audit) : CatRow :=
  REvent (mkEventRow id (field f "event_type") start (field f "event_name") (field f "event_desc") (field f "impact_desc")
    "A" None None a).

Definition form_start (f : Form) : BM CatDB Z := m_some (strptime (field f "start_date")) WCrashed.

Definition create_event (f : Form) : CM unit :=
  open_screen "event_management";;
  valid_form (validate_event_data today (Some "A"%string) f);;
  try_transaction (start ← form_start f; u ← cat_audit_user; insert_row today (event_row (kx_new_id kx) start f (new_audit u now))).

Definition edited_event (start : Z) (f : Form) (a : Audit) (r : EventRow) : CatRow :=
  REvent (mkEventRow (ev_event_id r) (field f "event_type") start (field f "event_name") (field f "event_desc")
    (field f "impact_desc") (ev_status_code r) (ev_closed_date r) (ev_reason_desc r) a).

Definition edit_event (event_id : Z) (f : Form) : CM unit :=
  open_screen "event_management";;
  d ← the_tables;
  r ← m_some (find_event d event_id) WNotFound;
  m_fail_if (bool_decide (ev_status_code r = "C"%string)) (WRefused "Closed events cannot be edited");;
  m_fail_if (negb (safe_version_number (f !! "version_nbr"%string) 0 =? version_nbr (ev_audit r))) (WRefused "modified by another user");;
  valid_form (validate_event_data today None f);;
  try_transaction (
    start ← form_start f; u ← cat_audit_user;
    update_row today (TEvent event_id) (edited_event start f (touch u now (ev_audit r)) r)).

Definition closed_event (closed : Z) (reason : string) (a : Audit) (r : EventRow) : CatRow :=
  REvent (mkEventRow (ev_event_id r) (ev_event_type r) (ev_start_date r) (ev_event_name r) (ev_event_desc r)
    (ev_impact_desc r) "C" (Some closed) (Some reason) a).

(** A [ValueError], that of the user name included, is reported as a bad date. *)
Definition close_event (event_id : Z) (f : Form) : CM unit :=
  open_screen "event_management";;
  let reason := field f "reason_desc" in
  m_fail_if (blank reason) (WRefused "Reason for closure is required");;
  try_transaction (
    closed ← m_some (if blank (field f "closed_date") then Some today else strptime (field f "closed_date"))
               (WRefused "Invalid date format");
    d ← m_get;
    r ← m_some (find_event d event_id) (WRefused "Event not found");
    m_fail_if (bool_decide (ev_status_code r = "C"%string)) (WRefused "Event is already closed");;
    m_fail_if (closed <? ev_start_date r) (WRefused "Closed date cannot be earlier than start date");;
    u ← value_error_user;
    update_row today (TEvent event_id) (closed_event closed reason (touch u now (ev_audit r)) r)).

Definition delete_event (event_id : Z) : CM unit :=
  open_screen "event_management";;
  d ← the_tables;
  m_some (find_event d event_id) WNotFound;;
  try_transaction (delete_row (TEvent event_id)).

(** * Items *)

(** What the column makes of the reorder quantity. *)
Definition rounded (r : ItemRow) : BM CatDB CatRow :=
  q ← m_some (numeric 12 (im_reorder_qty r)) WCrashed;
  mret (RItem (mkItemRow (im_item_id r) (im_item_code r) (im_item_name r) (im_sku_code r) (im_category_id r) (im_item_desc r) q
    (im_default_uom_code r) (im_units_size_vary_flag r) (im_usage_desc r) (im_storage_desc r) (im_is_batched_flag r)
    (im_can_expire_flag r) (im_issuance_order r) (im_comments_text r) (im_status_code r) (im_audit r))).

Definition read_item (own : option Z) (f : Form) (reorder : NumField) : BM CatDB (Z → Audit → ItemRow) :=
  λ d, (d, item_of_form d own f reorder).

Definition create_item (f : Form) (reorder : NumField) : CM unit :=
  open_screen "item_management";;
  try_transaction (
    r ← read_item None f reorder;
    u ← value_error_user;
    r ← rounded (r (kx_new_id kx) (new_audit u now));
    insert_row today r).

Definition edit_catalogue_item (item_id : Z) (f : Form) (reorder : NumField) : CM unit :=
  open_screen "item_management";;
  d ← the_tables;
  r ← m_some (find_catalogue_item d item_id) WNotFound;
  fresh_version f (im_audit r);;
  try_transaction (
    i ← read_item (Some item_id) f reorder;
    u ← value_error_user;
    r ← rounded (i item_id (touch u now (im_audit r)));
    update_row today (TItem item_id) r).

Definition set_im_status (s : string) (a : Audit) (r : ItemRow) : CatRow :=
  RItem (mkItemRow (im_item_id r) (im_item_code r) (im_item_name r) (im_sku_code r) (im_category_id r) (im_item_desc r)
    (im_reorder_qty r) (im_default_uom_code r) (im_units_size_vary_flag r) (im_usage_desc r) (im_storage_desc r)
    (im_is_batched_flag r) (im_can_expire_flag r) (im_issuance_order r) (im_comments_text r) s a).

Definition inactivate_item (item_id : Z) : CM unit :=
  open_screen "item_management";;
  d ← the_tables;
  r ← m_some (find_catalogue_item d item_id) WNotFound;
  m_fail_if (bool_decide (im_status_code r = "I"%string)) (WRefused "already inactive");;
  m_fail_if (negb (check_item_can_be_inactivated d item_id)) (WRefused "has stock or reservations");;
  try_transaction (u ← cat_audit_user; update_row today (TItem item_id) (set_im_status "I" (touch u now (im_audit r)) r)).

Definition activate_item (item_id : Z) : CM unit :=
  open_screen "item_management";;
  d ← the_tables;
  r ← m_some (find_catalogue_item d item_id) WNotFound;
  m_fail_if (bool_decide (im_status_code r = "A"%string)) (WRefused "already active");;
  try_transaction (u ← cat_audit_user; update_row today (TItem item_id) (set_im_status "A" (touch u now (im_audit r)) r)).

(** * The calls *)

Inductive CatCall : Type :=
| CreateUom (f : Form) | EditUom (code : string) (f : Form) | DeleteUom (code : string)
| CreateCategory (f : Form) | EditCategory (id : Z) (f : Form) | DeleteCategory (id : Z)
| CreateCustodian (f : Form) | EditCustodian (id : Z) (f : Form) | DeleteCustodian (id : Z)
| CreateWarehouse (f : Form) | EditWarehouse (id : Z) (f : Form) | DeleteWarehouse (id : Z)
| CreateAgency (f : Form) | EditAgency (id : Z) (f : Form) | DeactivateAgency (id : Z)
| CreateDonor (f : Form) | EditDonor (id : Z) (f : Form) | DeleteDonor (id : Z)
| CreateEvent (f : Form) | EditEvent (id : Z) (f : Form) | CloseEvent (id : Z) (f : Form) | DeleteEvent (id : Z)
| CreateItem (f : Form) (reorder : NumField) | EditItem (id : Z) (f : Form) (reorder : NumField)
| InactivateItem (id : Z) | ActivateItem (id : Z).

Definition cat_call (call : CatCall) : CM unit :=
  match call with
  | CreateUom f => create_uom f | EditUom c f => edit_uom c f | DeleteUom c => delete_uom c
  | CreateCategory f => create_category f | EditCategory i f => edit_category i f | DeleteCategory i => delete_category i
  | CreateCustodian f => create_custodian f | EditCustodian i f => edit_custodian i f | DeleteCustodian i => delete_custodian i
  | CreateWarehouse f => create_warehouse f | EditWarehouse i f => edit_warehouse i f | DeleteWarehouse i => delete_warehouse i
  | CreateAgency f => create_agency f | EditAgency i f => edit_agency i f | DeactivateAgency i => deactivate_agency i
  | CreateDonor f => create_donor f | EditDonor i f => edit_donor i f | DeleteDonor i => delete_donor i
  | CreateEvent f => create_event f | EditEvent i f => edit_event i f | CloseEvent i f => close_event i f
  | DeleteEvent i => delete_event i
  | CreateItem f q => create_item f q | EditItem i f q => edit_catalogue_item i f q
  | InactivateItem i => inactivate_item i | ActivateItem i => activate_item i
  end.

(** The feature that opens the screen of a call. *)
Definition feature_of_call (call : CatCall) : string :=
  match call with
  | CreateUom _ | EditUom _ _ | DeleteUom _ => "uom_management"
  | CreateCategory _ | EditCategory _ _ | DeleteCategory _ => "item_category_management"
  | CreateCustodian _ | EditCustodian _ _ | DeleteCustodian _ => "custodian_management"
  | CreateWarehouse _ | EditWarehouse _ _ | DeleteWarehouse _ => "warehouse_management"
  | CreateAgency _ | EditAgency _ _ | DeactivateAgency _ => "agency_management"
  | CreateDonor _ | EditDonor _ _ | DeleteDonor _ => "donor_management"
  | CreateEvent _ | EditEvent _ _ | CloseEvent _ _ | DeleteEvent _ => "event_management"
  | CreateItem _ _ | EditItem _ _ _ | InactivateItem _ | ActivateItem _ => "item_management"
  end.
End screens.
