(* ===== verification/CatalogueLists.v ===== *)
(** The pages of the catalogue that only read: the lists, with their tabs, search and
    counts, and the pages of one row.  Rows with the same sort key come in no order of
    their own; the donations on a donor's page are another component's. *)
From stdpp Require Import strings.
From Stdlib Require Import Ascii String.
From S2P Require Import Prelude PyStr PySort ParamValidation Schema Columns AccessControl Web Catalogue CatalogueForms CatalogueScreens.

Record CatList (A : Type) : Type := mkCatList {
  lp_rows : list A;
  lp_counts : list (string * Z)
}.
Arguments mkCatList {A} _ _.
Arguments lp_rows {A} _.
Arguments lp_counts {A} _.

(** [request.args]. *)
Definition arg (q : Form) (k default_value : string) : string := default default_value (q !! k).

Definition count_rows {A} (p : A → bool) (l : list A) : Z := Z.of_nat (List.length (List.filter p l)).

Section lists.
Context {L : Locale} (kx : CatCtx).

Abbreviation CM := (WM CatDB).

(** [query.filter(or_(c.ilike(f'%{q}%'), ...))], none without a search text. *)
Definition matches_search (q : string) (columns : list (option string)) : bool :=
  blank q || existsb (λ c, match c with Some s => db_ilike ("%" +:+ q +:+ "%") s | None => false end) columns.

(** The tab of the page: two have a status, any other shows all. *)
Definition on_status_tab (filter second : string) (code status : string) : bool :=
  if bool_decide (filter = "active"%string) then bool_decide (status = "A"%string)
  else if bool_decide (filter = second) then bool_decide (status = code) else true.

(** The page of the rows a predicate keeps, in the order of a key. *)
Definition list_page {A} (rows : list A) (keep : A → bool) (key : A → list Z) (counts : list (string * Z)) : CatList A :=
  mkCatList (sorted_by key (List.filter keep rows)) counts.

Definition search_of (q : Form) : string := strip (arg q "search" "").

(** How many rows there are, and with each of two statuses. *)
Definition status_counts {A} (status : A → string) (code second : string) (rows : list A) : list (string * Z) :=
  [("total"%string, Z.of_nat (List.length rows));
   ("active"%string, count_rows (λ r, bool_decide (status r = "A"%string)) rows);
   (second, count_rows (λ r, bool_decide (status r = code)) rows)].

Definition list_uom (q : Form) : CM (CatList UomRow) :=
  open_screen kx "uom_management";;
  d ← the_tables;
  mret (list_page (uoms d)
    (λ u, on_status_tab (arg q "filter" "all") "inactive" "I" (uo_status_code u) &&
          matches_search (search_of q) [Some (uo_uom_code u); Some (uo_uom_desc u)])
    (λ u, collate (uo_uom_code u)) (status_counts uo_status_code "I" "inactive" (uoms d))).

Definition list_categories (q : Form) : CM (CatList CategoryRow) :=
  open_screen kx "item_category_management";;
  d ← the_tables;
  mret (list_page (categories d)
    (λ c, on_status_tab (arg q "filter" "all") "inactive" "I" (ca_status_code c) &&
          matches_search (search_of q) [Some (ca_category_code c); Some (ca_category_desc c)])
    (λ c, collate (ca_category_code c)) (status_counts ca_status_code "I" "inactive" (categories d))).

Definition list_custodians (q : Form) : CM (CatList CustodianRec) :=
  open_screen kx "custodian_management";;
  d ← the_tables;
  mret (list_page (custodians d)
    (λ c, matches_search (search_of q) [Some (ct_custodian_name c); Some (co_contact_name (ct_contact c));
                                        Some (co_address1_text (ct_contact c))])
    (λ c, collate (ct_custodian_name c)) [("total"%string, Z.of_nat (List.length (custodians d)))]).

Definition list_warehouses (q : Form) : CM (CatList WarehouseRec) :=
  open_screen kx "warehouse_management";;
  d ← the_tables;
  mret (list_page (warehouses d)
    (λ w, on_status_tab (lower (strip (arg q "filter" "all"))) "inactive" "I" (wr_status_code w) &&
          matches_search (search_of q) [Some (wr_warehouse_name w); Some (co_address1_text (wr_contact w));
                                        Some (co_contact_name (wr_contact w))])
    (λ w, collate (wr_warehouse_name w)) (status_counts wr_status_code "I" "inactive" (warehouses d))).

Definition is_or_blank (chosen value : string) : bool := blank chosen || bool_decide (value = chosen).

Definition list_agencies (q : Form) : CM (CatList AgencyRec) :=
  open_screen kx "agency_management";;
  d ← the_tables;
  mret (list_page (agencies d)
    (λ a, on_status_tab (arg q "filter" "all") "inactive" "I" (ay_status_code a) &&
          is_or_blank (arg q "agency_type" "") (ay_agency_type a) &&
          is_or_blank (arg q "parish" "") (co_parish_code (ay_contact a)) &&
          matches_search (search_of q) [Some (ay_agency_name a); Some (co_contact_name (ay_contact a));
                                        Some (co_phone_no (ay_contact a))])
    (λ a, collate (ay_agency_name a))
    (status_counts ay_status_code "I" "inactive" (agencies d) ++
     [("shelter"%string, count_rows (λ a, bool_decide (ay_agency_type a = "SHELTER"%string)) (agencies d));
      ("distributor"%string, count_rows (λ a, bool_decide (ay_agency_type a = "DISTRIBUTOR"%string)) (agencies d))])).

Definition list_donors (q : Form) : CM (CatList DonorRow) :=
  open_screen kx "donor_management";;
  d ← the_tables;
  let page := list_page (donors d)
    (λ x, matches_search (search_of q) [Some (dr_donor_code x); Some (dr_donor_name x); dr_org_type_desc x;
                                        Some (dr_address1_text x); Some (dr_phone_no x); dr_email_text x])
    (λ x, collate (dr_donor_name x)) [] in
  mret (mkCatList (lp_rows page)
    [("total"%string, Z.of_nat (List.length (donors d))); ("filtered"%string, Z.of_nat (List.length (lp_rows page)))]).

(** The latest first. *)
Definition list_events (q : Form) : CM (CatList EventRow) :=
  open_screen kx "event_management";;
  d ← the_tables;
  mret (list_page (events d)
    (λ e, on_status_tab (lower (strip (arg q "filter" "all"))) "closed" "C" (ev_status_code e) &&
          matches_search (search_of q) [Some (ev_event_name e); Some (ev_event_desc e); Some (ev_impact_desc e)])
    (λ e, [- ev_start_date e]) (status_counts ev_status_code "C" "closed" (events d))).

(** ['true'] and ['false'] choose, any other text does not. *)
Definition flag_filter (s : string) (flag : bool) : bool :=
  if bool_decide (s = "true"%string) then flag else if bool_decide (s = "false"%string) then negb flag else true.

(** A category that is not a number is left out. *)
Definition category_filter (s : string) (category_id : Z) : bool :=
  if blank s then true else match py_int s with Some c => category_id =? c | None => true end.

Definition list_items (q : Form) : CM (CatList ItemRow) :=
  open_screen kx "item_management";;
  d ← the_tables;
  mret (list_page (items d)
    (λ i, on_status_tab (arg q "filter" "active") "inactive" "I" (im_status_code i) &&
          matches_search (search_of q) [Some (im_item_code i); Some (im_item_name i); Some (im_sku_code i); Some (im_item_desc i)] &&
          category_filter (strip (arg q "category" "")) (im_category_id i) &&
          flag_filter (strip (arg q "is_batched" "")) (im_is_batched_flag i) &&
          flag_filter (strip (arg q "can_expire" "")) (im_can_expire_flag i))
    (λ i, collate (im_item_name i))
    (status_counts im_status_code "I" "inactive" (items d) ++
     [("batched"%string, count_rows (λ i, im_is_batched_flag i && bool_decide (im_status_code i = "A"%string)) (items d));
      ("expirable"%string, count_rows (λ i, im_can_expire_flag i && bool_decide (im_status_code i = "A"%string)) (items d))])).

(** * Pages of one row *)

(** [get_or_404]. *)
Definition one_row {A} (feature : string) (find : CatDB → option A) : CM A :=
  open_screen kx feature;; d ← the_tables; m_some (find d) WNotFound.

(** With it, whether the delete button is shown. *)
Definition view_uom (code : string) : CM (UomRow * bool) :=
  u ← one_row "uom_management" (λ d, find_uom d code); d ← the_tables; mret (u, check_uom_references d code).

(** With the number of its items. *)
Definition view_category (id : Z) : CM (CategoryRow * Z) :=
  c ← one_row "item_category_management" (λ d, find_category d id);
  d ← the_tables;
  mret (c, count_rows (λ i, im_category_id i =? id) (items d)).

Definition view_custodian (id : Z) : CM CustodianRec := one_row "custodian_management" (λ d, find_custodian d id).
Definition view_warehouse (id : Z) : CM WarehouseRec := one_row "warehouse_management" (λ d, find_warehouse d id).
Definition view_event (id : Z) : CM EventRow := one_row "event_management" (λ d, find_event d id).
Definition view_item (id : Z) : CM ItemRow := one_row "item_management" (λ d, find_catalogue_item d id).

(** With the number of its relief requests. *)
Definition view_agency (id : Z) : CM (AgencyRec * Z) :=
  a ← one_row "agency_management" (λ d, find_agency d id);
  d ← the_tables;
  mret (a, count_rows (λ p : Z * Z, p.1 =? id) (cd_requests d)).

Definition view_donor (id : Z) : CM (DonorRow * string) :=
  x ← one_row "donor_management" (λ d, find_donor d id);
  d ← the_tables;
  mret (x, match cd_rows d !! TCountry (dr_country_id x) with Some (RCountry _ n) => n | _ => "Unknown"%string end).
End lists.
