(* ===== verification/CatalogueProofs.v ===== *)
(** The store of the catalogue: what a flush accepts and leaves, the three ways a call
    changes the tables, and that each keeps them sound. *)
From stdpp Require Import strings.
From S2P Require Import Prelude PyStr PySort ParamValidation Schema Columns AccessControl Web Catalogue CatalogueForms CatalogueScreens.

(** * Soundness of the tables *)

Section sound.
Context {L : Locale}.

(** What the constraints say of one row; [CURRENT_DATE] is that of its writing. *)
Definition sound_row (d : CatDB) (t : Target) (r : CatRow) : Prop :=
  row_target r = t ∧ row_fits r = true ∧ (∃ today, row_checks today r = true) ∧
  (∀ u, u ∈ row_refs r ++ row_null_refs r → present_in d u = true).

Definition unique_rows (d : CatDB) : Prop := ∀ t1 t2 r1 r2 u,
  cd_rows d !! t1 = Some r1 → cd_rows d !! t2 = Some r2 → t1 ≠ t2 → u ∈ row_unique r1 → u ∉ row_unique r2.

Definition links_resolve (d : CatDB) : Prop := ∀ k t,
  cd_hard d !! k = Some t ∨ cd_soft d !! k = Some t → present_in d t = true.

Definition catalogue_sound (d : CatDB) : Prop :=
  map_Forall (sound_row d) (cd_rows d) ∧ unique_rows d ∧ links_resolve d.

(** * Reading the tables *)

Lemma present_some d t : present_in d t = true ↔ ∃ r, cd_rows d !! t = Some r.
Proof. unfold present_in. destruct (cd_rows d !! t); simpl; naive_solver. Qed.

Lemma elem_of_cat_rows d r : r ∈ cat_rows d ↔ ∃ t, cd_rows d !! t = Some r.
Proof.
  unfold cat_rows. rewrite list_elem_of_fmap. split.
  - intros ([t r'] & -> & H). exists t. by apply elem_of_map_to_list in H.
  - intros (t & H). exists (t, r). split; [done|]. by apply elem_of_map_to_list.
Qed.

Lemma rows_without (g : CatRow → list Target) d t :
  existsb (λ r, bool_decide (t ∈ g r)) (cat_rows d) = false ↔ ∀ k r, cd_rows d !! k = Some r → t ∉ g r.
Proof.
  rewrite existsb_false. setoid_rewrite elem_of_cat_rows. setoid_rewrite bool_decide_eq_false. naive_solver.
Qed.

Lemma links_without (m : gmap (string * Z) Target) t :
  existsb (λ u, bool_decide (u = t)) (map_to_list m).*2 = false ↔ ∀ k, m !! k ≠ Some t.
Proof.
  rewrite existsb_false. setoid_rewrite bool_decide_eq_false. split.
  - intros H k Hk. apply (H t); [|done]. apply list_elem_of_fmap. exists (k, t). by rewrite elem_of_map_to_list.
  - intros H u Hu ->. apply list_elem_of_fmap in Hu as ([k v] & -> & Hk). apply elem_of_map_to_list in Hk. by apply (H k).
Qed.

Lemma referenced_false d t : referenced d t = false ↔
  (∀ k r, cd_rows d !! k = Some r → t ∉ row_refs r) ∧ (∀ k, cd_hard d !! k ≠ Some t).
Proof. unfold referenced. by rewrite orb_false_iff, rows_without, links_without. Qed.

Lemma softly_false d t : softly_referenced d t = false ↔
  (∀ k r, cd_rows d !! k = Some r → t ∉ row_null_refs r) ∧ (∀ k, cd_soft d !! k ≠ Some t).
Proof. unfold softly_referenced. by rewrite orb_false_iff, rows_without, links_without. Qed.

(** [cat_row_ok] as a proposition. *)
Lemma row_ok_spec today d t r : cat_row_ok today d t r = true ↔
  row_checks today r = true ∧ (∀ u, u ∈ row_refs r ++ row_null_refs r → present_in d u = true) ∧
  (∀ t' r' u, cd_rows d !! t' = Some r' → t' ≠ t → u ∈ row_unique r' → u ∉ row_unique r).
Proof.
  unfold cat_row_ok. rewrite !andb_true_iff, !forallb_elem. split.
  - intros [[Hc Hp] Hu]. split; [done|]. split; [done|]. intros t' r' u Ht Hne Hin.
    assert ((t', r') ∈ map_to_list (cd_rows d)) as Hm by (by apply elem_of_map_to_list).
    specialize (Hu _ Hm). simpl in Hu. rewrite bool_decide_false in Hu by done. simpl in Hu.
    rewrite forallb_elem in Hu. specialize (Hu u Hin). by apply negb_true_iff, bool_decide_eq_false in Hu.
  - intros (Hc & Hp & Hu). split; [done|]. intros [t' r'] Hm. apply elem_of_map_to_list in Hm. simpl.
    destruct (decide (t' = t)) as [->|Hne]; [by rewrite bool_decide_true|].
    rewrite bool_decide_false by done. simpl. apply forallb_elem. intros u Hin.
    apply negb_true_iff, bool_decide_eq_false. by eapply Hu.
Qed.

(** * The three changes *)

Definition inserted (r : CatRow) (d : CatDB) : CatDB := set_cd_rows (<[row_target r := r]> (cd_rows d)) d.
Definition updated (t : Target) (r : CatRow) (d : CatDB) : CatDB :=
  set_cd_rows (<[row_target r := r]> (delete t (cd_rows d))) d.
Definition deleted (t : Target) (d : CatDB) : CatDB :=
  mkCatDB (forget t <$> delete t (cd_rows d)) (cd_hard d) (filter (λ p, p.2 ≠ t) (cd_soft d)) (cd_stock d) (cd_requests d).

(** The row keeps its key, or nothing refers to it and the new key is free. *)
Definition may_rename (d : CatDB) (t : Target) (r : CatRow) : Prop :=
  row_target r = t ∨ present_in d (row_target r) = false ∧ referenced d t = false ∧ softly_referenced d t = false.

Inductive change (today : Z) (d : CatDB) : CatDB → Prop :=
| change_insert r :
    row_fits r = true → cat_row_ok today d (row_target r) r = true → cd_rows d !! row_target r = None →
    change today d (inserted r d)
| change_update t r0 r :
    cd_rows d !! t = Some r0 → row_fits r = true → cat_row_ok today d t r = true → may_rename d t r →
    row_target r = t ∨ row_refs r ++ row_null_refs r = [] →
    change today d (updated t r d)
| change_delete t : referenced d t = false → change today d (deleted t d).

Lemma flush_ok today t r d d' :
  run_ok (flush_row today t r) d tt d' ↔ row_fits r = true ∧ cat_row_ok today d t r = true ∧ d' = d.
Proof.
  unfold flush_row. rewrite run_fail_if, negb_false_iff, body_get. unfold run_ok.
  destruct (cat_row_ok today d t r); simpl; unfold m_ret, m_fail; naive_solver.
Qed.

Lemma insert_row_ok today r d d' :
  run_ok (insert_row today r) d tt d' ↔
  row_fits r = true ∧ cat_row_ok today d (row_target r) r = true ∧ cd_rows d !! row_target r = None ∧ d' = inserted r d.
Proof.
  unfold insert_row. rewrite seq_ok. setoid_rewrite flush_ok. setoid_rewrite body_get. setoid_rewrite run_fail_if.
  setoid_rewrite body_modify. split.
  - intros (s1 & (Hf & Ho & ->) & Hp & ->). unfold present_in in Hp. by destruct (cd_rows d !! row_target r).
  - intros (Hf & Ho & Hn & ->). exists d. split; [done|]. unfold present_in. by rewrite Hn.
Qed.

Lemma update_row_ok today t r d d' :
  run_ok (update_row today t r) d tt d' ↔
  row_fits r = true ∧ cat_row_ok today d t r = true ∧ may_rename d t r ∧ d' = updated t r d.
Proof.
  unfold update_row. rewrite seq_ok. setoid_rewrite flush_ok. setoid_rewrite body_get. setoid_rewrite run_fail_if.
  setoid_rewrite body_modify.
  assert (negb (bool_decide (row_target r = t)) && (present_in d (row_target r) || referenced d t || softly_referenced d t) = false
    ↔ may_rename d t r) as Hr.
  { unfold may_rename. case_bool_decide as Hd; simpl; [split; [by left|done]|]. rewrite !orb_false_iff. tauto. }
  split.
  - intros (s1 & (Hf & Ho & ->) & Hp & ->). by rewrite <- Hr.
  - intros (Hf & Ho & Hn & ->). exists d. split; [done|]. by rewrite Hr.
Qed.

Lemma delete_row_ok t d d' : run_ok (delete_row t) d tt d' ↔ referenced d t = false ∧ d' = deleted t d.
Proof. unfold delete_row. by rewrite body_get, run_fail_if, body_modify. Qed.

(** * They keep the tables sound *)

Lemma forget_target t r : row_target (forget t r) = row_target r.
Proof. destruct r; simpl; try done. by case_bool_decide. Qed.

Lemma forget_unique t r : row_unique (forget t r) = row_unique r.
Proof. destruct r; simpl; try done. by case_bool_decide. Qed.

Lemma forget_refs t r : row_refs (forget t r) = row_refs r.
Proof. destruct r; simpl; try done. by case_bool_decide. Qed.

Lemma forget_null t r u : u ∈ row_null_refs (forget t r) → u ∈ row_null_refs r ∧ u ≠ t.
Proof.
  destruct r as [| | | | |a| | | |]; simpl; try (intros H; by apply elem_of_nil in H).
  case_bool_decide as Hd; simpl; [intros H; by apply elem_of_nil in H|]. intros Hu. split; [done|].
  by intros ->.
Qed.

Lemma forget_fits t r : row_fits (forget t r) = row_fits r.
Proof. destruct r; simpl; try done. by case_bool_decide. Qed.

Lemma forget_checks today t r : row_checks today (forget t r) = row_checks today r.
Proof. destruct r; simpl; try done. by case_bool_decide. Qed.

Lemma sound_row_mono d d' t r :
  (∀ u, u ∈ row_refs r ++ row_null_refs r → present_in d u = true → present_in d' u = true) →
  sound_row d t r → sound_row d' t r.
Proof. intros Hp (Ht & Hf & Hc & Hr). split_and!; auto. Qed.

Lemma new_row_sound today d t r :
  row_fits r = true → cat_row_ok today d t r = true → sound_row d (row_target r) r.
Proof. intros Hf Hok. apply row_ok_spec in Hok as (Hc & Hr & _). split_and!; eauto. Qed.

Lemma present_inserted r d u : present_in d u = true → present_in (inserted r d) u = true.
Proof.
  rewrite !present_some. intros [r' Hr]. unfold inserted. simpl. destruct (decide (row_target r = u)) as [<-|Hne].
  - exists r. by rewrite lookup_insert_eq.
  - exists r'. by rewrite lookup_insert_ne.
Qed.

Lemma unique_inserted today (m : gmap Target CatRow) d t r :
  (∀ t' r', m !! t' = Some r' → cd_rows d !! t' = Some r' ∧ t' ≠ t) →
  unique_rows d → cat_row_ok today d t r = true → unique_rows (set_cd_rows (<[row_target r := r]> m) d).
Proof.
  intros Hm Hu Hok. apply row_ok_spec in Hok as (_ & _ & Hnew). intros t1 t2 r1 r2 u. simpl.
  intros H1 H2 Hne. apply lookup_insert_Some in H1 as [[<- <-]|[Hn1 H1]]; apply lookup_insert_Some in H2 as [[<- <-]|[Hn2 H2]].
  - done.
  - intros Hin Hin2. apply Hm in H2 as [H2 Ht2]. by eapply Hnew.
  - intros Hin. apply Hm in H1 as [H1 Ht1]. by eapply Hnew.
  - apply Hm in H1 as [H1 _], H2 as [H2 _]. by eapply Hu.
Qed.

Lemma insert_sound today r d :
  catalogue_sound d → row_fits r = true → cat_row_ok today d (row_target r) r = true → cd_rows d !! row_target r = None →
  catalogue_sound (inserted r d).
Proof.
  intros (Hrows & Hu & Hl) Hf Hok Hn. split_and!.
  - intros t r'. unfold inserted. simpl. intros [[<- <-]|[Hne Hr]]%lookup_insert_Some.
    + eapply sound_row_mono; [|by eapply new_row_sound]. intros u _. apply present_inserted.
    + eapply sound_row_mono; [|by eapply Hrows]. intros u _. apply present_inserted.
  - apply (unique_inserted today _ d (row_target r)); [|done|done]. intros t' r' Ht. split; [done|]. intros ->. naive_solver.
  - intros k t Hk. apply present_inserted. by eapply Hl.
Qed.

(** What still resolves after an update. *)
Lemma present_updated t r d u :
  (row_target r = t ∨ u ≠ t) → present_in d u = true → present_in (updated t r d) u = true.
Proof.
  rewrite !present_some. intros Hu [r' Hr]. unfold updated. simpl. destruct (decide (row_target r = u)) as [<-|Hne].
  - exists r. by rewrite lookup_insert_eq.
  - exists r'. rewrite lookup_insert_ne by done. rewrite lookup_delete_ne; [done|]. intros <-. by destruct Hu.
Qed.

Lemma update_sound today t r d :
  catalogue_sound d → row_fits r = true → cat_row_ok today d t r = true → may_rename d t r →
  row_target r = t ∨ row_refs r ++ row_null_refs r = [] → catalogue_sound (updated t r d).
Proof.
  intros (Hrows & Hu & Hl) Hf Hok Hren Hself. split_and!.
  - intros t' r'. unfold updated. simpl. intros [[<- <-]|[Hne Hr]]%lookup_insert_Some.
    + eapply sound_row_mono; [|by eapply new_row_sound]. intros u Hin. apply present_updated.
      destruct Hself as [?|Hnil]; [by left|]. rewrite Hnil in Hin. by apply elem_of_nil in Hin.
    + apply lookup_delete_Some in Hr as [Hne' Hr]. eapply sound_row_mono; [|by eapply Hrows]. intros u Hin.
      apply present_updated. destruct Hren as [?|(_ & Hh & Hs)]; [by left|]. right. intros ->.
      apply referenced_false in Hh as [Hh _]. apply softly_false in Hs as [Hs _].
      apply elem_of_app in Hin as [Hin|Hin]; [by eapply Hh|by eapply Hs].
  - apply (unique_inserted today _ d t); [|done|done]. intros t' r' [Hne Ht]%lookup_delete_Some. done.
  - intros k u Hk. apply present_updated; [|by eapply Hl]. destruct Hren as [?|(_ & Hh & Hs)]; [by left|]. right. intros ->.
    apply referenced_false in Hh as [_ Hh]. apply softly_false in Hs as [_ Hs].
    destruct Hk as [Hk|Hk]; [by eapply Hh|by eapply Hs].
Qed.

Lemma lookup_deleted t d u r : cd_rows (deleted t d) !! u = Some r ↔ u ≠ t ∧ ∃ r0, cd_rows d !! u = Some r0 ∧ r = forget t r0.
Proof.
  unfold deleted. simpl. rewrite lookup_fmap, fmap_Some. setoid_rewrite lookup_delete_Some. naive_solver.
Qed.

Lemma present_deleted t d u : u ≠ t → present_in d u = true → present_in (deleted t d) u = true.
Proof. rewrite !present_some. setoid_rewrite lookup_deleted. intros Hne [r Hr]. eauto. Qed.

Lemma delete_sound t d : catalogue_sound d → referenced d t = false → catalogue_sound (deleted t d).
Proof.
  intros (Hrows & Hu & Hl) [Hh Hlinks]%referenced_false. split_and!.
  - intros u r (Hne & r0 & Hr & ->)%lookup_deleted. destruct (Hrows _ _ Hr) as (Ht & Hf & (today & Hc) & Hp). split_and!.
    + by rewrite forget_target.
    + by rewrite forget_fits.
    + exists today. by rewrite forget_checks.
    + intros v Hv. rewrite forget_refs in Hv. apply elem_of_app in Hv as [Hv|Hv].
      * apply present_deleted; [|apply Hp, elem_of_app; by left]. intros ->. by eapply Hh.
      * apply forget_null in Hv as [Hv Hne']. apply present_deleted; [done|]. apply Hp, elem_of_app. by right.
  - intros t1 t2 r1 r2 u (_ & q1 & H1 & ->)%lookup_deleted (_ & q2 & H2 & ->)%lookup_deleted Hne. rewrite !forget_unique.
    by eapply Hu.
  - intros k u. unfold deleted at 1 2. simpl. intros Hk. apply present_deleted.
    + intros ->. destruct Hk as [Hk|Hk]; [by eapply Hlinks|]. apply map_lookup_filter_Some in Hk as [_ Hk]. done.
    + eapply (Hl k). destruct Hk as [Hk|Hk]; [by left|right]. by apply map_lookup_filter_Some in Hk as [Hk _].
Qed.

Lemma change_sound today d d' : change today d d' → catalogue_sound d → catalogue_sound d'.
Proof.
  intros [r Hf Hok Hn|t r0 r _ Hf Hok Hren Hself|t Hr] Hs; [by eapply insert_sound|by eapply update_sound|by apply delete_sound].
Qed.
End sound.
