(* ===== verification/CatalogueSpec.v ===== *)
(** The catalogue as its callers see it: each call asks for one write, the write is
    carried out exactly when the user has the feature and the constraints allow it. *)
From stdpp Require Import strings.
From S2P Require Import Prelude PyStr PySort ParamValidation Schema Columns Dates AccessControl Web Catalogue CatalogueForms CatalogueScreens CatalogueProofs.

Inductive Write : Type :=
| WInsert (r : CatRow)
| WUpdate (t : Target) (r : CatRow)
| WDelete (t : Target).

Section spec.
Context {L : Locale} (kx : CatCtx).

Definition may_use (feature : string) : Prop :=
  is_authenticated (kx_user kx) = true ∧ has_access (kx_user kx) feature = true.

(** The name the audit columns get. *)
Definition actor (u : string) : Prop := ∃ su, kx_user kx = Some su ∧ audit_id (su_user_name su) = Some u.

(** The item of a form as the column rounds it. *)
Definition item_row (d : CatDB) (own : option Z) (f : Form) (reorder : NumField) (id : Z) (a : Audit) (r : CatRow) : Prop :=
  ∃ g q, item_of_form d own f reorder = inr g ∧ numeric 12 (im_reorder_qty (g id a)) = Some q ∧
    r = RItem (mkItemRow id (im_item_code (g id a)) (im_item_name (g id a)) (im_sku_code (g id a)) (im_category_id (g id a))
      (im_item_desc (g id a)) q (im_default_uom_code (g id a)) (im_units_size_vary_flag (g id a)) (im_usage_desc (g id a))
      (im_storage_desc (g id a)) (im_is_batched_flag (g id a)) (im_can_expire_flag (g id a)) (im_issuance_order (g id a))
      (im_comments_text (g id a)) (im_status_code (g id a)) a).

Definition same_version (f : Form) (a : Audit) : Prop := submitted_version f = Some (version_nbr a).

(** The tier decides type and flags; the row keeps its own without a known tier. *)
Definition warehouse_edited (id : Z) (f : Form) (r : WarehouseRec) (a : Audit) : CatRow :=
  let custodian_id := safe_id (f !! "custodian_id"%string) 0 in
  match tier_columns (field f "tier_code") with
  | Some (type, intake, lastmile) =>
      warehouse_row id f type (Some (field f "tier_code")) (Some intake) (Some lastmile) custodian_id a
  | None => warehouse_row id f (wr_warehouse_type r)
              (if blank (field f "tier_code") then wr_tier_code r else Some (field f "tier_code"))
              (wr_allow_donation_intake r) (wr_allow_lastmile_issue r) custodian_id a
  end.

Abbreviation now := (kx_now kx).
Abbreviation today := (kx_today kx).
Abbreviation new_id := (kx_new_id kx).

Definition closing_date (f : Form) : option Z :=
  if blank (field f "closed_date") then Some today else strptime (field f "closed_date").

(** What a call asks for, by the name [u] of the user, when its checks pass. *)
Definition asked (call : CatCall) (d : CatDB) (u : string) (w : Write) : Prop :=
  match call with
  | CreateUom f => validate_uom_data d None f = [] ∧ w = WInsert (uom_row f (new_audit u now))
  | EditUom c f => ∃ r, find_uom d c = Some r ∧ same_version f (uo_audit r) ∧ validate_uom_data d (Some c) f = [] ∧
      w = WUpdate (TUom c) (uom_row f (touch u now (uo_audit r)))
  | CreateCategory f => validate_category_data d None f = [] ∧
      w = WInsert (RCategory (mkCategoryRow new_id "GOODS" (upper (field f "category_code")) (field f "category_desc")
                     (comments_of f) (field f "status_code") (new_audit u now)))
  | EditCategory i f => ∃ r, find_category d i = Some r ∧ same_version f (ca_audit r) ∧ validate_category_data d (Some i) f = [] ∧
      w = WUpdate (TCategory i)
            (RCategory (mkCategoryRow i (ca_category_type r) (upper (field f "category_code")) (field f "category_desc")
               (comments_of f) (field f "status_code") (touch u now (ca_audit r))))
  | CreateCustodian f => validate_custodian_data d None f = [] ∧ w = WInsert (custodian_row new_id f (new_audit u now))
  | EditCustodian i f => ∃ r, find_custodian d i = Some r ∧ same_version f (ct_audit r) ∧ validate_custodian_data d (Some i) f = [] ∧
      w = WUpdate (TCustodian i) (custodian_row i f (touch u now (ct_audit r)))
  | CreateWarehouse f => validate_warehouse_data d None f = [] ∧ 0 < safe_id (f !! "custodian_id"%string) 0 ∧
      ∃ type intake lastmile, tier_columns (field f "tier_code") = Some (type, intake, lastmile) ∧
      w = WInsert (warehouse_row new_id f type (Some (field f "tier_code")) (Some intake) (Some lastmile)
                     (safe_id (f !! "custodian_id"%string) 0) (new_audit u now))
  | EditWarehouse i f => ∃ r, find_warehouse d i = Some r ∧ same_version f (wr_audit r) ∧ validate_warehouse_data d (Some i) f = [] ∧
      0 < safe_id (f !! "custodian_id"%string) 0 ∧ w = WUpdate (TWarehouse i) (warehouse_edited i f r (touch u now (wr_audit r)))
  | CreateAgency f => ∃ wh e, validate_agency_data d None f = Some ([], wh, e) ∧
      w = WInsert (agency_row new_id f wh e (new_audit u now))
  | EditAgency i f => ∃ r wh e, find_agency d i = Some r ∧ same_version f (ay_audit r) ∧
      validate_agency_data d (Some i) f = Some ([], wh, e) ∧
      w = WUpdate (TAgency i) (agency_row i f wh e (touch u now (ay_audit r)))
  | DeactivateAgency i => ∃ r, find_agency d i = Some r ∧ has_active_requests d i = false ∧
      w = WUpdate (TAgency i) (set_ay_status "I" (touch u now (ay_audit r)) r)
  | CreateDonor f => validate_donor_data d None f = [] ∧ w = WInsert (donor_row new_id (upper (field f "donor_code")) f (new_audit u now))
  | EditDonor i f => ∃ r, find_donor d i = Some r ∧ same_version f (dr_audit r) ∧ validate_donor_data d (Some i) f = [] ∧
      w = WUpdate (TDonor i) (donor_row i (dr_donor_code r) f (touch u now (dr_audit r)))
  | CreateEvent f => ∃ start, strptime (field f "start_date") = Some start ∧ validate_event_data today (Some "A"%string) f = [] ∧
      w = WInsert (event_row new_id start f (new_audit u now))
  | EditEvent i f => ∃ r start, find_event d i = Some r ∧ ev_status_code r ≠ "C"%string ∧
      safe_version_number (f !! "version_nbr"%string) 0 = version_nbr (ev_audit r) ∧ validate_event_data today None f = [] ∧
      strptime (field f "start_date") = Some start ∧ w = WUpdate (TEvent i) (edited_event start f (touch u now (ev_audit r)) r)
  | CloseEvent i f => ∃ r closed, find_event d i = Some r ∧ field f "reason_desc" ≠ ""%string ∧ closing_date f = Some closed ∧
      ev_status_code r ≠ "C"%string ∧ ev_start_date r ≤ closed ∧
      w = WUpdate (TEvent i) (closed_event closed (field f "reason_desc") (touch u now (ev_audit r)) r)
  | CreateItem f q => ∃ r, item_row d None f q new_id (new_audit u now) r ∧ w = WInsert r
  | EditItem i f q => ∃ r0 r, find_catalogue_item d i = Some r0 ∧ same_version f (im_audit r0) ∧
      item_row d (Some i) f q i (touch u now (im_audit r0)) r ∧ w = WUpdate (TItem i) r
  | InactivateItem i => ∃ r, find_catalogue_item d i = Some r ∧ im_status_code r ≠ "I"%string ∧ check_item_can_be_inactivated d i = true ∧
      w = WUpdate (TItem i) (set_im_status "I" (touch u now (im_audit r)) r)
  | ActivateItem i => ∃ r, find_catalogue_item d i = Some r ∧ im_status_code r ≠ "A"%string ∧
      w = WUpdate (TItem i) (set_im_status "A" (touch u now (im_audit r)) r)
  | DeleteUom _ | DeleteCategory _ | DeleteCustodian _ | DeleteWarehouse _ | DeleteDonor _ | DeleteEvent _ => False
  end.

(** Deleting takes no name: nothing is stamped. *)
Definition asked_delete (call : CatCall) (d : CatDB) (t : Target) : Prop :=
  match call with
  | DeleteUom c => is_Some (find_uom d c) ∧ check_uom_references d c = false ∧ t = TUom c
  | DeleteCategory i => is_Some (find_category d i) ∧ existsb (λ x, im_category_id x =? i) (items d) = false ∧ t = TCategory i
  | DeleteCustodian i => is_Some (find_custodian d i) ∧ existsb (λ w, wr_custodian_id w =? i) (warehouses d) = false ∧ t = TCustodian i
  | DeleteWarehouse i => is_Some (find_warehouse d i) ∧ used_in d ["inventory"%string] (TWarehouse i) = false ∧
      used_in d ["user_warehouse"%string] (TWarehouse i) = false ∧ t = TWarehouse i
  | DeleteDonor i => is_Some (find_donor d i) ∧ used_in d ["donation"%string] (TDonor i) = false ∧ t = TDonor i
  | DeleteEvent i => is_Some (find_event d i) ∧ t = TEvent i
  | _ => False
  end.

Definition requested (call : CatCall) (d : CatDB) (w : Write) : Prop :=
  (∃ u, actor u ∧ asked call d u w) ∨ (∃ t, asked_delete call d t ∧ w = WDelete t).

(** What the database asks of a write, and what it leaves. *)
Definition accepted (d : CatDB) (w : Write) : Prop :=
  match w with
  | WInsert r => row_fits r = true ∧ cat_row_ok today d (row_target r) r = true ∧ cd_rows d !! row_target r = None
  | WUpdate t r => row_fits r = true ∧ cat_row_ok today d t r = true ∧ may_rename d t r
  | WDelete t => referenced d t = false
  end.

Definition written (w : Write) : CatDB → CatDB :=
  match w with WInsert r => inserted r | WUpdate t r => updated t r | WDelete t => deleted t end.
End spec.

(** * Rules for the steps of a call *)

Section rules.
Context {L : Locale} (kx : CatCtx).

Abbreviation today := (kx_today kx).

Lemma open_ok {A} fe (k : WM CatDB A) s b s' :
  run_ok (open_screen kx fe;; k) s b s' ↔ may_use kx fe ∧ run_ok k s b s'.
Proof.
  unfold may_use. destruct s as [c d]. unfold run_ok, open_screen, on_web_cache, feature_required. rewrite run_bind. simpl.
  destruct (is_authenticated (kx_user kx)); simpl; [|naive_solver].
  destruct (has_access (kx_user kx) fe); simpl; naive_solver.
Qed.

Lemma tables_ok {A} (k : CatDB → WM CatDB A) s b s' :
  run_ok (d ← the_tables; k d) s b s' ↔ run_ok (k (web_db s)) s b s'.
Proof. done. Qed.

Lemma valid_ok {A} errors (k : WM CatDB A) s b s' : run_ok (valid_form errors;; k) s b s' ↔ errors = [] ∧ run_ok k s b s'.
Proof. unfold valid_form. by rewrite run_fail_if, negb_false_iff, bool_decide_eq_true. Qed.

Lemma fresh_ok {A} f a (k : WM CatDB A) s b s' : run_ok (fresh_version f a;; k) s b s' ↔ same_version f a ∧ run_ok k s b s'.
Proof. unfold fresh_version, same_version. by rewrite run_fail_if, negb_false_iff, bool_decide_eq_true. Qed.

Lemma user_ok {A} (k : string → BM CatDB A) d b d' :
  run_ok (u ← cat_audit_user kx; k u) d b d' ↔ ∃ u, actor kx u ∧ run_ok (k u) d b d'.
Proof.
  unfold cat_audit_user, actor. rewrite run_some. setoid_rewrite bind_Some. naive_solver.
Qed.

Lemma value_error_ok {A} (k : string → BM CatDB A) d b d' :
  run_ok (u ← value_error_user kx; k u) d b d' ↔ ∃ u, actor kx u ∧ run_ok (k u) d b d'.
Proof. unfold value_error_user, actor. rewrite run_some. setoid_rewrite bind_Some. naive_solver. Qed.

Lemma insert_accepted r d d' :
  run_ok (insert_row today r) d tt d' ↔ accepted kx d (WInsert r) ∧ d' = inserted r d.
Proof. rewrite insert_row_ok. simpl. tauto. Qed.

Lemma update_accepted t r d d' :
  run_ok (update_row today t r) d tt d' ↔ accepted kx d (WUpdate t r) ∧ d' = updated t r d.
Proof. rewrite update_row_ok. simpl. tauto. Qed.

(** A stored write, after a body that names its author. *)
Definition stores (call : CatCall) (s s' : Web CatDB) : Prop :=
  ∃ w, requested kx call (web_db s) w ∧ accepted kx (web_db s) w ∧ s' = mkWeb (web_cache s) (written w (web_db s)).

End rules.

Ltac peel := repeat first
  [ setoid_rewrite user_ok | setoid_rewrite value_error_ok | setoid_rewrite valid_ok | setoid_rewrite fresh_ok
  | setoid_rewrite open_ok | setoid_rewrite tables_ok | setoid_rewrite insert_accepted | setoid_rewrite update_accepted
  | setoid_rewrite delete_row_ok | setoid_rewrite try_transaction_ok | setoid_rewrite transaction_ok
  | setoid_rewrite run_some | setoid_rewrite run_fail_if | setoid_rewrite body_get ].

Ltac unpack := repeat match goal with
  | H : ∃ _, _ |- _ => destruct H
  | H : _ ∧ _ |- _ => destruct H
  | H : False |- _ => destruct H
  | H : _ ∨ _ |- _ => destruct H
  | H : is_Some _ |- _ => destruct H
  | H : _ = WInsert _ |- _ => subst
  | H : _ = WUpdate _ _ |- _ => subst
  | H : _ = WDelete _ |- _ => subst
  | H : _ = mkWeb _ _ |- _ => subst
  | H : _ = inserted _ _ |- _ => subst
  | H : _ = updated _ _ _ |- _ => subst
  | H : _ = deleted _ _ |- _ => subst
  end.

Ltac build := repeat match goal with
  | |- _ ∧ _ => split
  | |- ∃ _, _ => eexists
  | |- is_Some _ => eexists
  end; try eassumption; try reflexivity.

(** One call: what it reads on the way is what was asked, and back. *)
Ltac call_with side tac :=
  unfold stores, requested, asked, asked_delete; peel; split; intros; unpack; split; try assumption;
  [eexists; split; [side; build; tac|build; tac]|build; tac].
Ltac writes := call_with ltac:(left) ltac:(idtac).
Ltac deletes := call_with ltac:(right) ltac:(idtac).
