(* ===== verification/CatalogueCalls.v ===== *)
(** The calls on units of measure, categories, custodians and warehouses store exactly
    what they ask for.

    The calls on agencies, donors, events and items store exactly what they ask for;
    with it the specification of every call. *)
From stdpp Require Import strings.
From S2P Require Import Prelude PyStr PySort ParamValidation Dates Schema Columns AccessControl Web Catalogue CatalogueForms CatalogueScreens CatalogueProofs CatalogueSpec.

Section calls.
Context {L : Locale} (kx : CatCtx).

Abbreviation stores := (stores kx).

Lemma create_uom_ok f s s' :
  run_ok (create_uom kx f) s tt s' ↔ may_use kx "uom_management" ∧ stores (CreateUom f) s s'.
Proof. unfold create_uom. writes. Qed.

Lemma edit_uom_ok c f s s' :
  run_ok (edit_uom kx c f) s tt s' ↔ may_use kx "uom_management" ∧ stores (EditUom c f) s s'.
Proof. unfold edit_uom. writes. Qed.

Lemma delete_uom_ok c s s' :
  run_ok (delete_uom kx c) s tt s' ↔ may_use kx "uom_management" ∧ stores (DeleteUom c) s s'.
Proof. unfold delete_uom. deletes. Qed.

Lemma create_category_ok f s s' :
  run_ok (create_category kx f) s tt s' ↔ may_use kx "item_category_management" ∧ stores (CreateCategory f) s s'.
Proof. unfold create_category. writes. Qed.

Lemma edit_category_ok i f s s' :
  run_ok (edit_category kx i f) s tt s' ↔ may_use kx "item_category_management" ∧ stores (EditCategory i f) s s'.
Proof. unfold edit_category. writes. Qed.

Lemma delete_category_ok i s s' :
  run_ok (delete_category kx i) s tt s' ↔ may_use kx "item_category_management" ∧ stores (DeleteCategory i) s s'.
Proof. unfold delete_category. deletes. Qed.

Lemma create_custodian_ok f s s' :
  run_ok (create_custodian kx f) s tt s' ↔ may_use kx "custodian_management" ∧ stores (CreateCustodian f) s s'.
Proof. unfold create_custodian. writes. Qed.

Lemma edit_custodian_ok i f s s' :
  run_ok (edit_custodian kx i f) s tt s' ↔ may_use kx "custodian_management" ∧ stores (EditCustodian i f) s s'.
Proof. unfold edit_custodian. writes. Qed.

Lemma delete_custodian_ok i s s' :
  run_ok (delete_custodian kx i) s tt s' ↔ may_use kx "custodian_management" ∧ stores (DeleteCustodian i) s s'.
Proof. unfold delete_custodian. deletes. Qed.

Lemma delete_warehouse_ok i s s' :
  run_ok (delete_warehouse kx i) s tt s' ↔ may_use kx "warehouse_management" ∧ stores (DeleteWarehouse i) s s'.
Proof. unfold delete_warehouse. deletes. Qed.

Lemma form_custodian_ok {A} f (k : Z → BM CatDB A) d b d' :
  run_ok (c ← form_custodian f; k c) d b d' ↔
  0 < safe_id (f !! "custodian_id"%string) 0 ∧ run_ok (k (safe_id (f !! "custodian_id"%string) 0)) d b d'.
Proof.
  unfold form_custodian. cbv zeta. generalize (safe_id (f !! "custodian_id"%string) 0). intros z. rewrite bind_ok.
  setoid_rewrite run_fail_if. split.
  - intros (a & d1 & (Hz & [-> ->]%body_ret) & Hk). apply Z.leb_gt in Hz. done.
  - intros (Hz & Hk). exists z, d. rewrite body_ret. by rewrite Z.leb_gt.
Qed.

Lemma create_warehouse_ok f s s' :
  run_ok (create_warehouse kx f) s tt s' ↔ may_use kx "warehouse_management" ∧ stores (CreateWarehouse f) s s'.
Proof.
  unfold create_warehouse, stores, requested, asked, asked_delete. cbv zeta.
  destruct (tier_columns (field f "tier_code")) as [[[type intake] lastmile]|] eqn:Ht.
  - peel. setoid_rewrite form_custodian_ok. peel. split; intros; unpack; split; try assumption.
    + eexists. split; [left; build|build].
    + simplify_eq. build.
  - peel. split; intros; unpack; discriminate.
Qed.

Lemma edit_warehouse_ok i f s s' :
  run_ok (edit_warehouse kx i f) s tt s' ↔ may_use kx "warehouse_management" ∧ stores (EditWarehouse i f) s s'.
Proof.
  unfold edit_warehouse, stores, requested, asked, asked_delete, warehouse_edited. cbv zeta.
  peel. setoid_rewrite form_custodian_ok. peel. split; intros; unpack; split; try assumption.
  - eexists. split; [left; build|build].
  - build.
Qed.

End calls.

Section calls.
Context {L : Locale} (kx : CatCtx).

Abbreviation stores := (stores kx).

Lemma create_agency_ok f s s' :
  run_ok (create_agency kx f) s tt s' ↔ may_use kx "agency_management" ∧ stores (CreateAgency f) s s'.
Proof.
  unfold create_agency, stores, requested, asked, asked_delete. peel. split; intros; unpack; split; try assumption.
  - destruct x as [[es wh] e]. simpl in *. subst. eexists. split; [left; build|build].
  - build.
Qed.

Lemma edit_agency_ok i f s s' :
  run_ok (edit_agency kx i f) s tt s' ↔ may_use kx "agency_management" ∧ stores (EditAgency i f) s s'.
Proof.
  unfold edit_agency, stores, requested, asked, asked_delete. peel. split; intros; unpack; split; try assumption.
  - destruct x0 as [[es wh] e]. simpl in *. subst. eexists. split; [left; build|build].
  - build.
Qed.

Lemma deactivate_agency_ok i s s' :
  run_ok (deactivate_agency kx i) s tt s' ↔ may_use kx "agency_management" ∧ stores (DeactivateAgency i) s s'.
Proof. unfold deactivate_agency. writes. Qed.

Lemma create_donor_ok f s s' :
  run_ok (create_donor kx f) s tt s' ↔ may_use kx "donor_management" ∧ stores (CreateDonor f) s s'.
Proof. unfold create_donor. writes. Qed.

Lemma edit_donor_ok i f s s' :
  run_ok (edit_donor kx i f) s tt s' ↔ may_use kx "donor_management" ∧ stores (EditDonor i f) s s'.
Proof. unfold edit_donor. writes. Qed.

Lemma delete_donor_ok i s s' :
  run_ok (delete_donor kx i) s tt s' ↔ may_use kx "donor_management" ∧ stores (DeleteDonor i) s s'.
Proof. unfold delete_donor. deletes. Qed.

Lemma delete_event_ok i s s' :
  run_ok (delete_event kx i) s tt s' ↔ may_use kx "event_management" ∧ stores (DeleteEvent i) s s'.
Proof. unfold delete_event. deletes. Qed.

Lemma create_event_ok f s s' :
  run_ok (create_event kx f) s tt s' ↔ may_use kx "event_management" ∧ stores (CreateEvent f) s s'.
Proof.
  unfold create_event, stores, requested, asked, asked_delete. peel.
  split; intros; unpack; split; try assumption.
  - eexists. split; [left; build|build].
  - build.
Qed.

Lemma edit_event_ok i f s s' :
  run_ok (edit_event kx i f) s tt s' ↔ may_use kx "event_management" ∧ stores (EditEvent i f) s s'.
Proof.
  unfold edit_event, stores, requested, asked, asked_delete. peel.
  setoid_rewrite bool_decide_eq_false. setoid_rewrite negb_false_iff. setoid_rewrite Z.eqb_eq.
  split; intros; unpack; split; try assumption.
  - eexists. split; [left; build|build].
  - build.
Qed.

Lemma close_event_ok i f s s' :
  run_ok (close_event kx i f) s tt s' ↔ may_use kx "event_management" ∧ stores (CloseEvent i f) s s'.
Proof.
  unfold close_event, stores, requested, asked, asked_delete, blank. cbv zeta. peel.
  repeat setoid_rewrite bool_decide_eq_false. setoid_rewrite Z.ltb_ge. fold (blank (field f "closed_date")).
  split; intros; unpack; split; try assumption.
  - eexists. split; [left; build|build].
  - build.
Qed.

Lemma read_item_ok {A} own f q (k : (Z → Audit → ItemRow) → BM CatDB A) d b d' :
  run_ok (i ← read_item own f q; k i) d b d' ↔ ∃ g, item_of_form d own f q = inr g ∧ run_ok (k g) d b d'.
Proof. unfold run_ok. rewrite run_bind. unfold read_item. destruct (item_of_form d own f q); naive_solver. Qed.

Lemma rounded_ok {A} r (k : CatRow → BM CatDB A) d b d' :
  run_ok (x ← rounded r; k x) d b d' ↔ ∃ q, numeric 12 (im_reorder_qty r) = Some q ∧
    run_ok (k (RItem (mkItemRow (im_item_id r) (im_item_code r) (im_item_name r) (im_sku_code r) (im_category_id r)
      (im_item_desc r) q (im_default_uom_code r) (im_units_size_vary_flag r) (im_usage_desc r) (im_storage_desc r)
      (im_is_batched_flag r) (im_can_expire_flag r) (im_issuance_order r) (im_comments_text r) (im_status_code r)
      (im_audit r)))) d b d'.
Proof. unfold rounded, run_ok. rewrite !run_bind. destruct (numeric 12 (im_reorder_qty r)); simpl; naive_solver. Qed.

(** The key and audit columns are the ones given. *)
Lemma item_of_form_own d own f q g id a : item_of_form d own f q = inr g → im_item_id (g id a) = id ∧ im_audit (g id a) = a.
Proof.
  unfold item_of_form, sum_bind, or_raise, guard_that. cbv zeta. intros H.
  repeat (case_match; try discriminate). by simplify_eq.
Qed.

Lemma create_item_ok f q s s' :
  run_ok (create_item kx f q) s tt s' ↔ may_use kx "item_management" ∧ stores (CreateItem f q) s s'.
Proof.
  unfold create_item, stores, requested, asked, asked_delete, item_row. peel. setoid_rewrite read_item_ok. peel.
  setoid_rewrite rounded_ok. peel. split; intros; unpack; split; try assumption.
  - edestruct item_of_form_own as [Hi Ha]; [eassumption|]. rewrite Hi, Ha in *. eexists. split; [left; build|build].
  - edestruct item_of_form_own as [Hi Ha]; [eassumption|]. build. all: rewrite ?Hi, ?Ha; eassumption || reflexivity.
Qed.

Lemma edit_catalogue_item_ok i f q s s' :
  run_ok (edit_catalogue_item kx i f q) s tt s' ↔ may_use kx "item_management" ∧ stores (EditItem i f q) s s'.
Proof.
  unfold edit_catalogue_item, stores, requested, asked, asked_delete, item_row. peel. setoid_rewrite read_item_ok. peel.
  setoid_rewrite rounded_ok. peel. split; intros; unpack; split; try assumption.
  - edestruct item_of_form_own as [Hi Ha]; [eassumption|]. rewrite Hi, Ha in *. eexists. split; [left; build|build].
  - edestruct item_of_form_own as [Hi Ha]; [eassumption|]. build. all: rewrite ?Hi, ?Ha; eassumption || reflexivity.
Qed.

Lemma inactivate_item_ok i s s' :
  run_ok (inactivate_item kx i) s tt s' ↔ may_use kx "item_management" ∧ stores (InactivateItem i) s s'.
Proof.
  unfold inactivate_item, stores, requested, asked, asked_delete. peel. setoid_rewrite bool_decide_eq_false.
  setoid_rewrite negb_false_iff. split; intros; unpack; split; try assumption.
  - eexists. split; [left; build|build].
  - build.
Qed.

Lemma activate_item_ok i s s' :
  run_ok (activate_item kx i) s tt s' ↔ may_use kx "item_management" ∧ stores (ActivateItem i) s s'.
Proof.
  unfold activate_item, stores, requested, asked, asked_delete. peel. setoid_rewrite bool_decide_eq_false.
  split; intros; unpack; split; try assumption.
  - eexists. split; [left; build|build].
  - build.
Qed.

(** A call to the catalogue succeeds exactly when its user has the feature of the
    screen, the checks of the screen pass and the database takes the row; then the
    stored tables are the old ones with that one write, and nothing else. *)
Lemma cat_call_ok call s s' :
  run_ok (cat_call kx call) s tt s' ↔
  may_use kx (feature_of_call call) ∧ ∃ w, requested kx call (web_db s) w ∧ accepted kx (web_db s) w ∧
    s' = mkWeb (web_cache s) (written w (web_db s)).
Proof.
  destruct call; unfold cat_call, feature_of_call.
  - apply create_uom_ok.
  - apply edit_uom_ok.
  - apply delete_uom_ok.
  - apply create_category_ok.
  - apply edit_category_ok.
  - apply delete_category_ok.
  - apply create_custodian_ok.
  - apply edit_custodian_ok.
  - apply delete_custodian_ok.
  - apply create_warehouse_ok.
  - apply edit_warehouse_ok.
  - apply delete_warehouse_ok.
  - apply create_agency_ok.
  - apply edit_agency_ok.
  - apply deactivate_agency_ok.
  - apply create_donor_ok.
  - apply edit_donor_ok.
  - apply delete_donor_ok.
  - apply create_event_ok.
  - apply edit_event_ok.
  - apply close_event_ok.
  - apply delete_event_ok.
  - apply create_item_ok.
  - apply edit_catalogue_item_ok.
  - apply inactivate_item_ok.
  - apply activate_item_ok.
Qed.
End calls.
