(* ===== verification/CatalogueEffects.v ===== *)
(** What the screens put into a row of the catalogue, beside what its constraints say:
    every write a call can ask for is a valid row, and gives a warehouse a free name.

    What a call does to the catalogue: it stores one write or nothing, the write keeps
    the tables sound and valid, touches rows of its own table only, and raises the
    version of the row it saves. *)
From stdpp Require Import strings.
From S2P Require Import Prelude PyStr PySort ParamValidation Dates Schema Columns PathSafety Phone Atomicity AccessControl Web Catalogue CatalogueForms CatalogueScreens CatalogueProofs CatalogueSpec CatalogueCalls.

Lemma err_nil b n : err b n = [] ↔ b = false.
Proof. by destruct b. Qed.

Lemma app_nil_iff {A} (l1 l2 : list A) : l1 ++ l2 = [] ↔ l1 = [] ∧ l2 = [].
Proof. destruct l1; naive_solver. Qed.

Lemma required_false n s : required n s = false ↔ s ≠ ""%string ∧ len s ≤ n.
Proof. unfold required, blank, longer. rewrite orb_false_iff, bool_decide_eq_false, Z.ltb_ge. done. Qed.

Lemma contact_errors_nil d f pv email :
  contact_errors d f pv email = [] ↔
  required 255 (field f "address1_text") = false ∧ longer 255 (field f "address2_text") = false ∧
  (blank (field f "parish_code") = false ∧ present_in d (TParish (field f "parish_code")) = true) ∧
  required 50 (field f "contact_name") = false ∧ pv (field f "phone_no") = true ∧ email_error email = false.
Proof.
  unfold contact_errors. rewrite !app_nil_iff, !err_nil, orb_false_iff, !negb_false_iff. tauto.
Qed.

(** What an empty list of errors says, field by field. *)
Ltac form_facts := repeat match goal with
  | H : _ ++ _ = [] |- _ => apply app_nil_iff in H as [? ?]
  | H : err _ _ = [] |- _ => apply err_nil in H
  | H : _ || _ = false |- _ => apply orb_false_iff in H as [? ?]
  | H : negb _ = false |- _ => apply negb_false_iff in H
  | H : required _ _ = false |- _ => apply required_false in H as [? ?]
  | H : bool_decide _ = true |- _ => apply bool_decide_eq_true in H
  end.

Section valid.
Context {L : Locale}.

(** * What the screens put into a row *)

Definition email_valid (e : option string) : Prop := match e with Some s => email_pattern (chars s) = true | None => True end.

Definition contact_valid (c : Contact) : Prop :=
  co_address1_text c ≠ ""%string ∧ upper (co_contact_name c) = co_contact_name c ∧
  validate_phone_format (chars (co_phone_no c)) = true ∧ email_valid (co_email_text c).

(** Beside the constraints of its table. *)
Definition row_valid (r : CatRow) : Prop :=
  match r with
  | RUom r => upper (uo_uom_code r) = uo_uom_code r ∧ uo_uom_code r ≠ ""%string
  | RCategory r => upper (ca_category_code r) = ca_category_code r
  | RItem r => forallb code_char (chars (im_item_code r)) = true ∧ upper (im_item_name r) = im_item_name r ∧
               im_issuance_order r ∈ ["FIFO"; "FEFO"; "LIFO"]%string
  | RCustodian r => upper (ct_custodian_name r) = ct_custodian_name r ∧ contact_valid (ct_contact r)
  | RWarehouse r => upper (wr_warehouse_name r) = wr_warehouse_name r ∧ contact_valid (wr_contact r) ∧
      ∃ tier intake lastmile, wr_tier_code r = Some tier ∧ wr_allow_donation_intake r = Some intake ∧
        wr_allow_lastmile_issue r = Some lastmile ∧ tier_columns tier = Some (wr_warehouse_type r, intake, lastmile)
  | RAgency r => upper (ay_agency_name r) = ay_agency_name r ∧ contact_valid (ay_contact r)
  | RDonor r => upper (dr_donor_name r) = dr_donor_name r ∧ validate_phone_format (chars (dr_phone_no r)) = true ∧
                email_valid (dr_email_text r)
  | REvent r => match ev_closed_date r with Some c => ev_start_date r ≤ c ∧ ev_status_code r = "C"%string | None => ev_status_code r ≠ "C"%string end
  | RParish _ _ | RCountry _ _ => True
  end.

Definition catalogue_valid (d : CatDB) : Prop := map_Forall (λ _, row_valid) (cd_rows d).

Lemma email_valid_form e : email_error e = false → email_valid (some_text e).
Proof.
  unfold email_error, email_valid, some_text, validate_email, blank. case_bool_decide; [done|]. simpl.
  rewrite orb_false_iff, negb_false_iff. tauto.
Qed.

Lemma phone_valid_form s : validate_phone s = true → validate_phone_format (chars s) = true.
Proof. unfold validate_phone. rewrite andb_true_iff. tauto. Qed.

Lemma phone_20_valid_form s : validate_phone_20 s = true → validate_phone_format (chars s) = true.
Proof. unfold validate_phone_20. rewrite andb_true_iff. tauto. Qed.

Lemma contact_of_valid d f pv email :
  (∀ s, pv s = true → validate_phone_format (chars s) = true) →
  contact_errors d f pv email = [] → contact_valid (contact_of f email).
Proof.
  intros Hp (Ha & _ & _ & _ & Hph & He)%contact_errors_nil. apply required_false in Ha as [Ha _].
  split_and!; simpl; [done|apply upper_idemp|by apply Hp|by apply email_valid_form].
Qed.

Lemma forget_valid t r : row_valid r → row_valid (forget t r).
Proof. destruct r; simpl; try done. by case_bool_decide. Qed.

(** A write that keeps the rows valid. *)
Definition write_valid (w : Write) : Prop :=
  match w with WInsert r => row_valid r | WUpdate _ r => row_valid r | WDelete _ => True end.

Lemma written_valid w d : catalogue_valid d → write_valid w → catalogue_valid (written w d).
Proof.
  intros Hd Hw. destruct w as [r|t r|t]; simpl in *.
  - unfold catalogue_valid, inserted. simpl. by apply map_Forall_insert_2.
  - unfold catalogue_valid, updated. simpl. apply map_Forall_insert_2; [done|]. by apply map_Forall_delete.
  - intros u r (_ & r0 & Hr & ->)%lookup_deleted. apply forget_valid. by eapply Hd.
Qed.

Lemma tier_known tier : tier ∈ TIER_CODES → ∃ c, tier_columns tier = Some c.
Proof.
  unfold TIER_CODES. rewrite !elem_of_cons, elem_of_nil. intros [->|[->|[->|[]]]]; eexists; vm_compute; reflexivity.
Qed.

Lemma item_code_form d own f q g id a : item_of_form d own f q = inr g →
  forallb code_char (chars (im_item_code (g id a))) = true ∧ upper (im_item_name (g id a)) = im_item_name (g id a) ∧
  im_issuance_order (g id a) ∈ ["FIFO"; "FEFO"; "LIFO"]%string.
Proof.
  unfold item_of_form, sum_bind, or_raise, guard_that, validate_item_code, validate_item_name, validate_issuance_order.
  cbv zeta. intros H. repeat (case_match; try discriminate). simplify_eq. simpl.
  repeat match goal with
  | H : _ || _ = false |- _ => apply orb_false_iff in H as [? ?]
  | H : negb _ = false |- _ => apply negb_false_iff in H
  | H : bool_decide _ = true |- _ => apply bool_decide_eq_true in H
  end. split_and!; [done|apply upper_idemp|done].
Qed.

Lemma find_uom_row d c r : find_uom d c = Some r ↔ cd_rows d !! TUom c = Some (RUom r).
Proof. unfold find_uom. destruct (cd_rows d !! TUom c) as [[]|]; naive_solver. Qed.
Lemma find_category_row d i r : find_category d i = Some r ↔ cd_rows d !! TCategory i = Some (RCategory r).
Proof. unfold find_category. destruct (cd_rows d !! TCategory i) as [[]|]; naive_solver. Qed.
Lemma find_item_row d i r : find_catalogue_item d i = Some r ↔ cd_rows d !! TItem i = Some (RItem r).
Proof. unfold find_catalogue_item. destruct (cd_rows d !! TItem i) as [[]|]; naive_solver. Qed.
Lemma find_custodian_row d i r : find_custodian d i = Some r ↔ cd_rows d !! TCustodian i = Some (RCustodian r).
Proof. unfold find_custodian. destruct (cd_rows d !! TCustodian i) as [[]|]; naive_solver. Qed.
Lemma find_warehouse_row d i r : find_warehouse d i = Some r ↔ cd_rows d !! TWarehouse i = Some (RWarehouse r).
Proof. unfold find_warehouse. destruct (cd_rows d !! TWarehouse i) as [[]|]; naive_solver. Qed.
Lemma find_agency_row d i r : find_agency d i = Some r ↔ cd_rows d !! TAgency i = Some (RAgency r).
Proof. unfold find_agency. destruct (cd_rows d !! TAgency i) as [[]|]; naive_solver. Qed.
Lemma find_donor_row d i r : find_donor d i = Some r ↔ cd_rows d !! TDonor i = Some (RDonor r).
Proof. unfold find_donor. destruct (cd_rows d !! TDonor i) as [[]|]; naive_solver. Qed.
Lemma find_event_row d i r : find_event d i = Some r ↔ cd_rows d !! TEvent i = Some (REvent r).
Proof. unfold find_event. destruct (cd_rows d !! TEvent i) as [[]|]; naive_solver. Qed.

Lemma uom_valid d own f a : validate_uom_data d own f = [] → row_valid (uom_row f a).
Proof. unfold validate_uom_data. cbv zeta. intros Hv. form_facts. split; [apply upper_idemp|done]. Qed.

Lemma custodian_valid d own id f a : validate_custodian_data d own f = [] → row_valid (custodian_row id f a).
Proof.
  unfold validate_custodian_data. cbv zeta. intros Hv. form_facts. split; [apply upper_idemp|].
  eapply contact_of_valid; [apply phone_valid_form|eassumption].
Qed.

Lemma warehouse_valid d own id f ty tier i l cu a :
  validate_warehouse_data d own f = [] → tier_columns tier = Some (ty, i, l) →
  row_valid (warehouse_row id f ty (Some tier) (Some i) (Some l) cu a).
Proof.
  unfold validate_warehouse_data. cbv zeta. intros Hv Ht. form_facts. split_and!.
  - apply upper_idemp.
  - eapply contact_of_valid; [apply phone_valid_form|eassumption].
  - by exists tier, i, l.
Qed.

Lemma warehouse_tier d own f : validate_warehouse_data d own f = [] → ∃ c, tier_columns (field f "tier_code") = Some c.
Proof. unfold validate_warehouse_data. cbv zeta. intros Hv. form_facts. by apply tier_known. Qed.

Lemma agency_valid d own id f wh e a : validate_agency_data d own f = Some ([], wh, e) → ∀ wh' e', row_valid (agency_row id f wh' e' a).
Proof.
  unfold validate_agency_data. cbv zeta. destruct (int_or_none (field f "warehouse_id")) as [w|]; [|done].
  destruct (int_or_none (field f "ineligible_event_id")) as [ev|]; [|done]. simpl. intros [= Hv _ _] wh' e'. form_facts.
  split; [apply upper_idemp|]. eapply contact_of_valid; [apply phone_20_valid_form|eassumption].
Qed.

Lemma donor_valid d own id f code a : validate_donor_data d own f = [] → row_valid (donor_row id code f a).
Proof.
  unfold validate_donor_data. cbv zeta. intros Hv. form_facts. split_and!.
  - apply upper_idemp.
  - by apply phone_20_valid_form.
  - by apply email_valid_form.
Qed.

Lemma item_row_valid d own f q id a r : item_row d own f q id a r → row_valid r.
Proof. intros (g & q' & Hg & _ & ->). by apply (item_code_form d own f q). Qed.

Lemma asked_valid kx call d u w : catalogue_valid d → asked kx call d u w → write_valid w.
Proof.
  intros Hd. destruct call; simpl; intros Ha; unpack; cbn [write_valid].
  - by eapply uom_valid.
  - by eapply uom_valid.
  - apply upper_idemp.
  - apply upper_idemp.
  - by eapply custodian_valid.
  - by eapply custodian_valid.
  - by eapply warehouse_valid.
  - edestruct warehouse_tier as [[[ty i] l] Ht]; [eassumption|]. unfold warehouse_edited. rewrite Ht. by eapply warehouse_valid.
  - by eapply agency_valid.
  - by eapply agency_valid.
  - match goal with H : find_agency _ _ = Some _ |- _ => apply find_agency_row, Hd in H end. done.
  - by eapply donor_valid.
  - by eapply donor_valid.
  - done.
  - match goal with H : find_event _ _ = Some _ |- _ => apply find_event_row, Hd in H; simpl in H end.
    simpl. destruct (ev_closed_date _); [naive_solver|done].
  - split; done.
  - by eapply item_row_valid.
  - by eapply item_row_valid.
  - match goal with H : find_catalogue_item _ _ = Some _ |- _ => apply find_item_row, Hd in H end. done.
  - match goal with H : find_catalogue_item _ _ = Some _ |- _ => apply find_item_row, Hd in H end. done.
Qed.

(** * Names of warehouses *)

(** No constraint of the table keeps them apart. *)
Definition names_unique (d : CatDB) : Prop := ∀ i1 i2 r1 r2,
  find_warehouse d i1 = Some r1 → find_warehouse d i2 = Some r2 →
  db_upper (wr_warehouse_name r1) = db_upper (wr_warehouse_name r2) → i1 = i2.

Lemma elem_of_warehouses d r : r ∈ warehouses d ↔ ∃ t, cd_rows d !! t = Some (RWarehouse r).
Proof.
  unfold warehouses. rewrite list_elem_of_omap. setoid_rewrite elem_of_cat_rows. split.
  - intros (x & (t & Ht) & Hx). destruct x; simplify_eq. by exists t.
  - intros (t & Ht). exists (RWarehouse r). split; [by exists t|done].
Qed.

(** The row a write leaves, if any. *)
Definition row_of (w : Write) : option CatRow := match w with WInsert r | WUpdate _ r => Some r | WDelete _ => None end.
Definition leaves (w : Write) (t : Target) : Prop := match w with WUpdate u _ | WDelete u => u ≠ t | WInsert _ => True end.

Lemma lookup_written w d t r : cd_rows (written w d) !! t = Some r →
  (row_of w = Some r ∧ row_target r = t) ∨
  (leaves w t ∧ ∃ r0, cd_rows d !! t = Some r0 ∧ (r = r0 ∨ ∃ u, w = WDelete u ∧ r = forget u r0)).
Proof.
  destruct w as [q|u q|u]; simpl.
  - intros [[<- <-]|[Hne Hr]]%lookup_insert_Some; [by left|right; eauto].
  - intros [[<- <-]|[Hne Hr]]%lookup_insert_Some; [by left|right]. apply lookup_delete_Some in Hr as [Hd Hr]. eauto.
  - intros (Hne & r0 & Hr & ->)%lookup_deleted. right. split; [done|]. eauto 6.
Qed.

Lemma written_warehouse w d i r : find_warehouse (written w d) i = Some r →
  (row_of w = Some (RWarehouse r) ∧ i = wr_warehouse_id r) ∨ (leaves w (TWarehouse i) ∧ find_warehouse d i = Some r).
Proof.
  rewrite !find_warehouse_row. intros [[Hw Ht]|(Hl & r0 & Hr & Hcase)]%lookup_written; [left; split; [done|by injection Ht]|].
  right. split; [done|]. destruct Hcase as [<-|(u & _ & Hf)]; [done|]. destruct r0; simpl in Hf; try discriminate; [by simplify_eq|].
  by case_bool_decide.
Qed.

Lemma warehouse_name_free d own f r i :
  validate_warehouse_data d own f = [] → find_warehouse d i = Some r → wr_warehouse_id r = i → own ≠ Some i →
  db_upper (wr_warehouse_name r) ≠ upper (field f "warehouse_name").
Proof.
  unfold validate_warehouse_data. cbv zeta. intros Hv Hr Hi Hown. form_facts. intros Heq.
  match goal with H : existsb _ _ = false |- _ => rewrite existsb_false in H; specialize (H r) end.
  assert (r ∈ warehouses d) as Hin by (rewrite elem_of_warehouses; exists (TWarehouse i); by apply find_warehouse_row).
  match goal with H : _ → _ && _ = false |- _ => specialize (H Hin); rewrite bool_decide_true in H by done; simpl in H;
    apply negb_false_iff in H; unfold is_own in H end.
  destruct own as [o|]; [|done].
  match goal with H : _ && _ = true |- _ => apply andb_true_iff in H as [_ Ho%Z.eqb_eq] end. congruence.
Qed.
End valid.

(** The locale agrees with Python on what is an upper-case string. *)
Class LocaleLaws (L : Locale) : Prop := { db_upper_upper s : db_upper (upper s) = upper s }.

Section effects.
Context {L : Locale}.

(** * A call stores one write or nothing *)

Lemma cat_call_atomic kx call : atomic (cat_call kx call).
Proof.
  destruct call; unfold cat_call, create_uom, edit_uom, delete_uom, create_category, edit_category, delete_category, create_custodian,
    edit_custodian, delete_custodian, create_warehouse, edit_warehouse, delete_warehouse, create_agency, edit_agency,
    deactivate_agency, create_donor, edit_donor, delete_donor, create_event, edit_event, close_event, delete_event,
    create_item, edit_catalogue_item, inactivate_item, activate_item, open_screen, the_tables, valid_form, fresh_version;
    cbv zeta; auto 15 with web.
Qed.

Lemma cat_call_cases kx call s : let s' := (cat_call kx call s).1 in
  web_db s' = web_db s ∨
  run_ok (cat_call kx call) s tt s' ∧ may_use kx (feature_of_call call) ∧
  ∃ w, requested kx call (web_db s) w ∧ accepted kx (web_db s) w ∧ web_db s' = written w (web_db s).
Proof.
  cbv zeta. pose proof (cat_call_atomic kx call s) as Hat. destruct (cat_call kx call s) as [s' [e|[]]] eqn:Hrun; [by left|right].
  split; [done|]. simpl. apply cat_call_ok in Hrun as (Hu & w & Hr & Ha & ->). split; [done|]. by exists w.
Qed.

Ltac row_of_find := first [by apply find_uom_row|by apply find_category_row|by apply find_item_row|by apply find_custodian_row
  |by apply find_warehouse_row|by apply find_agency_row|by apply find_donor_row|by apply find_event_row].

Lemma warehouse_edited_target i f r a : row_target (warehouse_edited i f r a) = TWarehouse i.
Proof. unfold warehouse_edited. by destruct (tier_columns _) as [[[] ]|]. Qed.

Lemma item_row_target d own f q id a r : item_row d own f q id a r → row_target r = TItem id.
Proof. by intros (g & n & _ & _ & ->). Qed.

(** The key of an updated row is kept, but for a unit of measure. *)
Lemma asked_row kx call d u t r : catalogue_sound d → asked kx call d u (WUpdate t r) →
  ∃ r0, cd_rows d !! t = Some r0 ∧ (row_target r = t ∨ row_refs r ++ row_null_refs r = []).
Proof.
  intros [Hrows _] Ha. destruct call; simpl in Ha; unpack; simplify_eq; eexists; (split; [row_of_find|]);
    first [by right|left; apply warehouse_edited_target|left; by eapply item_row_target|by left|idtac].
  - left. match goal with H : find_agency _ _ = Some _ |- _ => apply find_agency_row, Hrows in H as [Ht _] end. exact Ht.
  - left. match goal with H : find_catalogue_item _ _ = Some _ |- _ => apply find_item_row, Hrows in H as [Ht _] end. exact Ht.
  - left. match goal with H : find_catalogue_item _ _ = Some _ |- _ => apply find_item_row, Hrows in H as [Ht _] end. exact Ht.
Qed.

Lemma requested_change kx call d w :
  catalogue_sound d → requested kx call d w → accepted kx d w → change (kx_today kx) d (written w d).
Proof.
  intros Hs Hreq Hacc. destruct w as [r|t r|t]; simpl in *.
  - destruct Hacc as (? & ? & ?). by apply change_insert.
  - destruct Hacc as (? & ? & ?). destruct Hreq as [(u & _ & Ha)|(t' & _ & [=])].
    destruct (asked_row _ _ _ _ _ _ Hs Ha) as (r0 & Hr0 & Hself). by eapply change_update.
  - by apply change_delete.
Qed.

Lemma requested_valid kx call d w : catalogue_valid d → requested kx call d w → write_valid w.
Proof. intros Hd [(u & _ & Ha)|(t & _ & ->)]; [by eapply asked_valid|done]. Qed.

(** * Names of warehouses stay apart *)

(** A warehouse that is written comes from a form that passed the validation. *)
Lemma asked_warehouse kx call d u w r : asked kx call d u w → row_of w = Some (RWarehouse r) →
  ∃ own f, validate_warehouse_data d own f = [] ∧ wr_warehouse_name r = upper (field f "warehouse_name") ∧
    ∀ i, leaves w (TWarehouse i) → own ≠ Some i.
Proof.
  intros Ha Hr. destruct call; simpl in Ha; unpack; simpl in Hr; simplify_eq.
  - exists None, f. split_and!; [done|by injection Hr as <-|done].
  - exists (Some id), f. split; [done|]. split.
    + unfold warehouse_edited in Hr. destruct (tier_columns _) as [[[? ?] ?]|]; by injection Hr as <-.
    + simpl. by intros i Hne [= ->].
  - match goal with H : item_row _ _ _ _ _ _ _ |- _ => by destruct H as (? & ? & _ & _ & ?) end.
  - match goal with H : item_row _ _ _ _ _ _ _ |- _ => by destruct H as (? & ? & _ & _ & ?) end.
Qed.

Lemma requested_free `{!LocaleLaws L} kx call d w r r' i :
  catalogue_sound d → requested kx call d w → row_of w = Some (RWarehouse r) →
  leaves w (TWarehouse i) → find_warehouse d i = Some r' → db_upper (wr_warehouse_name r') ≠ db_upper (wr_warehouse_name r).
Proof.
  intros [Hrows _] [(u & _ & Ha)|(t & _ & ->)] Hr Hl Hr'; [|done].
  destruct (asked_warehouse _ _ _ _ _ _ Ha Hr) as (own & f & Hv & -> & Hown). rewrite db_upper_upper.
  eapply warehouse_name_free; [done|done| |by apply Hown].
  apply find_warehouse_row, Hrows in Hr' as [Ht _]. by injection Ht.
Qed.

Lemma written_names `{!LocaleLaws L} kx call d w :
  catalogue_sound d → requested kx call d w → names_unique d → names_unique (written w d).
Proof.
  intros Hs Hreq Hu i1 i2 r1 r2 [[Hw1 ->]|[Hl1 H1]]%written_warehouse [[Hw2 ->]|[Hl2 H2]]%written_warehouse Heq.
  - congruence.
  - by destruct (requested_free _ _ _ _ _ _ _ Hs Hreq Hw1 Hl2 H2).
  - by destruct (requested_free _ _ _ _ _ _ _ Hs Hreq Hw2 Hl1 H1).
  - by eapply Hu.
Qed.

(** * The invariant *)

Definition catalogue_inv (d : CatDB) : Prop := catalogue_sound d ∧ catalogue_valid d ∧ names_unique d.

(** Anybody's call, at any time, or what the rest of the program does: it refers to
    rows of the catalogue, but leaves them alone. *)
Inductive cat_step : Web CatDB → Web CatDB → Prop :=
| cat_step_call kx call s : cat_step s (cat_call kx call s).1
| cat_step_others s c hard soft stock requests :
    (∀ k t, hard !! k = Some t ∨ soft !! k = Some t → present_in (web_db s) t = true) →
    cat_step s (mkWeb c (mkCatDB (cd_rows (web_db s)) hard soft stock requests)).

Lemma cat_step_inv `{!LocaleLaws L} s s' : cat_step s s' → catalogue_inv (web_db s) → catalogue_inv (web_db s').
Proof.
  intros [kx call s1|s1 c hard soft stock requests Hl] (Hs & Hv & Hn).
  - destruct (cat_call_cases kx call s1) as [->|(_ & _ & w & Hr & Ha & ->)]; [done|]. split_and!.
    + eapply change_sound; [by eapply requested_change|done].
    + apply written_valid; [done|]. by eapply requested_valid.
    + by eapply written_names.
  - split_and!; [|done|done]. destruct Hs as (Hrows & Hu & _). by split_and!.
Qed.

(** * Whose rows a call changes *)

Definition feature_of_target (t : Target) : option string :=
  match t with
  | TUom _ => Some "uom_management" | TCategory _ => Some "item_category_management" | TItem _ => Some "item_management"
  | TCustodian _ => Some "custodian_management" | TWarehouse _ => Some "warehouse_management"
  | TAgency _ => Some "agency_management" | TDonor _ => Some "donor_management" | TEvent _ => Some "event_management"
  | TParish _ | TCountry _ => None
  end%string.

(** A write is on the table of the screen. *)
Lemma requested_feature kx call d w : requested kx call d w →
  (∀ r, row_of w = Some r → feature_of_target (row_target r) = Some (feature_of_call call)) ∧
  (∀ t, w = WDelete t ∨ (∃ r, w = WUpdate t r) → feature_of_target t = Some (feature_of_call call)).
Proof.
  intros [(u & _ & Ha)|(t & Ha & ->)].
  - destruct call; simpl in Ha; unpack; (split; [intros ? [= <-]|intros ? [[=]|(? & [=])]]; simplify_eq; try done).
    + by rewrite warehouse_edited_target.
    + by erewrite item_row_target by eassumption.
    + by erewrite item_row_target by eassumption.
  - split; [done|]. intros ? [[= <-]|(? & [=])]. destruct call; simpl in Ha; unpack; by subst.
Qed.

(** The agency is the only row that another table's call can touch. *)
Lemma forget_changes t r : forget t r ≠ r → ∃ a e, r = RAgency a ∧ ay_ineligible_event_id a = Some e ∧ t = TEvent e.
Proof.
  destruct r as [| | | | |a| | | |]; try done. unfold forget. case_bool_decide as Hin; [|done]. intros _. simpl in Hin.
  destruct (ay_ineligible_event_id a) as [e|] eqn:He.
  - exists a, e. split_and!; [done..|]. by apply list_elem_of_singleton in Hin.
  - by apply elem_of_nil in Hin.
Qed.

Lemma written_changes w d t : cd_rows (written w d) !! t ≠ cd_rows d !! t →
  (∃ r, row_of w = Some r ∧ row_target r = t) ∨ w = WDelete t ∨ (∃ r, w = WUpdate t r) ∨
  ∃ e a, w = WDelete (TEvent e) ∧ cd_rows d !! t = Some (RAgency a) ∧ ay_ineligible_event_id a = Some e ∧
    cd_rows (written w d) !! t = Some (forget (TEvent e) (RAgency a)).
Proof.
  intros Hne. destruct w as [r|u r|u].
  - left. exists r. split; [done|]. destruct (decide (row_target r = t)) as [|Ht]; [done|]. destruct Hne. simpl.
    by rewrite lookup_insert_ne.
  - destruct (decide (row_target r = t)) as [|Ht]; [left; by exists r|]. right; right; left. exists r. f_equal.
    destruct (decide (u = t)) as [|Hu]; [done|]. destruct Hne. simpl. by rewrite lookup_insert_ne, lookup_delete_ne.
  - destruct (decide (u = t)) as [->|Hu]; [by right; left|]. right; right; right.
    assert (cd_rows (written (WDelete u) d) !! t = forget u <$> cd_rows d !! t) as Hl
      by (simpl; by rewrite lookup_fmap, lookup_delete_ne).
    rewrite Hl in *. destruct (cd_rows d !! t) as [r|]; simpl in *; [|done].
    destruct (forget_changes u r) as (a & e & -> & He & ->); [by intros Hf; rewrite Hf in Hne|]. by exists e, a.
Qed.

(** What a call does to one row. *)
Lemma call_changes kx call s t : let s' := (cat_call kx call s).1 in
  cd_rows (web_db s') !! t ≠ cd_rows (web_db s) !! t →
  run_ok (cat_call kx call) s tt s' ∧ may_use kx (feature_of_call call) ∧
  (feature_of_target t = Some (feature_of_call call) ∨
   ∃ e a, call = DeleteEvent e ∧ cd_rows (web_db s) !! t = Some (RAgency a) ∧ ay_ineligible_event_id a = Some e ∧
     cd_rows (web_db s') !! t = Some (forget (TEvent e) (RAgency a))).
Proof.
  cbv zeta. intros Hne. destruct (cat_call_cases kx call s) as [Heq|(Hrun & Hu & w & Hr & Ha & Heq)]; [by rewrite Heq in Hne|].
  split; [done|]. split; [done|]. rewrite Heq in Hne |- *. destruct (requested_feature _ _ _ _ Hr) as [Hf Hk].
  destruct (written_changes _ _ _ Hne) as [(r & Hw & <-)|[Hw|[Hw|(e & a & -> & Hl & He & Hw)]]]; eauto.
  right. exists e, a. split; [|done]. destruct Hr as [(u & _ & Hask)|(t' & Hd & [= <-])].
  - destruct call; simpl in Hask; unpack; discriminate.
  - destruct call; simpl in Hd; unpack; by simplify_eq.
Qed.

(** * Versions *)

(** The calls that save an edited form, with the row and the form. *)
Definition edits (call : CatCall) : option (Target * Form) :=
  match call with
  | EditUom c f => Some (TUom c, f) | EditCategory i f => Some (TCategory i, f) | EditCustodian i f => Some (TCustodian i, f)
  | EditWarehouse i f => Some (TWarehouse i, f) | EditAgency i f => Some (TAgency i, f) | EditDonor i f => Some (TDonor i, f)
  | EditEvent i f => Some (TEvent i, f) | EditItem i f _ => Some (TItem i, f)
  | _ => None
  end.

(** The version the form was made from, as the handler reads it. *)
Definition form_version (t : Target) (f : Form) : option Z :=
  match t with TEvent _ => Some (safe_version_number (f !! "version_nbr"%string) 0) | _ => submitted_version f end.

Lemma edit_asked kx call d u w t f : edits call = Some (t, f) → asked kx call d u w →
  ∃ r0 a r, w = WUpdate t r ∧ cd_rows d !! t = Some r0 ∧ row_audit r0 = Some a ∧ form_version t f = Some (version_nbr a) ∧
    row_audit r = Some (touch u (kx_now kx) a).
Proof.
  intros He Ha. destruct call; simpl in He; simplify_eq; simpl in Ha; unpack; eexists _, _, _;
    (split; [reflexivity|]; split; [row_of_find|]; split; [reflexivity|]); split_and!; simpl; try done.
  - unfold warehouse_edited. by destruct (tier_columns _) as [[[] ]|].
  - by f_equal.
  - match goal with H : item_row _ _ _ _ _ _ _ |- _ => by destruct H as (? & ? & _ & _ & ->) end.
Qed.

Lemma edit_run kx call s s' t f : edits call = Some (t, f) → run_ok (cat_call kx call) s tt s' →
  ∃ u r0 a r, actor kx u ∧ cd_rows (web_db s) !! t = Some r0 ∧ row_audit r0 = Some a ∧ form_version t f = Some (version_nbr a) ∧
    row_audit r = Some (touch u (kx_now kx) a) ∧ web_db s' = updated t r (web_db s).
Proof.
  intros He (_ & w & [(u & Hu & Ha)|(t' & Ha & _)] & _ & ->)%cat_call_ok.
  - destruct (edit_asked _ _ _ _ _ _ _ He Ha) as (r0 & a & r & -> & H0 & H1 & H2 & H3). by exists u, r0, a, r.
  - by destruct call; simpl in *.
Qed.

(** * Events *)

(** The event a call is about. *)
Definition event_of (kx : CatCtx) (call : CatCall) : option Z :=
  match call with
  | CreateEvent _ => Some (kx_new_id kx)
  | EditEvent i _ | CloseEvent i _ | DeleteEvent i => Some i
  | _ => None
  end.

(** What a call makes of its event: the row before and the row after, column by
    column. *)
Inductive event_move (kx : CatCtx) : CatCall → option EventRow → option EventRow → Prop :=
| em_create f u start :
    actor kx u → field f "event_type" ∈ EVENT_TYPES → strptime (field f "start_date") = Some start → start ≤ kx_today kx →
    event_move kx (CreateEvent f) None
      (Some (mkEventRow (kx_new_id kx) (field f "event_type") start (field f "event_name") (field f "event_desc")
         (field f "impact_desc") "A" None None (mkAudit u (kx_now kx) u (kx_now kx) 1)))
| em_edit i f r u start :
    actor kx u → ev_status_code r = "A"%string → safe_version_number (f !! "version_nbr"%string) 0 = version_nbr (ev_audit r) →
    field f "event_type" ∈ EVENT_TYPES → strptime (field f "start_date") = Some start → start ≤ kx_today kx →
    event_move kx (EditEvent i f) (Some r)
      (Some (mkEventRow i (field f "event_type") start (field f "event_name") (field f "event_desc") (field f "impact_desc")
         "A" None None
         (mkAudit (create_by_id (ev_audit r)) (create_dtime (ev_audit r)) u (kx_now kx) (version_nbr (ev_audit r) + 1))))
| em_close i f r u closed :
    actor kx u → ev_status_code r = "A"%string → field f "reason_desc" ≠ ""%string → closing_date kx f = Some closed →
    ev_start_date r ≤ closed →
    event_move kx (CloseEvent i f) (Some r)
      (Some (mkEventRow i (ev_event_type r) (ev_start_date r) (ev_event_name r) (ev_event_desc r) (ev_impact_desc r)
         "C" (Some closed) (Some (field f "reason_desc"))
         (mkAudit (create_by_id (ev_audit r)) (create_dtime (ev_audit r)) u (kx_now kx) (version_nbr (ev_audit r) + 1))))
| em_delete i r : event_move kx (DeleteEvent i) (Some r) None.

Lemma start_not_later today c f start :
  validate_event_data today c f = [] → strptime (field f "start_date") = Some start → start ≤ today.
Proof. unfold validate_event_data. cbv zeta. intros Hv Hs. form_facts. rewrite Hs in *. lia. Qed.

Lemma find_event_lookup d d' i : cd_rows d' !! TEvent i = cd_rows d !! TEvent i → find_event d' i = find_event d i.
Proof. unfold find_event. by intros ->. Qed.

Lemma find_event_inserted r d i : row_target (REvent r) = TEvent i → find_event (inserted (REvent r) d) i = Some r.
Proof. intros [= <-]. apply find_event_row. unfold inserted. simpl. by rewrite lookup_insert_eq. Qed.

Lemma find_event_updated t r d i : row_target (REvent r) = TEvent i → find_event (updated t (REvent r) d) i = Some r.
Proof. intros [= <-]. apply find_event_row. unfold updated. simpl. by rewrite lookup_insert_eq. Qed.

Lemma find_event_deleted d i : find_event (deleted (TEvent i) d) i = None.
Proof. unfold find_event, deleted. simpl. by rewrite lookup_fmap, lookup_delete_eq. Qed.

Lemma event_sound d i r : catalogue_sound d → find_event d i = Some r →
  ev_event_id r = i ∧ row_fits (REvent r) = true ∧ ∃ today, row_checks today (REvent r) = true.
Proof. intros [Hrows _] (Ht & Hf & Hc & _)%find_event_row%Hrows. by injection Ht. Qed.

(** An event that is not closed is active, and has neither date nor reason. *)
Lemma event_open d i r : catalogue_sound d → find_event d i = Some r → ev_status_code r ≠ "C"%string →
  ev_status_code r = "A"%string ∧ ev_closed_date r = None ∧ ev_reason_desc r = None.
Proof.
  intros Hs Hr Hne. destruct (event_sound _ _ _ Hs Hr) as (_ & _ & today & Hc). simpl in Hc.
  rewrite (bool_decide_eq_false_2 (ev_status_code r = _)) in Hc by done.
  repeat apply andb_true_iff in Hc as [Hc ?]. destruct (ev_closed_date r), (ev_reason_desc r); try done. split_and!; try done.
  match goal with H : bool_decide (ev_status_code r ∈ _) = true |- _ => apply bool_decide_eq_true in H; set_solver end.
Qed.

Lemma event_form_facts today c f : validate_event_data today c f = [] → field f "event_type" ∈ EVENT_TYPES.
Proof. unfold validate_event_data. cbv zeta. intros Hv. by form_facts. Qed.

(** A write on the events, told by the call. *)
Lemma event_written kx call d w i : catalogue_sound d → event_of kx call = Some i →
  requested kx call d w → accepted kx d w → event_move kx call (find_event d i) (find_event (written w d) i).
Proof.
  intros Hs Hi [(u & Hu & Ha)|(t & Ha & ->)] Hacc; destruct call; simpl in Hi; simplify_eq; simpl in Ha; unpack.
  - destruct Hacc as (_ & _ & Hnone). simpl in Hnone. unfold find_event at 1. rewrite Hnone.
    simpl. unfold event_row. rewrite find_event_inserted by done.
    apply em_create; eauto using start_not_later, event_form_facts.
  - match goal with H : find_event _ _ = Some _ |- _ => rename H into Hev end.
    destruct (event_sound _ _ _ Hs Hev) as [<- _]. destruct (event_open _ _ _ Hs Hev) as (Ho & Hc & Hr); [done|].
    rewrite Hev. simpl. unfold edited_event. rewrite find_event_updated, Ho, Hc, Hr by done.
    apply em_edit; eauto using start_not_later, event_form_facts.
  - match goal with H : find_event _ _ = Some _ |- _ => rename H into Hev end.
    destruct (event_sound _ _ _ Hs Hev) as [<- _]. destruct (event_open _ _ _ Hs Hev) as (Ho & _); [done|].
    rewrite Hev. simpl. unfold closed_event. rewrite find_event_updated by done. by apply em_close.
  - match goal with H : find_event _ _ = Some _ |- _ => rewrite H end. subst. simpl. rewrite find_event_deleted. apply em_delete.
Qed.

(** A change of a row of events is one of a call of the screen of events. *)
Lemma event_changed_by kx call d w i : catalogue_sound d → requested kx call d w →
  cd_rows (written w d) !! TEvent i ≠ cd_rows d !! TEvent i → feature_of_call call = "event_management"%string.
Proof.
  intros [Hrows _] Hr Hne. destruct (requested_feature _ _ _ _ Hr) as [Hf Hk].
  destruct (written_changes _ _ _ Hne) as [(r & Hw & Ht)|[Hw|[Hw|(e & a & _ & Hl & _)]]].
  - specialize (Hf _ Hw). rewrite Ht in Hf. by injection Hf.
  - specialize (Hk (TEvent i) (or_introl Hw)). by injection Hk.
  - specialize (Hk (TEvent i) (or_intror Hw)). by injection Hk.
  - by apply Hrows in Hl as [? _].
Qed.

(** A write of another call leaves the event alone. *)
Lemma event_unwritten kx call d w i : catalogue_sound d → event_of kx call ≠ Some i → requested kx call d w →
  find_event (written w d) i = find_event d i.
Proof.
  intros Hs Hi Hr. apply find_event_lookup.
  destruct (decide (cd_rows (written w d) !! TEvent i = cd_rows d !! TEvent i)) as [|Hne]; [done|]. exfalso.
  pose proof (event_changed_by _ _ _ _ _ Hs Hr Hne) as Hf. apply Hi.
  destruct Hr as [(u & _ & Ha)|(t & Ha & ->)]; destruct call; simpl in Hf; try discriminate; simpl in Ha; unpack; simpl;
    f_equal; apply dec_stable; intros Hid; apply Hne; subst; simpl.
  - by rewrite lookup_insert_ne by congruence.
  - match goal with H : find_event _ _ = Some _ |- _ => destruct (event_sound _ _ _ Hs H) as [? _] end.
    by rewrite lookup_insert_ne, lookup_delete_ne by congruence.
  - match goal with H : find_event _ _ = Some _ |- _ => destruct (event_sound _ _ _ Hs H) as [? _] end.
    by rewrite lookup_insert_ne, lookup_delete_ne by congruence.
  - rewrite lookup_fmap, lookup_delete_ne by congruence. destruct (cd_rows d !! TEvent i) as [r|] eqn:Hl; [|done]. simpl.
    f_equal. destruct Hs as [Hrows _]. apply Hrows in Hl as [Ht _]. by destruct r.
Qed.

(** An event has neither references nor a unique column: only its CHECKs count. *)
Lemma event_row_ok today d t r : cat_row_ok today d t (REvent r) = row_checks today (REvent r).
Proof.
  unfold cat_row_ok. simpl forallb at 1. rewrite andb_true_r.
  rewrite (proj2 (forallb_forall _ _)); [apply andb_true_r|]. intros [u x] _.
  apply orb_true_iff. right. by apply forallb_forall.
Qed.

(** What the database asks of an active event that is closed. *)
Lemma close_accepted kx d i r u closed reason : catalogue_sound d → find_event d i = Some r → ev_status_code r = "A"%string →
  accepted kx d (WUpdate (TEvent i) (closed_event closed reason (touch u (kx_now kx) (ev_audit r)) r)) ↔
  len u ≤ 20 ∧ len reason ≤ 255 ∧ ev_start_date r ≤ kx_today kx.
Proof.
  intros Hs Hr Ho. destruct (event_sound _ _ _ Hs Hr) as (<- & Hf & today & Hc).
  unfold accepted, may_rename, closed_event. rewrite event_row_ok. unfold row_fits, audit_fits, varchar in *.
  simpl in Hf, Hc |- *. unfold varchar in *. rewrite Ho in *. simpl in *.
  rewrite !andb_true_iff in *. rewrite bool_decide_eq_true in *. rewrite !Z.leb_le in *. tauto.
Qed.

(** An event is closed exactly by a user of the screen who gives an active event a reason
    and a date not before its start. *)
Lemma close_run_ok kx i f s r : catalogue_sound (web_db s) → find_event (web_db s) i = Some r →
  (∃ s', run_ok (cat_call kx (CloseEvent i f)) s tt s') ↔
  may_use kx "event_management" ∧ (∃ u, actor kx u ∧ len u ≤ 20) ∧ ev_status_code r = "A"%string ∧
  field f "reason_desc" ≠ ""%string ∧ len (field f "reason_desc") ≤ 255 ∧ ev_start_date r ≤ kx_today kx ∧
  ∃ closed, closing_date kx f = Some closed ∧ ev_start_date r ≤ closed.
Proof.
  intros Hs Hr. setoid_rewrite cat_call_ok. split.
  - intros (s' & Hu & w & [(u & Ha & Hw)|(t & [] & _)] & Hacc & _). simpl in Hw. unpack. simplify_eq.
    destruct (event_open _ _ _ Hs Hr) as (Ho & _); [done|].
    apply close_accepted in Hacc; [|done..]. naive_solver.
  - intros (Hu & (u & Ha & Hl) & Ho & Hn & Hlr & Ht & closed & Hc & Hle). eexists. split; [done|]. eexists. split; [|split; [|done]].
    + left. exists u. split; [done|]. exists r, closed. split_and!; try done. by rewrite Ho.
    + by apply close_accepted.
Qed.
End effects.
