(* ===== verification/CatalogueTheorems.v ===== *)
(** What holds of the catalogue whatever is called: its tables stay sound and valid,
    only the users of a screen change its rows, no update is lost, and an event only
    moves forward. *)
From stdpp Require Import strings.
From S2P Require Import Prelude PyStr PySort ParamValidation Schema Columns Dates PathSafety Phone Atomicity AccessControl Web Catalogue CatalogueForms CatalogueScreens CatalogueProofs CatalogueSpec CatalogueCalls CatalogueEffects.

Section theorems.
Context {L : Locale}.

(** C24: Whatever calls are made, by whom and on what forms, and whatever the rest of the
    program makes refer to the catalogue in between: every row stays keyed by its own
    key, within its columns and CHECK constraints, and valid in what only the screens
    check (phone numbers, email addresses, item codes, the warehouse type that goes
    with its tier, closing dates); unique keys stay unique, every reference from inside
    or outside resolves, and no two warehouses share a name, which no constraint asks. *)
Theorem catalogue_tables_invariant `{!LocaleLaws L} s s' :
  reach cat_step s s' → catalogue_inv (web_db s) → catalogue_inv (web_db s').
Proof. apply (reach_inv cat_step (λ s, catalogue_inv (web_db s))). exact cat_step_inv. Qed.

(** A row of the catalogue changes only in a call that succeeds and whose user has
    the feature of that table; the one exception is the agency whose ineligible event
    is deleted, which loses that reference and nothing else.  No call changes parishes
    or countries, and a call that fails changes nothing. *)
Theorem catalogue_change_authorized kx call s t :
  let s' := (cat_call kx call s).1 in
  cd_rows (web_db s') !! t ≠ cd_rows (web_db s) !! t →
  run_ok (cat_call kx call) s tt s' ∧
  ((∃ fe, feature_of_target t = Some fe ∧ may_use kx fe) ∨
   ∃ e a, call = DeleteEvent e ∧ may_use kx "event_management" ∧ cd_rows (web_db s) !! t = Some (RAgency a) ∧
     ay_ineligible_event_id a = Some e ∧ cd_rows (web_db s') !! t = Some (forget (TEvent e) (RAgency a))).
Proof.
  cbv zeta. intros Hne. destruct (call_changes kx call s t Hne) as (Hrun & Hu & [Hf|(e & a & -> & Ha)]).
  - split; [done|]. left. by eexists.
  - split; [done|]. right. exists e, a. destruct Ha as (? & ? & ?). by split_and!.
Qed.

(** C26: No update is lost.  An edit that is saved was made from the version then stored;
    it stamps the row with the user and the time, keeps who created it and raises the
    version by one.  So whoever saves another form made from the same version of that
    row next is refused, even when the first edit renamed the row. *)
Theorem no_lost_update kx call s s' t f :
  edits call = Some (t, f) → run_ok (cat_call kx call) s tt s' →
  (∃ u r0 a r, actor kx u ∧ cd_rows (web_db s) !! t = Some r0 ∧ row_audit r0 = Some a ∧ form_version t f = Some (version_nbr a) ∧
     cd_rows (web_db s') !! row_target r = Some r ∧
     row_audit r = Some (mkAudit (create_by_id a) (create_dtime a) u (kx_now kx) (version_nbr a + 1))) ∧
  (∀ kx' call' f' s'', edits call' = Some (t, f') → f' !! "version_nbr"%string = f !! "version_nbr"%string →
     ¬ run_ok (cat_call kx' call') s' tt s'').
Proof.
  intros He Hrun. destruct (edit_run _ _ _ _ _ _ He Hrun) as (u & r0 & a & r & Hu & Hr0 & Ha & Hv & Hra & Hs'). split.
  - exists u, r0, a, r. split_and!; try done. rewrite Hs'. simpl. by rewrite lookup_insert_eq.
  - intros kx' call' f' s'' He' Hf Hrun'. destruct (edit_run _ _ _ _ _ _ He' Hrun') as (u' & r1 & a1 & _ & _ & Hr1 & Ha1 & Hv1 & _).
    assert (form_version t f' = form_version t f) as Heq by (unfold form_version, submitted_version; by rewrite Hf).
    rewrite Hs' in Hr1. simpl in Hr1. apply lookup_insert_Some in Hr1 as [[_ <-]|[_ Hr1]].
    + rewrite Ha1 in Hra. injection Hra as ->. rewrite Heq, Hv in Hv1. injection Hv1 as Hv1. lia.
    + by rewrite lookup_delete_eq in Hr1.
Qed.

(** C23: The life of an event (catalogue tables that are sound).  A call that succeeds and is about the
    event is one of a user with the feature of the screen, and makes of the row exactly
    one of four moves: from no row to an active one with the fields of the form, no
    closing and version 1, starting no later than today; from an active row of the
    version of the form to an active one with the fields of the form; from an active row
    to the same row closed, on the date of the form (or today) that is not before its
    start, for the reason of the form; from any row to none.  Rows that stay keep who
    created them, are stamped and one version further.  Any other call, and one that
    fails, leaves the event as it is.  Closing succeeds exactly for a user of the screen
    with a name that fits, on an active event, with a reason of 1 to 255 characters and
    such a date; so a closed event is never edited or closed again: it stays, column by
    column, until it is deleted. *)
Theorem event_lifecycle kx call s i (Hs : catalogue_sound (web_db s)) :
  let s' := (cat_call kx call s).1 in
  let before := find_event (web_db s) i in
  let after := find_event (web_db s') i in
  (run_ok (cat_call kx call) s tt s' → event_of kx call = Some i →
     may_use kx "event_management" ∧ event_move kx call before after) ∧
  (¬ (run_ok (cat_call kx call) s tt s' ∧ event_of kx call = Some i) → after = before) ∧
  (∀ f r, call = CloseEvent i f → before = Some r →
     run_ok (cat_call kx call) s tt s' ↔
     may_use kx "event_management" ∧ (∃ u, actor kx u ∧ len u ≤ 20) ∧ ev_status_code r = "A"%string ∧
     field f "reason_desc" ≠ ""%string ∧ len (field f "reason_desc") ≤ 255 ∧ ev_start_date r ≤ kx_today kx ∧
     ∃ closed, closing_date kx f = Some closed ∧ ev_start_date r ≤ closed) ∧
  (∀ r, before = Some r → ev_status_code r = "C"%string → after = Some r ∨ call = DeleteEvent i ∧ after = None).
Proof.
  cbv zeta. assert (event_of kx call = Some i → run_ok (cat_call kx call) s tt (cat_call kx call s).1 →
    may_use kx "event_management" ∧ event_move kx call (find_event (web_db s) i) (find_event (web_db (cat_call kx call s).1) i)) as Hmove.
  { intros Hi (Hu & w & Hr & Ha & ->)%cat_call_ok. split; [by destruct call|]. by eapply event_written. }
  assert (¬ (run_ok (cat_call kx call) s tt (cat_call kx call s).1 ∧ event_of kx call = Some i) →
    find_event (web_db (cat_call kx call s).1) i = find_event (web_db s) i) as Hstay.
  { intros Hn. destruct (cat_call_cases kx call s) as [->|(Hrun & _ & w & Hr & _ & ->)]; [done|].
    eapply event_unwritten; eauto. }
  split_and!; [auto|done| |].
  - intros f r -> Hr. rewrite <-close_run_ok by done. split; [by eexists|]. intros [s' Hrun]. unfold run_ok in *. by rewrite Hrun.
  - intros r Hr Hc. destruct (decide (event_of kx call = Some i)) as [Hi|Hi]; [|left; rewrite Hstay; tauto].
    destruct (cat_call_cases kx call s) as [Heq|(Hrun & _)]; [left; by rewrite Heq|].
    destruct (Hmove Hi Hrun) as [_ Hm]. rewrite Hr in Hm. inversion Hm; subst; try congruence.
    right. by injection Hi as ->.
Qed.
End theorems.

(** * At concrete tables *)

(** A locale that knows ASCII and Latin-1 as Python does. *)
#[export] Instance ascii_locale : Locale := {| db_upper := upper; db_ilike p s := bool_decide (lower p = lower s); collate := λ s, code <$> chars s |}.
#[export] Instance ascii_locale_laws : LocaleLaws ascii_locale.
Proof. split. apply upper_idemp. Qed.

Definition ex_empty : CatDB := mkCatDB {[TParish "01" := RParish "01" "KINGSTON"; TCountry 388 := RCountry 388 "JAMAICA"]} ∅ ∅ [] [].

Definition ex_keeper : SessionUser := mkSessionUser "keeper" "keeper@odpem.gov.jm" None ["CUSTODIAN"%string] [].

(** Day 739500 is in the year 2025. *)
Definition ex_kx (i : Z) : CatCtx := mkCatCtx (Some ex_keeper) 739500 10 i.

Definition form_of (l : list (string * string)) : Form := list_to_map l.

Definition ex_contact : list (string * string) :=
  [("address1_text", "1 HARBOUR ST"); ("parish_code", "01"); ("contact_name", "J. Brown"); ("phone_no", "+1 (876) 555-0100");
   ("email_text", "")]%string.

Definition ex_warehouse (name tier version : string) : Form :=
  form_of ([("warehouse_name", name); ("tier_code", tier); ("custodian_id", "1"); ("status_code", "A"); ("version_nbr", version)]%string ++ ex_contact).

Definition ex_event (name version : string) : Form :=
  form_of [("event_type", "STORM"); ("start_date", "2024-07-03"); ("event_name", name); ("event_desc", "Category 4");
           ("impact_desc", "South coast"); ("version_nbr", version)]%string.

Definition ex_agency : Form :=
  form_of ([("agency_name", "Red Cross"); ("agency_type", "DISTRIBUTOR"); ("warehouse_id", "2"); ("ineligible_event_id", "4");
            ("status_code", "A")]%string ++ ex_contact).

Definition ex_closing : Form := form_of [("reason_desc", "Response ended"); ("closed_date", "2024-12-01")]%string.

(** Two warehouses of one name; an event edited, closed, and edited again. *)
Definition ex_calls : list (Z * CatCall) :=
  [(1, CreateCustodian (form_of (("custodian_name", "Odpem")%string :: ex_contact)));
   (2, CreateWarehouse (ex_warehouse "Kingston Hub" "MAIN" ""));
   (3, CreateWarehouse (ex_warehouse "KINGSTON hub" "HSA" ""));
   (4, CreateEvent (ex_event "Beryl" ""));
   (5, CreateAgency ex_agency);
   (5, EditEvent 4 (ex_event "Hurricane Beryl" "1"));
   (5, CloseEvent 4 ex_closing);
   (5, EditEvent 4 (ex_event "Beryl" "3"))].

Definition after_calls (l : list (Z * CatCall)) (s : Web CatDB) : Web CatDB :=
  foldl (λ s p, (cat_call (ex_kx p.1) p.2 s).1) s l.

Definition ex_web : Web CatDB := mkWeb None ex_empty.

Lemma after_cat_calls_reach l s : reach cat_step s (after_calls l s).
Proof. revert s. induction l as [|c l IH]; intros s; [constructor|]. eapply reach_step; [constructor|apply IH]. Qed.

Lemma ex_web_inv : catalogue_inv (web_db ex_web).
Proof.
  assert (∀ t r, cd_rows ex_empty !! t = Some r →
    t = TParish "01" ∧ r = RParish "01" "KINGSTON" ∨ t = TCountry 388 ∧ r = RCountry 388 "JAMAICA") as Hrows.
  { intros t r. unfold ex_empty. simpl. intros [[<- <-]|[_ Hr]]%lookup_insert_Some; [by left|]. right. by apply lookup_singleton_Some in Hr as [<- <-]. }
  split_and!.
  - split_and!.
    + intros t r [[-> ->]|[-> ->]]%Hrows; (split_and!; [done|done|by exists 0|intros u Hu; by apply elem_of_nil in Hu]).
    + intros t1 t2 r1 r2 u [[-> ->]|[-> ->]]%Hrows _ _ Hu; by apply elem_of_nil in Hu.
    + intros k t [Hk|Hk]; simpl in Hk; by rewrite lookup_empty in Hk.
  - by intros t r [[-> ->]|[-> ->]]%Hrows.
  - by intros i1 i2 r1 r2 [[[=] _]|[[=] _]]%find_warehouse_row%Hrows.
Qed.

Definition ex_after : Web CatDB := after_calls ex_calls ex_web.

Lemma ex_after_inv : catalogue_inv (web_db ex_after).
Proof. eapply (reach_inv cat_step (λ s, catalogue_inv (web_db s))); [apply cat_step_inv|apply after_cat_calls_reach|apply ex_web_inv]. Qed.

(** A run that succeeds, by evaluation. *)
Definition succeeds (kx : CatCtx) (call : CatCall) (s : Web CatDB) : bool :=
  match (cat_call kx call s).2 with inr _ => true | inl _ => false end.

Lemma succeeds_run kx call s : succeeds kx call s = true → run_ok (cat_call kx call) s tt (cat_call kx call s).1.
Proof. unfold succeeds, run_ok. by destruct (cat_call kx call s) as [s' [e|[]]]. Qed.

(** The hub was created, its namesake was not, and all is as it should be. *)
Lemma catalogue_tables_invariant_witness :
  (wr_warehouse_name <$> find_warehouse (web_db ex_after) 2 = Some "KINGSTON HUB"%string ∧ find_warehouse (web_db ex_after) 3 = None) ∧
  catalogue_inv (web_db ex_after).
Proof.
  split; [vm_compute; by split|]. apply (catalogue_tables_invariant ex_web); [apply after_cat_calls_reach|apply ex_web_inv].
Defined.

(** Deleting the event clears the agency that was ineligible for it. *)
Lemma catalogue_change_authorized_witness :
  let s' := (cat_call (ex_kx 6) (DeleteEvent 4) ex_after).1 in
  cd_rows (web_db s') !! TAgency 5 ≠ cd_rows (web_db ex_after) !! TAgency 5 ∧
  run_ok (cat_call (ex_kx 6) (DeleteEvent 4)) ex_after tt s'.
Proof.
  cbv zeta.
  assert (cd_rows (web_db (cat_call (ex_kx 6) (DeleteEvent 4) ex_after).1) !! TAgency 5 ≠ cd_rows (web_db ex_after) !! TAgency 5) as Hne
    by (vm_compute; discriminate).
  split; [exact Hne|]. exact (proj1 (catalogue_change_authorized (ex_kx 6) (DeleteEvent 4) ex_after (TAgency 5) Hne)).
Defined.

(** Two edits of the same page of the same warehouse. *)
Lemma no_lost_update_witness :
  let first := EditWarehouse 2 (ex_warehouse "Kingston Hub" "LSA" "1") in
  let second := EditWarehouse 2 (ex_warehouse "Harbour Hub" "MAIN" "1") in
  succeeds (ex_kx 6) first ex_after = true ∧
  ∀ s'', ¬ run_ok (cat_call (ex_kx 7) second) (cat_call (ex_kx 6) first ex_after).1 tt s''.
Proof.
  cbv zeta. assert (succeeds (ex_kx 6) (EditWarehouse 2 (ex_warehouse "Kingston Hub" "LSA" "1")) ex_after = true) as Hs
    by (vm_compute; reflexivity).
  split; [exact Hs|]. intros s''.
  refine (proj2 (no_lost_update (ex_kx 6) (EditWarehouse 2 (ex_warehouse "Kingston Hub" "LSA" "1")) ex_after _ (TWarehouse 2) (ex_warehouse "Kingston Hub" "LSA" "1") eq_refl (succeeds_run _ _ _ Hs))
    (ex_kx 7) (EditWarehouse 2 (ex_warehouse "Harbour Hub" "MAIN" "1")) (ex_warehouse "Harbour Hub" "MAIN" "1") s'' eq_refl _). vm_compute. reflexivity.
Defined.

(** The event while it is still open, and after it was closed. *)
Definition ex_open : Web CatDB := after_calls (take 6 ex_calls) ex_web.

Lemma ex_open_sound : catalogue_sound (web_db ex_open).
Proof. apply (reach_inv cat_step (λ s, catalogue_inv (web_db s)) cat_step_inv ex_web); [apply after_cat_calls_reach|apply ex_web_inv]. Qed.

(** The event was edited and is open; it is closed; closing it once more is refused. *)
Lemma event_lifecycle_witness :
  let before := find_event (web_db ex_open) 4 in
  let s' := (cat_call (ex_kx 6) (CloseEvent 4 ex_closing) ex_open).1 in
  let after := find_event (web_db s') 4 in
  (ev_event_name <$> before = Some "Hurricane Beryl"%string ∧ ev_status_code <$> before = Some "A"%string) ∧
  (ev_status_code <$> after = Some "C"%string ∧ event_move (ex_kx 6) (CloseEvent 4 ex_closing) before after) ∧
  ¬ run_ok (cat_call (ex_kx 6) (CloseEvent 4 ex_closing)) ex_after tt (cat_call (ex_kx 6) (CloseEvent 4 ex_closing) ex_after).1.
Proof.
  cbv zeta. split; [vm_compute; by split|]. split.
  - split; [vm_compute; reflexivity|].
    assert (succeeds (ex_kx 6) (CloseEvent 4 ex_closing) ex_open = true) as Hok by (vm_compute; reflexivity).
    exact (proj2 (proj1 (event_lifecycle (ex_kx 6) (CloseEvent 4 ex_closing) ex_open 4 ex_open_sound) (succeeds_run _ _ _ Hok) eq_refl)).
  - assert (ev_status_code <$> find_event (web_db ex_after) 4 = Some "C"%string) as Hc by (vm_compute; reflexivity).
    pose proof (event_lifecycle (ex_kx 6) (CloseEvent 4 ex_closing) ex_after 4 (proj1 ex_after_inv)) as Hl.
    generalize dependent ex_after. intros w Hc (_ & _ & Hl & _) Hrun. apply fmap_Some in Hc as (r & Hr & Hc).
    apply (Hl ex_closing r eq_refl Hr) in Hrun as (_ & _ & Ho & _). congruence.
Defined.
