(* ===== verification/UrlSafety.v ===== *)
(** Redirect targets (app/security/url_safety.py).

    [urlparse] and [urljoin] are modelled as far as the checks look at them: the scheme
    and the authority of a target, as Python 3.11 splits it.  Joining a target without
    an authority to the host of the request gives a URL of that host, whatever its
    path, so only the target's own scheme and authority decide. *)
From stdpp Require Import strings.
From Stdlib Require Import Ascii String.
From S2P Require Import Prelude PyStr ParamValidation PathSafety LogSafety CatalogueForms.

(** * urllib.parse.urlsplit *)

(** Leading control characters and spaces, and the characters removed anywhere. *)
Fixpoint drop_controls (l : text) : text :=
  match l with [] => [] | c :: l' => if code c <=? 32 then drop_controls l' else l end.

Definition url_break (c : ascii) : bool := bool_decide (code c ∈ [9; 10; 13]).

Definition url_text (l : text) : text := List.filter (λ c, negb (url_break c)) (drop_controls l).

Definition scheme_char (c : ascii) : bool := is_letter c || is_digit c || bool_decide (code c ∈ [43; 45; 46]).

(** The scheme, [None] without one, and what follows. *)
Definition split_scheme (l : text) : option text * text :=
  match split_first 58 l with
  | Some (c :: s, rest) => if is_letter c && forallb scheme_char s then (Some (lower_text (c :: s)), rest) else (None, l)
  | _ => (None, l)
  end.

Fixpoint until_delimiter (l : text) : text :=
  match l with [] => [] | c :: l' => if bool_decide (code c ∈ [47; 63; 35]) then [] else c :: until_delimiter l' end.

Definition netloc_of (l : text) : text :=
  match l with a :: b :: l' => if (code a =? 47) && (code b =? 47) then until_delimiter l' else [] | _ => [] end.

Definition urlsplit (l : text) : option text * text :=
  let '(s, rest) := split_scheme (url_text l) in (s, netloc_of rest).

(** A bracket in the authority starts the check of an IPv6 address, which may raise. *)
Definition bracketed (netloc : text) : bool := existsb (λ c, bool_decide (code c ∈ [91; 93])) netloc.

(** * The checks *)

Definition SCRIPT_SCHEMES : list string := ["javascript:"; "data:"; "vbscript:"]%string.

Section request.
(** [request.host_url], a URL of the server: its scheme and host. *)
Variable scheme host : text.

(** [urlparse(urljoin(request.host_url, target))] stays on the host. *)
Definition same_host (target : text) : bool :=
  let '(s, n) := urlsplit target in
  match s with
  | None => bool_decide (n = []) || bool_decide (n = host)
  | Some s => if bool_decide (s = scheme) then bool_decide (n = []) || bool_decide (n = host)
              else bool_decide (s ∈ [chars "http"; chars "https"]) && bool_decide (n = host)
  end.

(** [None] where the split may raise. *)
Definition is_safe_url (target : option text) : option bool :=
  match target with
  | None => Some false
  | Some t =>
      let t := strip_text t in
      if bool_decide (t = []) || starts_with [slash; slash] t then Some false
      else if existsb (λ p, starts_with (chars p) (lower_text t)) SCRIPT_SCHEMES then Some false
      else if bracketed (urlsplit t).2 then None
      else Some (same_host t)
  end.

Definition get_safe_redirect_url (target : option text) (default_url : text) : option text :=
  match target with
  | Some t => (λ safe : bool, if safe then t else default_url) <$> is_safe_url (Some t)
  | None => Some default_url
  end.

Definition validate_internal_url (url : option text) : option bool :=
  match url with
  | None => Some false
  | Some u =>
      if bool_decide (u = []) then Some false
      else if starts_with [slash] u && negb (starts_with [slash; slash] u) &&
              negb (existsb (λ m, has_infix (chars m) (lower_text u)) SCRIPT_SCHEMES) then Some true
      else is_safe_url (Some u)
  end.

(** * What they promise *)

(** Where a client goes that reads the target as [urlsplit] does. *)
Definition at_home (target : text) : Prop :=
  match urlsplit target with
  | (None, n) => n = [] ∨ n = host
  | (Some s, n) => s ∈ [scheme; chars "http"; chars "https"] ∧ (n = host ∨ s = scheme ∧ n = [])
  end.
End request.

Section safety.
Variable scheme host : text.

Lemma same_host_home t : same_host scheme host t = true → at_home scheme host t.
Proof.
  unfold same_host, at_home. destruct (urlsplit t) as [[s|] n].
  - case_bool_decide as Hs.
    + rewrite orb_true_iff, !bool_decide_eq_true. subst s. intros Hn. split; [by left|]. destruct Hn; [by right|by left].
    + rewrite andb_true_iff, !bool_decide_eq_true. intros [Hin Hn]. split; [by right|by left].
  - by rewrite orb_true_iff, !bool_decide_eq_true.
Qed.

Lemma is_safe_home t : is_safe_url scheme host (Some t) = Some true → at_home scheme host (strip_text t).
Proof.
  unfold is_safe_url. repeat (case_match; try discriminate). intros [= Hs]. by apply same_host_home.
Qed.

Lemma filter_breaks_id l : existsb url_break l = false → List.filter (λ c, negb (url_break c)) l = l.
Proof.
  induction l as [|c l IH]; simpl; [done|]. rewrite orb_false_iff. intros [-> Hl]. simpl. by rewrite IH.
Qed.

(** A path that starts with one slash and no break stays where it is. *)
Lemma path_at_home u : existsb url_break u = false → starts_with [slash] u = true → starts_with [slash; slash] u = false →
  at_home scheme host u.
Proof.
  unfold starts_with. rewrite bool_decide_eq_true, bool_decide_eq_false. intros Hb [l ->] Hn. unfold at_home, urlsplit, url_text.
  change (drop_controls ([slash] ++ l)) with (slash :: l). rewrite filter_breaks_id by done.
  assert (split_scheme (slash :: l) = (None, slash :: l)) as ->.
  { unfold split_scheme. simpl. by destruct (split_first 58 l) as [[w rest]|]. }
  left. destruct l as [|b l]; [done|]. simpl. destruct (code b =? 47) eqn:Hc; [|done]. destruct Hn. exists l.
  assert (b = slash) as ->; [|done]. apply Z.eqb_eq in Hc. unfold code in Hc.
  rewrite <- (ascii_nat_embedding b). by replace (nat_of_ascii b) with 47%nat by lia.
Qed.

(** A redirect that the login page follows, and one of [get_safe_redirect_url],
    stays on the host of the request as [urlsplit] reads it, whatever the target; the
    check of stored links promises the same of links without a tab or line break. *)
Theorem redirects_stay_home t d u :
  (is_safe_url scheme host (Some t) = Some true → at_home scheme host (strip_text t)) ∧
  (get_safe_redirect_url scheme host (Some t) d = Some u → u = d ∨ at_home scheme host (strip_text u)) ∧
  (existsb url_break t = false → validate_internal_url scheme host (Some t) = Some true →
   at_home scheme host t ∨ at_home scheme host (strip_text t)).
Proof.
  split_and!.
  - apply is_safe_home.
  - unfold get_safe_redirect_url. destruct (is_safe_url scheme host (Some t)) as [[]|] eqn:Hs; intros [= <-]; [right|by left].
    by apply is_safe_home.
  - intros Hb. unfold validate_internal_url. destruct (bool_decide (t = [])); [done|].
    destruct (starts_with [slash] t) eqn:H1; simpl; [|intros Hs; right; by apply is_safe_home].
    destruct (starts_with [slash; slash] t) eqn:H2; simpl; [intros Hs; right; by apply is_safe_home|].
    intros _. left. by apply path_at_home.
Qed.
End safety.

(** A tab after the first slash: the check of stored links lets it through, although
    Python splits the host off it that [is_safe_url] would find. *)
Theorem tab_leaves_home : let u := slash :: chr 9 :: chars "/evil.example/login" in
  validate_internal_url (chars "https") (chars "dmis.example") (Some u) = Some true ∧
  is_safe_url (chars "https") (chars "dmis.example") (Some u) = Some false ∧
  ¬ at_home (chars "https") (chars "dmis.example") u.
Proof.
  cbv zeta. split; [vm_compute; reflexivity|]. split; [vm_compute; reflexivity|].
  intros [H|H]; vm_compute in H; discriminate.
Qed.

Lemma redirects_stay_home_witness :
  let t := chars " https://dmis.example/packaging" in
  is_safe_url (chars "https") (chars "dmis.example") (Some t) = Some true ∧
  at_home (chars "https") (chars "dmis.example") (strip_text t).
Proof.
  cbv zeta. assert (is_safe_url (chars "https") (chars "dmis.example") (Some (chars " https://dmis.example/packaging")) = Some true) as Hs
    by (vm_compute; reflexivity).
  split; [exact Hs|].
  exact (proj1 (redirects_stay_home (chars "https") (chars "dmis.example") (chars " https://dmis.example/packaging") [] []) Hs).
Defined.
