(* ===== verification/Notifications.v ===== *)
(** In-app notifications: the service that writes them and the pages of their readers
    (app/services/notification_service.py, app/features/notifications.py).

    A row is found by its id; a time is in seconds since the first Monday of the
    calendar.  The service adds rows to the session of the request that calls it, here
    as a list; [store_notes] is what its commit does with them.  [url_for] gives the
    paths the blueprints declare. *)
From stdpp Require Import strings.
From Stdlib Require Import Ascii String.
From S2P Require Import Prelude PyStr PySort ParamValidation Schema Columns ReliefRequest PathSafety LogSafety UrlSafety AccessControl Web.

Record NoteRow : Type := mkNoteRow {
  no_user_id : Z;
  no_warehouse_id : option Z;
  no_reliefrqst_id : option Z;
  no_title : string;
  no_message : string;
  no_type : string;
  no_status : string;
  no_link_url : option string;
  no_payload : option string;
  no_is_archived : bool;
  no_created_at : Z
}.

Definition set_no_status (x : string) (n : NoteRow) : NoteRow :=
  mkNoteRow (no_user_id n) (no_warehouse_id n) (no_reliefrqst_id n) (no_title n) (no_message n) (no_type n) x (no_link_url n)
    (no_payload n) (no_is_archived n) (no_created_at n).

Definition note_fits (n : NoteRow) : bool :=
  varchar 200 (no_title n) && varchar 50 (no_type n) && varchar 20 (no_status n) && varchar_opt 500 (no_link_url n).

(** * The service *)

Section create.
Variable now : Z.

Definition create_notification (user_id : Z) (title message type link_url : string) (reliefrqst_id : option Z) : NoteRow :=
  mkNoteRow user_id None reliefrqst_id title message type "unread" (Some link_url) None false now.

(** A relief request with the names of its event and agency, if it has them. *)
Record NoteRequest : Type := mkNoteRequest {
  nq_reliefrqst_id : Z;
  nq_event_name : option string;
  nq_agency_name : option string
}.

(** [f"RR-{id:06d}"] of a positive id. *)
Definition zfill (n : nat) (s : string) : string := of_chars (replicate (n - String.length s) "0"%char) +:+ s.
Definition tracking_no (rr : NoteRequest) : string := "RR-" +:+ zfill 6 (py_str (nq_reliefrqst_id rr)).

Definition event_name_of (rr : NoteRequest) : string := default "N/A"%string (nq_event_name rr).
Definition agency_name_of (rr : NoteRequest) : string := default "Unknown"%string (nq_agency_name rr).

Definition review_url (id : Z) : string := "/eligibility/review/" +:+ py_str id.
Definition prepare_url (id : Z) : string := "/packaging/" +:+ py_str id +:+ "/prepare".
Definition approve_url (id : Z) : string := "/packaging/" +:+ py_str id +:+ "/approve".
Definition request_url (id : Z) : string := "/relief-requests/" +:+ py_str id.
Definition awaiting_dispatch_url : string := "/packaging/dispatch/awaiting".
Definition approved_tab_url : string := "/packaging/pending-fulfillment?filter=approved_for_dispatch".
Definition index_url : string := "/notifications/".

(** One notification for each recipient, its message and link by his roles. *)
Definition notify_each (rr : NoteRequest) (title type : string) (text : User → string * string) (users : list User) : list NoteRow :=
  (λ u, create_notification (us_user_id u) title (text u).1 type (text u).2 (Some (nq_reliefrqst_id rr))) <$> users.

Definition has_role (u : User) (codes : list string) : bool := existsb (λ c, bool_decide (c ∈ codes)) (us_roles u).
Definition LOGISTICS_CODES : list string := ["LOGISTICS_OFFICER"; "LOGISTICS_MANAGER"]%string.

Definition create_relief_request_submitted_notification (rr : NoteRequest) (users : list User) : list NoteRow :=
  notify_each rr "New Relief Request Submitted" "reliefrqst_submitted"
    (λ _, ("Agency " +:+ agency_name_of rr +:+ " submitted " +:+ tracking_no rr +:+ " for event: " +:+ event_name_of rr +:+
           ". Click to review eligibility.", review_url (nq_reliefrqst_id rr))) users.

Definition create_relief_request_approved_notification (rr : NoteRequest) (users : list User) (approver_name : string) : list NoteRow :=
  notify_each rr "Relief Request Approved" "reliefrqst_approved"
    (λ u, if has_role u LOGISTICS_CODES
          then (tracking_no rr +:+ " from " +:+ agency_name_of rr +:+ " (Event: " +:+ event_name_of rr +:+ ") approved by " +:+
                approver_name +:+ ". Click to prepare fulfillment package.", prepare_url (nq_reliefrqst_id rr))
          else ("Your relief request " +:+ tracking_no rr +:+ " for " +:+ event_name_of rr +:+ " has been approved by " +:+
                approver_name +:+ ". Click to view details.", request_url (nq_reliefrqst_id rr))) users.

Definition create_relief_request_denied_notification (rr : NoteRequest) (users : list User) (denier_name : string)
    (reason : option string) : list NoteRow :=
  notify_each rr "Relief Request Denied" "reliefrqst_denied"
    (λ _, ("Your relief request " +:+ tracking_no rr +:+ " was not approved by " +:+ denier_name +:+ "." +:+
           match reason with Some r => if bool_decide (r = ""%string) then "" else " Reason: " +:+ r | None => "" end +:+
           " Click to view details.", request_url (nq_reliefrqst_id rr))) users.

Definition create_package_ready_for_approval_notification (rr : NoteRequest) (users : list User) (preparer_name : string) : list NoteRow :=
  notify_each rr "Package Ready for Your Approval" "package_ready_for_approval"
    (λ _, (preparer_name +:+ " prepared fulfillment package for " +:+ tracking_no rr +:+ " from " +:+ agency_name_of rr +:+
           ". Click to review and approve.", approve_url (nq_reliefrqst_id rr))) users.

Definition create_package_approved_notification (rr : NoteRequest) (users : list User) (approver_name : string) : list NoteRow :=
  notify_each rr "Package Approved" "package_approved"
    (λ u, if has_role u ["INVENTORY_CLERK"%string]
          then ("Package for " +:+ tracking_no rr +:+ " from " +:+ agency_name_of rr +:+ " approved by " +:+ approver_name +:+
                ". Ready to be handed over to agency.", awaiting_dispatch_url)
          else if has_role u LOGISTICS_CODES
          then ("Package for " +:+ tracking_no rr +:+ " from " +:+ agency_name_of rr +:+ " approved by " +:+ approver_name +:+
                ". Ready for dispatch.", approved_tab_url)
          else ("Your relief request " +:+ tracking_no rr +:+ " has been prepared and approved by " +:+ approver_name +:+
                ". Package is ready for dispatch.", request_url (nq_reliefrqst_id rr))) users.

Definition create_package_dispatched_notification (rr : NoteRequest) (users : list User) (dispatcher_name : string) : list NoteRow :=
  notify_each rr "Package Dispatched" "package_dispatched"
    (λ _, ("Relief package for " +:+ tracking_no rr +:+ " has been dispatched by " +:+ dispatcher_name +:+
           ". Click to track delivery.", request_url (nq_reliefrqst_id rr))) users.
End create.

(** What the other components keep of a notification. *)
Definition summary_of (n : NoteRow) : Notification := mkNotification (no_user_id n) (no_reliefrqst_id n) (no_type n).

Definition get_active_users_by_role_codes `{Runtime} (role_codes : list string) (d : DB) : list User :=
  dedup_users (users_of_roles role_codes d).
Definition get_agency_active_users `{Runtime} (agency_id : Z) (d : DB) : list User := agency_active_users agency_id d.

(** * The tables of the pages *)

Record StockLine : Type := mkStockLine { sl_item_id : Z; sl_usable_qty : Z }.
Record StockItem : Type := mkStockItem { si_item_id : Z; si_item_name : string; si_status_code : string; si_reorder_qty : Z }.

Record NoteDB : Type := mkNoteDB {
  nd_notes : gmap Z NoteRow;
  nd_items : list StockItem;
  nd_inventory : list StockLine
}.

Definition set_nd_notes (m : gmap Z NoteRow) (d : NoteDB) : NoteDB := mkNoteDB m (nd_items d) (nd_inventory d).

(** The commit of new rows, whose ids come from a sequence. *)
Fixpoint store_notes (next_id : Z) (rows : list NoteRow) (d : NoteDB) : NoteDB :=
  match rows with [] => d | n :: rows' => store_notes (next_id + 1) rows' (set_nd_notes (<[next_id := n]> (nd_notes d)) d) end.

(** [filter_by(id=..., user_id=...).first()]. *)
Definition own_note (id user_id : Z) (d : NoteDB) : option NoteRow :=
  match nd_notes d !! id with Some n => if no_user_id n =? user_id then Some n else None | None => None end.

Definition is_unread (n : NoteRow) : bool := bool_decide (no_status n = "unread"%string).

Abbreviation NM := (BM NoteDB).

Definition mark_as_read (id user_id : Z) : NM bool :=
  d ← m_get;
  match own_note id user_id d with
  | None => mret false
  | Some n => m_modify (set_nd_notes (<[id := set_no_status "read" n]> (nd_notes d)));; mret true
  end.

(** An UPDATE; it does not look at [is_archived]. *)
Definition mark_all_as_read (user_id : Z) : NM Z :=
  d ← m_get;
  let mine n := (no_user_id n =? user_id) && is_unread n in
  m_modify (set_nd_notes ((λ n, if mine n then set_no_status "read" n else n) <$> nd_notes d));;
  mret (Z.of_nat (size (filter (λ p, mine p.2 = true) (nd_notes d)))).

Definition get_unread_count (user_id : Z) (d : NoteDB) : Z :=
  Z.of_nat (size (filter (λ p, (no_user_id p.2 =? user_id) && is_unread p.2 && negb (no_is_archived p.2) = true) (nd_notes d))).

(** Newest first, at most [limit]. *)
Definition get_recent_notifications (user_id : Z) (limit : option nat) (d : NoteDB) : list (Z * NoteRow) :=
  let l := sorted_by (λ p : Z * NoteRow, [- no_created_at p.2])
             (List.filter (λ p : Z * NoteRow, (no_user_id p.2 =? user_id) && negb (no_is_archived p.2)) (map_to_list (nd_notes d))) in
  match limit with Some k => take k l | None => l end.

Definition delete_own_notification (id user_id : Z) : NM bool :=
  d ← m_get;
  match own_note id user_id d with
  | None => mret false
  | Some _ => m_modify (set_nd_notes (delete id (nd_notes d)));; mret true
  end.

Definition clear_all_notifications (user_id : Z) : NM Z :=
  d ← m_get;
  m_modify (set_nd_notes (filter (λ p, no_user_id p.2 ≠ user_id) (nd_notes d)));;
  mret (Z.of_nat (size (filter (λ p, no_user_id p.2 = user_id) (nd_notes d)))).

(** * The routes *)

Record NoteCtx : Type := mkNoteCtx {
  nx_user_id : option Z;        (* of the session, after [load_user] *)
  nx_now : Z;
  nx_scheme : text;             (* of [request.host_url] *)
  nx_host : text
}.

Section routes.
Variable nx : NoteCtx.

Abbreviation WN := (WM NoteDB).

Definition the_reader : WN Z := logged_in (nx_user_id nx).

(** [link_url and validate_internal_url(link_url)]; a check that raises ends the request. *)
Definition safe_link (link_url : option string) : option (option string) :=
  match link_url with
  | None => Some None
  | Some u => if bool_decide (u = ""%string) then Some None
              else (λ ok : bool, if ok then Some u else None) <$> validate_internal_url (nx_scheme nx) (nx_host nx) (Some (chars u))
  end.

(** The link, or the page of all notifications. *)
Definition get_safe_link (link_url : option string) : option string := default index_url <$> safe_link link_url.

Definition unread_count : WN Z := u ← the_reader; on_web_db (get_unread_count u).

Record NoteEntry : Type := mkNoteEntry {
  ne_id : Z;
  ne_title : string;
  ne_message : string;
  ne_type : string;
  ne_status : string;
  ne_link_url : string;
  ne_created_at : Z;
  ne_is_unread : bool
}.

Definition note_entry (p : Z * NoteRow) : option NoteEntry :=
  (λ l, mkNoteEntry p.1 (no_title p.2) (no_message p.2) (no_type p.2) (no_status p.2) l (no_created_at p.2) (is_unread p.2))
  <$> get_safe_link (no_link_url p.2).

Definition notification_list : WN (list NoteEntry) :=
  u ← the_reader;
  l ← on_web_db (get_recent_notifications u (Some 10%nat));
  m_some (mapM note_entry l) WCrashed.

Definition DAY : Z := 86400.
Definition start_of_day (t : Z) : Z := t - t mod DAY.
Definition start_of_week (t : Z) : Z := start_of_day t - (t / DAY) mod 7 * DAY.

(** Active items with stock rows of which no more is usable than the reorder quantity. *)
Definition low_stock_items (d : NoteDB) : list (StockItem * Z) :=
  omap (λ i, let rows := List.filter (λ s, sl_item_id s =? si_item_id i) (nd_inventory d) in
             let total := lsum sl_usable_qty rows in
             if bool_decide (si_status_code i = "A"%string) && negb (bool_decide (rows = [])) && (total <=? si_reorder_qty i)
             then Some (i, total) else None) (nd_items d).

Record NotePage : Type := mkNotePage {
  np_notifications : list (Z * NoteRow);
  np_low_stock_items : list (StockItem * Z);
  np_unread_count : Z;
  np_read_count : Z;
  np_today_count : Z;
  np_week_count : Z
}.

Definition count_notes (p : NoteRow → bool) (l : list (Z * NoteRow)) : Z :=
  Z.of_nat (List.length (List.filter (λ q : Z * NoteRow, p q.2) l)).

Definition notifications_index : WN NotePage :=
  u ← the_reader;
  d ← on_web_db id;
  let l := get_recent_notifications u None d in
  mret (mkNotePage l (low_stock_items d) (count_notes is_unread l)
    (count_notes (λ n, bool_decide (no_status n = "read"%string)) l)
    (count_notes (λ n, start_of_day (nx_now nx) <=? no_created_at n) l)
    (count_notes (λ n, start_of_week (nx_now nx) <=? no_created_at n) l)).

(** Where the browser is sent; the response 403 of another's notification is a refusal. *)
Definition mark_read (id : Z) : WN string :=
  u ← the_reader;
  d ← on_web_db (λ d, d);
  n ← m_some (nd_notes d !! id) WNotFound;
  m_fail_if (negb (no_user_id n =? u)) (WRefused "403");;
  transaction (mark_as_read id u);;
  m_some (get_safe_link (no_link_url n)) WCrashed.

Definition delete_notification (id : Z) : WN unit :=
  u ← the_reader;
  success ← transaction (delete_own_notification id u);
  m_fail_if (negb success) (WRefused "Notification not found or access denied.").

(** Also [api_clear_all]: the answers differ in form only. *)
Definition clear_all : WN Z := u ← the_reader; transaction (clear_all_notifications u).

(** [api_delete_notification] answers as [delete_notification], with a status code. *)
Definition api_mark_read (id : Z) : WN unit :=
  u ← the_reader;
  success ← transaction (mark_as_read id u);
  m_fail_if (negb success) (WRefused "Notification not found or access denied").

Inductive NoteCall : Type :=
| UnreadCount | NotificationList | NotificationsIndex
| MarkRead (id : Z) | ApiMarkRead (id : Z) | DeleteNotification (id : Z) | ClearAll.

Inductive NoteAnswer : Type :=
| ANumber (n : Z) | AList (l : list NoteEntry) | APage (p : NotePage) | AGoto (url : string) | ADone.

Definition note_call (c : NoteCall) : WN NoteAnswer :=
  match c with
  | UnreadCount => n ← unread_count; mret (ANumber n)
  | NotificationList => l ← notification_list; mret (AList l)
  | NotificationsIndex => p ← notifications_index; mret (APage p)
  | MarkRead id => u ← mark_read id; mret (AGoto u)
  | ApiMarkRead id => api_mark_read id;; mret ADone
  | DeleteNotification id => delete_notification id;; mret ADone
  | ClearAll => n ← clear_all; mret (ANumber n)
  end.
End routes.
