(* ===== verification/NotificationsTheorems.v ===== *)
(** Notifications reach exactly their recipients, with links the pages follow, and a
    reader sees and changes his own only.

    What holds of notifications: they reach their recipients once each, their links are
    followed, and a reader sees and changes his own only. *)
From stdpp Require Import strings.
From Stdlib Require Import Ascii String.
From stdpp Require Import strings pretty.
From S2P Require Import Prelude PyStr PySort ParamValidation Schema Columns PathSafety LogSafety ReliefRequest AccessControl Web UrlSafety Notifications.

(** * Counting the rows of a table *)

Section counting.
Context (P : NoteRow → bool).

Definition rows_with (m : gmap Z NoteRow) : Z := Z.of_nat (size (filter (λ p : Z * NoteRow, P p.2 = true) m)).

Lemma rows_with_new i n m : m !! i = None → rows_with (<[i := n]> m) = rows_with m + (if P n then 1 else 0).
Proof.
  intros Hi. unfold rows_with. destruct (P n) eqn:Hn.
  - rewrite map_filter_insert_True by done. rewrite map_size_insert_None; [lia|]. apply map_lookup_filter_None. by left.
  - rewrite map_filter_insert_False by (simpl; congruence). rewrite delete_id by done. lia.
Qed.

Lemma rows_with_delete i n m : m !! i = Some n → rows_with m = rows_with (delete i m) + (if P n then 1 else 0).
Proof.
  intros Hi. rewrite <- (rows_with_new i n (delete i m)) by apply lookup_delete_eq. by rewrite insert_delete_id.
Qed.

Lemma rows_with_update i n0 n m : m !! i = Some n0 →
  rows_with m + (if P n then 1 else 0) = rows_with (<[i := n]> m) + (if P n0 then 1 else 0).
Proof.
  intros Hi. rewrite (rows_with_delete i n0 m) by done. rewrite <- insert_delete_eq.
  rewrite rows_with_new by apply lookup_delete_eq. lia.
Qed.

Lemma rows_with_none m : (∀ i n, m !! i = Some n → P n = false) → rows_with m = 0.
Proof.
  intros Hm. unfold rows_with. replace (filter _ m) with (∅ : gmap Z NoteRow); [by rewrite map_size_empty|].
  symmetry. apply map_empty. intros i. apply map_lookup_filter_None. right. intros n Hn. simpl. by rewrite (Hm i n Hn).
Qed.
End counting.

(** What the badge of a reader counts. *)
Definition counted (u : Z) (n : NoteRow) : bool := (no_user_id n =? u) && is_unread n && negb (no_is_archived n).

Lemma unread_rows u d : get_unread_count u d = rows_with (counted u) (nd_notes d).
Proof. done. Qed.

(** * The calls of a reader *)

(** What a call can do to the table for the user [u]. *)
Inductive inbox_change (u : Z) (d : NoteDB) : NoteDB → Prop :=
| inbox_same : inbox_change u d d
| inbox_read id n : own_note id u d = Some n →
    inbox_change u d (set_nd_notes (<[id := set_no_status "read" n]> (nd_notes d)) d)
| inbox_delete id n : own_note id u d = Some n → inbox_change u d (set_nd_notes (delete id (nd_notes d)) d)
| inbox_clear : inbox_change u d (set_nd_notes (filter (λ p : Z * NoteRow, no_user_id p.2 ≠ u) (nd_notes d)) d).

Lemma own_note_some id u d n : own_note id u d = Some n ↔ nd_notes d !! id = Some n ∧ no_user_id n = u.
Proof.
  unfold own_note. destruct (nd_notes d !! id) as [n'|]; [|naive_solver].
  destruct (Z.eqb_spec (no_user_id n') u); naive_solver.
Qed.

Lemma mark_as_read_run id u d : mark_as_read id u d =
  match own_note id u d with
  | Some n => (set_nd_notes (<[id := set_no_status "read" n]> (nd_notes d)) d, inr true)
  | None => (d, inr false)
  end.
Proof. unfold mark_as_read, mbind, M_bind, m_bind, m_get. by destruct (own_note id u d). Qed.

Lemma delete_own_run id u d : delete_own_notification id u d =
  match own_note id u d with
  | Some _ => (set_nd_notes (delete id (nd_notes d)) d, inr true)
  | None => (d, inr false)
  end.
Proof. unfold delete_own_notification, mbind, M_bind, m_bind, m_get. by destruct (own_note id u d). Qed.

Lemma transaction_run {A} (m : BM NoteDB A) c d : transaction m (mkWeb c d) =
  match m d with (d', inr a) => (mkWeb c d', inr a) | (_, inl e) => (mkWeb c d, inl e) end.
Proof. done. Qed.

(** * What each call answers and leaves *)

Section reader.
Context (nx : NoteCtx).

(** A change of one row of the reader's own, or his refusal. *)
Definition on_own (id : Z) (u : Z) (change : NoteRow → NoteDB → NoteDB) (s : Web NoteDB) : Web NoteDB * (WebFailure + unit) :=
  match own_note id u (web_db s) with
  | Some n => (mkWeb (web_cache s) (change n (web_db s)), inr tt)
  | None => (s, inl (WRefused "Notification not found or access denied"))
  end.

Definition set_read (id : Z) (n : NoteRow) (d : NoteDB) : NoteDB := set_nd_notes (<[id := set_no_status "read" n]> (nd_notes d)) d.
Definition drop_note (id : Z) (n : NoteRow) (d : NoteDB) : NoteDB := set_nd_notes (delete id (nd_notes d)) d.

Lemma api_mark_read_run u id s : nx_user_id nx = Some u → api_mark_read nx id s = on_own id u (set_read id) s.
Proof.
  intros Hu. unfold api_mark_read, the_reader, on_own. rewrite Hu, run_bind. simpl. rewrite run_bind. destruct s as [c d].
  rewrite transaction_run, mark_as_read_run. simpl. by destruct (own_note id u d).
Qed.

Lemma delete_notification_run u id s : nx_user_id nx = Some u →
  (delete_notification nx id s).1 = (on_own id u (drop_note id) s).1 ∧
  ((delete_notification nx id s).2 = inr tt ↔ (on_own id u (drop_note id) s).2 = inr tt).
Proof.
  intros Hu. unfold delete_notification, the_reader, on_own. rewrite Hu, run_bind. simpl. rewrite run_bind. destruct s as [c d].
  rewrite transaction_run, delete_own_run. simpl. by destruct (own_note id u d).
Qed.

(** The row is marked even when its link turns out to be unreadable. *)
Lemma mark_read_run u id s : nx_user_id nx = Some u →
  (mark_read nx id s).1 = (on_own id u (set_read id) s).1 ∧
  (∀ a, (mark_read nx id s).2 = inr a → ∃ n, own_note id u (web_db s) = Some n ∧ get_safe_link nx (no_link_url n) = Some a).
Proof.
  intros Hu. unfold mark_read, the_reader, on_own. rewrite Hu, run_bind. simpl. rewrite run_bind. simpl. rewrite run_bind.
  destruct s as [c d]. simpl. unfold own_note. destruct (nd_notes d !! id) as [n|] eqn:Hn; [|done]. simpl. rewrite run_bind.
  destruct (Z.eqb_spec (no_user_id n) u) as [Heq|Hne]; [|done]. simpl. rewrite run_bind, transaction_run, mark_as_read_run.
  unfold own_note. rewrite Hn. rewrite (proj2 (Z.eqb_eq _ _) Heq). simpl.
  destruct (get_safe_link nx (no_link_url n)) as [l|] eqn:Hl; simpl; [|done]. split; [done|]. intros a [= <-]. eauto.
Qed.

Lemma clear_all_run u s : nx_user_id nx = Some u →
  clear_all nx s = (mkWeb (web_cache s) (set_nd_notes (filter (λ p : Z * NoteRow, no_user_id p.2 ≠ u) (nd_notes (web_db s))) (web_db s)),
    inr (Z.of_nat (size (filter (λ p : Z * NoteRow, no_user_id p.2 = u) (nd_notes (web_db s)))))).
Proof. intros Hu. unfold clear_all, the_reader. by rewrite Hu. Qed.

(** What a call answered, without its text. *)
Lemma after_answer {A} (m : WM NoteDB A) (f : A → NoteAnswer) s :
  ((a ← m; mret (f a)) s).1 = (m s).1 ∧ (∀ b, ((a ← m; mret (f a)) s).2 = inr b → ∃ a, (m s).2 = inr a ∧ b = f a).
Proof. rewrite run_bind. destruct (m s) as [s1 [e|a]]; split; try done. intros b [= <-]. eauto. Qed.

Lemma not_logged_in c s : nx_user_id nx = None → note_call nx c s = (s, inl (WGuard ToLogin)).
Proof.
  intros Hn. destruct c; simpl; unfold unread_count, notification_list, notifications_index, mark_read, api_mark_read,
    delete_notification, clear_all, the_reader; rewrite Hn; reflexivity.
Qed.

Lemma note_call_change u c s : nx_user_id nx = Some u → inbox_change u (web_db s) (web_db (note_call nx c s).1).
Proof.
  intros Hu. assert (∀ id f s1, s1 = (on_own id u f s).1 → (∀ n, own_note id u (web_db s) = Some n → inbox_change u (web_db s) (f n (web_db s))) →
    inbox_change u (web_db s) (web_db s1)) as Hown.
  { intros id f s1 -> Hf. unfold on_own. destruct (own_note id u (web_db s)) as [n|] eqn:Hn; [by apply Hf|constructor]. }
  destruct c as [| | |id|id|id|]; unfold note_call; rewrite (proj1 (after_answer _ _ s)).
  - unfold unread_count, the_reader. rewrite Hu. constructor.
  - unfold notification_list, the_reader. rewrite Hu, run_bind. simpl. rewrite run_bind. simpl. destruct (mapM _ _); constructor.
  - unfold notifications_index, the_reader. rewrite Hu. constructor.
  - eapply Hown; [by apply mark_read_run|]. intros n Hn. by apply inbox_read.
  - eapply Hown; [by rewrite (api_mark_read_run u)|]. intros n Hn. by apply inbox_read.
  - eapply Hown; [by apply delete_notification_run|]. intros n Hn. by eapply inbox_delete.
  - rewrite (clear_all_run u) by done. apply inbox_clear.
Qed.

(** * What a reader is shown *)

Definition shown (a : NoteAnswer) : list Z :=
  match a with AList l => ne_id <$> l | APage p => (np_notifications p).*1 | _ => [] end.

Lemma elem_of_recent u limit d p : p ∈ get_recent_notifications u limit d →
  nd_notes d !! p.1 = Some p.2 ∧ no_user_id p.2 = u ∧ no_is_archived p.2 = false.
Proof.
  assert (∀ q, q ∈ get_recent_notifications u None d → nd_notes d !! q.1 = Some q.2 ∧ no_user_id q.2 = u ∧ no_is_archived q.2 = false) as H.
  { intros [i n]. unfold get_recent_notifications. rewrite elem_of_sorted_by. intros Hin%list_elem_of_In%filter_In.
    destruct Hin as [Hin Hk]. apply list_elem_of_In, elem_of_map_to_list in Hin. simpl in *.
    apply andb_true_iff in Hk as [Ho Ha]. apply Z.eqb_eq in Ho. apply negb_true_iff in Ha. done. }
  destruct limit as [k|]; [|apply H]. intros Hp. apply H. eapply elem_of_take in Hp as (i & Hi & _). by eapply list_elem_of_lookup_2.
Qed.

Lemma note_call_shows u c s a id : nx_user_id nx = Some u → (note_call nx c s).2 = inr a → id ∈ shown a →
  ∃ n, nd_notes (web_db s) !! id = Some n ∧ no_user_id n = u ∧ no_is_archived n = false.
Proof.
  intros Hu Hr Hid. destruct c as [| | |i|i|i|]; unfold note_call in Hr; apply after_answer in Hr as (x & Hx & ->);
    try (by apply elem_of_nil in Hid).
  - unfold notification_list, the_reader in Hx. rewrite Hu, run_bind in Hx. simpl in Hx. rewrite run_bind in Hx. simpl in Hx.
    destruct (mapM _ _) as [l|] eqn:Hl; [|done]. injection Hx as ->. simpl in Hid.
    apply list_elem_of_fmap in Hid as (e & -> & He). apply mapM_Some in Hl.
    apply list_elem_of_lookup in He as [k He]. destruct (Forall2_lookup_r _ _ _ _ _ Hl He) as (q & Hq & Hqe).
    apply list_elem_of_lookup_2 in Hq. change (q ∈ get_recent_notifications u (Some 10%nat) (web_db s)) in Hq.
    apply elem_of_recent in Hq. unfold note_entry in Hqe. apply fmap_Some in Hqe as (l' & _ & ->). simpl. eauto.
  - unfold notifications_index, the_reader in Hx. rewrite Hu in Hx. injection Hx as <-. simpl in Hid.
    apply list_elem_of_fmap in Hid as (q & -> & Hq). change (q ∈ get_recent_notifications u None (web_db s)) in Hq.
    apply elem_of_recent in Hq. eauto.
Qed.
End reader.

(** C27: Nobody touches or sees the notifications of others.  A call without a logged-in
    user does nothing.  A call of a user leaves every row of others as it is, adds no
    row, and changes a row of his own by marking it read or deleting it, nothing else;
    what it shows are rows of his own that are not archived. *)
Theorem notifications_private nx c s :
  let s' := (note_call nx c s).1 in
  match nx_user_id nx with
  | None => note_call nx c s = (s, inl (WGuard ToLogin))
  | Some u =>
      (∀ id n, nd_notes (web_db s) !! id = Some n → no_user_id n ≠ u → nd_notes (web_db s') !! id = Some n) ∧
      (∀ id n', nd_notes (web_db s') !! id = Some n' → ∃ n, nd_notes (web_db s) !! id = Some n ∧
         (n' = n ∨ no_user_id n = u ∧ n' = set_no_status "read" n)) ∧
      (∀ a id, (note_call nx c s).2 = inr a → id ∈ shown a →
         ∃ n, nd_notes (web_db s) !! id = Some n ∧ no_user_id n = u ∧ no_is_archived n = false)
  end.
Proof.
  cbv zeta. destruct (nx_user_id nx) as [u|] eqn:Hu; [|by apply not_logged_in].
  split_and!; [| |intros a id; by apply (note_call_shows nx u c s)].
  - intros id n Hn Hne. destruct (note_call_change nx u c s Hu) as [|i m [Hm <-]%own_note_some|i m [Hm <-]%own_note_some|];
      simpl; [done|by rewrite lookup_insert_ne by congruence|by rewrite lookup_delete_ne by congruence|].
    by apply map_lookup_filter_Some.
  - intros id n'. destruct (note_call_change nx u c s Hu) as [|i m [Hm <-]%own_note_some|i m [Hm <-]%own_note_some|]; simpl.
    + eauto.
    + intros [[<- <-]|[_ Hn]]%lookup_insert_Some; eauto.
    + intros [_ Hn]%lookup_delete_Some. eauto.
    + intros [Hn _]%map_lookup_filter_Some. eauto.
Qed.

(** The call took the row [n] of [id], and the badge counts it no more. *)
Definition badge_lowered (u id : Z) (d d' : NoteDB) : Prop :=
  ∃ n, nd_notes d !! id = Some n ∧ no_user_id n = u ∧
    get_unread_count u d = get_unread_count u d' + (if is_unread n && negb (no_is_archived n) then 1 else 0).

Lemma on_own_ok id u f s s' : on_own id u f s = (s', inr tt) →
  ∃ n, nd_notes (web_db s) !! id = Some n ∧ no_user_id n = u ∧ web_db s' = f n (web_db s).
Proof.
  unfold on_own. destruct (own_note id u (web_db s)) as [n|] eqn:Hn; [|done]. intros [= <-]. apply own_note_some in Hn as [Hn Hu]. eauto.
Qed.

Lemma set_read_badge u id n d : nd_notes d !! id = Some n → no_user_id n = u → badge_lowered u id d (set_read id n d).
Proof.
  intros Hn Hu. exists n. split_and!; [done..|]. rewrite !unread_rows. unfold set_read. simpl.
  pose proof (rows_with_update (counted u) id n (set_no_status "read" n) _ Hn) as H.
  assert (counted u (set_no_status "read" n) = false) as Hr by (unfold counted, is_unread; simpl; by rewrite andb_false_r).
  assert (counted u n = is_unread n && negb (no_is_archived n)) as Hc by (unfold counted; by rewrite Hu, Z.eqb_refl).
  rewrite Hr, Hc in H. lia.
Qed.

Lemma drop_note_badge u id n d : nd_notes d !! id = Some n → no_user_id n = u → badge_lowered u id d (drop_note id n d).
Proof.
  intros Hn Hu. exists n. split_and!; [done..|]. rewrite !unread_rows. unfold drop_note. simpl.
  rewrite (rows_with_delete (counted u) id n _ Hn). unfold counted at 2. by rewrite Hu, Z.eqb_refl.
Qed.

Lemma on_own_taken id u f s n : own_note id u (web_db s) = Some n → web_db (on_own id u f s).1 = f n (web_db s).
Proof. unfold on_own. by intros ->. Qed.

Lemma own_rows u m : rows_with (λ n, no_user_id n =? u) m = Z.of_nat (size (filter (λ p : Z * NoteRow, no_user_id p.2 = u) m)).
Proof. unfold rows_with. do 2 f_equal. apply map_filter_ext. intros i n _. simpl. by rewrite Z.eqb_eq. Qed.

(** Nothing is left of a cleared inbox. *)
Lemma cleared_inbox u d : let d' := set_nd_notes (filter (λ p : Z * NoteRow, no_user_id p.2 ≠ u) (nd_notes d)) d in
  get_unread_count u d' = 0 ∧ get_recent_notifications u None d' = [].
Proof.
  cbv zeta. split.
  - rewrite unread_rows. apply rows_with_none. simpl. intros i n [_ Hn]%map_lookup_filter_Some. unfold counted. simpl in Hn.
    by rewrite (proj2 (Z.eqb_neq _ _) Hn).
  - apply elem_of_nil_inv. intros q Hq%elem_of_recent. simpl in Hq. destruct Hq as ([_ Hn]%map_lookup_filter_Some & Hu & _). done.
Qed.

(** The calls of a reader do what their names say, and the badge follows: marking or
    deleting one notification works exactly for his own and lowers the badge by one if
    it was unread; clearing leaves him nothing and says how many there were; the other
    calls store nothing. *)
Theorem inbox_call_correct nx u c s a s' :
  nx_user_id nx = Some u → run_ok (note_call nx c) s a s' →
  match c with
  | MarkRead id => badge_lowered u id (web_db s) (web_db s') ∧ no_status <$> nd_notes (web_db s') !! id = Some "read"%string
  | ApiMarkRead id => badge_lowered u id (web_db s) (web_db s') ∧ no_status <$> nd_notes (web_db s') !! id = Some "read"%string
  | DeleteNotification id => badge_lowered u id (web_db s) (web_db s') ∧ nd_notes (web_db s') !! id = None
  | ClearAll => a = ANumber (rows_with (λ n, no_user_id n =? u) (nd_notes (web_db s))) ∧
      get_unread_count u (web_db s') = 0 ∧ get_recent_notifications u None (web_db s') = []
  | UnreadCount => a = ANumber (get_unread_count u (web_db s)) ∧ s' = s
  | NotificationList | NotificationsIndex => s' = s
  end.
Proof.
  intros Hu Hrun. unfold run_ok in Hrun.
  assert ((note_call nx c s).1 = s') as H1 by (by rewrite Hrun). assert ((note_call nx c s).2 = inr a) as H2 by (by rewrite Hrun).
  destruct c as [| | |id|id|id|]; unfold note_call in H1, H2; rewrite (proj1 (after_answer _ _ s)) in H1;
    apply after_answer in H2 as (x & Hx & ->).
  - unfold unread_count, the_reader in H1, Hx. rewrite Hu in H1, Hx. by injection Hx as <-.
  - unfold notification_list, the_reader in H1. rewrite Hu, run_bind in H1. simpl in H1. rewrite run_bind in H1. simpl in H1.
    by destruct (mapM _ _).
  - unfold notifications_index, the_reader in H1. by rewrite Hu in H1.
  - destruct (mark_read_run nx u id s Hu) as [Hs Hl]. destruct (Hl _ Hx) as (n & Hn & _). rewrite <- H1, Hs, (on_own_taken _ _ _ _ _ Hn).
    apply own_note_some in Hn as [Hn Ho]. split; [by apply set_read_badge|]. unfold set_read. simpl. by rewrite lookup_insert_eq.
  - rewrite (api_mark_read_run nx u) in H1, Hx by done. destruct (on_own id u (set_read id) s) as [s1 r] eqn:Ho. simpl in *. subst r s1.
    destruct x. apply on_own_ok in Ho as (n & Hn & Ho & ->). split; [by apply set_read_badge|]. unfold set_read. simpl.
    by rewrite lookup_insert_eq.
  - destruct (delete_notification_run nx u id s Hu) as [Hs Hr]. destruct x. apply Hr in Hx. rewrite Hs in H1.
    destruct (on_own id u (drop_note id) s) as [s1 r] eqn:Ho. simpl in *. subst r s1. apply on_own_ok in Ho as (n & Hn & Ho & ->).
    split; [by apply drop_note_badge|]. unfold drop_note. simpl. by rewrite lookup_delete_eq.
  - rewrite (clear_all_run nx u) in H1, Hx by done. injection Hx as <-. subst s'. rewrite own_rows. split; [done|]. apply cleared_inbox.
Qed.

(** * What the service writes *)

(** The calls that other components make. *)
Inductive NoteEvent : Type :=
| Submitted | Approved (by_name : string) | Denied (by_name : string) (reason : option string) | Ready (by_name : string)
| PackageApproved (by_name : string) | Dispatched (by_name : string).

Definition notes_of (e : NoteEvent) (now : Z) (rr : NoteRequest) (users : list User) : list NoteRow :=
  match e with
  | Submitted => create_relief_request_submitted_notification now rr users
  | Approved n => create_relief_request_approved_notification now rr users n
  | Denied n r => create_relief_request_denied_notification now rr users n r
  | Ready n => create_package_ready_for_approval_notification now rr users n
  | PackageApproved n => create_package_approved_notification now rr users n
  | Dispatched n => create_package_dispatched_notification now rr users n
  end.

Definition type_of (e : NoteEvent) : string :=
  match e with
  | Submitted => "reliefrqst_submitted" | Approved _ => "reliefrqst_approved" | Denied _ _ => "reliefrqst_denied"
  | Ready _ => "package_ready_for_approval" | PackageApproved _ => "package_approved" | Dispatched _ => "package_dispatched"
  end%string.

(** Every link the service writes, by the request. *)
Definition service_links (id : Z) : list string :=
  [review_url id; prepare_url id; approve_url id; request_url id; awaiting_dispatch_url; approved_tab_url].

(** A fresh notification about the request, for one recipient. *)
Definition fresh_note (e : NoteEvent) (now : Z) (rr : NoteRequest) (u : User) (n : NoteRow) : Prop :=
  no_user_id n = us_user_id u ∧ no_reliefrqst_id n = Some (nq_reliefrqst_id rr) ∧ no_type n = type_of e ∧ no_status n = "unread"%string ∧
  no_is_archived n = false ∧ no_created_at n = now ∧ len (no_title n) ≤ 50 ∧
  ∃ l, no_link_url n = Some l ∧ l ∈ service_links (nq_reliefrqst_id rr).

Lemma notify_each_fresh e now rr title text users :
  (∀ u, (text u).2 ∈ service_links (nq_reliefrqst_id rr)) → len title ≤ 50 →
  Forall2 (fresh_note e now rr) users (notify_each now rr title (type_of e) text users).
Proof.
  intros Ht Hl. unfold notify_each. apply Forall2_fmap_r, Forall_Forall2_diag, Forall_true. intros u. split_and!; try done. eauto.
Qed.

Lemma notes_of_fresh e now rr users : Forall2 (fresh_note e now rr) users (notes_of e now rr users).
Proof.
  destruct e; match goal with |- Forall2 (fresh_note ?e _ _) _ _ => apply (notify_each_fresh e) end; try (vm_compute; discriminate);
    intros u; simpl; repeat case_match; unfold service_links; set_solver.
Qed.

(** * Their links *)

Definition plain_char (c : ascii) : bool := negb (bool_decide (code c ∈ [58; 9; 10; 13])).

Lemma has_infix_elem p l c : has_infix p l = true → c ∈ p → c ∈ l.
Proof.
  intros H Hc. induction l as [|b l IH]; simpl in H; [rewrite orb_false_r in H|apply orb_true_iff in H as [H|H]; [|right; by apply IH]];
    apply bool_decide_eq_true in H as [k ->]; apply elem_of_app; by left.
Qed.

Lemma lower_char_colon c : code (lower_char c) = 58 → code c = 58.
Proof.
  unfold lower_char. intros H. revert H. destruct (_ || _) eqn:Hu; [|done]. intros Hc. exfalso.
  assert (code c + 32 < 256) as Hb.
  { z_bool. apply orb_true_iff in Hu as [Hu|Hu]; z_bool; lia. }
  unfold code, chr in *. rewrite nat_ascii_embedding in Hc by lia. z_bool. apply orb_true_iff in Hu as [Hu|Hu]; z_bool; lia.
Qed.

Lemma plain_no_marker l : Forall (λ c, plain_char c = true) l →
  existsb (λ m, has_infix (chars m) (lower_text l)) SCRIPT_SCHEMES = false.
Proof.
  intros Hl. assert (∀ p, chr 58 ∈ p → has_infix p (lower_text l) = false) as H.
  { intros p Hp. destruct (has_infix p (lower_text l)) eqn:E; [|done]. pose proof (has_infix_elem _ _ _ E Hp) as Hin.
    apply list_elem_of_fmap in Hin as (c & Hc & Hin). rewrite Forall_forall in Hl. specialize (Hl c Hin).
    assert (code c = 58) as H58 by (apply lower_char_colon; by rewrite <- Hc).
    unfold plain_char in Hl. apply negb_true_iff, bool_decide_eq_false in Hl. destruct Hl. rewrite H58. set_solver. }
  simpl. rewrite !H; [done|set_solver..].
Qed.

(** A path of one slash and plain characters is an internal link that stays home. *)
Lemma plain_path_internal scheme host a l : a ≠ slash → Forall (λ c, plain_char c = true) (slash :: a :: l) →
  validate_internal_url scheme host (Some (slash :: a :: l)) = Some true ∧ at_home scheme host (slash :: a :: l).
Proof.
  intros Ha Hl. assert (starts_with [slash] (slash :: a :: l) = true) as H1
    by (apply bool_decide_eq_true; by exists (a :: l)).
  assert (starts_with [slash; slash] (slash :: a :: l) = false) as H2.
  { apply bool_decide_eq_false. intros [k Hk]. by injection Hk. }
  split.
  - unfold validate_internal_url. rewrite H1, H2, plain_no_marker by done. done.
  - apply path_at_home; [|done..]. rewrite existsb_false. intros c Hc. rewrite Forall_forall in Hl. specialize (Hl c Hc).
    unfold plain_char, url_break in *. apply negb_true_iff, bool_decide_eq_false in Hl. apply bool_decide_eq_false. set_solver.
Qed.

Lemma digits_plain l : Forall (λ c, is_digit c = true) l → Forall (λ c, plain_char c = true) l.
Proof.
  intros Hl. eapply Forall_impl; [exact Hl|]. intros c Hc. unfold plain_char. apply negb_true_iff, bool_decide_eq_false. unfold is_digit in Hc. z_bool.
  rewrite !elem_of_cons, elem_of_nil. lia.
Qed.

Lemma pretty_go_length k x s : (x < 10 ^ N.of_nat k)%N → (String.length (pretty_N_go x s) ≤ k + String.length s)%nat.
Proof.
  revert x s. induction k as [|k IH]; intros x s Hx.
  - replace x with 0%N by (simpl in Hx; lia). by rewrite pretty_N_go_0.
  - destruct (decide (x = 0)%N) as [->|H0]; [rewrite pretty_N_go_0; lia|]. rewrite pretty_N_go_step by lia.
    etrans; [apply IH|simpl; lia]. apply N.Div0.div_lt_upper_bound. rewrite Nat2N.inj_succ, N.pow_succ_r' in Hx. lia.
Qed.

Lemma py_str_length z : 0 ≤ z < 10 ^ 10 → len (py_str z) ≤ 10.
Proof.
  intros Hz. unfold py_str, len. destruct z as [|p|p]; [by vm_compute| |lia].
  change (pretty (Z.pos p)) with (pretty (N.pos p)). unfold pretty, pretty_N. case_decide; [done|].
  pose proof (pretty_go_length 10 (N.pos p) "") as Hgo. change (10 ^ N.of_nat 10)%N with 10000000000%N in Hgo. specialize (Hgo ltac:(lia)).
  change (String.length "") with 0%nat in Hgo. lia.
Qed.

Lemma len_app s t : len (s +:+ t) = len s + len t.
Proof. unfold len. induction s as [|c s IH]; [done|]. simpl. lia. Qed.

(** A path of the routes: fixed text, an id, fixed text. *)
Lemma route_internal pre id post : 0 ≤ id < 10 ^ 10 → len pre + len post ≤ 490 →
  forallb plain_char (chars pre) = true → forallb plain_char (chars post) = true →
  (∃ a k, chars pre = slash :: a :: k ∧ a ≠ slash) →
  len (pre +:+ py_str id +:+ post) ≤ 500 ∧ ∀ scheme host,
    validate_internal_url scheme host (Some (chars (pre +:+ py_str id +:+ post))) = Some true ∧
    at_home scheme host (chars (pre +:+ py_str id +:+ post)).
Proof.
  intros Hid Hlen Hpre Hpost (a & k & Hk & Ha). pose proof (py_str_length id Hid) as Hd. rewrite !len_app. split; [lia|]. intros scheme host.
  assert (Forall (λ c, plain_char c = true) (chars (pre +:+ py_str id +:+ post))) as Hall.
  { rewrite !chars_app. apply Forall_app. split; [by apply Forall_forall, forallb_elem|]. apply Forall_app.
    split; [apply digits_plain, py_str_digits; lia|by apply Forall_forall, forallb_elem]. }
  rewrite !chars_app, Hk in Hall |- *. by apply plain_path_internal.
Qed.

(** Every link the service writes. *)
Lemma service_link_ok id l : 0 ≤ id < 10 ^ 10 → l ∈ service_links id →
  len l ≤ 500 ∧ ∀ scheme host, validate_internal_url scheme host (Some (chars l)) = Some true ∧ at_home scheme host (chars l).
Proof.
  intros Hid Hl. unfold service_links in Hl. rewrite !elem_of_cons, elem_of_nil in Hl.
  assert (∀ s, s +:+ "" = s) as Hnil.
  { intros s. induction s as [|c s IH]; [done|]. change (String c (s +:+ "") = String c s). by f_equal. }
  destruct Hl as [->|[->|[->|[->|[->|[->|[]]]]]]].
  - unfold review_url. rewrite <- (Hnil (py_str id)). apply route_internal; try done. by eexists _, _.
  - unfold prepare_url. apply route_internal; try done. by eexists _, _.
  - unfold approve_url. apply route_internal; try done. by eexists _, _.
  - unfold request_url. rewrite <- (Hnil (py_str id)). apply route_internal; try done. by eexists _, _.
  - split; [done|]. intros scheme host. by apply plain_path_internal; [|apply Forall_forall, forallb_elem].
  - split; [done|]. intros scheme host. by apply plain_path_internal; [|apply Forall_forall, forallb_elem].
Qed.

(** * Delivery *)

Definition addressed (u : Z) (users : list User) : Z := Z.of_nat (List.length (List.filter (λ v, us_user_id v =? u) users)).

Lemma store_notes_count P next rows d : (∀ i, next ≤ i → nd_notes d !! i = None) →
  rows_with P (nd_notes (store_notes next rows d)) = rows_with P (nd_notes d) + Z.of_nat (List.length (List.filter P rows)).
Proof.
  revert next d. induction rows as [|n rows IH]; intros next d Hf; simpl; [lia|]. rewrite IH.
  - simpl. rewrite rows_with_new by (apply Hf; lia). destruct (P n); simpl; lia.
  - intros i Hi. simpl. rewrite lookup_insert_ne by lia. apply Hf. lia.
Qed.

Lemma store_notes_keeps next rows d i n : (∀ i, next ≤ i → nd_notes d !! i = None) →
  nd_notes d !! i = Some n → nd_notes (store_notes next rows d) !! i = Some n.
Proof.
  revert next d. induction rows as [|m rows IH]; intros next d Hf Hn; simpl; [done|]. apply IH.
  - intros j Hj. simpl. rewrite lookup_insert_ne by lia. apply Hf. lia.
  - simpl. rewrite lookup_insert_ne; [done|]. intros <-. rewrite Hf in Hn; [done|lia].
Qed.

Lemma fresh_counted e now rr u users rows : Forall2 (fresh_note e now rr) users rows →
  Z.of_nat (List.length (List.filter (counted u) rows)) = addressed u users.
Proof.
  unfold addressed. induction 1 as [|v n users rows Hn _ IH]; [done|]. simpl. destruct Hn as (Hu & _ & _ & Hs & Ha & _).
  unfold counted at 1, is_unread. rewrite Hu, Hs, Ha. simpl. rewrite !andb_true_r. destruct (us_user_id v =? u); simpl; lia.
Qed.

Lemma fresh_note_fits e now rr u n : 0 ≤ nq_reliefrqst_id rr < 10 ^ 10 → fresh_note e now rr u n →
  note_fits n = true ∧ ∃ l, no_link_url n = Some l ∧ ∀ nx, get_safe_link nx (Some l) = Some l ∧
    at_home (nx_scheme nx) (nx_host nx) (chars l).
Proof.
  intros Hid (_ & _ & Ht & Hs & _ & _ & Hl & l & Hlink & Hin). destruct (service_link_ok _ _ Hid Hin) as [Hn Hok]. split.
  - unfold note_fits, varchar_opt, varchar. rewrite Ht, Hs, Hlink, !andb_true_iff, !Z.leb_le. split_and!; [lia| |done|done]. by destruct e.
  - exists l. split; [done|]. intros nx. destruct (Hok (nx_scheme nx) (nx_host nx)) as [Hv Hh]. split; [|done].
    unfold get_safe_link, safe_link. rewrite Hv. destruct l; [|done]. by vm_compute in Hv.
Qed.

(** The notifications of an event reach their recipients, one for each time a user
    is named, and disturb nothing stored: every badge rises by exactly that.  What the
    other components keep of them is what the service writes.  Each fits its columns,
    and each carries a link that the pages accept, that leads to the page it names and
    that stays on the host. *)
Theorem notifications_delivered e now rr users next d :
  0 ≤ nq_reliefrqst_id rr < 10 ^ 10 → (∀ i, next ≤ i → nd_notes d !! i = None) →
  let d' := store_notes next (notes_of e now rr users) d in
  (∀ u, get_unread_count u d' = get_unread_count u d + addressed u users) ∧
  (∀ i n, nd_notes d !! i = Some n → nd_notes d' !! i = Some n) ∧
  summary_of <$> notes_of e now rr users = (λ u, mkNotification (us_user_id u) (Some (nq_reliefrqst_id rr)) (type_of e)) <$> users ∧
  Forall (λ n, note_fits n = true ∧ ∃ l, no_link_url n = Some l ∧ ∀ nx, get_safe_link nx (Some l) = Some l ∧
    at_home (nx_scheme nx) (nx_host nx) (chars l)) (notes_of e now rr users).
Proof.
  intros Hid Hf. cbv zeta. pose proof (notes_of_fresh e now rr users) as Hfresh. split_and!.
  - intros u. rewrite !unread_rows, store_notes_count by done. by erewrite fresh_counted.
  - intros i n. by apply store_notes_keeps.
  - clear Hf. induction Hfresh as [|u n users' rows (Hu & Hr & Ht & _) _ IH]; [done|]. rewrite !fmap_cons, IH. unfold summary_of. by rewrite Hu, Hr, Ht.
  - apply Forall_forall. intros n [k Hk]%list_elem_of_lookup. destruct (Forall2_lookup_r _ _ _ _ _ Hfresh Hk) as (u & _ & Hn).
    by eapply fresh_note_fits.
Qed.

(** * Recipients *)

Section recipients.
Context `{Runtime}.

Lemma dedup_acc l acc : NoDup acc.*1 → Forall (λ p : Z * User, p.1 = us_user_id p.2) acc →
  let r := foldl (λ acc u, dict_set (us_user_id u) u acc) acc l in
  NoDup r.*1 ∧ Forall (λ p : Z * User, p.1 = us_user_id p.2) r ∧ (∀ k, k ∈ r.*1 ↔ k ∈ acc.*1 ∨ k ∈ us_user_id <$> l) ∧
  (∀ p, p ∈ r → p ∈ acc ∨ p.2 ∈ l).
Proof.
  revert acc. induction l as [|u l IH]; intros acc Hnd Hk; cbn [foldl].
  - split_and!; [done|done| |by left]. intros k. split; [by left|]. intros [?|Hin]; [done|]. by apply elem_of_nil in Hin.
  - assert (Forall (λ p : Z * User, p.1 = us_user_id p.2) (dict_set (us_user_id u) u acc)) as Hk'.
    { clear -Hk. induction Hk as [|[k v] acc Hp Hk IH]; simpl; [by repeat constructor|]. case_decide; by constructor. }
    destruct (IH _ (dict_set_nodup _ _ _ Hnd) Hk') as (H1 & H2 & H3 & H4). split_and!; [done|done| |].
    + intros k. rewrite H3, dict_set_keys, fmap_cons, elem_of_cons. tauto.
    + intros p Hp. destruct (H4 p Hp) as [Hin|Hin]; [|right; by right].
      destruct p as [k v]. apply dict_get_elem in Hin; [|by apply dict_set_nodup]. rewrite dict_get_set in Hin. case_decide.
      * right. injection Hin as <-. by left.
      * left. by apply dict_get_Some.
Qed.

(** The service's recipients by role: each active user with one of the roles, once. *)
Lemma recipients_by_role codes d : map_Forall (λ k u, us_user_id u = k) (db_user d) →
  NoDup (us_user_id <$> get_active_users_by_role_codes codes d) ∧
  (∀ u, u ∈ get_active_users_by_role_codes codes d ↔
     ∃ k, db_user d !! k = Some u ∧ us_is_active u = true ∧ ∃ c, c ∈ codes ∧ c ∈ us_roles u).
Proof.
  intros Hkeyed. assert (∀ u, u ∈ users_of_roles codes d ↔
     ∃ k, db_user d !! k = Some u ∧ us_is_active u = true ∧ ∃ c, c ∈ codes ∧ c ∈ us_roles u) as Hraw.
  { intros u. unfold users_of_roles. rewrite list_elem_of_join. setoid_rewrite list_elem_of_fmap. split.
    - intros (l & Hu & c & -> & Hc). apply list_elem_of_filter in Hu as [[Hr Ha] Hu]. rewrite user_rows_perm in Hu.
      apply list_elem_of_fmap in Hu as ([k v] & -> & Hkv). apply elem_of_map_to_list in Hkv. eauto 8.
    - intros (k & Hk & Ha & c & Hc & Hr). eexists. split; [|by exists c]. apply list_elem_of_filter. split; [done|].
      rewrite user_rows_perm. apply list_elem_of_fmap. exists (k, u). split; [done|]. by apply elem_of_map_to_list. }
  unfold get_active_users_by_role_codes, dedup_users.
  destruct (dedup_acc (users_of_roles codes d) []) as (H1 & H2 & H3 & H4); [constructor|constructor|].
  set (r := foldl _ [] _) in *. split.
  - assert (us_user_id <$> r.*2 = r.*1) as ->; [|done]. clear -H2. induction H2 as [|[k u] r Hp _ IH]; [done|].
    rewrite !fmap_cons, IH. simpl in *. by f_equal.
  - intros u. rewrite <- Hraw. split.
    + intros ([k v] & -> & Hin)%list_elem_of_fmap. destruct (H4 _ Hin) as [Hn|Hn]; [by apply elem_of_nil in Hn|done].
    + intros Hu. assert (us_user_id u ∈ r.*1) as Hin by (apply H3; right; apply list_elem_of_fmap; by exists u).
      apply list_elem_of_fmap in Hin as ([k v] & Hk & Hin). simpl in Hk. apply list_elem_of_fmap. exists (k, v). split; [|done].
      assert (v ∈ users_of_roles codes d) as Hv by (destruct (H4 _ Hin) as [Hn|Hn]; [by apply elem_of_nil in Hn|done]).
      rewrite Forall_forall in H2. specialize (H2 _ Hin). simpl in H2.
      apply Hraw in Hu as (k1 & Hu & _). apply Hraw in Hv as (k2 & Hv & _). simpl.
      pose proof (Hkeyed _ _ Hu) as E1. pose proof (Hkeyed _ _ Hv) as E2. congruence.
Qed.
End recipients.

(** * At a concrete table *)

Definition ex_note_user (id : Z) (roles : list string) : User := mkUser id "u@dmis" "U" None None true None roles.

Definition ex_inbox : NoteDB :=
  mkNoteDB {[1 := set_no_status "read" (create_notification 50 7 "Package Approved" "m" "package_approved" "/packaging/dispatch/awaiting" (Some 12));
             2 := create_notification 60 7 "Package Dispatched" "m" "package_dispatched" "/relief-requests/12" (Some 12);
             3 := create_notification 70 8 "Package Dispatched" "m" "package_dispatched" "/relief-requests/12" (Some 12)]} [] [].

Definition ex_inbox_web : Web NoteDB := mkWeb None ex_inbox.
Definition ex_reader : NoteCtx := mkNoteCtx (Some 7) 1000000 (chars "https") (chars "dmis.example").

Lemma ex_inbox_fresh : ∀ i, 4 ≤ i → nd_notes ex_inbox !! i = None.
Proof. intros i Hi. unfold ex_inbox. simpl. by rewrite !lookup_insert_ne, lookup_singleton_ne by lia. Qed.

(** Marking the second row lowers the badge; the row of user 8 is refused and kept. *)
Lemma inbox_call_correct_witness :
  let s' := (note_call ex_reader (MarkRead 2) ex_inbox_web).1 in
  run_ok (note_call ex_reader (MarkRead 2)) ex_inbox_web (AGoto "/relief-requests/12") s' ∧
  badge_lowered 7 2 ex_inbox (web_db s') ∧ no_status <$> nd_notes (web_db s') !! 2 = Some "read"%string.
Proof.
  cbv zeta. assert (run_ok (note_call ex_reader (MarkRead 2)) ex_inbox_web (AGoto "/relief-requests/12")
    (note_call ex_reader (MarkRead 2) ex_inbox_web).1) as Hrun by (vm_compute; reflexivity).
  split; [exact Hrun|]. exact (inbox_call_correct ex_reader 7 (MarkRead 2) ex_inbox_web _ _ eq_refl Hrun).
Defined.

(** A package of request 12 is approved: a clerk, an officer and the agency hear of it. *)
Lemma notifications_delivered_witness :
  let users := [ex_note_user 7 ["LOGISTICS_OFFICER"]; ex_note_user 8 ["INVENTORY_CLERK"]; ex_note_user 9 []]%string in
  let d' := store_notes 4 (notes_of (PackageApproved "MANAGER") 80 (mkNoteRequest 12 (Some "BERYL"%string) (Some "RED CROSS"%string)) users) ex_inbox in
  (no_message <$> nd_notes d' !! 6 =
    Some "Your relief request RR-000012 has been prepared and approved by MANAGER. Package is ready for dispatch."%string ∧
   no_link_url <$> nd_notes d' !! 5 = Some (Some "/packaging/dispatch/awaiting"%string)) ∧
  ∀ u, get_unread_count u d' = get_unread_count u ex_inbox + addressed u users.
Proof.
  cbv zeta. split; [vm_compute; by split|].
  refine (proj1 (notifications_delivered (PackageApproved "MANAGER") 80 (mkNoteRequest 12 (Some "BERYL"%string) (Some "RED CROSS"%string)) _ 4
    ex_inbox _ ex_inbox_fresh)). vm_compute. split; [discriminate|reflexivity].
Defined.
