(* ===== verification/Sessions.v ===== *)
(** Logging in and out, and what a user changes of his own account: profile, password
    and preferences (the login routes of drims_app.py, app/features/profile.py).

    The tables of the users are those of [UserAdmin]; the columns only these routes
    write are kept beside them, by user id.  One browser's session is part of the
    state.  The hash of a password and its check are parameters; rate limits and the
    audit log are left out, and [login_count] does not reach the end of its column. *)
From stdpp Require Import strings.
From Stdlib Require Import Ascii String.
From S2P Require Import Prelude PyStr ParamValidation Columns PathSafety UrlSafety CatalogueForms AccessControl Web UserAdmin.

Record LoginInfo : Type := mkLoginInfo {
  li_timezone : string;
  li_language : string;
  li_notification_preferences : option string;
  li_last_login_at : option Z;
  li_failed_login_count : Z;
  li_login_count : Z;
  li_password_changed_at : option Z
}.

(** The defaults of the columns. *)
Definition new_info : LoginInfo := mkLoginInfo "America/Jamaica" "en" None None 0 0 None.

Record SiteState : Type := mkSite {
  st_db : UserDB;
  st_info : gmap Z LoginInfo;
  st_session : option Z           (* the user id in the session *)
}.

Definition info_of (uid : Z) (s : SiteState) : LoginInfo := default new_info (st_info s !! uid).
Definition set_info (uid : Z) (i : LoginInfo) (s : SiteState) : SiteState := mkSite (st_db s) (<[uid := i]> (st_info s)) (st_session s).
Definition set_session (x : option Z) (s : SiteState) : SiteState := mkSite (st_db s) (st_info s) x.

Record SiteCtx : Type := mkSiteCtx {
  sx_now : Z;
  sx_check : string → string → bool;    (* [check_password_hash] *)
  sx_hash : string → string;            (* [generate_password_hash] *)
  sx_scheme : text;
  sx_host : text
}.

Section sessions.
Variable sx : SiteCtx.

Abbreviation SM := (WM SiteState).

Definition site_user (s : SiteState) : option UserRow := uid ← st_session s; load_user (sx_now sx) uid (st_db s).

(** * Logging in and out *)

Record LoginForm : Type := mkLoginForm {
  lf_email : option string;
  lf_password : option string;
  lf_next : option text             (* of the query string *)
}.

Inductive LoginAnswer : Type := ToDashboard | ToNext (url : text).

Definition user_with_email (email : option string) (s : SiteState) : option UserRow :=
  e ← email; head (filter (λ u, ur_email u = e) (rows (ud_users (st_db s)))).

(** [password and check_password_hash(user.password_hash, password)]. *)
Definition password_matches (u : UserRow) (password : option string) : bool :=
  match password with Some p => negb (bool_decide (p = ""%string)) && sx_check sx (ur_password_hash u) p | None => false end.

Definition login_stamped (i : LoginInfo) : LoginInfo :=
  mkLoginInfo (li_timezone i) (li_language i) (li_notification_preferences i) (Some (sx_now sx)) 0 (li_login_count i + 1)
    (li_password_changed_at i).

(** The page named in the query if it is safe, the dashboard if not. *)
Definition next_page (next : option text) : SM LoginAnswer :=
  match next with
  | Some t => if bool_decide (t = []) then mret ToDashboard
              else safe ← m_some (is_safe_url (sx_scheme sx) (sx_host sx) (Some t)) WCrashed;
                   mret (if safe : bool then ToNext t else ToDashboard)
  | None => mret ToDashboard
  end.

Definition login (f : LoginForm) : SM LoginAnswer :=
  s ← on_web_db id;
  match site_user s with
  | Some _ => mret ToDashboard
  | None =>
      match user_with_email (lf_email f) s with
      | Some u =>
          m_fail_if (negb (password_matches u (lf_password f))) (WRefused "Invalid email or password");;
          m_fail_if (negb (ur_is_active u) || negb (bool_decide (ur_status_code u = "A"%string))) (WRefused "Your account is inactive.");;
          m_fail_if (is_locked (sx_now sx) u) (WRefused "Your account is temporarily locked.");;
          transaction (m_modify (λ s, set_info (ur_user_id u) (login_stamped (info_of (ur_user_id u) s)) s));;
          transaction (m_modify (set_session (Some (ur_user_id u))));;
          next_page (lf_next f)
      | None => m_fail (WRefused "Invalid email or password")
      end
  end.

Definition the_user : SM UserRow := s ← on_web_db id; logged_in (site_user s).

Definition logout : SM unit := the_user;; transaction (m_modify (set_session None)).

(** * The own account *)

(** The flush of an account: its row and the columns beside it. *)
Definition store_account (u : UserRow) (i : LoginInfo) : BM SiteState unit :=
  s ← m_get;
  m_fail_if (negb (user_row_ok (st_db s) u && varchar 50 (li_timezone i) && varchar 10 (li_language i))) WCrashed;;
  m_modify (λ s, mkSite (put_user u (st_db s)) (<[ur_user_id u := i]> (st_info s)) (st_session s)).

Definition with_profile (first last phone job_title : string) (u : UserRow) : UserRow :=
  mkUserRow (ur_user_id u) (ur_email u) (ur_user_name u) (ur_password_hash u) (Some (upper first)) (Some (upper last))
    (Some (upper first +:+ " " +:+ upper last)) (ur_organization u) (ur_agency_id u) (Some job_title) (Some phone)
    (ur_is_active u) (ur_status_code u) (ur_lock_until_at u) (ur_mfa_enabled u) (ur_create_dtime u).

Definition edit_profile (f : Form) : SM unit :=
  u ← the_user;
  try_transaction (
    let first := field f "first_name" in
    let last := field f "last_name" in
    m_fail_if (blank first || blank last) (WRefused "First name and last name are required.");;
    s ← m_get;
    let i := info_of (ur_user_id u) s in
    store_account (with_profile first last (field f "phone") (field f "job_title") u)
      (mkLoginInfo (default "America/Jamaica"%string (f !! "timezone"%string)) (default "en"%string (f !! "language"%string))
        (li_notification_preferences i) (li_last_login_at i) (li_failed_login_count i) (li_login_count i) (li_password_changed_at i))).

Definition with_password (hash : string) (u : UserRow) : UserRow :=
  mkUserRow (ur_user_id u) (ur_email u) (ur_user_name u) hash (ur_first_name u) (ur_last_name u) (ur_full_name u)
    (ur_organization u) (ur_agency_id u) (ur_job_title u) (ur_phone u) (ur_is_active u) (ur_status_code u)
    (ur_lock_until_at u) (ur_mfa_enabled u) (ur_create_dtime u).

(** [request.form.get(k, '')], not stripped. *)
Definition plain_field (f : Form) (k : string) : string := default ""%string (f !! k).

Definition change_password (f : Form) : SM unit :=
  u ← the_user;
  try_transaction (
    let new_password := plain_field f "new_password" in
    m_fail_if (negb (sx_check sx (ur_password_hash u) (plain_field f "current_password"))) (WRefused "Current password is incorrect.");;
    m_fail_if (len new_password <? 8) (WRefused "New password must be at least 8 characters long.");;
    m_fail_if (negb (bool_decide (new_password = plain_field f "confirm_password"))) (WRefused "New passwords do not match.");;
    s ← m_get;
    let i := info_of (ur_user_id u) s in
    store_account (with_password (sx_hash sx new_password) u)
      (mkLoginInfo (li_timezone i) (li_language i) (li_notification_preferences i) (li_last_login_at i) (li_failed_login_count i)
        (li_login_count i) (Some (sx_now sx)))).

(** [json.dumps] of the three flags. *)
Definition quoted (w : string) : string := String (chr 34) (w +:+ String (chr 34) "").
Definition json_bool (b : bool) : string := if b then "true" else "false".
Definition preferences_text (f : Form) : string :=
  let flag k := json_bool (bool_decide (f !! k = Some "on"%string)) in
  "{" +:+ quoted "email" +:+ ": " +:+ flag "email_notifications"%string +:+ ", " +:+ quoted "sms" +:+ ": " +:+
  flag "sms_notifications"%string +:+ ", " +:+ quoted "push" +:+ ": " +:+ flag "push_notifications"%string +:+ "}".

Definition preferences (f : Form) : SM unit :=
  u ← the_user;
  try_transaction (
    s ← m_get;
    let i := info_of (ur_user_id u) s in
    store_account u (mkLoginInfo (li_timezone i) (li_language i) (Some (preferences_text f)) (li_last_login_at i)
      (li_failed_login_count i) (li_login_count i) (li_password_changed_at i))).

(** * The calls *)

Inductive SiteCall : Type :=
| Login (f : LoginForm) | Logout | EditProfile (f : Form) | ChangePassword (f : Form) | Preferences (f : Form).

Definition site_call (c : SiteCall) : SM unit :=
  match c with
  | Login f => login f;; mret tt
  | Logout => logout
  | EditProfile f => edit_profile f
  | ChangePassword f => change_password f
  | Preferences f => preferences f
  end.
End sessions.
