(* ===== verification/SessionsTheorems.v ===== *)
(** Who gets in, what a changed password opens, and that nobody is ever locked out.

    The theorems on logging in and on a user's own account. *)
From stdpp Require Import strings.
From Stdlib Require Import Ascii String.
From S2P Require Import Prelude PyStr ParamValidation Columns PathSafety AccessControl Web UserAdmin UserAdminTheorems CatalogueForms UrlSafety Sessions.

Section proofs.
Context (sx : SiteCtx).

(** The account the form opens. *)
Definition admitted (f : LoginForm) (s : SiteState) (u : UserRow) : Prop :=
  (∃ k, ud_users (st_db s) !! k = Some u) ∧ lf_email f = Some (ur_email u) ∧ password_matches sx u (lf_password f) = true ∧
  ur_is_active u = true ∧ ur_status_code u = "A"%string ∧ is_locked (sx_now sx) u = false.

Lemma user_with_email_some e s u : user_inv (st_db s) →
  user_with_email e s = Some u ↔ (∃ k, ud_users (st_db s) !! k = Some u) ∧ e = Some (ur_email u).
Proof.
  intros Hi. unfold user_with_email. destruct e as [e|]; simpl; [|naive_solver].
  assert (∀ v, v ∈ filter (λ u, ur_email u = e) (rows (ud_users (st_db s))) ↔ ur_email v = e ∧ ∃ k, ud_users (st_db s) !! k = Some v) as Hel.
  { intros v. by rewrite list_elem_of_filter, elem_of_rows. }
  destruct (filter _ _) as [|v l]; simpl.
  - split; [done|]. intros [Hk [= ->]]. exfalso. pose proof (proj2 (Hel u) (conj eq_refl Hk)) as Hin. by apply elem_of_nil in Hin.
  - destruct (proj1 (Hel v)) as [<- [k Hv]]; [by left|]. split.
    { intros [= <-]. split; [by exists k|done]. }
    intros [[k' Hu] [= He]].
    pose proof (uv_emails _ Hi _ _ _ _ Hv Hu He) as ->. congruence.
Qed.

(** * The effects of the calls *)

(** What a user may change of his own row. *)
Definition own_edit (u u' : UserRow) : Prop :=
  ur_user_id u' = ur_user_id u ∧ ur_email u' = ur_email u ∧ ur_user_name u' = ur_user_name u ∧ ur_organization u' = ur_organization u ∧
  ur_agency_id u' = ur_agency_id u ∧ ur_is_active u' = ur_is_active u ∧ ur_status_code u' = ur_status_code u ∧
  ur_lock_until_at u' = ur_lock_until_at u.

Inductive site_effect (s : SiteState) : SiteState → Prop :=
| se_same : site_effect s s
| se_login f u : admitted f s u →
    site_effect s (set_session (Some (ur_user_id u)) (set_info (ur_user_id u) (login_stamped sx (info_of (ur_user_id u) s)) s))
| se_logout : site_effect s (set_session None s)
| se_store u u' i : site_user sx s = Some u → own_edit u u' → user_row_ok (st_db s) u' = true →
    li_failed_login_count i = li_failed_login_count (info_of (ur_user_id u) s) →
    site_effect s (mkSite (put_user u' (st_db s)) (<[ur_user_id u' := i]> (st_info s)) (st_session s)).

Lemma next_page_keeps f : keeps_stored (next_page sx f).
Proof. unfold next_page. destruct f as [t|]; [case_bool_decide|]; auto 10 with web. Qed.

(** Logging in, case by case. *)
Lemma login_run f s : user_inv (st_db (web_db s)) → site_user sx (web_db s) = None →
  (∃ u, admitted f (web_db s) u ∧
     login sx f s = next_page sx (lf_next f) (mkWeb (web_cache s)
       (set_session (Some (ur_user_id u)) (set_info (ur_user_id u) (login_stamped sx (info_of (ur_user_id u) (web_db s))) (web_db s))))) ∨
  ((¬ ∃ u, admitted f (web_db s) u) ∧ ∃ msg, login sx f s = (s, inl (WRefused msg))).
Proof.
  intros Hi Hnone. unfold login. rewrite run_bind. simpl. rewrite Hnone.
  destruct (user_with_email (lf_email f) (web_db s)) as [u|] eqn:Hu.
  - pose proof (proj1 (user_with_email_some _ _ _ Hi) Hu) as [Hk He].
    assert (∀ v, admitted f (web_db s) v → v = u) as Honly.
    { intros v (Hv & Hve & _). assert (user_with_email (lf_email f) (web_db s) = Some v) by (by apply user_with_email_some). congruence. }
    rewrite run_bind. destruct (password_matches sx u (lf_password f)) eqn:Hp; simpl;
      [|right; split; [|by eexists]; intros (v & Hv); pose proof (Honly v Hv) as ->; destruct Hv as (_ & _ & Hv & _); congruence].
    rewrite run_bind. destruct (ur_is_active u) eqn:Ha; simpl;
      [|right; split; [|by eexists]; intros (v & Hv); pose proof (Honly v Hv) as ->; destruct Hv as (_ & _ & _ & Hv & _); congruence].
    case_bool_decide as Hst; simpl;
      [|right; split; [|by eexists]; intros (v & Hv); pose proof (Honly v Hv) as ->; by destruct Hv as (_ & _ & _ & _ & Hv & _)].
    rewrite run_bind. destruct (is_locked (sx_now sx) u) eqn:Hl; simpl;
      [right; split; [|by eexists]; intros (v & Hv); pose proof (Honly v Hv) as ->; destruct Hv as (_ & _ & _ & _ & _ & Hv); congruence|].
    left. exists u. split; [by split_and!|done].
  - right. split; [|by eexists]. intros (u & Hk & He & _). assert (user_with_email (lf_email f) (web_db s) = Some u) by (by apply user_with_email_some).
    congruence.
Qed.

Lemma store_account_ok u i s s' : run_ok (store_account u i) s tt s' →
  user_row_ok (st_db s) u = true ∧ s' = mkSite (put_user u (st_db s)) (<[ur_user_id u := i]> (st_info s)) (st_session s).
Proof.
  unfold store_account. rewrite body_get, run_fail_if, body_modify, negb_false_iff, !andb_true_iff. tauto.
Qed.

Lemma keeps_the_user : keeps_stored (the_user sx).
Proof. unfold the_user, logged_in. auto 10 with web. Qed.

Lemma the_user_ok {A} (k : UserRow → WM SiteState A) s b s' :
  run_ok (u ← the_user sx; k u) s b s' ↔ ∃ u, site_user sx (web_db s) = Some u ∧ run_ok (k u) s b s'.
Proof.
  unfold the_user, logged_in. rewrite bind_ok. split.
  - intros (u & s1 & Hu & Hk). change (run_ok (m_some (site_user sx (web_db s)) (WGuard ToLogin)) s u s1) in Hu.
    unfold run_ok in Hu. destruct (site_user sx (web_db s)); [|done]. simpl in Hu. injection Hu as -> ->. eauto.
  - intros (u & Hu & Hk). exists u, s. split; [|done]. change (run_ok (m_some (site_user sx (web_db s)) (WGuard ToLogin)) s u s).
    by rewrite Hu.
Qed.

(** A call on the own account, from what its body stores. *)
Lemma own_account_effect (body : UserRow → BM SiteState unit) s :
  (∀ u d d', site_user sx d = Some u → run_ok (body u) d tt d' → site_effect d d') →
  site_effect (web_db s) (web_db ((u ← the_user sx; try_transaction (body u)) s).1).
Proof.
  intros Hb. assert (atomic (u ← the_user sx; try_transaction (body u))) as Hat
    by (apply atomic_bind; [apply keeps_the_user|intros; apply atomic_try]).
  specialize (Hat s). destruct ((u ← the_user sx; try_transaction (body u)) s) as [s' [e|[]]] eqn:Hrun; simpl; [rewrite Hat; constructor|].
  apply the_user_ok in Hrun as (u & Hu & Hrun). apply try_transaction_ok in Hrun as (d & Hd & ->). by eapply Hb.
Qed.

Lemma edit_profile_effect f s : site_effect (web_db s) (web_db (edit_profile sx f s).1).
Proof.
  apply own_account_effect. intros u d d' Hu Hrun. cbv zeta in Hrun. rewrite run_fail_if, body_get in Hrun. destruct Hrun as [_ Hrun].
  apply store_account_ok in Hrun as [Hok ->]. by apply (se_store _ u).
Qed.

Lemma change_password_effect f s : site_effect (web_db s) (web_db (change_password sx f s).1).
Proof.
  apply own_account_effect. intros u d d' Hu Hrun. cbv zeta in Hrun. rewrite !run_fail_if, body_get in Hrun.
  destruct Hrun as (_ & _ & _ & Hrun). apply store_account_ok in Hrun as [Hok ->]. by apply (se_store _ u).
Qed.

Lemma preferences_effect f s : site_effect (web_db s) (web_db (preferences sx f s).1).
Proof.
  apply own_account_effect. intros u d d' Hu Hrun. rewrite body_get in Hrun.
  apply store_account_ok in Hrun as [Hok ->]. by apply (se_store _ u).
Qed.

Lemma site_call_effect c s : user_inv (st_db (web_db s)) → site_effect (web_db s) (web_db (site_call sx c s).1).
Proof.
  intros Hi. destruct c as [f| |f|f|f]; simpl.
  - rewrite run_bind. destruct (site_user sx (web_db s)) as [u|] eqn:Hu.
    + unfold login. rewrite run_bind. simpl. rewrite Hu. constructor.
    + destruct (login_run f s Hi Hu) as [(u & Ha & ->)|(_ & msg & ->)]; [|constructor].
      pose proof (next_page_keeps (lf_next f) (mkWeb (web_cache s)
       (set_session (Some (ur_user_id u)) (set_info (ur_user_id u) (login_stamped sx (info_of (ur_user_id u) (web_db s))) (web_db s))))) as Hk.
      destruct (next_page _ _ _) as [s1 [e|a]]; simpl in *; rewrite Hk; by eapply se_login.
  - unfold logout. rewrite run_bind. pose proof (keeps_the_user s) as Hk. destruct (the_user sx s) as [s1 [e|u]]; simpl in *; rewrite Hk; constructor.
  - apply edit_profile_effect.
  - apply change_password_effect.
  - apply preferences_effect.
Qed.

(** * What the effects keep *)

Lemma put_user_inv u u' d : user_inv d → ud_users d !! ur_user_id u = Some u → ur_user_id u' = ur_user_id u →
  user_row_ok d u' = true → user_inv (put_user u' d).
Proof.
  intros Hi Hu Hid Hok. destruct (put_user_rows u' d Hi Hok) as (H1 & H2 & H3). split; [done..| | |apply (uv_role_keys _ Hi)].
  - intros v r Hp. apply (uv_roles _ Hi) in Hp as [? ?]. split; [by apply is_Some_insert|done].
  - intros v w Hp. apply (uv_warehouses _ Hi) in Hp as [? ?]. split; [by apply is_Some_insert|done].
Qed.

Lemma site_user_stored s u : user_inv (st_db s) → site_user sx s = Some u →
  ud_users (st_db s) !! ur_user_id u = Some u ∧ st_session s = Some (ur_user_id u).
Proof.
  unfold site_user, load_user. intros Hi H. destruct (st_session s) as [uid|]; [|done]. simpl in H.
  destruct (ud_users (st_db s) !! uid) as [v|] eqn:Hv; [|done]. simpl in H. case_match; [|done]. injection H as <-.
  by rewrite (uv_keys _ Hi _ _ Hv).
Qed.

Lemma site_effect_inv s s' : site_effect s s' → user_inv (st_db s) → user_inv (st_db s').
Proof.
  intros [|f u _| |u u' i Hu Hown Hok _] Hi; try done. apply site_user_stored in Hu as [Hu _]; [|done]. simpl.
  eapply put_user_inv; try done. by destruct Hown.
Qed.

(** One account before and after: its row, and the failed logins counted. *)
Lemma site_effect_rows s s' k u : user_inv (st_db s) → site_effect s s' → ud_users (st_db s) !! k = Some u →
  ∃ u', ud_users (st_db s') !! k = Some u' ∧ own_edit u u' ∧ (u' = u ∨ site_user sx s = Some u).
Proof.
  intros Hi He Hk. assert (own_edit u u) as Hself by (by split_and!).
  destruct He as [|f v _| |v v' i Hv Hown _ _]; try (exists u; by auto). simpl. apply site_user_stored in Hv as Hvs; [|done].
  destruct Hvs as [Hvs _]. assert (ur_user_id v' = ur_user_id v) as Hid by (by destruct Hown). rewrite Hid.
  destruct (decide (ur_user_id v = k)) as [<-|Hne].
  - assert (u = v) as -> by congruence. exists v'. rewrite lookup_insert_eq. auto.
  - exists u. rewrite lookup_insert_ne by done. auto.
Qed.

Lemma info_insert d j i s x k :
  info_of k (mkSite d (<[j := i]> (st_info s)) x) = if decide (j = k) then i else info_of k s.
Proof.
  unfold info_of. simpl. case_decide as Hj; [subst; by rewrite lookup_insert_eq|by rewrite lookup_insert_ne].
Qed.

Lemma site_effect_failed s s' k : site_effect s s' → 0 ≤ li_failed_login_count (info_of k s) →
  0 ≤ li_failed_login_count (info_of k s') ≤ li_failed_login_count (info_of k s).
Proof.
  intros He H0. destruct He as [|f u _| |u u' i Hu Hown _ Hi]; [lia| |unfold info_of in *; simpl; lia|].
  - unfold set_info, set_session. simpl. rewrite info_insert. case_decide; simpl; lia.
  - assert (ur_user_id u' = ur_user_id u) as Hid by (by destruct Hown). rewrite info_insert, Hid. case_decide; [subst k|]; lia.
Qed.
End proofs.

(** C28: Somebody who is not logged in gets in exactly as the one active, unlocked account
    with the address and the password of the form; then the session is his, his login
    is counted and stamped, and the page he is sent to is the dashboard or a target
    that stays on the host.  Everybody else is told so, and nothing is stored: not even
    that a password was wrong. *)
Theorem login_correct sx f s : let s' := (login sx f s).1 in
  user_inv (st_db (web_db s)) → site_user sx (web_db s) = None →
  (∀ t, (login sx f s).2 = inr (ToNext t) → at_home (sx_scheme sx) (sx_host sx) (strip_text t)) ∧
  ((∃ u, admitted sx f (web_db s) u ∧
      web_db s' = set_session (Some (ur_user_id u)) (set_info (ur_user_id u) (login_stamped sx (info_of (ur_user_id u) (web_db s))) (web_db s))) ∨
   ((¬ ∃ u, admitted sx f (web_db s) u) ∧ ∃ msg, login sx f s = (s, inl (WRefused msg)))).
Proof.
  cbv zeta. intros Hi Hnone. destruct (login_run sx f s Hi Hnone) as [(u & Ha & ->)|[Hno [msg ->]]]; [|split; [done|right; eauto]]. split.
  - unfold next_page. destruct (lf_next f) as [t0|]; [|done]. case_bool_decide; [done|]. intros t. rewrite run_bind.
    destruct (is_safe_url _ _ (Some t0)) as [[]|] eqn:Hs; simpl; [|done|done]. intros [= <-]. by apply is_safe_home.
  - left. exists u. split; [done|]. by rewrite next_page_keeps.
Qed.

(** Calls of any browser, in any order; the session of one is seen at a time. *)
Inductive site_step : Web SiteState → Web SiteState → Prop :=
| site_step_call sx c s : site_step s (site_call sx c s).1
| site_step_browser x c s : site_step s (mkWeb c (set_session x (web_db s))).

(** The accounts [s] and [s'] agree on all but what their owners may edit. *)
Definition accounts_kept (s s' : SiteState) : Prop :=
  user_inv (st_db s') ∧ (∀ k, 0 ≤ li_failed_login_count (info_of k s') ≤ li_failed_login_count (info_of k s)) ∧
  (∀ k u, ud_users (st_db s) !! k = Some u → ∃ u', ud_users (st_db s') !! k = Some u' ∧ own_edit u u') ∧
  ud_user_role (st_db s') = ud_user_role (st_db s) ∧ ud_user_warehouse (st_db s') = ud_user_warehouse (st_db s).

Lemma own_edit_trans u v w : own_edit u v → own_edit v w → own_edit u w.
Proof. unfold own_edit. intros. destruct_and!. split_and!; congruence. Qed.

Lemma site_step_kept s s' : site_step s s' → user_inv (st_db (web_db s)) → (∀ k, 0 ≤ li_failed_login_count (info_of k (web_db s))) →
  accounts_kept (web_db s) (web_db s').
Proof.
  intros [sx c s1|x c s1] Hi H0; [|split_and!; try done; [intros k; specialize (H0 k); unfold info_of in *; simpl; lia|]; intros k u Hu; exists u; by split_and!].
  pose proof (site_call_effect sx c s1 Hi) as He. split_and!.
  - by eapply site_effect_inv.
  - intros k. by eapply site_effect_failed.
  - intros k u Hu. destruct (site_effect_rows sx _ _ k u Hi He Hu) as (u' & Hu' & Ho & _). eauto.
  - by destruct He.
  - by destruct He.
Qed.

(** However many calls are made and whatever passwords are tried, no account is ever
    locked by it: the time until which an account is locked, its address, its status,
    its agency and its roles stay as they were, and its count of failed logins only
    falls.  A user changes no account but his own, and of it only names, phone, job,
    password, preferences and the stamps of his logins. *)
Theorem accounts_never_locked s s' : reach site_step s s' → user_inv (st_db (web_db s)) →
  (∀ k, 0 ≤ li_failed_login_count (info_of k (web_db s))) → accounts_kept (web_db s) (web_db s').
Proof.
  induction 1 as [s|s s1 s' Hstep _ IH]; intros Hi H0.
  - split_and!; try done. intros k u Hu. exists u. by split_and!.
  - destruct (site_step_kept _ _ Hstep Hi H0) as (Hi1 & Hf1 & Hu1 & Hr1 & Hw1).
    destruct IH as (Hi2 & Hf2 & Hu2 & Hr2 & Hw2); [done|intros k; apply Hf1|]. split_and!; [done| | |congruence|congruence].
    + intros k. specialize (Hf1 k). specialize (Hf2 k). lia.
    + intros k u (u1 & Hk1 & E1)%Hu1. destruct (Hu2 _ _ Hk1) as (u2 & Hk2 & E2). exists u2. split; [done|]. by eapply own_edit_trans.
Qed.

(** A change of the password that succeeded, taken apart. *)
Lemma change_password_ok sx f s s' : run_ok (change_password sx f) s tt s' → ∃ u, site_user sx (web_db s) = Some u ∧
  sx_check sx (ur_password_hash u) (plain_field f "current_password") = true ∧ 8 ≤ len (plain_field f "new_password") ∧
  user_row_ok (st_db (web_db s)) (with_password (sx_hash sx (plain_field f "new_password")) u) = true ∧
  ∃ i, s' = mkWeb (web_cache s) (mkSite (put_user (with_password (sx_hash sx (plain_field f "new_password")) u) (st_db (web_db s)))
      (<[ur_user_id u := i]> (st_info (web_db s))) (st_session (web_db s))).
Proof.
  intros (u & Hu & Hrun)%the_user_ok. apply try_transaction_ok in Hrun as (d & Hd & ->). cbv zeta in Hd.
  rewrite !run_fail_if, body_get in Hd. destruct Hd as (Hc & Hl & _ & Hd). apply store_account_ok in Hd as [Hok ->].
  exists u. apply negb_false_iff in Hc. apply Z.ltb_ge in Hl. split_and!; [done..|]. by eexists.
Qed.

(** The account [u] in a table, open, and nobody logged in. *)
Record open_account (sx : SiteCtx) (u : UserRow) (s : SiteState) : Prop := mkOpenAccount {
  oa_inv : user_inv (st_db s);
  oa_row : ud_users (st_db s) !! ur_user_id u = Some u;
  oa_active : ur_is_active u = true;
  oa_status : ur_status_code u = "A"%string;
  oa_unlocked : is_locked (sx_now sx) u = false;
  oa_out : st_session s = None
}.

(** A password opens it exactly when its hash checks it. *)
Lemma login_by_password sx u s p : open_account sx u (web_db s) → p ≠ ""%string →
  let form := mkLoginForm (Some (ur_email u)) (Some p) None in
  if sx_check sx (ur_password_hash u) p
  then (login sx form s).2 = inr ToDashboard ∧ st_session (web_db (login sx form s).1) = Some (ur_user_id u)
  else ∃ msg, login sx form s = (s, inl (WRefused msg)).
Proof.
  intros [Hi Hrow Ha Hst Hl Hout] Hp. cbv zeta. set (form := mkLoginForm (Some (ur_email u)) (Some p) None).
  assert (site_user sx (web_db s) = None) as Hnone by (unfold site_user; by rewrite Hout).
  assert (∀ v, admitted sx form (web_db s) v → v = u ∧ sx_check sx (ur_password_hash u) p = true) as Honly.
  { intros v ([k Hk] & [= He] & Hpw & _). pose proof (uv_emails _ Hi _ _ _ _ Hk Hrow (eq_sym He)) as ->.
    assert (v = u) as -> by congruence. split; [done|]. simpl in Hpw. by apply andb_true_iff in Hpw as [_ Hpw]. }
  destruct (login_run sx form s Hi Hnone) as [(v & [-> ->]%Honly & ->)|[Hno Hmsg]]; [done|].
  destruct (sx_check sx (ur_password_hash u) p) eqn:Hc; [|done]. destruct Hno. exists u. split_and!; try done; [by eexists|].
  simpl. by rewrite Hc, bool_decide_false.
Qed.

(** After the change and a logout the account is open, with the new hash. *)
Lemma changed_and_out sx f s s' : user_inv (st_db (web_db s)) → run_ok (change_password sx f) s tt s' →
  ∃ u, site_user sx (web_db s) = Some u ∧ 8 ≤ len (plain_field f "new_password") ∧
    open_account sx (with_password (sx_hash sx (plain_field f "new_password")) u) (web_db (logout sx s').1).
Proof.
  intros Hi Hrun. destruct (change_password_ok _ _ _ _ Hrun) as (u & Hu & _ & Hlen & Hok & i & ->). exists u. split; [done|]. split; [done|].
  set (u' := with_password _ u) in *. pose proof (site_user_stored sx _ _ Hi Hu) as [Hrow Hsess].
  assert (user_inv (put_user u' (st_db (web_db s)))) as Hi' by (by eapply (put_user_inv u u')).
  assert (ud_users (put_user u' (st_db (web_db s))) !! ur_user_id u = Some u') as Hrow' by (unfold put_user; simpl; by rewrite lookup_insert_eq).
  pose proof Hu as Hl. unfold site_user, load_user in Hl. rewrite Hsess in Hl. simpl in Hl. rewrite Hrow in Hl. simpl in Hl.
  destruct (ur_is_active u && _ && _) eqn:Hactive; [clear Hl|done]. rewrite !andb_true_iff, negb_true_iff, bool_decide_eq_true in Hactive.
  destruct Hactive as [[Hact Hst] Hlock]. set (d := put_user u' (st_db (web_db s))) in *. clearbody d.
  set (s1 := mkWeb (web_cache s) (mkSite d (<[ur_user_id u := i]> (st_info (web_db s))) (st_session (web_db s)))).
  assert (site_user sx (web_db s1) = Some u') as Hu'.
  { unfold site_user, load_user. simpl. rewrite Hsess. simpl. rewrite Hrow'. simpl. rewrite Hact, Hst, bool_decide_true by done.
    unfold is_locked in *. simpl. by rewrite Hlock. }
  assert (run_ok (logout sx) s1 tt (mkWeb (web_cache s) (set_session None (web_db s1)))) as Hlo.
  { unfold logout. apply the_user_ok. exists u'. split; [done|]. apply transaction_ok. eexists. split; [by apply body_modify|done]. }
  unfold run_ok in Hlo. rewrite Hlo. by split.
Qed.

(** C29: A changed password opens the account: after the change and a logout, the address
    of the account with the new password logs its owner in; and a password that the
    new hash does not check, such as another one, is refused. *)
Theorem password_round_trip sx f s s' :
  (∀ p, sx_check sx (sx_hash sx p) p = true) → user_inv (st_db (web_db s)) → run_ok (change_password sx f) s tt s' →
  ∃ u, site_user sx (web_db s) = Some u ∧
    let out := (logout sx s').1 in
    let try_with p := login sx (mkLoginForm (Some (ur_email u)) (Some p) None) out in
    st_session (web_db out) = None ∧
    (try_with (plain_field f "new_password")).2 = inr ToDashboard ∧
    st_session (web_db (try_with (plain_field f "new_password")).1) = Some (ur_user_id u) ∧
    (∀ p, p ≠ ""%string → sx_check sx (sx_hash sx (plain_field f "new_password")) p = false →
       ∃ msg, try_with p = (out, inl (WRefused msg))).
Proof.
  intros Hlaw Hi Hrun. destruct (changed_and_out _ _ _ _ Hi Hrun) as (u & Hu & Hlen & Hopen). exists u. split; [done|]. cbv zeta.
  assert (plain_field f "new_password" ≠ ""%string) as Hp by (intros Hp; rewrite Hp in Hlen; by vm_compute in Hlen).
  pose proof (login_by_password _ _ _ _ Hopen Hp) as Hin. cbv zeta in Hin. simpl in Hin. rewrite Hlaw in Hin. destruct Hin as [H1 H2].
  split; [apply (oa_out _ _ _ Hopen)|]. split; [done|]. split; [done|]. intros q Hq Hc.
  pose proof (login_by_password _ _ _ _ Hopen Hq) as Hno. cbv zeta in Hno. simpl in Hno. by rewrite Hc in Hno.
Qed.

(** * At concrete accounts *)

Definition ex_hashed (p : string) : string := "hash of " +:+ p.
Definition ex_site_ctx : SiteCtx := mkSiteCtx 100 (λ h p, bool_decide (h = ex_hashed p)) ex_hashed (chars "https") (chars "dmis.example").

(** The users of [ex_users], the second of whom has a password. *)
Definition ex_account : UserRow := with_password (ex_hashed "first one") (ex_user 2 "custodian@odpem.gov.jm" "CUSTODIAN" None).

Definition ex_site : Web SiteState := mkWeb None (mkSite (put_user ex_account ex_users) ∅ None).

Lemma ex_site_inv : user_inv (st_db (web_db ex_site)).
Proof. apply (put_user_inv (ex_user 2 "custodian@odpem.gov.jm" "CUSTODIAN" None)); [apply ex_users_inv|vm_compute; reflexivity..]. Qed.

Definition ex_login (p : string) (next : option text) : LoginForm := mkLoginForm (Some "custodian@odpem.gov.jm"%string) (Some p) next.

Definition ex_password_form : Form :=
  list_to_map [("current_password", "first one"); ("new_password", "second one"); ("confirm_password", "second one")]%string.

(** The target of the query string is the login page's choice only if it is safe. *)
Lemma login_correct_witness :
  ((login ex_site_ctx (ex_login "first one" (Some (chars "/packaging"))) ex_site).2 = inr (ToNext (chars "/packaging")) ∧
   (login ex_site_ctx (ex_login "first one" (Some (chars "//evil.example"))) ex_site).2 = inr ToDashboard) ∧
  at_home (chars "https") (chars "dmis.example") (strip_text (chars "/packaging")).
Proof.
  split; [vm_compute; by split|].
  refine (proj1 (login_correct ex_site_ctx (ex_login "first one" (Some (chars "/packaging"))) ex_site ex_site_inv eq_refl) (chars "/packaging") _).
  vm_compute. reflexivity.
Defined.

(** A guess, a login, a change of the password, a logout. *)
Definition ex_site_calls : list SiteCall :=
  [Login (ex_login "a guess" None); Login (ex_login "first one" None); ChangePassword ex_password_form; Logout].

Definition after_site_calls (l : list SiteCall) (s : Web SiteState) : Web SiteState :=
  foldl (λ s c, (site_call ex_site_ctx c s).1) s l.

Lemma after_site_calls_reach l s : reach site_step s (after_site_calls l s).
Proof. revert s. induction l as [|c l IH]; intros s; [constructor|]. eapply reach_step; [constructor|apply IH]. Qed.

Lemma accounts_never_locked_witness :
  let s' := after_site_calls ex_site_calls ex_site in
  (ur_password_hash <$> ud_users (st_db (web_db s')) !! 2 = Some (ex_hashed "second one") ∧
   li_login_count (info_of 2 (web_db s')) = 1) ∧ accounts_kept (web_db ex_site) (web_db s').
Proof.
  cbv zeta. split; [vm_compute; by split|].
  apply accounts_never_locked; [apply after_site_calls_reach|apply ex_site_inv|]. intros k. unfold info_of. simpl. by rewrite lookup_empty.
Defined.

Lemma password_round_trip_witness :
  let s := (site_call ex_site_ctx (Login (ex_login "first one" None)) ex_site).1 in
  let s' := (change_password ex_site_ctx ex_password_form s).1 in
  run_ok (change_password ex_site_ctx ex_password_form) s tt s' ∧ ∃ u, site_user ex_site_ctx (web_db s) = Some u ∧
    (login ex_site_ctx (mkLoginForm (Some (ur_email u)) (Some "second one"%string) None) (logout ex_site_ctx s').1).2 = inr ToDashboard.
Proof.
  cbv zeta. set (s := (site_call ex_site_ctx (Login (ex_login "first one" None)) ex_site).1).
  assert (run_ok (change_password ex_site_ctx ex_password_form) s tt (change_password ex_site_ctx ex_password_form s).1) as Hrun
    by (vm_compute; reflexivity).
  split; [exact Hrun|].
  assert (∀ p, sx_check ex_site_ctx (sx_hash ex_site_ctx p) p = true) as Hlaw by (intros p; by apply bool_decide_eq_true).
  destruct (password_round_trip ex_site_ctx ex_password_form s _ Hlaw (site_effect_inv ex_site_ctx _ _ (site_call_effect ex_site_ctx
    (Login (ex_login "first one" None)) ex_site ex_site_inv) ex_site_inv) Hrun) as (u & Hu & _ & Hin & _).
  exists u. split; [exact Hu|]. exact Hin.
Defined.
