(* ===== verification/Clock.v ===== *)
(** Times of Jamaica (app/utils/timezone.py).

    A datetime is a count of microseconds since midnight of the first of January of
    year 1 on its own clock; an aware one carries its offset from UTC.  An operation
    that leaves the years 1 to 9999 raises ([None]).  The clock of the system gives UTC
    and is an argument. *)
From S2P Require Import Prelude.

Definition HOUR : Z := 3600 * 1000000.
Definition DAY : Z := 24 * HOUR.

(** 9999-12-31 is day 3652059. *)
Definition MAX_TIME : Z := 3652059 * DAY.

Definition JAMAICA_OFFSET : Z := -5 * HOUR.

Inductive Stamp : Type :=
  | Date (day : Z)
  | Naive (t : Z)
  | Aware (t offset : Z).

(** A time that a datetime can hold, [None] for [OverflowError]. *)
Definition in_years (t : Z) : option Z := if (0 <=? t) && (t <? MAX_TIME) then Some t else None.

(** [dt.astimezone(tz)] of an aware datetime, by way of UTC. *)
Definition astimezone (t offset target : Z) : option Z := utc ← in_years (t - offset); in_years (utc + target).

Definition now (utc_now : Z) : option Z := astimezone utc_now 0 JAMAICA_OFFSET.

(** The day of a time; day 1 is the first. *)
Definition date_of (t : Z) : Z := t / DAY + 1.

Definition today (utc_now : Z) : option Z := date_of <$> now utc_now.

Definition utc_to_jamaica (dt : option Stamp) : option (option Stamp) :=
  match dt with
  | None => Some None
  | Some (Date d) => Some (Some (Date d))
  | Some (Naive t) => (λ t, Some (Naive t)) <$> astimezone t 0 JAMAICA_OFFSET
  | Some (Aware t offset) =>
      utc ← astimezone t offset 0;
      (λ t, Some (Naive t)) <$> astimezone utc 0 JAMAICA_OFFSET
  end.

Definition to_jamaica_time (dt : option Stamp) : option (option Stamp) := utc_to_jamaica dt.

Definition datetime_to_jamaica (dt : option Stamp) : option (option Stamp) :=
  match dt with None => Some None | Some _ => to_jamaica_time dt end.

(** [dt.replace(hour=0, minute=0, second=0, microsecond=0)]; a date has no hour. *)
Definition at_midnight (dt : Stamp) : option Stamp :=
  match dt with
  | Date _ => None
  | Naive t => Some (Naive (t / DAY * DAY))
  | Aware t offset => Some (Aware (t / DAY * DAY) offset)
  end.

Definition get_date_only (utc_now : Z) (dt : option Stamp) : option Stamp :=
  match dt with
  | None => t ← now utc_now; at_midnight (Naive t)
  | Some _ => dt ← utc_to_jamaica dt; dt ← dt; at_midnight dt
  end.

Definition make_aware (dt : Stamp) : option Stamp :=
  match dt with
  | Date _ => None
  | Naive t => (λ t, Aware t JAMAICA_OFFSET) <$> astimezone t 0 JAMAICA_OFFSET
  | Aware t offset => (λ t, Aware t JAMAICA_OFFSET) <$> astimezone t offset JAMAICA_OFFSET
  end.

(** The filters of the templates (drims_app.py); [strftime] is the text of a stamp. *)
Definition format_datetime {Text : Type} (strftime : Stamp → Text) (empty : Text) (dt : option Stamp) : option Text :=
  match dt with
  | None => Some empty
  | Some (Date d) => Some (strftime (Date d))
  | Some _ => dt ← to_jamaica_time dt; strftime <$> dt
  end.

(** * Instants *)

(** The moment a stamp means, as the module reads a stamp without an offset. *)
Definition instant (dt : Stamp) : option Z :=
  match dt with Date _ => None | Naive t => Some t | Aware t offset => Some (t - offset) end.

(** The stamp is a datetime Python can hold, as UTC and in Jamaica. *)
Definition representable (dt : Stamp) : Prop :=
  match dt with
  | Date _ => True
  | Naive t => 5 * HOUR ≤ t < MAX_TIME
  | Aware t offset => 5 * HOUR ≤ t - offset < MAX_TIME
  end.

Lemma in_years_Some t : 0 ≤ t < MAX_TIME → in_years t = Some t.
Proof. intros Ht. unfold in_years. by rewrite (proj2 (Z.leb_le _ _)), (proj2 (Z.ltb_lt _ _)) by lia. Qed.

Lemma astimezone_Some t o target : 0 ≤ t - o < MAX_TIME → 0 ≤ t - o + target < MAX_TIME →
  astimezone t o target = Some (t - o + target).
Proof. intros H1 H2. unfold astimezone. rewrite in_years_Some by done. simpl. by rewrite in_years_Some. Qed.

(** The Jamaican wall clock of a stamp. *)
Lemma utc_to_jamaica_spec dt : representable dt →
  utc_to_jamaica (Some dt) = Some (Some (match instant dt with Some i => Naive (i - 5 * HOUR) | None => dt end)).
Proof.
  unfold HOUR. destruct dt as [d|t|t o]; simpl; unfold HOUR; intros H; [done| |].
  - rewrite astimezone_Some by (unfold JAMAICA_OFFSET, MAX_TIME, DAY, HOUR in *; lia). simpl. do 3 f_equal.
    unfold JAMAICA_OFFSET, HOUR. lia.
  - rewrite astimezone_Some by (unfold JAMAICA_OFFSET, MAX_TIME, DAY, HOUR in *; lia). simpl.
    rewrite astimezone_Some by (unfold JAMAICA_OFFSET, MAX_TIME, DAY, HOUR in *; lia). simpl. do 3 f_equal.
    unfold JAMAICA_OFFSET, HOUR. lia.
Qed.

Lemma now_spec utc_now : 5 * HOUR ≤ utc_now < MAX_TIME → now utc_now = Some (utc_now - 5 * HOUR).
Proof.
  intros H. unfold now. rewrite astimezone_Some; unfold JAMAICA_OFFSET, MAX_TIME, DAY, HOUR in *; [|lia|lia]. f_equal. lia.
Qed.

(** Stamps with an offset, and stamps without one that hold UTC, are shown at the
    wall-clock time of Jamaica, and midnight of their day there is the last one before.
    The stamps the application stores are not of this kind: they are written by [now],
    which gives the Jamaican time already, so a stored stamp is shown five hours early
    and, in the first five hours of a day, under the day before. *)
Theorem jamaica_times utc_now dt :
  representable dt →
  match instant dt with
  | Some i =>
      (∀ Text (strftime : Stamp → Text) empty,
        format_datetime strftime empty (Some dt) = Some (strftime (Naive (i - 5 * HOUR)))) ∧
      (∃ midnight, get_date_only utc_now (Some dt) = Some (Naive midnight) ∧
        midnight mod DAY = 0 ∧ midnight ≤ i - 5 * HOUR < midnight + DAY) ∧
      (∃ t, make_aware dt = Some (Aware t JAMAICA_OFFSET) ∧ instant (Aware t JAMAICA_OFFSET) = Some i)
  | None => ∀ Text (strftime : Stamp → Text) empty, format_datetime strftime empty (Some dt) = Some (strftime dt)
  end ∧
  (10 * HOUR ≤ utc_now < MAX_TIME → ∃ stored, now utc_now = Some stored ∧
     (∀ Text (strftime : Stamp → Text) empty,
       format_datetime strftime empty (Some (Naive stored)) = Some (strftime (Naive (stored - 5 * HOUR)))) ∧
     (stored mod DAY < 5 * HOUR → date_of (stored - 5 * HOUR) = date_of stored - 1)).
Proof.
  intros Hr. split.
  - destruct (instant dt) as [i|] eqn:Hi; [|by destruct dt].
    pose proof (utc_to_jamaica_spec dt Hr) as Hu. rewrite Hi in Hu. split_and!.
    + intros. unfold format_datetime, to_jamaica_time. destruct dt; try done; by rewrite Hu.
    + unfold get_date_only. rewrite Hu. simpl. eexists. split; [done|].
      split; [by apply Z.mod_mul|]. pose proof (Z.div_mod (i - 5 * HOUR) DAY).
      pose proof (Z.mod_pos_bound (i - 5 * HOUR) DAY). unfold DAY, HOUR in *. lia.
    + destruct dt as [d|t|t o]; simplify_eq/=; eexists;
        (rewrite astimezone_Some by (unfold JAMAICA_OFFSET, MAX_TIME, DAY, HOUR in *; lia));
        (split; [done|]); f_equal; lia.
  - intros Hu. exists (utc_now - 5 * HOUR). rewrite now_spec by (unfold HOUR in *; lia). split; [done|]. split.
    + intros. unfold format_datetime, to_jamaica_time. rewrite utc_to_jamaica_spec; [done|].
      simpl. unfold HOUR in *. lia.
    + intros Hm. unfold date_of. set (s := utc_now - 5 * HOUR) in *.
      pose proof (Z.div_mod s DAY) as Hd. pose proof (Z.mod_pos_bound s DAY) as Hb.
      rewrite <- (Z.div_unique (s - 5 * HOUR) DAY (s / DAY - 1) (s mod DAY + 19 * HOUR)); unfold DAY, HOUR in *; lia.
Qed.

(** The 3rd of December 2025, 07:30 UTC: 02:30 in Jamaica, stored as such and shown as
    21:30 of the day before. *)
Lemma jamaica_times_witness :
  let utc := (739588 - 1) * DAY + 7 * HOUR + HOUR / 2 in
  ∃ stored, now utc = Some stored ∧ today utc = Some 739588 ∧
    format_datetime (λ s, match s with Naive t => date_of t | _ => 0 end) 0 (Some (Naive stored)) = Some 739587.
Proof.
  set (utc := (739588 - 1) * DAY + 7 * HOUR + HOUR / 2).
  destruct (jamaica_times utc (Naive utc)) as [_ H]; [vm_compute; by split|].
  destruct H as (stored & Hs & Hf & Hd); [by vm_compute; split|]. exists stored. split; [exact Hs|].
  assert (stored = utc - 5 * HOUR) as -> by (vm_compute in Hs; by injection Hs).
  split; [vm_compute; reflexivity|]. rewrite Hf. vm_compute. reflexivity.
Defined.
