(* ===== verification/SafeApi.v ===== *)
(** Calls to external services (app/security/safe_api_client.py): the domains that are
    allowed, the retries of a request, the checks of an answer and the cleaning of the
    data it carries.

    The library that sends a request is not part of the repository: how each attempt
    ends is an argument ([ask]), and an answer is the [Response] the checks look at.
    Log messages and the texts of errors are left out.

    What the client of external services promises. *)
From stdpp Require Import strings.
From Stdlib Require Import Ascii String.
From S2P Require Import Prelude PyStr ParamValidation PathSafety LogSafety CatalogueForms UrlSafety.

(** * Domains *)

Definition ALLOWED_EXTERNAL_DOMAINS : list string :=
  ["api.exchangerate.host"; "api.frankfurter.dev"; "api.exchangeratesapi.io"]%string.

(** [netloc.split(':')[0]]. *)
Definition before_colon (l : text) : text := match split_first 58 l with Some (a, _) => a | None => l end.

Definition ends_with (suffix l : text) : bool := bool_decide (suffix `suffix_of` l).

Definition allowed_domain (domain : text) : bool :=
  existsb (λ allowed, bool_decide (domain = chars allowed) || ends_with (chars "." ++ chars allowed) domain)
    ALLOWED_EXTERNAL_DOMAINS.

Section domains.
(** Whether [urlsplit] accepts an authority with brackets; when it does not, the
    exception is caught. *)
Variable bracket_ok : text → bool.

Definition validate_external_domain (url : text) : bool :=
  let netloc := (urlsplit url).2 in
  if bracketed netloc && negb (bracket_ok netloc) then false
  else allowed_domain (before_colon (lower_text netloc)).
End domains.

(** The host a URL names, as [urlsplit(url).hostname] gives it: what follows the last
    [@] of the authority, without the port. *)
Fixpoint after_last_at (acc l : text) : text :=
  match l with [] => acc | c :: l' => after_last_at (if code c =? 64 then l' else acc) l' end.

Definition hostname (url : text) : text :=
  let netloc := (urlsplit url).2 in lower_text (before_colon (after_last_at netloc netloc)).

(** The log shows the URL without its query. *)
Definition sanitized_url (scheme netloc path query : text) : text :=
  scheme ++ chars "://" ++ netloc ++ path ++ (if bool_decide (query = []) then [] else chars "?[params_redacted]").

(** * Requests *)

Inductive ApiError : Type := SafeApiError | ApiTimeoutError | ApiConnectionError | ApiValidationError
  | Uncaught.  (* an exception the client does not handle *)

(** The data of an answer: what [json()] makes of it, or any other object.  A float is
    its 64 bits; a key that is not a string is the number of an object. *)
Inductive Key : Type := KText (t : text) | KOther (n : Z).

#[export] Instance Key_eq_dec : EqDecision Key.
Proof. solve_decision. Defined.

#[local] Unset Elimination Schemes.
Inductive External : Type :=
  | XNone
  | XBool (b : bool)
  | XInt (z : Z)
  | XFloat (bits : Z)
  | XText (t : text)
  | XList (items : list External)
  | XDict (fields : list (Key * External))
  | XObject (n : Z).
#[local] Set Elimination Schemes.

Section External_ind.
Variable P : External → Prop.
Hypothesis P_none : P XNone.
Hypothesis P_bool : ∀ b, P (XBool b).
Hypothesis P_int : ∀ z, P (XInt z).
Hypothesis P_float : ∀ z, P (XFloat z).
Hypothesis P_text : ∀ t, P (XText t).
Hypothesis P_list : ∀ items, Forall P items → P (XList items).
Hypothesis P_dict : ∀ fields, Forall (λ kv, P kv.2) fields → P (XDict fields).
Hypothesis P_object : ∀ n, P (XObject n).

Fixpoint External_ind (x : External) : P x :=
  match x with
  | XNone => P_none
  | XBool b => P_bool b
  | XInt z => P_int z
  | XFloat z => P_float z
  | XText t => P_text t
  | XList items => P_list items ((fix go l : Forall P l :=
      match l with [] => Forall_nil_2 _ | x :: l => Forall_cons_2 _ _ _ (External_ind x) (go l) end) items)
  | XDict fields => P_dict fields ((fix go l : Forall (λ kv, P kv.2) l :=
      match l with [] => Forall_nil_2 _ | kv :: l => Forall_cons_2 _ _ _ (External_ind kv.2) (go l) end) fields)
  | XObject n => P_object n
  end.
End External_ind.

(** What the checks read of a response: [ok], two headers, the length of the content
    and its JSON, [None] where it does not parse. *)
Record Response := mkResponse {
  rp_ok : bool;
  rp_content_type : option text;
  rp_content_length : option text;
  rp_content : Z;
  rp_json : option External;
}.

(** How an attempt ends, by the handler that takes it. *)
Inductive Attempt : Type := Answered (r : Response) | TimedOut | ConnectionFailed | TooManyRedirects
  | RequestFailed | Crashed.

(** What a call does to the world. *)
Inductive Event : Type := Sent (url : text) (timeout : option Z) | Slept (seconds : Z).

Record SafeApiClient := mkClient { cl_base_url : text; cl_timeout : Z; cl_retries : Z }.

(** [base_url.rstrip('/')]. *)
Fixpoint drop_slashes (l : text) : text :=
  match l with [] => [] | c :: l' => if decide (c = slash) then drop_slashes l' else l end.

Definition api_client (base_url : text) (timeout retries : Z) : SafeApiClient :=
  mkClient (reverse (drop_slashes (reverse base_url))) timeout retries.

(** The error an attempt leaves for the end of the loop, when the loop goes on. *)
Definition transient (a : Attempt) : option ApiError :=
  match a with
  | TimedOut => Some ApiTimeoutError
  | ConnectionFailed => Some ApiConnectionError
  | RequestFailed => Some SafeApiError
  | _ => None
  end.

(** What ends the loop. *)
Definition settled (a : Attempt) : ApiError + Response :=
  match a with Answered r => inr r | TooManyRedirects => inl ApiValidationError | _ => inl Uncaught end.

Section request.
Variable bracket_ok : text → bool.
Variable c : SafeApiClient.
Variable ask : nat → Attempt.

(** [for attempt in range(self.retries)], with [todo] attempts left. *)
Fixpoint attempts (url : text) (timeout : option Z) (attempt todo : nat) (last_error : ApiError) : list Event * (ApiError + Response) :=
  match todo with
  | O => ([], inl last_error)
  | S todo' =>
      match transient (ask attempt) with
      | Some e =>
          let '(tr, r) := attempts url timeout (S attempt) todo' e in
          (Sent url timeout :: (if Z.of_nat attempt <? cl_retries c - 1 then [Slept (2 ^ Z.of_nat attempt)] else []) ++ tr, r)
      | None => ([Sent url timeout], settled (ask attempt))
      end
  end.

(** [timeout] is the keyword argument of the call, which may be [None]. *)
Definition make_request (endpoint : text) (timeout : option (option Z)) : list Event * (ApiError + Response) :=
  let url := cl_base_url c ++ endpoint in
  if negb (validate_external_domain bracket_ok url) then ([], inl ApiValidationError)
  else attempts url (default (Some (cl_timeout c)) timeout) 0 (Z.to_nat (cl_retries c)) SafeApiError.
End request.

(** * Answers *)

Definition MAX_RESPONSE_SIZE : Z := 10 * 1024 * 1024.

Definition dict_keys (fields : list (Key * External)) : list Key := fields.*1.

(** [if not b: raise ApiValidationError(...)]. *)
Definition require (b : bool) (k : ApiError + bool) : ApiError + bool := if b then k else inl ApiValidationError.

Definition validate_api_response (response : Response) (required_fields : option (list text)) (max_size : option Z)
    : ApiError + bool :=
  let max_size := default MAX_RESPONSE_SIZE max_size in
  require (rp_ok response) (
  require (has_infix (chars "application/json") (lower_text (default [] (rp_content_type response)))) (
  let check_content :=
    require (negb (max_size <? rp_content response))
      match required_fields with
      | None | Some [] => inr true
      | Some required_fields =>
          match rp_json response with
          | None => inl ApiValidationError
          | Some (XDict fields) =>
              require (bool_decide (filter (λ f, KText f ∉ dict_keys fields) required_fields = [])) (inr true)
          | Some _ => inr true
          end
      end in
  match rp_content_length response with
  | None | Some [] => check_content
  | Some content_length =>
      match py_int (of_chars content_length) with
      | None => inl Uncaught
      | Some n => require (negb (max_size <? n)) check_content
      end
  end)).

(** * Data *)

Definition is_nul (c : ascii) : bool := bool_decide (c = nul).

Definition without_nul (t : text) : text := List.filter (λ c, negb (is_nul c)) t.

Definition MAX_TEXT : Z := 10000.
Definition MAX_ITEMS : Z := 1000.

(** [if allowed_keys and key not in allowed_keys] does not skip. *)
Definition key_allowed (allowed_keys : option (list text)) (key : Key) : bool :=
  match allowed_keys with
  | None | Some [] => true
  | Some ks => bool_decide (key ∈ KText <$> ks)
  end.

(** What [sanitize_external_data] stores for a value; [None] stores nothing.  Of a list
    it reads [value[:1000]], and keeps there what it stores. *)
Fixpoint sanitize_value (value : External) : option External :=
  match value with
  | XText t => Some (XText (py_prefix MAX_TEXT (without_nul t)))
  | XNone | XBool _ | XInt _ | XFloat _ => Some value
  | XDict fields =>
      Some (XDict (omap (λ kv, match kv.1 with KText _ => pair kv.1 <$> sanitize_value kv.2 | KOther _ => None end) fields))
  | XList items =>
      Some (XList (omap id (py_prefix MAX_ITEMS ((λ item,
        match item with
        | XDict _ => sanitize_value item
        | XText t => Some (XText (py_prefix MAX_TEXT t))
        | XNone | XBool _ | XInt _ | XFloat _ => Some item
        | XList _ | XObject _ => None
        end) <$> items))))
  | XObject _ => None
  end.

Definition sanitize_external_data (data : External) (allowed_keys : option (list text)) : list (Key * External) :=
  match data with
  | XDict fields =>
      omap (λ kv, if key_allowed allowed_keys kv.1
                  then match kv.1 with KText _ => pair kv.1 <$> sanitize_value kv.2 | KOther _ => None end
                  else None) fields
  | _ => []
  end.

(** * Retries *)

(** What [k] requests for a URL leave when [i] were made before: the [n]-th one is
    followed by a sleep of [2 ^ n] seconds, counted from zero, but for the last. *)
Definition tries_from (url : text) (timeout : option Z) (i k : nat) : list Event :=
  match k with
  | O => []
  | S m => Sent url timeout :: mjoin ((λ n, [Slept (2 ^ Z.of_nat n); Sent url timeout]) <$> seq i m)
  end.

Definition tries (url : text) (timeout : option Z) (k : nat) : list Event := tries_from url timeout 0 k.

Section retries.
Variable c : SafeApiClient.
Variable ask : nat → Attempt.

Definition transient_from (i n : nat) : Prop := ∀ j, (i ≤ j < n)%nat → is_Some (transient (ask j)).

Lemma transient_from_S i n e : transient (ask i) = Some e → transient_from (S i) n → transient_from i n.
Proof. intros Hi H j Hj. destruct (decide (j = i)) as [->|]; [by eexists|apply H; lia]. Qed.

(** The loop from an attempt on: it stops at the first attempt that is not transient,
    or after the last one with the error of that one. *)
Lemma attempts_spec url timeout todo i e tr r :
  attempts c ask url timeout i todo e = (tr, r) → (0 < todo → Z.of_nat (i + todo) = cl_retries c)%nat →
  (∃ j, (i ≤ j < i + todo)%nat ∧ transient_from i j ∧ transient (ask j) = None ∧ r = settled (ask j) ∧
      tr = tries_from url timeout i (j - i + 1)) ∨
  (transient_from i (i + todo) ∧ tr = tries_from url timeout i todo ∧
    r = inl (match todo with O => e | S m => default e (transient (ask (i + m))) end)).
Proof.
  revert i e tr r. induction todo as [|todo IH]; intros i e tr r; simpl.
  { intros [= <- <-] _. right. split; [intros j Hj; lia|done]. }
  destruct (transient (ask i)) as [e'|] eqn:Hi; [|intros [= <- <-] _].
  2:{ left. exists i. rewrite Nat.sub_diag. split_and!; [lia|lia|intros j Hj; lia|done..]. }
  destruct (attempts c ask url timeout (S i) todo e') as [tr' r'] eqn:Hrec. intros [= <- <-] Hn.
  destruct (IH _ _ _ _ Hrec ltac:(lia)) as [(j & Hj & Hf & Hnone & Hr & ->)|(Hf & -> & Hr)].
  - rewrite (proj2 (Z.ltb_lt _ _)) by lia. left. exists j. split_and!; [lia|lia|by eapply transient_from_S|done|done|].
    replace (j - i + 1)%nat with (S (S (j - S i))) by lia. replace (j - S i + 1)%nat with (S (j - S i)) by lia. done.
  - right. destruct todo as [|m].
    + rewrite (proj2 (Z.ltb_ge _ _)), Hr, Nat.add_0_r, Hi by lia.
      split_and!; [|done|done]. intros j Hj. replace j with i by lia. by eexists.
    + rewrite (proj2 (Z.ltb_lt _ _)) by lia. replace (i + S (S m))%nat with (S i + S m)%nat by lia.
      replace (i + S m)%nat with (S i + m)%nat by lia. split_and!; [by eapply transient_from_S|done|].
      rewrite Hr. destruct (Hf (S i + m)%nat) as [? ->]; [lia|done].
Qed.
End retries.

(** * Domains *)

(** A host of the list, or below one. *)
Definition listed (host : text) : Prop :=
  ∃ d, d ∈ ALLOWED_EXTERNAL_DOMAINS ∧ (host = chars d ∨ suffix (chars "." ++ chars d) host).

Lemma allowed_domain_listed d : allowed_domain d = true ↔ listed d.
Proof.
  unfold allowed_domain, listed, ends_with. rewrite existsb_exists.
  setoid_rewrite orb_true_iff. setoid_rewrite bool_decide_eq_true. by setoid_rewrite list_elem_of_In.
Qed.

(** A host that is written without the delimiters of a URL. *)
Definition plain_host (h : text) : bool :=
  forallb (λ c, negb (bool_decide (code c ∈ [9; 10; 13; 35; 47; 58; 63; 64; 91; 93]))) h.

Lemma plain_tac c h : plain_host (c :: h) = true → ¬ (code c ∈ [9; 10; 13; 35; 47; 58; 63; 64; 91; 93]) ∧ plain_host h = true.
Proof. simpl. by rewrite andb_true_iff, negb_true_iff, bool_decide_eq_false. Qed.

Lemma plain_breaks h : plain_host h = true → List.filter (λ c, negb (url_break c)) h = h.
Proof.
  induction h as [|c h IH]; [done|]. intros [Hc Hh]%plain_tac. simpl. unfold url_break at 1.
  rewrite bool_decide_eq_false_2 by set_solver. simpl. by rewrite IH.
Qed.

Lemma plain_delimiter h : plain_host h = true → until_delimiter h = h.
Proof.
  induction h as [|c h IH]; [done|]. intros [Hc Hh]%plain_tac. simpl.
  rewrite bool_decide_eq_false_2 by set_solver. by rewrite IH.
Qed.

Lemma plain_at acc h : plain_host h = true → after_last_at acc h = acc.
Proof.
  induction h as [|c h IH]; [done|]. intros [Hc Hh]%plain_tac. simpl.
  destruct (code c =? 64) eqn:H64; [apply Z.eqb_eq in H64; set_solver|]. by apply IH.
Qed.

Lemma plain_colon h : plain_host h = true → before_colon h = h.
Proof.
  unfold before_colon. intros Hh. destruct (split_first 58 h) as [[a b]|] eqn:Hs; [|done]. exfalso. revert a b Hs.
  induction h as [|c h IH]; intros a b; [done|]. apply plain_tac in Hh as [Hc Hh]. simpl.
  destruct (code c =? 58) eqn:H58; [apply Z.eqb_eq in H58; set_solver|].
  destruct (split_first 58 h) as [[a' b']|]; [|done]. intros _. by eapply IH.
Qed.

Lemma plain_bracket h : plain_host h = true → bracketed h = false.
Proof.
  induction h as [|c h IH]; [done|]. intros [Hc Hh]%plain_tac. simpl.
  rewrite bool_decide_eq_false_2 by set_solver. by apply IH.
Qed.

Lemma lower_code c : (code (lower_char c) =? 58) = (code c =? 58).
Proof. destruct c as [[] [] [] [] [] [] [] []]; vm_compute; reflexivity. Qed.

Lemma lower_split h : split_first 58 (lower_text h) = prod_map lower_text lower_text <$> split_first 58 h.
Proof.
  unfold lower_text. induction h as [|c h IH]; [done|]. rewrite fmap_cons. simpl. rewrite lower_code, IH.
  destruct (code c =? 58); [done|]. by destruct (split_first 58 h) as [[]|].
Qed.

Lemma lower_colon h : before_colon (lower_text h) = lower_text (before_colon h).
Proof. unfold before_colon. rewrite lower_split. by destruct (split_first 58 h) as [[]|]. Qed.

Definition without_at (netloc : text) : bool := forallb (λ c, negb (code c =? 64)) netloc.

Lemma no_at acc h : without_at h = true → after_last_at acc h = acc.
Proof.
  induction h as [|c h IH]; [done|]. simpl. rewrite andb_true_iff, negb_true_iff. intros [-> Hh]. by apply IH.
Qed.

(** The check and the host agree where the authority has no user part. *)
Lemma validated_host bracket_ok url :
  without_at (urlsplit url).2 = true → bracketed (urlsplit url).2 = false →
  validate_external_domain bracket_ok url = true ↔ listed (hostname url).
Proof.
  intros Hat Hb. unfold validate_external_domain, hostname. rewrite Hb. simpl.
  by rewrite no_at, lower_colon, allowed_domain_listed.
Qed.



(** C37: The allow-list holds for the host of a URL whose authority has no user part; a user
    part is taken for the host, so that a URL of any host whatever passes. *)
Theorem domain_allowlist bracket_ok url host :
  (without_at (urlsplit url).2 = true → bracketed (urlsplit url).2 = false →
   (validate_external_domain bracket_ok url = true ↔ listed (hostname url))) ∧
  (plain_host host = true →
   let forged := chars "https://api.frankfurter.dev:x@" ++ host in
   validate_external_domain bracket_ok forged = true ∧ hostname forged = lower_text host).
Proof.
  split; [by apply validated_host|].
  - intros Hh forged. assert (urlsplit forged = (Some (chars "https"), chars "api.frankfurter.dev:x@" ++ host)) as Hs.
    { subst forged. unfold urlsplit, url_text. simpl. unfold url_break at 1. rewrite plain_breaks by done.
      by rewrite plain_delimiter. }
    unfold validate_external_domain, hostname. rewrite Hs. cbn [snd]. split.
    + assert (bracketed (chars "api.frankfurter.dev:x@" ++ host) = false) as -> by (simpl; by apply plain_bracket).
      rewrite lower_colon. reflexivity.
    + simpl. by rewrite plain_at, plain_colon.
Qed.

Lemma domain_allowlist_witness :
  validate_external_domain (λ _, true) (chars "https://API.frankfurter.dev:443/v1") = true ∧
  listed (hostname (chars "https://API.frankfurter.dev:443/v1")) ∧
  validate_external_domain (λ _, true) (chars "https://api.frankfurter.dev:x@evil.example") = true ∧
  hostname (chars "https://api.frankfurter.dev:x@evil.example") = chars "evil.example".
Proof.
  destruct (domain_allowlist (λ _, true) (chars "https://API.frankfurter.dev:443/v1") (chars "evil.example")) as [H1 H2].
  split; [vm_compute; reflexivity|]. split; [apply H1; vm_compute; reflexivity|]. apply H2. vm_compute. reflexivity.
Defined.


(** * Answers *)

Lemma require_ok b k : require b k = inr true ↔ b = true ∧ k = inr true.
Proof. destruct b; simpl; naive_solver. Qed.

(** The fields of a JSON object that is asked for some are all there; an answer that is
    no object is not asked. *)
Definition has_fields (required_fields : list text) (json : option External) : Prop :=
  required_fields = [] ∨
  ∃ data, json = Some data ∧ ∀ fields, data = XDict fields → ∀ f, f ∈ required_fields → KText f ∈ fields.*1.

(** A length that is given is a number within the limit. *)
Definition length_ok (content_length : option text) (max_size : Z) : Prop :=
  ∀ l, content_length = Some l → l ≠ [] → ∃ n, py_int (of_chars l) = Some n ∧ n ≤ max_size.

(** A validation ends with [True] for exactly the answers that pass every check. *)
Lemma validate_api_response_ok response required_fields max_size :
  let limit := default MAX_RESPONSE_SIZE max_size in
  validate_api_response response required_fields max_size = inr true ↔
  rp_ok response = true ∧
  has_infix (chars "application/json") (lower_text (default [] (rp_content_type response))) = true ∧
  length_ok (rp_content_length response) limit ∧ rp_content response ≤ limit ∧
  has_fields (default [] required_fields) (rp_json response).
Proof.
  intros limit. unfold validate_api_response. fold limit. rewrite !require_ok. apply and_iff_compat_l, and_iff_compat_l.
  set (check := require _ (match required_fields with _ => _ end)).
  assert (check = inr true ↔ rp_content response ≤ limit ∧ has_fields (default [] required_fields) (rp_json response)) as Hc.
  { subst check. rewrite require_ok, negb_true_iff, Z.ltb_ge. apply and_iff_compat_l. unfold has_fields.
    destruct required_fields as [[|f fs]|]; simpl; [by split; [left|]| |by split; [left|]].
    destruct (rp_json response) as [x|]; [|by split; [done|intros [?|(? & ? & _)]]].
    destruct x; try (split; [intros _; right; eexists; split; [done|intros ?; discriminate]|done]).
    rewrite require_ok, bool_decide_eq_true. split.
    - intros [Hf _]. right. eexists. split; [done|]. intros ? [= <-] g Hg.
      destruct (decide (KText g ∈ fields.*1)) as [|Hn]; [done|]. exfalso. apply (not_elem_of_nil g). rewrite <- Hf.
      by apply list_elem_of_filter.
    - intros [?|(? & [= <-] & Hall)]; [done|]. split; [|done]. apply elem_of_nil_inv. intros g Hg.
      apply list_elem_of_filter in Hg as [Hn Hg]. exact (Hn (Hall _ eq_refl g Hg)). }
  unfold length_ok. destruct (rp_content_length response) as [[|a l]|]; rewrite ?Hc.
  - split; [intros [? ?]; split_and!; [by intros ? [= <-]|done|done]|tauto].
  - destruct (py_int (of_chars (a :: l))) as [n|] eqn:Hn.
    + rewrite require_ok, negb_true_iff, Z.ltb_ge, Hc. split.
      * intros (? & ? & ?). split_and!; [intros ? [= <-] _; by exists n|done|done].
      * intros (Hl & ? & ?). split; [|done]. destruct (Hl _ eq_refl) as (m & Hm & ?); [done|]. congruence.
    + split; [done|]. intros (Hl & _). destruct (Hl _ eq_refl) as (m & Hm & ?); [done|]. congruence.
  - split; [intros [? ?]; split_and!; [done|done|done]|tauto].
Qed.

(** * Data *)

(** Data as the cleaning leaves it: the texts of a dictionary have no NUL, every text is
    cut, lists are short and hold no lists, every key is a text, and nothing is an
    object of another kind. *)
Definition short {A} (n : Z) (l : list A) : bool := Z.of_nat (length l) <=? n.

Definition text_key (k : Key) : bool := match k with KText _ => true | KOther _ => false end.

Fixpoint clean (x : External) : bool :=
  match x with
  | XNone | XBool _ | XInt _ | XFloat _ => true
  | XText t => bool_decide (nul ∉ t) && short MAX_TEXT t
  | XList items => short MAX_ITEMS items && forallb (λ item,
      match item with XText t => short MAX_TEXT t | XList _ | XObject _ => false | _ => clean item end) items
  | XDict fields => forallb (λ kv, text_key kv.1 && clean kv.2) fields
  | XObject _ => false
  end.

Lemma prefix_short {A} n (l : list A) : 0 ≤ n → short n (py_prefix n l) = true.
Proof. intros Hn. apply Z.leb_le. unfold py_prefix. rewrite length_take. case_match; lia. Qed.

Lemma prefix_of_short {A} n (l : list A) : short n l = true → py_prefix n l = l.
Proof. intros Hn%Z.leb_le. unfold py_prefix. rewrite take_ge; [done|]. case_match; lia. Qed.

Lemma without_nul_elem t c : c ∈ without_nul t ↔ c ∈ t ∧ c ≠ nul.
Proof.
  unfold without_nul, is_nul. rewrite !list_elem_of_In, filter_In, negb_true_iff, bool_decide_eq_false. done.
Qed.

Lemma without_nul_id t : ¬ (nul ∈ t) → without_nul t = t.
Proof.
  induction t as [|c t IH]; [done|]. rewrite not_elem_of_cons. intros [Hc Ht]. simpl. unfold is_nul at 1.
  rewrite bool_decide_eq_false_2 by done. simpl. by rewrite IH.
Qed.

Lemma prefix_sublist {A} n (l : list A) : py_prefix n l `sublist_of` l.
Proof. unfold py_prefix. apply sublist_take. Qed.

Lemma cleaned_text t : clean (XText (py_prefix MAX_TEXT (without_nul t))) = true.
Proof.
  simpl. rewrite prefix_short, andb_true_r by done. apply bool_decide_eq_true. intros Hin.
  eapply elem_of_sublist in Hin; [|apply prefix_sublist]. by apply without_nul_elem in Hin as [_ ?].
Qed.

Lemma forallb_omap {A B} (f : A → option B) (p : B → bool) l :
  Forall (λ x, ∀ y, f x = Some y → p y = true) l → forallb p (omap f l) = true.
Proof.
  induction 1 as [|x l Hx _ IH]; [done|]. simpl. destruct (f x) as [y|]; [|done]. simpl. by rewrite (Hx y).
Qed.

Lemma omap_id_on {A} (f : A → option A) l : Forall (λ x, f x = Some x) l → omap f l = l.
Proof. induction 1 as [|x l Hx _ IH]; [done|]. simpl. rewrite Hx. by f_equal. Qed.

Lemma omap_length {A B} (f : A → option B) l : (length (omap f l) ≤ length l)%nat.
Proof. induction l as [|x l IH]; [done|]. csimpl. destruct (f x); csimpl; lia. Qed.

Lemma Forall_prefix {A} (P : A → Prop) n l : Forall P l → Forall P (py_prefix n l).
Proof. apply Forall_take. Qed.

Lemma omap_somes {A} (l : list A) : omap id (Some <$> l) = l.
Proof. induction l as [|x l IH]; [done|]. simpl. by f_equal. Qed.

(** What is stored is clean, and clean data is stored as it is. *)
Lemma sanitize_value_clean x y : sanitize_value x = Some y → clean y = true.
Proof.
  revert y. induction x as [| | | |t|items IH|fields IH|n] using External_ind; intros y; simpl.
  1-4: by intros [= <-].
  - intros [= <-]. apply cleaned_text.
  - intros [= <-]. simpl. apply andb_true_iff. split.
    + eapply Z.leb_le, Z.le_trans; [apply inj_le, omap_length|]. by apply Z.leb_le, prefix_short.
    + apply forallb_omap, Forall_prefix, Forall_fmap. eapply Forall_impl; [exact IH|]. intros x Hx w.
      unfold id. simpl. destruct x; try (by intros [= <-]).
      * intros [= <-]. by apply prefix_short.
      * intros [= <-]. by apply (Hx _ eq_refl).
  - intros [= <-]. simpl. apply forallb_omap. eapply Forall_impl; [exact IH|]. intros [k v] Hv y'. simpl in *.
    destruct k; [|done]. destruct (sanitize_value v) as [w|] eqn:Hw; [|done]. intros [= <-]. simpl. by apply Hv.
  - done.
Qed.

Lemma sanitize_value_id x : clean x = true → sanitize_value x = Some x.
Proof.
  induction x as [| | | |t|items IH|fields IH|n] using External_ind; simpl; try done.
  - rewrite andb_true_iff, bool_decide_eq_true. intros [Hn Hs]. by rewrite without_nul_id, prefix_of_short.
  - rewrite andb_true_iff, forallb_elem. intros [Hs Hall]. do 2 f_equal. rewrite <- (omap_somes items) at 2. f_equal.
    transitivity (py_prefix MAX_ITEMS (Some <$> items)).
    + f_equal. apply Forall_fmap_ext_1, Forall_forall. intros x Hx. pose proof (Hall x Hx) as Hc. simpl in Hc.
      destruct x; try done; [by rewrite prefix_of_short|]. by apply (proj1 (Forall_forall _ _) IH).
    + apply prefix_of_short. unfold short. by rewrite length_fmap.
  - rewrite forallb_elem. intros Hall. do 2 f_equal. apply omap_id_on, Forall_forall. intros [k v] Hkv.
    pose proof (Hall _ Hkv) as [Hk Hc]%andb_prop. destruct k; [|done]. simpl.
    pose proof (proj1 (Forall_forall _ _) IH _ Hkv) as Hv. simpl in Hv. by rewrite Hv.
Qed.

(** Cleaning data from outside leaves a dictionary of clean values under some of its
    own keys, in their order, all of them text and allowed; cleaning it once more
    changes nothing, and data that is clean passes unchanged. *)
Theorem external_data_clean data allowed_keys :
  let result := sanitize_external_data data allowed_keys in
  clean (XDict result) = true ∧
  sanitize_external_data (XDict result) allowed_keys = result ∧
  match data with XDict fields => result.*1 `sublist_of` fields.*1 | _ => result = [] end ∧
  (∀ k, k ∈ result.*1 → key_allowed allowed_keys k = true) ∧
  (clean data = true → allowed_keys = None → ∀ fields, data = XDict fields → result = fields).
Proof.
  destruct data as [| | | | | |fields|]; simpl; try (by split_and!; [..|intros ? ?%not_elem_of_nil|]).
  set (keep := λ kv : Key * External, if key_allowed allowed_keys kv.1 then _ else _). split_and!.
  - apply forallb_omap, Forall_forall. intros [k v] _ y. subst keep. simpl.
    destruct (key_allowed allowed_keys k), k; try done. destruct (sanitize_value v) eqn:Hv; [|done].
    intros [= <-]. simpl. by eapply sanitize_value_clean.
  - apply omap_id_on, Forall_forall. intros [k w] ([k' v] & _ & Hkv)%list_elem_of_omap. subst keep. simpl in *.
    destruct (key_allowed allowed_keys k') eqn:Ha, k'; try done. destruct (sanitize_value v) eqn:Hv; [|done].
    injection Hkv as <- <-. rewrite Ha. by erewrite sanitize_value_id; [|eapply sanitize_value_clean].
  - assert (∀ kv kw, keep kv = Some kw → kw.1 = kv.1) as Hkeep.
    { intros [k v] kw. subst keep. simpl. destruct (key_allowed allowed_keys k), k; try done.
      destruct (sanitize_value v); simpl; [|done]. by intros [= <-]. }
    clearbody keep. induction fields as [|kv fields IH]; [done|]. csimpl. destruct (keep kv) as [kw|] eqn:Hk; csimpl.
    + rewrite (Hkeep _ _ Hk). by constructor.
    + by constructor.
  - intros ? (kw & -> & Hin)%list_elem_of_fmap. apply list_elem_of_omap in Hin as ([k v] & _ & Hkv).
    subst keep. simpl in *.
    destruct (key_allowed allowed_keys k) eqn:Ha; [|done]. destruct k; [|done].
    destruct (sanitize_value v); simplify_eq/=. done.
  - intros Hc -> f [= <-]. apply omap_id_on, Forall_forall. intros [k v] Hkv. subst keep. simpl.
    rewrite forallb_elem in Hc. apply Hc in Hkv as [Hk Hv]%andb_prop. destruct k; [|done]. simpl in *.
    by rewrite sanitize_value_id.
Qed.
