(* ===== verification/OriginCheck.v ===== *)
(** The check of Origin and Referer before a request that changes something
    (app/security/csrf_validation.py).

    A header that is missing is [None]; the check takes an empty one for missing. *)
From stdpp Require Import strings.
From Stdlib Require Import Ascii String.
From S2P Require Import Prelude PyStr ParamValidation PathSafety LogSafety CatalogueForms UrlSafety.

(** What the check reads of the request and of the configuration. *)
Record OriginRequest := mkOriginRequest {
  or_method : string;
  or_endpoint : option text;
  or_scheme : text;
  or_host : text;
  or_forwarded_proto : option text;
  or_forwarded_host : option text;
  or_origin : option text;
  or_referer : option text;
}.

Record OriginConfig := mkOriginConfig {
  CSRF_TRUST_PROXY_HEADERS : bool;
  SERVER_NAME : option text;
  PREFERRED_URL_SCHEME : text;
  CSRF_TRUSTED_ORIGINS : list text;
}.

(** The handler lets the request through, ends it with 403, or raises. *)
Inductive Verdict : Type := Pass | Forbidden | Failed.

Definition UNSAFE_METHODS : list string := ["POST"; "PUT"; "PATCH"; "DELETE"]%string.

(** [f"{scheme}://{netloc}"]. *)
Definition origin_text (scheme netloc : text) : text := scheme ++ chars "://" ++ netloc.

Definition allowed_origins (cfg : OriginConfig) (rq : OriginRequest) : list text :=
  (if CSRF_TRUST_PROXY_HEADERS cfg
   then origin_text (default (or_scheme rq) (or_forwarded_proto rq)) (default (or_host rq) (or_forwarded_host rq))
   else origin_text (or_scheme rq) (or_host rq)) ::
  origin_text (chars "http") (or_host rq) :: origin_text (chars "https") (or_host rq) ::
  match SERVER_NAME cfg with
  | None | Some [] => []
  | Some server_name => [origin_text (PREFERRED_URL_SCHEME cfg) server_name]
  end ++ CSRF_TRUSTED_ORIGINS cfg.

(** The origin of a URL as the check reads it. *)
Definition url_origin (url : text) : text := let '(s, n) := urlsplit url in origin_text (default [] s) n.

Definition header_value (header : option text) : option text := match header with Some [] => None | _ => header end.

Section check.
(** Whether [urlparse] accepts an authority with brackets; it raises when it does not. *)
Variable bracket_ok : text → bool.

Definition check_url (allowed : list text) (url : text) : Verdict :=
  let netloc := (urlsplit url).2 in
  if bracketed netloc && negb (bracket_ok netloc) then Failed
  else if bool_decide (url_origin url ∈ allowed) then Pass else Forbidden.

Definition validate_origin_referer (cfg : OriginConfig) (rq : OriginRequest) : Verdict :=
  if negb (bool_decide (or_method rq ∈ UNSAFE_METHODS)) then Pass
  else
    match header_value (or_origin rq) with
    | Some origin => check_url (allowed_origins cfg rq) origin
    | None =>
        match header_value (or_referer rq) with
        | Some referer => check_url (allowed_origins cfg rq) referer
        | None => Pass
        end
    end.

Definition check_origin_referer (cfg : OriginConfig) (rq : OriginRequest) : Verdict :=
  match or_endpoint rq with
  | Some endpoint => if starts_with (chars "static") endpoint then Pass else validate_origin_referer cfg rq
  | None => validate_origin_referer cfg rq
  end.
End check.

(** * What the check promises *)

(** The header that says where a request comes from. *)
Definition source (rq : OriginRequest) : option text :=
  match header_value (or_origin rq) with Some o => Some o | None => header_value (or_referer rq) end.

(** The server serves itself: no proxy is trusted and no other site is configured. *)
Definition own_site (cfg : OriginConfig) : Prop :=
  CSRF_TRUST_PROXY_HEADERS cfg = false ∧ header_value (SERVER_NAME cfg) = None ∧ CSRF_TRUSTED_ORIGINS cfg = [].

Lemma scheme_no_colon c : scheme_char c = true → (code c =? 58) = false.
Proof. destruct c as [[] [] [] [] [] [] [] []]; vm_compute; congruence. Qed.

Lemma split_at_colon (a r : text) : forallb scheme_char a = true → split_first 58 (a ++ ":"%char :: r) = Some (a, r).
Proof.
  induction a as [|c a IH]; [done|]. simpl. rewrite andb_true_iff. intros [Hc Ha]. by rewrite (IH Ha), scheme_no_colon.
Qed.

Lemma origin_text_inj s s' n n' : forallb scheme_char s = true → forallb scheme_char s' = true →
  origin_text s n = origin_text s' n' → s = s' ∧ n = n'.
Proof.
  intros Hs Hs' H. apply (f_equal (split_first 58)) in H. unfold origin_text in H. change (chars "://") with (":"%char :: chars "//") in H.
  cbn [app] in H. rewrite !split_at_colon in H by done. by simplify_eq/=.
Qed.

Lemma scheme_char_lower c : scheme_char (lower_char c) = scheme_char c.
Proof. destruct c as [[] [] [] [] [] [] [] []]; vm_compute; reflexivity. Qed.

Lemma scheme_chars_lower w : forallb scheme_char (lower_text w) = forallb scheme_char w.
Proof. unfold lower_text. induction w as [|c w IH]; [done|]. csimpl. by rewrite scheme_char_lower, IH. Qed.

Lemma scheme_chars l s rest : split_scheme l = (s, rest) → forallb scheme_char (default [] s) = true.
Proof.
  unfold split_scheme. destruct (split_first 58 l) as [[[|c w] r]|]; [by intros [= <- <-]| |by intros [= <- <-]].
  destruct (is_letter c && forallb scheme_char w) eqn:Hw; intros [= <- <-]; [|done].
  apply andb_prop in Hw as [Hc Hw]. change (forallb scheme_char (lower_text (c :: w)) = true).
  rewrite scheme_chars_lower. simpl. rewrite Hw. unfold scheme_char. by rewrite Hc.
Qed.

Lemma url_scheme_chars url : forallb scheme_char (default [] (urlsplit url).1) = true.
Proof. unfold urlsplit. destruct (split_scheme (url_text url)) as [s r] eqn:Hs. simpl. by eapply scheme_chars. Qed.

Section theorems.
Variable bracket_ok : text → bool.
Variables (cfg : OriginConfig) (rq : OriginRequest).

Lemma check_url_pass allowed url :
  check_url bracket_ok allowed url = Pass ↔
  (bracketed (urlsplit url).2 = true → bracket_ok (urlsplit url).2 = true) ∧ url_origin url ∈ allowed.
Proof.
  unfold check_url. destruct (bracketed _), (bracket_ok _); simpl; try (case_bool_decide; naive_solver). naive_solver.
Qed.

(** C38: A request that changes something and says where it comes from is let through only
    from an allowed origin, compared whole.  Where the server serves only itself that
    means from its own host and port, over the scheme of the request, HTTP or HTTPS.
    Requests that change nothing, and those without both headers, always pass. *)
Theorem cross_site_refused :
  starts_with (chars "static") (default [] (or_endpoint rq)) = false →
  (or_method rq ∉ UNSAFE_METHODS ∨ source rq = None → check_origin_referer bracket_ok cfg rq = Pass) ∧
  ∀ url, or_method rq ∈ UNSAFE_METHODS → source rq = Some url →
    (check_origin_referer bracket_ok cfg rq = Pass ↔ check_url bracket_ok (allowed_origins cfg rq) url = Pass) ∧
    (check_origin_referer bracket_ok cfg rq = Pass → own_site cfg → forallb scheme_char (or_scheme rq) = true →
     ∃ scheme, scheme ∈ [or_scheme rq; chars "http"; chars "https"] ∧
       (default [] (urlsplit url).1, (urlsplit url).2) = (scheme, or_host rq)).
Proof.
  intros Hst.
  assert (check_origin_referer bracket_ok cfg rq = validate_origin_referer bracket_ok cfg rq) as ->.
  { unfold check_origin_referer. destruct (or_endpoint rq) as [e|]; [|done]. change (starts_with (chars "static") e = false) in Hst. by rewrite Hst. }
  assert (or_method rq ∈ UNSAFE_METHODS → ∀ url, source rq = Some url →
    validate_origin_referer bracket_ok cfg rq = check_url bracket_ok (allowed_origins cfg rq) url) as Hv.
  { intros Hm url. unfold validate_origin_referer, source. rewrite bool_decide_eq_true_2 by done. simpl.
    destruct (header_value (or_origin rq)); [by intros [= ->]|]. by intros ->. }
  split.
  - unfold validate_origin_referer, source. case_bool_decide as Hm; [|done]. simpl. intros [|Hs]; [done|].
    destruct (header_value (or_origin rq)); [done|]. by rewrite Hs.
  - intros url Hm Hs. rewrite (Hv Hm url Hs). split; [done|].
    intros [_ Hin]%check_url_pass (Hp & Hsn & Htr) Hrs. unfold allowed_origins in Hin. rewrite Hp, Htr in Hin.
    assert (∃ scheme, scheme ∈ [or_scheme rq; chars "http"; chars "https"] ∧ url_origin url = origin_text scheme (or_host rq))
      as (sch & Hsch & Heq).
    { rewrite !elem_of_cons in Hin. setoid_rewrite elem_of_cons. setoid_rewrite elem_of_cons.
      destruct Hin as [?|[?|[?|Hin]]]; [eexists; split; [|done]; set_solver..|].
      exfalso. destruct (SERVER_NAME cfg) as [[|]|]; simpl in *; set_solver. }
    exists sch. split; [done|]. pose proof (url_scheme_chars url) as Hu. unfold url_origin in Heq.
    destruct (urlsplit url) as [s n]. simpl in *. apply origin_text_inj in Heq as [-> ->]; [done|done|].
    rewrite !elem_of_cons in Hsch. destruct Hsch as [->|[->|[->|[]%not_elem_of_nil]]]; done.
Qed.
End theorems.

Lemma cross_site_refused_witness :
  let cfg := mkOriginConfig false None (chars "https") [] in
  let rq url := mkOriginRequest "POST" (Some (chars "users.create")) (chars "http") (chars "dmis.gov.jm")
    None None (Some (chars url)) None in
  check_origin_referer (λ _, true) cfg (rq "https://dmis.gov.jm.evil.example"%string) = Forbidden ∧
  (default [] (urlsplit (chars "https://dmis.gov.jm")).1, (urlsplit (chars "https://dmis.gov.jm")).2) =
    (chars "https", chars "dmis.gov.jm").
Proof.
  split; [vm_compute; reflexivity|].
  set (cfg := mkOriginConfig false None (chars "https") []).
  set (rq := mkOriginRequest "POST" (Some (chars "users.create")) (chars "http") (chars "dmis.gov.jm")
    None None (Some (chars "https://dmis.gov.jm")) None).
  destruct (cross_site_refused (λ _, true) cfg rq eq_refl) as [_ H].
  destruct (H (chars "https://dmis.gov.jm") ltac:(by left) eq_refl) as [_ H2].
  destruct (H2 eq_refl) as (s & _ & Heq); [split_and!; reflexivity|reflexivity|].
  rewrite Heq. f_equal. by injection Heq.
Defined.
