(* ===== verification/Currency.v ===== *)
(** Exchange rates (app/services/currency_service.py): the stored rates, the lookup of
    the rate of a day and the conversion to Jamaican dollars.

    The table is a map from code and date to a row; the constraints of its columns are
    those of the database dump (backups/pre_lastmile_2025_12_22.sql).  Dates are day
    numbers.  A decimal is finite; [None] where [Decimal(str(amount))] does not parse.
    Database errors other than the constraints and the log are left out, and no other
    change is pending in the session when a rate is stored.

    What the stored exchange rates promise: the rows stay within their constraints, a
    rate that was stored is the one that is read, and a conversion is exact up to 28
    digits. *)
From stdpp Require Import strings gmap.
From Stdlib Require Import String.
From S2P Require Import Prelude PyStr ParamValidation Columns Catalogue.

(** * decimal *)

(** [coef * 10 ^ expo]. *)
Record Dec := mkDec { coef : Z; expo : Z }.

Definition PRECISION : Z := 28.

(** The decimal digits of a number, at most [fuel]. *)
Fixpoint digits (fuel : nat) (n : Z) : Z :=
  match fuel with O => 0 | S fuel' => if n =? 0 then 0 else 1 + digits fuel' (n / 10) end.

Definition digit_length (n : Z) : Z := digits (Z.to_nat (Z.log2 n) + 1) n.

(** [n / m] to the nearest, halves to the even one, for [0 ≤ n]. *)
Definition half_even (n m : Z) : Z :=
  let q := n / m in let r := n mod m in
  if (2 * r <? m) || ((2 * r =? m) && Z.even q) then q else q + 1.

(** A product in the default context: 28 digits, half to even. *)
Definition to_precision (d : Dec) : Dec :=
  let drop := digit_length (Z.abs (coef d)) - PRECISION in
  if drop <=? 0 then d
  else
    let q := half_even (Z.abs (coef d)) (10 ^ drop) in
    if q =? 10 ^ PRECISION then mkDec (Z.sgn (coef d) * 10 ^ (PRECISION - 1)) (expo d + drop + 1)
    else mkDec (Z.sgn (coef d) * q) (expo d + drop).

Definition dec_mul (a b : Dec) : Dec := to_precision (mkDec (coef a * coef b) (expo a + expo b)).

(** * The table *)

Definition SCALE : Z := 8.

Record CurrencyRate := mkCurrencyRate {
  cr_rate_to_jmd : Z;        (* in units of the eighth decimal *)
  cr_source : string;
  cr_create_dtime : Z;
}.

Abbreviation Rates := (gmap (string * Z) CurrencyRate).

(** A number stored in a numeric column with eight decimals, halves away from zero. *)
Definition rate_units (d : Dec) : Z :=
  let k := expo d + SCALE in
  if 0 <=? k then coef d * 10 ^ k
  else let m := 10 ^ (- k) in Z.sgn (coef d) * ((2 * Z.abs (coef d) + m) / (2 * m)).

Section service.
Context {L : Locale}.

Definition rate_row_ok (currency_code : string) (row : CurrencyRate) : bool :=
  varchar 3 currency_code && bool_decide (currency_code = db_upper currency_code) &&
  (0 <? cr_rate_to_jmd row) && (cr_rate_to_jmd row <? 10 ^ 18) && varchar 50 (cr_source row).

(** [currency_code.upper().strip()]. *)
Definition normal_code (currency_code : string) : string := strip (upper currency_code).

Definition JMD : string := "JMD".

Definition one : Dec := mkDec 1 0.

Definition rate_value (row : CurrencyRate) : Dec := mkDec (cr_rate_to_jmd row) (- SCALE).

(** [query.order_by(rate_date.desc()).first()] over the rows of a code on the days that
    [p] allows. *)
Definition later (x : Z * CurrencyRate) (best : option (Z * CurrencyRate)) : option (Z * CurrencyRate) :=
  match best with
  | Some y => if x.1 <? y.1 then best else Some x
  | None => Some x
  end.

Definition latest_rate (p : Z → bool) (code : string) (t : Rates) : option (Z * CurrencyRate) :=
  foldr later None
    (omap (λ row, if bool_decide (row.1.1 = code) && p row.1.2 then Some (row.1.2, row.2) else None) (map_to_list t)).

Definition get_cached_rate (currency_code : string) (rate_date : Z) (t : Rates) : option Dec :=
  if bool_decide (currency_code = ""%string) then None
  else
    let currency_code := normal_code currency_code in
    if bool_decide (currency_code = JMD) then Some one
    else
      match t !! (currency_code, rate_date) with
      | Some rate => Some (rate_value rate)
      | None => rate_value ∘ snd <$> latest_rate (λ d, d <=? rate_date) currency_code t
      end.

(** The table afterwards and the value returned. *)
Definition store_rate (currency_code : string) (rate_date : Z) (rate_to_jmd : Dec) (source : string) (utcnow : Z)
    (t : Rates) : Rates * bool :=
  if bool_decide (currency_code = ""%string) || bool_decide (upper currency_code = JMD) then (t, false)
  else
    let currency_code := normal_code currency_code in
    let row := mkCurrencyRate (rate_units rate_to_jmd) source utcnow in
    if rate_row_ok currency_code row then (<[(currency_code, rate_date) := row]> t, true) else (t, false).

Definition DEFAULT_USD : Dec := mkDec 15750 (-2).

Definition get_usd_jmd_rate (t : Rates) : Dec :=
  match latest_rate (λ _, true) "USD" t with Some (_, row) => rate_value row | None => DEFAULT_USD end.

Definition get_or_update_rate_to_jmd (currency_code : string) (rate_date : Z) (t : Rates) : option Dec :=
  if bool_decide (currency_code = ""%string) then None
  else
    let currency_code := normal_code currency_code in
    if bool_decide (currency_code = JMD) then Some one else get_cached_rate currency_code rate_date t.

(** The amount is [Decimal(str(amount))]; the result is [None] where the call raises. *)
Definition convert_to_jmd (amount : option (option Dec)) (currency_code : string) (rate_date : option Z) (today : Z)
    (t : Rates) : option (option Dec) :=
  match amount with
  | None => Some None
  | Some amount =>
      if bool_decide (currency_code = ""%string) then Some None
      else
        let currency_code := normal_code currency_code in
        if bool_decide (currency_code = JMD) then Some <$> amount
        else
          match get_or_update_rate_to_jmd currency_code (default today rate_date) t with
          | None => Some None
          | Some rate => Some ((λ a, dec_mul a rate) <$> amount)
          end
  end.

Definition refresh_all_rates (t : Rates) : Rates * (Z * Z) := (t, (0, 0)).

Definition set_usd_jmd_rate (rate : Dec) (rate_date : option Z) (today utcnow : Z) (t : Rates) : Rates * bool :=
  store_rate "USD" (default today rate_date) rate "MANUAL" utcnow t.

(** * Lookup *)

Lemma foldr_later l :
  match foldr later None l with
  | Some x => x ∈ l ∧ ∀ y, y ∈ l → y.1 ≤ x.1
  | None => l = []
  end.
Proof.
  induction l as [|x l IH]; [done|]. simpl. destruct (foldr later None l) as [z|]; simpl.
  - destruct IH as [Hz Hmax]. destruct (Z.ltb_spec x.1 z.1).
    + split; [by right|]. intros y [->|Hy]%elem_of_cons; [lia|by apply Hmax].
    + split; [by left|]. intros y [->|Hy]%elem_of_cons; [lia|]. pose proof (Hmax y Hy). lia.
  - subst l. split; [by left|]. intros y ->%list_elem_of_singleton. lia.
Qed.

Lemma elem_of_code_rows p code t d row :
  (d, row) ∈ omap (λ r : string * Z * CurrencyRate, if bool_decide (r.1.1 = code) && p r.1.2 then Some (r.1.2, r.2) else None)
    (map_to_list t) ↔ t !! (code, d) = Some row ∧ p d = true.
Proof.
  rewrite list_elem_of_omap. split.
  - intros ([[c d'] row'] & Hin & Heq). apply elem_of_map_to_list in Hin. simpl in *.
    case_bool_decide; subst; simpl in Heq; [|done]. destruct (p d') eqn:Hp; by simplify_eq.
  - intros [Ht Hp]. exists ((code, d), row). split; [by apply elem_of_map_to_list|]. simpl.
    by rewrite bool_decide_eq_true_2, Hp.
Qed.

(** The row of the last allowed day is found, and none only where there is none. *)
Lemma latest_rate_spec p code t :
  match latest_rate p code t with
  | Some (d, row) => t !! (code, d) = Some row ∧ p d = true ∧
      ∀ d' row', t !! (code, d') = Some row' → p d' = true → d' ≤ d
  | None => ∀ d row, t !! (code, d) = Some row → p d = false
  end.
Proof.
  unfold latest_rate. set (rows := omap _ _). pose proof (foldr_later rows) as H. subst rows.
  destruct (foldr later None _) as [[d row]|].
  - destruct H as [Hin%elem_of_code_rows Hmax]. destruct Hin. split_and!; [done|done|]. intros d' row' Ht Hp.
    apply (Hmax (d', row')). by apply elem_of_code_rows.
  - intros d row Ht. destruct (p d) eqn:Hp; [|done]. exfalso. apply (not_elem_of_nil (d, row)). rewrite <- H.
    by apply elem_of_code_rows.
Qed.

(** The days of a code with a rate, up to a day. *)
Definition rate_of_day (code : string) (day : Z) (t : Rates) (d : Z) (row : CurrencyRate) : Prop :=
  t !! (code, d) = Some row ∧ d ≤ day ∧ ∀ d' row', t !! (code, d') = Some row' → d' ≤ day → d' ≤ d.

Lemma get_cached_rate_spec code day t : code ≠ ""%string → normal_code code ≠ JMD →
  match get_cached_rate code day t with
  | Some r => ∃ d row, rate_of_day (normal_code code) day t d row ∧ r = rate_value row
  | None => ∀ d row, t !! (normal_code code, d) = Some row → day < d
  end.
Proof.
  intros Hc Hj. unfold get_cached_rate. rewrite !bool_decide_eq_false_2 by done.
  destruct (t !! (normal_code code, day)) as [row|] eqn:Hrow.
  { exists day, row. split; [|done]. split; [done|]. split; [lia|done]. }
  pose proof (latest_rate_spec (λ d, d <=? day) (normal_code code) t) as H.
  destruct (latest_rate _ _ t) as [[d row]|]; simpl.
  - destruct H as (Ht & Hd%Z.leb_le & Hmax). exists d, row. split; [|done]. split_and!; [done|done|].
    intros d' row' Ht' Hd'. by apply (Hmax d' row'); [|apply Z.leb_le].
  - intros d row' Ht. apply H in Ht. by apply Z.leb_gt in Ht.
Qed.

Lemma rate_of_day_unique code day t d1 row1 d2 row2 :
  rate_of_day code day t d1 row1 → rate_of_day code day t d2 row2 → row1 = row2.
Proof.
  intros (H1 & Hd1 & M1) (H2 & Hd2 & M2). assert (d1 = d2) as ->; [|congruence].
  pose proof (M1 _ _ H2 Hd2). pose proof (M2 _ _ H1 Hd1). lia.
Qed.
End service.

(** * Rounding *)

Lemma digits_bound fuel n k : 0 ≤ n < 10 ^ k → 0 ≤ k → digits fuel n ≤ k.
Proof.
  revert n k. induction fuel as [|fuel IH]; intros n k Hn Hk; simpl; [done|].
  destruct (Z.eqb_spec n 0); [done|]. destruct (decide (k = 0)) as [->|]; [simpl in Hn; lia|].
  assert (digits fuel (n / 10) ≤ k - 1); [|lia]. apply IH; [|lia].
  replace (10 ^ k) with (10 * 10 ^ (k - 1)) in Hn by (rewrite <- Z.pow_succ_r by lia; f_equal; lia).
  split; [apply Z.div_pos; lia|apply Z.div_lt_upper_bound; lia].
Qed.

Lemma digits_pos fuel n : 0 ≤ digits fuel n.
Proof. revert n. induction fuel as [|fuel IH]; intros n; simpl; [done|]. case_match; [done|]. specialize (IH (n / 10)). lia. Qed.

Lemma digits_enough fuel n : 0 ≤ n < 2 ^ Z.of_nat fuel → n < 10 ^ digits fuel n.
Proof.
  revert n. induction fuel as [|fuel IH]; intros n Hn; simpl; [simpl in Hn; lia|].
  destruct (Z.eqb_spec n 0) as [->|]; [simpl; lia|].
  rewrite Nat2Z.inj_succ, Z.pow_succ_r in Hn by lia.
  assert (n / 10 < 10 ^ digits fuel (n / 10)) as H.
  { apply IH. split; [apply Z.div_pos; lia|]. apply Z.div_lt_upper_bound; lia. }
  rewrite Z.pow_add_r by (pose proof (digits_pos fuel (n / 10)); lia).
  pose proof (Z.div_mod n 10). pose proof (Z.mod_pos_bound n 10). lia.
Qed.

Lemma digit_length_spec n : 0 ≤ n → n < 10 ^ digit_length n.
Proof.
  intros Hn. apply digits_enough. split; [done|]. rewrite Nat2Z.inj_add, Z2Nat.id by apply Z.log2_nonneg.
  destruct (decide (n = 0)) as [->|]; [done|]. apply Z.log2_spec. lia.
Qed.

Lemma half_even_close n m : 0 ≤ n → 0 < m → 2 * Z.abs (half_even n m * m - n) ≤ m ∧ 0 ≤ half_even n m ≤ n / m + 1.
Proof.
  intros Hn Hm. unfold half_even. pose proof (Z.div_mod n m ltac:(lia)). pose proof (Z.mod_pos_bound n m Hm).
  pose proof (Z.div_pos n m Hn Hm).
  destruct ((2 * (n mod m) <? m) || _) eqn:Hc.
  - assert (2 * (n mod m) ≤ m); [|nia]. apply orb_prop in Hc as [Hc%Z.ltb_lt|[Hc%Z.eqb_eq _]%andb_prop]; lia.
  - apply orb_false_iff in Hc as [Hc%Z.ltb_ge _]. nia.
Qed.

(** A decimal of at most 28 digits is kept; a longer one is replaced by one of 28 digits
    that is at most half a unit of its last place away. *)
Lemma to_precision_spec d :
  let r := to_precision d in
  expo d ≤ expo r ∧ Z.abs (coef r) < 10 ^ PRECISION ∧
  2 * Z.abs (coef r * 10 ^ (expo r - expo d) - coef d) ≤ 10 ^ (expo r - expo d) ∧
  (Z.abs (coef d) < 10 ^ PRECISION → r = d).
Proof.
  intros r. subst r. unfold to_precision. set (len := digit_length (Z.abs (coef d))).
  pose proof (digit_length_spec (Z.abs (coef d)) ltac:(lia)) as Hlen. fold len in Hlen.
  destruct (Z.leb_spec (len - PRECISION) 0) as [Hle|Hgt].
  { rewrite Z.sub_diag. split_and!; [lia| |lia|done]. eapply Z.lt_le_trans; [exact Hlen|].
    apply Z.pow_le_mono_r; lia. }
  assert (Z.abs (coef d) < 10 ^ PRECISION → False) as Hbig.
  { intros Hs. pose proof (digits_bound (Z.to_nat (Z.log2 (Z.abs (coef d))) + 1) _ PRECISION ltac:(split; [apply Z.abs_nonneg|exact Hs]) ltac:(done)).
    unfold len, digit_length in Hgt. lia. }
  set (drop := len - PRECISION) in *. set (m := 10 ^ drop). assert (0 < m) as Hm by (apply Z.pow_pos_nonneg; lia).
  destruct (half_even_close (Z.abs (coef d)) m (Z.abs_nonneg _) Hm) as [Hclose [Hq0 Hq]].
  assert (Z.abs (coef d) / m < 10 ^ PRECISION) as Hdiv.
  { apply Z.div_lt_upper_bound; [done|]. unfold m. rewrite <- Z.pow_add_r by (unfold PRECISION; lia).
    unfold drop. by rewrite Z.sub_add. }
  set (q := half_even _ m) in *.
  assert (∀ x k, Z.abs (Z.sgn (coef d) * x * k - coef d) = Z.abs (x * k - Z.abs (coef d))) as Hsgn.
  { assert (coef d ≠ 0) as Hz by (intros Hz; apply Hbig; by rewrite Hz).
    intros x k. destruct (Z.abs_spec (coef d)) as [[? ->]|[? ->]], (Z.sgn_spec (coef d)) as [[? ->]|[[? ->]|[? ->]]]; lia. }
  destruct (Z.eqb_spec q (10 ^ PRECISION)) as [Hq'|Hq']; simpl.
  - replace (expo d + drop + 1 - expo d) with (drop + 1) by lia.
    replace (10 ^ (drop + 1)) with (10 * m) by (rewrite Z.pow_add_r by lia; unfold m; lia).
    split_and!; [lia| | |by intros ?%Hbig].
    + unfold PRECISION. nia.
    + rewrite Hsgn. replace (10 ^ (PRECISION - 1) * (10 * m)) with (q * m) by (rewrite Hq'; unfold PRECISION; lia). lia.
  - replace (expo d + drop - expo d) with drop by lia. split_and!; [lia| | |by intros ?%Hbig].
    + nia.
    + rewrite Hsgn. exact Hclose.
Qed.

(** * Rates *)

Section rates.
Context {L : Locale}.

Definition rates_ok (t : Rates) : Prop := map_Forall (λ k row, rate_row_ok k.1 row = true) t.

Lemma normal_code_idemp code : normal_code (normal_code code) = normal_code code.
Proof. unfold normal_code. by rewrite upper_strip_upper, strip_idemp. Qed.

Lemma get_or_update_spec code day t : code ≠ ""%string → normal_code code ≠ JMD → normal_code code ≠ ""%string →
  get_or_update_rate_to_jmd code day t = get_cached_rate code day t.
Proof.
  intros Hc Hj He. unfold get_or_update_rate_to_jmd, get_cached_rate.
  rewrite normal_code_idemp. by rewrite !bool_decide_eq_false_2 by done.
Qed.

Lemma store_rate_spec code day rate source utcnow t t' b :
  store_rate code day rate source utcnow t = (t', b) →
  if b then
    code ≠ ""%string ∧ upper code ≠ JMD ∧
    rate_row_ok (normal_code code) (mkCurrencyRate (rate_units rate) source utcnow) = true ∧
    t' = <[(normal_code code, day) := mkCurrencyRate (rate_units rate) source utcnow]> t
  else t' = t.
Proof.
  unfold store_rate. destruct (_ || _) eqn:Hc; [by intros [= <- <-]|].
  apply orb_false_iff in Hc as [H1%bool_decide_eq_false H2%bool_decide_eq_false].
  destruct (rate_row_ok _ _) eqn:Hok; by intros [= <- <-].
Qed.

(** C39: A rate that is refused leaves the table as it is.  One that is stored keeps the rows
    within their constraints and changes only the row of its code and day; from then on
    it is the rate that any spelling of the code reads on that day, and on every later
    day up to the next one with a rate, rounded to eight decimals; an amount converted
    with it is the product, to 28 digits.  The code of the dollar itself with spaces
    around it is stored and never read: its rate stays one. *)
Theorem stored_rate_is_read code day rate source utcnow t t' b :
  store_rate code day rate source utcnow t = (t', b) → rates_ok t →
  rates_ok t' ∧ (∀ k, k ≠ (normal_code code, day) → t' !! k = t !! k) ∧ (b = false → t' = t) ∧
  (b = true → ∀ spelling later_day, spelling ≠ ""%string → normal_code spelling = normal_code code →
     normal_code code ≠ ""%string → day ≤ later_day →
     (∀ d row, t !! (normal_code code, d) = Some row → d ≤ day ∨ later_day < d) →
     let stored := if bool_decide (normal_code code = JMD) then one else mkDec (rate_units rate) (- SCALE) in
     get_cached_rate spelling later_day t' = Some stored ∧
     ∀ amount, convert_to_jmd (Some (Some amount)) spelling (Some later_day) 0 t' =
       Some (Some (if bool_decide (normal_code code = JMD) then amount else dec_mul amount stored))).
Proof.
  intros Hst Hok. apply store_rate_spec in Hst. destruct b; [|subst; split_and!; done].
  destruct Hst as (Hc & Hu & Hrow & ->). split_and!.
  - intros k row. destruct (decide (k = (normal_code code, day))) as [->|Hk].
    + rewrite lookup_insert_eq. by intros [= <-].
    + rewrite lookup_insert_ne by done. apply Hok.
  - intros k Hk. by rewrite lookup_insert_ne.
  - done.
  - intros _ sp later Hsp Hn He Hday Hnext stored. subst stored. set (t2 := <[_ := _]> t).
    destruct (decide (normal_code code = JMD)) as [Hj|Hj].
    { rewrite !(bool_decide_eq_true_2 (normal_code code = JMD)) by done. unfold get_cached_rate, convert_to_jmd.
      rewrite Hn. by rewrite !(bool_decide_eq_false_2 (sp = ""%string)), !(bool_decide_eq_true_2 (normal_code code = JMD)) by done. }
    rewrite !(bool_decide_eq_false_2 (normal_code code = JMD)) by done.
    assert (get_cached_rate sp later t2 = Some (mkDec (rate_units rate) (- SCALE))) as Hget.
    { pose proof (get_cached_rate_spec sp later t2 Hsp ltac:(by rewrite Hn)) as H. rewrite Hn in H.
      assert (rate_of_day (normal_code code) later t2 day (mkCurrencyRate (rate_units rate) source utcnow)) as Hday2.
      { split; [apply lookup_insert_eq|]. split; [done|]. intros d' row' Ht' Hd'.
        destruct (decide (d' = day)) as [->|Hne]; [done|]. subst t2. rewrite lookup_insert_ne in Ht' by congruence.
        destruct (Hnext _ _ Ht'); lia. }
      destruct (get_cached_rate sp later t2) as [r|].
      - destruct H as (d & row & Hrd & ->). by rewrite (rate_of_day_unique _ _ _ _ _ _ _ Hrd Hday2).
      - destruct Hday2 as [Ht2 [Hle _]]. specialize (H _ _ Ht2). lia. }
    split; [done|]. intros amount. unfold convert_to_jmd.
    rewrite Hn, !(bool_decide_eq_false_2 (sp = ""%string)), (bool_decide_eq_false_2 (normal_code code = JMD)) by done.
    simpl. rewrite get_or_update_spec; rewrite ?normal_code_idemp; try done.
    assert (get_cached_rate (normal_code code) later t2 = get_cached_rate sp later t2) as ->.
    { unfold get_cached_rate. by rewrite normal_code_idemp, Hn, !(bool_decide_eq_false_2 (_ = ""%string)) by done. }
    by rewrite Hget.
Qed.
End rates.

(** Upper case in the database as in the program. *)
Definition plain_locale : Locale := {| db_upper := upper; db_ilike := λ _ _, false; collate := λ _, [] |}.

Definition usd_stored : Rates * bool := store_rate (L := plain_locale) "usd " 100 (mkDec 15805 (-2)) "MANUAL" 0 ∅.

Lemma stored_rate_is_read_witness :
  usd_stored.2 = true ∧
  get_cached_rate "USD" 107 usd_stored.1 = Some (mkDec 15805000000 (-8)) ∧
  convert_to_jmd (Some (Some (mkDec 1000 (-2)))) "USD" (Some 107) 0 usd_stored.1 = Some (Some (mkDec 15805000000000 (-10))).
Proof.
  assert (store_rate (L := plain_locale) "usd " 100 (mkDec 15805 (-2)) "MANUAL" 0 ∅ = (usd_stored.1, true)) as Hrun
    by (vm_compute; reflexivity).
  split; [vm_compute; reflexivity|].
  destruct (stored_rate_is_read _ _ _ _ _ _ _ _ Hrun) as (_ & _ & _ & H); [intros k row; by rewrite lookup_empty|].
  destruct (H eq_refl "USD"%string 107) as [Hget Hconv]; [discriminate|vm_compute; reflexivity|vm_compute; discriminate|lia| |].
  { intros d row. by rewrite lookup_empty. }
  rewrite Hget, (Hconv (mkDec 1000 (-2))). split; vm_compute; reflexivity.
Defined.

(** Ten dollars in the code of the dollar itself, spelled with a space: the rate of two
    is stored, and read as one. *)
Lemma jmd_with_space_is_stored :
  let r := store_rate (L := plain_locale) " jmd" 100 (mkDec 2 0) "MANUAL" 0 ∅ in
  r.2 = true ∧ get_cached_rate " jmd" 100 r.1 = Some one.
Proof. split; vm_compute; reflexivity. Qed.
