(* ===== verification/DonationLists.v ===== *)
(** The pages of donations and intakes that only read: the lists with their filters and
    counts, the queues of verification and the choices of a new intake
    (app/features/donations.py, app/features/donation_intake.py).

    [ilike] is the pattern match of the database, the pattern first; names are ordered
    by its collation.  Rows with the same sort key come in no order of their own.  The
    drop-down lists of the forms are left out. *)
From stdpp Require Import strings.
From S2P Require Import Prelude PyStr PySort ParamValidation Schema Columns AccessControl DonationIntake Donations.

Record ListOf (A : Type) : Type := mkListOf {
  lo_rows : list A;
  lo_filter : string;
  lo_counts : list (string * Z)
}.
Arguments mkListOf {A} _ _ _.
Arguments lo_rows {A} _.
Arguments lo_filter {A} _.
Arguments lo_counts {A} _.

(** [query.filter(...).count()]. *)
Definition count_where {A} (p : A → bool) (l : list A) : Z := Z.of_nat (length (List.filter p l)).

(** [if x: query = query.filter_by(column=x)], where no number and 0 filter nothing. *)
Definition id_is (chosen : option Z) (id : Z) : bool :=
  match chosen with Some c => (c =? 0) || (id =? c) | None => true end.

(** [safe_id(value, default=None)] and [args.get(name, type=int)]. *)
Definition safe_id_or_none (value : option string) : option Z := bounded_int value (Some 0) None.
Definition int_arg (value : option string) : option Z := value ≫= py_int.

Definition ALLOWED_DONATION_STATUSES : list string := ["all"; "E"; "V"; "P"]%string.
Definition ALLOWED_INTAKE_FILTERS : list string := ["all"; "draft"; "submitted"; "verified"; "recent"]%string.

Section lists.
Context `{R : Runtime} (cx : DonationCtx).
Variable ilike : string → string → bool.
Variable collate : string → list Z.

(** [or_(column.ilike('%' + q + '%'), ...)], none without a text; NULL matches nothing. *)
Definition search_matches (search_query : string) (columns : list (option string)) : bool :=
  bool_decide (search_query = ""%string) ||
  existsb (λ c, match c with Some s => ilike ("%" +:+ search_query +:+ "%") s | None => false end) columns.

Definition donation_rows (d : DB) : list Donation := (map_to_list (db_donation d)).*2.
Definition intake_rows (d : DB) : list DonationIntake := (map_to_list (db_dnintake d)).*2.

Definition latest_received : list Donation → list Donation := sorted_by (λ dn, [- dh_received_date (dn_header dn)]).
Definition latest_changed : list DonationIntake → list DonationIntake := sorted_by (λ k, [- update_dtime (dk_audit k)]).

Definition donation_matches (donor_filter event_filter : option Z) (search_query : string) (dn : Donation) : bool :=
  id_is donor_filter (dh_donor_id (dn_header dn)) && id_is event_filter (dh_event_id (dn_header dn)) &&
  search_matches search_query [Some (dh_donation_desc (dn_header dn)); dh_comments_text (dn_header dn)].

Definition has_status (status : string) (dn : Donation) : bool := bool_decide (dn_status_code dn = status).

Definition on_donation_tab (status_filter : string) (dn : Donation) : bool :=
  bool_decide (status_filter = "all"%string) || has_status (upper status_filter) dn.

Definition list_donations (status donor_id event_id search : option string) : DM (ListOf Donation) :=
  guard cx "donation_management";;
  let status_filter := validate_status_code (Some (default "all"%string status)) ALLOWED_DONATION_STATUSES "all" in
  d ← db_get;
  let all := donation_rows d in
  mret (mkListOf
    (latest_received (List.filter (λ dn, on_donation_tab status_filter dn &&
       donation_matches (safe_id_or_none donor_id) (safe_id_or_none event_id) (strip (default ""%string search)) dn) all))
    status_filter
    [("all", count_where (λ _, true) all); ("E", count_where (has_status "E") all);
     ("V", count_where (has_status "V") all); ("P", count_where (has_status "P") all)]%string).

Definition view_donation (donation_id : Z) : DM (Donation * list DonationItem) :=
  guard cx "donation_management";;
  dn ← find_donation donation_id;
  d ← db_get;
  mret (dn, filter (λ di, di_donation_id di = donation_id) (donation_item_rows (db_donation_item d))).

(** The queue of donations to verify. *)
Definition donation_verify_list (search donor_id event_id : option string) : DM (ListOf Donation) :=
  guard cx "donation_verification";;
  d ← db_get;
  let all := donation_rows d in
  mret (mkListOf
    (latest_received (List.filter (λ dn, has_status "E" dn &&
       donation_matches (int_arg donor_id) (int_arg event_id) (strip (default ""%string search)) dn) all))
    "E" [("pending"%string, count_where (has_status "E") all)]).

(** * Intakes *)

(** An intake with the donation and the warehouse its row names. *)
Definition joined (d : DB) (k : DonationIntake) : option (Donation * Warehouse) :=
  dn ← db_donation d !! dk_donation_id k; wh ← db_warehouse d !! dk_inventory_id k; Some (dn, wh).

Definition intake_matches (d : DB) (search_query : string) (k : DonationIntake) : bool :=
  match joined d k with
  | Some (dn, wh) =>
      search_matches search_query [Some (dh_donation_desc (dn_header dn)); Some (wh_warehouse_name wh)]
  | None => false
  end.

Definition intake_has (status : string) (k : DonationIntake) : bool := bool_decide (dk_status_code k = status).

Definition on_intake_tab (filter_type : string) (k : DonationIntake) : bool :=
  if bool_decide (filter_type = "draft"%string) then intake_has "I" k
  else if bool_decide (filter_type = "submitted"%string) then intake_has "C" k
  else if bool_decide (filter_type = "verified"%string) then intake_has "V" k
  else if bool_decide (filter_type = "recent"%string) then dc_today cx - 30 <=? dk_intake_date k
  else true.

Definition list_intakes (filter_arg search : option string) : DM (ListOf DonationIntake) :=
  guard cx "donation_intake_management";;
  let filter_type := validate_filter_value (Some (default "all"%string filter_arg)) ALLOWED_INTAKE_FILTERS "all" in
  d ← db_get;
  let all := intake_rows d in
  mret (mkListOf
    (latest_changed (List.filter (λ k, on_intake_tab filter_type k && intake_matches d (strip (default ""%string search)) k) all))
    filter_type
    [("all", count_where (λ _, true) all); ("draft", count_where (intake_has "I") all);
     ("submitted", count_where (intake_has "C") all); ("verified", count_where (intake_has "V") all)]%string).

Definition intake_verify_list (search : option string) : DM (ListOf DonationIntake) :=
  guard cx "donation_intake_verification";;
  d ← db_get;
  let all := intake_rows d in
  mret (mkListOf
    (latest_changed (List.filter (λ k, intake_has "C" k && intake_matches d (strip (default ""%string search)) k) all))
    "C" [("pending"%string, count_where (intake_has "C") all)]).

(** The donations and warehouses a new intake chooses from. *)
Definition intake_choices : DM (list Donation * list Warehouse) :=
  guard cx "donation_intake_management";;
  d ← db_get;
  mret (latest_received (List.filter (has_status "V") (donation_rows d)),
        sorted_by (λ wh, collate (wh_warehouse_name wh))
          (List.filter (λ wh, bool_decide (wh_status_code wh = "A"%string) && wh_allow_donation_intake wh)
             (map_to_list (db_warehouse d)).*2)).

(** The POST goes on to the form when both are chosen. *)
Definition chosen_intake (donation_id inventory_id : option string) : option (string * string) :=
  match donation_id, inventory_id with
  | Some don, Some inv =>
      if bool_decide (don = ""%string) || bool_decide (inv = ""%string) then None else Some (don, inv)
  | _, _ => None
  end.

Definition get_donation_goods_items (donation_id : Z) : DM (list (DonationItem * Item)) :=
  guard cx "donation_intake_management";;
  d ← db_get;
  mret (goods_items donation_id d).

(** * What the lists show *)

Lemma elem_of_values {K A} `{Countable K} (m : gmap K A) x : x ∈ (map_to_list m).*2 ↔ ∃ k, m !! k = Some x.
Proof.
  rewrite list_elem_of_fmap. split.
  - intros ([k y] & -> & Hin). exists k. by apply elem_of_map_to_list.
  - intros [k Hk]. exists (k, x). split; [done|]. by apply elem_of_map_to_list.
Qed.

(** A page keeps the rows of the table that pass a test, and shows them by a key. *)
Lemma page_rows {A K} `{Countable K} (key : A → list Z) (p : A → bool) (m : gmap K A) x :
  x ∈ sorted_by key (List.filter p (map_to_list m).*2) ↔ (∃ k, m !! k = Some x) ∧ p x = true.
Proof. rewrite elem_of_sorted_by, list_elem_of_In, filter_In, <- list_elem_of_In, elem_of_values. done. Qed.

Lemma list_guard_run key s :
  (guard cx key s).1 = s ∧ ((guard cx key s).2 = inr tt ↔ ∃ c, feature_required (dc_user cx) key None = (c, inr tt)).
Proof.
  unfold guard. destruct (feature_required (dc_user cx) key None) as [c [e|[]]] eqn:Hf; simpl; (split; [done|]); split; try done.
  - by intros [? [=]].
  - by exists c.
Qed.

(** A guarded page is shown without changing anything. *)
Lemma guarded_page {A} key (page : DB → A) s s' x :
  (guard cx key;; d ← db_get; mret (page d)) s = (s', inr x) → s' = s ∧ x = page (work s).
Proof.
  intros H. pose proof (list_guard_run key s) as [Hs _]. revert H. rewrite run_bind.
  destruct (guard cx key s) as [s1 [e|[]]]; simpl in *; [done|]. subst s1. unfold db_get. simpl. by intros [= <- <-].
Qed.

Lemma count_cons {A} (p : A → bool) x l : count_where p (x :: l) = (if p x then 1 else 0) + count_where p l.
Proof. unfold count_where. simpl. destruct (p x); simpl; lia. Qed.

Lemma count_split (l : list Donation) : (∀ dn, dn ∈ l → dn_status_code dn ∈ ["E"; "V"; "P"]%string) →
  count_where (λ _, true) l = count_where (has_status "E") l + count_where (has_status "V") l + count_where (has_status "P") l.
Proof.
  induction l as [|dn l IH]; intros Hl; [done|]. rewrite !count_cons, IH by (intros x Hx; apply Hl; by right).
  pose proof (Hl dn ltac:(by left)) as Hd. rewrite !elem_of_cons in Hd.
  assert (∀ st, has_status st dn = bool_decide (dn_status_code dn = st)) as Hs by done. rewrite !Hs.
  destruct Hd as [Hd|[Hd|[Hd|[]%not_elem_of_nil]]]; repeat case_bool_decide; try congruence; lia.
Qed.

(** A list that is shown changes nothing; it shows, latest first, exactly the stored
    donations of the tab that match, and where every donation has one of the three
    statuses the tabs share out the donations. *)
Theorem list_donations_correct status donor event search s s' page :
  list_donations status donor event search s = (s', inr page) →
  s' = s ∧ lo_filter page ∈ ALLOWED_DONATION_STATUSES ∧
  (∀ dn, dn ∈ lo_rows page ↔ (∃ don, db_donation (work s) !! don = Some dn) ∧ on_donation_tab (lo_filter page) dn = true ∧
     donation_matches (safe_id_or_none donor) (safe_id_or_none event) (strip (default ""%string search)) dn = true) ∧
  ordered (λ dn, [- dh_received_date (dn_header dn)]) (lo_rows page) ∧
  ((∀ don dn, db_donation (work s) !! don = Some dn → dn_status_code dn ∈ ["E"; "V"; "P"]%string) →
   ∃ all e v p, lo_counts page = [("all", all); ("E", e); ("V", v); ("P", p)]%string ∧ all = e + v + p).
Proof.
  intros [-> ->]%guarded_page. simpl. split; [done|]. split_and!.
  - unfold validate_status_code. case_bool_decide; [done|by left].
  - intros dn. unfold latest_received, donation_rows. rewrite page_rows, andb_true_iff. tauto.
  - apply sorted_by_ordered.
  - intros Hst. do 4 eexists. split; [done|]. apply count_split. unfold donation_rows.
    by intros dn [don Hdn]%elem_of_values; eapply Hst.
Qed.

(** A submission that fails says which rows are wrong, or that the database refused. *)
Definition submission_error (e : IntakeFailure) : Prop := e = IDatabaseError ∨ ∃ l, e = IErrors l.

Lemma submission_errors ic don inv existing draft :
  triple (λ _, True) (process_entry_submission ic don inv existing draft) (λ _ _, True) (λ e _, submission_error e).
Proof.
  unfold process_entry_submission, submission_error. apply (triple_bind _ (λ _ _, True)); [by intros s _|]. intros d.
  apply (triple_bind _ (λ _ _, True)); [apply triple_fail_if; naive_solver|]. intros _.
  destruct (ic_intake_date ic) as [| |day], (audit_id (ic_user_name ic)) as [uid|]; try (apply triple_fail; naive_solver).
  apply (triple_bind _ (λ _ _, True)).
  { destruct existing; [|by intros s _]. apply (triple_bind _ (λ _ _, True)); [|intros _]; by intros s _. }
  intros _. apply (triple_bind _ (λ _ _, True)); [|by intros _ s _].
  apply (triple_for_inv _ _ (λ _, True)). by intros x _ s _.
Qed.

(** What the page of a new intake offers its form accepts: it is not refused for the
    donation or for the warehouse.  The form also accepts a warehouse that is no longer
    active, which the page does not offer. *)
Theorem offered_intakes_accepted ic s s' donations sites don inv dn wh draft :
  intake_choices s = (s', inr (donations, sites)) →
  db_donation (work s) !! don = Some dn → db_warehouse (work s) !! inv = Some wh →
  dn_status_code dn = "V"%string →
  (dn ∈ donations ∧ (wh ∈ sites ↔ wh_status_code wh = "A"%string ∧ wh_allow_donation_intake wh = true)) ∧
  (wh_allow_donation_intake wh = true →
   match (intake_form ic don inv draft s).2 with
   | inl e => submission_error e ∨ e = IRefused "already verified"
   | inr _ => True
   end).
Proof.
  intros [-> [= -> ->]]%guarded_page Hdn Hwh Hv. split; [split|].
  - unfold latest_received, donation_rows, has_status. rewrite page_rows, bool_decide_eq_true. by split; [exists don|].
  - rewrite page_rows, andb_true_iff, bool_decide_eq_true. split; [tauto|]. intros ?. by split; [exists inv|].
  - intros Ha. unfold intake_form. rewrite run_bind. simpl. rewrite Hdn, Hwh, Ha. simpl.
    rewrite (bool_decide_eq_true_2 (dn_status_code dn = "V"%string)) by done. simpl.
    set (refused := match _ with Some k => _ | None => _ end). destruct refused; [by right|].
    unfold mbind, M_bind, m_bind, m_fail_if, m_ret, or_rollback.
    pose proof (submission_errors ic don inv (db_dnintake (work s) !! (don, inv)) draft s I) as H.
    destruct (process_entry_submission _ _ _ _ _ s) as [s1 [e|[]]]; simpl; [by left|done].
Qed.
End lists.
