(* ===== verification/AuditLog.v ===== *)
(** Audit records (app/security/audit_logger.py): one line of fields per event, with
    its level.

    The time and what the request gives are arguments.  A text is the list of its
    characters; an identifier is a number or a text.  Handlers and formats of the
    logging library are left out. *)
From stdpp Require Import strings.
From Stdlib Require Import Ascii String.
From S2P Require Import Prelude PyStr ParamValidation PathSafety LogSafety CatalogueForms.

Inductive AuditCategory : Type := AUTHENTICATION | AUTHORIZATION | USER_MANAGEMENT | DATA_ACCESS | SYSTEM | SECURITY.

Definition category_value (c : AuditCategory) : string :=
  match c with
  | AUTHENTICATION => "AUTHENTICATION" | AUTHORIZATION => "AUTHORIZATION" | USER_MANAGEMENT => "USER_MGMT"
  | DATA_ACCESS => "DATA_ACCESS" | SYSTEM => "SYSTEM" | SECURITY => "SECURITY"
  end.

(** The value of every action is its name. *)
Inductive AuditAction : Type :=
  | LOGIN_SUCCESS | LOGIN_FAILURE | LOGIN_LOCKED | LOGIN_INACTIVE | LOGOUT | SESSION_EXPIRED
  | ACCESS_GRANTED | ACCESS_DENIED | PRIVILEGE_CHECK | ROLE_REQUIRED
  | USER_CREATE | USER_UPDATE | USER_DELETE | USER_LOCK | USER_UNLOCK | ROLE_ASSIGN | ROLE_REVOKE
  | PASSWORD_CHANGE | PASSWORD_RESET
  | CREATE | READ | UPDATE | DELETE | EXPORT | IMPORT
  | DISPATCH | CANCEL | APPROVE | REJECT | VERIFY | SUBMIT
  | CONFIG_CHANGE | RATE_LIMIT_EXCEEDED | CSRF_VIOLATION | INVALID_INPUT | SECURITY_ALERT.

Definition action_value (a : AuditAction) : string :=
  match a with
  | LOGIN_SUCCESS => "LOGIN_SUCCESS" | LOGIN_FAILURE => "LOGIN_FAILURE" | LOGIN_LOCKED => "LOGIN_LOCKED"
  | LOGIN_INACTIVE => "LOGIN_INACTIVE" | LOGOUT => "LOGOUT" | SESSION_EXPIRED => "SESSION_EXPIRED"
  | ACCESS_GRANTED => "ACCESS_GRANTED" | ACCESS_DENIED => "ACCESS_DENIED" | PRIVILEGE_CHECK => "PRIVILEGE_CHECK"
  | ROLE_REQUIRED => "ROLE_REQUIRED" | USER_CREATE => "USER_CREATE" | USER_UPDATE => "USER_UPDATE"
  | USER_DELETE => "USER_DELETE" | USER_LOCK => "USER_LOCK" | USER_UNLOCK => "USER_UNLOCK"
  | ROLE_ASSIGN => "ROLE_ASSIGN" | ROLE_REVOKE => "ROLE_REVOKE" | PASSWORD_CHANGE => "PASSWORD_CHANGE"
  | PASSWORD_RESET => "PASSWORD_RESET" | CREATE => "CREATE" | READ => "READ" | UPDATE => "UPDATE"
  | DELETE => "DELETE" | EXPORT => "EXPORT" | IMPORT => "IMPORT" | DISPATCH => "DISPATCH" | CANCEL => "CANCEL"
  | APPROVE => "APPROVE" | REJECT => "REJECT" | VERIFY => "VERIFY" | SUBMIT => "SUBMIT"
  | CONFIG_CHANGE => "CONFIG_CHANGE" | RATE_LIMIT_EXCEEDED => "RATE_LIMIT_EXCEEDED"
  | CSRF_VIOLATION => "CSRF_VIOLATION" | INVALID_INPUT => "INVALID_INPUT" | SECURITY_ALERT => "SECURITY_ALERT"
  end.

Inductive AuditOutcome : Type := SUCCESS | FAILURE | DENIED | ERROR.

Definition outcome_value (o : AuditOutcome) : string :=
  match o with SUCCESS => "SUCCESS" | FAILURE => "FAILURE" | DENIED => "DENIED" | ERROR => "ERROR" end.

Inductive AuditId : Type := IdNumber (n : Z) | IdText (t : text).

Definition id_text (i : AuditId) : text := match i with IdNumber n => chars (py_str n) | IdText t => t end.
Definition id_true (i : AuditId) : bool := match i with IdNumber n => negb (n =? 0) | IdText t => negb (bool_decide (t = [])) end.

Definition INFO : Z := 20.
Definition WARNING : Z := 30.

(** What a record takes from its surroundings. *)
Record AuditContext := mkAuditContext {
  ax_timestamp : text;
  ax_forwarded_for : option text;      (* X-Forwarded-For *)
  ax_remote_addr : option text
}.

(** [x_forwarded_for.split(',')[0].strip()], or the address of the connection. *)
Definition get_client_ip (ax : AuditContext) : option text :=
  match ax_forwarded_for ax with
  | None | Some [] => ax_remote_addr ax
  | Some l => Some (strip_text (match split_first 44 l with Some (a, _) => a | None => l end))
  end.

Definition clean_text (t : text) : text := sanitize_for_log (LText t) 500.

(** [' '.join(log_parts)]. *)
Fixpoint join_space (l : list text) : text :=
  match l with [] => [] | [w] => w | w :: ws => w ++ chars " " ++ join_space ws end.

Definition non_empty (t : option text) : option text := match t with Some [] => None | _ => t end.

Definition target_text (target_entity : option text) (target_id : option AuditId) : option text :=
  (λ e, match target_id with
        | Some i => clean_text e ++ chars ":" ++ clean_text (id_text i)
        | None => clean_text e
        end) <$> non_empty target_entity.

Record AuditRecord := mkAuditRecord { ar_level : Z; ar_message : text }.

Definition user_text (user_id : option AuditId) : text :=
  match user_id with Some i => if id_true i then clean_text (id_text i) else chars "anonymous" | None => chars "anonymous" end.

(** [f"{name}={value}"], left out without a value. *)
Definition optional_part (name : string) (value : option text) : list text :=
  match non_empty value with Some v => [chars name ++ chars "=" ++ v] | None => [] end.

Definition audit_log (ax : AuditContext) (category : AuditCategory) (action : AuditAction) (user_id : option AuditId)
    (target_entity : option text) (target_id : option AuditId) (outcome : AuditOutcome)
    (details : list (text * LogValue)) (level : Z) : AuditRecord :=
  let details_str := if bool_decide (details = []) then None else Some (sanitize_dict_for_log details 500 None) in
  mkAuditRecord (match outcome with SUCCESS => level | _ => Z.max level WARNING end)
    (join_space (
      [chars "timestamp=" ++ ax_timestamp ax;
       chars "category=" ++ chars (category_value category);
       chars "action=" ++ chars (action_value action);
       chars "user_id=" ++ user_text user_id] ++
      optional_part "target" (target_text target_entity target_id) ++
      [chars "outcome=" ++ chars (outcome_value outcome)] ++
      optional_part "ip" (get_client_ip ax) ++
      optional_part "details" details_str)).

(** [email.split('@')]: the part before the first, and the part between the first and
    the second. *)
Definition masked_email (email : text) : text :=
  match split_first 64 email with
  | Some (local, rest) =>
      take 2 local ++ chars "***@" ++ (match split_first 64 rest with Some (d, _) => d | None => rest end)
  | None => take 2 email ++ chars "***"
  end.

Definition log_authentication_event (ax : AuditContext) (action : AuditAction) (user_id : option AuditId)
    (email : option text) (outcome : AuditOutcome) (reason : option text) : AuditRecord :=
  let details :=
    (match non_empty email with Some e => [(chars "email", LText (masked_email e))] | None => [] end) ++
    (match non_empty reason with Some r => [(chars "reason", LText (sanitize_for_log (LText r) 100))] | None => [] end) in
  audit_log ax AUTHENTICATION action user_id None None outcome details
    (match outcome with SUCCESS => INFO | _ => WARNING end).

Definition log_authorization_event (ax : AuditContext) (user_id : AuditId) (resource action : text) (granted : bool)
    (required_role : option text) : AuditRecord :=
  audit_log ax AUTHORIZATION (if granted then ACCESS_GRANTED else ACCESS_DENIED) (Some user_id) (Some resource) None
    (if granted then SUCCESS else DENIED)
    ((chars "resource_action", LText action) ::
     match non_empty required_role with Some r => [(chars "required_role", LText r)] | None => [] end) INFO.

Definition log_data_event (ax : AuditContext) (action : AuditAction) (user_id : AuditId) (entity_type : text)
    (entity_id : option AuditId) (details : list (text * LogValue)) (outcome : AuditOutcome) : AuditRecord :=
  audit_log ax DATA_ACCESS action (Some user_id) (Some entity_type) entity_id outcome details INFO.

Definition log_user_management_event (ax : AuditContext) (action : AuditAction) (actor_id target_user_id : AuditId)
    (details : list (text * LogValue)) (outcome : AuditOutcome) : AuditRecord :=
  audit_log ax USER_MANAGEMENT action (Some actor_id) (Some (chars "user")) (Some target_user_id) outcome details INFO.

Definition log_security_event (ax : AuditContext) (action : AuditAction) (user_id : option AuditId)
    (details : list (text * LogValue)) (level : Z) : AuditRecord :=
  audit_log ax SECURITY action user_id None None FAILURE details level.

(** The decorator: the call runs once, its result or exception ([exc], with the name of
    its type) is passed on, and one record says which. *)
Definition audit_action {A} (ax : AuditContext) (category : AuditCategory) (action : AuditAction)
    (target_entity : option text) (get_target_id : A → option AuditId) (user_id : option AuditId)
    (result : text + A) : list AuditRecord * (text + A) :=
  match result with
  | inr a => ([audit_log ax category action user_id target_entity (get_target_id a) SUCCESS [] INFO], inr a)
  | inl exc =>
      ([audit_log ax category action user_id target_entity None ERROR [(chars "error", LText exc)] INFO], inl exc)
  end.

(** * One record, one line *)

Abbreviation clear := (Forall printable).

Lemma clean_clear t n : clear (sanitize_for_log (LText t) n).
Proof.
  simpl. unfold truncated. pose proof (sanitized_text t) as Hs. case_match; [|done].
  apply Forall_app. split; [by apply Forall_take|by_decide].
Qed.

Lemma value_clear v n : clear (sanitize_for_log v n).
Proof. destruct v; [by_decide..|apply clean_clear]. Qed.

Lemma entry_clear keys kv : clear kv.1 → clear (dict_entry keys kv).
Proof.
  intros Hk. unfold dict_entry. case_match; repeat (apply Forall_app; split); try done; try by_decide. apply value_clear.
Qed.

Lemma join_clear (f : list text → text) l : clear (f []) →
  (∀ w, clear w → clear (f [w])) → (∀ w x l, clear w → clear (f (x :: l)) → clear (f (w :: x :: l))) →
  Forall clear l → clear (f l).
Proof.
  intros H0 H1 H2 Hl. induction Hl as [|w l Hw Hl IH]; [done|]. destruct l as [|x l]; [by apply H1|]. by apply H2.
Qed.

Lemma join_comma_clear l : Forall clear l → clear (join_comma l).
Proof.
  apply (join_clear join_comma); [done|done|]. intros w x l' Hw Hl.
  change (clear (w ++ chars ", " ++ join_comma (x :: l'))). repeat (apply Forall_app; split); [done|by_decide|done].
Qed.

Lemma join_space_clear l : Forall clear l → clear (join_space l).
Proof.
  apply (join_clear join_space); [done|done|]. intros w x l' Hw Hl.
  change (clear (w ++ chars " " ++ join_space (x :: l'))). repeat (apply Forall_app; split); [done|by_decide|done].
Qed.

Lemma dict_clear d n keys : Forall (λ kv, clear kv.1) d → clear (sanitize_dict_for_log d n keys).
Proof.
  intros Hd. unfold sanitize_dict_for_log.
  assert (clear (chars "{" ++ join_comma (dict_entry (default SENSITIVE_KEYS keys) <$> d) ++ chars "}")) as Hr.
  { repeat (apply Forall_app; split); try by_decide. apply join_comma_clear, Forall_fmap.
    eapply Forall_impl; [exact Hd|]. intros kv. apply entry_clear. }
  case_match; [|done]. apply Forall_app. split; [by apply Forall_take|by_decide].
Qed.

Lemma action_clear a : clear (chars (action_value a)).
Proof. destruct a; by_decide. Qed.

Lemma part_clear name v : clear (chars name) → (∀ t, v = Some t → clear t) → Forall clear (optional_part name v).
Proof.
  intros Hn Hv. unfold optional_part, non_empty. destruct v as [[|c t]|]; constructor; [|constructor].
  repeat (apply Forall_app; split); [done|by_decide|by apply Hv].
Qed.

Lemma target_clear e i t : target_text e i = Some t → clear t.
Proof.
  unfold target_text. destruct (non_empty e) as [n|]; [|done]. intros H. apply (inj Some) in H as <-.
  destruct i; [|apply clean_clear]. repeat (apply Forall_app; split); [apply clean_clear|by_decide|apply clean_clear].
Qed.

(** Every record is one line, whatever the values it is given, as long as the address
    taken from the headers and the names of the details are; a record of a failure, a
    refusal or an error has at least the level of a warning.  Of an e-mail address the
    record of a login holds two characters of the name and the domain: two addresses
    that agree on them leave the same record. *)
Theorem audit_records_safe ax category action user_id entity target_id outcome details level :
  clear (ax_timestamp ax) → (∀ ip, get_client_ip ax = Some ip → clear ip) → Forall (λ kv, clear kv.1) details →
  let r := audit_log ax category action user_id entity target_id outcome details level in
  clear (ar_message r) ∧ level ≤ ar_level r ∧ (outcome ≠ SUCCESS → WARNING ≤ ar_level r) ∧
  ∀ a b domain reason, "@"%char ∉ a → "@"%char ∉ b → take 2 a = take 2 b →
    log_authentication_event ax action user_id (Some (a ++ chars "@" ++ domain)) outcome reason =
    log_authentication_event ax action user_id (Some (b ++ chars "@" ++ domain)) outcome reason.
Proof.
  intros Ht Hip Hd r. subst r. split_and!.
  - unfold audit_log. cbn [ar_message]. apply join_space_clear. repeat (apply Forall_app; split).
    + repeat (apply Forall_cons; split); [..|constructor]; repeat (apply Forall_app; split); try done; try by_decide.
      * destruct category; by_decide.
      * apply action_clear.
      * unfold user_text. destruct user_id as [i|]; [|by_decide]. destruct (id_true i); [apply clean_clear|by_decide].
    + apply part_clear; [by_decide|apply target_clear].
    + constructor; [|constructor]. destruct outcome; by_decide.
    + apply part_clear; [by_decide|done].
    + apply part_clear; [by_decide|]. intros t. case_bool_decide; [done|]. intros [= <-]. by apply dict_clear.
  - destruct outcome; simpl; lia.
  - destruct outcome; simpl; intros; [done|lia..].
  - intros a b domain reason Ha Hb Hab.
    assert (∀ w, "@"%char ∉ w → split_first 64 (w ++ chars "@" ++ domain) = Some (w, domain)) as Hsplit.
    { induction w as [|c w IH]; [done|]. rewrite not_elem_of_cons. intros [Hc Hw]. simpl in *. rewrite IH by done.
      destruct (code c =? 64) eqn:E; [|done]. apply Z.eqb_eq in E. destruct Hc. by apply code_inj. }
    assert (∀ w, non_empty (Some (w ++ chars "@" ++ domain)) = Some (w ++ chars "@" ++ domain)) as Hne by (by intros []).
    unfold log_authentication_event. rewrite !Hne. unfold masked_email. by rewrite !Hsplit, Hab.
Qed.

Definition example_context : AuditContext :=
  mkAuditContext (chars "2025-12-03T02:30:00") (Some (chars "10.0.0.7, 10.0.0.1")) None.

Lemma audit_records_safe_witness :
  let r := audit_log example_context AUTHENTICATION LOGIN_FAILURE None None None FAILURE
    [(chars "reason", LText (chars "a" ++ [LF] ++ chars "action=LOGIN_SUCCESS"))] INFO in
  clear (ar_message r) ∧ ar_level r = WARNING ∧
  ar_message r = chars "timestamp=2025-12-03T02:30:00 category=AUTHENTICATION action=LOGIN_FAILURE user_id=anonymous outcome=FAILURE ip=10.0.0.7 details={reason=a[LF]action=LOGIN_SUCCESS}".
Proof.
  destruct (audit_records_safe example_context AUTHENTICATION LOGIN_FAILURE None None None FAILURE
    [(chars "reason", LText (chars "a" ++ [LF] ++ chars "action=LOGIN_SUCCESS"))] INFO) as [H _].
  - by_decide.
  - intros ip Hip. vm_compute in Hip. injection Hip as <-. by_decide.
  - by_decide.
  - split; [exact H|]. split; vm_compute; reflexivity.
Defined.

(** The address is the client's own text: it can add fields to the record. *)
Example forwarded_for_adds_fields :
  ar_message (audit_log (mkAuditContext (chars "t") (Some (chars "1.1.1.1 details={forged}")) None)
    SYSTEM READ None None None SUCCESS [] INFO) =
  chars "timestamp=t category=SYSTEM action=READ user_id=anonymous outcome=SUCCESS ip=1.1.1.1 details={forged}".
Proof. vm_compute. reflexivity. Qed.
