(* ===== verification/Dashboards.v ===== *)
(** The dashboards of requests and the widgets, numbers and actions every dashboard
    shows (app/features/dashboard.py, app/services/dashboard_service.py).

    Each dashboard has tabs, the requests of one tab and the number of each.  The
    totals of the master tables, the stock below its reorder level, the recent users,
    texts, icons and links are left out; so are the officer's charts and the analytic
    dashboards, which only add up rows. *)
From stdpp Require Import strings.
From S2P Require Import Prelude PyStr PySort ParamValidation Schema Fixtures AccessControl AccessControlProofs ReliefRequest ReliefRequestProofs RequestRoutes RequestRoutesProofs RequestRouteTheorems RequestPages.

(** * Where a user lands *)

Inductive Dashboard : Type :=
  | AdminDashboard | OperationsDashboard | LogisticsDashboard | OfficerDashboard | AgencyDashboard
  | InventoryDashboard | GeneralDashboard.

Definition index (primary_role : option string) : Dashboard :=
  match primary_role with
  | None => GeneralDashboard
  | Some r =>
      if bool_decide (r = "SYSTEM_ADMINISTRATOR"%string) then AdminDashboard
      else if bool_decide (r ∈ EXECUTIVE_ROLES) then OperationsDashboard
      else if bool_decide (r = "LOGISTICS_MANAGER"%string) then LogisticsDashboard
      else if bool_decide (r = "LOGISTICS_OFFICER"%string) then OfficerDashboard
      else if bool_decide (r ∈ AGENCY_ROLES) then AgencyDashboard
      else if bool_decide (r = "INVENTORY_CLERK"%string) then InventoryDashboard
      else GeneralDashboard
  end.

(** * Tabs *)

Record TabPage : Type := mkTabPage {
  tp_requests : list ReliefRqst;
  tp_current_filter : string;
  tp_counts : list (string * Z)
}.

(** [order_by(desc(column))]: NULL comes first. *)
Definition desc_time (t : option Z) : list Z := match t with None => [0] | Some t => [1; - t] end.

Definition by_request_date (r : ReliefRqst) : list Z := [- rq_request_date r].
Definition by_create_dtime (r : ReliefRqst) : list Z := [- rq_create_dtime r].
Definition by_review_dtime (r : ReliefRqst) : list Z := desc_time (rq_review_dtime r).
Definition by_action_dtime (r : ReliefRqst) : list Z := desc_time (rq_action_dtime r).

Definition select (p : ReliefRqst → bool) (l : list ReliefRqst) : list ReliefRqst := List.filter p l.

Definition with_code (codes : list Z) (r : ReliefRqst) : bool := bool_decide (rq_status_code r ∈ codes).

(** [ReliefRqst.fulfillment_lock.has()]. *)
Definition has_lock (d : DB) (r : ReliefRqst) : bool := bool_decide (is_Some (db_lock d !! rq_reliefrqst_id r)).

(** What a tab shows and in which order. *)
Definition logistics_tab (d : DB) (current_filter : string) : (ReliefRqst → bool) * (ReliefRqst → list Z) :=
  if bool_decide (current_filter = "pending"%string)
  then (λ r, with_code [STATUS_SUBMITTED] r && negb (has_lock d r), by_request_date)
  else if bool_decide (current_filter = "in_progress"%string) then (has_lock d, by_request_date)
  else if bool_decide (current_filter = "ready"%string) then (with_code [STATUS_PART_FILLED], by_request_date)
  else if bool_decide (current_filter = "completed"%string) then (with_code [STATUS_FILLED], by_action_dtime)
  else (with_code [STATUS_SUBMITTED; STATUS_PART_FILLED; STATUS_FILLED], by_request_date).

(** The number under "all" is the sum of the four others. *)
Definition logistics_counts (d : DB) (all : list ReliefRqst) : list (string * Z) :=
  let pending := count (select (λ r, with_code [STATUS_SUBMITTED] r && negb (has_lock d r)) all) in
  let in_progress := count (select (has_lock d) all) in
  let ready := count (select (with_code [STATUS_PART_FILLED]) all) in
  let completed := count (select (with_code [STATUS_FILLED]) all) in
  [("pending", pending); ("in_progress", in_progress); ("ready", ready); ("completed", completed);
   ("all", pending + (in_progress + (ready + (completed + 0))))]%string.

Definition agency_tab (current_filter : string) : (ReliefRqst → bool) * (ReliefRqst → list Z) :=
  if bool_decide (current_filter = "draft"%string) then (with_code [0], by_create_dtime)
  else if bool_decide (current_filter = "pending"%string) then (with_code [1], by_request_date)
  else if bool_decide (current_filter = "approved"%string) then (with_code [3; 5], by_review_dtime)
  else if bool_decide (current_filter = "completed"%string) then (with_code [7], by_action_dtime)
  else (with_code [0; 1; 3; 5], by_create_dtime).

Definition agency_counts (base : list ReliefRqst) : list (string * Z) :=
  let draft := count (select (with_code [0]) base) in
  let pending := count (select (with_code [1]) base) in
  let approved := count (select (with_code [3; 5]) base) in
  [("draft", draft); ("pending", pending); ("approved", approved); ("completed", count (select (with_code [7]) base));
   ("active", draft + pending + approved)]%string.

Definition director_tab (current_filter : string) : (ReliefRqst → bool) * (ReliefRqst → list Z) :=
  if bool_decide (current_filter = "pending"%string) then (with_code [1], by_request_date)
  else if bool_decide (current_filter = "approved"%string) then (with_code [3], by_review_dtime)
  else if bool_decide (current_filter = "in_progress"%string) then (with_code [1; 3; 5], by_request_date)
  else if bool_decide (current_filter = "completed"%string) then (with_code [7], by_action_dtime)
  else (λ _, true, by_request_date).

Definition director_counts (base : list ReliefRqst) : list (string * Z) :=
  [("pending", count (select (with_code [1]) base)); ("approved", count (select (with_code [3]) base));
   ("in_progress", count (select (with_code [1; 3; 5]) base)); ("completed", count (select (with_code [7]) base));
   ("all", count base)]%string.

Section dashboards.
Context `{R : Runtime} (rx : RequestCtx).

Definition tab_page (tab : (ReliefRqst → bool) * (ReliefRqst → list Z)) (current_filter : string)
    (counts : list (string * Z)) (base : list ReliefRqst) : TabPage :=
  mkTabPage (sorted_by tab.2 (select tab.1 base)) current_filter counts.

(** [is_logistics_officer() or is_logistics_manager()]. *)
Definition logistics_only : AM unit :=
  lo ← check rx ["LOGISTICS_OFFICER"%string];
  if lo : bool then mret tt else
  lm ← check rx ["LOGISTICS_MANAGER"%string];
  m_fail_if (negb lm) (RGuard Forbidden).

Definition all_requests : AM (DB * list ReliefRqst) :=
  s ← m_get; let d := work (app_db s) in mret (d, rqst_rows (db_rqst d)).

Definition logistics_dashboard (filter_arg : option string) : AM TabPage :=
  login_required rx;;
  logistics_only;;
  q ← all_requests;
  let current_filter := default "pending"%string filter_arg in
  mret (tab_page (logistics_tab q.1 current_filter) current_filter (logistics_counts q.1 q.2) q.2).

Definition agency_dashboard (filter_arg : option string) : AM TabPage :=
  login_required rx;;
  let current_filter := default "active"%string filter_arg in
  match session_agency rx with
  | None => m_fail (RGuard Forbidden)
  | Some agency_id =>
      q ← all_requests;
      let base := filter (λ r, rq_agency_id r = agency_id) q.2 in
      mret (tab_page (agency_tab current_filter) current_filter (agency_counts base) base)
  end.

Definition director_dashboard (filter_arg : option string) : AM TabPage :=
  login_required rx;;
  q ← all_requests;
  let current_filter := default "pending"%string filter_arg in
  mret (tab_page (director_tab current_filter) current_filter (director_counts q.2) q.2).

(** The unified view of the directors (app/features/odpem_director.py), which has its
    own guard. *)
Definition ALLOWED_DIRECTOR_FILTERS : list string :=
  ["pending_review"; "pending_fulfillment"; "in_progress"; "completed"; "all"]%string.

Definition awaits_review (r : ReliefRqst) : bool :=
  with_code [STATUS_AWAITING_APPROVAL] r && match rq_review_by_id r with None => true | Some _ => false end.

Definition unified_filter (view_filter : string) : ReliefRqst → bool :=
  if bool_decide (view_filter = "pending_review"%string) then awaits_review
  else if bool_decide (view_filter = "pending_fulfillment"%string) then with_code [STATUS_SUBMITTED; STATUS_PART_FILLED]
  else if bool_decide (view_filter = "in_progress"%string)
  then with_code [STATUS_AWAITING_APPROVAL; STATUS_SUBMITTED; STATUS_PART_FILLED]
  else if bool_decide (view_filter = "completed"%string) then with_code [STATUS_FILLED]
  else λ _, true.

Definition unified_counts (all : list ReliefRqst) : list (string * Z) :=
  [("pending_review", count (select awaits_review all));
   ("pending_fulfillment", count (select (with_code [STATUS_SUBMITTED; STATUS_PART_FILLED]) all));
   ("in_progress", count (select (with_code [STATUS_AWAITING_APPROVAL; STATUS_SUBMITTED; STATUS_PART_FILLED]) all));
   ("completed", count (select (with_code [STATUS_FILLED]) all)); ("total", count all)]%string.

Definition unified_dashboard (filter_arg : option string) : AM TabPage :=
  login_required rx;;
  on_cache (role_required (rx_user rx) (rx_auth rx) (rx_query_ok rx) EXECUTIVE_ROLES);;
  q ← all_requests;
  let view_filter := validate_filter_value (Some (default "pending_review"%string filter_arg))
                       ALLOWED_DIRECTOR_FILTERS "pending_review" in
  mret (tab_page (unified_filter view_filter, by_create_dtime) view_filter (unified_counts q.2) q.2).

(** The ten requests created last. *)
Definition admin_recent_requests : AM (list ReliefRqst) :=
  login_required rx;;
  q ← all_requests;
  mret (take 10 (sorted_by by_create_dtime q.2)).
End dashboards.

(** * DashboardService *)

Record Widget : Type := mkWidget {
  wd_widget_id : string;
  wd_requests : list ReliefRqst;
  wd_count : Z;
  wd_priority : Z
}.

Section service.
Context `{R : Runtime} (user : SessionUser) (d : DB).
Variable unread_count : Z.  (* of the user's notifications *)

Definition user_roles : list string := su_role_codes user.

(** [user_roles & {...}] and [role in user_roles]. *)
Definition has_any (roles : list string) : bool := intersects user_roles roles.

Definition pkgs_with (status : string) : Z :=
  Z.of_nat (length (filter (λ p, pkg_status_code p = status) (pkg_rows (db_pkg d)))).

(** [filter_by(agency_id=user.agency_id)]; NULL selects no row here, an agency is
    NOT NULL. *)
Definition agency_requests : list ReliefRqst :=
  filter (λ r, Some (rq_agency_id r) = su_agency_id user) (rqst_rows (db_rqst d)).

Definition requests_with (codes : list Z) : Z := count (select (with_code codes) (rqst_rows (db_rqst d))).

Definition my_requests_widget : Widget :=
  mkWidget "my_requests" (take 5 (sorted_by by_create_dtime agency_requests)) (count agency_requests) 20.
Definition eligibility_widget : Widget := mkWidget "pending_eligibility" [] (requests_with [1]) 25.
Definition fulfillment_widget : Widget := mkWidget "pending_fulfillment" [] (requests_with [3]) 22.
Definition approval_widget : Widget := mkWidget "pending_approval" [] (pkgs_with "P") 24.
Definition notifications_widget : Widget := mkWidget "notifications" [] unread_count 5.

(** [sorted(widgets, key=priority, reverse=True)]. *)
Definition get_widgets : list Widget :=
  sorted_by (λ w, [- wd_priority w])
    ((if has_any AGENCY_ROLES then [my_requests_widget] else []) ++
     (if has_any EXECUTIVE_ROLES then [eligibility_widget] else []) ++
     (if has_any LOGISTICS_ROLES
      then fulfillment_widget :: (if has_any ["LOGISTICS_MANAGER"%string] then [approval_widget] else []) else []) ++
     [notifications_widget]).

Definition get_metrics : list (string * Z) :=
  (if has_any AGENCY_ROLES then
     [("total_requests", count agency_requests);
      ("pending_requests", count (select (with_code [0; 1]) agency_requests));
      ("fulfilled_requests", count (select (with_code [7]) agency_requests))]%string else []) ++
   (if has_any EXECUTIVE_ROLES then
     [("pending_reviews", requests_with [1]); ("approved_requests", requests_with [3]);
      ("total_active_requests", requests_with [1; 3; 5])]%string else []) ++
   (if has_any LOGISTICS_ROLES then
     [("pending_fulfillment", requests_with [3]); ("in_progress", requests_with [5]);
      ("pending_approval", if has_any ["LOGISTICS_MANAGER"%string] then pkgs_with "P" else 0)]%string else []).

Definition get_quick_actions : list string :=
  (if has_any AGENCY_ROLES then ["Create New Request"%string] else []) ++
  (if has_any EXECUTIVE_ROLES then ["Review Eligibility"; "Director Dashboard"]%string else []) ++
  (if has_any LOGISTICS_ROLES
   then "Prepare Packages"%string :: (if has_any ["LOGISTICS_MANAGER"%string] then ["Review Approvals"%string] else [])
   else []).
End service.

(** * Who sees what *)

Lemma count_app {A} (p q : A → bool) l :
  Z.of_nat (length (List.filter p l)) =
  Z.of_nat (length (List.filter (λ x, p x && q x) l)) + Z.of_nat (length (List.filter (λ x, p x && negb (q x)) l)).
Proof. induction l as [|x l IH]; [done|]. simpl. destruct (p x), (q x); simpl; lia. Qed.

Lemma with_code_eqb codes r : with_code codes r = existsb (Z.eqb (rq_status_code r)) codes.
Proof.
  unfold with_code. apply eq_true_iff_eq. rewrite bool_decide_eq_true, existsb_exists.
  setoid_rewrite Z.eqb_eq. setoid_rewrite <- list_elem_of_In. naive_solver.
Qed.

(** The number under "all" counts the locked requests that are ready or completed
    twice, and those with a lock in another state although "all" does not show them. *)
Lemma logistics_all_count d all :
  ("all"%string, count (select (logistics_tab d "all").1 all) +
     count (select (λ r, has_lock d r && negb (with_code [STATUS_SUBMITTED] r)) all)) ∈ logistics_counts d all.
Proof.
  assert (count (select (logistics_tab d "all").1 all) + count (select (λ r, has_lock d r && negb (with_code [STATUS_SUBMITTED] r)) all) =
    count (select (λ r, with_code [STATUS_SUBMITTED] r && negb (has_lock d r)) all) + (count (select (has_lock d) all) +
    (count (select (with_code [STATUS_PART_FILLED]) all) + (count (select (with_code [STATUS_FILLED]) all) + 0)))) as ->.
  2: { unfold logistics_counts. do 4 right. by left. }
  unfold count, select. change (logistics_tab d "all").1 with (with_code [STATUS_SUBMITTED; STATUS_PART_FILLED; STATUS_FILLED]).
  induction all as [|r all IH]; [done|]. simpl. rewrite !with_code_eqb. simpl.
  unfold STATUS_SUBMITTED, STATUS_PART_FILLED, STATUS_FILLED in *.
  destruct (Z.eqb_spec (rq_status_code r) 3), (Z.eqb_spec (rq_status_code r) 5), (Z.eqb_spec (rq_status_code r) 7);
    try lia; destruct (has_lock d r); simpl; lia.
Qed.

Section access.
Context `{R : Runtime} (rx : RequestCtx).

Lemma elem_of_tab (tab : (ReliefRqst → bool) * (ReliefRqst → list Z)) f counts base r :
  r ∈ tp_requests (tab_page tab f counts base) ↔ r ∈ base ∧ tab.1 r = true.
Proof.
  unfold tab_page, select. simpl. rewrite elem_of_sorted_by, list_elem_of_In, filter_In, <- list_elem_of_In. tauto.
Qed.

Lemma logistics_only_run s :
  ∃ c, (logistics_only rx s = (mkApp c (app_db s), inr tt) ∧
        (has_role rx (app_cache s) "LOGISTICS_OFFICER" ∨ has_role rx (app_cache s) "LOGISTICS_MANAGER")) ∨
       (logistics_only rx s = (mkApp c (app_db s), inl (RGuard Forbidden)) ∧
        ¬ has_role rx (app_cache s) "LOGISTICS_OFFICER" ∧ ¬ has_role rx (app_cache s) "LOGISTICS_MANAGER").
Proof.
  unfold logistics_only. destruct (check_one rx "LOGISTICS_OFFICER" s) as (c1 & lo & H1 & Hf1 & Hlo); [by vm_compute|].
  rewrite run_bind, H1. destruct lo; [exists c1; left; split; [done|left; by apply Hlo]|].
  destruct (check_one rx "LOGISTICS_MANAGER" (mkApp c1 (app_db s))) as (c2 & lm & H2 & Hf2 & Hlm); [by vm_compute|].
  simpl in Hf2, Hlm. assert (has_role rx c1 "LOGISTICS_MANAGER" ↔ has_role rx (app_cache s) "LOGISTICS_MANAGER") as Hs
    by (split; by apply has_role_force).
  rewrite Hs in Hlm. rewrite run_bind, H2. exists c2. destruct lm.
  - left. split; [done|right; by apply Hlm].
  - right. split; [done|]. split; [intros H; by apply Hlo in H|intros H; by apply Hlm in H].
Qed.

(** C40: Nobody sees a dashboard of requests without a login.  The one of logistics is shown
    to its officers and managers and to nobody else; the one of an agency only to a user
    with an agency, and it shows only requests of that agency; the unified view of the
    directors only to executives; but the older dashboard of directors is shown to every
    user, and under "all" it holds every stored request. *)
Theorem dashboards_show c d tab :
  let user_in := is_authenticated (rx_user rx) = true in
  let ok {A} (m : AM A) (page : A) := (m (mkApp c (session_of d))).2 = inr page in
  (∀ page, ok (logistics_dashboard rx tab) page →
     user_in ∧ (has_role rx c "LOGISTICS_OFFICER" ∨ has_role rx c "LOGISTICS_MANAGER") ∧
     ∀ r, r ∈ tp_requests page ↔ (∃ k, db_rqst d !! k = Some r) ∧ (logistics_tab d (default "pending"%string tab)).1 r = true) ∧
  (∀ page, ok (agency_dashboard rx tab) page →
     user_in ∧ ∃ agency_id, session_agency rx = Some agency_id ∧
     ∀ r, r ∈ tp_requests page → (∃ k, db_rqst d !! k = Some r) ∧ rq_agency_id r = agency_id) ∧
  (∀ page, ok (unified_dashboard rx tab) page → user_in ∧ is_executive rx c) ∧
  (user_in ↔ ∃ page, ok (director_dashboard rx tab) page) ∧
  (∀ page, ok (director_dashboard rx (Some "all"%string)) page → ∀ k r, db_rqst d !! k = Some r → r ∈ tp_requests page).
Proof.
  cbv zeta. unfold logistics_dashboard, agency_dashboard, unified_dashboard, director_dashboard, login_required.
  destruct (is_authenticated (rx_user rx)).
  2: { split_and!; [done|done|done|split; [done|by intros []]|done]. }
  simpl negb. cbn [m_fail_if]. split_and!.
  - intros page. rewrite !run_bind. cbn [m_ret]. rewrite run_bind.
    destruct (logistics_only_run (mkApp c (session_of d))) as (c1 & [[-> Hr]|[-> _]]); [|done].
    simpl in Hr. intros Hp. simpl in Hp. injection Hp as <-. split; [done|]. split; [done|].
    intros r. rewrite elem_of_tab. by rewrite elem_of_rqst_rows.
  - intros page. rewrite run_bind. cbn [m_ret]. destruct (session_agency rx) as [a|]; [|done]. intros Hp.
    simpl in Hp. injection Hp as <-. split; [done|]. exists a. split; [done|]. intros r [Hr _]%elem_of_tab.
    apply list_elem_of_filter in Hr as [Ha Hr]. by rewrite elem_of_rqst_rows in Hr.
  - intros page. rewrite run_bind. cbn [m_ret]. rewrite run_bind. intros Hp. split; [done|].
    destruct (role_required (rx_user rx) (rx_auth rx) (rx_query_ok rx) EXECUTIVE_ROLES c) as [c' res] eqn:Hres.
    pose proof (role_required_run (rx_user rx) (rx_auth rx) (rx_query_ok rx) EXECUTIVE_ROLES c) as Hrun.
    unfold on_cache in Hp. cbn [app_cache app_db] in Hp. rewrite Hres in Hp, Hrun. cbn [snd] in Hrun. subst res.
    destruct (is_authenticated (rx_user rx)); [|done]. destruct (existsb _ _) eqn:Hex; [|done].
    apply existsb_exists in Hex as (x & Hx & Hc%bool_decide_eq_true). exists x.
    split; [by apply list_elem_of_In|]. by apply elem_of_codes.
  - split; [|done]. intros _. eexists. reflexivity.
  - intros page Hp. simpl in Hp. injection Hp as <-. intros k r Hk. apply elem_of_tab. split; [|done].
    apply elem_of_rqst_rows. by exists k.
Qed.
End access.

(** A shelter of another agency: it sees the request of agency 5 on the dashboard of the
    directors, though not on its own. *)
Definition stranger_ctx : RequestCtx :=
  mkRequestCtx (Some (mkSessionUser "SH" "sh@agency.org" (Some 6) ["AGENCY_SHELTER"%string] [])) route_roles true 12 12 120 8.

Lemma dashboards_show_witness :
  ∃ own all,
    (@agency_dashboard canonical_runtime stranger_ctx (Some "active"%string) (mkApp None (session_of route_db))).2 = inr own ∧
    tp_requests own = [] ∧
    (@director_dashboard canonical_runtime stranger_ctx (Some "all"%string) (mkApp None (session_of route_db))).2 = inr all ∧
    rqst0 0 1 None None ∈ tp_requests all.
Proof.
  destruct (@dashboards_show canonical_runtime stranger_ctx None route_db (Some "all"%string)) as (_ & _ & _ & Hin & Hall).
  destruct (proj1 Hin) as [all Hok]; [vm_compute; reflexivity|].
  eexists. exists all. split; [vm_compute; reflexivity|]. split; [reflexivity|]. split; [exact Hok|].
  apply (Hall all Hok 7). vm_compute. reflexivity.
Defined.
