(* ===== verification/BatchCreation.v ===== *)
(** Batches made while goods come in (app/services/batch_creation_service.py): the
    number of a new batch, its row, and the addition to a batch that exists.

    A date is a year, a month and a day.  [like] is the pattern match of the database,
    the pattern first, and [collate] its order of texts.  The rows are added to the
    session; the flush, with the constraints of the table, is the caller's. *)
From stdpp Require Import strings pretty.
From Stdlib Require Import Ascii String.
From S2P Require Import Prelude PyStr PySort ParamValidation Schema Columns Dates Fixtures.

Record PyDate := mkPyDate { pd_year : Z; pd_month : Z; pd_day : Z }.

(** What an exception says. *)
Inductive BatchError : Type := ItemNotFound | BadNumber | NoAttribute.

Abbreviation BM := (M Session BatchError).

(** [str.zfill(width)] of the digits of a number that is not negative, and the format
    [0<width>d]. *)
Definition zero_fill (width : nat) (s : string) : string :=
  of_chars (replicate (width - String.length s) "0"%char) +:+ s.

(** [strftime('%Y%m%d')]. *)
Definition date_text (d : PyDate) : string :=
  py_str (pd_year d) +:+ zero_fill 2 (py_str (pd_month d)) +:+ zero_fill 2 (py_str (pd_day d)).

Definition batch_prefix (item_code : string) (inventory_id : Z) (d : PyDate) : string :=
  item_code +:+ "-" +:+ zero_fill 3 (py_str inventory_id) +:+ "-" +:+ date_text d.

(** [s.split('-')[-1]]. *)
Fixpoint last_dash (acc l : list ascii) : list ascii :=
  match l with [] => acc | c :: l' => last_dash (if code c =? 45 then l' else acc) l' end.

Section service.
Context `{R : Runtime}.
Variable like : string → string → bool.
Variable collate : string → list Z.
Variable today : PyDate.
Variable now new_id : Z.

(** [func.max]: of texts that sort alike any one. *)
Definition text_max (l : list string) : option string :=
  foldr (λ s best, match best with Some t => if lex_le (collate s) (collate t) then best else Some s | None => Some s end)
    None l.

Definition batch_numbers (d : DB) : list string := omap ib_batch_no (batch_rows (db_itembatch d)).

Definition next_sequence (max_batch : option string) : option Z :=
  match max_batch with
  | None => Some 1
  | Some s => if bool_decide (s = ""%string) then Some 1
              else (λ n, n + 1) <$> py_int (of_chars (last_dash (chars s) (chars s)))
  end.

Definition generate_batch_number (item_code : string) (inventory_id : Z) (batch_date : option PyDate) : BM string :=
  let prefix := batch_prefix item_code inventory_id (default today batch_date) in
  d ← db_get;
  seq ← m_some (next_sequence (text_max (filter (λ s, like (prefix +:+ "%") s = true) (batch_numbers d)))) BadNumber;
  mret (prefix +:+ "-" +:+ zero_fill 3 (py_str seq)).

Definition date_number (d : PyDate) : option Z := ordinal (pd_year d) (pd_month d) (pd_day d).

(** What the caller gives; without a unit the code reads [item.uom_code], which an item
    does not have. *)
Record NewBatch := mkNewBatch {
  nb_inventory_id : Z;
  nb_item_id : Z;
  nb_usable_qty : Z;
  nb_defective_qty : Z;
  nb_expired_qty : Z;
  nb_batch_date : option PyDate;
  nb_expiry_date : option Z;
  nb_uom_code : option string;
  nb_size_spec : option string;
  nb_avg_unit_value : Z;
  nb_user_name : string
}.

Definition add_batch (b : ItemBatch) : BM unit :=
  db_mod (λ d, set_db_itembatch (<[ib_batch_id b := b]> (db_itembatch d)) d).

Definition create_batch_for_intake (x : NewBatch) (batch_no : option string) : BM (option ItemBatch) :=
  d ← db_get;
  item ← m_some (db_item d !! nb_item_id x) ItemNotFound;
  if it_is_batched_flag item : bool then
    let batch_date := default today (nb_batch_date x) in
    no ← (match batch_no with
          | Some no => mret no
          | None => generate_batch_number (it_item_code item) (nb_inventory_id x) (Some batch_date)
          end : BM string);
    uom_code ← m_some (nb_uom_code x) NoAttribute;
    let size_spec := match nb_size_spec x with
                     | Some s => if bool_decide (s = ""%string) then Some s else Some (upper s)
                     | None => None
                     end in
    let batch := mkItemBatch new_id (nb_inventory_id x) (nb_item_id x) (Some (upper no)) (date_number batch_date)
      (nb_expiry_date x) (mkStock (nb_usable_qty x) 0 (nb_defective_qty x) (nb_expired_qty x)) uom_code size_spec
      (nb_avg_unit_value x) "A" None (mkAudit (nb_user_name x) now (nb_user_name x) now 1) in
    add_batch batch;; mret (Some batch)
  else mret None.

Definition existing_batch (inventory_id item_id : Z) (batch_no : string) (d : DB) : option ItemBatch :=
  head (filter (λ b, ib_inventory_id b = inventory_id ∧ ib_item_id b = item_id ∧ ib_batch_no b = Some batch_no)
    (batch_rows (db_itembatch d))).

Definition added_stock (x : NewBatch) (q : Stock) : Stock :=
  mkStock (usable_qty q + nb_usable_qty x) (reserved_qty q) (defective_qty q + nb_defective_qty x)
    (expired_qty q + nb_expired_qty x).

Definition update_or_create_batch (x : NewBatch) (batch_no : string) : BM (option ItemBatch) :=
  d ← db_get;
  match db_item d !! nb_item_id x with
  | None => mret None
  | Some item =>
      if it_is_batched_flag item then
        let batch_no := upper batch_no in
        match existing_batch (nb_inventory_id x) (nb_item_id x) batch_no d with
        | Some b =>
            let a := ib_audit b in
            let b := set_ib_audit (mkAudit (create_by_id a) (create_dtime a) (nb_user_name x) now (version_nbr a + 1))
              (set_ib_stock (added_stock x (ib_stock b)) b) in
            add_batch b;; mret (Some b)
        | None => create_batch_for_intake x (Some batch_no)
        end
      else mret None
  end.
End service.

(** * Widths *)

Lemma length_chars s : length (chars s) = String.length s.
Proof. induction s as [|c s IH]; simpl; [done|]. by rewrite IH. Qed.

Lemma zero_fill_length n s : (n ≤ String.length (zero_fill n s))%nat.
Proof. unfold zero_fill. rewrite length_append, of_chars_length, length_replicate. lia. Qed.

Lemma year_length y : 1000 ≤ y ≤ 9999 → String.length (py_str y) = 4%nat.
Proof.
  intros Hy.
  assert (forallb (λ n, Nat.eqb (String.length (py_str (Z.of_nat n))) 4) (seq (Z.to_nat 1000) (Z.to_nat 9000)) = true) as H by (vm_compute; reflexivity).
  rewrite forallb_elem in H. specialize (H (Z.to_nat y)). rewrite Z2Nat.id in H by lia. apply Nat.eqb_eq, H.
  apply elem_of_seq. lia.
Qed.

Lemma upper_length s : (String.length s ≤ String.length (upper s))%nat.
Proof.
  unfold upper. rewrite of_chars_length, <- length_chars. induction (chars s) as [|c l IH]; [done|]. csimpl. rewrite length_app.
  assert (1 ≤ length (upper_char c))%nat; [|lia]. unfold upper_char. repeat case_match; simpl; lia.
Qed.

Section theorems.
Context `{R : Runtime}.
Variable like : string → string → bool.
Variable collate : string → list Z.
Variable today : PyDate.
Variable now new_id : Z.

(** A number that is made for an item whose code has more than three characters does
    not fit the column, whose width is 20: its batch cannot be stored. *)
Lemma generated_number_too_long item_code inventory_id d s s' no :
  generate_batch_number like collate today item_code inventory_id (Some d) s = (s', inr no) →
  1000 ≤ pd_year d ≤ 9999 → 4 ≤ len item_code → varchar 20 (upper no) = false.
Proof.
  unfold generate_batch_number. rewrite run_bind. simpl db_get. cbn [fst snd]. intros Hrun Hy Hc.
  assert (∃ seq, no = batch_prefix item_code inventory_id d +:+ "-" +:+ zero_fill 3 (py_str seq)) as [seq ->].
  { revert Hrun. unfold db_get. simpl. destruct (next_sequence _) as [n|]; [|done]. intros [= _ <-]. by exists n. }
  unfold varchar, len in *. apply Z.leb_gt.
  pose proof (upper_length (batch_prefix item_code inventory_id d +:+ "-" +:+ zero_fill 3 (py_str seq))) as Hu.
  unfold batch_prefix, date_text in *. rewrite !length_append, (year_length _ Hy) in Hu. simpl in Hu.
  pose proof (zero_fill_length 3 (py_str seq)). pose proof (zero_fill_length 3 (py_str inventory_id)).
  pose proof (zero_fill_length 2 (py_str (pd_month d))). pose proof (zero_fill_length 2 (py_str (pd_day d))). lia.
Qed.

(** Bringing goods to a batch that exists adds them to its stock, leaves what is
    reserved, raises its version and touches no other row; otherwise a batched item
    gets a new row with exactly these goods, nothing reserved, and an item without
    batches gets none. *)
Theorem update_or_create_correct x no s :
  let '(s', r) := update_or_create_batch like collate today now new_id x no s in
  committed s' = committed s ∧
  match db_item (work s) !! nb_item_id x with
  | None => s' = s ∧ r = inr None
  | Some item =>
      if it_is_batched_flag item then
        match existing_batch (nb_inventory_id x) (nb_item_id x) (upper no) (work s) with
        | Some b => ∃ b', r = inr (Some b') ∧ ib_batch_id b' = ib_batch_id b ∧ ib_stock b' = added_stock x (ib_stock b) ∧
            version_nbr (ib_audit b') = version_nbr (ib_audit b) + 1 ∧
            db_itembatch (work s') = <[ib_batch_id b := b']> (db_itembatch (work s))
        | None =>
            match nb_uom_code x with
            | None => s' = s ∧ r = inl NoAttribute
            | Some _ => ∃ b', r = inr (Some b') ∧ ib_batch_no b' = Some (upper (upper no)) ∧
                ib_stock b' = mkStock (nb_usable_qty x) 0 (nb_defective_qty x) (nb_expired_qty x) ∧
                db_itembatch (work s') = <[new_id := b']> (db_itembatch (work s))
            end
        end
      else s' = s ∧ r = inr None
  end.
Proof.
  unfold update_or_create_batch. rewrite run_bind. simpl.
  destruct (db_item (work s) !! nb_item_id x) as [item|] eqn:Hi; [|done].
  destruct (it_is_batched_flag item) eqn:Hb; [|done].
  destruct (existing_batch _ _ _ (work s)) as [b|] eqn:Hf; [simpl; split; [done|]; eexists; split_and!; done|].
  unfold create_batch_for_intake. rewrite run_bind. simpl. rewrite Hi, run_bind. simpl. rewrite Hb, run_bind. simpl.
  rewrite run_bind. destruct (nb_uom_code x) as [u|]; simpl; [|done]. split; [done|]. eexists. split_and!; done.
Qed.
End theorems.

(** After 999 batches of one day the numbers repeat: compared as texts 999 is the
    greatest for ever. *)
Example sequence_repeats :
  next_sequence (text_max (λ s, code <$> chars s) ["A-001-20250117-998"; "A-001-20250117-1000"; "A-001-20250117-999"]%string) = Some 1000.
Proof. vm_compute. reflexivity. Qed.
