(* ===== verification/InventoryPages.v ===== *)
(** The inventory pages (app/features/inventory.py): the list, which a clerk sees for
    the warehouses assigned to it, and the stock check of one item.

    The join of the list with items and warehouses keeps the rows whose item and
    warehouse exist; the drop-down of items is left out. *)
From stdpp Require Import strings.
From S2P Require Import Prelude PyStr PySort ParamValidation Schema Fixtures AccessControl AccessControlProofs ReliefRequest ReliefRequestProofs RequestRoutes RequestRoutesProofs RequestRouteTheorems RequestPages.

Record InventoryPage : Type := mkInventoryPage {
  ip_items : list Inventory;
  ip_warehouses : list Warehouse
}.

(** [query.filter(column == x)], where no number and 0 filter nothing. *)
Definition chosen_is (chosen : option Z) (id : Z) : bool :=
  match chosen with Some c => (c =? 0) || (id =? c) | None => true end.

Section pages.
Context `{R : Runtime} (rx : RequestCtx).
Variable collate : string → list Z.
Variable pick_rows : gmap (Z * Z) Inventory → list Inventory.

(** [[w.warehouse_id for w in current_user.warehouses]]. *)
Definition user_warehouse_ids : list Z := match rx_user rx with Some u => su_warehouse_ids u | None => [] end.

Definition in_join (d : DB) (i : Inventory) : bool :=
  bool_decide (is_Some (db_item d !! inv_item_id i)) && bool_decide (is_Some (db_warehouse d !! inv_inventory_id i)).

Definition inventory_rows (d : DB) (scope : option (list Z)) (warehouse_id item_id : option Z) : list Inventory :=
  List.filter (λ i, in_join d i && match scope with Some ids => bool_decide (inv_inventory_id i ∈ ids) | None => true end &&
    chosen_is warehouse_id (inv_inventory_id i) && chosen_is item_id (inv_item_id i) &&
    bool_decide (inv_status_code i = "A"%string)) (pick_rows (db_inventory d)).

Definition active_warehouses (d : DB) (scope : option (list Z)) : list Warehouse :=
  sorted_by (λ w, collate (wh_warehouse_name w))
    (List.filter (λ w, match scope with Some ids => bool_decide (wh_warehouse_id w ∈ ids) | None => true end &&
       bool_decide (wh_status_code w = "A"%string)) (map_to_list (db_warehouse d)).*2).

(** [args.get(name, type=int)]. *)
Definition int_param (value : option string) : option Z := value ≫= py_int.

Definition list_inventory (warehouse_id item_id : option string) : AM InventoryPage :=
  login_required rx;;
  clerk ← check rx ["INVENTORY_CLERK"%string];
  s ← m_get;
  let d := work (app_db s) in
  if clerk : bool then
    if bool_decide (user_warehouse_ids = []) then mret (mkInventoryPage [] [])
    else
      clerk_still ← check rx ["INVENTORY_CLERK"%string];
      let scope := Some user_warehouse_ids in
      mret (mkInventoryPage (inventory_rows d scope (int_param warehouse_id) (int_param item_id))
        (active_warehouses d (if clerk_still : bool then scope else None)))
  else
    clerk_now ← check rx ["INVENTORY_CLERK"%string];
    mret (mkInventoryPage (inventory_rows d None (int_param warehouse_id) (int_param item_id))
      (active_warehouses d (if clerk_now : bool then Some user_warehouse_ids else None))).

Inductive StockAnswer : Type := MissingIds | Available (available_qty reserved_qty defective_qty : Z).

(** The page of the stock check has no guard but the login. *)
Definition stock_check (warehouse_id item_id : option string) : AM StockAnswer :=
  login_required rx;;
  s ← m_get;
  mret (match int_param warehouse_id, int_param item_id with
  | Some w, Some i =>
      if (w =? 0) || (i =? 0) then MissingIds
      else match db_inventory (work (app_db s)) !! (w, i) with
           | Some inv =>
               if bool_decide (inv_status_code inv = "A"%string)
               then Available (usable_qty (inv_stock inv)) (reserved_qty (inv_stock inv)) (defective_qty (inv_stock inv))
               else Available 0 0 0
           | None => Available 0 0 0
           end
  | _, _ => MissingIds
  end).

Lemma inventory_rows_scope d scope w i x : x ∈ inventory_rows d scope w i →
  inv_status_code x = "A"%string ∧ x ∈ pick_rows (db_inventory d) ∧
  match scope with Some ids => inv_inventory_id x ∈ ids | None => True end.
Proof.
  unfold inventory_rows. rewrite list_elem_of_In, filter_In, <- list_elem_of_In, !andb_true_iff, !bool_decide_eq_true.
  intros (Hin & (((_ & Hs) & _) & _) & Ha). split_and!; [done|done|]. destruct scope; [by apply bool_decide_eq_true in Hs|done].
Qed.

Lemma warehouses_scope d scope x : x ∈ active_warehouses d scope →
  wh_status_code x = "A"%string ∧ match scope with Some ids => wh_warehouse_id x ∈ ids | None => True end.
Proof.
  unfold active_warehouses. rewrite elem_of_sorted_by, list_elem_of_In, filter_In, andb_true_iff, bool_decide_eq_true.
  intros (_ & Hs & Ha). split; [done|]. destruct scope; [by apply bool_decide_eq_true in Hs|done].
Qed.

(** A clerk sees the stock and the sites of the warehouses assigned to it and of no
    other, whatever it asks for; every other user sees all. *)
Theorem clerk_sees_own_sites c d w i page :
  (list_inventory w i (mkApp c (session_of d))).2 = inr page →
  is_authenticated (rx_user rx) = true ∧
  (∀ x, x ∈ ip_items page → inv_status_code x = "A"%string ∧ x ∈ pick_rows (db_inventory d)) ∧
  (has_role rx c "INVENTORY_CLERK" →
   (∀ x, x ∈ ip_items page → inv_inventory_id x ∈ user_warehouse_ids) ∧
   (∀ x, x ∈ ip_warehouses page → wh_warehouse_id x ∈ user_warehouse_ids)) ∧
  (¬ has_role rx c "INVENTORY_CLERK" → ip_items page = inventory_rows d None (int_param w) (int_param i)).
Proof.
  unfold list_inventory, login_required. destruct (is_authenticated (rx_user rx)); [|done]. simpl negb. cbn [m_fail_if].
  rewrite run_bind. cbn [m_ret]. rewrite run_bind.
  destruct (check_one rx "INVENTORY_CLERK" (mkApp c (session_of d))) as (c1 & b & -> & Hf & Hb); [by vm_compute|].
  simpl in Hf, Hb. rewrite run_bind. cbn [m_get]. cbn [app_db work session_of].
  assert (∀ s, app_cache s = c1 → ∃ c2, check rx ["INVENTORY_CLERK"%string] s = (mkApp c2 (app_db s), inr b)) as Hagain.
  { intros s Hs. destruct (check_one rx "INVENTORY_CLERK" s) as (c2 & b2 & Hrun & _ & Hb2); [by vm_compute|].
    exists c2. rewrite Hrun. do 2 f_equal. rewrite Hs in Hb2. apply eq_true_iff_eq. rewrite Hb2, Hb. split; by apply has_role_force. }
  destruct b.
  - destruct (bool_decide (user_warehouse_ids = [])) eqn:Hnil.
    + cbn. intros [= <-]. simpl. split_and!; [done|by intros ? ?%not_elem_of_nil| |].
      * by split; intros ? ?%not_elem_of_nil.
      * intros Hn. by destruct (Hn (proj1 Hb eq_refl)).
    + rewrite run_bind. destruct (Hagain (mkApp c1 (session_of d)) eq_refl) as [c2 ->]. cbn. intros [= <-]. simpl.
      split_and!; [done| | |intros Hn; by destruct (Hn (proj1 Hb eq_refl))].
      * intros x Hx%inventory_rows_scope. tauto.
      * intros _. split; [intros x Hx%inventory_rows_scope|intros x Hx%warehouses_scope]; tauto.
  - rewrite run_bind. destruct (Hagain (mkApp c1 (session_of d)) eq_refl) as [c2 ->]. cbn. intros [= <-]. simpl.
    split_and!; [done| |intros Hr; by apply Hb in Hr|done]. intros x Hx%inventory_rows_scope. tauto.
Qed.
End pages.
