(* ===== verification/Beneficiaries.v ===== *)
(** Beneficiaries of the last mile (app/features/beneficiaries.py): individuals and
    shelters, their form, and what the table of
    migrations/2025_12_22_lastmile_hsa_beneficiary_full.sql asks of a row.

    The table of humanitarian agencies a row may refer to is that of the migration, not
    the warehouses the form offers; it, these warehouses, the agencies and the parishes
    are kept as the keys they have.  Column [parish_code] refers to nothing there.

    The edit page is the template with its drop-down lists and the script that formats
    the phone number when the page opens; what a browser makes of the text of a field
    is a parameter.  The page of [create] and the labels of lists are left out.

    What the beneficiary screens promise: which calls succeed and what they store, how
    the rows stay kept, and what the edit page gives back of a row. *)
From stdpp Require Import strings.
From Stdlib Require Import Ascii String.
From S2P Require Import Prelude PyStr PySort ParamValidation Schema Columns AccessControl Web Catalogue CatalogueForms CatalogueLists CatalogueEffects PathSafety Phone.

Record Beneficiary : Type := mkBeneficiary {
  bn_beneficiary_id : Z;
  bn_beneficiary_type : string;
  bn_beneficiary_name : string;
  bn_given_name : option string;
  bn_family_name : option string;
  bn_phone_no : option string;
  bn_email_text : option string;
  bn_parish_code : option string;
  bn_community_text : option string;
  bn_address1_text : option string;
  bn_address2_text : option string;
  bn_registered_hsa_id : option Z;
  bn_shelter_agency_id : option Z;
  bn_status_code : string;
  bn_notes : option string;
  bn_audit : Audit
}.

Definition BENEFICIARY_TYPES : list string := ["INDIVIDUAL"; "SHELTER"]%string.

(** * The table *)

Record BenDB : Type := mkBenDB {
  bd_rows : gmap Z Beneficiary;
  bd_hsas : list Z;
  bd_agencies : list Z;
  bd_parishes : list string;
  bd_hsa_warehouses : list Z      (* the warehouses of tier HSA *)
}.

Definition set_bd_rows (m : gmap Z Beneficiary) (d : BenDB) : BenDB := mkBenDB m (bd_hsas d) (bd_agencies d) (bd_parishes d) (bd_hsa_warehouses d).

Definition beneficiary_fits (b : Beneficiary) : bool :=
  varchar 12 (bn_beneficiary_type b) && varchar 160 (bn_beneficiary_name b) && varchar_opt 80 (bn_given_name b) &&
  varchar_opt 80 (bn_family_name b) && varchar_opt 20 (bn_phone_no b) && varchar_opt 100 (bn_email_text b) &&
  varchar_opt 2 (bn_parish_code b) && varchar_opt 120 (bn_community_text b) && varchar_opt 255 (bn_address1_text b) &&
  varchar_opt 255 (bn_address2_text b) && varchar 1 (bn_status_code b) && audit_fits (bn_audit b).

(** [c_beneficiary_type], [c_beneficiary_status] and [c_beneficiary_required_fields]. *)
Definition beneficiary_checks (b : Beneficiary) : bool :=
  status_ok (bn_status_code b) &&
  (bool_decide (bn_beneficiary_type b = "INDIVIDUAL"%string) && is_some (bn_given_name b) && is_some (bn_family_name b) ||
   bool_decide (bn_beneficiary_type b = "SHELTER"%string) && negb (is_some (bn_given_name b)) && negb (is_some (bn_family_name b))).

(** A reference is NULL or one of the keys. *)
Definition refers (keys : list Z) (id : option Z) : bool :=
  match id with Some i => bool_decide (i ∈ keys) | None => true end.

(** No other row has the shelter agency; NULL equals nothing. *)
Definition agency_free (d : BenDB) (b : Beneficiary) : bool :=
  forallb (λ p : Z * Beneficiary, bool_decide (p.1 = bn_beneficiary_id b) ||
     match bn_shelter_agency_id b with Some a => negb (bool_decide (bn_shelter_agency_id p.2 = Some a)) | None => true end)
    (map_to_list (bd_rows d)).

Definition beneficiary_ok (d : BenDB) (b : Beneficiary) : bool :=
  beneficiary_checks b && refers (bd_hsas d) (bn_registered_hsa_id b) && refers (bd_agencies d) (bn_shelter_agency_id b) &&
  agency_free d b.

(** [CHAR(n)] pads a value with spaces. *)
Definition padded (n : nat) (s : string) : string :=
  s +:+ of_chars (replicate (n - String.length s) " "%char).

Definition stored_beneficiary (b : Beneficiary) : Beneficiary :=
  mkBeneficiary (bn_beneficiary_id b) (bn_beneficiary_type b) (bn_beneficiary_name b) (bn_given_name b) (bn_family_name b)
    (bn_phone_no b) (bn_email_text b) (padded 2 <$> bn_parish_code b) (bn_community_text b) (bn_address1_text b)
    (bn_address2_text b) (bn_registered_hsa_id b) (bn_shelter_agency_id b) (bn_status_code b) (bn_notes b) (bn_audit b).

(** The constraints of a row that is written, and the key of a new one. *)
Definition takes (new : bool) (d : BenDB) (b : Beneficiary) : bool :=
  beneficiary_ok d b && negb (new && is_some (bd_rows d !! bn_beneficiary_id b)).

(** A value too long is a [DataError], a violated constraint an [IntegrityError]. *)
Definition put_beneficiary (new : bool) (b : Beneficiary) : BM BenDB unit :=
  m_fail_if (negb (beneficiary_fits b)) WCrashed;;
  d ← m_get;
  m_fail_if (negb (takes new d b)) WAborted;;
  m_modify (set_bd_rows (<[bn_beneficiary_id b := stored_beneficiary b]> (bd_rows d))).

(** * The form *)

Definition validate_beneficiary_data (f : Form) : list string :=
  err (negb (bool_decide (field f "beneficiary_type" ∈ BENEFICIARY_TYPES))) "beneficiary_type" ++
  err (required 120 (field f "beneficiary_name")) "beneficiary_name" ++
  err (blank (field f "parish_code")) "parish_code" ++
  err (longer 20 (field f "phone_no")) "phone_no" ++
  err (longer 100 (field f "email_text")) "email_text".

(** [safe_id(...)], where no id and zero are None. *)
Definition positive_id (value : option string) : option Z :=
  let i := safe_id value 0 in if i <=? 0 then None else Some i.

Definition beneficiary_of (id : Z) (f : Form) (a : Audit) : Beneficiary :=
  mkBeneficiary id (field f "beneficiary_type") (upper (field f "beneficiary_name"))
    (some_text (upper (field f "given_name"))) (some_text (upper (field f "family_name")))
    (some_text (field f "phone_no")) (some_text (field f "email_text")) (Some (field f "parish_code"))
    (some_text (field f "community_text")) (some_text (field f "address1_text")) (some_text (field f "address2_text"))
    (positive_id (f !! "registered_hsa_id"%string)) (positive_id (f !! "shelter_agency_id"%string))
    (strip (default "A"%string (f !! "status_code"%string))) (some_text (field f "notes")) a.

(** * The handlers *)

Record BenCtx : Type := mkBenCtx {
  bx_user : option SessionUser;
  bx_now : Z;
  bx_new_id : Z
}.

(** The [try] of [create]: a violated constraint, whichever it is, is taken for a name
    that is taken; no constraint asks for different names. *)
Definition try_insert (m : BM BenDB unit) : WM BenDB unit := λ s,
  match transaction m s with
  | (s', inl WAborted) => (s', inl (WRefused "A beneficiary with this name already exists."))
  | (s', inl e) => (s', inl (caught e))
  | r => r
  end.

Section handlers.
Context {L : Locale} (bx : BenCtx).

Definition open_lastmile : WM BenDB unit := on_web_cache (feature_required (bx_user bx) "lastmile_management").

Definition ben_audit_user : BM BenDB string := m_some (u ← bx_user bx; audit_id (su_user_name u)) WCrashed.

Definition valid_beneficiary (f : Form) : WM BenDB unit :=
  m_fail_if (negb (bool_decide (validate_beneficiary_data f = []))) (WRefused "invalid form").

Definition create (f : Form) : WM BenDB unit :=
  open_lastmile;;
  valid_beneficiary f;;
  try_insert (u ← ben_audit_user; put_beneficiary true (beneficiary_of (bx_new_id bx) f (new_audit u (bx_now bx)))).

Definition find_beneficiary (i : Z) : WM BenDB Beneficiary :=
  d ← on_web_db id; m_some (bd_rows d !! i) WNotFound.

Definition edit (beneficiary_id : Z) (f : Form) : WM BenDB unit :=
  open_lastmile;;
  b ← find_beneficiary beneficiary_id;
  m_fail_if (negb (bool_decide (submitted_version f = Some (version_nbr (bn_audit b))))) (WRefused "modified by another user");;
  valid_beneficiary f;;
  try_transaction (u ← ben_audit_user;
    put_beneficiary false (beneficiary_of (bn_beneficiary_id b) f (touch u (bx_now bx) (bn_audit b)))).

Definition view (beneficiary_id : Z) : WM BenDB Beneficiary :=
  open_lastmile;; find_beneficiary beneficiary_id.

(** The GET of [edit]: the row and the choices of the lists. *)
Record EditPage : Type := mkEditPage {
  ep_beneficiary : Beneficiary;
  ep_parishes : list string;
  ep_hsa_warehouses : list Z;
  ep_agencies : list Z
}.

Definition ben_edit_page (beneficiary_id : Z) : WM BenDB EditPage :=
  open_lastmile;;
  b ← find_beneficiary beneficiary_id;
  d ← on_web_db id;
  mret (mkEditPage b (bd_parishes d) (bd_hsa_warehouses d) (bd_agencies d)).

Definition of_type (type : string) (b : Beneficiary) : bool := bool_decide (bn_beneficiary_type b = type).
Definition active (b : Beneficiary) : bool := bool_decide (bn_status_code b = "A"%string).

Definition list_beneficiaries (q : Form) : WM BenDB (CatList Beneficiary) :=
  open_lastmile;;
  d ← on_web_db id;
  let all := (map_to_list (bd_rows d)).*2 in
  let filter_type := arg q "filter" "all" in
  mret (list_page all
    (λ b, (if bool_decide (filter_type = "individual"%string) then of_type "INDIVIDUAL" b
           else if bool_decide (filter_type = "shelter"%string) then of_type "SHELTER" b
           else if bool_decide (filter_type = "active"%string) then active b else true) &&
          matches_search (search_of q)
            [Some (bn_beneficiary_name b); bn_given_name b; bn_family_name b; bn_community_text b])
    (λ b, collate (bn_beneficiary_name b))
    [("total", Z.of_nat (List.length all)); ("individual", count_rows (of_type "INDIVIDUAL") all);
     ("shelter", count_rows (of_type "SHELTER") all); ("active", count_rows active all)]%string).
End handlers.

(** The requests that can change a row. *)
Inductive BenCall : Type := Create (f : Form) | Edit (beneficiary_id : Z) (f : Form).

Definition is_new (c : BenCall) : bool := match c with Create _ => true | Edit _ _ => false end.

Definition ben_call {L : Locale} (bx : BenCtx) (c : BenCall) : WM BenDB unit :=
  match c with Create f => create bx f | Edit id f => edit bx id f end.

(** * The edit page *)

(** [formatPhoneNumber] of static/js/phone-mask.js, on digits. *)
Definition js_format_phone (digits : text) : text :=
  let limited := take 10 digits in
  chars "+1 " ++
  if (0 <? length limited)%nat then
    chars "(" ++ take 3 limited ++
    if (3 <=? length limited)%nat then
      chars ") " ++ take 3 (drop 3 limited) ++
      if (6 <=? length limited)%nat then chars "-" ++ take 4 (drop 6 limited) else []
    else []
  else [].

(** [initPhoneMask]: the value of the field once the page is open. *)
Definition phone_mask (value : text) : text :=
  if bool_decide (value = []) then chars "+1 ("
  else if starts_with (chars "+1") value then value
  else let digits := digits_of value in
    if (0 <? length digits)%nat then js_format_phone digits else chars "+1 (".

(** The choice a list shows: the value, or the empty first choice. *)
Definition selected {A} `{EqDecision A} (show : A → string) (choices : list A) (value : option A) : string :=
  match value with Some x => if bool_decide (x ∈ choices) then show x else ""%string | None => "" end.

(** The list of statuses has no empty choice: the first one stands for it. *)
Definition selected_status (status_code : string) : string :=
  if bool_decide (status_code ∈ ["A"; "I"]%string) then status_code else "A".

Section page.
(** What a browser makes of the text of a field of one line, and of several. *)
Variable input_value area_value : string → string.

Definition shown (o : option string) : string := input_value (default ""%string o).

(** The form of templates/beneficiaries/edit.html as the page shows it, sent as it is. *)
Definition form_of (page : EditPage) : Form :=
  let b := ep_beneficiary page in
  list_to_map
    [("version_nbr", py_str (version_nbr (bn_audit b)));
     ("beneficiary_type", selected id BENEFICIARY_TYPES (Some (bn_beneficiary_type b)));
     ("beneficiary_name", input_value (bn_beneficiary_name b));
     ("given_name", shown (bn_given_name b)); ("family_name", shown (bn_family_name b));
     ("phone_no", of_chars (phone_mask (chars (shown (bn_phone_no b))))); ("email_text", shown (bn_email_text b));
     ("parish_code", selected id (ep_parishes page) (bn_parish_code b)); ("community_text", shown (bn_community_text b));
     ("address1_text", shown (bn_address1_text b)); ("address2_text", shown (bn_address2_text b));
     ("registered_hsa_id", selected py_str (ep_hsa_warehouses page) (bn_registered_hsa_id b));
     ("shelter_agency_id", selected py_str (ep_agencies page) (bn_shelter_agency_id b));
     ("status_code", selected_status (bn_status_code b)); ("notes", area_value (default ""%string (bn_notes b)))]%string.
End page.

(** * Calls *)

Definition lastmile_user (bx : BenCtx) : Prop :=
  is_authenticated (bx_user bx) = true ∧ has_access (bx_user bx) "lastmile_management" = true.

Definition ben_actor (bx : BenCtx) (u : string) : Prop := ∃ su, bx_user bx = Some su ∧ audit_id (su_user_name su) = Some u.

(** The row a call asks for, by the name [u] of its user. *)
Definition asked_row (bx : BenCtx) (c : BenCall) (d : BenDB) (u : string) (b : Beneficiary) : Prop :=
  match c with
  | Create f => validate_beneficiary_data f = [] ∧ b = beneficiary_of (bx_new_id bx) f (new_audit u (bx_now bx))
  | Edit i f => ∃ b0, bd_rows d !! i = Some b0 ∧ submitted_version f = Some (version_nbr (bn_audit b0)) ∧
      validate_beneficiary_data f = [] ∧ b = beneficiary_of (bn_beneficiary_id b0) f (touch u (bx_now bx) (bn_audit b0))
  end.

Definition with_row (b : Beneficiary) (d : BenDB) : BenDB :=
  set_bd_rows (<[bn_beneficiary_id b := stored_beneficiary b]> (bd_rows d)) d.

Section calls.
Context {L : Locale} (bx : BenCtx).

Lemma open_lastmile_ok {A} (k : WM BenDB A) s b s' :
  run_ok (open_lastmile bx;; k) s b s' ↔ lastmile_user bx ∧ run_ok k s b s'.
Proof.
  unfold lastmile_user. destruct s as [c d]. unfold run_ok, open_lastmile, on_web_cache, feature_required. rewrite run_bind. simpl.
  destruct (is_authenticated (bx_user bx)); simpl; [|naive_solver].
  destruct (has_access (bx_user bx) "lastmile_management"); simpl; naive_solver.
Qed.

Lemma put_ok new b d d' : run_ok (put_beneficiary new b) d tt d' ↔
  beneficiary_fits b = true ∧ takes new d b = true ∧ d' = with_row b d.
Proof.
  unfold put_beneficiary. rewrite run_fail_if, negb_false_iff, body_get, run_fail_if, negb_false_iff, body_modify. done.
Qed.

Lemma author_put_ok new (g : string → Beneficiary) d d' :
  run_ok (u ← ben_audit_user bx; put_beneficiary new (g u)) d tt d' ↔
  ∃ u, ben_actor bx u ∧ beneficiary_fits (g u) = true ∧ takes new d (g u) = true ∧ d' = with_row (g u) d.
Proof.
  unfold ben_audit_user, ben_actor. rewrite run_some. setoid_rewrite bind_Some. setoid_rewrite put_ok. naive_solver.
Qed.

Lemma try_insert_ok (m : BM BenDB unit) s s' :
  run_ok (try_insert m) s tt s' ↔ ∃ d, run_ok m (web_db s) tt d ∧ s' = mkWeb (web_cache s) d.
Proof.
  rewrite <- transaction_ok. unfold run_ok, try_insert. destruct (transaction m s) as [s1 [[]|x]]; naive_solver.
Qed.

Lemma atomic_insert (m : BM BenDB unit) : atomic (try_insert m).
Proof. intros s. unfold try_insert, transaction. by destruct (m (web_db s)) as [d [[]|a]]. Qed.

Lemma find_beneficiary_ok {A} i (k : Beneficiary → WM BenDB A) s b s' :
  run_ok (r ← find_beneficiary i; k r) s b s' ↔ ∃ r, bd_rows (web_db s) !! i = Some r ∧ run_ok (k r) s b s'.
Proof.
  unfold run_ok, find_beneficiary. rewrite !run_bind. simpl. destruct (bd_rows (web_db s) !! i); simpl; naive_solver.
Qed.

Lemma valid_beneficiary_ok {A} f (k : WM BenDB A) s b s' :
  run_ok (valid_beneficiary f;; k) s b s' ↔ validate_beneficiary_data f = [] ∧ run_ok k s b s'.
Proof. unfold valid_beneficiary. by rewrite run_fail_if, negb_false_iff, bool_decide_eq_true. Qed.
Lemma atomic_call c : atomic (ben_call bx c).
Proof.
  destruct c as [f|i f]; unfold ben_call, create, edit, open_lastmile, valid_beneficiary, find_beneficiary;
    repeat (apply atomic_bind; [eauto 4 with web|intros ?]); auto using atomic_insert with web.
Qed.

(** A row that fits its columns and violates a constraint. *)
Lemma put_refused (g : string → Beneficiary) u s : ben_actor bx u → beneficiary_fits (g u) = true →
  takes true (web_db s) (g u) = false →
  (try_insert (u ← ben_audit_user bx; put_beneficiary true (g u)) s).2 =
    inl (WRefused "A beneficiary with this name already exists.").
Proof.
  intros (su & Hsu & Hu) Hfits Hok. unfold try_insert, transaction, ben_audit_user. rewrite run_bind, Hsu. simpl.
  rewrite Hu. simpl. unfold put_beneficiary. rewrite run_bind, Hfits. simpl. unfold m_ret. rewrite run_bind. simpl.
  by rewrite run_bind, Hok.
Qed.

Lemma refused_row f u s : lastmile_user bx → ben_actor bx u → validate_beneficiary_data f = [] →
  let b := beneficiary_of (bx_new_id bx) f (new_audit u (bx_now bx)) in
  beneficiary_fits b = true → takes true (web_db s) b = false →
  (create bx f s).2 = inl (WRefused "A beneficiary with this name already exists.").
Proof.
  cbv zeta. intros [Ha Hf] Hu Hv Hfits Hok.
  pose proof (put_refused (λ u, beneficiary_of (bx_new_id bx) f (new_audit u (bx_now bx))) u s Hu Hfits Hok) as H.
  unfold create. rewrite run_bind. unfold open_lastmile, on_web_cache, feature_required. rewrite run_bind, Ha.
  cbn -[beneficiary_of]. rewrite Hf. cbn -[beneficiary_of]. rewrite run_bind. unfold valid_beneficiary.
  rewrite bool_decide_true by done. cbn -[beneficiary_of]. by destruct s.
Qed.
End calls.

(** The calls that succeed, and what they store. *)
Lemma call_ok {L : Locale} bx c s s' :
  run_ok (ben_call bx c) s tt s' ↔
  lastmile_user bx ∧ ∃ u b, ben_actor bx u ∧ asked_row bx c (web_db s) u b ∧
    beneficiary_fits b = true ∧ takes (is_new c) (web_db s) b = true ∧ s' = mkWeb (web_cache s) (with_row b (web_db s)).
Proof.
  destruct c as [f|i f]; unfold ben_call, create, edit; rewrite open_lastmile_ok.
  - rewrite valid_beneficiary_ok, try_insert_ok. setoid_rewrite author_put_ok. unfold asked_row. naive_solver.
  - rewrite find_beneficiary_ok. setoid_rewrite run_fail_if. setoid_rewrite valid_beneficiary_ok.
    setoid_rewrite try_transaction_ok. setoid_rewrite author_put_ok. setoid_rewrite negb_false_iff.
    setoid_rewrite bool_decide_eq_true. unfold asked_row. naive_solver.
Qed.

(** A form of another version than the stored one. *)
Lemma stale_refused {L : Locale} bx i f s b : lastmile_user bx → bd_rows (web_db s) !! i = Some b →
  submitted_version f ≠ Some (version_nbr (bn_audit b)) →
  (ben_call bx (Edit i f) s).2 = inl (WRefused "modified by another user").
Proof.
  intros [Ha Hf] Hi Hv. destruct s as [c d]. simpl in Hi. unfold ben_call, edit. rewrite run_bind.
  unfold open_lastmile, on_web_cache, feature_required. rewrite run_bind, Ha. cbn -[beneficiary_of]. rewrite Hf.
  cbn -[beneficiary_of]. rewrite run_bind. unfold find_beneficiary. rewrite run_bind. cbn -[beneficiary_of]. rewrite Hi.
  cbn -[beneficiary_of]. rewrite run_bind, bool_decide_false by done. done.
Qed.

(** A beneficiary is created or edited exactly when the user has the feature and a
    usable name, the form is valid, an edit names the stored version, and the table
    takes the row; then that one row is the form's, stamped with the user, and nothing
    else changes.  Every other call stores nothing.  A row the table refuses for any
    constraint (an individual without a family name, an agency that has a shelter, an
    unknown agency) is answered on creation by the message that the name exists, which
    no constraint asks. *)
Theorem beneficiary_call_correct {L : Locale} bx c s s' :
  (run_ok (ben_call bx c) s tt s' ↔
   lastmile_user bx ∧ ∃ u b, ben_actor bx u ∧ asked_row bx c (web_db s) u b ∧
     beneficiary_fits b = true ∧ takes (is_new c) (web_db s) b = true ∧ s' = mkWeb (web_cache s) (with_row b (web_db s))) ∧
  (∀ e, (ben_call bx c s).2 = inl e → web_db (ben_call bx c s).1 = web_db s) ∧
  (∀ f u b, c = Create f → lastmile_user bx → ben_actor bx u → asked_row bx c (web_db s) u b →
     beneficiary_fits b = true → takes true (web_db s) b = false →
     (ben_call bx c s).2 = inl (WRefused "A beneficiary with this name already exists.")).
Proof.
  split_and!.
  - apply call_ok.
  - pose proof (atomic_call bx c s) as H. destruct (ben_call bx c s) as [s1 [e|[]]]; [done|by intros ?].
  - intros f u b -> Huse Hu [Hv ->] Hfits Hok. by apply (refused_row bx f u).
Qed.

(** * The edit page gives a row back *)

Definition text_kept (s : string) : Prop := strip s = s ∧ s ≠ ""%string.
Definition text_opt (s : option string) : Prop := match s with Some s => text_kept s | None => True end.
Definition upper_opt (s : option string) : Prop := match s with Some s => upper s = s | None => True end.

(** A key of an integer column that counts from one. *)
Definition int_key (k : Z) : Prop := 0 < k < 2 ^ 31.

(** What holds of a stored row beside the constraints: its texts are stripped and not
    empty, its names in upper case, its parish padded. *)
Record kept_row (d : BenDB) (i : Z) (b : Beneficiary) : Prop := {
  kr_id : bn_beneficiary_id b = i;
  kr_fits : beneficiary_fits b = true;
  kr_checks : beneficiary_checks b = true;
  kr_refers : refers (bd_hsas d) (bn_registered_hsa_id b) = true ∧ refers (bd_agencies d) (bn_shelter_agency_id b) = true;
  kr_name : text_kept (bn_beneficiary_name b) ∧ upper (bn_beneficiary_name b) = bn_beneficiary_name b;
  kr_names : text_opt (bn_given_name b) ∧ text_opt (bn_family_name b) ∧ upper_opt (bn_given_name b) ∧ upper_opt (bn_family_name b);
  kr_texts : Forall text_opt [bn_phone_no b; bn_email_text b; bn_community_text b; bn_address1_text b; bn_address2_text b; bn_notes b];
  kr_parish : ∃ p, text_kept p ∧ bn_parish_code b = Some (padded 2 p);
  kr_version : 0 < version_nbr (bn_audit b)
}.

Definition ben_sound (d : BenDB) : Prop :=
  Forall int_key (bd_hsas d) ∧ Forall int_key (bd_agencies d) ∧ map_Forall (kept_row d) (bd_rows d) ∧
  ∀ i j b1 b2 a, bd_rows d !! i = Some b1 → bd_rows d !! j = Some b2 →
    bn_shelter_agency_id b1 = Some a → bn_shelter_agency_id b2 = Some a → i = j.

Definition set_bn_audit (a : Audit) (b : Beneficiary) : Beneficiary :=
  mkBeneficiary (bn_beneficiary_id b) (bn_beneficiary_type b) (bn_beneficiary_name b) (bn_given_name b) (bn_family_name b)
    (bn_phone_no b) (bn_email_text b) (bn_parish_code b) (bn_community_text b) (bn_address1_text b)
    (bn_address2_text b) (bn_registered_hsa_id b) (bn_shelter_agency_id b) (bn_status_code b) (bn_notes b) a.

(** ** Fields read again *)

Lemma text_again o : text_opt o → some_text (strip (default ""%string o)) = o.
Proof.
  unfold some_text. destruct o as [s|]; simpl; [|done]. intros [Hs Hne]. rewrite Hs. by rewrite bool_decide_false.
Qed.

Lemma upper_again o : text_opt o → upper_opt o → some_text (upper (strip (default ""%string o))) = o.
Proof.
  unfold some_text. destruct o as [s|]; simpl; [|done]. intros [Hs Hne] Hu. rewrite Hs, Hu. by rewrite bool_decide_false.
Qed.

Lemma small_numeral z : 0 < z < 2 ^ 31 → py_int (py_str z) = Some z.
Proof.
  intros Hz. apply py_int_str. etransitivity; [|apply (Z.pow_lt_mono_r 10 10 MAX_STR_DIGITS); by unfold MAX_STR_DIGITS]. lia.
Qed.

Lemma id_again keys o : Forall int_key keys → refers keys o = true → positive_id (Some (selected py_str keys o)) = o.
Proof.
  intros Hk. destruct o as [i|]; [|done]. simpl. rewrite bool_decide_eq_true. intros Hi.
  rewrite bool_decide_true by done. rewrite Forall_forall in Hk. specialize (Hk i Hi). unfold int_key in Hk.
  unfold positive_id, safe_id, safe_int, bounded_int. cbn [mbind option_bind]. rewrite small_numeral by done.
  simpl. rewrite Z.max_l by lia. destruct (i <=? 0) eqn:E; z_bool; [lia|done].
Qed.

(** A key that is not offered is sent back empty. *)
Definition offered (choices : list Z) (o : option Z) : option Z :=
  match o with Some i => if bool_decide (i ∈ choices) then Some i else None | None => None end.

Lemma offered_again keys choices o : Forall int_key keys → refers keys o = true →
  positive_id (Some (selected py_str choices o)) = offered choices o.
Proof.
  intros Hk Hr. destruct o as [i|]; [|done]. simpl. case_bool_decide as Hi; [|done].
  pose proof (id_again keys (Some i) Hk Hr) as H. simpl in H. simpl in Hr. by rewrite Hr in H.
Qed.

Lemma offered_twice choices o : offered choices (offered choices o) = offered choices o.
Proof. destruct o as [i|]; [|done]. simpl. case_bool_decide; [|done]. simpl. by rewrite bool_decide_true. Qed.

Lemma drop_all sp l : Forall (λ c, is_space c = true) sp → drop_spaces (sp ++ l) = drop_spaces l.
Proof. induction 1 as [|c sp Hc H IH]; [done|]. simpl. by rewrite Hc. Qed.

Lemma strip_padded n p : text_kept p → strip (padded n p) = p.
Proof.
  intros [Hs Hne]. unfold padded. set (m := (n - String.length p)%nat).
  set (l := chars p). assert (rdrop_spaces (drop_spaces l) = l) as Hl.
  { apply (f_equal chars) in Hs. unfold strip in Hs. by rewrite chars_of_chars in Hs. }
  assert (drop_spaces l = l) as Hd.
  { rewrite <- Hl at 1. rewrite drop_rdrop by apply drop_spaces_idemp. done. }
  assert (∃ c l', l = c :: l') as (c & l' & Hc) by (subst l; destruct p; [done|]; eauto).
  assert (is_space c = false) as Hns by (eapply (drop_spaces_head l); by rewrite Hd).
  unfold strip. rewrite chars_app, chars_of_chars. fold l.
  rewrite (drop_spaces_nonspace (l ++ _) c (l' ++ replicate m " "%char)) by (by rewrite ?Hc).
  unfold rdrop_spaces. rewrite reverse_app, drop_all.
  - unfold rdrop_spaces in Hl. rewrite Hd in Hl. rewrite Hl. subst l. apply of_chars_chars.
  - apply Forall_reverse, Forall_replicate. done.
Qed.

(** ** The phone number *)

Definition masked_phone (o : option string) : option string :=
  some_text (strip (of_chars (phone_mask (chars (default ""%string o))))).

Definition has_plus_one (l : text) : Prop := ∃ l', l = chars "+1" ++ l'.

Lemma mask_plus_one l : has_plus_one (phone_mask l).
Proof.
  unfold phone_mask. case_bool_decide; [by eexists|]. destruct (starts_with (chars "+1") l) eqn:E.
  - by apply bool_decide_eq_true in E as [l' ->]; eexists.
  - case_match; [|by eexists]. unfold js_format_phone. by eexists (_ :: _).
Qed.

Lemma mask_kept l : has_plus_one l → phone_mask l = l.
Proof.
  intros [l' ->]. unfold phone_mask. rewrite bool_decide_eq_false_2 by done.
  assert (starts_with (chars "+1") (chars "+1" ++ l') = true) as -> by (apply bool_decide_eq_true; by eexists). done.
Qed.

Lemma drop_spaces_stop x c y : is_space c = false → ∃ z, drop_spaces (x ++ c :: y) = z ++ c :: y.
Proof.
  intros Hc. induction x as [|d x [z Hz]]; simpl; [exists []; by rewrite Hc|].
  destruct (is_space d); [by eexists|by exists (d :: x)].
Qed.

Lemma strip_plus_one s : has_plus_one (chars s) → has_plus_one (chars (strip s)).
Proof.
  intros [l' Hl]. unfold strip. rewrite Hl, chars_of_chars. cbn [chars app]. simpl. unfold rdrop_spaces.
  rewrite !reverse_cons, <- app_assoc. simpl.
  destruct (drop_spaces_stop (reverse l') "1"%char ["+"%char]) as [z ->]; [done|].
  exists (reverse z). by rewrite reverse_app.
Qed.

Lemma masked_some o : ∃ p, masked_phone o = Some p ∧ has_plus_one (chars p) ∧ text_kept p.
Proof.
  unfold masked_phone. set (m := of_chars _). assert (has_plus_one (chars (strip m))) as Hm.
  { apply strip_plus_one. unfold m. rewrite chars_of_chars. apply mask_plus_one. }
  assert (strip m ≠ ""%string) as Hne by (intros E; rewrite E in Hm; by destruct Hm).
  exists (strip m). unfold some_text. rewrite bool_decide_false by done. split_and!; [done..|]. split; [apply strip_idemp|done].
Qed.

Lemma masked_twice o : masked_phone (masked_phone o) = masked_phone o.
Proof.
  destruct (masked_some o) as (p & -> & Hp & Hs & Hne). unfold masked_phone. simpl.
  rewrite mask_kept, of_chars_chars, Hs by done. unfold some_text. by rewrite bool_decide_false.
Qed.

Lemma js_format_short l : (length (js_format_phone l) ≤ 20)%nat.
Proof.
  unfold js_format_phone. repeat case_match; rewrite ?length_app, ?length_take; cbn [length chars list_ascii_of_string]; lia.
Qed.

Lemma mask_short l : (length l ≤ 20)%nat → (length (phone_mask l) ≤ 20)%nat.
Proof. intros Hl. unfold phone_mask. repeat case_match; try done; [simpl; lia|apply js_format_short|simpl; lia]. Qed.

Lemma drop_spaces_short l : (length (drop_spaces l) ≤ length l)%nat.
Proof. induction l as [|c l IH]; [done|]. simpl. case_match; simpl; lia. Qed.

Lemma strip_short s : (String.length (strip s) ≤ String.length s)%nat.
Proof.
  unfold strip, rdrop_spaces. rewrite of_chars_length, length_reverse.
  etransitivity; [apply drop_spaces_short|]. rewrite length_reverse. etransitivity; [apply drop_spaces_short|].
  by rewrite <- (of_chars_chars s), of_chars_length, chars_of_chars.
Qed.

Lemma masked_fits o : varchar_opt 20 o = true → varchar_opt 20 (masked_phone o) = true.
Proof.
  intros Ho. unfold masked_phone, some_text. case_bool_decide; [done|]. simpl. unfold varchar, len in *. apply Z.leb_le.
  apply (Nat2Z.inj_le _ 20). etransitivity; [apply strip_short|]. rewrite of_chars_length. apply mask_short.
  destruct o as [p|]; simpl in *; [|lia]. rewrite <- (of_chars_length (chars p)), of_chars_chars. unfold varchar, len in Ho. z_bool. lia.
Qed.

(** ** The fields of the form of a row *)

(** The row the page gives back: without a registered agency that is not on its list,
    and with the phone number as the script formats it. *)
Definition given_back (d : BenDB) (b : Beneficiary) : Beneficiary :=
  mkBeneficiary (bn_beneficiary_id b) (bn_beneficiary_type b) (bn_beneficiary_name b) (bn_given_name b) (bn_family_name b)
    (masked_phone (bn_phone_no b)) (bn_email_text b) (bn_parish_code b) (bn_community_text b) (bn_address1_text b)
    (bn_address2_text b) (offered (bd_hsa_warehouses d) (bn_registered_hsa_id b)) (bn_shelter_agency_id b) (bn_status_code b)
    (bn_notes b) (bn_audit b).

Lemma given_back_twice d b : given_back d (given_back d b) = given_back d b.
Proof. unfold given_back. simpl. by rewrite offered_twice, masked_twice. Qed.

Lemma given_back_audit d a b : given_back d (set_bn_audit a b) = set_bn_audit a (given_back d b).
Proof. done. Qed.

(** No line ends within the text. *)
Definition one_line (s : string) : Prop := ∀ c, c ∈ chars s → code c ≠ 10 ∧ code c ≠ 13.

Definition one_line_row (b : Beneficiary) : Prop :=
  Forall (λ o, one_line (default ""%string o))
    [Some (bn_beneficiary_name b); bn_given_name b; bn_family_name b; bn_phone_no b; bn_email_text b; bn_community_text b;
     bn_address1_text b; bn_address2_text b; bn_notes b].

Section browser.
(** A browser takes a text without line ends as it is. *)
Context (input_value area_value : string → string).
Hypothesis input_kept : ∀ s, one_line s → input_value s = s.
Hypothesis area_kept : ∀ s, one_line s → area_value s = s.

Abbreviation form_of := (form_of input_value area_value).

Lemma shown_fields p b : ep_beneficiary p = b → one_line_row b →
  field (form_of p) "beneficiary_type" = strip (selected id BENEFICIARY_TYPES (Some (bn_beneficiary_type b))) ∧
  field (form_of p) "beneficiary_name" = strip (bn_beneficiary_name b) ∧
  field (form_of p) "given_name" = strip (default ""%string (bn_given_name b)) ∧
  field (form_of p) "family_name" = strip (default ""%string (bn_family_name b)) ∧
  some_text (field (form_of p) "phone_no") = masked_phone (bn_phone_no b) ∧
  field (form_of p) "email_text" = strip (default ""%string (bn_email_text b)) ∧
  field (form_of p) "parish_code" = strip (selected id (ep_parishes p) (bn_parish_code b)) ∧
  field (form_of p) "community_text" = strip (default ""%string (bn_community_text b)) ∧
  field (form_of p) "address1_text" = strip (default ""%string (bn_address1_text b)) ∧
  field (form_of p) "address2_text" = strip (default ""%string (bn_address2_text b)) ∧
  field (form_of p) "notes" = strip (default ""%string (bn_notes b)) ∧
  form_of p !! "registered_hsa_id"%string = Some (selected py_str (ep_hsa_warehouses p) (bn_registered_hsa_id b)) ∧
  form_of p !! "shelter_agency_id"%string = Some (selected py_str (ep_agencies p) (bn_shelter_agency_id b)) ∧
  form_of p !! "status_code"%string = Some (selected_status (bn_status_code b)) ∧
  form_of p !! "version_nbr"%string = Some (py_str (version_nbr (bn_audit b))).
Proof.
  intros <-. unfold one_line_row. rewrite !Forall_cons. intros (H1 & H2 & H3 & H4 & H5 & H6 & H7 & H8 & H9 & _).
  change (one_line (bn_beneficiary_name (ep_beneficiary p))) in H1.
  rewrite <- (input_kept _ H1), <- (input_kept _ H2), <- (input_kept _ H3), <- (input_kept _ H5), <- (input_kept _ H6),
    <- (input_kept _ H7), <- (input_kept _ H8), <- (area_kept _ H9). unfold masked_phone. rewrite <- (input_kept _ H4) at 1.
  split_and!; reflexivity.
Qed.

(** The form of a kept row asks for the row as the page gives it back. *)
Lemma form_gives_row d i b a p : ben_sound d → bd_rows d !! i = Some b → one_line_row b →
  p = mkEditPage b (bd_parishes d) (bd_hsa_warehouses d) (bd_agencies d) →
  (∃ c, bn_parish_code b = Some c ∧ c ∈ bd_parishes d) →
  stored_beneficiary (beneficiary_of (bn_beneficiary_id b) (form_of p) a) = set_bn_audit a (given_back d b).
Proof.
  intros (Hh & Hg & Hk & _) Hi Hl -> (c & Hc' & Hin).
  destruct (Hk i b Hi) as [_ _ Hc Hr [[Hn Hn0] Hu] (Hg1 & Hf1 & Hg2 & Hf2) Ht (q & Hq & Hqe) _].
  destruct (shown_fields (mkEditPage b (bd_parishes d) (bd_hsa_warehouses d) (bd_agencies d)) b eq_refl Hl)
    as (E1 & E2 & E3 & E4 & E5 & E6 & E7 & E8 & E9 & E10 & E11 & E12 & E13 & E14 & E15).
  rewrite !Forall_cons in Ht. destruct Ht as (T1 & T2 & T3 & T4 & T5 & T6 & _).
  unfold beneficiary_checks, status_ok in Hc. apply andb_true_iff in Hc as [Hst Hty].
  assert (strip (selected id BENEFICIARY_TYPES (Some (bn_beneficiary_type b))) = bn_beneficiary_type b) as Hty'.
  { apply orb_true_iff in Hty. rewrite !andb_true_iff, !bool_decide_eq_true in Hty. by destruct Hty as [[[-> _] _]|[[-> _] _]]. }
  assert (strip (selected_status (bn_status_code b)) = bn_status_code b) as Hst'.
  { apply bool_decide_eq_true in Hst. rewrite !elem_of_cons in Hst. destruct Hst as [->|[->|Hx]]; [done|done|by apply elem_of_nil in Hx]. }
  unfold stored_beneficiary, beneficiary_of, set_bn_audit, given_back.
  cbn [bn_beneficiary_id bn_beneficiary_type bn_beneficiary_name bn_given_name bn_family_name bn_phone_no bn_email_text bn_parish_code
    bn_community_text bn_address1_text bn_address2_text bn_registered_hsa_id bn_shelter_agency_id bn_status_code bn_notes bn_audit].
  rewrite E1, E2, E3, E4, E5, E6, E7, E8, E9, E10, E11, E12, E13, E14. cbn [ep_parishes ep_hsa_warehouses ep_agencies default].
  rewrite Hty', Hn, Hu, !upper_again, !text_again by done. cbn [from_option id]. rewrite Hst'.
  destruct Hr as [Hr1 Hr2]. rewrite (offered_again (bd_hsas d)), (id_again (bd_agencies d)) by done.
  rewrite Hqe in Hc' |- *. injection Hc' as <-. unfold selected. rewrite bool_decide_true by done. cbn [id].
  cbn -[strip padded]. by rewrite strip_padded.
Qed.

(** ** What the table takes *)

Lemma padded_length n p : String.length (padded n p) = Nat.max n (String.length p).
Proof.
  unfold padded. rewrite length_append, of_chars_length, length_replicate. lia.
Qed.

Lemma fits_stored b : beneficiary_fits (stored_beneficiary b) = beneficiary_fits b.
Proof.
  assert (varchar_opt 2 (padded 2 <$> bn_parish_code b) = varchar_opt 2 (bn_parish_code b)) as Hp.
  { destruct (bn_parish_code b) as [p|]; [|done]. simpl. unfold varchar, len. rewrite padded_length.
    apply eq_true_iff_eq. rewrite !Z.leb_le. lia. }
  unfold beneficiary_fits at 1. cbn [stored_beneficiary bn_beneficiary_type bn_beneficiary_name bn_given_name bn_family_name
    bn_phone_no bn_email_text bn_parish_code bn_community_text bn_address1_text bn_address2_text bn_status_code bn_audit].
  by rewrite Hp.
Qed.

Lemma agency_free_spec d b : agency_free d b = true ↔
  ∀ j b' a, bd_rows d !! j = Some b' → bn_shelter_agency_id b = Some a → bn_shelter_agency_id b' = Some a → j = bn_beneficiary_id b.
Proof.
  unfold agency_free. rewrite forallb_elem. split.
  - intros H j b' a Hj Ha Hb'. specialize (H (j, b') (proj2 (elem_of_map_to_list _ _ _) Hj)). simpl in H.
    rewrite Ha in H. apply orb_true_iff in H. rewrite bool_decide_eq_true, negb_true_iff, bool_decide_eq_false in H.
    by destruct H.
  - intros H [j b'] Hj. apply elem_of_map_to_list in Hj. simpl. apply orb_true_iff. rewrite bool_decide_eq_true.
    destruct (decide (j = bn_beneficiary_id b)) as [|Hne]; [by left|]. right. case_match; [|done].
    apply negb_true_iff, bool_decide_eq_false. intros Ha. by apply Hne, (H j b' _ Hj eq_refl Ha).
Qed.

Lemma ok_spec d b : beneficiary_ok d b = true ↔
  beneficiary_checks b = true ∧ refers (bd_hsas d) (bn_registered_hsa_id b) = true ∧
  refers (bd_agencies d) (bn_shelter_agency_id b) = true ∧ agency_free d b = true.
Proof. unfold beneficiary_ok. rewrite !andb_true_iff. tauto. Qed.

Lemma form_valid d i b p : kept_row d i b → len (bn_beneficiary_name b) ≤ 120 → ep_beneficiary p = b → one_line_row b →
  (∃ c, bn_parish_code b = Some c ∧ c ∈ ep_parishes p) → validate_beneficiary_data (form_of p) = [].
Proof.
  intros [_ Hfit Hc _ [[Hn Hn0] _] _ Ht (q & [Hq Hq0] & Hqe) _] Hlen Hp Hl (c & Hc' & Hin).
  destruct (shown_fields p b Hp Hl) as (E1 & E2 & _ & _ & E5 & E6 & E7 & _).
  rewrite !Forall_cons in Ht. destruct Ht as (T1 & T2 & _).
  unfold beneficiary_checks in Hc. apply andb_true_iff in Hc as [_ Hty].
  unfold beneficiary_fits in Hfit. rewrite !andb_true_iff in Hfit.
  destruct Hfit as (((((((((((_ & _) & _) & _) & Fp) & Fe) & _) & _) & _) & _) & _) & _).
  assert (∀ n s o, 0 ≤ n → some_text s = o → varchar_opt n o = true → longer n s = false) as Hlong.
  { intros n s o Hn' <-. unfold some_text, longer. destruct (decide (s = ""%string)) as [->|Hs];
      [intros _; by apply Z.ltb_ge|]. rewrite bool_decide_false by done. simpl. intros Hv%Z.leb_le. by apply Z.ltb_ge. }
  unfold validate_beneficiary_data. rewrite !app_nil_iff, !err_nil, required_false. rewrite E1, E2, E7, Hn.
  split_and!.
  - apply negb_false_iff, bool_decide_eq_true. apply orb_true_iff in Hty. rewrite !andb_true_iff, !bool_decide_eq_true in Hty.
    destruct Hty as [[[-> _] _]|[[-> _] _]]; [left|right; left].
  - done.
  - done.
  - rewrite Hqe in Hc' |- *. injection Hc' as <-. unfold selected. rewrite bool_decide_true by done. cbn [id].
    rewrite strip_padded by done. unfold blank. by apply bool_decide_eq_false.
  - apply (Hlong 20 _ (masked_phone (bn_phone_no b))); [done|exact E5|by apply masked_fits].
  - rewrite E6. apply (Hlong 100 _ (bn_email_text b)); [done|by apply text_again|done].
Qed.

(** Without its parish on the list the form is refused. *)
Lemma form_without_parish p b : ep_beneficiary p = b → one_line_row b →
  (∀ c, bn_parish_code b = Some c → ¬ c ∈ ep_parishes p) → validate_beneficiary_data (form_of p) ≠ [].
Proof.
  intros Hp Hl Hno. destruct (shown_fields p b Hp Hl) as (_ & _ & _ & _ & _ & _ & E7 & _).
  unfold validate_beneficiary_data. rewrite !app_nil_iff, !err_nil, E7. intros (_ & _ & Hb & _). revert Hb.
  unfold selected. destruct (bn_parish_code b) as [c|]; [|discriminate].
  rewrite bool_decide_false by (by apply Hno). discriminate.
Qed.
End browser.

Lemma edited_fits d b u now : beneficiary_fits b = true → len u ≤ 20 →
  beneficiary_fits (set_bn_audit (touch u now (bn_audit b)) (given_back d b)) = true.
Proof.
  unfold beneficiary_fits. cbn [set_bn_audit given_back bn_beneficiary_type bn_beneficiary_name bn_given_name bn_family_name
    bn_phone_no bn_email_text bn_parish_code bn_community_text bn_address1_text bn_address2_text bn_status_code bn_audit].
  rewrite !andb_true_iff. intros Hf Hu. pose proof Hf as (((((((((((H1 & H2) & H3) & H4) & H5) & H6) & H7) & H8) & H9) & H10) & H11) & Ha).
  apply masked_fits in H5. split_and!; try done.
  unfold audit_fits in *. apply andb_true_iff in Ha as [Hc _]. apply andb_true_iff. split; [exact Hc|]. by apply Z.leb_le.
Qed.

Lemma edited_ok d i b a : ben_sound d → bd_rows d !! i = Some b → beneficiary_ok d (set_bn_audit a (given_back d b)) = true.
Proof.
  intros (_ & _ & Hk & Hu) Hi. destruct (Hk i b Hi) as [Hid _ Hc [Hr1 Hr2] _ _ _ _ _].
  apply ok_spec. split_and!; [done| |done|].
  - cbn [set_bn_audit given_back bn_registered_hsa_id]. destruct (bn_registered_hsa_id b) as [h|]; [|done]. simpl. by case_bool_decide.
  - apply agency_free_spec. intros j b' ag Hj Ha Hb'. cbn [set_bn_audit given_back bn_beneficiary_id]. rewrite Hid. by eapply Hu.
Qed.

(** ** Every call keeps the rows *)

Lemma some_text_kept s : strip s = s → text_opt (some_text s).
Proof. intros Hs. unfold some_text. by case_bool_decide. Qed.

Lemma upper_kept s : upper_opt (some_text (upper s)) ∧ text_opt (some_text (upper (strip s))).
Proof.
  split.
  - unfold some_text. case_bool_decide; [done|]. apply upper_idemp.
  - apply some_text_kept. by rewrite strip_upper, strip_idemp.
Qed.

Lemma field_kept f k : strip (field f k) = field f k.
Proof. apply strip_idemp. Qed.

Lemma asked_kept d f i a : validate_beneficiary_data f = [] → 0 < version_nbr a →
  beneficiary_fits (beneficiary_of i f a) = true → beneficiary_ok d (beneficiary_of i f a) = true →
  kept_row d i (stored_beneficiary (beneficiary_of i f a)).
Proof.
  unfold validate_beneficiary_data. rewrite !app_nil_iff, !err_nil. intros (_ & Hn & Hp & _) Hv Hfit Hok.
  apply required_false in Hn as [Hn _]. apply ok_spec in Hok as (Hc & Hr1 & Hr2 & _).
  apply bool_decide_eq_false in Hp. constructor.
  - done.
  - by rewrite fits_stored.
  - exact Hc.
  - done.
  - cbn [stored_beneficiary beneficiary_of bn_beneficiary_name]. split; [|apply upper_idemp]. split.
    + by rewrite strip_upper, field_kept.
    + by rewrite upper_empty.
  - cbn [stored_beneficiary beneficiary_of bn_given_name bn_family_name]. unfold field. split_and!; apply upper_kept.
  - repeat constructor; apply some_text_kept, field_kept.
  - exists (field f "parish_code"). split; [|done]. split; [apply field_kept|done].
  - done.
Qed.

Lemma other_row d b i x : ben_sound d → bd_rows d !! i = Some x → kept_row (with_row b d) i x.
Proof. intros (_ & _ & Hk & _) Hi. by destruct (Hk i x Hi). Qed.

Lemma with_row_sound d b : ben_sound d → agency_free d b = true →
  kept_row (with_row b d) (bn_beneficiary_id b) (stored_beneficiary b) → ben_sound (with_row b d).
Proof.
  intros Hs Hfree Hb. pose proof Hs as (Hh & Ha & Hk & Hu). rewrite agency_free_spec in Hfree. split_and!; [done..| |].
  - intros i x. cbn [with_row set_bd_rows bd_rows]. rewrite lookup_insert_Some. intros [[<- <-]|[Hne Hi]]; [done|].
    by apply other_row.
  - intros i j b1 b2 ag. cbn [with_row set_bd_rows bd_rows]. rewrite !lookup_insert_Some.
    intros [[<- <-]|[Hi H1]] [[<- <-]|[Hj H2]] E1 E2; [done|..]; cbn [stored_beneficiary bn_shelter_agency_id] in *.
    + symmetry. by eapply Hfree.
    + by eapply Hfree.
    + by eapply Hu.
Qed.

(** A request by anybody, at any time. *)
Definition ben_step {L : Locale} (s s' : Web BenDB) : Prop := ∃ bx c, s' = (ben_call bx c s).1.

Section histories.
Context {L : Locale}.

Lemma asked_sound bx c d u b : ben_sound d → asked_row bx c d u b → beneficiary_fits b = true →
  takes (is_new c) d b = true → ben_sound (with_row b d).
Proof.
  intros Hs Hask Hf Ht. apply andb_true_iff in Ht as [Hok _]. pose proof (proj1 (ok_spec d b) Hok) as (_ & _ & _ & Hfree).
  apply with_row_sound; [done|done|]. assert (∀ d', bd_hsas d' = bd_hsas d → bd_agencies d' = bd_agencies d →
    kept_row d (bn_beneficiary_id b) (stored_beneficiary b) → kept_row d' (bn_beneficiary_id b) (stored_beneficiary b)) as Hmove.
  { intros d' E1 E2 []. constructor; rewrite ?E1, ?E2; done. }
  apply Hmove; [done|done|]. destruct c as [f|i f].
  - destruct Hask as [Hv ->]. by apply asked_kept.
  - destruct Hask as (b0 & Hi & _ & Hv & ->). destruct Hs as (_ & _ & Hk & _). pose proof (kr_version _ _ _ (Hk i b0 Hi)).
    apply asked_kept; [done| |done|done]. simpl. lia.
Qed.

Lemma step_sound s s' : ben_step s s' → ben_sound (web_db s) → ben_sound (web_db s').
Proof.
  intros (bx & c & ->) Hs. pose proof (atomic_call bx c s) as Ha. destruct (ben_call bx c s) as [s1 [e|[]]] eqn:E; simpl in *; [by rewrite Ha|].
  change (run_ok (ben_call bx c) s tt s1) in E. apply call_ok in E as (_ & u & b & _ & Hask & Hf & Ht & ->). by eapply asked_sound.
Qed.

Lemma ben_edit_page_run bx i s b : lastmile_user bx → bd_rows (web_db s) !! i = Some b →
  let d := web_db s in
  run_ok (ben_edit_page bx i) s (mkEditPage b (bd_parishes d) (bd_hsa_warehouses d) (bd_agencies d)) s.
Proof.
  intros Huse Hi. cbv zeta. unfold ben_edit_page. apply open_lastmile_ok. split; [done|]. apply find_beneficiary_ok.
  exists b. split; [done|]. by destruct s.
Qed.

(** The version in hand and a form that is not valid. *)
Lemma invalid_refused bx i f s b : lastmile_user bx → bd_rows (web_db s) !! i = Some b →
  submitted_version f = Some (version_nbr (bn_audit b)) → validate_beneficiary_data f ≠ [] →
  ben_call bx (Edit i f) s = (s, inl (WRefused "invalid form")).
Proof.
  intros [Ha Hf] Hi Hv Hbad. destruct s as [c d]. simpl in Hi. unfold ben_call, edit. rewrite run_bind.
  unfold open_lastmile, on_web_cache, feature_required. rewrite run_bind, Ha. cbn -[beneficiary_of]. rewrite Hf.
  cbn -[beneficiary_of]. rewrite run_bind. unfold find_beneficiary. rewrite run_bind. cbn -[beneficiary_of]. rewrite Hi.
  cbn -[beneficiary_of]. rewrite run_bind, bool_decide_true by done. cbn -[beneficiary_of]. rewrite run_bind.
  unfold valid_beneficiary. rewrite bool_decide_false by done. done.
Qed.

(** C35: After any sequence of requests by any users, whatever their forms, every stored
    beneficiary is an individual with both names or a shelter with neither, active or
    inactive, its names in upper case, its texts stripped and within their columns, its
    agencies existing ones, and no agency has two shelters.

    Its edit page opens, and sent back as it is, by a user of the screens while its
    version is current, its name within the 120 characters of the form and no text has
    line ends, it does this: when the parish of the row is not on the list, it is
    refused and changes nothing; otherwise it is accepted and gives back the row,
    stamped with the user and with the next version, but for two fields: a registered
    agency that is no warehouse of tier HSA is lost, and the phone number is what the
    script makes of it, also when there was none.  A second time nothing more is lost.
    After either a form of the version before is refused. *)
Theorem beneficiary_round_trip input_value area_value bx u s0 s i b :
  (∀ t, one_line t → input_value t = t) → (∀ t, one_line t → area_value t = t) →
  reach ben_step s0 s → ben_sound (web_db s0) →
  ben_sound (web_db s) ∧
  (bd_rows (web_db s) !! i = Some b → lastmile_user bx → ben_actor bx u → len u ≤ 20 →
   len (bn_beneficiary_name b) ≤ 120 → one_line_row b → version_nbr (bn_audit b) < 2 ^ 31 →
   let d := web_db s in
   let b' := set_bn_audit (touch u (bx_now bx) (bn_audit b)) (given_back d b) in
   ∃ page, run_ok (ben_edit_page bx i) s page s ∧
   let back := ben_call bx (Edit i (form_of input_value area_value page)) s in
   ((∀ c, bn_parish_code b = Some c → ¬ c ∈ bd_parishes d) → back = (s, inl (WRefused "invalid form"))) ∧
   ((∃ c, bn_parish_code b = Some c ∧ c ∈ bd_parishes d) →
    ∃ s', back = (s', inr tt) ∧ bd_rows (web_db s') = <[i := b']> (bd_rows d) ∧ given_back d b' = b' ∧
      ∀ bx2 f, lastmile_user bx2 → submitted_version f = Some (version_nbr (bn_audit b)) →
        (ben_call bx2 (Edit i f) s').2 = inl (WRefused "modified by another user"))).
Proof.
  intros Hin Har Hr Hs0. pose proof (reach_inv ben_step (λ s, ben_sound (web_db s)) step_sound s0 s Hr Hs0) as Hs. split; [done|].
  intros Hi Huse Hu Hlu Hn Hl Hv d b'. pose proof Hs as (_ & _ & Hk & _). pose proof (Hk i b Hi) as Hb.
  eexists. split; [by apply ben_edit_page_run|]. set (page := mkEditPage _ _ _ _).
  assert (submitted_version (form_of input_value area_value page) = Some (version_nbr (bn_audit b))) as Hver.
  { unfold submitted_version. destruct (shown_fields _ _ Hin Har page b eq_refl Hl)
      as (_ & _ & _ & _ & _ & _ & _ & _ & _ & _ & _ & _ & _ & _ & ->). simpl. pose proof (kr_version _ _ _ Hb). apply small_numeral. lia. }
  split.
  { intros Hno. apply (invalid_refused bx i _ s b); [done..|]. by apply (form_without_parish _ _ Hin Har page b). }
  intros Hyes. pose proof (form_gives_row _ _ Hin Har d i b (touch u (bx_now bx) (bn_audit b)) page Hs Hi Hl eq_refl Hyes) as Hrow.
  set (asked := beneficiary_of (bn_beneficiary_id b) (form_of input_value area_value page) (touch u (bx_now bx) (bn_audit b))) in *.
  exists (mkWeb (web_cache s) (with_row asked d)). split_and!.
  - change (run_ok (ben_call bx (Edit i (form_of input_value area_value page))) s tt (mkWeb (web_cache s) (with_row asked d))).
    apply call_ok. split; [done|]. exists u, asked. split; [done|]. split; [|split_and!; [| |done]].
    + exists b. split_and!; [done|done|by eapply (form_valid _ _ Hin Har)|done].
    + rewrite <- fits_stored, Hrow. apply edited_fits; [apply Hb|done].
    + apply andb_true_iff. split; [|done]. change (beneficiary_ok d (stored_beneficiary asked) = true).
      rewrite Hrow. by eapply edited_ok.
  - simpl. rewrite Hrow. f_equal. by rewrite <- (kr_id _ _ _ Hb).
  - unfold b'. by rewrite given_back_audit, given_back_twice.
  - intros bx2 f Huse2 Hf. apply (stale_refused bx2 i f _ b'); [done| |].
    + simpl. rewrite Hrow. rewrite <- (kr_id _ _ _ Hb). apply lookup_insert_eq.
    + rewrite Hf. simpl. intros [= H]. lia.
Qed.
End histories.

(** An officer of a table with one agency, number 3, one humanitarian agency, 7, one
    warehouse of tier HSA, 5, and two parishes. *)
Definition latin_locale : Locale := {| db_upper := upper; db_ilike := λ _ _, false; collate := λ s, code <$> chars s |}.

Definition lastmile_officer : BenCtx :=
  mkBenCtx (Some (mkSessionUser "lo" "lo@odpem.gov.jm" None ["LOGISTICS_OFFICER"%string] [])) 500 1.

Definition no_beneficiaries : Web BenDB := mkWeb None (mkBenDB ∅ [7] [3] ["01"; "02"]%string [5]).

Definition ana_form : Form := list_to_map
  [("beneficiary_type", "INDIVIDUAL"); ("beneficiary_name", " Ana Brown "); ("given_name", "Ana"); ("family_name", "brown");
   ("parish_code", "01"); ("registered_hsa_id", "7")]%string.

Definition with_ana : Web BenDB := (ben_call (L := latin_locale) lastmile_officer (Create ana_form) no_beneficiaries).1.

(** A browser that drops the line ends of a text. *)
Definition no_line_end (c : ascii) : bool := negb (bool_decide (code c ∈ [10; 13])).

Definition drop_line_ends (s : string) : string := of_chars (List.filter no_line_end (chars s)).

Lemma one_line_spec s : one_line s ↔ forallb no_line_end (chars s) = true.
Proof.
  unfold one_line, no_line_end. rewrite forallb_elem. apply forall_proper. intros c.
  rewrite negb_true_iff, bool_decide_eq_false. set_solver.
Qed.

Lemma drop_none s : one_line s → drop_line_ends s = s.
Proof.
  rewrite one_line_spec. unfold drop_line_ends. intros H. rewrite <- (of_chars_chars s) at 2. f_equal. revert H.
  induction (chars s) as [|c l IH]; [done|]. simpl. rewrite andb_true_iff. intros [-> Hl]. by rewrite IH.
Qed.

(** Ana Brown is stored in upper case.  Her edit page, sent back as it is, keeps that,
    loses the humanitarian agency and gives her half a phone number. *)
Lemma beneficiary_round_trip_witness :
  ∃ ana page s' b', bd_rows (web_db with_ana) !! 1 = Some ana ∧ bn_beneficiary_name ana = "ANA BROWN"%string ∧
    bn_registered_hsa_id ana = Some 7 ∧ bn_phone_no ana = None ∧
    ben_call (L := latin_locale) lastmile_officer (Edit 1 (form_of drop_line_ends drop_line_ends page)) with_ana = (s', inr tt) ∧
    bd_rows (web_db s') !! 1 = Some b' ∧ bn_beneficiary_name b' = "ANA BROWN"%string ∧
    bn_registered_hsa_id b' = None ∧ bn_phone_no b' = Some "+1 ("%string ∧ bn_audit b' = mkAudit "LO" 500 "LO" 500 2.
Proof.
  set (ana := stored_beneficiary (beneficiary_of 1 ana_form (new_audit "LO" 500))).
  assert (bd_rows (web_db with_ana) !! 1 = Some ana) as Hana by (vm_compute; reflexivity).
  destruct (beneficiary_round_trip (L := latin_locale) drop_line_ends drop_line_ends lastmile_officer "LO" no_beneficiaries with_ana 1 ana
    drop_none drop_none) as [_ H].
  - eapply reach_step; [|apply reach_refl]. by exists lastmile_officer, (Create ana_form).
  - repeat split; try (repeat constructor; fail); intros; by repeat (case_match || done).
  - destruct H as (page & _ & _ & H); [done|vm_compute; split; reflexivity|by eexists|done|done| |done|].
    { repeat apply Forall_cons_2; try apply one_line_spec; [vm_compute; reflexivity..|apply Forall_nil_2]. }
    destruct H as (s' & Hrun & Hrows & _); [exists "01"%string; split; [reflexivity|left]|].
    exists ana, page, s', (set_bn_audit (mkAudit "LO" 500 "LO" 500 2) (given_back (web_db with_ana) ana)).
    split_and!; [done|reflexivity|reflexivity|reflexivity|exact Hrun| |reflexivity|reflexivity|vm_compute; reflexivity|reflexivity].
    rewrite Hrows. apply lookup_insert_eq.
Defined.

(** Without a family name nobody is stored, and the page blames the name. *)
Example individual_without_family_name :
  (ben_call (L := latin_locale) lastmile_officer (Create (delete "family_name"%string ana_form)) no_beneficiaries).2 =
  inl (WRefused "A beneficiary with this name already exists.").
Proof. vm_compute. reflexivity. Qed.
