(* ===== verification/StatusLabels.v ===== *)
(** The labels and badge colours of status codes (app/core/status.py), which the
    templates use as filters (status_label_filter and status_badge_filter of
    drims_app.py). *)
From stdpp Require Import strings.
From Stdlib Require Import Ascii String.
From S2P Require Import Prelude PyStr ParamValidation.

(** A code is a number or a text. *)
Inductive StatusCode : Type := CInt (n : Z) | CText (s : string).

#[export] Instance StatusCode_eq_dec : EqDecision StatusCode.
Proof. solve_decision. Defined.

Abbreviation Labels := (list (StatusCode * string)).

Definition EVENT_STATUS : Labels :=
  [(CText "A"%string, "Active"%string); (CText "C"%string, "Closed"%string)].

Definition ITEM_STATUS : Labels :=
  [(CText "A"%string, "Active"%string); (CText "I"%string, "Inactive"%string)].

Definition WAREHOUSE_STATUS : Labels :=
  [(CText "A"%string, "Active"%string); (CText "I"%string, "Inactive"%string)].

Definition INVENTORY_STATUS : Labels :=
  [(CText "A"%string, "Available"%string); (CText "U"%string, "Unavailable"%string)].

Definition DONATION_STATUS : Labels :=
  [(CText "A"%string, "Accepted"%string); (CText "P"%string, "Pending"%string);
   (CText "C"%string, "Completed"%string)].

Definition RELIEFRQST_STATUS : Labels :=
  [(CInt 0, "Draft"%string); (CInt 1, "Awaiting Approval"%string); (CInt 2, "Cancelled"%string);
   (CInt 3, "Submitted"%string); (CInt 4, "Denied"%string); (CInt 5, "Part Filled"%string);
   (CInt 6, "Closed"%string); (CInt 7, "Filled"%string); (CInt 8, "Ineligible"%string)].

Definition RELIEFRQST_ITEM_STATUS : Labels :=
  [(CText "R"%string, "Requested"%string); (CText "U"%string, "Unavailable"%string);
   (CText "W"%string, "Waiting"%string); (CText "D"%string, "Denied"%string);
   (CText "P"%string, "Partial"%string); (CText "L"%string, "Limited"%string);
   (CText "F"%string, "Fulfilled"%string)].

Definition RELIEFPKG_STATUS : Labels :=
  [(CText "P"%string, "Pending"%string); (CText "D"%string, "Dispatched"%string);
   (CText "C"%string, "Completed"%string)].

Definition INTAKE_STATUS : Labels :=
  [(CText "I"%string, "Incomplete"%string); (CText "C"%string, "Completed"%string);
   (CText "V"%string, "Verified"%string)].

Definition URGENCY_IND : Labels :=
  [(CText "L"%string, "Low"%string); (CText "M"%string, "Medium"%string); (CText "H"%string, "High"%string);
   (CText "C"%string, "Critical"%string)].

Definition DBINTAKE_ITEM_STATUS : Labels :=
  [(CText "P"%string, "Pending"%string); (CText "V"%string, "Verified"%string)].

Definition NEEDS_LIST_STATUS : Labels :=
  [(CText "Draft"%string, "Draft"%string); (CText "Submitted"%string, "Submitted"%string);
   (CText "Under Review"%string, "Under Review"%string); (CText "Approved"%string, "Approved"%string);
   (CText "Rejected"%string, "Rejected"%string); (CText "In Fulfilment"%string, "In Fulfilment"%string);
   (CText "Completed"%string, "Completed"%string)].

Definition NEEDS_LIST_PRIORITY : Labels :=
  [(CText "LOW"%string, "Low"%string); (CText "MEDIUM"%string, "Medium"%string);
   (CText "HIGH"%string, "High"%string); (CText "CRITICAL"%string, "Critical"%string)].

Definition FULFILMENT_STATUS : Labels :=
  [(CText "In Preparation"%string, "In Preparation"%string); (CText "Ready"%string, "Ready"%string);
   (CText "Dispatched"%string, "Dispatched"%string); (CText "Received"%string, "Received"%string);
   (CText "Completed"%string, "Completed"%string); (CText "Cancelled"%string, "Cancelled"%string)].

Definition DISTRIBUTION_PACKAGE_STATUS : Labels :=
  [(CText "Draft"%string, "Draft"%string); (CText "Approved"%string, "Approved"%string);
   (CText "Dispatched"%string, "Dispatched"%string); (CText "Delivered"%string, "Delivered"%string);
   (CText "Cancelled"%string, "Cancelled"%string)].

Definition status_types : list (string * Labels) :=
  [("event"%string, EVENT_STATUS); ("item"%string, ITEM_STATUS); ("warehouse"%string, WAREHOUSE_STATUS);
   ("inventory"%string, INVENTORY_STATUS); ("donation"%string, DONATION_STATUS);
   ("reliefrqst"%string, RELIEFRQST_STATUS); ("reliefrqst_item"%string, RELIEFRQST_ITEM_STATUS);
   ("reliefpkg"%string, RELIEFPKG_STATUS); ("intake"%string, INTAKE_STATUS);
   ("dbintake"%string, INTAKE_STATUS); ("dbintake_item"%string, DBINTAKE_ITEM_STATUS);
   ("urgency"%string, URGENCY_IND); ("needs_list"%string, NEEDS_LIST_STATUS);
   ("needs_list_priority"%string, NEEDS_LIST_PRIORITY); ("fulfilment"%string, FULFILMENT_STATUS);
   ("distribution_package"%string, DISTRIBUTION_PACKAGE_STATUS)].

Definition STATUS_BADGE_MAP : list (string * Labels) :=
  [("event"%string, [(CText "A"%string, "success"%string); (CText "C"%string, "secondary"%string)]);
   ("warehouse"%string, [(CText "A"%string, "success"%string); (CText "I"%string, "secondary"%string)]);
   ("item"%string, [(CText "A"%string, "success"%string); (CText "I"%string, "secondary"%string)]);
   ("inventory"%string, [(CText "A"%string, "success"%string); (CText "I"%string, "secondary"%string)]);
   ("donation"%string, [(CText "A"%string, "success"%string); (CText "P"%string, "warning"%string);
     (CText "C"%string, "secondary"%string)]);
   ("reliefpkg"%string, [(CText "P"%string, "warning"%string); (CText "D"%string, "primary"%string);
     (CText "C"%string, "success"%string)]);
   ("reliefrqst"%string, [(CInt 0, "secondary"%string); (CInt 1, "warning"%string); (CInt 2, "secondary"%string);
     (CInt 3, "info"%string); (CInt 4, "danger"%string); (CInt 5, "warning"%string);
     (CInt 6, "secondary"%string); (CInt 7, "success"%string); (CInt 8, "danger"%string)]);
   ("reliefrqst_item"%string, [(CText "R"%string, "info"%string); (CText "U"%string, "danger"%string);
     (CText "W"%string, "warning"%string); (CText "D"%string, "danger"%string);
     (CText "P"%string, "warning"%string); (CText "L"%string, "info"%string);
     (CText "F"%string, "success"%string)]);
   ("urgency"%string, [(CText "L"%string, "secondary"%string); (CText "M"%string, "info"%string);
     (CText "H"%string, "warning"%string); (CText "C"%string, "danger"%string)]);
   ("dbintake"%string, [(CText "I"%string, "warning"%string); (CText "C"%string, "success"%string);
     (CText "V"%string, "primary"%string)]);
   ("dbintake_item"%string, [(CText "P"%string, "warning"%string); (CText "V"%string, "success"%string)]);
   ("needs_list"%string, [(CText "Draft"%string, "secondary"%string); (CText "Submitted"%string, "info"%string);
     (CText "Under Review"%string, "warning"%string); (CText "Approved"%string, "success"%string);
     (CText "Rejected"%string, "danger"%string); (CText "In Fulfilment"%string, "primary"%string);
     (CText "Completed"%string, "success"%string)]);
   ("needs_list_priority"%string, [(CText "LOW"%string, "secondary"%string); (CText "MEDIUM"%string, "info"%string);
     (CText "HIGH"%string, "warning"%string); (CText "CRITICAL"%string, "danger"%string)]);
   ("fulfilment"%string, [(CText "In Preparation"%string, "warning"%string); (CText "Ready"%string, "info"%string);
     (CText "Dispatched"%string, "primary"%string); (CText "Received"%string, "success"%string);
     (CText "Completed"%string, "success"%string); (CText "Cancelled"%string, "secondary"%string)]);
   ("distribution_package"%string, [(CText "Draft"%string, "secondary"%string); (CText "Approved"%string, "info"%string);
     (CText "Dispatched"%string, "primary"%string); (CText "Delivered"%string, "success"%string);
     (CText "Cancelled"%string, "danger"%string)])].

(** [d.get(k)] of a literal. *)
Fixpoint dict_get {K V} `{EqDecision K} (d : list (K * V)) (k : K) : option V :=
  match d with [] => None | (k', v) :: d' => if decide (k' = k) then Some v else dict_get d' k end.

Definition code_text (c : StatusCode) : string := match c with CInt n => py_str n | CText s => s end.

Definition status_label (status_code : StatusCode) (status_type : string) : string :=
  default (code_text status_code) (dict_get (default [] (dict_get status_types status_type)) status_code).

Definition get_status_badge_class (status_code : StatusCode) (status_type : string) : string :=
  default "secondary"%string (dict_get (default [] (dict_get STATUS_BADGE_MAP status_type)) status_code).

(** Every code of a type that has badges has a badge and a label, but for the stock:
    an unavailable row has a label and no badge, and the badge of an inactive one has no
    label. *)
Lemma badges_have_labels status_type badges code :
  (status_type, badges) ∈ STATUS_BADGE_MAP → code ∈ badges.*1 → status_type ≠ "inventory"%string →
  is_Some (dict_get (default [] (dict_get status_types status_type)) code).
Proof.
  intros Ht Hc Hne.
  assert (forallb (λ p : string * Labels, bool_decide (p.1 = "inventory"%string) ||
    forallb (λ c, match dict_get (default [] (dict_get status_types p.1)) c with Some _ => true | None => false end) p.2.*1)
    STATUS_BADGE_MAP = true) as Hall by (vm_compute; reflexivity).
  rewrite forallb_elem in Hall. specialize (Hall _ Ht). simpl in Hall. rewrite bool_decide_false in Hall by done.
  simpl in Hall. rewrite forallb_elem in Hall. specialize (Hall code Hc). by destruct (dict_get _ _); [eexists|].
Qed.

Example inactive_stock : status_label (CText "I") "inventory" = "I"%string ∧
  get_status_badge_class (CText "U") "inventory" = "secondary"%string.
Proof. by vm_compute. Qed.

(** The statuses of a donation are E, V and P; the table of labels knows the last only,
    and under another name. *)
Example donation_labels :
  (λ c, status_label (CText c) "donation") <$> ["E"; "V"; "P"]%string = ["E"; "V"; "Pending"]%string.
Proof. reflexivity. Qed.
