(* ===== verification/StagingMigration.v ===== *)
(** The migration of staged movements into the transaction table
    (scripts/migrate_staging_to_transaction.py), run directly or as a SQL file, and what
    a second run of it does.

    A quantity is a NUMERIC(12,2), counted in hundredths.  The program compares the
    float of a staged quantity with the decimals it reads back: the two are equal
    exactly when the quantity is a multiple of a quarter, the only hundredths a float
    holds exactly.  The float itself is written back as the quantity it came from.  The
    lookup of tables under other names than those of the application, the messages and
    the summary are left out; [like] is the pattern match of the database. *)
From stdpp Require Import strings.
From Stdlib Require Import Ascii String.
From S2P Require Import Prelude PyStr ParamValidation CatalogueForms BatchCreation.

(** * Rows *)

Record StagingRow : Type := mkStagingRow {
  st_item_desc : string;
  st_warehouse_code : string;
  st_movement_date : PyDate;
  st_movement_type : string;
  st_qty : Z;
  st_source_sheet : option string;
  st_source_row_nbr : option Z;
  st_comments_text : option string
}.

Record Transaction : Type := mkTransaction {
  tr_item_id : option Z;
  tr_ttype : string;
  tr_qty : Z;
  tr_warehouse_id : option Z;
  tr_notes : option string;
  tr_created_by : string
}.

(** * The lookup tables *)

Record LookupInfo : Type := mkLookupInfo {
  li_items : gmap string Z;
  li_warehouses : gmap string Z;
  li_has_item_table : bool;
  li_has_warehouse_table : bool
}.

Definition normal_name (s : string) : string := strip (upper s).

(** [for row in cur.fetchall(): items[row[1].upper().strip()] = row[0]]. *)
Definition load_items (rows : list (Z * string)) : gmap string Z :=
  foldl (λ m row, <[normal_name row.2 := row.1]> m) ∅ rows.

Definition is_capital (c : ascii) : bool := (65 <=? code c) && (code c <=? 90).

(** The capitals up to a closing parenthesis, one at least: [[A-Z]+\)]. *)
Fixpoint capitals_then (acc l : list ascii) : option (list ascii) :=
  match l with
  | [] => None
  | c :: l' => if is_capital c then capitals_then (c :: acc) l'
               else if (code c =? 41) && negb (bool_decide (acc = [])) then Some (reverse acc) else None
  end.

(** [re.search(r'\(([A-Z]+)\)', name)]. *)
Fixpoint code_in_parens (l : list ascii) : option (list ascii) :=
  match l with
  | [] => None
  | c :: l' => match (if code c =? 40 then capitals_then [] l' else None) with
               | Some w => Some w
               | None => code_in_parens l'
               end
  end.

(** [t in s]. *)
Fixpoint contains (t l : list ascii) : bool :=
  bool_decide (t `prefix_of` l) || match l with [] => false | _ :: l' => contains t l' end.

Definition load_warehouse (m : gmap string Z) (row : Z * string) : gmap string Z :=
  let m := match code_in_parens (chars row.2) with Some c => <[of_chars c := row.1]> m | None => m end in
  if contains (chars "UNKNOWN") (chars (upper row.2)) then <["UNKNOWN"%string := row.1]> m else m.

Definition load_warehouses (rows : list (Z * string)) : gmap string Z := foldl load_warehouse ∅ rows.

(** The tables exist; [None] for one that does not. *)
Definition get_lookup_tables_info (item warehouse : option (list (Z * string))) : LookupInfo :=
  mkLookupInfo (load_items (default [] item)) (load_warehouses (default [] warehouse))
    (match item with Some _ => true | None => false end) (match warehouse with Some _ => true | None => false end).

(** * The notes of a transaction *)

(** [str] of a date. *)
Definition iso_date (d : PyDate) : string :=
  zero_fill 4 (py_str (pd_year d)) +:+ "-" +:+ zero_fill 2 (py_str (pd_month d)) +:+ "-" +:+ zero_fill 2 (py_str (pd_day d)).

(** ['; '.join(parts)]. *)
Fixpoint join_semicolon (l : list string) : string :=
  match l with [] => "" | [s] => s | s :: l' => s +:+ "; " +:+ join_semicolon l' end.

Definition true_text (s : option string) : option string :=
  match s with Some s => if bool_decide (s = ""%string) then None else Some s | None => None end.

Definition notes_of (r : StagingRow) : option string :=
  let parts :=
    ["Date: " +:+ iso_date (st_movement_date r)] ++
    (match true_text (st_comments_text r) with Some s => [s] | None => [] end) ++
    (match true_text (st_source_sheet r) with
     | Some s => ["Source: " +:+ s +:+ " Row " +:+
                  match st_source_row_nbr r with Some n => py_str n | None => "None" end]
     | None => []
     end) in
  if bool_decide (parts = []) then None else Some (join_semicolon parts).

(** * Signatures *)

(** A number of a signature: a float, or a decimal of the database. *)
Inductive Number : Type := Float (q : Z) | Decimal (q : Z).

#[export] Instance number_eq_dec : EqDecision Number.
Proof. solve_decision. Defined.

(** A quantity a float holds exactly. *)
Definition exact (q : Z) : bool := q mod 25 =? 0.

(** Python's [==], which [in] of a set uses. *)
Definition same_number (a b : Number) : bool :=
  match a, b with
  | Float p, Float q | Decimal p, Decimal q => p =? q
  | Float p, Decimal q | Decimal p, Float q => (p =? q) && exact p
  end.

Record Signature : Type := mkSignature { sg_item : Z; sg_ttype : string; sg_qty : Number; sg_warehouse : Z; sg_notes : string }.

Definition same_signature (a b : Signature) : bool :=
  (sg_item a =? sg_item b) && bool_decide (sg_ttype a = sg_ttype b) && same_number (sg_qty a) (sg_qty b) &&
  (sg_warehouse a =? sg_warehouse b) && bool_decide (sg_notes a = sg_notes b).

(** [x if x else -1]. *)
Definition or_minus_one (i : option Z) : Z := match i with Some i => if i =? 0 then -1 else i | None => -1 end.

Definition build_transaction_signature (item_id : option Z) (ttype : string) (qty : Z) (warehouse_id : option Z)
    (notes : option string) : Signature :=
  mkSignature (or_minus_one item_id) ttype (Float qty) (or_minus_one warehouse_id) (default ""%string notes).

Section migration.
Variable like : string → string → bool.  (* the pattern first *)

Definition get_existing_transactions (table : list Transaction) (created_by_pattern : string) : list Signature :=
  (λ t, mkSignature (default (-1) (tr_item_id t)) (tr_ttype t) (Decimal (tr_qty t)) (default (-1) (tr_warehouse_id t))
          (default ""%string (tr_notes t))) <$>
  List.filter (λ t, like created_by_pattern (tr_created_by t)) table.

(** * A direct run *)

Inductive Skip : Type := NoItem | NoWarehouse | Duplicate.

Definition is_zero_or_none (i : option Z) : bool := match i with Some i => i =? 0 | None => true end.

(** The ids of a record, or why it is left out. *)
Definition resolve (info : LookupInfo) (r : StagingRow) : Skip + option Z * option Z :=
  let item_id := li_items info !! normal_name (st_item_desc r) in
  if is_zero_or_none item_id && li_has_item_table info then inl NoItem
  else
    let warehouse_id := li_warehouses info !! st_warehouse_code r in
    if is_zero_or_none warehouse_id && negb (bool_decide (st_warehouse_code r = "UNKNOWN"%string)) && li_has_warehouse_table info
    then inl NoWarehouse else inr (item_id, warehouse_id).

Record Batch : Type := mkBatch { ba_to_insert : list Transaction; ba_seen : list Signature; ba_skipped : list Skip }.

Definition migrate_record (info : LookupInfo) (created_by : string) (b : Batch) (r : StagingRow) : Batch :=
  match resolve info r with
  | inl e => mkBatch (ba_to_insert b) (ba_seen b) (ba_skipped b ++ [e])
  | inr (item_id, warehouse_id) =>
      let notes := notes_of r in
      let sig := build_transaction_signature item_id (st_movement_type r) (st_qty r) warehouse_id notes in
      if existsb (same_signature sig) (ba_seen b) then mkBatch (ba_to_insert b) (ba_seen b) (ba_skipped b ++ [Duplicate])
      else mkBatch (ba_to_insert b ++ [mkTransaction item_id (st_movement_type r) (st_qty r) warehouse_id notes created_by])
             (sig :: ba_seen b) (ba_skipped b)
  end.

Definition batch_of (records : list StagingRow) (info : LookupInfo) (created_by : string) (table : list Transaction) : Batch :=
  foldl (migrate_record info created_by) (mkBatch [] (get_existing_transactions table (created_by +:+ "%")) []) records.

(** The table afterwards and what was to be inserted; [accepted] says whether the
    database takes the batch, which is rolled back and raises otherwise ([None]). *)
Definition migrate_records (accepted : list Transaction → bool) (records : list StagingRow) (info : LookupInfo)
    (created_by : string) (dry_run : bool) (table : list Transaction) : list Transaction * option Batch :=
  let b := batch_of records info created_by table in
  if dry_run then (table, Some b)
  else if accepted (ba_to_insert b) then (table ++ ba_to_insert b, Some b) else (table, None).
End migration.

(** * A run of the SQL file *)

(** [COALESCE(a, -1) = COALESCE(b, -1)]. *)
Definition same_id (a b : option Z) : bool := default (-1) a =? default (-1) b.

Definition sql_transaction (info : LookupInfo) (created_by : string) (r : StagingRow) : Transaction :=
  let id m k := match m !! k with Some i => if i =? 0 then None else Some i | None => None end in
  mkTransaction (id (li_items info) (st_item_desc r)) (st_movement_type r) (st_qty r)
    (id (li_warehouses info) (st_warehouse_code r)) (notes_of r) created_by.

(** [WHERE NOT EXISTS (...)]: the author is not compared. *)
Definition stored_already (t u : Transaction) : bool :=
  same_id (tr_item_id u) (tr_item_id t) && bool_decide (tr_ttype u = tr_ttype t) && (tr_qty u =? tr_qty t) &&
  same_id (tr_warehouse_id u) (tr_warehouse_id t) && bool_decide (default ""%string (tr_notes u) = default ""%string (tr_notes t)).

Definition insert_missing (table : list Transaction) (t : Transaction) : list Transaction :=
  if existsb (stored_already t) table then table else table ++ [t].

Definition run_sql_migration (records : list StagingRow) (info : LookupInfo) (created_by : string)
    (table : list Transaction) : list Transaction :=
  foldl insert_missing table (sql_transaction info created_by <$> records).

(** * What a second run does *)

Definition inexact (t : Transaction) : bool := negb (exact (tr_qty t)).

(** The signature of a transaction when it is made, and when it is read back. *)
Definition made_signature (t : Transaction) : Signature :=
  build_transaction_signature (tr_item_id t) (tr_ttype t) (tr_qty t) (tr_warehouse_id t) (tr_notes t).
Definition read_signature (t : Transaction) : Signature :=
  mkSignature (default (-1) (tr_item_id t)) (tr_ttype t) (Decimal (tr_qty t)) (default (-1) (tr_warehouse_id t))
    (default ""%string (tr_notes t)).

Definition ids_ok (t : Transaction) : Prop := tr_item_id t ≠ Some 0 ∧ tr_warehouse_id t ≠ Some 0.

Definition seen_in (t : Transaction) (l : list Signature) : bool := existsb (same_signature (made_signature t)) l.

Lemma or_minus_one_ok i : i ≠ Some 0 → or_minus_one i = default (-1) i.
Proof. destruct i as [i|]; simpl; [|done]. destruct (i =? 0) eqn:E; [apply Z.eqb_eq in E as ->; done|done]. Qed.

Lemma same_made t u : same_signature (made_signature t) (made_signature u) = true ↔ made_signature t = made_signature u.
Proof.
  unfold same_signature. rewrite !andb_true_iff, !Z.eqb_eq, !bool_decide_eq_true. simpl. rewrite Z.eqb_eq.
  unfold made_signature, build_transaction_signature. split; [intros ((((-> & ->) & ->) & ->) & ->); done|naive_solver].
Qed.

Lemma same_read t u : ids_ok u →
  same_signature (made_signature t) (read_signature u) = true ↔ made_signature t = made_signature u ∧ exact (tr_qty t) = true.
Proof.
  intros [Hi Hw]. unfold same_signature. rewrite !andb_true_iff, !Z.eqb_eq, !bool_decide_eq_true. simpl.
  rewrite andb_true_iff, Z.eqb_eq. unfold made_signature, build_transaction_signature.
  rewrite (or_minus_one_ok (tr_item_id u)), (or_minus_one_ok (tr_warehouse_id u)) by done.
  split; [intros ((((-> & ->) & (-> & ?)) & ->) & ->); done|]. intros [[= -> -> -> -> ->] ?]. done.
Qed.

(** A signature read back matches no quantity that a float does not hold. *)
Definition decimals (l : list Signature) : Prop := ∀ s, s ∈ l → ∃ q, sg_qty s = Decimal q.

Lemma seen_decimal t l : decimals l → seen_in t l = true → exact (tr_qty t) = true.
Proof.
  unfold seen_in. rewrite existsb_exists. intros Hl (s & Hs & Hsame). apply list_elem_of_In in Hs.
  destruct (Hl s Hs) as [q Hq]. unfold same_signature in Hsame. rewrite !andb_true_iff in Hsame.
  destruct Hsame as ((((_ & _) & Hn) & _) & _). rewrite Hq in Hn. simpl in Hn. by apply andb_true_iff in Hn as [_ Hn].
Qed.

Lemma seen_app t k l : seen_in t (k ++ l) = seen_in t k || seen_in t l.
Proof. unfold seen_in. apply existsb_app. Qed.

Lemma seen_made t l : seen_in t (made_signature <$> l) = true ↔ ∃ u, u ∈ l ∧ made_signature t = made_signature u.
Proof.
  unfold seen_in. rewrite existsb_exists. setoid_rewrite <- list_elem_of_In. setoid_rewrite list_elem_of_fmap. split.
  - intros (s & (u & -> & Hu) & Hs). exists u. split; [done|]. by apply same_made.
  - intros (u & Hu & He). exists (made_signature u). split; [by exists u|]. by apply same_made.
Qed.

Lemma seen_read t l : Forall ids_ok l →
  seen_in t (read_signature <$> l) = true ↔ exact (tr_qty t) = true ∧ ∃ u, u ∈ l ∧ made_signature t = made_signature u.
Proof.
  intros Hl. rewrite Forall_forall in Hl. unfold seen_in. rewrite existsb_exists. setoid_rewrite <- list_elem_of_In.
  setoid_rewrite list_elem_of_fmap. split.
  - intros (s & (u & -> & Hu) & Hs). apply same_read in Hs as [He Hx]; [|by apply Hl]. split; [done|]. by exists u.
  - intros (Hx & u & Hu & He). exists (read_signature u). split; [by exists u|]. by apply same_read; [apply Hl|].
Qed.

Section runs.
Variable like : string → string → bool.
Context (info : LookupInfo) (created_by : string).

Definition asked_transaction (r : StagingRow) : Skip + Transaction :=
  match resolve info r with
  | inl e => inl e
  | inr (item_id, warehouse_id) =>
      inr (mkTransaction item_id (st_movement_type r) (st_qty r) warehouse_id (notes_of r) created_by)
  end.

Lemma migrate_record_step b r : migrate_record info created_by b r =
  match asked_transaction r with
  | inl e => mkBatch (ba_to_insert b) (ba_seen b) (ba_skipped b ++ [e])
  | inr t => if seen_in t (ba_seen b) then mkBatch (ba_to_insert b) (ba_seen b) (ba_skipped b ++ [Duplicate])
             else mkBatch (ba_to_insert b ++ [t]) (made_signature t :: ba_seen b) (ba_skipped b)
  end.
Proof. unfold migrate_record, asked_transaction. by destruct (resolve info r) as [e|[i w]]. Qed.

Abbreviation run_from := (foldl (migrate_record info created_by)).

Lemma run_grows rs b : ∃ l, ba_to_insert (run_from b rs) = ba_to_insert b ++ l.
Proof.
  revert b. induction rs as [|r rs IH]; intros b; [exists []; by rewrite app_nil_r|]. cbn [foldl].
  destruct (IH (migrate_record info created_by b r)) as [l ->]. rewrite migrate_record_step.
  destruct (asked_transaction r) as [e|t]; [by exists l|]. destruct (seen_in t (ba_seen b)); [by exists l|].
  exists (t :: l). simpl. by rewrite <- app_assoc.
Qed.

Lemma run_counts rs b : (length (ba_to_insert (run_from b rs)) + length (ba_skipped (run_from b rs)) =
  length (ba_to_insert b) + length (ba_skipped b) + length rs)%nat.
Proof.
  revert b. induction rs as [|r rs IH]; intros b; cbn [foldl]; [simpl; lia|]. rewrite IH, migrate_record_step.
  destruct (asked_transaction r) as [e|t]; [|destruct (seen_in t (ba_seen b))]; simpl; rewrite length_app; simpl; lia.
Qed.

Definition table_ids_ok : Prop := map_Forall (λ _ i, i ≠ 0) (li_items info) ∧ map_Forall (λ _ i, i ≠ 0) (li_warehouses info).

Lemma asked_ids_ok r t : table_ids_ok → asked_transaction r = inr t → ids_ok t ∧ tr_created_by t = created_by.
Proof.
  intros [Hi Hw]. unfold asked_transaction, resolve. repeat case_match; try done. all: intros [= <-]; simplify_eq; split; [|done].
  all: split; simpl; intros E; [by apply (Hi _ _ E)|by apply (Hw _ _ E)].
Qed.

(** Two runs over the same records, the second after the first: what the first inserts
    in the end is [final]. *)
Record in_step (before : list Signature) (final : list Transaction) (b1 b2 : Batch) : Prop := {
  is_seen1 : ∀ t, seen_in t (ba_seen b1) = seen_in t (made_signature <$> ba_to_insert b1) || seen_in t before;
  is_seen2 : ∀ t, seen_in t (ba_seen b2) =
    seen_in t (made_signature <$> ba_to_insert b2) || (seen_in t before || seen_in t (read_signature <$> final));
  is_inserts : ba_to_insert b2 = List.filter inexact (ba_to_insert b1)
}.

Lemma seen_snoc t u l : seen_in t (made_signature <$> l ++ [u]) =
  same_signature (made_signature t) (made_signature u) || seen_in t (made_signature <$> l).
Proof. rewrite fmap_app, seen_app. simpl. unfold seen_in at 2. simpl. rewrite orb_false_r. apply orb_comm. Qed.

Lemma in_step_add before final b1 b2 t : in_step before final b1 b2 →
  in_step before final (mkBatch (ba_to_insert b1 ++ [t]) (made_signature t :: ba_seen b1) (ba_skipped b1))
    (if inexact t then mkBatch (ba_to_insert b2 ++ [t]) (made_signature t :: ba_seen b2) (ba_skipped b2) else b2).
Proof.
  intros [H1 H2 H3]. constructor; cbn [ba_to_insert ba_seen].
  - intros u. rewrite seen_snoc, <- orb_assoc, <- H1. done.
  - intros u. destruct (inexact t); [|apply H2]. cbn [ba_to_insert ba_seen]. rewrite seen_snoc, <- orb_assoc, <- H2. done.
  - rewrite List.filter_app, <- H3. simpl. destruct (inexact t); cbn [ba_to_insert]; [done|]. by rewrite app_nil_r.
Qed.
(** One record: the two batches stay in step. *)
Lemma in_step_record before final b1 b2 r : table_ids_ok → decimals before → Forall ids_ok final →
  in_step before final b1 b2 →
  (∃ l, final = ba_to_insert (migrate_record info created_by b1 r) ++ l) →
  in_step before final (migrate_record info created_by b1 r) (migrate_record info created_by b2 r).
Proof.
  intros Hids Hdec Hfin Hst [l Hl]. rewrite !migrate_record_step in *. destruct (asked_transaction r) as [e|t] eqn:Ht.
  { destruct Hst. by constructor. }
  destruct Hst as [H1 H2 H3]. pose proof (Hst := Build_in_step before final b1 b2 H1 H2 H3).
  destruct (exact (tr_qty t)) eqn:Hx.
  - (* a match among the inserts of the first run, or in the table before, is one in the table now *)
    assert (seen_in t (ba_seen b2) = true) as ->.
    { rewrite H2. destruct (seen_in t before) eqn:Hb; [by rewrite orb_true_l, orb_true_r|].
      rewrite H1, Hb, orb_false_r in Hl. rewrite !orb_false_l. apply orb_true_iff. right. apply seen_read; [done|]. split; [done|].
      destruct (seen_in t (made_signature <$> ba_to_insert b1)) eqn:Hm.
      - apply seen_made in Hm as (u & Hu & He). exists u. split; [|done]. rewrite Hl. simpl. apply elem_of_app. by left.
      - exists t. split; [|done]. rewrite Hl. simpl. rewrite !elem_of_app. left. right. by left. }
    destruct (seen_in t (ba_seen b1)); [by constructor|].
    pose proof (in_step_add before final b1 b2 t Hst) as [G1 G2 G3]. unfold inexact in *. rewrite Hx in *. simpl in *. by constructor.
  - assert (seen_in t before = false) as Hb.
    { destruct (seen_in t before) eqn:Hb; [|done]. apply seen_decimal in Hb; [congruence|done]. }
    assert (seen_in t (read_signature <$> final) = false) as Hr.
    { destruct (seen_in t (read_signature <$> final)) eqn:Hr; [|done]. apply seen_read in Hr as [? _]; [congruence|done]. }
    assert (seen_in t (made_signature <$> ba_to_insert b1) = seen_in t (made_signature <$> ba_to_insert b2)) as Hm.
    { apply eq_true_iff_eq. rewrite !seen_made, H3. split; intros (u & Hu & He); exists u; (split; [|done]).
      - apply list_elem_of_In, filter_In. split; [by apply list_elem_of_In|]. unfold inexact.
        injection He as _ _ Hq _ _. by rewrite <- Hq, Hx.
      - apply list_elem_of_In, filter_In in Hu as [Hu _]. by apply list_elem_of_In. }
    rewrite H1, H2, Hb, Hr, Hm, !orb_false_r. destruct (seen_in t (made_signature <$> ba_to_insert b2)); [by constructor|].
    pose proof (in_step_add before final b1 b2 t Hst) as G. unfold inexact in *. by rewrite Hx in G.
Qed.

Lemma in_step_run before final rs b1 b2 : table_ids_ok → decimals before → Forall ids_ok final →
  in_step before final b1 b2 → (∃ l, final = ba_to_insert (run_from b1 rs) ++ l) →
  in_step before final (run_from b1 rs) (run_from b2 rs).
Proof.
  intros Hids Hdec Hfin. revert b1 b2. induction rs as [|r rs IH]; intros b1 b2 Hst Hl; [done|]. cbn [foldl] in *.
  apply IH; [|done]. apply in_step_record; [done..|]. destruct Hl as [l ->].
  destruct (run_grows rs (migrate_record info created_by b1 r)) as [k ->]. exists (k ++ l). by rewrite app_assoc.
Qed.

(** What is inserted has the ids of the tables and the name of the run. *)
Lemma run_inserts rs b : table_ids_ok → Forall (λ t, ids_ok t ∧ tr_created_by t = created_by) (ba_to_insert b) →
  Forall (λ t, ids_ok t ∧ tr_created_by t = created_by) (ba_to_insert (run_from b rs)).
Proof.
  intros Hids. revert b. induction rs as [|r rs IH]; intros b Hb; [done|]. cbn [foldl]. apply IH.
  rewrite migrate_record_step. destruct (asked_transaction r) as [e|t] eqn:Ht; [done|].
  destruct (seen_in t (ba_seen b)); [done|]. apply Forall_app. split; [done|]. constructor; [|constructor].
  by eapply asked_ids_ok.
Qed.

Lemma existing_app table l pattern : get_existing_transactions like (table ++ l) pattern =
  get_existing_transactions like table pattern ++ get_existing_transactions like l pattern.
Proof. unfold get_existing_transactions. by rewrite List.filter_app, fmap_app. Qed.

Lemma own_existing l : like (created_by +:+ "%") created_by = true → Forall (λ t, tr_created_by t = created_by) l →
  get_existing_transactions like l (created_by +:+ "%") = read_signature <$> l.
Proof.
  intros Hlike Hl. unfold get_existing_transactions. f_equal. induction Hl as [|t l Ht Hl IH]; [done|]. simpl.
  by rewrite Ht, Hlike, IH.
Qed.

(** ** The SQL file *)

Lemma stored_itself t : stored_already t t = true.
Proof. unfold stored_already, same_id. by rewrite !bool_decide_true, !Z.eqb_refl. Qed.

Lemma insert_missing_keeps table t u : existsb (stored_already t) table = true →
  existsb (stored_already t) (insert_missing table u) = true.
Proof. unfold insert_missing. intros H. case_match; [done|]. by rewrite existsb_app, H. Qed.

Lemma insert_missing_has table t : existsb (stored_already t) (insert_missing table t) = true.
Proof. unfold insert_missing. case_match; [done|]. rewrite existsb_app. simpl. by rewrite stored_itself, orb_true_r. Qed.

Lemma inserted_stay l table t : existsb (stored_already t) table = true →
  existsb (stored_already t) (foldl insert_missing table l) = true.
Proof. revert table. induction l as [|u l IH]; intros table H; [done|]. simpl. by apply IH, insert_missing_keeps. Qed.

Lemma all_inserted l table t : t ∈ l → existsb (stored_already t) (foldl insert_missing table l) = true.
Proof.
  revert table. induction l as [|u l IH]; intros table; [by intros ?%elem_of_nil|]. rewrite elem_of_cons. simpl.
  intros [->|H]; [by apply inserted_stay, insert_missing_has|by apply IH].
Qed.

Lemma nothing_missing l table : (∀ t, t ∈ l → existsb (stored_already t) table = true) → foldl insert_missing table l = table.
Proof.
  induction l as [|t l IH]; intros H; [done|]. simpl. unfold insert_missing at 2. rewrite H by by left.
  apply IH. intros u Hu. apply H. by right.
Qed.

Lemma sql_twice records table : run_sql_migration records info created_by (run_sql_migration records info created_by table) =
  run_sql_migration records info created_by table.
Proof. unfold run_sql_migration. apply nothing_missing. intros t. apply all_inserted. Qed.

(** C25: A direct run inserts or skips each record, and appends what it inserts or, when
    the database refuses the batch, nothing.  Run again over the same records it
    inserts once more exactly those of its transactions whose quantity is not a
    multiple of a quarter, since the float of such a quantity never equals the decimal
    that is read back, and none of the others; so it does not keep its promise to
    prevent duplicates.  The SQL file keeps it: a second run of it changes nothing. *)
Theorem migration_repeats accepted records table table1 b :
  migrate_records like accepted records info created_by false table = (table1, Some b) →
  like (created_by +:+ "%") created_by = true → table_ids_ok →
  table1 = table ++ ba_to_insert b ∧
  (length (ba_to_insert b) + length (ba_skipped b) = length records)%nat ∧
  ba_to_insert (batch_of like records info created_by table1) = List.filter inexact (ba_to_insert b) ∧
  ∀ table', run_sql_migration records info created_by (run_sql_migration records info created_by table') =
            run_sql_migration records info created_by table'.
Proof.
  unfold migrate_records. case_match; [|done]. intros [= <- <-] Hlike Hids. split; [done|].
  pose proof (run_inserts records (mkBatch [] (get_existing_transactions like table (created_by +:+ "%")) []) Hids
    (Forall_nil_2 _)) as Hins. fold (batch_of like records info created_by table) in Hins. split_and!.
  - unfold batch_of. by rewrite run_counts.
  - unfold batch_of at 1. apply is_inserts with (before := get_existing_transactions like table (created_by +:+ "%"))
      (final := ba_to_insert (batch_of like records info created_by table)).
    apply in_step_run; [done| |by eapply Forall_impl; [exact Hins|naive_solver]| |by exists []; rewrite app_nil_r].
    + intros s. unfold get_existing_transactions. rewrite list_elem_of_fmap. intros (t & -> & _). by eexists.
    + constructor; cbn [ba_seen ba_to_insert]; [done| |done]. intros t. rewrite existing_app, seen_app.
      rewrite (own_existing (ba_to_insert _)); [done|done|]. eapply Forall_impl; [exact Hins|]. by intros t' [_ ?].
  - intros table'. apply sql_twice.
Qed.
End runs.

(** Ten hundredths of rice and a quarter, by the item and warehouse of the application;
    the pattern of the run ends in a percent sign. *)
Definition begins_with (pattern s : string) : bool :=
  bool_decide (removelast (chars pattern) `prefix_of` chars s).

Definition upc_info : LookupInfo :=
  get_lookup_tables_info (Some [(4, "Rice"%string)]) (Some [(9, "Up Park Camp (UPC)"%string)]).

Definition rice (qty : Z) : StagingRow :=
  mkStagingRow "rice " "UPC" (mkPyDate 2025 11 3) "R" qty (Some "Items Donated"%string) (Some 12) (Some "Donor: GOJ"%string).

Lemma migration_repeats_witness :
  let run := migrate_records begins_with (λ _, true) [rice 10; rice 25] upc_info "HADR_IMPORT" false in
  ∃ table1 b, run [] = (table1, Some b) ∧ tr_qty <$> table1 = [10; 25] ∧ tr_item_id <$> table1 = [Some 4; Some 4] ∧
    tr_notes <$> table1 = replicate 2 (Some "Date: 2025-11-03; Donor: GOJ; Source: Items Donated Row 12"%string) ∧
    tr_qty <$> ba_to_insert (batch_of begins_with [rice 10; rice 25] upc_info "HADR_IMPORT" table1) = [10].
Proof.
  cbv zeta. destruct (migrate_records begins_with (λ _, true) [rice 10; rice 25] upc_info "HADR_IMPORT" false []) as [table1 o] eqn:E.
  assert (o = (migrate_records begins_with (λ _, true) [rice 10; rice 25] upc_info "HADR_IMPORT" false []).2) as Ho by (by rewrite E).
  assert (table1 = (migrate_records begins_with (λ _, true) [rice 10; rice 25] upc_info "HADR_IMPORT" false []).1) as Ht by (by rewrite E).
  destruct o as [b|]; [|exfalso; revert Ho; vm_compute; discriminate]. exists table1, b. split; [done|].
  destruct (migration_repeats begins_with upc_info "HADR_IMPORT" (λ _, true) [rice 10; rice 25] [] table1 b E) as (_ & _ & H & _).
  - vm_compute. reflexivity.
  - split; apply map_Forall_to_list; vm_compute; repeat constructor; discriminate.
  - split_and!; [rewrite Ht; vm_compute; reflexivity..|]. rewrite H.
    assert (b = default b (migrate_records begins_with (λ _, true) [rice 10; rice 25] upc_info "HADR_IMPORT" false []).2) as -> by (by rewrite <- Ho).
    vm_compute. reflexivity.
Defined.

(** The SQL file looks the item up by its name as it is written: the rice has none. *)
Example sql_file_loses_item :
  tr_item_id <$> run_sql_migration [rice 25] upc_info "HADR_IMPORT" [] = [None].
Proof. vm_compute. reflexivity. Qed.
